(* ===== verification/_CoqProject ===== *)
-Q . S2P
Prelude.v
RustStr.v
Json.v
FileSystem.v
Bytes.v
HashValue.v
LegacyAddress.v
Event.v
LanguageStorage.v
MoveResource.v
Transactions.v
BTree.v
MoveTypes.v
Recovery.v
CommWallet.v
GenesisFunctions.v
Compare.v
WordList.v
Bits.v
Mnemonic.v
Wallet.v
ValidatorKeys.v
F64.v
NetworkPlaylist.v
Pledge.v
AppCfg.v
FolderNames.v
Supply.v
GenesisRegistration.v
GenesisVm.v
GenesisBuilder.v
RestoreBundle.v
Restore.v
ReadSnapshot.v
GasCoin.v
Percent.v
ReauthTally.v
Effects.v
Node.v
EntryCalls.v
Payloads.v
PayloadsV6.v
PayloadsV7.v
PayloadVersions.v
MoveEntries.v
ScriptCalls.v
ScriptsV50.v
ScriptsV52.v
ScriptVersions.v
TxSender.v
QueryCli.v
TxsCommunity.v
KeyRotation.v
TxsCommands.v
UpgradeProposal.v
RescueSession.v
Rescue.v
TxsStream.v
TxsCli.v
Dialog.v
FrameworkCli.v
ConfigFix.v
VendorConfig.v
VdfProof.v
NodeFiles.v
ConfigCli.v
GenesisWizard.v
StorageCli.v
WalletCli.v
Testnet.v
TwinNet.v
SwarmNet.v
MainCli.v
