(* ===== verification/Prelude.v ===== *)
(** * libra-framework: a verification development

    This library models the Rust tools around the libra chain (src/tools,
    src/types, src/compatibility, and of src/framework the call builder and the
    command line) and proves what makes them correct.  The
    files are listed in dependency order in _CoqProject; this one is the prelude
    they all require.

    ** The program and the files that model it

    The tools take an account from an old chain to a new one and then let its
    owner act on the chain.

    Reading the old chain (src/compatibility):
    - HashValue, LegacyAddress, Event, LanguageStorage, MoveResource and
      Transactions model version_five/: the data of the v5 database with its
      text and byte formats, the lookups in an account's state, and the backup
      manifests and chunks.  Each Rust type is a Record or an Inductive with the
      source's fields; each method is a Definition of the same name.
    - MoveTypes, BTree and Recovery model types/src/move_resource and
      legacy_recovery_v6.rs: the record an account is exported to and the
      cleaning of the list of records.

    - ScriptCalls, ScriptsV50, ScriptsV52 and ScriptVersions model the generated
      builders of scripts and script functions of two v5 releases
      (compatibility/src/sdk), and how one release reads the other.

    The genesis of the new chain (src/tools/genesis):
    - CommWallet (process_comm_wallet.rs), Supply (supply.rs) and Compare
      (compare.rs) compute over the recovery list: community wallets, supply
      statistics, and the audit of the database that was made.
    - GenesisFunctions (genesis_functions.rs) is the migration itself: a
      session of the Move VM is any state type, with the calls as transformers
      that may panic.  GenesisVm (vm.rs, genesis.rs, genesis_reader.rs) makes
      the change set of the genesis from two such sessions, bootstraps a
      database from it and reads it back.
    - GenesisRegistration and GenesisBuilder (genesis_registration.rs,
      genesis_builder.rs): the validators' registrations and the build of the
      genesis files over a file system.  GenesisWizard (wizard.rs, cli.rs) is
      the ceremony: the steps a validator or the coordinator is led through.

    Restoring a database (src/tools/storage): FolderNames, RestoreBundle,
    Restore and ReadSnapshot model the names of backup folders, the manifests
    of an archive, its decompression and restoration, and the readers of
    snapshots; StorageCli the download of an archive, the bootstrap of a
    database and the command line.

    Keys (src/tools/wallet): WordList, Bits and Mnemonic are the mnemonics;
    Wallet is the derivation of keys and the wallet; ValidatorKeys the key files
    of a validator; WalletCli the report of a key and the command line.

    Configuration (src/types/src/core_types, src/tools/config): F64,
    NetworkPlaylist, Pledge and AppCfg are the configuration file, its profiles,
    nodes, pledges and costs.  Dialog is a terminal: a history of questions,
    which any user may answer.  Over it, ConfigFix repairs and extends the
    configuration, NodeFiles writes the files of the nodes, and ConfigCli is
    the wizard and the command line.  VendorConfig is the configuration of the
    vendor's command line and the profile made in it (type_extensions,
    make_profile.rs); VdfProof the files of tower proofs (block.rs).

    Test networks (src/tools/testnet): Testnet sets up the personas, their files
    and their genesis in a directory; TwinNet makes a copy of a database run
    with them as its validators; SwarmNet does so to a swarm of running
    processes (twin_swarm.rs), their starts, stops and uses of a database being
    the events of its state.

    Talking to the chain (src/tools/query, src/tools/txs, src/framework):
    - Node is the client: every answer of the node is a function of the history
      of the requests made to it, so the theorems hold for every node.
    - EntryCalls, Payloads, PayloadsV6, PayloadsV7 and PayloadVersions model the
      generated builders of calls of three releases of the framework, and how
      their payloads read to one another.  MoveEntries has the entry functions
      as the Move sources declare them, against which the calls are typed.
    - TxSender is the sender of transactions (submit_transaction.rs), whose
      state is the local account with its sequence number; TxsCommunity,
      KeyRotation, TxsCommands and TxsStream are the commands; TxsCli is the
      command line that picks the key, the chain and the costs and runs one.
      KeyRotation also models the functions of account.move that the rotation
      transactions call, so that its theorems run the client's payload on the
      chain.  TxsStream is a step relation of two threads and a channel.
      Percent and ReauthTally are the report that TxsCommunity prints of a vote,
      with its percentages in binary64.
    - QueryCli is the query tool (query_type.rs, query_cli.rs): it asks the node
      and returns the JSON value that is printed.
    - UpgradeProposal models the builder of governance scripts
      (src/framework/src/builder): it makes the directories the governance
      commands of TxsCommands propose and resolve.  FrameworkCli is the command
      line of the framework: releases, governance scripts and the fixtures of
      upgrades (release.rs, framework_cli.rs, upgrade_fixtures).

    Rescuing a database at rest (src/tools/rescue): RescueSession models the
    sessions of the VM (session_tools.rs) as histories of requests, which any VM
    may answer; Rescue builds the transaction from one, or from the script
    UpgradeProposal compiles, and saves, checks and commits it.

    The command `libra` (src/tools/cli) is MainCli: which of the tools runs, and
    the status the process ends with.

    RustStr, Json, FileSystem, Bytes and Effects hold what is shared: the
    string functions, JSON values, the file system and bytes of the Rust
    standard library, and computations whose state survives an error.

    ** Conventions

    A fallible Rust function returns an [outcome]: [Ok], [Err] with the
    outermost message, or [Panic].  Stateful code is a function of its state: the
    [io] monad of FileSystem over the files, [st] of Effects over any state.  A
    machine integer is a [Z] with its wrap-around written out ([u64_add],
    [u16_wrap]); release builds wrap, and where debug builds panic the name says
    so.  A float is a value of the Standard Library's executable binary64.  A
    hash table whose order the code depends on is a list in that order, any
    order being allowed.

    Third-party code is a class whose operations are parameters and whose laws
    are its documented behaviour ([HexCrate], [DiemAddress], [Sha3],
    [WalletCrypto], [RotationCrypto], [AppCfgEnv], [RestNode], [TxSdk], [Bcs],
    and so on); each class has an instance, on which the witnesses evaluate.

    Loops that are not structural have fuel: the drain of a bit iterator in
    HashValue (its length and one), the decimal printer of RustStr (one unit a
    digit), the binary search of Mnemonic (the width of the slice and one) and
    its reader of full words, the ULEB lengths of LanguageStorage (one unit for
    seven bits), the generation of addresses in Wallet (one unit for each
    missing address and one to stop), the web addresses typed in ConfigFix (one
    unit for each answer the user will give, and one), and the search up the
    directories in VendorConfig (one unit for each component, and one).  Lemmas show that this is enough; all
    other recursion is structural.

    ** What the theorems show

    - Exactness: what a function returns on every branch, errors and panics
      included (the migration's calls and the genesis made of them, the audit,
      community wallets, the build of the genesis files, the batch of payments,
      the requests of a rescue session, the wizard of the configuration).  As
      lemmas: the files of a full node, the download of an archive.
    - Round trips: mnemonics, registrations, proof files; as a lemma, the calls
      of the framework.
    - Types: every call the builders make has the arguments its Move function
      declares.
    - Refinement and equivalence: supply statistics against integers; snapshot
      accounts against grouping by address; the rotation transaction against
      account.move; one release's decoder against another's builder; the report
      of a vote against one in whole hundredths.
    - Invariants and safety: what a loaded bundle guarantees, accounts distinct
      in the configuration, no account key in a validator's files, which files
      a command may write, what is asked of the network and of the user and
      when, one sequence number per transaction, everything a run submits
      signed on the chosen terms, only one trigger per poll in every
      interleaving, and no database touched while a process of a swarm runs.
    - Errors and bounds: where the key report, the twin testnet, the governance
      command, the vendor's profile and the bids fail; as a lemma, the depth to
      which type tags are read.
    - Termination and liveness: the entry of web addresses ends; polls are
      served.

    ** Not modelled

    The parsing of arguments, printing and progress bars; the Move compiler and
    VM, git, HTTP and the diem database and backup controllers beyond their
    interfaces; the making of a release from its options, and of a swarm of
    nodes, by the vendor's crates, with the command that keeps one running and the
    smoke tests over it; the deprecated formats and other files no module
    declares; the JSON views of v5 transactions, which are records of derived
    serde code; of the Move framework, all but the functions of KeyRotation and
    the signatures of MoveEntries. *)
From Stdlib Require Import ZArith Lia Ascii.
From stdpp Require Import base option list strings.

Open Scope Z_scope.

(** stdpp blocks the reduction of string append; the string lemmas need it. *)
#[global] Arguments String.append !s1 s2 / : simpl nomatch, assert.
#[global] Arguments Nat.div : simpl never.
#[global] Arguments Nat.modulo : simpl never.

(** ** Outcomes of fallible Rust code

    [anyhow::Result] is [Ok]/[Err] with the outermost message of the error
    chain; [Panic] is an [assert!], [unwrap], [expect] or out-of-range index
    (the release profile builds with [panic = 'abort']). *)
Inductive outcome (A : Type) : Type :=
| Ok (a : A)
| Err (e : string)
| Panic (msg : string).

Arguments Ok {A} a.
Arguments Err {A} e.
Arguments Panic {A} msg.

#[export] Instance outcome_ret : MRet outcome := @Ok.
#[export] Instance outcome_bind : MBind outcome := fun A B f m =>
  match m with Ok a => f a | Err e => Err e | Panic p => Panic p end.
#[export] Instance outcome_fmap : FMap outcome := fun A B f m =>
  match m with Ok a => Ok (f a) | Err e => Err e | Panic p => Panic p end.

#[export] Instance outcome_eq_dec `{EqDecision A} : EqDecision (outcome A).
Proof. solve_decision. Defined.

Definition is_ok {A} (m : outcome A) : bool :=
  match m with Ok _ => true | _ => false end.
Definition is_err {A} (m : outcome A) : bool :=
  match m with Err _ => true | _ => false end.

(** [anyhow::Context::context] on an [Option]; [bail!]; [ensure!]; [assert!];
    [Option::unwrap]/[expect]. *)
Definition context_opt {A} (msg : string) (o : option A) : outcome A :=
  match o with Some a => Ok a | None => Err msg end.
Definition context_res {A} (msg : string) (m : outcome A) : outcome A :=
  match m with Err _ => Err msg | _ => m end.
Definition ensure (b : bool) (msg : string) : outcome unit :=
  if b then Ok tt else Err msg.
Definition rust_assert (b : bool) (msg : string) : outcome unit :=
  if b then Ok tt else Panic msg.
Definition expect_opt {A} (msg : string) (o : option A) : outcome A :=
  match o with Some a => Ok a | None => Panic msg end.
(** [Result::unwrap] / [expect] *)
Definition expect_res {A} (msg : string) (m : outcome A) : outcome A :=
  match m with Err _ => Panic msg | _ => m end.
(** [Result::unwrap_or]: a panic is not an error value and is not recovered *)
Definition unwrap_or {A} (d : A) (m : outcome A) : outcome A :=
  match m with Err _ => Ok d | _ => m end.
(** [Result::ok] *)
Definition res_ok {A} (m : outcome A) : outcome (option A) :=
  match m with Ok a => Ok (Some a) | Err _ => Ok None | Panic p => Panic p end.
(** ["match r { Ok(_) => {}, Err(_) => {} }"]: an error is swallowed. *)
Definition swallow (m : outcome unit) : outcome unit :=
  match m with Panic p => Panic p | _ => Ok tt end.

(** ** Lemmas on outcomes *)
Lemma bind_ok {A B} (m : outcome A) (f : A → outcome B) (b : B) :
  m ≫= f = Ok b ↔ ∃ a, m = Ok a ∧ f a = Ok b.
Proof. destruct m; cbn; naive_solver. Qed.

Lemma Ok_inj {A} (a b : A) : Ok a = Ok b → a = b.
Proof. by intros [= ->]. Qed.

Lemma fmap_ok {A B} (m : outcome A) (f : A → B) (b : B) :
  f <$> m = Ok b ↔ ∃ a, m = Ok a ∧ f a = b.
Proof. destruct m; cbn; naive_solver. Qed.

Lemma context_opt_ok {A} msg (o : option A) a :
  context_opt msg o = Ok a ↔ o = Some a.
Proof. destruct o; cbn; naive_solver. Qed.
Lemma context_res_ok {A} msg (m : outcome A) a : context_res msg m = Ok a → m = Ok a.
Proof. by destruct m. Qed.

Lemma ensure_ok b msg : ensure b msg = Ok tt ↔ b = true.
Proof. destruct b; cbn; naive_solver. Qed.

Lemma is_ok_spec {A} (m : outcome A) : is_ok m = true ↔ ∃ a, m = Ok a.
Proof. destruct m; cbn; naive_solver. Qed.

(** Inverts a hypothesis that a computation in the outcome monad returns. *)
Ltac inv_ok :=
  repeat match goal with
  | H : _ ≫= _ = Ok _ |- _ => apply bind_ok in H as (? & ? & ?)
  | H : _ <$> _ = Ok _ |- _ => apply fmap_ok in H as (? & ? & ?)
  | H : context_opt _ _ = Ok _ |- _ => apply context_opt_ok in H
  | H : ensure _ _ = Ok _ |- _ => apply ensure_ok in H
  | H : @mret outcome _ _ _ = _ |- _ => unfold mret, outcome_ret in H
  | H : Ok _ = Ok _ |- _ => injection H as H; try subst
  | H : Err _ = Ok _ |- _ => discriminate H
  | H : Panic _ = Ok _ |- _ => discriminate H
  | H : unit |- _ => destruct H
  end.

(** ** Machine integers

    An unsigned integer is a [Z] in range; arithmetic wraps, which is what the
    release profile (no [overflow-checks] in Cargo.toml) compiles to. *)
Definition u8_max : Z := 255.
Definition u16_max : Z := 65535.
Definition u64_max : Z := 18446744073709551615.
Definition is_u8 (z : Z) : Prop := 0 ≤ z < 256.
Definition is_u64 (z : Z) : Prop := 0 ≤ z ≤ u64_max.
Definition u8_wrap (z : Z) : Z := z mod 256.
Definition u16_wrap (z : Z) : Z := z mod 65536.
Definition u64_wrap (z : Z) : Z := z mod (u64_max + 1).
Definition u64_add (a b : Z) : Z := u64_wrap (a + b).
Definition u64_sub (a b : Z) : Z := u64_wrap (a - b).
Definition u64_mul (a b : Z) : Z := u64_wrap (a * b).

#[export] Instance is_u8_dec z : Decision (is_u8 z).
Proof. unfold is_u8. apply _. Defined.
#[export] Instance is_u64_dec z : Decision (is_u64 z).
Proof. unfold is_u64. apply _. Defined.

Lemma u64_wrap_small z : is_u64 z → u64_wrap z = z.
Proof. unfold is_u64, u64_wrap, u64_max. intros. apply Z.mod_small. lia. Qed.

Lemma u64_wrap_range z : is_u64 (u64_wrap z).
Proof.
  unfold is_u64, u64_wrap, u64_max.
  pose proof (Z.mod_pos_bound z (18446744073709551615 + 1)). lia.
Qed.

Lemma u64_add_small a b : 0 ≤ a → 0 ≤ b → a + b ≤ u64_max → u64_add a b = a + b.
Proof. intros. apply u64_wrap_small. unfold is_u64. lia. Qed.

Lemma u64_add_range a b : is_u64 (u64_add a b).
Proof. apply u64_wrap_range. Qed.

(** ** Hints shared by the components *)
Create HintDb libra.
#[export] Hint Resolve u64_wrap_range u64_add_range : libra.
#[export] Hint Extern 1 (is_u64 _) => unfold is_u64, u64_max in *; lia : libra.
#[export] Hint Extern 1 (is_u8 _) => unfold is_u8 in *; lia : libra.

(** ** Generic list lemmas *)
Lemma firstn_app_exact {A} (l k : list A) n :
  n = length l → take n (l ++ k) = l.
Proof. intros ->. apply take_app_length. Qed.

Lemma skipn_app_exact {A} (l k : list A) n :
  n = length l → drop n (l ++ k) = k.
Proof. intros ->. apply drop_app_length. Qed.

Lemma Forall_repeat {A} (P : A → Prop) x n : P x → Forall P (repeat x n).
Proof. intros H. induction n; cbn; constructor; done. Qed.

(** A property checked on all numbers below a bound holds of each of them. *)
Lemma forall_below (P : Z → bool) (n : nat) :
  forallb P (Z.of_nat <$> seq 0 n) = true →
  ∀ z, 0 ≤ z < Z.of_nat n → P z = true.
Proof.
  intros H z Hz. rewrite forallb_forall in H. apply H.
  apply list_elem_of_In, list_elem_of_fmap.
  exists (Z.to_nat z). split; [lia|]. apply elem_of_seq. lia.
Qed.
