(* ===== verification/RustStr.v ===== *)
(** * Rust standard library string functions

    [str] as byte strings: prefix, suffix, substring, [split], slicing,
    [u64::from_str], decimal [Display], with the lemmas the components use.
    Slices are by byte index; a slice out of range panics, as in Rust. *)
From Stdlib Require Import ZArith Lia Ascii.
From stdpp Require Import base option list strings.
From S2P Require Import Prelude.

Open Scope Z_scope.

(** [str::strip_prefix], [starts_with], [contains] *)
Fixpoint strip_prefix (p s : string) : option string :=
  match p, s with
  | EmptyString, _ => Some s
  | String a p', String b s' => if Ascii.eqb a b then strip_prefix p' s' else None
  | String _ _, EmptyString => None
  end.

Definition starts_with (p s : string) : bool :=
  match strip_prefix p s with Some _ => true | None => false end.

Fixpoint contains (p s : string) : bool :=
  starts_with p s ||
  match s with EmptyString => false | String _ s' => contains p s' end.

(** [str::strip_suffix], [ends_with] *)
Fixpoint strip_suffix (p s : string) : option string :=
  if String.eqb p s then Some EmptyString else
  match s with
  | EmptyString => None
  | String c s' => match strip_suffix p s' with Some r => Some (String c r) | None => None end
  end.

Definition ends_with (p s : string) : bool :=
  match strip_suffix p s with Some _ => true | None => false end.

(** [str::split] on a character predicate: always at least one piece. *)
Fixpoint split_pred (f : ascii → bool) (s : string) : list string :=
  match s with
  | EmptyString => [EmptyString]
  | String c s' =>
      if f c then EmptyString :: split_pred f s'
      else match split_pred f s' with
           | [] => [String c EmptyString]
           | w :: ws => String c w :: ws
           end
  end.

Definition split_char (c : ascii) : string → list string := split_pred (Ascii.eqb c).

(** [str::split] on a non-empty string pattern; [skip] counts the bytes of a
    match still to be passed over. *)
Fixpoint split_str_go (p s : string) (skip : nat) : list string :=
  match s with
  | EmptyString => [EmptyString]
  | String c s' =>
      match skip with
      | S k => split_str_go p s' k
      | O => if starts_with p s
             then EmptyString :: split_str_go p s' (String.length p - 1)
             else match split_str_go p s' 0 with
                  | [] => [String c EmptyString]
                  | w :: ws => String c w :: ws
                  end
      end
  end.

Definition split_str (p s : string) : list string := split_str_go p s 0.

(** [<[String]>::join] *)
Fixpoint join (sep : string) (ws : list string) : string :=
  match ws with
  | [] => EmptyString
  | [w] => w
  | w :: ws' => w +:+ sep +:+ join sep ws'
  end.

(** [trim_start_matches(c)] *)
Fixpoint trim_start_matches (c : ascii) (s : string) : string :=
  match s with
  | String a s' => if Ascii.eqb c a then trim_start_matches c s' else s
  | EmptyString => EmptyString
  end.

(** [char::is_whitespace] on ASCII *)
Definition is_ws (c : ascii) : bool :=
  let n := Ascii.nat_of_ascii c in
  (n =? 32)%nat || ((9 <=? n)%nat && (n <=? 13)%nat).

Fixpoint trim_start (s : string) : string :=
  match s with
  | String a s' => if is_ws a then trim_start s' else s
  | EmptyString => EmptyString
  end.

(** [str::trim_end]: drops a blank tail *)
Fixpoint trim_end (s : string) : string :=
  match s with
  | EmptyString => EmptyString
  | String a s' =>
      match trim_end s' with
      | EmptyString => if is_ws a then EmptyString else String a EmptyString
      | r => String a r
      end
  end.

Definition trim (s : string) : string := trim_end (trim_start s).

(** [&s[n..]] and [&s[a..b]] *)
Definition slice_from (n : nat) (s : string) : outcome string :=
  if (n <=? String.length s)%nat
  then Ok (String.substring n (String.length s - n) s)
  else Panic "byte index out of bounds".

Definition slice (a b : nat) (s : string) : outcome string :=
  if ((a <=? b) && (b <=? String.length s))%nat
  then Ok (String.substring a (b - a) s)
  else Panic "byte index out of bounds".

(** [u64::from_str] *)
Definition digit_val (c : ascii) : option Z :=
  let n := Z.of_nat (Ascii.nat_of_ascii c) in
  if (48 <=? n) && (n <=? 57) then Some (n - 48) else None.

Fixpoint parse_digits (max acc : Z) (s : string) : outcome Z :=
  match s with
  | EmptyString => Ok acc
  | String c s' =>
      match digit_val c with
      | None => Err "invalid digit found in string"
      | Some d =>
          let acc' := acc * 10 + d in
          if acc' <=? max then parse_digits max acc' s'
          else Err "number too large to fit in target type"
      end
  end.

Definition parse_uint (max : Z) (s : string) : outcome Z :=
  match s with
  | EmptyString => Err "cannot parse integer from empty string"
  | String c s' =>
      if Ascii.eqb c "+"%char then
        match s' with
        | EmptyString => Err "invalid digit found in string"
        | _ => parse_digits max 0 s'
        end
      else parse_digits max 0 s
  end.

Definition parse_u64 : string → outcome Z := parse_uint u64_max.

(** [Display] of an unsigned integer; 40 digits hold every [u128]. *)
Definition digit_char (d : Z) : ascii := Ascii.ascii_of_nat (Z.to_nat (48 + d)).

Fixpoint show_go (fuel : nat) (n : Z) (acc : string) : string :=
  let acc' := String (digit_char (n mod 10)) acc in
  match fuel with
  | O => acc'
  | S f => if n <? 10 then acc' else show_go f (n / 10) acc'
  end.

Definition show_uint (n : Z) : string := show_go 39 n EmptyString.

(** [std::path::Path]: a path is its components, the last the file name. *)
Notation path := (list string).
Definition parent (p : path) : option path :=
  match p with [] => None | _ => Some (take (length p - 1) p) end.
Definition path_join (p : path) (name : string) : path := p ++ [name].

(** ** Lemmas *)
Lemma str_app_nil_r (s : string) : s +:+ EmptyString = s.
Proof. induction s as [|c s IH]; cbn; [done|]. by rewrite IH. Qed.

Lemma str_app_assoc (a b c : string) : (a +:+ b) +:+ c = a +:+ (b +:+ c).
Proof. induction a as [|x a IH]; cbn; [done|]. by rewrite IH. Qed.

Lemma str_app_length (a b : string) :
  String.length (a +:+ b) = (String.length a + String.length b)%nat.
Proof. induction a as [|x a IH]; cbn; [done|]. by rewrite IH. Qed.

Lemma str_app_inv_head (a b c : string) : a +:+ b = a +:+ c → b = c.
Proof. induction a as [|x a IH]; cbn; [done|]. injection 1. done. Qed.

Lemma strip_prefix_spec p s r : strip_prefix p s = Some r ↔ s = p +:+ r.
Proof.
  revert s. induction p as [|a p IH]; intros s; cbn.
  - naive_solver.
  - destruct s as [|b s]; cbn; [naive_solver|].
    destruct (Ascii.eqb_spec a b) as [->|Hne].
    + rewrite IH. naive_solver.
    + naive_solver.
Qed.

Lemma strip_prefix_app p r : strip_prefix p (p +:+ r) = Some r.
Proof. by apply strip_prefix_spec. Qed.

Lemma starts_with_spec p s : starts_with p s = true ↔ ∃ r, s = p +:+ r.
Proof.
  unfold starts_with. destruct (strip_prefix p s) as [r|] eqn:E.
  - apply strip_prefix_spec in E. naive_solver.
  - split; [done|]. intros [r Hr]. apply strip_prefix_spec in Hr. congruence.
Qed.

Lemma contains_spec p s : contains p s = true ↔ ∃ a b, s = a +:+ p +:+ b.
Proof.
  induction s as [|c s IH]; cbn.
  - rewrite orb_false_r, starts_with_spec. split.
    + intros [r Hr]. by exists EmptyString, r.
    + intros (a & b & H). destruct a; cbn in H; [by exists b|done].
  - rewrite orb_true_iff, starts_with_spec, IH. split.
    + intros [[r Hr]|(a & b & ->)]; [by exists EmptyString, r|].
      by exists (String c a), b.
    + intros (a & b & H). destruct a as [|x a]; cbn in H; [left; by exists b|].
      right. injection H as -> ->. by exists a, b.
Qed.

Lemma strip_suffix_app r p : strip_suffix p (r +:+ p) = Some r.
Proof.
  induction r as [|c r IH]; cbn.
  - destruct p; cbn; [done|]. by rewrite Ascii.eqb_refl, String.eqb_refl.
  - rewrite IH. destruct (String.eqb_spec p (String c (r +:+ p))) as [E|]; [|done].
    exfalso. apply (f_equal String.length) in E. cbn in E.
    rewrite str_app_length in E. lia.
Qed.

Lemma strip_suffix_sound p s r : strip_suffix p s = Some r → s = r +:+ p.
Proof.
  revert r. induction s as [|c s IH]; intros r; cbn.
  - destruct (String.eqb_spec p EmptyString) as [->|_]; [by injection 1 as <-|done].
  - destruct (String.eqb_spec p (String c s)) as [->|_]; [by injection 1 as <-|].
    destruct (strip_suffix p s) as [r'|]; [|done].
    injection 1 as <-. cbn. by rewrite <- (IH r').
Qed.

Lemma substring_0_length s : String.substring 0 (String.length s) s = s.
Proof. induction s as [|c s IH]; cbn; [done|]. by rewrite IH. Qed.

Lemma substring_app_drop a b n :
  String.substring (String.length a) n (a +:+ b) = String.substring 0 n b.
Proof. induction a as [|c a IH]; cbn; [done|]. apply IH. Qed.

Lemma substring_length s a n :
  (a + n ≤ String.length s)%nat → String.length (String.substring a n s) = n.
Proof.
  revert a n. induction s as [|c s IH]; intros [|a] [|n]; cbn; intros; try done; try lia.
  - f_equal. apply IH. lia.
  - apply IH. lia.
  - apply IH. lia.
Qed.

Lemma slice_from_app a b n : n = String.length a → slice_from n (a +:+ b) = Ok b.
Proof.
  intros ->. unfold slice_from. rewrite str_app_length.
  destruct (Nat.leb_spec (String.length a) (String.length a + String.length b)); [|lia].
  rewrite substring_app_drop, Nat.add_comm, Nat.add_sub, substring_0_length. done.
Qed.

(** A string none of whose bytes satisfies [f] *)
Fixpoint no_char (f : ascii → bool) (s : string) : bool :=
  match s with
  | EmptyString => true
  | String c s' => negb (f c) && no_char f s'
  end.

Lemma split_pred_no_char f s : no_char f s = true → split_pred f s = [s].
Proof.
  induction s as [|c s IH]; cbn; [done|].
  intros [Hc Hs]%andb_true_iff. apply negb_true_iff in Hc.
  by rewrite Hc, IH.
Qed.

Lemma split_pred_cons f w c s :
  no_char f w = true → f c = true →
  split_pred f (w +:+ String c s) = w :: split_pred f s.
Proof.
  intros Hw Hc. induction w as [|x w IH]; cbn.
  - by rewrite Hc.
  - cbn in Hw. apply andb_true_iff in Hw as [Hx Hw]. apply negb_true_iff in Hx.
    by rewrite Hx, IH.
Qed.

Lemma split_join c ws :
  ws ≠ [] → Forall (fun w => no_char (Ascii.eqb c) w = true) ws →
  split_char c (join (String c EmptyString) ws) = ws.
Proof.
  intros Hne H. unfold split_char. induction ws as [|w ws IH]; [done|].
  apply Forall_cons in H as [Hw Hws]. destruct ws as [|w' ws].
  - by apply split_pred_no_char.
  - change (join _ (w :: w' :: ws))
      with (w +:+ String c (join (String c EmptyString) (w' :: ws))).
    rewrite split_pred_cons; [|done|apply Ascii.eqb_refl].
    f_equal. by apply IH.
Qed.

(** ** Decimal round trip *)
Lemma split_pred_not_nil f s : split_pred f s ≠ [].
Proof. destruct s as [|c s]; cbn; [done|]. destruct (f c); [done|]. by destruct (split_pred f s). Qed.

(** Splitting loses nothing. *)
Lemma join_split c s : join (String c EmptyString) (split_char c s) = s.
Proof.
  unfold split_char. induction s as [|a s IH]; cbn [split_pred]; [done|].
  pose proof (split_pred_not_nil (Ascii.eqb c) s) as Hn.
  destruct (Ascii.eqb_spec c a) as [->|Hne]; destruct (split_pred _ s) as [|w ws]; try done.
  - rewrite <- IH. done.
  - rewrite <- IH. destruct ws; done.
Qed.

Definition is_digit (c : ascii) : bool :=
  match digit_val c with Some _ => true | None => false end.

Lemma digit_val_char d : 0 ≤ d < 10 → digit_val (digit_char d) = Some d.
Proof.
  intros H. assert (d = 0 ∨ d = 1 ∨ d = 2 ∨ d = 3 ∨ d = 4 ∨ d = 5 ∨ d = 6 ∨ d = 7
                    ∨ d = 8 ∨ d = 9) by lia.
  by destruct_or!; subst.
Qed.

Lemma parse_digits_step max acc d s :
  0 ≤ d < 10 → acc * 10 + d ≤ max →
  parse_digits max acc (String (digit_char d) s) = parse_digits max (acc * 10 + d) s.
Proof.
  intros Hd Hm. cbn [parse_digits]. rewrite digit_val_char by done. cbv zeta.
  by rewrite (proj2 (Z.leb_le _ _) Hm).
Qed.

Lemma parse_show_go max f n tail :
  0 ≤ n ≤ max → n < 10 ^ (Z.of_nat f + 1) →
  parse_digits max 0 (show_go f n tail) = parse_digits max n tail.
Proof.
  revert n tail. induction f as [|f IH]; intros n tail Hn Hf; cbn [show_go].
  - change (10 ^ (Z.of_nat 0 + 1)) with 10 in Hf.
    rewrite Z.mod_small by lia. rewrite parse_digits_step by lia. done.
  - pose proof (Z.mod_pos_bound n 10). pose proof (Z.div_mod n 10).
    destruct (Z.ltb_spec n 10).
    + rewrite Z.mod_small by lia. rewrite parse_digits_step by lia. done.
    + rewrite IH, parse_digits_step; [f_equal; lia|lia|lia| |].
      * pose proof (Z.div_pos n 10). lia.
      * replace (Z.of_nat (S f) + 1) with ((Z.of_nat f + 1) + 1) in Hf by lia.
        rewrite Z.pow_add_r in Hf by lia. apply Z.div_lt_upper_bound; lia.
Qed.

Lemma show_go_digits f n tail :
  0 ≤ n → ∃ c s, is_digit c = true ∧ no_char (fun c => negb (is_digit c)) s = true ∧
                 show_go f n tail = String c s +:+ tail.
Proof.
  assert (Hd : ∀ m, is_digit (digit_char (m mod 10)) = true).
  { intros m. unfold is_digit. rewrite digit_val_char; [done|].
    pose proof (Z.mod_pos_bound m 10). lia. }
  revert n tail. induction f as [|f IH]; intros n tail Hn; cbn [show_go].
  - exists (digit_char (n mod 10)), EmptyString. by rewrite Hd.
  - destruct (n <? 10) eqn:E.
    + exists (digit_char (n mod 10)), EmptyString. by rewrite Hd.
    + destruct (IH (n / 10) (String (digit_char (n mod 10)) tail)) as (c & s & H1 & H2 & H3).
      { apply Z.div_pos; lia. }
      exists c, (s +:+ String (digit_char (n mod 10)) EmptyString).
      split; [done|]. split.
      * clear -H2 Hd. induction s as [|x s IH]; cbn.
        { by rewrite Hd. }
        cbn in H2. apply andb_true_iff in H2 as [-> H2]. by apply IH.
      * rewrite H3. cbn. f_equal. by rewrite str_app_assoc.
Qed.

(** [to_string] then [parse] is the identity on integers in range. *)
Lemma parse_uint_show max n :
  0 ≤ n ≤ max → max < 10 ^ 40 → parse_uint max (show_uint n) = Ok n.
Proof.
  intros Hn Hmax. unfold show_uint.
  destruct (show_go_digits 39 n EmptyString) as (c & s & Hc & _ & Hs); [lia|].
  assert (Hplus : Ascii.eqb c "+"%char = false).
  { apply Ascii.eqb_neq. intros ->. done. }
  pose proof (parse_show_go max 39 n EmptyString Hn) as Hp.
  rewrite Hs in Hp |- *. cbn in *. rewrite Hplus. apply Hp. lia.
Qed.

Lemma parse_u64_show n : is_u64 n → parse_u64 (show_uint n) = Ok n.
Proof. intros H. apply parse_uint_show; unfold is_u64, u64_max in *; lia. Qed.

Lemma show_uint_no_char f n :
  0 ≤ n → (∀ c, is_digit c = true → f c = false) → no_char f (show_uint n) = true.
Proof.
  intros Hn Hf. unfold show_uint.
  destruct (show_go_digits 39 n EmptyString) as (c & s & Hc & Hs & ->); [done|].
  rewrite str_app_nil_r. cbn. rewrite Hf by done. cbn.
  clear -Hs Hf. induction s as [|x s IH]; cbn in *; [done|].
  apply andb_true_iff in Hs as [Hx Hs]. rewrite negb_involutive in Hx.
  rewrite Hf by done. by apply IH.
Qed.

Lemma parse_digits_range max acc s n :
  0 ≤ acc ≤ max → parse_digits max acc s = Ok n → 0 ≤ n ≤ max.
Proof.
  revert acc. induction s as [|c s IH]; intros acc Ha; cbn.
  - injection 1 as <-. lia.
  - destruct (digit_val c) as [d|] eqn:E; [|done].
    destruct (Z.leb_spec (acc * 10 + d) max); [|done].
    apply IH. unfold digit_val in E. case_match; [|done]. simplify_eq. lia.
Qed.

Lemma parse_uint_range max s n : 0 ≤ max → parse_uint max s = Ok n → 0 ≤ n ≤ max.
Proof.
  intros Hm. unfold parse_uint. destruct s as [|c s]; [done|].
  destruct (Ascii.eqb c "+"%char); [destruct s; [done|]|];
    apply parse_digits_range; lia.
Qed.

#[export] Hint Rewrite str_app_nil_r str_app_assoc str_app_length : rstr.
