(* ===== verification/Json.v ===== *)
(** * JSON values

    [serde_json::Value] with the accessors and the [from_value] conversions the
    code uses. *)
From Stdlib Require Import ZArith Lia.
From stdpp Require Import base option list strings.
From S2P Require Import Prelude RustStr.

Open Scope list_scope.
Open Scope Z_scope.

(** An object's keys are distinct; a number is its text. *)
Inductive json :=
| JNull
| JBool (b : bool)
| JNumber (n : string)
| JString (s : string)
| JArray (l : list json)
| JObject (l : list (string * json)).

(** A value without its strings *)
Fixpoint json_skeleton (v : json) : json :=
  match v with
  | JString _ => JString EmptyString
  | JArray l => JArray (json_skeleton <$> l)
  | JObject l => JObject ((fun kv => (kv.1, json_skeleton kv.2)) <$> l)
  | _ => v
  end.

Definition as_array (v : json) : option (list json) := match v with JArray l => Some l | _ => None end.
Definition as_object (v : json) : option (list (string * json)) := match v with JObject l => Some l | _ => None end.
Definition as_str (v : json) : option string := match v with JString s => Some s | _ => None end.
Definition as_bool (v : json) : option bool := match v with JBool b => Some b | _ => None end.
(** [Map::get] *)
Definition obj_get (key : string) (l : list (string * json)) : option json :=
  (fun e => snd (snd e)) <$> list_find (fun kv => fst kv = key) l.

(** [serde_json::from_value] at [String], [bool] and vectors of them *)
Definition string_from_value (v : json) : outcome string :=
  match v with JString s => Ok s | _ => Err "invalid type: expected a string" end.
Definition bool_from_value (v : json) : outcome bool :=
  match v with JBool b => Ok b | _ => Err "invalid type: expected a boolean" end.
Definition vec_from_value {A} (f : json → outcome A) (v : json) : outcome (list A) :=
  match v with JArray l => mapM f l | _ => Err "invalid type: expected a sequence" end.
