(* ===== verification/FileSystem.v ===== *)
(** * The file system

    What the code uses of [std::fs]: paths mapped to text files and
    directories, with the errors of the calls made. *)
From Stdlib Require Import ZArith Lia.
From stdpp Require Import base option list strings gmap.
From S2P Require Import Prelude RustStr.

Open Scope list_scope.
Open Scope Z_scope.

Inductive node := File (content : string) | Dir.
Notation file_system := (gmap (list string) node).

Definition is_file (p : path) (fs : file_system) : bool :=
  match fs !! p with Some (File _) => true | _ => false end.
Definition is_dir (p : path) (fs : file_system) : bool :=
  match fs !! p with Some Dir => true | _ => false end.
Definition exists_ (p : path) (fs : file_system) : bool := bool_decide (is_Some (fs !! p)).

(** [File::create] fails on a directory and without the parent directory. *)
Definition file_create (p : path) (fs : file_system) : outcome file_system :=
  if is_dir p fs then Err "Is a directory" else
  match parent p with
  | Some d => if is_dir d fs then Ok (<[p := File EmptyString]> fs) else Err "No such file or directory"
  | None => Err "Is a directory"
  end.
(** [write_all] to a file just created *)
Definition write_all (p : path) (s : string) (fs : file_system) : file_system := <[p := File s]> fs.

Definition read_to_string (p : path) (fs : file_system) : outcome string :=
  match fs !! p with
  | Some (File s) => Ok s
  | Some Dir => Err "Is a directory"
  | None => Err "No such file or directory"
  end.

(** [create_dir_all]: the directories of the path from the root on *)
Definition make_dir (r : outcome file_system) (p : path) : outcome file_system :=
  fs ← r;
  match fs !! p with
  | Some Dir => Ok fs
  | Some (File _) => Err "Not a directory"
  | None => Ok (<[p := Dir]> fs)
  end.
Definition create_dir_all (p : path) (fs : file_system) : outcome file_system :=
  foldl make_dir (Ok fs) ((fun k => take k p) <$> seq 0 (S (length p))).

(** ** Calls that leave their effects behind

    A function on the file system that may fail after writing: the system as it
    is left, and the result. *)
Definition io (A : Type) : Type := file_system → file_system * outcome A.
Definition io_lift {A} (m : outcome A) : io A := fun fs => (fs, m).
#[export] Instance io_ret : MRet io := fun A a => io_lift (Ok a).
#[export] Instance io_bind : MBind io := fun A B f m fs =>
  match m fs with
  | (fs', Ok a) => f a fs'
  | (fs', Err e) => (fs', Err e)
  | (fs', Panic p) => (fs', Panic p)
  end.
Definition io_read {A} (f : file_system → outcome A) : io A := fun fs => (fs, f fs).
Definition io_update (f : file_system → outcome file_system) : io unit := fun fs =>
  match f fs with Ok fs' => (fs', Ok tt) | Err e => (fs, Err e) | Panic p => (fs, Panic p) end.

(** A change of the result alone: [map_err], [unwrap], [context] *)
Definition io_result {A B} (f : outcome A → outcome B) (m : io A) : io B := fun fs =>
  let '(fs', r) := m fs in (fs', f r).
Definition io_unwrap {A} : io A → io A := io_result (expect_res "called `Result::unwrap()` on an `Err` value").

(** [fs::write], and opening with [write], [create] and [truncate] *)
Definition io_write (p : path) (s : string) : io unit :=
  io_update (fun fs => fs' ← file_create p fs; Ok (write_all p s fs')).

(** ** Lemmas *)
Lemma read_write_all p s fs : read_to_string p (write_all p s fs) = Ok s.
Proof. unfold read_to_string, write_all. by rewrite lookup_insert, decide_True. Qed.

Lemma write_all_ne p q s fs : q ≠ p → write_all p s fs !! q = fs !! q.
Proof. intros Hq. unfold write_all. by rewrite lookup_insert_ne. Qed.

Lemma file_create_ok p fs fs' :
  file_create p fs = Ok fs' → fs' = <[p := File EmptyString]> fs ∧ fs !! p ≠ Some Dir.
Proof.
  unfold file_create. destruct (is_dir p fs) eqn:E; [done|]. destruct (parent p) as [d|]; [|done].
  destruct (is_dir d fs); [|done]. intros <-%Ok_inj. split; [done|]. intros Hd.
  unfold is_dir in E. by rewrite Hd in E.
Qed.

(** Creating a file and writing it: the file has the text, every other path is
    as before. *)
Lemma create_write_ok p s fs fs' :
  file_create p fs = Ok fs' →
  write_all p s fs' !! p = Some (File s) ∧ (∀ q, q ≠ p → write_all p s fs' !! q = fs !! q) ∧
  fs !! p ≠ Some Dir.
Proof.
  intros [-> Hd]%file_create_ok. unfold write_all. split; [by rewrite lookup_insert, decide_True|].
  split; [|done]. intros q Hq. by rewrite !lookup_insert_ne.
Qed.

Lemma make_dir_keeps fs fs' p q x :
  make_dir (Ok fs) p = Ok fs' → fs !! q = Some x → fs' !! q = Some x.
Proof.
  unfold make_dir. cbn [mbind outcome_bind]. intros Hm Hq.
  destruct (fs !! p) as [[c|]|] eqn:E; [done|by apply Ok_inj in Hm as <-|].
  apply Ok_inj in Hm as <-. rewrite lookup_insert_ne; [done|]. intros ->. pose proof (eq_trans (eq_sym Hq) E). done.
Qed.

Lemma foldl_make_dir_fail ps r : is_ok r = false → foldl make_dir r ps = r.
Proof.
  induction ps as [|p ps IH]; intros Hr; cbn [foldl]; [done|].
  replace (make_dir r p) with r by (by destruct r). by apply IH.
Qed.

(** Creating directories leaves what is there. *)
Lemma create_dir_all_keeps p fs fs' q x :
  create_dir_all p fs = Ok fs' → fs !! q = Some x → fs' !! q = Some x.
Proof.
  unfold create_dir_all. generalize ((fun k => take k p) <$> seq 0 (S (length p))) as ps.
  intros ps. revert fs. induction ps as [|d ps IH]; intros fs Hf Hq; cbn [foldl] in Hf.
  - by apply Ok_inj in Hf as <-.
  - destruct (make_dir (Ok fs) d) as [fs1|e|m] eqn:E.
    + apply (IH fs1); [done|]. by eapply make_dir_keeps.
    + by rewrite foldl_make_dir_fail in Hf.
    + by rewrite foldl_make_dir_fail in Hf.
Qed.

(** Creating directories makes no file. *)
Lemma create_dir_all_dirs p fs fs' q s :
  create_dir_all p fs = Ok fs' → fs' !! q = Some (File s) → fs !! q = Some (File s).
Proof.
  unfold create_dir_all. generalize ((fun k => take k p) <$> seq 0 (Datatypes.S (length p))) as ps.
  intros ps. revert fs. induction ps as [|d ps IH]; intros fs Hf Hq; cbn [foldl] in Hf.
  - by apply Ok_inj in Hf as <-.
  - destruct (make_dir (Ok fs) d) as [fs1|e|m] eqn:Ed; [|by rewrite foldl_make_dir_fail in Hf..].
    specialize (IH fs1 Hf Hq). revert Ed IH. unfold make_dir. cbn [mbind outcome_bind].
    destruct (fs !! d) as [[c|]|] eqn:Ef; [done|by intros <-%Ok_inj|]. intros <-%Ok_inj.
    destruct (decide (d = q)) as [->|Hne]; [by rewrite lookup_insert, decide_True by done|by rewrite lookup_insert_ne].
Qed.

Lemma io_bind_ok {A B} (m : io A) (f : A → io B) fs fs' b :
  (m ≫= f) fs = (fs', Ok b) → ∃ fs1 a, m fs = (fs1, Ok a) ∧ f a fs1 = (fs', Ok b).
Proof. unfold mbind, io_bind. destruct (m fs) as [fs1 [a|e|p]]; [|done..]. intros Hf. by exists fs1, a. Qed.

Lemma io_lift_ok {A : Type} (r : outcome A) fs fs' a : io_lift r fs = (fs', Ok a) → fs' = fs ∧ r = Ok a.
Proof. by intros [= <- <-]. Qed.
Lemma io_read_ok {A : Type} (f : file_system → outcome A) fs fs' a :
  io_read f fs = (fs', Ok a) → fs' = fs ∧ f fs = Ok a.
Proof. unfold io_read. intros Hf. split; [by apply (f_equal fst) in Hf|by apply (f_equal snd) in Hf]. Qed.

Lemma io_write_ok p s fs fs' :
  io_write p s fs = (fs', Ok tt) → fs' !! p = Some (File s) ∧ ∀ q, q ≠ p → fs' !! q = fs !! q.
Proof.
  unfold io_write, io_update. destruct (file_create p fs) as [f|e|m] eqn:E; [|done..].
  intros [= <-]. apply file_create_ok in E as [-> _]. unfold write_all. split.
  - by rewrite lookup_insert, decide_True.
  - intros q Hq. by rewrite !lookup_insert_ne by done.
Qed.

(** ** What a call leaves alone

    [leaves R m]: the file system before and after the call are related,
    whatever the result.  [keeps Q]: nothing at a path of [Q] is lost or
    changed; [grows]: no path disappears. *)
Definition leaves {A : Type} (R : relation file_system) (m : io A) : Prop := ∀ fs, R fs (fst (m fs)).
Definition kept (Q : path → Prop) (fs fs' : file_system) : Prop :=
  ∀ q x, Q q → fs !! q = Some x → fs' !! q = Some x.
Definition grown (fs fs' : file_system) : Prop := ∀ q, is_Some (fs !! q) → is_Some (fs' !! q).
Notation keeps Q m := (leaves (kept Q) m).
Notation grows m := (leaves grown m).

(** Outside of [ps] what there was stays, and no file is made. *)
Definition outside (ps : list path) (fs fs' : file_system) : Prop :=
  ∀ q, q ∉ ps → (∀ x, fs !! q = Some x → fs' !! q = Some x) ∧ (∀ s, fs' !! q = Some (File s) → fs !! q = Some (File s)).
#[export] Instance outside_preorder ps : PreOrder (outside ps).
Proof.
  split; [by intros fs q|]. intros f1 f2 f3 HA HB q Hq. destruct (HA q Hq) as [A1 A2], (HB q Hq) as [B1 B2].
  split; [intros x Hx; by apply B1, A1|intros s Hs; by apply A2, B2].
Qed.
Lemma outside_mono ps qs fs fs' : ps ⊆ qs → outside ps fs fs' → outside qs fs fs'.
Proof. intros Hs Ho q Hq. apply Ho. set_solver. Qed.
Lemma outside_create_dir ps p fs fs' : create_dir_all p fs = Ok fs' → outside ps fs fs'.
Proof. intros Hc q _. split; intros x; [by apply create_dir_all_keeps with (1 := Hc)|by apply create_dir_all_dirs with (1 := Hc)]. Qed.
Lemma outside_write_file ps p s fs fs' : p ∈ ps → file_create p fs = Ok fs' → outside ps fs (write_all p s fs').
Proof.
  intros Hp Hc q Hq. destruct (create_write_ok p s _ _ Hc) as (_ & Hf & _). rewrite Hf by by intros ->. done.
Qed.
#[export] Instance kept_preorder Q : PreOrder (kept Q).
Proof. split; [by intros fs q x|]. intros fs1 fs2 fs3 HA HB q x Hq Hx. by apply HB, HA. Qed.
#[export] Instance grown_preorder : PreOrder grown.
Proof. split; [by intros fs q|]. intros fs1 fs2 fs3 HA HB q Hq. by apply HB, HA. Qed.

Section leaves.
Context (R : relation file_system) `{!PreOrder R}.

Lemma leaves_lift {A : Type} (r : outcome A) : leaves R (io_lift r).
Proof. intros fs. by cbn. Qed.
Lemma leaves_read {A : Type} (f : file_system → outcome A) : leaves R (io_read f).
Proof. intros fs. by cbn. Qed.
Lemma leaves_bind {A B : Type} (m : io A) (f : A → io B) : leaves R m → (∀ a, leaves R (f a)) → leaves R (m ≫= f).
Proof.
  intros Hm Hf fs. specialize (Hm fs). revert Hm. unfold mbind, io_bind.
  destruct (m fs) as [fs1 [a|e|p]]; cbn; intros Hm; [|done..]. etrans; [exact Hm|apply Hf].
Qed.
Lemma leaves_result {A B : Type} (f : outcome A → outcome B) (m : io A) : leaves R m → leaves R (io_result f m).
Proof. intros Hm fs. specialize (Hm fs). revert Hm. unfold io_result. by destruct (m fs). Qed.
(** A read whose result the rest uses *)
Lemma leaves_read_bind {A B : Type} (f : file_system → outcome A) (g : A → io B) :
  (∀ fs a, f fs = Ok a → R fs (fst (g a fs))) → leaves R (io_read f ≫= g).
Proof.
  intros Hg fs. unfold mbind, io_bind, io_read. destruct (f fs) as [a|e|p] eqn:E; [by apply Hg|done..].
Qed.
Lemma leaves_update f : (∀ fs fs', f fs = Ok fs' → R fs fs') → leaves R (io_update f).
Proof. intros Hf fs. unfold io_update. destruct (f fs) as [fs'|e|p] eqn:E; cbn; [by apply Hf|done..]. Qed.
End leaves.

Lemma keeps_create_dir_all (Q : path → Prop) p : keeps Q (io_update (create_dir_all p)).
Proof. apply leaves_update; [apply _|]. intros fs fs' Hc q x _ Hx. by eapply create_dir_all_keeps. Qed.
Lemma keeps_write (Q : path → Prop) p s : ¬ Q p → keeps Q (io_write p s).
Proof.
  intros Hp. apply leaves_update; [apply _|]. intros fs fs' Hc q x Hq Hx.
  apply bind_ok in Hc as (f & [-> _]%file_create_ok & <-%Ok_inj). assert (q ≠ p) by by intros ->.
  unfold write_all. by rewrite !lookup_insert_ne.
Qed.
Lemma grows_write p s : grows (io_write p s).
Proof.
  apply leaves_update; [apply _|]. intros fs fs' Hc q Hq.
  apply bind_ok in Hc as (f & [-> _]%file_create_ok & <-%Ok_inj). unfold write_all.
  destruct (decide (q = p)) as [->|Hne]; [rewrite lookup_insert, decide_True by done; by eexists|].
  by rewrite !lookup_insert_ne by done.
Qed.

Lemma outside_dirs ps p : leaves (outside ps) (io_update (create_dir_all p)).
Proof. apply leaves_update; [apply _|]. intros fs fs'. by apply outside_create_dir. Qed.
Lemma outside_write ps p s : p ∈ ps → leaves (outside ps) (io_write p s).
Proof.
  intros Hp. apply leaves_update; [apply _|]. intros fs fs' Hc.
  apply bind_ok in Hc as (f & Hc & <-%Ok_inj). by apply outside_write_file.
Qed.

Create HintDb io.
#[export] Hint Resolve leaves_lift leaves_read leaves_bind leaves_result keeps_create_dir_all keeps_write grows_write
  outside_dirs outside_write kept_preorder grown_preorder outside_preorder : io.

(** Goes through a call, down to its writes *)
Ltac io_leaves :=
  unfold io_unwrap;
  repeat first
    [ apply leaves_lift; apply _
    | apply leaves_read; apply _
    | apply leaves_bind; [apply _| |intros ?]
    | apply leaves_result ];
  auto with io.
