(* ===== verification/Bytes.v ===== *)
(** * Bytes, hexadecimal text and bits

    A [u8] is a [Z] in [0, 256); a byte array is a [list Z].  Holds the
    [{:02x}] formatting of the standard library, little-endian [u64]s, the bits
    of a byte, and the interface of the [hex] crate (third party: operations
    with their documented laws, and a concrete instance of it). *)
From Stdlib Require Import ZArith Lia Ascii.
From stdpp Require Import base option list strings.
From S2P Require Import Prelude RustStr.

Open Scope Z_scope.

Notation bytes := (list Z).
Definition is_bytes (bs : bytes) : Prop := Forall is_u8 bs.
Definition is_array (n : nat) (bs : bytes) : Prop := length bs = n ∧ is_bytes bs.

#[export] Instance is_bytes_dec bs : Decision (is_bytes bs).
Proof. unfold is_bytes. apply _. Defined.
#[export] Instance is_array_dec n bs : Decision (is_array n bs).
Proof. unfold is_array. apply _. Defined.

(** [<[u8; N]>::try_from(slice)] *)
Definition array_try_from (n : nat) (bs : bytes) : option bytes :=
  if (length bs =? n)%nat then Some bs else None.

(** [write!(f, "{:02x}", byte)] and [{:02X}] over a byte array *)
Definition hex_digit (alpha : Z) (d : Z) : ascii :=
  ascii_of_nat (Z.to_nat (if d <? 10 then 48 + d else alpha + (d - 10))).
Fixpoint fmt_hex (alpha : Z) (bs : bytes) : string :=
  match bs with
  | [] => EmptyString
  | b :: bs' => String (hex_digit alpha (b / 16))
                  (String (hex_digit alpha (b mod 16)) (fmt_hex alpha bs'))
  end.
Definition fmt_02x : bytes → string := fmt_hex 97.
Definition fmt_02X : bytes → string := fmt_hex 65.

(** [write!(f, "{:08b}", byte)] over a byte array *)
Definition bit_char (b : bool) : ascii := if b then "1"%char else "0"%char.
Definition bits_of_u8 (b : Z) : list bool :=
  (fun k => Z.testbit b (7 - Z.of_nat k)) <$> seq 0 8.
Definition fmt_08b (bs : bytes) : string :=
  String.string_of_list_ascii (bit_char <$> (bs ≫= bits_of_u8)).

(** [str::to_ascii_lowercase] *)
Definition char_lower (c : ascii) : ascii :=
  let n := nat_of_ascii c in
  if ((65 <=? n) && (n <=? 90))%nat then ascii_of_nat (n + 32) else c.
Fixpoint str_lower (s : string) : string :=
  match s with EmptyString => EmptyString | String c s' => String (char_lower c) (str_lower s') end.

(** [u64::to_le_bytes], [u64::from_le_bytes], [to_be_bytes] *)
Fixpoint le_bytes (n : nat) (z : Z) : bytes :=
  match n with O => [] | S n' => z mod 256 :: le_bytes n' (z / 256) end.
Fixpoint from_le (bs : bytes) : Z :=
  match bs with [] => 0 | b :: bs' => b + 256 * from_le bs' end.
Definition be_bytes (n : nat) (z : Z) : bytes := rev (le_bytes n z).
Definition from_be (bs : bytes) : Z := from_le (rev bs).

(** ** The [hex] crate

    [hex::encode] writes two lower-case digits per byte; [hex::decode] and
    [<[u8; N]>::from_hex] accept both cases, and reject an odd length, a
    character that is no digit, and (for arrays) any other length. *)
Class HexCrate := {
  hex_encode : bytes → string;
  hex_decode : string → option bytes;
  hex_decode_array : nat → string → option bytes;
  hex_encode_law bs : is_bytes bs → hex_encode bs = fmt_02x bs;
  hex_decode_law s bs :
    hex_decode s = Some bs ↔ is_bytes bs ∧ str_lower s = fmt_02x bs;
  hex_decode_array_law n s bs :
    hex_decode_array n s = Some bs ↔ length bs = n ∧ hex_decode s = Some bs
}.

(** A concrete decoder that satisfies the laws. *)
Definition hex_val (c : ascii) : option Z :=
  let n := Z.of_nat (nat_of_ascii c) in
  if (48 <=? n) && (n <=? 57) then Some (n - 48)
  else if (97 <=? n) && (n <=? 102) then Some (n - 87)
  else if (65 <=? n) && (n <=? 70) then Some (n - 55) else None.
Fixpoint ref_hex_decode (s : string) : option bytes :=
  match s with
  | EmptyString => Some []
  | String a (String b s') =>
      x ← hex_val a; y ← hex_val b; r ← ref_hex_decode s'; Some (16 * x + y :: r)
  | String _ EmptyString => None
  end.

(** ** Lemmas *)
Lemma forall_ascii (P : ascii → bool) :
  forallb P (ascii_of_nat <$> seq 0 256) = true → ∀ c, P c = true.
Proof.
  intros H c. rewrite forallb_forall in H. apply H.
  apply list_elem_of_In, list_elem_of_fmap. exists (nat_of_ascii c). split.
  - by rewrite ascii_nat_embedding.
  - apply elem_of_seq. pose proof (nat_ascii_bounded c). lia.
Qed.

Lemma hex_val_spec c d :
  hex_val c = Some d ↔ 0 ≤ d < 16 ∧ char_lower c = hex_digit 97 d.
Proof.
  split.
  - intros H. pose proof (forall_ascii (fun c => match hex_val c with
      | Some d => (0 <=? d) && (d <? 16) && Ascii.eqb (char_lower c) (hex_digit 97 d)
      | None => true end) eq_refl c) as Hc.
    cbv beta in Hc. rewrite H in Hc.
    apply andb_true_iff in Hc as [Hc1 Hc2]. apply Ascii.eqb_eq in Hc2. split; [lia|done].
  - intros [Hd Hl].
    pose proof (forall_ascii (fun c => forallb (fun d => implb (Ascii.eqb (char_lower c) (hex_digit 97 d))
      (match hex_val c with Some e => e =? d | None => false end)) (Z.of_nat <$> seq 0 16)) eq_refl c) as Hc.
    pose proof (forall_below _ 16 Hc d ltac:(lia)) as Hcd. cbv beta in Hcd.
    rewrite Hl, Ascii.eqb_refl in Hcd. cbn [implb] in Hcd.
    destruct (hex_val c) as [e|]; [|done]. f_equal. lia.
Qed.

Lemma is_u8_nibbles b : is_u8 b → 0 ≤ b / 16 < 16 ∧ 0 ≤ b mod 16 < 16.
Proof. unfold is_u8. intros. split; [split; [apply Z.div_pos|apply Z.div_lt_upper_bound]|apply Z.mod_pos_bound]; lia. Qed.

Lemma hex_digit_inj d e :
  0 ≤ d < 16 → 0 ≤ e < 16 → hex_digit 97 d = hex_digit 97 e → d = e.
Proof.
  intros Hd He H.
  assert (hex_val (hex_digit 97 d) = Some d) as H1.
  { apply hex_val_spec. split; [done|].
    pose proof (forall_below (fun d => Ascii.eqb (char_lower (hex_digit 97 d)) (hex_digit 97 d)) 16 eq_refl d ltac:(lia)) as Hx.
    by apply Ascii.eqb_eq in Hx. }
  assert (hex_val (hex_digit 97 e) = Some e) as H2.
  { apply hex_val_spec. split; [done|].
    pose proof (forall_below (fun d => Ascii.eqb (char_lower (hex_digit 97 d)) (hex_digit 97 d)) 16 eq_refl e ltac:(lia)) as Hx.
    by apply Ascii.eqb_eq in Hx. }
  rewrite H in H1. congruence.
Qed.

Lemma ref_hex_decode_law s bs :
  ref_hex_decode s = Some bs ↔ is_bytes bs ∧ str_lower s = fmt_02x bs.
Proof.
  revert bs. induction s as [s IH] using (induction_ltof1 _ String.length); unfold ltof in IH.
  intros bs. destruct s as [|a [|b s]]; cbn.
  - unfold is_bytes. destruct bs; cbn; naive_solver.
  - destruct bs; cbn; naive_solver.
  - assert (IHs := IH s ltac:(cbn; lia)). clear IH. split.
    + intros H. apply bind_Some in H as (x & Hx & H). apply bind_Some in H as (y & Hy & H).
      apply bind_Some in H as (r & Hr & H). injection H as <-.
      apply hex_val_spec in Hx as [Hx Hxl], Hy as [Hy Hyl]. apply IHs in Hr as [Hr Hrl].
      split; [constructor; [unfold is_u8; lia|done]|].
      cbn. rewrite Hxl, Hyl, Hrl. repeat f_equal.
      * apply (Z.div_unique _ _ _ y); lia.
      * apply (Z.mod_unique _ _ x y); lia.
    + intros [Hb Hl]. destruct bs as [|v bs]; [done|]. cbn in Hl.
      injection Hl as Ha Hb' Hr. apply Forall_cons in Hb as [Hb Hbs].
      pose proof (is_u8_nibbles v Hb) as [H1 H2].
      rewrite (proj2 (hex_val_spec a (v / 16))) by done. cbn.
      rewrite (proj2 (hex_val_spec b (v mod 16))) by done. cbn.
      rewrite (proj2 (IHs bs)) by done. cbn. do 2 f_equal.
      symmetry. apply Z.div_mod. lia.
Qed.

#[export] Program Instance ref_hex : HexCrate := {|
  hex_encode := fmt_02x;
  hex_decode := ref_hex_decode;
  hex_decode_array n s :=
    match ref_hex_decode s with
    | Some bs => if (length bs =? n)%nat then Some bs else None
    | None => None
    end
|}.
Next Obligation. done. Qed.
Next Obligation. apply ref_hex_decode_law. Qed.
Next Obligation.
  intros n s bs. cbn. destruct (ref_hex_decode s) as [r|]; [|naive_solver].
  destruct (Nat.eqb_spec (length r) n); naive_solver.
Qed.

(** Hexadecimal text is lower case already, so it decodes to what was encoded. *)
Lemma str_lower_fmt_02x bs : is_bytes bs → str_lower (fmt_02x bs) = fmt_02x bs.
Proof.
  assert (Hc : ∀ d, 0 ≤ d < 16 → char_lower (hex_digit 97 d) = hex_digit 97 d).
  { intros d Hd. apply Ascii.eqb_eq.
    apply (forall_below (fun d => Ascii.eqb (char_lower (hex_digit 97 d)) (hex_digit 97 d)) 16 eq_refl d Hd). }
  induction 1 as [|b bs Hb Hbs IH]; cbn; [done|].
  pose proof (is_u8_nibbles b Hb) as [H1 H2]. rewrite !Hc by done. by rewrite IH.
Qed.

Lemma str_lower_fmt_02X bs : is_bytes bs → str_lower (fmt_02X bs) = fmt_02x bs.
Proof.
  assert (Hc : ∀ d, 0 ≤ d < 16 → char_lower (hex_digit 65 d) = hex_digit 97 d).
  { intros d Hd. apply Ascii.eqb_eq.
    apply (forall_below (fun d => Ascii.eqb (char_lower (hex_digit 65 d)) (hex_digit 97 d)) 16 eq_refl d Hd). }
  induction 1 as [|b bs Hb Hbs IH]; cbn; [done|].
  pose proof (is_u8_nibbles b Hb) as [H1 H2]. rewrite !Hc by done. by rewrite IH.
Qed.

Lemma fmt_hex_length alpha bs : String.length (fmt_hex alpha bs) = (2 * length bs)%nat.
Proof. induction bs as [|b bs IH]; cbn; [done|]. rewrite IH. lia. Qed.

Lemma fmt_02x_inj bs cs : is_bytes bs → is_bytes cs → fmt_02x bs = fmt_02x cs → bs = cs.
Proof.
  intros Hb. revert cs. induction Hb as [|b bs Hb Hbs IH]; intros [|c cs] Hc; cbn; try done.
  apply Forall_cons in Hc as [Hc Hcs]. injection 1 as H1 H2 H3.
  pose proof (is_u8_nibbles b Hb) as [? ?]. pose proof (is_u8_nibbles c Hc) as [? ?].
  apply hex_digit_inj in H1, H2; try done. f_equal; [|by apply IH].
  rewrite (Z.div_mod b 16), (Z.div_mod c 16) by lia. congruence.
Qed.

Lemma array_try_from_ok n bs cs : array_try_from n bs = Some cs ↔ cs = bs ∧ length bs = n.
Proof. unfold array_try_from. destruct (Nat.eqb_spec (length bs) n); naive_solver. Qed.

Section hex.
Context `{HexCrate}.

Lemma hex_decode_array_fmt n bs : is_array n bs → hex_decode_array n (fmt_02x bs) = Some bs.
Proof.
  intros [Hl Hb]. apply hex_decode_array_law. split; [done|].
  apply hex_decode_law. split; [done|]. by apply str_lower_fmt_02x.
Qed.

Lemma hex_decode_array_fmt_upper n bs :
  is_array n bs → hex_decode_array n (fmt_02X bs) = Some bs.
Proof.
  intros [Hl Hb]. apply hex_decode_array_law. split; [done|].
  apply hex_decode_law. split; [done|]. by apply str_lower_fmt_02X.
Qed.

Lemma hex_decode_array_wf n s bs : hex_decode_array n s = Some bs → is_array n bs.
Proof. intros [Hl [Hb _]%hex_decode_law]%hex_decode_array_law. by split. Qed.

(** A string of the wrong length is never an array. *)
Lemma hex_decode_array_length n s bs :
  hex_decode_array n s = Some bs → String.length s = (2 * n)%nat.
Proof.
  intros [Hl [Hb Hs]%hex_decode_law]%hex_decode_array_law.
  apply (f_equal String.length) in Hs. unfold fmt_02x in Hs.
  rewrite fmt_hex_length, Hl in Hs. rewrite <- Hs.
  clear. induction s as [|c s IH]; cbn; [done|]. by rewrite IH.
Qed.
End hex.

(** Little-endian integers *)
Lemma le_bytes_length n z : length (le_bytes n z) = n.
Proof. revert z. induction n as [|n IH]; intros z; cbn; [done|]. by rewrite IH. Qed.

Lemma le_bytes_wf n z : is_bytes (le_bytes n z).
Proof.
  revert z. induction n as [|n IH]; intros z; cbn; constructor; [|apply IH].
  apply Z.mod_pos_bound. lia.
Qed.

Lemma from_le_bytes n z : 0 ≤ z < 256 ^ Z.of_nat n → from_le (le_bytes n z) = z.
Proof.
  revert z. induction n as [|n IH]; intros z Hz; cbn.
  - change (256 ^ Z.of_nat 0) with 1 in Hz. lia.
  - rewrite IH; [pose proof (Z.div_mod z 256); lia|].
    replace (Z.of_nat (S n)) with (Z.of_nat n + 1) in Hz by lia.
    rewrite Z.pow_add_r in Hz by lia.
    split; [apply Z.div_pos|apply Z.div_lt_upper_bound]; lia.
Qed.

Lemma from_le_range bs : is_bytes bs → 0 ≤ from_le bs < 256 ^ Z.of_nat (length bs).
Proof.
  induction 1 as [|b bs Hb Hbs IH]; cbn -[Z.of_nat Z.pow Z.mul]; [done|].
  replace (Z.of_nat (S (length bs))) with (Z.of_nat (length bs) + 1) by lia.
  rewrite Z.pow_add_r by lia. unfold is_u8 in Hb. lia.
Qed.

Lemma le_bytes_from bs : is_bytes bs → le_bytes (length bs) (from_le bs) = bs.
Proof.
  induction 1 as [|b bs Hb Hbs IH]; cbn -[Z.mul]; [done|]. unfold is_u8 in Hb.
  f_equal.
  - rewrite Z.add_mod, Z.mul_comm, Z.mod_mul, Z.add_0_r, Z.mod_mod by lia.
    apply Z.mod_small. lia.
  - rewrite Z.mul_comm, Z.div_add by lia. rewrite Z.div_small by lia. exact IH.
Qed.

(** The bits of a byte *)
Lemma land_one_testbit b k :
  0 ≤ k → negb (Z.land (Z.shiftr b k) 1 =? 0) = Z.testbit b k.
Proof.
  intros Hk. rewrite <- (Z.add_0_l k) at 2. rewrite <- Z.shiftr_spec by lia.
  generalize (Z.shiftr b k) as x. intros x. change 1 with (Z.ones 1).
  rewrite Z.land_ones by lia. change (2 ^ 1) with 2.
  rewrite Z.bit0_odd, Zmod_odd. by destruct (Z.odd x).
Qed.

Lemma u8_testbit_high b k : is_u8 b → 8 ≤ k → Z.testbit b k = false.
Proof.
  intros Hb Hk. destruct (Z.eq_dec b 0) as [->|]; [apply Z.bits_0|].
  unfold is_u8 in Hb. apply Z.bits_above_log2; [lia|].
  apply Z.log2_lt_pow2; [lia|]. apply Z.lt_le_trans with (2 ^ 8); [lia|].
  apply Z.pow_le_mono_r; lia.
Qed.

Lemma u8_eq_bits a b :
  is_u8 a → is_u8 b → (∀ k, 0 ≤ k < 8 → Z.testbit a k = Z.testbit b k) → a = b.
Proof.
  intros Ha Hb H. apply Z.bits_inj'. intros n Hn.
  destruct (Z_lt_le_dec n 8); [by apply H|]. by rewrite !u8_testbit_high.
Qed.

Lemma u8_lor a b : is_u8 a → is_u8 b → is_u8 (Z.lor a b).
Proof.
  intros Ha Hb. split; [apply Z.lor_nonneg; unfold is_u8 in *; lia|].
  apply Z.lt_nge. intros Hge.
  assert (0 < Z.lor a b) by lia.
  pose proof (Z.log2_spec (Z.lor a b) ltac:(lia)) as [Hl _].
  assert (8 ≤ Z.log2 (Z.lor a b)) as Hlog.
  { change 8 with (Z.log2 256). by apply Z.log2_le_mono. }
  pose proof (Z.bit_log2 (Z.lor a b) ltac:(lia)) as Hbit.
  rewrite Z.lor_spec, !u8_testbit_high in Hbit by done. done.
Qed.

#[export] Hint Resolve le_bytes_wf le_bytes_length u8_lor : libra.

(** [str::as_bytes] *)
Definition str_bytes (s : string) : bytes :=
  (fun c => Z.of_nat (nat_of_ascii c)) <$> String.list_ascii_of_string s.

Lemma str_bytes_length s : length (str_bytes s) = String.length s.
Proof.
  unfold str_bytes. rewrite length_fmap. induction s as [|c s IH]; cbn; [done|]. by rewrite IH.
Qed.

Lemma str_bytes_inj s1 s2 : str_bytes s1 = str_bytes s2 → s1 = s2.
Proof.
  unfold str_bytes. revert s2. induction s1 as [|c s1 IH]; intros [|c2 s2]; cbn; try done.
  intros [= Hc Hs]. apply Nat2Z.inj in Hc. f_equal; [|by apply IH].
  rewrite <- (ascii_nat_embedding c), <- (ascii_nat_embedding c2). by rewrite Hc.
Qed.

(** ** What a hand-written [Serialize] hands to the serializer

    [serialize_str] in a human-readable format, a newtype struct around a byte
    string or a byte tuple in a binary one. *)
Inductive serde_value :=
| SerdeStr (s : string)
| SerdeNewtype (name : string) (bs : bytes).

#[export] Instance serde_value_eq_dec : EqDecision serde_value.
Proof. solve_decision. Defined.
