(* ===== verification/HashValue.v ===== *)
(** * compatibility/src/version_five/hash_value_v5.rs

    The 32-byte hash value of the v5 database: construction from bytes, text
    and bit iterators, the bit and nibble accessors, the double-ended bit
    iterator, formatting and serialization. *)
From Stdlib Require Import ZArith Lia Ascii.
From stdpp Require Import base option list strings.
From S2P Require Import Prelude RustStr Bytes.

Open Scope Z_scope.

(** [tiny_keccak::Sha3::v256], one [update] and [finalize]: third party. *)
Class Sha3 := {
  sha3_256 : bytes → bytes;
  sha3_256_law bs : is_array 32 (sha3_256 bs)
}.

Module HashValueV5.

Record t := mk { hash : bytes }.

#[global] Instance t_eq_dec : EqDecision t.
Proof. solve_decision. Defined.

Definition LENGTH : nat := 32.
Definition LENGTH_IN_BITS : nat := LENGTH * 8.

(** The type of the field, [[u8; 32]]. *)
Definition wf (h : t) : Prop := is_array LENGTH (hash h).

Definition parse_error : string := "unable to parse HashValue".

Definition new (bs : bytes) : t := mk bs.

Definition from_slice (bs : bytes) : outcome t :=
  new <$> context_opt parse_error (array_try_from LENGTH bs).

Definition to_vec (h : t) : bytes := hash h.

Definition zero : t := mk (repeat 0 LENGTH).

Definition sha3_256_of `{Sha3} (buffer : bytes) : t := mk (sha3_256 buffer).

(** [(byte >> bit) & 1 != 0] *)
Definition bit_of (b : Z) (bit : nat) : bool :=
  negb (Z.land (Z.shiftr b (Z.of_nat bit)) 1 =? 0).

Definition bit (h : t) (index : nat) : outcome bool :=
  rust_assert (index <? LENGTH_IN_BITS)%nat "assertion failed: index < Self::LENGTH_IN_BITS";;
  b ← expect_opt "index out of bounds" (hash h !! (index / 8)%nat);
  Ok (bit_of b (7 - index mod 8)).

Definition nibble (h : t) (index : nat) : outcome Z :=
  rust_assert (index <? LENGTH * 2)%nat "assertion failed: index < Self::LENGTH * 2";;
  let shift := if (index mod 2 =? 0)%nat then 4 else 0 in
  b ← expect_opt "index out of bounds" (hash h !! (index / 2)%nat);
  Ok (Z.land (Z.shiftr b shift) 15).

(** ** The bit iterator *)
Record bit_iterator := mk_iter {
  hash_bytes : bytes;
  pos_start : nat;
  pos_end : nat
}.

Definition iter_new (h : t) : bit_iterator := mk_iter (hash h) 0 LENGTH_IN_BITS.

Definition get_bit (it : bit_iterator) (index : nat) : outcome bool :=
  rust_assert (index <? pos_end it)%nat "assertion failed: index < self.pos.end";;
  rust_assert (length (hash_bytes it) =? LENGTH)%nat "assertion failed: hash_bytes.len()";;
  rust_assert (pos_end it =? length (hash_bytes it) * 8)%nat "assertion failed: self.pos.end";;
  b ← expect_opt "index out of bounds" (hash_bytes it !! (index / 8)%nat);
  Ok (bit_of b (7 - index mod 8)).

(** [self.pos.next().map(|x| self.get_bit(x))]: the range moves first. *)
Definition next (it : bit_iterator) : outcome (option bool * bit_iterator) :=
  if (pos_start it <? pos_end it)%nat then
    let it' := mk_iter (hash_bytes it) (S (pos_start it)) (pos_end it) in
    b ← get_bit it' (pos_start it); Ok (Some b, it')
  else Ok (None, it).

Definition next_back (it : bit_iterator) : outcome (option bool * bit_iterator) :=
  if (pos_start it <? pos_end it)%nat then
    let it' := mk_iter (hash_bytes it) (pos_start it) (pos_end it - 1) in
    b ← get_bit it' (pos_end it - 1); Ok (Some b, it')
  else Ok (None, it).

Definition size_hint (it : bit_iterator) : nat * option nat :=
  let n := (pos_end it - pos_start it)%nat in (n, Some n).

(** Consumes an iterator from the front, as [for] and [collect] do; [fuel]
    is at least [size_hint + 1]. *)
Fixpoint drain (fuel : nat) (it : bit_iterator) : outcome (list bool) :=
  match fuel with
  | O => Panic "fuel"
  | S f =>
      r ← next it;
      match r with
      | (Some b, it') => bs ← drain f it'; Ok (b :: bs)
      | (None, _) => Ok []
      end
  end.

Definition iter_bits (h : t) : outcome (list bool) :=
  drain (S LENGTH_IN_BITS) (iter_new h).

(** ** Construction from bits *)
Fixpoint write_bits (i : nat) (bits : list bool) (buf : bytes) : bytes :=
  match bits with
  | [] => buf
  | b :: bits' =>
      write_bits (S i) bits'
        (if b then alter (fun x => Z.lor x (u8_wrap (Z.shiftl 1 (7 - Z.of_nat (i mod 8)))))
                         (i / 8)%nat buf
         else buf)
  end.

Definition from_bit_iter (bits : list bool) : outcome t :=
  if (length bits =? LENGTH_IN_BITS)%nat
  then Ok (new (write_bits 0 bits (repeat 0 LENGTH)))
  else Err parse_error.

Fixpoint count_common (l : list (bool * bool)) : nat :=
  match l with
  | (x, y) :: l' => if Bool.eqb x y then S (count_common l') else O
  | [] => O
  end.

Definition common_prefix_bits_len (h other : t) : outcome nat :=
  xs ← iter_bits h; ys ← iter_bits other; Ok (count_common (zip xs ys)).

(** ** Text *)
Definition fmt_lower_hex (alternate : bool) (h : t) : string :=
  (if alternate then "0x" else "") +:+ fmt_02x (hash h).
Definition fmt_binary (h : t) : string := fmt_08b (hash h).
Definition fmt_debug (h : t) : string := "HashValue(" +:+ fmt_lower_hex false h +:+ ")".
Definition fmt_display (h : t) : string := fmt_02x (take 4 (hash h)).

Definition to_hex (h : t) : string := fmt_lower_hex false h.
Definition to_hex_literal (h : t) : string := fmt_lower_hex true h.

Definition from_hex `{HexCrate} (s : string) : outcome t :=
  new <$> context_opt parse_error (hex_decode_array LENGTH s).

Definition from_str `{HexCrate} (s : string) : outcome t := from_hex s.

(** ** Serde *)
Definition serialize (human : bool) (h : t) : serde_value :=
  if human then SerdeStr (to_hex h) else SerdeNewtype "HashValue" (hash h).

Definition deserialize `{HexCrate} (human : bool) (v : serde_value) : outcome t :=
  match human, v with
  | true, SerdeStr s => from_hex s
  | false, SerdeNewtype name bs =>
      if String.eqb name "HashValue" then from_slice bs else Err "invalid type"
  | _, _ => Err "invalid type"
  end.

(** ** Lemmas *)

(** Bit [i] of a byte array, counted from the top bit of the first byte. *)
Definition nth_bit (bs : bytes) (i : nat) : bool :=
  Z.testbit (default 0 (bs !! (i / 8)%nat)) (7 - Z.of_nat (i mod 8)).

Lemma bit_of_nth bs i b :
  bs !! (i / 8)%nat = Some b → bit_of b (7 - i mod 8) = nth_bit bs i.
Proof.
  intros Hb. unfold bit_of, nth_bit. rewrite Hb, land_one_testbit by lia. cbn.
  pose proof (Nat.mod_upper_bound i 8). f_equal. lia.
Qed.

Lemma bit_spec h i : wf h → (i < 256)%nat → bit h i = Ok (nth_bit (hash h) i).
Proof.
  intros [Hl _] Hi. unfold bit, LENGTH_IN_BITS. cbn [LENGTH Nat.mul Nat.add].
  rewrite (proj2 (Nat.ltb_lt _ _)) by exact Hi. cbn.
  destruct (lookup_lt_is_Some_2 (hash h) (i / 8)) as [b Hb].
  { rewrite Hl. apply Nat.Div0.div_lt_upper_bound. unfold LENGTH. lia. }
  rewrite Hb. cbn. f_equal. by apply bit_of_nth.
Qed.

Lemma get_bit_spec h s i :
  wf h → (i < 256)%nat →
  get_bit (mk_iter (hash h) s 256) i = Ok (nth_bit (hash h) i).
Proof.
  intros Hwf Hi. pose proof (bit_spec h i Hwf Hi) as Hbit. destruct Hwf as [Hl _].
  unfold get_bit. cbn [pos_end hash_bytes]. rewrite Hl.
  rewrite (proj2 (Nat.ltb_lt _ _)) by exact Hi. cbn.
  unfold bit, LENGTH_IN_BITS in Hbit. cbn [LENGTH Nat.mul Nat.add] in Hbit.
  rewrite (proj2 (Nat.ltb_lt _ _)) in Hbit by exact Hi. exact Hbit.
Qed.

Lemma drain_spec h s fuel :
  wf h → (s ≤ 256)%nat → (256 - s < fuel)%nat →
  drain fuel (mk_iter (hash h) s 256) = Ok (nth_bit (hash h) <$> seq s (256 - s)).
Proof.
  intros Hwf Hs. remember (256 - s)%nat as k eqn:Hk. revert s fuel Hs Hk.
  induction k as [|k IH]; intros s [|f] Hs Hk Hf; try lia; cbn [drain]; unfold next;
    cbn [pos_start pos_end hash_bytes].
  - rewrite (proj2 (Nat.ltb_ge _ _)) by lia. done.
  - rewrite (proj2 (Nat.ltb_lt _ _)) by lia. rewrite get_bit_spec by (done || lia).
    cbn [mbind outcome_bind]. rewrite (IH (S s)) by lia. done.
Qed.

Lemma iter_bits_spec h : wf h → iter_bits h = Ok (nth_bit (hash h) <$> seq 0 256).
Proof. intros Hwf. apply (drain_spec h 0 257 Hwf); lia. Qed.

Lemma alter_lookup_default (bs : bytes) i j f :
  (i < length bs)%nat →
  default 0 (alter f i bs !! j) =
  if decide (i = j) then f (default 0 (bs !! i)) else default 0 (bs !! j).
Proof.
  intros Hi. destruct (decide (i = j)) as [<-|Hne].
  - rewrite list_lookup_alter_eq. destruct (lookup_lt_is_Some_2 bs i Hi) as [b ->]. done.
  - by rewrite list_lookup_alter_ne.
Qed.

Lemma one_bit_mask k : (k < 8)%nat →
  u8_wrap (Z.shiftl 1 (7 - Z.of_nat k)) = 2 ^ (7 - Z.of_nat k).
Proof. intros Hk. do 8 (destruct k as [|k]; [reflexivity|]). lia. Qed.

Lemma is_u8_mask k : (k < 8)%nat → is_u8 (2 ^ (7 - Z.of_nat k)).
Proof. intros Hk. do 8 (destruct k as [|k]; [by split|]). lia. Qed.

Lemma set_bit_spec bs i j :
  (i / 8 < length bs)%nat →
  nth_bit (alter (fun x => Z.lor x (u8_wrap (Z.shiftl 1 (7 - Z.of_nat (i mod 8))))) (i / 8)%nat bs) j
  = if decide (i = j) then true else nth_bit bs j.
Proof.
  intros Hi. unfold nth_bit. rewrite alter_lookup_default by done.
  pose proof (Nat.mod_upper_bound i 8). pose proof (Nat.mod_upper_bound j 8).
  rewrite one_bit_mask by lia.
  destruct (decide (i / 8 = j / 8)%nat) as [Hd|Hd].
  - rewrite Z.lor_spec, Z.pow2_bits_eqb by lia. destruct (decide (i = j)) as [->|Hne].
    + rewrite Z.eqb_refl. apply orb_true_r.
    + pose proof (Nat.div_mod_eq i 8). pose proof (Nat.div_mod_eq j 8).
      destruct (Z.eqb_spec (7 - Z.of_nat (i mod 8)) (7 - Z.of_nat (j mod 8))); [lia|].
      by rewrite orb_false_r, Hd.
  - rewrite decide_False; [done|]. intros ->. done.
Qed.

Lemma write_bits_length i bits buf : length (write_bits i bits buf) = length buf.
Proof.
  revert i buf. induction bits as [|b bits IH]; intros i buf; cbn [write_bits]; [done|].
  rewrite IH. destruct b; [apply length_alter|done].
Qed.

Lemma write_bits_wf i bits buf : is_bytes buf → is_bytes (write_bits i bits buf).
Proof.
  revert i buf. induction bits as [|b bits IH]; intros i buf Hb; cbn [write_bits]; [done|].
  apply IH. destruct b; [|done].
  apply Forall_alter; [done|]. intros x Hx Hxu.
  apply u8_lor; [done|]. rewrite one_bit_mask; [apply is_u8_mask|]; by apply Nat.mod_upper_bound.
Qed.

Lemma write_bits_spec i bits buf j :
  (i + length bits ≤ 8 * length buf)%nat →
  nth_bit (write_bits i bits buf) j =
  (nth_bit buf j || match (if (i <=? j)%nat then bits !! (j - i)%nat else None) with
                    | Some b => b | None => false end).
Proof.
  revert i buf. induction bits as [|b bits IH]; intros i buf Hlen; cbn [write_bits length] in *.
  - destruct (i <=? j)%nat; by rewrite orb_false_r.
  - rewrite IH.
    2: { destruct b; [rewrite length_alter|]; lia. }
    assert (Hbuf : nth_bit (if b then alter (fun x => Z.lor x (u8_wrap (Z.shiftl 1 (7 - Z.of_nat (i mod 8)))))
                    (i / 8)%nat buf else buf) j = (nth_bit buf j || (b && bool_decide (i = j)))).
    { destruct b; cbn; [|by rewrite orb_false_r].
      rewrite set_bit_spec by (apply Nat.Div0.div_lt_upper_bound; lia).
      destruct (decide (i = j)); [rewrite bool_decide_true by done; by rewrite orb_true_r|].
      rewrite bool_decide_false by done. by rewrite orb_false_r. }
    rewrite Hbuf. destruct (Nat.leb_spec i j); destruct (Nat.leb_spec (S i) j); try lia.
    + rewrite bool_decide_false by lia. rewrite andb_false_r, orb_false_r.
      replace (j - i)%nat with (S (j - S i)) by lia. done.
    + assert (i = j) as -> by lia. rewrite bool_decide_true, Nat.sub_diag by done. cbn.
      by rewrite andb_true_r, orb_false_r.
    + rewrite bool_decide_false by lia. by rewrite andb_false_r, !orb_false_r.
Qed.

(** Two arrays of the same length with the same bits are equal. *)
Lemma nth_bit_ext as_ bs :
  is_bytes as_ → is_bytes bs → length as_ = length bs →
  (∀ i, (i < 8 * length bs)%nat → nth_bit as_ i = nth_bit bs i) → as_ = bs.
Proof.
  intros Ha Hb Hl H. apply list_eq_same_length with (length bs); [done|done|].
  intros k x y Hk Hx Hy. apply u8_eq_bits.
  - by apply (Forall_lookup_1 _ _ _ _ Ha Hx).
  - by apply (Forall_lookup_1 _ _ _ _ Hb Hy).
  - intros p Hp. specialize (H (k * 8 + Z.to_nat (7 - p))%nat ltac:(lia)).
    unfold nth_bit in H.
    assert (Hd : ((k * 8 + Z.to_nat (7 - p)) / 8 = k)%nat).
    { rewrite Nat.div_add_l by lia. rewrite Nat.div_small by lia. lia. }
    assert (Hm : ((k * 8 + Z.to_nat (7 - p)) mod 8 = Z.to_nat (7 - p))%nat).
    { rewrite Nat.add_comm, Nat.Div0.mod_add. apply Nat.mod_small. lia. }
    rewrite Hd, Hm, Hx, Hy in H. cbn in H.
    by replace (7 - Z.of_nat (Z.to_nat (7 - p))) with p in H by lia.
Qed.

Lemma nth_bit_zero n i : nth_bit (repeat 0 n) i = false.
Proof.
  unfold nth_bit. destruct (repeat 0 n !! (i / 8)%nat) as [b|] eqn:E; cbn; [|apply Z.bits_0].
  apply list_elem_of_lookup_2, list_elem_of_In, repeat_spec in E as ->. apply Z.bits_0.
Qed.

Lemma zero_wf : wf zero.
Proof. split; [done|]. apply Forall_repeat. by split. Qed.

Lemma from_bit_iter_wf bits h : from_bit_iter bits = Ok h → wf h.
Proof.
  unfold from_bit_iter. case_match; [|done]. injection 1 as <-. split.
  - apply (write_bits_length 0 bits (repeat 0 LENGTH)).
  - apply write_bits_wf, zero_wf.
Qed.

Lemma from_bit_iter_bit bits h i :
  from_bit_iter bits = Ok h → (i < 256)%nat → bits !! i = Some (nth_bit (hash h) i).
Proof.
  unfold from_bit_iter. destruct (Nat.eqb_spec (length bits) LENGTH_IN_BITS) as [Hl|]; [|done].
  intros Hh Hi.
  assert (hash h = write_bits 0 bits (repeat 0 LENGTH)) as ->
    by (injection Hh as <-; reflexivity).
  rewrite write_bits_spec by (rewrite Hl, repeat_length; unfold LENGTH_IN_BITS; lia).
  rewrite nth_bit_zero, Nat.sub_0_r. cbn [Nat.leb orb].
  destruct (lookup_lt_is_Some_2 bits i) as [b Hb]; [rewrite Hl; exact Hi|].
  by rewrite Hb.
Qed.

Lemma count_common_spec xs ys :
  length xs = length ys →
  let n := count_common (zip xs ys) in
  (n ≤ length xs)%nat ∧ take n xs = take n ys ∧
  (∀ x y, xs !! n = Some x → ys !! n = Some y → x ≠ y).
Proof.
  revert ys. induction xs as [|x xs IH]; intros [|y ys]; cbn; try done.
  intros [= Hl]. destruct (IH ys Hl) as (H1 & H2 & H3).
  destruct (Bool.eqb_spec x y) as [->|Hne].
  - cbn. split; [lia|]. split; [by rewrite H2|]. done.
  - split; [lia|]. split; [done|]. cbn. naive_solver.
Qed.

Lemma common_prefix_ok h o : wf h → wf o →
  common_prefix_bits_len h o =
  Ok (count_common (zip (nth_bit (hash h) <$> seq 0 256) (nth_bit (hash o) <$> seq 0 256))).
Proof. intros Hh Ho. unfold common_prefix_bits_len. by rewrite !iter_bits_spec. Qed.

Lemma from_bit_iter_total bits :
  length bits = LENGTH_IN_BITS →
  ∃ h, from_bit_iter bits = Ok h ∧ wf h ∧ nth_bit (hash h) <$> seq 0 256 = bits.
Proof.
  intros Hl. destruct (from_bit_iter bits) as [h| |] eqn:E;
    try (unfold from_bit_iter in E; by rewrite Hl in E).
  exists h. split; [done|]. split; [by apply (from_bit_iter_wf bits)|].
  apply list_eq_same_length with 256%nat; [done|by rewrite length_fmap, length_seq|].
  intros i x y Hi Hx Hy. rewrite list_lookup_fmap, lookup_seq_lt in Hx by done.
  pose proof (from_bit_iter_bit _ _ i E Hi) as Hb. cbn in Hx. congruence.
Qed.

Lemma wf_bits_eq h o : wf h → wf o →
  (∀ i, (i < 256)%nat → nth_bit (hash h) i = nth_bit (hash o) i) → h = o.
Proof.
  intros [Hl Hb] [Hl' Hb'] H. destruct h as [bs], o as [bs']. f_equal.
  cbn [hash] in *. apply nth_bit_ext; [done|done|congruence|].
  intros i Hi. apply H. rewrite Hl' in Hi. exact Hi.
Qed.

Lemma nibble_join b : is_u8 b →
  Z.land (Z.shiftr b 4) 15 * 16 + Z.land (Z.shiftr b 0) 15 = b.
Proof.
  unfold is_u8. intros Hb. change 15 with (Z.ones 4). rewrite !Z.land_ones by lia.
  rewrite Z.shiftr_0_r, Z.shiftr_div_pow2 by lia. change (2 ^ 4) with 16.
  rewrite (Z.mod_small (b / 16)); [pose proof (Z.div_mod b 16); lia|].
  split; [apply Z.div_pos|apply Z.div_lt_upper_bound]; lia.
Qed.

(** A wrong assertion bound is a panic; inside the bounds the accessors return. *)
Lemma bit_panics h i : (256 ≤ i)%nat → ∃ m, bit h i = Panic m.
Proof.
  intros Hi. unfold bit, LENGTH_IN_BITS. cbn [LENGTH Nat.mul Nat.add].
  rewrite (proj2 (Nat.ltb_ge _ _)) by exact Hi. by eexists.
Qed.

(** ** Properties *)

(** [from_bit_iter] and [iter_bits] are inverse: collecting the bit
    iterator of a hash value and rebuilding gives the same value, and any 256
    bits are the bits of the value built from them, which is well formed. *)
Theorem from_bit_iter_iter_bits h bits :
  wf h → length bits = LENGTH_IN_BITS →
  (iter_bits h ≫= from_bit_iter) = Ok h ∧
  ∃ h', from_bit_iter bits = Ok h' ∧ wf h' ∧ iter_bits h' = Ok bits.
Proof.
  intros Hwf Hl. split.
  - rewrite iter_bits_spec by done. cbn [mbind outcome_bind].
    destruct (from_bit_iter_total (nth_bit (hash h) <$> seq 0 256)) as (h' & -> & Hwf' & E).
    { by rewrite length_fmap, length_seq. }
    f_equal. apply wf_bits_eq; [done|done|]. intros i Hi.
    apply (f_equal (fun l : list bool => l !! i)) in E.
    rewrite !list_lookup_fmap, lookup_seq_lt in E by done. by injection E.
  - destruct (from_bit_iter_total bits Hl) as (h' & Hh & Hwf' & E).
    exists h'. split; [done|]. split; [done|]. by rewrite iter_bits_spec, E.
Qed.

(** [common_prefix_bits_len] is the length of the longest common prefix of
    the two bit strings: all bits before it agree, the bit at it (if any)
    differs, and it is 256 exactly when the two hashes are equal. *)
Theorem common_prefix_bits_len_spec h o :
  wf h → wf o →
  ∃ n, common_prefix_bits_len h o = Ok n ∧ (n ≤ 256)%nat ∧
       (∀ i, (i < n)%nat → bit h i = bit o i) ∧
       ((n < 256)%nat → bit h n ≠ bit o n) ∧ (n = 256%nat ↔ h = o).
Proof.
  intros Hh Ho. rewrite common_prefix_ok by done.
  set (xs := nth_bit (hash h) <$> seq 0 256). set (ys := nth_bit (hash o) <$> seq 0 256).
  assert (Hlx : length xs = 256%nat) by (unfold xs; by rewrite length_fmap, length_seq).
  assert (Hly : length ys = 256%nat) by (unfold ys; by rewrite length_fmap, length_seq).
  destruct (count_common_spec xs ys) as (Hle & Hpre & Hdiff); [congruence|].
  set (n := count_common (zip xs ys)) in *. exists n. rewrite Hlx in Hle.
  assert (Hx : ∀ i, (i < 256)%nat → xs !! i = Some (nth_bit (hash h) i)).
  { intros i Hi. unfold xs. by rewrite list_lookup_fmap, lookup_seq_lt. }
  assert (Hy : ∀ i, (i < 256)%nat → ys !! i = Some (nth_bit (hash o) i)).
  { intros i Hi. unfold ys. by rewrite list_lookup_fmap, lookup_seq_lt. }
  assert (Hbits : ∀ i, (i < n)%nat → nth_bit (hash h) i = nth_bit (hash o) i).
  { intros i Hi. apply (f_equal (fun l : list bool => l !! i)) in Hpre.
    rewrite !lookup_take_lt, Hx, Hy in Hpre by lia. by injection Hpre. }
  split; [done|]. split; [done|]. split.
  { intros i Hi. rewrite !bit_spec by (done || lia). by rewrite Hbits. }
  assert (Hne : (n < 256)%nat → nth_bit (hash h) n ≠ nth_bit (hash o) n).
  { intros Hn. apply Hdiff; [by apply Hx|by apply Hy]. }
  split; [intros Hn; rewrite !bit_spec by done; intros [= E]; by apply Hne|].
  split; [intros ->; by apply wf_bits_eq|].
  intros ->. destruct (decide (n = 256%nat)) as [|Hn]; [done|].
  exfalso. apply Hne; [lia|done].
Qed.

(** the accessors: [bit] returns exactly for an index below 256 and is the
    same bit the iterator yields; the two nibbles of a byte rebuild it. *)
Theorem accessors_agree h i :
  wf h →
  (is_ok (bit h i) = true ↔ (i < 256)%nat) ∧
  (∀ bits, iter_bits h = Ok bits → ∀ b, bits !! i = Some b ↔ bit h i = Ok b) ∧
  (∀ byte, hash h !! i = Some byte → ∃ hi lo,
     nibble h (2 * i) = Ok hi ∧ nibble h (2 * i + 1) = Ok lo ∧ hi * 16 + lo = byte).
Proof.
  intros Hwf. split; [|split].
  - destruct (Nat.lt_ge_cases i 256) as [Hi|Hi].
    + rewrite bit_spec by done. done.
    + destruct (bit_panics h i Hi) as [m ->]. cbn. split; [done|lia].
  - intros bits Hb b. rewrite iter_bits_spec in Hb by done. apply Ok_inj in Hb as <-.
    rewrite list_lookup_fmap. destruct (Nat.lt_ge_cases i 256) as [Hi|Hi].
    + rewrite lookup_seq_lt, bit_spec by done. cbn. naive_solver.
    + destruct (bit_panics h i Hi) as [m ->].
      rewrite lookup_seq_ge by lia. cbn. naive_solver.
  - intros byte Hbyte. destruct Hwf as [Hl Hb].
    assert (Hi : (i < 32)%nat) by (apply lookup_lt_Some in Hbyte; rewrite Hl in Hbyte; exact Hbyte).
    pose proof (Forall_lookup_1 _ _ _ _ Hb Hbyte) as Hu.
    exists (Z.land (Z.shiftr byte 4) 15), (Z.land (Z.shiftr byte 0) 15).
    unfold nibble. cbn [LENGTH Nat.mul Nat.add].
    rewrite !(proj2 (Nat.ltb_lt _ _)) by lia. cbn [rust_assert mbind outcome_bind].
    replace ((i + (i + 0)) / 2)%nat with i by (apply (Nat.div_unique _ _ _ 0); lia).
    replace ((i + (i + 0) + 1) / 2)%nat with i by (apply (Nat.div_unique _ _ _ 1); lia).
    replace ((i + (i + 0)) mod 2)%nat with 0%nat by (apply (Nat.mod_unique _ _ i); lia).
    replace ((i + (i + 0) + 1) mod 2)%nat with 1%nat by (apply (Nat.mod_unique _ _ i); lia).
    rewrite Hbyte. cbn [expect_opt mbind outcome_bind Nat.eqb].
    split; [done|]. split; [done|]. by apply nibble_join.
Qed.

(** hexadecimal text: [from_hex] accepts exactly the texts that read, case
    aside, as [to_hex] of a value, and returns that value; so [to_hex] then
    [from_hex] is the identity, and so is a serde round trip in either kind of
    format. *)
Theorem from_hex_to_hex `{HexCrate} h s human :
  wf h →
  (from_hex s = Ok h ↔ str_lower s = to_hex h) ∧
  from_str (to_hex h) = Ok h ∧
  deserialize human (serialize human h) = Ok h.
Proof.
  intros [Hl Hb]. destruct h as [bs]. cbn [hash] in *.
  assert (Hh : from_hex (to_hex (mk bs)) = Ok (mk bs)).
  { unfold from_hex, to_hex, fmt_lower_hex. cbn [hash String.append].
    by rewrite (hex_decode_array_fmt LENGTH bs) by done. }
  split; [|split; [done|]].
  - unfold from_hex, to_hex, fmt_lower_hex. cbn [hash String.append].
    rewrite fmap_ok. split.
    + intros (bs' & Hd & [= ->]). apply context_opt_ok in Hd.
      apply hex_decode_array_law in Hd as [_ [_ Hs]%hex_decode_law]. exact Hs.
    + intros Hs. exists bs. split; [|done]. apply context_opt_ok, hex_decode_array_law.
      split; [done|]. by apply hex_decode_law.
  - destruct human; cbn [serialize deserialize hash]; [exact Hh|].
    cbn [String.eqb]. unfold from_slice.
    by rewrite (proj2 (array_try_from_ok LENGTH bs bs)).
Qed.

(** the back end of the iterator never yields: [next_back] shortens the
    range before it reads, so [get_bit]'s assertion that the index is below
    [pos.end] fails, at whatever state of a non-empty range; only an exhausted
    iterator answers ([None]). *)
Theorem next_back_never_yields it :
  (if (pos_start it <? pos_end it)%nat
   then ∃ m, next_back it = Panic m else next_back it = Ok (None, it)).
Proof.
  unfold next_back. destruct (pos_start it <? pos_end it)%nat; [|done].
  unfold get_bit. cbn [pos_end]. rewrite Nat.ltb_irrefl. by eexists.
Qed.

(** ** Witnesses and examples *)
Definition sample : t := mk (1 :: repeat 0 29 ++ [171; 255]).
Definition sample2 : t := mk (1 :: 128 :: repeat 0 30).

Lemma hash_sample_wf : wf sample.
Proof. by apply (bool_decide_unpack _). Qed.
Lemma sample2_wf : wf sample2.
Proof. by apply (bool_decide_unpack _). Qed.

Example sample_text : to_hex_literal sample2 =
  "0x0180000000000000000000000000000000000000000000000000000000000000".
Proof. reflexivity. Qed.
Example sample_debug : fmt_display sample2 = "01800000".
Proof. reflexivity. Qed.
Example sample_prefix : common_prefix_bits_len sample sample2 = Ok 8%nat.
Proof. vm_compute. reflexivity. Qed.
Example sample_front : fst <$> next (iter_new sample) = Ok (Some false).
Proof. reflexivity. Qed.

Lemma from_bit_iter_iter_bits_witness :
  (iter_bits sample ≫= from_bit_iter) = Ok sample ∧
  ∃ h', from_bit_iter (repeat true 256) = Ok h' ∧ wf h' ∧ iter_bits h' = Ok (repeat true 256).
Proof. apply from_bit_iter_iter_bits; [apply hash_sample_wf|reflexivity]. Defined.

Lemma common_prefix_bits_len_spec_witness :
  ∃ n, common_prefix_bits_len sample sample2 = Ok n ∧ (n ≤ 256)%nat ∧
       (∀ i, (i < n)%nat → bit sample i = bit sample2 i) ∧
       ((n < 256)%nat → bit sample n ≠ bit sample2 n) ∧ (n = 256%nat ↔ sample = sample2).
Proof. apply common_prefix_bits_len_spec; [apply hash_sample_wf|apply sample2_wf]. Defined.

Lemma accessors_agree_witness :
  (is_ok (bit sample 31) = true ↔ (31 < 256)%nat) ∧
  (∀ bits, iter_bits sample = Ok bits → ∀ b, bits !! 31%nat = Some b ↔ bit sample 31 = Ok b) ∧
  (∀ byte, hash sample !! 31%nat = Some byte → ∃ hi lo,
     nibble sample (2 * 31) = Ok hi ∧ nibble sample (2 * 31 + 1) = Ok lo ∧ hi * 16 + lo = byte).
Proof. apply accessors_agree, hash_sample_wf. Defined.

Lemma from_hex_to_hex_witness :
  (from_hex (to_hex sample2) = Ok sample2 ↔ str_lower (to_hex sample2) = to_hex sample2) ∧
  from_str (to_hex sample2) = Ok sample2 ∧
  deserialize true (serialize true sample2) = Ok sample2.
Proof. apply from_hex_to_hex, sample2_wf. Defined.

End HashValueV5.
