(* ===== verification/LegacyAddress.v ===== *)
(** * compatibility/src/version_five/legacy_address_v5.rs

    The 16-byte account address used before v7: hexadecimal text with and
    without padding, byte conversions, formatting and serialization. *)
From Stdlib Require Import ZArith Lia Ascii.
From stdpp Require Import base option list strings.
From S2P Require Import Prelude RustStr Bytes.

Open Scope Z_scope.

Module LegacyAddressV5.

(** The newtype around [[u8; 16]] is its bytes. *)
Record t := mk { addr_bytes : bytes }.

#[global] Instance t_eq_dec : EqDecision t.
Proof. solve_decision. Defined.

Definition LENGTH : nat := 16.
Definition wf (a : t) : Prop := is_array LENGTH (addr_bytes a).

Definition parse_error : string := "unable to parse AccoutAddress".

Definition new (bs : bytes) : t := mk bs.
Definition ZERO : t := mk (repeat 0 LENGTH).
Definition LEGACY_CORE_CODE_ADDRESS : t :=
  new [0; 0; 0; 0; 0; 0; 0; 0; 0; 0; 0; 0; 0; 0; 0; 1].

Definition to_vec (a : t) : bytes := addr_bytes a.
Definition into_bytes (a : t) : bytes := addr_bytes a.

Definition from_bytes (bs : bytes) : outcome t :=
  mk <$> context_opt parse_error (array_try_from LENGTH bs).
Definition try_from_slice (bs : bytes) : outcome t := from_bytes bs.

(** [{:x}], [{:#x}], [{:X}], [{:#X}], [{}] and [{:?}] *)
Definition fmt_lower_hex (alternate : bool) (a : t) : string :=
  (if alternate then "0x" else "") +:+ fmt_02x (addr_bytes a).
Definition fmt_upper_hex (alternate : bool) (a : t) : string :=
  (if alternate then "0x" else "") +:+ fmt_02X (addr_bytes a).
Definition fmt_display (a : t) : string := fmt_upper_hex false a.
Definition fmt_debug (a : t) : string := fmt_upper_hex false a.

Definition to_hex (a : t) : string := fmt_lower_hex false a.

(** [for _ in 0..n { hex_str.push('0') }] on an empty string *)
Fixpoint zeros (n : nat) : string :=
  match n with O => EmptyString | S n' => String "0" (zeros n') end.

Section operations.
  Context `{HexCrate}.

Definition short_str_lossless (a : t) : string :=
  let hex_str := trim_start_matches "0" (hex_encode (addr_bytes a)) in
  match hex_str with EmptyString => "0" | _ => hex_str end.

Definition to_hex_literal (a : t) : string := "0x" +:+ short_str_lossless a.

Definition from_hex (hex : string) : outcome t :=
  mk <$> context_opt parse_error (hex_decode_array LENGTH hex).

Definition from_hex_literal (literal : string) : outcome t :=
  if negb (starts_with "0x" literal) then Err parse_error else
  let hex_len := (String.length literal - 2)%nat in
  if (hex_len <? LENGTH * 2)%nat then
    rest ← slice_from 2 literal;
    from_hex (zeros (LENGTH * 2 - hex_len) +:+ rest)
  else
    rest ← slice_from 2 literal;
    from_hex rest.

Definition from_str (s : string) : outcome t := from_hex s.
Definition to_string (a : t) : string := hex_encode (addr_bytes a).

Definition serialize (human : bool) (a : t) : serde_value :=
  if human then SerdeStr (to_hex a) else SerdeNewtype "LegacyAddressV5" (addr_bytes a).

(** In a binary format the deserializer yields the fixed-size array itself;
    another length is the deserializer's error. *)
Definition deserialize (human : bool) (v : serde_value) : outcome t :=
  match human, v with
  | true, SerdeStr s => from_hex s
  | false, SerdeNewtype name bs =>
      if String.eqb name "LegacyAddressV5"
      then new <$> context_opt "invalid length" (array_try_from LENGTH bs)
      else Err "invalid type"
  | _, _ => Err "invalid type"
  end.

(** ** Lemmas *)
Lemma trim_zeros s : ∃ k, s = zeros k +:+ trim_start_matches "0" s.
Proof.
  induction s as [|c s [k IH]]; [by exists O|].
  cbn [trim_start_matches]. destruct (Ascii.eqb_spec "0" c) as [<-|_]; [|by exists O].
  exists (S k). cbn. by rewrite <- IH.
Qed.

Lemma zeros_length n : String.length (zeros n) = n.
Proof. induction n as [|n IH]; cbn; [done|]. by rewrite IH. Qed.

Lemma zeros_app a b : zeros a +:+ zeros b = zeros (a + b).
Proof. induction a as [|a IH]; cbn; [done|]. by rewrite IH. Qed.

Lemma from_hex_ok s a :
  from_hex s = Ok a ↔ wf a ∧ str_lower s = fmt_02x (addr_bytes a).
Proof.
  unfold from_hex. rewrite fmap_ok. destruct a as [bs]. split.
  - intros (bs' & Hd & [= ->]). apply context_opt_ok in Hd.
    split; [by apply hex_decode_array_wf in Hd|].
    by apply hex_decode_array_law in Hd as [_ [_ ?]%hex_decode_law].
  - intros [[Hl Hb] Hs]. cbn [addr_bytes] in *. exists bs. split; [|done].
    apply context_opt_ok, hex_decode_array_law. split; [done|]. by apply hex_decode_law.
Qed.

(** What a literal stands for: the digits after the prefix, left-padded. *)
Definition padded (rest : string) : string :=
  zeros (LENGTH * 2 - String.length rest) +:+ rest.

Lemma from_hex_literal_app rest :
  from_hex_literal ("0x" +:+ rest) = from_hex (padded rest).
Proof.
  unfold from_hex_literal. change (starts_with "0x" ("0x" +:+ rest)) with true. cbn [negb].
  change (String.length ("0x" +:+ rest) - 2)%nat with (String.length rest - 0)%nat.
  rewrite Nat.sub_0_r, slice_from_app by done. cbn [mbind outcome_bind]. unfold padded.
  destruct (Nat.ltb_spec (String.length rest) (LENGTH * 2)) as [Hlt|Hge]; [done|].
  by replace (LENGTH * 2 - String.length rest)%nat with O by lia.
Qed.

Lemma padded_short a : wf a → padded (short_str_lossless a) = fmt_02x (addr_bytes a).
Proof.
  intros [Hl Hb]. unfold short_str_lossless. rewrite hex_encode_law by done.
  destruct (trim_zeros (fmt_02x (addr_bytes a))) as [k Hk].
  pose proof (f_equal String.length Hk) as Hlen. unfold fmt_02x in Hlen at 1.
  rewrite fmt_hex_length, str_app_length, zeros_length, Hl in Hlen.
  destruct (trim_start_matches "0" (fmt_02x (addr_bytes a))) as [|c r] eqn:E.
  - rewrite Hk, str_app_nil_r. cbn in Hlen.
    replace k with 32%nat by (unfold LENGTH in Hlen; lia). reflexivity.
  - rewrite Hk. unfold padded. f_equal. f_equal.
    set (m := String.length (String c r)) in *. lia.
Qed.

Lemma hex_roundtrip a : wf a → from_hex (to_hex a) = Ok a.
Proof.
  intros Hwf. apply from_hex_ok. split; [done|]. by apply str_lower_fmt_02x, Hwf.
Qed.

Lemma from_bytes_to_vec a : wf a → from_bytes (to_vec a) = Ok a.
Proof.
  intros [Hl Hb]. unfold from_bytes, to_vec.
  rewrite (proj2 (array_try_from_ok LENGTH _ _) (conj eq_refl Hl)). by destruct a.
Qed.

Lemma deserialize_serialize human a : wf a → deserialize human (serialize human a) = Ok a.
Proof.
  intros Hwf. destruct human; [by apply hex_roundtrip|].
  cbn [serialize deserialize]. rewrite String.eqb_refl.
  rewrite (proj2 (array_try_from_ok LENGTH _ _) (conj eq_refl (proj1 Hwf))). by destruct a.
Qed.

Lemma from_hex_literal_to_hex_literal a :
  wf a → from_hex_literal (to_hex_literal a) = Ok a.
Proof.
  intros Hwf. unfold to_hex_literal. rewrite from_hex_literal_app, padded_short by done.
  by apply hex_roundtrip.
Qed.

(** ** Properties *)

(** [from_hex_literal] accepts exactly "0x" followed by at most 32
    hexadecimal digits of either case (none at all included) and returns the
    address whose padded hexadecimal text they are; every other string is the
    parse error, never a panic. *)
Theorem from_hex_literal_spec s :
  (∀ a, from_hex_literal s = Ok a ↔
     wf a ∧ ∃ rest, s = "0x" +:+ rest ∧ (String.length rest ≤ 32)%nat ∧
                    str_lower (padded rest) = to_hex a) ∧
  (is_ok (from_hex_literal s) = false → from_hex_literal s = Err parse_error).
Proof.
  destruct (starts_with "0x" s) eqn:E.
  - apply starts_with_spec in E as [rest ->]. rewrite from_hex_literal_app. split.
    + intros a. rewrite from_hex_ok. unfold to_hex, fmt_lower_hex. cbn [String.append]. split.
      * intros [Hwf Hs]. split; [done|]. exists rest. split; [done|]. split; [|done].
        assert (from_hex (padded rest) = Ok a) as Ha by by apply from_hex_ok.
        unfold from_hex in Ha. apply fmap_ok in Ha as (bs & Hd & _).
        apply context_opt_ok, hex_decode_array_length in Hd.
        unfold padded in Hd. rewrite str_app_length, zeros_length in Hd.
        unfold LENGTH in Hd. lia.
      * intros [Hwf (r & Hr & _ & Hs)]. split; [done|].
        injection Hr as <-. exact Hs.
    + unfold from_hex. by destruct (hex_decode_array _ _).
  - unfold from_hex_literal. rewrite E. cbn [negb]. split; [|done].
    intros a. split; [done|]. intros [_ (rest & -> & _)].
    unfold starts_with in E. by rewrite strip_prefix_app in E.
Qed.

(** the shortened literal loses nothing: [to_hex_literal] then
    [from_hex_literal] is the identity on addresses, as are [to_hex] (or the
    upper-case [Display]) then [from_hex], the byte conversions and a serde
    round trip. *)
Theorem text_roundtrip a human :
  wf a →
  from_hex_literal (to_hex_literal a) = Ok a ∧
  from_hex (to_hex a) = Ok a ∧ from_str (fmt_display a) = Ok a ∧
  from_bytes (to_vec a) = Ok a ∧ deserialize human (serialize human a) = Ok a.
Proof.
  intros Hwf. split; [by apply from_hex_literal_to_hex_literal|].
  split; [by apply hex_roundtrip|]. split; [|split].
  - apply from_hex_ok. split; [done|]. by apply str_lower_fmt_02X, Hwf.
  - by apply from_bytes_to_vec.
  - by apply deserialize_serialize.
Qed.

End operations.

(** ** Witnesses and examples *)
Definition sample : t := mk [0; 192; 241; 249; 92; 91; 28; 95; 14; 218; 83; 62; 255; 38; 144; 0].

Lemma addr_sample_wf : wf sample.
Proof. by apply (bool_decide_unpack _). Qed.

(** The cases of the source's unit tests. *)
Example short_sample : short_str_lossless sample = "c0f1f95c5b1c5f0eda533eff269000".
Proof. reflexivity. Qed.
Example short_zero : short_str_lossless ZERO = "0".
Proof. reflexivity. Qed.
Example literal_one : from_hex_literal "0x1" = Ok LEGACY_CORE_CODE_ADDRESS.
Proof. vm_compute. reflexivity. Qed.
Example literal_no_prefix :
  from_hex_literal "00000000000000000000000000000001" = Err parse_error.
Proof. reflexivity. Qed.
Example literal_too_long :
  from_hex_literal "0x100000000000000000000000000000001" = Err parse_error.
Proof. vm_compute. reflexivity. Qed.
Example literal_prefix_only : from_hex_literal "0x" = Ok ZERO.
Proof. vm_compute. reflexivity. Qed.

Lemma from_hex_literal_spec_witness :
  (∀ a, from_hex_literal "0xC0" = Ok a ↔
     wf a ∧ ∃ rest, "0xC0"%string = "0x" +:+ rest ∧ (String.length rest ≤ 32)%nat ∧
                    str_lower (padded rest) = to_hex a) ∧
  (is_ok (from_hex_literal "0xC0") = false → from_hex_literal "0xC0" = Err parse_error).
Proof. apply from_hex_literal_spec. Defined.

Lemma text_roundtrip_witness :
  from_hex_literal (to_hex_literal sample) = Ok sample ∧
  from_hex (to_hex sample) = Ok sample ∧ from_str (fmt_display sample) = Ok sample ∧
  from_bytes (to_vec sample) = Ok sample ∧
  deserialize false (serialize false sample) = Ok sample.
Proof. apply text_roundtrip, addr_sample_wf. Defined.

End LegacyAddressV5.
