(* ===== verification/Event.v ===== *)
(** * compatibility/src/version_five/event_v5.rs

    Event keys (a little-endian creation number followed by the creator's
    address) and event handles. *)
From Stdlib Require Import ZArith Lia Ascii.
From stdpp Require Import base option list strings.
From S2P Require Import Prelude RustStr Bytes LegacyAddress.

Open Scope Z_scope.

Module EventKeyV5.

Record t := mk { key_bytes : bytes }.

#[global] Instance t_eq_dec : EqDecision t.
Proof. solve_decision. Defined.

Definition LENGTH : nat := LegacyAddressV5.LENGTH + 8.
Definition wf (k : t) : Prop := is_array LENGTH (key_bytes k).

Definition parse_error : string := "unable to parse EventKey".

Definition new (key : bytes) : t := mk key.
Definition as_bytes (k : t) : bytes := key_bytes k.
Definition to_vec (k : t) : bytes := key_bytes k.

(** The last 16 bytes; the slice index is in range by the type of the key. *)
Definition get_creator_address (k : t) : outcome LegacyAddressV5.t :=
  expect_res "get_creator_address failed"
    (LegacyAddressV5.try_from_slice (drop (LENGTH - LegacyAddressV5.LENGTH) (key_bytes k))).

(** [u64::from_le_bytes(self.0[0..8].try_into().unwrap())] *)
Definition get_creation_number (k : t) : outcome Z :=
  from_le <$> expect_opt "called `Result::unwrap()`" (array_try_from 8 (take 8 (key_bytes k))).

(** The two halves of a zeroed buffer are overwritten; [copy_from_slice]
    panics when the lengths differ. *)
Definition copy_from_slice (dst src : bytes) : outcome bytes :=
  if (length dst =? length src)%nat then Ok src
  else Panic "source slice length does not match destination slice length".

Definition new_from_address (addr : LegacyAddressV5.t) (salt : Z) : outcome t :=
  let output_bytes := repeat 0 LENGTH in
  lhs ← copy_from_slice (take 8 output_bytes) (le_bytes 8 salt);
  rhs ← copy_from_slice (drop 8 output_bytes) (LegacyAddressV5.addr_bytes addr);
  Ok (mk (lhs ++ rhs)).

Definition from_bytes (bs : bytes) : outcome t :=
  mk <$> context_opt parse_error (array_try_from LENGTH bs).
Definition try_from_slice (bs : bytes) : outcome t := from_bytes bs.

Definition fmt_lower_hex (alternate : bool) (k : t) : string :=
  (if alternate then "0x" else "") +:+ fmt_02x (key_bytes k).
Definition fmt_display (k : t) : string := fmt_lower_hex false k.
Definition fmt_debug (k : t) : string := "EventKey(" +:+ fmt_lower_hex false k +:+ ")".

Definition from_hex `{HexCrate} (hex : string) : outcome t :=
  mk <$> context_opt parse_error (hex_decode_array LENGTH hex).
Definition from_str `{HexCrate} (s : string) : outcome t := from_hex s.

Definition serialize (human : bool) (k : t) : serde_value :=
  if human then SerdeStr (fmt_display k) else SerdeNewtype "EventKey" (key_bytes k).

Definition deserialize `{HexCrate} (human : bool) (v : serde_value) : outcome t :=
  match human, v with
  | true, SerdeStr s => from_hex s
  | false, SerdeNewtype name bs =>
      if String.eqb name "EventKey" then try_from_slice bs else Err "invalid type"
  | _, _ => Err "invalid type"
  end.

(** ** Lemmas *)
Lemma creator_of_app pre bs :
  length pre = 8%nat → is_array 16 bs →
  get_creator_address (mk (pre ++ bs)) = Ok (LegacyAddressV5.mk bs).
Proof.
  intros Hp [Hl Hb]. unfold get_creator_address. cbn [key_bytes].
  rewrite skipn_app_exact by (rewrite Hp; reflexivity).
  unfold LegacyAddressV5.try_from_slice, LegacyAddressV5.from_bytes.
  by rewrite (proj2 (array_try_from_ok LegacyAddressV5.LENGTH bs bs)).
Qed.

Lemma creation_number_of_app pre bs :
  length pre = 8%nat → get_creation_number (mk (pre ++ bs)) = Ok (from_le pre).
Proof.
  intros Hp. unfold get_creation_number. cbn [key_bytes].
  rewrite firstn_app_exact by done. by rewrite (proj2 (array_try_from_ok 8 pre pre)).
Qed.

Lemma new_from_address_eq addr salt :
  LegacyAddressV5.wf addr →
  new_from_address addr salt = Ok (mk (le_bytes 8 salt ++ LegacyAddressV5.addr_bytes addr)).
Proof.
  intros [Hl Hb]. unfold new_from_address, copy_from_slice.
  rewrite le_bytes_length, Hl. reflexivity.
Qed.

(** A well-formed key is its two halves. *)
Lemma wf_split k :
  wf k → ∃ pre post, k = mk (pre ++ post) ∧ is_array 8 pre ∧ is_array 16 post.
Proof.
  intros [Hl Hb]. destruct k as [bs]. cbn [key_bytes] in *.
  exists (take 8 bs), (drop 8 bs). rewrite take_drop. split; [done|].
  unfold is_array, LENGTH, LegacyAddressV5.LENGTH in *. rewrite length_take, length_drop, Hl.
  split; split; try done; [by apply Forall_take|by apply Forall_drop].
Qed.

(** ** Properties *)

(** an event key is the pair of its creator's address and its creation
    number: for every address and every [u64] the built key is well formed and
    gives both back, and every well-formed key is rebuilt from the two parts,
    none of the calls panicking. *)
Theorem key_parts_roundtrip addr salt k :
  LegacyAddressV5.wf addr → is_u64 salt → wf k →
  (∃ k', new_from_address addr salt = Ok k' ∧ wf k' ∧
         get_creator_address k' = Ok addr ∧ get_creation_number k' = Ok salt) ∧
  (∃ a n, get_creator_address k = Ok a ∧ get_creation_number k = Ok n ∧
          LegacyAddressV5.wf a ∧ is_u64 n ∧ new_from_address a n = Ok k).
Proof.
  intros Ha Hs Hk. split.
  - rewrite new_from_address_eq by done. destruct addr as [bs], Ha as [Hl Hb].
    cbn [LegacyAddressV5.addr_bytes] in *. eexists. split; [done|]. split; [|split].
    + split; cbn [key_bytes].
      * by rewrite length_app, le_bytes_length, Hl.
      * apply Forall_app. split; [apply le_bytes_wf|done].
    + by apply creator_of_app; [apply le_bytes_length|].
    + rewrite creation_number_of_app, from_le_bytes; [done| |apply le_bytes_length].
      unfold is_u64, u64_max in Hs. change (256 ^ Z.of_nat 8) with 18446744073709551616. lia.
  - destruct (wf_split k Hk) as (pre & post & -> & [Hl Hb] & Hpost).
    exists (LegacyAddressV5.mk post), (from_le pre).
    pose proof (from_le_range pre Hb) as Hr. rewrite Hl in Hr.
    change (256 ^ Z.of_nat 8) with 18446744073709551616 in Hr.
    split; [by apply creator_of_app|]. split; [by apply creation_number_of_app|].
    split; [exact Hpost|]. split; [unfold is_u64, u64_max; lia|].
    rewrite new_from_address_eq by exact Hpost. cbn [LegacyAddressV5.addr_bytes].
    by rewrite <- Hl, le_bytes_from.
Qed.

Lemma from_hex_display `{HexCrate} k : wf k → from_hex (fmt_display k) = Ok k.
Proof.
  intros Hwf. destruct k as [bs]. unfold from_hex, fmt_display, fmt_lower_hex.
  cbn [key_bytes String.append]. by rewrite (hex_decode_array_fmt LENGTH bs).
Qed.

(** parsing undoes printing for event keys, in text and in a serde round
    trip of either kind of format. *)
Theorem key_text_roundtrip `{HexCrate} k human :
  wf k →
  from_str (fmt_display k) = Ok k ∧ from_bytes (to_vec k) = Ok k ∧
  deserialize human (serialize human k) = Ok k.
Proof.
  intros Hwf. pose proof (from_hex_display k Hwf) as Hh. destruct Hwf as [Hl Hb].
  assert (Hbs : from_bytes (to_vec k) = Ok k).
  { unfold from_bytes, to_vec. rewrite (proj2 (array_try_from_ok LENGTH _ _) (conj eq_refl Hl)).
    by destruct k. }
  split; [done|]. split; [done|]. destruct human; [exact Hh|exact Hbs].
Qed.

(** ** Witnesses and examples *)
Definition sample : t :=
  mk [16; 0; 0; 0; 0; 0; 0; 0; 202; 132; 50; 121; 227; 66; 113; 68; 206; 173; 94; 77; 89; 153; 163; 208].

Lemma key_sample_wf : wf sample.
Proof. by apply (bool_decide_unpack _). Qed.

Example sample_display : fmt_display sample = "1000000000000000ca843279e3427144cead5e4d5999a3d0".
Proof. reflexivity. Qed.
Example sample_number : get_creation_number sample = Ok 16.
Proof. reflexivity. Qed.
Example wrong_length : from_bytes (repeat 1 123) = Err parse_error.
Proof. reflexivity. Qed.

Lemma key_parts_roundtrip_witness :
  (∃ k', new_from_address LegacyAddressV5.sample 258 = Ok k' ∧ wf k' ∧
         get_creator_address k' = Ok LegacyAddressV5.sample ∧ get_creation_number k' = Ok 258) ∧
  (∃ a n, get_creator_address sample = Ok a ∧ get_creation_number sample = Ok n ∧
          LegacyAddressV5.wf a ∧ is_u64 n ∧ new_from_address a n = Ok sample).
Proof.
  apply key_parts_roundtrip;
    [apply LegacyAddressV5.addr_sample_wf|by apply (bool_decide_unpack _)|apply key_sample_wf].
Defined.

Lemma key_text_roundtrip_witness :
  from_str (fmt_display sample) = Ok sample ∧ from_bytes (to_vec sample) = Ok sample ∧
  deserialize true (serialize true sample) = Ok sample.
Proof. apply key_text_roundtrip, key_sample_wf. Defined.

End EventKeyV5.

Module EventHandleV5.

Record t := mk { count : Z; key : EventKeyV5.t }.

#[global] Instance t_eq_dec : EqDecision t.
Proof. solve_decision. Defined.

Definition wf (h : t) : Prop := is_u64 (count h) ∧ EventKeyV5.wf (key h).

Definition new (k : EventKeyV5.t) (c : Z) : t := mk c k.

End EventHandleV5.
