(* ===== verification/LanguageStorage.v ===== *)
(** * compatibility/src/version_five/{safe_serialize_v5, language_storage_v5}.rs

    Type tags and struct tags of the v5 Move VM, their serialization under the
    thread-local nesting counter, their text, and the storage keys
    ([access_vector]) derived from them.

    A serializer is modelled by the tree of serde data-model calls it receives
    ([content]); the counter is threaded as state. *)
From Stdlib Require Import ZArith Lia Ascii.
From stdpp Require Import base option list strings countable.
From S2P Require Import Prelude RustStr Bytes LegacyAddress.

Open Scope Z_scope.

(** ** The serde data model of the types below *)
Inductive content :=
| CVariant (idx : nat) (payload : list content)
| CStruct (fields : list content)
| CSeq (elems : list content)
| CStr (s : string)
| CLeaf (v : serde_value).

(** ** safe_serialize_v5.rs: a computation that may move the counter *)
Definition depth_m (A : Type) : Type := Z → Z * outcome A.

#[export] Instance depth_ret : MRet depth_m := fun A a d => (d, Ok a).
#[export] Instance depth_bind : MBind depth_m := fun A B f m d =>
  match m d with
  | (d', Ok a) => f a d'
  | (d', Err e) => (d', Err e)
  | (d', Panic p) => (d', Panic p)
  end.
Definition depth_err {A} (e : string) : depth_m A := fun d => (d, Err e).

Definition MAX_TYPE_TAG_NESTING : Z := 9.
Definition ser_exceeded : string := "type tag nesting exceeded during serialization".
Definition de_exceeded : string := "type tag nesting exceeded during deserialization".

Definition type_tag_recursive_serialize {O} (body : depth_m O) : depth_m O := fun depth =>
  if MAX_TYPE_TAG_NESTING <=? depth then (depth, Err ser_exceeded)
  else let '(d, res) := body (u8_wrap (depth + 1)) in (u8_wrap (d - 1), res).

Definition type_tag_recursive_deserialize {T} (body : depth_m T) : depth_m T := fun depth =>
  if MAX_TYPE_TAG_NESTING - 1 <=? depth then (depth, Err de_exceeded)
  else let '(d, res) := body (u8_wrap (depth + 1)) in (u8_wrap (d - 1), res).

(** ** language_storage_v5.rs *)
Definition CODE_TAG : Z := 0.
Definition RESOURCE_TAG : Z := 1.
Definition CORE_CODE_ADDRESS : LegacyAddressV5.t :=
  LegacyAddressV5.new [0; 0; 0; 0; 0; 0; 0; 0; 0; 0; 0; 0; 0; 0; 0; 1].

(** [move_core_types]' [Identifier] is its text. *)
Inductive TypeTagV5 : Set :=
| TBool | TU8 | TU64 | TU128 | TAddress | TSigner
| TVector (t : TypeTagV5)
| TStruct (s : StructTagV5)
with StructTagV5 : Set :=
| mkStructTag (address : LegacyAddressV5.t) (module name : string) (type_params : list TypeTagV5).

Definition st_address (s : StructTagV5) := let 'mkStructTag a _ _ _ := s in a.
Definition st_module (s : StructTagV5) := let 'mkStructTag _ m _ _ := s in m.
Definition st_name (s : StructTagV5) := let 'mkStructTag _ _ n _ := s in n.
Definition st_type_params (s : StructTagV5) := let 'mkStructTag _ _ _ ps := s in ps.

Record ModuleIdV5 := mkModuleId { mi_address : LegacyAddressV5.t; mi_name : string }.

Definition module_id (s : StructTagV5) : ModuleIdV5 := mkModuleId (st_address s) (st_module s).

Record ResourceKeyV5 := mkResourceKey { rk_address : LegacyAddressV5.t; rk_type : StructTagV5 }.

(** The derived [Serialize]: variants in declaration order, the fields of
    [Vector] and [Struct] through [type_tag_recursive_serialize]. *)
Section serialize.
  Context (human : bool).

Fixpoint ser_tag (t : TypeTagV5) : depth_m content :=
  match t with
  | TBool => mret (CVariant 0 [])
  | TU8 => mret (CVariant 1 [])
  | TU64 => mret (CVariant 2 [])
  | TU128 => mret (CVariant 3 [])
  | TAddress => mret (CVariant 4 [])
  | TSigner => mret (CVariant 5 [])
  | TVector e => c ← type_tag_recursive_serialize (ser_tag e); mret (CVariant 6 [c])
  | TStruct s => c ← type_tag_recursive_serialize (ser_struct s); mret (CVariant 7 [c])
  end
with ser_struct (s : StructTagV5) : depth_m content :=
  match s with
  | mkStructTag a m n ps =>
      cs ← (fix go (l : list TypeTagV5) : depth_m (list content) :=
              match l with
              | [] => mret []
              | p :: l' => c ← ser_tag p; cs ← go l'; mret (c :: cs)
              end) ps;
      mret (CStruct [CLeaf (LegacyAddressV5.serialize human a); CStr m; CStr n; CSeq cs])
  end.

(** The derived [Deserialize]; [ident_de] is [Identifier]'s own. *)
  Context `{HexCrate} (ident_de : string → outcome string).

Definition lift {A} (m : outcome A) : depth_m A := fun d => (d, m).

Fixpoint de_tag (c : content) : depth_m TypeTagV5 :=
  match c with
  | CVariant 0 [] => mret TBool
  | CVariant 1 [] => mret TU8
  | CVariant 2 [] => mret TU64
  | CVariant 3 [] => mret TU128
  | CVariant 4 [] => mret TAddress
  | CVariant 5 [] => mret TSigner
  | CVariant 6 [e] => t ← type_tag_recursive_deserialize (de_tag e); mret (TVector t)
  | CVariant 7 [s] => t ← type_tag_recursive_deserialize (de_struct s); mret (TStruct t)
  | _ => depth_err "invalid type"
  end
with de_struct (c : content) : depth_m StructTagV5 :=
  match c with
  | CStruct [CLeaf a; CStr m; CStr n; CSeq cs] =>
      a' ← lift (LegacyAddressV5.deserialize human a);
      m' ← lift (ident_de m);
      n' ← lift (ident_de n);
      ps ← (fix go (l : list content) : depth_m (list TypeTagV5) :=
              match l with
              | [] => mret []
              | c :: l' => p ← de_tag c; ps ← go l'; mret (p :: ps)
              end) cs;
      mret (mkStructTag a' m' n' ps)
  | _ => depth_err "invalid type"
  end.

End serialize.

(** Addresses are 16 bytes and names are identifiers that parse. *)
Fixpoint tag_wf (ok : string → Prop) (t : TypeTagV5) : Prop :=
  match t with
  | TVector e => tag_wf ok e
  | TStruct s => struct_wf ok s
  | _ => True
  end
with struct_wf (ok : string → Prop) (s : StructTagV5) : Prop :=
  match s with
  | mkStructTag a m n ps =>
      LegacyAddressV5.wf a ∧ ok m ∧ ok n ∧
      (fix go (l : list TypeTagV5) : Prop :=
         match l with [] => True | p :: l' => tag_wf ok p ∧ go l' end) ps
  end.

(** *** Storage keys

    [bcs::to_bytes] runs the derived serializer (not human readable) and
    writes the bytes of the tree.  The byte format is the [bcs] crate's; the
    code relies on it being canonical: two values of one type with the same
    bytes are the same. *)
Class BcsFormat := {
  bcs_emit : content → outcome bytes;
  bcs_emit_struct_inj (s1 s2 : StructTagV5) c1 c2 b :
    snd (ser_struct false s1 0) = Ok c1 → snd (ser_struct false s2 0) = Ok c2 →
    struct_wf (fun _ => True) s1 → struct_wf (fun _ => True) s2 →
    bcs_emit c1 = Ok b → bcs_emit c2 = Ok b → s1 = s2;
  bcs_emit_struct_ok (s : StructTagV5) c :
    snd (ser_struct false s 0) = Ok c → ∃ b, bcs_emit c = Ok b
}.

Section keys.
  Context `{BcsFormat}.

Definition bcs_struct_tag (s : StructTagV5) : outcome bytes :=
  snd (ser_struct false s 0) ≫= bcs_emit.

Definition struct_access_vector (s : StructTagV5) : outcome bytes :=
  let key := [RESOURCE_TAG] in
  b ← expect_res "called `Result::unwrap()`" (bcs_struct_tag s);
  Ok (key ++ b).

Definition module_access_vector (m : ModuleIdV5) : outcome bytes :=
  let key := [CODE_TAG] in
  b ← expect_res "called `Result::unwrap()`"
        (bcs_emit (CStruct [CLeaf (LegacyAddressV5.serialize false (mi_address m)); CStr (mi_name m)]));
  Ok (key ++ b).

End keys.

(** *** Text *)
Section display.
  Context `{HexCrate}.

Fixpoint fmt_tag (t : TypeTagV5) : string :=
  match t with
  | TStruct s => fmt_struct s
  | TVector ty => "vector<" +:+ fmt_tag ty +:+ ">"
  | TU8 => "u8" | TU64 => "u64" | TU128 => "u128"
  | TAddress => "address" | TSigner => "signer" | TBool => "bool"
  end
with fmt_struct (s : StructTagV5) : string :=
  match s with
  | mkStructTag a m n ps =>
      "0x" +:+ LegacyAddressV5.short_str_lossless a +:+ "::" +:+ m +:+ "::" +:+ n +:+
      match ps with
      | [] => ""
      | p :: ps' =>
          "<" +:+ fmt_tag p +:+
          (fix go (l : list TypeTagV5) : string :=
             match l with
             | [] => ""
             | ty :: l' => ", " +:+ fmt_tag ty +:+ go l'
             end) ps' +:+ ">"
      end
  end.

Definition fmt_module_id (m : ModuleIdV5) : string :=
  LegacyAddressV5.fmt_display (mi_address m) +:+ "::" +:+ mi_name m.

Definition fmt_resource_key (k : ResourceKeyV5) : string :=
  "0x" +:+ LegacyAddressV5.short_str_lossless (rk_address k) +:+ "/" +:+ fmt_struct (rk_type k).

End display.

(** ** Specification: how deep a tag nests, and the tree it serializes to *)
Fixpoint nesting (t : TypeTagV5) : Z :=
  match t with
  | TVector e => 1 + nesting e
  | TStruct s => 1 + struct_nesting s
  | _ => 0
  end
with struct_nesting (s : StructTagV5) : Z :=
  match s with
  | mkStructTag _ _ _ ps =>
      (fix go (l : list TypeTagV5) : Z :=
         match l with [] => 0 | p :: l' => Z.max (nesting p) (go l') end) ps
  end.

Definition max_nesting (l : list TypeTagV5) : Z := foldr (fun p => Z.max (nesting p)) 0 l.

Fixpoint tree (human : bool) (t : TypeTagV5) : content :=
  match t with
  | TBool => CVariant 0 [] | TU8 => CVariant 1 [] | TU64 => CVariant 2 []
  | TU128 => CVariant 3 [] | TAddress => CVariant 4 [] | TSigner => CVariant 5 []
  | TVector e => CVariant 6 [tree human e]
  | TStruct s => CVariant 7 [struct_tree human s]
  end
with struct_tree (human : bool) (s : StructTagV5) : content :=
  match s with
  | mkStructTag a m n ps =>
      CStruct [CLeaf (LegacyAddressV5.serialize human a); CStr m; CStr n;
               CSeq (map (tree human) ps)]
  end.

(** ** Induction over tags and the lists inside them *)
Section induction.
  Context (P : TypeTagV5 → Prop) (Q : StructTagV5 → Prop).
  Context (HBool : P TBool) (HU8 : P TU8) (HU64 : P TU64) (HU128 : P TU128)
          (HAddress : P TAddress) (HSigner : P TSigner)
          (HVector : ∀ e, P e → P (TVector e)) (HStruct : ∀ s, Q s → P (TStruct s))
          (HTag : ∀ a m n ps, Forall P ps → Q (mkStructTag a m n ps)).

Fixpoint tag_ind' (t : TypeTagV5) : P t :=
  match t with
  | TBool => HBool | TU8 => HU8 | TU64 => HU64 | TU128 => HU128
  | TAddress => HAddress | TSigner => HSigner
  | TVector e => HVector e (tag_ind' e)
  | TStruct s => HStruct s (struct_ind' s)
  end
with struct_ind' (s : StructTagV5) : Q s :=
  match s with
  | mkStructTag a m n ps =>
      HTag a m n ps
        ((fix go (l : list TypeTagV5) : Forall P l :=
            match l with
            | [] => Forall_nil_2 P
            | p :: l' => Forall_cons_2 P p l' (tag_ind' p) (go l')
            end) ps)
  end.

Lemma tag_struct_ind : (∀ t, P t) ∧ (∀ s, Q s).
Proof. split; [exact tag_ind'|exact struct_ind']. Qed.
End induction.

(** ** Lemmas *)
Lemma struct_nesting_max a m n ps : struct_nesting (mkStructTag a m n ps) = max_nesting ps.
Proof. cbn [struct_nesting]. induction ps as [|p ps IH]; cbn; [done|]. by rewrite IH. Qed.

Lemma nesting_nonneg : (∀ t, 0 ≤ nesting t) ∧ (∀ s, 0 ≤ struct_nesting s).
Proof.
  apply tag_struct_ind; cbn [nesting]; try (intros; lia).
  intros a m n ps Hps. rewrite struct_nesting_max. unfold max_nesting. induction Hps; cbn; lia.
Qed.

Lemma max_nesting_nonneg ps : 0 ≤ max_nesting ps.
Proof. unfold max_nesting. induction ps as [|p ps IH]; cbn; [lia|]. destruct (nesting_nonneg) as [Hn _]. specialize (Hn p). lia. Qed.

Lemma rec_ser_spec {O} (body : depth_m O) n c d :
  (∀ d, 0 ≤ d ≤ 9 → body d = (d, if d + n <=? 9 then Ok c else Err ser_exceeded)) →
  0 ≤ n → 0 ≤ d ≤ 9 →
  type_tag_recursive_serialize body d =
  (d, if d + (1 + n) <=? 9 then Ok c else Err ser_exceeded).
Proof.
  intros Hb Hn Hd. unfold type_tag_recursive_serialize, MAX_TYPE_TAG_NESTING.
  destruct (Z.leb_spec 9 d).
  - destruct (Z.leb_spec (d + (1 + n)) 9); [lia|done].
  - unfold u8_wrap. rewrite (Z.mod_small (d + 1)) by lia. rewrite Hb by lia.
    rewrite Z.mod_small by lia. replace (d + 1 - 1) with d by lia.
    by replace (d + (1 + n)) with (d + 1 + n) by lia.
Qed.

Lemma rec_de_spec {T} (body : depth_m T) n t d :
  (∀ d, 0 ≤ d ≤ 8 → body d = (d, if d + n <=? 8 then Ok t else Err de_exceeded)) →
  0 ≤ n → 0 ≤ d ≤ 8 →
  type_tag_recursive_deserialize body d =
  (d, if d + (1 + n) <=? 8 then Ok t else Err de_exceeded).
Proof.
  intros Hb Hn Hd. unfold type_tag_recursive_deserialize.
  change (MAX_TYPE_TAG_NESTING - 1) with 8.
  destruct (Z.leb_spec 8 d).
  - destruct (Z.leb_spec (d + (1 + n)) 8); [lia|done].
  - unfold u8_wrap. rewrite (Z.mod_small (d + 1)) by lia. rewrite Hb by lia.
    rewrite Z.mod_small by lia. replace (d + 1 - 1) with d by lia.
    by replace (d + (1 + n)) with (d + 1 + n) by lia.
Qed.

Lemma bind_if {A B} (f : A → depth_m B) (m : depth_m A) d (b : bool) c e r :
  m d = (d, if b then Ok c else Err e) → (b = true → f c d = (d, r)) →
  (m ≫= f) d = (d, if b then r else Err e).
Proof. intros Hm Hf. unfold mbind, depth_bind. rewrite Hm. by destruct b; [rewrite Hf|]. Qed.

Lemma bind_run {A B} (f : A → depth_m B) (m : depth_m A) d d' a :
  m d = (d', Ok a) → (m ≫= f) d = f a d'.
Proof. intros Hm. unfold mbind, depth_bind. by rewrite Hm. Qed.

Lemma bind_fail {A B} (f : A → depth_m B) (m : depth_m A) d d' e :
  m d = (d', Err e) → (m ≫= f) d = (d', Err e).
Proof. intros Hm. unfold mbind, depth_bind. by rewrite Hm. Qed.

Lemma leb_max a b d k : (d + Z.max a b <=? k) = ((d + a <=? k) && (d + b <=? k)).
Proof. destruct (Z.leb_spec (d + Z.max a b) k), (Z.leb_spec (d + a) k), (Z.leb_spec (d + b) k); cbn; lia. Qed.

Lemma ser_spec human :
  (∀ t d, 0 ≤ d ≤ 9 → ser_tag human t d =
     (d, if d + nesting t <=? 9 then Ok (tree human t) else Err ser_exceeded)) ∧
  (∀ s d, 0 ≤ d ≤ 9 → ser_struct human s d =
     (d, if d + struct_nesting s <=? 9 then Ok (struct_tree human s) else Err ser_exceeded)).
Proof.
  apply tag_struct_ind;
    try (intros d Hd; cbn [nesting]; rewrite (proj2 (Z.leb_le _ _)) by lia; done).
  - intros e IH d Hd. cbn [ser_tag nesting]. eapply bind_if; [|done].
    by apply rec_ser_spec; [|apply nesting_nonneg|].
  - intros s IH d Hd. cbn [ser_tag nesting]. eapply bind_if; [|done].
    by apply rec_ser_spec; [|apply nesting_nonneg|].
  - intros a m n ps Hps d Hd. rewrite struct_nesting_max. cbn [ser_struct].
    apply (bind_if _ _ d _ (map (tree human) ps) ser_exceeded); [|done].
    induction Hps as [|p ps Hp Hps IH].
    + cbn [max_nesting foldr]. rewrite (proj2 (Z.leb_le _ _)) by lia. done.
    + cbn [max_nesting foldr]. fold (max_nesting ps). rewrite leb_max.
      specialize (Hp d Hd). destruct (d + nesting p <=? 9); cbn [andb].
      * rewrite (bind_run _ _ _ _ _ Hp). by eapply bind_if; [apply IH|].
      * by rewrite (bind_fail _ _ _ _ _ Hp).
Qed.

Lemma de_spec `{HexCrate} human ident_de :
  let ok s := ident_de s = Ok s in
  (∀ t, tag_wf ok t → ∀ d, 0 ≤ d ≤ 8 → de_tag human ident_de (tree human t) d =
     (d, if d + nesting t <=? 8 then Ok t else Err de_exceeded)) ∧
  (∀ s, struct_wf ok s → ∀ d, 0 ≤ d ≤ 8 → de_struct human ident_de (struct_tree human s) d =
     (d, if d + struct_nesting s <=? 8 then Ok s else Err de_exceeded)).
Proof.
  intros ok. apply tag_struct_ind;
    try (intros _ d Hd; cbn [nesting]; rewrite (proj2 (Z.leb_le _ _)) by lia; done).
  - intros e IH Hwf d Hd. cbn [tree de_tag nesting]. eapply bind_if; [|done].
    apply rec_de_spec; [by apply IH|apply nesting_nonneg|done].
  - intros s IH Hwf d Hd. cbn [tree de_tag nesting]. eapply bind_if; [|done].
    apply rec_de_spec; [by apply IH|apply nesting_nonneg|done].
  - intros a m n ps Hps (Ha & Hm & Hn & Hwf) d Hd. rewrite struct_nesting_max.
    cbn [struct_tree de_struct].
    erewrite bind_run; [|unfold lift; by rewrite LegacyAddressV5.deserialize_serialize].
    erewrite bind_run; [|unfold lift; by rewrite Hm].
    erewrite bind_run; [|unfold lift; by rewrite Hn].
    apply (bind_if _ _ d _ ps de_exceeded); [|done].
    induction Hps as [|p ps Hp Hps IH].
    + cbn [max_nesting foldr map]. rewrite (proj2 (Z.leb_le _ _)) by lia. done.
    + destruct Hwf as [Hwp Hwf]. cbn [max_nesting foldr map]. fold (max_nesting ps).
      rewrite leb_max. specialize (Hp Hwp d Hd). destruct (d + nesting p <=? 8); cbn [andb].
      * rewrite (bind_run _ _ _ _ _ Hp). by eapply bind_if; [apply IH|].
      * by rewrite (bind_fail _ _ _ _ _ Hp).
Qed.

(** ** A concrete byte format

    BCS as its specification writes it: a ULEB128 variant index or length,
    then the contents; the address is sixteen raw bytes. *)
Fixpoint uleb_go (fuel : nat) (n : Z) : bytes :=
  match fuel with
  | O => [n]
  | S f => if n <? 128 then [n] else (n mod 128 + 128) :: uleb_go f (n / 128)
  end.
Definition uleb (n : nat) : bytes := uleb_go n (Z.of_nat n).

Fixpoint ref_emit (c : content) : bytes :=
  match c with
  | CVariant idx ps => uleb idx ++ (fix go l := match l with [] => [] | p :: l' => ref_emit p ++ go l' end) ps
  | CStruct fs => (fix go l := match l with [] => [] | p :: l' => ref_emit p ++ go l' end) fs
  | CSeq es => uleb (length es) ++ (fix go l := match l with [] => [] | p :: l' => ref_emit p ++ go l' end) es
  | CStr s => uleb (String.length s) ++ str_bytes s
  | CLeaf (SerdeStr s) => uleb (String.length s) ++ str_bytes s
  | CLeaf (SerdeNewtype _ bs) => bs
  end.

Definition emit_all : list content → bytes :=
  fix go l := match l with [] => [] | p :: l' => ref_emit p ++ go l' end.

Lemma uleb_go_app f1 f2 n m r1 r2 :
  0 ≤ n ≤ Z.of_nat f1 → 0 ≤ m ≤ Z.of_nat f2 →
  uleb_go f1 n ++ r1 = uleb_go f2 m ++ r2 → n = m ∧ r1 = r2.
Proof.
  revert f2 n m. induction f1 as [|f1 IH]; intros [|f2] n m Hn Hm; cbn [uleb_go];
    try destruct (Z.ltb_spec n 128); try destruct (Z.ltb_spec m 128); cbn [app];
    intros [= H1 H2]; try lia; try (by subst);
    try (pose proof (Z.mod_pos_bound n 128)); try (pose proof (Z.mod_pos_bound m 128)); try lia.
  apply IH in H2 as [H2 ->].
  - split; [|done]. rewrite (Z.div_mod n 128), (Z.div_mod m 128) by lia. lia.
  - split; [apply Z.div_pos; lia|]. apply Z.div_le_upper_bound; lia.
  - split; [apply Z.div_pos; lia|]. apply Z.div_le_upper_bound; lia.
Qed.

Lemma uleb_app n m r1 r2 : uleb n ++ r1 = uleb m ++ r2 → n = m ∧ r1 = r2.
Proof. intros H. apply uleb_go_app in H as [H ->]; [|lia|lia]. by split; [lia|]. Qed.

Lemma str_app_bytes s1 s2 r1 r2 :
  uleb (String.length s1) ++ str_bytes s1 ++ r1 = uleb (String.length s2) ++ str_bytes s2 ++ r2 →
  s1 = s2 ∧ r1 = r2.
Proof.
  intros [Hl H]%uleb_app.
  apply app_inj_1 in H as [H ->]; [|by rewrite !str_bytes_length].
  by apply str_bytes_inj in H.
Qed.

Lemma addr_app_bytes a1 a2 r1 r2 :
  LegacyAddressV5.wf a1 → LegacyAddressV5.wf a2 →
  LegacyAddressV5.addr_bytes a1 ++ r1 = LegacyAddressV5.addr_bytes a2 ++ r2 → a1 = a2 ∧ r1 = r2.
Proof.
  intros [H1 _] [H2 _] H. apply app_inj_1 in H as [H ->]; [|congruence].
  by destruct a1, a2; cbn in H; subst.
Qed.

Definition tag_idx (t : TypeTagV5) : nat :=
  match t with
  | TBool => 0 | TU8 => 1 | TU64 => 2 | TU128 => 3 | TAddress => 4 | TSigner => 5
  | TVector _ => 6 | TStruct _ => 7
  end.

Lemma emit_tag_idx t :
  ref_emit (tree false t) = uleb (tag_idx t) ++
    match t with
    | TVector e => ref_emit (tree false e)
    | TStruct s => ref_emit (struct_tree false s)
    | _ => []
    end.
Proof. destruct t; cbn [tree ref_emit tag_idx]; by rewrite ?app_nil_r. Qed.

(** No encoding of a tag is a proper prefix of another's. *)
Lemma ref_emit_prefix_free :
  let wf := tag_wf (fun _ => True) in let swf := struct_wf (fun _ => True) in
  (∀ t1, wf t1 → ∀ t2 r1 r2, wf t2 →
     ref_emit (tree false t1) ++ r1 = ref_emit (tree false t2) ++ r2 → t1 = t2 ∧ r1 = r2) ∧
  (∀ s1, swf s1 → ∀ s2 r1 r2, swf s2 →
     ref_emit (struct_tree false s1) ++ r1 = ref_emit (struct_tree false s2) ++ r2 → s1 = s2 ∧ r1 = r2).
Proof.
  intros wf swf. apply tag_struct_ind;
    try (intros _ t2 r1 r2 _; rewrite !emit_tag_idx, <- !app_assoc; intros [Hi H]%uleb_app;
         destruct t2; done).
  - intros e IH Hwf t2 r1 r2 Hwf2. rewrite (emit_tag_idx (TVector e)), (emit_tag_idx t2), <- !app_assoc. intros [Hi H]%uleb_app.
    destruct t2; try done. apply IH in H as [-> ->]; done.
  - intros s IH Hwf t2 r1 r2 Hwf2. rewrite (emit_tag_idx (TStruct s)), (emit_tag_idx t2), <- !app_assoc. intros [Hi H]%uleb_app.
    destruct t2; try done. apply IH in H as [-> ->]; done.
  - intros a m n ps Hps (Ha & _ & _ & Hwf) [a2 m2 n2 ps2] r1 r2 (Ha2 & _ & _ & Hwf2).
    cbn [struct_tree ref_emit LegacyAddressV5.serialize]. rewrite !app_nil_r, <- !app_assoc.
    intros H. apply addr_app_bytes in H as [-> H]; [|done|done].
    apply str_app_bytes in H as [-> H]. apply str_app_bytes in H as [-> H].
    apply uleb_app in H as [Hl H]. rewrite !length_map in Hl.
    enough (ps = ps2 ∧ r1 = r2) as [-> ->] by done.
    clear Ha Ha2. revert ps2 Hwf Hwf2 Hl H.
    induction Hps as [|p ps Hp Hps IH]; intros [|p2 ps2] Hwf Hwf2 Hl H; try done.
    destruct Hwf as [Hwp Hwf], Hwf2 as [Hwp2 Hwf2]. cbn [map] in H. rewrite <- !app_assoc in H.
    apply Hp in H as [-> H]; [|done|done]. apply IH in H as [-> ->]; try done.
    by injection Hl.
Qed.

#[global] Program Instance ref_bcs_format : BcsFormat := {| bcs_emit c := Ok (ref_emit c) |}.
Next Obligation.
  intros s1 s2 c1 c2 b H1 H2 Hw1 Hw2 [= E1] [= E2].
  destruct (ser_spec false) as [_ Hs]. rewrite Hs in H1, H2 by lia. cbn [snd] in *.
  destruct (0 + struct_nesting s1 <=? 9), (0 + struct_nesting s2 <=? 9); try done.
  injection H1 as <-. injection H2 as <-.
  destruct ref_emit_prefix_free as [_ Hinj].
  destruct (Hinj s1 Hw1 s2 [] [] Hw2) as [-> _]; [|done]. by rewrite !app_nil_r, E1, E2.
Qed.
Next Obligation. intros s c _. by eexists. Qed.

(** ** Properties *)

(** serialization and deserialization of a type tag agree but for one
    level: a tag serializes exactly when it nests at most nine levels deep, its
    serialization then reads back as the tag exactly when it nests at most
    eight, every other case is the nesting error, and the thread-local counter
    is back at zero after each call, failed ones included. *)
Theorem type_tag_nesting `{HexCrate} human ident_de t :
  tag_wf (fun s => ident_de s = Ok s) t →
  ser_tag human t 0 = (0, if nesting t <=? 9 then Ok (tree human t) else Err ser_exceeded) ∧
  de_tag human ident_de (tree human t) 0 =
    (0, if nesting t <=? 8 then Ok t else Err de_exceeded).
Proof.
  intros Hwf. destruct (ser_spec human) as [Hs _].
  destruct (de_spec human ident_de) as [Hd _]. by rewrite Hs, Hd by (done || lia).
Qed.

(** storage keys identify resources: [access_vector] is total on struct
    tags that nest at most nine levels and panics (the [unwrap]) on deeper
    ones, two struct tags with the same key are equal, and no resource key is
    a module key. *)
Theorem access_vector_injective `{BcsFormat} s1 s2 m :
  struct_wf (fun _ => True) s1 → struct_wf (fun _ => True) s2 →
  (is_ok (struct_access_vector s1) = true ↔ struct_nesting s1 ≤ 9) ∧
  (is_ok (struct_access_vector s1) = true →
   struct_access_vector s1 = struct_access_vector s2 → s1 = s2) ∧
  (is_ok (struct_access_vector s1) = true →
   struct_access_vector s1 ≠ module_access_vector m).
Proof.
  intros Hw1 Hw2.
  assert (Hrun : ∀ s, snd (ser_struct false s 0) =
    if struct_nesting s <=? 9 then Ok (struct_tree false s) else Err ser_exceeded).
  { intros s. destruct (ser_spec false) as [_ Hs]. by rewrite Hs by lia. }
  assert (Hok : ∀ s, is_ok (struct_access_vector s) = true → ∃ c b,
    snd (ser_struct false s 0) = Ok c ∧ bcs_emit c = Ok b ∧
    struct_access_vector s = Ok (RESOURCE_TAG :: b)).
  { intros s. unfold struct_access_vector, bcs_struct_tag.
    destruct (snd (ser_struct false s 0)) as [c| |]; cbn; try done.
    destruct (bcs_emit c) as [b| |] eqn:E; cbn; try done. by eexists _, _. }
  split; [|split].
  - split.
    + intros (c & b & Hc & _)%Hok. rewrite Hrun in Hc.
      destruct (Z.leb_spec (struct_nesting s1) 9); [done|discriminate].
    + intros Hn. specialize (Hrun s1). rewrite (proj2 (Z.leb_le _ _)) in Hrun by done.
      destruct (bcs_emit_struct_ok s1 _ Hrun) as [b Hb].
      unfold struct_access_vector, bcs_struct_tag. rewrite Hrun. cbn. by rewrite Hb.
  - intros H1 Heq. pose proof H1 as H2. rewrite Heq in H2.
    apply Hok in H1 as (c1 & b1 & Hc1 & Hb1 & E1). apply Hok in H2 as (c2 & b2 & Hc2 & Hb2 & E2).
    rewrite E1, E2 in Heq. injection Heq as ->.
    by apply (bcs_emit_struct_inj s1 s2 c1 c2 b2).
  - intros (c & b & _ & _ & ->)%Hok. unfold module_access_vector.
    by destruct (bcs_emit _).
Qed.

(** ** Witnesses and examples *)
Fixpoint vectors (n : nat) : TypeTagV5 :=
  match n with O => TU8 | S n' => TVector (vectors n') end.

Definition diem_account_tag : StructTagV5 :=
  mkStructTag LegacyAddressV5.LEGACY_CORE_CODE_ADDRESS "DiemAccount" "DiemAccount" [].
Definition gas_tag : StructTagV5 :=
  mkStructTag LegacyAddressV5.LEGACY_CORE_CODE_ADDRESS "GAS" "GAS" [].
Definition balance_tag : StructTagV5 :=
  mkStructTag LegacyAddressV5.LEGACY_CORE_CODE_ADDRESS "DiemAccount" "Balance" [TStruct gas_tag].

(** The keys the source's own tests expect. *)
Example diem_account_key : fmt_02x <$> struct_access_vector diem_account_tag =
  Ok "01000000000000000000000000000000010b4469656d4163636f756e740b4469656d4163636f756e7400"%string.
Proof. vm_compute. reflexivity. Qed.
Example balance_key : fmt_02x <$> struct_access_vector balance_tag =
  Ok "01000000000000000000000000000000010b4469656d4163636f756e740742616c616e6365010700000000000000000000000000000001034741530347415300"%string.
Proof. vm_compute. reflexivity. Qed.
Example balance_text : fmt_struct balance_tag = "0x1::DiemAccount::Balance<0x1::GAS::GAS>".
Proof. vm_compute. reflexivity. Qed.
Example ten_deep : snd (ser_tag false (vectors 10) 0) = Err ser_exceeded.
Proof. vm_compute. reflexivity. Qed.

Lemma diem_account_tag_wf ok : ok "DiemAccount"%string → struct_wf ok diem_account_tag.
Proof. intros Hok. split; [by apply (bool_decide_unpack _)|done]. Qed.

Lemma balance_tag_wf : struct_wf (fun _ => True) balance_tag.
Proof. split; [by apply (bool_decide_unpack _)|]. by repeat split; apply (bool_decide_unpack _). Qed.

Lemma type_tag_nesting_witness :
  let t := TVector (vectors 8) in
  ser_tag true t 0 = (0, Ok (tree true t)) ∧ de_tag true Ok (tree true t) 0 = (0, Err de_exceeded).
Proof. apply (type_tag_nesting true Ok (TVector (vectors 8))). exact I. Defined.

Lemma access_vector_injective_witness :
  let m := module_id gas_tag in
  (is_ok (struct_access_vector diem_account_tag) = true ↔ struct_nesting diem_account_tag ≤ 9) ∧
  (is_ok (struct_access_vector diem_account_tag) = true →
   struct_access_vector diem_account_tag = struct_access_vector balance_tag →
   diem_account_tag = balance_tag) ∧
  (is_ok (struct_access_vector diem_account_tag) = true →
   struct_access_vector diem_account_tag ≠ module_access_vector m).
Proof.
  apply access_vector_injective; [by apply diem_account_tag_wf|apply balance_tag_wf].
Defined.
