(* ===== verification/MoveResource.v ===== *)
(** * compatibility/src/version_five: resources and account state

    [move_resource_v5] (the trait and its struct tag), the resources of the v5
    framework that implement it ([diem_account_v5], [core_account_v5],
    [balance_v5], [freezing_v5], [new_epoch_v5] and the [ol_*] modules), and
    [account_blob_v5]: the key-value state of an account and the resource
    lookups on it. *)
From Stdlib Require Import ZArith Lia Ascii.
From stdpp Require Import base option list strings countable gmap.
From S2P Require Import Prelude RustStr Bytes LegacyAddress Event LanguageStorage.

Open Scope Z_scope.

(** [bcs::to_bytes] and [bcs::from_bytes] at a serializable type: the [bcs]
    crate over derived serde code.  A value's bytes decode to the value. *)
Class Bcs (A : Type) := {
  bcs_to_bytes : A → option bytes;
  bcs_from_bytes : bytes → option A;
  bcs_law a b : bcs_to_bytes a = Some b → bcs_from_bytes b = Some a
}.
Definition bcs_error : string := "bcs".

(** ** move_resource_v5.rs *)
Class MoveStructTypeV5 (T : Type) := {
  MODULE_NAME : string;
  STRUCT_NAME : string;
  type_params : list TypeTagV5
}.
Arguments MODULE_NAME T {_}.
Arguments STRUCT_NAME T {_}.
Arguments type_params T {_}.

Definition ADDRESS : LegacyAddressV5.t := LegacyAddressV5.LEGACY_CORE_CODE_ADDRESS.
Definition struct_tag (T : Type) `{MoveStructTypeV5 T} : StructTagV5 :=
  mkStructTag ADDRESS (MODULE_NAME T) (STRUCT_NAME T) (type_params T).
Definition resource_path (T : Type) `{MoveStructTypeV5 T, BcsFormat} : outcome bytes :=
  struct_access_vector (struct_tag T).

(** ** The resources *)
Record WithdrawCapabilityResource := { wc_account_address : LegacyAddressV5.t }.
Record KeyRotationCapabilityResource := { kr_account_address : LegacyAddressV5.t }.

Record DiemAccountResourceV5 := {
  da_authentication_key : bytes;
  da_withdrawal_capability : option WithdrawCapabilityResource;
  da_key_rotation_capability : option KeyRotationCapabilityResource;
  da_received_events : EventHandleV5.t;
  da_sent_events : EventHandleV5.t;
  da_sequence_number : Z
}.

Definition diem_account_new (sequence_number : Z) (authentication_key : bytes)
    (sent_events received_events : EventHandleV5.t) : DiemAccountResourceV5 := {|
  da_authentication_key := authentication_key;
  da_withdrawal_capability := None;
  da_key_rotation_capability := None;
  da_received_events := received_events;
  da_sent_events := sent_events;
  da_sequence_number := sequence_number
|}.

Definition has_delegated_withdrawal_capability (d : DiemAccountResourceV5) : bool :=
  match da_withdrawal_capability d with None => true | Some _ => false end.
Definition has_delegated_key_rotation_capability (d : DiemAccountResourceV5) : bool :=
  match da_key_rotation_capability d with None => true | Some _ => false end.

(** The creator of the sent-events key, cast through its hexadecimal text. *)
Definition diem_account_address `{HexCrate} (d : DiemAccountResourceV5) : outcome LegacyAddressV5.t :=
  a ← EventKeyV5.get_creator_address (EventHandleV5.key (da_sent_events d));
  expect_res "cannot decode DiemAccount address"
    (LegacyAddressV5.from_hex_literal (LegacyAddressV5.to_hex_literal a)).

Definition v5_legacy_struct_tag : StructTagV5 :=
  mkStructTag LegacyAddressV5.LEGACY_CORE_CODE_ADDRESS "DiemAccount" "DiemAccount" [].

Record AccountResourceV5 := {
  ar_authentication_key : bytes;
  ar_sequence_number : Z;
  ar_self_address : LegacyAddressV5.t
}.

Definition account_new (sequence_number : Z) (authentication_key : bytes)
    (self_address : LegacyAddressV5.t) : AccountResourceV5 :=
  {| ar_authentication_key := authentication_key; ar_sequence_number := sequence_number;
     ar_self_address := self_address |}.

Definition rotate_auth_key (a : AccountResourceV5) (new_key : bytes) : AccountResourceV5 :=
  {| ar_authentication_key := new_key; ar_sequence_number := ar_sequence_number a;
     ar_self_address := ar_self_address a |}.

Record BalanceResourceV5 := { coin : Z }.
Record FreezingBit := { is_frozen : bool }.
Record NewEpochEventV5 := { epoch : Z }.
Record AncestryResource := { tree_ : list LegacyAddressV5.t }.
Record CumulativeDepositResource := { cd_value : Z; cd_index : Z }.
Record ReceiptsResource := {
  destination : list LegacyAddressV5.t;
  cumulative : list Z;
  last_payment_timestamp : list Z;
  last_payment_value : list Z
}.
Record TowerStateResource := {
  previous_proof_hash : bytes;
  verified_tower_height : Z;
  latest_epoch_mining : Z;
  count_proofs_in_epoch : Z;
  epochs_validating_and_mining : Z;
  contiguous_epochs_validating_and_mining : Z;
  epochs_since_last_account_creation : Z
}.
Record CommunityWalletsResourceLegacyV5 := { cw_list : list LegacyAddressV5.t }.
Record SlowWalletResourceV5 := { unlocked : Z; transferred : Z }.
Record SlowWalletListResourceV5 := { sw_list : list LegacyAddressV5.t }.

#[global] Instance diem_account_type : MoveStructTypeV5 DiemAccountResourceV5 :=
  {| MODULE_NAME := "DiemAccount"; STRUCT_NAME := "DiemAccount"; type_params := [] |}.
#[global] Instance withdraw_capability_type : MoveStructTypeV5 WithdrawCapabilityResource :=
  {| MODULE_NAME := "DiemAccount"; STRUCT_NAME := "WithdrawCapability"; type_params := [] |}.
#[global] Instance key_rotation_type : MoveStructTypeV5 KeyRotationCapabilityResource :=
  {| MODULE_NAME := "DiemAccount"; STRUCT_NAME := "KeyRotationCapability"; type_params := [] |}.
#[global] Instance account_type : MoveStructTypeV5 AccountResourceV5 :=
  {| MODULE_NAME := "Account"; STRUCT_NAME := "Account"; type_params := [] |}.
#[global] Instance balance_type : MoveStructTypeV5 BalanceResourceV5 :=
  {| MODULE_NAME := "DiemAccount"; STRUCT_NAME := "Balance";
     type_params := [TStruct (mkStructTag LegacyAddressV5.LEGACY_CORE_CODE_ADDRESS "GAS" "GAS" [])] |}.
#[global] Instance freezing_type : MoveStructTypeV5 FreezingBit :=
  {| MODULE_NAME := "AccountFreezing"; STRUCT_NAME := "FreezingBit"; type_params := [] |}.
#[global] Instance new_epoch_type : MoveStructTypeV5 NewEpochEventV5 :=
  {| MODULE_NAME := "DiemConfig"; STRUCT_NAME := "NewEpochEvent"; type_params := [] |}.
#[global] Instance ancestry_type : MoveStructTypeV5 AncestryResource :=
  {| MODULE_NAME := "Ancestry"; STRUCT_NAME := "Ancestry"; type_params := [] |}.
#[global] Instance cumulative_deposit_type : MoveStructTypeV5 CumulativeDepositResource :=
  {| MODULE_NAME := "DiemAccount"; STRUCT_NAME := "CumulativeDeposits"; type_params := [] |}.
#[global] Instance receipts_type : MoveStructTypeV5 ReceiptsResource :=
  {| MODULE_NAME := "Receipts"; STRUCT_NAME := "UserReceipts"; type_params := [] |}.
#[global] Instance tower_state_type : MoveStructTypeV5 TowerStateResource :=
  {| MODULE_NAME := "TowerState"; STRUCT_NAME := "TowerProofHistory"; type_params := [] |}.
#[global] Instance community_wallets_type : MoveStructTypeV5 CommunityWalletsResourceLegacyV5 :=
  {| MODULE_NAME := "Wallet"; STRUCT_NAME := "CommunityWalletList"; type_params := [] |}.
#[global] Instance slow_wallet_type : MoveStructTypeV5 SlowWalletResourceV5 :=
  {| MODULE_NAME := "DiemAccount"; STRUCT_NAME := "SlowWallet"; type_params := [] |}.
#[global] Instance slow_wallet_list_type : MoveStructTypeV5 SlowWalletListResourceV5 :=
  {| MODULE_NAME := "DiemAccount"; STRUCT_NAME := "SlowWalletList"; type_params := [] |}.

(** The [ol_*] resources carry a [struct_tag] of their own, without type
    parameters, and decode from bytes. *)
Definition ol_struct_tag (T : Type) `{MoveStructTypeV5 T} : StructTagV5 :=
  mkStructTag CORE_CODE_ADDRESS (MODULE_NAME T) (STRUCT_NAME T) [].
Definition try_from_bytes {T} `{Bcs T} (bs : bytes) : outcome T :=
  context_opt bcs_error (bcs_from_bytes bs).

(** ** account_blob_v5.rs *)
Definition AccountStateV5 : Type := gmap bytes bytes.

(** [AccountStateBlob::new] hashes the blob with the derived hasher
    ([diem_crypto_derive]), a parameter. *)
Record AccountStateBlob := { blob : bytes; blob_hash : bytes }.
Class BlobHasher := { hash_blob : bytes → bytes }.
Definition blob_new `{BlobHasher} (b : bytes) : AccountStateBlob :=
  {| blob := b; blob_hash := hash_blob b |}.
Definition to_account_state `{Bcs AccountStateV5} (b : AccountStateBlob) : outcome AccountStateV5 :=
  context_opt bcs_error (bcs_from_bytes (blob b)).

(** The message goes on with the [Debug] text of the module id. *)
Definition not_found : string := "could not find in btree type ".

Section lookup.
  Context `{HexCrate, BcsFormat}.

Definition get_resource_data (T : Type) `{MoveStructTypeV5 T} (st : AccountStateV5) : outcome bytes :=
  key ← struct_access_vector (struct_tag T);
  context_opt not_found (st !! key).

Definition find_bytes_legacy_struct_tag_v5 (st : AccountStateV5) (tag : StructTagV5) : outcome bytes :=
  key ← struct_access_vector tag;
  context_opt (not_found +:+ st_module tag) (st !! key).

Definition get_resource (T : Type) `{MoveStructTypeV5 T, Bcs T} (st : AccountStateV5) : outcome T :=
  bs ← get_resource_data T st; context_opt bcs_error (bcs_from_bytes bs).

  Context `{Bcs DiemAccountResourceV5, Bcs AccountResourceV5}.

Definition get_diem_account_resource (st : AccountStateV5) : outcome DiemAccountResourceV5 :=
  get_resource DiemAccountResourceV5 st.

Definition get_address (st : AccountStateV5) : outcome LegacyAddressV5.t :=
  dr ← get_diem_account_resource st; diem_account_address dr.

Definition get_account_resource (st : AccountStateV5) : outcome AccountResourceV5 :=
  match get_resource AccountResourceV5 st with
  | Ok x => Ok x
  | Panic p => Panic p
  | Err _ =>
      match get_resource DiemAccountResourceV5 st with
      | Ok diem_ar =>
          a ← diem_account_address diem_ar;
          Ok (account_new (da_sequence_number diem_ar) (da_authentication_key diem_ar) a)
      | Panic p => Panic p
      | Err _ => Err "can't find an AccountResource or DiemAccountResource"
      end
  end.

(** ** Lemmas *)

(** The tags above are shallow and well formed, so their keys exist. *)
Lemma struct_key_exists s :
  struct_nesting s ≤ 9 → ∃ c b, snd (ser_struct false s 0) = Ok c ∧ bcs_emit c = Ok b ∧
    struct_access_vector s = Ok (RESOURCE_TAG :: b).
Proof.
  intros Hn. destruct (ser_spec false) as [_ Hs]. specialize (Hs s 0 ltac:(lia)).
  rewrite (proj2 (Z.leb_le _ _)) in Hs by done.
  assert (Hs' : snd (ser_struct false s 0) = Ok (struct_tree false s)) by by rewrite Hs.
  destruct (bcs_emit_struct_ok s _ Hs') as [b Hb].
  exists (struct_tree false s), b. split; [done|]. split; [done|].
  unfold struct_access_vector, bcs_struct_tag. rewrite Hs'. cbn [mbind outcome_bind].
  by rewrite Hb.
Qed.

Lemma struct_key_inj s1 s2 k :
  struct_nesting s1 ≤ 9 → struct_nesting s2 ≤ 9 →
  struct_wf (fun _ => True) s1 → struct_wf (fun _ => True) s2 →
  struct_access_vector s1 = Ok k → struct_access_vector s2 = Ok k → s1 = s2.
Proof.
  intros Hn1 Hn2 Hw1 Hw2.
  destruct (struct_key_exists s1 Hn1) as (c1 & b1 & Hc1 & Hb1 & ->).
  destruct (struct_key_exists s2 Hn2) as (c2 & b2 & Hc2 & Hb2 & ->).
  intros [= <-] [= ->]. by apply (bcs_emit_struct_inj s1 s2 c1 c2 b1).
Qed.

Lemma diem_account_address_ok d :
  EventKeyV5.wf (EventHandleV5.key (da_sent_events d)) →
  ∃ a, diem_account_address d = Ok a ∧ LegacyAddressV5.wf a ∧
       EventKeyV5.get_creator_address (EventHandleV5.key (da_sent_events d)) = Ok a.
Proof.
  intros Hwf. destruct (EventKeyV5.wf_split _ Hwf) as (pre & post & Hk & [Hl _] & Hpost).
  exists (LegacyAddressV5.mk post). unfold diem_account_address. rewrite Hk.
  rewrite EventKeyV5.creator_of_app by done. cbn [mbind outcome_bind].
  by rewrite LegacyAddressV5.from_hex_literal_to_hex_literal.
Qed.

(** A struct tag with a key of its own: shallow enough to serialize, with
    sixteen-byte addresses. *)
Definition valid_tag (s : StructTagV5) : Prop :=
  struct_nesting s ≤ 9 ∧ struct_wf (fun _ => True) s.

Lemma get_resource_insert_ne (U : Type) `{MoveStructTypeV5 U, Bcs U} s k b st :
  valid_tag s → valid_tag (struct_tag U) → struct_tag U ≠ s →
  struct_access_vector s = Ok k →
  get_resource U (<[k:=b]> st) = get_resource U st.
Proof.
  intros [Hn Hw] [HnU HwU] Hne Hk. unfold get_resource, get_resource_data.
  destruct (struct_key_exists _ HnU) as (c & kU & _ & _ & HkU). rewrite HkU.
  cbn [mbind outcome_bind]. unfold AccountStateV5. rewrite lookup_insert_ne; [done|].
  intros ->. apply Hne. by apply (struct_key_inj _ _ (RESOURCE_TAG :: kU)).
Qed.

Lemma get_resource_no_panic (T : Type) `{MoveStructTypeV5 T, Bcs T} st :
  valid_tag (struct_tag T) → ∀ p, get_resource T st ≠ Panic p.
Proof.
  intros [Hn _] p. unfold get_resource, get_resource_data.
  destruct (struct_key_exists _ Hn) as (c & k & _ & _ & ->). cbn [mbind outcome_bind].
  destruct (st !! (RESOURCE_TAG :: k)) as [l|]; [|done].
  cbn [context_opt mbind outcome_bind]. by destruct (@bcs_from_bytes T _ l).
Qed.

Lemma account_tag_valid : valid_tag (struct_tag AccountResourceV5).
Proof. split; [done|]. split; [by apply (bool_decide_unpack _)|done]. Qed.
Lemma diem_tag_valid : valid_tag (struct_tag DiemAccountResourceV5).
Proof. split; [done|]. split; [by apply (bool_decide_unpack _)|done]. Qed.

Lemma keys_distinct tags :
  Forall valid_tag tags → NoDup tags →
  ∃ keys, mapM struct_access_vector tags = Ok keys ∧ NoDup keys.
Proof.
  intros Hv Hnd. induction Hnd as [|s tags Hs Hnd IH]; [by exists []; split; [|constructor]|].
  apply Forall_cons in Hv as [[Hn Hw] Hv]. destruct (IH Hv) as (keys & Hkeys & Hndk).
  destruct (struct_key_exists s Hn) as (_ & b & _ & _ & Hb).
  exists ((RESOURCE_TAG :: b) :: keys). split.
  - cbn [mapM]. rewrite Hb. cbn [mbind outcome_bind]. by rewrite Hkeys.
  - constructor; [|done]. intros Hin. apply Hs. clear IH Hndk Hnd Hs.
    revert keys Hkeys Hin. induction Hv as [|s' tags [Hn' Hw'] Hv IH]; intros keys Hkeys Hin;
      cbn [mapM] in Hkeys.
    + injection Hkeys as <-. by apply not_elem_of_nil in Hin.
    + inv_ok. apply elem_of_cons in Hin as [<-|Hin]; [|right; by eapply IH].
      apply elem_of_cons. left. by apply (struct_key_inj s s' (RESOURCE_TAG :: b)).
Qed.

(** ** Properties *)

(** writing a resource's bytes at its path makes [get_resource] return
    the resource and leaves the lookup of every other resource type as it was;
    before that, an absent path is the not-found error. *)
Theorem get_resource_after_insert (T U : Type)
    `{MoveStructTypeV5 T, Bcs T, MoveStructTypeV5 U, Bcs U} (st : AccountStateV5) x b :
  valid_tag (struct_tag T) → valid_tag (struct_tag U) → bcs_to_bytes x = Some b →
  ∃ k, resource_path T = Ok k ∧
       get_resource T (<[k:=b]> st) = Ok x ∧
       (struct_tag U ≠ struct_tag T → get_resource U (<[k:=b]> st) = get_resource U st) ∧
       (st !! k = None → get_resource T st = Err not_found).
Proof.
  intros HT HU Hb. destruct (struct_key_exists _ (proj1 HT)) as (c & k & _ & _ & Hk).
  exists (RESOURCE_TAG :: k). split; [exact Hk|]. split; [|split].
  - unfold get_resource, get_resource_data. rewrite Hk. cbn [mbind outcome_bind].
    unfold AccountStateV5. rewrite lookup_insert_eq. cbn [context_opt mbind outcome_bind].
    by rewrite (bcs_law x b).
  - intros Hne. by apply (get_resource_insert_ne U (struct_tag T)).
  - intros Hnone. unfold get_resource, get_resource_data. rewrite Hk.
    cbn [mbind outcome_bind]. by rewrite Hnone.
Qed.

(** the account resource of a v5 account: the [Account] resource when it
    is there and decodes; otherwise one rebuilt from the [DiemAccount]
    resource, with its sequence number, its authentication key and the creator
    of its sent-events key as address; otherwise the error, never a panic. *)
Theorem get_account_resource_spec st :
  (∀ d, get_diem_account_resource st = Ok d →
        EventKeyV5.wf (EventHandleV5.key (da_sent_events d))) →
  match get_resource AccountResourceV5 st, get_diem_account_resource st with
  | Ok a, _ => get_account_resource st = Ok a
  | Err _, Ok d =>
      ∃ addr, EventKeyV5.get_creator_address (EventHandleV5.key (da_sent_events d)) = Ok addr ∧
        get_address st = Ok addr ∧
        get_account_resource st =
          Ok (account_new (da_sequence_number d) (da_authentication_key d) addr)
  | Err _, Err _ =>
      get_account_resource st = Err "can't find an AccountResource or DiemAccountResource"
  | _, _ => False
  end.
Proof.
  intros Hwf. unfold get_account_resource, get_address.
  pose proof (get_resource_no_panic AccountResourceV5 st account_tag_valid) as HA.
  pose proof (get_resource_no_panic DiemAccountResourceV5 st diem_tag_valid) as HD.
  unfold get_diem_account_resource in *.
  destruct (get_resource AccountResourceV5 st) as [a|e|p]; [done| |by destruct (HA p)].
  destruct (get_resource DiemAccountResourceV5 st) as [d|e'|p]; [|done|by destruct (HD p)].
  destruct (diem_account_address_ok d (Hwf d eq_refl)) as (addr & Ha & _ & Hc).
  exists addr. cbn [mbind outcome_bind]. by rewrite Ha.
Qed.

End lookup.

(** The struct tags of the resources, as the lookups use them. *)
Definition resource_tags : list StructTagV5 :=
  [struct_tag DiemAccountResourceV5; struct_tag WithdrawCapabilityResource;
   struct_tag KeyRotationCapabilityResource; struct_tag AccountResourceV5;
   struct_tag BalanceResourceV5; struct_tag FreezingBit; struct_tag NewEpochEventV5;
   struct_tag AncestryResource; struct_tag CumulativeDepositResource;
   struct_tag ReceiptsResource; struct_tag TowerStateResource;
   struct_tag CommunityWalletsResourceLegacyV5; struct_tag SlowWalletResourceV5;
   struct_tag SlowWalletListResourceV5].

(** ** A concrete codec, from any injection into a countable type *)
Definition pos_bytes (p : positive) : bytes :=
  le_bytes (Z.to_nat (Z.log2 (Z.pos p) / 8 + 1)) (Z.pos p).

Lemma from_pos_bytes p : Z.to_pos (from_le (pos_bytes p)) = p.
Proof.
  unfold pos_bytes. rewrite from_le_bytes; [done|]. split; [lia|].
  change 256 with (2 ^ 8). pose proof (Z.log2_nonneg (Z.pos p)).
  pose proof (Z.div_pos (Z.log2 (Z.pos p)) 8 ltac:(lia) ltac:(lia)).
  rewrite <- Z.pow_mul_r by lia. apply Z.log2_lt_pow2; [lia|].
  rewrite Z2Nat.id by lia. pose proof (Z.mul_succ_div_gt (Z.log2 (Z.pos p)) 8). lia.
Qed.

Program Definition countable_bcs {A B} `{Countable B} (f : A → B) (g : B → A)
    (Hgf : ∀ a, g (f a) = a) : Bcs A := {|
  bcs_to_bytes a := Some (pos_bytes (encode (f a)));
  bcs_from_bytes bs := g <$> decode (Z.to_pos (from_le bs))
|}.
Next Obligation.
  intros A B ? ? f g Hgf a b [= <-]. rewrite from_pos_bytes, decode_encode. cbn. by rewrite Hgf.
Qed.

Definition ref_bcs_freezing : Bcs FreezingBit :=
  countable_bcs is_frozen Build_FreezingBit (fun '(Build_FreezingBit b) => eq_refl).
Definition ref_bcs_account : Bcs AccountResourceV5.
Proof.
  refine (countable_bcs
    (fun a => (ar_authentication_key a, ar_sequence_number a,
               LegacyAddressV5.addr_bytes (ar_self_address a)))
    (fun '(k, n, a) => Build_AccountResourceV5 k n (LegacyAddressV5.mk a)) _).
  by intros [k n [a]].
Defined.
Definition ref_bcs_diem_account : Bcs DiemAccountResourceV5.
Proof.
  refine (countable_bcs
    (fun d => (da_authentication_key d,
       LegacyAddressV5.addr_bytes ∘ wc_account_address <$> da_withdrawal_capability d,
       LegacyAddressV5.addr_bytes ∘ kr_account_address <$> da_key_rotation_capability d,
       (EventHandleV5.count (da_received_events d), EventKeyV5.key_bytes (EventHandleV5.key (da_received_events d))),
       (EventHandleV5.count (da_sent_events d), EventKeyV5.key_bytes (EventHandleV5.key (da_sent_events d))),
       da_sequence_number d))
    (fun '(k, w, r, (n1, k1), (n2, k2), n) =>
       Build_DiemAccountResourceV5 k (Build_WithdrawCapabilityResource ∘ LegacyAddressV5.mk <$> w)
         (Build_KeyRotationCapabilityResource ∘ LegacyAddressV5.mk <$> r)
         (EventHandleV5.mk n1 (EventKeyV5.mk k1)) (EventHandleV5.mk n2 (EventKeyV5.mk k2)) n) _).
  by intros [k [[[w]]|] [[[r]]|] [n1 [k1]] [n2 [k2]] n].
Defined.

(** the resources of the v5 framework are stored apart: each of the
    fourteen struct tags has a key, no two of the keys are equal, and the tags
    the [ol_*] resources and [DiemAccount] declare by hand are the trait's. *)
Theorem resource_keys_distinct `{BcsFormat} :
  (∃ keys, mapM struct_access_vector resource_tags = Ok keys ∧ NoDup keys) ∧
  ol_struct_tag AncestryResource = struct_tag AncestryResource ∧
  ol_struct_tag CumulativeDepositResource = struct_tag CumulativeDepositResource ∧
  ol_struct_tag ReceiptsResource = struct_tag ReceiptsResource ∧
  ol_struct_tag TowerStateResource = struct_tag TowerStateResource ∧
  ol_struct_tag CommunityWalletsResourceLegacyV5 = struct_tag CommunityWalletsResourceLegacyV5 ∧
  ol_struct_tag SlowWalletResourceV5 = struct_tag SlowWalletResourceV5 ∧
  ol_struct_tag SlowWalletListResourceV5 = struct_tag SlowWalletListResourceV5 ∧
  v5_legacy_struct_tag = struct_tag DiemAccountResourceV5.
Proof.
  split; [|by repeat split].
  apply keys_distinct; [repeat constructor; (lia || by apply (bool_decide_unpack _))|].
  apply (NoDup_fmap_1 (fun s => (st_module s, st_name s))). by apply (bool_decide_unpack _).
Qed.

(** ** Witnesses *)
Definition sample_account : DiemAccountResourceV5 :=
  diem_account_new 7 [1; 2] (EventHandleV5.mk 1 EventKeyV5.sample) (EventHandleV5.mk 0 EventKeyV5.sample).
Definition sample_key : bytes :=
  let bcs := ref_bcs_diem_account in default [] (bcs_to_bytes sample_account).

Definition sample_resource : AccountResourceV5 :=
  account_new 9 [3; 4] LegacyAddressV5.LEGACY_CORE_CODE_ADDRESS.

Lemma get_resource_after_insert_witness :
  let bcs1 := ref_bcs_freezing in let bcs2 := ref_bcs_account in
  let x := Build_FreezingBit true in
  ∃ k, resource_path FreezingBit = Ok k ∧
       get_resource FreezingBit (<[k := default [] (bcs_to_bytes x)]> (∅ : gmap bytes bytes)) = Ok x ∧
       (struct_tag AccountResourceV5 ≠ struct_tag FreezingBit →
        get_resource AccountResourceV5 (<[k := default [] (bcs_to_bytes x)]> (∅ : gmap bytes bytes)) =
        get_resource AccountResourceV5 ∅) ∧
       ((∅ : gmap bytes bytes) !! k = None → get_resource FreezingBit ∅ = Err not_found).
Proof.
  intros bcs1 bcs2 x.
  apply (get_resource_after_insert FreezingBit AccountResourceV5 ∅ x).
  - split; [done|]. split; [by apply (bool_decide_unpack _)|done].
  - apply account_tag_valid.
  - reflexivity.
Defined.

(** An account that has a [DiemAccount] resource only. *)
Definition sample_state : AccountStateV5 :=
  {[ default [] (match resource_path DiemAccountResourceV5 with Ok k => Some k | _ => None end) := sample_key ]}.

Lemma get_account_resource_spec_witness :
  let bcs1 := ref_bcs_diem_account in let bcs2 := ref_bcs_account in
  ∃ addr, EventKeyV5.get_creator_address EventKeyV5.sample = Ok addr ∧
    get_address sample_state = Ok addr ∧
    get_account_resource sample_state = Ok (account_new 7 [1; 2] addr).
Proof.
  intros bcs1 bcs2.
  assert (Hd : get_diem_account_resource sample_state = Ok sample_account)
    by (vm_compute; reflexivity).
  assert (Ha : get_resource AccountResourceV5 sample_state = Err not_found)
    by (vm_compute; reflexivity).
  pose proof (get_account_resource_spec sample_state) as H.
  rewrite Hd, Ha in H. apply H. intros d [= <-]. apply EventKeyV5.key_sample_wf.
Defined.

Lemma resource_keys_distinct_witness :
  ∃ keys, mapM struct_access_vector resource_tags = Ok keys ∧ NoDup keys.
Proof. apply resource_keys_distinct. Defined.
