(* ===== verification/Transactions.v ===== *)
(** * compatibility/src/version_five: transactions and their backup

    The transaction types of the v5 database ([module_v5], [script_v5],
    [transaction_argument_v5], [transaction_type_v5]), the byte strings of the
    JSON views ([transaction_view_v5]), the check of a transaction backup
    manifest ([transaction_manifest_v5]) and the readers of backup chunks
    ([state_snapshot_v5], [transaction_restore_v5]). *)
From Stdlib Require Import ZArith Lia Ascii.
From stdpp Require Import base option list strings.
From S2P Require Import Prelude RustStr Bytes HashValue LegacyAddress Event LanguageStorage MoveResource.

Open Scope Z_scope.

(** ** module_v5.rs *)
Record Module_ := mk_module { module_code : bytes }.
Record ModuleBundle := mk_bundle { codes : list Module_ }.
Definition bundle_new (cs : list bytes) : ModuleBundle := mk_bundle (mk_module <$> cs).
Definition bundle_singleton (c : bytes) : ModuleBundle := mk_bundle [mk_module c].
Definition bundle_into_inner (b : ModuleBundle) : list bytes := module_code <$> codes b.
Definition bundle_from_module (m : Module_) : ModuleBundle := mk_bundle [m].

(** ** transaction_argument_v5.rs *)
Inductive TransactionArgument :=
| ArgU8 (v : Z)
| ArgU64 (v : Z)
| ArgU128 (v : Z)
| ArgAddress (a : LegacyAddressV5.t)
| ArgU8Vector (bs : bytes)
| ArgAddressVector (l : list LegacyAddressV5.t)
| ArgBool (b : bool).

(** [{:?}] of a [Vec] of addresses *)
Definition fmt_addresses (l : list LegacyAddressV5.t) : string :=
  "[" +:+ join ", " (LegacyAddressV5.fmt_debug <$> l) +:+ "]".

Definition argument_debug `{HexCrate} (a : TransactionArgument) : string :=
  match a with
  | ArgU8 v => "{U8: " +:+ show_uint v +:+ "}"
  | ArgU64 v => "{U64: " +:+ show_uint v +:+ "}"
  | ArgU128 v => "{U128: " +:+ show_uint v +:+ "}"
  | ArgBool b => "{BOOL: " +:+ (if b then "true" else "false") +:+ "}"
  | ArgAddress a => "{ADDRESS: " +:+ LegacyAddressV5.fmt_debug a +:+ "}"
  | ArgU8Vector bs => "{U8Vector: 0x" +:+ hex_encode bs +:+ "}"
  | ArgAddressVector l => "{AddressVector: " +:+ fmt_addresses l +:+ "}"
  end.

(** ** script_v5.rs *)
Record Script := mk_script {
  script_code : bytes;
  script_ty_args : list TypeTagV5;
  script_args : list TransactionArgument
}.
Definition script_into_inner (s : Script) : bytes * list TransactionArgument :=
  (script_code s, script_args s).

Record ScriptFunction := mk_script_function {
  sf_module : ModuleIdV5;
  sf_function : string;
  sf_ty_args : list TypeTagV5;
  sf_args : list bytes
}.

Record ArgumentABI := mk_argument_abi { arg_name : string; arg_type_tag : TypeTagV5 }.
Record TypeArgumentABI := mk_type_argument_abi { ty_arg_name : string }.
Record ScriptFunctionABI := mk_function_abi {
  fa_name : string; fa_module_name : ModuleIdV5; fa_doc : string;
  fa_ty_args : list TypeArgumentABI; fa_args : list ArgumentABI }.
Record TransactionScriptABI := mk_script_abi {
  sa_name : string; sa_doc : string; sa_code : bytes;
  sa_ty_args : list TypeArgumentABI; sa_args : list ArgumentABI }.
Inductive ScriptABI :=
| AbiTransactionScript (abi : TransactionScriptABI)
| AbiScriptFunction (abi : ScriptFunctionABI).

Definition is_script_fun_abi (a : ScriptABI) : bool :=
  match a with AbiScriptFunction _ => true | _ => false end.
Definition is_transaction_script_abi (a : ScriptABI) : bool :=
  match a with AbiTransactionScript _ => true | _ => false end.
Definition abi_name (a : ScriptABI) : string :=
  match a with AbiTransactionScript abi => sa_name abi | AbiScriptFunction abi => fa_name abi end.
Definition abi_doc (a : ScriptABI) : string :=
  match a with AbiTransactionScript abi => sa_doc abi | AbiScriptFunction abi => fa_doc abi end.
Definition abi_ty_args (a : ScriptABI) : list TypeArgumentABI :=
  match a with AbiTransactionScript abi => sa_ty_args abi | AbiScriptFunction abi => fa_ty_args abi end.
Definition abi_args (a : ScriptABI) : list ArgumentABI :=
  match a with AbiTransactionScript abi => sa_args abi | AbiScriptFunction abi => fa_args abi end.

(** ** transaction_type_v5.rs; keys, signatures and change sets are the diem
    crates', carried as opaque bytes *)
Inductive WriteSetPayload :=
| WsDirect (change_set : bytes)
| WsScript (execute_as : LegacyAddressV5.t) (script : Script).

Inductive TransactionPayload :=
| PlWriteSet (ws : WriteSetPayload)
| PlScript (s : Script)
| PlModuleBundle (b : ModuleBundle)
| PlScriptFunction (f : ScriptFunction).

Record RawTransaction := mk_raw_transaction {
  sender : LegacyAddressV5.t;
  sequence_number : Z;
  payload : TransactionPayload;
  max_gas_amount : Z;
  gas_unit_price : Z;
  gas_currency_code : string;
  expiration_timestamp_secs : Z;
  chain_id : Z
}.

Inductive TransactionAuthenticator :=
| AuthEd25519 (public_key signature : bytes)
| AuthMultiEd25519 (public_key signature : bytes)
| AuthMultiAgent (sender : bytes) (secondary_signer_addresses : list LegacyAddressV5.t)
    (secondary_signers : list bytes).

Record SignedTransaction := mk_signed { raw_txn : RawTransaction; authenticator : TransactionAuthenticator }.
Record BlockMetadata := mk_block_metadata {
  bm_id : HashValueV5.t; bm_round : Z; bm_timestamp_usecs : Z;
  bm_previous_block_votes : list LegacyAddressV5.t; bm_proposer : LegacyAddressV5.t }.
Inductive TransactionV5 :=
| UserTransaction (t : SignedTransaction)
| GenesisTransaction (ws : WriteSetPayload)
| BlockMetadataTransaction (b : BlockMetadata).

Inductive AbortLocation := AbortModule (m : ModuleIdV5) | AbortScript.
Inductive KeptVMStatus :=
| Executed | OutOfGas
| MoveAbort (l : AbortLocation) (code : Z)
| ExecutionFailure (location : AbortLocation) (function code_offset : Z)
| MiscellaneousError.
Record TransactionInfoV5 := mk_info {
  transaction_hash : HashValueV5.t; state_root_hash : HashValueV5.t;
  event_root_hash : HashValueV5.t; gas_used : Z; status : KeptVMStatus }.
Record ContractEventV0 := mk_event {
  ev_key : EventKeyV5.t; ev_sequence_number : Z; ev_type_tag : TypeTagV5; ev_data : bytes }.
Inductive ContractEventV5 := V0 (e : ContractEventV0).

Definition ws_should_trigger_reconfiguration_by_default (ws : WriteSetPayload) : bool :=
  match ws with WsDirect _ => true | WsScript _ _ => false end.
Definition should_trigger_reconfiguration_by_default (p : TransactionPayload) : bool :=
  match p with
  | PlWriteSet ws => ws_should_trigger_reconfiguration_by_default ws
  | PlScript _ | PlScriptFunction _ | PlModuleBundle _ => false
  end.
Definition into_script_function (p : TransactionPayload) : outcome ScriptFunction :=
  match p with
  | PlScriptFunction f => Ok f
  | _ => Panic "Expected ScriptFunction(_) payload"
  end.
Definition into_payload (t : RawTransaction) : TransactionPayload := payload t.

(** ** transaction_view_v5.rs: byte strings and statuses as text *)
Record BytesView := mk_bytes_view { inner : bytes }.
Definition bytes_view_display (b : BytesView) : string := fmt_02x (inner b).
Definition bytes_view_debug (b : BytesView) : string :=
  let q := ascii_of_nat 34 in "BytesView(" +:+ String q (bytes_view_display b +:+ String q ")").
Definition bytes_view_serialize `{HexCrate} (b : BytesView) : string := hex_encode (inner b).
Definition bytes_view_deserialize `{HexCrate} (s : string) : outcome BytesView :=
  mk_bytes_view <$> context_opt "hex" (hex_decode s).

Record MoveAbortExplanationView := mk_explanation {
  category : string; category_description : string; reason : string; reason_description : string }.

Inductive VMStatusView :=
| SvExecuted | SvOutOfGas
| SvMoveAbort (location : string) (abort_code : Z) (explanation : option MoveAbortExplanationView)
| SvExecutionFailure (location : string) (function_index code_offset : Z)
| SvMiscellaneousError | SvVerificationError | SvDeserializationError | SvPublishingFailure
| SvUnknown.

Definition is_executed (v : VMStatusView) : bool :=
  match v with SvExecuted => true | _ => false end.

(** The explanation's [{:?}] is the derived one, an argument here. *)
Definition status_display (debug : MoveAbortExplanationView → string) (v : VMStatusView) : string :=
  match v with
  | SvExecuted => "Executed"
  | SvOutOfGas => "Out of Gas"
  | SvMoveAbort location abort_code explanation =>
      "Move Abort: " +:+ show_uint abort_code +:+ " at " +:+ location +:+
      match explanation with
      | Some e => String "010" "Explanation:" +:+ String "010" (debug e)
      | None => ""
      end
  | SvExecutionFailure location f o =>
      "Execution failure: " +:+ location +:+ " " +:+ show_uint f +:+ " " +:+ show_uint o
  | SvMiscellaneousError => "Miscellaneous Error"
  | SvVerificationError => "Verification Error"
  | SvDeserializationError => "Deserialization Error"
  | SvPublishingFailure => "Publishing Failure"
  | SvUnknown => "Unknown Error"
  end.

(** ** transaction_manifest_v5.rs *)
Record TransactionChunk := mk_chunk {
  c_first_version : Z;
  c_last_version : Z;
  c_transactions : string;
  c_proof : string
}.
Record TransactionBackup := mk_backup {
  first_version : Z;
  last_version : Z;
  chunks : list TransactionChunk
}.

(** The loop over the chunks, [next_version] threaded; [+ 1] on a [u64]. *)
Fixpoint verify_chunks (next_version : Z) (cs : list TransactionChunk) : outcome Z :=
  match cs with
  | [] => Ok next_version
  | c :: cs' =>
      ensure (c_first_version c =? next_version) "Chunk ranges not continuous.";;
      ensure (c_first_version c <=? c_last_version c) "Chunk range invalid.";;
      verify_chunks (u64_add (c_last_version c) 1) cs'
  end.

Definition verify (b : TransactionBackup) : outcome unit :=
  ensure (first_version b <=? last_version b) "Bad version range";;
  ensure (negb (match chunks b with [] => true | _ => false end)) "No chunks.";;
  next_version ← verify_chunks (first_version b) (chunks b);
  ensure (u64_sub next_version 1 =? last_version b) "Last version in chunks, in manifest".

(** ** state_snapshot_v5.rs and transaction_restore_v5.rs

    A path is its components.  The file system and the length-prefixed record
    reader ([tokio], [diem_backup_cli]) are parameters: a file that opens is
    the sequence of results its successive reads give, up to the end. *)
Class BackupFs := {
  fs_exists : path → bool;
  fs_open : path → option (list (option bytes))
}.

Section chunks.
  Context `{BackupFs}.

(** [while let Some(bytes) = file.read_record_bytes().await? { … }] *)
Fixpoint read_records {A} `{Bcs A} (msg : string) (reads : list (option bytes)) : outcome (list A) :=
  match reads with
  | [] => Ok []
  | r :: reads' =>
      record_bytes ← context_opt "read_record_bytes" r;
      rec ← context_opt msg (bcs_from_bytes record_bytes);
      rest ← read_records msg reads';
      Ok (rec :: rest)
  end.

Definition read_chunk {A} `{Bcs A} (open_msg decode_msg : string) (file_handle : string)
    (archive_path : path) : outcome (list A) :=
  dir ← expect_opt "could not read archive path" (parent archive_path);
  let full_handle := dir ++ [file_handle] in
  rust_assert (fs_exists full_handle) "file does not exist";;
  file ← context_opt open_msg (fs_open full_handle);
  read_records decode_msg file.

(** The [(HashValueV5, AccountStateBlob)] tuple of a record *)
Definition AccountStateBlobRecord : Type := HashValueV5.t * AccountStateBlob.
Record StateSnapshotBackupV5 := mk_snapshot {
  ss_version : Z;
  ss_root_hash : HashValueV5.t;
  ss_chunks : list string;
  ss_proof : string
}.

Definition read_account_state_chunk `{Bcs AccountStateBlobRecord} (file_handle : string)
    (archive_path : path) : outcome (list AccountStateBlobRecord) :=
  read_chunk "snapshot chunk" "could not deserialize bcs chunk" file_handle archive_path.

Fixpoint accounts_from_chunks `{Bcs AccountStateBlobRecord} (cs : list string)
    (archive_path : path) (acc : list AccountStateBlob) : outcome (list AccountStateBlob) :=
  match cs with
  | [] => Ok acc
  | c :: cs' =>
      records ← read_account_state_chunk c archive_path;
      accounts_from_chunks cs' archive_path (acc ++ (snd <$> records))
  end.

Definition v5_accounts_from_snapshot_backup `{Bcs AccountStateBlobRecord}
    (manifest : StateSnapshotBackupV5) (archive_path : path) : outcome (list AccountStateBlob) :=
  accounts_from_chunks (ss_chunks manifest) archive_path [].

(** [serde_json::from_str] of a manifest file is a parameter. *)
Definition v5_accounts_from_manifest_path `{Bcs AccountStateBlobRecord}
    (read_manifest : path → outcome StateSnapshotBackupV5) (manifest_file : path)
    : outcome (list AccountStateBlob) :=
  archive_path ← context_opt "could not get archive path from manifest file" (parent manifest_file);
  manifest ← read_manifest manifest_file;
  v5_accounts_from_snapshot_backup manifest archive_path.

Definition TxRecord : Type := TransactionV5 * TransactionInfoV5 * list ContractEventV5.
Definition read_transaction_chunk `{Bcs TxRecord} (file_handle : string) (archive_path : path)
    : outcome (list TxRecord) :=
  read_chunk "transaction chunk" "bcs" file_handle archive_path.

End chunks.

(** ** Specifications *)

(** The chunks tile the versions [first .. last]: each starts where the one
    before ended. *)
Fixpoint tiles (first : Z) (cs : list TransactionChunk) (last : Z) : Prop :=
  match cs with
  | [] => first = last + 1
  | c :: cs' => c_first_version c = first ∧ first ≤ c_last_version c ∧
                tiles (c_last_version c + 1) cs' last
  end.

Definition chunk_has (v : Z) (c : TransactionChunk) : Prop :=
  c_first_version c ≤ v ≤ c_last_version c.

(** The manifest's versions are [u64]s, none of them the largest. *)
Definition versions_below_max (b : TransactionBackup) : Prop :=
  0 ≤ first_version b ∧ 0 ≤ last_version b < u64_max ∧
  Forall (fun c => 0 ≤ c_first_version c ∧ 0 ≤ c_last_version c < u64_max) (chunks b).

(** The records of a file whose reads all succeed and decode *)
Fixpoint decoded {A} `{Bcs A} (reads : list (option bytes)) (recs : list A) : Prop :=
  match reads, recs with
  | [], [] => True
  | Some b :: reads', r :: recs' => bcs_from_bytes b = Some r ∧ decoded reads' recs'
  | _, _ => False
  end.

(** ** Lemmas *)
Lemma verify_chunks_tiles cs next last :
  0 ≤ next ≤ u64_max → 0 ≤ last < u64_max →
  Forall (fun c => 0 ≤ c_first_version c ∧ 0 ≤ c_last_version c < u64_max) cs →
  (∃ n, verify_chunks next cs = Ok n ∧ u64_sub n 1 = last ∧ (cs = [] → 0 < next)) ↔
  tiles next cs last.
Proof.
  intros Hn Hl Hcs. revert next Hn. induction Hcs as [|c cs [Hf Hc] Hcs IH]; intros next Hn;
    cbn [verify_chunks tiles].
  - split.
    + intros (n & [= <-] & Hs & Hpos). specialize (Hpos eq_refl). unfold u64_sub in Hs.
      rewrite u64_wrap_small in Hs by (unfold is_u64; lia). lia.
    + intros ->. exists (last + 1). split; [done|]. split; [|lia]. unfold u64_sub.
      rewrite u64_wrap_small; [lia|]. unfold is_u64. lia.
  - unfold u64_add. rewrite u64_wrap_small by (unfold is_u64; lia).
    destruct (Z.eqb_spec (c_first_version c) next) as [->|Hne]; cbn [ensure].
    2: { split; [|naive_solver]. intros (n & E & _). discriminate E. }
    destruct (Z.leb_spec next (c_last_version c)); cbn [ensure].
    2: { split; [|lia]. intros (n & E & _). discriminate E. }
    cbn [mbind outcome_bind]. rewrite <- (IH (c_last_version c + 1)) by lia.
    split.
    + intros (n & E & Hs & _). split; [done|]. split; [done|]. exists n. split; [done|]. split; [done|]. lia.
    + intros (_ & _ & n & E & Hs & _). exists n. split; [done|]. split; [done|]. done.
Qed.

Lemma tiles_lower first cs last c : tiles first cs last → c ∈ cs → first ≤ c_first_version c.
Proof.
  revert first. induction cs as [|c' cs IH]; intros first; cbn; [by intros _ ?%not_elem_of_nil|].
  intros (<- & Hle & Ht) [->|Hin]%elem_of_cons; [lia|]. specialize (IH _ Ht Hin). lia.
Qed.

Lemma tiles_exactly_one first cs last v :
  tiles first cs last → first ≤ v ≤ last →
  ∃ i c, cs !! i = Some c ∧ chunk_has v c ∧
    ∀ j c', cs !! j = Some c' → chunk_has v c' → j = i.
Proof.
  revert first. induction cs as [|c cs IH]; intros first; cbn [tiles]; [lia|].
  intros (<- & Hle & Ht) Hv. destruct (Z_le_gt_dec v (c_last_version c)) as [Hin|Hout].
  - exists 0%nat, c. split; [done|]. split; [unfold chunk_has; lia|].
    intros [|j] c' Hj Hc'; [done|]. cbn in Hj.
    pose proof (tiles_lower _ _ _ c' Ht (list_elem_of_lookup_2 _ _ _ Hj)).
    unfold chunk_has in Hc'. lia.
  - destruct (IH _ Ht) as (i & c0 & Hi & Hc0 & Huniq); [lia|].
    exists (S i), c0. split; [done|]. split; [done|].
    intros [|j] c' Hj Hc'; cbn in Hj.
    + injection Hj as <-. unfold chunk_has in Hc'. lia.
    + f_equal. by apply (Huniq j c').
Qed.

Lemma read_records_decoded {A} `{Bcs A} msg reads (recs : list A) :
  read_records msg reads = Ok recs ↔ decoded reads recs.
Proof.
  revert recs. induction reads as [|r reads IH]; intros recs; cbn [read_records decoded].
  - destruct recs; naive_solver.
  - destruct r as [b|]; [|by destruct recs]. cbn [context_opt mbind outcome_bind].
    destruct (bcs_from_bytes b) as [x|] eqn:E; cbn [context_opt mbind outcome_bind].
    + rewrite bind_ok. split.
      * intros (rest & Hr & [= <-]). by apply IH in Hr.
      * destruct recs as [|y recs]; [done|]. intros [[= ->] Hd].
        exists recs. split; [by apply IH|done].
    + split; [done|]. destruct recs; [done|]. by intros [? _].
Qed.

(** ** Properties *)

(** a backup manifest verifies exactly when its version range is not
    empty and its chunks tile that range, and then every version of the range
    lies in exactly one chunk (versions below the largest [u64]). *)
Theorem verify_spec b :
  versions_below_max b →
  (verify b = Ok tt ↔
     first_version b ≤ last_version b ∧ tiles (first_version b) (chunks b) (last_version b)) ∧
  (verify b = Ok tt → ∀ v, first_version b ≤ v ≤ last_version b →
     ∃ i c, chunks b !! i = Some c ∧ chunk_has v c ∧
       ∀ j c', chunks b !! j = Some c' → chunk_has v c' → j = i).
Proof.
  intros (Hf & Hl & Hcs).
  assert (Hiff : verify b = Ok tt ↔
     first_version b ≤ last_version b ∧ tiles (first_version b) (chunks b) (last_version b)).
  { unfold verify. destruct (Z.leb_spec (first_version b) (last_version b)) as [Hle|Hgt];
      cbn [ensure mbind outcome_bind]; [|split; [done|lia]].
    rewrite <- verify_chunks_tiles by (done || lia).
    destruct (chunks b) as [|c cs]; cbn [negb ensure mbind outcome_bind].
    - split; [done|]. intros (_ & n & [= <-] & Hs & Hpos). specialize (Hpos eq_refl).
      unfold u64_sub in Hs. rewrite u64_wrap_small in Hs by (unfold is_u64; lia). lia.
    - rewrite bind_ok. split.
      + intros (n & E & Hs%ensure_ok). split; [done|]. exists n. split; [done|].
        split; [lia|done].
      + intros (_ & n & E & Hs & _). exists n. split; [done|]. apply ensure_ok. lia. }
  split; [exact Hiff|]. intros Hok v Hv. apply Hiff in Hok as [_ Ht].
  by apply (tiles_exactly_one _ _ _ v Ht).
Qed.

(** at the largest version the check wraps around: a manifest for the
    versions 2 to 3 whose chunks are [2 .. 2^64-1] and [0 .. 3] verifies, and
    the two chunks overlap on the versions it is for. *)
Theorem verify_wraps :
  let c1 := mk_chunk 2 u64_max "t1" "p1" in let c2 := mk_chunk 0 3 "t2" "p2" in
  verify (mk_backup 2 3 [c1; c2]) = Ok tt ∧ chunk_has 2 c1 ∧ chunk_has 2 c2.
Proof. split; [reflexivity|]. unfold chunk_has, u64_max; cbn. lia. Qed.

(** reading a snapshot succeeds exactly when every chunk file exists,
    opens and holds only records that decode; the result is then every blob of
    every record once, chunk by chunk in the manifest's order and in file
    order, and the hashes beside them are dropped. *)
Theorem snapshot_accounts_spec `{BackupFs, Bcs AccountStateBlobRecord} manifest archive dir blobs :
  parent archive = Some dir →
  v5_accounts_from_snapshot_backup manifest archive = Ok blobs ↔
  ∃ recss, Forall2 (fun h recs => fs_exists (dir ++ [h]) = true ∧
                      ∃ reads, fs_open (dir ++ [h]) = Some reads ∧ decoded reads recs)
             (ss_chunks manifest) recss ∧
           blobs = snd <$> concat recss.
Proof.
  intros Hdir. unfold v5_accounts_from_snapshot_backup.
  assert (Hchunk : ∀ h recs, read_account_state_chunk h archive = Ok recs ↔
    fs_exists (dir ++ [h]) = true ∧ ∃ reads, fs_open (dir ++ [h]) = Some reads ∧ decoded reads recs).
  { intros h recs. unfold read_account_state_chunk, read_chunk. rewrite Hdir.
    cbn [expect_opt mbind outcome_bind].
    destruct (fs_exists (dir ++ [h])); cbn [rust_assert mbind outcome_bind]; [|naive_solver].
    destruct (fs_open (dir ++ [h])) as [reads|]; cbn [context_opt mbind outcome_bind]; [|naive_solver].
    rewrite read_records_decoded. naive_solver. }
  enough (Hgen : ∀ cs acc, accounts_from_chunks cs archive acc = Ok blobs ↔
    ∃ recss, Forall2 (fun h recs => fs_exists (dir ++ [h]) = true ∧
               ∃ reads, fs_open (dir ++ [h]) = Some reads ∧ decoded reads recs) cs recss ∧
             blobs = acc ++ (snd <$> concat recss)) by apply Hgen.
  intros cs. induction cs as [|h cs IH]; intros acc; cbn [accounts_from_chunks].
  - split.
    + intros [= ->]. exists []. split; [constructor|]. cbn. by rewrite app_nil_r.
    + intros (recss & Hr & ->). inversion Hr. cbn. by rewrite app_nil_r.
  - rewrite bind_ok. setoid_rewrite Hchunk. setoid_rewrite IH. split.
    + intros (recs & Hc & recss & Hr & ->). exists (recs :: recss). split; [by constructor|].
      cbn. by rewrite fmap_app, app_assoc.
    + intros (recss & Hr & ->). inversion Hr as [|? recs ? recss' Hc Hr']; subst.
      exists recs. split; [done|]. exists recss'. split; [done|].
      cbn. by rewrite fmap_app, app_assoc.
Qed.

(** the JSON byte strings round trip, and read back only as well-formed
    bytes; a payload triggers a reconfiguration only as a direct write set and
    converts to a script function only when it is one, panicking otherwise. *)
Theorem views_and_payloads `{HexCrate} bs p :
  is_bytes bs →
  bytes_view_deserialize (bytes_view_serialize (mk_bytes_view bs)) = Ok (mk_bytes_view bs) ∧
  bytes_view_serialize (mk_bytes_view bs) = bytes_view_display (mk_bytes_view bs) ∧
  (should_trigger_reconfiguration_by_default p = true ↔ ∃ c, p = PlWriteSet (WsDirect c)) ∧
  (∀ f, into_script_function p = Ok f ↔ p = PlScriptFunction f) ∧
  is_err (into_script_function p) = false.
Proof.
  intros Hb. unfold bytes_view_serialize, bytes_view_deserialize, bytes_view_display. cbn [inner].
  rewrite hex_encode_law by done. split; [|split; [done|]].
  - rewrite (proj2 (hex_decode_law _ bs)); [done|]. split; [done|]. by apply str_lower_fmt_02x.
  - destruct p as [[]| | |]; cbn; naive_solver.
Qed.

(** ** Witnesses *)
Definition sample_backup : TransactionBackup :=
  mk_backup 10 29 [mk_chunk 10 19 "t1" "p1"; mk_chunk 20 29 "t2" "p2"].

Lemma verify_spec_witness :
  (verify sample_backup = Ok tt ↔ 10 ≤ 29 ∧ tiles 10 (chunks sample_backup) 29) ∧
  (verify sample_backup = Ok tt → ∀ v, 10 ≤ v ≤ 29 →
     ∃ i c, chunks sample_backup !! i = Some c ∧ chunk_has v c ∧
       ∀ j c', chunks sample_backup !! j = Some c' → chunk_has v c' → j = i).
Proof.
  apply (verify_spec sample_backup). split; [cbn; lia|]. split; [cbn; unfold u64_max; lia|].
  repeat constructor; cbn; unfold u64_max; lia.
Defined.

Example backup_gap : verify (mk_backup 10 29 [mk_chunk 10 18 "t" "p"; mk_chunk 20 29 "t" "p"])
  = Err "Chunk ranges not continuous.".
Proof. reflexivity. Qed.

(** A file system with two chunk files, and a codec of blobs only. *)
Definition sample_fs : BackupFs := {|
  fs_exists p := bool_decide (p = ["a"%string; "c1"%string] ∨ p = ["a"%string; "c2"%string]);
  fs_open p := if decide (p = ["a"%string; "c1"%string]) then Some [Some [1]; Some [2]] else Some [Some [3]]
|}.
Definition sample_record_bcs : Bcs AccountStateBlobRecord.
Proof.
  refine {| bcs_to_bytes r := if decide (fst r = HashValueV5.zero ∧ blob_hash (snd r) = [])
                              then Some (blob (snd r)) else None;
            bcs_from_bytes b := Some (HashValueV5.zero, {| blob := b; blob_hash := [] |}) |}.
  intros [h [b bh]] bs. cbn. case_decide as Hd; [|done]. destruct Hd as [-> ->]. by intros [= ->].
Defined.

Lemma snapshot_accounts_spec_witness :
  let fs := sample_fs in let bcs := sample_record_bcs in
  let m := mk_snapshot 5 HashValueV5.zero ["c1"%string; "c2"%string] "proof" in
  let blobs := [{| blob := [1]; blob_hash := [] |}; {| blob := [2]; blob_hash := [] |};
                {| blob := [3]; blob_hash := [] |}] in
  v5_accounts_from_snapshot_backup m ["a"%string; "manifest"%string] = Ok blobs ↔
  ∃ recss, Forall2 (fun h recs => fs_exists (["a"%string] ++ [h]) = true ∧
                      ∃ reads, fs_open (["a"%string] ++ [h]) = Some reads ∧ decoded reads recs)
             (ss_chunks m) recss ∧
           blobs = snd <$> concat recss.
Proof. intros fs bcs m blobs. apply snapshot_accounts_spec. reflexivity. Defined.

Example snapshot_sample :
  let fs := sample_fs in let bcs := sample_record_bcs in
  fmap (M:=outcome) (fmap (M:=list) blob) (v5_accounts_from_snapshot_backup
     (mk_snapshot 5 HashValueV5.zero ["c1"%string; "c2"%string] "proof") ["a"%string; "manifest"%string])
  = Ok [[1]; [2]; [3]].
Proof. vm_compute. reflexivity. Qed.

Lemma views_and_payloads_witness :
  let p := PlWriteSet (WsDirect []) in
  bytes_view_deserialize (bytes_view_serialize (mk_bytes_view [171; 0])) = Ok (mk_bytes_view [171; 0]) ∧
  bytes_view_serialize (mk_bytes_view [171; 0]) = bytes_view_display (mk_bytes_view [171; 0]) ∧
  (should_trigger_reconfiguration_by_default p = true ↔ ∃ c, p = PlWriteSet (WsDirect c)) ∧
  (∀ f, into_script_function p = Ok f ↔ p = PlScriptFunction f) ∧
  is_err (into_script_function p) = false.
Proof. intros p. apply views_and_payloads. by apply (bool_decide_unpack _). Defined.
