(* ===== verification/BTree.v ===== *)
(** * [std::collections::BTreeMap]

    A map as the association list its iterators walk: keys strictly increasing.
    Holds [get], [insert], [get_mut] (as an update in place) and their laws,
    over any totally ordered key type. *)
From Stdlib Require Import ZArith Lia.
From stdpp Require Import base option list.
From S2P Require Import Prelude.

Open Scope Z_scope.

(** [Ord]: a strict total order, decided by a three-way comparison. *)
Class OrdKey (K : Type) := {
  kcmp : K → K → comparison;
  kcmp_eq a b : kcmp a b = Eq ↔ a = b;
  kcmp_antisym a b : kcmp b a = CompOpp (kcmp a b);
  kcmp_trans a b c : kcmp a b = Lt → kcmp b c = Lt → kcmp a c = Lt
}.

(** Arrays of bytes compare lexicographically. *)
Fixpoint bytes_cmp (a b : list Z) : comparison :=
  match a, b with
  | [], [] => Eq
  | [], _ :: _ => Lt
  | _ :: _, [] => Gt
  | x :: a', y :: b' => match x ?= y with Eq => bytes_cmp a' b' | c => c end
  end.

#[export] Program Instance bytes_ord : OrdKey (list Z) := {| kcmp := bytes_cmp |}.
Next Obligation.
  induction a as [|x a IH]; intros [|y b]; cbn; try done.
  destruct (Z.compare_spec x y) as [->|Hlt|Hgt].
  - rewrite IH. naive_solver.
  - split; [done|]. intros [= -> ->]. lia.
  - split; [done|]. intros [= -> ->]. lia.
Qed.
Next Obligation.
  induction a as [|x a IH]; intros [|y b]; cbn; try done.
  rewrite (Z.compare_antisym x y). destruct (Z.compare_spec x y); cbn; [apply IH|done|done].
Qed.
Next Obligation.
  induction a as [|x a IH]; intros [|y b] [|z c]; cbn; try done.
  destruct (Z.compare_spec x y) as [->|Hxy|]; try done.
  - destruct (Z.compare_spec y z); try done. by apply IH.
  - intros _. destruct (Z.compare_spec y z) as [->|Hyz|]; try done.
    + by rewrite (proj2 (Z.compare_lt_iff x z)).
    + by rewrite (proj2 (Z.compare_lt_iff x z)) by lia.
Qed.

Section btree.
  Context {K V : Type} `{OrdKey K}.

Definition btree : Type := list (K * V).

Fixpoint bt_get (k : K) (m : btree) : option V :=
  match m with
  | [] => None
  | (k', v) :: m' => match kcmp k k' with Eq => Some v | _ => bt_get k m' end
  end.

(** [insert]: replaces the value of a key that is there *)
Fixpoint bt_insert (k : K) (v : V) (m : btree) : btree :=
  match m with
  | [] => [(k, v)]
  | (k', v') :: m' =>
      match kcmp k k' with
      | Lt => (k, v) :: m
      | Eq => (k, v) :: m'
      | Gt => (k', v') :: bt_insert k v m'
      end
  end.

(** A write through [get_mut]; no effect when the key is absent *)
Fixpoint bt_alter (f : V → V) (k : K) (m : btree) : btree :=
  match m with
  | [] => []
  | (k', v) :: m' =>
      match kcmp k k' with Eq => (k', f v) :: m' | _ => (k', v) :: bt_alter f k m' end
  end.

Definition bt_keys (m : btree) : list K := m.*1.
Definition bt_contains_key (k : K) (m : btree) : bool :=
  match bt_get k m with Some _ => true | None => false end.

(** Strictly increasing keys *)
Fixpoint bt_sorted (m : btree) : Prop :=
  match m with
  | [] => True
  | (k, _) :: m' => Forall (fun kv => kcmp k (fst kv) = Lt) m' ∧ bt_sorted m'
  end.

Lemma kcmp_refl k : kcmp k k = Eq.
Proof. by apply kcmp_eq. Qed.

Lemma kcmp_gt a b : kcmp a b = Gt → kcmp b a = Lt.
Proof. intros E. rewrite kcmp_antisym, E. done. Qed.

Lemma bt_insert_keys P k v m :
  P k → Forall (fun kv => P (fst kv)) m → Forall (fun kv : K * V => P (fst kv)) (bt_insert k v m).
Proof.
  intros Hk Hm. induction Hm as [|[k' v'] m Hk' Hm IH]; cbn; [by constructor|].
  destruct (kcmp k k'); by repeat constructor.
Qed.

Lemma bt_insert_sorted k v m : bt_sorted m → bt_sorted (bt_insert k v m).
Proof.
  induction m as [|[k' v'] m IH]; cbn; [by repeat constructor|]. intros [Hlt Hs].
  destruct (kcmp k k') eqn:E; cbn.
  - apply kcmp_eq in E as ->. done.
  - split; [|done]. constructor; [done|]. eapply Forall_impl; [exact Hlt|].
    intros [k2 v2] H2. by apply (kcmp_trans k k' k2).
  - split; [|by apply IH]. apply (bt_insert_keys (fun x => kcmp k' x = Lt)); [by apply kcmp_gt|done].
Qed.

Lemma bt_get_lt k m : Forall (fun kv => kcmp k (fst kv) = Lt) m → bt_get k m = None.
Proof. induction 1 as [|[k' v'] m E Hm IH]; cbn in *; [done|]. by rewrite E. Qed.

Lemma bt_get_insert k v m : bt_get k (bt_insert k v m) = Some v.
Proof.
  induction m as [|[k' v'] m IH]; cbn; [by rewrite kcmp_refl|].
  destruct (kcmp k k') eqn:E; cbn; [by rewrite kcmp_refl|by rewrite kcmp_refl|by rewrite E].
Qed.

Lemma bt_get_insert_ne k k0 v m :
  k ≠ k0 → bt_get k0 (bt_insert k v m) = bt_get k0 m.
Proof.
  intros Hne. assert (Hcmp : kcmp k0 k ≠ Eq) by (intros E%kcmp_eq; congruence).
  induction m as [|[k' v'] m IH]; cbn; [by destruct (kcmp k0 k)|].
  destruct (kcmp k k') eqn:E; cbn.
  - apply kcmp_eq in E as <-. by destruct (kcmp k0 k).
  - by destruct (kcmp k0 k).
  - destruct (kcmp k0 k'); done.
Qed.

Lemma bt_get_alter f k m : bt_get k (bt_alter f k m) = f <$> bt_get k m.
Proof.
  induction m as [|[k' v'] m IH]; cbn; [done|].
  destruct (kcmp k k') eqn:E; cbn; by rewrite E.
Qed.

Lemma bt_get_alter_ne f k k0 m : k ≠ k0 → bt_get k0 (bt_alter f k m) = bt_get k0 m.
Proof.
  intros Hne. induction m as [|[k' v'] m IH]; cbn; [done|].
  destruct (kcmp k k') eqn:E; cbn.
  - apply kcmp_eq in E as <-. destruct (kcmp k0 k) eqn:E'; try done. apply kcmp_eq in E'. congruence.
  - by destruct (kcmp k0 k').
  - by destruct (kcmp k0 k').
Qed.

Lemma bt_alter_keys f k m : bt_keys (bt_alter f k m) = bt_keys m.
Proof.
  induction m as [|[k' v'] m IH]; cbn; [done|].
  destruct (kcmp k k'); cbn; f_equal; try done.
Qed.

Lemma bt_sorted_keys m1 m2 : bt_keys m1 = bt_keys m2 → bt_sorted m1 → bt_sorted m2.
Proof.
  revert m2. induction m1 as [|[k v] m1 IH]; intros [|[k' v'] m2]; cbn; try done.
  intros [= <- Hk] [Hlt Hs]. split; [|by apply IH].
  apply (proj1 (Forall_fmap fst (fun x => kcmp k x = Lt) m2)).
  unfold bt_keys in Hk. rewrite <- Hk. by apply (proj2 (Forall_fmap fst (fun x => kcmp k x = Lt) m1)).
Qed.

Lemma bt_alter_sorted f k m : bt_sorted m → bt_sorted (bt_alter f k m).
Proof. apply bt_sorted_keys. symmetry. apply bt_alter_keys. Qed.

Lemma bt_get_in k v m : bt_get k m = Some v → (k, v) ∈ m.
Proof.
  induction m as [|[k' v'] m IH]; cbn; [done|].
  destruct (kcmp k k') eqn:E.
  - intros [= ->]. apply kcmp_eq in E as ->. by left.
  - intros Hg. right. by apply IH.
  - intros Hg. right. by apply IH.
Qed.

Lemma bt_in_get k v m : bt_sorted m → (k, v) ∈ m → bt_get k m = Some v.
Proof.
  induction m as [|[k' v'] m IH]; cbn; [by intros _ ?%not_elem_of_nil|].
  intros [Hlt Hs] [[= -> ->]|Hin]%elem_of_cons; [by rewrite kcmp_refl|].
  pose proof (proj1 (Forall_forall _ _) Hlt _ Hin) as E. cbn in E.
  rewrite (kcmp_antisym k' k), E. cbn. by apply IH.
Qed.

Lemma bt_get_is_some k m : is_Some (bt_get k m) ↔ k ∈ bt_keys m.
Proof.
  induction m as [|[k' v'] m IH]; cbn; [rewrite elem_of_nil; split; [by intros []|done]|].
  rewrite elem_of_cons. destruct (kcmp k k') eqn:E.
  - apply kcmp_eq in E as ->. split; [by left|by eexists].
  - rewrite IH. split; [by right|]. intros [->|?]; [by rewrite kcmp_refl in E|done].
  - rewrite IH. split; [by right|]. intros [->|?]; [by rewrite kcmp_refl in E|done].
Qed.

Lemma bt_sorted_nodup m : bt_sorted m → NoDup (bt_keys m).
Proof.
  induction m as [|[k v] m IH]; cbn; [constructor|]. intros [Hlt Hs].
  constructor; [|by apply IH]. intros ([k2 v2] & -> & Hin)%list_elem_of_fmap.
  pose proof (proj1 (Forall_forall _ _) Hlt _ Hin) as E. cbn in E. by rewrite kcmp_refl in E.
Qed.

End btree.

Arguments btree K V : clear implicits.
#[export] Hint Resolve bt_insert_sorted bt_alter_sorted : libra.
