(* ===== verification/MoveTypes.v ===== *)
(** * types/src/move_resource and types/src/core_types/legacy_currency_info.rs

    The v7 account address (the diem crate's type: 32 bytes, with its text
    functions as an interface) and the resources an exported account carries. *)
From Stdlib Require Import ZArith Lia Ascii.
From stdpp Require Import base option list strings.
From S2P Require Import Prelude RustStr Bytes LegacyAddress.

Open Scope Z_scope.

(** [diem_types::account_address::AccountAddress] is a 32-byte array. *)
Notation AccountAddress := bytes.
Definition addr_wf (a : AccountAddress) : Prop := is_array 32 a.
Definition addr_ZERO : AccountAddress := repeat 0 32.
Definition addr_ONE : AccountAddress := repeat 0 31 ++ [1].
Definition CORE_CODE_ADDRESS : AccountAddress := addr_ONE.

(** Its text: [Display] is the 64 digits without a prefix, a literal is "0x"
    and at most 64 digits, [from_str] takes either. *)
Class DiemAddress := {
  addr_to_string : AccountAddress → string;
  addr_from_hex_literal : string → option AccountAddress;
  addr_to_hex_literal : AccountAddress → string;
  addr_from_str : string → option AccountAddress;
  addr_to_string_law a : addr_wf a → addr_to_string a = fmt_02x a;
  addr_from_hex_literal_law b :
    is_bytes b → (1 ≤ length b ≤ 32)%nat →
    addr_from_hex_literal ("0x" +:+ fmt_02x b) = Some (repeat 0 (32 - length b) ++ b);
  addr_from_to_literal a : addr_wf a → addr_from_hex_literal (addr_to_hex_literal a) = Some a;
  addr_to_hex_literal_law a : addr_wf a → ∃ digits, addr_to_hex_literal a = "0x" +:+ digits;
  addr_from_to_string a : addr_wf a → addr_from_str (addr_to_string a) = Some a;
  addr_from_str_one : addr_from_str "0x1" = Some addr_ONE;
  addr_parse_wf s a : addr_from_hex_literal s = Some a ∨ addr_from_str s = Some a → addr_wf a
}.

(** A concrete instance *)
Definition ref_pad (s : string) : string := LegacyAddressV5.zeros (64 - String.length s) +:+ s.
Definition ref_from_hex_literal (s : string) : option AccountAddress :=
  match strip_prefix "0x" s with
  | Some r => hex_decode_array 32 (ref_pad r)
  | None => None
  end.
Definition ref_from_str (s : string) : option AccountAddress :=
  match strip_prefix "0x" s with
  | Some r => hex_decode_array 32 (ref_pad r)
  | None => hex_decode_array 32 s
  end.

Lemma ref_pad_full a : addr_wf a → ref_pad (fmt_02x a) = fmt_02x a.
Proof.
  intros [Hl _]. unfold ref_pad. rewrite (fmt_hex_length 97 a : String.length (fmt_02x a) = _), Hl.
  change (64 - 2 * 32)%nat with O. reflexivity.
Qed.

Lemma ref_pad_short b :
  (length b ≤ 32)%nat → ref_pad (fmt_02x b) = fmt_02x (repeat 0 (32 - length b) ++ b).
Proof.
  intros Hl. unfold ref_pad. rewrite (fmt_hex_length 97 b : String.length (fmt_02x b) = _).
  replace (64 - 2 * length b)%nat with (2 * (32 - length b))%nat by lia.
  induction (32 - length b)%nat as [|k IH]; [done|].
  replace (2 * S k)%nat with (S (S (2 * k)))%nat by lia.
  cbn [LegacyAddressV5.zeros repeat app String.append]. rewrite IH. reflexivity.
Qed.

Lemma padded_wf b : is_bytes b → (length b ≤ 32)%nat → addr_wf (repeat 0 (32 - length b) ++ b).
Proof.
  intros Hb Hl. split; [rewrite length_app, repeat_length; lia|].
  apply Forall_app. split; [by apply Forall_repeat|done].
Qed.

Lemma hex_text_no_prefix a : addr_wf a → strip_prefix "0x" (fmt_02x a) = None.
Proof.
  intros [Hl Hb]. destruct a as [|b a]; [done|]. apply Forall_cons in Hb as [Hb _].
  unfold fmt_02x. cbn [fmt_hex strip_prefix]. destruct (Ascii.eqb "0" (hex_digit 97 (b / 16))); [|done].
  destruct (Ascii.eqb_spec "x" (hex_digit 97 (b mod 16))) as [E|]; [|done].
  pose proof (is_u8_nibbles b Hb) as [_ Hm].
  pose proof (forall_below (fun d => negb (Ascii.eqb "x" (hex_digit 97 d))) 16 eq_refl (b mod 16) ltac:(lia)) as Hn.
  cbv beta in Hn. rewrite <- E in Hn. done.
Qed.

#[export] Program Instance ref_diem_address : DiemAddress := {|
  addr_to_string := fmt_02x;
  addr_from_hex_literal := ref_from_hex_literal;
  addr_to_hex_literal a := "0x" +:+ fmt_02x a;
  addr_from_str := ref_from_str
|}.
Next Obligation. done. Qed.
Next Obligation.
  intros b Hb Hl. unfold ref_from_hex_literal. rewrite strip_prefix_app, ref_pad_short by lia.
  apply hex_decode_array_fmt, padded_wf; [done|lia].
Qed.
Next Obligation.
  intros a Ha. unfold ref_from_hex_literal. rewrite strip_prefix_app, ref_pad_full by done.
  by apply hex_decode_array_fmt.
Qed.
Next Obligation. intros a _. by exists (fmt_02x a). Qed.
Next Obligation.
  intros a Ha. unfold ref_from_str. rewrite hex_text_no_prefix by done. by apply hex_decode_array_fmt.
Qed.
Next Obligation. vm_compute. reflexivity. Qed.
Next Obligation.
  intros s a. unfold ref_from_hex_literal, ref_from_str.
  destruct (strip_prefix "0x" s) as [r|]; intros [H|H]; try done;
    by apply (hex_decode_array_wf 32) in H.
Qed.

Lemma addr_from_full_literal `{DiemAddress} a :
  addr_wf a → addr_from_hex_literal ("0x" +:+ fmt_02x a) = Some a.
Proof. intros [Hl Hb]. rewrite addr_from_hex_literal_law by (done || lia). by rewrite Hl. Qed.

Lemma addr_text_roundtrip `{DiemAddress} a :
  addr_wf a → addr_from_hex_literal ("0x" +:+ addr_to_string a) = Some a.
Proof. intros Ha. rewrite addr_to_string_law by done. by apply addr_from_full_literal. Qed.

#[export] Hint Resolve addr_text_roundtrip : libra.

(** ** The resources *)
Module Res.

Record AncestryResource := mk_ancestry { tree : list AccountAddress }.
Record UserBurnPreferenceResource := mk_burn_pref { send_community : bool }.
Record BurnCounterResource := mk_burn_counter { lifetime_burned : Z; lifetime_recycled : Z }.
Record LegacyBalanceResourceV6 := mk_balance { coin : Z }.
Record CumulativeDepositResource := mk_cumu {
  cd_value : Z; cd_index : Z; cd_depositors : list AccountAddress }.
Record RegistryResource := mk_registry {
  reg_list : list AccountAddress; liquidation_queue : list AccountAddress }.
Record IDResource := mk_id { creation_num : Z; id_addr : AccountAddress }.
Record PaymentResource := mk_payment { payee : AccountAddress; pay_value : Z; description : bytes }.
Record TimedTransferResource := mk_timed {
  uid : IDResource; deadline : Z; tx : PaymentResource; epoch_latest_veto_received : Z }.
Record GUIDCapabilityResource := mk_guid { guid_addr : AccountAddress }.
Record TxScheduleResource := mk_schedule {
  scheduled : list TimedTransferResource; veto : list TimedTransferResource;
  paid : list TimedTransferResource; guid_capability : GUIDCapabilityResource }.
Record FeeMakerResource := mk_fee_maker { fm_epoch : Z; fm_lifetime : Z }.
Record EpochFeeMakerRegistryResource := mk_fee_registry {
  fee_makers : list AccountAddress; epoch_fees_made : Z }.
Record JailResource := mk_jail {
  is_jailed : bool; lifetime_jailed : Z; lifetime_vouchees_jailed : Z;
  consecutive_failure_to_rejoin : Z }.
(** The [f64] ratios are carried by their bits. *)
Record MatchIndexResource := mk_match_index {
  mi_addr : list AccountAddress; mi_index : list Z; mi_ratio : list Z }.
Record BurnTrackerResource := mk_burn_tracker {
  prev_supply : Z; prev_balance : Z; burn_at_last_calc : Z; cumu_burn : Z }.
Record PledgeAccountResource := mk_pledge {
  address_of_beneficiary : AccountAddress; amount : Z; pledge : Z;
  epoch_of_last_deposit : Z; lifetime_pledged : Z; lifetime_withdrawn : Z }.
Record MyPledgesResource := mk_pledges { pledges : list PledgeAccountResource }.
Record ConsensusRewardResource := mk_reward {
  nominal_reward : Z; net_reward : Z; entry_fee : Z; clearing_bid : Z;
  median_win_bid : Z; median_history : list Z }.
Record ReceiptsResource := mk_receipts {
  destination : list AccountAddress; cumulative : list Z;
  last_payment_timestamp : list Z; last_payment_value : list Z }.
Record ValidatorUniverseResource := mk_universe { validators : list AccountAddress }.
Record MyVouchesResource := mk_vouches {
  my_buddies : list AccountAddress; epoch_vouched : list Z }.
Record CommunityWalletsResource := mk_comm { comm_list : list AccountAddress }.
Record SlowWalletResource := mk_slow { unlocked : Z; transferred : Z }.
(** [EventHandle] is the diem crate's, carried as bytes. *)
Record SlowWalletListResource := mk_slow_list {
  slow_list : list AccountAddress; drip_events : bytes }.
Record CurrencyInfoResource := mk_currency {
  total_value : Z; preburn_value : Z; to_xdx_exchange_rate : Z; is_synthetic : bool;
  scaling_factor : Z; fractional_part : Z; currency_code : string; can_mint : bool }.

End Res.
