(* ===== verification/Recovery.v ===== *)
(** * compatibility/src/legacy_recovery_v6.rs and tools/genesis/src/parse_json.rs

    The record of everything a v6 account carries into the new chain, its
    extraction from an account's on-chain state, and the cleaning of the
    recovery list: system addresses stripped, slow wallets capped, dropped
    accounts tombstoned. *)
From Stdlib Require Import ZArith Lia Ascii.
From stdpp Require Import base option list strings.
From S2P Require Import Prelude RustStr Bytes LegacyAddress MoveTypes.

Open Scope Z_scope.

Inductive AccountRole := System | Validator | Operator | EndUser | Drop.

#[global] Instance role_eq_dec : EqDecision AccountRole.
Proof. solve_decision. Defined.

Definition role_default : AccountRole := EndUser.

(** [ValidatorConfig] and [ValidatorOperatorConfigResource] are the diem
    crate's, carried as bytes; an [AuthenticationKey] is 32 bytes. *)
Record LegacyRecoveryV6 := mk_recovery {
  account : option AccountAddress;
  auth_key : option bytes;
  role : AccountRole;
  balance : option Res.LegacyBalanceResourceV6;
  val_cfg : option bytes;
  val_operator_cfg : option bytes;
  comm_wallet : option Res.CommunityWalletsResource;
  currency_info : option Res.CurrencyInfoResource;
  ancestry : option Res.AncestryResource;
  receipts : option Res.ReceiptsResource;
  cumulative_deposits : option Res.CumulativeDepositResource;
  slow_wallet : option Res.SlowWalletResource;
  slow_wallet_list : option Res.SlowWalletListResource;
  user_burn_preference : option Res.UserBurnPreferenceResource;
  burn_tracker : option Res.BurnTrackerResource;
  my_vouches : option Res.MyVouchesResource;
  tx_schedule : option Res.TxScheduleResource;
  fee_maker : option Res.FeeMakerResource;
  jail : option Res.JailResource;
  my_pledge : option Res.MyPledgesResource;
  burn_counter : option Res.BurnCounterResource;
  donor_voice_registry : option Res.RegistryResource;
  epoch_fee_maker_registry : option Res.EpochFeeMakerRegistryResource;
  match_index : option Res.MatchIndexResource;
  validator_universe : option Res.ValidatorUniverseResource;
  consensus_reward : option Res.ConsensusRewardResource
}.

(** [Default], and the initial value of [get_legacy_recovery] *)
Definition recovery_of (a : option AccountAddress) (k : option bytes) (r : AccountRole) : LegacyRecoveryV6 :=
  mk_recovery a k r None None None None None None None None None None None None None None None
    None None None None None None None None.
Definition recovery_default : LegacyRecoveryV6 := recovery_of None None role_default.

Definition with_slow_wallet (e : LegacyRecoveryV6) (s : option Res.SlowWalletResource) : LegacyRecoveryV6 :=
  mk_recovery (account e) (auth_key e) (role e) (balance e) (val_cfg e) (val_operator_cfg e)
    (comm_wallet e) (currency_info e) (ancestry e) (receipts e) (cumulative_deposits e) s
    (slow_wallet_list e) (user_burn_preference e) (burn_tracker e) (my_vouches e) (tx_schedule e)
    (fee_maker e) (jail e) (my_pledge e) (burn_counter e) (donor_voice_registry e)
    (epoch_fee_maker_registry e) (match_index e) (validator_universe e) (consensus_reward e).

(** ** legacy_recovery_v6.rs: strip_system_address *)
Definition system_pattern : string :=
  "000000000000000000000000000000000000000000000000000000000000000".

(** [retain]: every element is visited; a missing account panics. *)
Fixpoint strip_system_address `{DiemAddress} (l : list LegacyRecoveryV6) : outcome (list LegacyRecoveryV6) :=
  match l with
  | [] => Ok []
  | e :: l' =>
      a ← expect_opt "called `Option::unwrap()` on a `None` value" (account e);
      rest ← strip_system_address l';
      Ok (if contains system_pattern (addr_to_string a) then rest else e :: rest)
  end.

(** ** get_legacy_recovery

    The diem [AccountState] is what its accessors answer. *)
Record AccountState := mk_account_state {
  get_account_address : outcome (option AccountAddress);
  get_account_resource_auth_key : outcome (option bytes);
  get_coin_store_resource : outcome (option Z);
  get_validator_config_resource : outcome (option bytes);
  get_validator_operator_config_resource : outcome (option bytes);
  get_comm_wallet : outcome (option Res.CommunityWalletsResource);
  get_ancestry : outcome (option Res.AncestryResource);
  get_receipts : outcome (option Res.ReceiptsResource);
  get_cumulative_deposits : outcome (option Res.CumulativeDepositResource);
  get_slow_wallet : outcome (option Res.SlowWalletResource);
  get_slow_wallet_list : outcome (option Res.SlowWalletListResource);
  get_user_burn_preference : outcome (option Res.UserBurnPreferenceResource);
  get_burn_tracker : outcome (option Res.BurnTrackerResource);
  get_my_vouches : outcome (option Res.MyVouchesResource);
  get_tx_schedule : outcome (option Res.TxScheduleResource);
  get_fee_maker : outcome (option Res.FeeMakerResource);
  get_jail : outcome (option Res.JailResource);
  get_my_pledge : outcome (option Res.MyPledgesResource);
  get_burn_counter : outcome (option Res.BurnCounterResource);
  get_donor_voice_registry : outcome (option Res.RegistryResource);
  get_epoch_fee_maker_registry : outcome (option Res.EpochFeeMakerRegistryResource);
  get_match_index : outcome (option Res.MatchIndexResource);
  get_validator_universe : outcome (option Res.ValidatorUniverseResource);
  get_consensus_reward : outcome (option Res.ConsensusRewardResource)
}.

Definition get_legacy_recovery `{DiemAddress} (st : AccountState) : outcome LegacyRecoveryV6 :=
  addr ← get_account_address st;
  account_resource ← get_account_resource_auth_key st;
  match account_resource with
  | None => Ok (recovery_of addr None EndUser)
  | Some key =>
      byte_slice ← context_opt "error: " (array_try_from 32 key);
      addr' ← get_account_address st;
      one ← context_opt "unable to parse AccountAddress" (addr_from_str "0x1");
      let role := if decide (addr' = Some one) then System else EndUser in
      coin ← get_coin_store_resource st;
      val_cfg ← get_validator_config_resource st;
      let role := match val_cfg with Some _ => Validator | None => role end in
      val_operator_cfg ← get_validator_operator_config_resource st;
      let role := match val_operator_cfg with Some _ => Operator | None => role end in
      comm_wallet ← get_comm_wallet st;
      ancestry ← get_ancestry st;
      receipts ← get_receipts st;
      cumulative_deposits ← get_cumulative_deposits st;
      slow_wallet ← get_slow_wallet st;
      slow_wallet_list ← get_slow_wallet_list st;
      user_burn_preference ← get_user_burn_preference st;
      burn_tracker ← get_burn_tracker st;
      my_vouches ← get_my_vouches st;
      tx_schedule ← get_tx_schedule st;
      fee_maker ← get_fee_maker st;
      jail ← get_jail st;
      my_pledge ← get_my_pledge st;
      burn_counter ← get_burn_counter st;
      donor_voice_registry ← get_donor_voice_registry st;
      epoch_fee_maker_registry ← get_epoch_fee_maker_registry st;
      match_index ← get_match_index st;
      validator_universe ← get_validator_universe st;
      consensus_reward ← get_consensus_reward st;
      Ok (mk_recovery addr (Some byte_slice) role (Res.mk_balance <$> coin) val_cfg
            val_operator_cfg comm_wallet None ancestry receipts cumulative_deposits slow_wallet
            slow_wallet_list user_burn_preference burn_tracker my_vouches tx_schedule fee_maker
            jail my_pledge burn_counter donor_voice_registry epoch_fee_maker_registry match_index
            validator_universe consensus_reward)
  end.

(** ** parse_json.rs *)

(** One step of the [for_each]: the element written back, and the account
    pushed on [errs], if any. *)
Definition fix_one (e : LegacyRecoveryV6) : LegacyRecoveryV6 * option AccountAddress :=
  match account e, balance e, slow_wallet e with
  | Some a, Some b, Some s =>
      let bal := Res.coin b in
      if bal <? Res.unlocked s
      then (with_slow_wallet e (Some (Res.mk_slow bal (Res.transferred s))), Some a)
      else (e, None)
  | _, _, _ => (e, None)
  end.

Definition fix_slow_wallet (r : list LegacyRecoveryV6) : list LegacyRecoveryV6 * outcome (list AccountAddress) :=
  ((fst ∘ fix_one) <$> r, Ok (omap (snd ∘ fix_one) r)).

(** File reading and [serde_json] are arguments. *)
Definition read_from_recovery_file (read_file : path → option string)
    (from_json : string → option (list LegacyRecoveryV6)) (p : path) : outcome (list LegacyRecoveryV6) :=
  data ← expect_opt "Unable to read file" (read_file p);
  expect_opt "Unable to parse" (from_json data).

Definition recovery_file_parse (read_file : path → option string)
    (from_json : string → option (list LegacyRecoveryV6)) (p : path) : outcome (list LegacyRecoveryV6) :=
  r ← read_from_recovery_file read_file from_json p;
  let '(r', errs) := fix_slow_wallet r in
  _ ← errs;
  Ok r'.

Definition tombstone : bytes := repeat 9 32.

Definition drop_one (mapped : list AccountAddress) (e : LegacyRecoveryV6) : LegacyRecoveryV6 :=
  match account e with
  | Some a => if decide (a ∈ mapped) then recovery_of (Some a) (Some tombstone) Drop else e
  | None => e
  end.

(** Returns the list as it is left in memory and the file written. *)
Definition drop_accounts (read_file : path → option string)
    (from_json : string → option (list AccountAddress))
    (to_json : list LegacyRecoveryV6 → option string)
    (r : list LegacyRecoveryV6) (drop_file : path)
    : outcome (list LegacyRecoveryV6 * (path * string)) :=
  data ← expect_opt "Unable to read file" (read_file drop_file);
  mapped ← expect_opt "Unable to parse" (from_json data);
  let r' := drop_one mapped <$> r in
  dir ← expect_opt "called `Option::unwrap()` on a `None` value" (parent drop_file);
  json ← context_opt "serde_json" (to_json r');
  Ok (r', (path_join dir "migration_sanitized.json", json)).

(** ** Lemmas *)
Lemma with_slow_wallet_id e : with_slow_wallet e (slow_wallet e) = e.
Proof. by destruct e. Qed.

(** The cap holds: a slow wallet has no more unlocked than the balance. *)
Definition capped (e : LegacyRecoveryV6) : Prop :=
  match account e, balance e, slow_wallet e with
  | Some _, Some b, Some s => Res.unlocked s ≤ Res.coin b
  | _, _, _ => True
  end.

Lemma fix_one_capped e : capped (fst (fix_one e)).
Proof.
  unfold fix_one, capped.
  destruct (account e) as [a|] eqn:Ea; cbn; [|by rewrite Ea].
  destruct (balance e) as [b|] eqn:Eb; cbn; [|by rewrite Ea, Eb].
  destruct (slow_wallet e) as [s|] eqn:Es; cbn; [|by rewrite Ea, Eb, Es].
  destruct (Z.ltb_spec (Res.coin b) (Res.unlocked s)); cbn; rewrite Ea, Eb; [done|].
  by rewrite Es.
Qed.

Lemma fix_one_of_capped e : capped e → fix_one e = (e, None).
Proof.
  unfold fix_one, capped.
  destruct (account e), (balance e) as [b|], (slow_wallet e) as [s|]; try done.
  intros Hle. destruct (Z.ltb_spec (Res.coin b) (Res.unlocked s)); [lia|done].
Qed.

Lemma fix_one_not_capped e :
  ¬ capped e →
  ∃ a b s, account e = Some a ∧ balance e = Some b ∧ slow_wallet e = Some s ∧
    Res.coin b < Res.unlocked s ∧
    fix_one e = (with_slow_wallet e (Some (Res.mk_slow (Res.coin b) (Res.transferred s))), Some a).
Proof.
  unfold fix_one, capped.
  destruct (account e) as [a|], (balance e) as [b|], (slow_wallet e) as [s|]; try (intros []; done).
  intros Hn. exists a, b, s. destruct (Z.ltb_spec (Res.coin b) (Res.unlocked s)); [|lia].
  repeat split; done.
Qed.

#[global] Instance capped_dec e : Decision (capped e).
Proof. unfold capped. repeat case_match; apply _. Defined.

Lemma fmt_zeros_prefix k bs r :
  is_bytes bs → (k ≤ length bs)%nat →
  fmt_02x bs = LegacyAddressV5.zeros (2 * k) +:+ r →
  take k bs = repeat 0 k ∧ fmt_02x (drop k bs) = r.
Proof.
  revert bs. induction k as [|k IH]; intros bs Hb Hk; [by intros H; split; [|rewrite drop_0, H]|].
  destruct bs as [|b bs]; [cbn in Hk; lia|]. apply Forall_cons in Hb as [Hb Hbs].
  replace (2 * S k)%nat with (S (S (2 * k))) by lia.
  unfold fmt_02x. cbn [fmt_hex LegacyAddressV5.zeros String.append]. intros [= H1 H2 H3].
  pose proof (is_u8_nibbles b Hb) as [Hd Hm].
  apply (hex_digit_inj _ 0) in H1, H2; try done; try lia.
  apply IH in H3 as [H3 H4]; [|done|cbn in Hk; lia].
  cbn [take drop repeat]. rewrite H3. split; [|exact H4]. f_equal.
  rewrite (Z.div_mod b 16) by lia. lia.
Qed.

Lemma fmt_02x_zeros k : fmt_02x (repeat 0 k) = LegacyAddressV5.zeros (2 * k).
Proof.
  induction k as [|k IH]; [done|]. replace (2 * S k)%nat with (S (S (2 * k))) by lia.
  unfold fmt_02x in *. cbn [repeat fmt_hex LegacyAddressV5.zeros]. by rewrite IH.
Qed.

Lemma fmt_02x_app a b : fmt_02x (a ++ b) = fmt_02x a +:+ fmt_02x b.
Proof. unfold fmt_02x. induction a as [|x a IH]; cbn [fmt_hex app String.append]; [done|]. by rewrite IH. Qed.

(** The addresses the pattern matches: at most one digit that is not zero, the
    first or the last. *)
Definition system_like (a : AccountAddress) : Prop :=
  (∃ b, a = repeat 0 31 ++ [b] ∧ b < 16) ∨ (∃ b, a = b :: repeat 0 31 ∧ b mod 16 = 0).

Lemma contains_system_pattern a :
  addr_wf a → contains system_pattern (fmt_02x a) = true ↔ system_like a.
Proof.
  intros [Hl Hb]. rewrite contains_spec.
  change system_pattern with (LegacyAddressV5.zeros 63). split.
  - intros (x & y & E). pose proof (f_equal String.length E) as Hlen.
    rewrite !str_app_length, LegacyAddressV5.zeros_length in Hlen. unfold fmt_02x in Hlen.
    rewrite fmt_hex_length, Hl in Hlen.
    destruct x as [|c x]; cbn [String.length String.append] in *.
    + destruct y as [|c [|d y]]; cbn [String.length] in Hlen; try lia.
      left. change (LegacyAddressV5.zeros 63 +:+ String c "") with
        (LegacyAddressV5.zeros (2 * 31) +:+ String "0" (String c "")) in E.
      apply fmt_zeros_prefix in E as [E1 E2]; [|done|lia].
      rewrite <- (take_drop 31 a), E1.
      destruct (drop 31 a) as [|b [|b' r]] eqn:Ed; [done| |done].
      exists b. split; [done|]. unfold fmt_02x in E2. cbn [fmt_hex] in E2. injection E2 as E2 _.
      assert (Hbb : is_u8 b).
      { apply (Forall_inv (l := [])). rewrite <- Ed. by apply Forall_drop. }
      pose proof (is_u8_nibbles b Hbb) as [Hd Hm].
      apply (hex_digit_inj _ 0) in E2; [|done|lia]. rewrite (Z.div_mod b 16) by lia. lia.
    + destruct x as [|d x]; cbn [String.length] in Hlen; [|lia].
      destruct y as [|d y]; cbn [String.length] in Hlen; [|lia].
      right. destruct a as [|b a]; [done|]. apply Forall_cons in Hb as [Hb Hba].
      rewrite str_app_nil_r in E. change (LegacyAddressV5.zeros 63) with
        (String "0" (LegacyAddressV5.zeros (2 * 31))) in E.
      unfold fmt_02x in E. cbn [fmt_hex String.append] in E. injection E as _ E2 E3.
      pose proof (is_u8_nibbles b Hb) as [Hd Hm].
      exists b. apply (hex_digit_inj _ 0) in E2; [|done|lia]. split; [|done]. f_equal.
      assert (E4 : fmt_02x a = LegacyAddressV5.zeros (2 * 31) +:+ "")
        by (rewrite str_app_nil_r; exact E3).
      clear E3. apply (fmt_zeros_prefix 31) in E4 as [E3 _]; [|done|cbn in Hl; lia].
      rewrite firstn_all2 in E3 by (cbn in Hl; lia). done.
  - intros [(b & -> & Hlt)|(b & -> & Hmod)].
    + apply Forall_app in Hb as [_ Hb]. apply Forall_cons in Hb as [Hb _].
      assert (Hb16 : 0 ≤ b < 16) by (unfold is_u8 in Hb; lia).
      exists "", (String (hex_digit 97 b) ""). rewrite fmt_02x_app, fmt_02x_zeros.
      unfold fmt_02x. cbn [fmt_hex]. rewrite Z.div_small, Z.mod_small by done. reflexivity.
    + exists (String (hex_digit 97 (b / 16)) ""), "".
      unfold fmt_02x. cbn [fmt_hex]. rewrite Hmod.
      change (fmt_hex 97 (repeat 0 31)) with (fmt_02x (repeat 0 31)). rewrite fmt_02x_zeros. reflexivity.
Qed.

#[global] Instance system_like_dec a : addr_wf a → Decision (system_like a).
Proof.
  intros Ha. destruct (contains system_pattern (fmt_02x a)) eqn:E.
  - left. by apply contains_system_pattern.
  - right. intros Hs. apply contains_system_pattern in Hs; [congruence|done].
Defined.

(** Accounts are 32-byte addresses. *)
Definition recovery_wf (e : LegacyRecoveryV6) : Prop :=
  match account e with Some a => addr_wf a | None => True end.

Lemma strip_accounts `{DiemAddress} l l' :
  strip_system_address l = Ok l' → Forall (fun e => account e ≠ None) l'.
Proof.
  revert l'. induction l as [|e l IH]; intros l'; cbn [strip_system_address].
  - by intros [= <-].
  - destruct (account e) as [a|] eqn:Ea; [|done]. cbn [expect_opt mbind outcome_bind].
    intros H1. apply bind_ok in H1 as (rest & Hr & H1). apply Ok_inj in H1 as <-.
    destruct (contains _ _); [by apply IH|]. constructor; [congruence|by apply IH].
Qed.

(** ** Properties *)

(** C36: capping the slow wallets: afterwards no account has more unlocked than
    its balance, only [slow_wallet.unlocked] of an over-unlocked account
    changed, and to the balance; the reported accounts are exactly those, in
    order; a second pass changes and reports nothing. *)
Theorem fix_slow_wallet_spec r r' errs :
  fix_slow_wallet r = (r', errs) →
  Forall2 (fun e e' =>
    capped e' ∧
    (capped e → e' = e) ∧
    (¬ capped e → ∃ a b s, account e = Some a ∧ balance e = Some b ∧ slow_wallet e = Some s ∧
       Res.coin b < Res.unlocked s ∧
       e' = with_slow_wallet e (Some (Res.mk_slow (Res.coin b) (Res.transferred s))))) r r' ∧
  errs = Ok (omap account (filter (fun e => ¬ capped e) r)) ∧
  fix_slow_wallet r' = (r', Ok []).
Proof.
  unfold fix_slow_wallet. intros [= <- <-]. split; [|split].
  - induction r as [|e r IH]; cbn; constructor; [|done].
    split; [apply fix_one_capped|]. split.
    + intros Hc. by rewrite fix_one_of_capped.
    + intros Hn. destruct (fix_one_not_capped e Hn) as (a & b & s & Ha & Hb & Hs & Hlt & ->).
      by exists a, b, s.
  - f_equal. induction r as [|e r IH]; [done|]. rewrite filter_cons.
    change (omap (snd ∘ fix_one) (e :: r)) with
      (match snd (fix_one e) with Some a => a :: omap (snd ∘ fix_one) r
                             | None => omap (snd ∘ fix_one) r end).
    rewrite IH. destruct (decide (capped e)) as [Hc|Hn].
    + rewrite decide_False by tauto. by rewrite fix_one_of_capped.
    + rewrite decide_True by done.
      destruct (fix_one_not_capped e Hn) as (a & b & s & Ha & _ & _ & _ & ->).
      cbn. by rewrite Ha.
  - induction r as [|e r IH]; cbn; [done|]. injection IH as IH1 IH2.
    rewrite (fix_one_of_capped (fst (fix_one e))) by apply fix_one_capped. cbn.
    cbn in IH1, IH2. by rewrite IH1, IH2.
Qed.

(** stripping needs every account to be there (it panics otherwise) and
    is then the filter, in order, of the addresses of which some digit other
    than the first or the last is not zero, or both of those are not. *)
Theorem strip_system_address_spec `{DiemAddress} l :
  Forall recovery_wf l →
  (Forall (fun e => account e ≠ None) l →
     ∃ l', strip_system_address l = Ok l' ∧ sublist l' l ∧
       ∀ e, e ∈ l' ↔ e ∈ l ∧ ∀ a, account e = Some a → ¬ system_like a) ∧
  (¬ Forall (fun e => account e ≠ None) l →
     ∃ m, strip_system_address l = Panic m).
Proof.
  intros Hwf. induction Hwf as [|e l He Hwf [IH1 IH2]].
  { split; [|intros Hn; by destruct Hn]. intros _. exists []. split; [done|]. split; [done|].
    intros e. rewrite elem_of_nil. naive_solver. }
  cbn [strip_system_address]. unfold recovery_wf in He.
  destruct (account e) as [a|] eqn:Ea.
  2: { split; [|by eexists]. intros Hall. by apply Forall_cons in Hall as [Hall _]. }
  cbn [expect_opt mbind outcome_bind]. split.
  - intros Hall. apply Forall_cons in Hall as [_ Hall].
    destruct (IH1 Hall) as (l' & -> & Hsub & Hin). cbn [outcome_bind].
    rewrite addr_to_string_law by done.
    pose proof (contains_system_pattern a He) as Hsys.
    destruct (contains system_pattern (fmt_02x a)) eqn:Ec.
    + exists l'. split; [done|]. split; [by apply sublist_cons|].
      intros x. rewrite Hin, elem_of_cons. split; [naive_solver|].
      intros [[->|?] Hx]; [|done]. exfalso. apply (Hx a Ea). by apply Hsys.
    + exists (e :: l'). split; [done|]. split; [by apply sublist_skip|].
      intros x. rewrite !elem_of_cons, Hin. split; [|naive_solver].
      intros [->|?]; [|naive_solver]. split; [by left|].
      intros a' Ha'. rewrite Ea in Ha'. injection Ha' as <-.
      intros Hs. apply Hsys in Hs. congruence.
  - intros Hn. destruct IH2 as [m ->]; [|by exists m].
    intros Hall. apply Hn. constructor; [congruence|done].
Qed.

(** dropping accounts rewrites exactly the listed ones, to a tombstoned
    entry that keeps the address and nothing else; the file written is the
    rewritten list, next to the drop file. *)
Theorem drop_accounts_spec read_file from_json to_json r drop_file r' p json :
  drop_accounts read_file from_json to_json r drop_file = Ok (r', (p, json)) →
  ∃ data mapped dir, read_file drop_file = Some data ∧ from_json data = Some mapped ∧
    parent drop_file = Some dir ∧ p = dir ++ ["migration_sanitized.json"] ∧
    to_json r' = Some json ∧
    Forall2 (fun e e' =>
      (∀ a, account e = Some a → a ∈ mapped →
         role e' = Drop ∧ account e' = Some a ∧ auth_key e' = Some tombstone ∧
         balance e' = None ∧ slow_wallet e' = None ∧ receipts e' = None ∧
         cumulative_deposits e' = None ∧ comm_wallet e' = None ∧ val_cfg e' = None) ∧
      ((∀ a, account e = Some a → a ∉ mapped) → e' = e)) r r'.
Proof.
  unfold drop_accounts. intros H. apply bind_ok in H as (data & Hd & H).
  apply bind_ok in H as (mapped & Hm & H). apply bind_ok in H as (dir & Hp & H).
  apply bind_ok in H as (js & Hj & [= <- <- <-]).
  destruct (read_file drop_file) as [d|]; [|done]. injection Hd as ->.
  destruct (from_json data) as [l|] eqn:Ej; [|done]. injection Hm as ->.
  destruct (parent drop_file) as [dr|]; [|done]. injection Hp as ->.
  apply context_opt_ok in Hj. exists data, mapped, dir. repeat split; try done.
  clear Hj. induction r as [|e r IH]; cbn; constructor; [|done]. unfold drop_one. split.
  - intros a Ha Hin. rewrite Ha, decide_True by done. done.
  - intros Hout. destruct (account e) as [a|]; [|done]. by rewrite decide_False by auto.
Qed.

(** the role an exported account gets: without an account resource it is
    an end user and carries nothing but its address; with one, an operator
    configuration makes it an operator, else a validator configuration a
    validator, else the address 0x1 the system, else it is an end user; the
    authentication key is the resource's 32 bytes and the balance the coin
    store's. *)
Theorem get_legacy_recovery_spec `{DiemAddress} st r :
  get_legacy_recovery st = Ok r →
  get_account_address st = Ok (account r) ∧
  match get_account_resource_auth_key st with
  | Ok None => r = recovery_of (account r) None EndUser
  | Ok (Some key) =>
      auth_key r = Some key ∧ length key = 32%nat ∧
      get_coin_store_resource st = Ok (Res.coin <$> balance r) ∧
      get_validator_config_resource st = Ok (val_cfg r) ∧
      get_validator_operator_config_resource st = Ok (val_operator_cfg r) ∧
      get_slow_wallet st = Ok (slow_wallet r) ∧ get_receipts st = Ok (receipts r) ∧
      get_cumulative_deposits st = Ok (cumulative_deposits r) ∧
      get_my_pledge st = Ok (my_pledge r) ∧ currency_info r = None ∧
      role r = match val_operator_cfg r, val_cfg r with
               | Some _, _ => Operator
               | None, Some _ => Validator
               | None, None => if decide (account r = Some addr_ONE) then System else EndUser
               end
  | _ => False
  end.
Proof.
  unfold get_legacy_recovery. intros Hr. apply bind_ok in Hr as (addr & Ha & Hr).
  apply bind_ok in Hr as (res & Hres & Hr). rewrite Hres.
  destruct res as [key|]; [|by injection Hr as <-].
  rewrite addr_from_str_one, Ha in Hr. cbn [context_opt mbind outcome_bind] in Hr.
  destruct (array_try_from 32 key) as [k|] eqn:Ek; cbn [context_opt] in Hr; [|done].
  apply array_try_from_ok in Ek as [-> Hlen].
  repeat match type of Hr with
  | (_ ≫= _) = Ok _ => apply bind_ok in Hr as (? & ? & Hr)
  | match ?m with Ok _ => _ | Err _ => _ | Panic _ => _ end = Ok _ =>
      apply (bind_ok m) in Hr as (? & ? & Hr)
  end.
  apply Ok_inj in Hr as <-. cbn.
  repeat split; try done.
  all: try congruence.
  match goal with H : get_coin_store_resource st = Ok ?x |- _ => rewrite H; by destruct x end.
Qed.

(** ** Witnesses *)
Definition user_addr : AccountAddress := repeat 0 16 ++ repeat 7 16.
Definition sample_user : LegacyRecoveryV6 :=
  mk_recovery (Some user_addr) (Some (repeat 5 32)) EndUser (Some (Res.mk_balance 100))
    None None None None None None None (Some (Res.mk_slow 150 3)) None None None None None None None
    None None None None None None None.
Definition sample_system : LegacyRecoveryV6 := recovery_of (Some addr_ONE) None System.

Lemma user_addr_wf : addr_wf user_addr.
Proof. by apply (bool_decide_unpack _). Qed.

Lemma fix_slow_wallet_spec_witness :
  let r' := [with_slow_wallet sample_user (Some (Res.mk_slow 100 3)); sample_system] in
  Forall2 (fun e e' =>
    capped e' ∧
    (capped e → e' = e) ∧
    (¬ capped e → ∃ a b s, account e = Some a ∧ balance e = Some b ∧ slow_wallet e = Some s ∧
       Res.coin b < Res.unlocked s ∧
       e' = with_slow_wallet e (Some (Res.mk_slow (Res.coin b) (Res.transferred s)))))
    [sample_user; sample_system] r' ∧
  Ok [user_addr] = Ok (omap account (filter (fun e => ¬ capped e) [sample_user; sample_system])) ∧
  fix_slow_wallet r' = (r', Ok []).
Proof. apply (fix_slow_wallet_spec [sample_user; sample_system]). reflexivity. Defined.

Lemma strip_system_address_spec_witness :
  ∃ l', strip_system_address [sample_user; sample_system] = Ok l' ∧
    sublist l' [sample_user; sample_system] ∧
    ∀ e, e ∈ l' ↔ e ∈ [sample_user; sample_system] ∧ ∀ a, account e = Some a → ¬ system_like a.
Proof.
  apply strip_system_address_spec.
  - repeat constructor; by apply (bool_decide_unpack _).
  - by repeat constructor.
Defined.

Example strip_sample : strip_system_address [sample_user; sample_system] = Ok [sample_user].
Proof. vm_compute. reflexivity. Qed.

Lemma drop_accounts_spec_witness :
  let r' := [recovery_of (Some user_addr) (Some tombstone) Drop; sample_system] in
  ∃ data mapped dir, Some "file"%string = Some data ∧ Some [user_addr] = Some mapped ∧
    parent ["a"%string; "drop.json"%string] = Some dir ∧
    ["a"%string; "migration_sanitized.json"%string] = dir ++ ["migration_sanitized.json"%string] ∧
    Some "json"%string = Some "json"%string ∧
    Forall2 (fun e e' =>
      (∀ a, account e = Some a → a ∈ mapped →
         role e' = Drop ∧ account e' = Some a ∧ auth_key e' = Some tombstone ∧
         balance e' = None ∧ slow_wallet e' = None ∧ receipts e' = None ∧
         cumulative_deposits e' = None ∧ comm_wallet e' = None ∧ val_cfg e' = None) ∧
      ((∀ a, account e = Some a → a ∉ mapped) → e' = e)) [sample_user; sample_system] r'.
Proof.
  apply (drop_accounts_spec (fun _ => Some "file"%string) (fun _ => Some [user_addr])
           (fun _ => Some "json"%string) [sample_user; sample_system] ["a"%string; "drop.json"%string]).
  vm_compute. reflexivity.
Defined.

Definition sample_account_state : AccountState :=
  mk_account_state (Ok (Some addr_ONE)) (Ok (Some (repeat 5 32))) (Ok (Some 9)) (Ok (Some [1]))
    (Ok None) (Ok None) (Ok None) (Ok None) (Ok None) (Ok None) (Ok None) (Ok None) (Ok None)
    (Ok None) (Ok None) (Ok None) (Ok None) (Ok None) (Ok None) (Ok None) (Ok None) (Ok None)
    (Ok None) (Ok None).

Lemma get_legacy_recovery_spec_witness :
  ∃ r, get_legacy_recovery sample_account_state = Ok r ∧ role r = Validator ∧
       auth_key r = Some (repeat 5 32).
Proof.
  eexists. split; [vm_compute; reflexivity|].
  pose proof (get_legacy_recovery_spec sample_account_state _ eq_refl) as H.
  split; apply H.
Defined.
