(* ===== verification/CommWallet.v ===== *)
(** * tools/genesis/src/process_comm_wallet.rs

    Rebuilds, from the recovery list, the donors' receipts and the cumulative
    deposits of the community wallets, and enters each donor in the wallets
    its receipts pay to. *)
From Stdlib Require Import ZArith Lia.
From stdpp Require Import base option list strings.
From S2P Require Import Prelude RustStr Bytes MoveTypes BTree Recovery.

Open Scope Z_scope.

Record WalletState := mk_wallet {
  cumulative_value : Z;
  cumulative_index : Z;
  depositors : list AccountAddress;
  audit_deposits_with_receipts : Z
}.
Record AllCommWallets := mk_wallets {
  cw_list : btree AccountAddress WalletState;
  total_deposits : Z
}.
Record ReceiptsResourceV7 := mk_receipts7 {
  destination : list AccountAddress;
  cumulative : list Z;
  last_payment_timestamp : list Z;
  last_payment_value : list Z;
  audit_not_found : list AccountAddress
}.
Record DonorReceipts := mk_donors {
  dr_list : btree AccountAddress ReceiptsResourceV7;
  total_cumu : Z;
  audit_not_cw : list AccountAddress
}.

(** ** rebuild_donor_receipts *)
Definition cast_receipts (t : Res.ReceiptsResource) : ReceiptsResourceV7 :=
  mk_receipts7 (Res.destination t) (Res.cumulative t) (Res.last_payment_timestamp t)
    (Res.last_payment_value t) [].

Definition unwrap_account (e : LegacyRecoveryV6) : outcome AccountAddress :=
  expect_opt "called `Option::unwrap()` on a `None` value" (account e).

Fixpoint donor_loop (recovery : list LegacyRecoveryV6) (l : btree AccountAddress ReceiptsResourceV7)
    : outcome (btree AccountAddress ReceiptsResourceV7) :=
  match recovery with
  | [] => Ok l
  | e :: es =>
      match receipts e with
      | None => donor_loop es l
      | Some temp_receipts =>
          a ← unwrap_account e;
          donor_loop es (bt_insert a (cast_receipts temp_receipts) l)
      end
  end.

Definition rebuild_donor_receipts (recovery : list LegacyRecoveryV6) : outcome DonorReceipts :=
  l ← donor_loop recovery []; Ok (mk_donors l 0 []).

(** ** rebuild_cw_cumu_deposits *)
Fixpoint cumu_loop (recovery : list LegacyRecoveryV6) (l : btree AccountAddress WalletState)
    (total : Z) : outcome (btree AccountAddress WalletState * Z) :=
  match recovery with
  | [] => Ok (l, total)
  | e :: es =>
      match cumulative_deposits e with
      | None => cumu_loop es l total
      | Some cd =>
          a ← unwrap_account e;
          cumu_loop es (bt_insert a (mk_wallet (Res.cd_value cd) (Res.cd_index cd) [] 0) l)
            (u64_add total (Res.cd_value cd))
      end
  end.

Definition rebuild_cw_cumu_deposits (recovery : list LegacyRecoveryV6) : outcome AllCommWallets :=
  '(l, total) ← cumu_loop recovery [] 0; Ok (mk_wallets l total).

(** ** update_cw_with_donor *)

(** The writes through [get_mut] for one matching receipt *)
Definition credit (donor : AccountAddress) (value : Z) (w : WalletState) : WalletState :=
  mk_wallet (cumulative_value w) (cumulative_index w)
    (if decide (donor ∈ depositors w) then depositors w else depositors w ++ [donor])
    (u64_add (audit_deposits_with_receipts w) value).

Definition push_new (a : AccountAddress) (l : list AccountAddress) : list AccountAddress :=
  if decide (a ∈ l) then l else l ++ [a].

(** The [filter_map] over the destinations of one donor, from index [i]; gives
    the wallets, the donors' [audit_not_cw] and the collected list. *)
Fixpoint dest_loop (donor : AccountAddress) (cumu : list Z) (i : nat) (dests : list AccountAddress)
    (cw : btree AccountAddress WalletState) (not_cw : list AccountAddress)
    : outcome (btree AccountAddress WalletState * list AccountAddress * list AccountAddress) :=
  match dests with
  | [] => Ok (cw, not_cw, [])
  | maybe_cw :: dests' =>
      match bt_get maybe_cw cw with
      | Some _ =>
          value ← expect_opt "cant parse value" (cumu !! i);
          dest_loop donor cumu (S i) dests' (bt_alter (credit donor value) maybe_cw cw) not_cw
      | None =>
          '(cw', not_cw', rest) ← dest_loop donor cumu (S i) dests' cw (push_new maybe_cw not_cw);
          Ok (cw', not_cw', maybe_cw :: rest)
      end
  end.

Fixpoint update_loop (donors : btree AccountAddress ReceiptsResourceV7)
    (cw : btree AccountAddress WalletState) (not_cw : list AccountAddress)
    : outcome (btree AccountAddress ReceiptsResourceV7 * btree AccountAddress WalletState
               * list AccountAddress) :=
  match donors with
  | [] => Ok ([], cw, not_cw)
  | (donor, r) :: donors' =>
      '(cw', not_cw', nf) ← dest_loop donor (cumulative r) 0 (destination r) cw not_cw;
      '(rest, cw'', not_cw'') ← update_loop donors' cw' not_cw';
      Ok ((donor, mk_receipts7 (destination r) (cumulative r) (last_payment_timestamp r)
                    (last_payment_value r) nf) :: rest, cw'', not_cw'')
  end.

Definition update_cw_with_donor (cw : AllCommWallets) (donors : DonorReceipts)
    : outcome (AllCommWallets * DonorReceipts) :=
  '(l, cwl, not_cw) ← update_loop (dr_list donors) (cw_list cw) (audit_not_cw donors);
  Ok (mk_wallets cwl (total_deposits cw), mk_donors l (total_cumu donors) not_cw).

Definition prepare_cw_and_receipts (recovery : list LegacyRecoveryV6)
    : outcome (DonorReceipts * AllCommWallets) :=
  dr ← rebuild_donor_receipts recovery;
  cw ← rebuild_cw_cumu_deposits recovery;
  '(cw', dr') ← update_cw_with_donor cw dr;
  Ok (dr', cw').

(** ** Specification: what one donor's receipts pay to a wallet *)
Fixpoint paid (w : AccountAddress) (cumu : list Z) (i : nat) (dests : list AccountAddress) : list Z :=
  match dests with
  | [] => []
  | d :: dests' =>
      (if decide (d = w) then [default 0 (cumu !! i)] else []) ++ paid w cumu (S i) dests'
  end.

Definition credits (donor : AccountAddress) (vs : list Z) (w : WalletState) : WalletState :=
  foldl (fun w v => credit donor v w) w vs.

Definition receipts_paid (w : AccountAddress) (r : ReceiptsResourceV7) : list Z :=
  paid w (cumulative r) 0 (destination r).

Definition all_credits (donors : btree AccountAddress ReceiptsResourceV7) (a : AccountAddress)
    (w : WalletState) : WalletState :=
  foldl (fun w '(donor, r) => credits donor (receipts_paid a r) w) w donors.

Definition sum_paid (a : AccountAddress) (donors : btree AccountAddress ReceiptsResourceV7) : Z :=
  foldr (fun '(_, r) acc => foldr Z.add 0 (receipts_paid a r) + acc) 0 donors.

(** Every receipt to a wallet that exists has its value. *)
Definition has_values (cw : btree AccountAddress WalletState) (r : ReceiptsResourceV7) : Prop :=
  ∀ i d, destination r !! i = Some d → d ∈ bt_keys cw → is_Some (cumulative r !! i).

(** ** Lemmas *)
Lemma dest_loop_ok donor cumu i dests cw not_cw cw' not_cw' nf :
  dest_loop donor cumu i dests cw not_cw = Ok (cw', not_cw', nf) →
  bt_keys cw' = bt_keys cw ∧
  (∀ a, bt_get a cw' = credits donor (paid a cumu i dests) <$> bt_get a cw) ∧
  nf = filter (fun d => d ∉ bt_keys cw) dests ∧
  not_cw' = foldl (fun l d => push_new d l) not_cw nf.
Proof.
  revert i cw not_cw cw' not_cw' nf.
  induction dests as [|d dests IH]; intros i cw not_cw cw' not_cw' nf; cbn [dest_loop].
  - intros [= <- <- <-]. split; [done|]. split; [|done]. intros a. cbn.
    by destruct (bt_get a cw).
  - destruct (bt_get d cw) as [w|] eqn:Ed.
    + intros H. apply bind_ok in H as (v & Hv & H).
      destruct (cumu !! i) as [v'|] eqn:Ei; [|done]. injection Hv as ->.
      apply IH in H as (Hk & Hget & Hnf & Hnc). rewrite bt_alter_keys in Hk, Hnf.
      assert (Hin : d ∈ bt_keys cw) by (apply bt_get_is_some; by eexists).
      split; [done|]. split; [|split; [|done]].
      * intros a. rewrite Hget. cbn [paid]. destruct (decide (d = a)) as [->|Hne].
        -- rewrite bt_get_alter, Ed, Ei. done.
        -- by rewrite bt_get_alter_ne.
      * rewrite filter_cons_False; [exact Hnf|]. tauto.
    + intros H. apply bind_ok in H as ([[cw1 nc1] nf1] & H & [= <- <- <-]).
      apply IH in H as (Hk & Hget & Hnf & Hnc).
      assert (Hin : d ∉ bt_keys cw) by (intros [? E]%bt_get_is_some; congruence).
      split; [done|]. split; [|split; [|by subst]].
      * intros a. rewrite Hget. cbn [paid]. destruct (decide (d = a)) as [->|Hne]; [|done].
        by rewrite Ed.
      * rewrite filter_cons_True by done. by rewrite Hnf.
Qed.

Lemma dest_loop_runs donor cumu i dests cw not_cw :
  (∀ j d, dests !! j = Some d → d ∈ bt_keys cw → is_Some (cumu !! (i + j)%nat)) ↔
  is_ok (dest_loop donor cumu i dests cw not_cw) = true.
Proof.
  revert i cw not_cw. induction dests as [|d dests IH]; intros i cw not_cw; cbn [dest_loop].
  - split; [done|]. intros _ j d Hj. done.
  - destruct (bt_get d cw) as [w|] eqn:Ed.
    + assert (Hin : d ∈ bt_keys cw) by (apply bt_get_is_some; by eexists). split.
      * intros Hall. destruct (Hall 0%nat d eq_refl Hin) as [v Hv]. rewrite Nat.add_0_r in Hv.
        rewrite Hv. cbn [expect_opt mbind outcome_bind]. apply IH. rewrite bt_alter_keys.
        intros j d' Hj Hd'. replace (S i + j)%nat with (i + S j)%nat by lia. by apply (Hall (S j) d').
      * destruct (cumu !! i) as [v|] eqn:Ei; [|done]. cbn [expect_opt mbind outcome_bind].
        intros Hok j d' Hj Hd'. destruct j as [|j].
        -- rewrite Nat.add_0_r, Ei. by eexists.
        -- replace (i + S j)%nat with (S i + j)%nat by lia.
           apply (proj2 (IH _ _ _) Hok j d' Hj). by rewrite bt_alter_keys.
    + assert (Hin : d ∉ bt_keys cw) by (intros [? E]%bt_get_is_some; congruence).
      assert (Hbind : is_ok (dest_loop donor cumu (S i) dests cw (push_new d not_cw)) = true ↔
        is_ok ('(cw', not_cw', rest) ← dest_loop donor cumu (S i) dests cw (push_new d not_cw);
               Ok (cw', not_cw', d :: rest)) = true).
      { by destruct (dest_loop _ _ _ _ _ _) as [[[? ?] ?]| |]. }
      rewrite <- Hbind, <- IH. split.
      * intros Hall j d' Hj Hd'. replace (S i + j)%nat with (i + S j)%nat by lia. by apply (Hall (S j) d').
      * intros Hall [|j] d' Hj Hd'; [by injection Hj as ->|].
        replace (i + S j)%nat with (S i + j)%nat by lia. by apply (Hall j d').
Qed.

Definition mark (cw : btree AccountAddress WalletState) (r : ReceiptsResourceV7) : ReceiptsResourceV7 :=
  mk_receipts7 (destination r) (cumulative r) (last_payment_timestamp r) (last_payment_value r)
    (filter (fun d => d ∉ bt_keys cw) (destination r)).

Lemma update_loop_ok donors cw not_cw ds' cw' nc' :
  update_loop donors cw not_cw = Ok (ds', cw', nc') →
  bt_keys cw' = bt_keys cw ∧
  (∀ a, bt_get a cw' = all_credits donors a <$> bt_get a cw) ∧
  ds' = prod_map id (mark cw) <$> donors ∧
  nc' = foldl (fun l d => push_new d l) not_cw
          (donors ≫= fun '(_, r) => filter (fun d => d ∉ bt_keys cw) (destination r)).
Proof.
  revert cw not_cw ds' cw' nc'.
  induction donors as [|[donor r] donors IH]; intros cw not_cw ds' cw' nc'; cbn [update_loop].
  - intros [= <- <- <-]. split; [done|]. split; [|done]. intros a. by destruct (bt_get a cw).
  - intros H. apply bind_ok in H as ([[cw1 nc1] nf] & H1 & H).
    apply bind_ok in H as ([[rest cw2] nc2] & H2 & [= <- <- <-]).
    apply dest_loop_ok in H1 as (Hk1 & Hg1 & -> & ->).
    apply IH in H2 as (Hk2 & Hg2 & -> & ->). rewrite Hk1 in Hk2 |- *.
    split; [done|]. split; [|split].
    + intros a. rewrite Hg2, Hg1. cbn. by destruct (bt_get a cw).
    + cbn. f_equal. apply list_fmap_ext. intros i [x y] _. unfold mark. by rewrite Hk1.
    + cbn. by rewrite foldl_app.
Qed.

Lemma update_loop_runs donors cw not_cw :
  is_ok (update_loop donors cw not_cw) = true ↔
  Forall (fun '(_, r) => has_values cw r) donors.
Proof.
  revert cw not_cw. induction donors as [|[donor r] donors IH]; intros cw not_cw;
    cbn [update_loop]; [by split; [constructor|]|].
  assert (Hd : has_values cw r ↔
    is_ok (dest_loop donor (cumulative r) 0 (destination r) cw not_cw) = true)
    by exact (dest_loop_runs donor (cumulative r) 0 (destination r) cw not_cw).
  rewrite Forall_cons.
  destruct (dest_loop _ _ _ _ _ _) as [[[cw1 nc1] nf]| |] eqn:E; cbn [mbind outcome_bind].
  - apply dest_loop_ok in E as (Hk & _).
    assert (Hext : Forall (fun '(_, r) => has_values cw1 r) donors ↔
                   Forall (fun '(_, r) => has_values cw r) donors).
    { unfold has_values. by rewrite Hk. }
    specialize (IH cw1 nc1). rewrite <- Hext, <- IH.
    destruct (update_loop donors cw1 nc1) as [[[? ?] ?]| |]; cbn.
    + split; [|done]. intros _. split; [|done]. by apply Hd.
    + split; [done|]. by intros [_ ?].
    + split; [done|]. by intros [_ ?].
  - split; [done|]. intros [Hv _]. by apply Hd in Hv.
  - split; [done|]. intros [Hv _]. by apply Hd in Hv.
Qed.

Lemma elem_of_push_new x a l : x ∈ push_new a l ↔ x ∈ l ∨ x = a.
Proof.
  unfold push_new. destruct (decide (a ∈ l)) as [Hin|Hout]; [naive_solver|].
  rewrite elem_of_app, list_elem_of_singleton. done.
Qed.

Lemma nodup_snoc {A} (a : A) l : NoDup l → a ∉ l → NoDup (l ++ [a]).
Proof.
  intros Hl Ha. apply NoDup_app. split; [done|]. split; [|apply NoDup_singleton].
  intros x Hx ->%list_elem_of_singleton. done.
Qed.

Lemma nodup_push_new a l : NoDup l → NoDup (push_new a l).
Proof.
  intros Hl. unfold push_new. destruct (decide (a ∈ l)); [done|]. by apply nodup_snoc.
Qed.

Lemma foldl_push_new x ds l :
  (x ∈ foldl (fun l d => push_new d l) l ds ↔ x ∈ l ∨ x ∈ ds) ∧
  (NoDup l → NoDup (foldl (fun l d => push_new d l) l ds)).
Proof.
  revert l. induction ds as [|d ds IH]; intros l; cbn.
  - split; [|done]. rewrite elem_of_nil. naive_solver.
  - destruct (IH (push_new d l)) as [IH1 IH2]. split.
    + rewrite IH1, elem_of_push_new, elem_of_cons. naive_solver.
    + intros Hl. by apply IH2, nodup_push_new.
Qed.

Lemma paid_nil w cumu i dests : paid w cumu i dests = [] ↔ w ∉ dests.
Proof.
  revert i. induction dests as [|d dests IH]; intros i; cbn [paid].
  - split; [intros _; apply not_elem_of_nil|done].
  - rewrite elem_of_cons. destruct (decide (d = w)) as [->|Hne]; cbn [app].
    + split; [done|]. intros H. exfalso. apply H. by left.
    + rewrite IH. split; [|tauto]. intros H [->|?]; done.
Qed.

(** What a run of credits leaves in a wallet. *)
Lemma credits_spec donor vs w :
  is_u64 (audit_deposits_with_receipts w) →
  let w' := credits donor vs w in
  cumulative_value w' = cumulative_value w ∧ cumulative_index w' = cumulative_index w ∧
  audit_deposits_with_receipts w' = u64_wrap (audit_deposits_with_receipts w + foldr Z.add 0 vs) ∧
  (∀ x, x ∈ depositors w' ↔ x ∈ depositors w ∨ (x = donor ∧ vs ≠ [])) ∧
  (NoDup (depositors w) → NoDup (depositors w')).
Proof.
  revert w. induction vs as [|v vs IH]; intros w Hw; cbn [credits foldl foldr].
  - rewrite Z.add_0_r, u64_wrap_small by done. repeat split; try done; naive_solver.
  - destruct (IH (credit donor v w)) as (H1 & H2 & H3 & H4 & H5); [apply u64_add_range|].
    fold (credits donor vs (credit donor v w)).
    rewrite H1, H2, H3. cbn [credit cumulative_value cumulative_index audit_deposits_with_receipts].
    split; [done|]. split; [done|]. split; [|split].
    + unfold u64_add, u64_wrap. rewrite Zplus_mod_idemp_l. f_equal. lia.
    + intros x. rewrite H4. cbn [credit depositors].
      destruct (decide (donor ∈ depositors w)) as [Hin|Hout].
      * split; [naive_solver|]. intros [?|[-> _]]; by left.
      * rewrite elem_of_app, list_elem_of_singleton. naive_solver.
    + intros Hnd. apply H5. cbn [credit depositors].
      destruct (decide (donor ∈ depositors w)); [done|]. by apply nodup_snoc.
Qed.

Lemma all_credits_spec donors a w :
  is_u64 (audit_deposits_with_receipts w) →
  let w' := all_credits donors a w in
  cumulative_value w' = cumulative_value w ∧ cumulative_index w' = cumulative_index w ∧
  audit_deposits_with_receipts w' = u64_wrap (audit_deposits_with_receipts w + sum_paid a donors) ∧
  (∀ x, x ∈ depositors w' ↔ x ∈ depositors w ∨ ∃ r, (x, r) ∈ donors ∧ a ∈ destination r) ∧
  (NoDup (depositors w) → NoDup (depositors w')).
Proof.
  revert w. induction donors as [|[donor r] donors IH]; intros w Hw; cbn [all_credits foldl sum_paid foldr].
  - rewrite Z.add_0_r, u64_wrap_small by done. repeat split; try done; [by left|].
    intros [?|(r & Hr & _)]; [done|]. by apply not_elem_of_nil in Hr.
  - destruct (credits_spec donor (receipts_paid a r) w Hw) as (C1 & C2 & C3 & C4 & C5).
    set (w1 := credits donor (receipts_paid a r) w) in *.
    destruct (IH w1) as (H1 & H2 & H3 & H4 & H5); [rewrite C3; apply u64_wrap_range|].
    fold (all_credits donors a w1). fold (sum_paid a donors).
    rewrite H1, H2, H3, C1, C2, C3. split; [done|]. split; [done|]. split; [|split; [|tauto]].
    + unfold u64_wrap. rewrite Zplus_mod_idemp_l. f_equal. lia.
    + intros x. rewrite H4, C4. unfold receipts_paid. rewrite paid_nil. split.
      * intros [[?|[-> Hne]]|(r' & Hin & Ha)]; [by left| |].
        -- right. exists r. split; [by left|]. by destruct (decide (a ∈ destination r)).
        -- right. exists r'. split; [by right|done].
      * intros [?|(r' & [[= -> ->]|Hin]%elem_of_cons & Ha)]; [by left; left| |].
        -- left. right. split; [done|]. tauto.
        -- right. by exists r'.
Qed.

(** ** Properties *)

(** C8: entering the donors in the wallets: no wallet appears, disappears or
    changes its cumulative value or index; each wallet's depositors are those
    it had and exactly the donors with a receipt to it, none listed twice; and
    its audit figure grows by everything those receipts paid it (as a [u64]). *)
Theorem update_cw_wallets cw donors cw' donors' a w :
  update_cw_with_donor cw donors = Ok (cw', donors') →
  bt_get a (cw_list cw) = Some w → is_u64 (audit_deposits_with_receipts w) →
  bt_keys (cw_list cw') = bt_keys (cw_list cw) ∧ total_deposits cw' = total_deposits cw ∧
  ∃ w', bt_get a (cw_list cw') = Some w' ∧
    cumulative_value w' = cumulative_value w ∧ cumulative_index w' = cumulative_index w ∧
    audit_deposits_with_receipts w' =
      u64_wrap (audit_deposits_with_receipts w + sum_paid a (dr_list donors)) ∧
    (∀ x, x ∈ depositors w' ↔
       x ∈ depositors w ∨ ∃ r, (x, r) ∈ dr_list donors ∧ a ∈ destination r) ∧
    (NoDup (depositors w) → NoDup (depositors w')).
Proof.
  unfold update_cw_with_donor. intros H Hw Hu.
  apply bind_ok in H as ([[l cwl] nc] & H & [= <- <-]).
  apply update_loop_ok in H as (Hk & Hget & _ & _). cbn [cw_list total_deposits].
  split; [done|]. split; [done|]. exists (all_credits (dr_list donors) a w).
  split; [by rewrite Hget, Hw|]. by apply all_credits_spec.
Qed.

(** the audit of the receipts: every donor keeps its receipts, annotated
    with exactly its destinations that are no community wallet, in order; the
    overall list gains exactly those addresses, and none twice. *)
Theorem update_cw_audit cw donors cw' donors' :
  update_cw_with_donor cw donors = Ok (cw', donors') →
  dr_list donors' = prod_map id (mark (cw_list cw)) <$> dr_list donors ∧
  total_cumu donors' = total_cumu donors ∧
  (∀ x, x ∈ audit_not_cw donors' ↔ x ∈ audit_not_cw donors ∨
     ∃ donor r, (donor, r) ∈ dr_list donors ∧ x ∈ destination r ∧ x ∉ bt_keys (cw_list cw)) ∧
  (NoDup (audit_not_cw donors) → NoDup (audit_not_cw donors')).
Proof.
  unfold update_cw_with_donor. intros H.
  apply bind_ok in H as ([[l cwl] nc] & H & [= <- <-]).
  apply update_loop_ok in H as (_ & _ & -> & ->). cbn [dr_list total_cumu audit_not_cw].
  split; [done|]. split; [done|]. split; [|by apply (foldl_push_new [])].
  intros x. rewrite (proj1 (foldl_push_new x _ _)), list_elem_of_bind.
  split; (intros [?|Hx]; [by left|right]).
  - destruct Hx as ([donor r] & Hx & Hin). apply list_elem_of_filter in Hx as [Hnot Hdest].
    by exists donor, r.
  - destruct Hx as (donor & r & Hin & Hdest & Hnot). exists (donor, r). split; [|done].
    by apply list_elem_of_filter.
Qed.

(** the update returns exactly when every receipt to a community wallet
    has a cumulative value at its index (the [expect] fails otherwise). *)
Theorem update_cw_total cw donors :
  is_ok (update_cw_with_donor cw donors) = true ↔
  Forall (fun '(_, r) => has_values (cw_list cw) r) (dr_list donors).
Proof.
  rewrite <- (update_loop_runs _ _ (audit_not_cw donors)). unfold update_cw_with_donor.
  by destruct (update_loop _ _ _) as [[[? ?] ?]| |].
Qed.

(** ** The rebuilt wallets *)

(** The wallet an address ends with: from its last record that has cumulative
    deposits. *)
Definition last_wallet (recovery : list LegacyRecoveryV6) (a : AccountAddress)
    (acc : option WalletState) : option WalletState :=
  foldl (fun acc e =>
    match cumulative_deposits e, account e with
    | Some cd, Some a' =>
        if decide (a' = a) then Some (mk_wallet (Res.cd_value cd) (Res.cd_index cd) [] 0) else acc
    | _, _ => acc
    end) acc recovery.

Definition sum_deposits (recovery : list LegacyRecoveryV6) : Z :=
  foldr (fun e acc => match cumulative_deposits e with Some cd => Res.cd_value cd | None => 0 end + acc)
    0 recovery.

Lemma cumu_loop_spec recovery l total :
  Forall (fun e => cumulative_deposits e ≠ None → account e ≠ None) recovery →
  bt_sorted l → is_u64 total →
  ∃ l', cumu_loop recovery l total = Ok (l', u64_wrap (total + sum_deposits recovery)) ∧
        bt_sorted l' ∧ ∀ a, bt_get a l' = last_wallet recovery a (bt_get a l).
Proof.
  intros Hacc. revert l total. induction Hacc as [|e es He Hes IH]; intros l total Hs Ht.
  - exists l. cbn [cumu_loop sum_deposits foldr]. by rewrite Z.add_0_r, u64_wrap_small.
  - cbn [cumu_loop sum_deposits foldr last_wallet foldl]. fold (sum_deposits es).
    destruct (cumulative_deposits e) as [cd|] eqn:Ed; [|by apply IH].
    destruct (account e) as [a|] eqn:Ea; [|by destruct He].
    unfold unwrap_account. rewrite Ea. cbn [expect_opt mbind outcome_bind].
    set (w := mk_wallet (Res.cd_value cd) (Res.cd_index cd) [] 0).
    destruct (IH (bt_insert a w l) (u64_add total (Res.cd_value cd))) as (l' & Hl' & Hs' & Hg).
    { by apply bt_insert_sorted. } { apply u64_add_range. }
    exists l'. rewrite Hl'. split; [|split; [done|]].
    + do 2 f_equal. unfold u64_add, u64_wrap. rewrite Zplus_mod_idemp_l. f_equal. lia.
    + intros a0. rewrite Hg. unfold last_wallet. f_equal.
      destruct (decide (a = a0)) as [->|Hne]; [by rewrite bt_get_insert|by rewrite bt_get_insert_ne].
Qed.

(** the community wallets rebuilt from the recovery list: with an account
    on every record that has cumulative deposits, the total is the sum of all
    the deposits (as a [u64]), the map is in key order, an address has the
    wallet of its last such record, without depositors; a record without an
    account panics. *)
Theorem rebuild_cw_spec recovery :
  (Forall (fun e => cumulative_deposits e ≠ None → account e ≠ None) recovery →
   ∃ cw, rebuild_cw_cumu_deposits recovery = Ok cw ∧
     total_deposits cw = u64_wrap (sum_deposits recovery) ∧ bt_sorted (cw_list cw) ∧
     (∀ a, bt_get a (cw_list cw) = last_wallet recovery a None)) ∧
  (is_ok (rebuild_cw_cumu_deposits recovery) = true →
   Forall (fun e => cumulative_deposits e ≠ None → account e ≠ None) recovery).
Proof.
  unfold rebuild_cw_cumu_deposits. split.
  - intros Hacc. destruct (cumu_loop_spec recovery [] 0 Hacc) as (l & -> & Hs & Hg); [done|done|].
    by exists (mk_wallets l (u64_wrap (0 + sum_deposits recovery))).
  - generalize (@nil (AccountAddress * WalletState)), 0.
    induction recovery as [|e es IH]; intros l t Hok; [constructor|]. cbn [cumu_loop] in Hok.
    destruct (cumulative_deposits e) as [cd|] eqn:Ed.
    + unfold unwrap_account in Hok. destruct (account e) as [a|] eqn:Ea; [|done].
      constructor; [congruence|]. exact (IH _ _ Hok).
    + constructor; [congruence|]. exact (IH _ _ Hok).
Qed.

(** ** Witnesses *)
Definition w1 : AccountAddress := repeat 0 31 ++ [65].
Definition d1 : AccountAddress := repeat 0 31 ++ [97].
Definition d2 : AccountAddress := repeat 0 31 ++ [98].
Definition sample_cw : AllCommWallets := mk_wallets [(w1, mk_wallet 50 7 [] 0)] 50.
Definition sample_donors : DonorReceipts :=
  mk_donors [(d1, mk_receipts7 [w1; d2; w1] [10; 1; 20] [] [] []);
             (d2, mk_receipts7 [w1] [5] [] [] [])] 0 [].
Definition sample_after : AllCommWallets * DonorReceipts :=
  (mk_wallets [(w1, mk_wallet 50 7 [d1; d2] 35)] 50,
   mk_donors [(d1, mk_receipts7 [w1; d2; w1] [10; 1; 20] [] [] [d2]);
              (d2, mk_receipts7 [w1] [5] [] [] [])] 0 [d2]).

Example update_sample : update_cw_with_donor sample_cw sample_donors = Ok sample_after.
Proof. vm_compute. reflexivity. Qed.

Lemma update_cw_wallets_witness :
  bt_keys (cw_list (fst sample_after)) = [w1] ∧ total_deposits (fst sample_after) = 50 ∧
  ∃ w', bt_get w1 (cw_list (fst sample_after)) = Some w' ∧
    cumulative_value w' = 50 ∧ cumulative_index w' = 7 ∧
    audit_deposits_with_receipts w' = u64_wrap (0 + sum_paid w1 (dr_list sample_donors)) ∧
    (∀ x, x ∈ depositors w' ↔
       x ∈ ([] : list AccountAddress) ∨ ∃ r, (x, r) ∈ dr_list sample_donors ∧ w1 ∈ destination r) ∧
    (NoDup ([] : list AccountAddress) → NoDup (depositors w')).
Proof.
  apply (update_cw_wallets sample_cw sample_donors (fst sample_after) (snd sample_after) w1
           (mk_wallet 50 7 [] 0)); [vm_compute; reflexivity|reflexivity|by split].
Defined.

Lemma update_cw_audit_witness :
  dr_list (snd sample_after) = prod_map id (mark (cw_list sample_cw)) <$> dr_list sample_donors ∧
  total_cumu (snd sample_after) = 0 ∧
  (∀ x, x ∈ audit_not_cw (snd sample_after) ↔ x ∈ ([] : list AccountAddress) ∨
     ∃ donor r, (donor, r) ∈ dr_list sample_donors ∧ x ∈ destination r ∧ x ∉ bt_keys (cw_list sample_cw)) ∧
  (NoDup ([] : list AccountAddress) → NoDup (audit_not_cw (snd sample_after))).
Proof.
  apply (update_cw_audit sample_cw sample_donors (fst sample_after) (snd sample_after)).
  vm_compute. reflexivity.
Defined.

Definition wallet_record (v : Z) : LegacyRecoveryV6 :=
  mk_recovery (Some w1) None EndUser None None None None None None None
    (Some (Res.mk_cumu v 1 [])) None None None None None None None None None None None None None None None.

Example rebuild_sample :
  rebuild_cw_cumu_deposits [wallet_record 10; sample_user; wallet_record 20]
  = Ok (mk_wallets [(w1, mk_wallet 20 1 [] 0)] 30).
Proof. vm_compute. reflexivity. Qed.

Lemma rebuild_cw_spec_witness :
  ∃ cw, rebuild_cw_cumu_deposits [wallet_record 10; sample_user] = Ok cw ∧
     total_deposits cw = u64_wrap (sum_deposits [wallet_record 10; sample_user]) ∧
     bt_sorted (cw_list cw) ∧
     (∀ a, bt_get a (cw_list cw) = last_wallet [wallet_record 10; sample_user] a None).
Proof. apply rebuild_cw_spec. repeat constructor; cbn; congruence. Defined.
