(* ===== verification/GenesisFunctions.v ===== *)
(** * tools/genesis/src/genesis_functions.rs and the session of vm.rs

    The migration of the recovery list into the Move VM at genesis: which
    on-chain functions are called for each account, with which arguments and
    in which order, and where the migration sits in the genesis session.

    The VM session and the diem genesis steps are third party: a session is a
    state of any type, and a call a transformer of it that may panic. *)
From Stdlib Require Import ZArith Lia.
From stdpp Require Import base option list strings.
From S2P Require Import Prelude RustStr Bytes MoveTypes BTree Recovery CommWallet.

Open Scope Z_scope.

(** [move_core_types::value::MoveValue], the constructors used *)
Inductive MoveValue :=
| MvU8 (v : Z)
| MvU64 (v : Z)
| MvAddress (a : AccountAddress)
| MvSigner (a : AccountAddress)
| MvVector (l : list MoveValue).
Definition vector_u8 (bs : bytes) : MoveValue := MvVector (MvU8 <$> bs).
Definition vector_address (l : list AccountAddress) : MoveValue := MvVector (MvAddress <$> l).

(** [serialize_values] and [exec_function], which panics when the VM rejects
    the call *)
Class VmSession (S : Type) := {
  serialize_values : list MoveValue → list bytes;
  exec_function : S → string → string → list bytes → outcome S
}.

Section migration.
  Context {S : Type} `{VmSession S, DiemAddress}.

(** The address is printed and parsed back. *)
Definition convert_address (a : AccountAddress) : outcome AccountAddress :=
  context_opt "hex literal" (addr_from_hex_literal ("0x" +:+ addr_to_string a)).

Definition no_user : string := "no user account found ".

Definition genesis_migrate_one_user (session : S) (u : LegacyRecoveryV6) : outcome S :=
  match account u, auth_key u, balance u with
  | Some a, Some k, Some b =>
      new_addr_type ← convert_address a;
      exec_function session "genesis_migration" "migrate_legacy_user"
        (serialize_values [MvSigner CORE_CODE_ADDRESS; MvSigner new_addr_type; vector_u8 k;
                           MvU64 (Res.coin b)])
  | _, _, _ => Err no_user
  end.

Definition genesis_migrate_slow_wallet (session : S) (u : LegacyRecoveryV6) : outcome S :=
  match account u, auth_key u, balance u, slow_wallet u with
  | Some a, Some _, Some _, Some slow =>
      new_addr_type ← convert_address a;
      exec_function session "slow_wallet" "set_slow_wallet_state"
        (serialize_values [MvSigner CORE_CODE_ADDRESS; MvSigner new_addr_type;
                           MvU64 (Res.unlocked slow); MvU64 (Res.transferred slow)])
  | _, _, _, _ => Err no_user
  end.

Fixpoint escrow_loop (session : S) (a : AccountAddress) (l : list Res.PledgeAccountResource) : outcome S :=
  match l with
  | [] => Ok session
  | p :: l' =>
      session' ← exec_function session "genesis_migration" "fork_escrow_init"
        (serialize_values [MvSigner CORE_CODE_ADDRESS; MvSigner a; MvU64 (Res.pledge p);
                           MvU64 (Res.lifetime_pledged p); MvU64 (Res.lifetime_withdrawn p)]);
      escrow_loop session' a l'
  end.

Definition genesis_migrate_infra_escrow (session : S) (u : LegacyRecoveryV6) : outcome S :=
  match account u, auth_key u, my_pledge u with
  | Some a, Some _, Some p => escrow_loop session a (Res.pledges p)
  | _, _, _ => Err "no user pledge found "
  end.

(** [map(.. .expect(..)).collect()] *)
Definition convert_all (msg : string) (l : list AccountAddress) : outcome (list AccountAddress) :=
  mapM (fun a => expect_opt msg (addr_from_hex_literal ("0x" +:+ addr_to_string a))) l.

Definition genesis_migrate_receipts (session : S) (u : LegacyRecoveryV6) : outcome S :=
  match account u, auth_key u, balance u with
  | Some a, Some _, Some _ =>
      new_addr_type ← convert_address a;
      match receipts u with
      | None => Ok session
      | Some r =>
          dest_map ← convert_all "could not parse account address" (Res.destination r);
          exec_function session "receipts" "genesis_migrate_user"
            (serialize_values [MvSigner addr_ZERO; MvSigner new_addr_type; vector_address dest_map;
               MvVector (MvU64 <$> Res.cumulative r);
               MvVector (MvU64 <$> Res.last_payment_timestamp r);
               MvVector (MvU64 <$> Res.last_payment_value r)])
      end
  | _, _, _ => Err no_user
  end.

Definition genesis_migrate_ancestry (session : S) (u : LegacyRecoveryV6) : outcome S :=
  match account u, auth_key u, balance u, ancestry u with
  | Some a, Some _, Some _, Some an =>
      new_addr_type ← convert_address a;
      mapped_addr ← convert_all "called `Result::unwrap()`" (Res.tree an);
      exec_function session "ancestry" "fork_migrate"
        (serialize_values [MvSigner CORE_CODE_ADDRESS; MvSigner new_addr_type;
                           vector_address mapped_addr])
  | _, _, _, _ => Err no_user
  end.

Definition genesis_migrate_community_wallet (session : S) (u : LegacyRecoveryV6) : outcome S :=
  a ← expect_opt "called `Option::unwrap()` on a `None` value" (account u);
  exec_function session "community_wallet_init" "migrate_community_wallet_account"
    (serialize_values [MvSigner CORE_CODE_ADDRESS; MvSigner a]).

Definition set_tombstone (session : S) (user : AccountAddress) : outcome S :=
  exec_function session "account" "set_tombstone"
    (serialize_values [MvSigner addr_ZERO; MvAddress user]).

(** [match f(session) { Ok(_) => {}, Err(e) => { report } }]: the session of a
    call that failed is the one it was given, as every step above fails before
    it touches the session. *)
Definition reported (session : S) (r : outcome S) : outcome S :=
  match r with Err _ => Ok session | _ => r end.
Definition when_some {A} (o : option A) (session : S) (f : S → outcome S) : outcome S :=
  match o with Some _ => f session | None => Ok session end.

(** The closure of the [for_each], from the balance warning on *)
Definition migrate_live (session : S) (a : LegacyRecoveryV6) : outcome S :=
  s1 ← reported session (genesis_migrate_one_user session a);
  s2 ← when_some (slow_wallet a) s1 (fun s => reported s (genesis_migrate_slow_wallet s a));
  s3 ← when_some (comm_wallet a) s2 (fun s =>
         expect_res "could not migrate community wallets" (genesis_migrate_community_wallet s a));
  s4 ← when_some (ancestry a) s3 (fun s => reported s (genesis_migrate_ancestry s a));
  s5 ← when_some (receipts a) s4 (fun s => reported s (genesis_migrate_receipts s a));
  when_some (my_pledge a) s5 (fun s => reported s (genesis_migrate_infra_escrow s a)).

Definition migrate_user (session : S) (a : LegacyRecoveryV6) : outcome S :=
  match account a with
  | Some addr => if decide (role a = Drop) then set_tombstone session addr else migrate_live session a
  | None => migrate_live session a
  end.

Fixpoint genesis_migrate_all_users (session : S) (users : list LegacyRecoveryV6) : outcome S :=
  match users with
  | [] => Ok session
  | u :: us => session' ← migrate_user session u; genesis_migrate_all_users session' us
  end.

Fixpoint cumu_deposits_loop (session : S) (l : btree AccountAddress WalletState) : outcome S :=
  match l with
  | [] => Ok session
  | (addr, wallet) :: l' =>
      session' ← exec_function session "cumulative_deposits" "genesis_migrate_cumulative_deposits"
        (serialize_values [MvSigner CORE_CODE_ADDRESS; MvSigner addr;
           MvU64 (cumulative_value wallet); MvU64 (cumulative_index wallet);
           vector_address (depositors wallet)]);
      cumu_deposits_loop session' l'
  end.

Definition genesis_migrate_cumu_deposits (session : S) (users : list LegacyRecoveryV6) : outcome S :=
  '(_, cw) ← prepare_cw_and_receipts users;
  cumu_deposits_loop session (cw_list cw).

Definition set_final_supply (session : S) : outcome S :=
  exec_function session "libra_coin" "genesis_set_final_supply"
    (serialize_values [MvSigner CORE_CODE_ADDRESS; MvU64 (u64_mul 100000000000 1000000)]).

Definition set_validator_baseline_reward (session : S) (nominal_reward : Z) : outcome S :=
  exec_function session "proof_of_fee" "genesis_migrate_reward"
    (serialize_values [MvSigner CORE_CODE_ADDRESS; MvU64 nominal_reward]).

(** ** vm.rs: the first session of [encode_genesis_change_set], from
    [initialize] to [emit_new_block_and_epoch_event].  The named steps are the
    diem genesis functions, with their configuration arguments applied. *)
Record DiemGenesis := mk_diem_genesis {
  initialize : S → outcome S;
  initialize_features : S → outcome S;
  initialize_diem_coin : S → outcome S;
  initialize_on_chain_governance : S → outcome S;
  create_and_initialize_validators : S → outcome S;
  set_genesis_end : S → outcome S;
  emit_new_block_and_epoch_event : S → outcome S
}.

Definition framework_state (recovery : list LegacyRecoveryV6) : option LegacyRecoveryV6 :=
  snd <$> list_find (fun e => account e = Some CORE_CODE_ADDRESS) recovery.

Definition migrate_framework (session : S) (recovery : list LegacyRecoveryV6) : outcome S :=
  match framework_state recovery with
  | Some f =>
      match consensus_reward f with
      | Some cr => set_validator_baseline_reward session (Res.nominal_reward cr)
      | None => Ok session
      end
  | None => Ok session
  end.

Definition genesis_session (g : DiemGenesis) (session : S) (recovery : list LegacyRecoveryV6) : outcome S :=
  s ← initialize g session;
  s ← initialize_features g s;
  s ← initialize_diem_coin g s;
  s ← set_final_supply s;
  s ← initialize_on_chain_governance g s;
  s ← match recovery with
      | [] => Ok s
      | _ =>
          s ← migrate_framework s recovery;
          s ← expect_res "could not migrate users" (genesis_migrate_all_users s recovery);
          expect_res "could not migrate cumu deposits of cw" (genesis_migrate_cumu_deposits s recovery)
      end;
  s ← create_and_initialize_validators g s;
  s ← set_genesis_end g s;
  emit_new_block_and_epoch_event g s.

(** ** Specification: the calls an account stands for *)
Record call := mk_call { c_module : string; c_function : string; c_args : list MoveValue }.

Definition run_call (s : S) (c : call) : outcome S :=
  exec_function s (c_module c) (c_function c) (serialize_values (c_args c)).
Fixpoint run_calls (s : S) (cs : list call) : outcome S :=
  match cs with [] => Ok s | c :: cs' => s' ← run_call s c; run_calls s' cs' end.

Definition is_migratable (u : LegacyRecoveryV6) : option (AccountAddress * bytes * Z) :=
  match account u, auth_key u, balance u with
  | Some a, Some k, Some b => Some (a, k, Res.coin b)
  | _, _, _ => None
  end.

Definition user_calls (u : LegacyRecoveryV6) : list call :=
  match is_migratable u with
  | Some (a, k, b) => [mk_call "genesis_migration" "migrate_legacy_user"
      [MvSigner CORE_CODE_ADDRESS; MvSigner a; vector_u8 k; MvU64 b]]
  | None => []
  end.
Definition slow_calls (u : LegacyRecoveryV6) : list call :=
  match is_migratable u, slow_wallet u with
  | Some (a, _, _), Some s => [mk_call "slow_wallet" "set_slow_wallet_state"
      [MvSigner CORE_CODE_ADDRESS; MvSigner a; MvU64 (Res.unlocked s); MvU64 (Res.transferred s)]]
  | _, _ => []
  end.
Definition comm_calls (u : LegacyRecoveryV6) : list call :=
  match account u, comm_wallet u with
  | Some a, Some _ => [mk_call "community_wallet_init" "migrate_community_wallet_account"
      [MvSigner CORE_CODE_ADDRESS; MvSigner a]]
  | _, _ => []
  end.
Definition ancestry_calls (u : LegacyRecoveryV6) : list call :=
  match is_migratable u, ancestry u with
  | Some (a, _, _), Some an => [mk_call "ancestry" "fork_migrate"
      [MvSigner CORE_CODE_ADDRESS; MvSigner a; vector_address (Res.tree an)]]
  | _, _ => []
  end.
Definition receipt_calls (u : LegacyRecoveryV6) : list call :=
  match is_migratable u, receipts u with
  | Some (a, _, _), Some r => [mk_call "receipts" "genesis_migrate_user"
      [MvSigner addr_ZERO; MvSigner a; vector_address (Res.destination r);
       MvVector (MvU64 <$> Res.cumulative r); MvVector (MvU64 <$> Res.last_payment_timestamp r);
       MvVector (MvU64 <$> Res.last_payment_value r)]]
  | _, _ => []
  end.
Definition escrow_calls (u : LegacyRecoveryV6) : list call :=
  match account u, auth_key u, my_pledge u with
  | Some a, Some _, Some p =>
      (fun p => mk_call "genesis_migration" "fork_escrow_init"
        [MvSigner CORE_CODE_ADDRESS; MvSigner a; MvU64 (Res.pledge p);
         MvU64 (Res.lifetime_pledged p); MvU64 (Res.lifetime_withdrawn p)]) <$> Res.pledges p
  | _, _, _ => []
  end.

Definition account_calls (u : LegacyRecoveryV6) : list call :=
  match account u with
  | Some a =>
      if decide (role u = Drop)
      then [mk_call "account" "set_tombstone" [MvSigner addr_ZERO; MvAddress a]]
      else user_calls u ++ slow_calls u ++ comm_calls u ++ ancestry_calls u ++ receipt_calls u
           ++ escrow_calls u
  | None => []
  end.

Definition wallet_calls (l : btree AccountAddress WalletState) : list call :=
  (fun '(a, w) => mk_call "cumulative_deposits" "genesis_migrate_cumulative_deposits"
     [MvSigner CORE_CODE_ADDRESS; MvSigner a; MvU64 (cumulative_value w);
      MvU64 (cumulative_index w); vector_address (depositors w)]) <$> l.

(** Every address in the record is one; a community wallet has an account. *)
Definition migration_wf (u : LegacyRecoveryV6) : Prop :=
  (∀ a, account u = Some a → addr_wf a) ∧
  (∀ r, receipts u = Some r → Forall addr_wf (Res.destination r)) ∧
  (∀ an, ancestry u = Some an → Forall addr_wf (Res.tree an)) ∧
  (comm_wallet u ≠ None → account u ≠ None).

(** ** Lemmas *)
Lemma run_calls_app s c1 c2 : run_calls s (c1 ++ c2) = s' ← run_calls s c1; run_calls s' c2.
Proof.
  revert s. induction c1 as [|c c1 IH]; intros s; cbn [run_calls app]; [done|].
  destruct (run_call s c) as [s'| |]; cbn [mbind outcome_bind]; [apply IH|done|done].
Qed.

Lemma run_calls_nil s : run_calls s [] = Ok s.
Proof. done. Qed.

Lemma convert_address_ok a : addr_wf a → convert_address a = Ok a.
Proof. intros Ha. unfold convert_address. by rewrite addr_text_roundtrip. Qed.

Lemma convert_all_ok msg l : Forall addr_wf l → convert_all msg l = Ok l.
Proof.
  unfold convert_all. induction 1 as [|a l Ha Hl IH]; [done|]. cbn [mapM].
  rewrite addr_text_roundtrip by done. cbn [expect_opt mbind outcome_bind]. by rewrite IH.
Qed.

(** No call of the VM is an error value: it succeeds or panics. *)
Definition vm_no_err : Prop := ∀ s m f args e, exec_function s m f args ≠ Err e.

  Context (Hvm : vm_no_err).

Lemma run_calls_no_err s cs e : run_calls s cs ≠ Err e.
Proof.
  revert s. induction cs as [|c cs IH]; intros s; cbn [run_calls]; [done|].
  pose proof (Hvm s (c_module c) (c_function c) (serialize_values (c_args c)) e) as Hn.
  unfold run_call. destruct (exec_function _ _ _ _) as [s'|e'|p] eqn:E; cbn [mbind outcome_bind];
    [apply IH| |done]. congruence.
Qed.

Lemma reported_run s cs : reported s (run_calls s cs) = run_calls s cs.
Proof.
  unfold reported. destruct (run_calls s cs) as [|e|] eqn:E; try done.
  by apply run_calls_no_err in E.
Qed.

Lemma run_one s m f args :
  exec_function s m f (serialize_values args) = run_calls s [mk_call m f args].
Proof. cbn. unfold run_call. cbn. by destruct (exec_function _ _ _ _). Qed.

Lemma escrow_loop_run s a l :
  escrow_loop s a l = run_calls s
    ((fun p => mk_call "genesis_migration" "fork_escrow_init"
        [MvSigner CORE_CODE_ADDRESS; MvSigner a; MvU64 (Res.pledge p);
         MvU64 (Res.lifetime_pledged p); MvU64 (Res.lifetime_withdrawn p)]) <$> l).
Proof.
  revert s. induction l as [|p l IH]; intros s; cbn [escrow_loop]; [done|].
  cbn [fmap list_fmap run_calls]. unfold run_call. cbn [c_module c_function c_args].
  destruct (exec_function _ _ _ _) as [s'| |]; cbn [mbind outcome_bind]; [apply IH|done|done].
Qed.

Lemma cumu_loop_run s l : cumu_deposits_loop s l = run_calls s (wallet_calls l).
Proof.
  revert s. induction l as [|[a w] l IH]; intros s; cbn [cumu_deposits_loop]; [done|].
  cbn [wallet_calls fmap list_fmap run_calls]. unfold run_call. cbn [c_module c_function c_args].
  destruct (exec_function _ _ _ _) as [s'| |]; cbn [mbind outcome_bind]; [apply IH|done|done].
Qed.

Ltac step_case u :=
  unfold is_migratable;
  destruct (account u) as [?|], (auth_key u) as [?|], (balance u) as [?|]; try done.

Lemma one_user_run s u : migration_wf u →
  reported s (genesis_migrate_one_user s u) = run_calls s (user_calls u).
Proof.
  intros (Ha & _). unfold genesis_migrate_one_user, user_calls. step_case u.
  rewrite convert_address_ok by (by apply Ha). cbn [mbind outcome_bind].
  by rewrite run_one, reported_run.
Qed.

Lemma slow_run s u : migration_wf u →
  when_some (slow_wallet u) s (fun s => reported s (genesis_migrate_slow_wallet s u)) =
  run_calls s (slow_calls u).
Proof.
  intros (Ha & _). unfold genesis_migrate_slow_wallet, slow_calls, when_some.
  destruct (slow_wallet u) as [sl|]; [|by step_case u]. step_case u.
  rewrite convert_address_ok by (by apply Ha). cbn [mbind outcome_bind].
  by rewrite run_one, reported_run.
Qed.

Lemma comm_run s u : migration_wf u →
  when_some (comm_wallet u) s (fun s =>
    expect_res "could not migrate community wallets" (genesis_migrate_community_wallet s u)) =
  run_calls s (comm_calls u).
Proof.
  intros (_ & _ & _ & Hc). unfold genesis_migrate_community_wallet, comm_calls, when_some.
  destruct (comm_wallet u) as [c|]; [|by destruct (account u)].
  destruct (account u) as [a|]; [|by destruct Hc]. cbn [expect_opt mbind outcome_bind].
  rewrite run_one. set (cs := [_]). pose proof (run_calls_no_err s cs) as Hn.
  destruct (run_calls s cs) as [|e|]; try done. by destruct (Hn e).
Qed.

Lemma ancestry_run s u : migration_wf u →
  when_some (ancestry u) s (fun s => reported s (genesis_migrate_ancestry s u)) =
  run_calls s (ancestry_calls u).
Proof.
  intros (Ha & _ & Han & _). unfold genesis_migrate_ancestry, ancestry_calls, when_some.
  destruct (ancestry u) as [an|]; [|by step_case u]. step_case u.
  rewrite convert_address_ok by (by apply Ha). cbn [mbind outcome_bind].
  rewrite convert_all_ok by (by apply Han). cbn [mbind outcome_bind].
  by rewrite run_one, reported_run.
Qed.

Lemma receipts_run s u : migration_wf u →
  when_some (receipts u) s (fun s => reported s (genesis_migrate_receipts s u)) =
  run_calls s (receipt_calls u).
Proof.
  intros (Ha & Hr & _). unfold genesis_migrate_receipts, receipt_calls, when_some.
  destruct (receipts u) as [r|]; [|by step_case u]. step_case u.
  rewrite convert_address_ok by (by apply Ha). cbn [mbind outcome_bind].
  rewrite convert_all_ok by (by apply Hr). cbn [mbind outcome_bind].
  by rewrite run_one, reported_run.
Qed.

Lemma escrow_run s u :
  when_some (my_pledge u) s (fun s => reported s (genesis_migrate_infra_escrow s u)) =
  run_calls s (escrow_calls u).
Proof.
  unfold genesis_migrate_infra_escrow, escrow_calls, when_some.
  destruct (my_pledge u) as [p|], (account u), (auth_key u); try done.
  by rewrite escrow_loop_run, reported_run.
Qed.

Lemma run_calls_bind s c1 c2 :
  (s' ← run_calls s c1; run_calls s' c2) = run_calls s (c1 ++ c2).
Proof. symmetry. apply run_calls_app. Qed.

Lemma bind_ext {A B} (m : outcome A) (f g : A → outcome B) :
  (∀ a, f a = g a) → m ≫= f = m ≫= g.
Proof. intros Hfg. destruct m; cbn; [apply Hfg|done|done]. Qed.

Lemma migrate_live_run s u : migration_wf u →
  migrate_live s u =
  run_calls s (user_calls u ++ slow_calls u ++ comm_calls u ++ ancestry_calls u ++ receipt_calls u
               ++ escrow_calls u).
Proof.
  intros Hu. unfold migrate_live. rewrite one_user_run by done.
  rewrite <- run_calls_bind. apply bind_ext. intros s1.
  rewrite slow_run by done. rewrite <- run_calls_bind. apply bind_ext. intros s2.
  rewrite comm_run by done. rewrite <- run_calls_bind. apply bind_ext. intros s3.
  rewrite ancestry_run by done. rewrite <- run_calls_bind. apply bind_ext. intros s4.
  rewrite receipts_run by done. rewrite <- run_calls_bind. apply bind_ext. intros s5.
  by apply escrow_run.
Qed.

Lemma migrate_user_run s u : migration_wf u → migrate_user s u = run_calls s (account_calls u).
Proof.
  intros Hu. pose proof (migrate_live_run s u Hu) as Hl. destruct Hu as (_ & _ & _ & Hc).
  unfold migrate_user, account_calls. destruct (account u) as [a|] eqn:Ea.
  - destruct (decide (role u = Drop)); [|exact Hl]. unfold set_tombstone. by rewrite run_one.
  - rewrite Hl. unfold user_calls, slow_calls, comm_calls, ancestry_calls, receipt_calls,
      escrow_calls, is_migratable. by rewrite Ea.
Qed.

Lemma all_users_run s users : Forall migration_wf users →
  genesis_migrate_all_users s users = run_calls s (users ≫= account_calls).
Proof.
  intros Hu. revert s. induction Hu as [|u us Hu Hus IH]; intros s; [done|].
  cbn [genesis_migrate_all_users]. change ((u :: us) ≫= account_calls) with
    (account_calls u ++ (us ≫= account_calls)).
  rewrite migrate_user_run, <- run_calls_bind by done. apply bind_ext. intros s'. apply IH.
Qed.

Definition baseline_calls (recovery : list LegacyRecoveryV6) : list call :=
  match framework_state recovery with
  | Some f =>
      match consensus_reward f with
      | Some cr => [mk_call "proof_of_fee" "genesis_migrate_reward"
                      [MvSigner CORE_CODE_ADDRESS; MvU64 (Res.nominal_reward cr)]]
      | None => []
      end
  | None => []
  end.

Lemma migrate_framework_run s recovery :
  migrate_framework s recovery = run_calls s (baseline_calls recovery).
Proof.
  unfold migrate_framework, baseline_calls. destruct (framework_state recovery) as [f|]; [|done].
  destruct (consensus_reward f) as [cr|]; [|done].
  unfold set_validator_baseline_reward. by rewrite run_one.
Qed.

(** ** Properties *)

(** C1: migrating the recovery list makes exactly these calls of the VM, in
    this order: account by account in file order; for a dropped account the
    tombstone alone; for any other, the user's creation with its key and
    balance first, then its slow wallet, its community wallet, its ancestry,
    its receipts and one escrow call per pledge, each only when the account
    carries it; an entry without account, key or balance gets no user call, and
    its errors are reported without stopping the migration. *)
Theorem genesis_migrate_all_users_calls session users :
  Forall migration_wf users →
  genesis_migrate_all_users session users = run_calls session (users ≫= account_calls).
Proof. apply all_users_run. Qed.

(** The whole migration inside the genesis session: the calls made once the
    coin exists and governance is set up, and the session with them. *)
Definition genesis_calls (recovery : list LegacyRecoveryV6) (cw : btree AccountAddress WalletState) : list call :=
  match recovery with
  | [] => []
  | _ => baseline_calls recovery ++ (recovery ≫= account_calls) ++ wallet_calls cw
  end.
Definition genesis_script (g : DiemGenesis) (session : S) (calls : list call) : outcome S :=
  s ← initialize g session;
  s ← initialize_features g s;
  s ← initialize_diem_coin g s;
  s ← run_calls s [mk_call "libra_coin" "genesis_set_final_supply"
                     [MvSigner CORE_CODE_ADDRESS; MvU64 100000000000000000]];
  s ← initialize_on_chain_governance g s;
  s ← run_calls s calls;
  s ← create_and_initialize_validators g s;
  s ← set_genesis_end g s;
  emit_new_block_and_epoch_event g s.

Lemma genesis_session_order g session recovery dr cw :
  Forall migration_wf recovery →
  prepare_cw_and_receipts recovery = Ok (dr, cw) →
  genesis_session g session recovery = genesis_script g session (genesis_calls recovery (cw_list cw)).
Proof.
  intros Hwf Hcw. unfold genesis_session, genesis_script, genesis_calls. do 3 (apply bind_ext; intros ?).
  unfold set_final_supply. rewrite run_one. apply bind_ext. intros s4.
  apply bind_ext. intros s5. assert (Hex : ∀ msg s cs, expect_res msg (run_calls s cs) = run_calls s cs).
  { intros msg s cs. pose proof (run_calls_no_err s cs) as Hn.
    destruct (run_calls s cs) as [|e|]; try done. by destruct (Hn e). }
  destruct recovery as [|u us]; [done|].
  rewrite migrate_framework_run. f_equal.
  rewrite <- run_calls_bind. apply bind_ext. intros s6.
  rewrite all_users_run, Hex by done. rewrite <- run_calls_bind. apply bind_ext. intros s7.
  unfold genesis_migrate_cumu_deposits. rewrite Hcw. cbn [mbind outcome_bind].
  by rewrite cumu_loop_run, Hex.
Qed.

End migration.

(** ** Witnesses: a session that records its calls *)
Definition trace_args (l : list MoveValue) : list bytes :=
  (fix go (l : list MoveValue) := match l with
   | [] => []
   | MvU64 v :: l' => [v] :: go l'
   | MvSigner a :: l' => a :: go l'
   | MvAddress a :: l' => a :: go l'
   | _ :: l' => [] :: go l'
   end) l.

#[export] Instance trace_session : VmSession (list (string * string * list bytes)) := {|
  serialize_values := trace_args;
  exec_function s m f args := Ok (s ++ [(m, f, args)])
|}.

Lemma trace_no_err : vm_no_err (S := list (string * string * list bytes)).
Proof. intros s m f args e. done. Qed.

Definition dropped_user : LegacyRecoveryV6 := recovery_of (Some (repeat 1 32)) None Drop.

Lemma sample_user_wf : migration_wf sample_user.
Proof. split; [intros a [= <-]; by apply (bool_decide_unpack _)|]. by split; [|split]. Qed.
Lemma dropped_user_wf : migration_wf dropped_user.
Proof. split; [intros a [= <-]; by apply (bool_decide_unpack _)|]. by split; [|split]. Qed.

Lemma genesis_migrate_all_users_calls_witness :
  genesis_migrate_all_users (S := list (string * string * list bytes)) [] [sample_user; dropped_user]
  = run_calls [] ([sample_user; dropped_user] ≫= account_calls).
Proof.
  apply genesis_migrate_all_users_calls; [apply trace_no_err|].
  constructor; [apply sample_user_wf|]. constructor; [apply dropped_user_wf|constructor].
Defined.

Example migrate_sample :
  fmap (M:=outcome) (fmap (M:=list) (fst (A:=string * string)))
    (genesis_migrate_all_users (S := list (string * string * list bytes)) [] [sample_user; dropped_user])
  = Ok [("genesis_migration", "migrate_legacy_user"); ("slow_wallet", "set_slow_wallet_state");
        ("account", "set_tombstone")]%string.
Proof. vm_compute. reflexivity. Qed.

