(* ===== verification/Compare.v ===== *)
(** * tools/genesis/src/compare.rs and genesis_reader.rs (total_supply)

    The audit of a genesis database against the recovery list: balances, slow
    wallets, validator set and total supply.  The database is its answers. *)
From Stdlib Require Import ZArith Lia.
From stdpp Require Import base option list strings.
From S2P Require Import Prelude RustStr Bytes MoveTypes Recovery.

Open Scope Z_scope.

(** [SlowWalletBalance] as gas_coin.rs declares it *)
Record SlowWalletBalance := mk_slow_balance { sb_unlocked : Z; sb_total : Z }.

(** coin_info.rs: the supply is an aggregator (a key into the state) or an
    integer *)
Record OptionalAggregator := mk_optional_aggregator {
  aggregator : option bytes;
  integer : option Z
}.

(** The database: [latest_state_checkpoint_view] and the typed reads of an
    account's view; the coin store is its [coin]. *)
Class GenesisDb := {
  db_coin : AccountAddress → outcome (option Z);
  db_slow : AccountAddress → outcome (option SlowWalletBalance);
  db_validator_set : outcome (option (list AccountAddress));
  db_coin_info_supply : outcome (option (option OptionalAggregator));
  db_aggregator_value : bytes → outcome (option Z)
}.

Record CompareError := mk_error {
  index : Z;
  err_account : option AccountAddress;
  expected : Z;
  migrated : Z;
  message : string
}.

(** The balance is the [coin] of the coin store. *)
Record JsonDump := mk_dump {
  jd_account : AccountAddress;
  jd_balance : option Z;
  jd_slow : option SlowWalletBalance
}.

Section compare.
  Context `{GenesisDb, DiemAddress}.

(** The closure of the [for_each] at index [i]: the errors pushed and the
    coins added to [user_supply]. *)
Definition compare_one (i : Z) (old : LegacyRecoveryV6) : outcome (list CompareError * Z) :=
  if decide (role old = Drop) then Ok ([], 0) else
  match account old with
  | None => Ok ([mk_error i None 0 0 "account is None"], 0)
  | Some convert_address =>
      on_chain ← expect_res "should have move resource" (db_coin convert_address);
      match on_chain with
      | None => Ok ([], 0)
      | Some coin =>
          old_balance ← expect_opt "should have a balance struct" (balance old);
          let e1 := if coin =? Res.coin old_balance then []
                    else [mk_error i (account old) (Res.coin old_balance) coin "unexpected balance"] in
          match slow_wallet old with
          | None => Ok (e1, coin)
          | Some old_slow =>
              r ← expect_res "should have a slow wallet struct" (db_slow convert_address);
              new_slow ← expect_opt "called `Option::unwrap()` on a `None` value" r;
              let e2 := if sb_unlocked new_slow =? Res.unlocked old_slow then []
                        else [mk_error i (account old) (Res.unlocked old_slow) (sb_unlocked new_slow)
                                "unexpected slow wallet unlocked"] in
              let e3 := if coin <? sb_unlocked new_slow
                        then [mk_error i (account old) (sb_unlocked new_slow) coin
                                "unlocked greater than balance"]
                        else [] in
              Ok (e1 ++ e2 ++ e3, coin)
          end
      end
  end.

Fixpoint compare_loop (i : Z) (l : list LegacyRecoveryV6) (user_supply : Z)
    : outcome (list CompareError * Z) :=
  match l with
  | [] => Ok ([], user_supply)
  | old :: l' =>
      '(errs, coin) ← compare_one i old;
      '(rest, supply) ← compare_loop (i + 1) l' (u64_add user_supply coin);
      Ok (errs ++ rest, supply)
  end.

Definition compare_recovery_vec_to_genesis_tx (recovery : list LegacyRecoveryV6)
    : outcome (list CompareError) :=
  r_as_vec ← strip_system_address recovery;
  '(err_list, _) ← compare_loop 0 r_as_vec 0;
  Ok err_list.

(** [export_account_balances]: the entries dumped, one per record that has an
    account *)
Fixpoint export_list (recovery : list LegacyRecoveryV6) : outcome (list JsonDump) :=
  match recovery with
  | [] => Ok []
  | old :: recovery' =>
      match account old with
      | None => export_list recovery'
      | Some a =>
          acc ← expect_opt "could not convert address types" (addr_from_hex_literal (addr_to_hex_literal a));
          slow ← expect_res "should have a slow wallet struct" (db_slow acc);
          balance ← expect_res "should have move resource" (db_coin acc);
          rest ← export_list recovery';
          Ok (mk_dump acc balance slow :: rest)
      end
  end.

(** [get_val_set] and [check_val_set] *)
Definition get_val_set : outcome (list AccountAddress) :=
  r ← context_res "error calling get_validator_set" db_validator_set;
  context_opt "db returns None for validator set struct" r.

Fixpoint check_contains (addrs expected_vals : list AccountAddress) : outcome unit :=
  match expected_vals with
  | [] => Ok tt
  | v :: vs =>
      rust_assert (bool_decide (v ∈ addrs)) "genesis does not contain validator";;
      check_contains addrs vs
  end.

Definition check_val_set (expected_vals : list AccountAddress) : outcome unit :=
  addrs ← get_val_set;
  rust_assert (length addrs =? length expected_vals)%nat "validator set length mismatch";;
  check_contains addrs expected_vals.

(** genesis_reader.rs: [total_supply] *)
Definition total_supply : outcome (option Z) :=
  r ← expect_res "should have move resource" db_coin_info_supply;
  supply ← expect_opt "root should have a GasCoinInfoResourcee" r;
  match supply with
  | None => Ok None
  | Some o =>
      match aggregator o with
      | Some key =>
          v ← expect_res "aggregator value must exist in data store" (db_aggregator_value key);
          Some <$> expect_opt "supply value exists" v
      | None => Some <$> expect_opt "called `Option::unwrap()` on a `None` value" (integer o)
      end
  end.

Definition check_supply (expected_supply : Z) : outcome unit :=
  r ← total_supply;
  on_chain_supply ← expect_opt "called `Option::unwrap()` on a `None` value" r;
  rust_assert (expected_supply =? on_chain_supply) "supply mismatch".

(** ** Specification: what it means for one account to have been migrated *)
Definition migrated_ok (old : LegacyRecoveryV6) : Prop :=
  ∀ a coin, role old ≠ Drop → account old = Some a → db_coin a = Ok (Some coin) →
    (∃ b, balance old = Some b ∧ Res.coin b = coin) ∧
    (∀ s, slow_wallet old = Some s →
       ∃ n, db_slow a = Ok (Some n) ∧ sb_unlocked n = Res.unlocked s ∧ sb_unlocked n ≤ coin).

(** ** Lemmas *)
Lemma migrated_ok_iff old a coin b :
  role old ≠ Drop → account old = Some a → db_coin a = Ok (Some coin) → balance old = Some b →
  migrated_ok old ↔ Res.coin b = coin ∧
    match slow_wallet old with
    | None => True
    | Some s => ∃ n, db_slow a = Ok (Some n) ∧ sb_unlocked n = Res.unlocked s ∧ sb_unlocked n ≤ coin
    end.
Proof.
  intros Hd Ha Hc Hb. unfold migrated_ok. rewrite Ha, Hb. split.
  - intros Hall. destruct (Hall a coin Hd eq_refl Hc) as [(b' & [= <-] & E) Hs].
    split; [done|]. destruct (slow_wallet old) as [s|]; [by apply Hs|done].
  - intros [E Hs] a' coin' _ [= <-] Hc'. rewrite Hc in Hc'. injection Hc' as <-.
    split; [by exists b|]. intros s Hsl. by rewrite Hsl in Hs.
Qed.

Lemma compare_one_spec i old errs c :
  compare_one i old = Ok (errs, c) → account old ≠ None →
  (errs = [] ↔ migrated_ok old) ∧ Forall (fun e => index e = i ∧ err_account e = account old) errs.
Proof.
  unfold compare_one. intros Hc Ha.
  destruct (decide (role old = Drop)) as [Hd|Hd].
  { injection Hc as <- <-. split; [|constructor]. split; [|done].
    by intros _ a' coin' Hd'. }
  destruct (account old) as [a|] eqn:Ea; [|done].
  destruct (db_coin a) as [[coin|]|e|p] eqn:Ec; cbn [expect_res mbind outcome_bind] in Hc; try done.
  2: { injection Hc as <- <-. split; [|constructor]. split; [|done].
       intros _ a' coin' _ Ha' Hx. rewrite Ea in Ha'. injection Ha' as <-. congruence. }
  destruct (balance old) as [b|] eqn:Eb; cbn [expect_opt mbind outcome_bind] in Hc; [|done].
  rewrite (migrated_ok_iff old a coin b) by done.
  destruct (slow_wallet old) as [s|] eqn:Es.
  - destruct (db_slow a) as [[n|]|e|p] eqn:En; cbn [expect_res expect_opt mbind outcome_bind] in Hc; try done.
    injection Hc as <- <-. split.
    + transitivity (Res.coin b = coin ∧ sb_unlocked n = Res.unlocked s ∧ sb_unlocked n ≤ coin).
      * destruct (Z.eqb_spec coin (Res.coin b)), (Z.eqb_spec (sb_unlocked n) (Res.unlocked s)),
          (Z.ltb_spec coin (sb_unlocked n)); cbn [app]; split; intros Hx;
          first [reflexivity|discriminate Hx|lia].
      * split; [intros (E1 & E2 & E3); split; [done|]; by exists n|].
        by intros (E1 & n' & [= <-] & E2 & E3).
    + destruct (coin =? _), (sb_unlocked n =? _), (coin <? _); by repeat constructor.
  - injection Hc as <- <-. split.
    + destruct (Z.eqb_spec coin (Res.coin b)); split; try done; intros [Hx _]; congruence.
    + destruct (coin =? _); by repeat constructor.
Qed.

Lemma compare_loop_spec i l sup errs sup' :
  compare_loop i l sup = Ok (errs, sup') → Forall (fun e => account e ≠ None) l →
  (errs = [] ↔ Forall migrated_ok l) ∧
  (∀ e, e ∈ errs → ∃ k old, l !! k = Some old ∧ index e = i + Z.of_nat k ∧
      err_account e = account old ∧ ¬ migrated_ok old).
Proof.
  intros Hl Ha. revert i sup errs sup' Hl.
  induction Ha as [|old l Hold Ha IH]; intros i sup errs sup' Hl; cbn [compare_loop] in Hl.
  - injection Hl as <- <-. split; [by split|]. intros e He. by apply not_elem_of_nil in He.
  - apply bind_ok in Hl as ([es c] & H1 & Hl). apply bind_ok in Hl as ([rest s] & H2 & [= <- <-]).
    destruct (compare_one_spec _ _ _ _ H1 Hold) as [Hiff Hall].
    destruct (IH _ _ _ _ H2) as [IHiff IHin]. split.
    + rewrite Forall_cons, <- Hiff, <- IHiff. split; [by intros [-> ->]%app_eq_nil|by intros [-> ->]].
    + intros e [He|He]%elem_of_app.
      * exists 0%nat, old. destruct (proj1 (Forall_forall _ _) Hall e He) as [Hi Hac].
        split; [done|]. split; [lia|]. split; [done|]. intros Hok. apply Hiff in Hok as ->.
        by apply not_elem_of_nil in He.
      * destruct (IHin e He) as (k & old' & Hk & Hi & Hac & Hn).
        exists (S k), old'. split; [done|]. split; [lia|]. done.
Qed.

Lemma check_contains_ok addrs vs :
  check_contains addrs vs = Ok tt ↔ ∀ v, v ∈ vs → v ∈ addrs.
Proof.
  induction vs as [|v vs IH]; cbn [check_contains].
  - split; [|done]. intros _ v Hv. by apply not_elem_of_nil in Hv.
  - destruct (decide (v ∈ addrs)) as [Hin|Hout].
    + rewrite bool_decide_true by done. cbn [rust_assert mbind outcome_bind]. rewrite IH.
      split; intros Hall w; [intros [->|?]%elem_of_cons|intros ?]; [done|by apply Hall|].
      apply Hall. by right.
    + rewrite bool_decide_false by done. cbn [rust_assert mbind outcome_bind]. split; [done|].
      intros Hall. exfalso. apply Hout, Hall. by left.
Qed.

(** ** Properties *)

(** C7: the audit is sound and complete: when it returns, its list is empty
    exactly when every account kept by [strip_system_address] that is not
    dropped and has an on-chain balance has the recorded balance, and, with a
    slow wallet, the recorded unlocked amount, not above the balance; and every
    entry of the list names an account (by its index in the stripped list) for
    which that is not so. *)
Theorem compare_recovery_spec recovery errs :
  Forall recovery_wf recovery →
  compare_recovery_vec_to_genesis_tx recovery = Ok errs →
  ∃ kept, strip_system_address recovery = Ok kept ∧
    (errs = [] ↔ Forall migrated_ok kept) ∧
    (∀ e, e ∈ errs → ∃ k old, kept !! k = Some old ∧ index e = Z.of_nat k ∧
       err_account e = account old ∧ ¬ migrated_ok old).
Proof.
  intros Hwf Hc. unfold compare_recovery_vec_to_genesis_tx in Hc.
  apply bind_ok in Hc as (kept & Hk & Hc). apply bind_ok in Hc as ([es s] & Hc & [= <-]).
  exists kept. split; [done|].
  assert (Ha : Forall (fun e => account e ≠ None) kept).
  { by apply (strip_accounts recovery). }
  destruct (compare_loop_spec _ _ _ _ _ Hc Ha) as [H1 H2]. split; [done|].
  intros e He. destruct (H2 e He) as (k & old & Hk' & Hi & ?). exists k, old. by rewrite Hi.
Qed.

(** [check_val_set] passes exactly when the on-chain validator set has
    the expected size and every expected validator; when the expected ones are
    distinct, it is then a permutation of them. *)
Theorem check_val_set_spec expected_vals addrs :
  get_val_set = Ok addrs →
  (check_val_set expected_vals = Ok tt ↔
     length addrs = length expected_vals ∧ ∀ v, v ∈ expected_vals → v ∈ addrs) ∧
  (check_val_set expected_vals = Ok tt → NoDup expected_vals → expected_vals ≡ₚ addrs).
Proof.
  intros Ha.
  assert (Hiff : check_val_set expected_vals = Ok tt ↔
     length addrs = length expected_vals ∧ ∀ v, v ∈ expected_vals → v ∈ addrs).
  { unfold check_val_set. rewrite Ha. cbn [mbind outcome_bind].
    destruct (Nat.eqb_spec (length addrs) (length expected_vals)); cbn [rust_assert mbind outcome_bind].
    - rewrite check_contains_ok. naive_solver.
    - naive_solver. }
  split; [done|]. intros [Hlen Hin]%Hiff Hnd.
  apply submseteq_length_Permutation; [|lia]. by apply NoDup_submseteq.
Qed.

(** [check_supply] passes exactly when the figure is the supply the
    coin's info gives: the value behind its aggregator's key when it has one,
    its integer otherwise; in every other case it panics. *)
Theorem check_supply_spec n :
  check_supply n = Ok tt ↔
  ∃ o, db_coin_info_supply = Ok (Some (Some o)) ∧
    match aggregator o with
    | Some key => db_aggregator_value key = Ok (Some n)
    | None => integer o = Some n
    end.
Proof.
  unfold check_supply, total_supply.
  destruct db_coin_info_supply as [[[o|]|]|e|p]; cbn [expect_res expect_opt mbind outcome_bind];
    try (split; [done|]; naive_solver).
  destruct (aggregator o) as [key|] eqn:Ek.
  - destruct (db_aggregator_value key) as [[v|]|e|p] eqn:Ev;
      cbn [expect_res expect_opt mbind outcome_bind fmap outcome_fmap];
      try (split; [done|]; intros (o' & [= <-] & Ho); rewrite Ek in Ho; congruence).
    destruct (Z.eqb_spec n v) as [->|Hne]; cbn [rust_assert].
    + split; [|done]. intros _. exists o. by rewrite Ek.
    + split; [done|]. intros (o' & [= <-] & Ho). rewrite Ek in Ho. congruence.
  - destruct (integer o) as [v|] eqn:Ev; cbn [expect_opt mbind outcome_bind fmap outcome_fmap];
      try (split; [done|]; intros (o' & [= <-] & Ho); rewrite Ek in Ho; congruence).
    destruct (Z.eqb_spec n v) as [->|Hne]; cbn [rust_assert].
    + split; [|done]. intros _. exists o. by rewrite Ek.
    + split; [done|]. intros (o' & [= <-] & Ho). rewrite Ek in Ho. congruence.
Qed.

End compare.

(** ** Witnesses *)
Definition sample_db : GenesisDb := {|
  db_coin a := Ok (if decide (a = user_addr) then Some 90 else None);
  db_slow a := Ok (Some (mk_slow_balance 120 0));
  db_validator_set := Ok (Some [addr_ONE; user_addr]);
  db_coin_info_supply := Ok (Some (Some (mk_optional_aggregator None (Some 7))));
  db_aggregator_value _ := Ok None
|}.

Definition sample_errors : list CompareError :=
  [mk_error 0 (Some user_addr) 100 90 "unexpected balance";
   mk_error 0 (Some user_addr) 150 120 "unexpected slow wallet unlocked";
   mk_error 0 (Some user_addr) 120 90 "unlocked greater than balance"].

Lemma compare_recovery_spec_witness :
  let db := sample_db in
  ∃ kept, strip_system_address [sample_system; sample_user] = Ok kept ∧
    (sample_errors = [] ↔ Forall migrated_ok kept) ∧
    (∀ e, e ∈ sample_errors → ∃ k old, kept !! k = Some old ∧ index e = Z.of_nat k ∧
       err_account e = account old ∧ ¬ migrated_ok old).
Proof.
  intros db. apply (compare_recovery_spec [sample_system; sample_user]).
  - repeat constructor; by apply (bool_decide_unpack _).
  - vm_compute. reflexivity.
Defined.

Lemma check_val_set_spec_witness :
  let db := sample_db in
  (check_val_set [user_addr; addr_ONE] = Ok tt ↔
     length [addr_ONE; user_addr] = length [user_addr; addr_ONE] ∧
     ∀ v, v ∈ [user_addr; addr_ONE] → v ∈ [addr_ONE; user_addr]) ∧
  (check_val_set [user_addr; addr_ONE] = Ok tt → NoDup [user_addr; addr_ONE] →
     [user_addr; addr_ONE] ≡ₚ [addr_ONE; user_addr]).
Proof. intros db. apply check_val_set_spec. reflexivity. Defined.

Example check_supply_sample : let db := sample_db in check_supply 7 = Ok tt.
Proof. reflexivity. Qed.
