(* ===== verification/Bits.v ===== *)
(** * Bit strings

    The bits of an integer, most significant first, and the integer of a list
    of bits: what a bit reader reads and a bit writer writes. *)
From Stdlib Require Import ZArith Lia.
From stdpp Require Import base option list.
From S2P Require Import Prelude Bytes.

Open Scope Z_scope.

Fixpoint bits_be (n : nat) (z : Z) : list bool :=
  match n with O => [] | S n' => Z.testbit z (Z.of_nat n') :: bits_be n' z end.
Fixpoint of_bits (l : list bool) : Z :=
  match l with [] => 0 | b :: l' => Z.b2z b * 2 ^ Z.of_nat (length l') + of_bits l' end.
(** The bits of a byte string *)
Definition flat (bs : bytes) : list bool := bs ≫= bits_be 8.

Lemma bits_be_length n z : length (bits_be n z) = n.
Proof. induction n as [|n IH]; cbn; [done|]. by rewrite IH. Qed.

Lemma bits_be_ext n a b :
  (∀ k, 0 ≤ k < Z.of_nat n → Z.testbit a k = Z.testbit b k) → bits_be n a = bits_be n b.
Proof.
  induction n as [|n IH]; intros Hk; cbn [bits_be]; [done|]. f_equal; [apply Hk; lia|].
  apply IH. intros k ?. apply Hk. lia.
Qed.

Lemma bits_be_inj n a b k :
  bits_be n a = bits_be n b → 0 ≤ k < Z.of_nat n → Z.testbit a k = Z.testbit b k.
Proof.
  revert k. induction n as [|n IH]; intros k; cbn [bits_be]; [lia|]. intros [= H1 H2] Hk.
  destruct (decide (k = Z.of_nat n)) as [->|]; [done|]. apply IH; [done|lia].
Qed.

Lemma bits_be_app n m z :
  bits_be (n + m) z = bits_be n (Z.shiftr z (Z.of_nat m)) ++ bits_be m z.
Proof.
  induction n as [|n IH]; cbn [bits_be Nat.add app]; [done|]. rewrite IH. f_equal.
  rewrite Z.shiftr_spec by lia. f_equal. lia.
Qed.

Lemma bits_be_mod n m z : (n ≤ m)%nat → bits_be n (z mod 2 ^ Z.of_nat m) = bits_be n z.
Proof. intros Hle. apply bits_be_ext. intros k Hk. by rewrite Z.mod_pow2_bits_low by lia. Qed.

(** Appending [m] bits below [a], as [a << m | v & mask] does in a [u16] *)
Lemma bits_push n m a v :
  (n + m ≤ 16)%nat →
  bits_be (n + m) (Z.lor (u16_wrap (Z.shiftl a (Z.of_nat m))) (Z.land v (Z.ones (Z.of_nat m))))
  = bits_be n a ++ bits_be m v.
Proof.
  intros Hle. rewrite bits_be_app. unfold u16_wrap. change 65536 with (2 ^ 16). f_equal.
  - apply bits_be_ext. intros k Hk.
    rewrite Z.shiftr_spec, Z.lor_spec, Z.mod_pow2_bits_low, Z.shiftl_spec, Z.land_spec,
      (Z.ones_spec_high (Z.of_nat m)), andb_false_r, orb_false_r by lia.
    f_equal. lia.
  - apply bits_be_ext. intros k Hk.
    rewrite Z.lor_spec, Z.mod_pow2_bits_low, Z.shiftl_spec_low, Z.land_spec,
      Z.ones_spec_low by lia. by rewrite andb_true_r.
Qed.

Lemma of_bits_range l : 0 ≤ of_bits l < 2 ^ Z.of_nat (length l).
Proof.
  induction l as [|b l IH]; cbn [of_bits length]; [done|].
  rewrite Nat2Z.inj_succ, Z.pow_succ_r by lia. destruct b; cbn [Z.b2z]; lia.
Qed.

Lemma of_bits_app l k :
  of_bits (l ++ k) = of_bits l * 2 ^ Z.of_nat (length k) + of_bits k.
Proof.
  induction l as [|b l IH]; cbn [of_bits app]; [done|]. rewrite IH, length_app, Nat2Z.inj_add, Z.pow_add_r by lia.
  lia.
Qed.

Lemma bits_be_of l : bits_be (length l) (of_bits l) = l.
Proof.
  induction l as [|b l IH]; cbn [bits_be of_bits length]; [done|].
  pose proof (of_bits_range l) as Hr. set (n := length l) in *. f_equal.
  - assert (Hb : Z.testbit (Z.b2z b * 2 ^ Z.of_nat n + of_bits l) (Z.of_nat n)
                 = Z.testbit (Z.b2z b) 0).
    { replace (Z.of_nat n) with (0 + Z.of_nat n) at 2 by lia.
      rewrite <- Z.shiftr_spec by lia. f_equal. rewrite Z.shiftr_div_pow2 by lia.
      rewrite Z.div_add_l by lia. rewrite Z.div_small by lia. lia. }
    rewrite Hb. by destruct b.
  - rewrite <- IH at 2. rewrite <- (bits_be_mod n n (_ + _)) by lia. f_equal.
    rewrite (Z.add_comm (_ * _)), Z.mod_add by lia. by apply Z.mod_small.
Qed.

Lemma of_bits_be n z : 0 ≤ z < 2 ^ Z.of_nat n → of_bits (bits_be n z) = z.
Proof.
  intros Hz. pose proof (bits_be_of (bits_be n z)) as H. rewrite bits_be_length in H.
  pose proof (of_bits_range (bits_be n z)) as Hr. rewrite bits_be_length in Hr.
  set (y := of_bits (bits_be n z)) in *.
  rewrite <- (Z.mod_small y _ Hr), <- (Z.mod_small z _ Hz). apply Z.bits_inj'. intros k Hk. destruct (Z.ltb_spec k (Z.of_nat n)).
  - rewrite !Z.mod_pow2_bits_low by lia. apply (bits_be_inj n); [done|lia].
  - by rewrite !Z.mod_pow2_bits_high by lia.
Qed.

Lemma flat_app a b : flat (a ++ b) = flat a ++ flat b.
Proof. apply bind_app. Qed.

Lemma flat_length bs : length (flat bs) = (8 * length bs)%nat.
Proof.
  unfold flat. induction bs as [|b bs IH]; [done|]. rewrite bind_cons, length_app, IH, bits_be_length.
  cbn [length]. lia.
Qed.

Lemma bits_be_lookup n z k :
  (k < n)%nat → bits_be n z !! k = Some (Z.testbit z (Z.of_nat (n - 1 - k))).
Proof.
  revert k. induction n as [|n IH]; intros k Hk; [lia|]. destruct k as [|k]; cbn [bits_be lookup list_lookup].
  - do 2 f_equal. lia.
  - rewrite IH by lia. do 2 f_equal. lia.
Qed.

(** Chunks of one width determine the numbers they hold. *)
Lemma chunks_inj n l k :
  Forall (fun z => 0 ≤ z < 2 ^ Z.of_nat n) l → Forall (fun z => 0 ≤ z < 2 ^ Z.of_nat n) k →
  length l = length k → l ≫= bits_be n = k ≫= bits_be n → l = k.
Proof.
  intros Hl. revert k. induction Hl as [|a l Ha Hl IH]; intros [|b k] Hk Hlen; try done.
  apply Forall_cons in Hk as [Hb Hk]. rewrite !bind_cons. intros H.
  apply app_inj_1 in H as [H1 H2]; [|by rewrite !bits_be_length]. f_equal.
  - rewrite <- (of_bits_be n a), <- (of_bits_be n b) by done. by rewrite H1.
  - apply IH; [done| |done]. cbn in Hlen. lia.
Qed.

Lemma flat_inj a b : is_bytes a → is_bytes b → flat a = flat b → a = b.
Proof.
  intros Ha Hb H. apply (chunks_inj 8); [done|done| |done].
  apply (f_equal length) in H. rewrite !flat_length in H. lia.
Qed.
