(* ===== verification/Mnemonic.v ===== *)
(** * tools/wallet/src/core/mnemonic.rs

    BIP39 mnemonics: the bit reader and writer of 11-bit words, the binary
    search in the word list, [Mnemonic::new], [Mnemonic::from], [Display] and
    the mnemonic file.  SHA-256 is third party and a parameter. *)
From Stdlib Require Import ZArith Lia Ascii.
From stdpp Require Import base option list strings gmap sorting.
From S2P Require Import Prelude RustStr Bytes FileSystem Bits BTree WordList.

Open Scope list_scope.
Open Scope Z_scope.

(** The [sha2] crate: [Sha256::digest] is a [[u8; 32]]. *)
Class Sha256 := {
  sha256 : bytes → bytes;
  sha256_law bs : is_array 32 (sha256 bs)
}.

(** [<str as Ord>::cmp] compares the bytes. *)
Definition str_cmp (a b : string) : comparison := bytes_cmp (str_bytes a) (str_bytes b).

(** [<[T]>::binary_search]: the halving loop of the standard library on
    [left..right]; each round shrinks it, so [fuel] rounds do for a slice of
    that length. *)
Fixpoint binary_search_go (fuel : nat) (l : list string) (x : string) (left right : nat) : option nat :=
  match fuel with
  | O => None
  | S f =>
      if (left <? right)%nat then
        let mid := (left + (right - left) / 2)%nat in
        match l !! mid with
        | None => None
        | Some w =>
            match str_cmp w x with
            | Lt => binary_search_go f l x (mid + 1) right
            | Gt => binary_search_go f l x left mid
            | Eq => Some mid
            end
        end
      else None
  end.
Definition binary_search (l : list string) (x : string) : option nat :=
  binary_search_go (S (length l)) l x 0 (length l).

(** ** U11BitReader *)
Record U11BitReader := mk_reader { r_bytes : bytes; position : Z }.
Definition reader_new (bs : bytes) : U11BitReader := mk_reader bs 0.

(** The [for i in start..end] loop over the positions still to read *)
Fixpoint read_bits (bs : bytes) (ps : list Z) (value : Z) : outcome Z :=
  match ps with
  | [] => Ok value
  | i :: ps' =>
      byte ← expect_opt "index out of bounds" (bs !! Z.to_nat (i / 8));
      let shift := 7 - i mod 8 in
      let bit := Z.land (Z.shiftr byte shift) 1 in
      read_bits bs ps' (Z.lor (u16_wrap (Z.shiftl value 1)) bit)
  end.
Definition read_u11 (r : U11BitReader) : outcome (Z * U11BitReader) :=
  let start_position := position r in
  let end_position := u16_wrap (start_position + 11) in
  value ← read_bits (r_bytes r) (seqZ start_position (end_position - start_position)) 0;
  Ok (value, mk_reader (r_bytes r) end_position).

(** ** U11BitWriter *)
Record U11BitWriter := mk_writer { w_bytes : bytes; unused : Z; buffer : Z }.
Definition writer_new : U11BitWriter := mk_writer [] 8 0.
Definition MASKS : list Z := [0; 1; 3; 7; 15; 31; 63; 127].
Definition mask (k : Z) : outcome Z := expect_opt "index out of bounds" (MASKS !! Z.to_nat k).

(** [while nbits_remaining >= 8]: each round takes eight bits off, so
    [nbits] rounds are enough. *)
Fixpoint push_full (fuel : nat) (bs : bytes) (nbits value : Z) : bytes * Z :=
  match fuel with
  | O => (bs, nbits)
  | S f => if 8 <=? nbits
           then push_full f (bs ++ [u8_wrap (Z.shiftr value (nbits - 8))]) (nbits - 8) value
           else (bs, nbits)
  end.

Definition fill_partial (w : U11BitWriter) (value : Z) : outcome (U11BitWriter * Z) :=
  if (unused w <=? 11) && (unused w <? 8) then
    let excess_bits := 11 - unused w in
    m ← mask (unused w);
    let buf := Z.lor (u16_wrap (Z.shiftl (buffer w) (unused w))) (Z.land (Z.shiftr value excess_bits) m) in
    Ok (mk_writer (w_bytes w ++ [u8_wrap buf]) 8 0, excess_bits)
  else Ok (w, 11).

Definition write_u11 (w : U11BitWriter) (value : Z) : outcome U11BitWriter :=
  '(w, nbits) ← fill_partial w value;
  let '(bs, nbits) := push_full (Z.to_nat nbits) (w_bytes w) nbits value in
  if 0 <? nbits then
    m ← mask nbits;
    Ok (mk_writer bs (u16_wrap (unused w - nbits))
          (Z.lor (u16_wrap (Z.shiftl (buffer w) nbits)) (Z.land value m)))
  else Ok (mk_writer bs (unused w) (buffer w)).

Definition write_buffer (w : U11BitWriter) : bytes :=
  if unused w =? 8 then w_bytes w else w_bytes w ++ [u8_wrap (buffer w)].

(** [<[T]>::split_last] *)
Definition split_last (bs : bytes) : option (Z * bytes) :=
  match rev bs with [] => None | b :: r => Some (b, rev r) end.

(** ** Mnemonic *)
Notation Mnemonic := (list string).
Definition to_string (m : Mnemonic) : string := join " " m.

Definition valid_word_count (len : nat) : bool :=
  ((12 <=? len) && (len <=? 24) && (len mod 3 =? 0))%nat.
Definition valid_entropy_len (len : nat) : bool :=
  ((16 <=? len) && (len <=? 32) && (len mod 4 =? 0))%nat.

Section mnemonic.
  Context `{Sha256}.

Fixpoint write_words (words : list string) (mnemonic : Mnemonic) (w : U11BitWriter)
    : outcome (Mnemonic * U11BitWriter) :=
  match words with
  | [] => Ok (mnemonic, w)
  | word :: words' =>
      match binary_search WORDS word with
      | Some idx =>
          found ← expect_opt "index out of bounds" (WORDS !! idx);
          w' ← write_u11 w (u16_wrap (Z.of_nat idx));
          write_words words' (mnemonic ++ [found]) w'
      | None => Err "Mnemonic contains an unknown word"
      end
  end.

Definition digest0 (entropy : bytes) : outcome Z :=
  expect_opt "index out of bounds" (sha256 entropy !! 0%nat).

Definition from (s : string) : outcome Mnemonic :=
  let words := split_char " " s in
  let len := length words in
  if negb (valid_word_count len)
  then Err "Mnemonic must have a word count of the following lengths: 24, 21, 18, 15, 12" else
  '(mnemonic, w) ← write_words words [] writer_new;
  '(checksum, entropy) ← expect_opt "entered unreachable code" (split_last (write_buffer w));
  d ← digest0 entropy;
  let computed_checksum := Z.shiftr d (8 - Z.of_nat (len / 3)) in
  if checksum =? computed_checksum then Ok mnemonic else Err "Mnemonic checksum failed".

Fixpoint read_words (n : nat) (r : U11BitReader) : outcome Mnemonic :=
  match n with
  | O => Ok []
  | S n' =>
      '(v, r') ← read_u11 r;
      w ← expect_opt "index out of bounds" (WORDS !! Z.to_nat v);
      ws ← read_words n' r';
      Ok (w :: ws)
  end.

Definition new (entropy : bytes) : outcome Mnemonic :=
  let len := length entropy in
  if negb (valid_entropy_len len)
  then Err "Entropy data for mnemonic must have one of the following byte lengths: 32, 28, 24, 20, 16" else
  checksum ← digest0 entropy;
  let entropy_and_checksum := entropy ++ [checksum] in
  read_words (len * 3 / 4) (reader_new entropy_and_checksum).

(** ** The mnemonic file *)
Definition write (m : Mnemonic) (output_file_path : path) (fs : file_system) : outcome file_system :=
  if exists_ output_file_path fs && negb (is_file output_file_path fs)
  then Err "Output file for mnemonic backup is reserved" else
  fs' ← file_create output_file_path fs;
  Ok (write_all output_file_path (to_string m) fs').

Definition read (input_file_path : path) (fs : file_system) : outcome Mnemonic :=
  if exists_ input_file_path fs && is_file input_file_path fs then
    mnemonic_string ← read_to_string input_file_path fs;
    from mnemonic_string
  else Err "Input file for mnemonic backup does not exist".

(** ** Specification *)

(** The words of a list of indices, and the bits they stand for *)
Definition encodes (m : Mnemonic) (bits : list bool) : Prop :=
  ∃ idxs : list nat, Forall2 (fun w i => WORDS !! i = Some w) m idxs ∧
    (Z.of_nat <$> idxs) ≫= bits_be 11 = bits.

(** BIP39: the entropy and the first bit of its digest per 32 bits of it *)
Definition checksum_bits (entropy : bytes) : list bool :=
  take (length entropy / 4) (flat (take 1 (sha256 entropy))).
Definition bip39_bits (entropy : bytes) : list bool := flat entropy ++ checksum_bits entropy.

(** ** The word list and its search *)
Fixpoint strictly_sorted (l : list string) : bool :=
  match l with
  | a :: (b :: _) as l' => match str_cmp a b with Lt => strictly_sorted l' | _ => false end
  | _ => true
  end.

Lemma WORDS_sorted : strictly_sorted WORDS = true.
Proof. vm_compute. reflexivity. Qed.
Lemma WORDS_length : length WORDS = Z.to_nat 2048.
Proof. vm_compute. reflexivity. Qed.
Lemma WORDS_no_space : forallb (no_char (Ascii.eqb " ")) WORDS = true.
Proof. vm_compute. reflexivity. Qed.

Lemma str_cmp_eq a b : str_cmp a b = Eq ↔ a = b.
Proof.
  unfold str_cmp. pose proof (kcmp_eq (str_bytes a) (str_bytes b)) as Hk. cbn in Hk. rewrite Hk.
  split; [apply str_bytes_inj|by intros ->].
Qed.

Definition str_lt (a b : string) : Prop := str_cmp a b = Lt.

#[export] Instance str_lt_trans : Transitive str_lt.
Proof.
  intros a b c. unfold str_lt, str_cmp. exact (kcmp_trans (str_bytes a) (str_bytes b) (str_bytes c)).
Qed.

Lemma str_lt_irrefl a : ¬ str_lt a a.
Proof. unfold str_lt. by rewrite (proj2 (str_cmp_eq a a) eq_refl). Qed.

Lemma str_cmp_gt a b : str_lt a b → str_cmp b a = Gt.
Proof.
  unfold str_lt, str_cmp. intros E. pose proof (kcmp_antisym (str_bytes a) (str_bytes b)) as Hk.
  cbn in Hk. by rewrite Hk, E.
Qed.

Lemma strictly_sorted_lookup l i j a b :
  strictly_sorted l = true → l !! i = Some a → l !! j = Some b → (i < j)%nat → str_lt a b.
Proof.
  intros Hs. assert (HS : StronglySorted str_lt l).
  { apply Sorted_StronglySorted; [apply _|].
    induction l as [|x [|y l] IH]; [constructor|by repeat constructor|].
    cbn [strictly_sorted] in Hs. destruct (str_cmp x y) eqn:E; try done.
    constructor; [by apply IH|by constructor]. }
  clear Hs. revert i j. induction HS as [|x l HS IH Hx]; intros i j Hi Hj Hij; [done|].
  destruct j as [|j]; [lia|]. destruct i as [|i]; cbn in *.
  - injection Hi as <-. rewrite Forall_forall in Hx. apply Hx. by eapply list_elem_of_lookup_2.
  - apply (IH i j); [done|done|lia].
Qed.

Lemma binary_search_sound fuel l x left right i :
  binary_search_go fuel l x left right = Some i → l !! i = Some x.
Proof.
  revert left right. induction fuel as [|f IH]; intros left right; cbn [binary_search_go]; [done|].
  destruct (left <? right)%nat; [|done].
  destruct (l !! (left + (right - left) / 2)%nat) as [w|] eqn:Ew; [|done].
  destruct (str_cmp w x) eqn:E; [|apply IH|apply IH].
  apply str_cmp_eq in E as ->. by intros [= <-].
Qed.

Lemma binary_search_complete fuel l x left right j :
  strictly_sorted l = true → l !! j = Some x →
  (left ≤ j < right)%nat → (right ≤ length l)%nat → (right - left < fuel)%nat →
  binary_search_go fuel l x left right = Some j.
Proof.
  intros Hs Hj. revert left right. induction fuel as [|f IH]; intros left right Hr Hl Hf; [lia|].
  cbn [binary_search_go]. destruct (Nat.ltb_spec left right); [|lia].
  set (mid := (left + (right - left) / 2)%nat).
  assert (Hmid : (left ≤ mid < right)%nat).
  { pose proof (Nat.div_lt (right - left) 2). subst mid. lia. }
  destruct (l !! mid) as [w|] eqn:Ew; [|apply lookup_ge_None in Ew; lia].
  destruct (str_cmp w x) eqn:E.
  - apply str_cmp_eq in E as ->. f_equal. destruct (lt_eq_lt_dec mid j) as [[Hlt|]|Hlt]; [|done|].
    + pose proof (strictly_sorted_lookup _ _ _ _ _ Hs Ew Hj Hlt) as Hc.
      by apply str_lt_irrefl in Hc.
    + pose proof (strictly_sorted_lookup _ _ _ _ _ Hs Hj Ew Hlt) as Hc.
      by apply str_lt_irrefl in Hc.
  - apply IH; [|done|lia]. destruct (lt_eq_lt_dec mid j) as [[Hgt|Heq]|Hlt]; [lia| |].
    + rewrite <- Heq, Ew in Hj. injection Hj as ->. by apply str_lt_irrefl in E.
    + pose proof (strictly_sorted_lookup _ _ _ _ _ Hs Hj Ew Hlt) as Hc.
      apply str_cmp_gt in Hc. congruence.
  - apply IH; [|lia|lia]. destruct (lt_eq_lt_dec mid j) as [[Hlt|Heq]|Hgt]; [| |lia].
    + pose proof (strictly_sorted_lookup _ _ _ _ _ Hs Ew Hj Hlt) as Hc. unfold str_lt in Hc. congruence.
    + rewrite <- Heq, Ew in Hj. injection Hj as ->. rewrite (proj2 (str_cmp_eq x x) eq_refl) in E. done.
Qed.

(** The search finds exactly the words of the list, at their index. *)
Lemma binary_search_WORDS x i : binary_search WORDS x = Some i ↔ WORDS !! i = Some x.
Proof.
  unfold binary_search. split; [apply binary_search_sound|]. intros Hi.
  apply binary_search_complete; [apply WORDS_sorted|done| |lia|lia].
  split; [lia|]. by eapply lookup_lt_Some.
Qed.

Lemma WORDS_index i w : WORDS !! i = Some w → (i < Z.to_nat 2048)%nat.
Proof. intros Hi. rewrite <- WORDS_length. by eapply lookup_lt_Some. Qed.

(** ** The reader *)
Lemma lor_bit v b : Z.lor (Z.shiftl v 1) (Z.b2z b) = 2 * v + Z.b2z b.
Proof.
  rewrite <- Z.add_nocarry_lor; [rewrite Z.shiftl_mul_pow2 by lia; lia|].
  apply Z.bits_inj'. intros n Hn. rewrite Z.land_spec, Z.bits_0.
  destruct (Z.eqb_spec n 0) as [->|]; [by rewrite Z.shiftl_spec_low by lia|].
  replace (Z.testbit (Z.b2z b) n) with false; [apply andb_false_r|].
  symmetry. apply Z.bits_above_log2; destruct b; cbn; lia.
Qed.

Lemma flat_lookup bs i :
  is_bytes bs → (i < length (flat bs))%nat →
  ∃ byte, bs !! (i / 8)%nat = Some byte ∧
    flat bs !! i = Some (Z.testbit byte (7 - Z.of_nat i mod 8)).
Proof.
  intros Hb. revert i. induction Hb as [|b bs Hb Hbs IH]; intros i Hi; [cbn in Hi; lia|].
  unfold flat in *. rewrite bind_cons in *. rewrite length_app, bits_be_length in Hi.
  destruct (Nat.ltb_spec i 8).
  - exists b. rewrite Nat.div_small by done. split; [done|].
    rewrite lookup_app_l by (by rewrite bits_be_length). rewrite bits_be_lookup by done.
    do 2 f_equal. rewrite Z.mod_small by lia. lia.
  - destruct (IH (i - 8)%nat ltac:(lia)) as (c & Hc & Hl). exists c.
    replace (i / 8)%nat with (S ((i - 8) / 8)).
    2: { replace i with (i - 8 + 1 * 8)%nat at 2 by lia. rewrite Nat.div_add by lia. lia. }
    split; [done|]. rewrite lookup_app_r, bits_be_length by (rewrite bits_be_length; lia).
    rewrite Hl. do 3 f_equal. replace (Z.of_nat i) with (Z.of_nat (i - 8) + 1 * 8) by lia.
    by rewrite Z.mod_add by lia.
Qed.

Lemma read_bits_spec bs n i v :
  is_bytes bs → (i + n ≤ length (flat bs))%nat → 0 ≤ v → (v + 1) * 2 ^ Z.of_nat n ≤ 65536 →
  read_bits bs (seqZ (Z.of_nat i) (Z.of_nat n)) v
  = Ok (v * 2 ^ Z.of_nat n + of_bits (take n (drop i (flat bs)))).
Proof.
  intros Hb. revert i v. induction n as [|n IH]; intros i v Hi Hv Hr.
  { change (read_bits bs [] v = Ok (v * 1 + 0)). cbn [read_bits]. f_equal. lia. }
  rewrite seqZ_cons by lia. cbn [read_bits].
  destruct (flat_lookup bs i Hb ltac:(lia)) as (byte & Hbyte & Hbit).
  replace (Z.to_nat (Z.of_nat i / 8)) with (i / 8)%nat by
    (rewrite <- (Nat2Z.id (i / 8)), Nat2Z.inj_div; done).
  rewrite Hbyte. cbn [expect_opt mbind outcome_bind].
  assert (Hone : Z.land (Z.shiftr byte (7 - Z.of_nat i mod 8)) 1
                 = Z.b2z (Z.testbit byte (7 - Z.of_nat i mod 8))).
  { pose proof (Z.mod_pos_bound (Z.of_nat i) 8 ltac:(lia)).
    change 1 with (Z.ones 1). rewrite Z.land_ones by lia. change (2 ^ 1) with 2.
    rewrite <- Z.bit0_mod, Z.shiftr_spec by lia. f_equal. }
  rewrite Hone. set (b := Z.testbit byte _) in *.
  rewrite Nat2Z.inj_succ, Z.pow_succ_r in Hr by lia.
  assert (0 < 2 ^ Z.of_nat n) by lia.
  assert (Hsm : u16_wrap (Z.shiftl v 1) = Z.shiftl v 1).
  { unfold u16_wrap. apply Z.mod_small. rewrite Z.shiftl_mul_pow2 by lia. nia. }
  rewrite Hsm, lor_bit.
  replace (Z.succ (Z.of_nat i)) with (Z.of_nat (S i)) by lia.
  replace (Z.of_nat (S n) - 1) with (Z.of_nat n) by lia.
  replace (Z.pred (Z.of_nat (S n))) with (Z.of_nat n) by lia.
  assert (0 ≤ Z.b2z b ≤ 1) by (destruct b; cbn; lia).
  rewrite IH; [|lia|lia|nia]. f_equal.
  rewrite (drop_S (flat bs) b i Hbit). cbn [take of_bits].
  rewrite length_take, length_drop, Nat.min_l by lia.
  rewrite Nat2Z.inj_succ, Z.pow_succ_r by lia. ring.
Qed.

Lemma read_u11_spec bs i :
  is_bytes bs → (i + 11 ≤ length (flat bs))%nat → Z.of_nat i + 11 < 65536 →
  read_u11 (mk_reader bs (Z.of_nat i))
  = Ok (of_bits (take 11 (drop i (flat bs))), mk_reader bs (Z.of_nat (i + 11))).
Proof.
  intros Hb Hi Hr. unfold read_u11. cbn [position r_bytes].
  replace (u16_wrap (Z.of_nat i + 11)) with (Z.of_nat (i + 11))
    by (unfold u16_wrap; rewrite Z.mod_small; lia).
  replace (Z.of_nat (i + 11) - Z.of_nat i) with (Z.of_nat 11) by lia.
  rewrite (read_bits_spec bs 11 i 0) by (first [done|cbn; lia]).
  cbn [mbind outcome_bind]. done.
Qed.

(** ** The writer *)
Definition writer_bits (w : U11BitWriter) : list bool :=
  flat (w_bytes w) ++ bits_be (Z.to_nat (8 - unused w)) (buffer w).
Definition writer_ok (w : U11BitWriter) : Prop :=
  is_bytes (w_bytes w) ∧ 1 ≤ unused w ≤ 8 ∧ 0 ≤ buffer w < 2 ^ (8 - unused w).

Lemma writer_new_ok : writer_ok writer_new.
Proof. split; [by apply Forall_nil|]. cbn. lia. Qed.

Lemma mask_spec k : (k < 8)%nat → mask (Z.of_nat k) = Ok (Z.ones (Z.of_nat k)).
Proof. intros Hk. do 8 (destruct k as [|k]; [reflexivity|]). lia. Qed.

Lemma flat_snoc bs z : flat (bs ++ [u8_wrap z]) = flat bs ++ bits_be 8 z.
Proof.
  rewrite flat_app. f_equal. unfold flat. rewrite bind_cons. cbn [mbind list_bind]. rewrite app_nil_r.
  apply (bits_be_mod 8 8). lia.
Qed.

Lemma is_bytes_snoc bs z : is_bytes bs → is_bytes (bs ++ [u8_wrap z]).
Proof.
  intros Hb. apply Forall_app. split; [done|]. constructor; [|done].
  apply Z.mod_pos_bound. lia.
Qed.

(** After [fill_partial] the buffer is empty and [r] low bits remain. *)
Lemma fill_partial_spec w v :
  writer_ok w →
  ∃ bs r, fill_partial w v = Ok (mk_writer bs 8 0, Z.of_nat r) ∧ (3 ≤ r ≤ 11)%nat ∧ is_bytes bs ∧
    flat bs ++ bits_be r v = writer_bits w ++ bits_be 11 v.
Proof.
  destruct w as [bs u buf]. intros (Hb & Hu & Hr). cbn [w_bytes unused buffer] in *.
  unfold fill_partial, writer_bits. cbn [w_bytes unused buffer].
  destruct (Z.ltb_spec u 8).
  - rewrite (proj2 (Z.leb_le u 11)) by lia. cbn [andb].
    replace u with (Z.of_nat (Z.to_nat u)) by lia. set (k := Z.to_nat u) in *.
    assert (Hk : (1 ≤ k ≤ 7)%nat) by lia.
    rewrite mask_spec by lia. cbn [mbind outcome_bind].
    eexists _, (11 - k)%nat. split; [do 2 f_equal; lia|]. split; [lia|].
    split; [by apply is_bytes_snoc|].
    replace (bits_be 11 v) with (bits_be (k + (11 - k)) v) by (f_equal; lia).
    replace (Z.to_nat (8 - Z.of_nat k)) with (8 - k)%nat by lia.
    rewrite flat_snoc, (bits_be_app k (11 - k)).
    replace (11 - Z.of_nat k) with (Z.of_nat (11 - k)) by lia.
    replace 8%nat with ((8 - k) + k)%nat at 1 by lia. rewrite bits_push by lia.
    by rewrite <- !(assoc_L (++)).
  - assert (u = 8) as -> by lia. assert (buf = 0) as -> by lia.
    exists bs, 11%nat. rewrite andb_false_r.
    change (bits_be (Z.to_nat (8 - 8)) 0) with (@nil bool). rewrite app_nil_r.
    split; [done|]. split; [lia|]. done.
Qed.

Lemma push_full_spec fuel bs r v :
  is_bytes bs → (r ≤ fuel)%nat →
  ∃ bs' r', push_full fuel bs (Z.of_nat r) v = (bs', Z.of_nat r') ∧ (r' < 8)%nat ∧ is_bytes bs' ∧
    flat bs' ++ bits_be r' v = flat bs ++ bits_be r v.
Proof.
  revert bs r. induction fuel as [|f IH]; intros bs r Hb Hr; cbn [push_full].
  { exists bs, r. split; [done|]. split; [lia|done]. }
  destruct (Z.leb_spec 8 (Z.of_nat r)).
  - replace (Z.of_nat r - 8) with (Z.of_nat (r - 8)) by lia.
    destruct (IH (bs ++ [u8_wrap (Z.shiftr v (Z.of_nat (r - 8)))]) (r - 8)%nat)
      as (bs' & r' & Hp & Hr' & Hb' & Hf); [by apply is_bytes_snoc|lia|].
    exists bs', r'. split; [done|]. split; [done|]. split; [done|]. rewrite Hf, flat_snoc.
    replace r with (8 + (r - 8))%nat at 3 by lia. by rewrite (bits_be_app 8), <- (assoc_L (++)).
  - exists bs, r. split; [done|]. split; [lia|done].
Qed.

Lemma write_u11_spec w v :
  writer_ok w →
  ∃ w', write_u11 w v = Ok w' ∧ writer_ok w' ∧ writer_bits w' = writer_bits w ++ bits_be 11 v.
Proof.
  intros Hw. unfold write_u11.
  destruct (fill_partial_spec w v Hw) as (bs & r & -> & Hr & Hb & Hf).
  cbn [mbind outcome_bind w_bytes unused buffer].
  destruct (push_full_spec (Z.to_nat (Z.of_nat r)) bs r v Hb ltac:(lia)) as (bs' & r' & -> & Hr' & Hb' & Hf').
  rewrite <- Hf, <- Hf'. destruct (Z.ltb_spec 0 (Z.of_nat r')).
  - rewrite mask_spec by lia. cbn [mbind outcome_bind]. eexists. split; [done|].
    assert (Hu : u16_wrap (8 - Z.of_nat r') = 8 - Z.of_nat r')
      by (unfold u16_wrap; apply Z.mod_small; lia).
    rewrite Hu, Z.shiftl_0_l. change (u16_wrap 0) with 0. rewrite Z.lor_0_l, Z.land_ones by lia.
    split; [split; [done|]; cbn [unused buffer]; split; [lia|]|].
    + replace (8 - (8 - Z.of_nat r')) with (Z.of_nat r') by lia. apply Z.mod_pos_bound. lia.
    + unfold writer_bits. cbn [w_bytes unused buffer].
      replace (Z.to_nat (8 - (8 - Z.of_nat r'))) with r' by lia. by rewrite bits_be_mod by lia.
  - assert (r' = O) as -> by lia. eexists. split; [done|]. split.
    + split; [done|]. by cbn.
    + done.
Qed.

(** ** Encoding words *)
Definition idx_bits (idxs : list nat) : list bool := (Z.of_nat <$> idxs) ≫= bits_be 11.

Lemma idx_bits_length idxs : length (idx_bits idxs) = (11 * length idxs)%nat.
Proof.
  unfold idx_bits. induction idxs as [|i idxs IH]; [done|].
  rewrite fmap_cons, bind_cons, length_app, IH, bits_be_length. cbn [length]. lia.
Qed.

Lemma write_words_ok words acc w m w' :
  writer_ok w → write_words words acc w = Ok (m, w') →
  ∃ idxs, Forall2 (fun x i => WORDS !! i = Some x) words idxs ∧ m = acc ++ words ∧
    writer_ok w' ∧ writer_bits w' = writer_bits w ++ idx_bits idxs.
Proof.
  revert acc w. induction words as [|x words IH]; intros acc w Hw Hm; cbn [write_words] in Hm.
  { injection Hm as <- <-. exists []. rewrite !app_nil_r. by split. }
  destruct (binary_search WORDS x) as [i|] eqn:Ei; [|done].
  apply binary_search_WORDS in Ei. rewrite Ei in Hm. cbn [expect_opt mbind outcome_bind] in Hm.
  destruct (write_u11_spec w (u16_wrap (Z.of_nat i)) Hw) as (w1 & H1 & Hw1 & Hb1).
  rewrite H1 in Hm. cbn [mbind outcome_bind] in Hm.
  destruct (IH _ _ Hw1 Hm) as (idxs & HF & -> & Hw' & Hb'). exists (i :: idxs).
  split; [by constructor|]. rewrite <- (assoc_L (++)). split; [done|]. split; [done|].
  rewrite Hb', Hb1, <- (assoc_L (++)). do 2 f_equal.
  apply WORDS_index in Ei. unfold u16_wrap. by rewrite Z.mod_small by lia.
Qed.

Lemma write_words_complete words idxs acc w :
  writer_ok w → Forall2 (fun x i => WORDS !! i = Some x) words idxs →
  ∃ w', write_words words acc w = Ok (acc ++ words, w').
Proof.
  intros Hw HF. revert acc w Hw. induction HF as [|x i words idxs Hx HF IH]; intros acc w Hw; cbn [write_words].
  { exists w. by rewrite app_nil_r. }
  rewrite (proj2 (binary_search_WORDS x i) Hx), Hx. cbn [expect_opt mbind outcome_bind].
  destruct (write_u11_spec w (u16_wrap (Z.of_nat i)) Hw) as (w1 & -> & Hw1 & _).
  cbn [mbind outcome_bind]. destruct (IH (acc ++ [x]) w1 Hw1) as [w' Hw'].
  exists w'. by rewrite <- (assoc_L (++)) in Hw'.
Qed.

Lemma write_words_no_panic words acc w p :
  writer_ok w → write_words words acc w ≠ Panic p.
Proof.
  revert acc w. induction words as [|x words IH]; intros acc w Hw; cbn [write_words]; [done|].
  destruct (binary_search WORDS x) as [i|] eqn:Ei; [|done].
  apply binary_search_WORDS in Ei. rewrite Ei. cbn [expect_opt mbind outcome_bind].
  destruct (write_u11_spec w (u16_wrap (Z.of_nat i)) Hw) as (w1 & -> & Hw1 & _). by apply IH.
Qed.

(** ** Mnemonic::from *)
Lemma split_last_snoc bs b : split_last (bs ++ [b]) = Some (b, bs).
Proof. unfold split_last. rewrite rev_app_distr. cbn. by rewrite rev_involutive. Qed.

Lemma digest0_spec e :
  ∃ d, digest0 e = Ok d ∧ is_u8 d ∧ take 1 (sha256 e) = [d].
Proof.
  destruct (sha256_law e) as [Hl Hb]. unfold digest0.
  destruct (sha256 e) as [|d l]; [done|]. apply Forall_cons in Hb as [Hd _]. by exists d.
Qed.

Lemma checksum_bits_spec e d q :
  take 1 (sha256 e) = [d] → length e = (4 * q)%nat → (q ≤ 8)%nat →
  checksum_bits e = bits_be q (Z.shiftr d (8 - Z.of_nat q)).
Proof.
  intros Hd Hl Hq. unfold checksum_bits. rewrite Hd, Hl.
  replace (4 * q / 4)%nat with q by (rewrite Nat.mul_comm, Nat.div_mul; lia).
  unfold flat. rewrite bind_cons. cbn [mbind list_bind]. rewrite app_nil_r.
  replace 8%nat with (q + (8 - q))%nat at 1 by lia. rewrite bits_be_app.
  rewrite (firstn_app_exact (bits_be q _)) by (by rewrite bits_be_length). do 2 f_equal. lia.
Qed.

Lemma write_buffer_spec w q :
  writer_ok w → (4 ≤ q ≤ 8)%nat → length (writer_bits w) = (33 * q)%nat →
  ∃ entropy c, write_buffer w = entropy ++ [c] ∧ is_bytes entropy ∧ length entropy = (4 * q)%nat ∧
    0 ≤ c < 2 ^ Z.of_nat q ∧ flat entropy ++ bits_be q c = writer_bits w.
Proof.
  destruct w as [bs u buf]. intros (Hb & Hu & Hr) Hq. unfold writer_bits, write_buffer.
  cbn [w_bytes unused buffer] in *. rewrite length_app, flat_length, bits_be_length. intros Hlen.
  destruct (Z.eqb_spec u 8) as [->|Hne].
  - change (Z.to_nat (8 - 8)) with O in *. assert (q = 8%nat) as -> by lia.
    destruct (rev bs) as [|c r] eqn:E; apply (f_equal (@rev Z)) in E; rewrite rev_involutive in E; subst bs;
      [cbn in Hlen; lia|]. cbn [rev] in *. rewrite length_app in Hlen. cbn [length] in Hlen.
    apply Forall_app in Hb as [Hb Hc]. apply Forall_cons in Hc as [Hc _].
    exists (rev r), c. split; [done|]. split; [done|]. split; [lia|]. split; [done|].
    rewrite flat_app. unfold flat at 3. rewrite bind_cons. cbn [mbind list_bind]. by rewrite !app_nil_r.
  - assert (q = Z.to_nat (8 - u)) as -> by lia.
    assert (Hw : u8_wrap buf = buf).
    { apply Z.mod_small. assert (2 ^ (8 - u) ≤ 2 ^ 8) by (apply Z.pow_le_mono_r; lia). lia. }
    exists bs, buf. rewrite Hw. split; [done|]. split; [done|]. split; [lia|].
    split; [|done]. by rewrite Z2Nat.id by lia.
Qed.

Lemma valid_word_count_spec n :
  valid_word_count n = true ↔ ∃ q, (4 ≤ q ≤ 8)%nat ∧ n = (3 * q)%nat.
Proof.
  unfold valid_word_count. rewrite !andb_true_iff, !Nat.leb_le, Nat.eqb_eq. split.
  - intros [[H1 H2] H3]. exists (n / 3)%nat. pose proof (Nat.div_mod n 3). lia.
  - intros (q & Hq & ->). split; [lia|]. rewrite Nat.mul_comm. by apply Nat.Div0.mod_mul.
Qed.

Lemma valid_entropy_len_spec n :
  valid_entropy_len n = true ↔ ∃ q, (4 ≤ q ≤ 8)%nat ∧ n = (4 * q)%nat.
Proof.
  unfold valid_entropy_len. rewrite !andb_true_iff, !Nat.leb_le, Nat.eqb_eq. split.
  - intros [[H1 H2] H3]. exists (n / 4)%nat. pose proof (Nat.div_mod n 4). lia.
  - intros (q & Hq & ->). split; [lia|]. rewrite Nat.mul_comm. by apply Nat.Div0.mod_mul.
Qed.

(** What [from] does once every word is in the list *)
Lemma from_core s q idxs :
  length (split_char " " s) = (3 * q)%nat → (4 ≤ q ≤ 8)%nat →
  Forall2 (fun x i => WORDS !! i = Some x) (split_char " " s) idxs →
  ∃ entropy c, is_bytes entropy ∧ length entropy = (4 * q)%nat ∧
    length c = q ∧ flat entropy ++ c = idx_bits idxs ∧
    from s = if decide (c = checksum_bits entropy) then Ok (split_char " " s)
             else Err "Mnemonic checksum failed".
Proof.
  intros Hlen Hq HF. unfold from.
  rewrite (proj2 (valid_word_count_spec (length (split_char " " s)))) by eauto. cbn [negb].
  pose proof writer_new_ok as Hnew.
  destruct (write_words_complete _ idxs [] _ Hnew HF) as [w Hw]. rewrite Hw.
  cbn [mbind outcome_bind].
  destruct (write_words_ok _ _ _ _ _ Hnew Hw) as (idxs' & HF' & _ & Hok & Hbits).
  assert (idxs' = idxs) as ->.
  { clear -HF HF'. revert idxs' HF'. induction HF as [|x i xs ks Hx HF IH]; intros idxs' HF';
      inversion HF' as [|? i' ? ks' Hx' HF2]; subst; [done|]. f_equal; [|by apply IH].
    apply (binary_search_WORDS x) in Hx, Hx'. congruence. }
  change (writer_bits writer_new) with (@nil bool) in Hbits. rewrite app_nil_l in Hbits.
  assert (Hl : length (writer_bits w) = (33 * q)%nat).
  { rewrite Hbits, idx_bits_length, <- (Forall2_length _ _ _ HF), Hlen. lia. }
  destruct (write_buffer_spec w q Hok Hq Hl) as (entropy & c & -> & Hb & Hle & Hc & Hf).
  rewrite split_last_snoc. cbn [expect_opt mbind outcome_bind app].
  destruct (digest0_spec entropy) as (d & -> & Hd & Ht). cbn [mbind outcome_bind].
  exists entropy, (bits_be q c). split; [done|]. split; [done|]. split; [apply bits_be_length|].
  split; [by rewrite Hf, Hbits|].
  rewrite (checksum_bits_spec entropy d q) by (first [done|lia]).
  rewrite Hlen. replace (3 * q / 3)%nat with q by (rewrite Nat.mul_comm, Nat.div_mul; lia).
  assert (Hs : 0 ≤ Z.shiftr d (8 - Z.of_nat q) < 2 ^ Z.of_nat q).
  { rewrite Z.shiftr_div_pow2 by lia. unfold is_u8 in Hd. split; [apply Z.div_pos; lia|].
    apply Z.div_lt_upper_bound; [lia|]. rewrite <- Z.pow_add_r by lia.
    replace (8 - Z.of_nat q + Z.of_nat q) with 8 by lia. lia. }
  destruct (Z.eqb_spec c (Z.shiftr d (8 - Z.of_nat q))) as [->|Hne].
  - by rewrite decide_True.
  - rewrite decide_False; [done|]. intros Heq. apply Hne.
    rewrite <- (of_bits_be q c), <- (of_bits_be q (Z.shiftr _ _)) by done. by rewrite Heq.
Qed.

Lemma encodes_length m bits : encodes m bits → length bits = (11 * length m)%nat.
Proof.
  intros (idxs & HF & <-). by rewrite (Forall2_length _ _ _ HF), <- idx_bits_length.
Qed.

Lemma encodes_inj m1 m2 bits : encodes m1 bits → encodes m2 bits → m1 = m2.
Proof.
  intros H1 H2. pose proof (encodes_length _ _ H1) as L1. pose proof (encodes_length _ _ H2) as L2.
  destruct H1 as (i1 & F1 & B1), H2 as (i2 & F2 & B2).
  assert (Hin : ∀ m i, Forall2 (fun x i => WORDS !! i = Some x) m i →
                  Forall (fun z => 0 ≤ z < 2 ^ Z.of_nat 11) (Z.of_nat <$> i)).
  { intros m i HF. apply Forall_fmap. induction HF as [|x k m i Hx HF IH]; constructor; [|done].
    apply WORDS_index in Hx. cbn. lia. }
  assert (i1 = i2) as ->.
  { apply (inj (fmap Z.of_nat)). apply (chunks_inj 11); eauto.
    - rewrite !length_fmap, <- (Forall2_length _ _ _ F1), <- (Forall2_length _ _ _ F2). lia.
    - by rewrite B1. }
  clear -F1 F2. revert m2 F2. induction F1 as [|x i m1 i2 Hx F1 IH]; intros m2 F2;
    inversion F2; subst; [done|]. f_equal; [congruence|by apply IH].
Qed.

Lemma bip39_bits_length e q :
  length e = (4 * q)%nat → (q ≤ 8)%nat → length (bip39_bits e) = (33 * q)%nat.
Proof.
  intros Hl Hq. destruct (digest0_spec e) as (d & _ & _ & Hd). unfold bip39_bits.
  rewrite (checksum_bits_spec e d q), length_app, flat_length, bits_be_length by done. lia.
Qed.

Lemma from_sound s m :
  from s = Ok m →
  s = to_string m ∧ ∃ e, is_bytes e ∧ valid_entropy_len (length e) = true ∧ encodes m (bip39_bits e).
Proof.
  intros Hf. pose proof Hf as Hf'. unfold from in Hf'.
  destruct (valid_word_count _) eqn:Hv; [|done]. cbn [negb] in Hf'.
  apply valid_word_count_spec in Hv as (q & Hq & Hlen).
  apply bind_ok in Hf' as ([m' w] & Hw & _).
  destruct (write_words_ok _ _ _ _ _ writer_new_ok Hw) as (idxs & HF & _ & _ & _).
  destruct (from_core s q idxs Hlen Hq HF) as (e & c & Hb & Hle & Hlc & Hbits & Heq).
  rewrite Heq in Hf. destruct (decide _) as [->|]; [|done]. injection Hf as <-.
  split; [symmetry; apply join_split|]. exists e. split; [done|].
  split; [apply valid_entropy_len_spec; eauto|]. by exists idxs.
Qed.

Lemma encodes_no_space m bits :
  encodes m bits → Forall (fun w => no_char (Ascii.eqb " ") w = true) m.
Proof.
  intros (idxs & HF & _). pose proof WORDS_no_space as Hn. rewrite forallb_forall in Hn.
  clear bits. induction HF as [|x i m idxs Hx HF IH]; constructor; [|done].
  apply Hn, list_elem_of_In. by eapply list_elem_of_lookup_2.
Qed.

Lemma from_complete m e :
  is_bytes e → valid_entropy_len (length e) = true → encodes m (bip39_bits e) →
  from (to_string m) = Ok m.
Proof.
  intros Hb (q & Hq & Hle)%valid_entropy_len_spec He.
  pose proof (encodes_length _ _ He) as Hl. rewrite (bip39_bits_length e q) in Hl by (done || lia).
  assert (Hs : split_char " " (to_string m) = m).
  { apply split_join; [intros ->; cbn in Hl; lia|by eapply encodes_no_space]. }
  destruct He as (idxs & HF & Hbits).
  destruct (from_core (to_string m) q idxs) as (e' & c & Hb' & Hle' & Hlc & Hbits' & Heq).
  { rewrite Hs. lia. } { done. } { by rewrite Hs. }
  rewrite Hs in Heq. rewrite Heq. unfold idx_bits in Hbits'. rewrite <- Hbits' in Hbits.
  unfold bip39_bits in Hbits. apply app_inj_1 in Hbits as [Hfl Hc].
  2: { rewrite !flat_length. lia. }
  apply flat_inj in Hfl as <-; [|done|done]. by rewrite decide_True by done.
Qed.

(** ** Mnemonic::new *)
Lemma encodes_cons w i m bits :
  WORDS !! i = Some w → encodes m bits → encodes (w :: m) (bits_be 11 (Z.of_nat i) ++ bits).
Proof. intros Hw (idxs & HF & <-). exists (i :: idxs). split; [by constructor|done]. Qed.

Lemma read_words_spec n bs i :
  is_bytes bs → (i + 11 * n ≤ length (flat bs))%nat → Z.of_nat (i + 11 * n) < 65536 →
  ∃ m, read_words n (mk_reader bs (Z.of_nat i)) = Ok m ∧
    encodes m (take (11 * n) (drop i (flat bs))).
Proof.
  intros Hb. revert i. induction n as [|n IH]; intros i Hi Hr; cbn [read_words].
  { exists []. split; [done|]. by exists []. }
  rewrite read_u11_spec by (first [done|lia]). cbn [mbind outcome_bind].
  set (c := take 11 (drop i (flat bs))).
  assert (Hc : length c = 11%nat) by (unfold c; rewrite length_take, length_drop; lia).
  pose proof (of_bits_range c) as Hv. rewrite Hc in Hv.
  destruct (lookup_lt_is_Some_2 WORDS (Z.to_nat (of_bits c))) as [w Hw].
  { rewrite WORDS_length. cbn in Hv. lia. }
  rewrite Hw. cbn [expect_opt mbind outcome_bind].
  destruct (IH (i + 11)%nat) as (m & -> & Hm); [lia|lia|]. cbn [mbind outcome_bind].
  exists (w :: m). split; [done|].
  replace (11 * S n)%nat with (11 + 11 * n)%nat by lia.
  rewrite <- take_take_drop, drop_drop. fold c.
  replace c with (bits_be 11 (Z.of_nat (Z.to_nat (of_bits c)))) at 1.
  - by apply encodes_cons.
  - rewrite Z2Nat.id by lia. rewrite <- Hc at 1. apply bits_be_of.
Qed.

Lemma new_ok e :
  is_bytes e → valid_entropy_len (length e) = true →
  ∃ m, new e = Ok m ∧ encodes m (bip39_bits e).
Proof.
  intros Hb Hv. unfold new. rewrite Hv. cbn [negb].
  apply valid_entropy_len_spec in Hv as (q & Hq & Hl).
  destruct (digest0_spec e) as (d & -> & Hd & Ht). cbn [mbind outcome_bind]. rewrite Hl.
  replace (4 * q * 3 / 4)%nat with (3 * q)%nat
    by (replace (4 * q * 3)%nat with (3 * q * 4)%nat by lia; rewrite Nat.div_mul; lia).
  assert (Hbs : is_bytes (e ++ [d])) by (apply Forall_app; split; [done|by constructor]).
  destruct (read_words_spec (3 * q) (e ++ [d]) 0) as (m & Hm & Hen); [done| | |].
  { rewrite flat_length, length_app. cbn [length]. lia. } { lia. }
  exists m. split; [exact Hm|]. rewrite drop_0, flat_app in Hen.
  unfold bip39_bits. unfold checksum_bits. rewrite Ht, Hl.
  replace (4 * q / 4)%nat with q by (rewrite Nat.mul_comm, Nat.div_mul; lia).
  rewrite take_app_ge in Hen by (rewrite flat_length; lia).
  rewrite flat_length in Hen. by replace (11 * (3 * q) - 8 * length e)%nat with q in Hen by lia.
Qed.

Lemma new_valid e m : new e = Ok m → valid_entropy_len (length e) = true.
Proof. unfold new. by destruct (valid_entropy_len _). Qed.

Lemma bip39_bits_inj e1 e2 :
  is_bytes e1 → is_bytes e2 → valid_entropy_len (length e1) = true →
  valid_entropy_len (length e2) = true → bip39_bits e1 = bip39_bits e2 → e1 = e2.
Proof.
  intros H1 H2 (q1 & Hq1 & L1)%valid_entropy_len_spec (q2 & Hq2 & L2)%valid_entropy_len_spec Heq.
  pose proof (f_equal length Heq) as Hl.
  rewrite (bip39_bits_length e1 q1), (bip39_bits_length e2 q2) in Hl by (done || lia).
  unfold bip39_bits in Heq. apply app_inj_1 in Heq as [Heq _]; [by apply flat_inj|].
  rewrite !flat_length. lia.
Qed.

Lemma from_no_panic s p : from s ≠ Panic p.
Proof.
  unfold from. destruct (valid_word_count _) eqn:Hv; [|done]. cbn [negb].
  destruct (write_words _ _ _) as [[m w]|e|p'] eqn:Hw; cbn [mbind outcome_bind]; [|done|].
  2: { by apply write_words_no_panic in Hw; [|apply writer_new_ok]. }
  apply valid_word_count_spec in Hv as (q & Hq & Hlen).
  destruct (write_words_ok _ _ _ _ _ writer_new_ok Hw) as (idxs & HF & _ & Hok & Hbits).
  destruct (write_buffer_spec w q Hok Hq) as (e & c & -> & _).
  { rewrite Hbits. change (writer_bits writer_new) with (@nil bool).
    rewrite app_nil_l, idx_bits_length, <- (Forall2_length _ _ _ HF). lia. }
  rewrite split_last_snoc. cbn [expect_opt mbind outcome_bind].
  destruct (digest0_spec e) as (d & -> & _). cbn [mbind outcome_bind]. by destruct (_ =? _).
Qed.

(** ** Properties *)

(** C30: [Mnemonic::from] accepts exactly the texts that [Mnemonic::new] produces
    from some entropy, and gives back that mnemonic; it never panics, so every
    other text is an error. *)
Theorem mnemonic_from_spec s :
  (∀ m, from s = Ok m ↔ ∃ entropy, is_bytes entropy ∧ new entropy = Ok m ∧ s = to_string m) ∧
  (∀ p, from s ≠ Panic p).
Proof.
  split; [|apply from_no_panic]. intros m. split.
  - intros Hf. destruct (from_sound s m Hf) as (Hs & e & Hb & Hv & He).
    exists e. split; [done|]. split; [|done].
    destruct (new_ok e Hb Hv) as (m' & -> & He'). f_equal. by apply (encodes_inj m' m (bip39_bits e)).
  - intros (e & Hb & Hn & ->). pose proof (new_valid _ _ Hn) as Hv.
    destruct (new_ok e Hb Hv) as (m' & Hn' & He). rewrite Hn in Hn'. apply Ok_inj in Hn' as ->.
    by apply (from_complete m' e).
Qed.

(** [Mnemonic::new] succeeds exactly on 16, 20, 24, 28 or 32 bytes; the
    words are three per four bytes, spell in groups of eleven bits the entropy
    followed by the first bit of its SHA-256 per 32 bits, and determine the
    entropy. *)
Theorem mnemonic_new_spec entropy :
  is_bytes entropy →
  (is_ok (new entropy) = true ↔ length entropy ∈ [16; 20; 24; 28; 32]%nat) ∧
  (∀ m, new entropy = Ok m →
     length m = (length entropy * 3 / 4)%nat ∧
     encodes m (flat entropy ++ take (length entropy / 4) (flat (take 1 (sha256 entropy)))) ∧
     ∀ entropy', is_bytes entropy' → new entropy' = Ok m → entropy' = entropy).
Proof.
  intros Hb. split.
  - assert (Hv : valid_entropy_len (length entropy) = true ↔ length entropy ∈ [16; 20; 24; 28; 32]%nat).
    { rewrite valid_entropy_len_spec, !elem_of_cons, elem_of_nil. split.
      - intros (q & Hq & ->). lia.
      - intros [->|[->|[->|[->|[->|[]]]]]];
          [exists 4%nat|exists 5%nat|exists 6%nat|exists 7%nat|exists 8%nat]; lia. }
    rewrite <- Hv. split; [intros (m & Hm)%is_ok_spec; by eapply new_valid|].
    intros Ho. destruct (new_ok entropy Hb Ho) as (m & -> & _). done.
  - intros m Hm. pose proof (new_valid _ _ Hm) as Hv.
    destruct (new_ok entropy Hb Hv) as (m' & Hn & He). rewrite Hm in Hn. apply Ok_inj in Hn as <-.
    split; [|split; [exact He|]].
    + pose proof (encodes_length _ _ He) as Hl.
      apply valid_entropy_len_spec in Hv as (q & Hq & Hle).
      rewrite (bip39_bits_length entropy q) in Hl by (done || lia). rewrite Hle.
      replace (4 * q * 3)%nat with (3 * q * 4)%nat by lia. rewrite Nat.div_mul; lia.
    + intros e' Hb' Hm'. pose proof (new_valid _ _ Hm') as Hv'.
      destruct (new_ok e' Hb' Hv') as (m' & Hn & He'). rewrite Hm' in Hn. apply Ok_inj in Hn as <-.
      apply bip39_bits_inj; [done..|]. destruct He as (i1 & F1 & <-), He' as (i2 & F2 & <-).
      f_equal. f_equal. revert i2 F2. clear -F1.
      induction F1 as [|x i m i1 Hx F1 IH]; intros i2 F2; inversion F2 as [|? j ? ? Hj]; subst; [done|].
      f_equal; [|by apply IH]. apply (binary_search_WORDS x) in Hx, Hj. congruence.
Qed.

(** a mnemonic made from entropy and saved to a file is what reading that
    file gives; saving changes no other file, and never replaces a directory. *)
Theorem mnemonic_file_roundtrip entropy m p fs fs' :
  is_bytes entropy → new entropy = Ok m → write m p fs = Ok fs' →
  read p fs' = Ok m ∧ (∀ q, q ≠ p → fs' !! q = fs !! q) ∧ fs !! p ≠ Some Dir.
Proof.
  intros Hb Hn Hw. pose proof (new_valid _ _ Hn) as Hv.
  destruct (new_ok entropy Hb Hv) as (m' & Hn' & He). rewrite Hn in Hn'. apply Ok_inj in Hn' as <-.
  unfold write in Hw. destruct (_ && _) eqn:Ed; [done|].
  destruct (file_create p fs) as [fs1|e|msg] eqn:Ec; [|done..]. cbn [mbind outcome_bind] in Hw.
  apply Ok_inj in Hw as <-. destruct (create_write_ok p (to_string m) fs fs1 Ec) as (Hp & Hq & Hd).
  split; [|done]. unfold read, exists_, is_file, read_to_string. rewrite Hp.
  rewrite bool_decide_true by done. cbn [andb mbind outcome_bind]. by apply (from_complete m entropy).
Qed.

End mnemonic.

(** ** Witnesses, with a digest that starts like the one of sixteen zeros *)
Definition sample_sha : Sha256.
Proof. refine {| sha256 bs := repeat 55 32 |}. intros bs. by apply (bool_decide_unpack _). Defined.

Definition sample_mnemonic : Mnemonic := repeat "abandon"%string 11 ++ ["about"%string].

Example new_zeros : let s := sample_sha in new (repeat 0 16) = Ok sample_mnemonic.
Proof. vm_compute. reflexivity. Qed.

Lemma mnemonic_from_spec_witness :
  let s := sample_sha in
  (∀ m, from (to_string sample_mnemonic) = Ok m ↔
     ∃ entropy, is_bytes entropy ∧ new entropy = Ok m ∧ to_string sample_mnemonic = to_string m) ∧
  (∀ p, from (to_string sample_mnemonic) ≠ Panic p).
Proof. intros s. apply mnemonic_from_spec. Defined.

Example from_accepts : let s := sample_sha in from (to_string sample_mnemonic) = Ok sample_mnemonic.
Proof. vm_compute. reflexivity. Qed.
Example from_rejects :
  let s := sample_sha in
  from (to_string (repeat "abandon"%string 12)) = Err "Mnemonic checksum failed".
Proof. vm_compute. reflexivity. Qed.

Lemma mnemonic_new_spec_witness :
  let s := sample_sha in
  (is_ok (new (repeat 0 16)) = true ↔ length (repeat 0 16) ∈ [16; 20; 24; 28; 32]%nat) ∧
  (∀ m, new (repeat 0 16) = Ok m →
     length m = (length (repeat 0 16) * 3 / 4)%nat ∧
     encodes m (flat (repeat 0 16) ++
                take (length (repeat 0 16) / 4) (flat (take 1 (sha256 (repeat 0 16))))) ∧
     ∀ entropy', is_bytes entropy' → new entropy' = Ok m → entropy' = repeat 0 16).
Proof. intros s. apply mnemonic_new_spec. by apply (bool_decide_unpack _). Defined.

Definition sample_fs : file_system := {[ []%list := Dir; ["notes"%string] := File "x" ]}.

Lemma mnemonic_file_roundtrip_witness :
  let s := sample_sha in
  ∃ fs', write sample_mnemonic ["mnem"%string] sample_fs = Ok fs' ∧
  read ["mnem"%string] fs' = Ok sample_mnemonic ∧
  (∀ q, q ≠ ["mnem"%string] → fs' !! q = sample_fs !! q) ∧ sample_fs !! ["mnem"%string] ≠ Some Dir.
Proof.
  intros s. eexists. split; [vm_compute; reflexivity|].
  apply (mnemonic_file_roundtrip (repeat 0 16) sample_mnemonic ["mnem"%string] sample_fs);
    [by apply (bool_decide_unpack _)|vm_compute; reflexivity|vm_compute; reflexivity].
Defined.
