(* ===== verification/Wallet.v ===== *)
(** * tools/wallet: key derivation, the wallet and the legacy key chain

    core/key_factory.rs, core/wallet_library.rs, core/legacy_scheme.rs,
    load_keys.rs and account_keys.rs: from a mnemonic to numbered child keys,
    the map from addresses to child numbers, and the six keys of an account. *)
From Stdlib Require Import ZArith Lia Ascii.
From stdpp Require Import base option list strings gmap.
From S2P Require Import Prelude RustStr Bytes MoveTypes Mnemonic.

Open Scope list_scope.
Open Scope Z_scope.

(** The cryptography: PBKDF2 and HKDF over SHA3-256, ed25519 keys (32 bytes,
    any of which are a private key), authentication keys and the address each
    stands for.  HKDF refuses a seed of less than 16 bytes and an output of
    none or more than 255 digests. *)
Class WalletCrypto := {
  pbkdf2 : bytes → bytes → Z → bytes;
  hkdf_extract : option bytes → bytes → outcome bytes;
  hkdf_expand : bytes → option bytes → Z → outcome bytes;
  ed25519_try_from : bytes → outcome bytes;
  ed25519_public : bytes → bytes;
  auth_key_ed25519 : bytes → bytes;
  auth_key_to_string : bytes → string;
  auth_key_from_str : string → outcome bytes;
  derived_address : bytes → AccountAddress;
  pbkdf2_law pw salt n : is_array 32 (pbkdf2 pw salt n);
  hkdf_extract_law salt ikm :
    (16 ≤ length ikm)%nat → ∃ prk, hkdf_extract salt ikm = Ok prk ∧ is_array 32 prk;
  hkdf_expand_law prk info n :
    length prk = 32%nat → 0 < n ≤ 8160 →
    ∃ okm, hkdf_expand prk info n = Ok okm ∧ is_array (Z.to_nat n) okm;
  ed25519_law sk : length sk = 32%nat → ed25519_try_from sk = Ok sk;
  auth_key_law pk : is_array 32 (auth_key_ed25519 pk);
  auth_key_text_law k : is_array 32 k → auth_key_from_str (auth_key_to_string k) = Ok k;
  derived_address_law k : addr_wf (derived_address k)
}.

(** ** key_factory.rs *)
Notation ChildNumber := Z.
Notation Seed := bytes.
(** [KeyFactory] is its [Main]. *)
Notation KeyFactory := bytes.
Definition increment (n : ChildNumber) : ChildNumber := u64_add n 1.

Record ExtendedPrivKey := mk_ext { _child_number : ChildNumber; private_key : bytes }.

Definition MNEMONIC_SALT_PREFIX : bytes := str_bytes
  "0L WALLET: UNREST, FIRES, AND VIOLENCE AS PROTESTS RAGE ACROSS US: mnemonic salt prefix$".
Definition MAIN_KEY_SALT : bytes := str_bytes
  "0L WALLET: 30 MILLION AMERICANS HAVE FILED INITIAL UNEMPLOYMENT CLAIMS: master key salt$".
Definition INFO_PREFIX : bytes := str_bytes
  "0L WALLET: US DEATHS NEAR 100,000, AN INCALCULABLE LOSS: derived key$".

(** [Main::from]: [assert_eq!(data.len(), 32)] *)
Definition main_from (data : bytes) : outcome bytes :=
  rust_assert (length data =? 32)%nat "assertion failed: `(left == right)`";;
  Ok data.

(** ** wallet_library.rs *)
Record WalletLibrary := mk_wallet {
  mnemonic : Mnemonic;
  key_factory : KeyFactory;
  addr_map : gmap AccountAddress ChildNumber;
  key_leaf : ChildNumber
}.

(** ** legacy_scheme.rs and account_keys.rs *)
Record LegacyKeyScheme := mk_scheme {
  lk_child_0_owner : ExtendedPrivKey;
  lk_child_1_operator : ExtendedPrivKey;
  lk_child_2_val_network : ExtendedPrivKey;
  lk_child_3_fullnode_network : ExtendedPrivKey;
  lk_child_4_consensus : ExtendedPrivKey;
  lk_child_5_executor : ExtendedPrivKey
}.
Record AccountKeys := mk_account_keys { account : AccountAddress; auth_key : bytes; pri_key : bytes }.
Record KeyChain := mk_key_chain {
  kc_mnemonic : string;
  kc_seed : bytes;
  child_0_owner : AccountKeys;
  child_1_operator : AccountKeys;
  child_2_val_network : AccountKeys;
  child_3_fullnode_network : AccountKeys;
  child_4_consensus : AccountKeys;
  child_5_executor : AccountKeys
}.

Section wallet.
  Context `{WalletCrypto}.

Definition seed_new (m : Mnemonic) (salt : string) : Seed :=
  pbkdf2 (str_bytes (to_string m)) (MNEMONIC_SALT_PREFIX ++ str_bytes salt) 2048.

Definition key_factory_new (seed : Seed) : outcome KeyFactory :=
  hkdf ← hkdf_extract (Some MAIN_KEY_SALT) seed;
  rust_assert (32 <=? length hkdf)%nat "range end index out of range";;
  main_from (take 32 hkdf).

Definition private_child (kf : KeyFactory) (child : ChildNumber) : outcome ExtendedPrivKey :=
  let info := INFO_PREFIX ++ le_bytes 8 child in
  hkdf ← hkdf_expand kf (Some info) 32;
  sk ← context_res "Unable to convert hkdf output into private key" (ed25519_try_from hkdf);
  Ok (mk_ext child sk).

Definition get_public (k : ExtendedPrivKey) : bytes := ed25519_public (private_key k).
Definition get_authentication_key (k : ExtendedPrivKey) : bytes := auth_key_ed25519 (get_public k).
Definition get_address (k : ExtendedPrivKey) : AccountAddress := derived_address (get_authentication_key k).

Definition new_from_mnemonic (m : Mnemonic) : outcome WalletLibrary :=
  let seed := seed_new m "0L" in
  kf ← expect_res "called `Result::unwrap()` on an `Err` value" (key_factory_new seed);
  Ok (mk_wallet m kf ∅ 0).

(** The key is stored, and the leaf moved on, before the clash is reported. *)
Definition new_address (w : WalletLibrary) : WalletLibrary * outcome (bytes * ChildNumber) :=
  match private_child (key_factory w) (key_leaf w) with
  | Ok child =>
      let authentication_key := get_authentication_key child in
      let old_key_leaf := key_leaf w in
      let a := derived_address authentication_key in
      (mk_wallet (mnemonic w) (key_factory w) (<[a := old_key_leaf]> (addr_map w)) (increment old_key_leaf),
       match addr_map w !! a with
       | None => Ok (authentication_key, old_key_leaf)
       | Some _ => Err "This address is already in your wallet"
       end)
  | Err e => (w, Err e)
  | Panic p => (w, Panic p)
  end.

Definition new_address_at_child_number (w : WalletLibrary) (child_number : ChildNumber) : outcome AccountAddress :=
  child ← private_child (key_factory w) child_number;
  Ok (get_address child).

(** [while self.key_leaf != depth { let _ = self.new_address(); }]; [None] is
    out of fuel. *)
Fixpoint generate_loop (fuel : nat) (w : WalletLibrary) (depth : Z) : option (outcome WalletLibrary) :=
  match fuel with
  | O => None
  | S f =>
      if key_leaf w =? depth then Some (Ok w)
      else match new_address w with
           | (_, Panic p) => Some (Panic p)
           | (w', _) => generate_loop f w' depth
           end
  end.
(** On the error the wallet is unchanged. *)
Definition generate_addresses (fuel : nat) (w : WalletLibrary) (depth : Z) : option (outcome WalletLibrary) :=
  if depth <? key_leaf w then Some (Err "Addresses already generated up to the supplied depth")
  else generate_loop fuel w depth.

(** [it] is the iteration order of the hash map; [collect] keeps the last. *)
Definition rev_map (it : list (AccountAddress * ChildNumber)) : gmap Z AccountAddress :=
  foldl (fun m kv => <[snd kv := fst kv]> m) ∅ it.
Definition get_addresses (it : list (AccountAddress * ChildNumber)) (w : WalletLibrary)
    : outcome (list AccountAddress) :=
  mapM (fun i => match rev_map it !! i with
                 | Some account_address => Ok account_address
                 | None => Err "This address is already in your wallet"
                 end) (seqZ 0 (Z.of_nat (size (addr_map w)))).

Definition get_private_key (w : WalletLibrary) (address : AccountAddress) : outcome bytes :=
  match addr_map w !! address with
  | Some child => k ← private_child (key_factory w) child; Ok (private_key k)
  | None => Err "missing address"
  end.
Definition wallet_authentication_key (w : WalletLibrary) (address : AccountAddress) : outcome bytes :=
  match addr_map w !! address with
  | Some child => k ← private_child (key_factory w) child; Ok (get_authentication_key k)
  | None => Err "missing address"
  end.

(** ** load_keys.rs *)
Context `{Sha256}.

Definition get_account_from_mnem (mnemonic_string : string) : outcome (bytes * AccountAddress * WalletLibrary) :=
  m ← from (trim mnemonic_string);
  w ← new_from_mnemonic m;
  let '(w', r) := new_address w in
  '(auth_key, _) ← r;
  let account := derived_address auth_key in
  Ok (auth_key, account, w').
Definition get_account_from_wallet (w : WalletLibrary) : outcome (bytes * AccountAddress * WalletLibrary) :=
  get_account_from_mnem (to_string (mnemonic w)).

(** ** legacy_scheme.rs *)
Definition legacy_scheme_new (w : WalletLibrary) : outcome LegacyKeyScheme :=
  let kf := key_factory w in
  let child n := expect_res "called `Result::unwrap()` on an `Err` value" (private_child kf n) in
  c0 ← child 0; c1 ← child 1; c2 ← child 2; c3 ← child 3; c4 ← child 4; c5 ← child 5;
  Ok (mk_scheme c0 c1 c2 c3 c4 c5).

(** ** account_keys.rs *)
Context `{DiemAddress}.

Definition get_ol_legacy_address (addr : AccountAddress) : outcome AccountAddress :=
  rust_assert (16 <=? length addr)%nat "range start index out of range";;
  let leg_addr := fmt_02x (drop 16 addr) in
  let literal := "0x" +:+ ("0000000000000000" +:+ leg_addr) in
  context_opt "account address parse error" (addr_from_hex_literal literal).

Definition get_account_from_private (sk : bytes) : AccountKeys :=
  let pub_key := ed25519_public sk in
  let ak := auth_key_ed25519 pub_key in
  mk_account_keys (derived_address ak) ak sk.

Definition nth_key (s : LegacyKeyScheme) (n : Z) : outcome ExtendedPrivKey :=
  if n =? 0 then Ok (lk_child_0_owner s)
  else if n =? 1 then Ok (lk_child_1_operator s)
  else if n =? 2 then Ok (lk_child_2_val_network s)
  else if n =? 3 then Ok (lk_child_3_fullnode_network s)
  else if n =? 4 then Ok (lk_child_4_consensus s)
  else if n =? 5 then Ok (lk_child_5_executor s)
  else Panic "Invalid key index".

Definition get_account_from_nth (w : WalletLibrary) (n : Z) : outcome AccountKeys :=
  pri_keys ← legacy_scheme_new w;
  key ← nth_key pri_keys n;
  a ← context_opt "account address parse error"
        (addr_from_hex_literal (addr_to_hex_literal (get_address key)));
  k ← auth_key_from_str (auth_key_to_string (get_authentication_key key));
  sk ← ed25519_try_from (private_key key);
  Ok (mk_account_keys a k sk).

Definition key_chain_new (w : WalletLibrary) : outcome KeyChain :=
  c0 ← get_account_from_nth w 0;
  c1 ← get_account_from_nth w 1;
  c2 ← get_account_from_nth w 2;
  c3 ← get_account_from_nth w 3;
  c4 ← get_account_from_nth w 4;
  c5 ← get_account_from_nth w 5;
  Ok (mk_key_chain (to_string (mnemonic w)) (key_factory w) c0 c1 c2 c3 c4 c5).

Definition get_keys_from_mnem (mnem : string) : outcome KeyChain :=
  '(_, _, w) ← get_account_from_mnem mnem;
  key_chain_new w.

(** ** Specification: the key and the address of a child number *)
Definition child_key (kf : KeyFactory) (n : ChildNumber) : bytes :=
  match private_child kf n with Ok c => private_key c | _ => [] end.
Definition auth_of (kf : KeyFactory) (n : ChildNumber) : bytes :=
  auth_key_ed25519 (ed25519_public (child_key kf n)).
Definition addr_of (kf : KeyFactory) (n : ChildNumber) : AccountAddress := derived_address (auth_of kf n).

(** The map after the children below [n] were added in order *)
Definition addrs_below (kf : KeyFactory) (n : Z) : gmap AccountAddress ChildNumber :=
  foldl (fun m i => <[addr_of kf i := i]> m) ∅ (seqZ 0 n).

Definition wallet_inv (w : WalletLibrary) : Prop :=
  length (key_factory w) = 32%nat ∧ 0 ≤ key_leaf w ≤ u64_max ∧
  addr_map w = addrs_below (key_factory w) (key_leaf w).

(** ** Lemmas *)
Lemma private_child_ok kf n :
  length kf = 32%nat → private_child kf n = Ok (mk_ext n (child_key kf n)) ∧ is_array 32 (child_key kf n).
Proof.
  intros Hk. unfold child_key, private_child.
  destruct (hkdf_expand_law kf (Some (INFO_PREFIX ++ le_bytes 8 n)) 32 Hk ltac:(lia)) as (okm & -> & Ho).
  cbn [mbind outcome_bind]. rewrite (ed25519_law okm) by apply Ho.
  cbn [context_res mbind outcome_bind private_key]. by split.
Qed.

Lemma key_factory_new_ok m salt :
  ∃ kf, key_factory_new (seed_new m salt) = Ok kf ∧ length kf = 32%nat.
Proof.
  unfold key_factory_new, main_from.
  destruct (pbkdf2_law (str_bytes (to_string m)) (MNEMONIC_SALT_PREFIX ++ str_bytes salt) 2048) as [Hs _].
  destruct (hkdf_extract_law (Some MAIN_KEY_SALT) (seed_new m salt)) as (prk & -> & [Hl _]).
  { unfold seed_new. rewrite Hs. lia. }
  cbn [mbind outcome_bind]. rewrite Hl. cbn [Nat.leb rust_assert mbind outcome_bind].
  exists (take 32 prk). rewrite length_take, Hl. done.
Qed.

Lemma new_from_mnemonic_ok m :
  ∃ w, new_from_mnemonic m = Ok w ∧ wallet_inv w ∧ mnemonic w = m ∧ key_leaf w = 0 ∧
    key_factory_new (seed_new m "0L") = Ok (key_factory w).
Proof.
  unfold new_from_mnemonic. destruct (key_factory_new_ok m "0L") as (kf & -> & Hl).
  eexists. split; [reflexivity|]. by split.
Qed.

Lemma addrs_below_succ kf n :
  0 ≤ n → addrs_below kf (n + 1) = <[addr_of kf n := n]> (addrs_below kf n).
Proof.
  intros Hn. unfold addrs_below. replace (n + 1) with (Z.succ n) by lia.
  rewrite <- (Z2Nat.id n) by lia. rewrite <- Nat2Z.inj_succ, seqZ_S, foldl_app. cbn [foldl].
  by rewrite Z.add_0_l.
Qed.

Lemma addrs_below_lookup kf n a :
  0 ≤ n →
  match addrs_below kf n !! a with
  | Some i => 0 ≤ i < n ∧ a = addr_of kf i ∧ ∀ j, i < j < n → addr_of kf j ≠ a
  | None => ∀ i, 0 ≤ i < n → addr_of kf i ≠ a
  end.
Proof.
  intros Hn. pattern n. apply natlike_ind; [|clear n Hn; intros n Hn IH|done].
  - change (addrs_below kf 0) with (∅ : gmap AccountAddress ChildNumber). rewrite lookup_empty. lia.
  - rewrite <- Z.add_1_r, addrs_below_succ by done.
    destruct (decide (addr_of kf n = a)) as [Heq|Hne].
    + rewrite Heq, lookup_insert, decide_True by done. split; [lia|]. split; [done|]. lia.
    + rewrite lookup_insert_ne by done. destruct (addrs_below kf n !! a) as [i|].
      * destruct IH as (Hi & Ha & Hj). split; [lia|]. split; [done|]. intros j Hj'.
        destruct (decide (j = n)) as [->|]; [done|]. apply Hj. lia.
      * intros i Hi. destruct (decide (i = n)) as [->|]; [done|]. apply IH. lia.
Qed.

Lemma new_address_step w :
  wallet_inv w → key_leaf w < u64_max →
  ∃ r, new_address w = (mk_wallet (mnemonic w) (key_factory w)
         (addrs_below (key_factory w) (key_leaf w + 1)) (key_leaf w + 1), r) ∧
    (∀ p, r ≠ Panic p) ∧
    (addr_map w !! addr_of (key_factory w) (key_leaf w) = None →
     r = Ok (auth_of (key_factory w) (key_leaf w), key_leaf w)).
Proof.
  intros (Hk & Hl & Hm) Hlt. unfold new_address.
  destruct (private_child_ok (key_factory w) (key_leaf w) Hk) as [-> _].
  unfold get_authentication_key, get_public. cbn [private_key].
  fold (auth_of (key_factory w) (key_leaf w)). fold (addr_of (key_factory w) (key_leaf w)).
  rewrite addrs_below_succ by lia. unfold increment. rewrite u64_add_small by lia.
  rewrite Hm. eexists. split; [reflexivity|]. split; [|by intros ->].
  intros p. by destruct (_ !! _).
Qed.

Lemma generate_loop_spec k w depth fuel :
  wallet_inv w → depth ≤ u64_max → depth = key_leaf w + Z.of_nat k → (k < fuel)%nat →
  generate_loop fuel w depth =
    Some (Ok (mk_wallet (mnemonic w) (key_factory w) (addrs_below (key_factory w) depth) depth)).
Proof.
  revert w fuel. induction k as [|k IH]; intros w fuel Hw Hd Hk Hf;
    (destruct fuel as [|f]; [lia|]); cbn [generate_loop].
  - rewrite (proj2 (Z.eqb_eq (key_leaf w) depth)) by lia.
    destruct w as [m kf am lf], Hw as (_ & _ & Hm). cbn in *. subst. by rewrite Z.add_0_r.
  - destruct (Z.eqb_spec (key_leaf w) depth) as [|_]; [lia|].
    destruct (new_address_step w Hw ltac:(lia)) as (r & -> & Hp & _).
    destruct Hw as (Hl & Hr & Hm).
    destruct r as [x|e|p]; [| |by destruct (Hp p)];
      rewrite IH; cbn [mnemonic key_factory addr_map key_leaf]; try done; try lia;
      (split; [done|split; [cbn; lia|done]]).
Qed.

Lemma rev_map_lookup kf it i a :
  Forall (fun kv => fst kv = addr_of kf (snd kv)) it →
  rev_map it !! i = Some a ↔ (a, i) ∈ it.
Proof.
  intros Hit. unfold rev_map. induction it as [|[b j] it IH] using rev_ind.
  - cbn. rewrite lookup_empty. split; [done|]. by intros ?%not_elem_of_nil.
  - apply Forall_app in Hit as [Hit Hb]. apply Forall_cons in Hb as [Hb _]. cbn in Hb.
    rewrite foldl_app, elem_of_app, list_elem_of_singleton. cbn [foldl fst snd].
    destruct (decide (j = i)) as [->|Hne].
    + rewrite lookup_insert, decide_True by done. split; [intros [= ->]; by right|].
      intros [Hin|[= ->]]; [|done].
      apply (proj1 (Forall_forall _ _) Hit) in Hin. cbn in Hin. by rewrite Hb, Hin.
    + rewrite lookup_insert_ne, (IH Hit) by done. split; [by left|]. intros [?|[= -> ->]]; done.
Qed.

Lemma mapM_lookup_ok {A} (h : Z → option A) (g : Z → A) msg l :
  (∀ i, i ∈ l → h i = Some (g i)) →
  mapM (fun i => match h i with Some a => Ok a | None => Err msg end) l = Ok (g <$> l).
Proof.
  induction l as [|i l IH]; intros Hh; [done|]. cbn [mapM]. rewrite Hh by left.
  cbn [mbind outcome_bind]. rewrite IH by (intros; apply Hh; by right). done.
Qed.

Lemma mapM_lookup_err {A} (h : Z → option A) msg l i :
  i ∈ l → h i = None →
  mapM (fun i => match h i with Some a => Ok a | None => Err msg end) l = Err msg.
Proof.
  intros Hi Hn. induction l as [|j l IH]; [by apply not_elem_of_nil in Hi|]. cbn [mapM].
  apply elem_of_cons in Hi as [<-|Hi]; [by rewrite Hn|].
  destruct (h j); [|done]. cbn [mbind outcome_bind]. by rewrite (IH Hi).
Qed.

(** The values of the map: each child below the leaf that no later child
    collides with *)
Lemma addrs_below_some kf n i :
  0 ≤ i < n → (∀ j, i < j < n → addr_of kf j ≠ addr_of kf i) →
  addrs_below kf n !! addr_of kf i = Some i.
Proof.
  intros Hi Hj. pose proof (addrs_below_lookup kf n (addr_of kf i) ltac:(lia)) as Hl.
  destruct (_ !! _) as [k|]; [|by destruct (Hl i)].
  destruct Hl as (Hk & Ha & Hlast). f_equal.
  destruct (Z.lt_trichotomy k i) as [Hlt|[->|Hgt]]; [|done|].
  - by destruct (Hlast i ltac:(lia)).
  - by destruct (Hj k ltac:(lia)).
Qed.

Section addresses.
  Context (kf : KeyFactory) (n : Z) (it : list (AccountAddress * ChildNumber)).
  Context (Hn : 0 ≤ n) (Hit : it ≡ₚ map_to_list (addrs_below kf n)).

Lemma it_addr a i : (a, i) ∈ it → 0 ≤ i < n ∧ a = addr_of kf i.
Proof.
  rewrite Hit, elem_of_map_to_list. intros Ha.
  pose proof (addrs_below_lookup kf n a Hn) as Hl. rewrite Ha in Hl. naive_solver.
Qed.

Lemma rev_map_it i a : rev_map it !! i = Some a ↔ addrs_below kf n !! a = Some i.
Proof.
  rewrite (rev_map_lookup kf).
  - by rewrite Hit, elem_of_map_to_list.
  - apply Forall_forall. intros [a' i'] Hin. by apply it_addr in Hin as [_ ->].
Qed.

Lemma it_values_nodup : NoDup (it.*2).
Proof.
  apply NoDup_fmap_2_strong.
  - intros [a i] [b j] [_ ->]%it_addr [_ ->]%it_addr. by cbn; intros ->.
  - rewrite Hit. apply NoDup_map_to_list.
Qed.

Lemma it_length : length (it.*2) = size (addrs_below kf n).
Proof. by rewrite length_fmap, Hit, length_map_to_list. Qed.

Lemma it_values_sub : it.*2 ⊆+ seqZ 0 n.
Proof.
  apply NoDup_submseteq; [apply it_values_nodup|].
  intros i ([a i'] & -> & Hin)%list_elem_of_fmap. apply it_addr in Hin as [? _]. apply elem_of_seqZ. cbn. lia.
Qed.

Lemma size_le : (size (addrs_below kf n) ≤ Z.to_nat n)%nat.
Proof. rewrite <- it_length, <- (length_seqZ 0 n). apply submseteq_length, it_values_sub. Qed.

Lemma nodup_size :
  NoDup (addr_of kf <$> seqZ 0 n) →
  size (addrs_below kf n) = Z.to_nat n ∧
  ∀ i, 0 ≤ i < n → rev_map it !! i = Some (addr_of kf i).
Proof.
  intros Hnd.
  assert (Hr : ∀ i, 0 ≤ i < n → rev_map it !! i = Some (addr_of kf i)).
  { intros i Hi. apply rev_map_it, addrs_below_some; [done|]. intros j Hj Heq.
    assert (Hli : (addr_of kf <$> seqZ 0 n) !! Z.to_nat i = Some (addr_of kf i)).
    { rewrite list_lookup_fmap, lookup_seqZ_lt by lia. cbn. do 2 f_equal. lia. }
    assert (Hlj : (addr_of kf <$> seqZ 0 n) !! Z.to_nat j = Some (addr_of kf i)).
    { rewrite list_lookup_fmap, lookup_seqZ_lt by lia. cbn. rewrite <- Heq. do 2 f_equal. lia. }
    pose proof (NoDup_lookup _ _ _ _ Hnd Hli Hlj). lia. }
  split; [|done]. apply Nat.le_antisymm; [apply size_le|].
  rewrite <- it_length, <- (length_seqZ 0 n). apply submseteq_length, NoDup_submseteq; [apply NoDup_seqZ|].
  intros i [Hi1 Hi2]%elem_of_seqZ. specialize (Hr i ltac:(lia)).
  apply rev_map_it in Hr. apply list_elem_of_fmap. exists (addr_of kf i, i). split; [done|].
  by rewrite Hit, elem_of_map_to_list.
Qed.

(** A full reverse map means that no two children collide. *)
Lemma no_hole_nodup :
  (∀ i, 0 ≤ i < Z.of_nat (size (addrs_below kf n)) → rev_map it !! i ≠ None) →
  NoDup (addr_of kf <$> seqZ 0 n).
Proof.
  intros Hfull. destruct (Z.eq_dec n 0) as [->|Hnz]; [constructor|].
  assert (Hin : ∀ i, rev_map it !! i ≠ None → i ∈ it.*2).
  { intros i Hi. destruct (rev_map it !! i) as [a|] eqn:E; [|done]. apply rev_map_it in E.
    apply list_elem_of_fmap. exists (a, i). split; [done|]. by rewrite Hit, elem_of_map_to_list. }
  assert (Hlast : n - 1 ∈ it.*2).
  { apply Hin. rewrite (proj2 (rev_map_it (n - 1) (addr_of kf (n - 1)))); [done|].
    apply addrs_below_some; lia. }
  assert (Hsize : size (addrs_below kf n) = Z.to_nat n).
  { pose proof size_le. destruct (decide (size (addrs_below kf n) = Z.to_nat n)) as [|Hne]; [done|].
    exfalso. assert (Hsub : seqZ 0 (Z.of_nat (size (addrs_below kf n))) ++ [n - 1] ⊆+ it.*2).
    { apply NoDup_submseteq.
      - apply NoDup_app. split; [apply NoDup_seqZ|]. split; [|apply NoDup_singleton].
        intros i [Hi1 Hi2]%elem_of_seqZ ->%list_elem_of_singleton. lia.
      - intros i [[Hi1 Hi2]%elem_of_seqZ| ->%list_elem_of_singleton]%elem_of_app; [|done].
        apply Hin, Hfull. lia. }
    apply submseteq_length in Hsub. rewrite it_length, length_app, length_seqZ in Hsub. cbn in Hsub. lia. }
  apply NoDup_fmap_2_strong; [|apply NoDup_seqZ].
  assert (Hle : ∀ i j, 0 ≤ i < n → 0 ≤ j < n → addr_of kf i = addr_of kf j → j ≤ i).
  { intros i j Hi Hj Heq. destruct (Z.le_gt_cases j i) as [|Hgt]; [done|].
    specialize (Hfull i ltac:(lia)). destruct (rev_map it !! i) as [a|] eqn:E; [|done].
    apply rev_map_it in E. pose proof (addrs_below_lookup kf n a Hn) as Hl. rewrite E in Hl.
    destruct Hl as (_ & -> & Hl). by destruct (Hl j ltac:(lia)). }
  intros i j [Hi1 Hi2]%elem_of_seqZ [Hj1 Hj2]%elem_of_seqZ Heq.
  pose proof (Hle i j ltac:(lia) ltac:(lia) Heq). pose proof (Hle j i ltac:(lia) ltac:(lia) (eq_sym Heq)). lia.
Qed.

End addresses.

Definition account_keys_of (kf : KeyFactory) (n : Z) : AccountKeys :=
  mk_account_keys (addr_of kf n) (auth_of kf n) (child_key kf n).

Lemma get_account_from_nth_ok w n :
  length (key_factory w) = 32%nat → 0 ≤ n < 6 →
  get_account_from_nth w n = Ok (account_keys_of (key_factory w) n).
Proof.
  intros Hk Hn. unfold get_account_from_nth, legacy_scheme_new.
  rewrite !(λ n, proj1 (private_child_ok (key_factory w) n Hk)). cbn [expect_res mbind outcome_bind].
  set (f n := mk_ext n (child_key (key_factory w) n)).
  assert (Hnth : nth_key (mk_scheme (f 0) (f 1) (f 2) (f 3) (f 4) (f 5)) n = Ok (f n)).
  { assert (Hc : n = 0 ∨ n = 1 ∨ n = 2 ∨ n = 3 ∨ n = 4 ∨ n = 5) by lia.
    by destruct Hc as [->|[->|[->|[->|[->| ->]]]]]. }
  unfold f in Hnth. rewrite Hnth. cbn [mbind outcome_bind].
  unfold get_address, get_authentication_key, get_public. cbn [private_key].
  rewrite addr_from_to_literal by apply derived_address_law. cbn [context_opt mbind outcome_bind].
  rewrite auth_key_text_law by apply auth_key_law. cbn [mbind outcome_bind].
  rewrite ed25519_law by apply (private_child_ok (key_factory w) n Hk). done.
Qed.

Lemma get_ol_legacy_address_ok b :
  addr_wf b → get_ol_legacy_address b = Ok (repeat 0 16 ++ drop 16 b).
Proof.
  intros [Hl Hb]. unfold get_ol_legacy_address. rewrite Hl.
  cbn [Nat.leb rust_assert mbind outcome_bind].
  assert (Hd : length (drop 16 b) = 16%nat) by (rewrite length_drop; lia).
  change (("0000000000000000" +:+ fmt_02x (drop 16 b))) with (fmt_02x (repeat 0 8 ++ drop 16 b)).
  assert (Hbd : is_bytes (drop 16 b)) by by apply Forall_drop.
  rewrite addr_from_hex_literal_law.
  - cbn [context_opt]. rewrite length_app, Hd. reflexivity.
  - apply Forall_app. split; [by apply Forall_repeat|done].
  - rewrite length_app, Hd. cbn. lia.
Qed.

(** ** Properties *)

(** generating addresses up to a depth not below the leaf always ends,
    within one round per missing address, clashes included; it leaves the
    wallet as if the children up to the depth had been added in order, and its
    mnemonic and keys as they were.  Below the leaf it is an error. *)
Theorem generate_addresses_spec w depth fuel :
  wallet_inv w → depth ≤ u64_max → depth - key_leaf w < Z.of_nat fuel →
  (key_leaf w ≤ depth →
     ∃ w', generate_addresses fuel w depth = Some (Ok w') ∧ wallet_inv w' ∧ key_leaf w' = depth ∧
       mnemonic w' = mnemonic w ∧ key_factory w' = key_factory w) ∧
  (depth < key_leaf w →
     generate_addresses fuel w depth = Some (Err "Addresses already generated up to the supplied depth")).
Proof.
  intros Hw Hd Hf. unfold generate_addresses. split; intros Hle.
  - rewrite (proj2 (Z.ltb_ge _ _)) by lia.
    rewrite (generate_loop_spec (Z.to_nat (depth - key_leaf w))) by (done || lia).
    eexists. split; [reflexivity|]. destruct Hw as (Hk & Hl & Hm).
    split; [|done]. split; [done|]. cbn [key_leaf]. split; [lia|done].
  - by rewrite (proj2 (Z.ltb_lt _ _)) by lia.
Qed.

(** whatever the iteration order of its hash map, a wallet lists the
    addresses of its children in order of derivation when no two of them
    coincide, and reports an error whenever two do. *)
Theorem get_addresses_spec w it :
  wallet_inv w → it ≡ₚ map_to_list (addr_map w) →
  let addresses := addr_of (key_factory w) <$> seqZ 0 (key_leaf w) in
  (NoDup addresses → get_addresses it w = Ok addresses) ∧
  (¬ NoDup addresses → get_addresses it w = Err "This address is already in your wallet").
Proof.
  intros (Hk & Hl & Hm) Hit addresses. rewrite Hm in Hit. unfold get_addresses. rewrite Hm.
  split; intros Hnd.
  - destruct (nodup_size (key_factory w) (key_leaf w) it ltac:(lia) Hit Hnd) as [Hs Hr]. rewrite Hs, Z2Nat.id by lia.
    apply mapM_lookup_ok. intros i Hi%elem_of_seqZ. apply Hr. lia.
  - destruct (list_find (fun i => rev_map it !! i = None)
                (seqZ 0 (Z.of_nat (size (addrs_below (key_factory w) (key_leaf w)))))) as [[k i]|] eqn:E.
    + apply list_find_Some in E as (Hi & Hr & _). apply (mapM_lookup_err _ _ _ i); [|done].
      by eapply list_elem_of_lookup_2.
    + apply list_find_None in E. exfalso. apply Hnd, (no_hole_nodup _ _ it); [lia|done|].
      intros i Hi. apply (proj1 (Forall_forall _ _) E). apply elem_of_seqZ. lia.
Qed.

(** a wallet gives a private key for exactly the addresses of its children;
    the key is the one whose address was asked for, and so is the
    authentication key; any other address is an error. *)
Theorem wallet_keys_spec w a :
  wallet_inv w →
  ((∃ i, 0 ≤ i < key_leaf w ∧ addr_of (key_factory w) i = a) →
     ∃ sk, get_private_key w a = Ok sk ∧ account (get_account_from_private sk) = a ∧
           wallet_authentication_key w a = Ok (auth_key (get_account_from_private sk))) ∧
  ((∀ i, 0 ≤ i < key_leaf w → addr_of (key_factory w) i ≠ a) →
     get_private_key w a = Err "missing address" ∧ wallet_authentication_key w a = Err "missing address").
Proof.
  intros (Hk & Hl & Hm). unfold get_private_key, wallet_authentication_key. rewrite Hm.
  pose proof (addrs_below_lookup (key_factory w) (key_leaf w) a ltac:(lia)) as Ha.
  destruct (_ !! a) as [i|]; (split; [intros (j & Hj & Hja)|intros Hnone]).
  - destruct Ha as (Hi & -> & _). destruct (private_child_ok (key_factory w) i Hk) as [-> _].
    eexists. split; [reflexivity|]. by split.
  - destruct Ha as (Hi & -> & _). by destruct (Hnone i).
  - by destruct (Ha j).
  - done.
Qed.

(** every mnemonic text that parses, with any white space around it, gives
    an account: child 0 of the derivation; the wallet returned holds it, its
    private key is the owner key of the key chain, and the chain's six accounts
    are children 0 to 5. *)
Theorem account_from_mnem_spec s m :
  from (trim s) = Ok m →
  ∃ ak acc w kc, get_account_from_mnem s = Ok (ak, acc, w) ∧ wallet_inv w ∧ key_leaf w = 1 ∧
    acc = derived_address ak ∧ get_keys_from_mnem s = Ok kc ∧
    child_0_owner kc = mk_account_keys acc ak (pri_key (child_0_owner kc)) ∧
    get_private_key w acc = Ok (pri_key (child_0_owner kc)) ∧
    [child_0_owner kc; child_1_operator kc; child_2_val_network kc; child_3_fullnode_network kc;
     child_4_consensus kc; child_5_executor kc] = account_keys_of (key_factory w) <$> seqZ 0 6 ∧
    kc_mnemonic kc = to_string m.
Proof.
  intros Hm. destruct (new_from_mnemonic_ok m) as (w & Hw & Hinv & Hwm & Hl & _).
  destruct (new_address_step w Hinv) as (r & Hr & _ & Hok); [rewrite Hl; done|].
  pose proof Hinv as (Hk & _ & Hmap). rewrite Hl in Hok, Hr, Hmap.
  rewrite Hok in Hr by (rewrite Hmap; apply lookup_empty).
  assert (Hacc : get_account_from_mnem s = Ok (auth_of (key_factory w) 0, addr_of (key_factory w) 0,
            mk_wallet (mnemonic w) (key_factory w) (addrs_below (key_factory w) (0 + 1)) (0 + 1))).
  { unfold get_account_from_mnem. rewrite Hm. cbn [mbind outcome_bind]. rewrite Hw.
    cbn [mbind outcome_bind]. by rewrite Hr. }
  eexists _, _, _, _. split; [exact Hacc|]. split; [by split|]. split; [done|]. split; [done|].
  split.
  { unfold get_keys_from_mnem. rewrite Hacc. cbn [mbind outcome_bind]. unfold key_chain_new.
    rewrite !get_account_from_nth_ok by (done || lia). cbn [mbind outcome_bind]. reflexivity. }
  cbn [child_0_owner child_1_operator child_2_val_network child_3_fullnode_network
       child_4_consensus child_5_executor key_factory kc_mnemonic mnemonic].
  split; [done|]. split; [|split; [done|by rewrite Hwm]].
  unfold get_private_key. cbn [addr_map key_factory]. rewrite addrs_below_some by lia.
  destruct (private_child_ok (key_factory w) 0 Hk) as [-> _]. done.
Qed.

(** the legacy address of an account is its last sixteen bytes, with zeros
    before them; taking it twice changes nothing. *)
Theorem get_ol_legacy_address_spec a :
  addr_wf a →
  get_ol_legacy_address a = Ok (repeat 0 16 ++ drop 16 a) ∧
  get_ol_legacy_address (repeat 0 16 ++ drop 16 a) = Ok (repeat 0 16 ++ drop 16 a).
Proof.
  intros Ha. split; [by apply get_ol_legacy_address_ok|]. rewrite get_ol_legacy_address_ok; [done|].
  destruct Ha as [Hl Hb]. split; [rewrite length_app, length_drop; cbn; lia|].
  apply Forall_app. split; [by apply Forall_repeat|by apply Forall_drop].
Qed.

End wallet.

(** ** Witnesses: a toy cryptography whose child keys differ *)
Definition fit32 (bs : bytes) : bytes := take 32 (bs ++ repeat 0 32).
Definition clip (bs : bytes) : bytes := u8_wrap <$> bs.

Lemma clip_wf bs : is_bytes (clip bs).
Proof. apply Forall_fmap, Forall_true. intros z. apply Z.mod_pos_bound. lia. Qed.
Lemma fit32_wf bs : is_bytes bs → is_array 32 (fit32 bs).
Proof.
  intros Hb. split; [unfold fit32; rewrite length_take, length_app, repeat_length; lia|].
  apply Forall_take, Forall_app. split; [done|by apply Forall_repeat].
Qed.
Lemma fit32_id bs : length bs = 32%nat → fit32 bs = bs.
Proof. intros Hl. unfold fit32. by rewrite take_app_length' by done. Qed.

#[export] Program Instance sample_crypto : WalletCrypto := {|
  pbkdf2 pw _ _ := fit32 (clip pw);
  hkdf_extract _ ikm := Ok (fit32 (clip ikm));
  hkdf_expand prk info n :=
    Ok (take (Z.to_nat n) (clip (rev (default [] info)) ++ repeat 0 (Z.to_nat n)));
  ed25519_try_from sk := Ok sk;
  ed25519_public sk := sk;
  auth_key_ed25519 pk := fit32 (clip pk);
  auth_key_to_string := fmt_02x;
  auth_key_from_str s := context_opt "bad hex" (hex_decode_array 32 s);
  derived_address k := fit32 (clip k)
|}.
Next Obligation. intros. apply fit32_wf, clip_wf. Qed.
Next Obligation. intros. eexists. split; [done|]. apply fit32_wf, clip_wf. Qed.
Next Obligation.
  intros prk info n _ Hn. eexists. split; [done|].
  split; [rewrite length_take, length_app, repeat_length; lia|].
  apply Forall_take, Forall_app. split; [apply clip_wf|by apply Forall_repeat].
Qed.
Next Obligation. done. Qed.
Next Obligation. intros. apply fit32_wf, clip_wf. Qed.
Next Obligation. intros k Hk. apply context_opt_ok. by apply (hex_decode_array_fmt 32 k). Qed.
Next Obligation. intros. apply fit32_wf, clip_wf. Qed.

Definition sample_kf : KeyFactory := repeat 9 32.
Definition sample_wallet : WalletLibrary :=
  mk_wallet sample_mnemonic sample_kf (addrs_below sample_kf 2) 2.

Lemma sample_wallet_inv : wallet_inv sample_wallet.
Proof. split; [done|]. split; [|done]. cbn. unfold u64_max. lia. Qed.

Lemma generate_addresses_spec_witness :
  (key_leaf sample_wallet ≤ 5 →
     ∃ w', generate_addresses 4 sample_wallet 5 = Some (Ok w') ∧ wallet_inv w' ∧ key_leaf w' = 5 ∧
       mnemonic w' = mnemonic sample_wallet ∧ key_factory w' = key_factory sample_wallet) ∧
  (5 < key_leaf sample_wallet →
     generate_addresses 4 sample_wallet 5 =
       Some (Err "Addresses already generated up to the supplied depth")).
Proof. apply generate_addresses_spec; [apply sample_wallet_inv|done|cbn; lia]. Defined.

Lemma get_addresses_spec_witness :
  let addresses := addr_of sample_kf <$> seqZ 0 2 in
  (NoDup addresses → get_addresses (map_to_list (addr_map sample_wallet)) sample_wallet = Ok addresses) ∧
  (¬ NoDup addresses →
     get_addresses (map_to_list (addr_map sample_wallet)) sample_wallet
     = Err "This address is already in your wallet").
Proof. apply (get_addresses_spec sample_wallet); [apply sample_wallet_inv|done]. Defined.

Example sample_addresses_distinct : NoDup (addr_of sample_kf <$> seqZ 0 2).
Proof. by apply (bool_decide_unpack _). Qed.

Lemma wallet_keys_spec_witness :
  ((∃ i, 0 ≤ i < 2 ∧ addr_of sample_kf i = addr_of sample_kf 1) →
     ∃ sk, get_private_key sample_wallet (addr_of sample_kf 1) = Ok sk ∧
       account (get_account_from_private sk) = addr_of sample_kf 1 ∧
       wallet_authentication_key sample_wallet (addr_of sample_kf 1)
       = Ok (auth_key (get_account_from_private sk))) ∧
  ((∀ i, 0 ≤ i < 2 → addr_of sample_kf i ≠ addr_of sample_kf 1) →
     get_private_key sample_wallet (addr_of sample_kf 1) = Err "missing address" ∧
     wallet_authentication_key sample_wallet (addr_of sample_kf 1) = Err "missing address").
Proof. apply (wallet_keys_spec sample_wallet). apply sample_wallet_inv. Defined.

Lemma account_from_mnem_spec_witness :
  let s := sample_sha in
  ∃ ak acc w kc, get_account_from_mnem (" " +:+ to_string sample_mnemonic) = Ok (ak, acc, w) ∧
    wallet_inv w ∧ key_leaf w = 1 ∧ acc = derived_address ak ∧
    get_keys_from_mnem (" " +:+ to_string sample_mnemonic) = Ok kc ∧
    child_0_owner kc = mk_account_keys acc ak (pri_key (child_0_owner kc)) ∧
    get_private_key w acc = Ok (pri_key (child_0_owner kc)) ∧
    [child_0_owner kc; child_1_operator kc; child_2_val_network kc; child_3_fullnode_network kc;
     child_4_consensus kc; child_5_executor kc] = account_keys_of (key_factory w) <$> seqZ 0 6 ∧
    kc_mnemonic kc = to_string sample_mnemonic.
Proof. intros s. apply account_from_mnem_spec. vm_compute. reflexivity. Defined.

Lemma get_ol_legacy_address_spec_witness :
  get_ol_legacy_address (repeat 7 32) = Ok (repeat 0 16 ++ drop 16 (repeat 7 32)) ∧
  get_ol_legacy_address (repeat 0 16 ++ drop 16 (repeat 7 32))
  = Ok (repeat 0 16 ++ drop 16 (repeat 7 32)).
Proof. apply get_ol_legacy_address_spec. by apply (bool_decide_unpack _). Defined.
