(* ===== verification/ValidatorKeys.v ===== *)
(** * tools/wallet/src/keys.rs and validator_files.rs: a validator's key files

    From the legacy key chain to the identities of a validator, the four key
    files, and the operator and owner configurations made from the public one.
    A directory is a map from file names to what was serialized there. *)
From Stdlib Require Import ZArith Lia Ascii.
From stdpp Require Import base option list strings gmap.
From S2P Require Import Prelude RustStr Bytes MoveTypes Mnemonic Wallet.

Open Scope list_scope.
Open Scope Z_scope.

(** BLS and x25519: the [blst] and [diem_crypto] functions keys.rs calls *)
Class ValidatorCrypto := {
  blst_key_gen : bytes → outcome bytes;
  bls_try_from : bytes → outcome bytes;
  bls_public : bytes → bytes;
  bls_proof_of_possession : bytes → bytes;
  x25519_from_ed25519_private_bytes : bytes → outcome bytes;
  x25519_public : bytes → bytes;
  x25519_public_to_string : bytes → string
}.

(** The identities of [diem_genesis] and [diem_config], as keys.rs fills them *)
Record IdentityBlob := mk_blob {
  ib_account_address : option AccountAddress;
  ib_account_private_key : option bytes;
  ib_consensus_private_key : option bytes;
  ib_network_private_key : bytes
}.
Record PrivateIdentity := mk_private {
  pr_account_address : AccountAddress;
  pr_account_private_key : bytes;
  pr_consensus_private_key : bytes;
  pr_full_node_network_private_key : bytes;
  pr_validator_network_private_key : bytes
}.
Record PublicIdentity := mk_public {
  pu_account_address : AccountAddress;
  pu_account_public_key : bytes;
  pu_consensus_public_key : option bytes;
  pu_consensus_proof_of_possession : option bytes;
  pu_full_node_network_public_key : option bytes;
  pu_validator_network_public_key : option bytes
}.

Record HostAndPort := mk_host { host : string; port : Z }.
Record OperatorConfiguration := mk_operator {
  op_operator_account_address : AccountAddress;
  op_operator_account_public_key : bytes;
  op_consensus_public_key : bytes;
  op_consensus_proof_of_possession : bytes;
  op_validator_network_public_key : bytes;
  op_validator_host : HostAndPort;
  op_full_node_network_public_key : option bytes;
  op_full_node_host : option HostAndPort
}.
Record OwnerConfiguration := mk_owner {
  ow_owner_account_address : AccountAddress;
  ow_owner_account_public_key : bytes;
  ow_voter_account_address : AccountAddress;
  ow_voter_account_public_key : bytes;
  ow_operator_account_address : AccountAddress;
  ow_operator_account_public_key : bytes;
  ow_stake_amount : Z;
  ow_commission_percentage : Z;
  ow_join_during_genesis : bool
}.

(** What a file of the directory holds *)
Inductive document :=
| DocPrivate (p : PrivateIdentity)
| DocPublic (p : PublicIdentity)
| DocBlob (b : IdentityBlob)
| DocOperator (c : OperatorConfiguration)
| DocOwner (c : OwnerConfiguration)
| DocOther (bs : bytes).
Notation directory := (gmap string document).

Definition PRIVATE_KEYS_FILE : string := "private-keys.yaml".
Definition PUBLIC_KEYS_FILE : string := "public-keys.yaml".
Definition VALIDATOR_FILE : string := "validator-identity.yaml".
Definition VFN_FILE : string := "validator-full-node-identity.yaml".
Definition OPERATOR_FILE : string := "operator.yaml".
Definition OWNER_FILE : string := "owner.yaml".

Section keys.
  Context `{WalletCrypto, Sha256, DiemAddress, ValidatorCrypto}.
  (** The answer to "already exists, overwrite?", and whether the system lets
      the file be written. *)
  Context (confirm : string → bool) (writable : string → bool).

Definition bls_generate_key (ikm : bytes) : outcome bytes :=
  serialized ← context_res "blst key gen failed" (blst_key_gen ikm);
  bls_try_from serialized.

Definition network_keys_x25519_from_ed25519 (pri_key : bytes) : outcome bytes :=
  x25519_from_ed25519_private_bytes pri_key.

Definition generate_key_objects_from_legacy (legacy_keys : KeyChain)
    : outcome (IdentityBlob * IdentityBlob * PrivateIdentity * PublicIdentity) :=
  let account_key := pri_key (child_0_owner legacy_keys) in
  consensus_key ← bls_generate_key (kc_seed legacy_keys);
  vnk ← network_keys_x25519_from_ed25519 (pri_key (child_2_val_network legacy_keys));
  fnk ← network_keys_x25519_from_ed25519 (pri_key (child_3_fullnode_network legacy_keys));
  let account_address := account (child_0_owner legacy_keys) in
  let validator_blob := mk_blob (Some account_address) (Some account_key) (Some consensus_key) vnk in
  vfn_address ← context_opt "account address parse error"
                  (addr_from_str (x25519_public_to_string (x25519_public fnk)));
  let vfn_blob := mk_blob (Some vfn_address) None None fnk in
  let private_identity := mk_private account_address account_key consensus_key fnk vnk in
  let public_identity := mk_public account_address (ed25519_public account_key)
    (Some (bls_public consensus_key)) (Some (bls_proof_of_possession consensus_key))
    (Some (x25519_public fnk)) (Some (x25519_public vnk)) in
  Ok (validator_blob, vfn_blob, private_identity, public_identity).

(** The directory as it is left, and the result *)
Definition check_if_file_exists (dir : directory) (file : string) : outcome unit :=
  match dir !! file with
  | Some _ => if confirm file then Ok tt else Err "Aborted by user"
  | None => Ok tt
  end.
Definition write_to_user_only_file (dir : directory) (file : string) (d : document) : directory * outcome unit :=
  if writable file then (<[file := d]> dir, Ok tt) else (dir, Err "cannot write file").
Definition write_key_file (dir : directory) (filename : string) (d : document) : directory * outcome unit :=
  match check_if_file_exists dir filename with
  | Ok _ => write_to_user_only_file dir filename d
  | r => (dir, r)
  end.
(** [f()?; g()?] on the directory *)
Fixpoint write_key_files (dir : directory) (files : list (string * document)) : directory * outcome unit :=
  match files with
  | [] => (dir, Ok tt)
  | (name, d) :: files' =>
      match write_key_file dir name d with
      | (dir', Ok _) => write_key_files dir' files'
      | r => r
      end
  end.

Definition create_non_signing_key : outcome bytes :=
  expect_res "called `Result::unwrap()` on an `Err` value" (ed25519_try_from (repeat 0 32)).

Definition save_val_files (dir : directory) (validator_blob vfn_blob : IdentityBlob)
    (private_identity : PrivateIdentity) (public_identity : PublicIdentity)
    : directory * outcome (IdentityBlob * IdentityBlob * PrivateIdentity) :=
  match create_non_signing_key with
  | Ok zero =>
      let private_identity := mk_private (pr_account_address private_identity) zero
        (pr_consensus_private_key private_identity) (pr_full_node_network_private_key private_identity)
        (pr_validator_network_private_key private_identity) in
      let strip b := mk_blob (ib_account_address b) None (ib_consensus_private_key b) (ib_network_private_key b) in
      let validator_blob := strip validator_blob in
      let vfn_blob := strip vfn_blob in
      let '(dir', r) := write_key_files dir
        [(PRIVATE_KEYS_FILE, DocPrivate private_identity);
         (PUBLIC_KEYS_FILE, DocPublic public_identity);
         (VALIDATOR_FILE, DocBlob validator_blob);
         (VFN_FILE, DocBlob vfn_blob)] in
      (dir', r;; Ok (validator_blob, vfn_blob, private_identity))
  | Err e => (dir, Err e)
  | Panic p => (dir, Panic p)
  end.

Definition make_validator_keys (mnem : string) (keep_legacy_addr : bool)
    : outcome (IdentityBlob * IdentityBlob * PrivateIdentity * PublicIdentity * KeyChain) :=
  legacy_keys ← get_keys_from_mnem mnem;
  legacy_keys ← (if keep_legacy_addr then
      let o := child_0_owner legacy_keys in
      legacy_format ← get_ol_legacy_address (account o);
      Ok (mk_key_chain (kc_mnemonic legacy_keys) (kc_seed legacy_keys)
            (mk_account_keys legacy_format (auth_key o) (pri_key o))
            (child_1_operator legacy_keys) (child_2_val_network legacy_keys)
            (child_3_fullnode_network legacy_keys) (child_4_consensus legacy_keys)
            (child_5_executor legacy_keys))
    else Ok legacy_keys);
  '(vb, fb, pr, pu) ← generate_key_objects_from_legacy legacy_keys;
  Ok (vb, fb, pr, pu, legacy_keys).

Definition refresh_validator_files (dir : directory) (mnem : string) (keep_legacy_addr : bool)
    : directory * outcome (AccountAddress * bytes * PublicIdentity) :=
  match make_validator_keys mnem keep_legacy_addr with
  | Ok (vb, fb, pr, pu, legacy_keys) =>
      let '(dir', r) := save_val_files dir vb fb pr pu in
      (dir', r;; Ok (pu_account_address pu, auth_key (child_0_owner legacy_keys), pu))
  | Err e => (dir, Err e)
  | Panic p => (dir, Panic p)
  end.

(** ** validator_files.rs *)
Definition read_public_identity_file (dir : directory) (file : string) : outcome PublicIdentity :=
  match dir !! file with
  | Some (DocPublic p) => Ok p
  | Some _ => Err "not a public identity"
  | None => Err "No such file or directory"
  end.

Definition set_config_files (dir : directory) (validator_host : HostAndPort)
    (full_node_host : option HostAndPort)
    : directory * outcome (OperatorConfiguration * OwnerConfiguration) :=
  match (owner_identity ← read_public_identity_file dir PUBLIC_KEYS_FILE;
         consensus_public_key ←
           context_opt "Failed to read consensus public key from public identity file"
             (pu_consensus_public_key owner_identity);
         validator_network_public_key ←
           context_opt "Failed to read validator network public key from public identity file"
             (pu_validator_network_public_key owner_identity);
         consensus_proof_of_possession ←
           context_opt "Failed to read consensus proof of possession from public identity file"
             (pu_consensus_proof_of_possession owner_identity);
         let fullnode_host := default (mk_host (host validator_host) 6182) full_node_host in
         let a := pu_account_address owner_identity in
         let k := pu_account_public_key owner_identity in
         Ok (mk_operator a k consensus_public_key consensus_proof_of_possession
               validator_network_public_key validator_host
               (pu_full_node_network_public_key owner_identity) (Some fullnode_host),
             mk_owner a k a k a k 100000000000000 0 true)) with
  | Ok (operator_config, owner_config) =>
      match write_to_user_only_file dir OPERATOR_FILE (DocOperator operator_config) with
      | (dir', Ok _) =>
          let '(dir'', r) := write_to_user_only_file dir' OWNER_FILE (DocOwner owner_config) in
          (dir'', r;; Ok (operator_config, owner_config))
      | (dir', Err e) => (dir', Err e)
      | (dir', Panic p) => (dir', Panic p)
      end
  | Err e => (dir, Err e)
  | Panic p => (dir, Panic p)
  end.

(** Both reads are unwrapped. *)
Definition read_configs_from_file (dir : directory) : outcome (OperatorConfiguration * OwnerConfiguration) :=
  match dir !! OPERATOR_FILE, dir !! OWNER_FILE with
  | Some (DocOperator c), Some (DocOwner o) => Ok (c, o)
  | _, _ => Panic "called `Result::unwrap()` on an `Err` value"
  end.

(** ** Specification *)

(** No account private key: the decoy in the private identity, none in a blob *)
Definition key_free (d : document) : Prop :=
  match d with
  | DocPrivate p => pr_account_private_key p = repeat 0 32
  | DocBlob b => ib_account_private_key b = None
  | _ => True
  end.

Definition owner_address (kc : KeyChain) (keep_legacy_addr : bool) : AccountAddress :=
  let a := account (child_0_owner kc) in
  if keep_legacy_addr then repeat 0 16 ++ drop 16 a else a.

(** ** Lemmas *)
Lemma write_key_file_cases dir name d :
  ∃ r, write_key_file dir name d = (<[name := d]> dir, Ok tt) ∨
       (write_key_file dir name d = (dir, r) ∧ r ≠ Ok tt).
Proof.
  unfold write_key_file, check_if_file_exists, write_to_user_only_file.
  destruct (dir !! name); [destruct (confirm name)|]; try destruct (writable name);
    first [exists (Ok tt); by left | eexists; by right].
Qed.

(** Every file is as it was or one of those to be written, and on success all
    of them are. *)
Lemma write_key_files_spec dir files dir' r :
  NoDup files.*1 → write_key_files dir files = (dir', r) →
  (∀ name d, dir' !! name = Some d → dir !! name = Some d ∨ (name, d) ∈ files) ∧
  (∀ name, name ∉ files.*1 → dir' !! name = dir !! name) ∧
  (r = Ok tt → ∀ name d, (name, d) ∈ files → dir' !! name = Some d).
Proof.
  revert dir. induction files as [|[name d] files IH]; intros dir Hnd Hw; cbn [write_key_files] in Hw.
  { injection Hw as <- <-. split; [by left|]. split; [done|]. by intros _ ? ? ?%not_elem_of_nil. }
  cbn in Hnd. apply NoDup_cons in Hnd as [Hn Hnd].
  destruct (write_key_file_cases dir name d) as (r0 & [Hk|[Hk Hr]]); rewrite Hk in Hw.
  - destruct (IH _ Hnd Hw) as (HA & HB & HC). split; [|split].
    + intros n x Hx. destruct (HA n x Hx) as [Hi|Hi]; [|right; by right].
      destruct (decide (n = name)) as [->|Hne].
      * rewrite lookup_insert, decide_True in Hi by done. injection Hi as <-. right. by left.
      * rewrite lookup_insert_ne in Hi by done. by left.
    + intros n [Hne Hni]%not_elem_of_cons. rewrite (HB n Hni). by apply lookup_insert_ne.
    + intros Hr n x [[= -> ->]|Hin]%elem_of_cons; [|by apply HC].
      rewrite (HB name Hn). by rewrite lookup_insert, decide_True.
  - assert (dir' = dir ∧ r = r0) as [-> ->].
    { destruct r0 as [[]|e|p]; [done|by injection Hw as <- <-|by injection Hw as <- <-]. }
    split; [by left|]. split; [done|]. done.
Qed.

Lemma non_signing_key : create_non_signing_key = Ok (repeat 0 32).
Proof. unfold create_non_signing_key. by rewrite ed25519_law. Qed.

Lemma key_file_names_nodup :
  NoDup [PRIVATE_KEYS_FILE; PUBLIC_KEYS_FILE; VALIDATOR_FILE; VFN_FILE].
Proof. by apply (bool_decide_unpack _). Qed.

Lemma keys_from_mnem_wf mnem kc :
  get_keys_from_mnem mnem = Ok kc → addr_wf (account (child_0_owner kc)).
Proof.
  intros Hk. apply bind_ok in Hk as ([[ak acc] w] & _ & Hk). unfold key_chain_new in Hk.
  inv_ok. match goal with Hc : get_account_from_nth w 0 = Ok ?c |- addr_wf (account _) =>
    cbn [child_0_owner]; unfold get_account_from_nth in Hc end.
  inv_ok. cbn [account]. eapply addr_parse_wf. by left.
Qed.

Lemma make_validator_keys_ok mnem keep vb fb pr pu kc' kc :
  get_keys_from_mnem mnem = Ok kc →
  make_validator_keys mnem keep = Ok (vb, fb, pr, pu, kc') →
  pu_account_address pu = owner_address kc keep ∧
  auth_key (child_0_owner kc') = auth_key (child_0_owner kc) ∧
  pu_account_public_key pu = ed25519_public (pri_key (child_0_owner kc)) ∧
  ib_account_address vb = Some (owner_address kc keep) ∧
  is_Some (pu_consensus_public_key pu) ∧ is_Some (pu_consensus_proof_of_possession pu) ∧
  is_Some (pu_validator_network_public_key pu).
Proof.
  intros Hkc Hm. pose proof (keys_from_mnem_wf _ _ Hkc) as Hwf. unfold make_validator_keys in Hm. rewrite Hkc in Hm. cbn [mbind outcome_bind] in Hm.
  apply bind_ok in Hm as (lk & Hlk & Hm). apply bind_ok in Hm as ([[[vb' fb'] pr'] pu'] & Hg & Hm).
  apply Ok_inj in Hm. injection Hm as <- <- <- <- <-.
  assert (Hl : account (child_0_owner lk) = owner_address kc keep ∧
               auth_key (child_0_owner lk) = auth_key (child_0_owner kc) ∧
               pri_key (child_0_owner lk) = pri_key (child_0_owner kc)).
  { unfold owner_address. destruct keep; [|by apply Ok_inj in Hlk as <-].
    rewrite (get_ol_legacy_address_ok _ Hwf) in Hlk.
    cbn [mbind outcome_bind] in Hlk. by apply Ok_inj in Hlk as <-. }
  destruct Hl as (Ha & Hk & Hp). unfold generate_key_objects_from_legacy in Hg.
  apply bind_ok in Hg as (ck & _ & Hg). apply bind_ok in Hg as (vnk & _ & Hg).
  apply bind_ok in Hg as (fnk & _ & Hg). apply bind_ok in Hg as (va & _ & Hg).
  apply Ok_inj in Hg. injection Hg as <- <- <- <-.
  cbn [pu_account_address pu_account_public_key ib_account_address pu_consensus_public_key
       pu_consensus_proof_of_possession pu_validator_network_public_key].
  rewrite Ha, Hp. done.
Qed.

Lemma save_val_files_ok dir vb fb pr pu dir' r :
  save_val_files dir vb fb pr pu = (dir', r) →
  (∀ name d, dir' !! name = Some d → dir !! name = Some d ∨ key_free d) ∧
  (∀ name, name ∉ [PRIVATE_KEYS_FILE; PUBLIC_KEYS_FILE; VALIDATOR_FILE; VFN_FILE] →
     dir' !! name = dir !! name) ∧
  (is_ok r = true → dir' !! PUBLIC_KEYS_FILE = Some (DocPublic pu) ∧
     ∃ b, dir' !! VALIDATOR_FILE = Some (DocBlob b) ∧ ib_account_address b = ib_account_address vb).
Proof.
  unfold save_val_files. rewrite non_signing_key.
  destruct (write_key_files dir _) as [d r'] eqn:Ew. intros [= <- <-].
  pose proof (fun nd => write_key_files_spec _ _ _ _ nd Ew) as Hs.
  destruct (Hs key_file_names_nodup) as (HA & HB & HC).
  split; [|split; [done|]].
  - intros name x Hx. destruct (HA name x Hx) as [?|Hin]; [by left|right].
    repeat (apply elem_of_cons in Hin as [[= -> ->]|Hin]; [done|]). by apply not_elem_of_nil in Hin.
  - intros Hok. assert (Hr : r' = Ok tt) by (destruct r' as [[]| |]; done). specialize (HC Hr).
    split; [apply HC; right; left|]. eexists. split; [apply HC; do 2 right; left|done].
Qed.

Lemma refresh_ok dir mnem keep kc dir' r :
  get_keys_from_mnem mnem = Ok kc →
  refresh_validator_files dir mnem keep = (dir', r) →
  (∀ name d, dir' !! name = Some d → dir !! name = Some d ∨ key_free d) ∧
  (∀ name, name ∉ [PRIVATE_KEYS_FILE; PUBLIC_KEYS_FILE; VALIDATOR_FILE; VFN_FILE] →
     dir' !! name = dir !! name) ∧
  (∀ addr ak pu, r = Ok (addr, ak, pu) →
     addr = owner_address kc keep ∧ ak = auth_key (child_0_owner kc) ∧ pu_account_address pu = addr ∧
     dir' !! PUBLIC_KEYS_FILE = Some (DocPublic pu) ∧
     ∃ b, dir' !! VALIDATOR_FILE = Some (DocBlob b) ∧ ib_account_address b = Some addr).
Proof.
  intros Hkc Hr. unfold refresh_validator_files in Hr.
  destruct (make_validator_keys mnem keep) as [[[[[vb fb] pr] pu] kc']|e|p] eqn:Hm.
  2,3: injection Hr as <- <-; split; [by left|]; by split.
  destruct (make_validator_keys_ok _ _ _ _ _ _ _ _ Hkc Hm) as (Ha & Hk & _ & Hvb & _).
  destruct (save_val_files dir vb fb pr pu) as [d r'] eqn:Es. injection Hr as <- <-.
  destruct (save_val_files_ok _ _ _ _ _ _ _ Es) as (HA & HB & HC).
  split; [done|]. split; [done|]. intros addr ak pu' Hok.
  destruct r' as [x|e|p]; cbn [mbind outcome_bind] in Hok; try done.
  apply Ok_inj in Hok. injection Hok as <- <- <-.
  destruct (HC eq_refl) as (Hpu & b & Hb & Hba).
  split; [done|]. split; [done|]. split; [done|]. split; [done|]. exists b. by rewrite Hba, Hvb, Ha.
Qed.

(** ** Properties *)

(** refreshing a validator's files from a mnemonic never leaves the
    account's private key in the directory, however far the writing got: every
    file is the old one or one without it.  No other file is touched; and when
    it succeeds the address is the derived one, or its last sixteen bytes for
    a legacy account, in the public file and the validator's identity alike. *)
Theorem refresh_validator_files_spec dir mnem keep kc dir' r :
  get_keys_from_mnem mnem = Ok kc →
  refresh_validator_files dir mnem keep = (dir', r) →
  (∀ name d, dir' !! name = Some d → dir !! name = Some d ∨ key_free d) ∧
  (∀ name, name ∉ [PRIVATE_KEYS_FILE; PUBLIC_KEYS_FILE; VALIDATOR_FILE; VFN_FILE] →
     dir' !! name = dir !! name) ∧
  (∀ addr ak pu, r = Ok (addr, ak, pu) →
     addr = owner_address kc keep ∧ ak = auth_key (child_0_owner kc) ∧ pu_account_address pu = addr ∧
     dir' !! PUBLIC_KEYS_FILE = Some (DocPublic pu) ∧
     ∃ b, dir' !! VALIDATOR_FILE = Some (DocBlob b) ∧ ib_account_address b = Some addr).
Proof. apply refresh_ok. Qed.

(** after a successful refresh, the operator and owner configurations are
    made, with every role given the account's address and public key, a full
    node on port 6182 of the validator's host unless one is named, and they are
    what reading them back gives. *)
Theorem set_config_files_spec dir mnem keep kc dir' addr ak pu vhost fhost :
  get_keys_from_mnem mnem = Ok kc →
  refresh_validator_files dir mnem keep = (dir', Ok (addr, ak, pu)) →
  writable OPERATOR_FILE = true → writable OWNER_FILE = true →
  ∃ dir'' op ow,
    set_config_files dir' vhost fhost = (dir'', Ok (op, ow)) ∧
    read_configs_from_file dir'' = Ok (op, ow) ∧
    (op_operator_account_address op = addr ∧ ow_owner_account_address ow = addr ∧
     ow_operator_account_address ow = addr ∧ ow_voter_account_address ow = addr) ∧
    (op_operator_account_public_key op = ed25519_public (pri_key (child_0_owner kc)) ∧
     ow_owner_account_public_key ow = op_operator_account_public_key op ∧
     ow_operator_account_public_key ow = op_operator_account_public_key op ∧
     ow_voter_account_public_key ow = op_operator_account_public_key op) ∧
    op_validator_host op = vhost ∧
    op_full_node_host op = Some (default (mk_host (host vhost) 6182) fhost).
Proof.
  intros Hkc Hr Hw1 Hw2. unfold refresh_validator_files in Hr.
  destruct (make_validator_keys mnem keep) as [[[[[vb fb] pr] pu'] kc']|e|p] eqn:Hm; [|done..].
  destruct (make_validator_keys_ok _ _ _ _ _ _ _ _ Hkc Hm)
    as (Ha & Hk & Hpk & _ & [ck Hck] & [pop Hpop] & [vk Hvk]).
  destruct (save_val_files dir vb fb pr pu') as [d r'] eqn:Es.
  injection Hr as -> Hok. destruct r' as [x|e|p]; cbn [mbind outcome_bind] in Hok; try done.
  apply Ok_inj in Hok. injection Hok as <- <- <-.
  destruct (save_val_files_ok _ _ _ _ _ _ _ Es) as (_ & _ & HC). destruct (HC eq_refl) as (Hpu & _).
  unfold set_config_files, read_public_identity_file. rewrite Hpu. cbn [mbind outcome_bind].
  rewrite Hck, Hpop, Hvk. cbn [context_opt mbind outcome_bind].
  unfold write_to_user_only_file. rewrite Hw1, Hw2. cbn [mbind outcome_bind].
  eexists _, _, _. split; [reflexivity|]. split; [|by rewrite Hpk].
  unfold read_configs_from_file. rewrite lookup_insert_ne by done.
  rewrite lookup_insert, decide_True by done. rewrite lookup_insert, decide_True by done. done.
Qed.

End keys.

(** ** Witnesses *)
#[export] Instance sample_validator_crypto : ValidatorCrypto := {|
  blst_key_gen ikm := Ok (take 32 ikm);
  bls_try_from bs := Ok bs;
  bls_public sk := sk ++ [1];
  bls_proof_of_possession sk := sk ++ [2];
  x25519_from_ed25519_private_bytes sk := Ok (rev sk);
  x25519_public sk := sk;
  x25519_public_to_string := fmt_02x
|}.

Definition sample_dir : directory := {[ "notes"%string := DocOther [1] ]}.
Definition sample_mnem : string := to_string sample_mnemonic.

Definition sample_key_chain : KeyChain :=
  match @get_keys_from_mnem sample_crypto sample_sha ref_diem_address sample_mnem with
  | Ok kc => kc
  | _ => mk_key_chain "" [] (mk_account_keys [] [] []) (mk_account_keys [] [] []) (mk_account_keys [] [] [])
           (mk_account_keys [] [] []) (mk_account_keys [] [] []) (mk_account_keys [] [] [])
  end.
Definition sample_refresh :=
  @refresh_validator_files sample_crypto sample_sha ref_diem_address sample_validator_crypto
    (fun _ => true) (fun _ => true) sample_dir sample_mnem true.
Definition sample_public : PublicIdentity :=
  match snd sample_refresh with
  | Ok (_, _, pu) => pu
  | _ => mk_public [] [] None None None None
  end.

Lemma refresh_validator_files_spec_witness :
  let s := sample_sha in
  (∀ name d, fst sample_refresh !! name = Some d → sample_dir !! name = Some d ∨ key_free d) ∧
  (∀ name, name ∉ [PRIVATE_KEYS_FILE; PUBLIC_KEYS_FILE; VALIDATOR_FILE; VFN_FILE] →
     fst sample_refresh !! name = sample_dir !! name) ∧
  (∀ addr ak pu, snd sample_refresh = Ok (addr, ak, pu) →
     addr = owner_address sample_key_chain true ∧ ak = auth_key (child_0_owner sample_key_chain) ∧
     pu_account_address pu = addr ∧
     fst sample_refresh !! PUBLIC_KEYS_FILE = Some (DocPublic pu) ∧
     ∃ b, fst sample_refresh !! VALIDATOR_FILE = Some (DocBlob b) ∧ ib_account_address b = Some addr).
Proof.
  intros s. apply (refresh_validator_files_spec (fun _ => true) (fun _ => true) sample_dir sample_mnem true
           sample_key_chain); [vm_compute; reflexivity|vm_compute; reflexivity].
Defined.

Example sample_refresh_ok :
  snd sample_refresh = Ok (pu_account_address sample_public,
    auth_key (child_0_owner sample_key_chain), sample_public).
Proof. vm_compute. reflexivity. Qed.

Lemma set_config_files_spec_witness :
  let s := sample_sha in
  ∃ dir'' op ow,
    set_config_files (fun _ => true) (fst sample_refresh) (mk_host "val" 6180) None = (dir'', Ok (op, ow)) ∧
    read_configs_from_file dir'' = Ok (op, ow) ∧
    (op_operator_account_address op = pu_account_address sample_public ∧
     ow_owner_account_address ow = pu_account_address sample_public ∧
     ow_operator_account_address ow = pu_account_address sample_public ∧
     ow_voter_account_address ow = pu_account_address sample_public) ∧
    (op_operator_account_public_key op = ed25519_public (pri_key (child_0_owner sample_key_chain)) ∧
     ow_owner_account_public_key ow = op_operator_account_public_key op ∧
     ow_operator_account_public_key ow = op_operator_account_public_key op ∧
     ow_voter_account_public_key ow = op_operator_account_public_key op) ∧
    op_validator_host op = mk_host "val" 6180 ∧
    op_full_node_host op = Some (default (mk_host (host (mk_host "val" 6180)) 6182) None).
Proof.
  intros s. apply (set_config_files_spec (fun _ => true) (fun _ => true) sample_dir sample_mnem true
    sample_key_chain (fst sample_refresh) (pu_account_address sample_public)
    (auth_key (child_0_owner sample_key_chain)) sample_public);
    [vm_compute; reflexivity|vm_compute; reflexivity|reflexivity|reflexivity].
Defined.
