(* ===== verification/F64.v ===== *)
(** * Rust's [f64]

    IEEE 754 binary64 by the Standard Library's executable specification, with
    the [as] casts: to [f64] rounds to nearest even, to [u64] truncates and
    saturates. *)
From Stdlib Require Import ZArith Lia SpecFloat.
From stdpp Require Import base numbers.
From S2P Require Import Prelude.

Open Scope Z_scope.

Notation f64 := spec_float.
Definition f64_of_int (z : Z) : f64 := binary_normalize 53 1024 z 0 false.
Definition f64_add : f64 → f64 → f64 := SFadd 53 1024.
Definition f64_sub : f64 → f64 → f64 := SFsub 53 1024.
Definition f64_mul : f64 → f64 → f64 := SFmul 53 1024.
Definition f64_div : f64 → f64 → f64 := SFdiv 53 1024.
Definition f64_sqrt : f64 → f64 := SFsqrt 53 1024.
Definition f64_geb (x y : f64) : bool := SFleb y x.
Definition f64_gtb (x y : f64) : bool := SFltb y x.

(** [f64::round]: to the nearest integer, halves away from zero *)
Definition f64_round (x : f64) : f64 :=
  match x with
  | S754_finite s m e =>
      if 0 <=? e then x
      else let q := Z.shiftr (Zpos m + 2 ^ (- e - 1)) (- e) in
           binary_normalize 53 1024 (if s then - q else q) 0 s
  | _ => x
  end.

Definition f64_to_u64 (x : f64) : Z :=
  match x with
  | S754_finite false m e => Z.min u64_max (Z.shiftl (Zpos m) e)
  | S754_infinity false => u64_max
  | _ => 0
  end.

Example f64_cast : f64_to_u64 (f64_mul (f64_of_int 100) (f64_of_int 2)) = 200.
Proof. vm_compute. reflexivity. Qed.
Example f64_sqrt_nine : f64_sqrt (f64_of_int 9) = f64_of_int 3.
Proof. vm_compute. reflexivity. Qed.
Example f64_round_half : f64_round (f64_div (f64_of_int 5) (f64_of_int 2)) = f64_of_int 3.
Proof. vm_compute. reflexivity. Qed.
Example f64_round_negative : f64_round (f64_div (f64_of_int (-7)) (f64_of_int 3)) = f64_of_int (-2).
Proof. vm_compute. reflexivity. Qed.
(** Above 2^53 the cast to [f64] rounds. *)
Example f64_rounds : f64_of_int (2 ^ 53 + 1) = f64_of_int (2 ^ 53).
Proof. vm_compute. reflexivity. Qed.

(** ** Exactness

    Integers below 2^53 are represented exactly, and additions, subtractions
    and comparisons of them are those of [Z]. *)
Definition exact (z : Z) : Prop := 0 ≤ z < 2 ^ 53.

Lemma digits2_log2 p : Zpos (digits2_pos p) = Z.log2 (Zpos p) + 1.
Proof.
  induction p as [p IH|p IH|]; cbn [digits2_pos]; [| |done]; rewrite Pos2Z.inj_succ, IH.
  - rewrite (Pos2Z.inj_xI p), Z.log2_succ_double by lia. lia.
  - rewrite (Pos2Z.inj_xO p), Z.log2_double by lia. lia.
Qed.

Lemma zdigits_mul_pow2 z k : 0 < z → 0 ≤ k → Zdigits2 (z * 2 ^ k) = Z.log2 z + 1 + k.
Proof.
  intros Hz Hk. assert (0 < z * 2 ^ k) by (apply Z.mul_pos_pos; [done|by apply Z.pow_pos_nonneg]).
  destruct (z * 2 ^ k) as [|p|p] eqn:E; [lia| |lia]. cbn [Zdigits2].
  rewrite digits2_log2, <- E, Z.log2_mul_pow2 by lia. lia.
Qed.

Lemma pos_iter_xO m d : Zpos (Pos.iter xO m d) = Zpos m * 2 ^ Zpos d.
Proof.
  rewrite Pos2Nat.inj_iter, <- (positive_nat_Z d). induction (Pos.to_nat d) as [|n IH]; [cbn; lia|].
  rewrite Nat2Z.inj_succ, Z.pow_succ_r by lia. cbn [nat_rect]. rewrite Pos2Z.inj_xO, IH. lia.
Qed.

Lemma iter_pos_iter {A : Type} (f : A → A) (n : positive) (x : A) :
  SpecFloat.iter_pos f n x = Nat.iter (Pos.to_nat n) f x.
Proof.
  revert x. induction n as [n IH|n IH|]; intros x; cbn [SpecFloat.iter_pos]; [| |done]; rewrite !IH, <- Nat.iter_add.
  - rewrite Pos2Nat.inj_xI. rewrite <- (Nat.iter_succ_r (_ + _) f x). f_equal. lia.
  - rewrite Pos2Nat.inj_xO. f_equal. lia.
Qed.

Lemma shr_1_double z : 0 < z → shr_1 (Build_shr_record (2 * z) false false) = Build_shr_record z false false.
Proof. by destruct z. Qed.

Lemma shr_exact z e n :
  0 < z → 0 ≤ n →
  shr (Build_shr_record (z * 2 ^ n) false false) e n = (Build_shr_record z false false, e + n).
Proof.
  intros Hz Hn. destruct n as [|n|]; [|cbn [shr]|lia].
  { cbn [shr]. change (2 ^ 0) with 1. by rewrite Z.mul_1_r, Z.add_0_r. }
  f_equal. rewrite (iter_pos_iter shr_1), <- (positive_nat_Z n). induction (Pos.to_nat n) as [|k IH].
  { cbn. by rewrite Z.mul_1_r. }
  rewrite Nat2Z.inj_succ, Z.pow_succ_r by lia. rewrite Nat.iter_succ_r.
  replace (z * (2 * 2 ^ Z.of_nat k)) with (2 * (z * 2 ^ Z.of_nat k)) by lia.
  rewrite shr_1_double; [done|]. apply Z.mul_pos_pos; [done|]. apply Z.pow_pos_nonneg; lia.
Qed.

(** The float of an integer: 53 bits of mantissa *)
Definition f64_canon (z : Z) : f64 :=
  match z with
  | Zpos p => S754_finite false (Z.to_pos (z * 2 ^ (52 - Z.log2 z))) (Z.log2 z - 52)
  | _ => S754_zero false
  end.

Lemma log2_exact z : exact z → 0 ≤ Z.log2 z ≤ 52.
Proof.
  intros [H0 H1]. split; [apply Z.log2_nonneg|]. destruct (Z.eq_dec z 0) as [->|]; [done|].
  apply Z.lt_succ_r, Z.log2_lt_pow2; lia.
Qed.

Lemma fexp_small d : 1 ≤ d ≤ 53 → fexp 53 1024 d = d - 53.
Proof. unfold fexp, emin. lia. Qed.

Lemma round_aux_exact z k :
  0 < z → exact z → 52 - Z.log2 z ≤ k →
  binary_round_aux 53 1024 false (z * 2 ^ k) (- k) loc_Exact = f64_canon z.
Proof.
  intros Hz Hx Hk. pose proof (log2_exact z Hx) as Hl.
  unfold binary_round_aux, shr_fexp. cbn [shr_record_of_loc].
  rewrite zdigits_mul_pow2 by lia. rewrite fexp_small by lia.
  set (j := 52 - Z.log2 z). assert (Hj : 0 ≤ j) by lia.
  replace (z * 2 ^ k) with (z * 2 ^ j * 2 ^ (k - j)) by (rewrite <- Z.mul_assoc, <- Z.pow_add_r by lia; do 2 f_equal; lia).
  replace (Z.log2 z + 1 + k + - k - 53 - - k) with (k - j) by lia.
  assert (0 < z * 2 ^ j) by (apply Z.mul_pos_pos; [done|apply Z.pow_pos_nonneg; lia]).
  rewrite shr_exact by lia. cbn [shr_m loc_of_shr_record round_nearest_even shr_record_of_loc].
  rewrite zdigits_mul_pow2 by lia. rewrite fexp_small by lia.
  replace (_ - (- k + (k - j))) with 0 by lia. cbn [shr shr_m].
  destruct z as [|p|p]; [lia| |lia]. cbn [f64_canon]. fold j.
  destruct (Zpos p * 2 ^ j) as [|m|m] eqn:E; [lia| |lia]. cbn [Z.to_pos].
  rewrite (proj2 (Z.leb_le _ _)) by lia. f_equal. lia.
Qed.

Lemma binary_normalize_exact z k :
  exact z → 0 ≤ k → binary_normalize 53 1024 (z * 2 ^ k) (- k) false = f64_canon z.
Proof.
  intros Hx Hk. pose proof (log2_exact z Hx) as Hl.
  destruct (Z.eq_dec z 0) as [->|Hz]; [by rewrite Z.mul_0_l|]. assert (Hp : 0 < z) by (destruct Hx; lia).
  pose proof (zdigits_mul_pow2 z k Hp Hk) as Hd.
  assert (0 < z * 2 ^ k) by (apply Z.mul_pos_pos; [done|apply Z.pow_pos_nonneg; lia]).
  rewrite <- (round_aux_exact z (Z.max k (52 - Z.log2 z))) by (done || lia).
  destruct (z * 2 ^ k) as [|m|m] eqn:E; [lia| |lia]. cbn [binary_normalize Zdigits2] in *.
  unfold binary_round. rewrite Hd, fexp_small by lia. unfold shl_align.
  destruct (Z.log2 z + 1 + k + - k - 53 - - k) as [|d|d] eqn:Es.
  - rewrite <- E. rewrite Z.max_l by lia. done.
  - rewrite <- E. rewrite Z.max_l by lia. done.
  - rewrite pos_iter_xO, <- E, <- Z.mul_assoc, <- Z.pow_add_r by lia.
    rewrite Z.max_r by lia. f_equal; [do 2 f_equal|]; lia.
Qed.

Lemma f64_of_int_exact z : exact z → f64_of_int z = f64_canon z.
Proof. intros Hx. rewrite <- (binary_normalize_exact z 0) by done. unfold f64_of_int. by rewrite Z.mul_1_r. Qed.

(** The canonical float, on a common exponent *)
Lemma shl_canon z k :
  0 < z → exact z → 52 - Z.log2 z ≤ k →
  Zpos (fst (shl_align (Z.to_pos (z * 2 ^ (52 - Z.log2 z))) (Z.log2 z - 52) (- k))) = z * 2 ^ k.
Proof.
  intros Hz Hx Hk. pose proof (log2_exact z Hx) as Hl.
  assert (0 < z * 2 ^ (52 - Z.log2 z)) by (apply Z.mul_pos_pos; [done|apply Z.pow_pos_nonneg; lia]).
  unfold shl_align. destruct (- k - (Z.log2 z - 52)) as [|d|d] eqn:Ed; [|lia|]; cbn [fst].
  - rewrite Z2Pos.id by done. do 2 f_equal. lia.
  - rewrite pos_iter_xO, Z2Pos.id by done. rewrite <- Z.mul_assoc, <- Z.pow_add_r by lia. do 2 f_equal. lia.
Qed.

Lemma f64_canon_pos z :
  0 < z → f64_canon z = S754_finite false (Z.to_pos (z * 2 ^ (52 - Z.log2 z))) (Z.log2 z - 52).
Proof. by destruct z. Qed.

Section common_exponent.
Variables a b : Z.
Hypotheses (Ha : 0 < a) (Hb : 0 < b) (Hxa : exact a) (Hxb : exact b).

(** The exponent two canonical floats are aligned to *)
Definition align : Z := Z.max (52 - Z.log2 a) (52 - Z.log2 b).

Lemma align_spec :
  0 ≤ align ∧ Z.min (Z.log2 a - 52) (Z.log2 b - 52) = - align ∧
  Zpos (fst (shl_align (Z.to_pos (a * 2 ^ (52 - Z.log2 a))) (Z.log2 a - 52) (- align))) = a * 2 ^ align ∧
  Zpos (fst (shl_align (Z.to_pos (b * 2 ^ (52 - Z.log2 b))) (Z.log2 b - 52) (- align))) = b * 2 ^ align.
Proof.
  unfold align. pose proof (log2_exact a Hxa). pose proof (log2_exact b Hxb).
  split; [lia|]. split; [lia|]. split; apply shl_canon; (done || lia).
Qed.
End common_exponent.

Lemma f64_add_exact a b :
  exact a → exact b → exact (a + b) → f64_add (f64_of_int a) (f64_of_int b) = f64_of_int (a + b).
Proof.
  intros Hxa Hxb Hx. rewrite !f64_of_int_exact by done.
  destruct (Z.eq_dec a 0) as [->|Ha]; [by destruct b|]. destruct (Z.eq_dec b 0) as [->|Hb].
  { rewrite Z.add_0_r. destruct Hxa. rewrite (f64_canon_pos a) by lia. done. }
  assert (0 < a) by (destruct Hxa; lia). assert (0 < b) by (destruct Hxb; lia).
  rewrite (f64_canon_pos a), (f64_canon_pos b) by done.
  destruct (align_spec a b) as (Hk & Hm & Ea & Eb); [done..|].
  unfold f64_add. cbn [SFadd cond_Zopp]. rewrite Hm, Ea, Eb, <- Z.mul_add_distr_r. by apply binary_normalize_exact.
Qed.

(** The result of a subtraction that does not borrow *)
Lemma f64_sub_exact a b :
  exact a → exact b → b ≤ a → f64_sub (f64_of_int a) (f64_of_int b) = f64_of_int (a - b).
Proof.
  intros Hxa Hxb Hle. assert (Hx : exact (a - b)) by (unfold exact in *; lia). rewrite !f64_of_int_exact by done.
  destruct (Z.eq_dec b 0) as [->|Hb].
  { rewrite Z.sub_0_r. by destruct a. }
  assert (0 < b) by (destruct Hxb; lia). assert (0 < a) by lia.
  rewrite (f64_canon_pos a), (f64_canon_pos b) by done.
  destruct (align_spec a b) as (Hk & Hm & Ea & Eb); [done..|].
  unfold f64_sub. cbn [SFsub cond_Zopp]. rewrite Hm, Ea, Eb, <- Z.mul_sub_distr_r. by apply binary_normalize_exact.
Qed.

Lemma f64_compare_exact a b :
  exact a → exact b → SFcompare (f64_of_int a) (f64_of_int b) = Some (a ?= b).
Proof.
  intros Hxa Hxb. rewrite !f64_of_int_exact by done.
  destruct (Z.eq_dec a 0) as [->|Ha]; [by destruct b as [|b|b]; [| |destruct Hxb; lia]|].
  assert (0 < a) by (destruct Hxa; lia).
  destruct (Z.eq_dec b 0) as [->|Hb]; [by destruct a|]. assert (0 < b) by (destruct Hxb; lia).
  rewrite (f64_canon_pos a), (f64_canon_pos b) by done. cbn [SFcompare]. f_equal.
  pose proof (log2_exact a Hxa). pose proof (log2_exact b Hxb).
  destruct (Z.compare_spec (Z.log2 a - 52) (Z.log2 b - 52)) as [He|He|He].
  - replace (Z.log2 b) with (Z.log2 a) by lia. change (Pos.compare_cont Eq) with Pos.compare.
    set (j := 52 - Z.log2 a). assert (0 < 2 ^ j) by (apply Z.pow_pos_nonneg; lia).
    change (Z.to_pos (a * 2 ^ j) ?= Z.to_pos (b * 2 ^ j))%positive
      with (Zpos (Z.to_pos (a * 2 ^ j)) ?= Zpos (Z.to_pos (b * 2 ^ j))).
    rewrite !Z2Pos.id by (by apply Z.mul_pos_pos).
    rewrite <- !(Z.mul_comm (2 ^ j)). symmetry. by apply Zmult_compare_compat_l, Z.lt_gt.
  - symmetry. apply Z.compare_lt_iff, Z.log2_lt_cancel. lia.
  - symmetry. apply Z.compare_gt_iff, Z.log2_lt_cancel. lia.
Qed.

Lemma f64_gtb_exact a b : exact a → exact b → f64_gtb (f64_of_int a) (f64_of_int b) = (b <? a).
Proof.
  intros Hxa Hxb. unfold f64_gtb, SFltb. rewrite f64_compare_exact by done. unfold Z.ltb. done.
Qed.

Lemma f64_mul_exact a b :
  exact a → exact b → exact (a * b) → f64_mul (f64_of_int a) (f64_of_int b) = f64_of_int (a * b).
Proof.
  intros Hxa Hxb Hx. rewrite !f64_of_int_exact by done.
  destruct (Z.eq_dec a 0) as [->|Ha]; [by destruct b as [|b|b]; [| |destruct Hxb; lia]|].
  destruct (Z.eq_dec b 0) as [->|Hb]; [rewrite Z.mul_0_r; by destruct a as [|a|a]; [| |destruct Hxa; lia]|].
  assert (0 < a) by (destruct Hxa; lia). assert (0 < b) by (destruct Hxb; lia).
  pose proof (log2_exact a Hxa). pose proof (log2_exact b Hxb).
  rewrite (f64_canon_pos a), (f64_canon_pos b) by done. unfold f64_mul. cbn [SFmul xorb].
  assert (0 < a * 2 ^ (52 - Z.log2 a)) by (apply Z.mul_pos_pos; [done|apply Z.pow_pos_nonneg; lia]).
  assert (0 < b * 2 ^ (52 - Z.log2 b)) by (apply Z.mul_pos_pos; [done|apply Z.pow_pos_nonneg; lia]).
  rewrite Pos2Z.inj_mul, !Z2Pos.id by done. set (k := 104 - Z.log2 a - Z.log2 b).
  replace (a * 2 ^ (52 - Z.log2 a) * (b * 2 ^ (52 - Z.log2 b))) with (a * b * 2 ^ k)
    by (unfold k; replace (104 - Z.log2 a - Z.log2 b) with ((52 - Z.log2 a) + (52 - Z.log2 b)) by lia;
        rewrite Z.pow_add_r by lia; lia).
  replace (Z.log2 a - 52 + (Z.log2 b - 52)) with (- k) by (unfold k; lia).
  apply round_aux_exact; [by apply Z.mul_pos_pos|done|]. pose proof (Z.log2_mul_below a b). unfold k. lia.
Qed.

(** The cast back *)
Lemma f64_to_u64_exact z : exact z → f64_to_u64 (f64_of_int z) = z.
Proof.
  intros Hx. rewrite f64_of_int_exact by done. pose proof (log2_exact z Hx) as Hl.
  destruct (Z.eq_dec z 0) as [->|Hz]; [done|]. assert (0 < z) by (destruct Hx; lia).
  rewrite f64_canon_pos by done. cbn [f64_to_u64].
  assert (0 < z * 2 ^ (52 - Z.log2 z)) by (apply Z.mul_pos_pos; [done|apply Z.pow_pos_nonneg; lia]).
  rewrite Z2Pos.id by done. replace (Z.log2 z - 52) with (- (52 - Z.log2 z)) by lia.
  rewrite Z.shiftl_opp_r, Z.shiftr_div_pow2, Z.div_mul by (try apply Z.pow_nonzero; lia).
  unfold exact in Hx. unfold u64_max. lia.
Qed.
