(* ===== verification/NetworkPlaylist.v ===== *)
(** * types/src/core_types/network_playlist.rs

    The upstream nodes of a chain: choosing one, and refreshing which are in
    sync.  A URL is its text; what a node answers and the order in which the
    answers arrive are arguments. *)
From Stdlib Require Import ZArith Lia.
From stdpp Require Import base option list strings sorting.
From S2P Require Import Prelude F64.

Open Scope list_scope.
Open Scope Z_scope.

(** [diem_types::chain_id::NamedChain]: the chains the code names *)
Inductive NamedChain := MAINNET | TESTNET | TESTING | OtherChain (id : Z).
#[export] Instance named_chain_eq_dec : EqDecision NamedChain.
Proof. solve_decision. Defined.

Notation Url := string.

Record HostProfile := mk_host_profile {
  url : Url;
  note : string;
  version : Z;
  is_api : bool;
  is_sync : bool
}.
Definition host_default : HostProfile :=
  mk_host_profile "http://localhost:8080" "default" 0 false false.
Definition host_new (u : Url) : HostProfile :=
  mk_host_profile u (note host_default) (version host_default) (is_api host_default) (is_sync host_default).

Record NetworkPlaylist := mk_playlist { chain_name : NamedChain; nodes : list HostProfile }.
Definition playlist_default : NetworkPlaylist := mk_playlist MAINNET [host_default].

Definition find_default_playlist (chain_id : option NamedChain) : Url :=
  match chain_id with
  | Some TESTNET =>
      "https://raw.githubusercontent.com/0LNetworkCommunity/seed-peers/main/fullnode_seed_playlist_testnet.json"
  | _ => "https://raw.githubusercontent.com/0LNetworkCommunity/seed-peers/main/fullnode_seed_playlist.json"
  end%string.

Definition replace_all_urls (u : Url) (np : NetworkPlaylist) : NetworkPlaylist :=
  mk_playlist (chain_name np) [host_new u].
Definition add_url (u : Url) (np : NetworkPlaylist) : NetworkPlaylist :=
  mk_playlist (chain_name np) (nodes np ++ [host_new u]).

Definition playlist_new (u : option Url) (chain : option NamedChain) : NetworkPlaylist :=
  let np := match u with Some u => replace_all_urls u playlist_default | None => playlist_default end in
  match chain with Some n => mk_playlist n (nodes np) | None => np end.

Definition localhost (chain : option NamedChain) : NetworkPlaylist :=
  mk_playlist (default MAINNET chain) [mk_host_profile "http://localhost:8080" "localhost" 0 true true].

(** [fetch]: the response of the URL, parsed *)
Definition from_playlist_url (fetch : Url → outcome NetworkPlaylist) (u : Url) (chain_id : option NamedChain)
    : outcome NetworkPlaylist :=
  play ← fetch u;
  Ok (match chain_id with Some c => mk_playlist c (nodes play) | None => play end).

Definition default_for_network (fetch : Url → outcome NetworkPlaylist) (chain_id : option NamedChain)
    : outcome NetworkPlaylist :=
  match chain_id with
  | Some TESTING => Ok (playlist_new None (Some TESTING))
  | _ => from_playlist_url fetch (find_default_playlist chain_id) chain_id
  end.

Definition all_urls (np : NetworkPlaylist) : outcome (list Url) := Ok (url <$> nodes np).
Definition the_good_ones (np : NetworkPlaylist) : outcome (list Url) :=
  let list_urls := omap (fun e => if is_sync e && is_api e then Some (url e) else None) (nodes np) in
  match list_urls with [] => Err "no verified nodes found" | _ => Ok list_urls end.
Definition the_best_one (np : NetworkPlaylist) : outcome Url :=
  l ← the_good_ones np;
  match l with u :: _ => Ok u | [] => Err "Expected an URL for the best one" end.
Definition pick_one (np : NetworkPlaylist) : outcome Url :=
  match the_best_one np with
  | Ok u => Ok u
  | Panic p => Panic p
  | Err _ => l ← all_urls np; context_opt "no urls to choose from" (head l)
  end.

(** [check_sync]: [ledger_version] is the node's index, when it answers. *)
Definition check_sync (ledger_version : Url → option Z) (p : HostProfile) : HostProfile :=
  match ledger_version (url p) with
  | Some v => mk_host_profile (url p) (note p) v true (is_sync p)
  | None => mk_host_profile (url p) (note p) (version p) false (is_sync p)
  end.

(** [slice::sort_by_key] is stable. *)
Fixpoint insert_by_version (p : HostProfile) (l : list HostProfile) : list HostProfile :=
  match l with
  | [] => [p]
  | q :: l' => if version p <=? version q then p :: l else q :: insert_by_version p l'
  end.
Fixpoint sort_by_version (l : list HostProfile) : list HostProfile :=
  match l with [] => [] | p :: l' => insert_by_version p (sort_by_version l') end.

(** The wrapping sum of the wrapping squares, and its root mean as [f64] *)
Definition sum_squares (l : list HostProfile) : Z :=
  foldl (fun acc p => u64_add acc (u64_mul (version p) (version p))) 0 l.
Definition rms (l : list HostProfile) : f64 :=
  f64_sqrt (f64_div (f64_of_int (sum_squares l)) (f64_of_int (Z.of_nat (length l)))).
Definition mark_sync (r : f64) (p : HostProfile) : HostProfile :=
  if f64_geb (f64_of_int (version p)) r
  then mk_host_profile (url p) (note p) (version p) (is_api p) true else p.

(** [sync_list] is the checked nodes in the order they answered. *)
Definition refresh_sync_status (sync_list : list HostProfile) (np : NetworkPlaylist) : NetworkPlaylist :=
  mk_playlist (chain_name np) (sort_by_version (mark_sync (rms sync_list) <$> sync_list)).

(** ** Lemmas *)
Lemma u64_add_swap a x y : u64_add (u64_add a x) y = u64_add (u64_add a y) x.
Proof. unfold u64_add, u64_wrap. rewrite !Zplus_mod_idemp_l. f_equal. lia. Qed.

(** The threshold does not depend on the order of the answers. *)
#[export] Instance sum_squares_perm : Proper ((≡ₚ) ==> (=)) sum_squares.
Proof.
  intros l k Hl. unfold sum_squares. generalize 0 as a.
  induction Hl as [|p l k Hl IH|p q l|l1 l2 l3 H1 IH1 H2 IH2]; intros a; cbn [foldl].
  - done.
  - apply IH.
  - by rewrite u64_add_swap.
  - by rewrite IH1, IH2.
Qed.
#[export] Instance rms_perm : Proper ((≡ₚ) ==> (=)) rms.
Proof. intros l k Hl. unfold rms. by rewrite Hl. Qed.

Definition older (p q : HostProfile) : Prop := version p ≤ version q.
Definition good (p : HostProfile) : bool := is_sync p && is_api p.

Lemma insert_by_version_perm p l : insert_by_version p l ≡ₚ p :: l.
Proof.
  induction l as [|q l IH]; cbn; [done|]. destruct (_ <=? _); [done|]. rewrite IH. apply Permutation_swap.
Qed.

Lemma sort_by_version_perm l : sort_by_version l ≡ₚ l.
Proof. induction l as [|p l IH]; cbn; [done|]. by rewrite insert_by_version_perm, IH. Qed.

Lemma insert_by_version_sorted p l : StronglySorted older l → StronglySorted older (insert_by_version p l).
Proof.
  induction 1 as [|q l Hs IH Hq]; cbn; [by repeat constructor|].
  destruct (Z.leb_spec (version p) (version q)).
  - constructor; [by constructor|]. constructor; [done|].
    apply (Forall_impl _ _ _ Hq). intros x Hx. unfold older in *. lia.
  - constructor; [done|]. rewrite insert_by_version_perm. constructor; [unfold older; lia|done].
Qed.

Lemma sort_by_version_sorted l : StronglySorted older (sort_by_version l).
Proof. induction l as [|p l IH]; cbn; [constructor|]. by apply insert_by_version_sorted. Qed.

Lemma the_best_one_head np :
  the_best_one np = match head (filter (fun p => good p = true) (nodes np)) with
                    | Some p => Ok (url p) | None => Err "no verified nodes found" end.
Proof.
  unfold the_best_one, the_good_ones. induction (nodes np) as [|p l IH]; [done|].
  rewrite filter_cons. cbn [omap list_omap]. unfold good. destruct (is_sync p && is_api p) eqn:E; [done|].
  rewrite decide_False by done. exact IH.
Qed.

Lemma head_sorted_min l p q :
  StronglySorted older l → head (filter (fun p => good p = true) l) = Some p →
  q ∈ l → good q = true → version p ≤ version q.
Proof.
  induction 1 as [|x l Hs IH Hx]; [done|]. rewrite filter_cons.
  destruct (decide (good x = true)) as [Hg|Hg]; cbn [head].
  - intros [= ->] [->|Hq]%elem_of_cons _; [done|].
    by apply (proj1 (Forall_forall _ _) Hx).
  - intros Hp [->|Hq]%elem_of_cons Hgq; [done|]. by apply IH.
Qed.

(** ** Properties *)

(** refreshing keeps every node, with the version it answered and its API
    flag; a node becomes in sync exactly when its version is not below the root
    mean square, and stays so; whatever the order of the answers, the nodes end
    up by increasing version, so the one picked as best is the least advanced
    of those in sync and answering; when there is none, the first of all. *)
Theorem refresh_sync_status_spec ledger_version sync_list np :
  sync_list ≡ₚ check_sync ledger_version <$> nodes np →
  let np' := refresh_sync_status sync_list np in
  let answers := check_sync ledger_version <$> nodes np in
  nodes np' ≡ₚ mark_sync (rms answers) <$> answers ∧
  StronglySorted older (nodes np') ∧
  (∀ p, p ∈ nodes np' → is_api p = bool_decide (is_Some (ledger_version (url p)))) ∧
  (∀ u, the_best_one np' = Ok u →
     pick_one np' = Ok u ∧
     ∃ p, p ∈ nodes np' ∧ url p = u ∧ good p = true ∧
       ∀ q, q ∈ nodes np' → good q = true → version p ≤ version q) ∧
  (is_err (the_best_one np') = true →
     pick_one np' = context_opt "no urls to choose from" (head (url <$> nodes np'))).
Proof.
  intros Hl np' answers. fold answers in Hl.
  assert (Hperm : nodes np' ≡ₚ mark_sync (rms answers) <$> answers).
  { cbn [np' nodes refresh_sync_status]. rewrite sort_by_version_perm, (rms_perm _ _ Hl). by rewrite Hl. }
  split; [exact Hperm|]. split; [apply sort_by_version_sorted|]. split; [|split].
  - intros p. rewrite Hperm. intros (q & -> & (x & -> & Hx)%list_elem_of_fmap)%list_elem_of_fmap.
    unfold mark_sync, check_sync. destruct (ledger_version (url x)) eqn:E; cbn;
      destruct (f64_geb _ _); cbn; rewrite E; done.
  - intros u Hu. split; [unfold pick_one; by rewrite Hu|].
    rewrite the_best_one_head in Hu. destruct (head _) as [p|] eqn:Ep; [|done]. injection Hu as <-.
    assert (Hin : p ∈ filter (fun p => good p = true) (nodes np')).
    { destruct (filter _ _); [done|]. injection Ep as ->. by left. }
    apply list_elem_of_filter in Hin as [Hg Hin]. exists p. split; [done|]. split; [done|]. split; [done|].
    intros q Hq Hgq. by apply (head_sorted_min (nodes np')); [apply sort_by_version_sorted| | |].
  - intros He. unfold pick_one. destruct (the_best_one np'); done.
Qed.

(** ** Witness: two answering nodes, one behind, and a silent one *)
Definition sample_playlist : NetworkPlaylist :=
  mk_playlist TESTNET [host_new "http://a"; host_new "http://b"; host_new "http://c"].
Definition sample_version (u : Url) : option Z :=
  if decide (u = "http://a"%string) then Some 90
  else if decide (u = "http://b"%string) then Some 100 else None.
Definition sample_answers : list HostProfile := rev (check_sync sample_version <$> nodes sample_playlist).

Lemma refresh_sync_status_spec_witness :
  let np' := refresh_sync_status sample_answers sample_playlist in
  let answers := check_sync sample_version <$> nodes sample_playlist in
  nodes np' ≡ₚ mark_sync (rms answers) <$> answers ∧
  StronglySorted older (nodes np') ∧
  (∀ p, p ∈ nodes np' → is_api p = bool_decide (is_Some (sample_version (url p)))) ∧
  (∀ u, the_best_one np' = Ok u →
     pick_one np' = Ok u ∧
     ∃ p, p ∈ nodes np' ∧ url p = u ∧ good p = true ∧
       ∀ q, q ∈ nodes np' → good q = true → version p ≤ version q) ∧
  (is_err (the_best_one np') = true →
     pick_one np' = context_opt "no urls to choose from" (head (url <$> nodes np'))).
Proof.
  apply (refresh_sync_status_spec sample_version sample_answers sample_playlist).
  unfold sample_answers. symmetry. apply Permutation_rev.
Defined.

(** Of the nodes at versions 90 and 100, the one at 90 is picked. *)
Example sample_pick : pick_one (refresh_sync_status sample_answers sample_playlist) = Ok "http://a"%string.
Proof. vm_compute. reflexivity. Qed.
