(* ===== verification/Pledge.v ===== *)
(** * types/src/core_types/pledge.rs and mode_ol.rs

    The canonical pledges, their hashes, and the chain mode of the process.
    SHA3-256 is a parameter ([HashValue::sha3_256_of] of diem_crypto); the answer of the prompt is an argument. *)
From Stdlib Require Import ZArith Lia Ascii.
From stdpp Require Import base option list strings.
From S2P Require Import Prelude RustStr Bytes HashValue F64 NetworkPlaylist.

Open Scope list_scope.
Open Scope Z_scope.

(** ** mode_ol.rs: [MODE_0L], from the environment variable, if any;
    [parse] is [NamedChain::from_str]. *)
Definition char_upper (c : ascii) : ascii :=
  let n := nat_of_ascii c in
  if ((97 <=? n) && (n <=? 122))%nat then ascii_of_nat (n - 32) else c.
Fixpoint str_upper (s : string) : string :=
  match s with EmptyString => EmptyString | String c s' => String (char_upper c) (str_upper s') end.
Definition MODE_0L (parse : string → option NamedChain) (var : option string) : NamedChain :=
  default MAINNET (parse (str_upper (default "MAINNET"%string var))).

(** ** pledge.rs *)
Record Pledge := mk_pledge {
  id : Z;
  name : string;
  p_version : Z;
  hash : bytes;
  question : string;
  preamble : string;
  p_on_chain : bool
}.

Section pledge.
  Context `{Sha3}.

Definition to_hash (p : Pledge) : Pledge :=
  mk_pledge (id p) (name p) (p_version p)
    (sha3_256 (str_bytes (question p +:+ preamble p)))
    (question p) (preamble p) (p_on_chain p).

Definition pledge_protect_the_game : Pledge := to_hash (mk_pledge 0 "Protect the Game" 0 []
  "Do you pledge to not damage the game and never cheat other users?"
  "Code is not law at Open Libra. The law is law. The law comes from history.

I understand written and unwritten laws come from social norms. I will refer to the expectations of this community based on canonical instructions, code documentation, and common sense to know when I'm cheating at the game, or otherwise unlawfully disadvantaging someone for my benefit.

Cheating can include, but is not limited to: gaining an advantage in a way that would be impossible unless it was covert, dishonest, untrue, or otherwise using an expected common courtesy others have extended to me which I'm not willing to return."
  false).

Definition pledge_validator : Pledge := to_hash (mk_pledge 1 "Operate in Good Faith" 0 []
  "Do you pledge to be a validator that acts in good faith to secure the network?"
  "When taking this pledge you are also taking the Protect the Game pledge:
'I pledge to not damage the game and never cheat other users'.

Additionally you pledge to: obey the blockchain's policies as intended, some of which may be encoded as smart contracts, not pretend to be multiple people (sybil), not change the blockchain settings or software without consulting the community, run the blockchain security software (e.g validator, and fullnode software) as intended and in its entirety."
  false).

Definition check_pledge_hash (pledge_idx : Z) (bs : bytes) : outcome bool :=
  if pledge_idx =? 0 then Ok (bool_decide (bs = hash pledge_protect_the_game))
  else if pledge_idx =? 1 then Ok (bool_decide (bs = hash pledge_validator))
  else rust_assert (pledge_idx <? 2) "pledge index not found";; Ok false.

Definition pledge_dialogue (mode : NamedChain) (answer : string → bool) (p : Pledge) : bool :=
  if negb (bool_decide (mode = MAINNET)) then true else answer (question p).

End pledge.
