(* ===== verification/AppCfg.v ===== *)
(** * types/src/core_types/app_cfg.rs

    The configuration of the tools: user profiles looked up by a fragment of
    their address or nickname, the pledges they took, the network playlists,
    transaction costs, and the configuration file. *)
From Stdlib Require Import ZArith Lia Ascii.
From stdpp Require Import base option list strings gmap.
From S2P Require Import Prelude RustStr Bytes FileSystem MoveTypes HashValue F64 NetworkPlaylist Pledge Compare.

Open Scope list_scope.
Open Scope Z_scope.

Definition CONFIG_FILE_NAME : string := "libra-cli-config.yaml".

Record Workspace := mk_workspace {
  default_profile : option string;
  default_chain_id : NamedChain;
  node_home : path
}.

Record Profile := mk_profile {
  account : AccountAddress;
  auth_key : bytes;
  test_private_key : option bytes;
  nickname : string;
  on_chain : bool;
  balance : SlowWalletBalance;
  locale : option string;
  statement : string;
  pledges : option (list Pledge)
}.

Record TxCost := mk_tx_cost {
  max_gas_unit_for_tx : Z;
  coin_price_per_unit : Z;
  user_tx_timeout : Z
}.
Record TxConfigs := mk_tx_configs {
  baseline_cost : TxCost;
  critical_txs_cost : option TxCost;
  management_txs_cost : option TxCost;
  miner_txs_cost : option TxCost;
  cheap_txs_cost : option TxCost
}.
Inductive TxType := Baseline | Critical | Mgmt | Miner | Cheap.

Record AppCfg := mk_cfg {
  workspace : Workspace;
  user_profiles : list Profile;
  network_playlist : list NetworkPlaylist;
  tx_configs : TxConfigs
}.

(** [GAS_UNIT_PRICE] and [MAX_GAS_AMOUNT] of diem_global_constants; the
    directory [global_config_dir()]; serde_yaml on the configuration, which
    reads back what it wrote. *)
Class AppCfgEnv := {
  GAS_UNIT_PRICE : Z;
  MAX_GAS_AMOUNT : Z;
  global_config_dir : path;
  cfg_to_yaml : AppCfg → string;
  cfg_from_yaml : string → outcome AppCfg;
  cfg_yaml_law c : cfg_from_yaml (cfg_to_yaml c) = Ok c
}.

Definition set_default (p : string) (w : Workspace) : Workspace :=
  mk_workspace (Some p) (default_chain_id w) (node_home w).
Definition set_chain_id (c : NamedChain) (cfg : AppCfg) : AppCfg :=
  mk_cfg (mk_workspace (default_profile (workspace cfg)) c (node_home (workspace cfg)))
    (user_profiles cfg) (network_playlist cfg) (tx_configs cfg).
Definition with_profiles (ps : list Profile) (cfg : AppCfg) : AppCfg :=
  mk_cfg (workspace cfg) ps (network_playlist cfg) (tx_configs cfg).
Definition with_playlists (l : list NetworkPlaylist) (cfg : AppCfg) : AppCfg :=
  mk_cfg (workspace cfg) (user_profiles cfg) l (tx_configs cfg).

Section costs.
  Context `{AppCfgEnv}.

Definition tx_cost_new (units : Z) (price_multiplier : Z) (min_gas_price : option Z) : TxCost :=
  mk_tx_cost units
    (f64_to_u64 (f64_mul (f64_of_int (Z.max GAS_UNIT_PRICE (default 1 min_gas_price)))
                         (f64_of_int price_multiplier)))
    5000.
Definition default_baseline_cost : TxCost := tx_cost_new (MAX_GAS_AMOUNT / 50) 2 None.
Definition default_critical_txs_cost : TxCost := tx_cost_new (MAX_GAS_AMOUNT / 6) 5 None.
Definition default_management_txs_cost : TxCost := tx_cost_new (MAX_GAS_AMOUNT / 12) 4 None.
Definition default_miner_txs_cost : TxCost := tx_cost_new (MAX_GAS_AMOUNT / 25) 3 None.
Definition default_cheap_txs_cost : TxCost := tx_cost_new (MAX_GAS_AMOUNT / 100) 1 None.
Definition prod_baseline_cost : TxCost := tx_cost_new (MAX_GAS_AMOUNT / 50) 2 (Some 100).
Definition framework_upgrade : TxCost := tx_cost_new 100000 50 (Some 100).

Definition tx_configs_default : TxConfigs :=
  mk_tx_configs default_baseline_cost (Some default_critical_txs_cost)
    (Some default_management_txs_cost) (Some default_miner_txs_cost) (Some default_cheap_txs_cost).

Definition get_cost (c : TxConfigs) (tx_type : option TxType) : TxCost :=
  let cost := match tx_type with
              | Some Critical => critical_txs_cost c
              | Some Mgmt => management_txs_cost c
              | Some Miner => miner_txs_cost c
              | Some Cheap => cheap_txs_cost c
              | _ => Some (baseline_cost c)
              end in
  default default_baseline_cost cost.

End costs.

Section profiles.
  Context `{DiemAddress, Sha3}.
  (** [*MODE_0L] of the process *)
  Context (mode : NamedChain).

(** A literal of 31 bytes is compared with one of 32. *)
Definition get_nickname (acc : AccountAddress) : outcome string :=
  let s := addr_to_string acc in
  head ← slice 0 31 s;
  if String.eqb head "00000000000000000000000000000000" then slice 32 36 s
  else slice 0 4 s.

Definition profile_default : Profile :=
  mk_profile addr_ZERO (repeat 0 32) None "default" false (mk_slow_balance 0 0) None
    "Protests rage across the nation" None.
Definition profile_new (auth : bytes) (acc : AccountAddress) : outcome Profile :=
  n ← get_nickname acc;
  Ok (mk_profile acc auth None n false (mk_slow_balance 0 0) None "Protests rage across the nation" None).

Definition with_pledges (l : option (list Pledge)) (p : Profile) : Profile :=
  mk_profile (account p) (auth_key p) (test_private_key p) (nickname p) (on_chain p) (balance p)
    (locale p) (statement p) l.

Definition borrow_private_key (p : Profile) : outcome bytes :=
  context_opt "no private key found" (test_private_key p).

Definition push_pledge (new : Pledge) (p : Profile) : Profile :=
  match pledges p with
  | Some l => if existsb (fun e => id e =? id new) l then p else with_pledges (Some (l ++ [new])) p
  | None => with_pledges (Some [new]) p
  end.

(** [any]: stops at the first entry that holds; the hash is looked at only
    when the id is 0. *)
Fixpoint any_pledge (pledge_id : Z) (l : list Pledge) : outcome bool :=
  match l with
  | [] => Ok false
  | e :: l' =>
      b ← (if id e =? 0 then check_pledge_hash pledge_id (hash e) else Ok false);
      match b with true => Ok true | false => any_pledge pledge_id l' end
  end.
Definition check_has_pledge (pledge_id : Z) (p : Profile) : outcome bool :=
  if negb (bool_decide (mode = MAINNET)) then Ok true else
  match pledges p with
  | Some l => any_pledge pledge_id l
  | None => Ok false
  end.

Definition maybe_offer (answer : string → bool) (pledge_id : Z) (new : Pledge) (p : Profile) : outcome Profile :=
  has ← check_has_pledge pledge_id p;
  Ok (if negb has && pledge_dialogue mode answer new then push_pledge new p else p).
Definition maybe_offer_basic_pledge (answer : string → bool) (p : Profile) : outcome Profile :=
  maybe_offer answer 0 pledge_protect_the_game p.
Definition maybe_offer_validator_pledge (answer : string → bool) (p : Profile) : outcome Profile :=
  maybe_offer answer 1 pledge_validator p.

(** ** Looking profiles up *)
Definition profile_matches (n : string) (e : Profile) : bool :=
  contains n (nickname e) || contains n (addr_to_string (account e)).

Definition get_profile_idx (nickname : option string) (cfg : AppCfg) : outcome nat :=
  match user_profiles cfg with
  | [] => Err "no profiles found"
  | [_] => Ok O
  | ps =>
      let nickname := match nickname with None => default_profile (workspace cfg) | Some n => Some n end in
      match nickname with
      | Some n => context_opt "could not find a profile"
                    (fst <$> list_find (fun e => profile_matches n e = true) ps)
      | None => Err "no profiles found"
      end
  end.

Definition get_profile (nickname : option string) (cfg : AppCfg) : outcome Profile :=
  idx ← unwrap_or O (get_profile_idx nickname cfg);
  p ← context_opt "no profile at index" (user_profiles cfg !! idx);
  check_has_pledge 0 p;;
  Ok p.

Definition get_block_dir (nickname : option string) (cfg : AppCfg) : outcome path :=
  profile ← get_profile nickname cfg;
  Ok (path_join (node_home (workspace cfg)) ("vdf_proofs_" +:+ addr_to_string (account profile))).

(** [*p = profile] for the first with the account, [push] otherwise *)
Fixpoint replace_profile (profile : Profile) (ps : list Profile) : option (list Profile) :=
  match ps with
  | [] => None
  | e :: ps' =>
      if decide (account e = account profile) then Some (profile :: ps')
      else match replace_profile profile ps' with Some l => Some (e :: l) | None => None end
  end.
Definition maybe_add_profile (profile : Profile) (cfg : AppCfg) : AppCfg :=
  match user_profiles cfg with
  | [] => with_profiles [profile] cfg
  | ps => with_profiles (default (ps ++ [profile]) (replace_profile profile ps)) cfg
  end.

Definition try_remove_profile (nickname : string) (cfg : AppCfg) : outcome AppCfg :=
  idx ← get_profile_idx (Some nickname) cfg;
  rust_assert (idx <? length (user_profiles cfg))%nat "removal index should be < len";;
  Ok (with_profiles (delete idx (user_profiles cfg)) cfg).

(** ** Network playlists *)
Definition get_network_profile (chain_id : option NamedChain) (cfg : AppCfg) : outcome NetworkPlaylist :=
  let np := network_playlist cfg in
  let chain_id := default (default_chain_id (workspace cfg)) chain_id in
  ensure (match np with [] => false | _ => true end) "no network profiles available";;
  context_opt "could not find a network profile"
    (snd <$> list_find (fun each => chain_name each = chain_id) np).

Definition maybe_add_custom_playlist (new_playlist : NetworkPlaylist) (cfg : AppCfg) : AppCfg :=
  let same play := bool_decide (chain_name play = chain_name new_playlist) in
  let l := (fun play => if same play then new_playlist else play) <$> network_playlist cfg in
  let found := existsb same (network_playlist cfg) in
  with_playlists (if found then l else l ++ [new_playlist]) cfg.

Definition update_network_playlist (fetch : Url → outcome NetworkPlaylist) (chain_id : option NamedChain)
    (playlist_url : option Url) (cfg : AppCfg) : outcome (NetworkPlaylist * AppCfg) :=
  let url := default (find_default_playlist chain_id) playlist_url in
  np ← from_playlist_url fetch url chain_id;
  Ok (np, maybe_add_custom_playlist np cfg).

Definition pick_url (chain_id : option NamedChain) (cfg : AppCfg) : outcome Url :=
  np ← get_network_profile chain_id cfg;
  pick_one np.

(** ** The file *)
Context `{AppCfgEnv}.

Definition save_file (cfg : AppCfg) (fs : file_system) : outcome (path * file_system) :=
  let yaml := cfg_to_yaml cfg in
  let home_path := node_home (workspace cfg) in
  fs ← (if exists_ home_path fs then Ok fs else create_dir_all home_path fs);
  let toml_path := path_join home_path CONFIG_FILE_NAME in
  fs ← file_create toml_path fs;
  Ok (toml_path, write_all toml_path yaml fs).

Definition default_file_path : path := path_join global_config_dir CONFIG_FILE_NAME.
Definition load (file : option path) (fs : file_system) : outcome AppCfg :=
  let p := default default_file_path file in
  if exists_ p fs then
    s ← read_to_string p fs;
    context_res "could not read file into an AppCfg. Is there an issue with the file?" (cfg_from_yaml s)
  else Err "libra-cli-config.yaml dir does not exist".

Definition workspace_default : Workspace := mk_workspace None MAINNET global_config_dir.
Definition cfg_default : AppCfg := mk_cfg workspace_default [] [] tx_configs_default.

Definition init_app_configs (authkey : bytes) (acc : AccountAddress) (config_path : option path)
    (chain : option NamedChain) (playlist : option NetworkPlaylist) (fs : file_system)
    : outcome (AppCfg * file_system) :=
  profile ← profile_new authkey acc;
  let chain_id := match playlist with
                  | Some np => chain_name np
                  | None => default (default_chain_id workspace_default) chain
                  end in
  let cfg := mk_cfg (mk_workspace (Some (nickname profile)) chain_id (default global_config_dir config_path))
               [profile] (match playlist with Some np => [np] | None => [] end) tx_configs_default in
  '(_, fs') ← save_file cfg fs;
  Ok (cfg, fs').

(** The refreshed playlist is a clone; the configuration saved is the old one. *)
Definition refresh_network_profile_and_save (answers : NetworkPlaylist → list HostProfile)
    (chain_id : option NamedChain) (cfg : AppCfg) (fs : file_system) : outcome (NetworkPlaylist * file_system) :=
  np ← get_network_profile chain_id cfg;
  let np := refresh_sync_status (answers np) np in
  '(_, fs') ← save_file cfg fs;
  Ok (np, fs').

End profiles.

(** ** Lemmas *)
Section facts.
  Context `{DiemAddress, Sha3}.
  Context (mode : NamedChain).

Lemma get_nickname_ok a :
  addr_wf a → get_nickname a = Ok (String.substring 0 4 (fmt_02x a)).
Proof.
  intros Ha. unfold get_nickname. rewrite addr_to_string_law by done.
  assert (Hl : String.length (fmt_02x a) = 64%nat).
  { unfold fmt_02x. rewrite fmt_hex_length. destruct Ha as [-> _]. done. }
  unfold slice. rewrite Hl. cbn [Nat.leb andb mbind outcome_bind Nat.sub].
  destruct (String.eqb_spec (String.substring 0 31 (fmt_02x a)) "00000000000000000000000000000000")
    as [E|_]; [|done].
  apply (f_equal String.length) in E. rewrite substring_length in E by (rewrite Hl; lia). done.
Qed.

Lemma profile_new_ok auth a :
  addr_wf a → profile_new auth a = Ok (mk_profile a auth None (String.substring 0 4 (fmt_02x a)) false
    (mk_slow_balance 0 0) None "Protests rage across the nation" None).
Proof. intros Ha. unfold profile_new. by rewrite get_nickname_ok. Qed.

Lemma any_pledge_0 l :
  any_pledge 0 l = Ok (existsb (fun e => (id e =? 0) && bool_decide (hash e = hash pledge_protect_the_game)) l).
Proof.
  induction l as [|e l IH]; cbn [any_pledge existsb]; [done|]. rewrite IH.
  destruct (id e =? 0); cbn [check_pledge_hash mbind outcome_bind andb]; [|done].
  unfold check_pledge_hash. cbn [Z.eqb mbind outcome_bind]. by destruct (bool_decide _).
Qed.

Lemma any_pledge_1 l :
  any_pledge 1 l = Ok (existsb (fun e => (id e =? 0) && bool_decide (hash e = hash pledge_validator)) l).
Proof.
  induction l as [|e l IH]; cbn [any_pledge existsb]; [done|]. rewrite IH.
  destruct (id e =? 0); cbn [mbind outcome_bind andb]; [|done].
  unfold check_pledge_hash. cbn [Z.eqb mbind outcome_bind]. by destruct (bool_decide _).
Qed.

Lemma check_has_pledge_total p : ∃ b, check_has_pledge mode 0 p = Ok b.
Proof.
  unfold check_has_pledge. destruct (negb _); [by eexists|].
  destruct (pledges p); [rewrite any_pledge_0|]; by eexists.
Qed.

(** [get_profile] is the lookup by index, or the first profile. *)
Lemma get_profile_lookup n cfg :
  get_profile mode n cfg =
    context_opt "no profile at index"
      (user_profiles cfg !! match get_profile_idx n cfg with Ok i => i | _ => O end).
Proof.
  unfold get_profile.
  assert (Hidx : unwrap_or O (get_profile_idx n cfg)
                 = Ok (match get_profile_idx n cfg with Ok i => i | _ => O end)).
  { unfold get_profile_idx. destruct (user_profiles cfg) as [|p [|q ps]]; [done|done|].
    destruct (match n with None => _ | Some n0 => _ end) as [f|]; [|done].
    by destruct (fst <$> _). }
  rewrite Hidx. cbn [mbind outcome_bind]. destruct (_ !! _) as [p|]; [|done].
  cbn [context_opt mbind outcome_bind]. by destruct (check_has_pledge_total p) as [b ->].
Qed.

Lemma list_find_first {A} (P : A → Prop) `{∀ x, Decision (P x)} l i x :
  l !! i = Some x → P x → (∀ j y, l !! j = Some y → P y → j = i) → list_find P l = Some (i, x).
Proof.
  intros Hi Hx Hu. apply list_find_Some. split; [done|]. split; [done|].
  intros j y Hj Hlt Hy. pose proof (Hu j y Hj Hy). lia.
Qed.

(** A profile's own address finds it, when the nicknames are shorter than an
    address and no account appears twice. *)
Definition profiles_ok (ps : list Profile) : Prop :=
  NoDup (account <$> ps) ∧
  Forall (fun p => addr_wf (account p) ∧ (String.length (nickname p) < 64)%nat) ps.

Lemma contains_length p s : contains p s = true → (String.length p ≤ String.length s)%nat.
Proof. intros (a & b & ->)%contains_spec. rewrite !str_app_length. lia. Qed.

Lemma contains_same_length p s : contains p s = true → String.length p = String.length s → p = s.
Proof.
  intros (a & b & ->)%contains_spec. rewrite !str_app_length. intros Hl.
  assert (Ha : a = EmptyString) by (destruct a; [done|cbn in Hl; lia]).
  assert (Hb : b = EmptyString) by (destruct b; [done|cbn in Hl; lia]).
  subst. cbn. by rewrite str_app_nil_r.
Qed.

Lemma matches_own p q :
  addr_wf (account p) → addr_wf (account q) → (String.length (nickname q) < 64)%nat →
  profile_matches (addr_to_string (account p)) q = true ↔ account q = account p.
Proof.
  intros Hp Hq Hn. unfold profile_matches. rewrite !addr_to_string_law by done.
  assert (Hl : ∀ a, addr_wf a → String.length (fmt_02x a) = 64%nat).
  { intros a [Ha _]. unfold fmt_02x. rewrite fmt_hex_length, Ha. done. }
  rewrite orb_true_iff. split.
  - intros [Hc|Hc].
    + apply contains_length in Hc. rewrite Hl in Hc by done. lia.
    + apply contains_same_length in Hc; [|by rewrite !Hl by done].
      apply fmt_02x_inj in Hc; [done|by destruct Hp|by destruct Hq].
  - intros ->. right. apply contains_spec. exists EmptyString, EmptyString.
    cbn. by rewrite str_app_nil_r.
Qed.

Lemma get_profile_own cfg p :
  profiles_ok (user_profiles cfg) → p ∈ user_profiles cfg →
  get_profile mode (Some (addr_to_string (account p))) cfg = Ok p.
Proof.
  intros [Hnd Hall] Hp. rewrite get_profile_lookup. unfold get_profile_idx.
  apply list_elem_of_lookup_1 in Hp as [i Hi].
  destruct (user_profiles cfg) as [|p0 [|p1 ps]] eqn:E; [done| |].
  - apply list_lookup_singleton_Some in Hi as [_ ->]. done.
  - rewrite (list_find_first _ _ i p Hi).
    + cbn [fmap option_fmap context_opt fst option_map]. by rewrite Hi.
    + rewrite Forall_forall in Hall.
      destruct (Hall p) as [Ha Hn]; [by eapply list_elem_of_lookup_2|]. by apply matches_own.
    + intros j q Hj Hm. rewrite Forall_forall in Hall.
      destruct (Hall p) as [Ha Hn]; [by eapply list_elem_of_lookup_2|].
      destruct (Hall q) as [Hqa Hqn]; [by eapply list_elem_of_lookup_2|].
      apply matches_own in Hm; [|done..].
      apply (NoDup_lookup _ _ _ (account p) Hnd); rewrite list_lookup_fmap, ?Hi, ?Hj; cbn; by rewrite ?Hm.
Qed.

Lemma replace_profile_spec p ps :
  match replace_profile p ps with
  | Some ps' => account p ∈ account <$> ps ∧ account <$> ps' = account <$> ps ∧
      (NoDup (account <$> ps) → ∀ q, q ∈ ps' ↔ q = p ∨ (q ∈ ps ∧ account q ≠ account p))
  | None => account p ∉ account <$> ps
  end.
Proof.
  induction ps as [|e ps IH]; cbn [replace_profile]; [apply not_elem_of_nil|].
  destruct (decide (account e = account p)) as [Heq|Hne].
  - split; [rewrite fmap_cons, Heq; left|]. split; [by rewrite !fmap_cons, Heq|].
    rewrite fmap_cons. intros [Hn Hnd]%NoDup_cons q. rewrite !elem_of_cons. split.
    + intros [->|Hq]; [by left|]. right. split; [by right|]. intros Hqa. apply Hn. rewrite Heq, <- Hqa.
      by apply list_elem_of_fmap_2.
    + intros [->|[[->|Hq] Hqa]]; [by left|done|by right].
  - destruct (replace_profile p ps) as [ps'|].
    + destruct IH as (Hin & Hacc & Hq). split; [rewrite fmap_cons; by right|].
      split; [by rewrite !fmap_cons, Hacc|]. rewrite fmap_cons. intros [Hn Hnd]%NoDup_cons q.
      rewrite !elem_of_cons, (Hq Hnd). naive_solver.
    + rewrite fmap_cons, not_elem_of_cons. by split.
Qed.

Lemma maybe_add_profile_eq p cfg :
  user_profiles (maybe_add_profile p cfg)
  = default (user_profiles cfg ++ [p]) (replace_profile p (user_profiles cfg)).
Proof. unfold maybe_add_profile. by destruct (user_profiles cfg). Qed.

Lemma maybe_add_profile_elem p cfg :
  NoDup (account <$> user_profiles cfg) →
  NoDup (account <$> user_profiles (maybe_add_profile p cfg)) ∧
  ∀ q, q ∈ user_profiles (maybe_add_profile p cfg) ↔ q = p ∨ (q ∈ user_profiles cfg ∧ account q ≠ account p).
Proof.
  intros Hnd. rewrite maybe_add_profile_eq. pose proof (replace_profile_spec p (user_profiles cfg)) as Hr.
  destruct (replace_profile p (user_profiles cfg)) as [ps'|]; cbn [default from_option Datatypes.id]; unfold Datatypes.id.
  - destruct Hr as (_ & Hacc & Hq). split; [by rewrite Hacc|by apply Hq].
  - split.
    + rewrite fmap_app. apply NoDup_app. split; [done|]. split; [|apply NoDup_singleton].
      intros a Ha ->%list_elem_of_singleton. done.
    + intros q. rewrite elem_of_app, list_elem_of_singleton. split; [|naive_solver].
      intros [Hq| ->]; [|by left]. right. split; [done|]. intros Hqa. apply Hr. rewrite <- Hqa.
      by apply list_elem_of_fmap_2.
Qed.

Lemma push_pledge_pledges new p :
  ∃ l, pledges (push_pledge new p) = Some l ∧ (∃ e, e ∈ l ∧ id e = id new) ∧
    ∀ e, e ∈ l → e = new ∨ (∃ l0, pledges p = Some l0 ∧ e ∈ l0).
Proof.
  unfold push_pledge. destruct (pledges p) as [l|] eqn:E.
  - destruct (existsb _ l) eqn:Eb.
    + exists l. split; [done|]. split; [|by eauto].
      apply existsb_exists in Eb as (e & He%list_elem_of_In & Hid). exists e. split; [done|]. lia.
    + exists (l ++ [new]). split; [done|]. split.
      * exists new. split; [|done]. apply elem_of_app. right. by left.
      * intros e [He| ->%list_elem_of_singleton]%elem_of_app; [right; by exists l|by left].
  - exists [new]. split; [done|]. split; [exists new; split; [by left|done]|].
    intros e ->%list_elem_of_singleton. by left.
Qed.

(** The pledges of a profile with the id of the game pledge are that pledge. *)
Definition game_pledges_ok (p : Profile) : Prop :=
  ∀ l e, pledges p = Some l → e ∈ l → id e = 0 → hash e = hash pledge_protect_the_game.

Lemma push_pledge_ok new p :
  game_pledges_ok p → (id new = 0 → hash new = hash pledge_protect_the_game) →
  game_pledges_ok (push_pledge new p).
Proof.
  intros Hp Hn l e Hl He Hid. destruct (push_pledge_pledges new p) as (l' & Hl' & _ & Hall).
  rewrite Hl in Hl'. injection Hl' as <-. destruct (Hall e He) as [->|(l0 & Hl0 & He0)]; [by apply Hn|].
  by apply (Hp l0).
Qed.

Lemma check_validator_false p :
  mode = MAINNET → hash pledge_protect_the_game ≠ hash pledge_validator →
  game_pledges_ok p → check_has_pledge mode 1 p = Ok false.
Proof.
  intros -> Hne Hp. unfold check_has_pledge. cbn [negb]. rewrite bool_decide_true by done. cbn [negb].
  destruct (pledges p) as [l|] eqn:E; [|done]. rewrite any_pledge_1. f_equal.
  apply not_true_iff_false. intros (e & He%list_elem_of_In & Hb)%existsb_exists.
  apply andb_true_iff in Hb as [Hid Hh%bool_decide_eq_true].
  pose proof (Hp l e E He ltac:(lia)). congruence.
Qed.

Lemma check_game_true p :
  mode = MAINNET → game_pledges_ok p → (∃ l e, pledges p = Some l ∧ e ∈ l ∧ id e = 0) →
  check_has_pledge mode 0 p = Ok true.
Proof.
  intros -> Hp (l & e & Hl & He & Hid). unfold check_has_pledge.
  rewrite bool_decide_true by done. cbn [negb]. rewrite Hl, any_pledge_0. f_equal.
  apply existsb_exists. exists e. split; [by apply list_elem_of_In|].
  apply andb_true_iff. split; [lia|]. apply bool_decide_eq_true. by apply (Hp l).
Qed.

(** ** Properties *)

(** the nickname of an account is the first four digits of its address, for
    legacy addresses too: the branch meant for these is never taken. *)
Theorem get_nickname_spec a b :
  addr_wf a → is_bytes b → length b = 16%nat →
  get_nickname a = Ok (String.substring 0 4 (fmt_02x a)) ∧
  get_nickname (repeat 0 16 ++ b) = Ok "0000"%string.
Proof.
  intros Ha Hb Hl. split; [by apply get_nickname_ok|].
  rewrite get_nickname_ok; [done|]. split; [rewrite length_app, Hl; done|].
  apply Forall_app. split; [by apply Forall_repeat|done].
Qed.

(** adding a profile keeps accounts distinct, replaces the profile of its
    account or adds it, and leaves the others; afterwards every profile is
    found by its own address. *)
Theorem maybe_add_profile_spec cfg p :
  profiles_ok (user_profiles cfg) → addr_wf (account p) → (String.length (nickname p) < 64)%nat →
  let cfg' := maybe_add_profile p cfg in
  profiles_ok (user_profiles cfg') ∧
  (∀ q, q ∈ user_profiles cfg' ↔ q = p ∨ (q ∈ user_profiles cfg ∧ account q ≠ account p)) ∧
  (∀ q, q ∈ user_profiles cfg' → get_profile mode (Some (addr_to_string (account q))) cfg' = Ok q).
Proof.
  intros [Hnd Hall] Hp Hn cfg'. destruct (maybe_add_profile_elem p cfg Hnd) as [Hnd' Hq].
  assert (Hok : profiles_ok (user_profiles cfg')).
  { split; [done|]. apply Forall_forall. intros q [->|[Hin _]]%Hq; [done|].
    by apply (proj1 (Forall_forall _ _) Hall). }
  split; [done|]. split; [done|]. intros q Hin. by apply get_profile_own.
Qed.

(** with one profile, any request gives it, and any removal removes it,
    whatever the name asked for; with several, a request gives the first profile
    whose nickname or address contains the text asked for, or the default
    profile's text, and falls back to the first when none does, while a removal
    takes out exactly that first match or fails. *)
Theorem get_profile_spec cfg n p0 ps :
  user_profiles cfg = p0 :: ps →
  let fragment := match n with Some f => Some f | None => default_profile (workspace cfg) end in
  let first := match ps, fragment with
               | [], _ => Some (O, p0)
               | _, Some f => list_find (fun e => profile_matches f e = true) (p0 :: ps)
               | _, None => None
               end in
  get_profile mode n cfg = Ok (default p0 (snd <$> first)) ∧
  (∀ name, n = Some name →
     match first with
     | Some (i, _) => try_remove_profile name cfg = Ok (with_profiles (delete i (p0 :: ps)) cfg)
     | None => try_remove_profile name cfg = Err "could not find a profile"
     end).
Proof.
  intros Hps fragment first.
  assert (Hidx : get_profile_idx n cfg = match first with
            | Some (i, _) => Ok i
            | None => match fragment with None => Err "no profiles found" | Some _ => Err "could not find a profile" end
            end).
  { unfold get_profile_idx, first, fragment. rewrite Hps. destruct ps as [|q ps]; [done|].
    destruct n as [f|]; [|destruct (default_profile _) as [f|]; [|done]];
      by destruct (list_find _ _) as [[i x]|]. }
  assert (Hfirst : ∀ i x, first = Some (i, x) → (p0 :: ps) !! i = Some x).
  { unfold first. intros i x. destruct ps as [|q ps]; [by intros [= <- <-]|].
    destruct fragment as [f|]; [|done]. by intros (? & _ & _)%list_find_Some. }
  split.
  - rewrite get_profile_lookup, Hidx, Hps. destruct first as [[i x]|]; cbn [fmap option_fmap option_map snd].
    + by rewrite (Hfirst i x eq_refl).
    + by destruct fragment.
  - intros name Hn. unfold try_remove_profile. subst n. rewrite Hidx. rewrite Hps.
    destruct first as [[i x]|]; cbn [mbind outcome_bind].
    + pose proof (lookup_lt_Some _ _ _ (Hfirst i x eq_refl)) as Hlt.
      by rewrite (proj2 (Nat.ltb_lt _ _)) by done.
    + done.
Qed.

(** On mainnet, once both pledges were offered and taken, the profile holds
    both; the game pledge is recognised, but the validator pledge never is, and
    is offered again every time. *)
Theorem validator_pledge_never_recognised p p1 p2 :
  mode = MAINNET → hash pledge_protect_the_game ≠ hash pledge_validator → game_pledges_ok p →
  maybe_offer_basic_pledge mode (fun _ => true) p = Ok p1 →
  maybe_offer_validator_pledge mode (fun _ => true) p1 = Ok p2 →
  (∃ l e0 e1, pledges p2 = Some l ∧ e0 ∈ l ∧ id e0 = 0 ∧ e1 ∈ l ∧ id e1 = 1) ∧
  check_has_pledge mode 0 p2 = Ok true ∧ check_has_pledge mode 1 p2 = Ok false.
Proof.
  intros Hm Hne Hp H1 H2.
  assert (Hd : ∀ q, pledge_dialogue mode (fun _ => true) q = true).
  { intros q. unfold pledge_dialogue. by destruct (negb _). }
  unfold maybe_offer_validator_pledge, maybe_offer_basic_pledge, maybe_offer in H1, H2.
  assert (Hp1 : game_pledges_ok p1 ∧ ∃ l e, pledges p1 = Some l ∧ e ∈ l ∧ id e = 0).
  { destruct (check_has_pledge mode 0 p) as [[|]|e|m] eqn:Ec; cbn [mbind outcome_bind negb andb] in H1; try done.
    - apply Ok_inj in H1 as <-. split; [done|]. unfold check_has_pledge in Ec.
      rewrite Hm, bool_decide_true in Ec by done. cbn [negb] in Ec.
      destruct (pledges p) as [l|]; [|done]. rewrite any_pledge_0 in Ec. apply Ok_inj in Ec.
      apply existsb_exists in Ec as (e & He%list_elem_of_In & [Hid _]%andb_true_iff).
      exists l, e. split; [done|]. split; [done|]. lia.
    - rewrite Hd in H1. apply Ok_inj in H1 as <-. split; [by apply push_pledge_ok|].
      destruct (push_pledge_pledges pledge_protect_the_game p) as (l & Hl & (e & He & Hid) & _).
      by exists l, e. }
  destruct Hp1 as [Hp1 (l1 & e0 & Hl1 & He0 & Hid0)].
  rewrite check_validator_false in H2 by done. cbn [mbind outcome_bind negb andb] in H2.
  rewrite Hd in H2. apply Ok_inj in H2 as <-.
  assert (Hp2 : game_pledges_ok (push_pledge pledge_validator p1)) by by apply push_pledge_ok.
  destruct (push_pledge_pledges pledge_validator p1) as (l & Hl & (e1 & He1 & Hid1) & _).
  assert (He0' : e0 ∈ l).
  { unfold push_pledge in Hl. rewrite Hl1 in Hl. destruct (existsb _ l1).
    - rewrite Hl1 in Hl. by injection Hl as <-.
    - injection Hl as <-. apply elem_of_app. by left. }
  split; [|split].
  - by exists l, e0, e1.
  - apply check_game_true; [done|done|]. by exists l, e0.
  - by apply check_validator_false.
Qed.

Lemma same_chain_unique np l :
  NoDup (chain_name <$> l) →
  NoDup (chain_name <$> ((fun play => if bool_decide (chain_name play = chain_name np) then np else play) <$> l)) ∧
  ∀ c, c ∈ chain_name <$> ((fun play => if bool_decide (chain_name play = chain_name np) then np else play) <$> l)
       ↔ c ∈ chain_name <$> l.
Proof.
  assert (Heq : chain_name <$> ((fun play => if bool_decide (chain_name play = chain_name np) then np else play) <$> l)
                = chain_name <$> l).
  { rewrite <- list_fmap_compose. apply list_fmap_ext. intros i x _. cbn.
    destruct (bool_decide_reflect (chain_name x = chain_name np)) as [->|]; done. }
  rewrite Heq. done.
Qed.

Lemma existsb_chain np l :
  existsb (fun play => bool_decide (chain_name play = chain_name np)) l = true ↔ chain_name np ∈ chain_name <$> l.
Proof.
  rewrite existsb_exists, list_elem_of_fmap. setoid_rewrite bool_decide_eq_true.
  setoid_rewrite <- list_elem_of_In. naive_solver.
Qed.

(** With distinct chains, the playlist of a chain is the one with its name. *)
Lemma get_network_profile_iff c x cfg :
  NoDup (chain_name <$> network_playlist cfg) →
  get_network_profile (Some c) cfg = Ok x ↔ x ∈ network_playlist cfg ∧ chain_name x = c.
Proof.
  intros Hnd. unfold get_network_profile. cbn [default from_option]. unfold Datatypes.id.
  destruct (network_playlist cfg) as [|y l] eqn:E.
  { cbn. split; [done|]. by intros [?%not_elem_of_nil _]. }
  cbn [ensure mbind outcome_bind]. rewrite context_opt_ok. rewrite <- E in *. split.
  - destruct (list_find _ _) as [[i z]|] eqn:Ef; [|done]. cbn. intros [= ->].
    apply list_find_Some in Ef as (Hi & Hc & _). split; [by eapply list_elem_of_lookup_2|done].
  - intros [[i Hi]%list_elem_of_lookup_1 Hc]. rewrite (list_find_first _ _ i x Hi Hc); [done|].
    intros j z Hj Hz. apply (NoDup_lookup _ _ _ c Hnd); rewrite list_lookup_fmap, ?Hi, ?Hj; cbn; congruence.
Qed.

Lemma replaced_elem np (l : list NetworkPlaylist) x :
  x ∈ (fun play => if bool_decide (chain_name play = chain_name np) then np else play) <$> l ↔
  (x = np ∧ chain_name np ∈ chain_name <$> l) ∨ (x ∈ l ∧ chain_name x ≠ chain_name np).
Proof.
  rewrite !list_elem_of_fmap. split.
  - intros (y & -> & Hy). destruct (bool_decide_reflect (chain_name y = chain_name np)) as [Heq|Hne].
    + left. split; [done|]. by exists y.
    + by right.
  - intros [[-> (y & Hc & Hy)]|[Hx Hne]].
    + exists y. split; [|done]. by rewrite bool_decide_true.
    + exists x. split; [|done]. by rewrite bool_decide_false.
Qed.

(** adding a playlist keeps chains distinct; afterwards its chain gives that
    playlist and every other chain what it gave before. *)
Theorem maybe_add_custom_playlist_spec cfg np :
  NoDup (chain_name <$> network_playlist cfg) →
  let cfg' := maybe_add_custom_playlist np cfg in
  NoDup (chain_name <$> network_playlist cfg') ∧
  get_network_profile (Some (chain_name np)) cfg' = Ok np ∧
  (∀ c x, c ≠ chain_name np → get_network_profile (Some c) cfg' = Ok x ↔ get_network_profile (Some c) cfg = Ok x) ∧
  user_profiles cfg' = user_profiles cfg ∧ workspace cfg' = workspace cfg.
Proof.
  intros Hnd cfg'.
  destruct (same_chain_unique np _ Hnd) as [Hnd' Hin].
  pose proof (existsb_chain np (network_playlist cfg)) as Hex.
  assert (Hok : NoDup (chain_name <$> network_playlist cfg') ∧
    ∀ x, x ∈ network_playlist cfg' ↔
      x = np ∨ (x ∈ network_playlist cfg ∧ chain_name x ≠ chain_name np)).
  { unfold cfg', maybe_add_custom_playlist. cbn [with_playlists network_playlist].
    destruct (existsb _ _).
    - split; [done|]. intros x. rewrite replaced_elem. pose proof (proj1 Hex eq_refl). naive_solver.
    - assert (Hni : chain_name np ∉ chain_name <$> network_playlist cfg) by by intros ?%Hex.
      split.
      + rewrite fmap_app. apply NoDup_app. split; [done|]. split; [|apply NoDup_singleton].
        by intros c Hc%Hin ->%list_elem_of_singleton.
      + intros x. rewrite elem_of_app, replaced_elem, list_elem_of_singleton. naive_solver. }
  destruct Hok as [Hnd'' Helem]. split; [done|]. split; [|split; [|done]].
  - apply get_network_profile_iff; [done|]. split; [|done]. apply Helem. by left.
  - intros c x Hne. rewrite !get_network_profile_iff, Helem by done. naive_solver.
Qed.

Context `{AppCfgEnv}.

Lemma save_file_ok cfg fs p fs' :
  save_file cfg fs = Ok (p, fs') →
  p = path_join (node_home (workspace cfg)) CONFIG_FILE_NAME ∧
  fs' !! p = Some (File (cfg_to_yaml cfg)) ∧
  (∀ q x, q ≠ p → fs !! q = Some x → fs' !! q = Some x).
Proof.
  unfold save_file. intros Hs. apply bind_ok in Hs as (fs1 & H1' & Hs).
  apply bind_ok in Hs as (fs2 & H2 & Hs). apply Ok_inj in Hs. injection Hs as <- <-.
  destruct (create_write_ok _ (cfg_to_yaml cfg) _ _ H2) as (Hp & Hq & _).
  split; [done|]. split; [exact Hp|]. intros q x Hne Hx. rewrite Hq by done.
  destruct (exists_ _ fs); [by apply Ok_inj in H1' as <-|]. by eapply create_dir_all_keeps.
Qed.

Lemma save_file_outside cfg fs p fs' : save_file cfg fs = Ok (p, fs') → outside [p] fs fs'.
Proof.
  intros Hs. destruct (save_file_ok _ _ _ _ Hs) as (-> & _). unfold save_file in Hs.
  apply bind_ok in Hs as (fs1 & Hd & Hs). apply bind_ok in Hs as (fs2 & Hc & Hs). apply Ok_inj in Hs. injection Hs as <-.
  trans fs1; [|apply outside_write_file; [set_solver|done]].
  destruct (exists_ _ fs); [by apply Ok_inj in Hd as <-|by apply outside_create_dir with (1 := Hd)].
Qed.

Lemma load_saved cfg p fs :
  fs !! p = Some (File (cfg_to_yaml cfg)) → load (Some p) fs = Ok cfg.
Proof.
  intros Hp. unfold load. cbn [default from_option]. unfold Datatypes.id, exists_, read_to_string.
  rewrite Hp, bool_decide_true by done. cbn [mbind outcome_bind]. by rewrite cfg_yaml_law.
Qed.

(** initialising writes a file that loads back as the configuration made:
    one profile, the default one, named by the address's first digits, on the
    playlist's chain if there is one, the chain asked for otherwise, mainnet
    failing both; no other file is changed. *)
Theorem init_app_configs_spec authkey acc config_path chain playlist fs cfg fs' :
  addr_wf acc →
  init_app_configs authkey acc config_path chain playlist fs = Ok (cfg, fs') →
  let p := path_join (default global_config_dir config_path) CONFIG_FILE_NAME in
  load (Some p) fs' = Ok cfg ∧
  (∀ q x, q ≠ p → fs !! q = Some x → fs' !! q = Some x) ∧
  (∃ pr, get_profile mode None cfg = Ok pr ∧ account pr = acc ∧ auth_key pr = authkey ∧
     default_profile (workspace cfg) = Some (nickname pr) ∧
     nickname pr = String.substring 0 4 (fmt_02x acc)) ∧
  default_chain_id (workspace cfg) =
    match playlist with Some np => chain_name np | None => default MAINNET chain end ∧
  (∀ np, playlist = Some np → get_network_profile None cfg = Ok np).
Proof.
  intros Hacc Hi p. unfold init_app_configs in Hi. rewrite profile_new_ok in Hi by done.
  cbn [mbind outcome_bind nickname] in Hi. apply bind_ok in Hi as ([p' fs1] & Hs & Hi).
  apply Ok_inj in Hi. injection Hi as <- <-.
  destruct (save_file_ok _ _ _ _ Hs) as (Hp & Hl & Hq). cbn [workspace node_home] in Hp. fold p in Hp. subst p'.
  split; [by apply load_saved|]. split; [done|]. split; [|split; [by destruct playlist|]].
  - eexists. split; [rewrite get_profile_lookup; reflexivity|]. done.
  - intros np ->. unfold get_network_profile. cbn [network_playlist workspace default_chain_id default from_option].
    cbn [ensure mbind outcome_bind list_find]. by rewrite decide_True by done.
Qed.

(** refreshing a network and saving gives the refreshed playlist to the
    caller, but the file then holds the configuration as it was before. *)
Theorem refresh_network_profile_and_save_stale answers chain_id cfg fs np fs' :
  refresh_network_profile_and_save answers chain_id cfg fs = Ok (np, fs') →
  let p := path_join (node_home (workspace cfg)) CONFIG_FILE_NAME in
  ∃ old, get_network_profile chain_id cfg = Ok old ∧ np = refresh_sync_status (answers old) old ∧
    load (Some p) fs' = Ok cfg.
Proof.
  intros Hr p. apply bind_ok in Hr as (old & Hold & Hr). apply bind_ok in Hr as ([p' fs1] & Hs & Hr).
  apply Ok_inj in Hr. injection Hr as <- <-. destruct (save_file_ok _ _ _ _ Hs) as (-> & Hl & _).
  exists old. split; [done|]. split; [done|]. by apply load_saved.
Qed.

Definition price_exact (m g : Z) : bool := f64_to_u64 (f64_mul (f64_of_int g) (f64_of_int m)) =? g * m.

Lemma prices_exact :
  forallb (fun m => forallb (price_exact m) (Z.of_nat <$> seq 0 1025)) [1; 2; 3; 4; 5; 50] = true.
Proof. vm_compute. reflexivity. Qed.

(** at a minimum gas price of at most 1024, the coin price per unit is
    exactly the larger of that price and the floor given (1 when none is),
    times the multiplier of the cost; a cost that is not configured is the
    baseline. *)
Theorem tx_cost_spec units m min_price c :
  m ∈ [1; 2; 3; 4; 5; 50] → 0 ≤ GAS_UNIT_PRICE ≤ 1024 → 0 ≤ default 1 min_price ≤ 1024 →
  coin_price_per_unit (tx_cost_new units m min_price) = Z.max GAS_UNIT_PRICE (default 1 min_price) * m ∧
  max_gas_unit_for_tx (tx_cost_new units m min_price) = units ∧
  (get_cost c None = baseline_cost c ∧ get_cost c (Some Baseline) = baseline_cost c) ∧
  (critical_txs_cost c = None → get_cost c (Some Critical) = default_baseline_cost) ∧
  (∀ x, critical_txs_cost c = Some x → get_cost c (Some Critical) = x).
Proof.
  intros Hm Hg Hmin. split; [|split; [done|split; [done|]]].
  - unfold tx_cost_new. cbn [coin_price_per_unit]. set (g := Z.max _ _).
    pose proof prices_exact as Hall. rewrite forallb_forall in Hall.
    specialize (Hall m (proj1 (list_elem_of_In _ _) Hm)).
    pose proof (forall_below (price_exact m) 1025 Hall g ltac:(lia)) as Hp.
    unfold price_exact in Hp. lia.
  - unfold get_cost. split; [by intros ->|by intros x ->].
Qed.

End facts.

(** ** A concrete environment: a configuration is written as the binary digits
    of its number *)
#[export] Instance balance_eq_dec : EqDecision SlowWalletBalance. Proof. solve_decision. Defined.
#[export] Instance pledge_eq_dec : EqDecision Pledge. Proof. solve_decision. Defined.
#[export] Instance host_eq_dec : EqDecision HostProfile. Proof. solve_decision. Defined.
#[export] Instance playlist_eq_dec : EqDecision NetworkPlaylist. Proof. solve_decision. Defined.
#[export] Instance workspace_eq_dec : EqDecision Workspace. Proof. solve_decision. Defined.
#[export] Instance profile_eq_dec : EqDecision Profile. Proof. solve_decision. Defined.
#[export] Instance tx_cost_eq_dec : EqDecision TxCost. Proof. solve_decision. Defined.
#[export] Instance tx_configs_eq_dec : EqDecision TxConfigs. Proof. solve_decision. Defined.
#[export] Instance cfg_eq_dec : EqDecision AppCfg. Proof. solve_decision. Defined.

#[export] Instance chain_countable : Countable NamedChain.
Proof.
  refine (inj_countable' (fun c => match c with MAINNET => inl 0 | TESTNET => inl 1 | TESTING => inl 2 | OtherChain i => inr i end)
    (fun x => match x with inl 0 => MAINNET | inl 1 => TESTNET | inl _ => TESTING | inr i => OtherChain i end) _).
  by intros [| | |i].
Defined.
#[export] Instance balance_countable : Countable SlowWalletBalance.
Proof.
  refine (inj_countable' (fun b => (sb_unlocked b, sb_total b)) (fun '(u, t) => mk_slow_balance u t) _).
  by intros [].
Defined.
#[export] Instance pledge_countable : Countable Pledge.
Proof.
  refine (inj_countable' (fun p => (id p, name p, p_version p, hash p, question p, preamble p, p_on_chain p))
    (fun '(a, b, c, d, e, f, g) => mk_pledge a b c d e f g) _).
  by intros [].
Defined.
#[export] Instance host_countable : Countable HostProfile.
Proof.
  refine (inj_countable' (fun h => (url h, note h, version h, is_api h, is_sync h))
    (fun '(a, b, c, d, e) => mk_host_profile a b c d e) _).
  by intros [].
Defined.
#[export] Instance playlist_countable : Countable NetworkPlaylist.
Proof.
  refine (inj_countable' (fun n => (chain_name n, nodes n)) (fun '(a, b) => mk_playlist a b) _).
  by intros [].
Defined.
#[export] Instance workspace_countable : Countable Workspace.
Proof.
  refine (inj_countable' (fun w => (default_profile w, default_chain_id w, node_home w))
    (fun '(a, b, c) => mk_workspace a b c) _).
  by intros [].
Defined.
#[export] Instance profile_countable : Countable Profile.
Proof.
  refine (inj_countable' (fun p => (account p, auth_key p, test_private_key p, nickname p, on_chain p, balance p,
                            locale p, statement p, pledges p))
    (fun '(a, b, c, d, e, f, g, h, i) => mk_profile a b c d e f g h i) _).
  by intros [].
Defined.
#[export] Instance tx_cost_countable : Countable TxCost.
Proof.
  refine (inj_countable' (fun t => (max_gas_unit_for_tx t, coin_price_per_unit t, user_tx_timeout t))
    (fun '(a, b, c) => mk_tx_cost a b c) _).
  by intros [].
Defined.
#[export] Instance tx_configs_countable : Countable TxConfigs.
Proof.
  refine (inj_countable' (fun t => (baseline_cost t, critical_txs_cost t, management_txs_cost t, miner_txs_cost t,
                            cheap_txs_cost t))
    (fun '(a, b, c, d, e) => mk_tx_configs a b c d e) _).
  by intros [].
Defined.
#[export] Instance cfg_countable : Countable AppCfg.
Proof.
  refine (inj_countable' (fun c => (workspace c, user_profiles c, network_playlist c, tx_configs c))
    (fun '(a, b, c, d) => mk_cfg a b c d) _).
  by intros [].
Defined.

Fixpoint digits_of_pos (p : positive) : string :=
  match p with
  | xH => EmptyString
  | xO p' => String "0" (digits_of_pos p')
  | xI p' => String "1" (digits_of_pos p')
  end.
Fixpoint pos_of_digits (s : string) : positive :=
  match s with
  | EmptyString => xH
  | String c s' => if Ascii.eqb c "1" then xI (pos_of_digits s') else xO (pos_of_digits s')
  end.
Lemma pos_of_digits_of_pos p : pos_of_digits (digits_of_pos p) = p.
Proof. induction p as [p IH|p IH|]; cbn; by rewrite ?IH. Qed.

#[export] Program Instance sample_env : AppCfgEnv := {|
  GAS_UNIT_PRICE := 100;
  MAX_GAS_AMOUNT := 2000000;
  global_config_dir := ["home"; ".libra"]%string;
  cfg_to_yaml c := digits_of_pos (encode c);
  cfg_from_yaml s := context_opt "bad configuration" (decode (pos_of_digits s))
|}.
Next Obligation. intros c. cbn. by rewrite pos_of_digits_of_pos, decode_encode. Qed.

Definition sample_sha3 : Sha3.
Proof.
  refine {| sha3_256 bs := repeat (Z.of_nat (length bs) mod 256) 32 |}.
  intros bs. split; [apply repeat_length|]. apply Forall_repeat, Z.mod_pos_bound. lia.
Defined.

Definition addr_a : AccountAddress := repeat 17 32.
Definition addr_b : AccountAddress := repeat 0 16 ++ repeat 34 16.
Definition sample_profile (a : AccountAddress) (n : string) : Profile :=
  mk_profile a a None n false (mk_slow_balance 0 0) None "hello" None.
Definition sample_cfg : AppCfg :=
  mk_cfg (mk_workspace (Some "0000"%string) MAINNET ["home"%string])
    [sample_profile addr_a "1111"; sample_profile addr_b "0000"]
    [sample_playlist] tx_configs_default.

Lemma maybe_add_profile_spec_witness :
  let s := sample_sha3 in
  let cfg' := maybe_add_profile (sample_profile addr_b "mine") sample_cfg in
  profiles_ok (user_profiles cfg') ∧
  (∀ q, q ∈ user_profiles cfg' ↔ q = sample_profile addr_b "mine" ∨
        (q ∈ user_profiles sample_cfg ∧ account q ≠ addr_b)) ∧
  (∀ q, q ∈ user_profiles cfg' → get_profile MAINNET (Some (addr_to_string (account q))) cfg' = Ok q).
Proof.
  intros s. apply (maybe_add_profile_spec MAINNET sample_cfg (sample_profile addr_b "mine")).
  - split; [by apply (bool_decide_unpack _)|by apply (bool_decide_unpack _)].
  - by apply (bool_decide_unpack _).
  - by apply (bool_decide_unpack _).
Defined.

Lemma get_profile_spec_witness :
  let s := sample_sha3 in
  let first := list_find (fun e => profile_matches "00" e = true)
                 [sample_profile addr_a "1111"; sample_profile addr_b "0000"] in
  get_profile MAINNET (Some "00"%string) sample_cfg = Ok (default (sample_profile addr_a "1111") (snd <$> first)) ∧
  (∀ name, Some "00"%string = Some name →
     match first with
     | Some (i, _) => try_remove_profile name sample_cfg = Ok (with_profiles (delete i (user_profiles sample_cfg)) sample_cfg)
     | None => try_remove_profile name sample_cfg = Err "could not find a profile"
     end).
Proof.
  intros s. apply (get_profile_spec MAINNET sample_cfg (Some "00"%string) (sample_profile addr_a "1111")
           [sample_profile addr_b "0000"]). reflexivity.
Defined.

Lemma validator_pledge_never_recognised_witness :
  let s := sample_sha3 in
  let p := sample_profile addr_a "1111" in
  let p1 := push_pledge pledge_protect_the_game p in
  let p2 := push_pledge pledge_validator p1 in
  (∃ l e0 e1, pledges p2 = Some l ∧ e0 ∈ l ∧ id e0 = 0 ∧ e1 ∈ l ∧ id e1 = 1) ∧
  check_has_pledge MAINNET 0 p2 = Ok true ∧ check_has_pledge MAINNET 1 p2 = Ok false.
Proof.
  intros s p p1 p2. apply (validator_pledge_never_recognised MAINNET p p1).
  - reflexivity.
  - vm_compute. discriminate.
  - intros l e Hl. discriminate Hl.
  - vm_compute. reflexivity.
  - vm_compute. reflexivity.
Defined.

Lemma maybe_add_custom_playlist_spec_witness :
  let np := mk_playlist MAINNET [host_new "http://d"] in
  let cfg' := maybe_add_custom_playlist np sample_cfg in
  NoDup (chain_name <$> network_playlist cfg') ∧
  get_network_profile (Some MAINNET) cfg' = Ok np ∧
  (∀ c x, c ≠ MAINNET → get_network_profile (Some c) cfg' = Ok x ↔ get_network_profile (Some c) sample_cfg = Ok x) ∧
  user_profiles cfg' = user_profiles sample_cfg ∧ workspace cfg' = workspace sample_cfg.
Proof.
  apply (maybe_add_custom_playlist_spec sample_cfg (mk_playlist MAINNET [host_new "http://d"])).
  by apply (bool_decide_unpack _).
Defined.

Definition root_fs : file_system :=
  <[ []%list := Dir ]> (<[ ["notes"%string] := File "x" ]> ∅).
Definition home_fs : file_system := <[ ["home"%string] := Dir ]> root_fs.

Lemma root_fs_home : root_fs !! ["home"%string] = None.
Proof. unfold root_fs. by rewrite !lookup_insert_ne by done. Qed.

Lemma create_home : create_dir_all ["home"%string] root_fs = Ok home_fs.
Proof.
  change (create_dir_all ["home"%string] root_fs) with (make_dir (make_dir (Ok root_fs) []) ["home"%string]).
  assert (Hr : make_dir (Ok root_fs) [] = Ok root_fs).
  { unfold make_dir. cbn [mbind outcome_bind]. unfold root_fs at 1. by rewrite lookup_insert, decide_True. }
  rewrite Hr. unfold make_dir. cbn [mbind outcome_bind]. by rewrite root_fs_home.
Qed.

Lemma create_config :
  file_create (path_join ["home"%string] CONFIG_FILE_NAME) home_fs
  = Ok (<[path_join ["home"%string] CONFIG_FILE_NAME := File EmptyString]> home_fs).
Proof.
  unfold file_create, is_dir. change (path_join ["home"%string] CONFIG_FILE_NAME) with ["home"%string; CONFIG_FILE_NAME].
  change (parent ["home"%string; CONFIG_FILE_NAME]) with (Some ["home"%string]).
  unfold home_fs at 1. rewrite lookup_insert_ne by done. unfold root_fs at 1.
  rewrite !lookup_insert_ne, lookup_empty by done. unfold home_fs at 1.
  by rewrite lookup_insert, decide_True by done.
Qed.

Lemma init_app_configs_spec_witness :
  let s := sample_sha3 in
  let p := path_join ["home"%string] CONFIG_FILE_NAME in
  ∃ cfg fs',
  init_app_configs addr_b addr_b (Some ["home"%string]) (Some TESTING) (Some sample_playlist) root_fs = Ok (cfg, fs') ∧
  load (Some p) fs' = Ok cfg ∧
  (∀ q x, q ≠ p → root_fs !! q = Some x → fs' !! q = Some x) ∧
  (∃ pr, get_profile MAINNET None cfg = Ok pr ∧ account pr = addr_b ∧ auth_key pr = addr_b ∧
     default_profile (workspace cfg) = Some (nickname pr) ∧
     nickname pr = String.substring 0 4 (fmt_02x addr_b)) ∧
  default_chain_id (workspace cfg) = TESTNET ∧
  (∀ np, Some sample_playlist = Some np → get_network_profile None cfg = Ok np).
Proof.
  intros s p.
  assert (Hwf : addr_wf addr_b) by by apply (bool_decide_unpack _).
  assert (Hi : ∃ cfg fs', init_app_configs addr_b addr_b (Some ["home"%string]) (Some TESTING)
                 (Some sample_playlist) root_fs = Ok (cfg, fs')).
  { unfold init_app_configs. rewrite profile_new_ok by done. cbn [mbind outcome_bind nickname].
    unfold save_file. cbn [workspace node_home default from_option]. unfold Datatypes.id.
    assert (He : exists_ ["home"%string] root_fs = false).
    { unfold exists_. rewrite root_fs_home. reflexivity. }
    rewrite He, create_home. cbn [mbind outcome_bind]. rewrite create_config. cbn [mbind outcome_bind].
    eexists _, _. reflexivity. }
  destruct Hi as (cfg & fs' & Hi). exists cfg, fs'. split; [exact Hi|].
  by apply (init_app_configs_spec MAINNET addr_b addr_b (Some ["home"%string]) (Some TESTING)
    (Some sample_playlist) root_fs cfg fs').
Defined.
