(* ===== verification/FolderNames.v ===== *)
(** * tools/storage: backup folders

    parse_folder_names.rs, and from download_bundle.rs the choice of the three
    folders (epoch ending, state snapshot, transactions) that restore an epoch.
    The listing of the repository is an argument. *)
From Stdlib Require Import ZArith Lia Ascii.
From stdpp Require Import base option list strings.
From S2P Require Import Prelude RustStr.

Open Scope list_scope.
Open Scope Z_scope.

(** ** parse_folder_names.rs *)
Definition is_dash_or_dot (c : ascii) : bool := Ascii.eqb c "-" || Ascii.eqb c ".".
(** [.parse().ok()?]: parsing a [u64] never panics. *)
Definition parse_ok (s : string) : option Z := match parse_u64 s with Ok n => Some n | _ => None end.

Definition parse_epoch_ending_number (folder_name : string) : option Z :=
  rest ← strip_prefix "epoch_ending_" folder_name;
  first ← head (split_pred is_dash_or_dot rest);
  parse_ok first.

Definition parse_state_epoch_info (folder_name : string) : option (Z * Z) :=
  if negb (starts_with "state_epoch_" folder_name) then None else
  let parts := split_char "_" folder_name in
  if negb (length parts =? 5)%nat || negb (bool_decide (parts !! 3%nat = Some "ver"%string)) then None else
  p2 ← parts !! 2%nat;
  epoch ← parse_ok p2;
  p4 ← parts !! 4%nat;
  v ← head (split_char "." p4);
  version ← parse_ok v;
  Some (epoch, version).

Definition parse_transaction_number (folder_name : string) : option Z :=
  rest ← strip_prefix "transaction_" folder_name;
  first ← head (split_pred is_dash_or_dot rest);
  parse_ok first.

(** ** download_bundle.rs *)
Definition parse_state_epoch_version (folder_name : string) : outcome Z :=
  let parts := split_str "_ver_" folder_name in
  if negb (length parts =? 2)%nat then Err "Invalid state epoch folder format" else
  p1 ← expect_opt "index out of bounds" (parts !! 1%nat);
  let version_str := default EmptyString (head (split_char "." p1)) in
  context_res "Failed to parse version" (parse_u64 version_str).

(** [Iterator::max_by_key] gives the last of the greatest elements,
    [min_by_key] the first of the least. *)
Definition folder : Type := Z * string.
Definition max_by_key (l : list folder) : option folder :=
  foldl (fun acc x => match acc with
                      | None => Some x
                      | Some y => if fst x <? fst y then acc else Some x
                      end) None l.
Definition min_by_key (l : list folder) : option folder :=
  foldl (fun acc x => match acc with
                      | None => Some x
                      | Some y => if fst x <? fst y then Some x else acc
                      end) None l.

Definition find_closest_transaction_folder (transaction_folders : list folder) (target_version : Z) : outcome string :=
  let version_below := max_by_key (filter (fun f => fst f ≤ target_version) transaction_folders) in
  let version_above := min_by_key (filter (fun f => target_version < fst f) transaction_folders) in
  ensure (match version_below, version_above with
          | Some (b, _), Some (a, _) => negb (a <=? b)
          | _, _ => true
          end) "Version ordering error";;
  context_opt "No suitable transaction folder found below target version" (snd <$> version_below).

Definition find_closest_epoch_ending (folders : list folder) (target : Z) : outcome string :=
  context_opt "No suitable epoch_ending folder found"
    (snd <$> max_by_key (filter (fun f => fst f ≤ target) folders)).

Definition find_matching_state_epoch (folders : list folder) (target : Z) : outcome string :=
  match snd <$> (snd <$> list_find (fun f => fst f = target) folders) with
  | Some name => Ok name
  | None => context_opt "No suitable state_epoch folder found"
              (snd <$> max_by_key (filter (fun f => fst f < target) folders))
  end.

Record TreeItem := mk_item { item_path : string; item_type : string }.
Record EpochFolders := mk_folders { epoch_ending : string; state_epoch : string; transaction : string }.

(** [Path::file_name]: the last component, unless it is [..] *)
Definition file_name (p : string) : option string :=
  match last (filter (fun c => c ≠ EmptyString ∧ c ≠ "."%string) (split_char "/" p)) with
  | Some c => if String.eqb c ".." then None else Some c
  | None => None
  end.

(** The three lists, each in the order of the tree *)
Record sorted_folders := mk_sorted { endings : list folder; states : list folder; transactions : list folder }.
Definition sort_item (s : sorted_folders) (item : TreeItem) : sorted_folders :=
  if negb (String.eqb (item_type item) "tree") then s else
  match file_name (item_path item) with
  | None => s
  | Some folder_name =>
      match parse_epoch_ending_number folder_name with
      | Some epoch => mk_sorted (endings s ++ [(epoch, folder_name)]) (states s) (transactions s)
      | None =>
          match parse_state_epoch_info folder_name with
          | Some (epoch, _) => mk_sorted (endings s) (states s ++ [(epoch, folder_name)]) (transactions s)
          | None =>
              match parse_transaction_number folder_name with
              | Some version => mk_sorted (endings s) (states s) (transactions s ++ [(version, folder_name)])
              | None => s
              end
          end
      end
  end.

Definition find_closest_epoch_folder (tree : list TreeItem) (target_epoch : Z) : outcome EpochFolders :=
  let s := foldl sort_item (mk_sorted [] [] []) tree in
  ensure (match endings s, states s, transactions s with
          | _ :: _, _ :: _, _ :: _ => true | _, _, _ => false end) "Could not find all required folder types";;
  closest_ending ← context_res "Failed to find closest epoch_ending folder"
                     (find_closest_epoch_ending (endings s) target_epoch);
  closest_state ← context_res "Failed to find closest state_epoch folder"
                    (find_matching_state_epoch (states s) target_epoch);
  state_version ← parse_state_epoch_version closest_state;
  closest_transaction ← context_res "Failed to find suitable transaction folder"
                          (find_closest_transaction_folder (transactions s) state_version);
  Ok (mk_folders closest_ending closest_state closest_transaction).

Example parse_ending : parse_epoch_ending_number "epoch_ending_273-.0338" = Some 273.
Proof. reflexivity. Qed.
Example parse_state : parse_state_epoch_info "state_epoch_173_ver_58967541.df7d" = Some (173, 58967541).
Proof. reflexivity. Qed.
Example parse_tx : parse_transaction_number "transaction_111500001-.d5aa" = Some 111500001.
Proof. reflexivity. Qed.
Example closest_tx :
  find_closest_transaction_folder
    [(33100000, "c"%string); (33000000, "b"%string); (32900000, "a"%string)] 33007311 = Ok "b"%string.
Proof. reflexivity. Qed.

(** ** Specification *)

(** The folders of the tree whose name parses *)
Definition listed (parse : string → option Z) (tree : list TreeItem) (f : folder) : Prop :=
  ∃ item, item ∈ tree ∧ item_type item = "tree"%string ∧ file_name (item_path item) = Some (snd f) ∧
          parse (snd f) = Some (fst f).
Definition state_epoch_of (name : string) : option Z := fst <$> parse_state_epoch_info name.

(** The folder named [name] is the latest one of the listing not after [t] *)
Definition latest (P : folder → Prop) (t : Z) (name : string) : Prop :=
  ∃ b, P (b, name) ∧ b ≤ t ∧ ∀ f, P f → fst f ≤ t → fst f ≤ b.

(** ** Lemmas *)
Lemma max_by_key_spec l :
  match max_by_key l with
  | None => l = []
  | Some x => x ∈ l ∧ ∀ y, y ∈ l → fst y ≤ fst x
  end.
Proof.
  unfold max_by_key. induction l as [|x l IH] using rev_ind; [done|].
  rewrite foldl_app. cbn [foldl].
  match goal with IH : match ?m with Some _ => _ | None => _ end |- _ => destruct m as [y|] end.
  - destruct IH as [Hy Hmax]. destruct (Z.ltb_spec (fst x) (fst y)).
    + split; [apply elem_of_app; by left|]. intros z [Hz| ->%list_elem_of_singleton]%elem_of_app; [by apply Hmax|lia].
    + split; [apply elem_of_app; right; by left|].
      intros z [Hz| ->%list_elem_of_singleton]%elem_of_app; [|lia]. specialize (Hmax z Hz). lia.
  - subst l. split; [by left|]. by intros z ->%list_elem_of_singleton.
Qed.

Lemma min_by_key_in l x : min_by_key l = Some x → x ∈ l.
Proof.
  unfold min_by_key. revert x. induction l as [|y l IH] using rev_ind; intros x; [done|].
  rewrite foldl_app. cbn [foldl].
  match goal with IH : ∀ x, ?m = Some x → _ |- _ => destruct m as [z|] end.
  - destruct (_ <? _); intros [= <-]; apply elem_of_app; [right; by left|left; by apply IH].
  - intros [= <-]. apply elem_of_app. right. by left.
Qed.

(** The greatest element satisfying a bound *)
Lemma max_filter_spec (P : folder → Prop) `{∀ f, Decision (P f)} l :
  match max_by_key (filter P l) with
  | None => ∀ y, y ∈ l → ¬ P y
  | Some x => x ∈ l ∧ P x ∧ ∀ y, y ∈ l → P y → fst y ≤ fst x
  end.
Proof.
  pose proof (max_by_key_spec (filter P l)) as Hm. destruct (max_by_key _) as [x|].
  - destruct Hm as [Hx Hmax]. apply list_elem_of_filter in Hx as [HP Hx].
    split; [done|]. split; [done|]. intros y Hy HPy. apply Hmax. by apply list_elem_of_filter.
  - intros y Hy HP. assert (Hin : y ∈ filter P l) by by apply list_elem_of_filter.
    rewrite Hm in Hin. by apply not_elem_of_nil in Hin.
Qed.

Lemma prefixes_exclusive n :
  (is_Some (parse_epoch_ending_number n) → parse_state_epoch_info n = None) ∧
  (is_Some (parse_epoch_ending_number n) → parse_transaction_number n = None) ∧
  (is_Some (parse_state_epoch_info n) → parse_transaction_number n = None).
Proof.
  assert (He : is_Some (parse_epoch_ending_number n) → ∃ r, n = "epoch_ending_" +:+ r).
  { unfold parse_epoch_ending_number. destruct (strip_prefix "epoch_ending_" n) as [r|] eqn:E; [|by intros []].
    apply strip_prefix_spec in E. by exists r. }
  assert (Hs : is_Some (parse_state_epoch_info n) → ∃ r, n = "state_epoch_" +:+ r).
  { unfold parse_state_epoch_info. destruct (starts_with "state_epoch_" n) eqn:E; [|by intros []].
    apply starts_with_spec in E. done. }
  split; [|split].
  - by intros (r & ->)%He.
  - by intros (r & ->)%He.
  - by intros (r & ->)%Hs.
Qed.

Lemma sort_items_spec tree s0 f :
  let s := foldl sort_item s0 tree in
  (f ∈ endings s ↔ f ∈ endings s0 ∨ listed parse_epoch_ending_number tree f) ∧
  (f ∈ states s ↔ f ∈ states s0 ∨ listed state_epoch_of tree f) ∧
  (f ∈ transactions s ↔ f ∈ transactions s0 ∨ listed parse_transaction_number tree f).
Proof.
  assert (Hl : ∀ parse item tree, listed parse (item :: tree) f ↔
     (item_type item = "tree"%string ∧ file_name (item_path item) = Some (snd f) ∧ parse (snd f) = Some (fst f))
     ∨ listed parse tree f).
  { intros parse item t. unfold listed. setoid_rewrite elem_of_cons. naive_solver. }
  revert s0. induction tree as [|item tree IH]; intros s0; cbn [foldl].
  { unfold listed. setoid_rewrite elem_of_nil. naive_solver. }
  destruct (IH (sort_item s0 item)) as (H1 & H2 & H3). rewrite H1, H2, H3, !Hl. clear H1 H2 H3 IH Hl.
  generalize (listed parse_epoch_ending_number tree f) as L1, (listed state_epoch_of tree f) as L2,
    (listed parse_transaction_number tree f) as L3. intros L3 L2 L1.
  unfold sort_item. destruct (String.eqb_spec (item_type item) "tree") as [Ht|Ht]; cbn [negb]; [|tauto].
  destruct (file_name (item_path item)) as [n|].
  2: { assert (Hnone : None = Some (snd f) ↔ False) by done. rewrite Hnone. tauto. }
  destruct (prefixes_exclusive n) as (X1 & X2 & X3). destruct f as [k m]. cbn [fst snd].
  assert (HA : ∀ parse : string → option Z,
    (item_type item = "tree"%string ∧ Some n = Some m ∧ parse m = Some k) ↔
    match parse n with Some x => (k, m) = (x, n) | None => False end).
  { intros parse. destruct (parse n) as [x|] eqn:E; split.
    - intros (_ & [= <-] & Hp). congruence.
    - by intros [= -> ->].
    - intros (_ & [= <-] & Hp). congruence.
    - done. }
  rewrite !HA. clear HA. unfold state_epoch_of.
  destruct (parse_epoch_ending_number n) as [e|] eqn:E1; cbn [endings states transactions].
  { rewrite (X1 ltac:(by eexists)), (X2 ltac:(by eexists)). cbn [fmap option_fmap option_map].
    rewrite elem_of_app, list_elem_of_singleton. tauto. }
  destruct (parse_state_epoch_info n) as [[e v]|] eqn:E2; cbn [endings states transactions].
  { rewrite (X3 ltac:(by eexists)). cbn [fmap option_fmap option_map fst].
    rewrite elem_of_app, list_elem_of_singleton. tauto. }
  cbn [fmap option_fmap option_map].
  destruct (parse_transaction_number n) as [v|] eqn:E3; cbn [endings states transactions];
    rewrite ?elem_of_app, ?list_elem_of_singleton; tauto.
Qed.

Lemma parse_ok_spec s n : parse_ok s = Some n ↔ parse_u64 s = Ok n.
Proof. unfold parse_ok. destruct (parse_u64 s); naive_solver. Qed.

(** Splitting on [_ver_], piece by piece *)
Definition pre (w : string) (l : list string) : list string :=
  match l with [] => [w] | x :: l' => (w +:+ x) :: l' end.

Lemma split_ver_char c s :
  starts_with "_ver_" (String c s) = false →
  split_str_go "_ver_" (String c s) 0 = pre (String c EmptyString) (split_str_go "_ver_" s 0).
Proof. intros E. cbn [split_str_go]. rewrite E. by destruct (split_str_go "_ver_" s 0). Qed.

Lemma split_str_go_not_nil p s k : split_str_go p s k ≠ [].
Proof.
  revert k. induction s as [|c s IH]; intros k; cbn; [done|].
  destruct k; [|apply IH]. destruct (starts_with p (String c s)); [done|]. by destruct (split_str_go p s 0).
Qed.

Lemma split_ver_word w s :
  no_char (Ascii.eqb "_") w = true →
  split_str_go "_ver_" (w +:+ s) 0 = pre w (split_str_go "_ver_" s 0).
Proof.
  induction w as [|c w IH]; intros Hw.
  - cbn [String.append]. pose proof (split_str_go_not_nil "_ver_" s 0). by destruct (split_str_go "_ver_" s 0).
  - cbn [no_char] in Hw. apply andb_true_iff in Hw as [Hc Hw]. apply negb_true_iff in Hc.
    cbn [String.append]. rewrite split_ver_char.
    + rewrite (IH Hw). pose proof (split_str_go_not_nil "_ver_" s 0). by destruct (split_str_go "_ver_" s 0).
    + unfold starts_with. cbn [strip_prefix]. by rewrite Hc.
Qed.

Lemma split_char_no_char c s w : w ∈ split_char c s → no_char (Ascii.eqb c) w = true.
Proof.
  unfold split_char. revert w. induction s as [|a s IH]; intros w; cbn [split_pred].
  - by intros ->%list_elem_of_singleton.
  - destruct (Ascii.eqb c a) eqn:E.
    + intros [->|Hw]%elem_of_cons; [done|by apply IH].
    + destruct (split_pred _ s) as [|x l]; intros [->|Hw]%elem_of_cons; cbn [no_char]; rewrite ?E; cbn;
        [done|by apply not_elem_of_nil in Hw|apply IH; by left|apply IH; by right].
Qed.

(** The prefix of a state folder holds no [_ver_], nor does its end with a
    number after it. *)
Lemma split_ver_prefix s :
  (∀ s', s ≠ String "v" s') →
  split_str_go "_ver_" ("state_epoch_" +:+ s) 0 = pre "state_epoch_" (split_str_go "_ver_" s 0).
Proof.
  intros Hs. change ("state_epoch_" +:+ s) with ("state" +:+ String "_" ("epoch" +:+ String "_" s)).
  rewrite split_ver_word, split_ver_char, split_ver_word by done.
  rewrite split_ver_char.
  - pose proof (split_str_go_not_nil "_ver_" s 0). by destruct (split_str_go "_ver_" s 0).
  - unfold starts_with. change (strip_prefix "_ver_" (String "_" s)) with (strip_prefix "ver_" s).
    destruct s as [|c s]; [done|]. cbn [strip_prefix]. destruct (Ascii.eqb_spec "v" c) as [<-|]; [by destruct (Hs s)|done].
Qed.

Lemma split_ver_at p4 :
  no_char (Ascii.eqb "_") p4 = true →
  split_str_go "_ver_" ("_" +:+ "ver" +:+ "_" +:+ p4) 0 = [EmptyString; p4].
Proof.
  intros Hp. change (split_str_go "_ver_" ("_" +:+ "ver" +:+ "_" +:+ p4) 0)
    with (EmptyString :: split_str_go "_ver_" p4 0).
  rewrite <- (str_app_nil_r p4) at 1. rewrite split_ver_word by done.
  cbn [split_str_go pre]. by rewrite str_app_nil_r.
Qed.

Lemma parse_u64_not_v s n : parse_u64 s = Ok n → ∀ s', s ≠ String "v" s'.
Proof. by intros Hs s' ->. Qed.

(** The two parsers of a state folder's name agree on its version. *)
Lemma parse_state_consistent n e v :
  parse_state_epoch_info n = Some (e, v) → parse_state_epoch_version n = Ok v.
Proof.
  unfold parse_state_epoch_info. destruct (starts_with "state_epoch_" n) eqn:Es; [|done]. cbn [negb].
  apply starts_with_spec in Es as [r ->].
  change (split_char "_" ("state_epoch_" +:+ r)) with ("state"%string :: "epoch"%string :: split_char "_" r).
  pose proof (join_split "_" r) as Hj. pose proof (split_char_no_char "_" r) as Hnc.
  destruct (split_char "_" r) as [|p2 [|p3 [|p4 [|]]]]; try done. cbn [length Nat.eqb negb orb].
  destruct (bool_decide_reflect (["state"; "epoch"; p2; p3; p4]%string !! 3%nat = Some "ver"%string)) as [[= ->]|]; [|done].
  cbn [negb lookup list_lookup]. cbn [mbind option_bind].
  destruct (parse_ok p2) as [e'|] eqn:Ee; [|done]. cbn [mbind option_bind].
  destruct (head (split_char "." p4)) as [w|] eqn:Ew; [|done]. cbn [mbind option_bind].
  destruct (parse_ok w) as [v'|] eqn:Ev; [|done]. intros [= <- <-].
  apply parse_ok_spec in Ee, Ev.
  unfold parse_state_epoch_version, split_str. rewrite <- Hj. cbn [join].
  assert (H2 : no_char (Ascii.eqb "_") p2 = true) by (apply Hnc; left).
  assert (H4 : no_char (Ascii.eqb "_") p4 = true) by (apply Hnc; right; right; left).
  change ("state_epoch_" +:+ (p2 +:+ "_" +:+ "ver" +:+ "_" +:+ p4))
    with ("state_epoch_" +:+ (p2 +:+ ("_" +:+ "ver" +:+ "_" +:+ p4))).
  rewrite split_ver_prefix.
  2: { intros s' Hs'. destruct p2 as [|c p2]; [done|]. cbn in Hs'. injection Hs' as -> _.
       by apply (parse_u64_not_v _ _ Ee p2). }
  rewrite split_ver_word by done. rewrite split_ver_at by done.
  cbn [pre length Nat.eqb negb lookup list_lookup expect_opt mbind outcome_bind].
  rewrite Ew. cbn [default from_option]. unfold Datatypes.id. by rewrite Ev.
Qed.

Lemma find_closest_transaction_spec l v :
  match find_closest_transaction_folder l v with
  | Ok name => ∃ b, (b, name) ∈ l ∧ b ≤ v ∧ ∀ f, f ∈ l → fst f ≤ v → fst f ≤ b
  | Err _ => ∀ f, f ∈ l → v < fst f
  | Panic _ => False
  end.
Proof.
  unfold find_closest_transaction_folder.
  pose proof (max_filter_spec (fun f => fst f ≤ v) l) as Hb.
  assert (Ha : ∀ x, min_by_key (filter (fun f => v < fst f) l) = Some x → v < fst x).
  { intros x Hx%min_by_key_in. by apply list_elem_of_filter in Hx as [? _]. }
  destruct (max_by_key _) as [[b name]|].
  - destruct Hb as (Hin & Hle & Hmax). cbn [fst] in *.
    assert (Hord : match min_by_key (filter (fun f => v < fst f) l) with
                   | Some (a, _) => negb (a <=? b) | None => true end = true).
    { destruct (min_by_key _) as [[a n]|]; [|done]. specialize (Ha _ eq_refl). cbn in Ha.
      rewrite (proj2 (Z.leb_gt a b)) by lia. done. }
    rewrite Hord. cbn. by exists b.
  - cbn. intros f Hf. specialize (Hb f Hf). lia.
Qed.

Lemma find_closest_ending_spec l t :
  match find_closest_epoch_ending l t with
  | Ok name => ∃ b, (b, name) ∈ l ∧ b ≤ t ∧ ∀ f, f ∈ l → fst f ≤ t → fst f ≤ b
  | Err _ => ∀ f, f ∈ l → t < fst f
  | Panic _ => False
  end.
Proof.
  unfold find_closest_epoch_ending. pose proof (max_filter_spec (fun f => fst f ≤ t) l) as Hb.
  destruct (max_by_key _) as [[b name]|]; cbn in *.
  - exists b. split; [by destruct Hb|]. by destruct Hb as (_ & ? & ?).
  - intros f Hf. specialize (Hb f Hf). lia.
Qed.

(** The state folder of the epoch itself, else of the latest before it *)
Lemma find_matching_state_spec l t :
  match find_matching_state_epoch l t with
  | Ok name => ∃ b, (b, name) ∈ l ∧ b ≤ t ∧ ∀ f, f ∈ l → fst f ≤ t → fst f ≤ b
  | Err _ => ∀ f, f ∈ l → t < fst f
  | Panic _ => False
  end.
Proof.
  unfold find_matching_state_epoch. pose proof (max_filter_spec (fun f => fst f < t) l) as Hb.
  destruct (list_find (fun f => fst f = t) l) as [[i [b name]]|] eqn:E; cbn [fmap option_fmap option_map snd].
  - apply list_find_Some in E as (Hi & Hbt & _). cbn in Hbt. subst b.
    exists t. split; [by eapply list_elem_of_lookup_2|]. split; [lia|]. done.
  - apply list_find_None in E. rewrite Forall_forall in E.
    destruct (max_by_key _) as [[b name]|]; cbn in *.
    + destruct Hb as (Hin & Hlt & Hmax). exists b. split; [done|]. split; [lia|]. intros f Hf Hle.
      apply Hmax; [done|]. specialize (E f Hf). lia.
    + intros f Hf. specialize (Hb f Hf). specialize (E f Hf). lia.
Qed.

Lemma latest_of (l : list folder) (P : folder → Prop) t (o : outcome string) :
  (∀ f, f ∈ l ↔ P f) →
  match o with
  | Ok name => ∃ b, (b, name) ∈ l ∧ b ≤ t ∧ ∀ f, f ∈ l → fst f ≤ t → fst f ≤ b
  | Err _ => ∀ f, f ∈ l → t < fst f
  | Panic _ => False
  end →
  match o with
  | Ok name => latest P t name
  | Err _ => ∀ f, P f → t < fst f
  | Panic _ => False
  end.
Proof. intros HP. unfold latest. destruct o; [by setoid_rewrite HP|by setoid_rewrite HP|done]. Qed.

(** The names listed as state folders parse *)
Lemma listed_state tree b name :
  listed state_epoch_of tree (b, name) →
  ∃ v, parse_state_epoch_info name = Some (b, v) ∧ parse_state_epoch_version name = Ok v.
Proof.
  intros (_ & _ & _ & _ & Hp). cbn in Hp. unfold state_epoch_of in Hp.
  destruct (parse_state_epoch_info name) as [[e v]|] eqn:E; [|done]. injection Hp as ->.
  exists v. split; [done|]. by apply (parse_state_consistent name b).
Qed.

Lemma sorted_listed tree f :
  let s := foldl sort_item (mk_sorted [] [] []) tree in
  (f ∈ endings s ↔ listed parse_epoch_ending_number tree f) ∧
  (f ∈ states s ↔ listed state_epoch_of tree f) ∧
  (f ∈ transactions s ↔ listed parse_transaction_number tree f).
Proof.
  pose proof (sort_items_spec tree (mk_sorted [] [] []) f) as Hs. cbn zeta in *.
  cbn [endings states transactions] in Hs. rewrite !elem_of_nil in Hs. tauto.
Qed.

(** ** Properties *)

(** the folders chosen to restore an epoch: the latest epoch ending and the
    latest state snapshot not after it, and the latest transactions that do not
    start after the version in the snapshot's name.  They are found whenever the
    listing has an ending and a snapshot not after the epoch and, for each
    such snapshot, transactions not after its version; the choice never
    panics, and the two parsers of a snapshot's name always agree. *)
Theorem find_closest_epoch_folder_spec tree target :
  match find_closest_epoch_folder tree target with
  | Ok r =>
      latest (listed parse_epoch_ending_number tree) target (epoch_ending r) ∧
      latest (listed state_epoch_of tree) target (state_epoch r) ∧
      ∃ e v, parse_state_epoch_info (state_epoch r) = Some (e, v) ∧
             latest (listed parse_transaction_number tree) v (transaction r)
  | Err _ =>
      (∀ f, listed parse_epoch_ending_number tree f → target < fst f) ∨
      (∀ f, listed state_epoch_of tree f → target < fst f) ∨
      (∃ name e v, latest (listed state_epoch_of tree) target name ∧
         parse_state_epoch_info name = Some (e, v) ∧
         ∀ f, listed parse_transaction_number tree f → v < fst f)
  | Panic _ => False
  end.
Proof.
  unfold find_closest_epoch_folder. pose proof (sorted_listed tree) as Hin. cbn zeta in Hin.
  set (s := foldl sort_item _ tree) in *.
  pose proof (latest_of _ _ _ _ (λ f, proj1 (Hin f)) (find_closest_ending_spec (endings s) target)) as He.
  pose proof (latest_of _ _ _ _ (λ f, proj1 (proj2 (Hin f))) (find_matching_state_spec (states s) target)) as Hst.
  assert (Ht := λ v, latest_of _ _ _ _ (λ f, proj2 (proj2 (Hin f))) (find_closest_transaction_spec (transactions s) v)).
  assert (Hn : ∀ name, latest (listed state_epoch_of tree) target name → ∃ e v,
    parse_state_epoch_info name = Some (e, v) ∧ parse_state_epoch_version name = Ok v).
  { intros name (b & Hb & _). exists b. by apply (listed_state tree). }
  destruct (match endings s with [] => false | _ => _ end) eqn:Hne; cbn [ensure mbind outcome_bind].
  2: { clear He Ht. destruct (endings s); [left; by intros g Hg%Hin%not_elem_of_nil|].
       destruct (states s); [right; left; by intros g Hg%Hin%not_elem_of_nil|].
       destruct (transactions s); [|done].
       destruct (find_matching_state_epoch _ target) as [name|e|m]; [|by right; left|done].
       right. right. destruct (Hn _ Hst) as (e & v & Hp & _). exists name, e, v.
       split; [done|]. split; [done|]. by intros g Hg%Hin%not_elem_of_nil. }
  destruct (find_closest_epoch_ending _ _) as [en|e|m]; cbn [context_res mbind outcome_bind]; [|by left|done].
  destruct (find_matching_state_epoch _ _) as [sn|e|m]; cbn [context_res mbind outcome_bind]; [|by right; left|done].
  destruct (Hn _ Hst) as (e & v & Hp & Hv). rewrite Hv. cbn [mbind outcome_bind]. specialize (Ht v).
  destruct (find_closest_transaction_folder _ _) as [tn|e'|m]; cbn [context_res mbind outcome_bind]; [| |done].
  - cbn [epoch_ending state_epoch transaction]. split; [done|]. split; [done|]. by exists e, v.
  - right. right. by exists sn, e, v.
Qed.

(** folder names as the backup tool writes them parse to their numbers. *)
Theorem folder_names_roundtrip n m w :
  is_u64 n → is_u64 m → no_char (Ascii.eqb "_") w = true →
  parse_epoch_ending_number ("epoch_ending_" +:+ show_uint n +:+ "-." +:+ w) = Some n ∧
  parse_state_epoch_info ("state_epoch_" +:+ show_uint n +:+ "_ver_" +:+ show_uint m +:+ "." +:+ w) = Some (n, m) ∧
  parse_transaction_number ("transaction_" +:+ show_uint n +:+ "-." +:+ w) = Some n.
Proof.
  intros Hn Hm Hw.
  assert (Hdig : ∀ k f, is_u64 k → (∀ c, is_digit c = true → f c = false) → no_char f (show_uint k) = true).
  { intros k f Hk Hf. apply show_uint_no_char; [unfold is_u64 in Hk; lia|done]. }
  assert (Hparse : ∀ k, is_u64 k → parse_ok (show_uint k) = Some k).
  { intros k Hk. apply parse_ok_spec. by apply parse_u64_show. }
  assert (Hdash : ∀ c, is_digit c = true → is_dash_or_dot c = false).
  { intros c Hc. unfold is_dash_or_dot. destruct (Ascii.eqb_spec c "-") as [->|]; [done|].
    by destruct (Ascii.eqb_spec c ".") as [->|]. }
  assert (Hch : ∀ d c, is_digit d = false → is_digit c = true → Ascii.eqb d c = false).
  { intros d c Hd Hc. destruct (Ascii.eqb_spec d c) as [->|]; [congruence|done]. }
  split; [|split].
  - unfold parse_epoch_ending_number. rewrite strip_prefix_app. cbn [mbind option_bind].
    change (show_uint n +:+ "-." +:+ w) with (show_uint n +:+ String "-" ("." +:+ w)).
    rewrite split_pred_cons by (reflexivity || by apply Hdig). cbn [head mbind option_bind]. by apply Hparse.
  - unfold parse_state_epoch_info.
    rewrite (proj2 (starts_with_spec _ _)) by (by eexists). cbn [negb].
    assert (Hs : split_char "_" ("state_epoch_" +:+ show_uint n +:+ "_ver_" +:+ show_uint m +:+ "." +:+ w)
                 = ["state"; "epoch"; show_uint n; "ver"; show_uint m +:+ "." +:+ w]%string).
    { change (split_char "_" ("state_epoch_" +:+ show_uint n +:+ "_ver_" +:+ show_uint m +:+ "." +:+ w)) with
        ("state"%string :: "epoch"%string ::
         split_char "_" (show_uint n +:+ String "_" ("ver" +:+ String "_" (show_uint m +:+ "." +:+ w)))).
      unfold split_char. rewrite split_pred_cons by (reflexivity || (apply Hdig; [done|intros d Hd; by apply Hch])).
      rewrite split_pred_cons by done. rewrite split_pred_no_char; [done|].
      change (show_uint m +:+ "." +:+ w) with (show_uint m +:+ String "." w).
      assert (Hna : ∀ a b, no_char (Ascii.eqb "_") a = true → no_char (Ascii.eqb "_") b = true →
                     no_char (Ascii.eqb "_") (a +:+ b) = true).
      { induction a as [|c a IH]; intros b Ha Hb; [done|]. cbn [no_char String.append] in *.
        apply andb_true_iff in Ha as [-> Ha]. by apply IH. }
      apply Hna; [apply Hdig; [done|intros d Hd; by apply Hch]|done]. }
    rewrite Hs. cbn [length Nat.eqb negb orb]. rewrite bool_decide_true by done.
    cbn [negb lookup list_lookup mbind option_bind].
    rewrite Hparse by done. cbn [mbind option_bind].
    change (show_uint m +:+ "." +:+ w) with (show_uint m +:+ String "." w).
    unfold split_char. rewrite split_pred_cons by (reflexivity || (apply Hdig; [done|intros d Hd; by apply Hch])).
    cbn [head mbind option_bind]. by rewrite Hparse.
  - unfold parse_transaction_number. rewrite strip_prefix_app. cbn [mbind option_bind].
    change (show_uint n +:+ "-." +:+ w) with (show_uint n +:+ String "-" ("." +:+ w)).
    rewrite split_pred_cons by (reflexivity || by apply Hdig). cbn [head mbind option_bind]. by apply Hparse.
Qed.

Lemma folder_names_roundtrip_witness :
  parse_epoch_ending_number ("epoch_ending_" +:+ show_uint 273 +:+ "-." +:+ "0338") = Some 273 ∧
  parse_state_epoch_info ("state_epoch_" +:+ show_uint 173 +:+ "_ver_" +:+ show_uint 58967541 +:+ "." +:+ "0338")
    = Some (173, 58967541) ∧
  parse_transaction_number ("transaction_" +:+ show_uint 273 +:+ "-." +:+ "0338") = Some 273.
Proof.
  split; [|split].
  - apply (folder_names_roundtrip 273 0 "0338"); [by split|by split|reflexivity].
  - apply (folder_names_roundtrip 173 58967541 "0338"); [by split|by split|reflexivity].
  - apply (folder_names_roundtrip 273 0 "0338"); [by split|by split|reflexivity].
Defined.
