(* ===== verification/Supply.v ===== *)
(** * tools/genesis/src/supply.rs

    The statistics of the coin supply of a recovery file: sixteen [f64]
    accumulators.  The specification is in integers; below 2^53 the two
    agree. *)
From Stdlib Require Import ZArith Lia.
From stdpp Require Import base option list.
From S2P Require Import Prelude MoveTypes Recovery F64.

Open Scope Z_scope.

(** ** supply.rs *)
Record Supply := mk_supply {
  total : f64;
  normal : f64;
  validator : f64;
  slow_total : f64;
  slow_locked : f64;
  slow_validator_locked : f64;
  slow_unlocked : f64;
  donor_voice : f64;
  make_whole : f64;
  split_factor : f64;
  escrow_pct : f64;
  epoch_reward_base_case : f64;
  expected_user_balance : f64;
  expected_user_ratio : f64;
  expected_circulating : f64;
  expected_circulating_ratio : f64
}.

Definition f64_zero : f64 := f64_of_int 0.
Definition supply_default : Supply :=
  mk_supply f64_zero f64_zero f64_zero f64_zero f64_zero f64_zero f64_zero f64_zero f64_zero f64_zero
    f64_zero f64_zero f64_zero f64_zero f64_zero f64_zero.

(** The seven accumulators that [inc_supply] assigns *)
Definition with_stats (s : Supply) (t n v st sl svl su : f64) : Supply :=
  mk_supply t n v st sl svl su (donor_voice s) (make_whole s) (split_factor s) (escrow_pct s)
    (epoch_reward_base_case s) (expected_user_balance s) (expected_user_ratio s) (expected_circulating s)
    (expected_circulating_ratio s).

Definition inc_supply (self : Supply) (r : LegacyRecoveryV6) : Supply :=
  let user_total := match balance r with Some b => f64_of_int (Res.coin b) | None => f64_zero end in
  let total' := f64_add (total self) user_total in
  match slow_wallet r with
  | Some sl =>
      let slow_total' := f64_add (slow_total self) user_total in
      if 0 <? Res.unlocked sl then
        let unlocked := f64_of_int (Res.unlocked sl) in
        if f64_gtb user_total unlocked then
          let locked := f64_sub user_total unlocked in
          with_stats self total' (normal self)
            (if bool_decide (is_Some (val_cfg r)) then f64_add (validator self) user_total else validator self)
            slow_total' (f64_add (slow_locked self) locked)
            (if bool_decide (is_Some (val_cfg r)) then f64_add (slow_validator_locked self) locked
             else slow_validator_locked self)
            (f64_add (slow_unlocked self) unlocked)
        else
          with_stats self total' (normal self) (validator self) slow_total' (slow_locked self)
            (slow_validator_locked self) (f64_add (slow_unlocked self) user_total)
      else
        with_stats self total' (normal self) (validator self) slow_total' (slow_locked self)
          (slow_validator_locked self) (slow_unlocked self)
  | None =>
      if bool_decide (is_Some (cumulative_deposits r)) then
        with_stats self total' (normal self) (validator self) (f64_add (slow_total self) user_total)
          (f64_add (slow_locked self) user_total) (slow_validator_locked self) (slow_unlocked self)
      else
        with_stats self total' (f64_add (normal self) user_total) (validator self) (slow_total self)
          (slow_locked self) (slow_validator_locked self) (slow_unlocked self)
  end.

Definition populate_supply_stats_from_legacy (rec : list LegacyRecoveryV6) : outcome Supply :=
  Ok (foldl inc_supply supply_default rec).

(** ** Specification: the shares of an account, in coins *)
Definition coins (e : LegacyRecoveryV6) : Z := match balance e with Some b => Res.coin b | None => 0 end.
Definition share_normal (e : LegacyRecoveryV6) : Z :=
  match slow_wallet e, cumulative_deposits e with None, None => coins e | _, _ => 0 end.
Definition share_slow (e : LegacyRecoveryV6) : Z := coins e - share_normal e.
(** What a slow wallet can spend: never more than its balance *)
Definition share_unlocked (e : LegacyRecoveryV6) : Z :=
  match slow_wallet e with Some s => Z.min (coins e) (Res.unlocked s) | None => 0 end.
(** What is counted as locked: nothing for a wallet that has nothing unlocked *)
Definition share_locked (e : LegacyRecoveryV6) : Z :=
  match slow_wallet e with
  | Some s => if Res.unlocked s =? 0 then 0 else coins e - Z.min (coins e) (Res.unlocked s)
  | None => match cumulative_deposits e with Some _ => coins e | None => 0 end
  end.
(** The balance of a wallet that has nothing unlocked *)
Definition share_uncounted (e : LegacyRecoveryV6) : Z :=
  match slow_wallet e with Some s => if Res.unlocked s =? 0 then coins e else 0 | None => 0 end.
(** A validator counts when its slow wallet is partly unlocked. *)
Definition counts_as_validator (e : LegacyRecoveryV6) : bool :=
  match val_cfg e, slow_wallet e with
  | Some _, Some s => (0 <? Res.unlocked s) && (Res.unlocked s <? coins e)
  | _, _ => false
  end.
Definition share_validator (e : LegacyRecoveryV6) : Z := if counts_as_validator e then coins e else 0.
Definition share_validator_locked (e : LegacyRecoveryV6) : Z := if counts_as_validator e then share_locked e else 0.

Definition sum_of (f : LegacyRecoveryV6 → Z) (rec : list LegacyRecoveryV6) : Z := foldr (fun e n => f e + n) 0 rec.

(** Balances are not negative, unlocked amounts are below 2^53. *)
Definition supply_wf (e : LegacyRecoveryV6) : Prop :=
  0 ≤ coins e ∧ match slow_wallet e with Some s => exact (Res.unlocked s) | None => True end.

(** ** Lemmas *)
Lemma sum_of_app f l e : sum_of f (l ++ [e]) = sum_of f l + f e.
Proof. unfold sum_of. induction l as [|x l IH]; cbn in *; lia. Qed.

Lemma sum_of_add f g l : sum_of (λ e, f e + g e) l = sum_of f l + sum_of g l.
Proof. unfold sum_of. induction l as [|x l IH]; cbn in *; lia. Qed.

Lemma sum_of_ext f g l : (∀ e, e ∈ l → f e = g e) → sum_of f l = sum_of g l.
Proof.
  unfold sum_of. induction l as [|x l IH]; intros Hfg; cbn; [done|].
  rewrite (Hfg x) by left. f_equal. apply IH. intros e He. apply Hfg. by right.
Qed.

(** Every share lies between nothing and the balance. *)
Definition share (f : LegacyRecoveryV6 → Z) : Prop := ∀ e, supply_wf e → 0 ≤ f e ≤ coins e.

Lemma shares_ok :
  share coins ∧ share share_normal ∧ share share_slow ∧ share share_unlocked ∧ share share_locked ∧
  share share_validator ∧ share share_validator_locked.
Proof.
  assert (Hn : share share_normal).
  { intros e [Hc _]. unfold share_normal. destruct (slow_wallet e), (cumulative_deposits e); lia. }
  assert (Hl : share share_locked).
  { intros e [Hc Hu]. unfold share_locked. destruct (slow_wallet e) as [s|].
    - destruct Hu. destruct (_ =? 0); lia.
    - destruct (cumulative_deposits e); lia. }
  split; [intros e [Hc _]; lia|]. split; [done|].
  split; [intros e He; specialize (Hn e He); unfold share_slow; lia|].
  split; [intros e [Hc Hu]; unfold share_unlocked; destruct (slow_wallet e) as [s|]; [destruct Hu|]; lia|].
  split; [done|]. split; intros e He; unfold share_validator, share_validator_locked; specialize (Hl e He);
    destruct (counts_as_validator e); destruct He; lia.
Qed.

Lemma sum_share f l : share f → Forall supply_wf l → 0 ≤ sum_of f l ≤ sum_of coins l.
Proof.
  intros Hf Hl. unfold sum_of. induction Hl as [|e l He Hl IH]; cbn; [lia|]. specialize (Hf e He). lia.
Qed.

(** One accumulator: adding a share that is left out when it is zero *)
Lemma add_share f l e :
  share f → Forall supply_wf (l ++ [e]) → sum_of coins (l ++ [e]) < 2 ^ 53 →
  f64_add (f64_of_int (sum_of f l)) (f64_of_int (f e)) = f64_of_int (sum_of f (l ++ [e])).
Proof.
  intros Hf Hwf Hlt. rewrite sum_of_app in *. apply Forall_app in Hwf as [Hl [He _]%Forall_cons].
  pose proof (sum_share f l Hf Hl). pose proof (Hf e He). apply f64_add_exact; unfold exact; lia.
Qed.

Lemma add_nothing f l e : f e = 0 → sum_of f (l ++ [e]) = sum_of f l.
Proof. rewrite sum_of_app. lia. Qed.

(** The statistics in integers *)
Definition stats_of (rec : list LegacyRecoveryV6) : Supply :=
  let f share := f64_of_int (sum_of share rec) in
  with_stats supply_default (f coins) (f share_normal) (f share_validator) (f share_slow) (f share_locked)
    (f share_validator_locked) (f share_unlocked).

Lemma with_stats_twice s t n v st sl svl su t' n' v' st' sl' svl' su' :
  with_stats (with_stats s t n v st sl svl su) t' n' v' st' sl' svl' su' = with_stats s t' n' v' st' sl' svl' su'.
Proof. done. Qed.

(** Evaluates the share of an account whose slow wallet is known *)
Ltac shares e Es :=
  solve [ done
  | unfold share_validator, share_validator_locked, counts_as_validator, share_slow, share_normal, share_unlocked,
      share_locked;
    rewrite ?Es; try (destruct (val_cfg e) eqn:?); try (destruct (cumulative_deposits e) eqn:?);
    repeat case_bool_decide;
    repeat match goal with
           | H : is_Some None |- _ => by destruct H
           | H : ¬ is_Some (Some _) |- _ => by destruct H
           end;
    repeat match goal with
           | |- context [Z.ltb ?a ?b] => destruct (Z.ltb_spec a b)
           | |- context [Z.eqb ?a ?b] => destruct (Z.eqb_spec a b)
           end; cbn [andb]; intros; simplify_eq; try done; lia ].

Lemma inc_stats l e :
  Forall supply_wf (l ++ [e]) → sum_of coins (l ++ [e]) < 2 ^ 53 →
  inc_supply (stats_of l) e = stats_of (l ++ [e]).
Proof.
  intros Hwf Hlt. pose proof shares_ok as (Ic & In & Is & Iu & Il & Iv & Ivl).
  pose proof (λ f Hf, add_share f l e Hf Hwf Hlt) as Hadd.
  pose proof (λ f, add_nothing f l e) as Hno.
  assert (He : supply_wf e) by (apply Forall_app in Hwf as [_ [He _]%Forall_cons]; done).
  assert (Hx : exact (coins e)).
  { rewrite sum_of_app in Hlt. apply Forall_app in Hwf as [Hl _].
    pose proof (sum_share coins l Ic Hl). destruct He. unfold exact. lia. }
  unfold inc_supply, stats_of. cbn [total normal validator slow_total slow_locked slow_validator_locked slow_unlocked with_stats].
  replace (match balance e with Some b => f64_of_int (Res.coin b) | None => f64_zero end)
    with (f64_of_int (coins e)) by (unfold coins; by destruct (balance e)).
  rewrite (Hadd coins Ic).
  assert (Hval : ∀ (b : bool) f x, share f → (b = true → f e = x) → (b = false → f e = 0) →
    (if b then f64_add (f64_of_int (sum_of f l)) (f64_of_int x) else f64_of_int (sum_of f l))
    = f64_of_int (sum_of f (l ++ [e]))).
  { intros b f x Hf Ht Hff. destruct b; [rewrite <- Ht by done; by apply Hadd|by rewrite Hno by auto]. }
  assert (Hyes : ∀ f x, share f → f e = x →
    f64_add (f64_of_int (sum_of f l)) (f64_of_int x) = f64_of_int (sum_of f (l ++ [e]))) by (intros f x Hf <-; by apply Hadd).
  destruct (slow_wallet e) as [s|] eqn:Es.
  - assert (Hu : exact (Res.unlocked s)) by (destruct He as [_ Hu]; by rewrite Es in Hu).
    rewrite f64_gtb_exact by done. pose proof Hu as [Hu0 _]. pose proof Hx as [Hx0 _].
    destruct (Z.ltb_spec 0 (Res.unlocked s)); [destruct (Z.ltb_spec (Res.unlocked s) (coins e))|].
    + rewrite f64_sub_exact by (done || lia).
      rewrite !(Hval (bool_decide _)) by (done || by shares e Es).
      unfold with_stats. f_equal; first [done|apply Hyes; shares e Es|rewrite Hno; shares e Es].
    + unfold with_stats. f_equal; first [done|apply Hyes; shares e Es|rewrite Hno; shares e Es].
    + unfold with_stats. f_equal; first [done|apply Hyes; shares e Es|rewrite Hno; shares e Es].
  - destruct (cumulative_deposits e) as [d|] eqn:Ed;
      [rewrite bool_decide_true by by eexists|rewrite bool_decide_false by by intros []];
      unfold with_stats; f_equal; first [done|apply Hyes; shares e Es|rewrite Hno; shares e Es].
Qed.

Lemma populate_stats rec :
  Forall supply_wf rec → sum_of coins rec < 2 ^ 53 → foldl inc_supply supply_default rec = stats_of rec.
Proof.
  induction rec as [|e l IH] using rev_ind; intros Hwf Hlt; [reflexivity|].
  rewrite foldl_app, IH; [by apply inc_stats|by apply Forall_app in Hwf as [? _]|].
  rewrite sum_of_app in Hlt. apply Forall_app in Hwf as [_ [[Hc _] _]%Forall_cons]. lia.
Qed.

(** ** Properties *)

(** C38: below 2^53 coins the statistics are exact: every accumulator is the
    float of the sum of its share over the accounts, and the nine others stay
    zero.  The coins are those of ordinary and of slow accounts; those of slow
    accounts are the locked, the unlocked, and the balances of slow wallets with
    nothing unlocked, which are in neither.  What is counted as locked for
    validators is at most what is locked. *)
Theorem populate_supply_spec rec :
  Forall supply_wf rec → sum_of coins rec < 2 ^ 53 →
  populate_supply_stats_from_legacy rec = Ok (stats_of rec) ∧
  sum_of coins rec = sum_of share_normal rec + sum_of share_slow rec ∧
  sum_of share_slow rec = sum_of share_locked rec + sum_of share_unlocked rec + sum_of share_uncounted rec ∧
  0 ≤ sum_of share_validator_locked rec ≤ sum_of share_locked rec.
Proof.
  intros Hwf Hlt. unfold populate_supply_stats_from_legacy. rewrite populate_stats by done. split; [done|].
  rewrite Forall_forall in Hwf. rewrite <- !sum_of_add. split; [|split].
  - apply sum_of_ext. intros e _. unfold share_slow. lia.
  - apply sum_of_ext. intros e [Hc Hu]%Hwf.
    unfold share_slow, share_normal, share_locked, share_unlocked, share_uncounted.
    destruct (slow_wallet e) as [s|]; [destruct Hu|destruct (cumulative_deposits e); lia].
    destruct (Z.eqb_spec (Res.unlocked s) 0); lia.
  - pose proof shares_ok as (_ & _ & _ & _ & Il & _ & Ivl).
    split; [by apply sum_share; [|apply Forall_forall]|].
    assert (Hle : ∀ e, e ∈ rec → 0 ≤ share_locked e - share_validator_locked e).
    { intros e He%Hwf. specialize (Il e He). unfold share_validator_locked. destruct (counts_as_validator e); lia. }
    clear Hwf Hlt Il Ivl. unfold sum_of. induction rec as [|e l IH]; cbn; [lia|].
    pose proof (Hle e ltac:(left)). specialize (IH (λ x Hx, Hle x ltac:(by right))). lia.
Qed.

(** ** Witnesses *)
(** A validator with 60 of 100 coins locked, and a wallet that never unlocked *)
Definition sample_validator : LegacyRecoveryV6 :=
  mk_recovery (Some user_addr) None Validator (Some (Res.mk_balance 100)) (Some []) None None None None None
    None (Some (Res.mk_slow 40 3)) None None None None None None None None None None None None None None.
Definition sample_locked : LegacyRecoveryV6 :=
  mk_recovery (Some user_addr) None EndUser (Some (Res.mk_balance 25)) None None None None None None
    None (Some (Res.mk_slow 0 0)) None None None None None None None None None None None None None None.

Example sample_stats :
  let s := foldl inc_supply supply_default [sample_validator; sample_locked; sample_system] in
  (total s, slow_total s, slow_locked s, slow_unlocked s, slow_validator_locked s)
  = (f64_of_int 125, f64_of_int 125, f64_of_int 60, f64_of_int 40, f64_of_int 60).
Proof. vm_compute. reflexivity. Qed.

Lemma populate_supply_spec_witness :
  populate_supply_stats_from_legacy [sample_validator; sample_locked] = Ok (stats_of [sample_validator; sample_locked]) ∧
  sum_of coins [sample_validator; sample_locked] = 125 ∧
  sum_of share_uncounted [sample_validator; sample_locked] = 25.
Proof.
  split; [|split; reflexivity]. apply populate_supply_spec; [|reflexivity].
  repeat constructor; by vm_compute.
Defined.
