(* ===== verification/GenesisRegistration.v ===== *)
(** * tools/genesis: the registration of validators

    genesis_registration.rs publishes a validator's configuration to a
    repository, and genesis_builder.rs reads the configurations of the genesis
    layout back and checks them.  The repository, base64 and YAML are the
    crates'. *)
From Stdlib Require Import ZArith Lia Ascii.
From stdpp Require Import base option list strings gmap.
From S2P Require Import Prelude RustStr Bytes MoveTypes Mnemonic Wallet ValidatorKeys.

Open Scope list_scope.
Open Scope Z_scope.

(** ** Text *)
Definition bytes_str (bs : bytes) : string :=
  String.string_of_list_ascii ((fun b => ascii_of_nat (Z.to_nat b)) <$> bs).

(** [String::from_utf8]: the byte sequences of the Unicode standard *)
Definition in_range (a b x : Z) : bool := (a <=? x) && (x <=? b).
Fixpoint utf8_valid (bs : bytes) : bool :=
  match bs with
  | [] => true
  | a :: bs1 =>
      if in_range 0 127 a then utf8_valid bs1 else
      match bs1 with
      | [] => false
      | b :: bs2 =>
          if in_range 194 223 a then in_range 128 191 b && utf8_valid bs2 else
          match bs2 with
          | [] => false
          | c :: bs3 =>
              if in_range 224 239 a then
                in_range (if a =? 224 then 160 else 128) (if a =? 237 then 159 else 191) b &&
                in_range 128 191 c && utf8_valid bs3
              else
              match bs3 with
              | [] => false
              | d :: bs4 =>
                  in_range 240 244 a && in_range (if a =? 240 then 144 else 128) (if a =? 244 then 143 else 191) b &&
                  in_range 128 191 c && in_range 128 191 d && utf8_valid bs4
              end
          end
      end
  end.
Definition from_utf8 (bs : bytes) : outcome string :=
  if utf8_valid bs then Ok (bytes_str bs) else Err "invalid utf-8 sequence".

(** [PathBuf::from(dir).join(file).display()] *)
Definition join_display (dir file : string) : string :=
  if String.eqb dir EmptyString then file
  else if ends_with "/" dir then dir +:+ file
  else dir +:+ "/" +:+ file.

(** [u8::is_ascii_hexdigit], and [bool::from_str] *)
Definition is_hexdigit (c : ascii) : bool := bool_decide (is_Some (hex_val c)).
Definition parse_bool (s : string) : outcome bool :=
  if String.eqb s "true" then Ok true else if String.eqb s "false" then Ok false
  else Err "provided string was not `true` or `false`".

(** ** The crates *)

(** The keys of a configuration: diem_crypto's types, by their length *)
Inductive key_kind := Ed25519PublicKey | X25519PublicKey | BlsPublicKey | BlsProofOfPossession.
Definition key_length (k : key_kind) : nat :=
  match k with Ed25519PublicKey | X25519PublicKey => 32 | BlsPublicKey => 48 | BlsProofOfPossession => 96 end.

(** diem_genesis: the configurations as they are read, every field a text *)
Record StringOwnerConfiguration := mk_string_owner {
  so_owner_account_address : option string;
  so_owner_account_public_key : option string;
  so_voter_account_address : option string;
  so_voter_account_public_key : option string;
  so_operator_account_address : option string;
  so_operator_account_public_key : option string;
  so_stake_amount : option string;
  so_commission_percentage : option string;
  so_join_during_genesis : option string
}.
Record StringOperatorConfiguration := mk_string_operator {
  sp_operator_account_address : option string;
  sp_operator_account_public_key : option string;
  sp_consensus_public_key : option string;
  sp_consensus_proof_of_possession : option string;
  sp_validator_network_public_key : option string;
  sp_validator_host : HostAndPort;
  sp_full_node_network_public_key : option string;
  sp_full_node_host : option HostAndPort
}.
Record ValidatorConfiguration := mk_validator_configuration {
  vc_owner_account_address : AccountAddress;
  vc_owner_account_public_key : bytes;
  vc_operator_account_address : AccountAddress;
  vc_operator_account_public_key : bytes;
  vc_voter_account_address : AccountAddress;
  vc_voter_account_public_key : bytes;
  vc_consensus_public_key : option bytes;
  vc_proof_of_possession : option bytes;
  vc_validator_network_public_key : option bytes;
  vc_validator_host : option HostAndPort;
  vc_full_node_network_public_key : option bytes;
  vc_full_node_host : option HostAndPort;
  vc_stake_amount : Z;
  vc_commission_percentage : Z;
  vc_join_during_genesis : bool
}.

(** The text of a key: [to_encoded_string] *)
Definition key_text (bs : bytes) : string := "0x" +:+ fmt_02x bs.
Definition show_bool (b : bool) : string := if b then "true" else "false".
(** What reading the YAML of a configuration gives, field by field *)
Definition string_owner (address_text : AccountAddress → string) (c : OwnerConfiguration) : StringOwnerConfiguration :=
  mk_string_owner (Some (address_text (ow_owner_account_address c))) (Some (key_text (ow_owner_account_public_key c)))
    (Some (address_text (ow_voter_account_address c))) (Some (key_text (ow_voter_account_public_key c)))
    (Some (address_text (ow_operator_account_address c))) (Some (key_text (ow_operator_account_public_key c)))
    (Some (show_uint (ow_stake_amount c))) (Some (show_uint (ow_commission_percentage c)))
    (Some (show_bool (ow_join_during_genesis c))).
Definition string_operator (address_text : AccountAddress → string) (c : OperatorConfiguration)
    : StringOperatorConfiguration :=
  mk_string_operator (Some (address_text (op_operator_account_address c)))
    (Some (key_text (op_operator_account_public_key c))) (Some (key_text (op_consensus_public_key c)))
    (Some (key_text (op_consensus_proof_of_possession c))) (Some (key_text (op_validator_network_public_key c)))
    (op_validator_host c) (key_text <$> op_full_node_network_public_key c) (op_full_node_host c).

Class RegistrationCodec := {
  base64_encode : bytes → string;
  base64_decode : string → outcome bytes;
  owner_to_yaml : OwnerConfiguration → outcome string;
  operator_to_yaml : OperatorConfiguration → outcome string;
  owner_from_yaml : string → outcome StringOwnerConfiguration;
  operator_from_yaml : string → outcome StringOperatorConfiguration;
  layout_from_yaml : string → outcome (list string);
  address_with_checks_from_str : string → outcome AccountAddress;
  address_text : AccountAddress → string;
  from_encoded_string : key_kind → string → outcome bytes;
  base64_law bs : is_bytes bs → base64_decode (base64_encode bs) = Ok bs;
  (** A [String] is UTF-8. *)
  owner_yaml_law c s : owner_to_yaml c = Ok s →
    utf8_valid (str_bytes s) = true ∧ owner_from_yaml s = Ok (string_owner address_text c);
  operator_yaml_law c s : operator_to_yaml c = Ok s →
    utf8_valid (str_bytes s) = true ∧ operator_from_yaml s = Ok (string_operator address_text c)
}.

(** diem_github_client: files of a branch, base64 without line breaks *)
Class GithubClient (G : Type) := {
  get_file : G → string → outcome string;
  put : G → string → string → outcome G;
  get_put g p s g' : put g p s = Ok g' →
    get_file g' p = Ok s ∧ ∀ q, q ≠ p → get_file g' q = get_file g q
}.

Definition LAYOUT_FILE : string := "layout.yaml".
Definition FRAMEWORK_NAME : string := "framework.mrb".

(** ** genesis_builder.rs: parsing fields *)
Section registration.
  Context {G : Type} `{GithubClient G, RegistrationCodec}.

Definition parse_key (k : key_kind) (num_bytes : nat) (str : string) : outcome bytes :=
  let num_chars := (num_bytes * 2)%nat in
  let working := trim str in
  working ← (if starts_with "0x" working then slice_from 2 working else Ok working);
  ensure (negb (String.length working <? num_chars)%nat) "Key is too short";;
  ensure (negb (num_chars <? String.length working)%nat) "Key is too long";;
  ensure (forallb is_hexdigit (String.list_ascii_of_string working)) "Key contains a non-hex character";;
  from_encoded_string k (trim str).

Definition parse_required_option {T} (field_opt : option string) (file field_name : string) (parse : string → outcome T)
    : outcome T :=
  match field_opt with
  | Some field => context_res ("Field " +:+ field_name +:+ " is invalid in file " +:+ file) (parse field)
  | None => Err ("File " +:+ file +:+ " is missing " +:+ field_name)
  end.

Definition parse_optional_option {T} (field_opt : option string) (file field_name : string) (parse : string → outcome T)
    : outcome (option T) :=
  match field_opt with
  | Some field => Some <$> context_res ("Field " +:+ field_name +:+ " is invalid in file " +:+ file) (parse field)
  | None => Ok None
  end.

(** [from_yaml(&String::from_utf8(base64::decode(client.get_file(..)?)?)?)] *)
Definition fetch {T} (client : G) (file : string) (from_yaml : string → outcome T) : outcome T :=
  content ← get_file client file;
  bs ← base64_decode content;
  text ← from_utf8 bs;
  from_yaml text.

Definition get_config (client : G) (user : string) : outcome ValidatorConfiguration :=
  let owner_file := join_display user OWNER_FILE in
  owner_config ← fetch client owner_file owner_from_yaml;
  owner_account_address ← parse_required_option (so_owner_account_address owner_config) owner_file
    "owner_account_address" address_with_checks_from_str;
  owner_account_public_key ← parse_required_option (so_owner_account_public_key owner_config) owner_file
    "owner_account_public_key" (parse_key Ed25519PublicKey 32);
  operator_account_address ← parse_required_option (so_operator_account_address owner_config) owner_file
    "operator_account_address" address_with_checks_from_str;
  operator_account_public_key ← parse_required_option (so_operator_account_public_key owner_config) owner_file
    "operator_account_public_key" (parse_key Ed25519PublicKey 32);
  voter_account_address ← parse_required_option (so_voter_account_address owner_config) owner_file
    "voter_account_address" address_with_checks_from_str;
  voter_account_public_key ← parse_required_option (so_voter_account_public_key owner_config) owner_file
    "voter_account_public_key" (parse_key Ed25519PublicKey 32);
  stake_amount ← parse_required_option (so_stake_amount owner_config) owner_file "stake_amount" parse_u64;
  commission ← parse_optional_option (so_commission_percentage owner_config) owner_file
    "commission_percentage" parse_u64;
  join ← parse_optional_option (so_join_during_genesis owner_config) owner_file "join_during_genesis" parse_bool;
  let operator_file := join_display user OPERATOR_FILE in
  operator_config ← fetch client operator_file operator_from_yaml;
  operator_account_address_from_file ← parse_required_option (sp_operator_account_address operator_config)
    operator_file "operator_account_address" address_with_checks_from_str;
  operator_account_public_key_from_file ← parse_required_option (sp_operator_account_public_key operator_config)
    operator_file "operator_account_public_key" (parse_key Ed25519PublicKey 32);
  consensus_public_key ← parse_required_option (sp_consensus_public_key operator_config) operator_file
    "consensus_public_key" (parse_key BlsPublicKey 48);
  consensus_proof_of_possession ← parse_required_option (sp_consensus_proof_of_possession operator_config)
    operator_file "consensus_proof_of_possession" (parse_key BlsProofOfPossession 96);
  validator_network_public_key ← parse_required_option (sp_validator_network_public_key operator_config)
    operator_file "validator_network_public_key" (parse_key X25519PublicKey 32);
  full_node_network_public_key ← parse_optional_option (sp_full_node_network_public_key operator_config)
    operator_file "full_node_network_public_key" (parse_key X25519PublicKey 32);
  ensure (bool_decide (operator_account_address = operator_account_address_from_file))
    "Operator account in owner file does not match operator account in operator file";;
  ensure (bool_decide (operator_account_public_key = operator_account_public_key_from_file))
    "Operator public key in owner file does not match operator public key in operator file";;
  Ok (mk_validator_configuration owner_account_address owner_account_public_key operator_account_address
        operator_account_public_key voter_account_address voter_account_public_key (Some consensus_public_key)
        (Some consensus_proof_of_possession) (Some validator_network_public_key)
        (Some (sp_validator_host operator_config)) full_node_network_public_key (sp_full_node_host operator_config)
        stake_amount (default 0 commission) (default true join)).

(** The loop over the layout's users: validators and errors accumulate *)
Fixpoint configs_loop (client : G) (users : list string) (validators : list ValidatorConfiguration)
    (errors : list string) : outcome (list ValidatorConfiguration * list string) :=
  match users with
  | [] => Ok (validators, errors)
  | user :: users' =>
      match get_config client user with
      | Ok validator => configs_loop client users' (validators ++ [validator]) errors
      | Err failure => configs_loop client users' validators (errors ++ [user +:+ ": " +:+ failure])
      | Panic p => Panic p
      end
  end.

Definition get_validator_configs (client : G) (users : list string) : outcome (list ValidatorConfiguration) :=
  '(validators, errors) ← configs_loop client users [] [];
  match errors with
  | [] => Ok validators
  | _ => Err (join ", " errors)
  end.

(** [fetch_genesis_info]: the framework is a local file's or the repository's;
    [GenesisInfo::new] has the chain and configuration applied. *)
Definition fetch_genesis_info {F I} (load_bundle_from_file : path → outcome F) (bundle_from_bytes : bytes → outcome F)
    (genesis_info_new : bytes → list ValidatorConfiguration → F → outcome I)
    (client : G) (framework_mrb_path : option path) : outcome I :=
  layout ← fetch client LAYOUT_FILE layout_from_yaml;
  validators ← get_validator_configs client layout;
  framework ← match framework_mrb_path with
              | Some p => load_bundle_from_file p
              | None =>
                  content ← get_file client FRAMEWORK_NAME;
                  bs ← base64_decode content;
                  bundle_from_bytes bs
              end;
  dummy_root ← expect_res "could not parse dummy root"
    (from_encoded_string Ed25519PublicKey "0x0000000000000000000000000000000000000000000000000000000000000000");
  genesis_info_new dummy_root validators framework.

(** ** genesis_registration.rs *)
Definition register (client : G) (genesis_username : string) (home : directory) : outcome G :=
  let operator_file := join_display genesis_username OPERATOR_FILE in
  let owner_file := join_display genesis_username OWNER_FILE in
  '(operator_config, owner_config) ← read_configs_from_file home;
  operator_yaml ← operator_to_yaml operator_config;
  client ← put client operator_file (base64_encode (str_bytes operator_yaml));
  owner_yaml ← owner_to_yaml owner_config;
  put client owner_file (base64_encode (str_bytes owner_yaml)).

(** [generate_validator_registration_config]: what a testnet uses instead *)
Definition generate_validator_registration_config `{WalletCrypto, Sha256, DiemAddress, ValidatorCrypto}
    (mnem : string) (h : HostAndPort) : outcome ValidatorConfiguration :=
  key_chain ← get_keys_from_mnem mnem;
  '(_, _, _, public_identity) ← generate_key_objects_from_legacy key_chain;
  let a := pu_account_address public_identity in
  let k := pu_account_public_key public_identity in
  Ok (mk_validator_configuration a k a k a k (pu_consensus_public_key public_identity)
        (pu_consensus_proof_of_possession public_identity) (pu_validator_network_public_key public_identity)
        (Some h) (pu_full_node_network_public_key public_identity) (Some h) 1 1 true).
End registration.

(** ** Lemmas: text *)
Lemma bytes_str_bytes s : bytes_str (str_bytes s) = s.
Proof.
  unfold bytes_str, str_bytes. rewrite <- list_fmap_compose, list_fmap_ext with (g := id).
  - rewrite list_fmap_id. apply String.string_of_list_ascii_of_string.
  - intros _ c _. cbn. by rewrite Nat2Z.id, ascii_nat_embedding.
Qed.
Lemma str_bytes_bytes_str bs : is_bytes bs → str_bytes (bytes_str bs) = bs.
Proof.
  intros Hb. unfold str_bytes, bytes_str. rewrite String.list_ascii_of_string_of_list_ascii.
  rewrite <- list_fmap_compose. induction Hb as [|b bs Hb _ IH]; [done|]. cbn. rewrite IH. f_equal.
  unfold is_u8 in Hb. rewrite nat_ascii_embedding by lia. lia.
Qed.

Lemma str_bytes_wf s : is_bytes (str_bytes s).
Proof.
  unfold is_bytes, str_bytes. apply Forall_fmap, Forall_forall. intros c _. cbn.
  pose proof (nat_ascii_bounded c). unfold is_u8. lia.
Qed.

Lemma from_utf8_str s : utf8_valid (str_bytes s) = true → from_utf8 (str_bytes s) = Ok s.
Proof. intros Hs. unfold from_utf8. by rewrite Hs, bytes_str_bytes. Qed.

Lemma trim_start_no_ws s : no_char is_ws s = true → trim_start s = s.
Proof.
  destruct s as [|c s]; [done|]. cbn [no_char trim_start]. intros [Hc _]%andb_true_iff.
  apply negb_true_iff in Hc. by rewrite Hc.
Qed.
Lemma trim_end_no_ws s : no_char is_ws s = true → trim_end s = s.
Proof.
  induction s as [|c s IH]; [done|]. cbn [no_char trim_end]. intros [Hc Hs]%andb_true_iff.
  apply negb_true_iff in Hc. rewrite IH by done. rewrite Hc. by destruct s.
Qed.
Lemma trim_no_ws s : no_char is_ws s = true → trim s = s.
Proof. intros Hs. unfold trim. by rewrite trim_start_no_ws, trim_end_no_ws. Qed.

(** The characters of a hexadecimal text *)
Lemma fmt_02x_chars (f : ascii → bool) bs :
  (∀ d, 0 ≤ d < 16 → f (hex_digit 97 d) = true) → is_bytes bs →
  forallb f (String.list_ascii_of_string (fmt_02x bs)) = true.
Proof.
  intros Hf Hb. unfold fmt_02x. induction Hb as [|b bs Hb _ IH]; [done|].
  destruct (is_u8_nibbles b Hb). cbn. by rewrite !Hf, IH.
Qed.

Lemma no_char_forallb f s : no_char f s = forallb (fun c => negb (f c)) (String.list_ascii_of_string s).
Proof. induction s as [|c s IH]; cbn; [done|by rewrite IH]. Qed.

Lemma key_text_no_ws bs : is_bytes bs → no_char is_ws (key_text bs) = true.
Proof.
  intros Hb. unfold key_text. cbn [String.append no_char]. apply andb_true_iff. split; [done|].
  apply andb_true_iff. split; [done|]. rewrite no_char_forallb. apply fmt_02x_chars; [|done].
  intros d Hd. apply (forall_below (fun d => negb (is_ws (hex_digit 97 d))) 16 eq_refl d). lia.
Qed.

Lemma hex_text_digits bs :
  is_bytes bs → forallb is_hexdigit (String.list_ascii_of_string (fmt_02x bs)) = true.
Proof.
  intros Hb. apply fmt_02x_chars; [|done]. intros d Hd.
  apply (forall_below (fun d => is_hexdigit (hex_digit 97 d)) 16 eq_refl d). lia.
Qed.

(** A name that stands for a directory of its own *)
Definition plain_name (u : string) : Prop := u ≠ EmptyString ∧ no_char (Ascii.eqb "/") u = true.

Lemma join_display_plain u f : plain_name u → join_display u f = u +:+ "/" +:+ f.
Proof.
  intros [Hu Hs]. unfold join_display. destruct (String.eqb_spec u EmptyString) as [->|_]; [done|].
  destruct (ends_with "/" u) eqn:E; [|done]. exfalso. unfold ends_with in E.
  destruct (strip_suffix "/" u) as [r|] eqn:Hr; [|done]. apply strip_suffix_sound in Hr as ->. clear Hu E.
  induction r as [|c r IH]; cbn in Hs; [done|]. apply andb_true_iff in Hs as [_ Hs]. by apply IH.
Qed.

Lemma join_display_inj u v f g :
  plain_name u → plain_name v → no_char (Ascii.eqb "/") f = true → no_char (Ascii.eqb "/") g = true →
  join_display u f = join_display v g → u = v ∧ f = g.
Proof.
  intros Hu Hv Hf Hg Heq. rewrite !join_display_plain in Heq by done.
  apply (f_equal (split_pred (Ascii.eqb "/"))) in Heq.
  change ("/" +:+ f) with (String "/" f) in Heq. change ("/" +:+ g) with (String "/" g) in Heq.
  destruct Hu as [_ Hu], Hv as [_ Hv]. rewrite !split_pred_cons in Heq by done.
  rewrite !split_pred_no_char in Heq by done. by injection Heq.
Qed.

(** ** Specification *)
Section specification.
  Context {G : Type} `{GithubClient G, RegistrationCodec}.

(** A key whose text its type accepts *)
Definition key_ok (k : key_kind) (bs : bytes) : Prop :=
  is_array (key_length k) bs ∧ from_encoded_string k (key_text bs) = Ok bs.
Definition address_ok (a : AccountAddress) : Prop := address_with_checks_from_str (address_text a) = Ok a.

(** Configurations as [set_config_files] makes them, for one operator *)
Definition configuration_ok (op : OperatorConfiguration) (ow : OwnerConfiguration) : Prop :=
  (ow_operator_account_address ow = op_operator_account_address op ∧
   ow_operator_account_public_key ow = op_operator_account_public_key op) ∧
  (address_ok (ow_owner_account_address ow) ∧ address_ok (ow_voter_account_address ow) ∧
   address_ok (ow_operator_account_address ow)) ∧
  (key_ok Ed25519PublicKey (ow_owner_account_public_key ow) ∧ key_ok Ed25519PublicKey (ow_voter_account_public_key ow) ∧
   key_ok Ed25519PublicKey (ow_operator_account_public_key ow)) ∧
  (key_ok BlsPublicKey (op_consensus_public_key op) ∧ key_ok BlsProofOfPossession (op_consensus_proof_of_possession op) ∧
   key_ok X25519PublicKey (op_validator_network_public_key op)) ∧
  (∀ k, op_full_node_network_public_key op = Some k → key_ok X25519PublicKey k) ∧
  is_u64 (ow_stake_amount ow) ∧ is_u64 (ow_commission_percentage ow).

Definition validator_of (op : OperatorConfiguration) (ow : OwnerConfiguration) : ValidatorConfiguration :=
  mk_validator_configuration (ow_owner_account_address ow) (ow_owner_account_public_key ow)
    (op_operator_account_address op) (op_operator_account_public_key op) (ow_voter_account_address ow)
    (ow_voter_account_public_key ow) (Some (op_consensus_public_key op)) (Some (op_consensus_proof_of_possession op))
    (Some (op_validator_network_public_key op)) (Some (op_validator_host op)) (op_full_node_network_public_key op)
    (op_full_node_host op) (ow_stake_amount ow) (ow_commission_percentage ow) (ow_join_during_genesis ow).

(** The registrations of a ceremony, one after the other *)
Fixpoint register_all (client : G) (regs : list (string * directory)) : outcome G :=
  match regs with
  | [] => Ok client
  | (user, home) :: regs' => client' ← register client user home; register_all client' regs'
  end.

(** ** Lemmas *)
Lemma parse_key_text k bs : key_ok k bs → parse_key k (key_length k) (key_text bs) = Ok bs.
Proof.
  intros [[Hl Hb] Hk]. unfold parse_key. rewrite trim_no_ws by by apply key_text_no_ws.
  rewrite (proj2 (starts_with_spec "0x" (key_text bs))) by by exists (fmt_02x bs).
  replace (slice_from 2 (key_text bs)) with (Ok (fmt_02x bs)) by (symmetry; by apply (slice_from_app "0x")).
  cbn [mbind outcome_bind]. rewrite (fmt_hex_length 97 bs : String.length (fmt_02x bs) = _), Hl.
  rewrite (proj2 (Nat.ltb_ge _ _)) by lia. rewrite (proj2 (Nat.ltb_ge _ _)) by lia.
  rewrite hex_text_digits by done. cbn [ensure negb mbind outcome_bind]. done.
Qed.

Lemma parse_bool_show b : parse_bool (show_bool b) = Ok b.
Proof. by destruct b. Qed.

Lemma fetch_published {T} client file text (from_yaml : string → outcome T) c :
  get_file client file = Ok (base64_encode (str_bytes text)) → utf8_valid (str_bytes text) = true →
  from_yaml text = Ok c → fetch client file from_yaml = Ok c.
Proof.
  intros Hf Hu Hy. unfold fetch. rewrite Hf. cbn [mbind outcome_bind].
  rewrite base64_law by apply str_bytes_wf. cbn [mbind outcome_bind]. by rewrite from_utf8_str.
Qed.

Lemma required_ok {T} (s file name : string) (parse : string → outcome T) x :
  parse s = Ok x → parse_required_option (Some s) file name parse = Ok x.
Proof. intros Hp. unfold parse_required_option. by rewrite Hp. Qed.
Lemma optional_ok {T} (s file name : string) (parse : string → outcome T) x :
  parse s = Ok x → parse_optional_option (Some s) file name parse = Ok (Some x).
Proof. intros Hp. unfold parse_optional_option. by rewrite Hp. Qed.

Lemma get_config_published client user op ow :
  configuration_ok op ow →
  fetch client (join_display user OWNER_FILE) owner_from_yaml = Ok (string_owner address_text ow) →
  fetch client (join_display user OPERATOR_FILE) operator_from_yaml = Ok (string_operator address_text op) →
  get_config client user = Ok (validator_of op ow).
Proof.
  intros ((Ea & Ek) & (A1 & A2 & A3) & (K1 & K2 & K3) & (K4 & K5 & K6) & Kf & Hs & Hc) Hw Hp.
  assert (Hfull : ∀ file name,
    parse_optional_option (sp_full_node_network_public_key (string_operator address_text op)) file name
      (parse_key X25519PublicKey 32) = Ok (op_full_node_network_public_key op)).
  { intros file name. cbn [string_operator sp_full_node_network_public_key].
    destruct (op_full_node_network_public_key op) as [k|]; [|done]. cbn [fmap option_fmap option_map].
    apply optional_ok, (parse_key_text X25519PublicKey). by apply Kf. }
  unfold get_config. rewrite Hw. cbn [mbind outcome_bind string_owner so_owner_account_address
    so_owner_account_public_key so_voter_account_address so_voter_account_public_key so_operator_account_address
    so_operator_account_public_key so_stake_amount so_commission_percentage so_join_during_genesis].
  rewrite (required_ok _ _ _ _ _ A1). cbn [mbind outcome_bind].
  rewrite (required_ok _ _ _ _ _ (parse_key_text Ed25519PublicKey _ K1)). cbn [mbind outcome_bind].
  rewrite (required_ok _ _ _ _ _ A3). cbn [mbind outcome_bind].
  rewrite (required_ok _ _ _ _ _ (parse_key_text Ed25519PublicKey _ K3)). cbn [mbind outcome_bind].
  rewrite (required_ok _ _ _ _ _ A2). cbn [mbind outcome_bind].
  rewrite (required_ok _ _ _ _ _ (parse_key_text Ed25519PublicKey _ K2)). cbn [mbind outcome_bind].
  rewrite (required_ok _ _ _ _ _ (parse_u64_show _ Hs)). cbn [mbind outcome_bind].
  rewrite (optional_ok _ _ _ _ _ (parse_u64_show _ Hc)). cbn [mbind outcome_bind].
  rewrite (optional_ok _ _ _ _ _ (parse_bool_show _)). cbn [mbind outcome_bind].
  rewrite Hp. cbn [mbind outcome_bind]. rewrite Hfull. cbn [string_operator sp_operator_account_address
    sp_operator_account_public_key sp_consensus_public_key sp_consensus_proof_of_possession
    sp_validator_network_public_key sp_validator_host sp_full_node_host].
  rewrite Ea in A3. rewrite Ek in K3.
  rewrite (required_ok _ _ _ _ _ A3). cbn [mbind outcome_bind].
  rewrite (required_ok _ _ _ _ _ (parse_key_text Ed25519PublicKey _ K3)). cbn [mbind outcome_bind].
  rewrite (required_ok _ _ _ _ _ (parse_key_text BlsPublicKey _ K4)). cbn [mbind outcome_bind].
  rewrite (required_ok _ _ _ _ _ (parse_key_text BlsProofOfPossession _ K5)). cbn [mbind outcome_bind].
  rewrite (required_ok _ _ _ _ _ (parse_key_text X25519PublicKey _ K6)). cbn [mbind outcome_bind].
  rewrite Ea, Ek, !bool_decide_true by done. done.
Qed.
End specification.

(** ** Properties *)
Section properties.
Context {G : Type} `{GithubClient G, RegistrationCodec}.

Definition published (client : G) (user : string) (op : OperatorConfiguration) (ow : OwnerConfiguration) : Prop :=
  fetch client (join_display user OWNER_FILE) owner_from_yaml = Ok (string_owner address_text ow) ∧
  fetch client (join_display user OPERATOR_FILE) operator_from_yaml = Ok (string_operator address_text op).

Lemma file_names_differ : OWNER_FILE ≠ OPERATOR_FILE.
Proof. done. Qed.

Lemma register_publishes client user home client' op ow :
  plain_name user → read_configs_from_file home = Ok (op, ow) → register client user home = Ok client' →
  published client' user op ow ∧
  ∀ other f, plain_name other → other ≠ user → f = OWNER_FILE ∨ f = OPERATOR_FILE →
    get_file client' (join_display other f) = get_file client (join_display other f).
Proof.
  intros Hu Hc Hr. unfold register in Hr. rewrite Hc in Hr. cbn [mbind outcome_bind] in Hr.
  apply bind_ok in Hr as (oy & Hoy & Hr). apply bind_ok in Hr as (c1 & Hp1 & Hr).
  apply bind_ok in Hr as (wy & Hwy & Hp2).
  apply get_put in Hp1 as [Hg1 Hn1]. apply get_put in Hp2 as [Hg2 Hn2].
  destruct (operator_yaml_law _ _ Hoy) as [Huo Hfo]. destruct (owner_yaml_law _ _ Hwy) as [Huw Hfw].
  assert (Hsep : ∀ v f g, plain_name v → f = OWNER_FILE ∨ f = OPERATOR_FILE → g = OWNER_FILE ∨ g = OPERATOR_FILE →
            join_display v f = join_display user g → v = user ∧ f = g).
  { intros v f g Hv Hf Hg. apply join_display_inj; [done..| |]; [by destruct Hf as [-> | ->]|by destruct Hg as [-> | ->]]. }
  split; [split|].
  - by apply (fetch_published _ _ wy).
  - apply (fetch_published _ _ oy); [|done..]. rewrite Hn2; [done|].
    intros Heq. destruct (Hsep user OPERATOR_FILE OWNER_FILE Hu (or_intror eq_refl) (or_introl eq_refl) Heq). done.
  - intros v f Hv Hne Hf. rewrite Hn2, Hn1; [done| |].
    + intros Heq. by destruct (Hsep v f OPERATOR_FILE Hv Hf (or_intror eq_refl) Heq).
    + intros Heq. by destruct (Hsep v f OWNER_FILE Hv Hf (or_introl eq_refl) Heq).
Qed.

(** A registration stays as it is while others register. *)
Lemma register_all_keeps client regs client' user f :
  register_all client regs = Ok client' → plain_name user → user ∉ regs.*1 →
  Forall (λ r, plain_name r.1 ∧ is_ok (read_configs_from_file r.2) = true) regs →
  f = OWNER_FILE ∨ f = OPERATOR_FILE →
  get_file client' (join_display user f) = get_file client (join_display user f).
Proof.
  intros Hr Hu Hni Hok Hf. revert client Hr. induction Hok as [|[v home] regs [Hv Hc] Hok IH]; intros client Hr.
  { by apply Ok_inj in Hr as <-. }
  cbn [register_all] in Hr. apply bind_ok in Hr as (c1 & H1 & Hr). cbn in Hni.
  apply not_elem_of_cons in Hni as [Hne Hni]. apply is_ok_spec in Hc as [[op ow] Hc].
  rewrite (IH Hni c1 Hr). by eapply register_publishes.
Qed.

Lemma register_all_publishes client regs client' user home op ow :
  register_all client regs = Ok client' → NoDup regs.*1 →
  Forall (λ r, plain_name r.1 ∧ is_ok (read_configs_from_file r.2) = true) regs →
  (user, home) ∈ regs → read_configs_from_file home = Ok (op, ow) → published client' user op ow.
Proof.
  intros Hr Hnd Hok Hin Hc. revert client Hr.
  induction Hok as [|[v h] regs [Hv Hh] Hok IH]; intros client Hr; [by apply not_elem_of_nil in Hin|].
  cbn [register_all] in Hr. apply bind_ok in Hr as (c1 & H1 & Hr). cbn in Hnd.
  apply NoDup_cons in Hnd as [Hni Hnd]. apply elem_of_cons in Hin as [[= -> ->]|Hin]; [|by apply (IH Hnd Hin c1)].
  destruct (register_publishes _ _ _ _ _ _ Hv Hc H1) as [[Hw Ho] _]. unfold published, fetch in *.
  rewrite !(register_all_keeps _ _ _ v _ Hr Hv Hni Hok) by auto. done.
Qed.

Lemma configs_loop_spec client users vs es :
  (∀ u p, u ∈ users → get_config client u ≠ Panic p) →
  ∃ vs' es', configs_loop client users vs es = Ok (vs ++ vs', es ++ es') ∧
    (es' = [] ↔ Forall (λ u, is_ok (get_config client u) = true) users) ∧
    (es' = [] → Forall2 (λ u v, get_config client u = Ok v) users vs').
Proof.
  revert vs es. induction users as [|u users IH]; intros vs es Hp; cbn [configs_loop].
  { exists [], []. rewrite !app_nil_r. split; [done|]. split; [by split|]. by constructor. }
  assert (Hp' : ∀ v p, v ∈ users → get_config client v ≠ Panic p) by (intros; apply Hp; by right).
  destruct (get_config client u) as [v|e|p] eqn:E; [| |by destruct (Hp u p ltac:(by left))].
  - destruct (IH (vs ++ [v]) es Hp') as (vs' & es' & -> & Hiff & Hall). exists (v :: vs'), es'.
    rewrite <- app_assoc. split; [done|]. rewrite Forall_cons, E. split; [rewrite Hiff; naive_solver|].
    intros He. constructor; [done|by apply Hall].
  - destruct (IH vs (es ++ [u +:+ ": " +:+ e]) Hp') as (vs' & es' & -> & Hiff & Hall).
    exists vs', ((u +:+ ": " +:+ e) :: es'). rewrite <- app_assoc. split; [done|].
    rewrite Forall_cons, E. split; [|done]. split; [done|]. by intros [? _].
Qed.

(** C9: the genesis ceremony.  When validators with distinct names register
    one after the other, each from a home whose configuration the tool made,
    the genesis builder reads, for every layout of registered names, exactly
    their configurations, in the order of the layout. *)
Theorem registrations_collected client regs client' users :
  register_all client regs = Ok client' → NoDup regs.*1 →
  Forall (λ r, plain_name r.1 ∧
    ∃ op ow, read_configs_from_file r.2 = Ok (op, ow) ∧ configuration_ok op ow) regs →
  (∀ u, u ∈ users → u ∈ regs.*1) →
  ∃ vs, get_validator_configs client' users = Ok vs ∧
    Forall2 (λ u v, ∃ home op ow, (u, home) ∈ regs ∧ read_configs_from_file home = Ok (op, ow) ∧
      v = validator_of op ow) users vs.
Proof.
  intros Hr Hnd Hok Hus.
  assert (Hok' : Forall (λ r, plain_name r.1 ∧ is_ok (read_configs_from_file r.2) = true) regs).
  { eapply Forall_impl; [exact Hok|]. intros [u h] [Hu (op & ow & Hc & _)]. split; [done|]. by rewrite Hc. }
  assert (Hget : ∀ u, u ∈ users → ∃ home op ow, (u, home) ∈ regs ∧
            read_configs_from_file home = Ok (op, ow) ∧ get_config client' u = Ok (validator_of op ow)).
  { intros u Hu. apply Hus, list_elem_of_fmap in Hu as ([u' home] & -> & Hin).
    rewrite Forall_forall in Hok. destruct (Hok _ Hin) as (Hpl & op & ow & Hc & Hcfg). cbn in *.
    exists home, op, ow. split; [done|]. split; [done|].
    destruct (register_all_publishes _ _ _ _ _ _ _ Hr Hnd Hok' Hin Hc). by apply get_config_published. }
  destruct (configs_loop_spec client' users [] []) as (vs & es & Hl & Hiff & Hall).
  { intros u p Hu. destruct (Hget u Hu) as (? & ? & ? & _ & _ & ->). done. }
  assert (He : es = []).
  { apply Hiff, Forall_forall. intros u Hu. destruct (Hget u Hu) as (? & ? & ? & _ & _ & ->). done. }
  exists vs. unfold get_validator_configs. rewrite Hl, He. split; [done|].
  specialize (Hall He). clear -Hall Hget. induction Hall as [|u v us vs Huv _ IH]; constructor.
  - destruct (Hget u ltac:(by left)) as (home & op & ow & Hin & Hc & Hg). exists home, op, ow.
    rewrite Hg in Huv. by apply Ok_inj in Huv.
  - apply IH. intros w Hw. apply Hget. by right.
Qed.
End properties.

(** The public identity of a validator, with keys and address that their types
    accept *)
Definition identity_ok `{RegistrationCodec} (pu : PublicIdentity) : Prop :=
  address_ok (pu_account_address pu) ∧ key_ok Ed25519PublicKey (pu_account_public_key pu) ∧
  (∀ k, pu_consensus_public_key pu = Some k → key_ok BlsPublicKey k) ∧
  (∀ k, pu_consensus_proof_of_possession pu = Some k → key_ok BlsProofOfPossession k) ∧
  (∀ k, pu_validator_network_public_key pu = Some k → key_ok X25519PublicKey k) ∧
  (∀ k, pu_full_node_network_public_key pu = Some k → key_ok X25519PublicKey k).

(** What [set_config_files] writes can be registered. *)
Lemma set_config_files_registrable `{RegistrationCodec} writable dir dir' pu vhost fhost op ow :
  dir !! PUBLIC_KEYS_FILE = Some (DocPublic pu) → identity_ok pu →
  set_config_files writable dir vhost fhost = (dir', Ok (op, ow)) →
  read_configs_from_file dir' = Ok (op, ow) ∧ configuration_ok op ow.
Proof.
  intros Hd (Ha & Hk & Hck & Hpop & Hvn & Hfn) Hs. unfold set_config_files, read_public_identity_file in Hs.
  rewrite Hd in Hs. cbn [mbind outcome_bind] in Hs.
  destruct (pu_consensus_public_key pu) as [ck|]; [|done]. cbn [context_opt mbind outcome_bind] in Hs.
  destruct (pu_validator_network_public_key pu) as [vn|]; [|done]. cbn [context_opt mbind outcome_bind] in Hs.
  destruct (pu_consensus_proof_of_possession pu) as [pop|]; [|done]. cbn [context_opt mbind outcome_bind] in Hs.
  unfold write_to_user_only_file in Hs. destruct (writable OPERATOR_FILE); [|done].
  destruct (writable OWNER_FILE); cbn [mbind outcome_bind] in Hs; [|done].
  assert (E := f_equal snd Hs). cbn [snd] in E. apply Ok_inj in E. injection E as <- <-.
  apply (f_equal fst) in Hs. cbn [fst] in Hs. subst dir'. split.
  - unfold read_configs_from_file. rewrite lookup_insert_ne by done.
    by rewrite !lookup_insert, !decide_True by done.
  - unfold configuration_ok. cbn. split_and!; auto; by vm_compute.
Qed.

(** ** Witnesses *)

(** A codec that writes one field a line, and only what it can read back *)
Definition newline : ascii := ascii_of_nat 10.
Definition to_lines (l : list string) : string := join (String newline EmptyString) l.
Definition show_opt (o : option string) : string := match o with Some s => "+" +:+ s | None => "-" end.
Definition read_opt (s : string) : option string := strip_prefix "+" s.
Definition show_host (h : HostAndPort) : string := show_uint (port h) +:+ "@" +:+ host h.
Definition read_host (s : string) : option HostAndPort :=
  match split_char "@" s with
  | [p; h] => match parse_u64 p with Ok n => Some (mk_host h n) | _ => None end
  | _ => None
  end.

#[export] Instance string_owner_eq_dec : EqDecision StringOwnerConfiguration.
Proof. solve_decision. Defined.
#[export] Instance host_eq_dec : EqDecision HostAndPort.
Proof. solve_decision. Defined.
#[export] Instance string_operator_eq_dec : EqDecision StringOperatorConfiguration.
Proof. solve_decision. Defined.

Definition lines_of_owner (c : StringOwnerConfiguration) : string :=
  to_lines (show_opt <$> [so_owner_account_address c; so_owner_account_public_key c; so_voter_account_address c;
    so_voter_account_public_key c; so_operator_account_address c; so_operator_account_public_key c;
    so_stake_amount c; so_commission_percentage c; so_join_during_genesis c]).
Definition owner_of_lines (s : string) : outcome StringOwnerConfiguration :=
  match read_opt <$> split_char newline s with
  | [a; b; c; d; e; f; g; h; i] => Ok (mk_string_owner a b c d e f g h i)
  | _ => Err "not an owner configuration"
  end.
Definition lines_of_operator (c : StringOperatorConfiguration) : string :=
  to_lines [show_opt (sp_operator_account_address c); show_opt (sp_operator_account_public_key c);
    show_opt (sp_consensus_public_key c); show_opt (sp_consensus_proof_of_possession c);
    show_opt (sp_validator_network_public_key c); show_host (sp_validator_host c);
    show_opt (sp_full_node_network_public_key c); show_opt (show_host <$> sp_full_node_host c)].
Definition operator_of_lines (s : string) : outcome StringOperatorConfiguration :=
  match split_char newline s with
  | [a; b; c; d; e; f; g; h] =>
      match read_host f with
      | Some vh => Ok (mk_string_operator (read_opt a) (read_opt b) (read_opt c) (read_opt d) (read_opt e) vh
                         (read_opt g) (x ← read_opt h; read_host x))
      | None => Err "not an operator configuration"
      end
  | _ => Err "not an operator configuration"
  end.

(** [Ok] of the text when reading it gives the value *)
Definition checked_text {T} `{EqDecision T} (read : string → outcome T) (x : T) (s : string) : outcome string :=
  match read s with
  | Ok y => if bool_decide (y = x) && utf8_valid (str_bytes s) then Ok s else Err "unrepresentable"
  | _ => Err "unrepresentable"
  end.
Lemma checked_text_ok {T} `{EqDecision T} (read : string → outcome T) x s r :
  checked_text read x s = Ok r → utf8_valid (str_bytes r) = true ∧ read r = Ok x.
Proof.
  unfold checked_text. destruct (read s) as [y| |] eqn:E; [|done..].
  destruct (bool_decide_reflect (y = x)) as [->|]; [|done]. destruct (utf8_valid _) eqn:Eu; [|done].
  by intros [= <-].
Qed.

#[export] Instance sample_codec : RegistrationCodec.
Proof.
  refine {|
    base64_encode := fmt_02x;
    base64_decode s := context_opt "not base64" (ref_hex_decode s);
    owner_to_yaml c := checked_text owner_of_lines (string_owner fmt_02x c) (lines_of_owner (string_owner fmt_02x c));
    operator_to_yaml c := checked_text operator_of_lines (string_operator fmt_02x c)
      (lines_of_operator (string_operator fmt_02x c));
    owner_from_yaml := owner_of_lines;
    operator_from_yaml := operator_of_lines;
    layout_from_yaml s := Ok (split_char newline s);
    address_with_checks_from_str s := context_opt "not an address" (ref_hex_decode s);
    address_text := fmt_02x;
    from_encoded_string k s := match strip_prefix "0x" s with
                               | Some r => context_opt "not a key" (ref_hex_decode r)
                               | None => Err "not a key"
                               end
  |}.
  - intros bs Hb. by rewrite (proj2 (ref_hex_decode_law _ _) (conj Hb (str_lower_fmt_02x _ Hb))).
  - intros c s Hc. by eapply checked_text_ok.
  - intros c s Hc. by eapply checked_text_ok.
Defined.

#[export] Instance sample_github : GithubClient (list (string * string)).
Proof.
  refine {|
    get_file g p := context_opt "Not Found" (snd <$> (snd <$> list_find (λ x, x.1 = p) g));
    put g p s := Ok ((p, s) :: g)
  |}.
  intros g p s g' <-%Ok_inj. cbn [list_find]. split; [by rewrite decide_True|].
  intros q Hq. cbn. rewrite decide_False by done.
  by destruct (list_find (λ x, x.1 = q) g) as [[i y]|].
Defined.

Definition sample_identity (n : Z) : PublicIdentity :=
  mk_public (repeat n 32) (repeat n 32) (Some (repeat n 48)) (Some (repeat n 96)) (Some (repeat n 32))
    (Some (repeat n 32)).
Definition sample_home (n : Z) : directory :=
  fst (set_config_files (fun _ => true) {[ PUBLIC_KEYS_FILE := DocPublic (sample_identity n) ]}
         (mk_host "validator" 6180) None).
Definition sample_regs : list (string * directory) := [("alice"%string, sample_home 7); ("bob"%string, sample_home 8)].
Definition sample_repository : list (string * string) :=
  match register_all [] sample_regs with Ok c => c | _ => [] end.

Example sample_genesis_info :
  (length <$> get_validator_configs sample_repository ["bob"; "alice"]%string) = Ok 2%nat ∧
  is_err (get_validator_configs sample_repository ["bob"; "carol"]%string) = true.
Proof. vm_compute. done. Qed.

Lemma sample_home_ok n :
  identity_ok (sample_identity n) →
  ∃ op ow, read_configs_from_file (sample_home n) = Ok (op, ow) ∧ configuration_ok op ow.
Proof.
  intros Hi. unfold sample_home.
  destruct (set_config_files (fun _ => true) {[ PUBLIC_KEYS_FILE := DocPublic (sample_identity n) ]}
    (mk_host "validator" 6180) None) as [d r] eqn:E.
  assert (Hr : is_ok r = true) by (apply (f_equal snd) in E; vm_compute in E; by subst r).
  apply is_ok_spec in Hr as [[op ow] ->]. exists op, ow.
  eapply set_config_files_registrable; [|exact Hi|exact E]. by rewrite lookup_singleton_eq.
Qed.

Lemma registrations_collected_witness :
  ∃ vs, get_validator_configs sample_repository ["bob"; "alice"]%string = Ok vs ∧
    Forall2 (λ u v, ∃ home op ow, (u, home) ∈ sample_regs ∧ read_configs_from_file home = Ok (op, ow) ∧
      v = validator_of op ow) ["bob"; "alice"]%string vs.
Proof.
  apply (registrations_collected [] sample_regs).
  - vm_compute. reflexivity.
  - by apply (bool_decide_unpack _).
  - assert (Hid : ∀ n, n = 7 ∨ n = 8 → identity_ok (sample_identity n)).
    { intros n Hn. unfold identity_ok, address_ok, key_ok, is_array, is_bytes.
      destruct Hn as [-> | ->]; split_and!; try (intros k [= <-]); split_and?;
        try reflexivity; by apply (bool_decide_unpack _). }
    repeat constructor; try done; cbn [snd]; apply sample_home_ok, Hid; auto.
  - intros u Hu. repeat (apply elem_of_cons in Hu as [->|Hu]; [by apply (bool_decide_unpack _)|]).
    by apply not_elem_of_nil in Hu.
Defined.
