(* ===== verification/GenesisVm.v ===== *)
(** * tools/genesis/src/vm.rs, genesis.rs and genesis_reader.rs

    From the recovery list to the genesis transaction: the configuration of the
    chain, the two sessions of the VM whose change sets are merged, the checks
    of the result, and the empty database the transaction bootstraps.  The VM,
    the genesis steps of diem and its database are classes; a crate function
    that returns a plain value panics or returns it. *)
From Stdlib Require Import ZArith Lia.
From stdpp Require Import base option list strings gmap.
From S2P Require Import Prelude RustStr Bytes FileSystem MoveTypes Recovery CommWallet GenesisFunctions Compare.
From S2P Require Import F64 NetworkPlaylist ValidatorKeys GenesisRegistration.

Open Scope list_scope.
Open Scope Z_scope.

(** [diem_types::transaction] *)
Inductive WriteSetPayload (ChangeSet : Type) :=
| WsDirect (cs : ChangeSet)
| WsScript (execute_as : AccountAddress) (code : bytes).
Arguments WsDirect {ChangeSet} cs.
Arguments WsScript {ChangeSet} execute_as code.
Inductive Transaction (ChangeSet : Type) :=
| GenesisTransaction (ws : WriteSetPayload ChangeSet)
| OtherTransaction (bs : bytes).
Arguments GenesisTransaction {ChangeSet} ws.
Arguments OtherTransaction {ChangeSet} bs.

Record ChangeSet (K W E : Type) := mk_change_set { write_set : list (K * W); cs_events : list E }.
Arguments mk_change_set {K W E} _ _.
Arguments write_set {K W E} _.
Arguments cs_events {K W E} _.

(** [diem_vm_genesis::GenesisConfiguration] *)
Record GenesisConfiguration := mk_genesis_configuration {
  allow_new_validators : bool;
  epoch_duration_secs : Z;
  is_test : bool;
  max_stake : Z;
  min_stake : Z;
  min_voting_threshold : Z;
  recurring_lockup_duration_secs : Z;
  required_proposer_stake : Z;
  rewards_apy_percentage : Z;
  voting_duration_secs : Z;
  voting_power_increase_limit : Z;
  employee_vesting_start : Z;
  employee_vesting_period_duration : Z
}.

Class OnChainDefaults := {
  OnChainConsensusConfig : Type;
  OnChainExecutionConfig : Type;
  GasScheduleV2 : Type;
  default_consensus : OnChainConsensusConfig;
  default_execution : OnChainExecutionConfig;
  default_gas_schedule : GasScheduleV2
}.

(** The other [GenesisConfiguration], of diem_genesis *)
Record BuilderConfiguration `{OnChainDefaults} := mk_builder_configuration {
  b_allow_new_validators : bool;
  b_epoch_duration_secs : Z;
  b_is_test : bool;
  b_min_stake : Z;
  b_min_voting_threshold : Z;
  b_max_stake : Z;
  b_recurring_lockup_duration_secs : Z;
  b_required_proposer_stake : Z;
  b_rewards_apy_percentage : Z;
  b_voting_duration_secs : Z;
  b_voting_power_increase_limit : Z;
  b_employee_vesting_start : option Z;
  b_employee_vesting_period_duration : option Z;
  b_consensus_config : OnChainConsensusConfig;
  b_execution_config : OnChainExecutionConfig;
  b_gas_schedule : GasScheduleV2
}.

(** The VM with zero gas parameters and the test chain's id, made once: a
    session may depend on the sessions the same VM has finished.  A state view
    is the modules added to it. *)
Notation module_view := (list (string * bytes)).
Class GenesisVm (S F V K W E : Type) `{OnChainDefaults} := {
  MoveVm : Type;
  VMChangeSet : Type;
  DeltaChangeSet : Type;
  code_and_compiled_modules : F → module_view;
  move_vm_new : outcome MoveVm;
  new_session : MoveVm → list S → module_view → bytes → outcome S;
  validate_genesis_config : GenesisConfiguration → outcome unit;
  vm_initialize : Z → GenesisConfiguration → OnChainConsensusConfig → OnChainExecutionConfig → GasScheduleV2 →
    S → outcome S;
  vm_initialize_features : S → outcome S;
  vm_initialize_diem_coin : S → outcome S;
  vm_initialize_on_chain_governance : GenesisConfiguration → S → outcome S;
  vm_create_and_initialize_validators : list V → S → outcome S;
  vm_set_genesis_end : S → outcome S;
  vm_emit_new_block_and_epoch_event : S → outcome S;
  publish_framework : F → S → outcome S;
  session_finish : S → outcome VMChangeSet;
  squash : VMChangeSet → VMChangeSet → outcome VMChangeSet;
  unpack : VMChangeSet → list (K * W) * DeltaChangeSet * list E;
  delta_is_empty : DeltaChangeSet → bool;
  is_deletion : W → bool;
  verify_genesis_write_set : list E → outcome unit
}.

Section vm.
Context `{OnChainDefaults}.

(** ** vm.rs *)
Definition libra_genesis_default (chain : NamedChain) : GenesisConfiguration :=
  let epoch_duration_secs :=
    match chain with
    | MAINNET => u64_mul (u64_mul 24 60) 60
    | TESTING => u64_mul 2 60
    | _ => u64_mul 5 60
    end in
  {| allow_new_validators := true;
     epoch_duration_secs := epoch_duration_secs;
     is_test := false;
     max_stake := 0;
     min_stake := 0;
     min_voting_threshold := 0;
     recurring_lockup_duration_secs := u64_add epoch_duration_secs 1;
     required_proposer_stake := 0;
     rewards_apy_percentage := 1;
     voting_duration_secs := 1;
     voting_power_increase_limit := 1;
     employee_vesting_start := 1;
     employee_vesting_period_duration := 1 |}.

(** genesis_builder.rs: [silly_config] *)
Definition silly_config (cfg : GenesisConfiguration) : BuilderConfiguration :=
  {| b_allow_new_validators := allow_new_validators cfg;
     b_epoch_duration_secs := epoch_duration_secs cfg;
     b_is_test := is_test cfg;
     b_min_stake := min_stake cfg;
     b_min_voting_threshold := min_voting_threshold cfg;
     b_max_stake := max_stake cfg;
     b_recurring_lockup_duration_secs := recurring_lockup_duration_secs cfg;
     b_required_proposer_stake := required_proposer_stake cfg;
     b_rewards_apy_percentage := rewards_apy_percentage cfg;
     b_voting_duration_secs := voting_duration_secs cfg;
     b_voting_power_increase_limit := voting_power_increase_limit cfg;
     b_employee_vesting_start := None;
     b_employee_vesting_period_duration := None;
     b_consensus_config := default_consensus;
     b_execution_config := default_execution;
     b_gas_schedule := default_gas_schedule |}.

Context {S F V K W E : Type} `{!GenesisVm S F V K W E, VmSession S, DiemAddress}.

Definition diem_genesis (validators : list V) (chain_id : Z) (genesis_config : GenesisConfiguration)
    (consensus_config : OnChainConsensusConfig) (execution_config : OnChainExecutionConfig)
    (gas_schedule : GasScheduleV2) : DiemGenesis :=
  mk_diem_genesis (vm_initialize chain_id genesis_config consensus_config execution_config gas_schedule)
    vm_initialize_features vm_initialize_diem_coin (vm_initialize_on_chain_governance genesis_config)
    (vm_create_and_initialize_validators validators) vm_set_genesis_end vm_emit_new_block_and_epoch_event.

(** [HashValue::zero()], and the last byte one *)
Definition genesis_id1 : bytes := repeat 0 32.
Definition genesis_id2 : bytes := repeat 0 31 ++ [1].

(** The second session: the framework, on an empty view *)
Definition publish_session (move_vm : MoveVm) (first : S) (framework : F) : outcome VMChangeSet :=
  session ← expect_res "called `Result::unwrap()` on an `Err` value" (new_session move_vm [first] [] genesis_id2);
  session ← publish_framework framework session;
  expect_res "called `Result::unwrap()` on an `Err` value" (session_finish session).

(** The write set and the events, checked *)
Definition checked_change_set (change_set : VMChangeSet) : outcome (ChangeSet K W E) :=
  let '(ws, delta_change_set, evs) := unpack change_set in
  _ ← rust_assert (delta_is_empty delta_change_set) "non-empty delta change set in genesis";
  _ ← rust_assert (negb (existsb (fun kw => is_deletion (snd kw)) ws))
        "assertion failed: !write_set.iter().any(|(_, op)| op.is_deletion())";
  _ ← verify_genesis_write_set evs;
  Ok (mk_change_set ws evs).

Definition encode_genesis_change_set (validators : list V) (recovery : list LegacyRecoveryV6) (framework : F)
    (chain_id : Z) (genesis_config : GenesisConfiguration) (consensus_config : OnChainConsensusConfig)
    (execution_config : OnChainExecutionConfig) (gas_schedule : GasScheduleV2) : outcome (ChangeSet K W E) :=
  _ ← validate_genesis_config genesis_config;
  let state_view := code_and_compiled_modules framework in
  move_vm ← expect_res "called `Result::unwrap()` on an `Err` value" move_vm_new;
  session ← expect_res "called `Result::unwrap()` on an `Err` value" (new_session move_vm [] state_view genesis_id1);
  session ← genesis_session
              (diem_genesis validators chain_id genesis_config consensus_config execution_config gas_schedule)
              session recovery;
  cs1 ← expect_res "called `Result::unwrap()` on an `Err` value" (session_finish session);
  cs2 ← publish_session move_vm session framework;
  change_set ← expect_res "called `Result::unwrap()` on an `Err` value" (squash cs1 cs2);
  checked_change_set change_set.

Definition migration_genesis (validators : list V) (recovery : list LegacyRecoveryV6) (framework : F)
    (chain_id : Z) (genesis_config : GenesisConfiguration) : outcome (ChangeSet K W E) :=
  genesis ← encode_genesis_change_set validators recovery framework chain_id genesis_config
              default_consensus default_execution default_gas_schedule;
  Ok genesis.

(** ** genesis.rs *)
Definition make_recovery_genesis_from_vec_legacy_recovery (recovery : list LegacyRecoveryV6) (genesis_vals : list V)
    (framework_release : F) (chain_id : Z) (genesis_config : GenesisConfiguration)
    : outcome (Transaction (ChangeSet K W E)) :=
  recovery_changeset ← migration_genesis genesis_vals recovery framework_release chain_id genesis_config;
  Ok (GenesisTransaction (WsDirect recovery_changeset)).
End vm.

(** ** genesis_reader.rs

    The test database and what the executor does with it; bcs at
    [Transaction]. *)
Class GenesisDbTools (T : Type) := {
  DbReaderWriter : Type;
  new_for_test : DbReaderWriter;
  get_latest_ledger_info_option : DbReaderWriter → outcome (option Z);
  db_generate_waypoint : DbReaderWriter → T → outcome string;
  maybe_bootstrap : DbReaderWriter → T → string → outcome DbReaderWriter;
  db_reader : DbReaderWriter → GenesisDb;
  tx_to_bytes : T → outcome bytes;
  tx_from_bytes : bytes → outcome T;
  tx_bytes_law tx bs : tx_to_bytes tx = Ok bs → is_bytes bs ∧ tx_from_bytes bs = Ok tx
}.

Section reader.
Context {T : Type} `{GenesisDbTools T}.

Definition bootstrap_db_reader_from_gen_tx (genesis_transaction : T) : outcome (DbReaderWriter * string) :=
  let db_rw := new_for_test in
  info ← expect_res "called `Result::unwrap()` on an `Err` value" (get_latest_ledger_info_option db_rw);
  _ ← rust_assert (bool_decide (info = None)) "assertion failed";
  waypoint ← expect_res "Should not fail." (db_generate_waypoint db_rw genesis_transaction);
  db_rw ← expect_res "called `Result::unwrap()` on an `Err` value" (maybe_bootstrap db_rw genesis_transaction waypoint);
  Ok (db_rw, waypoint).

Definition read_blob_to_tx (genesis_path : path) (fs : file_system) : outcome T :=
  buffer ← (if exists_ genesis_path fs then context_res "unable to read file" (read_to_string genesis_path fs)
            else Err "unable to find genesis file");
  context_res "unable load bytes" (tx_from_bytes (str_bytes buffer)).

(** genesis.rs: [save_genesis] *)
Definition save_genesis (gen_tx : T) (output_path : path) : io unit :=
  _ ← io_update (file_create output_path);
  bs ← io_lift (tx_to_bytes gen_tx);
  io_update (fun fs => Ok (write_all output_path (bytes_str bs) fs)).

Definition MAX_REQUEST_LIMIT : nat := 10000.

(** The items under the prefix of an account, and [AccountState] of them *)
Definition get_account_state {KV A} (items : list (outcome KV)) (account_state : list KV → outcome (option A))
    : outcome (option A) :=
  kvs ← mapM id (take MAX_REQUEST_LIMIT items);
  match drop MAX_REQUEST_LIMIT items with
  | _ :: _ => Err "Too many state items under state key prefix"
  | [] => account_state kvs
  end.

Context `{DiemAddress}.

(** ** compare.rs, on files *)
Definition file_in (fs : file_system) (p : path) : option string :=
  match read_to_string p fs with Ok s => Some s | _ => None end.
Definition compare_json_to_genesis_blob (recovery_from_json : string → option (list LegacyRecoveryV6))
    (json_path genesis_path : path) (fs : file_system) : outcome (list CompareError) :=
  recovery ← recovery_file_parse (file_in fs) recovery_from_json json_path;
  gen_tx ← read_blob_to_tx genesis_path fs;
  '(db_rw, _) ← bootstrap_db_reader_from_gen_tx gen_tx;
  @compare_recovery_vec_to_genesis_tx (db_reader db_rw) _ recovery.

Definition get_struct {R} (get_move_resource : AccountAddress → outcome (option R)) (address : option AccountAddress)
    : outcome R :=
  r ← context_res "error calling get_move_resource" (get_move_resource (default CORE_CODE_ADDRESS address));
  context_opt "db returns None for resource struct" r.
End reader.

(** ** The genesis does not return errors *)
Definition plain {A} (m : outcome A) : Prop := is_err m = false.
Lemma plain_bind {A B} (m : outcome A) (f : A → outcome B) : plain m → (∀ a, plain (f a)) → plain (m ≫= f).
Proof. unfold plain. destruct m; cbn; [intros _ Hf; apply Hf|done..]. Qed.
Lemma plain_expect {A} msg (m : outcome A) : plain (expect_res msg m).
Proof. by destruct m. Qed.
Lemma plain_assert b msg : plain (rust_assert b msg).
Proof. by destruct b. Qed.
Lemma plain_ok {A} (a : A) : plain (Ok a).
Proof. done. Qed.
#[export] Hint Resolve plain_expect plain_assert plain_ok : libra.
Ltac plain_all := repeat first [progress (eauto with libra) | apply plain_bind; [|intros ?] | case_match].

Lemma expect_res_ok {A} msg (m : outcome A) a : expect_res msg m = Ok a ↔ m = Ok a.
Proof. by destruct m. Qed.
Lemma rust_assert_ok b msg u : rust_assert b msg = Ok u ↔ b = true.
Proof. destruct b, u; cbn; naive_solver. Qed.

Lemma read_blob_ok {T : Type} `{GenesisDbTools T} p fs tx bs :
  tx_to_bytes tx = Ok bs → fs !! p = Some (File (bytes_str bs)) → read_blob_to_tx p fs = Ok tx.
Proof.
  intros [Hb Ht]%tx_bytes_law Hf. unfold read_blob_to_tx, exists_, read_to_string.
  rewrite Hf. cbn. by rewrite str_bytes_bytes_str, Ht.
Qed.

Section plain.
Context `{OnChainDefaults} {S F V K W E : Type} `{!GenesisVm S F V K W E, VmSession S, DiemAddress}.

(** What the crates promise by their types: these functions return a value. *)
Record vm_plain : Prop := {
  plain_exec s m f args : plain (exec_function s m f args);
  plain_validate c : plain (validate_genesis_config c);
  plain_initialize i c cc ec g s : plain (vm_initialize i c cc ec g s);
  plain_features s : plain (vm_initialize_features s);
  plain_coin s : plain (vm_initialize_diem_coin s);
  plain_governance c s : plain (vm_initialize_on_chain_governance c s);
  plain_validators vals s : plain (vm_create_and_initialize_validators vals s);
  plain_end s : plain (vm_set_genesis_end s);
  plain_emit s : plain (vm_emit_new_block_and_epoch_event s);
  plain_publish fw s : plain (publish_framework fw s);
  plain_verify evs : plain (verify_genesis_write_set evs)
}.
Context (Hp : vm_plain).
Hint Resolve plain_exec plain_validate plain_initialize plain_features plain_coin plain_governance plain_validators
  plain_end plain_emit plain_publish plain_verify : libra.

Lemma vm_plain_no_err : vm_no_err.
Proof. intros s m f args e He. pose proof (plain_exec Hp s m f args) as Hx. by rewrite He in Hx. Qed.

Lemma plain_session vals chain_id cfg cc ec gs session recovery :
  plain (genesis_session (diem_genesis vals chain_id cfg cc ec gs) session recovery).
Proof.
  unfold genesis_session, set_final_supply, migrate_framework, set_validator_baseline_reward. cbn. plain_all.
Qed.
Hint Resolve plain_session : libra.

Lemma plain_migration vals recovery fw chain_id cfg : plain (migration_genesis vals recovery fw chain_id cfg).
Proof.
  unfold migration_genesis, encode_genesis_change_set, publish_session, checked_change_set. plain_all.
Qed.

(** ** The genesis change set, step by step *)
Definition checked (c : VMChangeSet) (cs : ChangeSet K W E) : Prop :=
  ∃ d, unpack c = (write_set cs, d, cs_events cs) ∧ delta_is_empty d = true ∧
    (∀ k w, (k, w) ∈ write_set cs → is_deletion w = false) ∧ verify_genesis_write_set (cs_events cs) = Ok tt.

Lemma checked_ok c cs : checked_change_set c = Ok cs ↔ checked c cs.
Proof.
  unfold checked_change_set, checked. destruct (unpack c) as [[ws d] evs]. split.
  - intros Hc. apply bind_ok in Hc as (u & Hd & Hc). apply rust_assert_ok in Hd.
    apply bind_ok in Hc as (u' & Hw & Hc). apply rust_assert_ok, negb_true_iff in Hw.
    apply bind_ok in Hc as ([] & Hv & Hc). apply Ok_inj in Hc as <-. exists d. split_and!; [done..| |done].
    intros k w Hin. apply not_true_iff_false. intros Hdel. apply not_true_iff_false in Hw. apply Hw.
    apply existsb_exists. exists (k, w). by split; [apply list_elem_of_In|].
  - intros (d' & [= -> <- ->] & Hd & Hw & Hv). rewrite Hd. cbn [rust_assert mbind outcome_bind].
    assert (existsb (fun kw => is_deletion (snd kw)) (write_set cs) = false) as ->.
    { apply not_true_iff_false. intros ([k w] & Hin & Hdel)%existsb_exists. apply list_elem_of_In, Hw in Hin.
      cbn in Hdel. congruence. }
    cbn. rewrite Hv. by destruct cs.
Qed.

Definition encoded (vals : list V) (recovery : list LegacyRecoveryV6) (fw : F) (chain_id : Z)
    (cfg : GenesisConfiguration) (cw : AllCommWallets) (cs : ChangeSet K W E) : Prop :=
  ∃ vm s0 s1 c1 t0 t1 c2 c,
    validate_genesis_config cfg = Ok tt ∧ move_vm_new = Ok vm ∧
    new_session vm [] (code_and_compiled_modules fw) genesis_id1 = Ok s0 ∧
    genesis_script (diem_genesis vals chain_id cfg default_consensus default_execution default_gas_schedule) s0
      (genesis_calls recovery (cw_list cw)) = Ok s1 ∧
    session_finish s1 = Ok c1 ∧
    new_session vm [s1] [] genesis_id2 = Ok t0 ∧ publish_framework fw t0 = Ok t1 ∧ session_finish t1 = Ok c2 ∧
    squash c1 c2 = Ok c ∧ checked c cs.

Lemma encode_ok vals recovery fw chain_id cfg dr cw cs :
  Forall migration_wf recovery → prepare_cw_and_receipts recovery = Ok (dr, cw) →
  migration_genesis vals recovery fw chain_id cfg = Ok cs ↔ encoded vals recovery fw chain_id cfg cw cs.
Proof.
  intros Hwf Hcw. unfold migration_genesis, encode_genesis_change_set, publish_session.
  pose proof (genesis_session_order vm_plain_no_err) as Hs. split.
  - intros (cs' & He & <-%Ok_inj)%bind_ok.
    apply bind_ok in He as ([] & Hv & He). apply bind_ok in He as (vm & Hm%expect_res_ok & He).
    apply bind_ok in He as (s0 & Hn1%expect_res_ok & He). apply bind_ok in He as (s1 & Hg & He).
    apply bind_ok in He as (c1 & Hc1%expect_res_ok & He).
    apply bind_ok in He as (c2 & Hpub & He). apply bind_ok in Hpub as (t0 & Ht0%expect_res_ok & Hpub).
    apply bind_ok in Hpub as (t1 & Ht1 & Hc2%expect_res_ok).
    apply bind_ok in He as (c & Hc%expect_res_ok & He%checked_ok).
    rewrite (Hs _ _ _ dr cw) in Hg by done. by exists vm, s0, s1, c1, t0, t1, c2, c.
  - intros (vm & s0 & s1 & c1 & t0 & t1 & c2 & c & Hv & Hm & Hn1 & Hg & Hc1 & Ht0 & Ht1 & Hc2 & Hc & He%checked_ok).
    rewrite Hv, Hm. cbn [mbind outcome_bind expect_res]. rewrite Hn1. cbn [mbind outcome_bind expect_res].
    rewrite (Hs _ _ _ dr cw), Hg by done. cbn [mbind outcome_bind expect_res].
    rewrite Hc1. cbn [mbind outcome_bind expect_res]. rewrite Ht0. cbn [mbind outcome_bind expect_res].
    rewrite Ht1. cbn [mbind outcome_bind expect_res]. rewrite Hc2. cbn [mbind outcome_bind expect_res].
    rewrite Hc. cbn [mbind outcome_bind expect_res]. by rewrite He.
Qed.

(** ** Properties *)

(** C2: the genesis of the new chain.  It is made or the program aborts, an
    error is never returned.  It is made exactly when every step succeeds: a
    session on the modules of the framework sets the final supply of 10^17 after
    the coin exists, makes the calls of the recovery list (the baseline reward
    of 0x1, every account, one deposit call per community wallet in address
    order) before any validator is created, and ends the genesis; a second
    session of the same VM, on an empty view, publishes the framework; the two
    change sets are merged, and what is returned has no delta and deletes
    nothing. *)
Theorem migration_genesis_spec vals recovery fw chain_id cfg dr cw :
  Forall migration_wf recovery → prepare_cw_and_receipts recovery = Ok (dr, cw) →
  is_err (migration_genesis vals recovery fw chain_id cfg) = false ∧
  ∀ cs, migration_genesis vals recovery fw chain_id cfg = Ok cs ↔ encoded vals recovery fw chain_id cfg cw cs.
Proof. intros Hwf Hcw. split; [apply plain_migration|intros cs; by apply (encode_ok _ _ _ _ _ dr)]. Qed.
End plain.

(** ** Witnesses: a VM whose sessions are their calls *)
Notation trace := (list (string * string * list bytes)).
#[export] Instance sample_defaults : OnChainDefaults := {|
  OnChainConsensusConfig := unit; OnChainExecutionConfig := unit; GasScheduleV2 := unit;
  default_consensus := tt; default_execution := tt; default_gas_schedule := tt
|}.
Definition named (f : string) (s : trace) : outcome trace := Ok (s ++ [("vm"%string, f, [])]).
#[export] Instance sample_vm : GenesisVm trace unit bytes string bool string := {|
  MoveVm := unit; VMChangeSet := trace; DeltaChangeSet := unit;
  code_and_compiled_modules f := [("account"%string, [1]); ("coin"%string, [2])];
  move_vm_new := Ok tt;
  new_session vm ran view id := Ok [];
  validate_genesis_config c := Ok tt;
  vm_initialize i c cc ec g := named "initialize";
  vm_initialize_features := named "features";
  vm_initialize_diem_coin := named "coin";
  vm_initialize_on_chain_governance c := named "governance";
  vm_create_and_initialize_validators vals := named "validators";
  vm_set_genesis_end := named "end";
  vm_emit_new_block_and_epoch_event := named "epoch";
  publish_framework f := named "publish";
  session_finish := Ok;
  squash a b := Ok (a ++ b);
  unpack t := ((fun c => (fst (fst c) +:+ "::" +:+ snd (fst c), false)) <$> t, tt, ["NewEpochEvent"%string]);
  delta_is_empty d := true;
  is_deletion w := w;
  verify_genesis_write_set evs := Ok tt
|}.
Lemma sample_vm_plain : vm_plain (S := trace) (V := bytes).
Proof. by split. Qed.

Definition sample_migration : outcome (ChangeSet string bool string) :=
  migration_genesis (S := trace) (V := bytes) [[7]] [sample_user] tt 4 (libra_genesis_default TESTING).

(** The epochs of the chains: a day, five minutes and two minutes *)
Example epochs : (epoch_duration_secs ∘ libra_genesis_default) <$> [MAINNET; TESTNET; TESTING] = [86400; 300; 120].
Proof. reflexivity. Qed.
Example migration_writes :
  (fun cs => fst <$> write_set cs) <$> sample_migration =
  Ok ["vm::initialize"; "vm::features"; "vm::coin"; "libra_coin::genesis_set_final_supply"; "vm::governance";
      "genesis_migration::migrate_legacy_user"; "slow_wallet::set_slow_wallet_state"; "vm::validators"; "vm::end";
      "vm::epoch"; "vm::publish"]%string.
Proof. vm_compute. reflexivity. Qed.

Lemma migration_genesis_spec_witness :
  is_err sample_migration = false ∧
  ∃ cs, sample_migration = Ok cs ∧
    encoded [[7]] [sample_user] tt 4 (libra_genesis_default TESTING) (mk_wallets [] 0) cs.
Proof.
  assert (Hwf : Forall migration_wf [sample_user]) by (constructor; [apply sample_user_wf|constructor]).
  destruct (migration_genesis_spec sample_vm_plain [[7]] [sample_user] tt 4 (libra_genesis_default TESTING)
    (mk_donors [] 0 []) (mk_wallets [] 0) Hwf eq_refl) as [Hn Hi].
  split; [exact Hn|]. eexists. split; [vm_compute; reflexivity|]. apply Hi. vm_compute. reflexivity.
Defined.
