(* ===== verification/GenesisBuilder.v ===== *)
(** * tools/genesis/src/genesis_builder.rs: [build]

    From the recovery list and the registered validators to the genesis files,
    and the audit of what was written.  The file system is the one state; the
    diem crates' operations are those of the class. *)
From Stdlib Require Import ZArith Lia Ascii.
From stdpp Require Import base option list strings gmap.
From S2P Require Import Prelude RustStr Bytes FileSystem MoveTypes Recovery Compare Supply GenesisFunctions.
From S2P Require Import F64 NetworkPlaylist ValidatorKeys GenesisRegistration GenesisVm.

Open Scope list_scope.
Open Scope Z_scope.

Definition GENESIS_FILE : string := "genesis.blob".
Definition WAYPOINT_FILE : string := "waypoint.txt".
Definition genesis_dir (home_path : path) : path := path_join home_path "genesis".
Definition BALANCES_FILE : string := "genesis_balances.json".

(** The framework bundle and diem_genesis's [GenesisInfo], of which the code
    reads and sets four fields *)
Class GenesisTools (F V I T : Type) `{OnChainDefaults} := {
  load_bundle_from_file : path → outcome F;
  bundle_from_bytes : bytes → outcome F;
  chain_id_of : NamedChain → Z;
  genesis_info_new : Z → BuilderConfiguration → bytes → list ValidatorConfiguration → F → outcome I;
  info_validators : I → list V;
  info_framework : I → F;
  info_chain_id : I → Z;
  set_genesis : I → T → I;
  get_genesis : I → T;
  generate_waypoint : I → outcome string;
  dump_to_json : list JsonDump → outcome string;
  get_set_genesis i t : get_genesis (set_genesis i t) = t
}.

Section build.
Context `{OnChainDefaults} {S F V K W E I G : Type}.
Notation T := (Transaction (ChangeSet K W E)).
Context `{!GenesisVm S F V K W E, VmSession S, !GenesisTools F V I T, !GenesisDbTools T}.
Context `{GithubClient G, RegistrationCodec, DiemAddress}.
(** The answer to the overwrite prompt, yes when LIBRA_CI is set *)
Context (confirm : path → bool).

Definition check_if_path_exists (file : path) : io unit :=
  io_read (fun fs => if exists_ file fs then ensure (confirm file) "Aborted by user" else Ok tt).

(** [write_to_user_only_file] on a path *)
Definition write_genesis_file (file : path) (content : string) : io unit :=
  io_result (context_res "cannot write file") (io_write file content).

(** [export_account_balances] *)
Definition export_account_balances (db : GenesisDb) (recovery : list LegacyRecoveryV6) (output : path) : io unit :=
  dumped ← io_lift (@export_list db _ recovery);
  text ← io_unwrap (io_lift (dump_to_json dumped));
  io_unwrap (io_write (path_join output BALANCES_FILE) text).

(** The audit at the end of [build]: the list of errors it finds is dropped. *)
Definition audit (info : I) (recovery : list LegacyRecoveryV6) (output : path) : io unit :=
  match recovery with
  | [] => io_lift (Ok tt)
  | _ =>
      '(db_rw, _) ← io_lift (bootstrap_db_reader_from_gen_tx (get_genesis info));
      let db := db_reader db_rw in
      _s ← io_lift (populate_supply_stats_from_legacy recovery);
      _errors ← io_lift (@compare_recovery_vec_to_genesis_tx db _ recovery);
      export_account_balances db recovery output
  end.

(** The validators: given on a testnet, which needs a framework file *)
Definition genesis_info (client : G) (framework_mrb_path : option path) (chain_name : NamedChain)
    (testnet_vals : option (list ValidatorConfiguration)) : outcome I :=
  let info := genesis_info_new (chain_id_of chain_name) (silly_config (libra_genesis_default chain_name)) in
  match testnet_vals with
  | Some vals =>
      dummy_root ← expect_res "could not parse dummy root"
        (from_encoded_string Ed25519PublicKey "0x0000000000000000000000000000000000000000000000000000000000000000");
      framework ← match framework_mrb_path with
                  | Some p => load_bundle_from_file p
                  | None => Err "we need to know the exact framework .mrb file you'd like to use for testnet."
                  end;
      info dummy_root vals framework
  | None => fetch_genesis_info load_bundle_from_file bundle_from_bytes info client framework_mrb_path
  end.

Definition build (client : G) (home_path : path) (framework_mrb_path : option path)
    (legacy_recovery : list LegacyRecoveryV6) (chain_name : NamedChain) (testnet_vals : option (list ValidatorConfiguration))
    : io (list path) :=
  let output_dir := genesis_dir home_path in
  let genesis_file := path_join output_dir GENESIS_FILE in
  let waypoint_file := path_join output_dir WAYPOINT_FILE in
  _ ← io_update (create_dir_all output_dir);
  _ ← match testnet_vals with
      | None => _ ← check_if_path_exists genesis_file; check_if_path_exists waypoint_file
      | Some _ => io_lift (Ok tt)
      end;
  gen_info ← io_lift (genesis_info client framework_mrb_path chain_name testnet_vals);
  tx ← io_lift (make_recovery_genesis_from_vec_legacy_recovery legacy_recovery (info_validators gen_info)
                  (info_framework gen_info) (info_chain_id gen_info) (libra_genesis_default chain_name));
  let gen_info := set_genesis gen_info tx in
  blob ← io_lift (tx_to_bytes (get_genesis gen_info));
  _ ← write_genesis_file genesis_file (bytes_str blob);
  waypoint ← io_lift (generate_waypoint gen_info);
  _ ← write_genesis_file waypoint_file waypoint;
  _ ← audit gen_info legacy_recovery output_dir;
  io_lift (Ok [genesis_file; waypoint_file]).

(** ** Lemmas *)
Lemma genesis_paths_distinct dir :
  path_join dir GENESIS_FILE ≠ path_join dir WAYPOINT_FILE ∧ path_join dir GENESIS_FILE ≠ path_join dir BALANCES_FILE ∧
  path_join dir WAYPOINT_FILE ≠ path_join dir BALANCES_FILE.
Proof. unfold path_join. split_and!; by intros [_ ?]%app_inj_2. Qed.

Lemma keeps_audit (Q : path → Prop) info recovery dir :
  ¬ Q (path_join dir BALANCES_FILE) → keeps Q (audit info recovery dir).
Proof.
  intros Hb. unfold audit. destruct recovery; [io_leaves|]. unfold export_account_balances.
  io_leaves. destruct_and?. case_match. io_leaves.
Qed.

Lemma keeps_write_genesis_file (Q : path → Prop) p s : ¬ Q p → keeps Q (write_genesis_file p s).
Proof. intros Hp. unfold write_genesis_file. io_leaves. Qed.
Lemma write_genesis_file_ok p s fs fs' :
  write_genesis_file p s fs = (fs', Ok tt) → fs' !! p = Some (File s).
Proof.
  unfold write_genesis_file, io_result. destruct (io_write p s fs) as [f r] eqn:Ew. intros [= <- Hr].
  destruct r as [[]| |]; [|done..]. by apply io_write_ok in Ew as [? _].
Qed.

Hint Resolve keeps_write_genesis_file keeps_audit : io.

Lemma keeps_build (Q : path → Prop) client home mrb recovery chain vals :
  let dir := genesis_dir home in
  ¬ Q (path_join dir GENESIS_FILE) → ¬ Q (path_join dir WAYPOINT_FILE) → ¬ Q (path_join dir BALANCES_FILE) →
  keeps Q (build client home mrb recovery chain vals).
Proof.
  intros dir HA HB HC. unfold build, check_if_path_exists. destruct vals; io_leaves.
Qed.

Lemma outside_build ps client home mrb recovery chain vals :
  let dir := genesis_dir home in
  path_join dir GENESIS_FILE ∈ ps → path_join dir WAYPOINT_FILE ∈ ps → path_join dir BALANCES_FILE ∈ ps →
  leaves (outside ps) (build client home mrb recovery chain vals).
Proof.
  intros dir HA HB HC. unfold build, check_if_path_exists, write_genesis_file, audit, export_account_balances.
  destruct vals, recovery; io_leaves; case_match; io_leaves.
Qed.

Lemma build_confirms client home mrb recovery chain fs fs' r x :
  let dir := genesis_dir home in
  let gf := path_join dir GENESIS_FILE in
  build client home mrb recovery chain None fs = (fs', r) → fs !! gf = Some x → confirm gf = false →
  is_ok r = false ∧ fs' !! gf = Some x.
Proof.
  intros dir gf.
  intros Hb Hx Hc. unfold build in Hb. fold dir gf in Hb. unfold mbind at 1, io_bind at 1 in Hb.
  pose proof (keeps_create_dir_all (λ _, True) dir fs gf x Logic.I Hx) as Hk.
  destruct (io_update (create_dir_all dir) fs) as [fs1 [[]|e|p]]; cbn [fst] in Hk; [|by injection Hb as <- <-..].
  unfold mbind at 1, io_bind at 1 in Hb. unfold mbind at 1, io_bind at 1, check_if_path_exists at 1, io_read at 1 in Hb.
  unfold exists_ at 1 in Hb. rewrite (bool_decide_true (is_Some (fs1 !! gf))) in Hb by by rewrite Hk. rewrite Hc in Hb.
  by injection Hb as <- <-.
Qed.

Definition built (client : G) (home : path) (mrb : option path) (recovery : list LegacyRecoveryV6)
    (chain : NamedChain) (vals : option (list ValidatorConfiguration)) (fs' : file_system) (files : list path)
    : Prop :=
  let dir := genesis_dir home in
  let gf := path_join dir GENESIS_FILE in
  let wf := path_join dir WAYPOINT_FILE in
  files = [gf; wf] ∧
  ∃ info cs blob wp,
    let tx := GenesisTransaction (WsDirect cs) in
    genesis_info client mrb chain vals = Ok info ∧
    migration_genesis (info_validators info) recovery (info_framework info) (info_chain_id info)
      (libra_genesis_default chain) = Ok cs ∧
    tx_to_bytes tx = Ok blob ∧ generate_waypoint (set_genesis info tx) = Ok wp ∧
    fs' !! gf = Some (File (bytes_str blob)) ∧ fs' !! wf = Some (File wp) ∧
    read_blob_to_tx gf fs' = Ok tx ∧
    (recovery ≠ [] → ∃ db_rw w errors, bootstrap_db_reader_from_gen_tx tx = Ok (db_rw, w) ∧
       @compare_recovery_vec_to_genesis_tx (db_reader db_rw) _ recovery = Ok errors ∧
       ∀ from_json json, recovery_file_parse (file_in fs') from_json json = Ok recovery →
         compare_json_to_genesis_blob from_json json gf fs' = Ok errors).

Lemma audit_ok info recovery dir fs fs' :
  audit info recovery dir fs = (fs', Ok tt) → recovery ≠ [] →
  ∃ db_rw w errors, bootstrap_db_reader_from_gen_tx (get_genesis info) = Ok (db_rw, w) ∧
    @compare_recovery_vec_to_genesis_tx (db_reader db_rw) _ recovery = Ok errors.
Proof.
  intros Ha Hne. unfold audit in Ha. destruct recovery as [|e l]; [done|].
  apply io_bind_ok in Ha as (? & [db_rw w] & Hdb & Ha). apply io_lift_ok in Hdb as [-> Hdb].
  apply io_bind_ok in Ha as (? & s & Hs & Ha). apply io_lift_ok in Hs as [-> Hs].
  apply io_bind_ok in Ha as (? & errs & He & Ha). apply io_lift_ok in He as [_ He]. by exists db_rw, w, errs.
Qed.

(** The audit can be repeated on the files. *)
Lemma compare_json_ok (tx : T) recovery gf fs db_rw w errors from_json json :
  read_blob_to_tx gf fs = Ok tx → bootstrap_db_reader_from_gen_tx tx = Ok (db_rw, w) →
  @compare_recovery_vec_to_genesis_tx (db_reader db_rw) _ recovery = Ok errors →
  recovery_file_parse (file_in fs) from_json json = Ok recovery →
  compare_json_to_genesis_blob from_json json gf fs = Ok errors.
Proof.
  intros Ht Hdb He Hr. unfold compare_json_to_genesis_blob. rewrite Hr. cbn [mbind outcome_bind]. rewrite Ht.
  cbn [mbind outcome_bind]. by rewrite Hdb.
Qed.

Lemma build_ok client home mrb recovery chain vals fs fs' files :
  build client home mrb recovery chain vals fs = (fs', Ok files) →
  built client home mrb recovery chain vals fs' files.
Proof.
  set (dir := genesis_dir home). set (gf := path_join dir GENESIS_FILE). set (wf := path_join dir WAYPOINT_FILE).
  intros Hb. destruct (genesis_paths_distinct dir) as (Hgw & Hgb & Hwb). unfold build in Hb. fold dir gf wf in Hb.
  apply io_bind_ok in Hb as (fs1 & [] & _ & Hb). apply io_bind_ok in Hb as (fs2 & [] & _ & Hb).
  apply io_bind_ok in Hb as (fs3 & info & Hi & Hb). apply io_lift_ok in Hi as [-> Hi].
  apply io_bind_ok in Hb as (fs4 & tx & Ht & Hb). apply io_lift_ok in Ht as [-> Ht].
  apply bind_ok in Ht as (cs & Ht & <-%Ok_inj). set (tx := GenesisTransaction (WsDirect cs)) in *.
  cbn zeta in Hb. rewrite get_set_genesis in Hb.
  apply io_bind_ok in Hb as (fs5 & blob & Hbl & Hb). apply io_lift_ok in Hbl as [-> Hbl].
  apply io_bind_ok in Hb as (fs6 & [] & Hw1 & Hb). apply write_genesis_file_ok in Hw1.
  apply io_bind_ok in Hb as (fs7 & wp & Hwp & Hb). apply io_lift_ok in Hwp as [-> Hwp].
  apply io_bind_ok in Hb as (fs8 & [] & Hw2 & Hb).
  pose proof (keeps_write_genesis_file (λ q, q ≠ wf) wf wp (λ HA, HA eq_refl) fs6 gf _ Hgw Hw1) as Hk1.
  rewrite Hw2 in Hk1. cbn [fst] in Hk1. apply write_genesis_file_ok in Hw2.
  apply io_bind_ok in Hb as (fs9 & [] & Ha & Hb). apply io_lift_ok in Hb as [-> Hb]. apply Ok_inj in Hb as <-.
  pose proof (keeps_audit (λ q, q ≠ path_join dir BALANCES_FILE) (set_genesis info tx) recovery dir
    (λ HA, HA eq_refl) fs8) as Hk. rewrite Ha in Hk. cbn [fst] in Hk.
  pose proof (Hk gf _ Hgb Hk1) as Hg9. pose proof (read_blob_ok gf fs9 tx blob Hbl Hg9) as Hr.
  split; [done|]. exists info, cs, blob, wp. cbn zeta. split_and!; [done..|by apply Hk|done|].
  intros Hne. apply audit_ok in Ha as (db_rw & w & errors & Hdb & He); [|done]. rewrite get_set_genesis in Hdb.
  exists db_rw, w, errors. split_and!; [done..|]. intros from_json json Hj. by eapply compare_json_ok.
Qed.

(** ** Properties *)

(** C15: building the genesis.  Whatever happens, no file but the three of the
    genesis directory is changed.  An existing genesis of a real network is
    not overwritten without the user's consent.  On success the two files hold
    the genesis transaction of the change set the migration makes on the chain's
    configuration, which reads back from the file, and its waypoint; and the
    audit has run to its end, with whatever list of errors, the one comparing
    the recovery file with the genesis file gives again. *)
Theorem build_spec client home mrb recovery chain vals fs fs' r :
  let dir := genesis_dir home in
  let genesis := path_join dir GENESIS_FILE in
  let waypoint := path_join dir WAYPOINT_FILE in
  build client home mrb recovery chain vals fs = (fs', r) →
  (∀ q x, fs !! q = Some x → q ∉ [genesis; waypoint; path_join dir BALANCES_FILE] → fs' !! q = Some x) ∧
  (∀ x, vals = None → fs !! genesis = Some x → confirm genesis = false →
     is_ok r = false ∧ fs' !! genesis = Some x) ∧
  (∀ files, r = Ok files → built client home mrb recovery chain vals fs' files).
Proof.
  intros dir gf wf Hb. split; [|split].
  - intros q x Hx Hq. apply (f_equal fst) in Hb. cbn in Hb. rewrite <- Hb.
    apply (keeps_build (λ q, q ∉ [gf; wf; path_join dir BALANCES_FILE])); [..|done|done];
      fold dir gf wf; intros Hn; apply Hn; set_solver.
  - intros x -> Hx Hc. by apply (build_confirms client home mrb recovery chain fs).
  - intros files ->. by apply (build_ok client home mrb recovery chain vals fs).
Qed.
End build.

(** ** Witnesses *)

(** A chain whose database has the wrong coins for everyone.  A genesis
    information is its validators and the transaction. *)
Definition wrong_db : GenesisDb := {|
  db_coin a := Ok (Some 1);
  db_slow a := Ok None;
  db_validator_set := Ok None;
  db_coin_info_supply := Ok None;
  db_aggregator_value k := Ok None
|}.
Notation sample_tx := (Transaction (ChangeSet string bool string)).
#[export] Instance sample_tools : GenesisTools unit bytes (Z * list bytes * option sample_tx) sample_tx.
Proof.
  refine {|
    load_bundle_from_file p := Ok tt;
    bundle_from_bytes bs := Ok tt;
    chain_id_of c := match c with MAINNET => 1 | TESTNET => 2 | TESTING => 4 | OtherChain i => i end;
    genesis_info_new i c k vals f := Ok (i, vc_owner_account_address <$> vals, None);
    info_validators i := snd (fst i);
    info_framework i := tt;
    info_chain_id i := fst (fst i);
    set_genesis i t := (fst i, Some t);
    get_genesis i := default (OtherTransaction []) (snd i);
    generate_waypoint i := Ok ("0:" +:+ show_uint (Z.of_nat (length (snd (fst i)))));
    dump_to_json l := Ok (show_uint (Z.of_nat (length l)))
  |}.
  done.
Defined.
(** A genesis transaction is the names of the state it writes, one a line. *)
#[export] Instance sample_tx_dec : EqDecision sample_tx.
Proof.
  assert (EqDecision (ChangeSet string bool string)) by solve_decision.
  assert (EqDecision (WriteSetPayload (ChangeSet string bool string))) by solve_decision. solve_decision.
Defined.
Definition sample_tx_of (bs : bytes) : sample_tx :=
  GenesisTransaction (WsDirect (mk_change_set ((fun k => (k, false)) <$> split_char "|"%char (bytes_str bs)) ["NewEpochEvent"%string])).
Definition sample_tx_text (t : sample_tx) : string :=
  match t with GenesisTransaction (WsDirect cs) => join "|" (fst <$> write_set cs) | _ => EmptyString end.
#[export] Instance sample_db_tools : GenesisDbTools sample_tx.
Proof.
  refine {|
    DbReaderWriter := unit;
    new_for_test := tt;
    get_latest_ledger_info_option d := Ok None;
    db_generate_waypoint d t := Ok "0:00"%string;
    maybe_bootstrap d t w := Ok tt;
    db_reader d := wrong_db;
    tx_to_bytes t := let bs := str_bytes (sample_tx_text t) in
                     if decide (sample_tx_of bs = t) then Ok bs else Err "not supported"%string;
    tx_from_bytes bs := Ok (sample_tx_of bs)
  |}.
  intros t bs. cbn zeta. destruct (decide _) as [Ht|]; [|done]. intros <-%Ok_inj.
  split; [apply str_bytes_wf|by rewrite Ht].
Defined.

Definition plain_user : LegacyRecoveryV6 :=
  mk_recovery (Some user_addr) None EndUser (Some (Res.mk_balance 100)) None None None None None None None None
    None None None None None None None None None None None None None None.
Definition empty_fs : file_system := {[ ([] : path) := Dir ]}.
Definition sample_build : file_system * outcome (list path) :=
  build (S := trace) (fun _ => false) [] [] (Some []) [plain_user] TESTING (Some []) empty_fs.

(** The audit finds the balance wrong, and the genesis is built. *)
Example build_with_errors :
  (length <$> snd sample_build) = Ok 2%nat ∧
  (length <$> @compare_recovery_vec_to_genesis_tx wrong_db ref_diem_address [plain_user]) = Ok 1%nat.
Proof. split; vm_compute; reflexivity. Qed.

Lemma build_spec_witness :
  let dir := genesis_dir [] in
  fst sample_build !! ([] : path) = Some Dir ∧
  built (S := trace) [] [] (Some []) [plain_user] TESTING (Some []) (fst sample_build)
    [path_join dir GENESIS_FILE; path_join dir WAYPOINT_FILE].
Proof.
  intros dir. assert (Hb : sample_build = (fst sample_build, snd sample_build)) by apply surjective_pairing.
  split.
  - apply (build_spec (fun _ => false) [] [] (Some []) [plain_user] TESTING (Some []) empty_fs _ _ Hb); [done|].
    by apply (bool_decide_unpack _).
  - apply (build_spec (fun _ => false) [] [] (Some []) [plain_user] TESTING (Some []) empty_fs _ _ Hb).
    vm_compute. reflexivity.
Defined.
