(* ===== verification/RestoreBundle.v ===== *)
(** * tools/storage: restore bundles

    restore_bundle.rs finds and checks the three manifests of an epoch archive;
    restore.rs decompresses the archive and runs the three restorations.  The
    state is the file system and the bundle.  JSON and glob are the crates'. *)
From Stdlib Require Import ZArith Lia Ascii.
From stdpp Require Import base option list strings gmap.
From S2P Require Import Prelude RustStr Json Bytes FileSystem BTree Mnemonic.

Open Scope list_scope.
Open Scope Z_scope.

(** ** Data *)

Record Waypoint := mk_waypoint { wp_version : Z; wp_value : bytes }.
(** diem_backup_cli's manifests: the fields that are read *)
Record EpochEndingBackup := mk_epoch_backup { first_epoch : Z; waypoints : list Waypoint }.
Record TransactionBackup := mk_transaction_backup { first_version : Z; last_version : Z }.

(** An empty [PathBuf] is [None]. *)
Record RestoreBundle := mk_bundle {
  restore_bundle_dir : path;
  epoch : Z;
  version : Z;
  waypoint : option Waypoint;
  epoch_manifest : option path;
  snapshot_manifest : option path;
  transaction_manifest : option path
}.

Definition display (p : path) : string := "/" +:+ join "/" p.
(** [Path]'s order, component by component *)
Fixpoint path_cmp (a b : path) : comparison :=
  match a, b with
  | [], [] => Eq
  | [], _ => Lt
  | _, [] => Gt
  | x :: a', y :: b' => match str_cmp x y with Eq => path_cmp a' b' | c => c end
  end.
(** [Iterator::max] *)
Definition path_max (l : list path) : option path :=
  foldl (fun acc p => match acc with
                      | None => Some p
                      | Some q => match path_cmp p q with Lt => acc | _ => Some p end
                      end) None l.

Definition EPOCH_MANIFEST : string := "epoch_ending.manifest".
Definition STATE_MANIFEST : string := "state.manifest".
Definition TRANSACTION_MANIFEST : string := "transaction.manifest".

Class BundleCrates := {
  json_from_str : string → outcome json;
  json_pretty : json → string;
  epoch_from_str : string → outcome EpochEndingBackup;
  transaction_from_str : string → outcome TransactionBackup;
  (** What was decompressed, and whether it ended well *)
  gunzip : string → string * outcome unit;
  (** The entries that match, some unreadable *)
  glob : string → file_system → outcome (list (outcome path));
  (** A value that was read, with some strings replaced, prints to a text that
      reads back as it. *)
  json_pretty_law s j k : json_from_str s = Ok j → json_skeleton k = json_skeleton j →
    json_from_str (json_pretty k) = Ok k;
  (** A match exists and has the literal last component of the pattern. *)
  glob_law dir name fs l p :
    name = EPOCH_MANIFEST ∨ name = STATE_MANIFEST ∨ name = TRANSACTION_MANIFEST →
    glob (dir +:+ "/" +:+ name) fs = Ok l → Ok p ∈ l → is_Some (fs !! p) ∧ last p = Some name
}.

(** ** update_manifest_paths *)
Definition strip_gz (s : string) : string :=
  if ends_with ".gz" s then default s (strip_suffix ".gz" s) else s.
Definition strip_value (v : json) : json := match v with JString s => JString (strip_gz s) | _ => v end.
(** [get_mut(key)] and an assignment *)
Definition obj_update (key : string) (f : json → json) (l : list (string * json)) : list (string * json) :=
  (fun '(k, v) => if String.eqb k key then (k, f v) else (k, v)) <$> l.
Definition strip_chunk (chunk : json) : json :=
  match chunk with JObject l => JObject ((fun '(k, v) => (k, strip_value v)) <$> l) | _ => chunk end.
Definition strip_chunks (v : json) : json := match v with JArray cs => JArray (strip_chunk <$> cs) | _ => v end.
Definition update_manifest (manifest : json) : json :=
  match manifest with
  | JObject obj => JObject (obj_update "proof" strip_value (obj_update "chunks" strip_chunks obj))
  | _ => manifest
  end.

Section bundle.
Context `{BundleCrates}.

Definition update_manifest_paths (manifest_content : string) : outcome string :=
  manifest ← expect_res "called `Result::unwrap()` on an `Err` value" (json_from_str manifest_content);
  Ok (json_pretty (update_manifest manifest)).

(** [glob(..)?] and [flatten] *)
Definition oks {A} (l : list (outcome A)) : list A := omap (fun r => match r with Ok a => Some a | _ => None end) l.
Definition glob_flat (pattern : string) (fs : file_system) : outcome (list path) := oks <$> glob pattern fs.

Definition path_exists (p : option path) (fs : file_system) : bool :=
  match p with Some q => exists_ q fs | None => false end.
(** Reading an empty path fails. *)
Definition read_path (p : option path) (fs : file_system) : outcome string :=
  match p with Some q => read_to_string q fs | None => Err "No such file or directory" end.

(** ** RestoreBundle *)
Definition bundle_new (dir : path) : RestoreBundle := mk_bundle dir 0 0 None None None None.

(** Reads a manifest, rewrites its paths, and writes it back *)
Definition rewrite_manifest (p : path) : io string :=
  content ← io_read (read_to_string p);
  updated_content ← io_lift (update_manifest_paths content);
  _ ← io_write p updated_content;
  io_lift (Ok updated_content).

Definition any_epoch_manifest (self : RestoreBundle) : io RestoreBundle :=
  file_list ← io_read (glob_flat (display (restore_bundle_dir self) +:+ "/epoch_ending*" +:+ "/" +:+ EPOCH_MANIFEST));
  match path_max file_list with
  | Some p =>
      updated_content ← rewrite_manifest p;
      m ← io_lift (epoch_from_str updated_content);
      io_lift (Ok (mk_bundle (restore_bundle_dir self) (first_epoch m) (version self) (last (waypoints m)) (Some p)
                     (snapshot_manifest self) (transaction_manifest self)))
  | None => io_lift (Ok self)
  end.

Definition specific_epoch_manifest (self : RestoreBundle) (n : Z) : io RestoreBundle :=
  file_list ← io_read (glob_flat (display (restore_bundle_dir self) +:+ "/*_" +:+ show_uint n +:+ "*" +:+ "/" +:+
                                  EPOCH_MANIFEST));
  io_lift (Ok match path_max file_list with
              | Some p => mk_bundle (restore_bundle_dir self) (epoch self) (version self) (waypoint self) (Some p)
                            (snapshot_manifest self) (transaction_manifest self)
              | None => self
              end).

Definition assert_epoch_manifest (self : RestoreBundle) : io unit :=
  io_read (fun fs => rust_assert (path_exists (epoch_manifest self) fs) "this epoch manifest file does not exist").

Definition set_version (self : RestoreBundle) : io RestoreBundle :=
  _ ← assert_epoch_manifest self;
  s ← io_read (read_path (epoch_manifest self));
  m ← io_lift (epoch_from_str s);
  io_lift (Ok match waypoints m with
              | wp :: _ => mk_bundle (restore_bundle_dir self) (first_epoch m) (wp_version wp) (waypoint self)
                             (epoch_manifest self) (snapshot_manifest self) (transaction_manifest self)
              | [] => self
              end).

Definition assert_version (self : RestoreBundle) : io unit :=
  io_lift (rust_assert (0 <? version self) "you haven't yet set the version of the epoch restore").

Definition search_snapshot_manifest (self : RestoreBundle) : io RestoreBundle :=
  _ ← assert_epoch_manifest self;
  _ ← assert_version self;
  file_list ← io_read (glob_flat (display (restore_bundle_dir self) +:+ "/state_epoch*" +:+ show_uint (epoch self)
                                  +:+ "*" +:+ show_uint (version self) +:+ "*" +:+ "/" +:+ STATE_MANIFEST));
  match path_max file_list with
  | Some p =>
      _ ← rewrite_manifest p;
      io_lift (Ok (mk_bundle (restore_bundle_dir self) (epoch self) (version self) (waypoint self)
                     (epoch_manifest self) (Some p) (transaction_manifest self)))
  | None => io_lift (Ok self)
  end.

Definition verify_valid_transaction_list (transaction_manifest : path) (v : Z) (fs : file_system) : bool :=
  match read_to_string transaction_manifest fs with
  | Ok s =>
      match transaction_from_str s with
      | Ok tm => if last_version tm <? v then false else if v <? first_version tm then false else true
      | _ => false
      end
  | _ => false
  end.

(** The loop over the manifests found; none of its writes adds a file. *)
Fixpoint transaction_loop (entries : list path) (v : Z) : io path :=
  match entries with
  | [] => io_lift (Err "No valid transaction manifest found for version")
  | entry :: entries' =>
      _ ← rewrite_manifest entry;
      valid ← io_read (fun fs => Ok (verify_valid_transaction_list entry v fs));
      if valid : bool then io_lift (Ok entry) else transaction_loop entries' v
  end.

Definition search_transaction_manifest (self : RestoreBundle) : io RestoreBundle :=
  _ ← assert_epoch_manifest self;
  _ ← assert_version self;
  file_list ← io_read (glob_flat (display (restore_bundle_dir self) +:+ "/**" +:+ "/" +:+ TRANSACTION_MANIFEST));
  entry ← transaction_loop file_list (version self);
  io_lift (Ok (mk_bundle (restore_bundle_dir self) (epoch self) (version self) (waypoint self) (epoch_manifest self)
                 (snapshot_manifest self) (Some entry))).

Definition load (self : RestoreBundle) : io RestoreBundle :=
  self ← any_epoch_manifest self;
  self ← set_version self;
  self ← search_snapshot_manifest self;
  search_transaction_manifest self.

Definition is_loaded (self : RestoreBundle) (fs : file_system) : bool :=
  (0 <? epoch self) && (0 <? version self) && path_exists (epoch_manifest self) fs &&
  path_exists (snapshot_manifest self) fs && path_exists (transaction_manifest self) fs.
(** ** Specification *)

(** Not one of the manifests *)
Definition no_manifest (q : path) : Prop :=
  last q ≠ Some EPOCH_MANIFEST ∧ last q ≠ Some STATE_MANIFEST ∧ last q ≠ Some TRANSACTION_MANIFEST.

(** What a checked bundle promises of the files *)
Definition checked (b : RestoreBundle) (fs : file_system) : Prop :=
  0 < version b ∧
  (∃ p s m wp, epoch_manifest b = Some p ∧ fs !! p = Some (File s) ∧ epoch_from_str s = Ok m ∧
     epoch b = first_epoch m ∧ head (waypoints m) = Some wp ∧ version b = wp_version wp ∧
     waypoint b = last (waypoints m)) ∧
  (∃ p s tm, transaction_manifest b = Some p ∧ fs !! p = Some (File s) ∧ transaction_from_str s = Ok tm ∧
     first_version tm ≤ version b ≤ last_version tm) ∧
  (∀ p, snapshot_manifest b = Some p → is_Some (fs !! p)).

(** ** Lemmas *)
Lemma rewrite_manifest_ok p fs fs' s :
  rewrite_manifest p fs = (fs', Ok s) →
  fs' !! p = Some (File s) ∧ (∀ q, q ≠ p → fs' !! q = fs !! q) ∧
  ∃ content, fs !! p = Some (File content) ∧ update_manifest_paths content = Ok s.
Proof.
  intros Hr. apply io_bind_ok in Hr as (f1 & content & Hc & Hr). injection Hc as <- Hc.
  apply io_bind_ok in Hr as (f2 & u & Hu & Hr). injection Hu as <- Hu.
  apply io_bind_ok in Hr as (f3 & [] & Hw & Hr). injection Hr as <- <-.
  apply io_write_ok in Hw as [Hp Hq]. split; [done|]. split; [done|]. exists content. split; [|done].
  unfold read_to_string in Hc. destruct (fs !! p) as [[c|]|]; [|done..]. by apply Ok_inj in Hc as ->.
Qed.

Lemma path_max_in l p : path_max l = Some p → p ∈ l.
Proof.
  unfold path_max. revert p. induction l as [|q l IH] using rev_ind; intros p; [done|].
  rewrite foldl_app. cbn [foldl].
  match goal with IH : ∀ x, ?m = Some x → _ |- _ => destruct m as [z|] end.
  - destruct (path_cmp q z); intros [= <-]; apply elem_of_app; [right; by left|left; by apply IH|right; by left].
  - intros [= <-]. apply elem_of_app. right. by left.
Qed.

Lemma glob_flat_in pre name fs l p :
  name = EPOCH_MANIFEST ∨ name = STATE_MANIFEST ∨ name = TRANSACTION_MANIFEST →
  glob_flat (pre +:+ "/" +:+ name) fs = Ok l → p ∈ l → is_Some (fs !! p) ∧ last p = Some name.
Proof.
  intros Hn Hg Hp. unfold glob_flat in Hg. apply fmap_ok in Hg as (r & Hg & <-).
  apply list_elem_of_omap in Hp as ([q|e|m] & Hin & [= ->]). by eapply glob_law.
Qed.

(** Every operation leaves the other files alone and removes none. *)
Lemma kept_rewrite p (Q : path → Prop) : ¬ Q p → keeps Q (rewrite_manifest p).
Proof. intros Hp. unfold rewrite_manifest. io_leaves. Qed.
Lemma grows_rewrite p : grows (rewrite_manifest p).
Proof. unfold rewrite_manifest. io_leaves. Qed.
End bundle.
#[export] Hint Resolve kept_rewrite grows_rewrite : io.

Section facts.
Context `{BundleCrates}.

Lemma kept_transaction_loop (Q : path → Prop) entries v :
  (∀ p, last p = Some TRANSACTION_MANIFEST → ¬ Q p) →
  Forall (λ p, last p = Some TRANSACTION_MANIFEST) entries → keeps Q (transaction_loop entries v).
Proof.
  intros HQ. induction 1 as [|p l Hp _ IH]; cbn [transaction_loop]; [io_leaves|].
  apply leaves_bind; [apply _|by apply kept_rewrite, HQ|intros _].
  apply leaves_bind; [apply _|io_leaves|]. intros []; [io_leaves|done].
Qed.
Lemma grows_transaction_loop entries v : grows (transaction_loop entries v).
Proof.
  induction entries as [|p l IH]; cbn [transaction_loop]; [io_leaves|]. io_leaves. destruct a0; io_leaves.
Qed.

Lemma rewrite_max_keeps {B : Type} pre name (k : path → io B) (k0 : io B) :
  name = EPOCH_MANIFEST ∨ name = STATE_MANIFEST ∨ name = TRANSACTION_MANIFEST →
  (∀ p, last p = Some name → keeps no_manifest (k p)) → keeps no_manifest k0 →
  keeps no_manifest (file_list ← io_read (glob_flat (pre +:+ "/" +:+ name));
                     match path_max file_list with Some p => k p | None => k0 end).
Proof.
  intros Hn Hk Hk0. apply leaves_read_bind; [apply _|]. intros fs l Hl.
  destruct (path_max l) as [p|] eqn:E; [|apply Hk0]. apply Hk.
  apply path_max_in in E. by eapply glob_flat_in.
Qed.

Lemma kept_load self : keeps no_manifest (load self).
Proof.
  unfold load. apply leaves_bind; [apply _| |intros s1].
  { unfold any_epoch_manifest. rewrite <- str_app_assoc. apply rewrite_max_keeps; [by left| |io_leaves].
    intros p Hp. apply leaves_bind; [apply _|apply kept_rewrite; by intros (? & _)|intros u; io_leaves]. }
  apply leaves_bind; [apply _|unfold set_version, assert_epoch_manifest; io_leaves|intros s2].
  apply leaves_bind; [apply _| |intros s3].
  { unfold search_snapshot_manifest, assert_epoch_manifest, assert_version.
    apply leaves_bind; [apply _|io_leaves|intros _]. apply leaves_bind; [apply _|io_leaves|intros _].
    rewrite <- !str_app_assoc. rewrite (str_app_assoc _ "/" STATE_MANIFEST). apply rewrite_max_keeps; [by auto| |io_leaves].
    intros p Hp. apply leaves_bind; [apply _|apply kept_rewrite; by intros (_ & ? & _)|intros u; io_leaves]. }
  unfold search_transaction_manifest, assert_epoch_manifest, assert_version.
  apply leaves_bind; [apply _|io_leaves|intros _]. apply leaves_bind; [apply _|io_leaves|intros _].
  rewrite <- str_app_assoc. apply leaves_read_bind; [apply _|]. intros fs l Hl.
  assert (Hin : Forall (λ p, last p = Some TRANSACTION_MANIFEST) l).
  { apply Forall_forall. intros p Hp. eapply glob_flat_in; [|exact Hl|exact Hp]. auto. }
  apply (leaves_bind (kept no_manifest)); [apply kept_transaction_loop; [|done]; by intros p Hp (_ & _ & ?)|intros p; io_leaves].
Qed.

Lemma transaction_loop_ok entries v fs fs' p :
  transaction_loop entries v fs = (fs', Ok p) → p ∈ entries ∧ verify_valid_transaction_list p v fs' = true.
Proof.
  revert fs. induction entries as [|q l IH]; intros fs Hl; cbn [transaction_loop] in Hl; [done|].
  apply io_bind_ok in Hl as (f1 & s & _ & Hl). apply io_bind_ok in Hl as (f2 & b & Hb & Hl).
  injection Hb as <- Hb. destruct b.
  - injection Hl as <- <-. split; [by left|done].
  - destruct (IH _ Hl). split; [by right|done].
Qed.

Lemma verify_ok p v fs :
  verify_valid_transaction_list p v fs = true →
  ∃ s tm, fs !! p = Some (File s) ∧ transaction_from_str s = Ok tm ∧ first_version tm ≤ v ≤ last_version tm.
Proof.
  unfold verify_valid_transaction_list, read_to_string. destruct (fs !! p) as [[s|]|]; [|done..].
  destruct (transaction_from_str s) as [tm| |] eqn:E; [|done..].
  destruct (Z.ltb_spec (last_version tm) v); [done|]. destruct (Z.ltb_spec v (first_version tm)); [done|].
  intros _. exists s, tm. split; [done|]. split; [done|]. lia.
Qed.

Lemma any_epoch_ok dir fs fs' b :
  any_epoch_manifest (bundle_new dir) fs = (fs', Ok b) →
  b = bundle_new dir ∨
  ∃ p s m, last p = Some EPOCH_MANIFEST ∧ fs' !! p = Some (File s) ∧ epoch_from_str s = Ok m ∧
    b = mk_bundle dir (first_epoch m) 0 (last (waypoints m)) (Some p) None None.
Proof.
  intros Ha. apply io_bind_ok in Ha as (f1 & l & Hl & Ha). apply io_read_ok in Hl as [-> Hl].
  destruct (path_max l) as [p|] eqn:Em; [|apply io_lift_ok in Ha as [_ Ha]; apply Ok_inj in Ha as <-; by left]. right.
  apply io_bind_ok in Ha as (f2 & s & Hs & Ha). apply io_bind_ok in Ha as (f3 & m & Hm & Ha).
  apply io_lift_ok in Hm as [-> Hm]. apply io_lift_ok in Ha as [-> Ha]; apply Ok_inj in Ha as <-. apply rewrite_manifest_ok in Hs as (Hp & _ & _).
  exists p, s, m. split; [|done]. rewrite <- str_app_assoc in Hl.
  apply path_max_in in Em. eapply glob_flat_in; [|exact Hl|exact Em]. by left.
Qed.

Lemma search_snapshot_ok self fs fs' b :
  search_snapshot_manifest self fs = (fs', Ok b) →
  0 < version self ∧ (∀ q x, last q ≠ Some STATE_MANIFEST → fs !! q = Some x → fs' !! q = Some x) ∧
  ∃ o, b = mk_bundle (restore_bundle_dir self) (epoch self) (version self) (waypoint self) (epoch_manifest self) o
             (transaction_manifest self) ∧
    (o = snapshot_manifest self ∨ ∃ p, o = Some p ∧ is_Some (fs' !! p)).
Proof.
  intros Hs. apply io_bind_ok in Hs as (f1 & [] & Ha & Hs). apply io_read_ok in Ha as [-> _].
  apply io_bind_ok in Hs as (f2 & [] & Hv & Hs). apply io_lift_ok in Hv as [-> Hv].
  assert (Hpos : 0 < version self) by (destruct (Z.ltb_spec 0 (version self)); [done|by cbn in Hv]).
  split; [done|]. apply io_bind_ok in Hs as (f3 & l & Hl & Hs). apply io_read_ok in Hl as [-> Hl].
  destruct (path_max l) as [p|] eqn:Em.
  - apply io_bind_ok in Hs as (f4 & s & Hr & Hs). apply io_lift_ok in Hs as [-> Hs]; apply Ok_inj in Hs as <-. apply rewrite_manifest_ok in Hr as (Hp & Hq & _).
    rewrite <- !str_app_assoc in Hl. rewrite (str_app_assoc _ "/" STATE_MANIFEST) in Hl.
    assert (last p = Some STATE_MANIFEST).
    { apply path_max_in in Em. eapply glob_flat_in; [|exact Hl|exact Em]. auto. }
    split; [|exists (Some p); split; [done|]; right; exists p; split; [done|by rewrite Hp]].
    intros q x Hne Hx. rewrite Hq; [done|]. by intros ->.
  - apply io_lift_ok in Hs as [-> Hs]; apply Ok_inj in Hs as <-. split; [done|]. exists (snapshot_manifest self). split; [by destruct self|by left].
Qed.

Lemma search_transaction_ok self fs fs' b :
  search_transaction_manifest self fs = (fs', Ok b) →
  (∀ q x, last q ≠ Some TRANSACTION_MANIFEST → fs !! q = Some x → fs' !! q = Some x) ∧ grown fs fs' ∧
  ∃ p s tm, b = mk_bundle (restore_bundle_dir self) (epoch self) (version self) (waypoint self) (epoch_manifest self)
                  (snapshot_manifest self) (Some p) ∧
    fs' !! p = Some (File s) ∧ transaction_from_str s = Ok tm ∧ first_version tm ≤ version self ≤ last_version tm.
Proof.
  intros Hs. apply io_bind_ok in Hs as (f1 & [] & Ha & Hs). apply io_read_ok in Ha as [-> _].
  apply io_bind_ok in Hs as (f2 & [] & Hv & Hs). apply io_lift_ok in Hv as [-> _].
  apply io_bind_ok in Hs as (f3 & l & Hl & Hs). apply io_read_ok in Hl as [-> Hl].
  apply io_bind_ok in Hs as (f4 & p & Hp & Hs). apply io_lift_ok in Hs as [-> Hs]; apply Ok_inj in Hs as <-.
  rewrite <- str_app_assoc in Hl.
  assert (Hin : Forall (λ p, last p = Some TRANSACTION_MANIFEST) l).
  { apply Forall_forall. intros q Hq. eapply glob_flat_in; [|exact Hl|exact Hq]. auto. }
  pose proof (grows_transaction_loop l (version self) fs) as Hg. rewrite Hp in Hg.
  split; [|split; [done|]].
  - pose proof (kept_transaction_loop (λ q, last q ≠ Some TRANSACTION_MANIFEST) l (version self)) as Hk.
    intros q x Hne Hx. specialize (Hk (λ r Hr Hn, Hn Hr) Hin fs q x Hne Hx). by rewrite Hp in Hk.
  - apply transaction_loop_ok in Hp as [_ Hp]. apply verify_ok in Hp as (s & tm & ?). by exists p, s, tm.
Qed.

Lemma read_path_ok p s fs : fs !! p = Some (File s) → read_path (Some p) fs = Ok s.
Proof. intros Hp. unfold read_path, read_to_string. by rewrite Hp. Qed.

Lemma load_ok dir fs fs' b :
  load (bundle_new dir) fs = (fs', Ok b) →
  restore_bundle_dir b = dir ∧ checked b fs' ∧
  (is_loaded b fs' = true ↔ 0 < epoch b ∧ is_Some (snapshot_manifest b)).
Proof.
  intros Hl. apply io_bind_ok in Hl as (f1 & b1 & H1 & Hl). apply io_bind_ok in Hl as (f2 & b2 & H2 & Hl).
  apply io_bind_ok in Hl as (f3 & b3 & H3 & H4).
  apply io_bind_ok in H2 as (f & [] & Ha & H2). apply io_read_ok in Ha as [-> Ha].
  apply any_epoch_ok in H1 as [->|(p & s & m & Hlast & Hp & Hm & ->)]; [done|]. cbn [epoch_manifest] in *.
  apply io_bind_ok in H2 as (f & s' & Hs & H2). apply io_read_ok in Hs as [-> Hs].
  rewrite (read_path_ok _ _ _ Hp) in Hs. apply Ok_inj in Hs as <-.
  apply io_bind_ok in H2 as (f & m' & Hm' & H2). apply io_lift_ok in Hm' as [-> Hm'].
  rewrite Hm in Hm'. apply Ok_inj in Hm' as <-. apply io_lift_ok in H2 as [-> H2]. apply Ok_inj in H2.
  apply search_snapshot_ok in H3 as (Hpos & Hkeep & o & -> & Ho).
  destruct (waypoints m) as [|wp wps] eqn:Ew; [by subst b2|]. subst b2.
  cbn [restore_bundle_dir epoch version waypoint epoch_manifest snapshot_manifest transaction_manifest] in *.
  apply search_transaction_ok in H4 as (Hkeep4 & Hg & t & ts & tm & -> & Ht & Htm & Hrange).
  cbn [restore_bundle_dir epoch version waypoint epoch_manifest snapshot_manifest transaction_manifest] in *.
  assert (Hp' : fs' !! p = Some (File s)).
  { apply Hkeep4; [by rewrite Hlast|]. apply Hkeep; [by rewrite Hlast|done]. }
  assert (Hsnap : ∀ q, o = Some q → is_Some (fs' !! q)).
  { intros q ->. destruct Ho as [|(q' & [= ->] & Hq)]; [done|by apply Hg]. }
  split; [done|]. split.
  - split; [done|]. split; [|split; [by exists t, ts, tm|done]]. exists p, s, m, wp. rewrite Ew. done.
  - unfold is_loaded. cbn. unfold exists_. rewrite Hp', Ht, !bool_decide_true by by eexists.
    rewrite (proj2 (Z.ltb_lt _ _) Hpos), !andb_true_r. rewrite andb_true_iff, Z.ltb_lt.
    destruct o as [q|]; cbn; unfold exists_; [rewrite bool_decide_true by by apply Hsnap|]; naive_solver.
Qed.

(** ** Properties *)

(** C13: loading the manifests of a directory.  No other file changes, whatever
    the result.  On success the bundle is checked: its version is that of the
    first waypoint of the epoch manifest it names, its trusted waypoint the
    last, and the transaction manifest covers the version.  It is then loaded
    exactly when the epoch is not the genesis and a snapshot manifest was
    found; loading succeeds without one. *)
Theorem load_spec dir fs fs' r :
  load (bundle_new dir) fs = (fs', r) →
  (∀ q x, no_manifest q → fs !! q = Some x → fs' !! q = Some x) ∧
  (∀ b, r = Ok b →
     restore_bundle_dir b = dir ∧ checked b fs' ∧
     (is_loaded b fs' = true ↔ 0 < epoch b ∧ is_Some (snapshot_manifest b))).
Proof.
  intros Hl. split.
  { intros q x Hq Hx. pose proof (kept_load (bundle_new dir) fs q x Hq Hx) as Hk. by rewrite Hl in Hk. }
  intros b ->. by apply (load_ok dir fs).
Qed.
End facts.

(** ** Manifests *)

(** No path of a manifest ends in [.gz] twice. *)
Definition once_gz (s : string) : Prop := ends_with ".gz" (strip_gz s) = false.
Definition once_value (v : json) : Prop := match v with JString s => once_gz s | _ => True end.
Definition once_manifest (manifest : json) : Prop :=
  match manifest with
  | JObject obj =>
      ∀ k v, (k, v) ∈ obj →
        (k = "proof"%string → once_value v) ∧
        (k = "chunks"%string → match v with
                               | JArray cs => ∀ c, c ∈ cs → match c with
                                                           | JObject l => ∀ k' w, (k', w) ∈ l → once_value w
                                                           | _ => True end
                               | _ => True end)
  | _ => True
  end.

Lemma strip_gz_once s : once_gz s → strip_gz (strip_gz s) = strip_gz s.
Proof. intros Ho. unfold strip_gz at 1. by rewrite Ho. Qed.
Lemma strip_value_once v : once_value v → strip_value (strip_value v) = strip_value v.
Proof. destruct v; try done. cbn. intros Ho. f_equal. by apply strip_gz_once. Qed.

Lemma fmap_twice {A B} (f : A → B) (g : B → B) (l : list A) :
  (∀ x, x ∈ l → g (f x) = f x) → g <$> (f <$> l) = f <$> l.
Proof.
  intros Hg. rewrite <- list_fmap_compose. apply list_fmap_ext. intros i x Hx. apply Hg.
  by eapply list_elem_of_lookup_2.
Qed.

Lemma strip_chunks_once v :
  match v with
  | JArray cs => ∀ c, c ∈ cs → match c with JObject l => ∀ k' w, (k', w) ∈ l → once_value w | _ => True end
  | _ => True
  end → strip_chunks (strip_chunks v) = strip_chunks v.
Proof.
  destruct v as [| | | |cs|]; try done. cbn. intros Hc. f_equal. apply fmap_twice. intros c Hin. specialize (Hc c Hin).
  destruct c as [| | | | |l]; try done. cbn. f_equal. apply fmap_twice. intros [k w] Hw. f_equal. by eapply strip_value_once, Hc.
Qed.

Lemma skeleton_strip v : json_skeleton (strip_value v) = json_skeleton v.
Proof. by destruct v. Qed.
Lemma skeleton_fmap (f : string * json → string * json) l :
  (∀ kv, (f kv).1 = kv.1 ∧ json_skeleton (f kv).2 = json_skeleton kv.2) →
  json_skeleton (JObject (f <$> l)) = json_skeleton (JObject l).
Proof.
  intros Hf. cbn [json_skeleton]. f_equal. rewrite <- list_fmap_compose. apply list_fmap_ext. intros i kv _. cbn.
  destruct (Hf kv) as [-> ->]. done.
Qed.
Lemma skeleton_chunks v : json_skeleton (strip_chunks v) = json_skeleton v.
Proof.
  destruct v as [| | | |cs|]; try done. cbn. f_equal. rewrite <- list_fmap_compose. apply list_fmap_ext.
  intros i c _. destruct c as [| | | | |l]; try done. cbn [compose strip_chunk].
  apply (skeleton_fmap (λ '(k, w), (k, strip_value w))). intros [k w]. split; [done|apply skeleton_strip].
Qed.
Lemma skeleton_update j : json_skeleton (update_manifest j) = json_skeleton j.
Proof.
  destruct j as [| | | | |obj]; try done. cbn [update_manifest]. unfold obj_update.
  rewrite (skeleton_fmap (λ '(k, v), if String.eqb k "proof" then (k, strip_value v) else (k, v))).
  - apply skeleton_fmap. intros [k v]. destruct (String.eqb k "chunks"); split; try done. apply skeleton_chunks.
  - intros [k v]. destruct (String.eqb k "proof"); split; try done. apply skeleton_strip.
Qed.

Lemma update_manifest_twice j : once_manifest j → update_manifest (update_manifest j) = update_manifest j.
Proof.
  destruct j as [| | | | |obj]; try done. cbn [update_manifest once_manifest]. intros Ho. f_equal. unfold obj_update.
  rewrite <- !list_fmap_compose. apply list_fmap_ext. intros i [k v] Hkv%list_elem_of_lookup_2.
  destruct (Ho k v Hkv) as [Hp Hc]. cbn [compose].
  destruct (String.eqb_spec k "chunks") as [->|Hk1]; cbn [compose String.eqb].
  { cbn. by rewrite (strip_chunks_once v (Hc eq_refl)). }
  destruct (String.eqb_spec k "proof") as [->|Hk2]; [cbn; by rewrite (strip_value_once v (Hp eq_refl))|].
  rewrite (proj2 (String.eqb_neq k "chunks")) by done. by rewrite (proj2 (String.eqb_neq k "proof")) by done.
Qed.

(** rewriting a manifest's paths changes strings only, and what is written
    back is left alone by the next rewriting, unless a path ended in [.gz]
    twice. *)
Theorem update_manifest_idempotent `{BundleCrates} s j :
  json_from_str s = Ok j → once_manifest j →
  ∃ s' j', update_manifest_paths s = Ok s' ∧ json_from_str s' = Ok j' ∧ json_skeleton j' = json_skeleton j ∧
    update_manifest_paths s' = Ok s'.
Proof.
  intros Hj Ho. pose proof (json_pretty_law s j (update_manifest j) Hj (skeleton_update j)) as Hr.
  exists (json_pretty (update_manifest j)), (update_manifest j). unfold update_manifest_paths.
  rewrite Hj, Hr. cbn [expect_res mbind outcome_bind]. split; [done|]. split; [done|].
  split; [apply skeleton_update|]. by rewrite update_manifest_twice.
Qed.

(** ** Witnesses *)

(** A codec of manifests that are one proof, their text the proof's: "12:90"
    is epoch 12 with a waypoint at version 90, or the versions 12 to 90. *)
Definition read_pair (s : string) : outcome (Z * Z) :=
  match split_char ":" s with
  | [a; b] => x ← parse_u64 a; y ← parse_u64 b; Ok (x, y)
  | _ => Err "not a pair"
  end.
Lemma split_pred_app f c s u : f c = true → split_pred f (s +:+ String c u) = split_pred f s ++ split_pred f u.
Proof.
  intros Hc. induction s as [|a s IH]; cbn [String.append split_pred]; [by rewrite Hc|].
  rewrite IH. destruct (f a); [done|]. pose proof (split_pred_not_nil f s). by destruct (split_pred f s).
Qed.
Lemma last_split_char c s name :
  no_char (Ascii.eqb c) name = true → last (split_char c (s +:+ String c name)) = Some name.
Proof.
  intros Hn. unfold split_char. rewrite split_pred_app by apply Ascii.eqb_refl.
  by rewrite (split_pred_no_char _ name), last_snoc.
Qed.

Definition sample_glob (pattern : string) (fs : file_system) : outcome (list (outcome path)) :=
  let name := last (split_char "/" pattern) in
  let paths := fst <$> map_to_list fs in
  Ok (Ok <$> if decide (name = Some "*.gz"%string) then filter (λ p, ends_with ".gz" (default EmptyString (last p)) = true) paths
             else filter (λ p, last p = name) paths).

#[export] Instance sample_bundle_crates : BundleCrates.
Proof.
  refine {|
    json_from_str s := Ok (JObject [("proof"%string, JString s)]);
    json_pretty j := match j with JObject [(_, JString s)] => s | _ => EmptyString end;
    epoch_from_str s := '(e, v) ← read_pair s; Ok (mk_epoch_backup e [mk_waypoint v []]);
    transaction_from_str s := '(a, b) ← read_pair s; Ok (mk_transaction_backup a b);
    gunzip s := ("plain " +:+ s, Ok tt);
    glob := sample_glob
  |}.
  - intros s j k [= <-] Hk. destruct k as [| | | | |[|[k v] [|]]]; try done. cbn in Hk. injection Hk as -> Hv.
    by destruct v.
  - intros dir name fs l p Hn Hg Hp. unfold sample_glob in Hg.
    change (dir +:+ "/" +:+ name) with (dir +:+ String "/" name) in Hg.
    rewrite last_split_char in Hg by by destruct Hn as [->|[->| ->]].
    rewrite decide_False in Hg by by destruct Hn as [->|[->| ->]]. apply Ok_inj in Hg as <-.
    apply list_elem_of_fmap in Hp as (q & [= <-] & Hq).
    apply list_elem_of_filter in Hq as [Hl Hq]. split.
    + apply list_elem_of_fmap in Hq as ([q x] & -> & Hq). apply elem_of_map_to_list in Hq. by eexists.
    + done.
Defined.

Definition bundle_dir : path := ["bundle"%string].
(** An archive of epoch 12 at version 90, without a state snapshot *)
Definition sample_archive : file_system := list_to_map
  [([], Dir); (bundle_dir, Dir);
   (bundle_dir ++ ["epoch_ending_12"; EPOCH_MANIFEST]%string, File "12:90.gz");
   (bundle_dir ++ ["epoch_ending_12"]%string, Dir);
   (bundle_dir ++ ["transaction_1"; TRANSACTION_MANIFEST]%string, File "1:200");
   (bundle_dir ++ ["transaction_1"]%string, Dir)].
Definition sample_load := load (bundle_new bundle_dir) sample_archive.

Example load_without_snapshot :
  match snd sample_load with
  | Ok b => (epoch b, version b, snapshot_manifest b, is_loaded b (fst sample_load)) = (12, 90, None, false)
  | _ => False
  end.
Proof. vm_compute. reflexivity. Qed.
(** Without an epoch manifest, loading panics. *)
Example load_of_nothing : snd (load (bundle_new bundle_dir) ∅) = Panic "this epoch manifest file does not exist".
Proof. vm_compute. reflexivity. Qed.

Lemma load_spec_witness :
  (∀ q x, no_manifest q → sample_archive !! q = Some x → fst sample_load !! q = Some x) ∧
  (∀ b, snd sample_load = Ok b →
     restore_bundle_dir b = bundle_dir ∧ checked b (fst sample_load) ∧
     (is_loaded b (fst sample_load) = true ↔ 0 < epoch b ∧ is_Some (snapshot_manifest b))).
Proof. apply (load_spec bundle_dir sample_archive). apply surjective_pairing. Defined.

Lemma update_manifest_idempotent_witness :
  ∃ s' j', update_manifest_paths "a.chunk.gz" = Ok s' ∧ json_from_str s' = Ok j' ∧
    json_skeleton j' = json_skeleton (JObject [("proof"%string, JString "a.chunk.gz")]) ∧
    update_manifest_paths s' = Ok s'.
Proof.
  apply (update_manifest_idempotent "a.chunk.gz" (JObject [("proof"%string, JString "a.chunk.gz")])); [reflexivity|].
  intros k v Hkv. apply list_elem_of_singleton in Hkv as [= -> ->]. by split.
Defined.
