(* ===== verification/Restore.v ===== *)
(** * tools/storage/src/restore.rs and dbtool_init.rs

    The restoration of an epoch: decompression of the archive, the manifests,
    and the three runs of the diem restore controllers, in order. *)
From Stdlib Require Import ZArith Lia Ascii.
From stdpp Require Import base option list strings gmap.
From S2P Require Import Prelude RustStr Bytes FileSystem RestoreBundle.

Open Scope list_scope.
Open Scope Z_scope.

(** [file_stem] of a component: up to the last dot that is not the first
    character *)
Fixpoint stem_go (s : string) : option string :=
  match s with
  | EmptyString => None
  | String c s' =>
      match stem_go s' with
      | Some r => Some (String c r)
      | None => if Ascii.eqb c "." then Some EmptyString else None
      end
  end.
Definition file_stem (c : string) : string :=
  if String.eqb c ".." then c else
  match stem_go c with Some (String _ _ as r) => r | _ => c end.
(** [with_extension("")] *)
Fixpoint without_extension (p : path) : path :=
  match p with
  | [] => []
  | [c] => [file_stem c]
  | c :: p' => c :: without_extension p'
  end.

Inductive RestoreTypes := Epoch | Snapshot | Transaction.

(** The controllers of diem_backup_cli on a database, with the global options
    [get_global_db_opts] makes: target version and trusted waypoint *)
Class RestoreControllers := {
  open_kv_only : path → io unit;
  controller_run : RestoreTypes → path → path → option path → Z → Waypoint → io unit
}.

Section restore.
Context `{BundleCrates, RestoreControllers}.

Definition remove_file (p : path) : io unit :=
  io_update (fun fs => if is_file p fs then Ok (base.delete p fs) else Err "No such file or directory").

Definition decompress_one (gz_path : path) : io unit :=
  let output_path := without_extension gz_path in
  _ ← io_read (fun fs => ensure (exists_ gz_path fs) "No such file or directory");
  _ ← io_update (file_create output_path);
  content ← io_read (read_to_string gz_path);
  _ ← io_update (fun fs => Ok (write_all output_path (fst (gunzip content)) fs));
  _ ← io_lift (snd (gunzip content));
  remove_file gz_path.

Fixpoint decompress_loop (entries : list (outcome path)) : io unit :=
  match entries with
  | [] => io_lift (Ok tt)
  | entry :: entries' =>
      gz_path ← io_lift entry;
      _ ← decompress_one gz_path;
      decompress_loop entries'
  end.

Definition maybe_decompress_gz_files (bundle_dir : path) : io unit :=
  entries ← io_read (glob (display bundle_dir +:+ "/**/*.gz"));
  decompress_loop entries.

(** dbtool_init.rs *)
Definition run_restore (rtype : RestoreTypes) (db_path : path) (b : RestoreBundle) : io unit :=
  _ ← open_kv_only db_path;
  wp ← io_lift (expect_opt "no waypoint" (waypoint b));
  controller_run rtype db_path (restore_bundle_dir b)
    match rtype with
    | Epoch => epoch_manifest b
    | Snapshot => snapshot_manifest b
    | Transaction => transaction_manifest b
    end (version b) wp.

Definition run_restores (db_destination : path) (b : RestoreBundle) : io unit :=
  _ ← run_restore Epoch db_destination b;
  _ ← run_restore Snapshot db_destination b;
  run_restore Transaction db_destination b.

Definition full_restore (db_destination : path) (b : RestoreBundle) : io unit :=
  _ ← io_read (fun fs => rust_assert (is_loaded b fs) "the restore bundle hasn't been checked yet");
  run_restores db_destination b.

(** Without symbolic links, the canonical path of an existing file is itself. *)
Definition canonicalize (p : path) (fs : file_system) : outcome path :=
  if exists_ p fs then Ok p else Err "No such file or directory".

Definition epoch_restore (bundle_path destination_db : path) : io path :=
  _ ← io_read (fun fs => ensure (exists_ bundle_path fs) "Bundle directory not found");
  _ ← io_read (fun fs => ensure (negb (exists_ destination_db fs))
                           "Destination directory already exists and may contain conflicting state");
  _ ← io_update (create_dir_all destination_db);
  bundle_path ← io_read (fun fs => context_res "Failed to canonicalize bundle path" (canonicalize bundle_path fs));
  destination_db ← io_read (fun fs => context_res "Failed to canonicalize destination path"
                                        (canonicalize destination_db fs));
  _ ← io_result (context_res "Failed to decompress gz files") (maybe_decompress_gz_files bundle_path);
  b ← load (bundle_new bundle_path);
  _ ← full_restore destination_db b;
  io_lift (Ok destination_db).

(** ** Lemmas *)
Lemma decompress_one_ok p fs fs' :
  without_extension p ≠ p → decompress_one p fs = (fs', Ok tt) →
  ∃ s, fs !! p = Some (File s) ∧ snd (gunzip s) = Ok tt ∧
    fs' !! without_extension p = Some (File (fst (gunzip s))) ∧ fs' !! p = None ∧
    ∀ q, q ≠ p → q ≠ without_extension p → fs' !! q = fs !! q.
Proof.
  intros Hne Hd. apply io_bind_ok in Hd as (f1 & [] & Hs0 & Hd). apply io_read_ok in Hs0 as [-> _].
  apply io_bind_ok in Hd as (f2 & [] & Hc & Hd). apply io_bind_ok in Hd as (f3 & s & Hs & Hd).
  apply io_read_ok in Hs as [-> Hs]. apply io_bind_ok in Hd as (f4 & [] & Hw & Hd).
  apply io_bind_ok in Hd as (f5 & [] & Hg & Hd). apply io_lift_ok in Hg as [-> Hg].
  unfold io_update in Hc. destruct (file_create _ fs) as [f|e|m] eqn:Ef; [|done..]. injection Hc as <-.
  apply file_create_ok in Ef as [-> _]. injection Hw as <-. unfold write_all in Hd.
  unfold read_to_string in Hs. rewrite lookup_insert_ne in Hs by done.
  destruct (fs !! p) as [[c|]|] eqn:Ep; [|done..]. apply Ok_inj in Hs as <-.
  unfold remove_file, io_update, is_file in Hd. rewrite !lookup_insert_ne, Ep in Hd by done. injection Hd as <-.
  exists c. split; [done|]. split; [done|]. split; [|split].
  - by rewrite lookup_delete_ne, lookup_insert, decide_True by done.
  - apply lookup_delete_eq.
  - intros q H1 H2. by rewrite lookup_delete_ne, !lookup_insert_ne by done.
Qed.

Lemma decompress_loop_ok entries fs fs' :
  let ps := oks entries in
  NoDup ps → NoDup (without_extension <$> ps) → (∀ p, p ∈ ps → without_extension p ∉ ps) →
  decompress_loop entries fs = (fs', Ok tt) →
  (∀ p, p ∈ ps → ∃ s, fs !! p = Some (File s) ∧ snd (gunzip s) = Ok tt ∧
     fs' !! without_extension p = Some (File (fst (gunzip s))) ∧ fs' !! p = None) ∧
  (∀ q, q ∉ ps → q ∉ without_extension <$> ps → fs' !! q = fs !! q).
Proof.
  cbn zeta. revert fs. induction entries as [|[p|e|m] l IH]; intros fs Hnd Hnd2 Hsep Hd; cbn [decompress_loop] in Hd.
  - apply io_lift_ok in Hd as [-> _]. split; [by intros p ?%not_elem_of_nil|done].
  - cbn [oks omap list_omap] in *. fold (oks l) in *. rewrite fmap_cons in Hnd2.
    apply NoDup_cons in Hnd as [Hp Hnd]. apply NoDup_cons in Hnd2 as [Hp2 Hnd2].
    apply io_bind_ok in Hd as (f1 & p' & Hp' & Hd). apply io_lift_ok in Hp' as [-> Hp']. apply Ok_inj in Hp' as <-.
    apply io_bind_ok in Hd as (f2 & [] & H1 & Hd).
    assert (Hne : without_extension p ≠ p) by (intros He; apply (Hsep p); [by left|rewrite He; by left]).
    apply decompress_one_ok in H1 as (s & Hs & Hg & Ho & Hno & Hk); [|done].
    destruct (IH f2 Hnd Hnd2) as [HA HB]; [|done|].
    { intros q Hq Hin. apply (Hsep q); by right. }
    assert (Hp3 : p ∉ without_extension <$> oks l).
    { intros (q & -> & Hq)%list_elem_of_fmap. apply (Hsep q); [by right|by left]. }
    assert (Hop : without_extension p ∉ oks l) by (intros Hin; apply (Hsep p); [by left|by right]).
    split.
    + intros q [->|Hq]%elem_of_cons.
      * exists s. rewrite (HB p Hp Hp3), (HB _ Hop Hp2). done.
      * destruct (HA q Hq) as (s' & Hs' & Hx). exists s'. split; [|done]. rewrite <- Hs'. symmetry. apply Hk.
        -- by intros ->.
        -- by intros ->.
    + intros q [Hq1 Hq2]%not_elem_of_cons Hq3. rewrite fmap_cons in Hq3. apply not_elem_of_cons in Hq3 as [Hq3 Hq4].
      by rewrite (HB q Hq2 Hq4), Hk.
  - apply io_bind_ok in Hd as (? & ? & Hx & _). by apply io_lift_ok in Hx as [_ Hx].
  - apply io_bind_ok in Hd as (? & ? & Hx & _). by apply io_lift_ok in Hx as [_ Hx].
Qed.

(** ** Properties *)

(** when the decompression succeeds, every compressed file found is
    replaced by its decompressed content under the name without its extension,
    and nothing else changes, provided no two of them have the same name
    without it and none of those names is itself to be decompressed. *)
Theorem decompress_spec dir entries fs fs' :
  glob (display dir +:+ "/**/*.gz") fs = Ok entries →
  NoDup (oks entries) → NoDup (without_extension <$> oks entries) →
  (∀ p, p ∈ oks entries → without_extension p ∉ oks entries) →
  maybe_decompress_gz_files dir fs = (fs', Ok tt) →
  (∀ p, p ∈ oks entries → ∃ s, fs !! p = Some (File s) ∧ snd (gunzip s) = Ok tt ∧
     fs' !! without_extension p = Some (File (fst (gunzip s))) ∧ fs' !! p = None) ∧
  (∀ q, q ∉ oks entries → q ∉ without_extension <$> oks entries → fs' !! q = fs !! q).
Proof.
  intros Hg Hnd Hnd2 Hsep Hd. unfold maybe_decompress_gz_files in Hd.
  apply io_bind_ok in Hd as (f1 & es & He & Hd). apply io_read_ok in He as [-> He]. rewrite Hg in He.
  apply Ok_inj in He as <-. by apply decompress_loop_ok.
Qed.

End restore.

(** ** Witnesses *)
#[export] Instance sample_controllers : RestoreControllers := {|
  open_kv_only db := io_lift (Ok tt);
  controller_run t db dir manifest v wp :=
    io_update (fun fs => Ok (<[db ++ [match t with Epoch => "epoch" | Snapshot => "snapshot"
                                      | Transaction => "transaction" end]%string := File (show_uint v)]> fs))
|}.

Definition compressed_archive : file_system :=
  <[bundle_dir ++ ["state_epoch_12_ver_90"; STATE_MANIFEST]%string := File "s"]>
  (<[bundle_dir ++ ["state_epoch_12_ver_90"]%string := Dir]>
  (<[bundle_dir ++ ["0-.chunk.gz"]%string := File "zip"]> sample_archive)).
Definition db_dir : path := ["db"%string].
Definition sample_restore := epoch_restore bundle_dir db_dir compressed_archive.

Example sample_restore_ok :
  snd sample_restore = Ok db_dir ∧
  fst sample_restore !! (bundle_dir ++ ["0-.chunk"%string]) = Some (File "plain zip") ∧
  fst sample_restore !! (db_dir ++ ["transaction"%string]) = Some (File "90").
Proof. vm_compute. done. Qed.

(** Without a snapshot the assertion of [full_restore] fails. *)
Example restore_without_snapshot :
  snd (epoch_restore bundle_dir db_dir sample_archive) = Panic "the restore bundle hasn't been checked yet".
Proof. vm_compute. reflexivity. Qed.


Definition gz_entries : list (outcome path) := [Ok (bundle_dir ++ ["0-.chunk.gz"%string])].
Definition sample_decompress := maybe_decompress_gz_files bundle_dir compressed_archive.

Lemma decompress_spec_witness :
  (∀ p, p ∈ oks gz_entries → ∃ s, compressed_archive !! p = Some (File s) ∧ snd (gunzip s) = Ok tt ∧
     fst sample_decompress !! without_extension p = Some (File (fst (gunzip s))) ∧ fst sample_decompress !! p = None) ∧
  (∀ q, q ∉ oks gz_entries → q ∉ without_extension <$> oks gz_entries →
     fst sample_decompress !! q = compressed_archive !! q).
Proof.
  apply (decompress_spec bundle_dir gz_entries compressed_archive).
  - vm_compute. reflexivity.
  - by apply (bool_decide_unpack _).
  - by apply (bool_decide_unpack _).
  - intros p ->%list_elem_of_singleton. by apply (bool_decide_unpack _).
  - assert (Hs : snd sample_decompress = Ok tt) by (vm_compute; reflexivity).
    rewrite <- Hs. apply surjective_pairing.
Defined.
