(* ===== verification/ReadSnapshot.v ===== *)
(** * tools/storage/src/read_snapshot.rs and read_tx_chunk.rs

    From the chunks of a state snapshot to the states of the accounts, and to
    the recovery file.  The iteration order of a hash map is an argument. *)
From Stdlib Require Import ZArith Lia Ascii.
From stdpp Require Import base option list strings gmap.
From S2P Require Import Prelude RustStr Bytes FileSystem MoveTypes Recovery.

Open Scope list_scope.
Open Scope Z_scope.

(** diem_types: a key of the state store, and its value *)
Inductive StateKey := AccessPath (address : AccountAddress) (p : bytes) | OtherKey (bs : bytes).
Notation StateValue := bytes.
#[export] Instance state_key_eq_dec : EqDecision StateKey.
Proof. solve_decision. Defined.
#[export] Instance state_key_countable : Countable StateKey.
Proof.
  refine (inj_countable' (λ k, match k with AccessPath a p => inl (a, p) | OtherKey bs => inr bs end)
            (λ s, match s with inl (a, p) => AccessPath a p | inr bs => OtherKey bs end) _).
  by intros [].
Defined.
Notation record := (StateKey * StateValue)%type.

Record StateSnapshotBackup := mk_snapshot_backup { chunk_blobs : list string }.

Class SnapshotCrates := {
  snapshot_from_str : string → outcome StateSnapshotBackup;
  (** The records of a file, until its end or an error *)
  read_record_bytes : string → list bytes * outcome unit;
  record_from_bytes : bytes → outcome record;
  from_access_paths_and_values : AccountAddress → gmap StateKey StateValue → outcome (option AccountState);
  recoveries_to_json : list LegacyRecoveryV6 → string
}.

(** In what order the [i]-th map that is iterated yields its entries *)
Class HashOrder := {
  hash_order {A : Type} : nat → gmap AccountAddress A → list (AccountAddress * A);
  hash_order_law {A : Type} i (m : gmap AccountAddress A) : hash_order i m ≡ₚ map_to_list m
}.

Section snapshot.
Context `{SnapshotCrates, HashOrder}.

Definition load_snapshot_manifest (p : path) : io StateSnapshotBackup :=
  config ← io_read (fun fs => context_res "Error: cannot read file" (read_to_string p fs));
  io_lift (snapshot_from_str config).

(** [parent().join(..)] *)
Definition chunk_path (archive_path : path) (file_handle : string) : outcome path :=
  dir ← expect_opt "could not read archive path" (parent archive_path);
  Ok (dir ++ split_char "/"%char file_handle).

(** The loop over the records: what was read before an error is dropped. *)
Definition decode_records (content : string) : outcome (list record) :=
  let '(bs, r) := read_record_bytes content in
  chunk ← mapM record_from_bytes bs;
  r;;
  Ok chunk.

Definition read_account_state_chunk (file_handle : string) (archive_path : path) : io (list record) :=
  full_handle ← io_lift (chunk_path archive_path file_handle);
  content ← io_read (fun fs => context_res "snapshot chunk" (read_to_string full_handle fs));
  io_lift (decode_records content).

(** The fold over a chunk: records of account resources, by address *)
Definition group_record (acc : gmap AccountAddress (list record)) (r : record) : gmap AccountAddress (list record) :=
  match fst r with
  | AccessPath address _ => <[address := default [] (acc !! address) ++ [r]]> acc
  | OtherKey _ => acc
  end.
Definition group_chunk (blobs : list record) : gmap AccountAddress (list record) := foldl group_record ∅ blobs.

(** [entry(address).or_default().extend(blobs)] *)
Definition merge_entry (states : gmap AccountAddress (list record)) (e : AccountAddress * list record)
    : gmap AccountAddress (list record) :=
  <[fst e := default [] (states !! fst e) ++ snd e]> states.
Definition merge_chunk (i : nat) (states chunk : gmap AccountAddress (list record)) : gmap AccountAddress (list record) :=
  foldl merge_entry states (hash_order i chunk).

Fixpoint chunks_loop (i : nat) (chunks : list string) (archive_path : path) (states : gmap AccountAddress (list record))
    : io (gmap AccountAddress (list record)) :=
  match chunks with
  | [] => io_lift (Ok states)
  | chunk :: chunks' =>
      blobs ← read_account_state_chunk chunk archive_path;
      chunks_loop (S i) chunks' archive_path (merge_chunk i states (group_chunk blobs))
  end.

Definition insert_blob (m : gmap StateKey StateValue) (r : record) : gmap StateKey StateValue := <[fst r := snd r]> m.

Fixpoint materialize (entries : list (AccountAddress * list record)) : outcome (list AccountState) :=
  match entries with
  | [] => Ok []
  | (address, blobs) :: entries' =>
      a_state ← from_access_paths_and_values address (foldl insert_blob ∅ blobs);
      account_states ← materialize entries';
      Ok (match a_state with Some s => s :: account_states | None => account_states end)
  end.

Definition accounts_from_snapshot_backup (manifest : StateSnapshotBackup) (archive_path : path)
    : io (list AccountState) :=
  states ← chunks_loop 0 (chunk_blobs manifest) archive_path ∅;
  io_lift (materialize (hash_order (length (chunk_blobs manifest)) states)).

(** Every failure is an [expect]. *)
Definition manifest_to_json `{DiemAddress} (manifest_path : path) (out_path : option path) : io unit :=
  snapshot_manifest ← io_result (expect_res "parse manifest") (load_snapshot_manifest manifest_path);
  archive_path ← io_lift (expect_opt "called `Option::unwrap()` on a `None` value" (parent manifest_path));
  account_states ← io_result (expect_res "could not decode snapshot")
                     (accounts_from_snapshot_backup snapshot_manifest archive_path);
  recoveries ← io_lift (mapM (fun s => expect_res "could not get legacy recovery" (get_legacy_recovery s)) account_states);
  out ← io_lift (match out_path with
                 | Some o => Ok o
                 | None => Ok (path_join archive_path "migration.json")
                 end);
  io_result (expect_res "could not save file") (io_write out (recoveries_to_json recoveries)).

(** ** Specification *)

(** The records of an address, in the order of the snapshot *)
Definition of_address (a : AccountAddress) (r : record) : bool :=
  match fst r with AccessPath b _ => bool_decide (a = b) | OtherKey _ => false end.
Definition records_of (a : AccountAddress) (rs : list record) : list record := List.filter (of_address a) rs.
(** The last value of each key *)
Definition last_values (rs : list record) : gmap StateKey StateValue := list_to_map (reverse rs).
Definition addresses (rs : list record) : list AccountAddress :=
  remove_dups (omap (fun r => match fst r with AccessPath a _ => Some a | _ => None end) rs).
(** The states of a list of records, one address at a time *)
Definition reference_states (rs : list record) : outcome (list (option AccountState)) :=
  mapM (fun a => from_access_paths_and_values a (last_values (records_of a rs))) (addresses rs).
End snapshot.

(** ** Lemmas *)
Lemma mapM_ok {A B : Type} (f : A → outcome B) l k : mapM f l = Ok k ↔ Forall2 (λ x y, f x = Ok y) l k.
Proof.
  revert k. induction l as [|x l IH]; intros k; cbn.
  - split; [by intros [= <-]|]. by intros ->%Forall2_nil_inv_l.
  - split.
    + intros Hm. apply bind_ok in Hm as (y & Hy & Hm). apply bind_ok in Hm as (ys & Hys & Hm).
      apply Ok_inj in Hm as <-. constructor; [done|by apply IH].
    + intros (y & ys & Hy & Hys & ->)%Forall2_cons_inv_l. rewrite Hy. cbn. apply IH in Hys. by rewrite Hys.
Qed.

Lemma mapM_perm {A B : Type} (f : A → outcome B) l l' k :
  l ≡ₚ l' → mapM f l = Ok k → ∃ k', mapM f l' = Ok k' ∧ k ≡ₚ k'.
Proof.
  intros Hp Hm. apply mapM_ok in Hm. destruct (Permutation_Forall2 Hp Hm) as (k' & Hk & Hf).
  exists k'. split; [by apply mapM_ok|done].
Qed.

Lemma list_to_map_snoc_reverse (rs : list record) r :
  last_values (rs ++ [r]) = <[fst r := snd r]> (last_values rs).
Proof. unfold last_values. rewrite reverse_snoc. by destruct r. Qed.

Lemma insert_blobs rs : foldl insert_blob ∅ rs = last_values rs.
Proof.
  induction rs as [|r rs IH] using rev_ind; [done|]. by rewrite foldl_app, list_to_map_snoc_reverse, <- IH.
Qed.

Lemma records_of_app a rs rs' : records_of a (rs ++ rs') = records_of a rs ++ records_of a rs'.
Proof. apply List.filter_app. Qed.

(** [o] followed by the records [l], when there are any *)
Definition extended (o : option (list record)) (l : list record) : option (list record) :=
  match l with [] => o | _ => Some (default [] o ++ l) end.
Lemma extended_app o l l' : extended (extended o l) l' = extended o (l ++ l').
Proof.
  destruct l' as [|r l']; cbn; [by rewrite app_nil_r|]. destruct l as [|r0 l]; cbn; [done|].
  by rewrite <- app_assoc.
Qed.

Lemma group_lookup acc blobs a : foldl group_record acc blobs !! a = extended (acc !! a) (records_of a blobs).
Proof.
  induction blobs as [|r rs IH] using rev_ind; [done|].
  rewrite foldl_app, records_of_app, <- extended_app, <- IH. cbn [foldl]. unfold group_record, records_of. cbn.
  unfold of_address. destruct (fst r) as [b p|bs] eqn:E; [|done].
  destruct (decide (a = b)) as [->|Hne].
  - rewrite bool_decide_true by done. by rewrite lookup_insert, decide_True by done.
  - rewrite bool_decide_false by done. by rewrite lookup_insert_ne by done.
Qed.

Lemma merge_lookup states l a :
  NoDup l.*1 →
  foldl merge_entry states l !! a =
  match (list_to_map l : gmap AccountAddress (list record)) !! a with
  | Some rs => Some (default [] (states !! a) ++ rs)
  | None => states !! a
  end.
Proof.
  revert states. induction l as [|[b rs] l IH]; intros states Hnd; [done|]. cbn [fmap list_fmap fst] in Hnd.
  apply NoDup_cons in Hnd as [Hb Hnd]. cbn [foldl list_to_map foldr]. rewrite IH by done. unfold merge_entry. cbn [fst snd].
  destruct (decide (a = b)) as [->|Hne].
  - rewrite lookup_insert, decide_True by done. rewrite (not_elem_of_list_to_map_1 l b Hb).
    by rewrite lookup_insert, decide_True by done.
  - by rewrite !lookup_insert_ne by done.
Qed.

(** One step of a sequence of calls *)
Lemma io_bind_step {A B : Type} (m : io A) (f : A → io B) fs :
  (m ≫= f) fs = match m fs with
                | (fs', Ok a) => f a fs'
                | (fs', Err e) => (fs', Err e)
                | (fs', Panic p) => (fs', Panic p)
                end.
Proof. done. Qed.

Section proofs.
Context `{SnapshotCrates, HashOrder}.

Lemma order_map {A : Type} (i : nat) (m : gmap AccountAddress A) : list_to_map (hash_order i m) = m.
Proof.
  rewrite <- (list_to_map_to_list m) at 2. apply list_to_map_proper; [|apply hash_order_law].
  rewrite (fmap_Permutation fst _ _ (hash_order_law i m)). apply NoDup_fst_map_to_list.
Qed.

Lemma merge_chunk_lookup (i : nat) states blobs a :
  merge_chunk i states (group_chunk blobs) !! a = extended (states !! a) (records_of a blobs).
Proof.
  unfold merge_chunk. rewrite merge_lookup.
  - rewrite order_map. unfold group_chunk. rewrite group_lookup, lookup_empty. unfold extended.
    by destruct (records_of a blobs).
  - rewrite (fmap_Permutation fst _ _ (hash_order_law i _)). apply NoDup_fst_map_to_list.
Qed.

(** What is read of the chunks, on a file system that does not change *)
Definition read_chunk (fs : file_system) (archive_path : path) (chunk : string) : outcome (list record) :=
  p ← chunk_path archive_path chunk;
  content ← context_res "snapshot chunk" (read_to_string p fs);
  decode_records content.
Definition all_records (fs : file_system) (archive_path : path) (chunks : list string) : outcome (list record) :=
  mjoin <$> mapM (read_chunk fs archive_path) chunks.

Lemma read_account_state_chunk_pure chunk ap fs :
  read_account_state_chunk chunk ap fs = (fs, read_chunk fs ap chunk).
Proof.
  unfold read_account_state_chunk, read_chunk. unfold mbind at 1, io_bind at 1, io_lift at 1.
  destruct (chunk_path ap chunk) as [p|e|m]; [|done..]. cbn [mbind outcome_bind].
  unfold io_read. unfold mbind at 1, io_bind at 1. by destruct (context_res _ _).
Qed.

Lemma chunks_loop_spec (i : nat) chunks ap states fs :
  match all_records fs ap chunks with
  | Ok rs => ∃ m, chunks_loop i chunks ap states fs = (fs, Ok m) ∧ ∀ a, m !! a = extended (states !! a) (records_of a rs)
  | _ => ∃ r, chunks_loop i chunks ap states fs = (fs, r) ∧ is_ok r = false
  end.
Proof.
  revert i states. unfold all_records. induction chunks as [|c cs IH]; intros i states; cbn [chunks_loop mapM].
  { cbn. by exists states. }
  rewrite io_bind_step, read_account_state_chunk_pure.
  destruct (read_chunk fs ap c) as [blobs|e|m]; cbn; [|by eexists..].
  specialize (IH (S i) (merge_chunk i states (group_chunk blobs))).
  destruct (mapM (read_chunk fs ap) cs) as [rss|e|m]; cbn in *; [|done..].
  destruct IH as (m & -> & Hm). exists m. split; [done|]. intros a.
  rewrite Hm, merge_chunk_lookup, extended_app. f_equal. symmetry. apply records_of_app.
Qed.

Lemma materialize_mapM entries :
  materialize entries = omap id <$> mapM (λ e, from_access_paths_and_values e.1 (last_values e.2)) entries.
Proof.
  induction entries as [|[a rs] l IH]; [done|]. cbn [materialize mapM]. rewrite insert_blobs. cbn [fst snd].
  destruct (from_access_paths_and_values a (last_values rs)) as [s|e|m]; [|done..].
  cbn [mbind outcome_bind]. rewrite IH.
  destruct (mapM _ l) as [k|e|m]; [|done..]. cbn. by destruct s.
Qed.

Lemma elem_of_addresses a rs : a ∈ addresses rs ↔ records_of a rs ≠ [].
Proof.
  unfold addresses. rewrite elem_of_remove_dups, list_elem_of_omap. unfold records_of, of_address. split.
  - intros ([k v] & Hin & Hk) Hn. destruct k as [b p|bs]; [|done]. injection Hk as ->.
    assert (Hf : (AccessPath a p, v) ∈ List.filter (of_address a) rs).
    { apply list_elem_of_In, List.filter_In. split; [by apply list_elem_of_In|]. cbn. by rewrite bool_decide_true. }
    unfold of_address in Hf. rewrite Hn in Hf. by apply not_elem_of_nil in Hf.
  - intros Hn. destruct (List.filter _ rs) as [|r l] eqn:E; [done|].
    assert (Hr : In r (r :: l)) by by left. rewrite <- E in Hr. apply List.filter_In in Hr as [Hin Hr].
    exists r. split; [by apply list_elem_of_In|]. destruct (fst r) as [b p|]; [|done].
    apply bool_decide_eq_true in Hr. by subst.
Qed.

Lemma entries_perm m rs :
  (∀ a, m !! a = extended None (records_of a rs)) →
  map_to_list m ≡ₚ (λ a, (a, records_of a rs)) <$> addresses rs.
Proof.
  intros Hm. apply NoDup_Permutation.
  - apply NoDup_map_to_list.
  - apply NoDup_fmap_2; [by intros a b [= ->]|apply NoDup_remove_dups].
  - intros [a l]. rewrite elem_of_map_to_list, Hm, list_elem_of_fmap. unfold extended. split.
    + destruct (records_of a rs) as [|r k] eqn:E; [done|]. intros [= <-]. exists a.
      split; [by rewrite E|]. apply elem_of_addresses. by rewrite E.
    + intros (b & [= -> ->] & Hb). apply elem_of_addresses in Hb. by destruct (records_of b rs).
Qed.

(** ** Properties *)

(** C14: the accounts of a snapshot, whatever the order in which the maps are
    iterated, are a permutation of the reference: for every address that has a
    resource anywhere in the snapshot, once, the state made of the last value
    of each of its keys.  It fails exactly when a chunk cannot be read or a
    state cannot be made, and writes nothing. *)
Theorem accounts_from_snapshot_spec manifest ap fs fs' r :
  accounts_from_snapshot_backup manifest ap fs = (fs', r) →
  fs' = fs ∧
  match rs ← all_records fs ap (chunk_blobs manifest); reference_states rs with
  | Ok states => ∃ accounts, r = Ok accounts ∧ accounts ≡ₚ omap id states
  | _ => is_ok r = false
  end.
Proof.
  unfold accounts_from_snapshot_backup. rewrite io_bind_step.
  pose proof (chunks_loop_spec 0 (chunk_blobs manifest) ap ∅ fs) as Hl.
  destruct (all_records fs ap _) as [rs|e|p]; cbn [mbind outcome_bind].
  2,3: destruct Hl as ([a|e'|p'] & -> & Hr); [done| |]; intros Hx; injection Hx as <- <-; by split.
  destruct Hl as (m & -> & Hm). unfold io_lift. intros [= <- <-]. split; [done|].
  assert (Hp : (λ a, (a, records_of a rs)) <$> addresses rs ≡ₚ hash_order (length (chunk_blobs manifest)) m).
  { rewrite hash_order_law. symmetry. apply entries_perm. intros a. by rewrite Hm, lookup_empty. }
  rewrite materialize_mapM. unfold reference_states.
  set (f := λ e : AccountAddress * list record, from_access_paths_and_values e.1 (last_values e.2)).
  assert (Href : mapM (λ a, from_access_paths_and_values a (last_values (records_of a rs))) (addresses rs)
                 = mapM f ((λ a, (a, records_of a rs)) <$> addresses rs)).
  { clear. induction (addresses rs) as [|a l IH]; [done|]. cbn [mapM fmap list_fmap]. unfold f at 1. by rewrite IH. }
  rewrite Href. destruct (mapM f (_ <$> _)) as [k|e|p] eqn:E.
  - destruct (mapM_perm _ _ _ _ Hp E) as (k' & -> & Hk). cbn. exists (omap id k'). split; [done|]. by rewrite Hk.
  - destruct (mapM f (hash_order _ m)) as [k'|e'|p'] eqn:E'; [|done..].
    destruct (mapM_perm _ _ _ _ (symmetry Hp) E') as (k & Hk & _). congruence.
  - destruct (mapM f (hash_order _ m)) as [k'|e'|p'] eqn:E'; [|done..].
    destruct (mapM_perm _ _ _ _ (symmetry Hp) E') as (k & Hk & _). congruence.
Qed.
End proofs.

(** ** read_tx_chunk.rs *)
Section transactions.
Context {T I E W : Type} `{SnapshotCrates}.
(** [bcs::from_bytes] of a row, and the manifest *)
Context (row_from_bytes : bytes → outcome (T * I * list E * W)).

Record TransactionChunk := mk_tx_chunk { chunk_transactions : string }.
Record TransactionArchiveChunk := mk_archive_chunk {
  ac_manifest : TransactionChunk;
  txns : list T;
  txn_infos : list I;
  event_vecs : list (list E);
  write_sets : list W
}.

(** read_snapshot.rs: the manifest of an epoch, as the crate of the backups reads it *)
Definition load_epoch_manifest {M : Type} (epoch_from_str : string → outcome M) (p : path) : io M :=
  bytes ← io_read (read_to_string p);
  io_lift (epoch_from_str bytes).

Definition load_tx_chunk_manifest {M : Type} (manifest_from_str : string → outcome M) (p : path) : io M :=
  s ← io_read (fun fs => context_res "Error: cannot read file" (read_to_string p fs));
  io_lift (manifest_from_str s).

(** The loop, pushing to the four columns *)
Fixpoint columns_loop (records : list bytes) (c : TransactionArchiveChunk) : outcome TransactionArchiveChunk :=
  match records with
  | [] => Ok c
  | record_bytes :: records' =>
      '(txn, txn_info, events, write_set) ← row_from_bytes record_bytes;
      columns_loop records'
        (mk_archive_chunk (ac_manifest c) (txns c ++ [txn]) (txn_infos c ++ [txn_info]) (event_vecs c ++ [events])
           (write_sets c ++ [write_set]))
  end.

Definition load_chunk (archive_path : path) (manifest : TransactionChunk) : io TransactionArchiveChunk :=
  full_handle ← io_lift (chunk_path archive_path (chunk_transactions manifest));
  _ ← io_read (fun fs => rust_assert (exists_ full_handle fs) "file does not exist");
  content ← io_read (fun fs => context_res "snapshot chunk" (read_to_string full_handle fs));
  io_lift
    (let '(records, r) := read_record_bytes content in
     c ← columns_loop records (mk_archive_chunk manifest [] [] [] []);
     r;;
     rust_assert ((length (txns c) =? length (txn_infos c))%nat && (length (txn_infos c) =? length (event_vecs c))%nat
                  && (length (event_vecs c) =? length (write_sets c))%nat)
       "transactions chunk have different vector length for txs, events, and writesets";;
     Ok c).

(** The columns of the rows *)
Definition columns (manifest : TransactionChunk) (rows : list (T * I * list E * W)) : TransactionArchiveChunk :=
  mk_archive_chunk manifest ((λ r, r.1.1.1) <$> rows) ((λ r, r.1.1.2) <$> rows) ((λ r, r.1.2) <$> rows) (snd <$> rows).

Lemma columns_loop_spec records manifest rows :
  columns_loop records (columns manifest rows) =
  rows' ← mapM row_from_bytes records; Ok (columns manifest (rows ++ rows')).
Proof.
  revert rows. induction records as [|b bs IH]; intros rows; cbn [columns_loop mapM mbind outcome_bind].
  { cbn. by rewrite app_nil_r. }
  destruct (row_from_bytes b) as [[[[x i] e] w]|m|m]; cbn [mbind outcome_bind]; [|done..].
  replace (mk_archive_chunk _ _ _ _ _) with (columns manifest (rows ++ [(x, i, e, w)]))
    by (unfold columns; by rewrite !fmap_app).
  rewrite IH. destruct (mapM row_from_bytes bs) as [rows'|m|m]; cbn; [|done..]. by rewrite <- app_assoc.
Qed.

(** a transaction chunk loads exactly when its file exists and every row
    decodes, to the rows' columns, in order; the assertion on their lengths
    never fails.  A missing file panics. *)
Theorem load_chunk_spec archive manifest p fs fs' r :
  chunk_path archive (chunk_transactions manifest) = Ok p →
  load_chunk archive manifest fs = (fs', r) →
  fs' = fs ∧
  (∀ c, r = Ok c ↔ ∃ content rows, fs !! p = Some (File content) ∧ snd (read_record_bytes content) = Ok tt ∧
     mapM row_from_bytes (fst (read_record_bytes content)) = Ok rows ∧ c = columns manifest rows) ∧
  (fs !! p = None → r = Panic "file does not exist").
Proof.
  intros Hp. unfold load_chunk. rewrite io_bind_step. unfold io_lift at 1. rewrite Hp.
  rewrite io_bind_step. unfold io_read at 1. unfold exists_.
  destruct (fs !! p) as [x|] eqn:Ex.
  2: { intros [= <- <-]. split; [done|]. split; [|done]. intros c. split; [done|]. by intros (? & ? & ? & _). }
  rewrite bool_decide_true by by eexists. cbn [rust_assert].
  rewrite io_bind_step. unfold io_read at 1. unfold read_to_string. rewrite Ex.
  destruct x as [content|]; cbn [context_res].
  2: { intros [= <- <-]. split; [done|]. split; [|done]. intros c. split; [done|]. by intros (? & ? & [=] & _). }
  unfold io_lift. destruct (read_record_bytes content) as [records rr] eqn:Er.
  change (mk_archive_chunk manifest [] [] [] []) with (columns manifest []). rewrite columns_loop_spec.
  destruct (mapM row_from_bytes records) as [rows|m|m] eqn:Em; cbn [mbind outcome_bind app];
    intros [= <- <-]; (split; [done|]); (split; [|done]); intros c.
  - cbn [columns txns txn_infos event_vecs write_sets]. rewrite !length_fmap, !Nat.eqb_refl. cbn [andb rust_assert].
    split.
    + destruct rr as [[]|m|m]; cbn; [|done..]. intros [= <-]. exists content, rows. by rewrite Er.
    + intros (s & rows' & [= <-] & Hr & Hm & ->). rewrite Er in Hr, Hm. cbn in Hr, Hm. rewrite Hr. cbn.
      rewrite Em in Hm. by apply Ok_inj in Hm as ->.
  - split; [done|]. intros (s & rows' & [= <-] & Hr & Hm & ->). rewrite Er in Hm. cbn in Hm. congruence.
  - split; [done|]. intros (s & rows' & [= <-] & Hr & Hm & ->). rewrite Er in Hm. cbn in Hm. congruence.
Qed.
End transactions.

(** ** Witnesses *)
#[export] Instance sample_order : HashOrder.
Proof.
  refine {| hash_order A i m := (if Nat.even i then map_to_list m else reverse (map_to_list m)) |}.
  intros A i m. destruct (Nat.even i); [done|apply reverse_Permutation].
Defined.

Definition nobody : AccountState :=
  let none {A : Type} : outcome (option A) := Ok None in
  mk_account_state none none none none none none none none none none none none none none none none none none none
    none none none none none.
(** Two bytes a record: the address, and the value of its one key *)
Fixpoint pairs (bs : bytes) : list bytes := match bs with a :: b :: bs' => [a; b] :: pairs bs' | _ => [] end.
#[export] Instance sample_snapshot_crates : SnapshotCrates := {|
  snapshot_from_str s := Ok (mk_snapshot_backup (split_char "," s));
  read_record_bytes s := (pairs (str_bytes s), Ok tt);
  record_from_bytes bs := match bs with
                          | [a; b] => Ok (if a =? 48 then OtherKey [] else AccessPath [a] [], [b])
                          | _ => Err "not a record"
                          end;
  from_access_paths_and_values a m := Ok (if decide (m !! AccessPath a [] = Some [120]) then Some nobody else None);
  recoveries_to_json l := show_uint (Z.of_nat (length l))
|}.
Definition sample_chunks : file_system := {[ ["s"; "c1"]%string := File "ayaxby"; ["s"; "c2"]%string := File "bx0x" ]}.
Definition sample_accounts := accounts_from_snapshot_backup (mk_snapshot_backup ["c1"; "c2"]%string) ["s"; "m"]%string sample_chunks.

(** The last value of both accounts is [x]; no account of the other key. *)
Example sample_accounts_ok : length <$> snd sample_accounts = Ok 2%nat.
Proof. vm_compute. reflexivity. Qed.

Lemma accounts_from_snapshot_spec_witness :
  fst sample_accounts = sample_chunks ∧
  match rs ← all_records sample_chunks ["s"; "m"]%string ["c1"; "c2"]%string; reference_states rs with
  | Ok states => ∃ accounts, snd sample_accounts = Ok accounts ∧ accounts ≡ₚ omap id states
  | _ => is_ok (snd sample_accounts) = false
  end.
Proof.
  apply (accounts_from_snapshot_spec (mk_snapshot_backup ["c1"; "c2"]%string) ["s"; "m"]%string sample_chunks).
  apply surjective_pairing.
Defined.

Definition sample_row (bs : bytes) : outcome (Z * Z * list Z * Z) :=
  match bs with [a; b] => Ok (a, b, [], a) | _ => Err "not a row" end.
Definition sample_tx_chunk := load_chunk sample_row ["s"; "m"]%string (mk_tx_chunk "c1") sample_chunks.

Lemma load_chunk_spec_witness :
  fst sample_tx_chunk = sample_chunks ∧
  (∀ c, snd sample_tx_chunk = Ok c ↔ ∃ content rows, sample_chunks !! ["s"; "c1"]%string = Some (File content) ∧
     snd (read_record_bytes content) = Ok tt ∧ mapM sample_row (fst (read_record_bytes content)) = Ok rows ∧
     c = columns (mk_tx_chunk "c1") rows) ∧
  (sample_chunks !! ["s"; "c1"]%string = None → snd sample_tx_chunk = Panic "file does not exist").
Proof.
  apply (load_chunk_spec sample_row ["s"; "m"]%string (mk_tx_chunk "c1")); [reflexivity|apply surjective_pairing].
Defined.
