(* ===== verification/GasCoin.v ===== *)
(** * types/src/move_resource/gas_coin.rs: amounts of coins

    From the coins a user enters, in decimals, to the integer on chain, and
    back for display. *)
From Stdlib Require Import ZArith Lia.
From stdpp Require Import base option list strings.
From S2P Require Import Prelude RustStr Json F64 Compare.

Open Scope Z_scope.

Definition ONCHAIN_DECIMAL_PRECISION : Z := 6.
(** [10f64.powf(6.0)] is the exact power. *)
Definition coin_scale : f64 := f64_of_int (10 ^ ONCHAIN_DECIMAL_PRECISION).
Definition cast_coin_to_decimal (onchain_coin_value : Z) : f64 := f64_div (f64_of_int onchain_coin_value) coin_scale.
Definition cast_decimal_to_coin (decimal : f64) : Z := f64_to_u64 (f64_mul decimal coin_scale).

(** [SlowWalletBalance::from_value]: what the view returns *)
Definition balance_from_value (value : list json) : outcome SlowWalletBalance :=
  match value with
  | [u; t] =>
      u ← string_from_value u;
      unlocked ← parse_u64 u;
      t ← string_from_value t;
      total ← parse_u64 t;
      Ok (mk_slow_balance unlocked total)
  | _ => Err "invalid value length"
  end.
Record LibraBalanceDisplay := mk_display { d_unlocked : f64; d_total : f64 }.
Definition scaled (b : SlowWalletBalance) : LibraBalanceDisplay :=
  mk_display (cast_coin_to_decimal (sb_unlocked b)) (cast_coin_to_decimal (sb_total b)).

(** ** Lemmas *)

(** The balance of an account is what its two numbers say. *)
Lemma balance_from_value_show u t :
  is_u64 u → is_u64 t →
  balance_from_value [JString (show_uint u); JString (show_uint t)] = Ok (mk_slow_balance u t).
Proof.
  intros Hu Ht. unfold balance_from_value. cbn [string_from_value mbind outcome_bind].
  rewrite parse_u64_show by done. cbn [mbind outcome_bind]. by rewrite parse_u64_show.
Qed.

(** Whole coins are scaled exactly, as long as the result is below 2^53. *)
Lemma cast_whole_coins n :
  0 ≤ n → n * 10 ^ ONCHAIN_DECIMAL_PRECISION < 2 ^ 53 →
  cast_decimal_to_coin (f64_of_int n) = n * 10 ^ ONCHAIN_DECIMAL_PRECISION.
Proof.
  intros H0 H1. unfold cast_decimal_to_coin, coin_scale, ONCHAIN_DECIMAL_PRECISION in *.
  change (10 ^ 6) with 1000000 in *. change (2 ^ 53) with 9007199254740992 in *.
  rewrite f64_mul_exact by (unfold exact; lia). apply f64_to_u64_exact. unfold exact. lia.
Qed.

Lemma cast_range x : is_u64 (cast_decimal_to_coin x).
Proof.
  unfold cast_decimal_to_coin, is_u64. destruct (f64_mul x coin_scale) as [s|s| |s m e]; cbn; try destruct s;
    try (unfold u64_max; lia).
  split; [|lia]. apply Z.min_glb; [done|]. by apply Z.shiftl_nonneg.
Qed.

(** The product is truncated, not rounded: 0.000249 coins are sent as 248. *)
Example cast_loses_a_unit : cast_decimal_to_coin (cast_coin_to_decimal 249) = 248.
Proof. vm_compute. reflexivity. Qed.
