(* ===== verification/Percent.v ===== *)
(** * Percentages in binary64

    The commands divide a whole number of hundredths by [100.0] and print two
    decimals.  Below 2^51 hundredths the quotient is near enough to the exact
    one that both the printed text and the comparisons are those of the whole
    numbers. *)
From Stdlib Require Import ZArith Lia SpecFloat.
From stdpp Require Import base numbers strings.
From S2P Require Import Prelude RustStr F64.

Open Scope Z_scope.

(** [n as f64 / 100.0] *)
Definition percent (n : Z) : f64 := f64_div (f64_of_int n) (f64_of_int 100).

(** ["{:.2}"] of a value that is neither negative nor below 10^37: the exact
    value to the nearest hundredth, halves to even *)
Definition half_even (a d : Z) : Z :=
  let q := a / d in
  match 2 * (a mod d) ?= d with
  | Lt => q
  | Eq => if Z.even q then q else q + 1
  | Gt => q + 1
  end.
Definition hundredths (x : f64) : Z :=
  match x with
  | S754_finite _ m e => if 0 <=? e then Zpos m * 100 * 2 ^ e else half_even (Zpos m * 100) (2 ^ (- e))
  | _ => 0
  end.
Definition show_hundredths (h : Z) : string :=
  show_uint (h / 100) +:+ "." +:+ (if h mod 100 <? 10 then "0" else EmptyString) +:+ show_uint (h mod 100).
Definition show_f64_2 (x : f64) : string := show_hundredths (hundredths x).

(** ** The quotient *)
Lemma div_eucl_pair a b : Z.div_eucl a b = (a / b, a mod b).
Proof. unfold Z.div, Z.modulo. by destruct (Z.div_eucl a b). Qed.

Lemma zdigits_pos z : 0 < z → Zdigits2 z = Z.log2 z + 1.
Proof. destruct z as [|p|p]; [lia| |lia]. intros _. apply digits2_log2. Qed.

Lemma round_nearest_even_bounds m l : m ≤ round_nearest_even m l ≤ m + 1.
Proof. destruct l as [|[]]; cbn [round_nearest_even]; try destruct (Z.even m); lia. Qed.

Section quotient.
Variable n : Z.
Hypotheses (Hpos : 0 < n) (Hsmall : n < 2 ^ 51).

(** Fifty-nine bits of the number *)
Definition scaled_up : Z := n * 2 ^ (59 - Z.log2 n).

Lemma log2_small : 0 ≤ Z.log2 n ≤ 50.
Proof. split; [apply Z.log2_nonneg|]. apply Z.lt_succ_r, Z.log2_lt_pow2; lia. Qed.

Lemma scaled_up_bounds : 2 ^ 59 ≤ scaled_up < 2 ^ 60.
Proof.
  pose proof log2_small as Hl. destruct (Z.log2_spec n Hpos) as [H1 H2]. unfold scaled_up.
  assert (0 < 2 ^ (59 - Z.log2 n)) by (apply Z.pow_pos_nonneg; lia).
  replace (2 ^ 59) with (2 ^ Z.log2 n * 2 ^ (59 - Z.log2 n)) by (rewrite <- Z.pow_add_r by lia; f_equal; lia).
  replace (2 ^ 60) with (2 ^ Z.succ (Z.log2 n) * 2 ^ (59 - Z.log2 n)) by (rewrite <- Z.pow_add_r by lia; f_equal; lia).
  split; [by apply Z.mul_le_mono_nonneg_r; [lia|]|by apply Z.mul_lt_mono_pos_r].
Qed.

Definition quotient_loc : location :=
  if scaled_up mod 100 =? 0 then loc_Exact else loc_Inexact (2 * (scaled_up mod 100) ?= 100).

Lemma div_core :
  SFdiv_core_binary 53 1024 (n * 2 ^ (52 - Z.log2 n)) (Z.log2 n - 52) (100 * 2 ^ 46) (-46) =
  (scaled_up / 100, Z.log2 n - 59, quotient_loc).
Proof.
  pose proof log2_small as Hl. unfold SFdiv_core_binary.
  rewrite zdigits_mul_pow2 by lia. rewrite (zdigits_mul_pow2 100) by lia. change (Z.log2 100) with 6.
  replace (_ + _ - (6 + 1 + 46 + -46)) with (Z.log2 n - 6) by lia.
  unfold fexp, emin. rewrite Z.max_l by lia. rewrite Z.min_l by lia.
  replace (Z.log2 n - 52 - -46 - (Z.log2 n - 6 - 53)) with 53 by lia.
  rewrite Z.shiftl_mul_pow2 by lia.
  replace (n * 2 ^ (52 - Z.log2 n) * 2 ^ 53) with (scaled_up * 2 ^ 46).
  2: { unfold scaled_up. rewrite <- !Z.mul_assoc, <- !Z.pow_add_r by lia. do 2 f_equal. lia. }
  rewrite div_eucl_pair, Z.div_mul_cancel_r, Z.mul_mod_distr_r by lia. f_equal; [f_equal; lia|].
  unfold new_location. change (Z.even (100 * 2 ^ 46)) with true. cbv iota. unfold new_location_even, quotient_loc.
  pose proof (Z.mod_pos_bound scaled_up 100 ltac:(lia)).
  destruct (Z.eqb_spec (scaled_up mod 100) 0) as [->|]; [done|].
  rewrite (proj2 (Z.eqb_neq _ _)) by lia. f_equal.
  rewrite Z.mul_assoc, !(Z.mul_comm _ (2 ^ 46)). symmetry. by apply Zmult_compare_compat_l, Z.lt_gt.
Qed.

(** Rounding, after one bit is dropped when there are fifty-four *)
Lemma round_q : Z.abs (100 * round_nearest_even (scaled_up / 100) quotient_loc - scaled_up) ≤ 50.
Proof.
  pose proof (Z.mod_pos_bound scaled_up 100 ltac:(lia)). pose proof (Z.div_mod scaled_up 100 ltac:(lia)).
  unfold quotient_loc. destruct (Z.eqb_spec (scaled_up mod 100) 0); cbn [round_nearest_even]; [lia|].
  destruct (Z.compare_spec (2 * (scaled_up mod 100)) 100); [destruct (Z.even _)| |]; lia.
Qed.

Definition dropped_bit : shr_record := shr_1 (shr_record_of_loc (scaled_up / 100) quotient_loc).

Lemma shr_1_half m r s : 0 ≤ m → shr_1 (Build_shr_record m r s) = Build_shr_record (m / 2) (Z.odd m) (r || s).
Proof.
  intros Hm. destruct m as [|[p|p|]|]; try done; cbn [shr_1 Z.odd].
  - by rewrite (Pos2Z.inj_xI p), Z.mul_comm, Z.div_add_l, Z.add_0_r by lia.
  - by rewrite (Pos2Z.inj_xO p), Z.mul_comm, Z.div_mul by lia.
Qed.

Lemma dropped_bit_eq :
  dropped_bit = Build_shr_record (scaled_up / 100 / 2) (Z.odd (scaled_up / 100)) (negb (scaled_up mod 100 =? 0)).
Proof.
  pose proof scaled_up_bounds. assert (0 ≤ scaled_up / 100) by (apply Z.div_pos; lia).
  unfold dropped_bit, quotient_loc. destruct (scaled_up mod 100 =? 0); cbn [shr_record_of_loc]; [by rewrite shr_1_half|].
  destruct (_ ?= _); cbn [shr_record_of_loc]; by rewrite shr_1_half.
Qed.

Lemma round_half_q :
  Z.abs (200 * round_nearest_even (shr_m dropped_bit) (loc_of_shr_record dropped_bit) - scaled_up) ≤ 100.
Proof.
  rewrite dropped_bit_eq. cbn [shr_m]. set (q := scaled_up / 100).
  pose proof (Z.mod_pos_bound scaled_up 100 ltac:(lia)) as Hr. pose proof (Z.div_mod scaled_up 100 ltac:(lia)) as Hn.
  pose proof (Z.div_mod q 2 ltac:(lia)) as Hq. rewrite Zmod_odd in Hq. fold q in Hn.
  destruct (Z.odd q), (Z.eqb_spec (scaled_up mod 100) 0); cbn [negb loc_of_shr_record round_nearest_even];
    try destruct (Z.even _); lia.
Qed.

(** What rounding to an exponent makes of a mantissa that fits *)
Lemma finish M e :
  2 ^ 52 ≤ M ≤ 2 ^ 53 → -100 ≤ e ≤ 0 →
  ∃ m e', (let '(mrs, e1) := shr_fexp 53 1024 M e loc_Exact in
     match shr_m mrs with
     | Z0 => S754_zero false
     | Zpos m => if e1 <=? 1024 - 53 then S754_finite false m e1 else S754_infinity false
     | Zneg _ => S754_nan
     end) = S754_finite false m e' ∧
    2 ^ 52 ≤ Zpos m < 2 ^ 53 ∧ (e' = e ∧ Zpos m = M ∨ e' = e + 1 ∧ 2 * Zpos m = M).
Proof.
  intros HM He. unfold shr_fexp. cbn [shr_record_of_loc]. destruct (Z.eq_dec M (2 ^ 53)) as [->|Hne].
  - change (Zdigits2 (2 ^ 53)) with 54. unfold fexp, emin. rewrite Z.max_l by lia.
    replace (54 + e - 53 - e) with 1 by lia. change (2 ^ 53) with (2 ^ 52 * 2 ^ 1). rewrite shr_exact by lia. cbn [shr_m].
    rewrite (proj2 (Z.leb_le _ _)) by lia. exists (2 ^ 52)%positive, (e + 1). split; [done|]. split; [lia|]. by right.
  - destruct M as [|p|p]; [lia| |lia]. rewrite zdigits_pos by lia. rewrite (Z.log2_unique _ 52) by lia.
    unfold fexp, emin. rewrite Z.max_l by lia. replace (52 + 1 + e - 53 - e) with 0 by lia. cbn [shr shr_m].
    rewrite (proj2 (Z.leb_le _ _)) by lia. exists p, e. split; [done|]. split; [lia|]. by left.
Qed.

Lemma quotient_bounds : 2 ^ 52 < scaled_up / 100 < 2 ^ 54 - 2.
Proof.
  pose proof scaled_up_bounds. split; [apply (Z.lt_le_trans _ (2 ^ 52 + 1)); [lia|apply Z.div_le_lower_bound; lia]|apply Z.div_lt_upper_bound; lia].
Qed.

Lemma percent_finite :
  ∃ m e, percent n = S754_finite false m e ∧ 2 ^ 52 ≤ Zpos m < 2 ^ 53 ∧ -59 ≤ e ≤ -8 ∧
    Z.abs (100 * Zpos m - n * 2 ^ (- e)) ≤ 50.
Proof.
  pose proof log2_small as Hl. pose proof quotient_bounds as Hq. assert (0 < scaled_up / 100) by lia.
  assert (Hn2 : scaled_up = 2 * (n * 2 ^ (58 - Z.log2 n))).
  { unfold scaled_up. replace (59 - Z.log2 n) with (Z.succ (58 - Z.log2 n)) by lia. rewrite Z.pow_succ_r by lia. lia. }
  unfold percent. rewrite !f64_of_int_exact by (unfold exact; lia). rewrite (f64_canon_pos n) by done.
  change (f64_canon 100) with (S754_finite false (Z.to_pos (100 * 2 ^ 46)) (-46)).
  assert (0 < n * 2 ^ (52 - Z.log2 n)) by (apply Z.mul_pos_pos; [done|apply Z.pow_pos_nonneg; lia]).
  unfold f64_div. cbn [SFdiv xorb]. rewrite !Z2Pos.id by done. rewrite div_core. unfold binary_round_aux.
  unfold shr_fexp at 1. rewrite zdigits_pos by done. unfold fexp, emin.
  destruct (Z.lt_ge_cases (scaled_up / 100) (2 ^ 53)) as [Hd|Hd].
  - rewrite (Z.log2_unique (scaled_up / 100) 52) by lia. rewrite Z.max_l by lia.
    replace (52 + 1 + _ - 53 - _) with 0 by lia. cbn [shr].
    pose proof round_q as Hr.
    assert (Hloc : shr_m (shr_record_of_loc (scaled_up / 100) quotient_loc) = scaled_up / 100 ∧
      loc_of_shr_record (shr_record_of_loc (scaled_up / 100) quotient_loc) = quotient_loc).
    { unfold quotient_loc. destruct (_ =? _); [done|]. by destruct (_ ?= _). }
    destruct Hloc as [-> ->]. set (M := round_nearest_even _ _) in *.
    pose proof (round_nearest_even_bounds (scaled_up / 100) quotient_loc : _ ≤ M ≤ _).
    destruct (finish M (Z.log2 n - 59)) as (m & e' & -> & Hm & He); [lia..|]. exists m, e'. split; [done|].
    split; [done|]. destruct He as [[-> Hv]|[-> Hv]]; (split; [lia|]).
    + replace (- (Z.log2 n - 59)) with (59 - Z.log2 n) by lia. fold scaled_up. lia.
    + replace (- (Z.log2 n - 59 + 1)) with (58 - Z.log2 n) by lia. lia.
  - rewrite (Z.log2_unique (scaled_up / 100) 53) by lia. rewrite Z.max_l by lia.
    replace (53 + 1 + _ - 53 - _) with 1 by lia. cbn [shr SpecFloat.iter_pos]. fold dropped_bit.
    pose proof round_half_q as Hr. set (M := round_nearest_even _ _) in *.
    assert (scaled_up / 100 / 2 ≤ M ≤ scaled_up / 100 / 2 + 1).
    { unfold M. rewrite dropped_bit_eq. apply round_nearest_even_bounds. }
    assert (2 ^ 52 ≤ scaled_up / 100 / 2 < 2 ^ 53 - 1) by (split; [apply Z.div_le_lower_bound|apply Z.div_lt_upper_bound]; lia).
    destruct (finish M (Z.log2 n - 59 + 1)) as (m & e' & -> & Hm & He); [lia..|]. exists m, e'. split; [done|].
    split; [done|]. destruct He as [[-> Hv]|[-> Hv]]; [|exfalso; lia]. split; [lia|].
    replace (- (Z.log2 n - 59 + 1)) with (58 - Z.log2 n) by lia. lia.
Qed.
End quotient.

Lemma percent_zero : percent 0 = S754_zero false.
Proof. done. Qed.

(** ** What is printed *)
Lemma half_even_near a d h : 0 < d → 2 * Z.abs (a - h * d) < d → half_even a d = h.
Proof.
  intros Hd Ha. unfold half_even. pose proof (Z.div_mod a d ltac:(lia)). pose proof (Z.mod_pos_bound a d Hd).
  assert (Hc : a / d = h ∨ a / d = h - 1) by nia.
  destruct Hc as [Hc|Hc]; rewrite Hc in *; [rewrite (proj2 (Z.compare_lt_iff _ _)) by nia; done|].
  rewrite (proj2 (Z.compare_gt_iff _ _)) by nia. lia.
Qed.

(** Two decimals of the quotient are the hundredths it was made from. *)
Lemma hundredths_percent n : 0 ≤ n < 2 ^ 51 → hundredths (percent n) = n.
Proof.
  intros Hn. destruct (Z.eq_dec n 0) as [->|]; [done|].
  destruct (percent_finite n) as (m & e & -> & _ & He & Hv); [lia..|]. cbn [hundredths].
  rewrite (proj2 (Z.leb_gt _ _)) by lia. apply half_even_near; [apply Z.pow_pos_nonneg; lia|].
  assert (2 ^ 8 ≤ 2 ^ (- e)) by (apply Z.pow_le_mono_r; lia). rewrite (Z.mul_comm _ 100). lia.
Qed.

Lemma show_percent n : 0 ≤ n < 2 ^ 51 → show_f64_2 (percent n) = show_hundredths n.
Proof. intros Hn. unfold show_f64_2. by rewrite hundredths_percent. Qed.

(** ** How quotients compare *)
Lemma canonical_lt m1 e1 m2 e2 :
  2 ^ 52 ≤ Zpos m1 < 2 ^ 53 → 2 ^ 52 ≤ Zpos m2 < 2 ^ 53 → -59 ≤ e1 → -59 ≤ e2 →
  Zpos m1 * 2 ^ (e1 + 59) < Zpos m2 * 2 ^ (e2 + 59) →
  SFcompare (S754_finite false m1 e1) (S754_finite false m2 e2) = Some Lt.
Proof.
  intros H1 H2 He1 He2 Hlt. cbn [SFcompare]. f_equal. destruct (Z.compare_spec e1 e2) as [->|He|He]; [|done|exfalso].
  - apply (Z.compare_lt_iff (Zpos m1) (Zpos m2)). apply Z.mul_lt_mono_pos_r in Hlt; [done|apply Z.pow_pos_nonneg; lia].
  - assert (2 ^ (e1 + 59) = 2 * 2 ^ (e1 + 58)).
    { replace (e1 + 59) with (Z.succ (e1 + 58)) by lia. by rewrite Z.pow_succ_r by lia. }
    assert (2 ^ (e2 + 59) ≤ 2 ^ (e1 + 58)) by (apply Z.pow_le_mono_r; lia).
    assert (0 < 2 ^ (e2 + 59)) by (apply Z.pow_pos_nonneg; lia). nia.
Qed.

Lemma percent_lt a b : 0 ≤ a < b → b < 2 ^ 51 → SFcompare (percent a) (percent b) = Some Lt.
Proof.
  intros Hab Hb. destruct (percent_finite b) as (m2 & e2 & -> & H2 & He2 & Hv2); [lia..|].
  destruct (Z.eq_dec a 0) as [->|]; [done|]. destruct (percent_finite a) as (m1 & e1 & -> & H1 & He1 & Hv1); [lia..|].
  apply canonical_lt; try lia.
  (* both sides are near a hundredth of their number *)
  set (u := 2 ^ (e1 + 59)). set (v := 2 ^ (e2 + 59)).
  assert (Hu : 2 ^ (- e1) * u = 2 ^ 59) by (unfold u; rewrite <- Z.pow_add_r by lia; f_equal; lia).
  assert (Hv : 2 ^ (- e2) * v = 2 ^ 59) by (unfold v; rewrite <- Z.pow_add_r by lia; f_equal; lia).
  assert (0 < u ≤ 2 ^ 51) by (split; [apply Z.pow_pos_nonneg|apply Z.pow_le_mono_r]; lia).
  assert (0 < v ≤ 2 ^ 51) by (split; [apply Z.pow_pos_nonneg|apply Z.pow_le_mono_r]; lia).
  assert (100 * (Zpos m1 * u) ≤ a * 2 ^ 59 + 50 * u) by (rewrite <- Hu; nia).
  assert (b * 2 ^ 59 - 50 * v ≤ 100 * (Zpos m2 * v)) by (rewrite <- Hv; nia).
  nia.
Qed.

Lemma percent_compare a b : 0 ≤ a < 2 ^ 51 → 0 ≤ b < 2 ^ 51 → SFcompare (percent a) (percent b) = Some (a ?= b).
Proof.
  intros Ha Hb. destruct (Z.compare_spec a b) as [->|Hlt|Hgt].
  - destruct (Z.eq_dec b 0) as [->|]; [done|]. destruct (percent_finite b) as (m & e & -> & _); [lia..|].
    cbn [SFcompare]. rewrite Z.compare_refl. change (Pos.compare_cont Eq) with Pos.compare. by rewrite Pos.compare_refl.
  - apply percent_lt; lia.
  - pose proof (percent_lt b a) as Hl. destruct (Z.eq_dec b 0) as [->|].
    { destruct (percent_finite a) as (m & e & -> & _); [lia..|]. done. }
    destruct (percent_finite a) as (m1 & e1 & E1 & _); [lia..|]. destruct (percent_finite b) as (m2 & e2 & E2 & _); [lia..|].
    rewrite E1, E2 in Hl |- *. specialize (Hl ltac:(lia) ltac:(lia)). cbn [SFcompare] in Hl |- *. injection Hl as Hl. f_equal.
    rewrite Z.compare_antisym. destruct (e2 ?= e1); cbn [CompOpp]; try done.
    change (Pos.compare_cont Eq) with Pos.compare in *. by rewrite Pos.compare_antisym, Hl.
Qed.

Lemma percent_geb a b : 0 ≤ a < 2 ^ 51 → 0 ≤ b < 2 ^ 51 → f64_geb (percent a) (percent b) = (b <=? a).
Proof. intros Ha Hb. unfold f64_geb, SFleb. rewrite percent_compare by done. unfold Z.leb. by destruct (b ?= a). Qed.
