(* ===== verification/ReauthTally.v ===== *)
(** * tools/txs/src/txs_cli_community.rs: the report of a reauthorization poll

    The view of a poll is nine values: percentages in hundredths, the deadline,
    and flags.  The report divides by 100.0, compares and prints in binary64.
    Each line is the text of one [println!]. *)
From Stdlib Require Import ZArith Lia.
From stdpp Require Import base option list strings.
From S2P Require Import Prelude RustStr Json F64 Percent.

Open Scope list_scope.
Open Scope Z_scope.

(** [v.as_str().and_then(|s| s.parse::<u64>().ok()).unwrap_or(0)] and
    [v.as_bool().unwrap_or(false)] *)
Definition u64_of (v : json) : Z :=
  default 0 (s ← as_str v; match parse_u64 s with Ok n => Some n | _ => None end).
Definition bool_of (v : json) : bool := default false (as_bool v).

Definition yes_no (b : bool) : string := if b then "Yes" else "No".
Definition status_str (status_enum : Z) : string :=
  if status_enum =? 0 then "Pending" else if status_enum =? 1 then "Approved"
  else if status_enum =? 2 then "Rejected" else "Unknown".

(** The lines on which of the two requirements is missed *)
Definition both_below (pa tp th mt : string) : string :=
  "                     • Both approval rate (" +:+ pa +:+ "% < " +:+ th +:+ "%) and turnout (" +:+ tp +:+ "% < "
    +:+ mt +:+ "%) below thresholds".
Definition approval_low (pa th : string) : string :=
  "                     • Approval rate too low: " +:+ pa +:+ "% (threshold: " +:+ th +:+ "%)".
Definition turnout_low (tp mt : string) : string :=
  "                     • Voter turnout too low: " +:+ tp +:+ "% (minimum: " +:+ mt +:+ "%)".
Definition unknown_reason : string := "                     • Unknown reason (possible logic error in tally)".

Definition tally_head (pa tp th mt : string) (epoch_deadline : Z) (status : string) (is_complete ballot_completed : bool)
    : list string :=
  [ String (Ascii.ascii_of_nat 10) "Reauthorization Poll Status:"; "------------------------------";
    "Approval Rate:       " +:+ pa +:+ "%"; "Voter Turnout:       " +:+ tp +:+ "%";
    "Approval Threshold:  " +:+ th +:+ "%"; "Minimum Turnout:     " +:+ mt +:+ "%";
    "Epoch Deadline:      " +:+ show_uint epoch_deadline; "Ballot Status:       " +:+ status;
    "Poll Complete:       " +:+ yes_no is_complete; "Ballot Completed:    " +:+ yes_no ballot_completed ]%string.

Definition display_reauth_tally_results (res : json) : list string :=
  match as_array res with
  | Some (a0 :: a1 :: a2 :: a3 :: a4 :: a5 :: a6 :: a7 :: a8 :: _) =>
      let percent_approval := percent (u64_of a0) in
      let turnout_percent := percent (u64_of a1) in
      let threshold_needed := percent (u64_of a2) in
      let epoch_deadline := u64_of a3 in
      let min_turnout_required := percent (u64_of a4) in
      let approved := bool_of a5 in
      let is_complete := bool_of a6 in
      let status_enum := u64_of a7 in
      let ballot_completed := bool_of a8 in
      let pa := show_f64_2 percent_approval in
      let tp := show_f64_2 turnout_percent in
      let th := show_f64_2 threshold_needed in
      let mt := show_f64_2 min_turnout_required in
      let approval_passing := f64_geb percent_approval threshold_needed in
      let turnout_passing := f64_geb turnout_percent min_turnout_required in
      tally_head pa tp th mt epoch_deadline (status_str status_enum) is_complete ballot_completed ++
      (if is_complete then
         ("Result:              " +:+ (if approved then "APPROVED" else "REJECTED"))%string ::
         (if negb approved then
            "Rejection Reason:    "%string ::
            (if negb approval_passing && negb turnout_passing then [both_below pa tp th mt]
             else if negb approval_passing then [approval_low pa th]
             else if negb turnout_passing then [turnout_low tp mt]
             else [unknown_reason])
          else [])
       else if approval_passing && turnout_passing then ["Current Status:      On track to PASS"%string]
       else
         "Current Status:      Not passing requirements"%string ::
         (if negb approval_passing && negb turnout_passing then [both_below pa tp th mt]
          else if negb approval_passing then [approval_low pa th]
          else [turnout_low tp mt]))
  | Some arr =>
      [("Unexpected response format from reauth tally view - expected 9 values but received " +:+
         show_uint (Z.of_nat (length arr)) +:+ ". The server may be running an outdated version.")%string]
  | None => []
  end.

(** ** Specification: the report in whole hundredths *)
Record Tally := mk_tally {
  approval_pct : Z;
  turnout_pct : Z;
  required_threshold : Z;
  deadline_epoch : Z;
  minimum_turnout : Z;
  poll_approved : bool;
  poll_closed : bool;
  poll_completed : bool
}.

(** The values of the view; the status is left open. *)
Definition tally_values (t : Tally) (status : json) : list json :=
  (JString ∘ show_uint <$> [approval_pct t; turnout_pct t; required_threshold t; deadline_epoch t; minimum_turnout t]) ++
  [JBool (poll_approved t); JBool (poll_closed t); status; JBool (poll_completed t)].

Definition tally_wf (t : Tally) : Prop :=
  Forall (λ n, 0 ≤ n < 2 ^ 51) [approval_pct t; turnout_pct t; required_threshold t; minimum_turnout t] ∧ is_u64 (deadline_epoch t).

Inductive verdict : Set := Missed_both | Missed_approval | Missed_turnout | Missed_none.
Definition judged (t : Tally) : verdict :=
  match decide (required_threshold t ≤ approval_pct t), decide (minimum_turnout t ≤ turnout_pct t) with
  | left _, left _ => Missed_none
  | left _, right _ => Missed_turnout
  | right _, left _ => Missed_approval
  | right _, right _ => Missed_both
  end.
Definition missed_line (t : Tally) (v : verdict) : string :=
  let pct n := show_hundredths (n t) in
  match v with
  | Missed_both => both_below (pct approval_pct) (pct turnout_pct) (pct required_threshold) (pct minimum_turnout)
  | Missed_approval => approval_low (pct approval_pct) (pct required_threshold)
  | Missed_turnout => turnout_low (pct turnout_pct) (pct minimum_turnout)
  | Missed_none => unknown_reason
  end.
Definition outcome_lines (t : Tally) : list string :=
  match poll_closed t, poll_approved t, judged t with
  | true, true, _ => ["Result:              APPROVED"]
  | true, false, v => ["Result:              REJECTED"; "Rejection Reason:    "; missed_line t v]
  | false, _, Missed_none => ["Current Status:      On track to PASS"]
  | false, _, v => ["Current Status:      Not passing requirements"; missed_line t v]
  end%string.
Definition tally_report (t : Tally) (status : string) : list string :=
  let pct n := show_hundredths (n t) in
  tally_head (pct approval_pct) (pct turnout_pct) (pct required_threshold) (pct minimum_turnout) (deadline_epoch t) status (poll_closed t) (poll_completed t)
  ++ outcome_lines t.

(** ** Lemmas *)
Lemma u64_of_show n : is_u64 n → u64_of (JString (show_uint n)) = n.
Proof. intros Hn. unfold u64_of. cbn [as_str mbind option_bind]. by rewrite parse_u64_show. Qed.

Lemma hundredths_u64 n : 0 ≤ n < 2 ^ 51 → is_u64 n.
Proof. unfold is_u64, u64_max. lia. Qed.

(** A status that is a number in the JSON is not read. *)
Lemma status_of_number n : status_str (u64_of (JNumber n)) = "Pending"%string.
Proof. done. Qed.
Lemma status_of_string n : is_u64 n → status_str (u64_of (JString (show_uint n))) = status_str n.
Proof. intros Hn. by rewrite u64_of_show. Qed.

(** Computing in binary64 gives the report in whole hundredths. *)
Lemma display_report t status rest :
  tally_wf t →
  display_reauth_tally_results (JArray (tally_values t status ++ rest)) = tally_report t (status_str (u64_of status)).
Proof.
  intros [Hp Hd]. rewrite !Forall_cons in Hp. destruct Hp as (Ha & Ht & Hth & Hm & _).
  unfold display_reauth_tally_results, tally_values. cbn [as_array fmap list_fmap app compose].
  rewrite !u64_of_show by (done || by apply hundredths_u64). rewrite !show_percent, !percent_geb by done.
  unfold tally_report, outcome_lines, judged. cbn [bool_of as_bool default from_option].
  f_equal. destruct (poll_closed t), (poll_approved t); cbn [negb]; try done.
  all: destruct (decide (required_threshold t ≤ approval_pct t)) as [H1|H1], (decide (minimum_turnout t ≤ turnout_pct t)) as [H2|H2];
    rewrite ?(proj2 (Z.leb_le _ _) H1), ?(proj2 (Z.leb_le _ _) H2), ?(proj2 (Z.leb_nle _ _) H1), ?(proj2 (Z.leb_nle _ _) H2);
    done.
Qed.

(** Fewer values are not read at all. *)
Lemma display_short l :
  (length l < 9)%nat → ∃ line, display_reauth_tally_results (JArray l) = [line].
Proof.
  intros Hl. unfold display_reauth_tally_results. cbn [as_array].
  do 9 (destruct l as [|? l]; [by eexists|cbn [length] in Hl]). lia.
Qed.

(** A poll at 66.67% of 51% with a turnout of 8.05% of 12.5% *)
Definition sample_tally : Tally := mk_tally 6667 805 5100 40 1250 false false false.
Example sample_report :
  drop 10 (display_reauth_tally_results (JArray (tally_values sample_tally (JNumber "0")))) =
  ["Current Status:      Not passing requirements";
   "                     • Voter turnout too low: 8.05% (minimum: 12.50%)"]%string.
Proof. vm_compute. reflexivity. Qed.

(** The status of an approved poll, a number in the view, is shown as pending. *)
Example approved_is_pending :
  display_reauth_tally_results (JArray (tally_values (mk_tally 10000 10000 5100 40 1250 true true true) (JNumber "1"))) !! 7%nat =
  Some "Ballot Status:       Pending"%string.
Proof. vm_compute. reflexivity. Qed.
