(* ===== verification/Effects.v ===== *)
(** * Effects: state that survives an error

    A computation on a state that may fail or panic leaves the state as it was
    at that moment; [attempt] is a [match] on the result, which a panic
    escapes. *)
From Stdlib Require Import ZArith Lia.
From stdpp Require Import base option list strings.
From S2P Require Import Prelude.

Open Scope Z_scope.

Definition st (S A : Type) : Type := S → S * outcome A.

#[export] Instance st_ret {S : Type} : MRet (st S) := fun A a s => (s, Ok a).
#[export] Instance st_bind {S : Type} : MBind (st S) := fun A B f m s =>
  match m s with
  | (s', Ok a) => f a s'
  | (s', Err e) => (s', Err e)
  | (s', Panic p) => (s', Panic p)
  end.
Definition st_lift {S A : Type} (r : outcome A) : st S A := fun s => (s, r).
Definition st_result {S A B : Type} (f : outcome A → outcome B) (m : st S A) : st S B := fun s =>
  let '(s', r) := m s in (s', f r).
(** [match m { Ok(..) => .., Err(..) => .. }] *)
Definition attempt {S A : Type} (m : st S A) : st S (outcome A) := fun s =>
  match m s with
  | (s', Panic p) => (s', Panic p)
  | (s', r) => (s', Ok r)
  end.
Definition st_get {S : Type} : st S S := fun s => (s, Ok s).
Definition st_put {S : Type} (s : S) : st S unit := fun _ => (s, Ok tt).
(** A computation on the second part of the state *)
Definition on_snd {R S A : Type} (m : st S A) : st (R * S) A := fun '(r, s) =>
  let '(s', a) := m s in ((r, s'), a).

(** [for x in xs { f(x)?; }] *)
Fixpoint st_iter {S A : Type} (f : A → st S unit) (l : list A) : st S unit :=
  match l with
  | [] => mret tt
  | x :: l' => _ ← f x; st_iter f l'
  end.

(** ** Lemmas *)
Lemma st_bind_ok {S A B : Type} (m : st S A) (f : A → st S B) s s' b :
  (m ≫= f) s = (s', Ok b) ↔ ∃ s1 a, m s = (s1, Ok a) ∧ f a s1 = (s', Ok b).
Proof.
  unfold mbind, st_bind. destruct (m s) as [s1 [a|e|p]]; naive_solver.
Qed.

Lemma st_bind_run {S A B : Type} (m : st S A) (f : A → st S B) s s1 a :
  m s = (s1, Ok a) → (m ≫= f) s = f a s1.
Proof. unfold mbind, st_bind. by intros ->. Qed.

Lemma st_lift_bind {S A B : Type} (a : A) (f : A → st S B) s : (st_lift (Ok a) ≫= f) s = f a s.
Proof. done. Qed.

(** What a computation does to the state, whatever its result *)
Definition steps {S A : Type} (R : relation S) (m : st S A) : Prop := ∀ s, R s (fst (m s)).

Section steps.
Context {S : Type} (R : relation S) `{!PreOrder R}.

Lemma steps_lift {A : Type} (r : outcome A) : steps R (st_lift r).
Proof. intros s. by cbn. Qed.
Lemma steps_ret {A : Type} (a : A) : steps R (mret a).
Proof. intros s. by cbn. Qed.
Lemma steps_bind {A B : Type} (m : st S A) (f : A → st S B) : steps R m → (∀ a, steps R (f a)) → steps R (m ≫= f).
Proof.
  intros Hm Hf s. specialize (Hm s). revert Hm. unfold mbind, st_bind.
  destruct (m s) as [s1 [a|e|p]]; cbn; intros Hm; [|done..]. etrans; [exact Hm|apply Hf].
Qed.
Lemma steps_result {A B : Type} (f : outcome A → outcome B) (m : st S A) : steps R m → steps R (st_result f m).
Proof. intros Hm s. specialize (Hm s). revert Hm. unfold st_result. by destruct (m s). Qed.
Lemma steps_attempt {A : Type} (m : st S A) : steps R m → steps R (attempt m).
Proof. intros Hm s. specialize (Hm s). revert Hm. unfold attempt. by destruct (m s) as [s' []]. Qed.
Lemma steps_iter {A : Type} (f : A → st S unit) l : (∀ x, steps R (f x)) → steps R (st_iter f l).
Proof. intros Hf. induction l as [|x l IH]; cbn [st_iter]; [apply steps_ret|by apply steps_bind]. Qed.
End steps.

Create HintDb effects.
#[export] Hint Resolve steps_lift steps_ret steps_bind steps_result steps_attempt steps_iter : effects.

(** Goes through a computation, down to the calls the database knows *)
Ltac st_steps :=
  repeat first
    [ apply steps_lift; apply _
    | apply steps_ret; apply _
    | apply steps_bind; [apply _| |intros ?]
    | apply steps_result
    | apply steps_attempt ];
  auto with effects.
(** Goes through a command, every case of it *)
Ltac st_all :=
  st_steps; repeat (match goal with |- steps _ (match ?x with _ => _ end) => destruct x end; st_steps).
