(* ===== verification/Node.v ===== *)
(** * The node's API and the queries

    types/src/type_extensions/client_ext.rs and tools/query.  The node answers
    each request by what it has been asked before, so nothing is assumed of the
    chain behind it; the history of requests and the files are the state of the
    tools. *)
From Stdlib Require Import ZArith Lia Ascii.
From stdpp Require Import base option list strings gmap.
From S2P Require Import Prelude RustStr Json Effects Bytes FileSystem MoveTypes Compare GasCoin.

Open Scope list_scope.
Open Scope Z_scope.

(** ** Transactions, the types of the diem crates *)

(** A transaction argument before its BCS encoding *)
Inductive Arg :=
| ArgU8 (n : Z) | ArgU64 (n : Z) | ArgBool (b : bool) | ArgAddress (a : AccountAddress)
| ArgBytes (bs : bytes) | ArgBytesList (l : list bytes) | ArgAddresses (l : list AccountAddress)
| ArgOther (bs : bytes).
Notation TypeTag := string.
Record EntryFunction := mk_entry {
  ef_module : AccountAddress * string;
  ef_function : string;
  ef_ty_args : list TypeTag;
  ef_args : list Arg
}.
Record Script := mk_script { sc_code : bytes; sc_ty_args : list TypeTag; sc_args : list Arg }.
Inductive TransactionPayload := PayloadScript (s : Script) | PayloadEntry (e : EntryFunction).
(** [TransactionBuilder], and the transaction it builds for a sender *)
Record TransactionBuilder := mk_builder {
  tb_payload : TransactionPayload;
  tb_expiration : Z;
  tb_chain_id : Z;
  tb_gas_unit_price : Z;
  tb_max_gas_amount : Z
}.
Record RawTransaction := mk_raw { raw_sender : AccountAddress; raw_sequence_number : Z; raw_body : TransactionBuilder }.
Record SignedTransaction := mk_signed { raw_txn : RawTransaction; authenticator : bytes }.
Record LocalAccount := mk_local { la_address : AccountAddress; la_private_key : bytes; la_sequence_number : Z }.

Inductive ExecutionStatus := StatusSuccess | StatusMiscellaneousError | StatusOther (bs : bytes).
Record TransactionOnChainData := mk_on_chain { oc_transaction_hash : bytes; oc_status : ExecutionStatus }.
Record UserTransaction := mk_user_tx { ut_success : bool; ut_gas_used : Z }.

#[export] Instance arg_eq_dec : EqDecision Arg. Proof. solve_decision. Defined.
#[export] Instance entry_eq_dec : EqDecision EntryFunction. Proof. solve_decision. Defined.
#[export] Instance script_eq_dec : EqDecision Script. Proof. solve_decision. Defined.
#[export] Instance payload_eq_dec : EqDecision TransactionPayload. Proof. solve_decision. Defined.

(** ** The node *)
Inductive request :=
| GetLedgerInfo
| GetIndex
| GetView (function_id : string) (ty_args : list TypeTag) (args : list json)
| GetResource (account : AccountAddress) (resource_type : string)
| GetAccount (account : AccountAddress)
| GetEvents (account : AccountAddress) (event_handle field_name : string) (start : option Z)
| GetTransactions (account : AccountAddress) (start limit : option Z)
| GetLatestVersion
| AnnotateState (account : AccountAddress) (version : Z)
| PostTransaction (t : SignedTransaction)
| WaitTransaction (pending : bytes)
| Simulate (t : SignedTransaction).

(** The client gives a value or an error. *)
Definition reply (A : Type) : Type := (A + string)%type.
Definition of_reply {A : Type} (r : reply A) : outcome A := match r with inl a => Ok a | inr e => Err e end.

(** Every answer is a function of the requests up to and including the one
    answered, and so is the clock; then the parsers of the diem crates. *)
Class RestNode := {
  now : list request → Z;
  ans_ledger_info : list request → reply unit;
  ans_index : list request → reply Z;
  ans_view : list request → reply (list json);
  ans_resource : list request → reply (option json);
  ans_account : list request → reply bytes;
  ans_submit : list request → reply bytes;
  ans_wait : list request → reply TransactionOnChainData;
  ans_simulate : list request → reply (list UserTransaction);
  entry_function_id_from_str : string → outcome string;
  parse_type_tags : string → outcome (list TypeTag);
  account_sequence_number : json → outcome Z;
  address_from_value : json → outcome AccountAddress
}.

Record world := mk_world { w_history : list request; w_files : file_system }.

Section node.
Context `{RestNode}.

Definition ask {A : Type} (r : request) (ans : list request → reply A) : st world A := fun w =>
  let h := w_history w ++ [r] in (mk_world h (w_files w), of_reply (ans h)).

(** ** client_ext.rs *)
Definition DEFAULT_TIMEOUT_SECS : Z := 10.

Definition entry_function_id (module_name function_name : string) : outcome string :=
  context_res "Invalid function id" (entry_function_id_from_str ("0x1::" +:+ module_name +:+ "::" +:+ function_name)).

Definition view_ext (function_id : string) (ty_args args : option string) : st world json :=
  f ← st_lift (context_res "Invalid function id" (entry_function_id_from_str function_id));
  ty_args ← st_lift match ty_args with
                    | Some t => context_res "Unable to parse the type argument(s)" (parse_type_tags t)
                    | None => Ok []
                    end;
  let args := match args with
              | Some a => (fun arg => JString (trim arg)) <$> split_char "," a
              | None => []
              end in
  array ← ask (GetView f ty_args args) ans_view;
  mret (JArray array).
Definition get_view : string → option string → option string → st world json := view_ext.

Definition get_sequence_number (account : AccountAddress) : st world Z :=
  res ← st_result (context_res "Failed to get account resource")
          (ask (GetResource account "0x1::account::Account") ans_resource);
  st_lift match res with
          | Some data => account_sequence_number data
          | None => Err "No data returned for the sequence number"
          end.

(** [res[0]] *)
Definition first_value (res : list json) : outcome json := expect_opt "index out of bounds" (head res).
Definition lookup_originating_address (auth_key_text : string) : st world AccountAddress :=
  f ← st_lift (entry_function_id "account" "get_originating_address");
  res ← ask (GetView f [] [JString auth_key_text]) ans_view;
  v ← st_lift (first_value res);
  st_lift (address_from_value v).

(** ** chain_queries.rs *)
Definition first_string (v : json) : outcome (option string) := head <$> vec_from_value string_from_value v.

Definition get_epoch : st world Z :=
  res ← get_view "0x1::reconfiguration::get_current_epoch" None None;
  value ← st_lift (first_string res);
  s ← st_lift (expect_opt "called `Option::unwrap()` on a `None` value" value);
  st_lift (parse_u64 s).
Definition get_height : st world Z :=
  res ← get_view "0x1::block::get_current_block_height" None None;
  value ← st_lift (first_string res);
  s ← st_lift (expect_opt "called `Option::unwrap()` on a `None` value" value);
  st_lift (parse_u64 s).
Definition get_next_governance_proposal_id : st world Z :=
  res ← get_view "0x1::diem_governance::get_next_governance_proposal_id" None None;
  value ← st_lift (first_string res);
  s ← st_lift (context_opt "could not get a response from view function get_next_governance_proposal_id" value);
  st_lift (parse_u64 s).
Definition can_gov_proposal_resolve (id : Z) : st world bool :=
  res ← get_view "0x1::diem_governance::get_can_resolve" None (Some (show_uint id));
  st_lift (context_res "cannot parse api res" (bool_from_value res)).
Definition is_gov_proposal_resolved (id : Z) : st world bool :=
  res ← get_view "0x1::diem_governance::is_resolved" None (Some (show_uint id));
  value ← st_lift (vec_from_value bool_from_value res);
  st_lift (context_opt "could not get a response from view function is_resolved" (head value)).
Definition epoch_over_can_trigger : st world bool :=
  res ← get_view "0x1::epoch_boundary::can_trigger" None None;
  value ← st_lift (vec_from_value bool_from_value res);
  st_lift (expect_opt "index out of bounds" (head value)).

(** ** account_queries.rs *)
Context `{DiemAddress}.

(** A view of one account *)
Definition account_view (module_name function_name : string) (account : AccountAddress) : st world (list json) :=
  f ← st_lift (entry_function_id module_name function_name);
  ask (GetView f [] [JString (addr_to_string account)]) ans_view.

Definition get_account_balance_libra (account : AccountAddress) : st world SlowWalletBalance :=
  res ← account_view "ol_account" "balance" account;
  st_lift (balance_from_value res).
Definition is_community_wallet_migrated (account : AccountAddress) : st world json :=
  res ← account_view "community_wallet" "qualifies" account;
  mret (JArray res).
Definition community_wallet_signers (account : AccountAddress) : st world json :=
  res ← account_view "multi_action" "get_authorities" account;
  mret (JArray res).
Definition multi_auth_ballots (multi_auth_account : AccountAddress) : st world json :=
  r ← ask (GetResource multi_auth_account "0x1::multi_action::Action<0x1::donor_voice_txs::Payment>") ans_resource;
  st_lift (expect_opt "called `Option::unwrap()` on a `None` value" r).

(** A number that the VM returns as a string or as a number *)
Definition u64_from_response (v : json) : outcome Z :=
  match v with
  | JString s => parse_u64 s
  | JNumber n => context_res "Invalid number format" (parse_u64 n)
  | _ => Err "Unexpected response type"
  end.
(** The first value of a view *)
Definition u64_view (module_name function_name : string) (account : AccountAddress) : st world Z :=
  res ← account_view module_name function_name account;
  v ← st_lift (context_opt "No values returned" (head res));
  st_lift (u64_from_response v).
Definition page_rank_get_cached_score : AccountAddress → st world Z := u64_view "page_rank_lazy" "get_cached_score".
Definition vouch_limits_calculate_score_limit : AccountAddress → st world Z :=
  u64_view "vouch_limits" "calculate_score_limit".
Definition vouch_limits_get_vouch_limit : AccountAddress → st world Z := u64_view "vouch_limits" "get_vouch_limit".
Definition page_rank_calculate_score (account : AccountAddress) : st world (Z * Z * Z) :=
  res ← account_view "page_rank_lazy" "calculate_score" account;
  match res with
  | [a; b; c] =>
      score ← st_lift (u64_from_response a);
      max_depth_reached ← st_lift (u64_from_response b);
      accounts_processed ← st_lift (u64_from_response c);
      mret (score, max_depth_reached, accounts_processed)
  | _ => st_lift (Err "Expected 3 values from calculate_score")
  end.

Record AccountVouchReportData := mk_report {
  rp_account : string;
  cached_score : option Z;
  fresh_score : option Z;
  max_depth_reached : option Z;
  accounts_processed : option Z;
  max_vouches_by_score : option Z;
  remaining_vouches_available : option Z;
  rp_errors : list string
}.
(** [match r { Ok(v) => Some(v), Err(e) => { errors.push(..); None } }] *)
Definition value_of {A : Type} (r : outcome A) : option A := match r with Ok a => Some a | _ => None end.
Definition error_of {A : Type} (what : string) (r : outcome A) : list string :=
  match r with Err e => [what +:+ ": " +:+ e] | _ => [] end.
Definition account_vouch_report (account : AccountAddress) : st world AccountVouchReportData :=
  c ← attempt (page_rank_get_cached_score account);
  f ← attempt (page_rank_calculate_score account);
  m ← attempt (vouch_limits_calculate_score_limit account);
  r ← attempt (vouch_limits_get_vouch_limit account);
  let fv := value_of f in
  mret (mk_report (addr_to_string account) (value_of c) ((λ x, x.1.1) <$> fv) ((λ x, x.1.2) <$> fv) (snd <$> fv)
          (value_of m) (value_of r)
          (error_of "cached_score" c ++ error_of "fresh_score" f ++ error_of "max_vouches_by_score" m
           ++ error_of "remaining_vouches_available" r)).

(** ** Lemmas *)

(** Asking leaves the files alone and the history grows. *)
Definition asked (w w' : world) : Prop := w_files w' = w_files w ∧ w_history w `prefix_of` w_history w'.
#[export] Instance asked_preorder : PreOrder asked.
Proof.
  split; [by intros w|]. intros w1 w2 w3 [H1 H2] [H3 H4]. split; [congruence|by etrans].
Qed.
Lemma asked_ask {A : Type} r (ans : list request → reply A) : steps asked (ask r ans).
Proof. intros w. split; [done|]. by eexists. Qed.
Hint Resolve asked_ask : effects.

Lemma asked_view_ext f ty args : steps asked (view_ext f ty args).
Proof. unfold view_ext. st_steps. Qed.
Lemma asked_sequence_number a : steps asked (get_sequence_number a).
Proof. unfold get_sequence_number. st_steps. Qed.
Lemma asked_lookup k : steps asked (lookup_originating_address k).
Proof. unfold lookup_originating_address. st_steps. Qed.

(** A view always comes back as an array, which is no boolean. *)
Lemma view_ext_array f ty args w w' v : view_ext f ty args w = (w', Ok v) → ∃ l, v = JArray l.
Proof.
  unfold view_ext. intros Hv. apply st_bind_ok in Hv as (w1 & f' & _ & Hv).
  apply st_bind_ok in Hv as (w2 & t & _ & Hv). apply st_bind_ok in Hv as (w3 & l & _ & [= <- <-]). by exists l.
Qed.

Lemma can_gov_proposal_resolve_never id w w' b : can_gov_proposal_resolve id w ≠ (w', Ok b).
Proof.
  unfold can_gov_proposal_resolve, get_view. intros Hv. apply st_bind_ok in Hv as (w1 & v & Hv & Hb).
  apply view_ext_array in Hv as [l ->]. done.
Qed.

Lemma u64_view_bounds m f a w w' n : u64_view m f a w = (w', Ok n) → is_u64 n.
Proof.
  unfold u64_view. intros Hv. apply st_bind_ok in Hv as (w1 & l & _ & Hv).
  apply st_bind_ok in Hv as (w2 & v & _ & Hv). unfold st_lift in Hv. injection Hv as _ Hv.
  unfold is_u64. destruct v; cbn in Hv; try done.
  - destruct (parse_u64 n0) as [x| |] eqn:E; [|done..]. apply Ok_inj in Hv as <-.
    by apply (parse_uint_range u64_max n0).
  - by apply (parse_uint_range u64_max s).
Qed.

Lemma error_of_nil {A : Type} what (m : st world A) w w' r :
  attempt m w = (w', Ok r) → error_of what r = [] ↔ is_Some (value_of r).
Proof.
  unfold attempt. destruct (m w) as [w1 [a|e|p]]; [| |done]; intros [= _ <-]; cbn.
  - split; [by eexists|done].
  - split; [done|by intros []].
Qed.
Lemma error_of_length {A : Type} what (r : outcome A) : (length (error_of what r) ≤ 1)%nat.
Proof. destruct r; cbn; lia. Qed.

(** A report is made even when every query fails; it lists an error for each
    query that gave nothing, and only then. *)
Lemma report_errors a w w' rp :
  account_vouch_report a w = (w', Ok rp) →
  (rp_errors rp = [] ↔ is_Some (cached_score rp) ∧ is_Some (fresh_score rp) ∧ is_Some (max_vouches_by_score rp) ∧
                        is_Some (remaining_vouches_available rp)) ∧
  (length (rp_errors rp) ≤ 4)%nat.
Proof.
  unfold account_vouch_report. intros Hr. apply st_bind_ok in Hr as (w1 & c & Hc & Hr).
  apply st_bind_ok in Hr as (w2 & f & Hf & Hr). apply st_bind_ok in Hr as (w3 & m & Hm & Hr).
  apply st_bind_ok in Hr as (w4 & r & Hr' & Hr). injection Hr as _ <-. cbn.
  rewrite !fmap_is_Some, !length_app. rewrite !app_nil.
  rewrite (error_of_nil _ _ _ _ _ Hc), (error_of_nil _ _ _ _ _ Hf), (error_of_nil _ _ _ _ _ Hm), (error_of_nil _ _ _ _ _ Hr').
  split; [tauto|]. pose proof (error_of_length "cached_score" c). pose proof (error_of_length "fresh_score" f).
  pose proof (error_of_length "max_vouches_by_score" m). pose proof (error_of_length "remaining_vouches_available" r). lia.
Qed.
End node.

#[export] Hint Resolve asked_ask asked_view_ext asked_sequence_number asked_lookup asked_preorder : effects.
