(* ===== verification/EntryCalls.v ===== *)
(** * Entry functions of the framework: what the three builders share

    A builder has a constructor of payloads for every entry function of a
    release, the enumeration of the calls, and a table of decoders by
    module and function name.  The arguments are encoded by the bcs crate. *)
From Stdlib Require Import ZArith.
From stdpp Require Import base option list strings gmap.
From S2P Require Import Prelude RustStr Json Effects Bytes FileSystem MoveTypes Node.

Open Scope list_scope.
Open Scope Z_scope.

(** [bcs::from_bytes] at the type of a parameter: what was encoded at that
    type is read back, and a vector of addresses is never the eight bytes of a
    number. *)
Class Bcs := {
  from_u8 : Arg → option Z;
  from_u64 : Arg → option Z;
  from_bool : Arg → option bool;
  from_address : Arg → option AccountAddress;
  from_vec_u8 : Arg → option bytes;
  from_vec_vec_u8 : Arg → option (list bytes);
  from_vec_address : Arg → option (list AccountAddress);
  from_u8_law n : from_u8 (ArgU8 n) = Some n;
  from_u64_law n : from_u64 (ArgU64 n) = Some n;
  from_bool_law b : from_bool (ArgBool b) = Some b;
  from_address_law a : from_address (ArgAddress a) = Some a;
  from_vec_u8_law bs : from_vec_u8 (ArgBytes bs) = Some bs;
  from_vec_vec_u8_law l : from_vec_vec_u8 (ArgBytesList l) = Some l;
  from_vec_address_law l : from_vec_address (ArgAddresses l) = Some l;
  from_u64_addresses l : from_u64 (ArgAddresses l) = None
}.

Definition entry (module_name function_name : string) (args : list Arg) : TransactionPayload :=
  PayloadEntry (mk_entry (CORE_CODE_ADDRESS, module_name) function_name [] args).

Definition entry_args (payload : TransactionPayload) : option (list Arg) :=
  match payload with PayloadEntry e => Some (ef_args e) | PayloadScript _ => None end.
Definition entry_ty_args (payload : TransactionPayload) : option (list TypeTag) :=
  match payload with PayloadEntry e => Some (ef_ty_args e) | PayloadScript _ => None end.
(** The key of the decoder table: the address of the module has no part in
    it. *)
Definition decoder_key (payload : TransactionPayload) : option string :=
  match payload with
  | PayloadEntry e => Some (snd (ef_module e) +:+ "_" +:+ ef_function e)
  | PayloadScript _ => None
  end.
Definition assoc {A : Type} (key : string) (l : list (string * A)) : option A :=
  snd <$> List.find (fun e => String.eqb (fst e) key) l.

Lemma assoc_some {A : Type} key (l : list (string * A)) a : assoc key l = Some a → (key, a) ∈ l.
Proof.
  unfold assoc. destruct (List.find _ l) as [[k b]|] eqn:E; cbn; [|done]. intros [= <-].
  apply List.find_some in E as [Hin Hk]. apply String.eqb_eq in Hk. cbn in Hk. subst k. by apply list_elem_of_In.
Qed.

(** ** A decoder reads the calls of one function *)
Section decoders.
Context {C : Type} (encode : C → TransactionPayload).
(** What the decoder gives is a call whose payload has the key. *)
Definition decodes (e : string * (TransactionPayload → option C)) : Prop :=
  ∀ p c, snd e p = Some c → decoder_key (encode c) = Some (fst e).
Lemma decoded_key table p c :
  Forall decodes table →
  (key ← decoder_key p; d ← assoc key table; d p) = Some c → decoder_key p = decoder_key (encode c).
Proof.
  intros Ht Hd. destruct (decoder_key p) as [key|]; [|done]. cbn in Hd.
  destruct (assoc key table) as [d|] eqn:E; [|done]. cbn in Hd. apply assoc_some in E.
  rewrite Forall_forall in Ht. symmetry. by apply (Ht (key, d) E p c).
Qed.
End decoders.

(** Goes through the arguments a decoder reads. *)
Ltac read_args Hd := repeat (apply bind_Some in Hd as (? & _ & Hd)).

#[export] Instance sample_bcs : Bcs.
Proof.
  refine {|
    from_u8 a := match a with ArgU8 n => Some n | _ => None end;
    from_u64 a := match a with ArgU64 n => Some n | _ => None end;
    from_bool a := match a with ArgBool b => Some b | _ => None end;
    from_address a := match a with ArgAddress x => Some x | _ => None end;
    from_vec_u8 a := match a with ArgBytes bs => Some bs | _ => None end;
    from_vec_vec_u8 a := match a with ArgBytesList l => Some l | _ => None end;
    from_vec_address a := match a with ArgAddresses l => Some l | _ => None end
  |}; done.
Defined.
