(* ===== verification/Payloads.v ===== *)
(** * framework/cached-packages: the calls of the framework

    libra_framework_sdk_builder.rs: a payload for every entry function of the
    framework, the enumeration of the calls, and decoding. *)
From Stdlib Require Import ZArith.
From stdpp Require Import base option list strings gmap.
From S2P Require Import Prelude RustStr Json Effects Bytes FileSystem MoveTypes Node EntryCalls.

Open Scope list_scope.
Open Scope Z_scope.

(** ** The payloads *)
Definition account_offer_rotation_capability (rotation_capability_sig_bytes : bytes) (account_scheme : Z)
    (account_public_key_bytes : bytes) (recipient_address : AccountAddress) : TransactionPayload :=
  entry "account" "offer_rotation_capability" [ArgBytes rotation_capability_sig_bytes; ArgU8 account_scheme; ArgBytes
    account_public_key_bytes; ArgAddress recipient_address].
Definition account_revoke_rotation_capability (to_be_revoked_address : AccountAddress) : TransactionPayload :=
  entry "account" "revoke_rotation_capability" [ArgAddress to_be_revoked_address].
Definition account_rotate_authentication_key (from_scheme : Z) (from_public_key_bytes : bytes) (to_scheme : Z)
    (to_public_key_bytes : bytes) (cap_rotate_key : bytes) (cap_update_table : bytes) : TransactionPayload :=
  entry "account" "rotate_authentication_key" [ArgU8 from_scheme; ArgBytes from_public_key_bytes; ArgU8 to_scheme;
    ArgBytes to_public_key_bytes; ArgBytes cap_rotate_key; ArgBytes cap_update_table].
Definition account_rotate_authentication_key_with_rotation_capability (rotation_cap_offerer_address : AccountAddress)
    (new_scheme : Z) (new_public_key_bytes : bytes) (cap_update_table : bytes) : TransactionPayload :=
  entry "account" "rotate_authentication_key_with_rotation_capability" [ArgAddress rotation_cap_offerer_address;
    ArgU8 new_scheme; ArgBytes new_public_key_bytes; ArgBytes cap_update_table].
Definition activity_maybe_fix_malformed : TransactionPayload :=
  entry "activity" "maybe_fix_malformed" [].
Definition burn_set_send_community (community : bool) : TransactionPayload :=
  entry "burn" "set_send_community" [ArgBool community].
Definition code_publish_package_txn (metadata_serialized : bytes) (code : list bytes) : TransactionPayload :=
  entry "code" "publish_package_txn" [ArgBytes metadata_serialized; ArgBytesList code].
Definition community_wallet_init_change_signer_community_multisig (multisig_address : AccountAddress) (new_signer :
    AccountAddress) (is_add_operation : bool) (n_of_m : Z) (vote_duration_epochs : Z) : TransactionPayload :=
  entry "community_wallet_init" "change_signer_community_multisig" [ArgAddress multisig_address; ArgAddress
    new_signer; ArgBool is_add_operation; ArgU64 n_of_m; ArgU64 vote_duration_epochs].
Definition community_wallet_init_finalize_and_cage (num_signers : Z) : TransactionPayload :=
  entry "community_wallet_init" "finalize_and_cage" [ArgU64 num_signers].
Definition community_wallet_init_init_community (initial_authorities : list AccountAddress) (check_threshold : Z) :
    TransactionPayload :=
  entry "community_wallet_init" "init_community" [ArgAddresses initial_authorities; ArgU64 check_threshold].
Definition community_wallet_init_propose_offer (new_signers : list AccountAddress) (num_signers : Z) :
    TransactionPayload :=
  entry "community_wallet_init" "propose_offer" [ArgAddresses new_signers; ArgU64 num_signers].
Definition diem_governance_ol_create_proposal_v2 (execution_hash : bytes) (metadata_location : bytes) (metadata_hash
    : bytes) (is_multi_step_proposal : bool) : TransactionPayload :=
  entry "diem_governance" "ol_create_proposal_v2" [ArgBytes execution_hash; ArgBytes metadata_location; ArgBytes
    metadata_hash; ArgBool is_multi_step_proposal].
Definition diem_governance_ol_vote (proposal_id : Z) (should_pass : bool) : TransactionPayload :=
  entry "diem_governance" "ol_vote" [ArgU64 proposal_id; ArgBool should_pass].
Definition diem_governance_smoke_trigger_epoch : TransactionPayload :=
  entry "diem_governance" "smoke_trigger_epoch" [].
Definition diem_governance_trigger_epoch : TransactionPayload :=
  entry "diem_governance" "trigger_epoch" [].
Definition donor_voice_txs_maybe_close_reauth (multisig_address : AccountAddress) : TransactionPayload :=
  entry "donor_voice_txs" "maybe_close_reauth" [ArgAddress multisig_address].
Definition donor_voice_txs_propose_liquidate_tx (multisig_address : AccountAddress) : TransactionPayload :=
  entry "donor_voice_txs" "propose_liquidate_tx" [ArgAddress multisig_address].
Definition donor_voice_txs_propose_payment_tx (multisig_address : AccountAddress) (payee : AccountAddress) (value :
    Z) (description : bytes) (advance_unlocked : bool) : TransactionPayload :=
  entry "donor_voice_txs" "propose_payment_tx" [ArgAddress multisig_address; ArgAddress payee; ArgU64 value; ArgBytes
    description; ArgBool advance_unlocked].
Definition donor_voice_txs_propose_veto_tx (multisig_address : AccountAddress) (tx_id : Z) : TransactionPayload :=
  entry "donor_voice_txs" "propose_veto_tx" [ArgAddress multisig_address; ArgU64 tx_id].
Definition donor_voice_txs_vote_liquidation_tx (multisig_address : AccountAddress) : TransactionPayload :=
  entry "donor_voice_txs" "vote_liquidation_tx" [ArgAddress multisig_address].
Definition donor_voice_txs_vote_reauth_tx (multisig_address : AccountAddress) : TransactionPayload :=
  entry "donor_voice_txs" "vote_reauth_tx" [ArgAddress multisig_address].
Definition epoch_boundary_smoke_enable_trigger : TransactionPayload :=
  entry "epoch_boundary" "smoke_enable_trigger" [].
Definition epoch_boundary_smoke_trigger_epoch : TransactionPayload :=
  entry "epoch_boundary" "smoke_trigger_epoch" [].
Definition filo_migration_maybe_migrate : TransactionPayload :=
  entry "filo_migration" "maybe_migrate" [].
Definition jail_unjail_by_voucher (addr : AccountAddress) : TransactionPayload :=
  entry "jail" "unjail_by_voucher" [ArgAddress addr].
Definition libra_coin_mint_to_impl (dst_addr : AccountAddress) (amount : Z) : TransactionPayload :=
  entry "libra_coin" "mint_to_impl" [ArgAddress dst_addr; ArgU64 amount].
Definition multi_action_claim_offer (multisig_address : AccountAddress) : TransactionPayload :=
  entry "multi_action" "claim_offer" [ArgAddress multisig_address].
Definition multi_action_init_gov_deprecated : TransactionPayload :=
  entry "multi_action" "init_gov_deprecated" [].
Definition multisig_account_add_owner (new_owner : AccountAddress) : TransactionPayload :=
  entry "multisig_account" "add_owner" [ArgAddress new_owner].
Definition multisig_account_add_owners (new_owners : list AccountAddress) : TransactionPayload :=
  entry "multisig_account" "add_owners" [ArgAddresses new_owners].
Definition multisig_account_remove_owner (owner_to_remove : AccountAddress) : TransactionPayload :=
  entry "multisig_account" "remove_owner" [ArgAddress owner_to_remove].
Definition multisig_account_remove_owners (owners_to_remove : list AccountAddress) : TransactionPayload :=
  entry "multisig_account" "remove_owners" [ArgAddresses owners_to_remove].
Definition multisig_account_update_metadata (keys : list bytes) (values : list bytes) : TransactionPayload :=
  entry "multisig_account" "update_metadata" [ArgBytesList keys; ArgBytesList values].
Definition multisig_account_update_signatures_required (new_num_signatures_required : Z) : TransactionPayload :=
  entry "multisig_account" "update_signatures_required" [ArgU64 new_num_signatures_required].
Definition ol_account_create_account (auth_key : AccountAddress) : TransactionPayload :=
  entry "ol_account" "create_account" [ArgAddress auth_key].
Definition ol_account_transfer (to : AccountAddress) (amount : Z) : TransactionPayload :=
  entry "ol_account" "transfer" [ArgAddress to; ArgU64 amount].
Definition page_rank_lazy_refresh_cache (user : AccountAddress) : TransactionPayload :=
  entry "page_rank_lazy" "refresh_cache" [ArgAddress user].
Definition proof_of_fee_pof_retract_bid : TransactionPayload :=
  entry "proof_of_fee" "pof_retract_bid" [].
Definition proof_of_fee_pof_update_bid (bid : Z) (epoch_expiry : Z) : TransactionPayload :=
  entry "proof_of_fee" "pof_update_bid" [ArgU64 bid; ArgU64 epoch_expiry].
Definition proof_of_fee_pof_update_bid_net_reward (net_reward : Z) (epoch_expiry : Z) : TransactionPayload :=
  entry "proof_of_fee" "pof_update_bid_net_reward" [ArgU64 net_reward; ArgU64 epoch_expiry].
Definition slow_wallet_smoke_test_vm_unlock (user_addr : AccountAddress) (unlocked : Z) (transferred : Z) :
    TransactionPayload :=
  entry "slow_wallet" "smoke_test_vm_unlock" [ArgAddress user_addr; ArgU64 unlocked; ArgU64 transferred].
Definition slow_wallet_user_set_slow : TransactionPayload :=
  entry "slow_wallet" "user_set_slow" [].
Definition stake_initialize_validator (consensus_pubkey : bytes) (proof_of_possession : bytes) (network_addresses :
    bytes) (fullnode_addresses : bytes) : TransactionPayload :=
  entry "stake" "initialize_validator" [ArgBytes consensus_pubkey; ArgBytes proof_of_possession; ArgBytes
    network_addresses; ArgBytes fullnode_addresses].
Definition stake_update_network_and_fullnode_addresses (validator_address : AccountAddress) (new_network_addresses :
    bytes) (new_fullnode_addresses : bytes) : TransactionPayload :=
  entry "stake" "update_network_and_fullnode_addresses" [ArgAddress validator_address; ArgBytes
    new_network_addresses; ArgBytes new_fullnode_addresses].
Definition validator_universe_register_validator (consensus_pubkey : bytes) (proof_of_possession : bytes)
    (network_addresses : bytes) (fullnode_addresses : bytes) : TransactionPayload :=
  entry "validator_universe" "register_validator" [ArgBytes consensus_pubkey; ArgBytes proof_of_possession; ArgBytes
    network_addresses; ArgBytes fullnode_addresses].
Definition vouch_txs_clean_expired : TransactionPayload :=
  entry "vouch_txs" "clean_expired" [].
Definition vouch_txs_revoke (friend_account : AccountAddress) : TransactionPayload :=
  entry "vouch_txs" "revoke" [ArgAddress friend_account].
Definition vouch_txs_vouch_for (friend_account : AccountAddress) : TransactionPayload :=
  entry "vouch_txs" "vouch_for" [ArgAddress friend_account].

(** ** The calls *)
Inductive EntryFunctionCall :=
| AccountOfferRotationCapability (rotation_capability_sig_bytes : bytes) (account_scheme : Z)
    (account_public_key_bytes : bytes) (recipient_address : AccountAddress)
| AccountRevokeRotationCapability (to_be_revoked_address : AccountAddress)
| AccountRotateAuthenticationKey (from_scheme : Z) (from_public_key_bytes : bytes) (to_scheme : Z)
    (to_public_key_bytes : bytes) (cap_rotate_key : bytes) (cap_update_table : bytes)
| AccountRotateAuthenticationKeyWithRotationCapability (rotation_cap_offerer_address : AccountAddress) (new_scheme :
    Z) (new_public_key_bytes : bytes) (cap_update_table : bytes)
| ActivityMaybeFixMalformed
| BurnSetSendCommunity (community : bool)
| CodePublishPackageTxn (metadata_serialized : bytes) (code : list bytes)
| CommunityWalletInitChangeSignerCommunityMultisig (multisig_address : AccountAddress) (new_signer : AccountAddress)
    (is_add_operation : bool) (n_of_m : Z) (vote_duration_epochs : Z)
| CommunityWalletInitFinalizeAndCage (num_signers : Z)
| CommunityWalletInitInitCommunity (initial_authorities : list AccountAddress) (check_threshold : Z)
| CommunityWalletInitProposeOffer (new_signers : list AccountAddress) (num_signers : Z)
| DiemGovernanceOlCreateProposalV2 (execution_hash : bytes) (metadata_location : bytes) (metadata_hash : bytes)
    (is_multi_step_proposal : bool)
| DiemGovernanceOlVote (proposal_id : Z) (should_pass : bool)
| DiemGovernanceSmokeTriggerEpoch
| DiemGovernanceTriggerEpoch
| DonorVoiceTxsMaybeCloseReauth (multisig_address : AccountAddress)
| DonorVoiceTxsProposeLiquidateTx (multisig_address : AccountAddress)
| DonorVoiceTxsProposePaymentTx (multisig_address : AccountAddress) (payee : AccountAddress) (value : Z) (description
    : bytes) (advance_unlocked : bool)
| DonorVoiceTxsProposeVetoTx (multisig_address : AccountAddress) (tx_id : Z)
| DonorVoiceTxsVoteLiquidationTx (multisig_address : AccountAddress)
| DonorVoiceTxsVoteReauthTx (multisig_address : AccountAddress)
| EpochBoundarySmokeEnableTrigger
| EpochBoundarySmokeTriggerEpoch
| FiloMigrationMaybeMigrate
| JailUnjailByVoucher (addr : AccountAddress)
| LibraCoinMintToImpl (dst_addr : AccountAddress) (amount : Z)
| MultiActionClaimOffer (multisig_address : AccountAddress)
| MultiActionInitGovDeprecated
| MultisigAccountAddOwner (new_owner : AccountAddress)
| MultisigAccountAddOwners (new_owners : list AccountAddress)
| MultisigAccountRemoveOwner (owner_to_remove : AccountAddress)
| MultisigAccountRemoveOwners (owners_to_remove : list AccountAddress)
| MultisigAccountUpdateMetadata (keys : list bytes) (values : list bytes)
| MultisigAccountUpdateSignaturesRequired (new_num_signatures_required : Z)
| OlAccountCreateAccount (auth_key : AccountAddress)
| OlAccountTransfer (to : AccountAddress) (amount : Z)
| PageRankLazyRefreshCache (user : AccountAddress)
| ProofOfFeePofRetractBid
| ProofOfFeePofUpdateBid (bid : Z) (epoch_expiry : Z)
| ProofOfFeePofUpdateBidNetReward (net_reward : Z) (epoch_expiry : Z)
| SlowWalletSmokeTestVmUnlock (user_addr : AccountAddress) (unlocked : Z) (transferred : Z)
| SlowWalletUserSetSlow
| StakeInitializeValidator (consensus_pubkey : bytes) (proof_of_possession : bytes) (network_addresses : bytes)
    (fullnode_addresses : bytes)
| StakeUpdateNetworkAndFullnodeAddresses (validator_address : AccountAddress) (new_network_addresses : bytes)
    (new_fullnode_addresses : bytes)
| ValidatorUniverseRegisterValidator (consensus_pubkey : bytes) (proof_of_possession : bytes) (network_addresses :
    bytes) (fullnode_addresses : bytes)
| VouchTxsCleanExpired
| VouchTxsRevoke (friend_account : AccountAddress)
| VouchTxsVouchFor (friend_account : AccountAddress).

Definition encode (self : EntryFunctionCall) : TransactionPayload :=
  match self with
  | AccountOfferRotationCapability rotation_capability_sig_bytes account_scheme account_public_key_bytes
    recipient_address => account_offer_rotation_capability rotation_capability_sig_bytes account_scheme
    account_public_key_bytes recipient_address
  | AccountRevokeRotationCapability to_be_revoked_address => account_revoke_rotation_capability to_be_revoked_address
  | AccountRotateAuthenticationKey from_scheme from_public_key_bytes to_scheme to_public_key_bytes cap_rotate_key
    cap_update_table => account_rotate_authentication_key from_scheme from_public_key_bytes to_scheme
    to_public_key_bytes cap_rotate_key cap_update_table
  | AccountRotateAuthenticationKeyWithRotationCapability rotation_cap_offerer_address new_scheme new_public_key_bytes
    cap_update_table => account_rotate_authentication_key_with_rotation_capability rotation_cap_offerer_address
    new_scheme new_public_key_bytes cap_update_table
  | ActivityMaybeFixMalformed => activity_maybe_fix_malformed
  | BurnSetSendCommunity community => burn_set_send_community community
  | CodePublishPackageTxn metadata_serialized code => code_publish_package_txn metadata_serialized code
  | CommunityWalletInitChangeSignerCommunityMultisig multisig_address new_signer is_add_operation n_of_m
    vote_duration_epochs => community_wallet_init_change_signer_community_multisig multisig_address new_signer
    is_add_operation n_of_m vote_duration_epochs
  | CommunityWalletInitFinalizeAndCage num_signers => community_wallet_init_finalize_and_cage num_signers
  | CommunityWalletInitInitCommunity initial_authorities check_threshold => community_wallet_init_init_community
    initial_authorities check_threshold
  | CommunityWalletInitProposeOffer new_signers num_signers => community_wallet_init_propose_offer new_signers
    num_signers
  | DiemGovernanceOlCreateProposalV2 execution_hash metadata_location metadata_hash is_multi_step_proposal =>
    diem_governance_ol_create_proposal_v2 execution_hash metadata_location metadata_hash is_multi_step_proposal
  | DiemGovernanceOlVote proposal_id should_pass => diem_governance_ol_vote proposal_id should_pass
  | DiemGovernanceSmokeTriggerEpoch => diem_governance_smoke_trigger_epoch
  | DiemGovernanceTriggerEpoch => diem_governance_trigger_epoch
  | DonorVoiceTxsMaybeCloseReauth multisig_address => donor_voice_txs_maybe_close_reauth multisig_address
  | DonorVoiceTxsProposeLiquidateTx multisig_address => donor_voice_txs_propose_liquidate_tx multisig_address
  | DonorVoiceTxsProposePaymentTx multisig_address payee value description advance_unlocked =>
    donor_voice_txs_propose_payment_tx multisig_address payee value description advance_unlocked
  | DonorVoiceTxsProposeVetoTx multisig_address tx_id => donor_voice_txs_propose_veto_tx multisig_address tx_id
  | DonorVoiceTxsVoteLiquidationTx multisig_address => donor_voice_txs_vote_liquidation_tx multisig_address
  | DonorVoiceTxsVoteReauthTx multisig_address => donor_voice_txs_vote_reauth_tx multisig_address
  | EpochBoundarySmokeEnableTrigger => epoch_boundary_smoke_enable_trigger
  | EpochBoundarySmokeTriggerEpoch => epoch_boundary_smoke_trigger_epoch
  | FiloMigrationMaybeMigrate => filo_migration_maybe_migrate
  | JailUnjailByVoucher addr => jail_unjail_by_voucher addr
  | LibraCoinMintToImpl dst_addr amount => libra_coin_mint_to_impl dst_addr amount
  | MultiActionClaimOffer multisig_address => multi_action_claim_offer multisig_address
  | MultiActionInitGovDeprecated => multi_action_init_gov_deprecated
  | MultisigAccountAddOwner new_owner => multisig_account_add_owner new_owner
  | MultisigAccountAddOwners new_owners => multisig_account_add_owners new_owners
  | MultisigAccountRemoveOwner owner_to_remove => multisig_account_remove_owner owner_to_remove
  | MultisigAccountRemoveOwners owners_to_remove => multisig_account_remove_owners owners_to_remove
  | MultisigAccountUpdateMetadata keys values => multisig_account_update_metadata keys values
  | MultisigAccountUpdateSignaturesRequired new_num_signatures_required =>
    multisig_account_update_signatures_required new_num_signatures_required
  | OlAccountCreateAccount auth_key => ol_account_create_account auth_key
  | OlAccountTransfer to amount => ol_account_transfer to amount
  | PageRankLazyRefreshCache user => page_rank_lazy_refresh_cache user
  | ProofOfFeePofRetractBid => proof_of_fee_pof_retract_bid
  | ProofOfFeePofUpdateBid bid epoch_expiry => proof_of_fee_pof_update_bid bid epoch_expiry
  | ProofOfFeePofUpdateBidNetReward net_reward epoch_expiry => proof_of_fee_pof_update_bid_net_reward net_reward
    epoch_expiry
  | SlowWalletSmokeTestVmUnlock user_addr unlocked transferred => slow_wallet_smoke_test_vm_unlock user_addr unlocked
    transferred
  | SlowWalletUserSetSlow => slow_wallet_user_set_slow
  | StakeInitializeValidator consensus_pubkey proof_of_possession network_addresses fullnode_addresses =>
    stake_initialize_validator consensus_pubkey proof_of_possession network_addresses fullnode_addresses
  | StakeUpdateNetworkAndFullnodeAddresses validator_address new_network_addresses new_fullnode_addresses =>
    stake_update_network_and_fullnode_addresses validator_address new_network_addresses new_fullnode_addresses
  | ValidatorUniverseRegisterValidator consensus_pubkey proof_of_possession network_addresses fullnode_addresses =>
    validator_universe_register_validator consensus_pubkey proof_of_possession network_addresses fullnode_addresses
  | VouchTxsCleanExpired => vouch_txs_clean_expired
  | VouchTxsRevoke friend_account => vouch_txs_revoke friend_account
  | VouchTxsVouchFor friend_account => vouch_txs_vouch_for friend_account
  end.

(** ** Decoding *)
Section decoder.
Context `{Bcs}.

Definition decode_account_offer_rotation_capability (payload : TransactionPayload) : option EntryFunctionCall :=
  args ← entry_args payload;
  rotation_capability_sig_bytes ← args !! 0%nat ≫= from_vec_u8;
  account_scheme ← args !! 1%nat ≫= from_u8;
  account_public_key_bytes ← args !! 2%nat ≫= from_vec_u8;
  recipient_address ← args !! 3%nat ≫= from_address;
  Some (AccountOfferRotationCapability rotation_capability_sig_bytes account_scheme account_public_key_bytes
    recipient_address).
Definition decode_account_revoke_rotation_capability (payload : TransactionPayload) : option EntryFunctionCall :=
  args ← entry_args payload;
  to_be_revoked_address ← args !! 0%nat ≫= from_address;
  Some (AccountRevokeRotationCapability to_be_revoked_address).
Definition decode_account_rotate_authentication_key (payload : TransactionPayload) : option EntryFunctionCall :=
  args ← entry_args payload;
  from_scheme ← args !! 0%nat ≫= from_u8;
  from_public_key_bytes ← args !! 1%nat ≫= from_vec_u8;
  to_scheme ← args !! 2%nat ≫= from_u8;
  to_public_key_bytes ← args !! 3%nat ≫= from_vec_u8;
  cap_rotate_key ← args !! 4%nat ≫= from_vec_u8;
  cap_update_table ← args !! 5%nat ≫= from_vec_u8;
  Some (AccountRotateAuthenticationKey from_scheme from_public_key_bytes to_scheme to_public_key_bytes cap_rotate_key
    cap_update_table).
Definition decode_account_rotate_authentication_key_with_rotation_capability (payload : TransactionPayload) : option
    EntryFunctionCall :=
  args ← entry_args payload;
  rotation_cap_offerer_address ← args !! 0%nat ≫= from_address;
  new_scheme ← args !! 1%nat ≫= from_u8;
  new_public_key_bytes ← args !! 2%nat ≫= from_vec_u8;
  cap_update_table ← args !! 3%nat ≫= from_vec_u8;
  Some (AccountRotateAuthenticationKeyWithRotationCapability rotation_cap_offerer_address new_scheme
    new_public_key_bytes cap_update_table).
Definition decode_activity_maybe_fix_malformed (payload : TransactionPayload) : option EntryFunctionCall :=
  _ ← entry_args payload; Some ActivityMaybeFixMalformed.
Definition decode_burn_set_send_community (payload : TransactionPayload) : option EntryFunctionCall :=
  args ← entry_args payload;
  community ← args !! 0%nat ≫= from_bool;
  Some (BurnSetSendCommunity community).
Definition decode_code_publish_package_txn (payload : TransactionPayload) : option EntryFunctionCall :=
  args ← entry_args payload;
  metadata_serialized ← args !! 0%nat ≫= from_vec_u8;
  code ← args !! 1%nat ≫= from_vec_vec_u8;
  Some (CodePublishPackageTxn metadata_serialized code).
Definition decode_community_wallet_init_change_signer_community_multisig (payload : TransactionPayload) : option
    EntryFunctionCall :=
  args ← entry_args payload;
  multisig_address ← args !! 0%nat ≫= from_address;
  new_signer ← args !! 1%nat ≫= from_address;
  is_add_operation ← args !! 2%nat ≫= from_bool;
  n_of_m ← args !! 3%nat ≫= from_u64;
  vote_duration_epochs ← args !! 4%nat ≫= from_u64;
  Some (CommunityWalletInitChangeSignerCommunityMultisig multisig_address new_signer is_add_operation n_of_m
    vote_duration_epochs).
Definition decode_community_wallet_init_finalize_and_cage (payload : TransactionPayload) : option EntryFunctionCall :=
  args ← entry_args payload;
  num_signers ← args !! 0%nat ≫= from_u64;
  Some (CommunityWalletInitFinalizeAndCage num_signers).
Definition decode_community_wallet_init_init_community (payload : TransactionPayload) : option EntryFunctionCall :=
  args ← entry_args payload;
  initial_authorities ← args !! 0%nat ≫= from_vec_address;
  check_threshold ← args !! 1%nat ≫= from_u64;
  Some (CommunityWalletInitInitCommunity initial_authorities check_threshold).
Definition decode_community_wallet_init_propose_offer (payload : TransactionPayload) : option EntryFunctionCall :=
  args ← entry_args payload;
  new_signers ← args !! 0%nat ≫= from_vec_address;
  num_signers ← args !! 1%nat ≫= from_u64;
  Some (CommunityWalletInitProposeOffer new_signers num_signers).
Definition decode_diem_governance_ol_create_proposal_v2 (payload : TransactionPayload) : option EntryFunctionCall :=
  args ← entry_args payload;
  execution_hash ← args !! 0%nat ≫= from_vec_u8;
  metadata_location ← args !! 1%nat ≫= from_vec_u8;
  metadata_hash ← args !! 2%nat ≫= from_vec_u8;
  is_multi_step_proposal ← args !! 3%nat ≫= from_bool;
  Some (DiemGovernanceOlCreateProposalV2 execution_hash metadata_location metadata_hash is_multi_step_proposal).
Definition decode_diem_governance_ol_vote (payload : TransactionPayload) : option EntryFunctionCall :=
  args ← entry_args payload;
  proposal_id ← args !! 0%nat ≫= from_u64;
  should_pass ← args !! 1%nat ≫= from_bool;
  Some (DiemGovernanceOlVote proposal_id should_pass).
Definition decode_diem_governance_smoke_trigger_epoch (payload : TransactionPayload) : option EntryFunctionCall :=
  _ ← entry_args payload; Some DiemGovernanceSmokeTriggerEpoch.
Definition decode_diem_governance_trigger_epoch (payload : TransactionPayload) : option EntryFunctionCall :=
  _ ← entry_args payload; Some DiemGovernanceTriggerEpoch.
Definition decode_donor_voice_txs_maybe_close_reauth (payload : TransactionPayload) : option EntryFunctionCall :=
  args ← entry_args payload;
  multisig_address ← args !! 0%nat ≫= from_address;
  Some (DonorVoiceTxsMaybeCloseReauth multisig_address).
Definition decode_donor_voice_txs_propose_liquidate_tx (payload : TransactionPayload) : option EntryFunctionCall :=
  args ← entry_args payload;
  multisig_address ← args !! 0%nat ≫= from_address;
  Some (DonorVoiceTxsProposeLiquidateTx multisig_address).
Definition decode_donor_voice_txs_propose_payment_tx (payload : TransactionPayload) : option EntryFunctionCall :=
  args ← entry_args payload;
  multisig_address ← args !! 0%nat ≫= from_address;
  payee ← args !! 1%nat ≫= from_address;
  value ← args !! 2%nat ≫= from_u64;
  description ← args !! 3%nat ≫= from_vec_u8;
  advance_unlocked ← args !! 4%nat ≫= from_bool;
  Some (DonorVoiceTxsProposePaymentTx multisig_address payee value description advance_unlocked).
Definition decode_donor_voice_txs_propose_veto_tx (payload : TransactionPayload) : option EntryFunctionCall :=
  args ← entry_args payload;
  multisig_address ← args !! 0%nat ≫= from_address;
  tx_id ← args !! 1%nat ≫= from_u64;
  Some (DonorVoiceTxsProposeVetoTx multisig_address tx_id).
Definition decode_donor_voice_txs_vote_liquidation_tx (payload : TransactionPayload) : option EntryFunctionCall :=
  args ← entry_args payload;
  multisig_address ← args !! 0%nat ≫= from_address;
  Some (DonorVoiceTxsVoteLiquidationTx multisig_address).
Definition decode_donor_voice_txs_vote_reauth_tx (payload : TransactionPayload) : option EntryFunctionCall :=
  args ← entry_args payload;
  multisig_address ← args !! 0%nat ≫= from_address;
  Some (DonorVoiceTxsVoteReauthTx multisig_address).
Definition decode_epoch_boundary_smoke_enable_trigger (payload : TransactionPayload) : option EntryFunctionCall :=
  _ ← entry_args payload; Some EpochBoundarySmokeEnableTrigger.
Definition decode_epoch_boundary_smoke_trigger_epoch (payload : TransactionPayload) : option EntryFunctionCall :=
  _ ← entry_args payload; Some EpochBoundarySmokeTriggerEpoch.
Definition decode_filo_migration_maybe_migrate (payload : TransactionPayload) : option EntryFunctionCall :=
  _ ← entry_args payload; Some FiloMigrationMaybeMigrate.
Definition decode_jail_unjail_by_voucher (payload : TransactionPayload) : option EntryFunctionCall :=
  args ← entry_args payload;
  addr ← args !! 0%nat ≫= from_address;
  Some (JailUnjailByVoucher addr).
Definition decode_libra_coin_mint_to_impl (payload : TransactionPayload) : option EntryFunctionCall :=
  args ← entry_args payload;
  dst_addr ← args !! 0%nat ≫= from_address;
  amount ← args !! 1%nat ≫= from_u64;
  Some (LibraCoinMintToImpl dst_addr amount).
Definition decode_multi_action_claim_offer (payload : TransactionPayload) : option EntryFunctionCall :=
  args ← entry_args payload;
  multisig_address ← args !! 0%nat ≫= from_address;
  Some (MultiActionClaimOffer multisig_address).
Definition decode_multi_action_init_gov_deprecated (payload : TransactionPayload) : option EntryFunctionCall :=
  _ ← entry_args payload; Some MultiActionInitGovDeprecated.
Definition decode_multisig_account_add_owner (payload : TransactionPayload) : option EntryFunctionCall :=
  args ← entry_args payload;
  new_owner ← args !! 0%nat ≫= from_address;
  Some (MultisigAccountAddOwner new_owner).
Definition decode_multisig_account_add_owners (payload : TransactionPayload) : option EntryFunctionCall :=
  args ← entry_args payload;
  new_owners ← args !! 0%nat ≫= from_vec_address;
  Some (MultisigAccountAddOwners new_owners).
Definition decode_multisig_account_remove_owner (payload : TransactionPayload) : option EntryFunctionCall :=
  args ← entry_args payload;
  owner_to_remove ← args !! 0%nat ≫= from_address;
  Some (MultisigAccountRemoveOwner owner_to_remove).
Definition decode_multisig_account_remove_owners (payload : TransactionPayload) : option EntryFunctionCall :=
  args ← entry_args payload;
  owners_to_remove ← args !! 0%nat ≫= from_vec_address;
  Some (MultisigAccountRemoveOwners owners_to_remove).
Definition decode_multisig_account_update_metadata (payload : TransactionPayload) : option EntryFunctionCall :=
  args ← entry_args payload;
  keys ← args !! 0%nat ≫= from_vec_vec_u8;
  values ← args !! 1%nat ≫= from_vec_vec_u8;
  Some (MultisigAccountUpdateMetadata keys values).
Definition decode_multisig_account_update_signatures_required (payload : TransactionPayload) : option
    EntryFunctionCall :=
  args ← entry_args payload;
  new_num_signatures_required ← args !! 0%nat ≫= from_u64;
  Some (MultisigAccountUpdateSignaturesRequired new_num_signatures_required).
Definition decode_ol_account_create_account (payload : TransactionPayload) : option EntryFunctionCall :=
  args ← entry_args payload;
  auth_key ← args !! 0%nat ≫= from_address;
  Some (OlAccountCreateAccount auth_key).
Definition decode_ol_account_transfer (payload : TransactionPayload) : option EntryFunctionCall :=
  args ← entry_args payload;
  to ← args !! 0%nat ≫= from_address;
  amount ← args !! 1%nat ≫= from_u64;
  Some (OlAccountTransfer to amount).
Definition decode_page_rank_lazy_refresh_cache (payload : TransactionPayload) : option EntryFunctionCall :=
  args ← entry_args payload;
  user ← args !! 0%nat ≫= from_address;
  Some (PageRankLazyRefreshCache user).
Definition decode_proof_of_fee_pof_retract_bid (payload : TransactionPayload) : option EntryFunctionCall :=
  _ ← entry_args payload; Some ProofOfFeePofRetractBid.
Definition decode_proof_of_fee_pof_update_bid (payload : TransactionPayload) : option EntryFunctionCall :=
  args ← entry_args payload;
  bid ← args !! 0%nat ≫= from_u64;
  epoch_expiry ← args !! 1%nat ≫= from_u64;
  Some (ProofOfFeePofUpdateBid bid epoch_expiry).
Definition decode_proof_of_fee_pof_update_bid_net_reward (payload : TransactionPayload) : option EntryFunctionCall :=
  args ← entry_args payload;
  net_reward ← args !! 0%nat ≫= from_u64;
  epoch_expiry ← args !! 1%nat ≫= from_u64;
  Some (ProofOfFeePofUpdateBidNetReward net_reward epoch_expiry).
Definition decode_slow_wallet_smoke_test_vm_unlock (payload : TransactionPayload) : option EntryFunctionCall :=
  args ← entry_args payload;
  user_addr ← args !! 0%nat ≫= from_address;
  unlocked ← args !! 1%nat ≫= from_u64;
  transferred ← args !! 2%nat ≫= from_u64;
  Some (SlowWalletSmokeTestVmUnlock user_addr unlocked transferred).
Definition decode_slow_wallet_user_set_slow (payload : TransactionPayload) : option EntryFunctionCall :=
  _ ← entry_args payload; Some SlowWalletUserSetSlow.
Definition decode_stake_initialize_validator (payload : TransactionPayload) : option EntryFunctionCall :=
  args ← entry_args payload;
  consensus_pubkey ← args !! 0%nat ≫= from_vec_u8;
  proof_of_possession ← args !! 1%nat ≫= from_vec_u8;
  network_addresses ← args !! 2%nat ≫= from_vec_u8;
  fullnode_addresses ← args !! 3%nat ≫= from_vec_u8;
  Some (StakeInitializeValidator consensus_pubkey proof_of_possession network_addresses fullnode_addresses).
Definition decode_stake_update_network_and_fullnode_addresses (payload : TransactionPayload) : option
    EntryFunctionCall :=
  args ← entry_args payload;
  validator_address ← args !! 0%nat ≫= from_address;
  new_network_addresses ← args !! 1%nat ≫= from_vec_u8;
  new_fullnode_addresses ← args !! 2%nat ≫= from_vec_u8;
  Some (StakeUpdateNetworkAndFullnodeAddresses validator_address new_network_addresses new_fullnode_addresses).
Definition decode_validator_universe_register_validator (payload : TransactionPayload) : option EntryFunctionCall :=
  args ← entry_args payload;
  consensus_pubkey ← args !! 0%nat ≫= from_vec_u8;
  proof_of_possession ← args !! 1%nat ≫= from_vec_u8;
  network_addresses ← args !! 2%nat ≫= from_vec_u8;
  fullnode_addresses ← args !! 3%nat ≫= from_vec_u8;
  Some (ValidatorUniverseRegisterValidator consensus_pubkey proof_of_possession network_addresses fullnode_addresses).
Definition decode_vouch_txs_clean_expired (payload : TransactionPayload) : option EntryFunctionCall :=
  _ ← entry_args payload; Some VouchTxsCleanExpired.
Definition decode_vouch_txs_revoke (payload : TransactionPayload) : option EntryFunctionCall :=
  args ← entry_args payload;
  friend_account ← args !! 0%nat ≫= from_address;
  Some (VouchTxsRevoke friend_account).
Definition decode_vouch_txs_vouch_for (payload : TransactionPayload) : option EntryFunctionCall :=
  args ← entry_args payload;
  friend_account ← args !! 0%nat ≫= from_address;
  Some (VouchTxsVouchFor friend_account).

Definition SCRIPT_FUNCTION_DECODER_MAP : list (string * (TransactionPayload → option EntryFunctionCall)) := [
  ("account_offer_rotation_capability", decode_account_offer_rotation_capability);
  ("account_revoke_rotation_capability", decode_account_revoke_rotation_capability);
  ("account_rotate_authentication_key", decode_account_rotate_authentication_key);
  ("account_rotate_authentication_key_with_rotation_capability",
    decode_account_rotate_authentication_key_with_rotation_capability);
  ("activity_maybe_fix_malformed", decode_activity_maybe_fix_malformed);
  ("burn_set_send_community", decode_burn_set_send_community);
  ("code_publish_package_txn", decode_code_publish_package_txn);
  ("community_wallet_init_change_signer_community_multisig",
    decode_community_wallet_init_change_signer_community_multisig);
  ("community_wallet_init_finalize_and_cage", decode_community_wallet_init_finalize_and_cage);
  ("community_wallet_init_init_community", decode_community_wallet_init_init_community);
  ("community_wallet_init_propose_offer", decode_community_wallet_init_propose_offer);
  ("diem_governance_ol_create_proposal_v2", decode_diem_governance_ol_create_proposal_v2);
  ("diem_governance_ol_vote", decode_diem_governance_ol_vote);
  ("diem_governance_smoke_trigger_epoch", decode_diem_governance_smoke_trigger_epoch);
  ("diem_governance_trigger_epoch", decode_diem_governance_trigger_epoch);
  ("donor_voice_txs_maybe_close_reauth", decode_donor_voice_txs_maybe_close_reauth);
  ("donor_voice_txs_propose_liquidate_tx", decode_donor_voice_txs_propose_liquidate_tx);
  ("donor_voice_txs_propose_payment_tx", decode_donor_voice_txs_propose_payment_tx);
  ("donor_voice_txs_propose_veto_tx", decode_donor_voice_txs_propose_veto_tx);
  ("donor_voice_txs_vote_liquidation_tx", decode_donor_voice_txs_vote_liquidation_tx);
  ("donor_voice_txs_vote_reauth_tx", decode_donor_voice_txs_vote_reauth_tx);
  ("epoch_boundary_smoke_enable_trigger", decode_epoch_boundary_smoke_enable_trigger);
  ("epoch_boundary_smoke_trigger_epoch", decode_epoch_boundary_smoke_trigger_epoch);
  ("filo_migration_maybe_migrate", decode_filo_migration_maybe_migrate);
  ("jail_unjail_by_voucher", decode_jail_unjail_by_voucher);
  ("libra_coin_mint_to_impl", decode_libra_coin_mint_to_impl);
  ("multi_action_claim_offer", decode_multi_action_claim_offer);
  ("multi_action_init_gov_deprecated", decode_multi_action_init_gov_deprecated);
  ("multisig_account_add_owner", decode_multisig_account_add_owner);
  ("multisig_account_add_owners", decode_multisig_account_add_owners);
  ("multisig_account_remove_owner", decode_multisig_account_remove_owner);
  ("multisig_account_remove_owners", decode_multisig_account_remove_owners);
  ("multisig_account_update_metadata", decode_multisig_account_update_metadata);
  ("multisig_account_update_signatures_required", decode_multisig_account_update_signatures_required);
  ("ol_account_create_account", decode_ol_account_create_account);
  ("ol_account_transfer", decode_ol_account_transfer);
  ("page_rank_lazy_refresh_cache", decode_page_rank_lazy_refresh_cache);
  ("proof_of_fee_pof_retract_bid", decode_proof_of_fee_pof_retract_bid);
  ("proof_of_fee_pof_update_bid", decode_proof_of_fee_pof_update_bid);
  ("proof_of_fee_pof_update_bid_net_reward", decode_proof_of_fee_pof_update_bid_net_reward);
  ("slow_wallet_smoke_test_vm_unlock", decode_slow_wallet_smoke_test_vm_unlock);
  ("slow_wallet_user_set_slow", decode_slow_wallet_user_set_slow);
  ("stake_initialize_validator", decode_stake_initialize_validator);
  ("stake_update_network_and_fullnode_addresses", decode_stake_update_network_and_fullnode_addresses);
  ("validator_universe_register_validator", decode_validator_universe_register_validator);
  ("vouch_txs_clean_expired", decode_vouch_txs_clean_expired);
  ("vouch_txs_revoke", decode_vouch_txs_revoke);
  ("vouch_txs_vouch_for", decode_vouch_txs_vouch_for)
]%string.

Definition decode (payload : TransactionPayload) : option EntryFunctionCall :=
  key ← decoder_key payload;
  d ← assoc key SCRIPT_FUNCTION_DECODER_MAP;
  d payload.
End decoder.

(** ** Lemmas *)
Section decoding.
Context `{Bcs}.

Lemma decode_encode c : decode (encode c) = Some c.
Proof.
  destruct c; unfold decode; cbn;
    by rewrite ?from_u8_law, ?from_u64_law, ?from_bool_law, ?from_address_law, ?from_vec_u8_law, ?from_vec_vec_u8_law,
      ?from_vec_address_law.
Qed.
Lemma table_decodes : Forall (decodes encode) SCRIPT_FUNCTION_DECODER_MAP.
Proof.
  unfold SCRIPT_FUNCTION_DECODER_MAP. repeat (apply Forall_cons_2; [intros p c Hd; unfold snd in Hd; read_args Hd; by injection Hd as <-|]).
  apply Forall_nil_2.
Qed.
End decoding.

(** ** Properties *)
(** every call of the framework survives the trip to a payload and back;
    different calls have different payloads; and a payload is only ever decoded
    to a call of the function it names. *)
Theorem calls_roundtrip `{Bcs} :
  (∀ c, decode (encode c) = Some c) ∧
  (∀ c d, encode c = encode d → c = d) ∧
  (∀ p c, decode p = Some c → decoder_key p = decoder_key (encode c)) ∧
  (∀ s, decode (PayloadScript s) = None).
Proof.
  split; [apply decode_encode|]. split; [|split; [|done]].
  - intros c d E. apply (inj Some). by rewrite <- !decode_encode, E.
  - intros p c. apply decoded_key, table_decodes.
Qed.

(** ** Witnesses *)
Lemma calls_roundtrip_witness :
  (∀ c, decode (encode c) = Some c) ∧
  (∀ c d, encode c = encode d → c = d) ∧
  (∀ p c, decode p = Some c → decoder_key p = decoder_key (encode c)) ∧
  (∀ s, decode (PayloadScript s) = None).
Proof. apply calls_roundtrip. Defined.

(** The module's address is not looked at, nor are arguments too many. *)
Example decoded_elsewhere a :
  decode (PayloadEntry (mk_entry (a, "ol_account"%string) "transfer" [] [ArgAddress addr_ONE; ArgU64 7; ArgBool true])) =
    Some (OlAccountTransfer addr_ONE 7).
Proof. reflexivity. Qed.
