(* ===== verification/PayloadsV6.v ===== *)
(** * compatibility/src/sdk/v6_libra_framework_sdk_builder.rs: the calls of
    the release 6 framework *)
From Stdlib Require Import ZArith.
From stdpp Require Import base option list strings gmap.
From S2P Require Import Prelude RustStr Json Effects Bytes FileSystem MoveTypes Node EntryCalls.

Open Scope list_scope.
Open Scope Z_scope.

(** ** The payloads *)
Definition account_offer_rotation_capability (rotation_capability_sig_bytes : bytes) (account_scheme : Z)
    (account_public_key_bytes : bytes) (recipient_address : AccountAddress) : TransactionPayload :=
  entry "account" "offer_rotation_capability" [ArgBytes rotation_capability_sig_bytes; ArgU8 account_scheme; ArgBytes
    account_public_key_bytes; ArgAddress recipient_address].
Definition account_offer_signer_capability (signer_capability_sig_bytes : bytes) (account_scheme : Z)
    (account_public_key_bytes : bytes) (recipient_address : AccountAddress) : TransactionPayload :=
  entry "account" "offer_signer_capability" [ArgBytes signer_capability_sig_bytes; ArgU8 account_scheme; ArgBytes
    account_public_key_bytes; ArgAddress recipient_address].
Definition account_revoke_any_rotation_capability : TransactionPayload :=
  entry "account" "revoke_any_rotation_capability" [].
Definition account_revoke_any_signer_capability : TransactionPayload :=
  entry "account" "revoke_any_signer_capability" [].
Definition account_revoke_rotation_capability (to_be_revoked_address : AccountAddress) : TransactionPayload :=
  entry "account" "revoke_rotation_capability" [ArgAddress to_be_revoked_address].
Definition account_revoke_signer_capability (to_be_revoked_address : AccountAddress) : TransactionPayload :=
  entry "account" "revoke_signer_capability" [ArgAddress to_be_revoked_address].
Definition account_rotate_authentication_key (from_scheme : Z) (from_public_key_bytes : bytes) (to_scheme : Z)
    (to_public_key_bytes : bytes) (cap_rotate_key : bytes) (cap_update_table : bytes) : TransactionPayload :=
  entry "account" "rotate_authentication_key" [ArgU8 from_scheme; ArgBytes from_public_key_bytes; ArgU8 to_scheme;
    ArgBytes to_public_key_bytes; ArgBytes cap_rotate_key; ArgBytes cap_update_table].
Definition account_rotate_authentication_key_with_rotation_capability (rotation_cap_offerer_address : AccountAddress)
    (new_scheme : Z) (new_public_key_bytes : bytes) (cap_update_table : bytes) : TransactionPayload :=
  entry "account" "rotate_authentication_key_with_rotation_capability" [ArgAddress rotation_cap_offerer_address;
    ArgU8 new_scheme; ArgBytes new_public_key_bytes; ArgBytes cap_update_table].
Definition burn_set_send_community (community : bool) : TransactionPayload :=
  entry "burn" "set_send_community" [ArgBool community].
Definition code_publish_package_txn (metadata_serialized : bytes) (code : list bytes) : TransactionPayload :=
  entry "code" "publish_package_txn" [ArgBytes metadata_serialized; ArgBytesList code].
Definition coin_transfer (coin_type : TypeTag) (to : AccountAddress) (amount : Z) : TransactionPayload :=
  PayloadEntry (mk_entry (CORE_CODE_ADDRESS, "coin"%string) "transfer" [coin_type] [ArgAddress to; ArgU64 amount]).
Definition community_wallet_init_change_signer_community_multisig (multisig_address : AccountAddress) (new_signer :
    AccountAddress) (is_add_operation : bool) (n_of_m : Z) (vote_duration_epochs : Z) : TransactionPayload :=
  entry "community_wallet_init" "change_signer_community_multisig" [ArgAddress multisig_address; ArgAddress
    new_signer; ArgBool is_add_operation; ArgU64 n_of_m; ArgU64 vote_duration_epochs].
Definition community_wallet_init_finalize_and_cage (initial_authorities : list AccountAddress) (num_signers : Z) :
    TransactionPayload :=
  entry "community_wallet_init" "finalize_and_cage" [ArgAddresses initial_authorities; ArgU64 num_signers].
Definition community_wallet_init_init_community (check_addresses : list AccountAddress) (check_threshold : Z) :
    TransactionPayload :=
  entry "community_wallet_init" "init_community" [ArgAddresses check_addresses; ArgU64 check_threshold].
Definition diem_governance_add_approved_script_hash_script (proposal_id : Z) : TransactionPayload :=
  entry "diem_governance" "add_approved_script_hash_script" [ArgU64 proposal_id].
Definition diem_governance_assert_can_resolve (proposal_id : Z) : TransactionPayload :=
  entry "diem_governance" "assert_can_resolve" [ArgU64 proposal_id].
Definition diem_governance_create_proposal (stake_pool : AccountAddress) (execution_hash : bytes) (metadata_location
    : bytes) (metadata_hash : bytes) : TransactionPayload :=
  entry "diem_governance" "create_proposal" [ArgAddress stake_pool; ArgBytes execution_hash; ArgBytes
    metadata_location; ArgBytes metadata_hash].
Definition diem_governance_create_proposal_v2 (stake_pool : AccountAddress) (execution_hash : bytes)
    (metadata_location : bytes) (metadata_hash : bytes) (is_multi_step_proposal : bool) : TransactionPayload :=
  entry "diem_governance" "create_proposal_v2" [ArgAddress stake_pool; ArgBytes execution_hash; ArgBytes
    metadata_location; ArgBytes metadata_hash; ArgBool is_multi_step_proposal].
Definition diem_governance_ol_create_proposal_v2 (execution_hash : bytes) (metadata_location : bytes) (metadata_hash
    : bytes) (is_multi_step_proposal : bool) : TransactionPayload :=
  entry "diem_governance" "ol_create_proposal_v2" [ArgBytes execution_hash; ArgBytes metadata_location; ArgBytes
    metadata_hash; ArgBool is_multi_step_proposal].
Definition diem_governance_ol_vote (proposal_id : Z) (should_pass : bool) : TransactionPayload :=
  entry "diem_governance" "ol_vote" [ArgU64 proposal_id; ArgBool should_pass].
Definition diem_governance_smoke_trigger_epoch : TransactionPayload :=
  entry "diem_governance" "smoke_trigger_epoch" [].
Definition diem_governance_trigger_epoch : TransactionPayload :=
  entry "diem_governance" "trigger_epoch" [].
Definition diem_governance_vote (proposal_id : Z) (should_pass : bool) : TransactionPayload :=
  entry "diem_governance" "vote" [ArgU64 proposal_id; ArgBool should_pass].
Definition donor_voice_txs_propose_liquidate_tx (multisig_address : AccountAddress) : TransactionPayload :=
  entry "donor_voice_txs" "propose_liquidate_tx" [ArgAddress multisig_address].
Definition donor_voice_txs_propose_payment_tx (multisig_address : AccountAddress) (payee : AccountAddress) (value :
    Z) (description : bytes) : TransactionPayload :=
  entry "donor_voice_txs" "propose_payment_tx" [ArgAddress multisig_address; ArgAddress payee; ArgU64 value; ArgBytes
    description].
Definition donor_voice_txs_propose_veto_tx (multisig_address : AccountAddress) (id : Z) : TransactionPayload :=
  entry "donor_voice_txs" "propose_veto_tx" [ArgAddress multisig_address; ArgU64 id].
Definition donor_voice_txs_vote_liquidation_tx (multisig_address : AccountAddress) : TransactionPayload :=
  entry "donor_voice_txs" "vote_liquidation_tx" [ArgAddress multisig_address].
Definition donor_voice_txs_vote_veto_tx (multisig_address : AccountAddress) (id : Z) : TransactionPayload :=
  entry "donor_voice_txs" "vote_veto_tx" [ArgAddress multisig_address; ArgU64 id].
Definition epoch_boundary_smoke_trigger_epoch : TransactionPayload :=
  entry "epoch_boundary" "smoke_trigger_epoch" [].
Definition jail_unjail_by_voucher (addr : AccountAddress) : TransactionPayload :=
  entry "jail" "unjail_by_voucher" [ArgAddress addr].
Definition libra_coin_claim_mint_capability : TransactionPayload :=
  entry "libra_coin" "claim_mint_capability" [].
Definition libra_coin_delegate_mint_capability (to : AccountAddress) : TransactionPayload :=
  entry "libra_coin" "delegate_mint_capability" [ArgAddress to].
Definition libra_coin_mint_to_impl (dst_addr : AccountAddress) (amount : Z) : TransactionPayload :=
  entry "libra_coin" "mint_to_impl" [ArgAddress dst_addr; ArgU64 amount].
Definition multi_action_finalize_and_cage (initial_authorities : list AccountAddress) (num_signers : Z) :
    TransactionPayload :=
  entry "multi_action" "finalize_and_cage" [ArgAddresses initial_authorities; ArgU64 num_signers].
Definition multisig_account_add_owner (new_owner : AccountAddress) : TransactionPayload :=
  entry "multisig_account" "add_owner" [ArgAddress new_owner].
Definition multisig_account_add_owners (new_owners : list AccountAddress) : TransactionPayload :=
  entry "multisig_account" "add_owners" [ArgAddresses new_owners].
Definition multisig_account_approve_transaction (multisig_account : AccountAddress) (sequence_number : Z) :
    TransactionPayload :=
  entry "multisig_account" "approve_transaction" [ArgAddress multisig_account; ArgU64 sequence_number].
Definition multisig_account_create (num_signatures_required : Z) (metadata_keys : list bytes) (metadata_values : list
    bytes) : TransactionPayload :=
  entry "multisig_account" "create" [ArgU64 num_signatures_required; ArgBytesList metadata_keys; ArgBytesList
    metadata_values].
Definition multisig_account_create_transaction (multisig_account : AccountAddress) (payload : bytes) :
    TransactionPayload :=
  entry "multisig_account" "create_transaction" [ArgAddress multisig_account; ArgBytes payload].
Definition multisig_account_create_transaction_with_hash (multisig_account : AccountAddress) (payload_hash : bytes) :
    TransactionPayload :=
  entry "multisig_account" "create_transaction_with_hash" [ArgAddress multisig_account; ArgBytes payload_hash].
Definition multisig_account_create_with_existing_account (multisig_address : AccountAddress) (owners : list
    AccountAddress) (num_signatures_required : Z) (account_scheme : Z) (account_public_key : bytes)
    (create_multisig_account_signed_message : bytes) (metadata_keys : list bytes) (metadata_values : list bytes) :
    TransactionPayload :=
  entry "multisig_account" "create_with_existing_account" [ArgAddress multisig_address; ArgAddresses owners; ArgU64
    num_signatures_required; ArgU8 account_scheme; ArgBytes account_public_key; ArgBytes
    create_multisig_account_signed_message; ArgBytesList metadata_keys; ArgBytesList metadata_values].
Definition multisig_account_create_with_owners (additional_owners : list AccountAddress) (num_signatures_required :
    Z) (metadata_keys : list bytes) (metadata_values : list bytes) : TransactionPayload :=
  entry "multisig_account" "create_with_owners" [ArgAddresses additional_owners; ArgU64 num_signatures_required;
    ArgBytesList metadata_keys; ArgBytesList metadata_values].
Definition multisig_account_execute_rejected_transaction (multisig_account : AccountAddress) : TransactionPayload :=
  entry "multisig_account" "execute_rejected_transaction" [ArgAddress multisig_account].
Definition multisig_account_migrate_with_owners (additional_owners : list AccountAddress) (num_signatures_required :
    Z) (metadata_keys : list bytes) (metadata_values : list bytes) : TransactionPayload :=
  entry "multisig_account" "migrate_with_owners" [ArgAddresses additional_owners; ArgU64 num_signatures_required;
    ArgBytesList metadata_keys; ArgBytesList metadata_values].
Definition multisig_account_reject_transaction (multisig_account : AccountAddress) (sequence_number : Z) :
    TransactionPayload :=
  entry "multisig_account" "reject_transaction" [ArgAddress multisig_account; ArgU64 sequence_number].
Definition multisig_account_remove_owner (owner_to_remove : AccountAddress) : TransactionPayload :=
  entry "multisig_account" "remove_owner" [ArgAddress owner_to_remove].
Definition multisig_account_remove_owners (owners_to_remove : list AccountAddress) : TransactionPayload :=
  entry "multisig_account" "remove_owners" [ArgAddresses owners_to_remove].
Definition multisig_account_update_metadata (keys : list bytes) (values : list bytes) : TransactionPayload :=
  entry "multisig_account" "update_metadata" [ArgBytesList keys; ArgBytesList values].
Definition multisig_account_update_signatures_required (new_num_signatures_required : Z) : TransactionPayload :=
  entry "multisig_account" "update_signatures_required" [ArgU64 new_num_signatures_required].
Definition multisig_account_vote_transanction (multisig_account : AccountAddress) (sequence_number : Z) (approved :
    bool) : TransactionPayload :=
  entry "multisig_account" "vote_transanction" [ArgAddress multisig_account; ArgU64 sequence_number; ArgBool
    approved].
Definition object_transfer_call (object : AccountAddress) (to : AccountAddress) : TransactionPayload :=
  entry "object" "transfer_call" [ArgAddress object; ArgAddress to].
Definition ol_account_create_account (auth_key : AccountAddress) : TransactionPayload :=
  entry "ol_account" "create_account" [ArgAddress auth_key].
Definition ol_account_set_allow_direct_coin_transfers (allow : bool) : TransactionPayload :=
  entry "ol_account" "set_allow_direct_coin_transfers" [ArgBool allow].
Definition ol_account_transfer (to : AccountAddress) (amount : Z) : TransactionPayload :=
  entry "ol_account" "transfer" [ArgAddress to; ArgU64 amount].
Definition oracle_init_provider : TransactionPayload :=
  entry "oracle" "init_provider" [].
Definition proof_of_fee_init_bidding : TransactionPayload :=
  entry "proof_of_fee" "init_bidding" [].
Definition proof_of_fee_pof_retract_bid : TransactionPayload :=
  entry "proof_of_fee" "pof_retract_bid" [].
Definition proof_of_fee_pof_update_bid (bid : Z) (epoch_expiry : Z) : TransactionPayload :=
  entry "proof_of_fee" "pof_update_bid" [ArgU64 bid; ArgU64 epoch_expiry].
Definition safe_init_payment_multisig : TransactionPayload :=
  entry "safe" "init_payment_multisig" [].
Definition slow_wallet_smoke_test_vm_unlock (user_addr : AccountAddress) (unlocked : Z) (transferred : Z) :
    TransactionPayload :=
  entry "slow_wallet" "smoke_test_vm_unlock" [ArgAddress user_addr; ArgU64 unlocked; ArgU64 transferred].
Definition slow_wallet_user_set_slow : TransactionPayload :=
  entry "slow_wallet" "user_set_slow" [].
Definition stake_initialize_stake_owner (initial_stake_amount : Z) (operator : AccountAddress) (_voter :
    AccountAddress) : TransactionPayload :=
  entry "stake" "initialize_stake_owner" [ArgU64 initial_stake_amount; ArgAddress operator; ArgAddress _voter].
Definition stake_initialize_validator (consensus_pubkey : bytes) (proof_of_possession : bytes) (network_addresses :
    bytes) (fullnode_addresses : bytes) : TransactionPayload :=
  entry "stake" "initialize_validator" [ArgBytes consensus_pubkey; ArgBytes proof_of_possession; ArgBytes
    network_addresses; ArgBytes fullnode_addresses].
Definition stake_rotate_consensus_key (validator_address : AccountAddress) (new_consensus_pubkey : bytes)
    (proof_of_possession : bytes) : TransactionPayload :=
  entry "stake" "rotate_consensus_key" [ArgAddress validator_address; ArgBytes new_consensus_pubkey; ArgBytes
    proof_of_possession].
Definition stake_set_operator (new_operator : AccountAddress) : TransactionPayload :=
  entry "stake" "set_operator" [ArgAddress new_operator].
Definition stake_update_network_and_fullnode_addresses (validator_address : AccountAddress) (new_network_addresses :
    bytes) (new_fullnode_addresses : bytes) : TransactionPayload :=
  entry "stake" "update_network_and_fullnode_addresses" [ArgAddress validator_address; ArgBytes
    new_network_addresses; ArgBytes new_fullnode_addresses].
Definition tower_state_minerstate_commit (challenge : bytes) (solution : bytes) (difficulty : Z) (security : Z) :
    TransactionPayload :=
  entry "tower_state" "minerstate_commit" [ArgBytes challenge; ArgBytes solution; ArgU64 difficulty; ArgU64 security].
Definition validator_universe_register_validator (consensus_pubkey : bytes) (proof_of_possession : bytes)
    (network_addresses : bytes) (fullnode_addresses : bytes) : TransactionPayload :=
  entry "validator_universe" "register_validator" [ArgBytes consensus_pubkey; ArgBytes proof_of_possession; ArgBytes
    network_addresses; ArgBytes fullnode_addresses].
Definition version_set_version (major : Z) : TransactionPayload :=
  entry "version" "set_version" [ArgU64 major].
Definition vouch_insist_vouch_for (wanna_be_my_friend : AccountAddress) : TransactionPayload :=
  entry "vouch" "insist_vouch_for" [ArgAddress wanna_be_my_friend].
Definition vouch_revoke (its_not_me_its_you : AccountAddress) : TransactionPayload :=
  entry "vouch" "revoke" [ArgAddress its_not_me_its_you].
Definition vouch_vouch_for (wanna_be_my_friend : AccountAddress) : TransactionPayload :=
  entry "vouch" "vouch_for" [ArgAddress wanna_be_my_friend].

(** ** The calls *)
Inductive EntryFunctionCall :=
| AccountOfferRotationCapability (rotation_capability_sig_bytes : bytes) (account_scheme : Z)
    (account_public_key_bytes : bytes) (recipient_address : AccountAddress)
| AccountOfferSignerCapability (signer_capability_sig_bytes : bytes) (account_scheme : Z) (account_public_key_bytes :
    bytes) (recipient_address : AccountAddress)
| AccountRevokeAnyRotationCapability
| AccountRevokeAnySignerCapability
| AccountRevokeRotationCapability (to_be_revoked_address : AccountAddress)
| AccountRevokeSignerCapability (to_be_revoked_address : AccountAddress)
| AccountRotateAuthenticationKey (from_scheme : Z) (from_public_key_bytes : bytes) (to_scheme : Z)
    (to_public_key_bytes : bytes) (cap_rotate_key : bytes) (cap_update_table : bytes)
| AccountRotateAuthenticationKeyWithRotationCapability (rotation_cap_offerer_address : AccountAddress) (new_scheme :
    Z) (new_public_key_bytes : bytes) (cap_update_table : bytes)
| BurnSetSendCommunity (community : bool)
| CodePublishPackageTxn (metadata_serialized : bytes) (code : list bytes)
| CoinTransfer (coin_type : TypeTag) (to : AccountAddress) (amount : Z)
| CommunityWalletInitChangeSignerCommunityMultisig (multisig_address : AccountAddress) (new_signer : AccountAddress)
    (is_add_operation : bool) (n_of_m : Z) (vote_duration_epochs : Z)
| CommunityWalletInitFinalizeAndCage (initial_authorities : list AccountAddress) (num_signers : Z)
| CommunityWalletInitInitCommunity (check_addresses : list AccountAddress) (check_threshold : Z)
| DiemGovernanceAddApprovedScriptHashScript (proposal_id : Z)
| DiemGovernanceAssertCanResolve (proposal_id : Z)
| DiemGovernanceCreateProposal (stake_pool : AccountAddress) (execution_hash : bytes) (metadata_location : bytes)
    (metadata_hash : bytes)
| DiemGovernanceCreateProposalV2 (stake_pool : AccountAddress) (execution_hash : bytes) (metadata_location : bytes)
    (metadata_hash : bytes) (is_multi_step_proposal : bool)
| DiemGovernanceOlCreateProposalV2 (execution_hash : bytes) (metadata_location : bytes) (metadata_hash : bytes)
    (is_multi_step_proposal : bool)
| DiemGovernanceOlVote (proposal_id : Z) (should_pass : bool)
| DiemGovernanceSmokeTriggerEpoch
| DiemGovernanceTriggerEpoch
| DiemGovernanceVote (proposal_id : Z) (should_pass : bool)
| DonorVoiceTxsProposeLiquidateTx (multisig_address : AccountAddress)
| DonorVoiceTxsProposePaymentTx (multisig_address : AccountAddress) (payee : AccountAddress) (value : Z) (description
    : bytes)
| DonorVoiceTxsProposeVetoTx (multisig_address : AccountAddress) (id : Z)
| DonorVoiceTxsVoteLiquidationTx (multisig_address : AccountAddress)
| DonorVoiceTxsVoteVetoTx (multisig_address : AccountAddress) (id : Z)
| EpochBoundarySmokeTriggerEpoch
| JailUnjailByVoucher (addr : AccountAddress)
| LibraCoinClaimMintCapability
| LibraCoinDelegateMintCapability (to : AccountAddress)
| LibraCoinMintToImpl (dst_addr : AccountAddress) (amount : Z)
| MultiActionFinalizeAndCage (initial_authorities : list AccountAddress) (num_signers : Z)
| MultisigAccountAddOwner (new_owner : AccountAddress)
| MultisigAccountAddOwners (new_owners : list AccountAddress)
| MultisigAccountApproveTransaction (multisig_account : AccountAddress) (sequence_number : Z)
| MultisigAccountCreate (num_signatures_required : Z) (metadata_keys : list bytes) (metadata_values : list bytes)
| MultisigAccountCreateTransaction (multisig_account : AccountAddress) (payload : bytes)
| MultisigAccountCreateTransactionWithHash (multisig_account : AccountAddress) (payload_hash : bytes)
| MultisigAccountCreateWithExistingAccount (multisig_address : AccountAddress) (owners : list AccountAddress)
    (num_signatures_required : Z) (account_scheme : Z) (account_public_key : bytes)
    (create_multisig_account_signed_message : bytes) (metadata_keys : list bytes) (metadata_values : list bytes)
| MultisigAccountCreateWithOwners (additional_owners : list AccountAddress) (num_signatures_required : Z)
    (metadata_keys : list bytes) (metadata_values : list bytes)
| MultisigAccountExecuteRejectedTransaction (multisig_account : AccountAddress)
| MultisigAccountMigrateWithOwners (additional_owners : list AccountAddress) (num_signatures_required : Z)
    (metadata_keys : list bytes) (metadata_values : list bytes)
| MultisigAccountRejectTransaction (multisig_account : AccountAddress) (sequence_number : Z)
| MultisigAccountRemoveOwner (owner_to_remove : AccountAddress)
| MultisigAccountRemoveOwners (owners_to_remove : list AccountAddress)
| MultisigAccountUpdateMetadata (keys : list bytes) (values : list bytes)
| MultisigAccountUpdateSignaturesRequired (new_num_signatures_required : Z)
| MultisigAccountVoteTransanction (multisig_account : AccountAddress) (sequence_number : Z) (approved : bool)
| ObjectTransferCall (object : AccountAddress) (to : AccountAddress)
| OlAccountCreateAccount (auth_key : AccountAddress)
| OlAccountSetAllowDirectCoinTransfers (allow : bool)
| OlAccountTransfer (to : AccountAddress) (amount : Z)
| OracleInitProvider
| ProofOfFeeInitBidding
| ProofOfFeePofRetractBid
| ProofOfFeePofUpdateBid (bid : Z) (epoch_expiry : Z)
| SafeInitPaymentMultisig
| SlowWalletSmokeTestVmUnlock (user_addr : AccountAddress) (unlocked : Z) (transferred : Z)
| SlowWalletUserSetSlow
| StakeInitializeStakeOwner (initial_stake_amount : Z) (operator : AccountAddress) (_voter : AccountAddress)
| StakeInitializeValidator (consensus_pubkey : bytes) (proof_of_possession : bytes) (network_addresses : bytes)
    (fullnode_addresses : bytes)
| StakeRotateConsensusKey (validator_address : AccountAddress) (new_consensus_pubkey : bytes) (proof_of_possession :
    bytes)
| StakeSetOperator (new_operator : AccountAddress)
| StakeUpdateNetworkAndFullnodeAddresses (validator_address : AccountAddress) (new_network_addresses : bytes)
    (new_fullnode_addresses : bytes)
| TowerStateMinerstateCommit (challenge : bytes) (solution : bytes) (difficulty : Z) (security : Z)
| ValidatorUniverseRegisterValidator (consensus_pubkey : bytes) (proof_of_possession : bytes) (network_addresses :
    bytes) (fullnode_addresses : bytes)
| VersionSetVersion (major : Z)
| VouchInsistVouchFor (wanna_be_my_friend : AccountAddress)
| VouchRevoke (its_not_me_its_you : AccountAddress)
| VouchVouchFor (wanna_be_my_friend : AccountAddress).

Definition encode (self : EntryFunctionCall) : TransactionPayload :=
  match self with
  | AccountOfferRotationCapability rotation_capability_sig_bytes account_scheme account_public_key_bytes
    recipient_address => account_offer_rotation_capability rotation_capability_sig_bytes account_scheme
    account_public_key_bytes recipient_address
  | AccountOfferSignerCapability signer_capability_sig_bytes account_scheme account_public_key_bytes
    recipient_address => account_offer_signer_capability signer_capability_sig_bytes account_scheme
    account_public_key_bytes recipient_address
  | AccountRevokeAnyRotationCapability => account_revoke_any_rotation_capability
  | AccountRevokeAnySignerCapability => account_revoke_any_signer_capability
  | AccountRevokeRotationCapability to_be_revoked_address => account_revoke_rotation_capability to_be_revoked_address
  | AccountRevokeSignerCapability to_be_revoked_address => account_revoke_signer_capability to_be_revoked_address
  | AccountRotateAuthenticationKey from_scheme from_public_key_bytes to_scheme to_public_key_bytes cap_rotate_key
    cap_update_table => account_rotate_authentication_key from_scheme from_public_key_bytes to_scheme
    to_public_key_bytes cap_rotate_key cap_update_table
  | AccountRotateAuthenticationKeyWithRotationCapability rotation_cap_offerer_address new_scheme new_public_key_bytes
    cap_update_table => account_rotate_authentication_key_with_rotation_capability rotation_cap_offerer_address
    new_scheme new_public_key_bytes cap_update_table
  | BurnSetSendCommunity community => burn_set_send_community community
  | CodePublishPackageTxn metadata_serialized code => code_publish_package_txn metadata_serialized code
  | CoinTransfer coin_type to amount => coin_transfer coin_type to amount
  | CommunityWalletInitChangeSignerCommunityMultisig multisig_address new_signer is_add_operation n_of_m
    vote_duration_epochs => community_wallet_init_change_signer_community_multisig multisig_address new_signer
    is_add_operation n_of_m vote_duration_epochs
  | CommunityWalletInitFinalizeAndCage initial_authorities num_signers => community_wallet_init_finalize_and_cage
    initial_authorities num_signers
  | CommunityWalletInitInitCommunity check_addresses check_threshold => community_wallet_init_init_community
    check_addresses check_threshold
  | DiemGovernanceAddApprovedScriptHashScript proposal_id => diem_governance_add_approved_script_hash_script
    proposal_id
  | DiemGovernanceAssertCanResolve proposal_id => diem_governance_assert_can_resolve proposal_id
  | DiemGovernanceCreateProposal stake_pool execution_hash metadata_location metadata_hash =>
    diem_governance_create_proposal stake_pool execution_hash metadata_location metadata_hash
  | DiemGovernanceCreateProposalV2 stake_pool execution_hash metadata_location metadata_hash is_multi_step_proposal
    => diem_governance_create_proposal_v2 stake_pool execution_hash metadata_location metadata_hash
    is_multi_step_proposal
  | DiemGovernanceOlCreateProposalV2 execution_hash metadata_location metadata_hash is_multi_step_proposal =>
    diem_governance_ol_create_proposal_v2 execution_hash metadata_location metadata_hash is_multi_step_proposal
  | DiemGovernanceOlVote proposal_id should_pass => diem_governance_ol_vote proposal_id should_pass
  | DiemGovernanceSmokeTriggerEpoch => diem_governance_smoke_trigger_epoch
  | DiemGovernanceTriggerEpoch => diem_governance_trigger_epoch
  | DiemGovernanceVote proposal_id should_pass => diem_governance_vote proposal_id should_pass
  | DonorVoiceTxsProposeLiquidateTx multisig_address => donor_voice_txs_propose_liquidate_tx multisig_address
  | DonorVoiceTxsProposePaymentTx multisig_address payee value description => donor_voice_txs_propose_payment_tx
    multisig_address payee value description
  | DonorVoiceTxsProposeVetoTx multisig_address id => donor_voice_txs_propose_veto_tx multisig_address id
  | DonorVoiceTxsVoteLiquidationTx multisig_address => donor_voice_txs_vote_liquidation_tx multisig_address
  | DonorVoiceTxsVoteVetoTx multisig_address id => donor_voice_txs_vote_veto_tx multisig_address id
  | EpochBoundarySmokeTriggerEpoch => epoch_boundary_smoke_trigger_epoch
  | JailUnjailByVoucher addr => jail_unjail_by_voucher addr
  | LibraCoinClaimMintCapability => libra_coin_claim_mint_capability
  | LibraCoinDelegateMintCapability to => libra_coin_delegate_mint_capability to
  | LibraCoinMintToImpl dst_addr amount => libra_coin_mint_to_impl dst_addr amount
  | MultiActionFinalizeAndCage initial_authorities num_signers => multi_action_finalize_and_cage initial_authorities
    num_signers
  | MultisigAccountAddOwner new_owner => multisig_account_add_owner new_owner
  | MultisigAccountAddOwners new_owners => multisig_account_add_owners new_owners
  | MultisigAccountApproveTransaction multisig_account sequence_number => multisig_account_approve_transaction
    multisig_account sequence_number
  | MultisigAccountCreate num_signatures_required metadata_keys metadata_values => multisig_account_create
    num_signatures_required metadata_keys metadata_values
  | MultisigAccountCreateTransaction multisig_account payload => multisig_account_create_transaction multisig_account
    payload
  | MultisigAccountCreateTransactionWithHash multisig_account payload_hash =>
    multisig_account_create_transaction_with_hash multisig_account payload_hash
  | MultisigAccountCreateWithExistingAccount multisig_address owners num_signatures_required account_scheme
    account_public_key create_multisig_account_signed_message metadata_keys metadata_values =>
    multisig_account_create_with_existing_account multisig_address owners num_signatures_required account_scheme
    account_public_key create_multisig_account_signed_message metadata_keys metadata_values
  | MultisigAccountCreateWithOwners additional_owners num_signatures_required metadata_keys metadata_values =>
    multisig_account_create_with_owners additional_owners num_signatures_required metadata_keys metadata_values
  | MultisigAccountExecuteRejectedTransaction multisig_account => multisig_account_execute_rejected_transaction
    multisig_account
  | MultisigAccountMigrateWithOwners additional_owners num_signatures_required metadata_keys metadata_values =>
    multisig_account_migrate_with_owners additional_owners num_signatures_required metadata_keys metadata_values
  | MultisigAccountRejectTransaction multisig_account sequence_number => multisig_account_reject_transaction
    multisig_account sequence_number
  | MultisigAccountRemoveOwner owner_to_remove => multisig_account_remove_owner owner_to_remove
  | MultisigAccountRemoveOwners owners_to_remove => multisig_account_remove_owners owners_to_remove
  | MultisigAccountUpdateMetadata keys values => multisig_account_update_metadata keys values
  | MultisigAccountUpdateSignaturesRequired new_num_signatures_required =>
    multisig_account_update_signatures_required new_num_signatures_required
  | MultisigAccountVoteTransanction multisig_account sequence_number approved => multisig_account_vote_transanction
    multisig_account sequence_number approved
  | ObjectTransferCall object to => object_transfer_call object to
  | OlAccountCreateAccount auth_key => ol_account_create_account auth_key
  | OlAccountSetAllowDirectCoinTransfers allow => ol_account_set_allow_direct_coin_transfers allow
  | OlAccountTransfer to amount => ol_account_transfer to amount
  | OracleInitProvider => oracle_init_provider
  | ProofOfFeeInitBidding => proof_of_fee_init_bidding
  | ProofOfFeePofRetractBid => proof_of_fee_pof_retract_bid
  | ProofOfFeePofUpdateBid bid epoch_expiry => proof_of_fee_pof_update_bid bid epoch_expiry
  | SafeInitPaymentMultisig => safe_init_payment_multisig
  | SlowWalletSmokeTestVmUnlock user_addr unlocked transferred => slow_wallet_smoke_test_vm_unlock user_addr unlocked
    transferred
  | SlowWalletUserSetSlow => slow_wallet_user_set_slow
  | StakeInitializeStakeOwner initial_stake_amount operator _voter => stake_initialize_stake_owner
    initial_stake_amount operator _voter
  | StakeInitializeValidator consensus_pubkey proof_of_possession network_addresses fullnode_addresses =>
    stake_initialize_validator consensus_pubkey proof_of_possession network_addresses fullnode_addresses
  | StakeRotateConsensusKey validator_address new_consensus_pubkey proof_of_possession => stake_rotate_consensus_key
    validator_address new_consensus_pubkey proof_of_possession
  | StakeSetOperator new_operator => stake_set_operator new_operator
  | StakeUpdateNetworkAndFullnodeAddresses validator_address new_network_addresses new_fullnode_addresses =>
    stake_update_network_and_fullnode_addresses validator_address new_network_addresses new_fullnode_addresses
  | TowerStateMinerstateCommit challenge solution difficulty security => tower_state_minerstate_commit challenge
    solution difficulty security
  | ValidatorUniverseRegisterValidator consensus_pubkey proof_of_possession network_addresses fullnode_addresses =>
    validator_universe_register_validator consensus_pubkey proof_of_possession network_addresses fullnode_addresses
  | VersionSetVersion major => version_set_version major
  | VouchInsistVouchFor wanna_be_my_friend => vouch_insist_vouch_for wanna_be_my_friend
  | VouchRevoke its_not_me_its_you => vouch_revoke its_not_me_its_you
  | VouchVouchFor wanna_be_my_friend => vouch_vouch_for wanna_be_my_friend
  end.

(** ** Decoding *)
Section decoder.
Context `{Bcs}.

Definition decode_account_offer_rotation_capability (payload : TransactionPayload) : option EntryFunctionCall :=
  args ← entry_args payload;
  rotation_capability_sig_bytes ← args !! 0%nat ≫= from_vec_u8;
  account_scheme ← args !! 1%nat ≫= from_u8;
  account_public_key_bytes ← args !! 2%nat ≫= from_vec_u8;
  recipient_address ← args !! 3%nat ≫= from_address;
  Some (AccountOfferRotationCapability rotation_capability_sig_bytes account_scheme account_public_key_bytes
    recipient_address).
Definition decode_account_offer_signer_capability (payload : TransactionPayload) : option EntryFunctionCall :=
  args ← entry_args payload;
  signer_capability_sig_bytes ← args !! 0%nat ≫= from_vec_u8;
  account_scheme ← args !! 1%nat ≫= from_u8;
  account_public_key_bytes ← args !! 2%nat ≫= from_vec_u8;
  recipient_address ← args !! 3%nat ≫= from_address;
  Some (AccountOfferSignerCapability signer_capability_sig_bytes account_scheme account_public_key_bytes
    recipient_address).
Definition decode_account_revoke_any_rotation_capability (payload : TransactionPayload) : option EntryFunctionCall :=
  _ ← entry_args payload; Some AccountRevokeAnyRotationCapability.
Definition decode_account_revoke_any_signer_capability (payload : TransactionPayload) : option EntryFunctionCall :=
  _ ← entry_args payload; Some AccountRevokeAnySignerCapability.
Definition decode_account_revoke_rotation_capability (payload : TransactionPayload) : option EntryFunctionCall :=
  args ← entry_args payload;
  to_be_revoked_address ← args !! 0%nat ≫= from_address;
  Some (AccountRevokeRotationCapability to_be_revoked_address).
Definition decode_account_revoke_signer_capability (payload : TransactionPayload) : option EntryFunctionCall :=
  args ← entry_args payload;
  to_be_revoked_address ← args !! 0%nat ≫= from_address;
  Some (AccountRevokeSignerCapability to_be_revoked_address).
Definition decode_account_rotate_authentication_key (payload : TransactionPayload) : option EntryFunctionCall :=
  args ← entry_args payload;
  from_scheme ← args !! 0%nat ≫= from_u8;
  from_public_key_bytes ← args !! 1%nat ≫= from_vec_u8;
  to_scheme ← args !! 2%nat ≫= from_u8;
  to_public_key_bytes ← args !! 3%nat ≫= from_vec_u8;
  cap_rotate_key ← args !! 4%nat ≫= from_vec_u8;
  cap_update_table ← args !! 5%nat ≫= from_vec_u8;
  Some (AccountRotateAuthenticationKey from_scheme from_public_key_bytes to_scheme to_public_key_bytes cap_rotate_key
    cap_update_table).
Definition decode_account_rotate_authentication_key_with_rotation_capability (payload : TransactionPayload) : option
    EntryFunctionCall :=
  args ← entry_args payload;
  rotation_cap_offerer_address ← args !! 0%nat ≫= from_address;
  new_scheme ← args !! 1%nat ≫= from_u8;
  new_public_key_bytes ← args !! 2%nat ≫= from_vec_u8;
  cap_update_table ← args !! 3%nat ≫= from_vec_u8;
  Some (AccountRotateAuthenticationKeyWithRotationCapability rotation_cap_offerer_address new_scheme
    new_public_key_bytes cap_update_table).
Definition decode_burn_set_send_community (payload : TransactionPayload) : option EntryFunctionCall :=
  args ← entry_args payload;
  community ← args !! 0%nat ≫= from_bool;
  Some (BurnSetSendCommunity community).
Definition decode_code_publish_package_txn (payload : TransactionPayload) : option EntryFunctionCall :=
  args ← entry_args payload;
  metadata_serialized ← args !! 0%nat ≫= from_vec_u8;
  code ← args !! 1%nat ≫= from_vec_vec_u8;
  Some (CodePublishPackageTxn metadata_serialized code).
Definition decode_coin_transfer (payload : TransactionPayload) : option EntryFunctionCall :=
  args ← entry_args payload;
  coin_type ← entry_ty_args payload ≫= head;
  to ← args !! 0%nat ≫= from_address;
  amount ← args !! 1%nat ≫= from_u64;
  Some (CoinTransfer coin_type to amount).
Definition decode_community_wallet_init_change_signer_community_multisig (payload : TransactionPayload) : option
    EntryFunctionCall :=
  args ← entry_args payload;
  multisig_address ← args !! 0%nat ≫= from_address;
  new_signer ← args !! 1%nat ≫= from_address;
  is_add_operation ← args !! 2%nat ≫= from_bool;
  n_of_m ← args !! 3%nat ≫= from_u64;
  vote_duration_epochs ← args !! 4%nat ≫= from_u64;
  Some (CommunityWalletInitChangeSignerCommunityMultisig multisig_address new_signer is_add_operation n_of_m
    vote_duration_epochs).
Definition decode_community_wallet_init_finalize_and_cage (payload : TransactionPayload) : option EntryFunctionCall :=
  args ← entry_args payload;
  initial_authorities ← args !! 0%nat ≫= from_vec_address;
  num_signers ← args !! 1%nat ≫= from_u64;
  Some (CommunityWalletInitFinalizeAndCage initial_authorities num_signers).
Definition decode_community_wallet_init_init_community (payload : TransactionPayload) : option EntryFunctionCall :=
  args ← entry_args payload;
  check_addresses ← args !! 0%nat ≫= from_vec_address;
  check_threshold ← args !! 1%nat ≫= from_u64;
  Some (CommunityWalletInitInitCommunity check_addresses check_threshold).
Definition decode_diem_governance_add_approved_script_hash_script (payload : TransactionPayload) : option
    EntryFunctionCall :=
  args ← entry_args payload;
  proposal_id ← args !! 0%nat ≫= from_u64;
  Some (DiemGovernanceAddApprovedScriptHashScript proposal_id).
Definition decode_diem_governance_assert_can_resolve (payload : TransactionPayload) : option EntryFunctionCall :=
  args ← entry_args payload;
  proposal_id ← args !! 0%nat ≫= from_u64;
  Some (DiemGovernanceAssertCanResolve proposal_id).
Definition decode_diem_governance_create_proposal (payload : TransactionPayload) : option EntryFunctionCall :=
  args ← entry_args payload;
  stake_pool ← args !! 0%nat ≫= from_address;
  execution_hash ← args !! 1%nat ≫= from_vec_u8;
  metadata_location ← args !! 2%nat ≫= from_vec_u8;
  metadata_hash ← args !! 3%nat ≫= from_vec_u8;
  Some (DiemGovernanceCreateProposal stake_pool execution_hash metadata_location metadata_hash).
Definition decode_diem_governance_create_proposal_v2 (payload : TransactionPayload) : option EntryFunctionCall :=
  args ← entry_args payload;
  stake_pool ← args !! 0%nat ≫= from_address;
  execution_hash ← args !! 1%nat ≫= from_vec_u8;
  metadata_location ← args !! 2%nat ≫= from_vec_u8;
  metadata_hash ← args !! 3%nat ≫= from_vec_u8;
  is_multi_step_proposal ← args !! 4%nat ≫= from_bool;
  Some (DiemGovernanceCreateProposalV2 stake_pool execution_hash metadata_location metadata_hash
    is_multi_step_proposal).
Definition decode_diem_governance_ol_create_proposal_v2 (payload : TransactionPayload) : option EntryFunctionCall :=
  args ← entry_args payload;
  execution_hash ← args !! 0%nat ≫= from_vec_u8;
  metadata_location ← args !! 1%nat ≫= from_vec_u8;
  metadata_hash ← args !! 2%nat ≫= from_vec_u8;
  is_multi_step_proposal ← args !! 3%nat ≫= from_bool;
  Some (DiemGovernanceOlCreateProposalV2 execution_hash metadata_location metadata_hash is_multi_step_proposal).
Definition decode_diem_governance_ol_vote (payload : TransactionPayload) : option EntryFunctionCall :=
  args ← entry_args payload;
  proposal_id ← args !! 0%nat ≫= from_u64;
  should_pass ← args !! 1%nat ≫= from_bool;
  Some (DiemGovernanceOlVote proposal_id should_pass).
Definition decode_diem_governance_smoke_trigger_epoch (payload : TransactionPayload) : option EntryFunctionCall :=
  _ ← entry_args payload; Some DiemGovernanceSmokeTriggerEpoch.
Definition decode_diem_governance_trigger_epoch (payload : TransactionPayload) : option EntryFunctionCall :=
  _ ← entry_args payload; Some DiemGovernanceTriggerEpoch.
Definition decode_diem_governance_vote (payload : TransactionPayload) : option EntryFunctionCall :=
  args ← entry_args payload;
  proposal_id ← args !! 0%nat ≫= from_u64;
  should_pass ← args !! 1%nat ≫= from_bool;
  Some (DiemGovernanceVote proposal_id should_pass).
Definition decode_donor_voice_txs_propose_liquidate_tx (payload : TransactionPayload) : option EntryFunctionCall :=
  args ← entry_args payload;
  multisig_address ← args !! 0%nat ≫= from_address;
  Some (DonorVoiceTxsProposeLiquidateTx multisig_address).
Definition decode_donor_voice_txs_propose_payment_tx (payload : TransactionPayload) : option EntryFunctionCall :=
  args ← entry_args payload;
  multisig_address ← args !! 0%nat ≫= from_address;
  payee ← args !! 1%nat ≫= from_address;
  value ← args !! 2%nat ≫= from_u64;
  description ← args !! 3%nat ≫= from_vec_u8;
  Some (DonorVoiceTxsProposePaymentTx multisig_address payee value description).
Definition decode_donor_voice_txs_propose_veto_tx (payload : TransactionPayload) : option EntryFunctionCall :=
  args ← entry_args payload;
  multisig_address ← args !! 0%nat ≫= from_address;
  id ← args !! 1%nat ≫= from_u64;
  Some (DonorVoiceTxsProposeVetoTx multisig_address id).
Definition decode_donor_voice_txs_vote_liquidation_tx (payload : TransactionPayload) : option EntryFunctionCall :=
  args ← entry_args payload;
  multisig_address ← args !! 0%nat ≫= from_address;
  Some (DonorVoiceTxsVoteLiquidationTx multisig_address).
Definition decode_donor_voice_txs_vote_veto_tx (payload : TransactionPayload) : option EntryFunctionCall :=
  args ← entry_args payload;
  multisig_address ← args !! 0%nat ≫= from_address;
  id ← args !! 1%nat ≫= from_u64;
  Some (DonorVoiceTxsVoteVetoTx multisig_address id).
Definition decode_epoch_boundary_smoke_trigger_epoch (payload : TransactionPayload) : option EntryFunctionCall :=
  _ ← entry_args payload; Some EpochBoundarySmokeTriggerEpoch.
Definition decode_jail_unjail_by_voucher (payload : TransactionPayload) : option EntryFunctionCall :=
  args ← entry_args payload;
  addr ← args !! 0%nat ≫= from_address;
  Some (JailUnjailByVoucher addr).
Definition decode_libra_coin_claim_mint_capability (payload : TransactionPayload) : option EntryFunctionCall :=
  _ ← entry_args payload; Some LibraCoinClaimMintCapability.
Definition decode_libra_coin_delegate_mint_capability (payload : TransactionPayload) : option EntryFunctionCall :=
  args ← entry_args payload;
  to ← args !! 0%nat ≫= from_address;
  Some (LibraCoinDelegateMintCapability to).
Definition decode_libra_coin_mint_to_impl (payload : TransactionPayload) : option EntryFunctionCall :=
  args ← entry_args payload;
  dst_addr ← args !! 0%nat ≫= from_address;
  amount ← args !! 1%nat ≫= from_u64;
  Some (LibraCoinMintToImpl dst_addr amount).
Definition decode_multi_action_finalize_and_cage (payload : TransactionPayload) : option EntryFunctionCall :=
  args ← entry_args payload;
  initial_authorities ← args !! 0%nat ≫= from_vec_address;
  num_signers ← args !! 1%nat ≫= from_u64;
  Some (MultiActionFinalizeAndCage initial_authorities num_signers).
Definition decode_multisig_account_add_owner (payload : TransactionPayload) : option EntryFunctionCall :=
  args ← entry_args payload;
  new_owner ← args !! 0%nat ≫= from_address;
  Some (MultisigAccountAddOwner new_owner).
Definition decode_multisig_account_add_owners (payload : TransactionPayload) : option EntryFunctionCall :=
  args ← entry_args payload;
  new_owners ← args !! 0%nat ≫= from_vec_address;
  Some (MultisigAccountAddOwners new_owners).
Definition decode_multisig_account_approve_transaction (payload : TransactionPayload) : option EntryFunctionCall :=
  args ← entry_args payload;
  multisig_account ← args !! 0%nat ≫= from_address;
  sequence_number ← args !! 1%nat ≫= from_u64;
  Some (MultisigAccountApproveTransaction multisig_account sequence_number).
Definition decode_multisig_account_create (payload : TransactionPayload) : option EntryFunctionCall :=
  args ← entry_args payload;
  num_signatures_required ← args !! 0%nat ≫= from_u64;
  metadata_keys ← args !! 1%nat ≫= from_vec_vec_u8;
  metadata_values ← args !! 2%nat ≫= from_vec_vec_u8;
  Some (MultisigAccountCreate num_signatures_required metadata_keys metadata_values).
Definition decode_multisig_account_create_transaction (payload : TransactionPayload) : option EntryFunctionCall :=
  args ← entry_args payload;
  multisig_account ← args !! 0%nat ≫= from_address;
  payload ← args !! 1%nat ≫= from_vec_u8;
  Some (MultisigAccountCreateTransaction multisig_account payload).
Definition decode_multisig_account_create_transaction_with_hash (payload : TransactionPayload) : option
    EntryFunctionCall :=
  args ← entry_args payload;
  multisig_account ← args !! 0%nat ≫= from_address;
  payload_hash ← args !! 1%nat ≫= from_vec_u8;
  Some (MultisigAccountCreateTransactionWithHash multisig_account payload_hash).
Definition decode_multisig_account_create_with_existing_account (payload : TransactionPayload) : option
    EntryFunctionCall :=
  args ← entry_args payload;
  multisig_address ← args !! 0%nat ≫= from_address;
  owners ← args !! 1%nat ≫= from_vec_address;
  num_signatures_required ← args !! 2%nat ≫= from_u64;
  account_scheme ← args !! 3%nat ≫= from_u8;
  account_public_key ← args !! 4%nat ≫= from_vec_u8;
  create_multisig_account_signed_message ← args !! 5%nat ≫= from_vec_u8;
  metadata_keys ← args !! 6%nat ≫= from_vec_vec_u8;
  metadata_values ← args !! 7%nat ≫= from_vec_vec_u8;
  Some (MultisigAccountCreateWithExistingAccount multisig_address owners num_signatures_required account_scheme
    account_public_key create_multisig_account_signed_message metadata_keys metadata_values).
Definition decode_multisig_account_create_with_owners (payload : TransactionPayload) : option EntryFunctionCall :=
  args ← entry_args payload;
  additional_owners ← args !! 0%nat ≫= from_vec_address;
  num_signatures_required ← args !! 1%nat ≫= from_u64;
  metadata_keys ← args !! 2%nat ≫= from_vec_vec_u8;
  metadata_values ← args !! 3%nat ≫= from_vec_vec_u8;
  Some (MultisigAccountCreateWithOwners additional_owners num_signatures_required metadata_keys metadata_values).
Definition decode_multisig_account_execute_rejected_transaction (payload : TransactionPayload) : option
    EntryFunctionCall :=
  args ← entry_args payload;
  multisig_account ← args !! 0%nat ≫= from_address;
  Some (MultisigAccountExecuteRejectedTransaction multisig_account).
Definition decode_multisig_account_migrate_with_owners (payload : TransactionPayload) : option EntryFunctionCall :=
  args ← entry_args payload;
  additional_owners ← args !! 0%nat ≫= from_vec_address;
  num_signatures_required ← args !! 1%nat ≫= from_u64;
  metadata_keys ← args !! 2%nat ≫= from_vec_vec_u8;
  metadata_values ← args !! 3%nat ≫= from_vec_vec_u8;
  Some (MultisigAccountMigrateWithOwners additional_owners num_signatures_required metadata_keys metadata_values).
Definition decode_multisig_account_reject_transaction (payload : TransactionPayload) : option EntryFunctionCall :=
  args ← entry_args payload;
  multisig_account ← args !! 0%nat ≫= from_address;
  sequence_number ← args !! 1%nat ≫= from_u64;
  Some (MultisigAccountRejectTransaction multisig_account sequence_number).
Definition decode_multisig_account_remove_owner (payload : TransactionPayload) : option EntryFunctionCall :=
  args ← entry_args payload;
  owner_to_remove ← args !! 0%nat ≫= from_address;
  Some (MultisigAccountRemoveOwner owner_to_remove).
Definition decode_multisig_account_remove_owners (payload : TransactionPayload) : option EntryFunctionCall :=
  args ← entry_args payload;
  owners_to_remove ← args !! 0%nat ≫= from_vec_address;
  Some (MultisigAccountRemoveOwners owners_to_remove).
Definition decode_multisig_account_update_metadata (payload : TransactionPayload) : option EntryFunctionCall :=
  args ← entry_args payload;
  keys ← args !! 0%nat ≫= from_vec_vec_u8;
  values ← args !! 1%nat ≫= from_vec_vec_u8;
  Some (MultisigAccountUpdateMetadata keys values).
Definition decode_multisig_account_update_signatures_required (payload : TransactionPayload) : option
    EntryFunctionCall :=
  args ← entry_args payload;
  new_num_signatures_required ← args !! 0%nat ≫= from_u64;
  Some (MultisigAccountUpdateSignaturesRequired new_num_signatures_required).
Definition decode_multisig_account_vote_transanction (payload : TransactionPayload) : option EntryFunctionCall :=
  args ← entry_args payload;
  multisig_account ← args !! 0%nat ≫= from_address;
  sequence_number ← args !! 1%nat ≫= from_u64;
  approved ← args !! 2%nat ≫= from_bool;
  Some (MultisigAccountVoteTransanction multisig_account sequence_number approved).
Definition decode_object_transfer_call (payload : TransactionPayload) : option EntryFunctionCall :=
  args ← entry_args payload;
  object ← args !! 0%nat ≫= from_address;
  to ← args !! 1%nat ≫= from_address;
  Some (ObjectTransferCall object to).
Definition decode_ol_account_create_account (payload : TransactionPayload) : option EntryFunctionCall :=
  args ← entry_args payload;
  auth_key ← args !! 0%nat ≫= from_address;
  Some (OlAccountCreateAccount auth_key).
Definition decode_ol_account_set_allow_direct_coin_transfers (payload : TransactionPayload) : option
    EntryFunctionCall :=
  args ← entry_args payload;
  allow ← args !! 0%nat ≫= from_bool;
  Some (OlAccountSetAllowDirectCoinTransfers allow).
Definition decode_ol_account_transfer (payload : TransactionPayload) : option EntryFunctionCall :=
  args ← entry_args payload;
  to ← args !! 0%nat ≫= from_address;
  amount ← args !! 1%nat ≫= from_u64;
  Some (OlAccountTransfer to amount).
Definition decode_oracle_init_provider (payload : TransactionPayload) : option EntryFunctionCall :=
  _ ← entry_args payload; Some OracleInitProvider.
Definition decode_proof_of_fee_init_bidding (payload : TransactionPayload) : option EntryFunctionCall :=
  _ ← entry_args payload; Some ProofOfFeeInitBidding.
Definition decode_proof_of_fee_pof_retract_bid (payload : TransactionPayload) : option EntryFunctionCall :=
  _ ← entry_args payload; Some ProofOfFeePofRetractBid.
Definition decode_proof_of_fee_pof_update_bid (payload : TransactionPayload) : option EntryFunctionCall :=
  args ← entry_args payload;
  bid ← args !! 0%nat ≫= from_u64;
  epoch_expiry ← args !! 1%nat ≫= from_u64;
  Some (ProofOfFeePofUpdateBid bid epoch_expiry).
Definition decode_safe_init_payment_multisig (payload : TransactionPayload) : option EntryFunctionCall :=
  _ ← entry_args payload; Some SafeInitPaymentMultisig.
Definition decode_slow_wallet_smoke_test_vm_unlock (payload : TransactionPayload) : option EntryFunctionCall :=
  args ← entry_args payload;
  user_addr ← args !! 0%nat ≫= from_address;
  unlocked ← args !! 1%nat ≫= from_u64;
  transferred ← args !! 2%nat ≫= from_u64;
  Some (SlowWalletSmokeTestVmUnlock user_addr unlocked transferred).
Definition decode_slow_wallet_user_set_slow (payload : TransactionPayload) : option EntryFunctionCall :=
  _ ← entry_args payload; Some SlowWalletUserSetSlow.
Definition decode_stake_initialize_stake_owner (payload : TransactionPayload) : option EntryFunctionCall :=
  args ← entry_args payload;
  initial_stake_amount ← args !! 0%nat ≫= from_u64;
  operator ← args !! 1%nat ≫= from_address;
  _voter ← args !! 2%nat ≫= from_address;
  Some (StakeInitializeStakeOwner initial_stake_amount operator _voter).
Definition decode_stake_initialize_validator (payload : TransactionPayload) : option EntryFunctionCall :=
  args ← entry_args payload;
  consensus_pubkey ← args !! 0%nat ≫= from_vec_u8;
  proof_of_possession ← args !! 1%nat ≫= from_vec_u8;
  network_addresses ← args !! 2%nat ≫= from_vec_u8;
  fullnode_addresses ← args !! 3%nat ≫= from_vec_u8;
  Some (StakeInitializeValidator consensus_pubkey proof_of_possession network_addresses fullnode_addresses).
Definition decode_stake_rotate_consensus_key (payload : TransactionPayload) : option EntryFunctionCall :=
  args ← entry_args payload;
  validator_address ← args !! 0%nat ≫= from_address;
  new_consensus_pubkey ← args !! 1%nat ≫= from_vec_u8;
  proof_of_possession ← args !! 2%nat ≫= from_vec_u8;
  Some (StakeRotateConsensusKey validator_address new_consensus_pubkey proof_of_possession).
Definition decode_stake_set_operator (payload : TransactionPayload) : option EntryFunctionCall :=
  args ← entry_args payload;
  new_operator ← args !! 0%nat ≫= from_address;
  Some (StakeSetOperator new_operator).
Definition decode_stake_update_network_and_fullnode_addresses (payload : TransactionPayload) : option
    EntryFunctionCall :=
  args ← entry_args payload;
  validator_address ← args !! 0%nat ≫= from_address;
  new_network_addresses ← args !! 1%nat ≫= from_vec_u8;
  new_fullnode_addresses ← args !! 2%nat ≫= from_vec_u8;
  Some (StakeUpdateNetworkAndFullnodeAddresses validator_address new_network_addresses new_fullnode_addresses).
Definition decode_tower_state_minerstate_commit (payload : TransactionPayload) : option EntryFunctionCall :=
  args ← entry_args payload;
  challenge ← args !! 0%nat ≫= from_vec_u8;
  solution ← args !! 1%nat ≫= from_vec_u8;
  difficulty ← args !! 2%nat ≫= from_u64;
  security ← args !! 3%nat ≫= from_u64;
  Some (TowerStateMinerstateCommit challenge solution difficulty security).
Definition decode_validator_universe_register_validator (payload : TransactionPayload) : option EntryFunctionCall :=
  args ← entry_args payload;
  consensus_pubkey ← args !! 0%nat ≫= from_vec_u8;
  proof_of_possession ← args !! 1%nat ≫= from_vec_u8;
  network_addresses ← args !! 2%nat ≫= from_vec_u8;
  fullnode_addresses ← args !! 3%nat ≫= from_vec_u8;
  Some (ValidatorUniverseRegisterValidator consensus_pubkey proof_of_possession network_addresses fullnode_addresses).
Definition decode_version_set_version (payload : TransactionPayload) : option EntryFunctionCall :=
  args ← entry_args payload;
  major ← args !! 0%nat ≫= from_u64;
  Some (VersionSetVersion major).
Definition decode_vouch_insist_vouch_for (payload : TransactionPayload) : option EntryFunctionCall :=
  args ← entry_args payload;
  wanna_be_my_friend ← args !! 0%nat ≫= from_address;
  Some (VouchInsistVouchFor wanna_be_my_friend).
Definition decode_vouch_revoke (payload : TransactionPayload) : option EntryFunctionCall :=
  args ← entry_args payload;
  its_not_me_its_you ← args !! 0%nat ≫= from_address;
  Some (VouchRevoke its_not_me_its_you).
Definition decode_vouch_vouch_for (payload : TransactionPayload) : option EntryFunctionCall :=
  args ← entry_args payload;
  wanna_be_my_friend ← args !! 0%nat ≫= from_address;
  Some (VouchVouchFor wanna_be_my_friend).

Definition SCRIPT_FUNCTION_DECODER_MAP : list (string * (TransactionPayload → option EntryFunctionCall)) := [
  ("account_offer_rotation_capability", decode_account_offer_rotation_capability);
  ("account_offer_signer_capability", decode_account_offer_signer_capability);
  ("account_revoke_any_rotation_capability", decode_account_revoke_any_rotation_capability);
  ("account_revoke_any_signer_capability", decode_account_revoke_any_signer_capability);
  ("account_revoke_rotation_capability", decode_account_revoke_rotation_capability);
  ("account_revoke_signer_capability", decode_account_revoke_signer_capability);
  ("account_rotate_authentication_key", decode_account_rotate_authentication_key);
  ("account_rotate_authentication_key_with_rotation_capability",
    decode_account_rotate_authentication_key_with_rotation_capability);
  ("burn_set_send_community", decode_burn_set_send_community);
  ("code_publish_package_txn", decode_code_publish_package_txn);
  ("coin_transfer", decode_coin_transfer);
  ("community_wallet_init_change_signer_community_multisig",
    decode_community_wallet_init_change_signer_community_multisig);
  ("community_wallet_init_finalize_and_cage", decode_community_wallet_init_finalize_and_cage);
  ("community_wallet_init_init_community", decode_community_wallet_init_init_community);
  ("diem_governance_add_approved_script_hash_script", decode_diem_governance_add_approved_script_hash_script);
  ("diem_governance_assert_can_resolve", decode_diem_governance_assert_can_resolve);
  ("diem_governance_create_proposal", decode_diem_governance_create_proposal);
  ("diem_governance_create_proposal_v2", decode_diem_governance_create_proposal_v2);
  ("diem_governance_ol_create_proposal_v2", decode_diem_governance_ol_create_proposal_v2);
  ("diem_governance_ol_vote", decode_diem_governance_ol_vote);
  ("diem_governance_smoke_trigger_epoch", decode_diem_governance_smoke_trigger_epoch);
  ("diem_governance_trigger_epoch", decode_diem_governance_trigger_epoch);
  ("diem_governance_vote", decode_diem_governance_vote);
  ("donor_voice_txs_propose_liquidate_tx", decode_donor_voice_txs_propose_liquidate_tx);
  ("donor_voice_txs_propose_payment_tx", decode_donor_voice_txs_propose_payment_tx);
  ("donor_voice_txs_propose_veto_tx", decode_donor_voice_txs_propose_veto_tx);
  ("donor_voice_txs_vote_liquidation_tx", decode_donor_voice_txs_vote_liquidation_tx);
  ("donor_voice_txs_vote_veto_tx", decode_donor_voice_txs_vote_veto_tx);
  ("epoch_boundary_smoke_trigger_epoch", decode_epoch_boundary_smoke_trigger_epoch);
  ("jail_unjail_by_voucher", decode_jail_unjail_by_voucher);
  ("libra_coin_claim_mint_capability", decode_libra_coin_claim_mint_capability);
  ("libra_coin_delegate_mint_capability", decode_libra_coin_delegate_mint_capability);
  ("libra_coin_mint_to_impl", decode_libra_coin_mint_to_impl);
  ("multi_action_finalize_and_cage", decode_multi_action_finalize_and_cage);
  ("multisig_account_add_owner", decode_multisig_account_add_owner);
  ("multisig_account_add_owners", decode_multisig_account_add_owners);
  ("multisig_account_approve_transaction", decode_multisig_account_approve_transaction);
  ("multisig_account_create", decode_multisig_account_create);
  ("multisig_account_create_transaction", decode_multisig_account_create_transaction);
  ("multisig_account_create_transaction_with_hash", decode_multisig_account_create_transaction_with_hash);
  ("multisig_account_create_with_existing_account", decode_multisig_account_create_with_existing_account);
  ("multisig_account_create_with_owners", decode_multisig_account_create_with_owners);
  ("multisig_account_execute_rejected_transaction", decode_multisig_account_execute_rejected_transaction);
  ("multisig_account_migrate_with_owners", decode_multisig_account_migrate_with_owners);
  ("multisig_account_reject_transaction", decode_multisig_account_reject_transaction);
  ("multisig_account_remove_owner", decode_multisig_account_remove_owner);
  ("multisig_account_remove_owners", decode_multisig_account_remove_owners);
  ("multisig_account_update_metadata", decode_multisig_account_update_metadata);
  ("multisig_account_update_signatures_required", decode_multisig_account_update_signatures_required);
  ("multisig_account_vote_transanction", decode_multisig_account_vote_transanction);
  ("object_transfer_call", decode_object_transfer_call);
  ("ol_account_create_account", decode_ol_account_create_account);
  ("ol_account_set_allow_direct_coin_transfers", decode_ol_account_set_allow_direct_coin_transfers);
  ("ol_account_transfer", decode_ol_account_transfer);
  ("oracle_init_provider", decode_oracle_init_provider);
  ("proof_of_fee_init_bidding", decode_proof_of_fee_init_bidding);
  ("proof_of_fee_pof_retract_bid", decode_proof_of_fee_pof_retract_bid);
  ("proof_of_fee_pof_update_bid", decode_proof_of_fee_pof_update_bid);
  ("safe_init_payment_multisig", decode_safe_init_payment_multisig);
  ("slow_wallet_smoke_test_vm_unlock", decode_slow_wallet_smoke_test_vm_unlock);
  ("slow_wallet_user_set_slow", decode_slow_wallet_user_set_slow);
  ("stake_initialize_stake_owner", decode_stake_initialize_stake_owner);
  ("stake_initialize_validator", decode_stake_initialize_validator);
  ("stake_rotate_consensus_key", decode_stake_rotate_consensus_key);
  ("stake_set_operator", decode_stake_set_operator);
  ("stake_update_network_and_fullnode_addresses", decode_stake_update_network_and_fullnode_addresses);
  ("tower_state_minerstate_commit", decode_tower_state_minerstate_commit);
  ("validator_universe_register_validator", decode_validator_universe_register_validator);
  ("version_set_version", decode_version_set_version);
  ("vouch_insist_vouch_for", decode_vouch_insist_vouch_for);
  ("vouch_revoke", decode_vouch_revoke);
  ("vouch_vouch_for", decode_vouch_vouch_for)
]%string.

Definition decode (payload : TransactionPayload) : option EntryFunctionCall :=
  key ← decoder_key payload;
  d ← assoc key SCRIPT_FUNCTION_DECODER_MAP;
  d payload.
End decoder.

(** ** Lemmas *)
Section decoding.
Context `{Bcs}.

Lemma v6_decode_encode c : decode (encode c) = Some c.
Proof.
  destruct c; unfold decode; cbn;
    by rewrite ?from_u8_law, ?from_u64_law, ?from_bool_law, ?from_address_law, ?from_vec_u8_law, ?from_vec_vec_u8_law,
      ?from_vec_address_law.
Qed.
Lemma v6_table_decodes : Forall (decodes encode) SCRIPT_FUNCTION_DECODER_MAP.
Proof.
  unfold SCRIPT_FUNCTION_DECODER_MAP. repeat (apply Forall_cons_2; [intros p c Hd; unfold snd in Hd; read_args Hd; by injection Hd as <-|]).
  apply Forall_nil_2.
Qed.
End decoding.
