(* ===== verification/PayloadVersions.v ===== *)
(** * The calls of the releases against one another

    The three builders share names and the wire format.  What a payload of one
    release is to the decoder of the next. *)
From Stdlib Require Import ZArith.
From stdpp Require Import base option list strings gmap.
From S2P Require Import Prelude RustStr Json Effects Bytes FileSystem MoveTypes Node EntryCalls.
From S2P Require Import PayloadsV6 PayloadsV7 Payloads.

Open Scope list_scope.
Open Scope Z_scope.

(** The calls of release 7 that are still calls of the framework: those whose
    function has kept its parameters *)
Definition v7_to_current (c : PayloadsV7.EntryFunctionCall) : option Payloads.EntryFunctionCall :=
  match c with
  | PayloadsV7.AccountOfferRotationCapability rotation_capability_sig_bytes account_scheme account_public_key_bytes
    recipient_address => Some (Payloads.AccountOfferRotationCapability rotation_capability_sig_bytes account_scheme
    account_public_key_bytes recipient_address)
  | PayloadsV7.AccountRevokeRotationCapability to_be_revoked_address => Some
    (Payloads.AccountRevokeRotationCapability to_be_revoked_address)
  | PayloadsV7.AccountRotateAuthenticationKey from_scheme from_public_key_bytes to_scheme to_public_key_bytes
    cap_rotate_key cap_update_table => Some (Payloads.AccountRotateAuthenticationKey from_scheme
    from_public_key_bytes to_scheme to_public_key_bytes cap_rotate_key cap_update_table)
  | PayloadsV7.AccountRotateAuthenticationKeyWithRotationCapability rotation_cap_offerer_address new_scheme
    new_public_key_bytes cap_update_table => Some (Payloads.AccountRotateAuthenticationKeyWithRotationCapability
    rotation_cap_offerer_address new_scheme new_public_key_bytes cap_update_table)
  | PayloadsV7.BurnSetSendCommunity community => Some (Payloads.BurnSetSendCommunity community)
  | PayloadsV7.CodePublishPackageTxn metadata_serialized code => Some (Payloads.CodePublishPackageTxn
    metadata_serialized code)
  | PayloadsV7.CommunityWalletInitChangeSignerCommunityMultisig multisig_address new_signer is_add_operation n_of_m
    vote_duration_epochs => Some (Payloads.CommunityWalletInitChangeSignerCommunityMultisig multisig_address
    new_signer is_add_operation n_of_m vote_duration_epochs)
  | PayloadsV7.CommunityWalletInitFinalizeAndCage num_signers => Some (Payloads.CommunityWalletInitFinalizeAndCage
    num_signers)
  | PayloadsV7.CommunityWalletInitInitCommunity initial_authorities check_threshold => Some
    (Payloads.CommunityWalletInitInitCommunity initial_authorities check_threshold)
  | PayloadsV7.CommunityWalletInitProposeOffer new_signers num_signers => Some
    (Payloads.CommunityWalletInitProposeOffer new_signers num_signers)
  | PayloadsV7.DiemGovernanceOlCreateProposalV2 execution_hash metadata_location metadata_hash is_multi_step_proposal
    => Some (Payloads.DiemGovernanceOlCreateProposalV2 execution_hash metadata_location metadata_hash
    is_multi_step_proposal)
  | PayloadsV7.DiemGovernanceOlVote proposal_id should_pass => Some (Payloads.DiemGovernanceOlVote proposal_id
    should_pass)
  | PayloadsV7.DiemGovernanceSmokeTriggerEpoch => Some Payloads.DiemGovernanceSmokeTriggerEpoch
  | PayloadsV7.DiemGovernanceTriggerEpoch => Some Payloads.DiemGovernanceTriggerEpoch
  | PayloadsV7.DonorVoiceTxsProposeLiquidateTx multisig_address => Some (Payloads.DonorVoiceTxsProposeLiquidateTx
    multisig_address)
  | PayloadsV7.DonorVoiceTxsProposeVetoTx multisig_address id => Some (Payloads.DonorVoiceTxsProposeVetoTx
    multisig_address id)
  | PayloadsV7.DonorVoiceTxsVoteLiquidationTx multisig_address => Some (Payloads.DonorVoiceTxsVoteLiquidationTx
    multisig_address)
  | PayloadsV7.EpochBoundarySmokeTriggerEpoch => Some Payloads.EpochBoundarySmokeTriggerEpoch
  | PayloadsV7.JailUnjailByVoucher addr => Some (Payloads.JailUnjailByVoucher addr)
  | PayloadsV7.LibraCoinMintToImpl dst_addr amount => Some (Payloads.LibraCoinMintToImpl dst_addr amount)
  | PayloadsV7.MultiActionClaimOffer multisig_address => Some (Payloads.MultiActionClaimOffer multisig_address)
  | PayloadsV7.MultiActionInitGovDeprecated => Some Payloads.MultiActionInitGovDeprecated
  | PayloadsV7.MultisigAccountAddOwner new_owner => Some (Payloads.MultisigAccountAddOwner new_owner)
  | PayloadsV7.MultisigAccountAddOwners new_owners => Some (Payloads.MultisigAccountAddOwners new_owners)
  | PayloadsV7.MultisigAccountRemoveOwner owner_to_remove => Some (Payloads.MultisigAccountRemoveOwner
    owner_to_remove)
  | PayloadsV7.MultisigAccountRemoveOwners owners_to_remove => Some (Payloads.MultisigAccountRemoveOwners
    owners_to_remove)
  | PayloadsV7.MultisigAccountUpdateMetadata keys values => Some (Payloads.MultisigAccountUpdateMetadata keys values)
  | PayloadsV7.MultisigAccountUpdateSignaturesRequired new_num_signatures_required => Some
    (Payloads.MultisigAccountUpdateSignaturesRequired new_num_signatures_required)
  | PayloadsV7.OlAccountCreateAccount auth_key => Some (Payloads.OlAccountCreateAccount auth_key)
  | PayloadsV7.OlAccountTransfer to amount => Some (Payloads.OlAccountTransfer to amount)
  | PayloadsV7.ProofOfFeePofRetractBid => Some Payloads.ProofOfFeePofRetractBid
  | PayloadsV7.ProofOfFeePofUpdateBid bid epoch_expiry => Some (Payloads.ProofOfFeePofUpdateBid bid epoch_expiry)
  | PayloadsV7.SlowWalletSmokeTestVmUnlock user_addr unlocked transferred => Some
    (Payloads.SlowWalletSmokeTestVmUnlock user_addr unlocked transferred)
  | PayloadsV7.SlowWalletUserSetSlow => Some Payloads.SlowWalletUserSetSlow
  | PayloadsV7.StakeInitializeValidator consensus_pubkey proof_of_possession network_addresses fullnode_addresses =>
    Some (Payloads.StakeInitializeValidator consensus_pubkey proof_of_possession network_addresses fullnode_addresses)
  | PayloadsV7.StakeUpdateNetworkAndFullnodeAddresses validator_address new_network_addresses new_fullnode_addresses
    => Some (Payloads.StakeUpdateNetworkAndFullnodeAddresses validator_address new_network_addresses
    new_fullnode_addresses)
  | PayloadsV7.ValidatorUniverseRegisterValidator consensus_pubkey proof_of_possession network_addresses
    fullnode_addresses => Some (Payloads.ValidatorUniverseRegisterValidator consensus_pubkey proof_of_possession
    network_addresses fullnode_addresses)
  | _ => None
  end.
(** And those of release 6 to release 7 *)
Definition v6_to_v7 (c : PayloadsV6.EntryFunctionCall) : option PayloadsV7.EntryFunctionCall :=
  match c with
  | PayloadsV6.AccountOfferRotationCapability rotation_capability_sig_bytes account_scheme account_public_key_bytes
    recipient_address => Some (PayloadsV7.AccountOfferRotationCapability rotation_capability_sig_bytes account_scheme
    account_public_key_bytes recipient_address)
  | PayloadsV6.AccountOfferSignerCapability signer_capability_sig_bytes account_scheme account_public_key_bytes
    recipient_address => Some (PayloadsV7.AccountOfferSignerCapability signer_capability_sig_bytes account_scheme
    account_public_key_bytes recipient_address)
  | PayloadsV6.AccountRevokeAnyRotationCapability => Some PayloadsV7.AccountRevokeAnyRotationCapability
  | PayloadsV6.AccountRevokeAnySignerCapability => Some PayloadsV7.AccountRevokeAnySignerCapability
  | PayloadsV6.AccountRevokeRotationCapability to_be_revoked_address => Some
    (PayloadsV7.AccountRevokeRotationCapability to_be_revoked_address)
  | PayloadsV6.AccountRevokeSignerCapability to_be_revoked_address => Some (PayloadsV7.AccountRevokeSignerCapability
    to_be_revoked_address)
  | PayloadsV6.AccountRotateAuthenticationKey from_scheme from_public_key_bytes to_scheme to_public_key_bytes
    cap_rotate_key cap_update_table => Some (PayloadsV7.AccountRotateAuthenticationKey from_scheme
    from_public_key_bytes to_scheme to_public_key_bytes cap_rotate_key cap_update_table)
  | PayloadsV6.AccountRotateAuthenticationKeyWithRotationCapability rotation_cap_offerer_address new_scheme
    new_public_key_bytes cap_update_table => Some (PayloadsV7.AccountRotateAuthenticationKeyWithRotationCapability
    rotation_cap_offerer_address new_scheme new_public_key_bytes cap_update_table)
  | PayloadsV6.BurnSetSendCommunity community => Some (PayloadsV7.BurnSetSendCommunity community)
  | PayloadsV6.CodePublishPackageTxn metadata_serialized code => Some (PayloadsV7.CodePublishPackageTxn
    metadata_serialized code)
  | PayloadsV6.CoinTransfer coin_type to amount => Some (PayloadsV7.CoinTransfer coin_type to amount)
  | PayloadsV6.CommunityWalletInitChangeSignerCommunityMultisig multisig_address new_signer is_add_operation n_of_m
    vote_duration_epochs => Some (PayloadsV7.CommunityWalletInitChangeSignerCommunityMultisig multisig_address
    new_signer is_add_operation n_of_m vote_duration_epochs)
  | PayloadsV6.CommunityWalletInitInitCommunity check_addresses check_threshold => Some
    (PayloadsV7.CommunityWalletInitInitCommunity check_addresses check_threshold)
  | PayloadsV6.DiemGovernanceAddApprovedScriptHashScript proposal_id => Some
    (PayloadsV7.DiemGovernanceAddApprovedScriptHashScript proposal_id)
  | PayloadsV6.DiemGovernanceAssertCanResolve proposal_id => Some (PayloadsV7.DiemGovernanceAssertCanResolve
    proposal_id)
  | PayloadsV6.DiemGovernanceOlCreateProposalV2 execution_hash metadata_location metadata_hash is_multi_step_proposal
    => Some (PayloadsV7.DiemGovernanceOlCreateProposalV2 execution_hash metadata_location metadata_hash
    is_multi_step_proposal)
  | PayloadsV6.DiemGovernanceOlVote proposal_id should_pass => Some (PayloadsV7.DiemGovernanceOlVote proposal_id
    should_pass)
  | PayloadsV6.DiemGovernanceSmokeTriggerEpoch => Some PayloadsV7.DiemGovernanceSmokeTriggerEpoch
  | PayloadsV6.DiemGovernanceTriggerEpoch => Some PayloadsV7.DiemGovernanceTriggerEpoch
  | PayloadsV6.DiemGovernanceVote proposal_id should_pass => Some (PayloadsV7.DiemGovernanceVote proposal_id
    should_pass)
  | PayloadsV6.DonorVoiceTxsProposeLiquidateTx multisig_address => Some (PayloadsV7.DonorVoiceTxsProposeLiquidateTx
    multisig_address)
  | PayloadsV6.DonorVoiceTxsProposePaymentTx multisig_address payee value description => Some
    (PayloadsV7.DonorVoiceTxsProposePaymentTx multisig_address payee value description)
  | PayloadsV6.DonorVoiceTxsProposeVetoTx multisig_address id => Some (PayloadsV7.DonorVoiceTxsProposeVetoTx
    multisig_address id)
  | PayloadsV6.DonorVoiceTxsVoteLiquidationTx multisig_address => Some (PayloadsV7.DonorVoiceTxsVoteLiquidationTx
    multisig_address)
  | PayloadsV6.DonorVoiceTxsVoteVetoTx multisig_address id => Some (PayloadsV7.DonorVoiceTxsVoteVetoTx
    multisig_address id)
  | PayloadsV6.EpochBoundarySmokeTriggerEpoch => Some PayloadsV7.EpochBoundarySmokeTriggerEpoch
  | PayloadsV6.JailUnjailByVoucher addr => Some (PayloadsV7.JailUnjailByVoucher addr)
  | PayloadsV6.LibraCoinClaimMintCapability => Some PayloadsV7.LibraCoinClaimMintCapability
  | PayloadsV6.LibraCoinDelegateMintCapability to => Some (PayloadsV7.LibraCoinDelegateMintCapability to)
  | PayloadsV6.LibraCoinMintToImpl dst_addr amount => Some (PayloadsV7.LibraCoinMintToImpl dst_addr amount)
  | PayloadsV6.MultisigAccountAddOwner new_owner => Some (PayloadsV7.MultisigAccountAddOwner new_owner)
  | PayloadsV6.MultisigAccountAddOwners new_owners => Some (PayloadsV7.MultisigAccountAddOwners new_owners)
  | PayloadsV6.MultisigAccountApproveTransaction multisig_account sequence_number => Some
    (PayloadsV7.MultisigAccountApproveTransaction multisig_account sequence_number)
  | PayloadsV6.MultisigAccountCreate num_signatures_required metadata_keys metadata_values => Some
    (PayloadsV7.MultisigAccountCreate num_signatures_required metadata_keys metadata_values)
  | PayloadsV6.MultisigAccountCreateTransaction multisig_account payload => Some
    (PayloadsV7.MultisigAccountCreateTransaction multisig_account payload)
  | PayloadsV6.MultisigAccountCreateTransactionWithHash multisig_account payload_hash => Some
    (PayloadsV7.MultisigAccountCreateTransactionWithHash multisig_account payload_hash)
  | PayloadsV6.MultisigAccountCreateWithExistingAccount multisig_address owners num_signatures_required
    account_scheme account_public_key create_multisig_account_signed_message metadata_keys metadata_values => Some
    (PayloadsV7.MultisigAccountCreateWithExistingAccount multisig_address owners num_signatures_required
    account_scheme account_public_key create_multisig_account_signed_message metadata_keys metadata_values)
  | PayloadsV6.MultisigAccountCreateWithOwners additional_owners num_signatures_required metadata_keys
    metadata_values => Some (PayloadsV7.MultisigAccountCreateWithOwners additional_owners num_signatures_required
    metadata_keys metadata_values)
  | PayloadsV6.MultisigAccountExecuteRejectedTransaction multisig_account => Some
    (PayloadsV7.MultisigAccountExecuteRejectedTransaction multisig_account)
  | PayloadsV6.MultisigAccountMigrateWithOwners additional_owners num_signatures_required metadata_keys
    metadata_values => Some (PayloadsV7.MultisigAccountMigrateWithOwners additional_owners num_signatures_required
    metadata_keys metadata_values)
  | PayloadsV6.MultisigAccountRejectTransaction multisig_account sequence_number => Some
    (PayloadsV7.MultisigAccountRejectTransaction multisig_account sequence_number)
  | PayloadsV6.MultisigAccountRemoveOwner owner_to_remove => Some (PayloadsV7.MultisigAccountRemoveOwner
    owner_to_remove)
  | PayloadsV6.MultisigAccountRemoveOwners owners_to_remove => Some (PayloadsV7.MultisigAccountRemoveOwners
    owners_to_remove)
  | PayloadsV6.MultisigAccountUpdateMetadata keys values => Some (PayloadsV7.MultisigAccountUpdateMetadata keys
    values)
  | PayloadsV6.MultisigAccountUpdateSignaturesRequired new_num_signatures_required => Some
    (PayloadsV7.MultisigAccountUpdateSignaturesRequired new_num_signatures_required)
  | PayloadsV6.MultisigAccountVoteTransanction multisig_account sequence_number approved => Some
    (PayloadsV7.MultisigAccountVoteTransanction multisig_account sequence_number approved)
  | PayloadsV6.ObjectTransferCall object to => Some (PayloadsV7.ObjectTransferCall object to)
  | PayloadsV6.OlAccountCreateAccount auth_key => Some (PayloadsV7.OlAccountCreateAccount auth_key)
  | PayloadsV6.OlAccountSetAllowDirectCoinTransfers allow => Some (PayloadsV7.OlAccountSetAllowDirectCoinTransfers
    allow)
  | PayloadsV6.OlAccountTransfer to amount => Some (PayloadsV7.OlAccountTransfer to amount)
  | PayloadsV6.ProofOfFeeInitBidding => Some PayloadsV7.ProofOfFeeInitBidding
  | PayloadsV6.ProofOfFeePofRetractBid => Some PayloadsV7.ProofOfFeePofRetractBid
  | PayloadsV6.ProofOfFeePofUpdateBid bid epoch_expiry => Some (PayloadsV7.ProofOfFeePofUpdateBid bid epoch_expiry)
  | PayloadsV6.SlowWalletSmokeTestVmUnlock user_addr unlocked transferred => Some
    (PayloadsV7.SlowWalletSmokeTestVmUnlock user_addr unlocked transferred)
  | PayloadsV6.SlowWalletUserSetSlow => Some PayloadsV7.SlowWalletUserSetSlow
  | PayloadsV6.StakeInitializeValidator consensus_pubkey proof_of_possession network_addresses fullnode_addresses =>
    Some (PayloadsV7.StakeInitializeValidator consensus_pubkey proof_of_possession network_addresses
    fullnode_addresses)
  | PayloadsV6.StakeRotateConsensusKey validator_address new_consensus_pubkey proof_of_possession => Some
    (PayloadsV7.StakeRotateConsensusKey validator_address new_consensus_pubkey proof_of_possession)
  | PayloadsV6.StakeUpdateNetworkAndFullnodeAddresses validator_address new_network_addresses new_fullnode_addresses
    => Some (PayloadsV7.StakeUpdateNetworkAndFullnodeAddresses validator_address new_network_addresses
    new_fullnode_addresses)
  | PayloadsV6.ValidatorUniverseRegisterValidator consensus_pubkey proof_of_possession network_addresses
    fullnode_addresses => Some (PayloadsV7.ValidatorUniverseRegisterValidator consensus_pubkey proof_of_possession
    network_addresses fullnode_addresses)
  | PayloadsV6.VersionSetVersion major => Some (PayloadsV7.VersionSetVersion major)
  | PayloadsV6.VouchInsistVouchFor wanna_be_my_friend => Some (PayloadsV7.VouchInsistVouchFor wanna_be_my_friend)
  | PayloadsV6.VouchRevoke its_not_me_its_you => Some (PayloadsV7.VouchRevoke its_not_me_its_you)
  | PayloadsV6.VouchVouchFor wanna_be_my_friend => Some (PayloadsV7.VouchVouchFor wanna_be_my_friend)
  | _ => None
  end.
(** The one call whose parameters were shifted: release 7 reads the address of
    the stake pool as the hash of the script. *)
Definition shifted (c : PayloadsV6.EntryFunctionCall) : bool :=
  match c with PayloadsV6.DiemGovernanceCreateProposalV2 _ _ _ _ _ => true | _ => false end.

Ltac bcs_laws :=
  rewrite ?from_u8_law, ?from_u64_law, ?from_bool_law, ?from_address_law, ?from_vec_u8_law, ?from_vec_vec_u8_law,
    ?from_vec_address_law, ?from_u64_addresses.


