(* ===== verification/MoveEntries.v ===== *)
(** * Entry functions of the Move framework

    The parameters each entry function of libra-framework, vendor-stdlib and
    move-stdlib declares after its signers, and the payloads that fit them. *)
From Stdlib Require Import ZArith.
From stdpp Require Import base option list strings gmap.
From S2P Require Import Prelude RustStr Json Effects Bytes FileSystem MoveTypes Node EntryCalls Payloads.

Open Scope list_scope.
Open Scope Z_scope.

Inductive move_type := TyU8 | TyU64 | TyBool | TyAddress | TyBytes | TyBytesList | TyAddresses | TyString | TyStrings.
(** [entry fun f<T1, .., Tn>(signers, params)] *)
Record entry_function := mk_entry_function {
  fn_module : string;
  fn_name : string;
  fn_type_params : nat;
  fn_params : list move_type
}.

(** ** The declarations *)
Definition sig_account_offer_rotation_capability : entry_function :=
  mk_entry_function "account" "offer_rotation_capability" 0 [TyBytes; TyU8; TyBytes; TyAddress].
Definition sig_account_revoke_rotation_capability : entry_function :=
  mk_entry_function "account" "revoke_rotation_capability" 0 [TyAddress].
Definition sig_account_rotate_authentication_key : entry_function :=
  mk_entry_function "account" "rotate_authentication_key" 0 [TyU8; TyBytes; TyU8; TyBytes; TyBytes; TyBytes].
Definition sig_account_rotate_authentication_key_with_rotation_capability : entry_function :=
  mk_entry_function "account" "rotate_authentication_key_with_rotation_capability" 0 [TyAddress; TyU8; TyBytes;
    TyBytes].
Definition sig_activity_maybe_fix_malformed : entry_function :=
  mk_entry_function "activity" "maybe_fix_malformed" 0 [].
Definition sig_burn_set_send_community : entry_function :=
  mk_entry_function "burn" "set_send_community" 0 [TyBool].
Definition sig_code_publish_package_txn : entry_function :=
  mk_entry_function "code" "publish_package_txn" 0 [TyBytes; TyBytesList].
Definition sig_community_wallet_init_change_signer_community_multisig : entry_function :=
  mk_entry_function "community_wallet_init" "change_signer_community_multisig" 0 [TyAddress; TyAddress; TyBool;
    TyU64; TyU64].
Definition sig_community_wallet_init_finalize_and_cage : entry_function :=
  mk_entry_function "community_wallet_init" "finalize_and_cage" 0 [TyU64].
Definition sig_community_wallet_init_init_community : entry_function :=
  mk_entry_function "community_wallet_init" "init_community" 0 [TyAddresses; TyU64].
Definition sig_community_wallet_init_propose_offer : entry_function :=
  mk_entry_function "community_wallet_init" "propose_offer" 0 [TyAddresses; TyU64].
Definition sig_diem_governance_ol_create_proposal_v2 : entry_function :=
  mk_entry_function "diem_governance" "ol_create_proposal_v2" 0 [TyBytes; TyBytes; TyBytes; TyBool].
Definition sig_diem_governance_ol_vote : entry_function :=
  mk_entry_function "diem_governance" "ol_vote" 0 [TyU64; TyBool].
Definition sig_diem_governance_smoke_trigger_epoch : entry_function :=
  mk_entry_function "diem_governance" "smoke_trigger_epoch" 0 [].
Definition sig_diem_governance_trigger_epoch : entry_function :=
  mk_entry_function "diem_governance" "trigger_epoch" 0 [].
Definition sig_donor_voice_txs_maybe_close_reauth : entry_function :=
  mk_entry_function "donor_voice_txs" "maybe_close_reauth" 0 [TyAddress].
Definition sig_donor_voice_txs_propose_liquidate_tx : entry_function :=
  mk_entry_function "donor_voice_txs" "propose_liquidate_tx" 0 [TyAddress].
Definition sig_donor_voice_txs_propose_payment_tx : entry_function :=
  mk_entry_function "donor_voice_txs" "propose_payment_tx" 0 [TyAddress; TyAddress; TyU64; TyBytes; TyBool].
Definition sig_donor_voice_txs_propose_veto_tx : entry_function :=
  mk_entry_function "donor_voice_txs" "propose_veto_tx" 0 [TyAddress; TyU64].
Definition sig_donor_voice_txs_vote_liquidation_tx : entry_function :=
  mk_entry_function "donor_voice_txs" "vote_liquidation_tx" 0 [TyAddress].
Definition sig_donor_voice_txs_vote_reauth_tx : entry_function :=
  mk_entry_function "donor_voice_txs" "vote_reauth_tx" 0 [TyAddress].
Definition sig_epoch_boundary_smoke_enable_trigger : entry_function :=
  mk_entry_function "epoch_boundary" "smoke_enable_trigger" 0 [].
Definition sig_epoch_boundary_smoke_trigger_epoch : entry_function :=
  mk_entry_function "epoch_boundary" "smoke_trigger_epoch" 0 [].
Definition sig_filo_migration_maybe_migrate : entry_function :=
  mk_entry_function "filo_migration" "maybe_migrate" 0 [].
Definition sig_jail_unjail_by_voucher : entry_function :=
  mk_entry_function "jail" "unjail_by_voucher" 0 [TyAddress].
Definition sig_libra_coin_mint_to_impl : entry_function :=
  mk_entry_function "libra_coin" "mint_to_impl" 0 [TyAddress; TyU64].
Definition sig_multi_action_claim_offer : entry_function :=
  mk_entry_function "multi_action" "claim_offer" 0 [TyAddress].
Definition sig_multi_action_init_gov_deprecated : entry_function :=
  mk_entry_function "multi_action" "init_gov_deprecated" 0 [].
Definition sig_multisig_account_add_owner : entry_function :=
  mk_entry_function "multisig_account" "add_owner" 0 [TyAddress].
Definition sig_multisig_account_add_owners : entry_function :=
  mk_entry_function "multisig_account" "add_owners" 0 [TyAddresses].
Definition sig_multisig_account_remove_owner : entry_function :=
  mk_entry_function "multisig_account" "remove_owner" 0 [TyAddress].
Definition sig_multisig_account_remove_owners : entry_function :=
  mk_entry_function "multisig_account" "remove_owners" 0 [TyAddresses].
Definition sig_multisig_account_update_metadata : entry_function :=
  mk_entry_function "multisig_account" "update_metadata" 0 [TyStrings; TyBytesList].
Definition sig_multisig_account_update_signatures_required : entry_function :=
  mk_entry_function "multisig_account" "update_signatures_required" 0 [TyU64].
Definition sig_ol_account_create_account : entry_function :=
  mk_entry_function "ol_account" "create_account" 0 [TyAddress].
Definition sig_ol_account_transfer : entry_function :=
  mk_entry_function "ol_account" "transfer" 0 [TyAddress; TyU64].
Definition sig_page_rank_lazy_refresh_cache : entry_function :=
  mk_entry_function "page_rank_lazy" "refresh_cache" 0 [TyAddress].
Definition sig_proof_of_fee_pof_retract_bid : entry_function :=
  mk_entry_function "proof_of_fee" "pof_retract_bid" 0 [].
Definition sig_proof_of_fee_pof_update_bid : entry_function :=
  mk_entry_function "proof_of_fee" "pof_update_bid" 0 [TyU64; TyU64].
Definition sig_proof_of_fee_pof_update_bid_net_reward : entry_function :=
  mk_entry_function "proof_of_fee" "pof_update_bid_net_reward" 0 [TyU64; TyU64].
Definition sig_slow_wallet_smoke_test_vm_unlock : entry_function :=
  mk_entry_function "slow_wallet" "smoke_test_vm_unlock" 0 [TyAddress; TyU64; TyU64].
Definition sig_slow_wallet_user_set_slow : entry_function :=
  mk_entry_function "slow_wallet" "user_set_slow" 0 [].
Definition sig_stake_initialize_validator : entry_function :=
  mk_entry_function "stake" "initialize_validator" 0 [TyBytes; TyBytes; TyBytes; TyBytes].
Definition sig_stake_update_network_and_fullnode_addresses : entry_function :=
  mk_entry_function "stake" "update_network_and_fullnode_addresses" 0 [TyAddress; TyBytes; TyBytes].
Definition sig_validator_universe_register_validator : entry_function :=
  mk_entry_function "validator_universe" "register_validator" 0 [TyBytes; TyBytes; TyBytes; TyBytes].
Definition sig_vouch_txs_clean_expired : entry_function :=
  mk_entry_function "vouch_txs" "clean_expired" 0 [].
Definition sig_vouch_txs_revoke : entry_function :=
  mk_entry_function "vouch_txs" "revoke" 0 [TyAddress].
Definition sig_vouch_txs_vouch_for : entry_function :=
  mk_entry_function "vouch_txs" "vouch_for" 0 [TyAddress].

Definition entry_functions : list entry_function := [
  sig_account_offer_rotation_capability;
  sig_account_revoke_rotation_capability;
  sig_account_rotate_authentication_key;
  sig_account_rotate_authentication_key_with_rotation_capability;
  sig_activity_maybe_fix_malformed;
  sig_burn_set_send_community;
  sig_code_publish_package_txn;
  sig_community_wallet_init_change_signer_community_multisig;
  sig_community_wallet_init_finalize_and_cage;
  sig_community_wallet_init_init_community;
  sig_community_wallet_init_propose_offer;
  sig_diem_governance_ol_create_proposal_v2;
  sig_diem_governance_ol_vote;
  sig_diem_governance_smoke_trigger_epoch;
  sig_diem_governance_trigger_epoch;
  sig_donor_voice_txs_maybe_close_reauth;
  sig_donor_voice_txs_propose_liquidate_tx;
  sig_donor_voice_txs_propose_payment_tx;
  sig_donor_voice_txs_propose_veto_tx;
  sig_donor_voice_txs_vote_liquidation_tx;
  sig_donor_voice_txs_vote_reauth_tx;
  sig_epoch_boundary_smoke_enable_trigger;
  sig_epoch_boundary_smoke_trigger_epoch;
  sig_filo_migration_maybe_migrate;
  sig_jail_unjail_by_voucher;
  sig_libra_coin_mint_to_impl;
  sig_multi_action_claim_offer;
  sig_multi_action_init_gov_deprecated;
  sig_multisig_account_add_owner;
  sig_multisig_account_add_owners;
  sig_multisig_account_remove_owner;
  sig_multisig_account_remove_owners;
  sig_multisig_account_update_metadata;
  sig_multisig_account_update_signatures_required;
  sig_ol_account_create_account;
  sig_ol_account_transfer;
  sig_page_rank_lazy_refresh_cache;
  sig_proof_of_fee_pof_retract_bid;
  sig_proof_of_fee_pof_update_bid;
  sig_proof_of_fee_pof_update_bid_net_reward;
  sig_slow_wallet_smoke_test_vm_unlock;
  sig_slow_wallet_user_set_slow;
  sig_stake_initialize_validator;
  sig_stake_update_network_and_fullnode_addresses;
  sig_validator_universe_register_validator;
  sig_vouch_txs_clean_expired;
  sig_vouch_txs_revoke;
  sig_vouch_txs_vouch_for
].

(** ** Payloads that fit *)

(** The argument of a builder that bcs encodes as the type: a string is its
    bytes. *)
Definition has_type (a : Arg) (t : move_type) : bool :=
  match a, t with
  | ArgU8 _, TyU8 | ArgU64 _, TyU64 | ArgBool _, TyBool | ArgAddress _, TyAddress | ArgBytes _, TyBytes
  | ArgBytesList _, TyBytesList | ArgAddresses _, TyAddresses | ArgBytes _, TyString | ArgBytesList _, TyStrings => true
  | _, _ => false
  end.
(** A call of a function of the framework that the VM can bind to its
    parameters *)
Inductive well_typed : TransactionPayload → Prop :=
| well_typed_entry f ty_args args :
    f ∈ entry_functions → length ty_args = fn_type_params f → Forall2 (fun a t => has_type a t = true) args (fn_params f) →
    well_typed (PayloadEntry (mk_entry (CORE_CODE_ADDRESS, fn_module f) (fn_name f) ty_args args)).

(** ** Lemmas *)
Fixpoint have_types (args : list Arg) (ts : list move_type) : bool :=
  match args, ts with
  | [], [] => true
  | a :: args', t :: ts' => has_type a t && have_types args' ts'
  | _, _ => false
  end.
Lemma have_types_spec args ts : have_types args ts = true → Forall2 (fun a t => has_type a t = true) args ts.
Proof.
  revert ts. induction args as [|a args IH]; intros [|t ts]; try done; cbn. intros [Ha Hs]%andb_true_iff.
  constructor; [done|by apply IH].
Qed.
(** The first declaration of that name decides. *)
Definition declared_as (e : EntryFunction) : option entry_function :=
  List.find (fun f => String.eqb (fn_module f) (snd (ef_module e)) && String.eqb (fn_name f) (ef_function e)) entry_functions.
Definition check_payload (p : TransactionPayload) : bool :=
  match p with
  | PayloadEntry e =>
      match declared_as e with
      | Some f => bool_decide (fst (ef_module e) = CORE_CODE_ADDRESS) && (length (ef_ty_args e) =? fn_type_params f)%nat
                  && have_types (ef_args e) (fn_params f)
      | None => false
      end
  | PayloadScript _ => false
  end.
Lemma check_payload_sound p : check_payload p = true → well_typed p.
Proof.
  destruct p as [s|[[a m] n tys args]]; [done|]. cbn [check_payload].
  destruct (declared_as _) as [f|] eqn:E; [|done]. unfold declared_as in E.
  cbn [ef_module ef_function ef_ty_args ef_args fst snd] in *.
  apply List.find_some in E as [Hin Hn]. apply andb_true_iff in Hn as [<-%String.eqb_eq <-%String.eqb_eq].
  intros [[->%bool_decide_eq_true Hl%Nat.eqb_eq]%andb_true_iff Ht%have_types_spec]%andb_true_iff.
  constructor; [by apply list_elem_of_In|done..].
Qed.

Lemma encode_typed c : well_typed (encode c).
Proof. apply check_payload_sound. destruct c; reflexivity. Qed.

(** Goes through the arguments of a declaration. *)
Ltac bind_args :=
  repeat match goal with
  | H : Forall2 _ _ (_ :: _) |- _ => apply Forall2_cons_inv_r in H as (? & ? & ? & H & ->)
  | H : Forall2 _ _ [] |- _ => apply Forall2_nil_inv_r in H as ->
  | H : length ?l = O |- _ => apply nil_length_inv in H as ->
  | H : length ?l = 1%nat |- _ => destruct l as [|? []]; [done| |done]; clear H
  | H : has_type ?a _ = true |- _ => destruct a; try done; clear H
  end.
Lemma typed_encodes p : well_typed p → ∃ c, encode c = p.
Proof.
  intros [f tys args Hf Hl Ht]. unfold entry_functions in Hf.
  repeat (apply elem_of_cons in Hf as [->|Hf]); [..|by apply not_elem_of_nil in Hf];
    cbn in Hl, Ht; bind_args;
    match goal with |- ∃ c, encode c = ?p =>
      let r := eval cbv in (decode p) in match r with Some ?c => exists c; reflexivity end
    end.
Qed.

(** C29: The builder and the framework agree: the payloads it makes are exactly
    the calls of an entry function that the Move sources declare, under the
    framework's address, with as many type arguments as it has type parameters
    and one argument of the right type for each parameter after the signers.  So
    no call is refused for its shape, and no entry function lacks one. *)
Theorem calls_typed p : well_typed p ↔ ∃ c, encode c = p.
Proof. split; [apply typed_encodes|]. intros [c <-]. apply encode_typed. Qed.

(** A coin amount where an address is expected *)
Example ill_typed :
  check_payload (PayloadEntry (mk_entry (CORE_CODE_ADDRESS, "ol_account"%string) "transfer" [] [ArgU64 1; ArgU64 2])) = false.
Proof. reflexivity. Qed.
