(* ===== verification/ScriptCalls.v ===== *)
(** * The calls of the v5 chains: what the builders of two releases share

    A builder of compatibility/src/sdk has two kinds of calls: scripts, which are
    recognised by their bytecode and carry typed arguments, and script functions,
    recognised by the names of the module and the function, whose arguments are
    encoded by the bcs crate. *)
From Stdlib Require Import ZArith Lia.
From stdpp Require Import base option list strings.
From S2P Require Import Prelude RustStr Bytes HashValue LegacyAddress Event LanguageStorage MoveResource Transactions EntryCalls.

Open Scope list_scope.
Open Scope Z_scope.

Notation AccountAddress := LegacyAddressV5.t.
Notation TypeTag := TypeTagV5.

(** [bcs::MAX_SEQUENCE_LENGTH] *)
Definition MAX_SEQUENCE_LENGTH : Z := 2147483647.
(** [bcs::to_bytes] and [bcs::from_bytes] at the types of the parameters; a
    sequence that is too long is an error. *)
Class BcsV5 := {
  to_u8 : Z → outcome bytes;
  to_u64 : Z → outcome bytes;
  to_bool : bool → outcome bytes;
  to_address : AccountAddress → outcome bytes;
  to_vec_u8 : bytes → outcome bytes;
  from_u8 : bytes → option Z;
  from_u64 : bytes → option Z;
  from_bool : bytes → option bool;
  from_address : bytes → option AccountAddress;
  from_vec_u8 : bytes → option bytes;
  u8_law n : is_u8 n → ∃ bs, to_u8 n = Ok bs ∧ from_u8 bs = Some n;
  u64_law n : is_u64 n → ∃ bs, to_u64 n = Ok bs ∧ from_u64 bs = Some n;
  bool_law b : ∃ bs, to_bool b = Ok bs ∧ from_bool bs = Some b;
  address_law a : LegacyAddressV5.wf a → ∃ bs, to_address a = Ok bs ∧ from_address bs = Some a;
  vec_u8_law v : is_bytes v → Z.of_nat (length v) ≤ MAX_SEQUENCE_LENGTH →
    ∃ bs, to_vec_u8 v = Ok bs ∧ from_vec_u8 bs = Some v
}.
(** A byte vector that can be encoded *)
Definition sequence_ok (v : bytes) : Prop := is_bytes v ∧ Z.of_nat (length v) ≤ MAX_SEQUENCE_LENGTH.

(** [bcs::to_bytes(&x).unwrap()] *)
Definition encoded : outcome bytes → outcome bytes := expect_res "called `Result::unwrap()` on an `Err` value".

(** [AccountAddress::new([0, .., 1])] *)
Definition CORE_CODE : AccountAddress := LegacyAddressV5.mk (repeat 0 15 ++ [1]).
Definition function_call (module_name function_name : string) (ty_args : list TypeTag) (args : list bytes) : TransactionPayload :=
  PlScriptFunction (mk_script_function (mkModuleId CORE_CODE module_name) function_name ty_args args).
(** [if let TransactionPayload::ScriptFunction(script) = payload] *)
Definition script_function (payload : TransactionPayload) : option ScriptFunction :=
  match payload with PlScriptFunction f => Some f | _ => None end.
(** The key of the table of functions: nothing separates the names. *)
Definition function_key (f : ScriptFunction) : string := mi_name (sf_module f) +:+ sf_function f.

Definition decode_bool_argument (arg : TransactionArgument) : option bool := match arg with ArgBool b => Some b | _ => None end.
Definition decode_u8_argument (arg : TransactionArgument) : option Z := match arg with ArgU8 v => Some v | _ => None end.
Definition decode_u64_argument (arg : TransactionArgument) : option Z := match arg with ArgU64 v => Some v | _ => None end.
Definition decode_address_argument (arg : TransactionArgument) : option AccountAddress :=
  match arg with ArgAddress a => Some a | _ => None end.
Definition decode_u8vector_argument (arg : TransactionArgument) : option bytes :=
  match arg with ArgU8Vector bs => Some bs | _ => None end.

(** [HashMap::get] *)
Definition by_code {A : Type} (code : bytes) (l : list (bytes * A)) : option A :=
  snd <$> List.find (fun e => bool_decide (fst e = code)) l.

(** ** A decoder reads the calls of one script, or of one function *)
Lemma by_code_some {A : Type} code (l : list (bytes * A)) a : by_code code l = Some a → (code, a) ∈ l.
Proof.
  unfold by_code. destruct (List.find _ l) as [[k b]|] eqn:E; cbn; [|done]. intros [= <-].
  apply List.find_some in E as [Hin Hk]. apply bool_decide_eq_true in Hk. cbn in Hk. subst k. by apply list_elem_of_In.
Qed.
Definition reads_code {C : Type} (encode : C → Script) (e : bytes * (Script → option C)) : Prop :=
  ∀ s c, snd e s = Some c → script_code (encode c) = fst e.
Lemma script_decoded {C : Type} (encode : C → Script) table s c :
  Forall (reads_code encode) table →
  (d ← by_code (script_code s) table; d s) = Some c → script_code s = script_code (encode c).
Proof.
  intros Ht Hd. apply bind_Some in Hd as (d & Hb & Hd). apply by_code_some in Hb.
  rewrite Forall_forall in Ht. symmetry. by apply (Ht _ Hb s c).
Qed.

(** The encoding of a call, when it can be encoded, has the key. *)
Definition reads_function {C : Type} (encode : C → outcome TransactionPayload) (e : string * (TransactionPayload → option C)) : Prop :=
  ∀ p c q, snd e p = Some c → encode c = Ok q → function_key <$> script_function q = Some (fst e).
Lemma function_decoded {C : Type} (encode : C → outcome TransactionPayload) table p c q :
  Forall (reads_function encode) table →
  (f ← script_function p; d ← assoc (function_key f) table; d p) = Some c → encode c = Ok q →
  function_key <$> script_function p = function_key <$> script_function q.
Proof.
  intros Ht Hd Hq. apply bind_Some in Hd as (f & Hf & Hd). apply bind_Some in Hd as (d & Ha & Hd).
  apply assoc_some in Ha. rewrite Forall_forall in Ht. rewrite Hf. cbn. symmetry. by eapply (Ht _ Ha).
Qed.

(** Goes through what an encoder evaluates. *)
Ltac encoding Hq := repeat (apply bind_ok in Hq as (? & _ & Hq)); apply Ok_inj in Hq as <-.
(** Reads back the arguments a call was encoded with. *)
Ltac read_back :=
  repeat match goal with
  | H : _ ∧ _ |- _ => destruct H
  | H : is_u8 ?n |- _ => let b := fresh in destruct (u8_law n H) as (b & -> & ?); clear H
  | H : is_u64 ?n |- _ => let b := fresh in destruct (u64_law n H) as (b & -> & ?); clear H
  | H : LegacyAddressV5.wf ?n |- _ => let b := fresh in destruct (address_law n H) as (b & -> & ?); clear H
  | H : is_bytes ?n, H' : Z.of_nat (length ?n) ≤ _ |- _ =>
      let b := fresh in destruct (vec_u8_law n H H') as (b & -> & ?); clear H H'
  | |- context [to_bool ?b] => let x := fresh in destruct (bool_law b) as (x & -> & ?)
  end.

(** ** A toy encoding for the witnesses *)
#[export] Instance sample_bcs_v5 : BcsV5.
Proof.
  refine {|
    to_u8 n := Ok [n]; to_u64 n := Ok [n]; to_bool b := Ok [if b then 1 else 0]; to_address a := Ok (LegacyAddressV5.addr_bytes a);
    to_vec_u8 v := if MAX_SEQUENCE_LENGTH <? Z.of_nat (length v) then Err "exceeded max sequence length"%string else Ok v;
    from_u8 := head; from_u64 := head; from_bool bs := (fun n => n =? 1) <$> head bs;
    from_address bs := Some (LegacyAddressV5.mk bs); from_vec_u8 bs := Some bs |}.
  - intros n _. by exists [n].
  - intros n _. by exists [n].
  - intros []; by eexists.
  - intros [bs] _. by exists bs.
  - intros v _ Hl. exists v. destruct (Z.ltb_spec MAX_SEQUENCE_LENGTH (Z.of_nat (length v))); [lia|done].
Defined.
