(* ===== verification/ScriptsV52.v ===== *)
(** * compatibility/src/sdk/v5_2_0_transaction_script_builder.rs

    The scripts and script functions of release 5.2. *)
From Stdlib Require Import ZArith Lia.
From stdpp Require Import base option list strings.
From S2P Require Import Prelude RustStr Bytes HashValue LegacyAddress Event LanguageStorage MoveResource Transactions.
From S2P Require Import EntryCalls ScriptCalls.

Open Scope list_scope.
Open Scope Z_scope.

(** ** The scripts *)
Definition ADD_CURRENCY_TO_ACCOUNT_CODE : bytes := [161; 28; 235; 11; 1; 0; 0; 0; 6; 1; 0; 2; 3; 2; 6; 4; 8; 2; 5;
    10; 7; 7; 17; 25; 8; 42; 16; 0; 0; 0; 1; 0; 1; 1; 1; 0; 2; 1; 6; 12; 0; 1; 9; 0; 11; 68; 105; 101; 109; 65; 99;
    99; 111; 117; 110; 116; 12; 97; 100; 100; 95; 99; 117; 114; 114; 101; 110; 99; 121; 0; 0; 0; 0; 0; 0; 0; 0; 0; 0;
    0; 0; 0; 0; 0; 1; 1; 1; 0; 1; 3; 11; 0; 56; 0; 2].
Definition ADD_RECOVERY_ROTATION_CAPABILITY_CODE : bytes := [161; 28; 235; 11; 1; 0; 0; 0; 6; 1; 0; 4; 2; 4; 4; 3; 8;
    10; 5; 18; 15; 7; 33; 106; 8; 139; 1; 16; 0; 0; 0; 1; 0; 2; 1; 0; 0; 3; 0; 1; 0; 1; 4; 2; 3; 0; 1; 6; 12; 1; 8;
    0; 2; 8; 0; 5; 0; 2; 6; 12; 5; 11; 68; 105; 101; 109; 65; 99; 99; 111; 117; 110; 116; 15; 82; 101; 99; 111; 118;
    101; 114; 121; 65; 100; 100; 114; 101; 115; 115; 21; 75; 101; 121; 82; 111; 116; 97; 116; 105; 111; 110; 67; 97;
    112; 97; 98; 105; 108; 105; 116; 121; 31; 101; 120; 116; 114; 97; 99; 116; 95; 107; 101; 121; 95; 114; 111; 116;
    97; 116; 105; 111; 110; 95; 99; 97; 112; 97; 98; 105; 108; 105; 116; 121; 23; 97; 100; 100; 95; 114; 111; 116;
    97; 116; 105; 111; 110; 95; 99; 97; 112; 97; 98; 105; 108; 105; 116; 121; 0; 0; 0; 0; 0; 0; 0; 0; 0; 0; 0; 0; 0;
    0; 0; 1; 0; 4; 3; 5; 11; 0; 17; 0; 10; 1; 17; 1; 2].
Definition ADD_VALIDATOR_AND_RECONFIGURE_CODE : bytes := [161; 28; 235; 11; 1; 0; 0; 0; 5; 1; 0; 6; 3; 6; 15; 5; 21;
    24; 7; 45; 91; 8; 136; 1; 16; 0; 0; 0; 1; 0; 2; 1; 3; 0; 1; 0; 2; 4; 2; 3; 0; 0; 5; 4; 1; 0; 2; 6; 12; 3; 0; 1;
    5; 1; 10; 2; 2; 6; 12; 5; 4; 6; 12; 3; 10; 2; 5; 2; 1; 3; 10; 68; 105; 101; 109; 83; 121; 115; 116; 101; 109; 12;
    83; 108; 105; 100; 105; 110; 103; 78; 111; 110; 99; 101; 15; 86; 97; 108; 105; 100; 97; 116; 111; 114; 67; 111;
    110; 102; 105; 103; 21; 114; 101; 99; 111; 114; 100; 95; 110; 111; 110; 99; 101; 95; 111; 114; 95; 97; 98; 111;
    114; 116; 14; 103; 101; 116; 95; 104; 117; 109; 97; 110; 95; 110; 97; 109; 101; 13; 97; 100; 100; 95; 118; 97;
    108; 105; 100; 97; 116; 111; 114; 0; 0; 0; 0; 0; 0; 0; 0; 0; 0; 0; 0; 0; 0; 0; 1; 0; 5; 6; 18; 10; 0; 10; 1; 17;
    0; 10; 3; 17; 1; 11; 2; 33; 12; 4; 11; 4; 3; 14; 11; 0; 1; 6; 0; 0; 0; 0; 0; 0; 0; 0; 39; 11; 0; 10; 3; 17; 2; 2].
Definition BURN_CODE : bytes := [161; 28; 235; 11; 1; 0; 0; 0; 6; 1; 0; 4; 3; 4; 11; 4; 15; 2; 5; 17; 17; 7; 34; 45;
    8; 79; 16; 0; 0; 0; 1; 1; 2; 0; 1; 0; 0; 3; 2; 1; 1; 1; 1; 4; 2; 6; 12; 3; 0; 2; 6; 12; 5; 3; 6; 12; 3; 5; 1; 9;
    0; 4; 68; 105; 101; 109; 12; 83; 108; 105; 100; 105; 110; 103; 78; 111; 110; 99; 101; 21; 114; 101; 99; 111; 114;
    100; 95; 110; 111; 110; 99; 101; 95; 111; 114; 95; 97; 98; 111; 114; 116; 4; 98; 117; 114; 110; 0; 0; 0; 0; 0; 0;
    0; 0; 0; 0; 0; 0; 0; 0; 0; 1; 1; 1; 3; 1; 7; 10; 0; 10; 1; 17; 0; 11; 0; 10; 2; 56; 0; 2].
Definition BURN_TXN_FEES_CODE : bytes := [161; 28; 235; 11; 1; 0; 0; 0; 6; 1; 0; 2; 3; 2; 6; 4; 8; 2; 5; 10; 7; 7;
    17; 25; 8; 42; 16; 0; 0; 0; 1; 0; 1; 1; 1; 0; 2; 1; 6; 12; 0; 1; 9; 0; 14; 84; 114; 97; 110; 115; 97; 99; 116;
    105; 111; 110; 70; 101; 101; 9; 98; 117; 114; 110; 95; 102; 101; 101; 115; 0; 0; 0; 0; 0; 0; 0; 0; 0; 0; 0; 0; 0;
    0; 0; 1; 1; 1; 0; 1; 3; 11; 0; 56; 0; 2].
Definition CANCEL_BURN_CODE : bytes := [161; 28; 235; 11; 1; 0; 0; 0; 6; 1; 0; 2; 3; 2; 6; 4; 8; 2; 5; 10; 8; 7; 18;
    24; 8; 42; 16; 0; 0; 0; 1; 0; 1; 1; 1; 0; 2; 2; 6; 12; 5; 0; 1; 9; 0; 11; 68; 105; 101; 109; 65; 99; 99; 111;
    117; 110; 116; 11; 99; 97; 110; 99; 101; 108; 95; 98; 117; 114; 110; 0; 0; 0; 0; 0; 0; 0; 0; 0; 0; 0; 0; 0; 0; 0;
    1; 1; 1; 0; 1; 4; 11; 0; 10; 1; 56; 0; 2].
Definition CREATE_CHILD_VASP_ACCOUNT_CODE : bytes := [161; 28; 235; 11; 1; 0; 0; 0; 8; 1; 0; 2; 2; 2; 4; 3; 6; 22; 4;
    28; 4; 5; 32; 35; 7; 67; 122; 8; 189; 1; 16; 6; 205; 1; 4; 0; 0; 0; 1; 1; 0; 0; 2; 0; 1; 1; 1; 0; 3; 2; 3; 0; 0;
    4; 4; 1; 1; 1; 0; 5; 3; 1; 0; 0; 6; 2; 6; 4; 6; 12; 5; 10; 2; 1; 0; 1; 6; 12; 1; 8; 0; 5; 6; 8; 0; 5; 3; 10; 2;
    10; 2; 5; 6; 12; 5; 10; 2; 1; 3; 1; 9; 0; 11; 68; 105; 101; 109; 65; 99; 99; 111; 117; 110; 116; 18; 87; 105;
    116; 104; 100; 114; 97; 119; 67; 97; 112; 97; 98; 105; 108; 105; 116; 121; 25; 99; 114; 101; 97; 116; 101; 95;
    99; 104; 105; 108; 100; 95; 118; 97; 115; 112; 95; 97; 99; 99; 111; 117; 110; 116; 27; 101; 120; 116; 114; 97;
    99; 116; 95; 119; 105; 116; 104; 100; 114; 97; 119; 95; 99; 97; 112; 97; 98; 105; 108; 105; 116; 121; 8; 112; 97;
    121; 95; 102; 114; 111; 109; 27; 114; 101; 115; 116; 111; 114; 101; 95; 119; 105; 116; 104; 100; 114; 97; 119;
    95; 99; 97; 112; 97; 98; 105; 108; 105; 116; 121; 0; 0; 0; 0; 0; 0; 0; 0; 0; 0; 0; 0; 0; 0; 0; 1; 10; 2; 1; 0; 1;
    1; 5; 3; 25; 10; 0; 10; 1; 11; 2; 10; 3; 56; 0; 10; 4; 6; 0; 0; 0; 0; 0; 0; 0; 0; 36; 3; 10; 5; 22; 11; 0; 17; 1;
    12; 5; 14; 5; 10; 1; 10; 4; 7; 0; 7; 0; 56; 1; 11; 5; 17; 3; 5; 24; 11; 0; 1; 2].
Definition CREATE_DESIGNATED_DEALER_CODE : bytes := [161; 28; 235; 11; 1; 0; 0; 0; 6; 1; 0; 4; 3; 4; 11; 4; 15; 2; 5;
    17; 27; 7; 44; 72; 8; 116; 16; 0; 0; 0; 1; 1; 2; 0; 1; 0; 0; 3; 2; 1; 1; 1; 1; 4; 2; 6; 12; 3; 0; 5; 6; 12; 5;
    10; 2; 10; 2; 1; 6; 6; 12; 3; 5; 10; 2; 10; 2; 1; 1; 9; 0; 11; 68; 105; 101; 109; 65; 99; 99; 111; 117; 110; 116;
    12; 83; 108; 105; 100; 105; 110; 103; 78; 111; 110; 99; 101; 21; 114; 101; 99; 111; 114; 100; 95; 110; 111; 110;
    99; 101; 95; 111; 114; 95; 97; 98; 111; 114; 116; 24; 99; 114; 101; 97; 116; 101; 95; 100; 101; 115; 105; 103;
    110; 97; 116; 101; 100; 95; 100; 101; 97; 108; 101; 114; 0; 0; 0; 0; 0; 0; 0; 0; 0; 0; 0; 0; 0; 0; 0; 1; 1; 1; 3;
    1; 10; 10; 0; 10; 1; 17; 0; 11; 0; 10; 2; 11; 3; 11; 4; 10; 5; 56; 0; 2].
Definition CREATE_PARENT_VASP_ACCOUNT_CODE : bytes := [161; 28; 235; 11; 1; 0; 0; 0; 6; 1; 0; 4; 3; 4; 11; 4; 15; 2;
    5; 17; 27; 7; 44; 74; 8; 118; 16; 0; 0; 0; 1; 1; 2; 0; 1; 0; 0; 3; 2; 1; 1; 1; 1; 4; 2; 6; 12; 3; 0; 5; 6; 12; 5;
    10; 2; 10; 2; 1; 6; 6; 12; 3; 5; 10; 2; 10; 2; 1; 1; 9; 0; 11; 68; 105; 101; 109; 65; 99; 99; 111; 117; 110; 116;
    12; 83; 108; 105; 100; 105; 110; 103; 78; 111; 110; 99; 101; 21; 114; 101; 99; 111; 114; 100; 95; 110; 111; 110;
    99; 101; 95; 111; 114; 95; 97; 98; 111; 114; 116; 26; 99; 114; 101; 97; 116; 101; 95; 112; 97; 114; 101; 110;
    116; 95; 118; 97; 115; 112; 95; 97; 99; 99; 111; 117; 110; 116; 0; 0; 0; 0; 0; 0; 0; 0; 0; 0; 0; 0; 0; 0; 0; 1;
    1; 1; 3; 1; 10; 10; 0; 10; 1; 17; 0; 11; 0; 10; 2; 11; 3; 11; 4; 10; 5; 56; 0; 2].
Definition CREATE_RECOVERY_ADDRESS_CODE : bytes := [161; 28; 235; 11; 1; 0; 0; 0; 6; 1; 0; 4; 2; 4; 4; 3; 8; 10; 5;
    18; 12; 7; 30; 90; 8; 120; 16; 0; 0; 0; 1; 0; 2; 1; 0; 0; 3; 0; 1; 0; 1; 4; 2; 3; 0; 1; 6; 12; 1; 8; 0; 2; 6; 12;
    8; 0; 0; 11; 68; 105; 101; 109; 65; 99; 99; 111; 117; 110; 116; 15; 82; 101; 99; 111; 118; 101; 114; 121; 65;
    100; 100; 114; 101; 115; 115; 21; 75; 101; 121; 82; 111; 116; 97; 116; 105; 111; 110; 67; 97; 112; 97; 98; 105;
    108; 105; 116; 121; 31; 101; 120; 116; 114; 97; 99; 116; 95; 107; 101; 121; 95; 114; 111; 116; 97; 116; 105; 111;
    110; 95; 99; 97; 112; 97; 98; 105; 108; 105; 116; 121; 7; 112; 117; 98; 108; 105; 115; 104; 0; 0; 0; 0; 0; 0; 0;
    0; 0; 0; 0; 0; 0; 0; 0; 1; 0; 0; 3; 5; 10; 0; 11; 0; 17; 0; 17; 1; 2].
Definition CREATE_VALIDATOR_ACCOUNT_CODE : bytes := [161; 28; 235; 11; 1; 0; 0; 0; 5; 1; 0; 4; 3; 4; 10; 5; 14; 22;
    7; 36; 72; 8; 108; 16; 0; 0; 0; 1; 1; 2; 0; 1; 0; 0; 3; 2; 1; 0; 2; 6; 12; 3; 0; 4; 6; 12; 5; 10; 2; 10; 2; 5; 6;
    12; 3; 5; 10; 2; 10; 2; 11; 68; 105; 101; 109; 65; 99; 99; 111; 117; 110; 116; 12; 83; 108; 105; 100; 105; 110;
    103; 78; 111; 110; 99; 101; 21; 114; 101; 99; 111; 114; 100; 95; 110; 111; 110; 99; 101; 95; 111; 114; 95; 97;
    98; 111; 114; 116; 24; 99; 114; 101; 97; 116; 101; 95; 118; 97; 108; 105; 100; 97; 116; 111; 114; 95; 97; 99; 99;
    111; 117; 110; 116; 0; 0; 0; 0; 0; 0; 0; 0; 0; 0; 0; 0; 0; 0; 0; 1; 0; 3; 1; 9; 10; 0; 10; 1; 17; 0; 11; 0; 10;
    2; 11; 3; 11; 4; 17; 1; 2].
Definition CREATE_VALIDATOR_OPERATOR_ACCOUNT_CODE : bytes := [161; 28; 235; 11; 1; 0; 0; 0; 5; 1; 0; 4; 3; 4; 10; 5;
    14; 22; 7; 36; 81; 8; 117; 16; 0; 0; 0; 1; 1; 2; 0; 1; 0; 0; 3; 2; 1; 0; 2; 6; 12; 3; 0; 4; 6; 12; 5; 10; 2; 10;
    2; 5; 6; 12; 3; 5; 10; 2; 10; 2; 11; 68; 105; 101; 109; 65; 99; 99; 111; 117; 110; 116; 12; 83; 108; 105; 100;
    105; 110; 103; 78; 111; 110; 99; 101; 21; 114; 101; 99; 111; 114; 100; 95; 110; 111; 110; 99; 101; 95; 111; 114;
    95; 97; 98; 111; 114; 116; 33; 99; 114; 101; 97; 116; 101; 95; 118; 97; 108; 105; 100; 97; 116; 111; 114; 95;
    111; 112; 101; 114; 97; 116; 111; 114; 95; 97; 99; 99; 111; 117; 110; 116; 0; 0; 0; 0; 0; 0; 0; 0; 0; 0; 0; 0; 0;
    0; 0; 1; 0; 3; 1; 9; 10; 0; 10; 1; 17; 0; 11; 0; 10; 2; 11; 3; 11; 4; 17; 1; 2].
Definition FREEZE_ACCOUNT_CODE : bytes := [161; 28; 235; 11; 1; 0; 0; 0; 5; 1; 0; 4; 3; 4; 10; 5; 14; 14; 7; 28; 66;
    8; 94; 16; 0; 0; 0; 1; 0; 2; 0; 1; 0; 1; 3; 2; 1; 0; 2; 6; 12; 5; 0; 2; 6; 12; 3; 3; 6; 12; 3; 5; 15; 65; 99; 99;
    111; 117; 110; 116; 70; 114; 101; 101; 122; 105; 110; 103; 12; 83; 108; 105; 100; 105; 110; 103; 78; 111; 110;
    99; 101; 14; 102; 114; 101; 101; 122; 101; 95; 97; 99; 99; 111; 117; 110; 116; 21; 114; 101; 99; 111; 114; 100;
    95; 110; 111; 110; 99; 101; 95; 111; 114; 95; 97; 98; 111; 114; 116; 0; 0; 0; 0; 0; 0; 0; 0; 0; 0; 0; 0; 0; 0; 0;
    1; 0; 3; 1; 7; 10; 0; 10; 1; 17; 1; 11; 0; 10; 2; 17; 0; 2].
Definition PEER_TO_PEER_WITH_METADATA_CODE : bytes := [161; 28; 235; 11; 1; 0; 0; 0; 7; 1; 0; 2; 2; 2; 4; 3; 6; 16;
    4; 22; 2; 5; 24; 29; 7; 53; 96; 8; 149; 1; 16; 0; 0; 0; 1; 1; 0; 0; 2; 0; 1; 0; 0; 3; 2; 3; 1; 1; 0; 4; 1; 3; 0;
    1; 5; 1; 6; 12; 1; 8; 0; 5; 6; 8; 0; 5; 3; 10; 2; 10; 2; 0; 5; 6; 12; 5; 3; 10; 2; 10; 2; 1; 9; 0; 11; 68; 105;
    101; 109; 65; 99; 99; 111; 117; 110; 116; 18; 87; 105; 116; 104; 100; 114; 97; 119; 67; 97; 112; 97; 98; 105;
    108; 105; 116; 121; 27; 101; 120; 116; 114; 97; 99; 116; 95; 119; 105; 116; 104; 100; 114; 97; 119; 95; 99; 97;
    112; 97; 98; 105; 108; 105; 116; 121; 8; 112; 97; 121; 95; 102; 114; 111; 109; 27; 114; 101; 115; 116; 111; 114;
    101; 95; 119; 105; 116; 104; 100; 114; 97; 119; 95; 99; 97; 112; 97; 98; 105; 108; 105; 116; 121; 0; 0; 0; 0; 0;
    0; 0; 0; 0; 0; 0; 0; 0; 0; 0; 1; 1; 1; 4; 1; 12; 11; 0; 17; 0; 12; 5; 14; 5; 10; 1; 10; 2; 11; 3; 11; 4; 56; 0;
    11; 5; 17; 2; 2].
Definition PREBURN_CODE : bytes := [161; 28; 235; 11; 1; 0; 0; 0; 7; 1; 0; 2; 2; 2; 4; 3; 6; 16; 4; 22; 2; 5; 24; 21;
    7; 45; 95; 8; 140; 1; 16; 0; 0; 0; 1; 1; 0; 0; 2; 0; 1; 0; 0; 3; 2; 3; 1; 1; 0; 4; 1; 3; 0; 1; 5; 1; 6; 12; 1; 8;
    0; 3; 6; 12; 6; 8; 0; 3; 0; 2; 6; 12; 3; 1; 9; 0; 11; 68; 105; 101; 109; 65; 99; 99; 111; 117; 110; 116; 18; 87;
    105; 116; 104; 100; 114; 97; 119; 67; 97; 112; 97; 98; 105; 108; 105; 116; 121; 27; 101; 120; 116; 114; 97; 99;
    116; 95; 119; 105; 116; 104; 100; 114; 97; 119; 95; 99; 97; 112; 97; 98; 105; 108; 105; 116; 121; 7; 112; 114;
    101; 98; 117; 114; 110; 27; 114; 101; 115; 116; 111; 114; 101; 95; 119; 105; 116; 104; 100; 114; 97; 119; 95; 99;
    97; 112; 97; 98; 105; 108; 105; 116; 121; 0; 0; 0; 0; 0; 0; 0; 0; 0; 0; 0; 0; 0; 0; 0; 1; 1; 1; 4; 1; 10; 10; 0;
    17; 0; 12; 2; 11; 0; 14; 2; 10; 1; 56; 0; 11; 2; 17; 2; 2].
Definition PUBLISH_SHARED_ED25519_PUBLIC_KEY_CODE : bytes := [161; 28; 235; 11; 1; 0; 0; 0; 5; 1; 0; 2; 3; 2; 5; 5;
    7; 6; 7; 13; 31; 8; 44; 16; 0; 0; 0; 1; 0; 1; 0; 2; 6; 12; 10; 2; 0; 22; 83; 104; 97; 114; 101; 100; 69; 100; 50;
    53; 53; 49; 57; 80; 117; 98; 108; 105; 99; 75; 101; 121; 7; 112; 117; 98; 108; 105; 115; 104; 0; 0; 0; 0; 0; 0;
    0; 0; 0; 0; 0; 0; 0; 0; 0; 1; 0; 0; 1; 4; 11; 0; 11; 1; 17; 0; 2].
Definition REGISTER_VALIDATOR_CONFIG_CODE : bytes := [161; 28; 235; 11; 1; 0; 0; 0; 5; 1; 0; 2; 3; 2; 5; 5; 7; 11; 7;
    18; 27; 8; 45; 16; 0; 0; 0; 1; 0; 1; 0; 5; 6; 12; 5; 10; 2; 10; 2; 10; 2; 0; 15; 86; 97; 108; 105; 100; 97; 116;
    111; 114; 67; 111; 110; 102; 105; 103; 10; 115; 101; 116; 95; 99; 111; 110; 102; 105; 103; 0; 0; 0; 0; 0; 0; 0;
    0; 0; 0; 0; 0; 0; 0; 0; 1; 0; 0; 1; 7; 11; 0; 10; 1; 11; 2; 11; 3; 11; 4; 17; 0; 2].
Definition REMOVE_VALIDATOR_AND_RECONFIGURE_CODE : bytes := [161; 28; 235; 11; 1; 0; 0; 0; 5; 1; 0; 6; 3; 6; 15; 5;
    21; 24; 7; 45; 94; 8; 139; 1; 16; 0; 0; 0; 1; 0; 2; 1; 3; 0; 1; 0; 2; 4; 2; 3; 0; 0; 5; 4; 1; 0; 2; 6; 12; 3; 0;
    1; 5; 1; 10; 2; 2; 6; 12; 5; 4; 6; 12; 3; 10; 2; 5; 2; 1; 3; 10; 68; 105; 101; 109; 83; 121; 115; 116; 101; 109;
    12; 83; 108; 105; 100; 105; 110; 103; 78; 111; 110; 99; 101; 15; 86; 97; 108; 105; 100; 97; 116; 111; 114; 67;
    111; 110; 102; 105; 103; 21; 114; 101; 99; 111; 114; 100; 95; 110; 111; 110; 99; 101; 95; 111; 114; 95; 97; 98;
    111; 114; 116; 14; 103; 101; 116; 95; 104; 117; 109; 97; 110; 95; 110; 97; 109; 101; 16; 114; 101; 109; 111; 118;
    101; 95; 118; 97; 108; 105; 100; 97; 116; 111; 114; 0; 0; 0; 0; 0; 0; 0; 0; 0; 0; 0; 0; 0; 0; 0; 1; 0; 5; 6; 18;
    10; 0; 10; 1; 17; 0; 10; 3; 17; 1; 11; 2; 33; 12; 4; 11; 4; 3; 14; 11; 0; 1; 6; 0; 0; 0; 0; 0; 0; 0; 0; 39; 11;
    0; 10; 3; 17; 2; 2].
Definition ROTATE_AUTHENTICATION_KEY_CODE : bytes := [161; 28; 235; 11; 1; 0; 0; 0; 6; 1; 0; 2; 2; 2; 4; 3; 6; 15; 5;
    21; 18; 7; 39; 124; 8; 163; 1; 16; 0; 0; 0; 1; 1; 0; 0; 2; 0; 1; 0; 0; 3; 1; 2; 0; 0; 4; 3; 2; 0; 1; 6; 12; 1; 8;
    0; 0; 2; 6; 8; 0; 10; 2; 2; 6; 12; 10; 2; 11; 68; 105; 101; 109; 65; 99; 99; 111; 117; 110; 116; 21; 75; 101;
    121; 82; 111; 116; 97; 116; 105; 111; 110; 67; 97; 112; 97; 98; 105; 108; 105; 116; 121; 31; 101; 120; 116; 114;
    97; 99; 116; 95; 107; 101; 121; 95; 114; 111; 116; 97; 116; 105; 111; 110; 95; 99; 97; 112; 97; 98; 105; 108;
    105; 116; 121; 31; 114; 101; 115; 116; 111; 114; 101; 95; 107; 101; 121; 95; 114; 111; 116; 97; 116; 105; 111;
    110; 95; 99; 97; 112; 97; 98; 105; 108; 105; 116; 121; 25; 114; 111; 116; 97; 116; 101; 95; 97; 117; 116; 104;
    101; 110; 116; 105; 99; 97; 116; 105; 111; 110; 95; 107; 101; 121; 0; 0; 0; 0; 0; 0; 0; 0; 0; 0; 0; 0; 0; 0; 0;
    1; 0; 4; 1; 9; 11; 0; 17; 0; 12; 2; 14; 2; 11; 1; 17; 2; 11; 2; 17; 1; 2].
Definition ROTATE_AUTHENTICATION_KEY_WITH_NONCE_CODE : bytes := [161; 28; 235; 11; 1; 0; 0; 0; 6; 1; 0; 4; 2; 4; 4;
    3; 8; 20; 5; 28; 23; 7; 51; 159; 1; 8; 210; 1; 16; 0; 0; 0; 1; 0; 3; 1; 0; 1; 2; 0; 1; 0; 0; 4; 2; 3; 0; 0; 5; 3;
    1; 0; 0; 6; 4; 1; 0; 2; 6; 12; 3; 0; 1; 6; 12; 1; 8; 0; 2; 6; 8; 0; 10; 2; 3; 6; 12; 3; 10; 2; 11; 68; 105; 101;
    109; 65; 99; 99; 111; 117; 110; 116; 12; 83; 108; 105; 100; 105; 110; 103; 78; 111; 110; 99; 101; 21; 114; 101;
    99; 111; 114; 100; 95; 110; 111; 110; 99; 101; 95; 111; 114; 95; 97; 98; 111; 114; 116; 21; 75; 101; 121; 82;
    111; 116; 97; 116; 105; 111; 110; 67; 97; 112; 97; 98; 105; 108; 105; 116; 121; 31; 101; 120; 116; 114; 97; 99;
    116; 95; 107; 101; 121; 95; 114; 111; 116; 97; 116; 105; 111; 110; 95; 99; 97; 112; 97; 98; 105; 108; 105; 116;
    121; 31; 114; 101; 115; 116; 111; 114; 101; 95; 107; 101; 121; 95; 114; 111; 116; 97; 116; 105; 111; 110; 95; 99;
    97; 112; 97; 98; 105; 108; 105; 116; 121; 25; 114; 111; 116; 97; 116; 101; 95; 97; 117; 116; 104; 101; 110; 116;
    105; 99; 97; 116; 105; 111; 110; 95; 107; 101; 121; 0; 0; 0; 0; 0; 0; 0; 0; 0; 0; 0; 0; 0; 0; 0; 1; 0; 5; 3; 12;
    10; 0; 10; 1; 17; 0; 11; 0; 17; 1; 12; 3; 14; 3; 11; 2; 17; 3; 11; 3; 17; 2; 2].
Definition ROTATE_AUTHENTICATION_KEY_WITH_NONCE_ADMIN_CODE : bytes := [161; 28; 235; 11; 1; 0; 0; 0; 6; 1; 0; 4; 2;
    4; 4; 3; 8; 20; 5; 28; 25; 7; 53; 159; 1; 8; 212; 1; 16; 0; 0; 0; 1; 0; 3; 1; 0; 1; 2; 0; 1; 0; 0; 4; 2; 3; 0; 0;
    5; 3; 1; 0; 0; 6; 4; 1; 0; 2; 6; 12; 3; 0; 1; 6; 12; 1; 8; 0; 2; 6; 8; 0; 10; 2; 4; 6; 12; 6; 12; 3; 10; 2; 11;
    68; 105; 101; 109; 65; 99; 99; 111; 117; 110; 116; 12; 83; 108; 105; 100; 105; 110; 103; 78; 111; 110; 99; 101;
    21; 114; 101; 99; 111; 114; 100; 95; 110; 111; 110; 99; 101; 95; 111; 114; 95; 97; 98; 111; 114; 116; 21; 75;
    101; 121; 82; 111; 116; 97; 116; 105; 111; 110; 67; 97; 112; 97; 98; 105; 108; 105; 116; 121; 31; 101; 120; 116;
    114; 97; 99; 116; 95; 107; 101; 121; 95; 114; 111; 116; 97; 116; 105; 111; 110; 95; 99; 97; 112; 97; 98; 105;
    108; 105; 116; 121; 31; 114; 101; 115; 116; 111; 114; 101; 95; 107; 101; 121; 95; 114; 111; 116; 97; 116; 105;
    111; 110; 95; 99; 97; 112; 97; 98; 105; 108; 105; 116; 121; 25; 114; 111; 116; 97; 116; 101; 95; 97; 117; 116;
    104; 101; 110; 116; 105; 99; 97; 116; 105; 111; 110; 95; 107; 101; 121; 0; 0; 0; 0; 0; 0; 0; 0; 0; 0; 0; 0; 0; 0;
    0; 1; 0; 5; 3; 12; 11; 0; 10; 2; 17; 0; 11; 1; 17; 1; 12; 4; 14; 4; 11; 3; 17; 3; 11; 4; 17; 2; 2].
Definition ROTATE_AUTHENTICATION_KEY_WITH_RECOVERY_ADDRESS_CODE : bytes := [161; 28; 235; 11; 1; 0; 0; 0; 5; 1; 0; 2;
    3; 2; 5; 5; 7; 8; 7; 15; 42; 8; 57; 16; 0; 0; 0; 1; 0; 1; 0; 4; 6; 12; 5; 5; 10; 2; 0; 15; 82; 101; 99; 111; 118;
    101; 114; 121; 65; 100; 100; 114; 101; 115; 115; 25; 114; 111; 116; 97; 116; 101; 95; 97; 117; 116; 104; 101;
    110; 116; 105; 99; 97; 116; 105; 111; 110; 95; 107; 101; 121; 0; 0; 0; 0; 0; 0; 0; 0; 0; 0; 0; 0; 0; 0; 0; 1; 0;
    0; 1; 6; 11; 0; 10; 1; 10; 2; 11; 3; 17; 0; 2].
Definition ROTATE_DUAL_ATTESTATION_INFO_CODE : bytes := [161; 28; 235; 11; 1; 0; 0; 0; 5; 1; 0; 2; 3; 2; 10; 5; 12;
    13; 7; 25; 61; 8; 86; 16; 0; 0; 0; 1; 0; 1; 0; 0; 2; 0; 1; 0; 2; 6; 12; 10; 2; 0; 3; 6; 12; 10; 2; 10; 2; 15; 68;
    117; 97; 108; 65; 116; 116; 101; 115; 116; 97; 116; 105; 111; 110; 15; 114; 111; 116; 97; 116; 101; 95; 98; 97;
    115; 101; 95; 117; 114; 108; 28; 114; 111; 116; 97; 116; 101; 95; 99; 111; 109; 112; 108; 105; 97; 110; 99; 101;
    95; 112; 117; 98; 108; 105; 99; 95; 107; 101; 121; 0; 0; 0; 0; 0; 0; 0; 0; 0; 0; 0; 0; 0; 0; 0; 1; 0; 2; 1; 7;
    10; 0; 11; 1; 17; 0; 11; 0; 11; 2; 17; 1; 2].
Definition ROTATE_SHARED_ED25519_PUBLIC_KEY_CODE : bytes := [161; 28; 235; 11; 1; 0; 0; 0; 5; 1; 0; 2; 3; 2; 5; 5; 7;
    6; 7; 13; 34; 8; 47; 16; 0; 0; 0; 1; 0; 1; 0; 2; 6; 12; 10; 2; 0; 22; 83; 104; 97; 114; 101; 100; 69; 100; 50;
    53; 53; 49; 57; 80; 117; 98; 108; 105; 99; 75; 101; 121; 10; 114; 111; 116; 97; 116; 101; 95; 107; 101; 121; 0;
    0; 0; 0; 0; 0; 0; 0; 0; 0; 0; 0; 0; 0; 0; 1; 0; 0; 1; 4; 11; 0; 11; 1; 17; 0; 2].
Definition SET_VALIDATOR_CONFIG_AND_RECONFIGURE_CODE : bytes := [161; 28; 235; 11; 1; 0; 0; 0; 5; 1; 0; 4; 3; 4; 10;
    5; 14; 15; 7; 29; 68; 8; 97; 16; 0; 0; 0; 1; 1; 2; 0; 1; 0; 0; 3; 2; 1; 0; 5; 6; 12; 5; 10; 2; 10; 2; 10; 2; 0;
    2; 6; 12; 5; 10; 68; 105; 101; 109; 83; 121; 115; 116; 101; 109; 15; 86; 97; 108; 105; 100; 97; 116; 111; 114;
    67; 111; 110; 102; 105; 103; 10; 115; 101; 116; 95; 99; 111; 110; 102; 105; 103; 29; 117; 112; 100; 97; 116; 101;
    95; 99; 111; 110; 102; 105; 103; 95; 97; 110; 100; 95; 114; 101; 99; 111; 110; 102; 105; 103; 117; 114; 101; 0;
    0; 0; 0; 0; 0; 0; 0; 0; 0; 0; 0; 0; 0; 0; 1; 0; 0; 1; 10; 10; 0; 10; 1; 11; 2; 11; 3; 11; 4; 17; 0; 11; 0; 10; 1;
    17; 1; 2].
Definition SET_VALIDATOR_OPERATOR_CODE : bytes := [161; 28; 235; 11; 1; 0; 0; 0; 5; 1; 0; 4; 3; 4; 10; 5; 14; 19; 7;
    33; 68; 8; 101; 16; 0; 0; 0; 1; 1; 2; 0; 1; 0; 0; 3; 2; 3; 0; 1; 5; 1; 10; 2; 2; 6; 12; 5; 0; 3; 6; 12; 10; 2; 5;
    2; 1; 3; 15; 86; 97; 108; 105; 100; 97; 116; 111; 114; 67; 111; 110; 102; 105; 103; 23; 86; 97; 108; 105; 100;
    97; 116; 111; 114; 79; 112; 101; 114; 97; 116; 111; 114; 67; 111; 110; 102; 105; 103; 14; 103; 101; 116; 95; 104;
    117; 109; 97; 110; 95; 110; 97; 109; 101; 12; 115; 101; 116; 95; 111; 112; 101; 114; 97; 116; 111; 114; 0; 0; 0;
    0; 0; 0; 0; 0; 0; 0; 0; 0; 0; 0; 0; 1; 0; 4; 5; 15; 10; 2; 17; 0; 11; 1; 33; 12; 3; 11; 3; 3; 11; 11; 0; 1; 6; 0;
    0; 0; 0; 0; 0; 0; 0; 39; 11; 0; 10; 2; 17; 1; 2].
Definition SET_VALIDATOR_OPERATOR_WITH_NONCE_ADMIN_CODE : bytes := [161; 28; 235; 11; 1; 0; 0; 0; 5; 1; 0; 6; 3; 6;
    15; 5; 21; 26; 7; 47; 103; 8; 150; 1; 16; 0; 0; 0; 1; 0; 2; 0; 3; 0; 1; 0; 2; 4; 2; 3; 0; 1; 5; 4; 1; 0; 2; 6;
    12; 3; 0; 1; 5; 1; 10; 2; 2; 6; 12; 5; 5; 6; 12; 6; 12; 3; 10; 2; 5; 2; 1; 3; 12; 83; 108; 105; 100; 105; 110;
    103; 78; 111; 110; 99; 101; 15; 86; 97; 108; 105; 100; 97; 116; 111; 114; 67; 111; 110; 102; 105; 103; 23; 86;
    97; 108; 105; 100; 97; 116; 111; 114; 79; 112; 101; 114; 97; 116; 111; 114; 67; 111; 110; 102; 105; 103; 21; 114;
    101; 99; 111; 114; 100; 95; 110; 111; 110; 99; 101; 95; 111; 114; 95; 97; 98; 111; 114; 116; 14; 103; 101; 116;
    95; 104; 117; 109; 97; 110; 95; 110; 97; 109; 101; 12; 115; 101; 116; 95; 111; 112; 101; 114; 97; 116; 111; 114;
    0; 0; 0; 0; 0; 0; 0; 0; 0; 0; 0; 0; 0; 0; 0; 1; 0; 5; 6; 18; 11; 0; 10; 2; 17; 0; 10; 4; 17; 1; 11; 3; 33; 12; 5;
    11; 5; 3; 14; 11; 1; 1; 6; 0; 0; 0; 0; 0; 0; 0; 0; 39; 11; 1; 10; 4; 17; 2; 2].
Definition TIERED_MINT_CODE : bytes := [161; 28; 235; 11; 1; 0; 0; 0; 6; 1; 0; 4; 3; 4; 11; 4; 15; 2; 5; 17; 21; 7;
    38; 59; 8; 97; 16; 0; 0; 0; 1; 1; 2; 0; 1; 0; 0; 3; 2; 1; 1; 1; 1; 4; 2; 6; 12; 3; 0; 4; 6; 12; 5; 3; 3; 5; 6;
    12; 3; 5; 3; 3; 1; 9; 0; 11; 68; 105; 101; 109; 65; 99; 99; 111; 117; 110; 116; 12; 83; 108; 105; 100; 105; 110;
    103; 78; 111; 110; 99; 101; 21; 114; 101; 99; 111; 114; 100; 95; 110; 111; 110; 99; 101; 95; 111; 114; 95; 97;
    98; 111; 114; 116; 11; 116; 105; 101; 114; 101; 100; 95; 109; 105; 110; 116; 0; 0; 0; 0; 0; 0; 0; 0; 0; 0; 0; 0;
    0; 0; 0; 1; 1; 1; 3; 1; 9; 10; 0; 10; 1; 17; 0; 11; 0; 10; 2; 10; 3; 10; 4; 56; 0; 2].
Definition UNFREEZE_ACCOUNT_CODE : bytes := [161; 28; 235; 11; 1; 0; 0; 0; 5; 1; 0; 4; 3; 4; 10; 5; 14; 14; 7; 28;
    68; 8; 96; 16; 0; 0; 0; 1; 0; 2; 0; 1; 0; 1; 3; 2; 1; 0; 2; 6; 12; 5; 0; 2; 6; 12; 3; 3; 6; 12; 3; 5; 15; 65; 99;
    99; 111; 117; 110; 116; 70; 114; 101; 101; 122; 105; 110; 103; 12; 83; 108; 105; 100; 105; 110; 103; 78; 111;
    110; 99; 101; 16; 117; 110; 102; 114; 101; 101; 122; 101; 95; 97; 99; 99; 111; 117; 110; 116; 21; 114; 101; 99;
    111; 114; 100; 95; 110; 111; 110; 99; 101; 95; 111; 114; 95; 97; 98; 111; 114; 116; 0; 0; 0; 0; 0; 0; 0; 0; 0; 0;
    0; 0; 0; 0; 0; 1; 0; 3; 1; 7; 10; 0; 10; 1; 17; 1; 11; 0; 10; 2; 17; 0; 2].
Definition UPDATE_DIEM_VERSION_CODE : bytes := [161; 28; 235; 11; 1; 0; 0; 0; 5; 1; 0; 4; 3; 4; 10; 5; 14; 10; 7; 24;
    51; 8; 75; 16; 0; 0; 0; 1; 0; 2; 0; 1; 0; 1; 3; 0; 1; 0; 2; 6; 12; 3; 0; 3; 6; 12; 3; 3; 11; 68; 105; 101; 109;
    86; 101; 114; 115; 105; 111; 110; 12; 83; 108; 105; 100; 105; 110; 103; 78; 111; 110; 99; 101; 3; 115; 101; 116;
    21; 114; 101; 99; 111; 114; 100; 95; 110; 111; 110; 99; 101; 95; 111; 114; 95; 97; 98; 111; 114; 116; 0; 0; 0; 0;
    0; 0; 0; 0; 0; 0; 0; 0; 0; 0; 0; 1; 0; 2; 1; 7; 10; 0; 10; 1; 17; 1; 11; 0; 10; 2; 17; 0; 2].
Definition UPDATE_DUAL_ATTESTATION_LIMIT_CODE : bytes := [161; 28; 235; 11; 1; 0; 0; 0; 5; 1; 0; 4; 3; 4; 10; 5; 14;
    10; 7; 24; 71; 8; 95; 16; 0; 0; 0; 1; 0; 2; 0; 1; 0; 1; 3; 0; 1; 0; 2; 6; 12; 3; 0; 3; 6; 12; 3; 3; 15; 68; 117;
    97; 108; 65; 116; 116; 101; 115; 116; 97; 116; 105; 111; 110; 12; 83; 108; 105; 100; 105; 110; 103; 78; 111; 110;
    99; 101; 19; 115; 101; 116; 95; 109; 105; 99; 114; 111; 100; 105; 101; 109; 95; 108; 105; 109; 105; 116; 21; 114;
    101; 99; 111; 114; 100; 95; 110; 111; 110; 99; 101; 95; 111; 114; 95; 97; 98; 111; 114; 116; 0; 0; 0; 0; 0; 0; 0;
    0; 0; 0; 0; 0; 0; 0; 0; 1; 0; 2; 1; 7; 10; 0; 10; 1; 17; 1; 11; 0; 10; 2; 17; 0; 2].
Definition UPDATE_EXCHANGE_RATE_CODE : bytes := [161; 28; 235; 11; 1; 0; 0; 0; 7; 1; 0; 6; 2; 6; 4; 3; 10; 16; 4; 26;
    2; 5; 28; 25; 7; 53; 99; 8; 152; 1; 16; 0; 0; 0; 1; 0; 2; 1; 1; 2; 0; 1; 3; 0; 1; 0; 2; 4; 2; 3; 0; 0; 5; 4; 3;
    1; 1; 2; 6; 2; 3; 3; 1; 8; 0; 2; 6; 12; 3; 0; 2; 6; 12; 8; 0; 4; 6; 12; 3; 3; 3; 1; 9; 0; 4; 68; 105; 101; 109;
    12; 70; 105; 120; 101; 100; 80; 111; 105; 110; 116; 51; 50; 12; 83; 108; 105; 100; 105; 110; 103; 78; 111; 110;
    99; 101; 20; 99; 114; 101; 97; 116; 101; 95; 102; 114; 111; 109; 95; 114; 97; 116; 105; 111; 110; 97; 108; 21;
    114; 101; 99; 111; 114; 100; 95; 110; 111; 110; 99; 101; 95; 111; 114; 95; 97; 98; 111; 114; 116; 24; 117; 112;
    100; 97; 116; 101; 95; 120; 100; 120; 95; 101; 120; 99; 104; 97; 110; 103; 101; 95; 114; 97; 116; 101; 0; 0; 0;
    0; 0; 0; 0; 0; 0; 0; 0; 0; 0; 0; 0; 1; 1; 1; 5; 1; 11; 10; 0; 10; 1; 17; 1; 10; 2; 10; 3; 17; 0; 12; 4; 11; 0;
    11; 4; 56; 0; 2].
Definition UPDATE_MINTING_ABILITY_CODE : bytes := [161; 28; 235; 11; 1; 0; 0; 0; 6; 1; 0; 2; 3; 2; 6; 4; 8; 2; 5; 10;
    8; 7; 18; 28; 8; 46; 16; 0; 0; 0; 1; 0; 1; 1; 1; 0; 2; 2; 6; 12; 1; 0; 1; 9; 0; 4; 68; 105; 101; 109; 22; 117;
    112; 100; 97; 116; 101; 95; 109; 105; 110; 116; 105; 110; 103; 95; 97; 98; 105; 108; 105; 116; 121; 0; 0; 0; 0;
    0; 0; 0; 0; 0; 0; 0; 0; 0; 0; 0; 1; 1; 1; 0; 1; 4; 11; 0; 10; 1; 56; 0; 2].

Module ScriptCall.
Inductive t :=
| AddCurrencyToAccount (currency : TypeTag)
| AddRecoveryRotationCapability (recovery_address : AccountAddress)
| AddValidatorAndReconfigure (sliding_nonce : Z) (validator_name : bytes) (validator_address : AccountAddress)
| Burn (token : TypeTag) (sliding_nonce : Z) (preburn_address : AccountAddress)
| BurnTxnFees (coin_type : TypeTag)
| CancelBurn (token : TypeTag) (preburn_address : AccountAddress)
| CreateChildVaspAccount (coin_type : TypeTag) (child_address : AccountAddress) (auth_key_prefix : bytes)
    (add_all_currencies : bool) (child_initial_balance : Z)
| CreateDesignatedDealer (currency : TypeTag) (sliding_nonce : Z) (addr : AccountAddress) (auth_key_prefix : bytes)
    (human_name : bytes) (add_all_currencies : bool)
| CreateParentVaspAccount (coin_type : TypeTag) (sliding_nonce : Z) (new_account_address : AccountAddress)
    (auth_key_prefix : bytes) (human_name : bytes) (add_all_currencies : bool)
| CreateRecoveryAddress
| CreateValidatorAccount (sliding_nonce : Z) (new_account_address : AccountAddress) (auth_key_prefix : bytes)
    (human_name : bytes)
| CreateValidatorOperatorAccount (sliding_nonce : Z) (new_account_address : AccountAddress) (auth_key_prefix : bytes)
    (human_name : bytes)
| FreezeAccount (sliding_nonce : Z) (to_freeze_account : AccountAddress)
| PeerToPeerWithMetadata (currency : TypeTag) (payee : AccountAddress) (amount : Z) (metadata : bytes)
    (metadata_signature : bytes)
| Preburn (token : TypeTag) (amount : Z)
| PublishSharedEd25519PublicKey (public_key : bytes)
| RegisterValidatorConfig (validator_account : AccountAddress) (consensus_pubkey : bytes)
    (validator_network_addresses : bytes) (fullnode_network_addresses : bytes)
| RemoveValidatorAndReconfigure (sliding_nonce : Z) (validator_name : bytes) (validator_address : AccountAddress)
| RotateAuthenticationKey (new_key : bytes)
| RotateAuthenticationKeyWithNonce (sliding_nonce : Z) (new_key : bytes)
| RotateAuthenticationKeyWithNonceAdmin (sliding_nonce : Z) (new_key : bytes)
| RotateAuthenticationKeyWithRecoveryAddress (recovery_address : AccountAddress) (to_recover : AccountAddress)
    (new_key : bytes)
| RotateDualAttestationInfo (new_url : bytes) (new_key : bytes)
| RotateSharedEd25519PublicKey (public_key : bytes)
| SetValidatorConfigAndReconfigure (validator_account : AccountAddress) (consensus_pubkey : bytes)
    (validator_network_addresses : bytes) (fullnode_network_addresses : bytes)
| SetValidatorOperator (operator_name : bytes) (operator_account : AccountAddress)
| SetValidatorOperatorWithNonceAdmin (sliding_nonce : Z) (operator_name : bytes) (operator_account : AccountAddress)
| TieredMint (coin_type : TypeTag) (sliding_nonce : Z) (designated_dealer_address : AccountAddress) (mint_amount : Z)
    (tier_index : Z)
| UnfreezeAccount (sliding_nonce : Z) (to_unfreeze_account : AccountAddress)
| UpdateDiemVersion (sliding_nonce : Z) (major : Z)
| UpdateDualAttestationLimit (sliding_nonce : Z) (new_micro_xdx_limit : Z)
| UpdateExchangeRate (currency : TypeTag) (sliding_nonce : Z) (new_exchange_rate_numerator : Z)
    (new_exchange_rate_denominator : Z)
| UpdateMintingAbility (currency : TypeTag) (allow_minting : bool).
End ScriptCall.
Definition encode_add_currency_to_account_script (currency : TypeTag) : Script :=
  mk_script ADD_CURRENCY_TO_ACCOUNT_CODE [currency] [].
Definition encode_add_recovery_rotation_capability_script (recovery_address : AccountAddress) : Script :=
  mk_script ADD_RECOVERY_ROTATION_CAPABILITY_CODE [] [ArgAddress recovery_address].
Definition encode_add_validator_and_reconfigure_script (sliding_nonce : Z) (validator_name : bytes)
    (validator_address : AccountAddress) : Script :=
  mk_script ADD_VALIDATOR_AND_RECONFIGURE_CODE [] [ArgU64 sliding_nonce; ArgU8Vector validator_name; ArgAddress
    validator_address].
Definition encode_burn_script (token : TypeTag) (sliding_nonce : Z) (preburn_address : AccountAddress) : Script :=
  mk_script BURN_CODE [token] [ArgU64 sliding_nonce; ArgAddress preburn_address].
Definition encode_burn_txn_fees_script (coin_type : TypeTag) : Script :=
  mk_script BURN_TXN_FEES_CODE [coin_type] [].
Definition encode_cancel_burn_script (token : TypeTag) (preburn_address : AccountAddress) : Script :=
  mk_script CANCEL_BURN_CODE [token] [ArgAddress preburn_address].
Definition encode_create_child_vasp_account_script (coin_type : TypeTag) (child_address : AccountAddress)
    (auth_key_prefix : bytes) (add_all_currencies : bool) (child_initial_balance : Z) : Script :=
  mk_script CREATE_CHILD_VASP_ACCOUNT_CODE [coin_type] [ArgAddress child_address; ArgU8Vector auth_key_prefix;
    ArgBool add_all_currencies; ArgU64 child_initial_balance].
Definition encode_create_designated_dealer_script (currency : TypeTag) (sliding_nonce : Z) (addr : AccountAddress)
    (auth_key_prefix : bytes) (human_name : bytes) (add_all_currencies : bool) : Script :=
  mk_script CREATE_DESIGNATED_DEALER_CODE [currency] [ArgU64 sliding_nonce; ArgAddress addr; ArgU8Vector
    auth_key_prefix; ArgU8Vector human_name; ArgBool add_all_currencies].
Definition encode_create_parent_vasp_account_script (coin_type : TypeTag) (sliding_nonce : Z) (new_account_address :
    AccountAddress) (auth_key_prefix : bytes) (human_name : bytes) (add_all_currencies : bool) : Script :=
  mk_script CREATE_PARENT_VASP_ACCOUNT_CODE [coin_type] [ArgU64 sliding_nonce; ArgAddress new_account_address;
    ArgU8Vector auth_key_prefix; ArgU8Vector human_name; ArgBool add_all_currencies].
Definition encode_create_recovery_address_script : Script :=
  mk_script CREATE_RECOVERY_ADDRESS_CODE [] [].
Definition encode_create_validator_account_script (sliding_nonce : Z) (new_account_address : AccountAddress)
    (auth_key_prefix : bytes) (human_name : bytes) : Script :=
  mk_script CREATE_VALIDATOR_ACCOUNT_CODE [] [ArgU64 sliding_nonce; ArgAddress new_account_address; ArgU8Vector
    auth_key_prefix; ArgU8Vector human_name].
Definition encode_create_validator_operator_account_script (sliding_nonce : Z) (new_account_address : AccountAddress)
    (auth_key_prefix : bytes) (human_name : bytes) : Script :=
  mk_script CREATE_VALIDATOR_OPERATOR_ACCOUNT_CODE [] [ArgU64 sliding_nonce; ArgAddress new_account_address;
    ArgU8Vector auth_key_prefix; ArgU8Vector human_name].
Definition encode_freeze_account_script (sliding_nonce : Z) (to_freeze_account : AccountAddress) : Script :=
  mk_script FREEZE_ACCOUNT_CODE [] [ArgU64 sliding_nonce; ArgAddress to_freeze_account].
Definition encode_peer_to_peer_with_metadata_script (currency : TypeTag) (payee : AccountAddress) (amount : Z)
    (metadata : bytes) (metadata_signature : bytes) : Script :=
  mk_script PEER_TO_PEER_WITH_METADATA_CODE [currency] [ArgAddress payee; ArgU64 amount; ArgU8Vector metadata;
    ArgU8Vector metadata_signature].
Definition encode_preburn_script (token : TypeTag) (amount : Z) : Script :=
  mk_script PREBURN_CODE [token] [ArgU64 amount].
Definition encode_publish_shared_ed25519_public_key_script (public_key : bytes) : Script :=
  mk_script PUBLISH_SHARED_ED25519_PUBLIC_KEY_CODE [] [ArgU8Vector public_key].
Definition encode_register_validator_config_script (validator_account : AccountAddress) (consensus_pubkey : bytes)
    (validator_network_addresses : bytes) (fullnode_network_addresses : bytes) : Script :=
  mk_script REGISTER_VALIDATOR_CONFIG_CODE [] [ArgAddress validator_account; ArgU8Vector consensus_pubkey;
    ArgU8Vector validator_network_addresses; ArgU8Vector fullnode_network_addresses].
Definition encode_remove_validator_and_reconfigure_script (sliding_nonce : Z) (validator_name : bytes)
    (validator_address : AccountAddress) : Script :=
  mk_script REMOVE_VALIDATOR_AND_RECONFIGURE_CODE [] [ArgU64 sliding_nonce; ArgU8Vector validator_name; ArgAddress
    validator_address].
Definition encode_rotate_authentication_key_script (new_key : bytes) : Script :=
  mk_script ROTATE_AUTHENTICATION_KEY_CODE [] [ArgU8Vector new_key].
Definition encode_rotate_authentication_key_with_nonce_script (sliding_nonce : Z) (new_key : bytes) : Script :=
  mk_script ROTATE_AUTHENTICATION_KEY_WITH_NONCE_CODE [] [ArgU64 sliding_nonce; ArgU8Vector new_key].
Definition encode_rotate_authentication_key_with_nonce_admin_script (sliding_nonce : Z) (new_key : bytes) : Script :=
  mk_script ROTATE_AUTHENTICATION_KEY_WITH_NONCE_ADMIN_CODE [] [ArgU64 sliding_nonce; ArgU8Vector new_key].
Definition encode_rotate_authentication_key_with_recovery_address_script (recovery_address : AccountAddress)
    (to_recover : AccountAddress) (new_key : bytes) : Script :=
  mk_script ROTATE_AUTHENTICATION_KEY_WITH_RECOVERY_ADDRESS_CODE [] [ArgAddress recovery_address; ArgAddress
    to_recover; ArgU8Vector new_key].
Definition encode_rotate_dual_attestation_info_script (new_url : bytes) (new_key : bytes) : Script :=
  mk_script ROTATE_DUAL_ATTESTATION_INFO_CODE [] [ArgU8Vector new_url; ArgU8Vector new_key].
Definition encode_rotate_shared_ed25519_public_key_script (public_key : bytes) : Script :=
  mk_script ROTATE_SHARED_ED25519_PUBLIC_KEY_CODE [] [ArgU8Vector public_key].
Definition encode_set_validator_config_and_reconfigure_script (validator_account : AccountAddress) (consensus_pubkey
    : bytes) (validator_network_addresses : bytes) (fullnode_network_addresses : bytes) : Script :=
  mk_script SET_VALIDATOR_CONFIG_AND_RECONFIGURE_CODE [] [ArgAddress validator_account; ArgU8Vector consensus_pubkey;
    ArgU8Vector validator_network_addresses; ArgU8Vector fullnode_network_addresses].
Definition encode_set_validator_operator_script (operator_name : bytes) (operator_account : AccountAddress) : Script
    :=
  mk_script SET_VALIDATOR_OPERATOR_CODE [] [ArgU8Vector operator_name; ArgAddress operator_account].
Definition encode_set_validator_operator_with_nonce_admin_script (sliding_nonce : Z) (operator_name : bytes)
    (operator_account : AccountAddress) : Script :=
  mk_script SET_VALIDATOR_OPERATOR_WITH_NONCE_ADMIN_CODE [] [ArgU64 sliding_nonce; ArgU8Vector operator_name;
    ArgAddress operator_account].
Definition encode_tiered_mint_script (coin_type : TypeTag) (sliding_nonce : Z) (designated_dealer_address :
    AccountAddress) (mint_amount : Z) (tier_index : Z) : Script :=
  mk_script TIERED_MINT_CODE [coin_type] [ArgU64 sliding_nonce; ArgAddress designated_dealer_address; ArgU64
    mint_amount; ArgU64 tier_index].
Definition encode_unfreeze_account_script (sliding_nonce : Z) (to_unfreeze_account : AccountAddress) : Script :=
  mk_script UNFREEZE_ACCOUNT_CODE [] [ArgU64 sliding_nonce; ArgAddress to_unfreeze_account].
Definition encode_update_diem_version_script (sliding_nonce : Z) (major : Z) : Script :=
  mk_script UPDATE_DIEM_VERSION_CODE [] [ArgU64 sliding_nonce; ArgU64 major].
Definition encode_update_dual_attestation_limit_script (sliding_nonce : Z) (new_micro_xdx_limit : Z) : Script :=
  mk_script UPDATE_DUAL_ATTESTATION_LIMIT_CODE [] [ArgU64 sliding_nonce; ArgU64 new_micro_xdx_limit].
Definition encode_update_exchange_rate_script (currency : TypeTag) (sliding_nonce : Z) (new_exchange_rate_numerator :
    Z) (new_exchange_rate_denominator : Z) : Script :=
  mk_script UPDATE_EXCHANGE_RATE_CODE [currency] [ArgU64 sliding_nonce; ArgU64 new_exchange_rate_numerator; ArgU64
    new_exchange_rate_denominator].
Definition encode_update_minting_ability_script (currency : TypeTag) (allow_minting : bool) : Script :=
  mk_script UPDATE_MINTING_ABILITY_CODE [currency] [ArgBool allow_minting].

(** [ScriptCall::encode], [name] and [decode] *)
Definition script_encode (self : ScriptCall.t) : Script :=
  match self with
  | ScriptCall.AddCurrencyToAccount currency => encode_add_currency_to_account_script currency
  | ScriptCall.AddRecoveryRotationCapability recovery_address => encode_add_recovery_rotation_capability_script
    recovery_address
  | ScriptCall.AddValidatorAndReconfigure sliding_nonce validator_name validator_address =>
    encode_add_validator_and_reconfigure_script sliding_nonce validator_name validator_address
  | ScriptCall.Burn token sliding_nonce preburn_address => encode_burn_script token sliding_nonce preburn_address
  | ScriptCall.BurnTxnFees coin_type => encode_burn_txn_fees_script coin_type
  | ScriptCall.CancelBurn token preburn_address => encode_cancel_burn_script token preburn_address
  | ScriptCall.CreateChildVaspAccount coin_type child_address auth_key_prefix add_all_currencies
    child_initial_balance => encode_create_child_vasp_account_script coin_type child_address auth_key_prefix
    add_all_currencies child_initial_balance
  | ScriptCall.CreateDesignatedDealer currency sliding_nonce addr auth_key_prefix human_name add_all_currencies =>
    encode_create_designated_dealer_script currency sliding_nonce addr auth_key_prefix human_name add_all_currencies
  | ScriptCall.CreateParentVaspAccount coin_type sliding_nonce new_account_address auth_key_prefix human_name
    add_all_currencies => encode_create_parent_vasp_account_script coin_type sliding_nonce new_account_address
    auth_key_prefix human_name add_all_currencies
  | ScriptCall.CreateRecoveryAddress => encode_create_recovery_address_script
  | ScriptCall.CreateValidatorAccount sliding_nonce new_account_address auth_key_prefix human_name =>
    encode_create_validator_account_script sliding_nonce new_account_address auth_key_prefix human_name
  | ScriptCall.CreateValidatorOperatorAccount sliding_nonce new_account_address auth_key_prefix human_name =>
    encode_create_validator_operator_account_script sliding_nonce new_account_address auth_key_prefix human_name
  | ScriptCall.FreezeAccount sliding_nonce to_freeze_account => encode_freeze_account_script sliding_nonce
    to_freeze_account
  | ScriptCall.PeerToPeerWithMetadata currency payee amount metadata metadata_signature =>
    encode_peer_to_peer_with_metadata_script currency payee amount metadata metadata_signature
  | ScriptCall.Preburn token amount => encode_preburn_script token amount
  | ScriptCall.PublishSharedEd25519PublicKey public_key => encode_publish_shared_ed25519_public_key_script public_key
  | ScriptCall.RegisterValidatorConfig validator_account consensus_pubkey validator_network_addresses
    fullnode_network_addresses => encode_register_validator_config_script validator_account consensus_pubkey
    validator_network_addresses fullnode_network_addresses
  | ScriptCall.RemoveValidatorAndReconfigure sliding_nonce validator_name validator_address =>
    encode_remove_validator_and_reconfigure_script sliding_nonce validator_name validator_address
  | ScriptCall.RotateAuthenticationKey new_key => encode_rotate_authentication_key_script new_key
  | ScriptCall.RotateAuthenticationKeyWithNonce sliding_nonce new_key =>
    encode_rotate_authentication_key_with_nonce_script sliding_nonce new_key
  | ScriptCall.RotateAuthenticationKeyWithNonceAdmin sliding_nonce new_key =>
    encode_rotate_authentication_key_with_nonce_admin_script sliding_nonce new_key
  | ScriptCall.RotateAuthenticationKeyWithRecoveryAddress recovery_address to_recover new_key =>
    encode_rotate_authentication_key_with_recovery_address_script recovery_address to_recover new_key
  | ScriptCall.RotateDualAttestationInfo new_url new_key => encode_rotate_dual_attestation_info_script new_url new_key
  | ScriptCall.RotateSharedEd25519PublicKey public_key => encode_rotate_shared_ed25519_public_key_script public_key
  | ScriptCall.SetValidatorConfigAndReconfigure validator_account consensus_pubkey validator_network_addresses
    fullnode_network_addresses => encode_set_validator_config_and_reconfigure_script validator_account
    consensus_pubkey validator_network_addresses fullnode_network_addresses
  | ScriptCall.SetValidatorOperator operator_name operator_account => encode_set_validator_operator_script
    operator_name operator_account
  | ScriptCall.SetValidatorOperatorWithNonceAdmin sliding_nonce operator_name operator_account =>
    encode_set_validator_operator_with_nonce_admin_script sliding_nonce operator_name operator_account
  | ScriptCall.TieredMint coin_type sliding_nonce designated_dealer_address mint_amount tier_index =>
    encode_tiered_mint_script coin_type sliding_nonce designated_dealer_address mint_amount tier_index
  | ScriptCall.UnfreezeAccount sliding_nonce to_unfreeze_account => encode_unfreeze_account_script sliding_nonce
    to_unfreeze_account
  | ScriptCall.UpdateDiemVersion sliding_nonce major => encode_update_diem_version_script sliding_nonce major
  | ScriptCall.UpdateDualAttestationLimit sliding_nonce new_micro_xdx_limit =>
    encode_update_dual_attestation_limit_script sliding_nonce new_micro_xdx_limit
  | ScriptCall.UpdateExchangeRate currency sliding_nonce new_exchange_rate_numerator new_exchange_rate_denominator =>
    encode_update_exchange_rate_script currency sliding_nonce new_exchange_rate_numerator
    new_exchange_rate_denominator
  | ScriptCall.UpdateMintingAbility currency allow_minting => encode_update_minting_ability_script currency
    allow_minting
  end.
Definition script_name (self : ScriptCall.t) : string :=
  match self with
  | ScriptCall.AddCurrencyToAccount _ => "add_currency_to_account"
  | ScriptCall.AddRecoveryRotationCapability _ => "add_recovery_rotation_capability"
  | ScriptCall.AddValidatorAndReconfigure _ _ _ => "add_validator_and_reconfigure"
  | ScriptCall.Burn _ _ _ => "burn"
  | ScriptCall.BurnTxnFees _ => "burn_txn_fees"
  | ScriptCall.CancelBurn _ _ => "cancel_burn"
  | ScriptCall.CreateChildVaspAccount _ _ _ _ _ => "create_child_vasp_account"
  | ScriptCall.CreateDesignatedDealer _ _ _ _ _ _ => "create_designated_dealer"
  | ScriptCall.CreateParentVaspAccount _ _ _ _ _ _ => "create_parent_vasp_account"
  | ScriptCall.CreateRecoveryAddress => "create_recovery_address"
  | ScriptCall.CreateValidatorAccount _ _ _ _ => "create_validator_account"
  | ScriptCall.CreateValidatorOperatorAccount _ _ _ _ => "create_validator_operator_account"
  | ScriptCall.FreezeAccount _ _ => "freeze_account"
  | ScriptCall.PeerToPeerWithMetadata _ _ _ _ _ => "peer_to_peer_with_metadata"
  | ScriptCall.Preburn _ _ => "preburn"
  | ScriptCall.PublishSharedEd25519PublicKey _ => "publish_shared_ed25519_public_key"
  | ScriptCall.RegisterValidatorConfig _ _ _ _ => "register_validator_config"
  | ScriptCall.RemoveValidatorAndReconfigure _ _ _ => "remove_validator_and_reconfigure"
  | ScriptCall.RotateAuthenticationKey _ => "rotate_authentication_key"
  | ScriptCall.RotateAuthenticationKeyWithNonce _ _ => "rotate_authentication_key_with_nonce"
  | ScriptCall.RotateAuthenticationKeyWithNonceAdmin _ _ => "rotate_authentication_key_with_nonce_admin"
  | ScriptCall.RotateAuthenticationKeyWithRecoveryAddress _ _ _ => "rotate_authentication_key_with_recovery_address"
  | ScriptCall.RotateDualAttestationInfo _ _ => "rotate_dual_attestation_info"
  | ScriptCall.RotateSharedEd25519PublicKey _ => "rotate_shared_ed25519_public_key"
  | ScriptCall.SetValidatorConfigAndReconfigure _ _ _ _ => "set_validator_config_and_reconfigure"
  | ScriptCall.SetValidatorOperator _ _ => "set_validator_operator"
  | ScriptCall.SetValidatorOperatorWithNonceAdmin _ _ _ => "set_validator_operator_with_nonce_admin"
  | ScriptCall.TieredMint _ _ _ _ _ => "tiered_mint"
  | ScriptCall.UnfreezeAccount _ _ => "unfreeze_account"
  | ScriptCall.UpdateDiemVersion _ _ => "update_diem_version"
  | ScriptCall.UpdateDualAttestationLimit _ _ => "update_dual_attestation_limit"
  | ScriptCall.UpdateExchangeRate _ _ _ _ => "update_exchange_rate"
  | ScriptCall.UpdateMintingAbility _ _ => "update_minting_ability"
  end%string.
Definition decode_add_currency_to_account_script (script : Script) : option ScriptCall.t :=
  currency ← script_ty_args script !! 0%nat;
  Some (ScriptCall.AddCurrencyToAccount currency).
Definition decode_add_recovery_rotation_capability_script (script : Script) : option ScriptCall.t :=
  recovery_address ← script_args script !! 0%nat ≫= decode_address_argument;
  Some (ScriptCall.AddRecoveryRotationCapability recovery_address).
Definition decode_add_validator_and_reconfigure_script (script : Script) : option ScriptCall.t :=
  sliding_nonce ← script_args script !! 0%nat ≫= decode_u64_argument;
  validator_name ← script_args script !! 1%nat ≫= decode_u8vector_argument;
  validator_address ← script_args script !! 2%nat ≫= decode_address_argument;
  Some (ScriptCall.AddValidatorAndReconfigure sliding_nonce validator_name validator_address).
Definition decode_burn_script (script : Script) : option ScriptCall.t :=
  token ← script_ty_args script !! 0%nat;
  sliding_nonce ← script_args script !! 0%nat ≫= decode_u64_argument;
  preburn_address ← script_args script !! 1%nat ≫= decode_address_argument;
  Some (ScriptCall.Burn token sliding_nonce preburn_address).
Definition decode_burn_txn_fees_script (script : Script) : option ScriptCall.t :=
  coin_type ← script_ty_args script !! 0%nat;
  Some (ScriptCall.BurnTxnFees coin_type).
Definition decode_cancel_burn_script (script : Script) : option ScriptCall.t :=
  token ← script_ty_args script !! 0%nat;
  preburn_address ← script_args script !! 0%nat ≫= decode_address_argument;
  Some (ScriptCall.CancelBurn token preburn_address).
Definition decode_create_child_vasp_account_script (script : Script) : option ScriptCall.t :=
  coin_type ← script_ty_args script !! 0%nat;
  child_address ← script_args script !! 0%nat ≫= decode_address_argument;
  auth_key_prefix ← script_args script !! 1%nat ≫= decode_u8vector_argument;
  add_all_currencies ← script_args script !! 2%nat ≫= decode_bool_argument;
  child_initial_balance ← script_args script !! 3%nat ≫= decode_u64_argument;
  Some (ScriptCall.CreateChildVaspAccount coin_type child_address auth_key_prefix add_all_currencies
    child_initial_balance).
Definition decode_create_designated_dealer_script (script : Script) : option ScriptCall.t :=
  currency ← script_ty_args script !! 0%nat;
  sliding_nonce ← script_args script !! 0%nat ≫= decode_u64_argument;
  addr ← script_args script !! 1%nat ≫= decode_address_argument;
  auth_key_prefix ← script_args script !! 2%nat ≫= decode_u8vector_argument;
  human_name ← script_args script !! 3%nat ≫= decode_u8vector_argument;
  add_all_currencies ← script_args script !! 4%nat ≫= decode_bool_argument;
  Some (ScriptCall.CreateDesignatedDealer currency sliding_nonce addr auth_key_prefix human_name add_all_currencies).
Definition decode_create_parent_vasp_account_script (script : Script) : option ScriptCall.t :=
  coin_type ← script_ty_args script !! 0%nat;
  sliding_nonce ← script_args script !! 0%nat ≫= decode_u64_argument;
  new_account_address ← script_args script !! 1%nat ≫= decode_address_argument;
  auth_key_prefix ← script_args script !! 2%nat ≫= decode_u8vector_argument;
  human_name ← script_args script !! 3%nat ≫= decode_u8vector_argument;
  add_all_currencies ← script_args script !! 4%nat ≫= decode_bool_argument;
  Some (ScriptCall.CreateParentVaspAccount coin_type sliding_nonce new_account_address auth_key_prefix human_name
    add_all_currencies).
Definition decode_create_recovery_address_script (script : Script) : option ScriptCall.t :=
  Some ScriptCall.CreateRecoveryAddress.
Definition decode_create_validator_account_script (script : Script) : option ScriptCall.t :=
  sliding_nonce ← script_args script !! 0%nat ≫= decode_u64_argument;
  new_account_address ← script_args script !! 1%nat ≫= decode_address_argument;
  auth_key_prefix ← script_args script !! 2%nat ≫= decode_u8vector_argument;
  human_name ← script_args script !! 3%nat ≫= decode_u8vector_argument;
  Some (ScriptCall.CreateValidatorAccount sliding_nonce new_account_address auth_key_prefix human_name).
Definition decode_create_validator_operator_account_script (script : Script) : option ScriptCall.t :=
  sliding_nonce ← script_args script !! 0%nat ≫= decode_u64_argument;
  new_account_address ← script_args script !! 1%nat ≫= decode_address_argument;
  auth_key_prefix ← script_args script !! 2%nat ≫= decode_u8vector_argument;
  human_name ← script_args script !! 3%nat ≫= decode_u8vector_argument;
  Some (ScriptCall.CreateValidatorOperatorAccount sliding_nonce new_account_address auth_key_prefix human_name).
Definition decode_freeze_account_script (script : Script) : option ScriptCall.t :=
  sliding_nonce ← script_args script !! 0%nat ≫= decode_u64_argument;
  to_freeze_account ← script_args script !! 1%nat ≫= decode_address_argument;
  Some (ScriptCall.FreezeAccount sliding_nonce to_freeze_account).
Definition decode_peer_to_peer_with_metadata_script (script : Script) : option ScriptCall.t :=
  currency ← script_ty_args script !! 0%nat;
  payee ← script_args script !! 0%nat ≫= decode_address_argument;
  amount ← script_args script !! 1%nat ≫= decode_u64_argument;
  metadata ← script_args script !! 2%nat ≫= decode_u8vector_argument;
  metadata_signature ← script_args script !! 3%nat ≫= decode_u8vector_argument;
  Some (ScriptCall.PeerToPeerWithMetadata currency payee amount metadata metadata_signature).
Definition decode_preburn_script (script : Script) : option ScriptCall.t :=
  token ← script_ty_args script !! 0%nat;
  amount ← script_args script !! 0%nat ≫= decode_u64_argument;
  Some (ScriptCall.Preburn token amount).
Definition decode_publish_shared_ed25519_public_key_script (script : Script) : option ScriptCall.t :=
  public_key ← script_args script !! 0%nat ≫= decode_u8vector_argument;
  Some (ScriptCall.PublishSharedEd25519PublicKey public_key).
Definition decode_register_validator_config_script (script : Script) : option ScriptCall.t :=
  validator_account ← script_args script !! 0%nat ≫= decode_address_argument;
  consensus_pubkey ← script_args script !! 1%nat ≫= decode_u8vector_argument;
  validator_network_addresses ← script_args script !! 2%nat ≫= decode_u8vector_argument;
  fullnode_network_addresses ← script_args script !! 3%nat ≫= decode_u8vector_argument;
  Some (ScriptCall.RegisterValidatorConfig validator_account consensus_pubkey validator_network_addresses
    fullnode_network_addresses).
Definition decode_remove_validator_and_reconfigure_script (script : Script) : option ScriptCall.t :=
  sliding_nonce ← script_args script !! 0%nat ≫= decode_u64_argument;
  validator_name ← script_args script !! 1%nat ≫= decode_u8vector_argument;
  validator_address ← script_args script !! 2%nat ≫= decode_address_argument;
  Some (ScriptCall.RemoveValidatorAndReconfigure sliding_nonce validator_name validator_address).
Definition decode_rotate_authentication_key_script (script : Script) : option ScriptCall.t :=
  new_key ← script_args script !! 0%nat ≫= decode_u8vector_argument;
  Some (ScriptCall.RotateAuthenticationKey new_key).
Definition decode_rotate_authentication_key_with_nonce_script (script : Script) : option ScriptCall.t :=
  sliding_nonce ← script_args script !! 0%nat ≫= decode_u64_argument;
  new_key ← script_args script !! 1%nat ≫= decode_u8vector_argument;
  Some (ScriptCall.RotateAuthenticationKeyWithNonce sliding_nonce new_key).
Definition decode_rotate_authentication_key_with_nonce_admin_script (script : Script) : option ScriptCall.t :=
  sliding_nonce ← script_args script !! 0%nat ≫= decode_u64_argument;
  new_key ← script_args script !! 1%nat ≫= decode_u8vector_argument;
  Some (ScriptCall.RotateAuthenticationKeyWithNonceAdmin sliding_nonce new_key).
Definition decode_rotate_authentication_key_with_recovery_address_script (script : Script) : option ScriptCall.t :=
  recovery_address ← script_args script !! 0%nat ≫= decode_address_argument;
  to_recover ← script_args script !! 1%nat ≫= decode_address_argument;
  new_key ← script_args script !! 2%nat ≫= decode_u8vector_argument;
  Some (ScriptCall.RotateAuthenticationKeyWithRecoveryAddress recovery_address to_recover new_key).
Definition decode_rotate_dual_attestation_info_script (script : Script) : option ScriptCall.t :=
  new_url ← script_args script !! 0%nat ≫= decode_u8vector_argument;
  new_key ← script_args script !! 1%nat ≫= decode_u8vector_argument;
  Some (ScriptCall.RotateDualAttestationInfo new_url new_key).
Definition decode_rotate_shared_ed25519_public_key_script (script : Script) : option ScriptCall.t :=
  public_key ← script_args script !! 0%nat ≫= decode_u8vector_argument;
  Some (ScriptCall.RotateSharedEd25519PublicKey public_key).
Definition decode_set_validator_config_and_reconfigure_script (script : Script) : option ScriptCall.t :=
  validator_account ← script_args script !! 0%nat ≫= decode_address_argument;
  consensus_pubkey ← script_args script !! 1%nat ≫= decode_u8vector_argument;
  validator_network_addresses ← script_args script !! 2%nat ≫= decode_u8vector_argument;
  fullnode_network_addresses ← script_args script !! 3%nat ≫= decode_u8vector_argument;
  Some (ScriptCall.SetValidatorConfigAndReconfigure validator_account consensus_pubkey validator_network_addresses
    fullnode_network_addresses).
Definition decode_set_validator_operator_script (script : Script) : option ScriptCall.t :=
  operator_name ← script_args script !! 0%nat ≫= decode_u8vector_argument;
  operator_account ← script_args script !! 1%nat ≫= decode_address_argument;
  Some (ScriptCall.SetValidatorOperator operator_name operator_account).
Definition decode_set_validator_operator_with_nonce_admin_script (script : Script) : option ScriptCall.t :=
  sliding_nonce ← script_args script !! 0%nat ≫= decode_u64_argument;
  operator_name ← script_args script !! 1%nat ≫= decode_u8vector_argument;
  operator_account ← script_args script !! 2%nat ≫= decode_address_argument;
  Some (ScriptCall.SetValidatorOperatorWithNonceAdmin sliding_nonce operator_name operator_account).
Definition decode_tiered_mint_script (script : Script) : option ScriptCall.t :=
  coin_type ← script_ty_args script !! 0%nat;
  sliding_nonce ← script_args script !! 0%nat ≫= decode_u64_argument;
  designated_dealer_address ← script_args script !! 1%nat ≫= decode_address_argument;
  mint_amount ← script_args script !! 2%nat ≫= decode_u64_argument;
  tier_index ← script_args script !! 3%nat ≫= decode_u64_argument;
  Some (ScriptCall.TieredMint coin_type sliding_nonce designated_dealer_address mint_amount tier_index).
Definition decode_unfreeze_account_script (script : Script) : option ScriptCall.t :=
  sliding_nonce ← script_args script !! 0%nat ≫= decode_u64_argument;
  to_unfreeze_account ← script_args script !! 1%nat ≫= decode_address_argument;
  Some (ScriptCall.UnfreezeAccount sliding_nonce to_unfreeze_account).
Definition decode_update_diem_version_script (script : Script) : option ScriptCall.t :=
  sliding_nonce ← script_args script !! 0%nat ≫= decode_u64_argument;
  major ← script_args script !! 1%nat ≫= decode_u64_argument;
  Some (ScriptCall.UpdateDiemVersion sliding_nonce major).
Definition decode_update_dual_attestation_limit_script (script : Script) : option ScriptCall.t :=
  sliding_nonce ← script_args script !! 0%nat ≫= decode_u64_argument;
  new_micro_xdx_limit ← script_args script !! 1%nat ≫= decode_u64_argument;
  Some (ScriptCall.UpdateDualAttestationLimit sliding_nonce new_micro_xdx_limit).
Definition decode_update_exchange_rate_script (script : Script) : option ScriptCall.t :=
  currency ← script_ty_args script !! 0%nat;
  sliding_nonce ← script_args script !! 0%nat ≫= decode_u64_argument;
  new_exchange_rate_numerator ← script_args script !! 1%nat ≫= decode_u64_argument;
  new_exchange_rate_denominator ← script_args script !! 2%nat ≫= decode_u64_argument;
  Some (ScriptCall.UpdateExchangeRate currency sliding_nonce new_exchange_rate_numerator
    new_exchange_rate_denominator).
Definition decode_update_minting_ability_script (script : Script) : option ScriptCall.t :=
  currency ← script_ty_args script !! 0%nat;
  allow_minting ← script_args script !! 0%nat ≫= decode_bool_argument;
  Some (ScriptCall.UpdateMintingAbility currency allow_minting).
Definition TRANSACTION_SCRIPT_DECODER_MAP : list (bytes * (Script → option ScriptCall.t)) := [
  (ADD_CURRENCY_TO_ACCOUNT_CODE, decode_add_currency_to_account_script);
  (ADD_RECOVERY_ROTATION_CAPABILITY_CODE, decode_add_recovery_rotation_capability_script);
  (ADD_VALIDATOR_AND_RECONFIGURE_CODE, decode_add_validator_and_reconfigure_script);
  (BURN_CODE, decode_burn_script);
  (BURN_TXN_FEES_CODE, decode_burn_txn_fees_script);
  (CANCEL_BURN_CODE, decode_cancel_burn_script);
  (CREATE_CHILD_VASP_ACCOUNT_CODE, decode_create_child_vasp_account_script);
  (CREATE_DESIGNATED_DEALER_CODE, decode_create_designated_dealer_script);
  (CREATE_PARENT_VASP_ACCOUNT_CODE, decode_create_parent_vasp_account_script);
  (CREATE_RECOVERY_ADDRESS_CODE, decode_create_recovery_address_script);
  (CREATE_VALIDATOR_ACCOUNT_CODE, decode_create_validator_account_script);
  (CREATE_VALIDATOR_OPERATOR_ACCOUNT_CODE, decode_create_validator_operator_account_script);
  (FREEZE_ACCOUNT_CODE, decode_freeze_account_script);
  (PEER_TO_PEER_WITH_METADATA_CODE, decode_peer_to_peer_with_metadata_script);
  (PREBURN_CODE, decode_preburn_script);
  (PUBLISH_SHARED_ED25519_PUBLIC_KEY_CODE, decode_publish_shared_ed25519_public_key_script);
  (REGISTER_VALIDATOR_CONFIG_CODE, decode_register_validator_config_script);
  (REMOVE_VALIDATOR_AND_RECONFIGURE_CODE, decode_remove_validator_and_reconfigure_script);
  (ROTATE_AUTHENTICATION_KEY_CODE, decode_rotate_authentication_key_script);
  (ROTATE_AUTHENTICATION_KEY_WITH_NONCE_CODE, decode_rotate_authentication_key_with_nonce_script);
  (ROTATE_AUTHENTICATION_KEY_WITH_NONCE_ADMIN_CODE, decode_rotate_authentication_key_with_nonce_admin_script);
  (ROTATE_AUTHENTICATION_KEY_WITH_RECOVERY_ADDRESS_CODE,
    decode_rotate_authentication_key_with_recovery_address_script);
  (ROTATE_DUAL_ATTESTATION_INFO_CODE, decode_rotate_dual_attestation_info_script);
  (ROTATE_SHARED_ED25519_PUBLIC_KEY_CODE, decode_rotate_shared_ed25519_public_key_script);
  (SET_VALIDATOR_CONFIG_AND_RECONFIGURE_CODE, decode_set_validator_config_and_reconfigure_script);
  (SET_VALIDATOR_OPERATOR_CODE, decode_set_validator_operator_script);
  (SET_VALIDATOR_OPERATOR_WITH_NONCE_ADMIN_CODE, decode_set_validator_operator_with_nonce_admin_script);
  (TIERED_MINT_CODE, decode_tiered_mint_script);
  (UNFREEZE_ACCOUNT_CODE, decode_unfreeze_account_script);
  (UPDATE_DIEM_VERSION_CODE, decode_update_diem_version_script);
  (UPDATE_DUAL_ATTESTATION_LIMIT_CODE, decode_update_dual_attestation_limit_script);
  (UPDATE_EXCHANGE_RATE_CODE, decode_update_exchange_rate_script);
  (UPDATE_MINTING_ABILITY_CODE, decode_update_minting_ability_script)
].
Definition script_decode (script : Script) : option ScriptCall.t :=
  d ← by_code (script_code script) TRANSACTION_SCRIPT_DECODER_MAP;
  d script.

(** ** The script functions *)

Module ScriptFunctionCall.
Inductive t :=
| AddCurrencyToAccount (currency : TypeTag)
| AddDiemIdDomain (address : AccountAddress) (domain : bytes)
| AddRecoveryRotationCapability (recovery_address : AccountAddress)
| AddValidatorAndReconfigure (sliding_nonce : Z) (validator_name : bytes) (validator_address : AccountAddress)
| AutopayCreateInstruction (uid : Z) (in_type : Z) (payee : AccountAddress) (end_epoch : Z) (value : Z)
| AutopayDisable
| AutopayEnable
| BalanceTransfer (destination : AccountAddress) (unscaled_value : Z)
| BurnTxnFees (coin_type : TypeTag)
| BurnWithAmount (token : TypeTag) (sliding_nonce : Z) (preburn_address : AccountAddress) (amount : Z)
| CancelBurnWithAmount (token : TypeTag) (preburn_address : AccountAddress) (amount : Z)
| ClaimMakeWhole
| CommunityTransfer (destination : AccountAddress) (unscaled_value : Z) (memo : bytes)
| CreateAccUser (challenge : bytes) (solution : bytes) (difficulty : Z) (security : Z)
| CreateAccVal (challenge : bytes) (solution : bytes) (difficulty : Z) (security : Z) (ow_human_name : bytes)
    (op_address : AccountAddress) (op_auth_key_prefix : bytes) (op_consensus_pubkey : bytes)
    (op_validator_network_addresses : bytes) (op_fullnode_network_addresses : bytes) (op_human_name : bytes)
| CreateChildVaspAccount (coin_type : TypeTag) (child_address : AccountAddress) (auth_key_prefix : bytes)
    (add_all_currencies : bool) (child_initial_balance : Z)
| CreateDesignatedDealer (currency : TypeTag) (sliding_nonce : Z) (addr : AccountAddress) (auth_key_prefix : bytes)
    (human_name : bytes) (add_all_currencies : bool)
| CreateDiemIdDomains
| CreateParentVaspAccount (coin_type : TypeTag) (sliding_nonce : Z) (new_account_address : AccountAddress)
    (auth_key_prefix : bytes) (human_name : bytes) (add_all_currencies : bool)
| CreateRecoveryAddress
| CreateUserByCoinTx (account : AccountAddress) (authkey_prefix : bytes) (unscaled_value : Z)
| CreateValidatorAccount (sliding_nonce : Z) (new_account_address : AccountAddress) (auth_key_prefix : bytes)
    (human_name : bytes)
| CreateValidatorOperatorAccount (sliding_nonce : Z) (new_account_address : AccountAddress) (auth_key_prefix : bytes)
    (human_name : bytes)
| DemoE2e (world : Z)
| FreezeAccount (sliding_nonce : Z) (to_freeze_account : AccountAddress)
| InitVouch
| InitializeDiemConsensusConfig (sliding_nonce : Z)
| MinerstateCommit (challenge : bytes) (solution : bytes) (difficulty : Z) (security : Z)
| MinerstateCommitByOperator (owner_address : AccountAddress) (challenge : bytes) (solution : bytes) (difficulty : Z)
    (security : Z)
| MinerstateHelper
| OlDelegateVote (dest : AccountAddress)
| OlEnableDelegation
| OlOracleTx (id : Z) (data : bytes)
| OlReconfigBulkUpdateSetup (alice : AccountAddress) (bob : AccountAddress) (carol : AccountAddress) (sha :
    AccountAddress) (ram : AccountAddress)
| OlRemoveDelegation
| OlRevokeVote
| PeerToPeerWithMetadata (currency : TypeTag) (payee : AccountAddress) (amount : Z) (metadata : bytes)
    (metadata_signature : bytes)
| Preburn (token : TypeTag) (amount : Z)
| PublishSharedEd25519PublicKey (public_key : bytes)
| RegisterValidatorConfig (validator_account : AccountAddress) (consensus_pubkey : bytes)
    (validator_network_addresses : bytes) (fullnode_network_addresses : bytes)
| RemoveDiemIdDomain (address : AccountAddress) (domain : bytes)
| RemoveValidatorAndReconfigure (sliding_nonce : Z) (validator_name : bytes) (validator_address : AccountAddress)
| RevokeVouch (val : AccountAddress)
| RotateAuthenticationKey (new_key : bytes)
| RotateAuthenticationKeyWithNonce (sliding_nonce : Z) (new_key : bytes)
| RotateAuthenticationKeyWithNonceAdmin (sliding_nonce : Z) (new_key : bytes)
| RotateAuthenticationKeyWithRecoveryAddress (recovery_address : AccountAddress) (to_recover : AccountAddress)
    (new_key : bytes)
| RotateDualAttestationInfo (new_url : bytes) (new_key : bytes)
| RotateSharedEd25519PublicKey (public_key : bytes)
| SelfUnjail
| SetBurnPref (to_community : bool)
| SetGasConstants (sliding_nonce : Z) (global_memory_per_byte_cost : Z) (global_memory_per_byte_write_cost : Z)
    (min_transaction_gas_units : Z) (large_transaction_cutoff : Z) (intrinsic_gas_per_byte : Z)
    (maximum_number_of_gas_units : Z) (min_price_per_gas_unit : Z) (max_price_per_gas_unit : Z)
    (max_transaction_size_in_bytes : Z) (gas_unit_scaling_factor : Z) (default_account_size : Z)
| SetValidatorConfigAndReconfigure (validator_account : AccountAddress) (consensus_pubkey : bytes)
    (validator_network_addresses : bytes) (fullnode_network_addresses : bytes)
| SetValidatorOperator (operator_name : bytes) (operator_account : AccountAddress)
| SetValidatorOperatorWithNonceAdmin (sliding_nonce : Z) (operator_name : bytes) (operator_account : AccountAddress)
| SetWalletType (type_of : Z)
| TieredMint (coin_type : TypeTag) (sliding_nonce : Z) (designated_dealer_address : AccountAddress) (mint_amount : Z)
    (tier_index : Z)
| UnfreezeAccount (sliding_nonce : Z) (to_unfreeze_account : AccountAddress)
| UpdateDiemConsensusConfig (sliding_nonce : Z) (config : bytes)
| UpdateDiemVersion (sliding_nonce : Z) (major : Z)
| UpdateDualAttestationLimit (sliding_nonce : Z) (new_micro_xdx_limit : Z)
| UpdateExchangeRate (currency : TypeTag) (sliding_nonce : Z) (new_exchange_rate_numerator : Z)
    (new_exchange_rate_denominator : Z)
| UpdateMintingAbility (currency : TypeTag) (allow_minting : bool)
| ValAddSelf
| VouchFor (val : AccountAddress)
| VoucherUnjail (addr : AccountAddress).
End ScriptFunctionCall.

(** The parameters that bcs can encode *)
Definition call_ok (c : ScriptFunctionCall.t) : Prop :=
  match c with
  | ScriptFunctionCall.AddDiemIdDomain address domain => LegacyAddressV5.wf address ∧ sequence_ok domain
  | ScriptFunctionCall.AddRecoveryRotationCapability recovery_address => LegacyAddressV5.wf recovery_address
  | ScriptFunctionCall.AddValidatorAndReconfigure sliding_nonce validator_name validator_address => is_u64
    sliding_nonce ∧ sequence_ok validator_name ∧ LegacyAddressV5.wf validator_address
  | ScriptFunctionCall.AutopayCreateInstruction uid in_type payee end_epoch value => is_u64 uid ∧ is_u8 in_type ∧
    LegacyAddressV5.wf payee ∧ is_u64 end_epoch ∧ is_u64 value
  | ScriptFunctionCall.BalanceTransfer destination unscaled_value => LegacyAddressV5.wf destination ∧ is_u64
    unscaled_value
  | ScriptFunctionCall.BurnWithAmount _ sliding_nonce preburn_address amount => is_u64 sliding_nonce ∧
    LegacyAddressV5.wf preburn_address ∧ is_u64 amount
  | ScriptFunctionCall.CancelBurnWithAmount _ preburn_address amount => LegacyAddressV5.wf preburn_address ∧ is_u64
    amount
  | ScriptFunctionCall.CommunityTransfer destination unscaled_value memo => LegacyAddressV5.wf destination ∧ is_u64
    unscaled_value ∧ sequence_ok memo
  | ScriptFunctionCall.CreateAccUser challenge solution difficulty security => sequence_ok challenge ∧ sequence_ok
    solution ∧ is_u64 difficulty ∧ is_u64 security
  | ScriptFunctionCall.CreateAccVal challenge solution difficulty security ow_human_name op_address
    op_auth_key_prefix op_consensus_pubkey op_validator_network_addresses op_fullnode_network_addresses op_human_name
    => sequence_ok challenge ∧ sequence_ok solution ∧ is_u64 difficulty ∧ is_u64 security ∧ sequence_ok ow_human_name
    ∧ LegacyAddressV5.wf op_address ∧ sequence_ok op_auth_key_prefix ∧ sequence_ok op_consensus_pubkey ∧ sequence_ok
    op_validator_network_addresses ∧ sequence_ok op_fullnode_network_addresses ∧ sequence_ok op_human_name
  | ScriptFunctionCall.CreateChildVaspAccount _ child_address auth_key_prefix _ child_initial_balance =>
    LegacyAddressV5.wf child_address ∧ sequence_ok auth_key_prefix ∧ is_u64 child_initial_balance
  | ScriptFunctionCall.CreateDesignatedDealer _ sliding_nonce addr auth_key_prefix human_name _ => is_u64
    sliding_nonce ∧ LegacyAddressV5.wf addr ∧ sequence_ok auth_key_prefix ∧ sequence_ok human_name
  | ScriptFunctionCall.CreateParentVaspAccount _ sliding_nonce new_account_address auth_key_prefix human_name _ =>
    is_u64 sliding_nonce ∧ LegacyAddressV5.wf new_account_address ∧ sequence_ok auth_key_prefix ∧ sequence_ok
    human_name
  | ScriptFunctionCall.CreateUserByCoinTx account authkey_prefix unscaled_value => LegacyAddressV5.wf account ∧
    sequence_ok authkey_prefix ∧ is_u64 unscaled_value
  | ScriptFunctionCall.CreateValidatorAccount sliding_nonce new_account_address auth_key_prefix human_name => is_u64
    sliding_nonce ∧ LegacyAddressV5.wf new_account_address ∧ sequence_ok auth_key_prefix ∧ sequence_ok human_name
  | ScriptFunctionCall.CreateValidatorOperatorAccount sliding_nonce new_account_address auth_key_prefix human_name =>
    is_u64 sliding_nonce ∧ LegacyAddressV5.wf new_account_address ∧ sequence_ok auth_key_prefix ∧ sequence_ok
    human_name
  | ScriptFunctionCall.DemoE2e world => is_u64 world
  | ScriptFunctionCall.FreezeAccount sliding_nonce to_freeze_account => is_u64 sliding_nonce ∧ LegacyAddressV5.wf
    to_freeze_account
  | ScriptFunctionCall.InitializeDiemConsensusConfig sliding_nonce => is_u64 sliding_nonce
  | ScriptFunctionCall.MinerstateCommit challenge solution difficulty security => sequence_ok challenge ∧ sequence_ok
    solution ∧ is_u64 difficulty ∧ is_u64 security
  | ScriptFunctionCall.MinerstateCommitByOperator owner_address challenge solution difficulty security =>
    LegacyAddressV5.wf owner_address ∧ sequence_ok challenge ∧ sequence_ok solution ∧ is_u64 difficulty ∧ is_u64
    security
  | ScriptFunctionCall.OlDelegateVote dest => LegacyAddressV5.wf dest
  | ScriptFunctionCall.OlOracleTx id data => is_u64 id ∧ sequence_ok data
  | ScriptFunctionCall.OlReconfigBulkUpdateSetup alice bob carol sha ram => LegacyAddressV5.wf alice ∧
    LegacyAddressV5.wf bob ∧ LegacyAddressV5.wf carol ∧ LegacyAddressV5.wf sha ∧ LegacyAddressV5.wf ram
  | ScriptFunctionCall.PeerToPeerWithMetadata _ payee amount metadata metadata_signature => LegacyAddressV5.wf payee
    ∧ is_u64 amount ∧ sequence_ok metadata ∧ sequence_ok metadata_signature
  | ScriptFunctionCall.Preburn _ amount => is_u64 amount
  | ScriptFunctionCall.PublishSharedEd25519PublicKey public_key => sequence_ok public_key
  | ScriptFunctionCall.RegisterValidatorConfig validator_account consensus_pubkey validator_network_addresses
    fullnode_network_addresses => LegacyAddressV5.wf validator_account ∧ sequence_ok consensus_pubkey ∧ sequence_ok
    validator_network_addresses ∧ sequence_ok fullnode_network_addresses
  | ScriptFunctionCall.RemoveDiemIdDomain address domain => LegacyAddressV5.wf address ∧ sequence_ok domain
  | ScriptFunctionCall.RemoveValidatorAndReconfigure sliding_nonce validator_name validator_address => is_u64
    sliding_nonce ∧ sequence_ok validator_name ∧ LegacyAddressV5.wf validator_address
  | ScriptFunctionCall.RevokeVouch val => LegacyAddressV5.wf val
  | ScriptFunctionCall.RotateAuthenticationKey new_key => sequence_ok new_key
  | ScriptFunctionCall.RotateAuthenticationKeyWithNonce sliding_nonce new_key => is_u64 sliding_nonce ∧ sequence_ok
    new_key
  | ScriptFunctionCall.RotateAuthenticationKeyWithNonceAdmin sliding_nonce new_key => is_u64 sliding_nonce ∧
    sequence_ok new_key
  | ScriptFunctionCall.RotateAuthenticationKeyWithRecoveryAddress recovery_address to_recover new_key =>
    LegacyAddressV5.wf recovery_address ∧ LegacyAddressV5.wf to_recover ∧ sequence_ok new_key
  | ScriptFunctionCall.RotateDualAttestationInfo new_url new_key => sequence_ok new_url ∧ sequence_ok new_key
  | ScriptFunctionCall.RotateSharedEd25519PublicKey public_key => sequence_ok public_key
  | ScriptFunctionCall.SetGasConstants sliding_nonce global_memory_per_byte_cost global_memory_per_byte_write_cost
    min_transaction_gas_units large_transaction_cutoff intrinsic_gas_per_byte maximum_number_of_gas_units
    min_price_per_gas_unit max_price_per_gas_unit max_transaction_size_in_bytes gas_unit_scaling_factor
    default_account_size => is_u64 sliding_nonce ∧ is_u64 global_memory_per_byte_cost ∧ is_u64
    global_memory_per_byte_write_cost ∧ is_u64 min_transaction_gas_units ∧ is_u64 large_transaction_cutoff ∧ is_u64
    intrinsic_gas_per_byte ∧ is_u64 maximum_number_of_gas_units ∧ is_u64 min_price_per_gas_unit ∧ is_u64
    max_price_per_gas_unit ∧ is_u64 max_transaction_size_in_bytes ∧ is_u64 gas_unit_scaling_factor ∧ is_u64
    default_account_size
  | ScriptFunctionCall.SetValidatorConfigAndReconfigure validator_account consensus_pubkey
    validator_network_addresses fullnode_network_addresses => LegacyAddressV5.wf validator_account ∧ sequence_ok
    consensus_pubkey ∧ sequence_ok validator_network_addresses ∧ sequence_ok fullnode_network_addresses
  | ScriptFunctionCall.SetValidatorOperator operator_name operator_account => sequence_ok operator_name ∧
    LegacyAddressV5.wf operator_account
  | ScriptFunctionCall.SetValidatorOperatorWithNonceAdmin sliding_nonce operator_name operator_account => is_u64
    sliding_nonce ∧ sequence_ok operator_name ∧ LegacyAddressV5.wf operator_account
  | ScriptFunctionCall.SetWalletType type_of => is_u8 type_of
  | ScriptFunctionCall.TieredMint _ sliding_nonce designated_dealer_address mint_amount tier_index => is_u64
    sliding_nonce ∧ LegacyAddressV5.wf designated_dealer_address ∧ is_u64 mint_amount ∧ is_u64 tier_index
  | ScriptFunctionCall.UnfreezeAccount sliding_nonce to_unfreeze_account => is_u64 sliding_nonce ∧ LegacyAddressV5.wf
    to_unfreeze_account
  | ScriptFunctionCall.UpdateDiemConsensusConfig sliding_nonce config => is_u64 sliding_nonce ∧ sequence_ok config
  | ScriptFunctionCall.UpdateDiemVersion sliding_nonce major => is_u64 sliding_nonce ∧ is_u64 major
  | ScriptFunctionCall.UpdateDualAttestationLimit sliding_nonce new_micro_xdx_limit => is_u64 sliding_nonce ∧ is_u64
    new_micro_xdx_limit
  | ScriptFunctionCall.UpdateExchangeRate _ sliding_nonce new_exchange_rate_numerator new_exchange_rate_denominator
    => is_u64 sliding_nonce ∧ is_u64 new_exchange_rate_numerator ∧ is_u64 new_exchange_rate_denominator
  | ScriptFunctionCall.VouchFor val => LegacyAddressV5.wf val
  | ScriptFunctionCall.VoucherUnjail addr => LegacyAddressV5.wf addr
  | _ => True
  end.

Section functions.
Context `{BcsV5}.

Definition encode_add_currency_to_account_script_function (currency : TypeTag) : outcome TransactionPayload :=
  Ok (function_call "AccountAdministrationScripts" "add_currency_to_account" [currency] []).
Definition encode_add_diem_id_domain_script_function (address : AccountAddress) (domain : bytes) : outcome
    TransactionPayload :=
  address_bytes ← encoded (to_address address);
  domain_bytes ← encoded (to_vec_u8 domain);
  Ok (function_call "TreasuryComplianceScripts" "add_diem_id_domain" [] [address_bytes; domain_bytes]).
Definition encode_add_recovery_rotation_capability_script_function (recovery_address : AccountAddress) : outcome
    TransactionPayload :=
  recovery_address_bytes ← encoded (to_address recovery_address);
  Ok (function_call "AccountAdministrationScripts" "add_recovery_rotation_capability" [] [recovery_address_bytes]).
Definition encode_add_validator_and_reconfigure_script_function (sliding_nonce : Z) (validator_name : bytes)
    (validator_address : AccountAddress) : outcome TransactionPayload :=
  sliding_nonce_bytes ← encoded (to_u64 sliding_nonce);
  validator_name_bytes ← encoded (to_vec_u8 validator_name);
  validator_address_bytes ← encoded (to_address validator_address);
  Ok (function_call "ValidatorAdministrationScripts" "add_validator_and_reconfigure" [] [sliding_nonce_bytes;
    validator_name_bytes; validator_address_bytes]).
Definition encode_autopay_create_instruction_script_function (uid : Z) (in_type : Z) (payee : AccountAddress)
    (end_epoch : Z) (value : Z) : outcome TransactionPayload :=
  uid_bytes ← encoded (to_u64 uid);
  in_type_bytes ← encoded (to_u8 in_type);
  payee_bytes ← encoded (to_address payee);
  end_epoch_bytes ← encoded (to_u64 end_epoch);
  value_bytes ← encoded (to_u64 value);
  Ok (function_call "AutoPayScripts" "autopay_create_instruction" [] [uid_bytes; in_type_bytes; payee_bytes;
    end_epoch_bytes; value_bytes]).
Definition encode_autopay_disable_script_function : outcome TransactionPayload :=
  Ok (function_call "AutoPayScripts" "autopay_disable" [] []).
Definition encode_autopay_enable_script_function : outcome TransactionPayload :=
  Ok (function_call "AutoPayScripts" "autopay_enable" [] []).
Definition encode_balance_transfer_script_function (destination : AccountAddress) (unscaled_value : Z) : outcome
    TransactionPayload :=
  destination_bytes ← encoded (to_address destination);
  unscaled_value_bytes ← encoded (to_u64 unscaled_value);
  Ok (function_call "TransferScripts" "balance_transfer" [] [destination_bytes; unscaled_value_bytes]).
Definition encode_burn_txn_fees_script_function (coin_type : TypeTag) : outcome TransactionPayload :=
  Ok (function_call "TreasuryComplianceScripts" "burn_txn_fees" [coin_type] []).
Definition encode_burn_with_amount_script_function (token : TypeTag) (sliding_nonce : Z) (preburn_address :
    AccountAddress) (amount : Z) : outcome TransactionPayload :=
  sliding_nonce_bytes ← encoded (to_u64 sliding_nonce);
  preburn_address_bytes ← encoded (to_address preburn_address);
  amount_bytes ← encoded (to_u64 amount);
  Ok (function_call "TreasuryComplianceScripts" "burn_with_amount" [token] [sliding_nonce_bytes;
    preburn_address_bytes; amount_bytes]).
Definition encode_cancel_burn_with_amount_script_function (token : TypeTag) (preburn_address : AccountAddress)
    (amount : Z) : outcome TransactionPayload :=
  preburn_address_bytes ← encoded (to_address preburn_address);
  amount_bytes ← encoded (to_u64 amount);
  Ok (function_call "TreasuryComplianceScripts" "cancel_burn_with_amount" [token] [preburn_address_bytes;
    amount_bytes]).
Definition encode_claim_make_whole_script_function : outcome TransactionPayload :=
  Ok (function_call "AccountScripts" "claim_make_whole" [] []).
Definition encode_community_transfer_script_function (destination : AccountAddress) (unscaled_value : Z) (memo :
    bytes) : outcome TransactionPayload :=
  destination_bytes ← encoded (to_address destination);
  unscaled_value_bytes ← encoded (to_u64 unscaled_value);
  memo_bytes ← encoded (to_vec_u8 memo);
  Ok (function_call "TransferScripts" "community_transfer" [] [destination_bytes; unscaled_value_bytes; memo_bytes]).
Definition encode_create_acc_user_script_function (challenge : bytes) (solution : bytes) (difficulty : Z) (security :
    Z) : outcome TransactionPayload :=
  challenge_bytes ← encoded (to_vec_u8 challenge);
  solution_bytes ← encoded (to_vec_u8 solution);
  difficulty_bytes ← encoded (to_u64 difficulty);
  security_bytes ← encoded (to_u64 security);
  Ok (function_call "AccountScripts" "create_acc_user" [] [challenge_bytes; solution_bytes; difficulty_bytes;
    security_bytes]).
Definition encode_create_acc_val_script_function (challenge : bytes) (solution : bytes) (difficulty : Z) (security :
    Z) (ow_human_name : bytes) (op_address : AccountAddress) (op_auth_key_prefix : bytes) (op_consensus_pubkey :
    bytes) (op_validator_network_addresses : bytes) (op_fullnode_network_addresses : bytes) (op_human_name : bytes) :
    outcome TransactionPayload :=
  challenge_bytes ← encoded (to_vec_u8 challenge);
  solution_bytes ← encoded (to_vec_u8 solution);
  difficulty_bytes ← encoded (to_u64 difficulty);
  security_bytes ← encoded (to_u64 security);
  ow_human_name_bytes ← encoded (to_vec_u8 ow_human_name);
  op_address_bytes ← encoded (to_address op_address);
  op_auth_key_prefix_bytes ← encoded (to_vec_u8 op_auth_key_prefix);
  op_consensus_pubkey_bytes ← encoded (to_vec_u8 op_consensus_pubkey);
  op_validator_network_addresses_bytes ← encoded (to_vec_u8 op_validator_network_addresses);
  op_fullnode_network_addresses_bytes ← encoded (to_vec_u8 op_fullnode_network_addresses);
  op_human_name_bytes ← encoded (to_vec_u8 op_human_name);
  Ok (function_call "AccountScripts" "create_acc_val" [] [challenge_bytes; solution_bytes; difficulty_bytes;
    security_bytes; ow_human_name_bytes; op_address_bytes; op_auth_key_prefix_bytes; op_consensus_pubkey_bytes;
    op_validator_network_addresses_bytes; op_fullnode_network_addresses_bytes; op_human_name_bytes]).
Definition encode_create_child_vasp_account_script_function (coin_type : TypeTag) (child_address : AccountAddress)
    (auth_key_prefix : bytes) (add_all_currencies : bool) (child_initial_balance : Z) : outcome TransactionPayload :=
  child_address_bytes ← encoded (to_address child_address);
  auth_key_prefix_bytes ← encoded (to_vec_u8 auth_key_prefix);
  add_all_currencies_bytes ← encoded (to_bool add_all_currencies);
  child_initial_balance_bytes ← encoded (to_u64 child_initial_balance);
  Ok (function_call "AccountCreationScripts" "create_child_vasp_account" [coin_type] [child_address_bytes;
    auth_key_prefix_bytes; add_all_currencies_bytes; child_initial_balance_bytes]).
Definition encode_create_designated_dealer_script_function (currency : TypeTag) (sliding_nonce : Z) (addr :
    AccountAddress) (auth_key_prefix : bytes) (human_name : bytes) (add_all_currencies : bool) : outcome
    TransactionPayload :=
  sliding_nonce_bytes ← encoded (to_u64 sliding_nonce);
  addr_bytes ← encoded (to_address addr);
  auth_key_prefix_bytes ← encoded (to_vec_u8 auth_key_prefix);
  human_name_bytes ← encoded (to_vec_u8 human_name);
  add_all_currencies_bytes ← encoded (to_bool add_all_currencies);
  Ok (function_call "AccountCreationScripts" "create_designated_dealer" [currency] [sliding_nonce_bytes; addr_bytes;
    auth_key_prefix_bytes; human_name_bytes; add_all_currencies_bytes]).
Definition encode_create_diem_id_domains_script_function : outcome TransactionPayload :=
  Ok (function_call "AccountAdministrationScripts" "create_diem_id_domains" [] []).
Definition encode_create_parent_vasp_account_script_function (coin_type : TypeTag) (sliding_nonce : Z)
    (new_account_address : AccountAddress) (auth_key_prefix : bytes) (human_name : bytes) (add_all_currencies : bool)
    : outcome TransactionPayload :=
  sliding_nonce_bytes ← encoded (to_u64 sliding_nonce);
  new_account_address_bytes ← encoded (to_address new_account_address);
  auth_key_prefix_bytes ← encoded (to_vec_u8 auth_key_prefix);
  human_name_bytes ← encoded (to_vec_u8 human_name);
  add_all_currencies_bytes ← encoded (to_bool add_all_currencies);
  Ok (function_call "AccountCreationScripts" "create_parent_vasp_account" [coin_type] [sliding_nonce_bytes;
    new_account_address_bytes; auth_key_prefix_bytes; human_name_bytes; add_all_currencies_bytes]).
Definition encode_create_recovery_address_script_function : outcome TransactionPayload :=
  Ok (function_call "AccountAdministrationScripts" "create_recovery_address" [] []).
Definition encode_create_user_by_coin_tx_script_function (account : AccountAddress) (authkey_prefix : bytes)
    (unscaled_value : Z) : outcome TransactionPayload :=
  account_bytes ← encoded (to_address account);
  authkey_prefix_bytes ← encoded (to_vec_u8 authkey_prefix);
  unscaled_value_bytes ← encoded (to_u64 unscaled_value);
  Ok (function_call "AccountScripts" "create_user_by_coin_tx" [] [account_bytes; authkey_prefix_bytes;
    unscaled_value_bytes]).
Definition encode_create_validator_account_script_function (sliding_nonce : Z) (new_account_address : AccountAddress)
    (auth_key_prefix : bytes) (human_name : bytes) : outcome TransactionPayload :=
  sliding_nonce_bytes ← encoded (to_u64 sliding_nonce);
  new_account_address_bytes ← encoded (to_address new_account_address);
  auth_key_prefix_bytes ← encoded (to_vec_u8 auth_key_prefix);
  human_name_bytes ← encoded (to_vec_u8 human_name);
  Ok (function_call "AccountCreationScripts" "create_validator_account" [] [sliding_nonce_bytes;
    new_account_address_bytes; auth_key_prefix_bytes; human_name_bytes]).
Definition encode_create_validator_operator_account_script_function (sliding_nonce : Z) (new_account_address :
    AccountAddress) (auth_key_prefix : bytes) (human_name : bytes) : outcome TransactionPayload :=
  sliding_nonce_bytes ← encoded (to_u64 sliding_nonce);
  new_account_address_bytes ← encoded (to_address new_account_address);
  auth_key_prefix_bytes ← encoded (to_vec_u8 auth_key_prefix);
  human_name_bytes ← encoded (to_vec_u8 human_name);
  Ok (function_call "AccountCreationScripts" "create_validator_operator_account" [] [sliding_nonce_bytes;
    new_account_address_bytes; auth_key_prefix_bytes; human_name_bytes]).
Definition encode_demo_e2e_script_function (world : Z) : outcome TransactionPayload :=
  world_bytes ← encoded (to_u64 world);
  Ok (function_call "DemoScripts" "demo_e2e" [] [world_bytes]).
Definition encode_freeze_account_script_function (sliding_nonce : Z) (to_freeze_account : AccountAddress) : outcome
    TransactionPayload :=
  sliding_nonce_bytes ← encoded (to_u64 sliding_nonce);
  to_freeze_account_bytes ← encoded (to_address to_freeze_account);
  Ok (function_call "TreasuryComplianceScripts" "freeze_account" [] [sliding_nonce_bytes; to_freeze_account_bytes]).
Definition encode_init_vouch_script_function : outcome TransactionPayload :=
  Ok (function_call "VouchScripts" "init_vouch" [] []).
Definition encode_initialize_diem_consensus_config_script_function (sliding_nonce : Z) : outcome TransactionPayload :=
  sliding_nonce_bytes ← encoded (to_u64 sliding_nonce);
  Ok (function_call "SystemAdministrationScripts" "initialize_diem_consensus_config" [] [sliding_nonce_bytes]).
Definition encode_minerstate_commit_script_function (challenge : bytes) (solution : bytes) (difficulty : Z) (security
    : Z) : outcome TransactionPayload :=
  challenge_bytes ← encoded (to_vec_u8 challenge);
  solution_bytes ← encoded (to_vec_u8 solution);
  difficulty_bytes ← encoded (to_u64 difficulty);
  security_bytes ← encoded (to_u64 security);
  Ok (function_call "TowerStateScripts" "minerstate_commit" [] [challenge_bytes; solution_bytes; difficulty_bytes;
    security_bytes]).
Definition encode_minerstate_commit_by_operator_script_function (owner_address : AccountAddress) (challenge : bytes)
    (solution : bytes) (difficulty : Z) (security : Z) : outcome TransactionPayload :=
  owner_address_bytes ← encoded (to_address owner_address);
  challenge_bytes ← encoded (to_vec_u8 challenge);
  solution_bytes ← encoded (to_vec_u8 solution);
  difficulty_bytes ← encoded (to_u64 difficulty);
  security_bytes ← encoded (to_u64 security);
  Ok (function_call "TowerStateScripts" "minerstate_commit_by_operator" [] [owner_address_bytes; challenge_bytes;
    solution_bytes; difficulty_bytes; security_bytes]).
Definition encode_minerstate_helper_script_function : outcome TransactionPayload :=
  Ok (function_call "TowerStateScripts" "minerstate_helper" [] []).
Definition encode_ol_delegate_vote_script_function (dest : AccountAddress) : outcome TransactionPayload :=
  dest_bytes ← encoded (to_address dest);
  Ok (function_call "OracleScripts" "ol_delegate_vote" [] [dest_bytes]).
Definition encode_ol_enable_delegation_script_function : outcome TransactionPayload :=
  Ok (function_call "OracleScripts" "ol_enable_delegation" [] []).
Definition encode_ol_oracle_tx_script_function (id : Z) (data : bytes) : outcome TransactionPayload :=
  id_bytes ← encoded (to_u64 id);
  data_bytes ← encoded (to_vec_u8 data);
  Ok (function_call "OracleScripts" "ol_oracle_tx" [] [id_bytes; data_bytes]).
Definition encode_ol_reconfig_bulk_update_setup_script_function (alice : AccountAddress) (bob : AccountAddress)
    (carol : AccountAddress) (sha : AccountAddress) (ram : AccountAddress) : outcome TransactionPayload :=
  alice_bytes ← encoded (to_address alice);
  bob_bytes ← encoded (to_address bob);
  carol_bytes ← encoded (to_address carol);
  sha_bytes ← encoded (to_address sha);
  ram_bytes ← encoded (to_address ram);
  Ok (function_call "ValidatorScripts" "ol_reconfig_bulk_update_setup" [] [alice_bytes; bob_bytes; carol_bytes;
    sha_bytes; ram_bytes]).
Definition encode_ol_remove_delegation_script_function : outcome TransactionPayload :=
  Ok (function_call "OracleScripts" "ol_remove_delegation" [] []).
Definition encode_ol_revoke_vote_script_function : outcome TransactionPayload :=
  Ok (function_call "OracleScripts" "ol_revoke_vote" [] []).
Definition encode_peer_to_peer_with_metadata_script_function (currency : TypeTag) (payee : AccountAddress) (amount :
    Z) (metadata : bytes) (metadata_signature : bytes) : outcome TransactionPayload :=
  payee_bytes ← encoded (to_address payee);
  amount_bytes ← encoded (to_u64 amount);
  metadata_bytes ← encoded (to_vec_u8 metadata);
  metadata_signature_bytes ← encoded (to_vec_u8 metadata_signature);
  Ok (function_call "PaymentScripts" "peer_to_peer_with_metadata" [currency] [payee_bytes; amount_bytes;
    metadata_bytes; metadata_signature_bytes]).
Definition encode_preburn_script_function (token : TypeTag) (amount : Z) : outcome TransactionPayload :=
  amount_bytes ← encoded (to_u64 amount);
  Ok (function_call "TreasuryComplianceScripts" "preburn" [token] [amount_bytes]).
Definition encode_publish_shared_ed25519_public_key_script_function (public_key : bytes) : outcome TransactionPayload
    :=
  public_key_bytes ← encoded (to_vec_u8 public_key);
  Ok (function_call "AccountAdministrationScripts" "publish_shared_ed25519_public_key" [] [public_key_bytes]).
Definition encode_register_validator_config_script_function (validator_account : AccountAddress) (consensus_pubkey :
    bytes) (validator_network_addresses : bytes) (fullnode_network_addresses : bytes) : outcome TransactionPayload :=
  validator_account_bytes ← encoded (to_address validator_account);
  consensus_pubkey_bytes ← encoded (to_vec_u8 consensus_pubkey);
  validator_network_addresses_bytes ← encoded (to_vec_u8 validator_network_addresses);
  fullnode_network_addresses_bytes ← encoded (to_vec_u8 fullnode_network_addresses);
  Ok (function_call "ValidatorAdministrationScripts" "register_validator_config" [] [validator_account_bytes;
    consensus_pubkey_bytes; validator_network_addresses_bytes; fullnode_network_addresses_bytes]).
Definition encode_remove_diem_id_domain_script_function (address : AccountAddress) (domain : bytes) : outcome
    TransactionPayload :=
  address_bytes ← encoded (to_address address);
  domain_bytes ← encoded (to_vec_u8 domain);
  Ok (function_call "TreasuryComplianceScripts" "remove_diem_id_domain" [] [address_bytes; domain_bytes]).
Definition encode_remove_validator_and_reconfigure_script_function (sliding_nonce : Z) (validator_name : bytes)
    (validator_address : AccountAddress) : outcome TransactionPayload :=
  sliding_nonce_bytes ← encoded (to_u64 sliding_nonce);
  validator_name_bytes ← encoded (to_vec_u8 validator_name);
  validator_address_bytes ← encoded (to_address validator_address);
  Ok (function_call "ValidatorAdministrationScripts" "remove_validator_and_reconfigure" [] [sliding_nonce_bytes;
    validator_name_bytes; validator_address_bytes]).
Definition encode_revoke_vouch_script_function (val : AccountAddress) : outcome TransactionPayload :=
  val_bytes ← encoded (to_address val);
  Ok (function_call "VouchScripts" "revoke_vouch" [] [val_bytes]).
Definition encode_rotate_authentication_key_script_function (new_key : bytes) : outcome TransactionPayload :=
  new_key_bytes ← encoded (to_vec_u8 new_key);
  Ok (function_call "AccountAdministrationScripts" "rotate_authentication_key" [] [new_key_bytes]).
Definition encode_rotate_authentication_key_with_nonce_script_function (sliding_nonce : Z) (new_key : bytes) :
    outcome TransactionPayload :=
  sliding_nonce_bytes ← encoded (to_u64 sliding_nonce);
  new_key_bytes ← encoded (to_vec_u8 new_key);
  Ok (function_call "AccountAdministrationScripts" "rotate_authentication_key_with_nonce" [] [sliding_nonce_bytes;
    new_key_bytes]).
Definition encode_rotate_authentication_key_with_nonce_admin_script_function (sliding_nonce : Z) (new_key : bytes) :
    outcome TransactionPayload :=
  sliding_nonce_bytes ← encoded (to_u64 sliding_nonce);
  new_key_bytes ← encoded (to_vec_u8 new_key);
  Ok (function_call "AccountAdministrationScripts" "rotate_authentication_key_with_nonce_admin" []
    [sliding_nonce_bytes; new_key_bytes]).
Definition encode_rotate_authentication_key_with_recovery_address_script_function (recovery_address : AccountAddress)
    (to_recover : AccountAddress) (new_key : bytes) : outcome TransactionPayload :=
  recovery_address_bytes ← encoded (to_address recovery_address);
  to_recover_bytes ← encoded (to_address to_recover);
  new_key_bytes ← encoded (to_vec_u8 new_key);
  Ok (function_call "AccountAdministrationScripts" "rotate_authentication_key_with_recovery_address" []
    [recovery_address_bytes; to_recover_bytes; new_key_bytes]).
Definition encode_rotate_dual_attestation_info_script_function (new_url : bytes) (new_key : bytes) : outcome
    TransactionPayload :=
  new_url_bytes ← encoded (to_vec_u8 new_url);
  new_key_bytes ← encoded (to_vec_u8 new_key);
  Ok (function_call "AccountAdministrationScripts" "rotate_dual_attestation_info" [] [new_url_bytes; new_key_bytes]).
Definition encode_rotate_shared_ed25519_public_key_script_function (public_key : bytes) : outcome TransactionPayload
    :=
  public_key_bytes ← encoded (to_vec_u8 public_key);
  Ok (function_call "AccountAdministrationScripts" "rotate_shared_ed25519_public_key" [] [public_key_bytes]).
Definition encode_self_unjail_script_function : outcome TransactionPayload :=
  Ok (function_call "ValidatorScripts" "self_unjail" [] []).
Definition encode_set_burn_pref_script_function (to_community : bool) : outcome TransactionPayload :=
  to_community_bytes ← encoded (to_bool to_community);
  Ok (function_call "BurnScript" "set_burn_pref" [] [to_community_bytes]).
Definition encode_set_gas_constants_script_function (sliding_nonce : Z) (global_memory_per_byte_cost : Z)
    (global_memory_per_byte_write_cost : Z) (min_transaction_gas_units : Z) (large_transaction_cutoff : Z)
    (intrinsic_gas_per_byte : Z) (maximum_number_of_gas_units : Z) (min_price_per_gas_unit : Z)
    (max_price_per_gas_unit : Z) (max_transaction_size_in_bytes : Z) (gas_unit_scaling_factor : Z)
    (default_account_size : Z) : outcome TransactionPayload :=
  sliding_nonce_bytes ← encoded (to_u64 sliding_nonce);
  global_memory_per_byte_cost_bytes ← encoded (to_u64 global_memory_per_byte_cost);
  global_memory_per_byte_write_cost_bytes ← encoded (to_u64 global_memory_per_byte_write_cost);
  min_transaction_gas_units_bytes ← encoded (to_u64 min_transaction_gas_units);
  large_transaction_cutoff_bytes ← encoded (to_u64 large_transaction_cutoff);
  intrinsic_gas_per_byte_bytes ← encoded (to_u64 intrinsic_gas_per_byte);
  maximum_number_of_gas_units_bytes ← encoded (to_u64 maximum_number_of_gas_units);
  min_price_per_gas_unit_bytes ← encoded (to_u64 min_price_per_gas_unit);
  max_price_per_gas_unit_bytes ← encoded (to_u64 max_price_per_gas_unit);
  max_transaction_size_in_bytes_bytes ← encoded (to_u64 max_transaction_size_in_bytes);
  gas_unit_scaling_factor_bytes ← encoded (to_u64 gas_unit_scaling_factor);
  default_account_size_bytes ← encoded (to_u64 default_account_size);
  Ok (function_call "SystemAdministrationScripts" "set_gas_constants" [] [sliding_nonce_bytes;
    global_memory_per_byte_cost_bytes; global_memory_per_byte_write_cost_bytes; min_transaction_gas_units_bytes;
    large_transaction_cutoff_bytes; intrinsic_gas_per_byte_bytes; maximum_number_of_gas_units_bytes;
    min_price_per_gas_unit_bytes; max_price_per_gas_unit_bytes; max_transaction_size_in_bytes_bytes;
    gas_unit_scaling_factor_bytes; default_account_size_bytes]).
Definition encode_set_validator_config_and_reconfigure_script_function (validator_account : AccountAddress)
    (consensus_pubkey : bytes) (validator_network_addresses : bytes) (fullnode_network_addresses : bytes) : outcome
    TransactionPayload :=
  validator_account_bytes ← encoded (to_address validator_account);
  consensus_pubkey_bytes ← encoded (to_vec_u8 consensus_pubkey);
  validator_network_addresses_bytes ← encoded (to_vec_u8 validator_network_addresses);
  fullnode_network_addresses_bytes ← encoded (to_vec_u8 fullnode_network_addresses);
  Ok (function_call "ValidatorAdministrationScripts" "set_validator_config_and_reconfigure" []
    [validator_account_bytes; consensus_pubkey_bytes; validator_network_addresses_bytes;
    fullnode_network_addresses_bytes]).
Definition encode_set_validator_operator_script_function (operator_name : bytes) (operator_account : AccountAddress)
    : outcome TransactionPayload :=
  operator_name_bytes ← encoded (to_vec_u8 operator_name);
  operator_account_bytes ← encoded (to_address operator_account);
  Ok (function_call "ValidatorAdministrationScripts" "set_validator_operator" [] [operator_name_bytes;
    operator_account_bytes]).
Definition encode_set_validator_operator_with_nonce_admin_script_function (sliding_nonce : Z) (operator_name : bytes)
    (operator_account : AccountAddress) : outcome TransactionPayload :=
  sliding_nonce_bytes ← encoded (to_u64 sliding_nonce);
  operator_name_bytes ← encoded (to_vec_u8 operator_name);
  operator_account_bytes ← encoded (to_address operator_account);
  Ok (function_call "ValidatorAdministrationScripts" "set_validator_operator_with_nonce_admin" []
    [sliding_nonce_bytes; operator_name_bytes; operator_account_bytes]).
Definition encode_set_wallet_type_script_function (type_of : Z) : outcome TransactionPayload :=
  type_of_bytes ← encoded (to_u8 type_of);
  Ok (function_call "WalletScripts" "set_wallet_type" [] [type_of_bytes]).
Definition encode_tiered_mint_script_function (coin_type : TypeTag) (sliding_nonce : Z) (designated_dealer_address :
    AccountAddress) (mint_amount : Z) (tier_index : Z) : outcome TransactionPayload :=
  sliding_nonce_bytes ← encoded (to_u64 sliding_nonce);
  designated_dealer_address_bytes ← encoded (to_address designated_dealer_address);
  mint_amount_bytes ← encoded (to_u64 mint_amount);
  tier_index_bytes ← encoded (to_u64 tier_index);
  Ok (function_call "TreasuryComplianceScripts" "tiered_mint" [coin_type] [sliding_nonce_bytes;
    designated_dealer_address_bytes; mint_amount_bytes; tier_index_bytes]).
Definition encode_unfreeze_account_script_function (sliding_nonce : Z) (to_unfreeze_account : AccountAddress) :
    outcome TransactionPayload :=
  sliding_nonce_bytes ← encoded (to_u64 sliding_nonce);
  to_unfreeze_account_bytes ← encoded (to_address to_unfreeze_account);
  Ok (function_call "TreasuryComplianceScripts" "unfreeze_account" [] [sliding_nonce_bytes;
    to_unfreeze_account_bytes]).
Definition encode_update_diem_consensus_config_script_function (sliding_nonce : Z) (config : bytes) : outcome
    TransactionPayload :=
  sliding_nonce_bytes ← encoded (to_u64 sliding_nonce);
  config_bytes ← encoded (to_vec_u8 config);
  Ok (function_call "SystemAdministrationScripts" "update_diem_consensus_config" [] [sliding_nonce_bytes;
    config_bytes]).
Definition encode_update_diem_version_script_function (sliding_nonce : Z) (major : Z) : outcome TransactionPayload :=
  sliding_nonce_bytes ← encoded (to_u64 sliding_nonce);
  major_bytes ← encoded (to_u64 major);
  Ok (function_call "SystemAdministrationScripts" "update_diem_version" [] [sliding_nonce_bytes; major_bytes]).
Definition encode_update_dual_attestation_limit_script_function (sliding_nonce : Z) (new_micro_xdx_limit : Z) :
    outcome TransactionPayload :=
  sliding_nonce_bytes ← encoded (to_u64 sliding_nonce);
  new_micro_xdx_limit_bytes ← encoded (to_u64 new_micro_xdx_limit);
  Ok (function_call "TreasuryComplianceScripts" "update_dual_attestation_limit" [] [sliding_nonce_bytes;
    new_micro_xdx_limit_bytes]).
Definition encode_update_exchange_rate_script_function (currency : TypeTag) (sliding_nonce : Z)
    (new_exchange_rate_numerator : Z) (new_exchange_rate_denominator : Z) : outcome TransactionPayload :=
  sliding_nonce_bytes ← encoded (to_u64 sliding_nonce);
  new_exchange_rate_numerator_bytes ← encoded (to_u64 new_exchange_rate_numerator);
  new_exchange_rate_denominator_bytes ← encoded (to_u64 new_exchange_rate_denominator);
  Ok (function_call "TreasuryComplianceScripts" "update_exchange_rate" [currency] [sliding_nonce_bytes;
    new_exchange_rate_numerator_bytes; new_exchange_rate_denominator_bytes]).
Definition encode_update_minting_ability_script_function (currency : TypeTag) (allow_minting : bool) : outcome
    TransactionPayload :=
  allow_minting_bytes ← encoded (to_bool allow_minting);
  Ok (function_call "TreasuryComplianceScripts" "update_minting_ability" [currency] [allow_minting_bytes]).
Definition encode_val_add_self_script_function : outcome TransactionPayload :=
  Ok (function_call "ValidatorScripts" "val_add_self" [] []).
Definition encode_vouch_for_script_function (val : AccountAddress) : outcome TransactionPayload :=
  val_bytes ← encoded (to_address val);
  Ok (function_call "VouchScripts" "vouch_for" [] [val_bytes]).
Definition encode_voucher_unjail_script_function (addr : AccountAddress) : outcome TransactionPayload :=
  addr_bytes ← encoded (to_address addr);
  Ok (function_call "ValidatorScripts" "voucher_unjail" [] [addr_bytes]).

(** [ScriptFunctionCall::encode] and [decode] *)
Definition function_encode (self : ScriptFunctionCall.t) : outcome TransactionPayload :=
  match self with
  | ScriptFunctionCall.AddCurrencyToAccount currency => encode_add_currency_to_account_script_function currency
  | ScriptFunctionCall.AddDiemIdDomain address domain => encode_add_diem_id_domain_script_function address domain
  | ScriptFunctionCall.AddRecoveryRotationCapability recovery_address =>
    encode_add_recovery_rotation_capability_script_function recovery_address
  | ScriptFunctionCall.AddValidatorAndReconfigure sliding_nonce validator_name validator_address =>
    encode_add_validator_and_reconfigure_script_function sliding_nonce validator_name validator_address
  | ScriptFunctionCall.AutopayCreateInstruction uid in_type payee end_epoch value =>
    encode_autopay_create_instruction_script_function uid in_type payee end_epoch value
  | ScriptFunctionCall.AutopayDisable => encode_autopay_disable_script_function
  | ScriptFunctionCall.AutopayEnable => encode_autopay_enable_script_function
  | ScriptFunctionCall.BalanceTransfer destination unscaled_value => encode_balance_transfer_script_function
    destination unscaled_value
  | ScriptFunctionCall.BurnTxnFees coin_type => encode_burn_txn_fees_script_function coin_type
  | ScriptFunctionCall.BurnWithAmount token sliding_nonce preburn_address amount =>
    encode_burn_with_amount_script_function token sliding_nonce preburn_address amount
  | ScriptFunctionCall.CancelBurnWithAmount token preburn_address amount =>
    encode_cancel_burn_with_amount_script_function token preburn_address amount
  | ScriptFunctionCall.ClaimMakeWhole => encode_claim_make_whole_script_function
  | ScriptFunctionCall.CommunityTransfer destination unscaled_value memo => encode_community_transfer_script_function
    destination unscaled_value memo
  | ScriptFunctionCall.CreateAccUser challenge solution difficulty security => encode_create_acc_user_script_function
    challenge solution difficulty security
  | ScriptFunctionCall.CreateAccVal challenge solution difficulty security ow_human_name op_address
    op_auth_key_prefix op_consensus_pubkey op_validator_network_addresses op_fullnode_network_addresses op_human_name
    => encode_create_acc_val_script_function challenge solution difficulty security ow_human_name op_address
    op_auth_key_prefix op_consensus_pubkey op_validator_network_addresses op_fullnode_network_addresses op_human_name
  | ScriptFunctionCall.CreateChildVaspAccount coin_type child_address auth_key_prefix add_all_currencies
    child_initial_balance => encode_create_child_vasp_account_script_function coin_type child_address auth_key_prefix
    add_all_currencies child_initial_balance
  | ScriptFunctionCall.CreateDesignatedDealer currency sliding_nonce addr auth_key_prefix human_name
    add_all_currencies => encode_create_designated_dealer_script_function currency sliding_nonce addr auth_key_prefix
    human_name add_all_currencies
  | ScriptFunctionCall.CreateDiemIdDomains => encode_create_diem_id_domains_script_function
  | ScriptFunctionCall.CreateParentVaspAccount coin_type sliding_nonce new_account_address auth_key_prefix human_name
    add_all_currencies => encode_create_parent_vasp_account_script_function coin_type sliding_nonce
    new_account_address auth_key_prefix human_name add_all_currencies
  | ScriptFunctionCall.CreateRecoveryAddress => encode_create_recovery_address_script_function
  | ScriptFunctionCall.CreateUserByCoinTx account authkey_prefix unscaled_value =>
    encode_create_user_by_coin_tx_script_function account authkey_prefix unscaled_value
  | ScriptFunctionCall.CreateValidatorAccount sliding_nonce new_account_address auth_key_prefix human_name =>
    encode_create_validator_account_script_function sliding_nonce new_account_address auth_key_prefix human_name
  | ScriptFunctionCall.CreateValidatorOperatorAccount sliding_nonce new_account_address auth_key_prefix human_name =>
    encode_create_validator_operator_account_script_function sliding_nonce new_account_address auth_key_prefix
    human_name
  | ScriptFunctionCall.DemoE2e world => encode_demo_e2e_script_function world
  | ScriptFunctionCall.FreezeAccount sliding_nonce to_freeze_account => encode_freeze_account_script_function
    sliding_nonce to_freeze_account
  | ScriptFunctionCall.InitVouch => encode_init_vouch_script_function
  | ScriptFunctionCall.InitializeDiemConsensusConfig sliding_nonce =>
    encode_initialize_diem_consensus_config_script_function sliding_nonce
  | ScriptFunctionCall.MinerstateCommit challenge solution difficulty security =>
    encode_minerstate_commit_script_function challenge solution difficulty security
  | ScriptFunctionCall.MinerstateCommitByOperator owner_address challenge solution difficulty security =>
    encode_minerstate_commit_by_operator_script_function owner_address challenge solution difficulty security
  | ScriptFunctionCall.MinerstateHelper => encode_minerstate_helper_script_function
  | ScriptFunctionCall.OlDelegateVote dest => encode_ol_delegate_vote_script_function dest
  | ScriptFunctionCall.OlEnableDelegation => encode_ol_enable_delegation_script_function
  | ScriptFunctionCall.OlOracleTx id data => encode_ol_oracle_tx_script_function id data
  | ScriptFunctionCall.OlReconfigBulkUpdateSetup alice bob carol sha ram =>
    encode_ol_reconfig_bulk_update_setup_script_function alice bob carol sha ram
  | ScriptFunctionCall.OlRemoveDelegation => encode_ol_remove_delegation_script_function
  | ScriptFunctionCall.OlRevokeVote => encode_ol_revoke_vote_script_function
  | ScriptFunctionCall.PeerToPeerWithMetadata currency payee amount metadata metadata_signature =>
    encode_peer_to_peer_with_metadata_script_function currency payee amount metadata metadata_signature
  | ScriptFunctionCall.Preburn token amount => encode_preburn_script_function token amount
  | ScriptFunctionCall.PublishSharedEd25519PublicKey public_key =>
    encode_publish_shared_ed25519_public_key_script_function public_key
  | ScriptFunctionCall.RegisterValidatorConfig validator_account consensus_pubkey validator_network_addresses
    fullnode_network_addresses => encode_register_validator_config_script_function validator_account consensus_pubkey
    validator_network_addresses fullnode_network_addresses
  | ScriptFunctionCall.RemoveDiemIdDomain address domain => encode_remove_diem_id_domain_script_function address
    domain
  | ScriptFunctionCall.RemoveValidatorAndReconfigure sliding_nonce validator_name validator_address =>
    encode_remove_validator_and_reconfigure_script_function sliding_nonce validator_name validator_address
  | ScriptFunctionCall.RevokeVouch val => encode_revoke_vouch_script_function val
  | ScriptFunctionCall.RotateAuthenticationKey new_key => encode_rotate_authentication_key_script_function new_key
  | ScriptFunctionCall.RotateAuthenticationKeyWithNonce sliding_nonce new_key =>
    encode_rotate_authentication_key_with_nonce_script_function sliding_nonce new_key
  | ScriptFunctionCall.RotateAuthenticationKeyWithNonceAdmin sliding_nonce new_key =>
    encode_rotate_authentication_key_with_nonce_admin_script_function sliding_nonce new_key
  | ScriptFunctionCall.RotateAuthenticationKeyWithRecoveryAddress recovery_address to_recover new_key =>
    encode_rotate_authentication_key_with_recovery_address_script_function recovery_address to_recover new_key
  | ScriptFunctionCall.RotateDualAttestationInfo new_url new_key =>
    encode_rotate_dual_attestation_info_script_function new_url new_key
  | ScriptFunctionCall.RotateSharedEd25519PublicKey public_key =>
    encode_rotate_shared_ed25519_public_key_script_function public_key
  | ScriptFunctionCall.SelfUnjail => encode_self_unjail_script_function
  | ScriptFunctionCall.SetBurnPref to_community => encode_set_burn_pref_script_function to_community
  | ScriptFunctionCall.SetGasConstants sliding_nonce global_memory_per_byte_cost global_memory_per_byte_write_cost
    min_transaction_gas_units large_transaction_cutoff intrinsic_gas_per_byte maximum_number_of_gas_units
    min_price_per_gas_unit max_price_per_gas_unit max_transaction_size_in_bytes gas_unit_scaling_factor
    default_account_size => encode_set_gas_constants_script_function sliding_nonce global_memory_per_byte_cost
    global_memory_per_byte_write_cost min_transaction_gas_units large_transaction_cutoff intrinsic_gas_per_byte
    maximum_number_of_gas_units min_price_per_gas_unit max_price_per_gas_unit max_transaction_size_in_bytes
    gas_unit_scaling_factor default_account_size
  | ScriptFunctionCall.SetValidatorConfigAndReconfigure validator_account consensus_pubkey
    validator_network_addresses fullnode_network_addresses =>
    encode_set_validator_config_and_reconfigure_script_function validator_account consensus_pubkey
    validator_network_addresses fullnode_network_addresses
  | ScriptFunctionCall.SetValidatorOperator operator_name operator_account =>
    encode_set_validator_operator_script_function operator_name operator_account
  | ScriptFunctionCall.SetValidatorOperatorWithNonceAdmin sliding_nonce operator_name operator_account =>
    encode_set_validator_operator_with_nonce_admin_script_function sliding_nonce operator_name operator_account
  | ScriptFunctionCall.SetWalletType type_of => encode_set_wallet_type_script_function type_of
  | ScriptFunctionCall.TieredMint coin_type sliding_nonce designated_dealer_address mint_amount tier_index =>
    encode_tiered_mint_script_function coin_type sliding_nonce designated_dealer_address mint_amount tier_index
  | ScriptFunctionCall.UnfreezeAccount sliding_nonce to_unfreeze_account => encode_unfreeze_account_script_function
    sliding_nonce to_unfreeze_account
  | ScriptFunctionCall.UpdateDiemConsensusConfig sliding_nonce config =>
    encode_update_diem_consensus_config_script_function sliding_nonce config
  | ScriptFunctionCall.UpdateDiemVersion sliding_nonce major => encode_update_diem_version_script_function
    sliding_nonce major
  | ScriptFunctionCall.UpdateDualAttestationLimit sliding_nonce new_micro_xdx_limit =>
    encode_update_dual_attestation_limit_script_function sliding_nonce new_micro_xdx_limit
  | ScriptFunctionCall.UpdateExchangeRate currency sliding_nonce new_exchange_rate_numerator
    new_exchange_rate_denominator => encode_update_exchange_rate_script_function currency sliding_nonce
    new_exchange_rate_numerator new_exchange_rate_denominator
  | ScriptFunctionCall.UpdateMintingAbility currency allow_minting => encode_update_minting_ability_script_function
    currency allow_minting
  | ScriptFunctionCall.ValAddSelf => encode_val_add_self_script_function
  | ScriptFunctionCall.VouchFor val => encode_vouch_for_script_function val
  | ScriptFunctionCall.VoucherUnjail addr => encode_voucher_unjail_script_function addr
  end.
Definition decode_add_currency_to_account_script_function (payload : TransactionPayload) : option
    ScriptFunctionCall.t :=
  script ← script_function payload;
  currency ← sf_ty_args script !! 0%nat;
  Some (ScriptFunctionCall.AddCurrencyToAccount currency).
Definition decode_add_diem_id_domain_script_function (payload : TransactionPayload) : option ScriptFunctionCall.t :=
  script ← script_function payload;
  address ← sf_args script !! 0%nat ≫= from_address;
  domain ← sf_args script !! 1%nat ≫= from_vec_u8;
  Some (ScriptFunctionCall.AddDiemIdDomain address domain).
Definition decode_add_recovery_rotation_capability_script_function (payload : TransactionPayload) : option
    ScriptFunctionCall.t :=
  script ← script_function payload;
  recovery_address ← sf_args script !! 0%nat ≫= from_address;
  Some (ScriptFunctionCall.AddRecoveryRotationCapability recovery_address).
Definition decode_add_validator_and_reconfigure_script_function (payload : TransactionPayload) : option
    ScriptFunctionCall.t :=
  script ← script_function payload;
  sliding_nonce ← sf_args script !! 0%nat ≫= from_u64;
  validator_name ← sf_args script !! 1%nat ≫= from_vec_u8;
  validator_address ← sf_args script !! 2%nat ≫= from_address;
  Some (ScriptFunctionCall.AddValidatorAndReconfigure sliding_nonce validator_name validator_address).
Definition decode_autopay_create_instruction_script_function (payload : TransactionPayload) : option
    ScriptFunctionCall.t :=
  script ← script_function payload;
  uid ← sf_args script !! 0%nat ≫= from_u64;
  in_type ← sf_args script !! 1%nat ≫= from_u8;
  payee ← sf_args script !! 2%nat ≫= from_address;
  end_epoch ← sf_args script !! 3%nat ≫= from_u64;
  value ← sf_args script !! 4%nat ≫= from_u64;
  Some (ScriptFunctionCall.AutopayCreateInstruction uid in_type payee end_epoch value).
Definition decode_autopay_disable_script_function (payload : TransactionPayload) : option ScriptFunctionCall.t :=
  _ ← script_function payload;
  Some ScriptFunctionCall.AutopayDisable.
Definition decode_autopay_enable_script_function (payload : TransactionPayload) : option ScriptFunctionCall.t :=
  _ ← script_function payload;
  Some ScriptFunctionCall.AutopayEnable.
Definition decode_balance_transfer_script_function (payload : TransactionPayload) : option ScriptFunctionCall.t :=
  script ← script_function payload;
  destination ← sf_args script !! 0%nat ≫= from_address;
  unscaled_value ← sf_args script !! 1%nat ≫= from_u64;
  Some (ScriptFunctionCall.BalanceTransfer destination unscaled_value).
Definition decode_burn_txn_fees_script_function (payload : TransactionPayload) : option ScriptFunctionCall.t :=
  script ← script_function payload;
  coin_type ← sf_ty_args script !! 0%nat;
  Some (ScriptFunctionCall.BurnTxnFees coin_type).
Definition decode_burn_with_amount_script_function (payload : TransactionPayload) : option ScriptFunctionCall.t :=
  script ← script_function payload;
  token ← sf_ty_args script !! 0%nat;
  sliding_nonce ← sf_args script !! 0%nat ≫= from_u64;
  preburn_address ← sf_args script !! 1%nat ≫= from_address;
  amount ← sf_args script !! 2%nat ≫= from_u64;
  Some (ScriptFunctionCall.BurnWithAmount token sliding_nonce preburn_address amount).
Definition decode_cancel_burn_with_amount_script_function (payload : TransactionPayload) : option
    ScriptFunctionCall.t :=
  script ← script_function payload;
  token ← sf_ty_args script !! 0%nat;
  preburn_address ← sf_args script !! 0%nat ≫= from_address;
  amount ← sf_args script !! 1%nat ≫= from_u64;
  Some (ScriptFunctionCall.CancelBurnWithAmount token preburn_address amount).
Definition decode_claim_make_whole_script_function (payload : TransactionPayload) : option ScriptFunctionCall.t :=
  _ ← script_function payload;
  Some ScriptFunctionCall.ClaimMakeWhole.
Definition decode_community_transfer_script_function (payload : TransactionPayload) : option ScriptFunctionCall.t :=
  script ← script_function payload;
  destination ← sf_args script !! 0%nat ≫= from_address;
  unscaled_value ← sf_args script !! 1%nat ≫= from_u64;
  memo ← sf_args script !! 2%nat ≫= from_vec_u8;
  Some (ScriptFunctionCall.CommunityTransfer destination unscaled_value memo).
Definition decode_create_acc_user_script_function (payload : TransactionPayload) : option ScriptFunctionCall.t :=
  script ← script_function payload;
  challenge ← sf_args script !! 0%nat ≫= from_vec_u8;
  solution ← sf_args script !! 1%nat ≫= from_vec_u8;
  difficulty ← sf_args script !! 2%nat ≫= from_u64;
  security ← sf_args script !! 3%nat ≫= from_u64;
  Some (ScriptFunctionCall.CreateAccUser challenge solution difficulty security).
Definition decode_create_acc_val_script_function (payload : TransactionPayload) : option ScriptFunctionCall.t :=
  script ← script_function payload;
  challenge ← sf_args script !! 0%nat ≫= from_vec_u8;
  solution ← sf_args script !! 1%nat ≫= from_vec_u8;
  difficulty ← sf_args script !! 2%nat ≫= from_u64;
  security ← sf_args script !! 3%nat ≫= from_u64;
  ow_human_name ← sf_args script !! 4%nat ≫= from_vec_u8;
  op_address ← sf_args script !! 5%nat ≫= from_address;
  op_auth_key_prefix ← sf_args script !! 6%nat ≫= from_vec_u8;
  op_consensus_pubkey ← sf_args script !! 7%nat ≫= from_vec_u8;
  op_validator_network_addresses ← sf_args script !! 8%nat ≫= from_vec_u8;
  op_fullnode_network_addresses ← sf_args script !! 9%nat ≫= from_vec_u8;
  op_human_name ← sf_args script !! 10%nat ≫= from_vec_u8;
  Some (ScriptFunctionCall.CreateAccVal challenge solution difficulty security ow_human_name op_address
    op_auth_key_prefix op_consensus_pubkey op_validator_network_addresses op_fullnode_network_addresses
    op_human_name).
Definition decode_create_child_vasp_account_script_function (payload : TransactionPayload) : option
    ScriptFunctionCall.t :=
  script ← script_function payload;
  coin_type ← sf_ty_args script !! 0%nat;
  child_address ← sf_args script !! 0%nat ≫= from_address;
  auth_key_prefix ← sf_args script !! 1%nat ≫= from_vec_u8;
  add_all_currencies ← sf_args script !! 2%nat ≫= from_bool;
  child_initial_balance ← sf_args script !! 3%nat ≫= from_u64;
  Some (ScriptFunctionCall.CreateChildVaspAccount coin_type child_address auth_key_prefix add_all_currencies
    child_initial_balance).
Definition decode_create_designated_dealer_script_function (payload : TransactionPayload) : option
    ScriptFunctionCall.t :=
  script ← script_function payload;
  currency ← sf_ty_args script !! 0%nat;
  sliding_nonce ← sf_args script !! 0%nat ≫= from_u64;
  addr ← sf_args script !! 1%nat ≫= from_address;
  auth_key_prefix ← sf_args script !! 2%nat ≫= from_vec_u8;
  human_name ← sf_args script !! 3%nat ≫= from_vec_u8;
  add_all_currencies ← sf_args script !! 4%nat ≫= from_bool;
  Some (ScriptFunctionCall.CreateDesignatedDealer currency sliding_nonce addr auth_key_prefix human_name
    add_all_currencies).
Definition decode_create_diem_id_domains_script_function (payload : TransactionPayload) : option ScriptFunctionCall.t
    :=
  _ ← script_function payload;
  Some ScriptFunctionCall.CreateDiemIdDomains.
Definition decode_create_parent_vasp_account_script_function (payload : TransactionPayload) : option
    ScriptFunctionCall.t :=
  script ← script_function payload;
  coin_type ← sf_ty_args script !! 0%nat;
  sliding_nonce ← sf_args script !! 0%nat ≫= from_u64;
  new_account_address ← sf_args script !! 1%nat ≫= from_address;
  auth_key_prefix ← sf_args script !! 2%nat ≫= from_vec_u8;
  human_name ← sf_args script !! 3%nat ≫= from_vec_u8;
  add_all_currencies ← sf_args script !! 4%nat ≫= from_bool;
  Some (ScriptFunctionCall.CreateParentVaspAccount coin_type sliding_nonce new_account_address auth_key_prefix
    human_name add_all_currencies).
Definition decode_create_recovery_address_script_function (payload : TransactionPayload) : option
    ScriptFunctionCall.t :=
  _ ← script_function payload;
  Some ScriptFunctionCall.CreateRecoveryAddress.
Definition decode_create_user_by_coin_tx_script_function (payload : TransactionPayload) : option ScriptFunctionCall.t
    :=
  script ← script_function payload;
  account ← sf_args script !! 0%nat ≫= from_address;
  authkey_prefix ← sf_args script !! 1%nat ≫= from_vec_u8;
  unscaled_value ← sf_args script !! 2%nat ≫= from_u64;
  Some (ScriptFunctionCall.CreateUserByCoinTx account authkey_prefix unscaled_value).
Definition decode_create_validator_account_script_function (payload : TransactionPayload) : option
    ScriptFunctionCall.t :=
  script ← script_function payload;
  sliding_nonce ← sf_args script !! 0%nat ≫= from_u64;
  new_account_address ← sf_args script !! 1%nat ≫= from_address;
  auth_key_prefix ← sf_args script !! 2%nat ≫= from_vec_u8;
  human_name ← sf_args script !! 3%nat ≫= from_vec_u8;
  Some (ScriptFunctionCall.CreateValidatorAccount sliding_nonce new_account_address auth_key_prefix human_name).
Definition decode_create_validator_operator_account_script_function (payload : TransactionPayload) : option
    ScriptFunctionCall.t :=
  script ← script_function payload;
  sliding_nonce ← sf_args script !! 0%nat ≫= from_u64;
  new_account_address ← sf_args script !! 1%nat ≫= from_address;
  auth_key_prefix ← sf_args script !! 2%nat ≫= from_vec_u8;
  human_name ← sf_args script !! 3%nat ≫= from_vec_u8;
  Some (ScriptFunctionCall.CreateValidatorOperatorAccount sliding_nonce new_account_address auth_key_prefix
    human_name).
Definition decode_demo_e2e_script_function (payload : TransactionPayload) : option ScriptFunctionCall.t :=
  script ← script_function payload;
  world ← sf_args script !! 0%nat ≫= from_u64;
  Some (ScriptFunctionCall.DemoE2e world).
Definition decode_freeze_account_script_function (payload : TransactionPayload) : option ScriptFunctionCall.t :=
  script ← script_function payload;
  sliding_nonce ← sf_args script !! 0%nat ≫= from_u64;
  to_freeze_account ← sf_args script !! 1%nat ≫= from_address;
  Some (ScriptFunctionCall.FreezeAccount sliding_nonce to_freeze_account).
Definition decode_init_vouch_script_function (payload : TransactionPayload) : option ScriptFunctionCall.t :=
  _ ← script_function payload;
  Some ScriptFunctionCall.InitVouch.
Definition decode_initialize_diem_consensus_config_script_function (payload : TransactionPayload) : option
    ScriptFunctionCall.t :=
  script ← script_function payload;
  sliding_nonce ← sf_args script !! 0%nat ≫= from_u64;
  Some (ScriptFunctionCall.InitializeDiemConsensusConfig sliding_nonce).
Definition decode_minerstate_commit_script_function (payload : TransactionPayload) : option ScriptFunctionCall.t :=
  script ← script_function payload;
  challenge ← sf_args script !! 0%nat ≫= from_vec_u8;
  solution ← sf_args script !! 1%nat ≫= from_vec_u8;
  difficulty ← sf_args script !! 2%nat ≫= from_u64;
  security ← sf_args script !! 3%nat ≫= from_u64;
  Some (ScriptFunctionCall.MinerstateCommit challenge solution difficulty security).
Definition decode_minerstate_commit_by_operator_script_function (payload : TransactionPayload) : option
    ScriptFunctionCall.t :=
  script ← script_function payload;
  owner_address ← sf_args script !! 0%nat ≫= from_address;
  challenge ← sf_args script !! 1%nat ≫= from_vec_u8;
  solution ← sf_args script !! 2%nat ≫= from_vec_u8;
  difficulty ← sf_args script !! 3%nat ≫= from_u64;
  security ← sf_args script !! 4%nat ≫= from_u64;
  Some (ScriptFunctionCall.MinerstateCommitByOperator owner_address challenge solution difficulty security).
Definition decode_minerstate_helper_script_function (payload : TransactionPayload) : option ScriptFunctionCall.t :=
  _ ← script_function payload;
  Some ScriptFunctionCall.MinerstateHelper.
Definition decode_ol_delegate_vote_script_function (payload : TransactionPayload) : option ScriptFunctionCall.t :=
  script ← script_function payload;
  dest ← sf_args script !! 0%nat ≫= from_address;
  Some (ScriptFunctionCall.OlDelegateVote dest).
Definition decode_ol_enable_delegation_script_function (payload : TransactionPayload) : option ScriptFunctionCall.t :=
  _ ← script_function payload;
  Some ScriptFunctionCall.OlEnableDelegation.
Definition decode_ol_oracle_tx_script_function (payload : TransactionPayload) : option ScriptFunctionCall.t :=
  script ← script_function payload;
  id ← sf_args script !! 0%nat ≫= from_u64;
  data ← sf_args script !! 1%nat ≫= from_vec_u8;
  Some (ScriptFunctionCall.OlOracleTx id data).
Definition decode_ol_reconfig_bulk_update_setup_script_function (payload : TransactionPayload) : option
    ScriptFunctionCall.t :=
  script ← script_function payload;
  alice ← sf_args script !! 0%nat ≫= from_address;
  bob ← sf_args script !! 1%nat ≫= from_address;
  carol ← sf_args script !! 2%nat ≫= from_address;
  sha ← sf_args script !! 3%nat ≫= from_address;
  ram ← sf_args script !! 4%nat ≫= from_address;
  Some (ScriptFunctionCall.OlReconfigBulkUpdateSetup alice bob carol sha ram).
Definition decode_ol_remove_delegation_script_function (payload : TransactionPayload) : option ScriptFunctionCall.t :=
  _ ← script_function payload;
  Some ScriptFunctionCall.OlRemoveDelegation.
Definition decode_ol_revoke_vote_script_function (payload : TransactionPayload) : option ScriptFunctionCall.t :=
  _ ← script_function payload;
  Some ScriptFunctionCall.OlRevokeVote.
Definition decode_peer_to_peer_with_metadata_script_function (payload : TransactionPayload) : option
    ScriptFunctionCall.t :=
  script ← script_function payload;
  currency ← sf_ty_args script !! 0%nat;
  payee ← sf_args script !! 0%nat ≫= from_address;
  amount ← sf_args script !! 1%nat ≫= from_u64;
  metadata ← sf_args script !! 2%nat ≫= from_vec_u8;
  metadata_signature ← sf_args script !! 3%nat ≫= from_vec_u8;
  Some (ScriptFunctionCall.PeerToPeerWithMetadata currency payee amount metadata metadata_signature).
Definition decode_preburn_script_function (payload : TransactionPayload) : option ScriptFunctionCall.t :=
  script ← script_function payload;
  token ← sf_ty_args script !! 0%nat;
  amount ← sf_args script !! 0%nat ≫= from_u64;
  Some (ScriptFunctionCall.Preburn token amount).
Definition decode_publish_shared_ed25519_public_key_script_function (payload : TransactionPayload) : option
    ScriptFunctionCall.t :=
  script ← script_function payload;
  public_key ← sf_args script !! 0%nat ≫= from_vec_u8;
  Some (ScriptFunctionCall.PublishSharedEd25519PublicKey public_key).
Definition decode_register_validator_config_script_function (payload : TransactionPayload) : option
    ScriptFunctionCall.t :=
  script ← script_function payload;
  validator_account ← sf_args script !! 0%nat ≫= from_address;
  consensus_pubkey ← sf_args script !! 1%nat ≫= from_vec_u8;
  validator_network_addresses ← sf_args script !! 2%nat ≫= from_vec_u8;
  fullnode_network_addresses ← sf_args script !! 3%nat ≫= from_vec_u8;
  Some (ScriptFunctionCall.RegisterValidatorConfig validator_account consensus_pubkey validator_network_addresses
    fullnode_network_addresses).
Definition decode_remove_diem_id_domain_script_function (payload : TransactionPayload) : option ScriptFunctionCall.t
    :=
  script ← script_function payload;
  address ← sf_args script !! 0%nat ≫= from_address;
  domain ← sf_args script !! 1%nat ≫= from_vec_u8;
  Some (ScriptFunctionCall.RemoveDiemIdDomain address domain).
Definition decode_remove_validator_and_reconfigure_script_function (payload : TransactionPayload) : option
    ScriptFunctionCall.t :=
  script ← script_function payload;
  sliding_nonce ← sf_args script !! 0%nat ≫= from_u64;
  validator_name ← sf_args script !! 1%nat ≫= from_vec_u8;
  validator_address ← sf_args script !! 2%nat ≫= from_address;
  Some (ScriptFunctionCall.RemoveValidatorAndReconfigure sliding_nonce validator_name validator_address).
Definition decode_revoke_vouch_script_function (payload : TransactionPayload) : option ScriptFunctionCall.t :=
  script ← script_function payload;
  val ← sf_args script !! 0%nat ≫= from_address;
  Some (ScriptFunctionCall.RevokeVouch val).
Definition decode_rotate_authentication_key_script_function (payload : TransactionPayload) : option
    ScriptFunctionCall.t :=
  script ← script_function payload;
  new_key ← sf_args script !! 0%nat ≫= from_vec_u8;
  Some (ScriptFunctionCall.RotateAuthenticationKey new_key).
Definition decode_rotate_authentication_key_with_nonce_script_function (payload : TransactionPayload) : option
    ScriptFunctionCall.t :=
  script ← script_function payload;
  sliding_nonce ← sf_args script !! 0%nat ≫= from_u64;
  new_key ← sf_args script !! 1%nat ≫= from_vec_u8;
  Some (ScriptFunctionCall.RotateAuthenticationKeyWithNonce sliding_nonce new_key).
Definition decode_rotate_authentication_key_with_nonce_admin_script_function (payload : TransactionPayload) : option
    ScriptFunctionCall.t :=
  script ← script_function payload;
  sliding_nonce ← sf_args script !! 0%nat ≫= from_u64;
  new_key ← sf_args script !! 1%nat ≫= from_vec_u8;
  Some (ScriptFunctionCall.RotateAuthenticationKeyWithNonceAdmin sliding_nonce new_key).
Definition decode_rotate_authentication_key_with_recovery_address_script_function (payload : TransactionPayload) :
    option ScriptFunctionCall.t :=
  script ← script_function payload;
  recovery_address ← sf_args script !! 0%nat ≫= from_address;
  to_recover ← sf_args script !! 1%nat ≫= from_address;
  new_key ← sf_args script !! 2%nat ≫= from_vec_u8;
  Some (ScriptFunctionCall.RotateAuthenticationKeyWithRecoveryAddress recovery_address to_recover new_key).
Definition decode_rotate_dual_attestation_info_script_function (payload : TransactionPayload) : option
    ScriptFunctionCall.t :=
  script ← script_function payload;
  new_url ← sf_args script !! 0%nat ≫= from_vec_u8;
  new_key ← sf_args script !! 1%nat ≫= from_vec_u8;
  Some (ScriptFunctionCall.RotateDualAttestationInfo new_url new_key).
Definition decode_rotate_shared_ed25519_public_key_script_function (payload : TransactionPayload) : option
    ScriptFunctionCall.t :=
  script ← script_function payload;
  public_key ← sf_args script !! 0%nat ≫= from_vec_u8;
  Some (ScriptFunctionCall.RotateSharedEd25519PublicKey public_key).
Definition decode_self_unjail_script_function (payload : TransactionPayload) : option ScriptFunctionCall.t :=
  _ ← script_function payload;
  Some ScriptFunctionCall.SelfUnjail.
Definition decode_set_burn_pref_script_function (payload : TransactionPayload) : option ScriptFunctionCall.t :=
  script ← script_function payload;
  to_community ← sf_args script !! 0%nat ≫= from_bool;
  Some (ScriptFunctionCall.SetBurnPref to_community).
Definition decode_set_gas_constants_script_function (payload : TransactionPayload) : option ScriptFunctionCall.t :=
  script ← script_function payload;
  sliding_nonce ← sf_args script !! 0%nat ≫= from_u64;
  global_memory_per_byte_cost ← sf_args script !! 1%nat ≫= from_u64;
  global_memory_per_byte_write_cost ← sf_args script !! 2%nat ≫= from_u64;
  min_transaction_gas_units ← sf_args script !! 3%nat ≫= from_u64;
  large_transaction_cutoff ← sf_args script !! 4%nat ≫= from_u64;
  intrinsic_gas_per_byte ← sf_args script !! 5%nat ≫= from_u64;
  maximum_number_of_gas_units ← sf_args script !! 6%nat ≫= from_u64;
  min_price_per_gas_unit ← sf_args script !! 7%nat ≫= from_u64;
  max_price_per_gas_unit ← sf_args script !! 8%nat ≫= from_u64;
  max_transaction_size_in_bytes ← sf_args script !! 9%nat ≫= from_u64;
  gas_unit_scaling_factor ← sf_args script !! 10%nat ≫= from_u64;
  default_account_size ← sf_args script !! 11%nat ≫= from_u64;
  Some (ScriptFunctionCall.SetGasConstants sliding_nonce global_memory_per_byte_cost
    global_memory_per_byte_write_cost min_transaction_gas_units large_transaction_cutoff intrinsic_gas_per_byte
    maximum_number_of_gas_units min_price_per_gas_unit max_price_per_gas_unit max_transaction_size_in_bytes
    gas_unit_scaling_factor default_account_size).
Definition decode_set_validator_config_and_reconfigure_script_function (payload : TransactionPayload) : option
    ScriptFunctionCall.t :=
  script ← script_function payload;
  validator_account ← sf_args script !! 0%nat ≫= from_address;
  consensus_pubkey ← sf_args script !! 1%nat ≫= from_vec_u8;
  validator_network_addresses ← sf_args script !! 2%nat ≫= from_vec_u8;
  fullnode_network_addresses ← sf_args script !! 3%nat ≫= from_vec_u8;
  Some (ScriptFunctionCall.SetValidatorConfigAndReconfigure validator_account consensus_pubkey
    validator_network_addresses fullnode_network_addresses).
Definition decode_set_validator_operator_script_function (payload : TransactionPayload) : option ScriptFunctionCall.t
    :=
  script ← script_function payload;
  operator_name ← sf_args script !! 0%nat ≫= from_vec_u8;
  operator_account ← sf_args script !! 1%nat ≫= from_address;
  Some (ScriptFunctionCall.SetValidatorOperator operator_name operator_account).
Definition decode_set_validator_operator_with_nonce_admin_script_function (payload : TransactionPayload) : option
    ScriptFunctionCall.t :=
  script ← script_function payload;
  sliding_nonce ← sf_args script !! 0%nat ≫= from_u64;
  operator_name ← sf_args script !! 1%nat ≫= from_vec_u8;
  operator_account ← sf_args script !! 2%nat ≫= from_address;
  Some (ScriptFunctionCall.SetValidatorOperatorWithNonceAdmin sliding_nonce operator_name operator_account).
Definition decode_set_wallet_type_script_function (payload : TransactionPayload) : option ScriptFunctionCall.t :=
  script ← script_function payload;
  type_of ← sf_args script !! 0%nat ≫= from_u8;
  Some (ScriptFunctionCall.SetWalletType type_of).
Definition decode_tiered_mint_script_function (payload : TransactionPayload) : option ScriptFunctionCall.t :=
  script ← script_function payload;
  coin_type ← sf_ty_args script !! 0%nat;
  sliding_nonce ← sf_args script !! 0%nat ≫= from_u64;
  designated_dealer_address ← sf_args script !! 1%nat ≫= from_address;
  mint_amount ← sf_args script !! 2%nat ≫= from_u64;
  tier_index ← sf_args script !! 3%nat ≫= from_u64;
  Some (ScriptFunctionCall.TieredMint coin_type sliding_nonce designated_dealer_address mint_amount tier_index).
Definition decode_unfreeze_account_script_function (payload : TransactionPayload) : option ScriptFunctionCall.t :=
  script ← script_function payload;
  sliding_nonce ← sf_args script !! 0%nat ≫= from_u64;
  to_unfreeze_account ← sf_args script !! 1%nat ≫= from_address;
  Some (ScriptFunctionCall.UnfreezeAccount sliding_nonce to_unfreeze_account).
Definition decode_update_diem_consensus_config_script_function (payload : TransactionPayload) : option
    ScriptFunctionCall.t :=
  script ← script_function payload;
  sliding_nonce ← sf_args script !! 0%nat ≫= from_u64;
  config ← sf_args script !! 1%nat ≫= from_vec_u8;
  Some (ScriptFunctionCall.UpdateDiemConsensusConfig sliding_nonce config).
Definition decode_update_diem_version_script_function (payload : TransactionPayload) : option ScriptFunctionCall.t :=
  script ← script_function payload;
  sliding_nonce ← sf_args script !! 0%nat ≫= from_u64;
  major ← sf_args script !! 1%nat ≫= from_u64;
  Some (ScriptFunctionCall.UpdateDiemVersion sliding_nonce major).
Definition decode_update_dual_attestation_limit_script_function (payload : TransactionPayload) : option
    ScriptFunctionCall.t :=
  script ← script_function payload;
  sliding_nonce ← sf_args script !! 0%nat ≫= from_u64;
  new_micro_xdx_limit ← sf_args script !! 1%nat ≫= from_u64;
  Some (ScriptFunctionCall.UpdateDualAttestationLimit sliding_nonce new_micro_xdx_limit).
Definition decode_update_exchange_rate_script_function (payload : TransactionPayload) : option ScriptFunctionCall.t :=
  script ← script_function payload;
  currency ← sf_ty_args script !! 0%nat;
  sliding_nonce ← sf_args script !! 0%nat ≫= from_u64;
  new_exchange_rate_numerator ← sf_args script !! 1%nat ≫= from_u64;
  new_exchange_rate_denominator ← sf_args script !! 2%nat ≫= from_u64;
  Some (ScriptFunctionCall.UpdateExchangeRate currency sliding_nonce new_exchange_rate_numerator
    new_exchange_rate_denominator).
Definition decode_update_minting_ability_script_function (payload : TransactionPayload) : option ScriptFunctionCall.t
    :=
  script ← script_function payload;
  currency ← sf_ty_args script !! 0%nat;
  allow_minting ← sf_args script !! 0%nat ≫= from_bool;
  Some (ScriptFunctionCall.UpdateMintingAbility currency allow_minting).
Definition decode_val_add_self_script_function (payload : TransactionPayload) : option ScriptFunctionCall.t :=
  _ ← script_function payload;
  Some ScriptFunctionCall.ValAddSelf.
Definition decode_vouch_for_script_function (payload : TransactionPayload) : option ScriptFunctionCall.t :=
  script ← script_function payload;
  val ← sf_args script !! 0%nat ≫= from_address;
  Some (ScriptFunctionCall.VouchFor val).
Definition decode_voucher_unjail_script_function (payload : TransactionPayload) : option ScriptFunctionCall.t :=
  script ← script_function payload;
  addr ← sf_args script !! 0%nat ≫= from_address;
  Some (ScriptFunctionCall.VoucherUnjail addr).
Definition SCRIPT_FUNCTION_DECODER_MAP : list (string * (TransactionPayload → option ScriptFunctionCall.t)) := [
  ("AccountAdministrationScriptsadd_currency_to_account", decode_add_currency_to_account_script_function);
  ("TreasuryComplianceScriptsadd_diem_id_domain", decode_add_diem_id_domain_script_function);
  ("AccountAdministrationScriptsadd_recovery_rotation_capability",
    decode_add_recovery_rotation_capability_script_function);
  ("ValidatorAdministrationScriptsadd_validator_and_reconfigure",
    decode_add_validator_and_reconfigure_script_function);
  ("AutoPayScriptsautopay_create_instruction", decode_autopay_create_instruction_script_function);
  ("AutoPayScriptsautopay_disable", decode_autopay_disable_script_function);
  ("AutoPayScriptsautopay_enable", decode_autopay_enable_script_function);
  ("TransferScriptsbalance_transfer", decode_balance_transfer_script_function);
  ("TreasuryComplianceScriptsburn_txn_fees", decode_burn_txn_fees_script_function);
  ("TreasuryComplianceScriptsburn_with_amount", decode_burn_with_amount_script_function);
  ("TreasuryComplianceScriptscancel_burn_with_amount", decode_cancel_burn_with_amount_script_function);
  ("AccountScriptsclaim_make_whole", decode_claim_make_whole_script_function);
  ("TransferScriptscommunity_transfer", decode_community_transfer_script_function);
  ("AccountScriptscreate_acc_user", decode_create_acc_user_script_function);
  ("AccountScriptscreate_acc_val", decode_create_acc_val_script_function);
  ("AccountCreationScriptscreate_child_vasp_account", decode_create_child_vasp_account_script_function);
  ("AccountCreationScriptscreate_designated_dealer", decode_create_designated_dealer_script_function);
  ("AccountAdministrationScriptscreate_diem_id_domains", decode_create_diem_id_domains_script_function);
  ("AccountCreationScriptscreate_parent_vasp_account", decode_create_parent_vasp_account_script_function);
  ("AccountAdministrationScriptscreate_recovery_address", decode_create_recovery_address_script_function);
  ("AccountScriptscreate_user_by_coin_tx", decode_create_user_by_coin_tx_script_function);
  ("AccountCreationScriptscreate_validator_account", decode_create_validator_account_script_function);
  ("AccountCreationScriptscreate_validator_operator_account",
    decode_create_validator_operator_account_script_function);
  ("DemoScriptsdemo_e2e", decode_demo_e2e_script_function);
  ("TreasuryComplianceScriptsfreeze_account", decode_freeze_account_script_function);
  ("VouchScriptsinit_vouch", decode_init_vouch_script_function);
  ("SystemAdministrationScriptsinitialize_diem_consensus_config",
    decode_initialize_diem_consensus_config_script_function);
  ("TowerStateScriptsminerstate_commit", decode_minerstate_commit_script_function);
  ("TowerStateScriptsminerstate_commit_by_operator", decode_minerstate_commit_by_operator_script_function);
  ("TowerStateScriptsminerstate_helper", decode_minerstate_helper_script_function);
  ("OracleScriptsol_delegate_vote", decode_ol_delegate_vote_script_function);
  ("OracleScriptsol_enable_delegation", decode_ol_enable_delegation_script_function);
  ("OracleScriptsol_oracle_tx", decode_ol_oracle_tx_script_function);
  ("ValidatorScriptsol_reconfig_bulk_update_setup", decode_ol_reconfig_bulk_update_setup_script_function);
  ("OracleScriptsol_remove_delegation", decode_ol_remove_delegation_script_function);
  ("OracleScriptsol_revoke_vote", decode_ol_revoke_vote_script_function);
  ("PaymentScriptspeer_to_peer_with_metadata", decode_peer_to_peer_with_metadata_script_function);
  ("TreasuryComplianceScriptspreburn", decode_preburn_script_function);
  ("AccountAdministrationScriptspublish_shared_ed25519_public_key",
    decode_publish_shared_ed25519_public_key_script_function);
  ("ValidatorAdministrationScriptsregister_validator_config", decode_register_validator_config_script_function);
  ("TreasuryComplianceScriptsremove_diem_id_domain", decode_remove_diem_id_domain_script_function);
  ("ValidatorAdministrationScriptsremove_validator_and_reconfigure",
    decode_remove_validator_and_reconfigure_script_function);
  ("VouchScriptsrevoke_vouch", decode_revoke_vouch_script_function);
  ("AccountAdministrationScriptsrotate_authentication_key", decode_rotate_authentication_key_script_function);
  ("AccountAdministrationScriptsrotate_authentication_key_with_nonce",
    decode_rotate_authentication_key_with_nonce_script_function);
  ("AccountAdministrationScriptsrotate_authentication_key_with_nonce_admin",
    decode_rotate_authentication_key_with_nonce_admin_script_function);
  ("AccountAdministrationScriptsrotate_authentication_key_with_recovery_address",
    decode_rotate_authentication_key_with_recovery_address_script_function);
  ("AccountAdministrationScriptsrotate_dual_attestation_info", decode_rotate_dual_attestation_info_script_function);
  ("AccountAdministrationScriptsrotate_shared_ed25519_public_key",
    decode_rotate_shared_ed25519_public_key_script_function);
  ("ValidatorScriptsself_unjail", decode_self_unjail_script_function);
  ("BurnScriptset_burn_pref", decode_set_burn_pref_script_function);
  ("SystemAdministrationScriptsset_gas_constants", decode_set_gas_constants_script_function);
  ("ValidatorAdministrationScriptsset_validator_config_and_reconfigure",
    decode_set_validator_config_and_reconfigure_script_function);
  ("ValidatorAdministrationScriptsset_validator_operator", decode_set_validator_operator_script_function);
  ("ValidatorAdministrationScriptsset_validator_operator_with_nonce_admin",
    decode_set_validator_operator_with_nonce_admin_script_function);
  ("WalletScriptsset_wallet_type", decode_set_wallet_type_script_function);
  ("TreasuryComplianceScriptstiered_mint", decode_tiered_mint_script_function);
  ("TreasuryComplianceScriptsunfreeze_account", decode_unfreeze_account_script_function);
  ("SystemAdministrationScriptsupdate_diem_consensus_config", decode_update_diem_consensus_config_script_function);
  ("SystemAdministrationScriptsupdate_diem_version", decode_update_diem_version_script_function);
  ("TreasuryComplianceScriptsupdate_dual_attestation_limit", decode_update_dual_attestation_limit_script_function);
  ("TreasuryComplianceScriptsupdate_exchange_rate", decode_update_exchange_rate_script_function);
  ("TreasuryComplianceScriptsupdate_minting_ability", decode_update_minting_ability_script_function);
  ("ValidatorScriptsval_add_self", decode_val_add_self_script_function);
  ("VouchScriptsvouch_for", decode_vouch_for_script_function);
  ("ValidatorScriptsvoucher_unjail", decode_voucher_unjail_script_function)
]%string.
Definition function_decode (payload : TransactionPayload) : option ScriptFunctionCall.t :=
  script ← script_function payload;
  d ← assoc (function_key script) SCRIPT_FUNCTION_DECODER_MAP;
  d payload.
End functions.

(** ** Lemmas *)
Lemma v52_script_decode_encode c : script_decode (script_encode c) = Some c.
Proof. destruct c; vm_compute; reflexivity. Qed.
Lemma v52_script_table : Forall (reads_code script_encode) TRANSACTION_SCRIPT_DECODER_MAP.
Proof.
  unfold TRANSACTION_SCRIPT_DECODER_MAP.
  repeat (apply Forall_cons_2; [intros s c Hd; unfold snd in Hd; read_args Hd; by injection Hd as <-|]).
  apply Forall_nil_2.
Qed.

Section functions.
Context `{BcsV5}.
Lemma v52_function_decode_encode c : call_ok c → ∃ p, function_encode c = Ok p ∧ function_decode p = Some c.
Proof.
  destruct c; cbn [call_ok]; unfold sequence_ok; intros Hc;
    lazy -[function_decode to_u8 to_u64 to_bool to_address to_vec_u8]; read_back; eexists; (split; [reflexivity|]);
    unfold function_decode; cbn; by repeat match goal with E : _ = Some _ |- _ => rewrite E; clear E; cbn end.
Qed.
End functions.

Lemma v52_function_table `{BcsV5} : Forall (reads_function function_encode) SCRIPT_FUNCTION_DECODER_MAP.
Proof.
  unfold SCRIPT_FUNCTION_DECODER_MAP.
  repeat (apply Forall_cons_2; [intros p c q Hd Hq; unfold snd in Hd; read_args Hd; injection Hd as <-; encoding Hq; done|]).
  apply Forall_nil_2.
Qed.

(** A payload is only decoded to a call of what it names: the bytecode of a
    script, the module and the function of a script function. *)
Lemma v52_decoded s c : script_decode s = Some c → script_code s = script_code (script_encode c).
Proof. apply script_decoded, v52_script_table. Qed.
Lemma v52_function_decoded `{BcsV5} p c q :
  function_decode p = Some c → function_encode c = Ok q → function_key <$> script_function p = function_key <$> script_function q.
Proof. apply function_decoded, v52_function_table. Qed.
