(* ===== verification/ScriptVersions.v ===== *)
(** * The scripts and calls of release 5 against those of release 5.2

    The two builders have the same scripts and almost the same functions: 5.2
    has nine more, and no longer has `join` and `leave`. *)
From Stdlib Require Import ZArith Lia.
From stdpp Require Import base option list strings.
From S2P Require Import Prelude RustStr Bytes HashValue LegacyAddress Event LanguageStorage MoveResource Transactions.
From S2P Require Import EntryCalls ScriptCalls ScriptsV50 ScriptsV52.

Open Scope list_scope.
Open Scope Z_scope.

(** What a script or a call of one release is to the other *)
Definition script_to_v52 (c : ScriptsV50.ScriptCall.t) : ScriptsV52.ScriptCall.t :=
  match c with
  | ScriptsV50.ScriptCall.AddCurrencyToAccount currency => ScriptsV52.ScriptCall.AddCurrencyToAccount currency
  | ScriptsV50.ScriptCall.AddRecoveryRotationCapability recovery_address =>
    ScriptsV52.ScriptCall.AddRecoveryRotationCapability recovery_address
  | ScriptsV50.ScriptCall.AddValidatorAndReconfigure sliding_nonce validator_name validator_address =>
    ScriptsV52.ScriptCall.AddValidatorAndReconfigure sliding_nonce validator_name validator_address
  | ScriptsV50.ScriptCall.Burn token sliding_nonce preburn_address => ScriptsV52.ScriptCall.Burn token sliding_nonce
    preburn_address
  | ScriptsV50.ScriptCall.BurnTxnFees coin_type => ScriptsV52.ScriptCall.BurnTxnFees coin_type
  | ScriptsV50.ScriptCall.CancelBurn token preburn_address => ScriptsV52.ScriptCall.CancelBurn token preburn_address
  | ScriptsV50.ScriptCall.CreateChildVaspAccount coin_type child_address auth_key_prefix add_all_currencies
    child_initial_balance => ScriptsV52.ScriptCall.CreateChildVaspAccount coin_type child_address auth_key_prefix
    add_all_currencies child_initial_balance
  | ScriptsV50.ScriptCall.CreateDesignatedDealer currency sliding_nonce addr auth_key_prefix human_name
    add_all_currencies => ScriptsV52.ScriptCall.CreateDesignatedDealer currency sliding_nonce addr auth_key_prefix
    human_name add_all_currencies
  | ScriptsV50.ScriptCall.CreateParentVaspAccount coin_type sliding_nonce new_account_address auth_key_prefix
    human_name add_all_currencies => ScriptsV52.ScriptCall.CreateParentVaspAccount coin_type sliding_nonce
    new_account_address auth_key_prefix human_name add_all_currencies
  | ScriptsV50.ScriptCall.CreateRecoveryAddress => ScriptsV52.ScriptCall.CreateRecoveryAddress
  | ScriptsV50.ScriptCall.CreateValidatorAccount sliding_nonce new_account_address auth_key_prefix human_name =>
    ScriptsV52.ScriptCall.CreateValidatorAccount sliding_nonce new_account_address auth_key_prefix human_name
  | ScriptsV50.ScriptCall.CreateValidatorOperatorAccount sliding_nonce new_account_address auth_key_prefix human_name
    => ScriptsV52.ScriptCall.CreateValidatorOperatorAccount sliding_nonce new_account_address auth_key_prefix
    human_name
  | ScriptsV50.ScriptCall.FreezeAccount sliding_nonce to_freeze_account => ScriptsV52.ScriptCall.FreezeAccount
    sliding_nonce to_freeze_account
  | ScriptsV50.ScriptCall.PeerToPeerWithMetadata currency payee amount metadata metadata_signature =>
    ScriptsV52.ScriptCall.PeerToPeerWithMetadata currency payee amount metadata metadata_signature
  | ScriptsV50.ScriptCall.Preburn token amount => ScriptsV52.ScriptCall.Preburn token amount
  | ScriptsV50.ScriptCall.PublishSharedEd25519PublicKey public_key =>
    ScriptsV52.ScriptCall.PublishSharedEd25519PublicKey public_key
  | ScriptsV50.ScriptCall.RegisterValidatorConfig validator_account consensus_pubkey validator_network_addresses
    fullnode_network_addresses => ScriptsV52.ScriptCall.RegisterValidatorConfig validator_account consensus_pubkey
    validator_network_addresses fullnode_network_addresses
  | ScriptsV50.ScriptCall.RemoveValidatorAndReconfigure sliding_nonce validator_name validator_address =>
    ScriptsV52.ScriptCall.RemoveValidatorAndReconfigure sliding_nonce validator_name validator_address
  | ScriptsV50.ScriptCall.RotateAuthenticationKey new_key => ScriptsV52.ScriptCall.RotateAuthenticationKey new_key
  | ScriptsV50.ScriptCall.RotateAuthenticationKeyWithNonce sliding_nonce new_key =>
    ScriptsV52.ScriptCall.RotateAuthenticationKeyWithNonce sliding_nonce new_key
  | ScriptsV50.ScriptCall.RotateAuthenticationKeyWithNonceAdmin sliding_nonce new_key =>
    ScriptsV52.ScriptCall.RotateAuthenticationKeyWithNonceAdmin sliding_nonce new_key
  | ScriptsV50.ScriptCall.RotateAuthenticationKeyWithRecoveryAddress recovery_address to_recover new_key =>
    ScriptsV52.ScriptCall.RotateAuthenticationKeyWithRecoveryAddress recovery_address to_recover new_key
  | ScriptsV50.ScriptCall.RotateDualAttestationInfo new_url new_key =>
    ScriptsV52.ScriptCall.RotateDualAttestationInfo new_url new_key
  | ScriptsV50.ScriptCall.RotateSharedEd25519PublicKey public_key =>
    ScriptsV52.ScriptCall.RotateSharedEd25519PublicKey public_key
  | ScriptsV50.ScriptCall.SetValidatorConfigAndReconfigure validator_account consensus_pubkey
    validator_network_addresses fullnode_network_addresses => ScriptsV52.ScriptCall.SetValidatorConfigAndReconfigure
    validator_account consensus_pubkey validator_network_addresses fullnode_network_addresses
  | ScriptsV50.ScriptCall.SetValidatorOperator operator_name operator_account =>
    ScriptsV52.ScriptCall.SetValidatorOperator operator_name operator_account
  | ScriptsV50.ScriptCall.SetValidatorOperatorWithNonceAdmin sliding_nonce operator_name operator_account =>
    ScriptsV52.ScriptCall.SetValidatorOperatorWithNonceAdmin sliding_nonce operator_name operator_account
  | ScriptsV50.ScriptCall.TieredMint coin_type sliding_nonce designated_dealer_address mint_amount tier_index =>
    ScriptsV52.ScriptCall.TieredMint coin_type sliding_nonce designated_dealer_address mint_amount tier_index
  | ScriptsV50.ScriptCall.UnfreezeAccount sliding_nonce to_unfreeze_account => ScriptsV52.ScriptCall.UnfreezeAccount
    sliding_nonce to_unfreeze_account
  | ScriptsV50.ScriptCall.UpdateDiemVersion sliding_nonce major => ScriptsV52.ScriptCall.UpdateDiemVersion
    sliding_nonce major
  | ScriptsV50.ScriptCall.UpdateDualAttestationLimit sliding_nonce new_micro_xdx_limit =>
    ScriptsV52.ScriptCall.UpdateDualAttestationLimit sliding_nonce new_micro_xdx_limit
  | ScriptsV50.ScriptCall.UpdateExchangeRate currency sliding_nonce new_exchange_rate_numerator
    new_exchange_rate_denominator => ScriptsV52.ScriptCall.UpdateExchangeRate currency sliding_nonce
    new_exchange_rate_numerator new_exchange_rate_denominator
  | ScriptsV50.ScriptCall.UpdateMintingAbility currency allow_minting => ScriptsV52.ScriptCall.UpdateMintingAbility
    currency allow_minting
  end.
Definition function_to_v52 (c : ScriptsV50.ScriptFunctionCall.t) : option ScriptsV52.ScriptFunctionCall.t :=
  match c with
  | ScriptsV50.ScriptFunctionCall.AddCurrencyToAccount currency => Some
    (ScriptsV52.ScriptFunctionCall.AddCurrencyToAccount currency)
  | ScriptsV50.ScriptFunctionCall.AddDiemIdDomain address domain => Some
    (ScriptsV52.ScriptFunctionCall.AddDiemIdDomain address domain)
  | ScriptsV50.ScriptFunctionCall.AddRecoveryRotationCapability recovery_address => Some
    (ScriptsV52.ScriptFunctionCall.AddRecoveryRotationCapability recovery_address)
  | ScriptsV50.ScriptFunctionCall.AddValidatorAndReconfigure sliding_nonce validator_name validator_address => Some
    (ScriptsV52.ScriptFunctionCall.AddValidatorAndReconfigure sliding_nonce validator_name validator_address)
  | ScriptsV50.ScriptFunctionCall.AutopayCreateInstruction uid in_type payee end_epoch value => Some
    (ScriptsV52.ScriptFunctionCall.AutopayCreateInstruction uid in_type payee end_epoch value)
  | ScriptsV50.ScriptFunctionCall.AutopayDisable => Some ScriptsV52.ScriptFunctionCall.AutopayDisable
  | ScriptsV50.ScriptFunctionCall.AutopayEnable => Some ScriptsV52.ScriptFunctionCall.AutopayEnable
  | ScriptsV50.ScriptFunctionCall.BalanceTransfer destination unscaled_value => Some
    (ScriptsV52.ScriptFunctionCall.BalanceTransfer destination unscaled_value)
  | ScriptsV50.ScriptFunctionCall.BurnTxnFees coin_type => Some (ScriptsV52.ScriptFunctionCall.BurnTxnFees coin_type)
  | ScriptsV50.ScriptFunctionCall.BurnWithAmount token sliding_nonce preburn_address amount => Some
    (ScriptsV52.ScriptFunctionCall.BurnWithAmount token sliding_nonce preburn_address amount)
  | ScriptsV50.ScriptFunctionCall.CancelBurnWithAmount token preburn_address amount => Some
    (ScriptsV52.ScriptFunctionCall.CancelBurnWithAmount token preburn_address amount)
  | ScriptsV50.ScriptFunctionCall.CreateAccUser challenge solution difficulty security => Some
    (ScriptsV52.ScriptFunctionCall.CreateAccUser challenge solution difficulty security)
  | ScriptsV50.ScriptFunctionCall.CreateAccVal challenge solution difficulty security ow_human_name op_address
    op_auth_key_prefix op_consensus_pubkey op_validator_network_addresses op_fullnode_network_addresses op_human_name
    => Some (ScriptsV52.ScriptFunctionCall.CreateAccVal challenge solution difficulty security ow_human_name
    op_address op_auth_key_prefix op_consensus_pubkey op_validator_network_addresses op_fullnode_network_addresses
    op_human_name)
  | ScriptsV50.ScriptFunctionCall.CreateChildVaspAccount coin_type child_address auth_key_prefix add_all_currencies
    child_initial_balance => Some (ScriptsV52.ScriptFunctionCall.CreateChildVaspAccount coin_type child_address
    auth_key_prefix add_all_currencies child_initial_balance)
  | ScriptsV50.ScriptFunctionCall.CreateDesignatedDealer currency sliding_nonce addr auth_key_prefix human_name
    add_all_currencies => Some (ScriptsV52.ScriptFunctionCall.CreateDesignatedDealer currency sliding_nonce addr
    auth_key_prefix human_name add_all_currencies)
  | ScriptsV50.ScriptFunctionCall.CreateDiemIdDomains => Some ScriptsV52.ScriptFunctionCall.CreateDiemIdDomains
  | ScriptsV50.ScriptFunctionCall.CreateParentVaspAccount coin_type sliding_nonce new_account_address auth_key_prefix
    human_name add_all_currencies => Some (ScriptsV52.ScriptFunctionCall.CreateParentVaspAccount coin_type
    sliding_nonce new_account_address auth_key_prefix human_name add_all_currencies)
  | ScriptsV50.ScriptFunctionCall.CreateRecoveryAddress => Some ScriptsV52.ScriptFunctionCall.CreateRecoveryAddress
  | ScriptsV50.ScriptFunctionCall.CreateUserByCoinTx account authkey_prefix unscaled_value => Some
    (ScriptsV52.ScriptFunctionCall.CreateUserByCoinTx account authkey_prefix unscaled_value)
  | ScriptsV50.ScriptFunctionCall.CreateValidatorAccount sliding_nonce new_account_address auth_key_prefix human_name
    => Some (ScriptsV52.ScriptFunctionCall.CreateValidatorAccount sliding_nonce new_account_address auth_key_prefix
    human_name)
  | ScriptsV50.ScriptFunctionCall.CreateValidatorOperatorAccount sliding_nonce new_account_address auth_key_prefix
    human_name => Some (ScriptsV52.ScriptFunctionCall.CreateValidatorOperatorAccount sliding_nonce
    new_account_address auth_key_prefix human_name)
  | ScriptsV50.ScriptFunctionCall.DemoE2e world => Some (ScriptsV52.ScriptFunctionCall.DemoE2e world)
  | ScriptsV50.ScriptFunctionCall.FreezeAccount sliding_nonce to_freeze_account => Some
    (ScriptsV52.ScriptFunctionCall.FreezeAccount sliding_nonce to_freeze_account)
  | ScriptsV50.ScriptFunctionCall.InitializeDiemConsensusConfig sliding_nonce => Some
    (ScriptsV52.ScriptFunctionCall.InitializeDiemConsensusConfig sliding_nonce)
  | ScriptsV50.ScriptFunctionCall.MinerstateCommit challenge solution difficulty security => Some
    (ScriptsV52.ScriptFunctionCall.MinerstateCommit challenge solution difficulty security)
  | ScriptsV50.ScriptFunctionCall.MinerstateCommitByOperator owner_address challenge solution difficulty security =>
    Some (ScriptsV52.ScriptFunctionCall.MinerstateCommitByOperator owner_address challenge solution difficulty
    security)
  | ScriptsV50.ScriptFunctionCall.MinerstateHelper => Some ScriptsV52.ScriptFunctionCall.MinerstateHelper
  | ScriptsV50.ScriptFunctionCall.OlDelegateVote dest => Some (ScriptsV52.ScriptFunctionCall.OlDelegateVote dest)
  | ScriptsV50.ScriptFunctionCall.OlEnableDelegation => Some ScriptsV52.ScriptFunctionCall.OlEnableDelegation
  | ScriptsV50.ScriptFunctionCall.OlOracleTx id data => Some (ScriptsV52.ScriptFunctionCall.OlOracleTx id data)
  | ScriptsV50.ScriptFunctionCall.OlReconfigBulkUpdateSetup alice bob carol sha ram => Some
    (ScriptsV52.ScriptFunctionCall.OlReconfigBulkUpdateSetup alice bob carol sha ram)
  | ScriptsV50.ScriptFunctionCall.OlRemoveDelegation => Some ScriptsV52.ScriptFunctionCall.OlRemoveDelegation
  | ScriptsV50.ScriptFunctionCall.PeerToPeerWithMetadata currency payee amount metadata metadata_signature => Some
    (ScriptsV52.ScriptFunctionCall.PeerToPeerWithMetadata currency payee amount metadata metadata_signature)
  | ScriptsV50.ScriptFunctionCall.Preburn token amount => Some (ScriptsV52.ScriptFunctionCall.Preburn token amount)
  | ScriptsV50.ScriptFunctionCall.PublishSharedEd25519PublicKey public_key => Some
    (ScriptsV52.ScriptFunctionCall.PublishSharedEd25519PublicKey public_key)
  | ScriptsV50.ScriptFunctionCall.RegisterValidatorConfig validator_account consensus_pubkey
    validator_network_addresses fullnode_network_addresses => Some
    (ScriptsV52.ScriptFunctionCall.RegisterValidatorConfig validator_account consensus_pubkey
    validator_network_addresses fullnode_network_addresses)
  | ScriptsV50.ScriptFunctionCall.RemoveDiemIdDomain address domain => Some
    (ScriptsV52.ScriptFunctionCall.RemoveDiemIdDomain address domain)
  | ScriptsV50.ScriptFunctionCall.RemoveValidatorAndReconfigure sliding_nonce validator_name validator_address =>
    Some (ScriptsV52.ScriptFunctionCall.RemoveValidatorAndReconfigure sliding_nonce validator_name validator_address)
  | ScriptsV50.ScriptFunctionCall.RotateAuthenticationKey new_key => Some
    (ScriptsV52.ScriptFunctionCall.RotateAuthenticationKey new_key)
  | ScriptsV50.ScriptFunctionCall.RotateAuthenticationKeyWithNonce sliding_nonce new_key => Some
    (ScriptsV52.ScriptFunctionCall.RotateAuthenticationKeyWithNonce sliding_nonce new_key)
  | ScriptsV50.ScriptFunctionCall.RotateAuthenticationKeyWithNonceAdmin sliding_nonce new_key => Some
    (ScriptsV52.ScriptFunctionCall.RotateAuthenticationKeyWithNonceAdmin sliding_nonce new_key)
  | ScriptsV50.ScriptFunctionCall.RotateAuthenticationKeyWithRecoveryAddress recovery_address to_recover new_key =>
    Some (ScriptsV52.ScriptFunctionCall.RotateAuthenticationKeyWithRecoveryAddress recovery_address to_recover
    new_key)
  | ScriptsV50.ScriptFunctionCall.RotateDualAttestationInfo new_url new_key => Some
    (ScriptsV52.ScriptFunctionCall.RotateDualAttestationInfo new_url new_key)
  | ScriptsV50.ScriptFunctionCall.RotateSharedEd25519PublicKey public_key => Some
    (ScriptsV52.ScriptFunctionCall.RotateSharedEd25519PublicKey public_key)
  | ScriptsV50.ScriptFunctionCall.SetGasConstants sliding_nonce global_memory_per_byte_cost
    global_memory_per_byte_write_cost min_transaction_gas_units large_transaction_cutoff intrinsic_gas_per_byte
    maximum_number_of_gas_units min_price_per_gas_unit max_price_per_gas_unit max_transaction_size_in_bytes
    gas_unit_scaling_factor default_account_size => Some (ScriptsV52.ScriptFunctionCall.SetGasConstants sliding_nonce
    global_memory_per_byte_cost global_memory_per_byte_write_cost min_transaction_gas_units large_transaction_cutoff
    intrinsic_gas_per_byte maximum_number_of_gas_units min_price_per_gas_unit max_price_per_gas_unit
    max_transaction_size_in_bytes gas_unit_scaling_factor default_account_size)
  | ScriptsV50.ScriptFunctionCall.SetValidatorConfigAndReconfigure validator_account consensus_pubkey
    validator_network_addresses fullnode_network_addresses => Some
    (ScriptsV52.ScriptFunctionCall.SetValidatorConfigAndReconfigure validator_account consensus_pubkey
    validator_network_addresses fullnode_network_addresses)
  | ScriptsV50.ScriptFunctionCall.SetValidatorOperator operator_name operator_account => Some
    (ScriptsV52.ScriptFunctionCall.SetValidatorOperator operator_name operator_account)
  | ScriptsV50.ScriptFunctionCall.SetValidatorOperatorWithNonceAdmin sliding_nonce operator_name operator_account =>
    Some (ScriptsV52.ScriptFunctionCall.SetValidatorOperatorWithNonceAdmin sliding_nonce operator_name
    operator_account)
  | ScriptsV50.ScriptFunctionCall.SetWalletType type_of => Some (ScriptsV52.ScriptFunctionCall.SetWalletType type_of)
  | ScriptsV50.ScriptFunctionCall.TieredMint coin_type sliding_nonce designated_dealer_address mint_amount tier_index
    => Some (ScriptsV52.ScriptFunctionCall.TieredMint coin_type sliding_nonce designated_dealer_address mint_amount
    tier_index)
  | ScriptsV50.ScriptFunctionCall.UnfreezeAccount sliding_nonce to_unfreeze_account => Some
    (ScriptsV52.ScriptFunctionCall.UnfreezeAccount sliding_nonce to_unfreeze_account)
  | ScriptsV50.ScriptFunctionCall.UpdateDiemConsensusConfig sliding_nonce config => Some
    (ScriptsV52.ScriptFunctionCall.UpdateDiemConsensusConfig sliding_nonce config)
  | ScriptsV50.ScriptFunctionCall.UpdateDiemVersion sliding_nonce major => Some
    (ScriptsV52.ScriptFunctionCall.UpdateDiemVersion sliding_nonce major)
  | ScriptsV50.ScriptFunctionCall.UpdateDualAttestationLimit sliding_nonce new_micro_xdx_limit => Some
    (ScriptsV52.ScriptFunctionCall.UpdateDualAttestationLimit sliding_nonce new_micro_xdx_limit)
  | ScriptsV50.ScriptFunctionCall.UpdateExchangeRate currency sliding_nonce new_exchange_rate_numerator
    new_exchange_rate_denominator => Some (ScriptsV52.ScriptFunctionCall.UpdateExchangeRate currency sliding_nonce
    new_exchange_rate_numerator new_exchange_rate_denominator)
  | ScriptsV50.ScriptFunctionCall.UpdateMintingAbility currency allow_minting => Some
    (ScriptsV52.ScriptFunctionCall.UpdateMintingAbility currency allow_minting)
  | ScriptsV50.ScriptFunctionCall.ValAddSelf => Some ScriptsV52.ScriptFunctionCall.ValAddSelf
  | _ => None
  end.
Definition function_to_v50 (c : ScriptsV52.ScriptFunctionCall.t) : option ScriptsV50.ScriptFunctionCall.t :=
  match c with
  | ScriptsV52.ScriptFunctionCall.AddCurrencyToAccount currency => Some
    (ScriptsV50.ScriptFunctionCall.AddCurrencyToAccount currency)
  | ScriptsV52.ScriptFunctionCall.AddDiemIdDomain address domain => Some
    (ScriptsV50.ScriptFunctionCall.AddDiemIdDomain address domain)
  | ScriptsV52.ScriptFunctionCall.AddRecoveryRotationCapability recovery_address => Some
    (ScriptsV50.ScriptFunctionCall.AddRecoveryRotationCapability recovery_address)
  | ScriptsV52.ScriptFunctionCall.AddValidatorAndReconfigure sliding_nonce validator_name validator_address => Some
    (ScriptsV50.ScriptFunctionCall.AddValidatorAndReconfigure sliding_nonce validator_name validator_address)
  | ScriptsV52.ScriptFunctionCall.AutopayCreateInstruction uid in_type payee end_epoch value => Some
    (ScriptsV50.ScriptFunctionCall.AutopayCreateInstruction uid in_type payee end_epoch value)
  | ScriptsV52.ScriptFunctionCall.AutopayDisable => Some ScriptsV50.ScriptFunctionCall.AutopayDisable
  | ScriptsV52.ScriptFunctionCall.AutopayEnable => Some ScriptsV50.ScriptFunctionCall.AutopayEnable
  | ScriptsV52.ScriptFunctionCall.BalanceTransfer destination unscaled_value => Some
    (ScriptsV50.ScriptFunctionCall.BalanceTransfer destination unscaled_value)
  | ScriptsV52.ScriptFunctionCall.BurnTxnFees coin_type => Some (ScriptsV50.ScriptFunctionCall.BurnTxnFees coin_type)
  | ScriptsV52.ScriptFunctionCall.BurnWithAmount token sliding_nonce preburn_address amount => Some
    (ScriptsV50.ScriptFunctionCall.BurnWithAmount token sliding_nonce preburn_address amount)
  | ScriptsV52.ScriptFunctionCall.CancelBurnWithAmount token preburn_address amount => Some
    (ScriptsV50.ScriptFunctionCall.CancelBurnWithAmount token preburn_address amount)
  | ScriptsV52.ScriptFunctionCall.CreateAccUser challenge solution difficulty security => Some
    (ScriptsV50.ScriptFunctionCall.CreateAccUser challenge solution difficulty security)
  | ScriptsV52.ScriptFunctionCall.CreateAccVal challenge solution difficulty security ow_human_name op_address
    op_auth_key_prefix op_consensus_pubkey op_validator_network_addresses op_fullnode_network_addresses op_human_name
    => Some (ScriptsV50.ScriptFunctionCall.CreateAccVal challenge solution difficulty security ow_human_name
    op_address op_auth_key_prefix op_consensus_pubkey op_validator_network_addresses op_fullnode_network_addresses
    op_human_name)
  | ScriptsV52.ScriptFunctionCall.CreateChildVaspAccount coin_type child_address auth_key_prefix add_all_currencies
    child_initial_balance => Some (ScriptsV50.ScriptFunctionCall.CreateChildVaspAccount coin_type child_address
    auth_key_prefix add_all_currencies child_initial_balance)
  | ScriptsV52.ScriptFunctionCall.CreateDesignatedDealer currency sliding_nonce addr auth_key_prefix human_name
    add_all_currencies => Some (ScriptsV50.ScriptFunctionCall.CreateDesignatedDealer currency sliding_nonce addr
    auth_key_prefix human_name add_all_currencies)
  | ScriptsV52.ScriptFunctionCall.CreateDiemIdDomains => Some ScriptsV50.ScriptFunctionCall.CreateDiemIdDomains
  | ScriptsV52.ScriptFunctionCall.CreateParentVaspAccount coin_type sliding_nonce new_account_address auth_key_prefix
    human_name add_all_currencies => Some (ScriptsV50.ScriptFunctionCall.CreateParentVaspAccount coin_type
    sliding_nonce new_account_address auth_key_prefix human_name add_all_currencies)
  | ScriptsV52.ScriptFunctionCall.CreateRecoveryAddress => Some ScriptsV50.ScriptFunctionCall.CreateRecoveryAddress
  | ScriptsV52.ScriptFunctionCall.CreateUserByCoinTx account authkey_prefix unscaled_value => Some
    (ScriptsV50.ScriptFunctionCall.CreateUserByCoinTx account authkey_prefix unscaled_value)
  | ScriptsV52.ScriptFunctionCall.CreateValidatorAccount sliding_nonce new_account_address auth_key_prefix human_name
    => Some (ScriptsV50.ScriptFunctionCall.CreateValidatorAccount sliding_nonce new_account_address auth_key_prefix
    human_name)
  | ScriptsV52.ScriptFunctionCall.CreateValidatorOperatorAccount sliding_nonce new_account_address auth_key_prefix
    human_name => Some (ScriptsV50.ScriptFunctionCall.CreateValidatorOperatorAccount sliding_nonce
    new_account_address auth_key_prefix human_name)
  | ScriptsV52.ScriptFunctionCall.DemoE2e world => Some (ScriptsV50.ScriptFunctionCall.DemoE2e world)
  | ScriptsV52.ScriptFunctionCall.FreezeAccount sliding_nonce to_freeze_account => Some
    (ScriptsV50.ScriptFunctionCall.FreezeAccount sliding_nonce to_freeze_account)
  | ScriptsV52.ScriptFunctionCall.InitializeDiemConsensusConfig sliding_nonce => Some
    (ScriptsV50.ScriptFunctionCall.InitializeDiemConsensusConfig sliding_nonce)
  | ScriptsV52.ScriptFunctionCall.MinerstateCommit challenge solution difficulty security => Some
    (ScriptsV50.ScriptFunctionCall.MinerstateCommit challenge solution difficulty security)
  | ScriptsV52.ScriptFunctionCall.MinerstateCommitByOperator owner_address challenge solution difficulty security =>
    Some (ScriptsV50.ScriptFunctionCall.MinerstateCommitByOperator owner_address challenge solution difficulty
    security)
  | ScriptsV52.ScriptFunctionCall.MinerstateHelper => Some ScriptsV50.ScriptFunctionCall.MinerstateHelper
  | ScriptsV52.ScriptFunctionCall.OlDelegateVote dest => Some (ScriptsV50.ScriptFunctionCall.OlDelegateVote dest)
  | ScriptsV52.ScriptFunctionCall.OlEnableDelegation => Some ScriptsV50.ScriptFunctionCall.OlEnableDelegation
  | ScriptsV52.ScriptFunctionCall.OlOracleTx id data => Some (ScriptsV50.ScriptFunctionCall.OlOracleTx id data)
  | ScriptsV52.ScriptFunctionCall.OlReconfigBulkUpdateSetup alice bob carol sha ram => Some
    (ScriptsV50.ScriptFunctionCall.OlReconfigBulkUpdateSetup alice bob carol sha ram)
  | ScriptsV52.ScriptFunctionCall.OlRemoveDelegation => Some ScriptsV50.ScriptFunctionCall.OlRemoveDelegation
  | ScriptsV52.ScriptFunctionCall.PeerToPeerWithMetadata currency payee amount metadata metadata_signature => Some
    (ScriptsV50.ScriptFunctionCall.PeerToPeerWithMetadata currency payee amount metadata metadata_signature)
  | ScriptsV52.ScriptFunctionCall.Preburn token amount => Some (ScriptsV50.ScriptFunctionCall.Preburn token amount)
  | ScriptsV52.ScriptFunctionCall.PublishSharedEd25519PublicKey public_key => Some
    (ScriptsV50.ScriptFunctionCall.PublishSharedEd25519PublicKey public_key)
  | ScriptsV52.ScriptFunctionCall.RegisterValidatorConfig validator_account consensus_pubkey
    validator_network_addresses fullnode_network_addresses => Some
    (ScriptsV50.ScriptFunctionCall.RegisterValidatorConfig validator_account consensus_pubkey
    validator_network_addresses fullnode_network_addresses)
  | ScriptsV52.ScriptFunctionCall.RemoveDiemIdDomain address domain => Some
    (ScriptsV50.ScriptFunctionCall.RemoveDiemIdDomain address domain)
  | ScriptsV52.ScriptFunctionCall.RemoveValidatorAndReconfigure sliding_nonce validator_name validator_address =>
    Some (ScriptsV50.ScriptFunctionCall.RemoveValidatorAndReconfigure sliding_nonce validator_name validator_address)
  | ScriptsV52.ScriptFunctionCall.RotateAuthenticationKey new_key => Some
    (ScriptsV50.ScriptFunctionCall.RotateAuthenticationKey new_key)
  | ScriptsV52.ScriptFunctionCall.RotateAuthenticationKeyWithNonce sliding_nonce new_key => Some
    (ScriptsV50.ScriptFunctionCall.RotateAuthenticationKeyWithNonce sliding_nonce new_key)
  | ScriptsV52.ScriptFunctionCall.RotateAuthenticationKeyWithNonceAdmin sliding_nonce new_key => Some
    (ScriptsV50.ScriptFunctionCall.RotateAuthenticationKeyWithNonceAdmin sliding_nonce new_key)
  | ScriptsV52.ScriptFunctionCall.RotateAuthenticationKeyWithRecoveryAddress recovery_address to_recover new_key =>
    Some (ScriptsV50.ScriptFunctionCall.RotateAuthenticationKeyWithRecoveryAddress recovery_address to_recover
    new_key)
  | ScriptsV52.ScriptFunctionCall.RotateDualAttestationInfo new_url new_key => Some
    (ScriptsV50.ScriptFunctionCall.RotateDualAttestationInfo new_url new_key)
  | ScriptsV52.ScriptFunctionCall.RotateSharedEd25519PublicKey public_key => Some
    (ScriptsV50.ScriptFunctionCall.RotateSharedEd25519PublicKey public_key)
  | ScriptsV52.ScriptFunctionCall.SetGasConstants sliding_nonce global_memory_per_byte_cost
    global_memory_per_byte_write_cost min_transaction_gas_units large_transaction_cutoff intrinsic_gas_per_byte
    maximum_number_of_gas_units min_price_per_gas_unit max_price_per_gas_unit max_transaction_size_in_bytes
    gas_unit_scaling_factor default_account_size => Some (ScriptsV50.ScriptFunctionCall.SetGasConstants sliding_nonce
    global_memory_per_byte_cost global_memory_per_byte_write_cost min_transaction_gas_units large_transaction_cutoff
    intrinsic_gas_per_byte maximum_number_of_gas_units min_price_per_gas_unit max_price_per_gas_unit
    max_transaction_size_in_bytes gas_unit_scaling_factor default_account_size)
  | ScriptsV52.ScriptFunctionCall.SetValidatorConfigAndReconfigure validator_account consensus_pubkey
    validator_network_addresses fullnode_network_addresses => Some
    (ScriptsV50.ScriptFunctionCall.SetValidatorConfigAndReconfigure validator_account consensus_pubkey
    validator_network_addresses fullnode_network_addresses)
  | ScriptsV52.ScriptFunctionCall.SetValidatorOperator operator_name operator_account => Some
    (ScriptsV50.ScriptFunctionCall.SetValidatorOperator operator_name operator_account)
  | ScriptsV52.ScriptFunctionCall.SetValidatorOperatorWithNonceAdmin sliding_nonce operator_name operator_account =>
    Some (ScriptsV50.ScriptFunctionCall.SetValidatorOperatorWithNonceAdmin sliding_nonce operator_name
    operator_account)
  | ScriptsV52.ScriptFunctionCall.SetWalletType type_of => Some (ScriptsV50.ScriptFunctionCall.SetWalletType type_of)
  | ScriptsV52.ScriptFunctionCall.TieredMint coin_type sliding_nonce designated_dealer_address mint_amount tier_index
    => Some (ScriptsV50.ScriptFunctionCall.TieredMint coin_type sliding_nonce designated_dealer_address mint_amount
    tier_index)
  | ScriptsV52.ScriptFunctionCall.UnfreezeAccount sliding_nonce to_unfreeze_account => Some
    (ScriptsV50.ScriptFunctionCall.UnfreezeAccount sliding_nonce to_unfreeze_account)
  | ScriptsV52.ScriptFunctionCall.UpdateDiemConsensusConfig sliding_nonce config => Some
    (ScriptsV50.ScriptFunctionCall.UpdateDiemConsensusConfig sliding_nonce config)
  | ScriptsV52.ScriptFunctionCall.UpdateDiemVersion sliding_nonce major => Some
    (ScriptsV50.ScriptFunctionCall.UpdateDiemVersion sliding_nonce major)
  | ScriptsV52.ScriptFunctionCall.UpdateDualAttestationLimit sliding_nonce new_micro_xdx_limit => Some
    (ScriptsV50.ScriptFunctionCall.UpdateDualAttestationLimit sliding_nonce new_micro_xdx_limit)
  | ScriptsV52.ScriptFunctionCall.UpdateExchangeRate currency sliding_nonce new_exchange_rate_numerator
    new_exchange_rate_denominator => Some (ScriptsV50.ScriptFunctionCall.UpdateExchangeRate currency sliding_nonce
    new_exchange_rate_numerator new_exchange_rate_denominator)
  | ScriptsV52.ScriptFunctionCall.UpdateMintingAbility currency allow_minting => Some
    (ScriptsV50.ScriptFunctionCall.UpdateMintingAbility currency allow_minting)
  | ScriptsV52.ScriptFunctionCall.ValAddSelf => Some ScriptsV50.ScriptFunctionCall.ValAddSelf
  | _ => None
  end.

(** ** Lemmas *)
Lemma script_same c : ScriptsV52.script_encode (script_to_v52 c) = ScriptsV50.script_encode c.
Proof. destruct c; reflexivity. Qed.

Section functions.
Context `{BcsV5}.
(** A call of both releases has one payload. *)
Lemma function_same c d :
  function_to_v52 c = Some d → ScriptsV52.function_encode d = ScriptsV50.function_encode c.
Proof. destruct c; cbn; intros [=]; by subst d. Qed.
Lemma function_ok_same c d : function_to_v52 c = Some d → ScriptsV50.call_ok c → ScriptsV52.call_ok d.
Proof. destruct c; cbn; intros [=]; by subst d. Qed.
Lemma function_back d c : function_to_v50 d = Some c → function_to_v52 c = Some d.
Proof. destruct d; cbn; intros [=]; by subst c. Qed.
Lemma function_ok_back d c : function_to_v50 d = Some c → ScriptsV52.call_ok d → ScriptsV50.call_ok c.
Proof. destruct d; cbn; intros [=]; by subst c. Qed.

(** A payload of a function the table does not have *)
Lemma unknown_v52 c p :
  function_to_v52 c = None → ScriptsV50.function_encode c = Ok p → ScriptsV52.function_decode p = None.
Proof. destruct c; cbn [function_to_v52]; intros [=]; intros E; unfold ScriptsV50.function_encode in E; encoding E; reflexivity. Qed.
Lemma unknown_v50 d p :
  function_to_v50 d = None → ScriptsV52.function_encode d = Ok p → ScriptsV50.function_decode p = None.
Proof. destruct d; cbn [function_to_v50]; intros [=]; intros E; unfold ScriptsV52.function_encode in E; encoding E; reflexivity. Qed.
End functions.

(** C24: The two builders of the v5 chain agree.  Every script and every script
    function that can be encoded is read back by its own release; a script of
    release 5 is the same script to 5.2; and a function call of one release is to
    the other the same call where it has the function, and no call at all where it
    has not. *)
Theorem v5_releases_agree `{BcsV5} :
  (∀ c, ScriptsV52.script_decode (ScriptsV52.script_encode c) = Some c) ∧
  (∀ c, ScriptsV50.script_decode (ScriptsV50.script_encode c) = Some c) ∧
  (∀ c, ScriptsV52.script_decode (ScriptsV50.script_encode c) = Some (script_to_v52 c)) ∧
  (∀ c, ScriptsV52.call_ok c → ∃ p, ScriptsV52.function_encode c = Ok p ∧
     ScriptsV52.function_decode p = Some c ∧ ScriptsV50.function_decode p = function_to_v50 c) ∧
  (∀ c, ScriptsV50.call_ok c → ∃ p, ScriptsV50.function_encode c = Ok p ∧
     ScriptsV50.function_decode p = Some c ∧ ScriptsV52.function_decode p = function_to_v52 c).
Proof.
  split; [apply v52_script_decode_encode|]. split; [apply v50_script_decode_encode|]. split; [|split].
  - intros c. rewrite <- script_same. apply v52_script_decode_encode.
  - intros c Hc. destruct (v52_function_decode_encode c Hc) as (p & Hp & Hd). exists p. split_and!; [done..|].
    destruct (function_to_v50 c) as [d|] eqn:E; [|by apply (unknown_v50 c)].
    destruct (v50_function_decode_encode d (function_ok_back _ _ E Hc)) as (q & Hq & Hb).
    rewrite (function_same d c) in Hp by by apply function_back. rewrite Hp in Hq. by apply Ok_inj in Hq as ->.
  - intros c Hc. destruct (v50_function_decode_encode c Hc) as (p & Hp & Hd). exists p. split_and!; [done..|].
    destruct (function_to_v52 c) as [d|] eqn:E; [|by apply (unknown_v52 c)].
    destruct (v52_function_decode_encode d (function_ok_same _ _ E Hc)) as (q & Hq & Hb).
    rewrite (function_same c d E), Hp in Hq. by apply Ok_inj in Hq as ->.
Qed.

(** ** Witness *)
Lemma v5_releases_agree_witness :
  let c := ScriptsV52.ScriptFunctionCall.VouchFor (LegacyAddressV5.mk (repeat 7 16)) in
  ScriptsV52.call_ok c ∧ ∃ p, ScriptsV52.function_encode c = Ok p ∧
    ScriptsV52.function_decode p = Some c ∧ ScriptsV50.function_decode p = None.
Proof.
  intros c. assert (Hc : ScriptsV52.call_ok c) by by apply (bool_decide_unpack _).
  split; [exact Hc|]. destruct v5_releases_agree as (_ & _ & _ & Hf & _). exact (Hf c Hc).
Defined.
(** A function is known by its names alone, without the address of its module,
    and arguments too many are not looked at. *)
Example v5_decoded_elsewhere a :
  ScriptsV52.function_decode (PlScriptFunction (mk_script_function (mkModuleId a "VouchScripts") "init_vouch" [TU8] [[1]])) =
    Some ScriptsV52.ScriptFunctionCall.InitVouch.
Proof. reflexivity. Qed.
