(* ===== verification/TxSender.v ===== *)
(** * tools/txs: sending transactions

    submit_transaction.rs, transfer.rs and generic_tx.rs, with
    [parse_function_id] of types/src/util.rs; txs_cli.rs up to the sender it
    makes.  A sender keeps the local account, whose sequence number moves with
    every signature, the costs and the last response.  The state of a command
    is the sender and the [world] of Node.v. *)
From Stdlib Require Import ZArith Lia Ascii.
From stdpp Require Import base option list strings gmap.
From S2P Require Import Prelude RustStr Json Effects Bytes FileSystem MoveTypes Mnemonic Wallet.
From S2P Require Import HashValue F64 NetworkPlaylist Pledge AppCfg GasCoin Node EntryCalls Payloads.

Open Scope list_scope.
Open Scope Z_scope.

(** The diem crates: signing takes the account's next sequence number; the
    identifiers, arguments and keys in text; the id of a chain. *)
Class TxSdk := {
  sign_with_transaction_builder : LocalAccount → TransactionBuilder → LocalAccount * SignedTransaction;
  identifier_new : string → outcome string;
  parse_transaction_arguments : string → outcome (list Arg);
  private_key_from_encoded_string : string → outcome bytes;
  named_chain_id : NamedChain → Z;
  sign_law a b :
    fst (sign_with_transaction_builder a b) =
      mk_local (la_address a) (la_private_key a) (u64_add (la_sequence_number a) 1) ∧
    raw_txn (snd (sign_with_transaction_builder a b)) = mk_raw (la_address a) (la_sequence_number a) b
}.

Record Sender := mk_sender {
  local_account : LocalAccount;
  s_tx_cost : TxCost;
  chain_id : Z;
  response : option TransactionOnChainData
}.
Notation session := (Sender * world)%type.

Section sender.
Context `{RestNode, TxSdk}.

(** ** submit_transaction.rs *)
Definition set_tx_cost (self : Sender) (cost : TxCost) : Sender :=
  mk_sender (local_account self) cost (chain_id self) (response self).

Definition sign_payload (payload : TransactionPayload) : st session SignedTransaction := fun '(self, w) =>
  let t := now (w_history w) in
  let time := u64_add t (u64_mul DEFAULT_TIMEOUT_SECS 10) in
  let tb := mk_builder payload time (chain_id self) (coin_price_per_unit (s_tx_cost self))
              (max_gas_unit_for_tx (s_tx_cost self)) in
  let '(account, signed) := sign_with_transaction_builder (local_account self) tb in
  ((mk_sender account (s_tx_cost self) (chain_id self) (response self), w), Ok signed).

Definition submit (signed_trans : SignedTransaction) : st session TransactionOnChainData :=
  on_snd (
    pending ← ask (PostTransaction signed_trans) ans_submit;
    ask (WaitTransaction pending) ans_wait).

Definition set_response (r : TransactionOnChainData) : st session unit := fun '(self, w) =>
  ((mk_sender (local_account self) (s_tx_cost self) (chain_id self) (Some r), w), Ok tt).
Definition sign_submit_wait (payload : TransactionPayload) : st session TransactionOnChainData :=
  signed ← sign_payload payload;
  r ← submit signed;
  _ ← set_response r;
  mret r.

Definition is_success (s : ExecutionStatus) : bool := match s with StatusSuccess => true | _ => false end.
(** [Result<ExecutionStatus, ExecutionStatus>]: [inr] is [Ok] *)
Definition eval_response (self : Sender) : ExecutionStatus + ExecutionStatus :=
  match response self with
  | None => inl StatusMiscellaneousError
  | Some r => if is_success (oc_status r) then inr (oc_status r) else inl (oc_status r)
  end.
Definition tx_hash (self : Sender) : option bytes := oc_transaction_hash <$> response self.

Definition estimate (payload : TransactionPayload) : st session (list UserTransaction) :=
  signed ← sign_payload payload;
  on_snd (ask (Simulate signed) ans_simulate).

(** ** transfer.rs *)
Definition transfer (to : AccountAddress) (amount : f64) (estimate_only : bool)
    : st session (option TransactionOnChainData) :=
  let coin_scaled := cast_decimal_to_coin amount in
  let payload := encode (OlAccountTransfer to coin_scaled) in
  if estimate_only then
    res ← estimate payload;
    _ ← st_lift (expect_opt "index out of bounds" (head res));
    mret None
  else
    tx ← st_result (context_res "ERROR: transaction could not complete") (sign_submit_wait payload);
    mret (Some tx).

(** ** util.rs and generic_tx.rs *)
Context `{DiemAddress}.

Definition parse_function_id (function_id : string) : outcome (AccountAddress * string * string) :=
  match trim <$> split_str "::" function_id with
  | [a; m; f] =>
      module_address ← context_opt "Failed to parse module address" (addr_from_hex_literal a);
      module_name ← context_res "Failed to parse module name" (identifier_new m);
      function_name ← context_res "Failed to parse function name" (identifier_new f);
      Ok (module_address, module_name, function_name)
  | _ => Err "Invalid function id"
  end.

Definition build_entry_function (function_id : string) (ty_args args : option string) : outcome EntryFunction :=
  '(module_address, module_name, function_name) ← parse_function_id function_id;
  ty_args ← match ty_args with
            | Some t => context_res "Unable to parse the type argument(s)" (parse_type_tags t)
            | None => Ok []
            end;
  args ← match args with
         | Some a => context_res "Unable to parse argument(s)" (parse_transaction_arguments a)
         | None => Ok []
         end;
  Ok (mk_entry (module_address, module_name) function_name ty_args args).

Definition generic (function_id : string) (ty_args args : option string) : st session unit :=
  e ← st_lift (build_entry_function function_id ty_args args);
  _ ← sign_submit_wait (PayloadEntry e);
  mret tt.

(** client_ext.rs; it reads the function and its arguments as
    [build_entry_function] does. *)
Record TransactionOptions := mk_tx_options { opt_max_gas_amount : Z; opt_gas_unit_price : Z; timeout_secs : Z }.
Definition generate_transaction (function_id : string) (ty_args args : option string) (options : TransactionOptions)
    : st (LocalAccount * world) SignedTransaction :=
  chain_id ← on_snd (ask GetIndex ans_index);
  entry ← st_lift (build_entry_function function_id ty_args args);
  (fun '(from_account, w) =>
    let expiration := u64_add (now (w_history w)) (timeout_secs options) in
    let '(account, signed) := sign_with_transaction_builder from_account
      (mk_builder (PayloadEntry entry) expiration chain_id (opt_gas_unit_price options) (opt_max_gas_amount options)) in
    ((account, w), Ok signed)) : st (LocalAccount * world) SignedTransaction.

(** The transaction is the account's next, on the chain of the node, and nothing
    is submitted. *)
Lemma generate_transaction_ok function_id ty_args args options a w a' w' signed :
  generate_transaction function_id ty_args args options (a, w) = ((a', w'), Ok signed) →
  w_history w' = w_history w ++ [GetIndex] ∧ w_files w' = w_files w ∧
  a' = mk_local (la_address a) (la_private_key a) (u64_add (la_sequence_number a) 1) ∧
  ∃ e id, build_entry_function function_id ty_args args = Ok e ∧ ans_index (w_history w') = inl id ∧
    raw_txn signed = mk_raw (la_address a) (la_sequence_number a)
      (mk_builder (PayloadEntry e) (u64_add (now (w_history w')) (timeout_secs options)) id
         (opt_gas_unit_price options) (opt_max_gas_amount options)).
Proof.
  unfold generate_transaction. intros E. apply st_bind_ok in E as ([a1 w1] & id & Hi & E).
  unfold on_snd, ask in Hi. injection Hi as <- <- Hi. apply st_bind_ok in E as ([a2 w2] & e & He & E). injection He as <- <- He.
  destruct (sign_with_transaction_builder a _) as [acc sg] eqn:Es. injection E as <- <- <-.
  destruct (sign_law a (mk_builder (PayloadEntry e) (u64_add (now (w_history w ++ [GetIndex])) (timeout_secs options)) id
    (opt_gas_unit_price options) (opt_max_gas_amount options))) as [Ha Hs]. cbn [w_history] in Es. rewrite Es in Ha, Hs. cbn [fst snd] in Ha, Hs.
  cbn [w_history w_files]. split_and!; try done. exists e, id. split_and!; try done.
  destruct (ans_index _) as [x|x]; [by apply Ok_inj in Hi as ->|done].
Qed.
End sender.

(** ** The sender of a key: [Sender::new] and [Sender::from_app_cfg] *)
Definition zeros32 : string := "00000000000000000000000000000000".
(** txs_cli.rs *)
Definition to_legacy_address `{DiemAddress} (address : AccountAddress) : outcome AccountAddress :=
  let address_str := addr_to_string address in
  address_str ← (if (32 <=? String.length address_str)%nat then
                   rest ← slice_from 32 address_str;
                   Ok (zeros32 +:+ rest)
                 else Ok address_str);
  context_opt "hex literal" (addr_from_hex_literal ("0x" +:+ address_str)).

Section connect.
Context `{RestNode, TxSdk, DiemAddress, Sha3, AppCfgEnv, WalletCrypto}.
(** [*MODE_0L] of the process, and the key of the mnemonic typed at the prompt *)
Context (mode : NamedChain) (prompt : outcome bytes).

Definition auth_key_of (pri_key : bytes) : bytes := auth_key_ed25519 (ed25519_public pri_key).

(** client_ext.rs: [Client::default], [from_libra_config] *)
Definition from_libra_config (app_cfg : AppCfg) (chain_id_opt : option NamedChain) : st world Z :=
  _ ← st_lift (pick_url chain_id_opt app_cfg);
  ask GetIndex ans_index.
Definition client_default : st world unit :=
  w ← st_get;
  app_cfg ← st_lift (load None (w_files w));
  _ ← from_libra_config app_cfg None;
  mret tt.

Definition sender_new (account_key : bytes) (chain : Z) (client_given use_legacy_address : bool) : st world Sender :=
  _ ← (if client_given then mret tt else client_default);
  _ ← ask GetLedgerInfo ans_ledger_info;
  address ← lookup_originating_address (auth_key_to_string (auth_key_of account_key));
  address ← st_lift (if use_legacy_address then to_legacy_address address else Ok address);
  seq ← get_sequence_number address;
  mret (mk_sender (mk_local address account_key seq) default_baseline_cost chain None).

(** ed25519_private_key_ext.rs: the address is the one derived from the key, not
    looked up. *)
Definition get_account (account_key : bytes) (sequence_number : option Z) : st world LocalAccount :=
  let account_address := auth_key_of account_key in
  sequence_number ← match sequence_number with
                    | Some seq => mret seq
                    | None => _ ← client_default; get_sequence_number account_address
                    end;
  mret (mk_local account_address account_key sequence_number).

Definition from_app_cfg (app_cfg : AppCfg) (profile : option string) : st world Sender :=
  profile ← st_lift (get_profile mode profile app_cfg);
  key ← st_lift match borrow_private_key profile with Ok k => Ok k | _ => prompt end;
  _ ← st_lift (pick_url None app_cfg);
  address ← st_result (unwrap_or (account profile)) (lookup_originating_address (auth_key_to_string (auth_key_of key)));
  metadata ← st_result (context_res "cannot connect to client") (ask GetIndex ans_index);
  seq_num ← st_result (context_res "failed to get sequence number") (get_sequence_number address);
  mret (mk_sender (mk_local address key seq_num) (get_cost (tx_configs app_cfg) None) metadata None).
End connect.

(** ** Specification: what a session has submitted *)
Definition submissions (h : list request) : list SignedTransaction :=
  omap (fun r => match r with PostTransaction t => Some t | _ => None end) h.

Definition next_account (a : LocalAccount) : LocalAccount :=
  mk_local (la_address a) (la_private_key a) (u64_add (la_sequence_number a) 1).
(** The transactions of an account that signs the payloads one after another *)
Fixpoint numbered (a : LocalAccount) (ps : list TransactionPayload) : list (AccountAddress * Z * TransactionPayload) :=
  match ps with
  | [] => []
  | p :: ps' => (la_address a, la_sequence_number a, p) :: numbered (next_account a) ps'
  end.
Definition tx_key (t : SignedTransaction) : AccountAddress * Z * TransactionPayload :=
  (raw_sender (raw_txn t), raw_sequence_number (raw_txn t), tb_payload (raw_body (raw_txn t))).
(** A transaction carries the sender's chain and costs. *)
Definition on_terms (self : Sender) (t : SignedTransaction) : Prop :=
  tb_chain_id (raw_body (raw_txn t)) = chain_id self ∧
  tb_gas_unit_price (raw_body (raw_txn t)) = coin_price_per_unit (s_tx_cost self) ∧
  tb_max_gas_amount (raw_body (raw_txn t)) = max_gas_unit_for_tx (s_tx_cost self).

(** From one session to a later one: exactly the payloads were submitted, one
    transaction each, numbered on from the local account; the files are as
    they were. *)
Definition sends (ps : list TransactionPayload) (s s' : session) : Prop :=
  ∃ ts, submissions (w_history (snd s')) = submissions (w_history (snd s)) ++ ts ∧
    tx_key <$> ts = numbered (local_account (fst s)) ps ∧
    Forall (on_terms (fst s)) ts ∧
    local_account (fst s') = Nat.iter (length ps) next_account (local_account (fst s)) ∧
    s_tx_cost (fst s') = s_tx_cost (fst s) ∧ chain_id (fst s') = chain_id (fst s) ∧
    w_files (snd s') = w_files (snd s).

(** ** Lemmas *)
Lemma numbered_app a ps qs : numbered a (ps ++ qs) = numbered a ps ++ numbered (Nat.iter (length ps) next_account a) qs.
Proof.
  revert a. induction ps as [|p ps IH]; intros a; cbn [app numbered length]; [done|].
  rewrite IH, Nat.iter_succ_r. done.
Qed.

Lemma iter_next_account n a :
  is_u64 (la_sequence_number a) →
  Nat.iter n next_account a = mk_local (la_address a) (la_private_key a) (u64_wrap (la_sequence_number a + Z.of_nat n)).
Proof.
  intros Ha. induction n as [|n IH]; cbn [Nat.iter nat_rect].
  - rewrite Z.add_0_r, u64_wrap_small by done. by destruct a.
  - change (nat_rect _ a (fun _ => next_account) n) with (Nat.iter n next_account a). rewrite IH.
    unfold next_account. cbn. f_equal. unfold u64_add, u64_wrap. rewrite Zplus_mod_idemp_l. f_equal. lia.
Qed.

Lemma numbered_length a ps : length (numbered a ps) = length ps.
Proof. revert a. induction ps as [|p ps IH]; intros a; cbn; [done|]. by rewrite IH. Qed.

(** The i-th payload gets the i-th number. *)
Lemma numbered_lookup a ps i p :
  is_u64 (la_sequence_number a) → ps !! i = Some p →
  numbered a ps !! i = Some (la_address a, u64_wrap (la_sequence_number a + Z.of_nat i), p).
Proof.
  intros Ha Hi. apply list_elem_of_split_length in Hi as (l1 & l2 & -> & ->).
  rewrite numbered_app, lookup_app_r by (by rewrite numbered_length).
  rewrite numbered_length, Nat.sub_diag. cbn [numbered lookup list_lookup]. by rewrite iter_next_account.
Qed.

Lemma sends_trans ps qs s1 s2 s3 : sends ps s1 s2 → sends qs s2 s3 → sends (ps ++ qs) s1 s3.
Proof.
  intros (ts & Hh & Hk & Ht & Ha & Hc & Hi & Hf) (us & Hh' & Hk' & Ht' & Ha' & Hc' & Hi' & Hf').
  exists (ts ++ us). split; [by rewrite Hh', Hh, app_assoc|]. split.
  { by rewrite fmap_app, Hk, Hk', numbered_app, Ha. }
  split. { apply Forall_app. split; [done|]. eapply Forall_impl; [exact Ht'|]. unfold on_terms. by rewrite Hc, Hi. }
  split. { rewrite Ha', Ha, length_app. by rewrite <- Nat.iter_add, Nat.add_comm. }
  split_and!; congruence.
Qed.

Lemma sends_nil_refl s : sends [] s s.
Proof. exists []. rewrite app_nil_r. done. Qed.

(** A request that is no submission *)
Lemma sends_ask `{RestNode} {A : Type} self w r (ans : list request → reply A) :
  (∀ t, r ≠ PostTransaction t) → sends [] (self, w) (self, fst (ask r ans w)).
Proof.
  intros Hr. exists []. cbn. unfold submissions. rewrite omap_app. cbn.
  destruct r; try done. by destruct (Hr t).
Qed.

(** Queries submit nothing. *)
Definition quiet (w w' : world) : Prop :=
  w_files w' = w_files w ∧ submissions (w_history w') = submissions (w_history w).
#[export] Instance quiet_preorder : PreOrder quiet.
Proof. split; [by intros w|]. intros w1 w2 w3 [H1 H2] [H3 H4]. split; congruence. Qed.

Section quiet.
Context `{RestNode}.
Lemma quiet_ask {A : Type} r (ans : list request → reply A) : (∀ t, r ≠ PostTransaction t) → steps quiet (ask r ans).
Proof.
  intros Hr w. split; [done|]. cbn. unfold submissions. rewrite omap_app. cbn.
  destruct r; try by rewrite app_nil_r. by destruct (Hr t).
Qed.
Lemma quiet_view f ty args : steps quiet (get_view f ty args).
Proof. unfold get_view, view_ext. st_steps. by apply quiet_ask. Qed.
Lemma quiet_resource a ty : steps quiet (ask (GetResource a ty) ans_resource).
Proof. by apply quiet_ask. Qed.

Lemma on_snd_sends {A : Type} (m : st world A) (s : session) : steps quiet m → sends [] s (fst (on_snd m s)).
Proof.
  intros Hm. destruct s as [self w]. specialize (Hm w). revert Hm. unfold on_snd.
  destruct (m w) as [w' r]. cbn. intros [Hf Hs]. exists []. rewrite app_nil_r. done.
Qed.
End quiet.
#[export] Hint Resolve quiet_ask quiet_view quiet_resource quiet_preorder : effects.

Lemma sends_address ps s s' : sends ps s s' → la_address (local_account (fst s')) = la_address (local_account (fst s)).
Proof.
  intros (ts & _ & _ & _ & -> & _). induction (length ps) as [|n IH]; [done|]. cbn [Nat.iter nat_rect]. done.
Qed.

Section sending.
Context `{RestNode, TxSdk}.

Lemma sign_payload_run p self w :
  ∃ t, sign_payload p (self, w) =
         ((mk_sender (next_account (local_account self)) (s_tx_cost self) (chain_id self) (response self), w), Ok t) ∧
       tx_key t = (la_address (local_account self), la_sequence_number (local_account self), p) ∧ on_terms self t ∧
       tb_expiration (raw_body (raw_txn t)) = u64_add (now (w_history w)) 100.
Proof.
  unfold sign_payload.
  set (tb := mk_builder _ _ _ _ _). pose proof (sign_law (local_account self) tb) as [H1 H2].
  destruct (sign_with_transaction_builder (local_account self) tb) as [acc t] eqn:E. cbn in H1, H2. exists t.
  unfold tx_key, on_terms. rewrite H1, H2. done.
Qed.

(** A signed transaction is submitted once, whatever the node answers. *)
Lemma submit_sends t self w :
  let '(s', r) := submit t (self, w) in
  fst s' = self ∧ w_files (snd s') = w_files w ∧
  submissions (w_history (snd s')) = submissions (w_history w) ++ [t].
Proof.
  unfold submit, on_snd, mbind, st_bind, ask. cbn.
  destruct (ans_submit (w_history w ++ [PostTransaction t])) as [h|e]; cbn;
    unfold submissions; rewrite !omap_app; cbn; by rewrite ?app_nil_r.
Qed.

Lemma sign_submit_wait_sends p s : sends [p] s (fst (sign_submit_wait p s)).
Proof.
  destruct s as [self w]. destruct (sign_payload_run p self w) as (t & Hs & Hk & Ht & _).
  unfold sign_submit_wait. rewrite (st_bind_run _ _ _ _ _ Hs).
  set (self1 := mk_sender _ _ _ _) in *. pose proof (submit_sends t self1 w) as Hsub.
  assert (Hgoal : ∀ self', local_account self' = next_account (local_account self) →
            s_tx_cost self' = s_tx_cost self → chain_id self' = chain_id self →
            ∀ w', w_files w' = w_files w → submissions (w_history w') = submissions (w_history w) ++ [t] →
            sends [p] (self, w) (self', w')).
  { intros self' Ha Hc Hi w' Hf Hh. exists [t]. cbn. rewrite Hk. split_and!; try done. by apply Forall_singleton. }
  unfold mbind at 1, st_bind at 1. destruct (submit t (self1, w)) as [[self2 w2] r].
  destruct Hsub as (Hfst & Hf & Hh). cbn in Hfst, Hf, Hh. subst self2.
  destruct r as [r|e|m]; cbn; by apply Hgoal.
Qed.

(** The only failures are the node's. *)
Lemma sign_submit_wait_no_panic p s m : snd (sign_submit_wait p s) ≠ Panic m.
Proof.
  destruct s as [self w]. destruct (sign_payload_run p self w) as (t & Hs & _).
  unfold sign_submit_wait. rewrite (st_bind_run _ _ _ _ _ Hs). unfold submit, on_snd, mbind, st_bind, ask. cbn.
  destruct (ans_submit _) as [h|e]; cbn; [|done]. by destruct (ans_wait _).
Qed.

(** Payloads sent one after another, going on after an error *)
Fixpoint send_all (ps : list TransactionPayload) : st session unit :=
  match ps with
  | [] => mret tt
  | p :: ps' => _ ← attempt (sign_submit_wait p); send_all ps'
  end.

Lemma attempt_run {A : Type} (m : st session A) s : (∀ p, snd (m s) ≠ Panic p) → attempt m s = (fst (m s), Ok (snd (m s))).
Proof. unfold attempt. destruct (m s) as [s' [a|e|p]]; cbn; try done. intros Hp. by destruct (Hp p). Qed.

Lemma send_all_sends ps s : sends ps s (fst (send_all ps s)) ∧ snd (send_all ps s) = Ok tt.
Proof.
  revert s. induction ps as [|p ps IH]; intros s; cbn [send_all]; [split; [apply sends_nil_refl|done]|].
  rewrite (st_bind_run _ _ _ _ _ (attempt_run _ _ (sign_submit_wait_no_panic p s))).
  destruct (IH (fst (sign_submit_wait p s))) as [Hs Ho]. split; [|done].
  by apply (sends_trans [p] ps _ _ _ (sign_submit_wait_sends p s)).
Qed.
End sending.

(** ** Lemmas: addresses and function identifiers *)
Lemma fmt_hex_app alpha bs cs : fmt_hex alpha (bs ++ cs) = fmt_hex alpha bs +:+ fmt_hex alpha cs.
Proof. induction bs as [|b bs IH]; cbn; [done|]. by rewrite IH. Qed.

Lemma to_legacy_address_ok `{DiemAddress} a :
  addr_wf a → to_legacy_address a = Ok (repeat 0 16 ++ drop 16 a).
Proof.
  intros [Hl Hb]. unfold to_legacy_address. rewrite addr_to_string_law by done. unfold fmt_02x.
  assert (Ha : fmt_hex 97 a = fmt_hex 97 (take 16 a) +:+ fmt_hex 97 (drop 16 a)) by (by rewrite <- fmt_hex_app, take_drop).
  assert (Hh : String.length (fmt_hex 97 (take 16 a)) = 32%nat) by (rewrite fmt_hex_length, length_take; lia).
  rewrite fmt_hex_length, Hl. cbn [Nat.leb Nat.mul Nat.add]. rewrite Ha, slice_from_app by done.
  cbn [mbind outcome_bind].
  change zeros32 with (fmt_hex 97 (repeat 0 16)). rewrite <- fmt_hex_app.
  assert (Hw : addr_wf (repeat 0 16 ++ drop 16 a)).
  { split; [rewrite length_app, repeat_length, length_drop; lia|]. apply Forall_app.
    split; [by apply Forall_repeat|by apply Forall_drop]. }
  by rewrite (addr_from_full_literal _ Hw : addr_from_hex_literal (_ +:+ fmt_hex 97 _) = _).
Qed.

Lemma split_colons w s :
  no_char (Ascii.eqb ":") w = true → split_str_go "::" (w +:+ "::" +:+ s) 0 = w :: split_str_go "::" s 0.
Proof.
  induction w as [|c w IH]; intros Hw; [done|]. cbn [no_char] in Hw.
  apply andb_true_iff in Hw as [Hc Hw].
  change (String c w +:+ "::" +:+ s) with (String c (w +:+ "::" +:+ s)). cbn [split_str_go]. unfold starts_with. cbn [strip_prefix].
  destruct (Ascii.eqb ":" c); [done|]. by rewrite (IH Hw).
Qed.
Lemma split_no_colon w : no_char (Ascii.eqb ":") w = true → split_str_go "::" w 0 = [w].
Proof.
  induction w as [|c w IH]; intros Hw; [done|]. cbn [no_char] in Hw.
  apply andb_true_iff in Hw as [Hc Hw]. cbn [split_str_go]. unfold starts_with. cbn [strip_prefix].
  destruct (Ascii.eqb ":" c); [done|]. by rewrite (IH Hw).
Qed.

(** A part of a function id: no white space at its ends, no colon *)
Definition id_part (s : string) : Prop := trim s = s ∧ no_char (Ascii.eqb ":") s = true.

Section ids.
Context `{RestNode, TxSdk, DiemAddress}.

Lemma parse_function_id_ok a m f x m' f' :
  id_part a → id_part m → id_part f →
  addr_from_hex_literal a = Some x → identifier_new m = Ok m' → identifier_new f = Ok f' →
  parse_function_id (a +:+ "::" +:+ m +:+ "::" +:+ f) = Ok (x, m', f').
Proof.
  intros [Ha Ha'] [Hm Hm'] [Hf Hf'] Hx Hy Hz. unfold parse_function_id, split_str.
  rewrite !split_colons, split_no_colon by done. cbn [fmap list_fmap]. rewrite Ha, Hm, Hf, Hx, Hy, Hz. done.
Qed.
End ids.

(** ** Properties *)

(** C22: whatever the node answers, each payload sent is submitted exactly once,
    in order, by the sender's account and on its chain and costs, and the
    transactions are numbered one after another from the account's sequence
    number: no number is used twice, and an error does not give its number
    back. *)
Theorem send_all_spec `{RestNode, TxSdk} ps self w :
  is_u64 (la_sequence_number (local_account self)) →
  let s' := fst (send_all ps (self, w)) in
  ∃ ts, submissions (w_history (snd s')) = submissions (w_history w) ++ ts ∧ length ts = length ps ∧
    (∀ i p, ps !! i = Some p → ∃ t, ts !! i = Some t ∧ on_terms self t ∧
       tx_key t = (la_address (local_account self),
                   u64_wrap (la_sequence_number (local_account self) + Z.of_nat i), p)) ∧
    la_sequence_number (local_account (fst s')) =
      u64_wrap (la_sequence_number (local_account self) + Z.of_nat (length ps)) ∧
    snd (send_all ps (self, w)) = Ok tt.
Proof.
  intros Ha s'. destruct (send_all_sends ps (self, w)) as [(ts & Hh & Hk & Ht & Hacc & _) Ho]. cbn in Hh, Hk, Ht, Hacc.
  fold s' in Hh, Hacc. exists ts. split; [done|].
  assert (Hlen : length ts = length ps) by (by rewrite <- (length_fmap tx_key ts), Hk, numbered_length).
  split; [done|]. split; [|split; [by rewrite Hacc, iter_next_account|done]].
  intros i p Hi. pose proof (numbered_lookup _ _ _ _ Ha Hi) as Hn. rewrite <- Hk, list_lookup_fmap in Hn.
  destruct (ts !! i) as [t|] eqn:E; [|done]. exists t. split; [done|].
  split; [by apply (Forall_lookup_1 _ ts i)|]. by apply (inj Some) in Hn.
Qed.

(** a transfer of whole coins submits one transaction, for exactly that
    many million units; an estimate submits none.  An estimate does move the
    local sequence number, past the one the chain expects next. *)
Theorem transfer_spec `{RestNode, TxSdk} to n estimate_only self w :
  0 ≤ n → n * 10 ^ ONCHAIN_DECIMAL_PRECISION < 2 ^ 53 →
  let s' := fst (transfer to (f64_of_int n) estimate_only (self, w)) in
  local_account (fst s') = next_account (local_account self) ∧ w_files (snd s') = w_files w ∧
  if estimate_only then submissions (w_history (snd s')) = submissions (w_history w)
  else sends [ol_account_transfer to (n * 10 ^ ONCHAIN_DECIMAL_PRECISION)] (self, w) s'.
Proof.
  intros Hn Hlt s'. subst s'. unfold transfer. rewrite cast_whole_coins by done. cbn [encode]. destruct estimate_only.
  - unfold estimate. destruct (sign_payload_run (ol_account_transfer to (n * 10 ^ ONCHAIN_DECIMAL_PRECISION)) self w)
      as (t & Hs & _). unfold mbind, st_bind. rewrite Hs. cbn.
    destruct (ans_simulate _) as [res|e]; cbn; [destruct res; cbn|];
      unfold submissions; rewrite omap_app; cbn; by rewrite app_nil_r.
  - pose proof (sign_submit_wait_sends (ol_account_transfer to (n * 10 ^ ONCHAIN_DECIMAL_PRECISION)) (self, w)) as Hs.
    unfold mbind, st_bind, st_result. destruct (sign_submit_wait _ (self, w)) as [s1 r]. cbn [fst] in Hs.
    assert (Hg : local_account (fst s1) = next_account (local_account self) ∧ w_files (snd s1) = w_files w).
    { destruct Hs as (ts & _ & _ & _ & Hacc & _ & _ & Hf). done. }
    destruct Hg. by destruct r; cbn.
Qed.

(** ** Witnesses: a node that takes every other transaction *)
#[export] Instance sample_sdk : TxSdk.
Proof.
  refine {|
    sign_with_transaction_builder a b :=
      (mk_local (la_address a) (la_private_key a) (u64_add (la_sequence_number a) 1),
       mk_signed (mk_raw (la_address a) (la_sequence_number a) b) (la_private_key a));
    identifier_new s := Ok s;
    parse_transaction_arguments s := Ok [ArgBytes (str_bytes s)];
    private_key_from_encoded_string s := Ok (str_bytes s);
    named_chain_id c := match c with MAINNET => 1 | TESTNET => 2 | TESTING => 4 | OtherChain i => i end
  |}.
  done.
Defined.

Definition sample_node (view : list request → reply (list json)) (resource : list request → reply (option json)) : RestNode := {|
  now _ := 1700000000;
  ans_ledger_info _ := inl tt;
  ans_index _ := inl 1;
  ans_view := view;
  ans_resource := resource;
  ans_account _ := inr "not found"%string;
  ans_submit h := if Nat.even (length h) then inl [1] else inr "mempool is full"%string;
  ans_wait _ := inl (mk_on_chain [1] StatusSuccess);
  ans_simulate _ := inl [mk_user_tx true 7];
  entry_function_id_from_str s := Ok s;
  parse_type_tags s := Ok [s];
  account_sequence_number _ := Ok 5;
  address_from_value v := match v with JString s => context_opt "not an address" (ref_from_str s) | _ => Err "not an address" end
|}.
#[export] Instance quiet_node : RestNode := sample_node (fun _ => inl []) (fun _ => inl None).

Definition sample_sender : Sender := mk_sender (mk_local addr_ONE (repeat 7 32) 5) (mk_tx_cost 1000 100 5000) 1 None.
Definition empty_world : world := mk_world [] ∅.

Lemma send_all_spec_witness :
  let ps := [slow_wallet_user_set_slow; diem_governance_trigger_epoch; vouch_txs_revoke addr_ONE] in
  is_u64 (la_sequence_number (local_account sample_sender)) ∧
  let s' := fst (send_all ps (sample_sender, empty_world)) in
  ∃ ts, submissions (w_history (snd s')) = submissions [] ++ ts ∧ length ts = length ps ∧
    (∀ i p, ps !! i = Some p → ∃ t, ts !! i = Some t ∧ on_terms sample_sender t ∧
       tx_key t = (addr_ONE, u64_wrap (5 + Z.of_nat i), p)) ∧
    la_sequence_number (local_account (fst s')) = u64_wrap (5 + 3) ∧
    snd (send_all ps (sample_sender, empty_world)) = Ok tt.
Proof.
  intros ps. split; [by apply (bool_decide_unpack _)|].
  apply (send_all_spec ps sample_sender empty_world). by apply (bool_decide_unpack _).
Defined.

(** Of three transactions the first is refused; the others are numbered on. *)
Example send_all_numbers :
  let ps := [slow_wallet_user_set_slow; diem_governance_trigger_epoch; vouch_txs_revoke addr_ONE] in
  let h := w_history (snd (fst (send_all ps (sample_sender, empty_world)))) in
  ((λ t, raw_sequence_number (raw_txn t)) <$> submissions h) = [5; 6; 7] ∧ length h = 5%nat.
Proof. vm_compute. done. Qed.

Lemma transfer_spec_witness :
  0 ≤ 12 ∧ 12 * 10 ^ ONCHAIN_DECIMAL_PRECISION < 2 ^ 53 ∧
  let s' := fst (transfer addr_ONE (f64_of_int 12) false (sample_sender, empty_world)) in
  local_account (fst s') = next_account (local_account sample_sender) ∧ w_files (snd s') = w_files empty_world ∧
  sends [ol_account_transfer addr_ONE (12 * 10 ^ ONCHAIN_DECIMAL_PRECISION)] (sample_sender, empty_world) s'.
Proof.
  split; [done|]. split; [done|]. by apply (transfer_spec addr_ONE 12 false).
Defined.

Example to_legacy_address_sample :
  to_legacy_address (repeat 171 32) = Ok (repeat 0 16 ++ repeat 171 16).
Proof. vm_compute. reflexivity. Qed.
Example parse_function_id_sample :
  parse_function_id "0x1::coin:: transfer" = Ok (addr_ONE, "coin"%string, "transfer"%string) ∧
  parse_function_id "0x1::coin" = Err "Invalid function id".
Proof. vm_compute. done. Qed.
