(* ===== verification/QueryCli.v ===== *)
(** * tools/query: the query tool

    query_type.rs, query_cli.rs and what they use of account_queries.rs.  A run
    asks the node and returns the JSON value that is printed; the types of the
    diem API stay behind an interface. *)
From Stdlib Require Import ZArith Lia.
From stdpp Require Import base option list strings gmap.
From S2P Require Import Prelude RustStr Json F64 Effects Bytes FileSystem MoveTypes Compare GasCoin HashValue.
From S2P Require Import ValidatorKeys NetworkPlaylist AppCfg Node Wallet TxSender.

Open Scope list_scope.
Open Scope Z_scope.

(** [ValidatorConfig], and of a [Transaction] what is printed *)
Record ValidatorConfig := mk_val_config {
  consensus_public_key : bytes;
  vc_validator_addresses : bytes;
  vc_fullnode_addresses : bytes;
  validator_index : Z
}.
Record Transaction := mk_transaction { tx_timestamp : Z; tx_version : option Z; tx_is_pending : bool }.

(** What else the node and the debugger answer, and the diem types as JSON *)
Class QueryNode := {
  ans_val_config : list request → reply ValidatorConfig;
  ans_events : list request → reply (list json);
  ans_transactions : list request → reply (list Transaction);
  ans_tx_schedule : list request → reply unit;
  debugger_client : outcome unit;
  ans_latest_version : list request → reply Z;
  ans_annotation : list request → reply (option string);
  decode_network_addresses : bytes → outcome (list string);
  json_of_f64 : f64 → json;
  json_of_address : AccountAddress → json
}.

Module QueryType.
Inductive QueryType :=
| Balance (account : AccountAddress)
| ValConfig (account : AccountAddress)
| Epoch
| Resource (account : AccountAddress) (resource_path_string : string)
| View (function_id : string) (type_args args : option string)
| LookupAddress (auth_key : bytes)
| BlockHeight
| SyncDelay
| Events (account : AccountAddress) (withdrawn_or_deposited : bool) (seq_start : option Z)
| Txs (account : AccountAddress) (txs_height txs_count : option Z) (txs_type : option string)
| ComWalletMigrated (account : AccountAddress)
| ComWalletSigners (account : AccountAddress)
| ComWalletPendTransactions (account : AccountAddress)
| Annotate (account : AccountAddress)
| VouchReport (account : AccountAddress).
End QueryType.
Import QueryType.

Definition json_u64 (n : Z) : json := JNumber (show_uint n).
Definition json_opt {A : Type} (f : A → json) (o : option A) : json := match o with Some a => f a | None => JNull end.

Section queries.
Context `{RestNode, QueryNode, DiemAddress, TxSdk}.

(** ** account_queries.rs *)
Definition get_val_config (account : AccountAddress) : st world ValidatorConfig :=
  ask (GetResource account "0x1::stake::ValidatorConfig") ans_val_config.
Definition get_events (account : AccountAddress) (withdrawn_or_deposited : bool) (seq_start : option Z) : st world (list json) :=
  let direction := if withdrawn_or_deposited then "withdraw_events"%string else "deposit_events"%string in
  ask (GetEvents account "0x1::coin::CoinStore<0x1::libra_coin::LibraCoin>" direction seq_start) ans_events.
Definition get_transactions (account : AccountAddress) (txs_height txs_count : option Z) (txs_type : option string)
    : st world (list Transaction) :=
  ask (GetTransactions account txs_height txs_count) ans_transactions.
Definition community_wallet_scheduled_transactions (account : AccountAddress) : st world unit :=
  ask (GetResource account "0x1::donor_voice::TxSchedule") ans_tx_schedule.

(** ** The derived serializers *)
Definition balance_json (d : LibraBalanceDisplay) : json :=
  JObject [("unlocked", json_of_f64 (d_unlocked d)); ("total", json_of_f64 (d_total d))]%string.
Definition tx_json (tx : Transaction) : json :=
  JObject [("timestamp", json_u64 (tx_timestamp tx)); ("version", json_opt json_u64 (tx_version tx));
           ("is_pending", JBool (tx_is_pending tx))]%string.
Definition report_json (r : AccountVouchReportData) : json :=
  JObject [("account", JString (rp_account r)); ("cached_score", json_opt json_u64 (cached_score r));
           ("fresh_score", json_opt json_u64 (fresh_score r));
           ("max_depth_reached", json_opt json_u64 (max_depth_reached r));
           ("accounts_processed", json_opt json_u64 (accounts_processed r));
           ("max_vouches_by_score", json_opt json_u64 (max_vouches_by_score r));
           ("remaining_vouches_available", json_opt json_u64 (remaining_vouches_available r));
           ("errors", JArray (JString <$> rp_errors r))]%string.
Definition val_config_json (res : ValidatorConfig) (validator fullnode : list string) : json :=
  JObject [("consensus_public_key", JArray (json_u64 <$> consensus_public_key res));
           ("validator_network_addresses", JArray (JString <$> validator));
           ("fullnode_network_addresses", JArray (JString <$> fullnode));
           ("validator_index", json_u64 (validator_index res))]%string.

(** ** query_type.rs *)
Definition query_to_json (self : QueryType) : st world json :=
  match self with
  | Balance account => res ← get_account_balance_libra account; mret (balance_json (scaled res))
  | View function_id type_args args =>
      res ← get_view function_id type_args args;
      mret (JObject [("body"%string, res)])
  | Epoch => num ← get_epoch; mret (JObject [("epoch"%string, json_u64 num)])
  | LookupAddress auth_key =>
      addr ← lookup_originating_address (auth_key_to_string auth_key);
      mret (JObject [("address"%string, json_of_address addr)])
  | Resource account resource_path_string =>
      res ← ask (GetResource account resource_path_string) ans_resource;
      st_lift (context_opt "no resource found at address" res)
  | ValConfig account =>
      res ← get_val_config account;
      validator ← st_lift (context_res "can't BCS decode the validator network address"
                             (decode_network_addresses (vc_validator_addresses res)));
      fullnode ← st_lift (context_res "can't BCS decode the fullnode network address"
                            (decode_network_addresses (vc_fullnode_addresses res)));
      mret (val_config_json res validator fullnode)
  | BlockHeight => height ← get_height; mret (JObject [("BlockHeight"%string, json_u64 height)])
  | Events account withdrawn_or_deposited seq_start =>
      res ← get_events account withdrawn_or_deposited seq_start;
      mret (JObject [("events"%string, JArray res)])
  | Txs account txs_height txs_count txs_type =>
      res ← get_transactions account txs_height txs_count txs_type;
      mret (JObject [("transactions"%string, JArray (tx_json <$> res))])
  | ComWalletMigrated account =>
      res ← is_community_wallet_migrated account;
      mret (JObject [("migrated"%string, res)])
  | ComWalletSigners account =>
      _ ← community_wallet_signers account;
      mret (JObject [("signers", JString "None")]%string)
  | ComWalletPendTransactions account =>
      _ ← community_wallet_scheduled_transactions account;
      mret (JObject [("pending_transactions", JString "None")]%string)
  | Annotate account =>
      _ ← st_lift debugger_client;
      version ← ask GetLatestVersion ans_latest_version;
      blob ← ask (AnnotateState account version) ans_annotation;
      pretty ← st_lift (context_opt "cannot find account state" blob);
      mret (JString pretty)
  | VouchReport account => report_data ← account_vouch_report account; mret (report_json report_data)
  | SyncDelay => st_lift (Err "Not implemented")
  end.
End queries.

(** ** query_cli.rs *)
Record QueryCli := mk_query_cli { qc_subcommand : QueryType; qc_config_path : option path; qc_url : option Url }.

Section cli.
Context `{RestNode, QueryNode, DiemAddress, TxSdk, AppCfgEnv}.

Definition query_client (self : QueryCli) : st world unit :=
  match qc_url self, qc_config_path self with
  | Some u, _ => mret tt
  | None, Some p =>
      w ← st_get;
      app_cfg ← st_lift (load (Some p) (w_files w));
      _ ← from_libra_config app_cfg None;
      mret tt
  | None, None => client_default
  end.
(** The value that is printed *)
Definition query_run (self : QueryCli) : st world json :=
  _ ← query_client self;
  query_to_json (qc_subcommand self).
End cli.

(** ** Specification *)
Section answers.
Context `{RestNode, QueryNode, DiemAddress}.

(** A view whose first value is the text of [n] *)
Definition answers_number (h : list request) (n : Z) : Prop :=
  ∃ s l, ans_view h = inl (JString s :: l) ∧ parse_u64 s = Ok n.

(** What is printed, from the answer to the last request *)
Definition printed (q : QueryType) (h : list request) (v : json) : Prop :=
  match q with
  | Balance _ => ∃ us ts u t, ans_view h = inl [JString us; JString ts] ∧ parse_u64 us = Ok u ∧ parse_u64 ts = Ok t ∧
      v = JObject [("unlocked", json_of_f64 (cast_coin_to_decimal u)); ("total", json_of_f64 (cast_coin_to_decimal t))]%string
  | ValConfig _ => ∃ c vs fs, ans_val_config h = inl c ∧ decode_network_addresses (vc_validator_addresses c) = Ok vs ∧
      decode_network_addresses (vc_fullnode_addresses c) = Ok fs ∧ v = val_config_json c vs fs
  | Epoch => ∃ n, answers_number h n ∧ v = JObject [("epoch"%string, json_u64 n)]
  | BlockHeight => ∃ n, answers_number h n ∧ v = JObject [("BlockHeight"%string, json_u64 n)]
  | Resource _ _ => ans_resource h = inl (Some v)
  | View _ _ _ => ∃ l, ans_view h = inl l ∧ v = JObject [("body"%string, JArray l)]
  | LookupAddress _ => ∃ x l a, ans_view h = inl (x :: l) ∧ address_from_value x = Ok a ∧
      v = JObject [("address"%string, json_of_address a)]
  | SyncDelay => False
  | Events _ _ _ => ∃ l, ans_events h = inl l ∧ v = JObject [("events"%string, JArray l)]
  | Txs _ _ _ _ => ∃ l, ans_transactions h = inl l ∧ v = JObject [("transactions"%string, JArray (tx_json <$> l))]
  | ComWalletMigrated _ => ∃ l, ans_view h = inl l ∧ v = JObject [("migrated"%string, JArray l)]
  | ComWalletSigners _ => (∃ l, ans_view h = inl l) ∧ v = JObject [("signers", JString "None")]%string
  | ComWalletPendTransactions _ => ans_tx_schedule h = inl tt ∧ v = JObject [("pending_transactions", JString "None")]%string
  | Annotate _ => ∃ s, ans_annotation h = inl (Some s) ∧ v = JString s
  | VouchReport _ => ∃ r, v = report_json r ∧
      (rp_errors r = [] ↔ is_Some (cached_score r) ∧ is_Some (fresh_score r) ∧ is_Some (max_vouches_by_score r) ∧
                           is_Some (remaining_vouches_available r))
  end.
End answers.

(** ** Lemmas *)

(** Requests are added, none of them a transaction, and the files stay. *)
Definition reads (w w' : world) : Prop := quiet w w' ∧ asked w w'.
#[export] Instance reads_preorder : PreOrder reads.
Proof. split; [by intros w; split|]. intros w1 w2 w3 [H1 H2] [H3 H4]. split; by etrans. Qed.

Section lemmas.
Context `{RestNode, QueryNode, DiemAddress, TxSdk, AppCfgEnv}.

Lemma reads_ask {A : Type} r (ans : list request → reply A) : (∀ t, r ≠ PostTransaction t) → steps reads (ask r ans).
Proof. intros Hr w. split; [by apply quiet_ask|by apply asked_ask]. Qed.
#[local] Hint Extern 1 (steps reads (ask _ _)) => apply reads_ask; intros ?; discriminate : effects.
Ltac reads := repeat (st_steps; match goal with |- steps _ (match ?x with _ => _ end) => destruct x end); st_steps.

Lemma reads_view_ext f ty args : steps reads (view_ext f ty args).
Proof. unfold view_ext. st_steps. Qed.
#[local] Hint Resolve reads_view_ext reads_preorder : effects.
Lemma reads_account_view m f a : steps reads (account_view m f a).
Proof. unfold account_view. st_steps. Qed.
#[local] Hint Resolve reads_account_view : effects.
Lemma reads_u64_view m f a : steps reads (u64_view m f a).
Proof. unfold u64_view. st_steps. Qed.
#[local] Hint Resolve reads_u64_view : effects.
Lemma reads_report a : steps reads (account_vouch_report a).
Proof.
  unfold account_vouch_report, page_rank_get_cached_score, page_rank_calculate_score, vouch_limits_calculate_score_limit,
    vouch_limits_get_vouch_limit. reads.
Qed.

Lemma reads_query q : steps reads (query_to_json q).
Proof.
  destruct q; cbn [query_to_json]; (solve [unfold get_account_balance_libra, get_val_config, get_events,
    get_transactions, community_wallet_scheduled_transactions, is_community_wallet_migrated, community_wallet_signers,
    get_epoch, get_height, get_view, lookup_originating_address; reads]).
Qed.
Lemma reads_client self : steps reads (query_client self).
Proof.
  unfold query_client, client_default, from_libra_config. destruct (qc_url self), (qc_config_path self); [st_steps..| |];
    (apply steps_bind; [apply _|by intros w; cbn|intros w]); reads.
Qed.

(** The last answer is the one given to the whole history. *)
Lemma ask_ok {A : Type} r (ans : list request → reply A) w w' a : ask r ans w = (w', Ok a) → ans (w_history w') = inl a.
Proof. unfold ask. intros [= <- Ha]. cbn. destruct (ans _); [by apply Ok_inj in Ha as ->|done]. Qed.
Lemma view_ext_answer f ty args w w' v :
  view_ext f ty args w = (w', Ok v) → ∃ l, v = JArray l ∧ ans_view (w_history w') = inl l.
Proof.
  unfold view_ext. intros Hv. apply st_bind_ok in Hv as (w1 & f' & _ & Hv).
  apply st_bind_ok in Hv as (w2 & t & _ & Hv). apply st_bind_ok in Hv as (w3 & l & Ha & [= <- <-]).
  exists l. split; [done|]. by eapply ask_ok.
Qed.
Lemma account_view_answer m f a w w' l : account_view m f a w = (w', Ok l) → ans_view (w_history w') = inl l.
Proof. unfold account_view. intros Hv. apply st_bind_ok in Hv as (w1 & f' & _ & Hv). by eapply ask_ok. Qed.

Lemma expect_opt_ok {A : Type} msg (o : option A) a : expect_opt msg o = Ok a → o = Some a.
Proof. destruct o; [by intros ->%Ok_inj|done]. Qed.

(** The first string of a view, read as a number *)
Lemma number_answer f msg w w' n :
  (res ← get_view f None None;
   value ← st_lift (first_string res);
   s ← st_lift (expect_opt msg value);
   st_lift (parse_u64 s)) w = (w', Ok n) → answers_number (w_history w') n.
Proof.
  intros Hn. apply st_bind_ok in Hn as (w1 & v & Hv & Hn). apply view_ext_answer in Hv as (l & -> & Ha).
  apply st_bind_ok in Hn as (w2 & o & [= <- Ho] & Hn). apply st_bind_ok in Hn as (w3 & s & [= <- Hs] & [= <- Hp]).
  apply expect_opt_ok in Hs as ->. unfold first_string in Ho. cbn [vec_from_value] in Ho.
  destruct l as [|x l]; [done|]. cbn in Ho. destruct x as [| | |t| |]; cbn in Ho; try done.
  destruct (mapM string_from_value l) as [ts| |]; cbn in Ho; [|done..]. injection Ho as ->.
  by exists s, l.
Qed.

Lemma balance_answer l b :
  balance_from_value l = Ok b →
  ∃ us ts, l = [JString us; JString ts] ∧ parse_u64 us = Ok (sb_unlocked b) ∧ parse_u64 ts = Ok (sb_total b).
Proof.
  destruct l as [|x [|y []]]; try done. cbn [balance_from_value]. intros Hb.
  apply bind_ok in Hb as (us & Hx & Hb). apply bind_ok in Hb as (u & Hu & Hb). apply bind_ok in Hb as (ts & Hy & Hb).
  apply bind_ok in Hb as (t & Ht & Hb). apply Ok_inj in Hb as <-. destruct x, y; try done.
  apply Ok_inj in Hx as ->, Hy as ->. by exists us, ts.
Qed.

Lemma query_answer q w w' v : query_to_json q w = (w', Ok v) → printed q (w_history w') v.
Proof.
  destruct q; cbn [query_to_json printed]; intros Hq.
  - apply st_bind_ok in Hq as (w1 & b & Hb & [= <- <-]). apply st_bind_ok in Hb as (w2 & l & Ha & [= <- Hb]).
    apply account_view_answer in Ha. apply balance_answer in Hb as (us & ts & -> & Hu & Ht).
    by exists us, ts, (sb_unlocked b), (sb_total b).
  - apply st_bind_ok in Hq as (w1 & c & Hc & Hq). apply ask_ok in Hc.
    apply st_bind_ok in Hq as (w2 & vs & [= <- Hv] & Hq). apply st_bind_ok in Hq as (w3 & fs & [= <- Hf] & [= <- <-]).
    exists c, vs, fs. destruct (decode_network_addresses (vc_validator_addresses c)), (decode_network_addresses (vc_fullnode_addresses c)); done.
  - apply st_bind_ok in Hq as (w1 & n & Hn & [= <- <-]). apply number_answer in Hn. by exists n.
  - apply st_bind_ok in Hq as (w1 & r & Hr & [= <- Hv]). apply ask_ok in Hr. by apply context_opt_ok in Hv as ->.
  - apply st_bind_ok in Hq as (w1 & r & Hr & [= <- <-]). apply view_ext_answer in Hr as (l & -> & Ha). by exists l.
  - apply st_bind_ok in Hq as (w1 & a & Hl & [= <- <-]). apply st_bind_ok in Hl as (w2 & f & _ & Hl).
    apply st_bind_ok in Hl as (w3 & l & Ha & Hl). apply ask_ok in Ha.
    apply st_bind_ok in Hl as (w4 & x & [= <- Hx] & [= <- Hp]). apply expect_opt_ok in Hx.
    destruct l as [|y l]; [done|]. injection Hx as ->. by exists x, l, a.
  - apply st_bind_ok in Hq as (w1 & n & Hn & [= <- <-]). apply number_answer in Hn. by exists n.
  - done.
  - apply st_bind_ok in Hq as (w1 & l & Ha & [= <- <-]). apply ask_ok in Ha. by exists l.
  - apply st_bind_ok in Hq as (w1 & l & Ha & [= <- <-]). apply ask_ok in Ha. by exists l.
  - apply st_bind_ok in Hq as (w1 & r & Hr & [= <- <-]). apply st_bind_ok in Hr as (w2 & l & Ha & [= <- <-]).
    apply account_view_answer in Ha. by exists l.
  - apply st_bind_ok in Hq as (w1 & r & Hr & [= <- <-]). apply st_bind_ok in Hr as (w2 & l & Ha & [= <- <-]).
    apply account_view_answer in Ha. split; [by exists l|done].
  - apply st_bind_ok in Hq as (w1 & [] & Ha & [= <- <-]). apply ask_ok in Ha. done.
  - apply st_bind_ok in Hq as (w1 & [] & _ & Hq). apply st_bind_ok in Hq as (w2 & n & _ & Hq).
    apply st_bind_ok in Hq as (w3 & o & Ha & Hq). apply ask_ok in Ha.
    apply st_bind_ok in Hq as (w4 & s & [= <- Hs] & [= <- <-]). apply context_opt_ok in Hs as ->. by exists s.
  - apply st_bind_ok in Hq as (w1 & r & Hr & [= <- <-]). apply report_errors in Hr as [Hr _]. by exists r.
Qed.
End lemmas.


(** ** Witness *)
#[export] Instance sample_query : QueryNode := {|
  ans_val_config _ := inl (mk_val_config [1; 2] [3] [] 0);
  ans_events _ := inl [];
  ans_transactions _ := inl [mk_transaction 1700000000 (Some 9) false; mk_transaction 0 None true];
  ans_tx_schedule _ := inr "not found"%string;
  debugger_client := Ok tt;
  ans_latest_version _ := inl 12;
  ans_annotation _ := inl None;
  decode_network_addresses bs := Ok (show_uint <$> bs);
  json_of_f64 x := JNumber (show_uint (f64_to_u64 x));
  json_of_address a := JString (fmt_02x a)
|}.
(** A node whose views give two numbers *)
Definition balance_node : RestNode := sample_node (fun _ => inl [JString "3000000"; JString "7000000"]) (fun _ => inl None).
Section balance_witness.
#[local] Existing Instance balance_node.
Definition sample_query_run (q : QueryType) : world * outcome json :=
  query_run (mk_query_cli q None (Some "http://a/"%string)) empty_world.

Example balance_is_scaled :
  snd (sample_query_run (Balance addr_ONE)) = Ok (JObject [("unlocked", JNumber "3"); ("total", JNumber "7")]%string).
Proof. vm_compute. reflexivity. Qed.
Example epoch_is_first :
  snd (sample_query_run Epoch) = Ok (JObject [("epoch", JNumber "3000000")]%string) ∧
  is_err (snd (sample_query_run (Annotate addr_ONE))) = true ∧ is_err (snd (sample_query_run SyncDelay)) = true.
Proof. vm_compute. done. Qed.

End balance_witness.
