(* ===== verification/TxsCommunity.v ===== *)
(** * tools/txs/src/txs_cli_community.rs: the commands of a community wallet

    Each command is a payload that is sent; the batch goes through a file of
    payments, asks the node about each recipient, proposes what is to be
    proposed, and writes the file back with the outcomes. *)
From Stdlib Require Import ZArith Lia Ascii.
From stdpp Require Import base option list strings gmap.
From S2P Require Import Prelude RustStr Json Effects Bytes FileSystem MoveTypes.
From S2P Require Import F64 GasCoin ReauthTally AppCfg Node EntryCalls Payloads TxSender.

Open Scope list_scope.
Open Scope Z_scope.

(** ** Data *)
Record ProposePay := mk_pay {
  recipient : string;
  parsed : option AccountAddress;
  pp_amount : Z;
  pp_description : string;
  is_advance : bool;
  is_slow : option bool;
  proposed : option bool;
  approved : option bool;
  voters : option (list AccountAddress);
  error : option string;
  note : option string
}.
#[export] Instance propose_pay_eq_dec : EqDecision ProposePay. Proof. solve_decision. Defined.

Record BatchTx := mk_batch {
  community_wallet : AccountAddress;
  file : path;
  out : option path;
  check : bool
}.

(** The commands with their arguments *)
Inductive CommunityTxs :=
| GovInit (admins : list AccountAddress) (num_signers : Z)
| GovOffer (admins : list AccountAddress) (num_signers : Z)
| GovClaim (wallet : AccountAddress)
| GovCage (num_signers : Z)
| GovAdmin (wallet admin : AccountAddress) (drop : option bool) (n : Z) (epochs : option Z)
| Propose (wallet payee : AccountAddress) (amount : Z) (description : string) (unlocked_advance : bool)
| Batch (tx : BatchTx)
| Veto (wallet : AccountAddress) (proposal_id : Z)
| Reauthorize (wallet : AccountAddress).

(** [to_canonical_string]; serde_json at [Vec<ProposePay>] *)
Class CommunityCrates := {
  canonical_string : AccountAddress → string;
  pays_from_str : string → outcome (list ProposePay);
  pays_to_string : list ProposePay → outcome string
}.

(** A computation on the files of a session *)
Definition on_files {A : Type} (m : io A) : st session A := on_snd (fun w =>
  let '(fs, r) := m (w_files w) in (mk_world (w_history w) fs, r)).

Section community.
Context `{RestNode, TxSdk, DiemAddress, CommunityCrates}.

(** ** The pending and approved ballots of the wallet, by recipient *)
Definition obj_at (key : string) (v : option json) : option json := l ← v ≫= as_object; obj_get key l.
Definition json_array (v : option json) : list json := default [] (v ≫= as_array).
Definition ballot_voters (prop : json) : list AccountAddress :=
  omap (fun e => as_str e ≫= addr_from_str) (json_array (obj_at "votes" (Some prop))).
Definition ballot_entry (ballot : json) : option (AccountAddress * ProposePay) :=
  prop ← obj_at "tally_type" (Some ballot);
  _ ← as_object prop;
  data ← obj_at "proposal_data" (Some prop);
  recipient_str ← obj_at "payee" (Some data) ≫= as_str;
  amount_str ← obj_at "value" (Some data) ≫= as_str;
  recipient ← addr_from_str recipient_str;
  amount ← value_of (parse_u64 amount_str);
  let is_approved := default false (obj_at "approved" (Some prop) ≫= as_bool) in
  Some (recipient, mk_pay (canonical_string recipient) (Some recipient) amount "debugging" false None None
                     (Some is_approved) (Some (ballot_voters prop)) None None).
Definition insert_ballot (m : gmap AccountAddress ProposePay) (ballot : json) : gmap AccountAddress ProposePay :=
  match ballot_entry ballot with Some (k, v) => <[k := v]> m | None => m end.
Definition pending_or_approved (ballots : json) : gmap AccountAddress ProposePay :=
  match obj_at "vote" (Some ballots) with
  | Some v =>
      foldl insert_ballot ∅ (json_array (obj_at "ballots_pending" (Some v)) ++
                             json_array (obj_at "ballots_approved" (Some v)))
  | None => ∅
  end.

(** ** The batch *)
Definition scaled_amount (inst : ProposePay) : Z := cast_decimal_to_coin (f64_of_int (pp_amount inst)).
Definition with_parsed (a : AccountAddress) (i : ProposePay) : ProposePay :=
  mk_pay (recipient i) (Some a) (pp_amount i) (pp_description i) (is_advance i) (is_slow i) (proposed i) (approved i)
    (voters i) (error i) (note i).
Definition with_ballot (pp i : ProposePay) : ProposePay :=
  mk_pay (recipient i) (parsed i) (pp_amount i) (pp_description i) (is_advance i) (is_slow i) (Some true) (approved pp)
    (voters pp) (error i) (note i).
Definition with_slow (b : bool) (i : ProposePay) : ProposePay :=
  mk_pay (recipient i) (parsed i) (pp_amount i) (pp_description i) (is_advance i) (Some b) (proposed i) (approved i)
    (voters i) (error i) (note i).
Definition with_outcome {A : Type} (r : outcome A) (i : ProposePay) : ProposePay :=
  match r with
  | Err e => mk_pay (recipient i) (parsed i) (pp_amount i) (pp_description i) (is_advance i) (is_slow i) (Some false)
               (approved i) (voters i) (Some e) (note i)
  | _ => mk_pay (recipient i) (parsed i) (pp_amount i) (pp_description i) (is_advance i) (is_slow i) (Some true)
           (approved i) (voters i) (error i) (note i)
  end.
(** The ballot found for an instruction, if it is for the same amount *)
Definition match_ballot (ballots : gmap AccountAddress ProposePay) (a : AccountAddress) (i : ProposePay) : ProposePay :=
  match ballots !! a with
  | Some pp => if pp_amount pp =? scaled_amount i then with_ballot pp i else i
  | None => i
  end.
Definition already_voted (me : AccountAddress) (i : ProposePay) : bool :=
  match voters i with Some vs => bool_decide (me ∈ vs) | None => false end.

Definition payment_payload (multisig a : AccountAddress) (i : ProposePay) : TransactionPayload :=
  donor_voice_txs_propose_payment_tx multisig a (scaled_amount i) (str_bytes (pp_description i)) false.
Definition propose_one_in_batch (multisig : AccountAddress) (i : ProposePay) : st session unit :=
  a ← st_lift (expect_opt "called `Option::unwrap()` on a `None` value" (parsed i));
  _ ← sign_submit_wait (payment_payload multisig a i);
  mret tt.

Definition get_sender : st session Sender := fun s => (s, Ok (fst s)).
Definition is_slow_wallet (i : ProposePay) : st session bool :=
  v ← on_snd (get_view "0x1::slow_wallet::is_slow" None (Some (recipient i)));
  mret (default false (l ← as_array v; b ← head l; as_bool b)).

(** One round of the loop: the instruction as it is left *)
Definition process_one (tx : BatchTx) (ballots : gmap AccountAddress ProposePay) (i : ProposePay)
    : st session ProposePay :=
  match addr_from_str (recipient i) with
  | None => mret i
  | Some addr =>
      let i := match_ballot ballots addr (with_parsed addr i) in
      res_slow ← is_slow_wallet i;
      let i := with_slow res_slow i in
      if negb res_slow then mret i else
      self ← get_sender;
      if already_voted (la_address (local_account self)) i then mret i else
      if check tx then mret i else
      r ← attempt (propose_one_in_batch (community_wallet tx) i);
      mret (with_outcome r i)
  end.
Fixpoint process_all (tx : BatchTx) (ballots : gmap AccountAddress ProposePay) (l : list ProposePay)
    : st session (list ProposePay) :=
  match l with
  | [] => mret []
  | i :: l' =>
      i' ← process_one tx ballots i;
      l'' ← process_all tx ballots l';
      mret (i' :: l'')
  end.

Definition output_path (tx : BatchTx) : path := default (file tx) (out tx).
Definition batch_run (tx : BatchTx) : st session unit :=
  data ← on_files (io_read (read_to_string (file tx)));
  l ← st_lift (pays_from_str data);
  ballots ← on_snd (multi_auth_ballots (community_wallet tx));
  l' ← process_all tx (pending_or_approved ballots) l;
  json ← st_lift (pays_to_string l');
  on_files (io_write (output_path tx) json).

(** ** The other commands *)
Definition pending_ballot (reauth_ballots : json) : option Z :=
  ballot_array ← as_array reauth_ballots;
  pending_ballots ← (b ← head ballot_array; as_array b);
  ballot_id ← (b ← head pending_ballots; as_str b);
  value_of (parse_u64 ballot_id).
Definition fetch_pending_reauth_ballots (wallet : AccountAddress) : st session (option Z) :=
  reauth_ballots ← on_snd (get_view "0x1::donor_voice_governance::get_reauth_ballots" None (Some (canonical_string wallet)));
  mret (pending_ballot reauth_ballots).

(** The lines that are printed *)
Definition found_ballot (id : Z) : string := "Found reauthorization ballot with ID: " +:+ show_uint id.
Definition no_ballot : list string :=
  ["No pending reauthorization ballots found"; "Cannot display tally results without a valid ballot ID"]%string.
Definition reauth_run (wallet : AccountAddress) : st session (list string) :=
  _ ← sign_submit_wait (donor_voice_txs_vote_reauth_tx wallet);
  ballot_id ← fetch_pending_reauth_ballots wallet;
  match ballot_id with
  | Some id =>
      res ← on_snd (get_view "0x1::donor_voice_governance::get_reauth_tally" None
                      (Some (canonical_string wallet +:+ ", " +:+ show_uint id)));
      mret (found_ballot id :: display_reauth_tally_results res)
  | None => mret no_ballot
  end.

(** The payload of a command that sends a single one *)
Definition command_payload (c : CommunityTxs) : option TransactionPayload :=
  match c with
  | GovInit admins n => Some (community_wallet_init_init_community admins n)
  | GovOffer admins n => Some (community_wallet_init_propose_offer admins n)
  | GovClaim wallet => Some (multi_action_claim_offer wallet)
  | GovCage n => Some (community_wallet_init_finalize_and_cage n)
  | GovAdmin wallet admin drop n epochs =>
      let is_add_operation := default true drop in
      Some (community_wallet_init_change_signer_community_multisig wallet admin is_add_operation n (default 10 epochs))
  | Propose wallet payee amount description unlocked_advance =>
      Some (donor_voice_txs_propose_payment_tx wallet payee (cast_decimal_to_coin (f64_of_int amount))
              (str_bytes description) unlocked_advance)
  | Veto wallet id => Some (donor_voice_txs_propose_veto_tx wallet id)
  | Batch _ | Reauthorize _ => None
  end.
Definition command_run (c : CommunityTxs) : st session unit :=
  match c with
  | Batch tx => batch_run tx
  | Reauthorize wallet => _ ← reauth_run wallet; mret tt
  | _ => match command_payload c with
         | Some p => _ ← sign_submit_wait p; mret tt
         | None => mret tt
         end
  end.
(** [CommunityTxs::run]: an error is logged, and the run succeeds. *)
Definition community_run (c : CommunityTxs) : st session unit := st_result swallow (command_run c).
End community.

(** ** Specification *)
Section batch.
Context `{RestNode, TxSdk, DiemAddress, CommunityCrates}.
Context (tx : BatchTx) (me : AccountAddress) (ballots : gmap AccountAddress ProposePay).

(** What becomes of an instruction, and what is sent for it: a recipient that
    is no address is passed over; a payment is proposed to a slow wallet whose
    ballot the sender has not voted on, unless the batch is a check. *)
Definition processed (i i' : ProposePay) (ps : list TransactionPayload) : Prop :=
  match addr_from_str (recipient i) with
  | None => i' = i ∧ ps = []
  | Some a =>
      let i1 := match_ballot ballots a (with_parsed a i) in
      ∃ slow : bool,
        if slow && negb (already_voted me i1) && negb (check tx)
        then ps = [payment_payload (community_wallet tx) a i1] ∧
             ∃ r : outcome unit, (∀ p, r ≠ Panic p) ∧ i' = with_outcome r (with_slow true i1)
        else ps = [] ∧ i' = with_slow slow i1
  end.

Lemma parsed_match_ballot a i : parsed (match_ballot ballots a (with_parsed a i)) = Some a.
Proof. unfold match_ballot. destruct (ballots !! a); [|done]. by destruct (_ =? _). Qed.

Lemma already_voted_slow b i : already_voted me (with_slow b i) = already_voted me i.
Proof. done. Qed.

Lemma propose_one_sends multisig a i s :
  parsed i = Some a →
  ∃ r : outcome unit, (∀ p, r ≠ Panic p) ∧
    attempt (propose_one_in_batch multisig i) s = (fst (sign_submit_wait (payment_payload multisig a i) s), Ok r).
Proof.
  intros Hp. unfold propose_one_in_batch. rewrite Hp. cbn [expect_opt].
  pose proof (sign_submit_wait_no_panic (payment_payload multisig a i) s) as Hn.
  unfold attempt. unfold mbind at 1, st_bind at 1. cbn [st_lift]. unfold mbind, st_bind.
  destruct (sign_submit_wait _ s) as [s1 [x|e|p]]; cbn in *; [by exists (Ok tt)|by exists (Err e)|by destruct (Hn p)].
Qed.

Lemma is_slow_sends i s : sends [] s (fst (is_slow_wallet i s)).
Proof.
  unfold is_slow_wallet.
  pose proof (on_snd_sends _ s (quiet_view "0x1::slow_wallet::is_slow" None (Some (recipient i)))) as Hq.
  unfold mbind at 1, st_bind at 1. by destruct (on_snd _ s) as [s1 [v|e|p]].
Qed.

(** The sends of one round, and its result when it has one *)
Lemma process_one_sends i s s' r :
  la_address (local_account (fst s)) = me → process_one tx ballots i s = (s', r) →
  ∃ ps, sends ps s s' ∧ (check tx = true → ps = []) ∧ (∀ i', r = Ok i' → processed i i' ps).
Proof.
  intros Hme. unfold process_one, processed. destruct (addr_from_str (recipient i)) as [a|].
  2: { intros [= <- <-]. exists []. split; [apply sends_nil_refl|]. split; [done|]. by intros i' [= <-]. }
  set (i1 := match_ballot _ _ _). pose proof (is_slow_sends i1 s) as Hq.
  unfold mbind at 1, st_bind at 1. destruct (is_slow_wallet i1 s) as [s1 [slow|e|p]]; cbn [fst] in Hq.
  2-3: by intros [= <- <-]; exists [].
  unfold mbind at 1, st_bind at 1, get_sender.
  destruct slow; cbn [negb].
  2: { intros [= <- <-]. exists []. split; [done|]. split; [done|]. intros i' [= <-]. by exists false. }
  rewrite (sends_address _ _ _ Hq), Hme, already_voted_slow.
  destruct (already_voted me i1) eqn:Ev.
  { intros [= <- <-]. exists []. split; [done|]. split; [done|]. intros i' [= <-]. by exists true. }
  destruct (check tx) eqn:Ec.
  { intros [= <- <-]. exists []. split; [done|]. split; [done|]. intros i' [= <-]. by exists true. }
  destruct (propose_one_sends (community_wallet tx) a (with_slow true i1) s1) as (o & Ho & Hrun).
  { apply parsed_match_ballot. }
  rewrite (st_bind_run _ _ _ _ _ Hrun). intros [= <- <-]. exists [payment_payload (community_wallet tx) a i1].
  split; [apply (sends_trans [] [_] _ _ _ Hq), sign_submit_wait_sends|]. split; [done|].
  intros i' [= <-]. exists true. split; [done|]. by exists o.
Qed.

Lemma process_all_sends l s s' r :
  la_address (local_account (fst s)) = me → process_all tx ballots l s = (s', r) →
  ∃ pss, sends (mjoin pss) s s' ∧ (check tx = true → mjoin pss = []) ∧
    (∀ l', r = Ok l' → Forall3 processed l l' pss).
Proof.
  revert s s' r. induction l as [|i l IH]; intros s s' r Hme; cbn [process_all].
  { intros [= <- <-]. exists []. split; [apply sends_nil_refl|]. split; [done|]. intros l' [= <-]. constructor. }
  unfold mbind at 1, st_bind at 1. destruct (process_one tx ballots i s) as [s1 r1] eqn:E1.
  apply (process_one_sends i s s1 r1 Hme) in E1 as (ps & Hs & Hc & Hp).
  assert (Hstop : sends (mjoin [ps]) s s1 ∧ (check tx = true → mjoin [ps] = []))
    by (cbn; rewrite app_nil_r; done).
  destruct r1 as [i'|e|p]; [|intros [= <- <-]; exists [ps]; naive_solver..].
  unfold mbind at 1, st_bind at 1. destruct (process_all tx ballots l s1) as [s2 r2] eqn:E2.
  apply IH in E2 as (pss & Hs2 & Hc2 & Hp2); [|by rewrite (sends_address _ _ _ Hs)].
  intros Hr. exists (ps :: pss). assert (s' = s2) as -> by (by destruct r2; injection Hr).
  split; [by apply (sends_trans _ _ _ _ _ Hs Hs2)|]. split.
  { intros Hk. change (mjoin (ps :: pss)) with (ps ++ mjoin pss). by rewrite Hc, Hc2. }
  destruct r2 as [l2|e|p]; injection Hr as <-; [|done..]. intros l' [= <-].
  constructor; [by apply Hp|by apply Hp2].
Qed.
End batch.

Section batch_spec.
Context `{RestNode, TxSdk, DiemAddress, CommunityCrates}.

Lemma on_files_read_ok p s s' d : on_files (io_read (read_to_string p)) s = (s', Ok d) →
  s' = s ∧ w_files (snd s) !! p = Some (File d).
Proof.
  destruct s as [self [h fs]]. unfold on_files, on_snd, io_read. cbn. intros [= <- Hr]. split; [done|].
  unfold read_to_string in Hr. destruct (fs !! p) as [[c|]|]; [|done..]. by apply Ok_inj in Hr as ->.
Qed.
Lemma on_files_read_err p s : fst (on_files (io_read (read_to_string p)) s) = s.
Proof. destruct s as [self [h fs]]. done. Qed.

Lemma on_files_write p t s s' r :
  on_files (io_write p t) s = (s', r) →
  fst s' = fst s ∧ w_history (snd s') = w_history (snd s) ∧
  (r = Ok tt → w_files (snd s') !! p = Some (File t) ∧ ∀ q, q ≠ p → w_files (snd s') !! q = w_files (snd s) !! q) ∧
  (is_ok r = false → w_files (snd s') = w_files (snd s)).
Proof.
  destruct s as [self [h fs]]. unfold on_files, on_snd. cbn. destruct (io_write p t fs) as [fs' r'] eqn:E.
  intros [= <- <-]. cbn. split; [done|]. split; [done|]. split.
  - intros ->. by apply io_write_ok.
  - unfold io_write, io_update in E. destruct (file_create p fs); cbn in E; by destruct r'; injection E.
Qed.

End batch_spec.

(** ** The vote on a reauthorization *)
Section reauth_spec.
Context `{RestNode, TxSdk, DiemAddress, CommunityCrates}.

Lemma on_snd_view_ok f ty args (s s' : session) v :
  on_snd (get_view f ty args) s = (s', Ok v) →
  fst s' = fst s ∧ ∃ l, v = JArray l ∧ get_view f ty args (snd s) = (snd s', Ok (JArray l)).
Proof.
  destruct s as [self w]. unfold on_snd. destruct (get_view f ty args w) as [w1 r] eqn:E.
  intros [= <- ->]. split; [done|]. destruct (view_ext_array _ _ _ _ _ _ E) as [l ->]. by exists l.
Qed.

(** What is printed, by what the node answers after the vote *)
Definition tally_shown (wallet : AccountAddress) (w1 w' : world) (lines : list string) : Prop :=
  ∃ w2 ballots,
    get_view "0x1::donor_voice_governance::get_reauth_ballots" None (Some (canonical_string wallet)) w1 = (w2, Ok (JArray ballots)) ∧
    match pending_ballot (JArray ballots) with
    | None => w' = w2 ∧ lines = no_ballot
    | Some id => ∃ tally,
        get_view "0x1::donor_voice_governance::get_reauth_tally" None
          (Some (canonical_string wallet +:+ ", " +:+ show_uint id)) w2 = (w', Ok (JArray tally)) ∧
        ((length tally < 9)%nat → ∃ line, lines = [found_ballot id; line]) ∧
        (∀ t status rest, tally_wf t → tally = tally_values t status ++ rest →
           lines = found_ballot id :: tally_report t (status_str (u64_of status)))
    end.

Lemma sends_none_preorder : PreOrder (sends []).
Proof. split; [exact sends_nil_refl|]. intros s1 s2 s3 Ha Hb. exact (sends_trans [] [] s1 s2 s3 Ha Hb). Qed.

(** After the vote there are only views. *)
Lemma reauth_run_sends wallet s : sends [donor_voice_txs_vote_reauth_tx wallet] s (fst (reauth_run wallet s)).
Proof.
  assert (Hv : ∀ f ty args, steps (sends []) (on_snd (R := Sender) (get_view f ty args)))
    by (intros f ty args s1; apply on_snd_sends, quiet_view).
  pose proof sends_none_preorder as Hpre. unfold reauth_run.
  pose proof (sign_submit_wait_sends (donor_voice_txs_vote_reauth_tx wallet) s) as Hs.
  unfold mbind at 1, st_bind at 1. destruct (sign_submit_wait _ s) as [s1 [tx|e|p]]; cbn [fst] in *; [|done..].
  apply (sends_trans [_] [] _ _ _ Hs). revert s1 Hs. intros s1 _.
  assert (Htail : steps (sends []) (ballot_id ← fetch_pending_reauth_ballots wallet;
    match ballot_id with
    | Some id => res ← on_snd (get_view "0x1::donor_voice_governance::get_reauth_tally" None
        (Some (canonical_string wallet +:+ ", " +:+ show_uint id)));
        mret (found_ballot id :: display_reauth_tally_results res)
    | None => mret no_ballot
    end)); [|exact (Htail s1)].
  unfold fetch_pending_reauth_ballots. apply steps_bind; [done|apply steps_bind; [done|apply Hv|intros ?; by apply steps_ret]|].
  intros [id|]; [apply steps_bind; [done|apply Hv|intros ?; by apply steps_ret]|by apply steps_ret].
Qed.

(** C17: voting on the reauthorization of a wallet.  Whatever the node answers,
    that vote is the only transaction submitted.  A run that succeeds has asked
    for the wallet's ballots and then, when a first pending one is listed, for
    its tally; what it prints says that there is none, or is the report of the
    tally: percentages to two decimals, and the two requirements compared, as
    in whole hundredths though the program computes in floating point.  A tally
    of fewer than nine values gives one line in its place. *)
Theorem reauth_vote_spec wallet s s' r :
  reauth_run wallet s = (s', r) →
  sends [donor_voice_txs_vote_reauth_tx wallet] s s' ∧
  (∀ lines, r = Ok lines → ∃ s1 tx,
     sign_submit_wait (donor_voice_txs_vote_reauth_tx wallet) s = (s1, Ok tx) ∧
     tally_shown wallet (snd s1) (snd s') lines).
Proof.
  intros E. split; [pose proof (reauth_run_sends wallet s) as Hs; by rewrite E in Hs|]. intros lines ->.
  unfold reauth_run in E. apply st_bind_ok in E as (s1 & tx & Hv & E). exists s1, tx. split; [done|].
  apply st_bind_ok in E as (s2 & id & Hf & E). unfold fetch_pending_reauth_ballots in Hf.
  apply st_bind_ok in Hf as (s3 & v & Hf & [= <- <-]). apply on_snd_view_ok in Hf as (_ & ballots & -> & Hf).
  exists (snd s3), ballots. split; [done|]. destruct (pending_ballot _) as [id|]; [|by injection E as <- <-].
  apply st_bind_ok in E as (s4 & v & Ht & [= <- <-]). apply on_snd_view_ok in Ht as (_ & tally & -> & Ht).
  exists tally. split; [done|]. split.
  - intros Hl. destruct (display_short tally Hl) as [line ->]. by exists line.
  - intros t status rest Hw ->. by rewrite display_report.
Qed.
End reauth_spec.

(** ** Witnesses *)
Definition payee (n : Z) : AccountAddress := repeat n 32.
Definition sample_pay (to : string) (amount : Z) : ProposePay :=
  mk_pay to None amount "for work" false None None None None None None.
Definition sample_pays : list ProposePay :=
  [sample_pay "nobody" 1; sample_pay (fmt_02x (payee 10)) 20; sample_pay (fmt_02x (payee 11)) 30].
#[export] Instance sample_crates : CommunityCrates := {|
  canonical_string := fmt_02x;
  pays_from_str _ := Ok sample_pays;
  pays_to_string l := Ok (join "," (recipient <$> l))
|}.
(** The sender has voted on a payment of 20 coins to the first address. *)
Definition sample_ballot : json :=
  JObject [("tally_type", JObject [
    ("proposal_data", JObject [("payee", JString (fmt_02x (payee 10))); ("value", JString "20000000")]);
    ("votes", JArray [JString (fmt_02x addr_ONE)]); ("approved", JBool true)])]%string.
Definition sample_ballots : json :=
  JObject [("vote", JObject [("ballots_approved", JArray [sample_ballot]); ("ballots_pending", JArray [])])]%string.
Definition batch_node : RestNode := sample_node (fun _ => inl [JBool true]) (fun _ => inl (Some sample_ballots)).
Definition sample_batch (check : bool) : BatchTx := mk_batch (payee 9) ["pay.json"]%string (Some ["out.json"]%string) check.
Definition batch_world : world :=
  mk_world [] {[ ([] : path) := Dir; ["pay.json"%string] := File "[...]" ]}.
Definition run_sample (check : bool) : session * outcome unit :=
  @batch_run batch_node _ _ _ (sample_batch check) (sample_sender, batch_world).

(** One of the three payments is proposed, to the last address; a check
    proposes none. *)
Example batch_runs :
  ((λ t, tx_key t) <$> submissions (w_history (snd (fst (run_sample false))))) =
    [(addr_ONE, 5, donor_voice_txs_propose_payment_tx (payee 9) (payee 11) 30000000 (str_bytes "for work") false)] ∧
  snd (run_sample false) = Ok tt ∧ submissions (w_history (snd (fst (run_sample true)))) = [].
Proof. vm_compute. done. Qed.


(** A poll that has not got its turnout, as the third ballot of the wallet *)
Definition poll_node : RestNode :=
  sample_node (fun h => if (length h =? 4)%nat then inl [JArray [JString "3"]; JArray []; JArray []]
                        else inl (tally_values sample_tally (JNumber "0"))) (fun _ => inl None).
Definition poll_world : world := mk_world [GetIndex] ∅.
Definition vote_sample : session * outcome (list string) :=
  @reauth_run poll_node _ _ (payee 9) (sample_sender, poll_world).

Lemma reauth_vote_spec_witness :
  snd vote_sample = Ok (found_ballot 3 :: tally_report sample_tally "Pending") ∧
  sends [donor_voice_txs_vote_reauth_tx (payee 9)] (sample_sender, poll_world) (fst vote_sample) ∧
  (∀ lines, snd vote_sample = Ok lines → ∃ s1 tx,
     @sign_submit_wait poll_node _ (donor_voice_txs_vote_reauth_tx (payee 9)) (sample_sender, poll_world) = (s1, Ok tx) ∧
     @tally_shown poll_node _ (payee 9) (snd s1) (snd (fst vote_sample)) lines).
Proof.
  split; [vm_compute; reflexivity|].
  exact (@reauth_vote_spec poll_node _ _ (payee 9) (sample_sender, poll_world) (fst vote_sample) (snd vote_sample)
    (surjective_pairing _)).
Defined.

(** A view that fails half way leaves the file without the outcome of what was
    already sent. *)
Definition failing_node : RestNode :=
  sample_node (fun h => if (length h <? 4)%nat then inl [JBool true] else inr "timeout"%string)
    (fun _ => inl (Some JNull)).
Example batch_outcome_lost :
  let r := @batch_run failing_node _ _ _ (sample_batch false) (sample_sender, batch_world) in
  snd r = Err "timeout" ∧ w_files (snd (fst r)) !! ["out.json"%string] = None ∧
  length (submissions (w_history (snd (fst r)))) = 1%nat.
Proof. split_and!; vm_compute; reflexivity. Qed.

(** [--drop true] adds the admin, and [--drop false] removes one. *)
Example drop_is_inverted w a n :
  command_payload (GovAdmin w a (Some true) n None) =
    Some (community_wallet_init_change_signer_community_multisig w a true n 10) ∧
  command_payload (GovAdmin w a (Some false) n None) =
    Some (community_wallet_init_change_signer_community_multisig w a false n 10).
Proof. done. Qed.

(** A command that fails is reported as a success. *)
Example failure_is_success :
  let refused := sample_node (fun _ => inl []) (fun _ => inl None) in
  snd (@command_run refused _ _ _ (GovCage 3) (sample_sender, empty_world)) = Err "mempool is full" ∧
  snd (@community_run refused _ _ _ (GovCage 3) (sample_sender, empty_world)) = Ok tt.
Proof. vm_compute. done. Qed.
