(* ===== verification/KeyRotation.v ===== *)
(** * Key rotation: the client and the chain

    txs_cli_user.rs makes the payloads that rotate the key of an account, or
    delegate that; framework/libra-framework/sources/account.move executes
    them.  Both build the challenge that is signed; the theorems run the
    client's payloads on the chain. *)
From Stdlib Require Import ZArith Lia Ascii.
From stdpp Require Import base option list strings gmap.
From S2P Require Import Prelude RustStr Json Effects Bytes FileSystem MoveTypes Mnemonic Wallet.
From S2P Require Import HashValue AppCfg Node EntryCalls Payloads TxSender.

Open Scope list_scope.
Open Scope Z_scope.

(** ** BCS and signatures *)
Inductive bcs_value :=
| VU8 (n : Z) | VU64 (n : Z) | VAddress (a : AccountAddress) | VString (s : string) | VBytes (bs : bytes)
| VStruct (fields : list bcs_value).
(** BCS writes the fields of a struct one after the other, and a string as its
    bytes.  A signature made with a private key verifies under its public key;
    the authentication key of a public key is a hash of it and the scheme. *)
Class RotationCrypto `{WalletCrypto, Sha3} := {
  to_bytes : bcs_value → bytes;
  sign_arbitrary_message : bytes → bytes → bytes;
  signature_verify_strict_internal : bytes → bytes → bytes → bool;
  multi_ed25519_auth_key : bytes → outcome bytes;
  multi_ed25519_verify : bytes → bytes → bytes → outcome bool;
  to_bytes_struct l : to_bytes (VStruct l) = mjoin (to_bytes <$> l);
  to_bytes_string s : to_bytes (VString s) = to_bytes (VBytes (str_bytes s));
  public_key_law sk : length sk = 32%nat → length (ed25519_public sk) = 32%nat;
  signature_law sk m : length sk = 32%nat → length (sign_arbitrary_message sk m) = 64%nat;
  verify_law sk m : length sk = 32%nat →
    signature_verify_strict_internal (sign_arbitrary_message sk m) (ed25519_public sk) m = true;
  auth_key_hash pk : auth_key_ed25519 pk = sha3_256 (pk ++ [0])
}.

(** ** The chain: account.move *)
Record Account := mk_account {
  authentication_key : bytes;
  sequence_number : Z;
  rotation_capability_offer : option AccountAddress
}.
Record Chain := mk_chain {
  accounts : gmap AccountAddress Account;
  address_map : gmap AccountAddress AccountAddress;
  chain_chain_id : Z
}.
Definition ED25519_SCHEME : Z := 0.
Definition MULTI_ED25519_SCHEME : Z := 1.

Section chain.
Context `{RotationCrypto}.

(** type_info.move and ed25519.move *)
Definition signed_message (struct_name : string) (inner : list bcs_value) : bcs_value :=
  VStruct [VStruct [VAddress CORE_CODE_ADDRESS; VBytes (str_bytes "account"); VBytes (str_bytes struct_name)];
           VStruct inner].
Definition new_unvalidated_public_key_from_bytes (bs : bytes) : outcome bytes :=
  ensure (length bs =? 32)%nat "E_WRONG_PUBKEY_SIZE";; Ok bs.
Definition new_signature_from_bytes (bs : bytes) : outcome bytes :=
  ensure (length bs =? 64)%nat "E_WRONG_SIGNATURE_SIZE";; Ok bs.
Definition public_key_bytes_to_authentication_key (pk_bytes : bytes) : bytes := sha3_256 (pk_bytes ++ [0]).
(** [from_bcs::to_address] *)
Definition to_address (bs : bytes) : outcome AccountAddress := ensure (length bs =? 32)%nat "EFROM_BYTES";; Ok bs.

(** The public key of a scheme, its authentication key, and the check of a
    signed challenge *)
Definition auth_key_of_scheme (scheme : Z) (public_key_bytes : bytes) : outcome bytes :=
  if scheme =? ED25519_SCHEME then
    pk ← new_unvalidated_public_key_from_bytes public_key_bytes;
    Ok (public_key_bytes_to_authentication_key pk)
  else if scheme =? MULTI_ED25519_SCHEME then multi_ed25519_auth_key public_key_bytes
  else Err "EINVALID_SCHEME".
Definition assert_valid_rotation_proof_signature_and_get_auth_key (scheme : Z) (public_key_bytes signature : bytes)
    (challenge : bcs_value) : outcome bytes :=
  if scheme =? ED25519_SCHEME then
    pk ← new_unvalidated_public_key_from_bytes public_key_bytes;
    sig ← new_signature_from_bytes signature;
    ensure (signature_verify_strict_internal sig pk (to_bytes challenge)) "EINVALID_PROOF_OF_KNOWLEDGE";;
    Ok (public_key_bytes_to_authentication_key pk)
  else if scheme =? MULTI_ED25519_SCHEME then
    key ← multi_ed25519_auth_key public_key_bytes;
    b ← multi_ed25519_verify signature public_key_bytes (to_bytes challenge);
    ensure b "EINVALID_PROOF_OF_KNOWLEDGE";;
    Ok key
  else Err "EINVALID_SCHEME".

Definition rotation_challenge (seq : Z) (originator current_auth_key : AccountAddress) (new_public_key : bytes) : bcs_value :=
  signed_message "RotationProofChallenge" [VU64 seq; VAddress originator; VAddress current_auth_key; VBytes new_public_key].
Definition offer_challenge (chain seq : Z) (source_address recipient_address : AccountAddress) : bcs_value :=
  signed_message "RotationCapabilityOfferProofChallengeV2"
    [VU8 chain; VU64 seq; VAddress source_address; VAddress recipient_address].

Definition account_at (c : Chain) (a : AccountAddress) : outcome Account := context_opt "EACCOUNT_DOES_NOT_EXIST" (accounts c !! a).
Definition with_account (a : AccountAddress) (x : Account) (c : Chain) : Chain :=
  mk_chain (<[a := x]> (accounts c)) (address_map c) (chain_chain_id c).
Definition with_offer (o : option AccountAddress) (x : Account) : Account :=
  mk_account (authentication_key x) (sequence_number x) o.

Definition update_auth_key_and_originating_address_table (originating_addr : AccountAddress) (x : Account)
    (new_auth_key_vector : bytes) (c : Chain) : outcome Chain :=
  curr_auth_key ← to_address (authentication_key x);
  m ← match address_map c !! curr_auth_key with
      | Some a => ensure (bool_decide (originating_addr = a)) "EINVALID_ORIGINATING_ADDRESS";;
                  Ok (delete curr_auth_key (address_map c))
      | None => Ok (address_map c)
      end;
  new_auth_key ← to_address new_auth_key_vector;
  ensure (bool_decide (m !! new_auth_key = None)) "EALREADY_EXISTS";;
  Ok (mk_chain (<[originating_addr := mk_account new_auth_key_vector (sequence_number x) (rotation_capability_offer x)]> (accounts c))
        (<[new_auth_key := originating_addr]> m) (chain_chain_id c)).

Definition rotate_authentication_key (addr : AccountAddress) (from_scheme : Z) (from_public_key_bytes : bytes)
    (to_scheme : Z) (to_public_key_bytes cap_rotate_key cap_update_table : bytes) (c : Chain) : outcome Chain :=
  x ← account_at c addr;
  from_auth_key ← auth_key_of_scheme from_scheme from_public_key_bytes;
  ensure (bool_decide (authentication_key x = from_auth_key)) "EWRONG_CURRENT_PUBLIC_KEY";;
  curr_auth_key_as_address ← to_address (authentication_key x);
  let challenge := rotation_challenge (sequence_number x) addr curr_auth_key_as_address to_public_key_bytes in
  _ ← assert_valid_rotation_proof_signature_and_get_auth_key from_scheme from_public_key_bytes cap_rotate_key challenge;
  new_auth_key ← assert_valid_rotation_proof_signature_and_get_auth_key to_scheme to_public_key_bytes cap_update_table
                   challenge;
  update_auth_key_and_originating_address_table addr x new_auth_key c.

Definition rotate_authentication_key_with_rotation_capability (delegate_address rotation_cap_offerer_address : AccountAddress)
    (new_scheme : Z) (new_public_key_bytes cap_update_table : bytes) (c : Chain) : outcome Chain :=
  x ← account_at c rotation_cap_offerer_address;
  ensure (bool_decide (rotation_capability_offer x = Some delegate_address)) "ENO_SUCH_ROTATION_CAPABILITY_OFFER";;
  curr_auth_key ← to_address (authentication_key x);
  delegate ← account_at c delegate_address;
  let challenge := rotation_challenge (sequence_number delegate) rotation_cap_offerer_address curr_auth_key
                     new_public_key_bytes in
  new_auth_key ← assert_valid_rotation_proof_signature_and_get_auth_key new_scheme new_public_key_bytes cap_update_table
                   challenge;
  update_auth_key_and_originating_address_table rotation_cap_offerer_address x new_auth_key c.

Definition offer_rotation_capability (addr : AccountAddress) (rotation_capability_sig_bytes : bytes) (account_scheme : Z)
    (account_public_key_bytes : bytes) (recipient_address : AccountAddress) (c : Chain) : outcome Chain :=
  _ ← account_at c recipient_address;
  x ← account_at c addr;
  let proof_challenge := offer_challenge (chain_chain_id c) (sequence_number x) addr recipient_address in
  expected_auth_key ← auth_key_of_scheme account_scheme account_public_key_bytes;
  ensure (bool_decide (authentication_key x = expected_auth_key)) "EWRONG_CURRENT_PUBLIC_KEY";;
  _ ← assert_valid_rotation_proof_signature_and_get_auth_key account_scheme account_public_key_bytes
        rotation_capability_sig_bytes proof_challenge;
  Ok (with_account addr (with_offer (Some recipient_address) x) c).

Definition move_revoke_rotation_capability (addr to_be_revoked_address : AccountAddress) (c : Chain) : outcome Chain :=
  _ ← account_at c to_be_revoked_address;
  x ← account_at c addr;
  ensure (bool_decide (rotation_capability_offer x = Some to_be_revoked_address)) "ENO_SUCH_ROTATION_CAPABILITY_OFFER";;
  Ok (with_account addr (with_offer None x) c).

Definition get_originating_address (curr_auth_key : AccountAddress) (c : Chain) : outcome AccountAddress :=
  let lookup := context_opt "EINVALID_ORIGINATING_ADDRESS" (address_map c !! curr_auth_key) in
  match accounts c !! curr_auth_key with
  | Some x => if decide (authentication_key x = curr_auth_key) then Ok curr_auth_key else lookup
  | None => lookup
  end.

(** The entry function a payload names, run for its sender *)
Definition execute_entry (sender : AccountAddress) (e : EntryFunction) (c : Chain) : outcome Chain :=
  match ef_module e, ef_function e, ef_args e with
  | (_, "account"), "rotate_authentication_key",
      [ArgU8 fs; ArgBytes fpk; ArgU8 ts; ArgBytes tpk; ArgBytes cap_rotate; ArgBytes cap_update] =>
      rotate_authentication_key sender fs fpk ts tpk cap_rotate cap_update c
  | (_, "account"), "rotate_authentication_key_with_rotation_capability",
      [ArgAddress offerer; ArgU8 s; ArgBytes pk; ArgBytes cap_update] =>
      rotate_authentication_key_with_rotation_capability sender offerer s pk cap_update c
  | (_, "account"), "offer_rotation_capability", [ArgBytes sig; ArgU8 s; ArgBytes pk; ArgAddress recipient] =>
      offer_rotation_capability sender sig s pk recipient c
  | (_, "account"), "revoke_rotation_capability", [ArgAddress r] => move_revoke_rotation_capability sender r c
  | _, _, _ => Err "LINKER_ERROR"
  end%string.
Definition execute (sender : AccountAddress) (p : TransactionPayload) (c : Chain) : outcome Chain :=
  match p with
  | PayloadEntry e =>
      if decide (fst (ef_module e) = CORE_CODE_ADDRESS ∧ ef_ty_args e = []) then execute_entry sender e c
      else Err "LINKER_ERROR"
  | PayloadScript _ => Err "LINKER_ERROR"
  end.
End chain.

(** ** The client: txs_cli_user.rs *)
Record RotationProofChallenge := mk_proof {
  rp_account_address : AccountAddress;
  rp_module_name : string;
  rp_struct_name : string;
  rp_sequence_number : Z;
  rp_originator : AccountAddress;
  rp_current_auth_key : AccountAddress;
  rp_new_public_key : bytes
}.
Record RotationCapabilityOfferProofChallengeV2 := mk_offer_proof {
  of_account_address : AccountAddress;
  of_module_name : string;
  of_struct_name : string;
  of_chain_id : Z;
  of_sequence_number : Z;
  of_source_address : AccountAddress;
  of_recipient_address : AccountAddress
}.
(** The derived [Serialize]: the fields in order *)
Definition proof_value (p : RotationProofChallenge) : bcs_value :=
  VStruct [VAddress (rp_account_address p); VString (rp_module_name p); VString (rp_struct_name p);
           VU64 (rp_sequence_number p); VAddress (rp_originator p); VAddress (rp_current_auth_key p);
           VBytes (rp_new_public_key p)].
Definition offer_value (p : RotationCapabilityOfferProofChallengeV2) : bcs_value :=
  VStruct [VAddress (of_account_address p); VString (of_module_name p); VString (of_struct_name p);
           VU8 (of_chain_id p); VU64 (of_sequence_number p); VAddress (of_source_address p);
           VAddress (of_recipient_address p)].

Section client.
Context `{RotationCrypto, RestNode, TxSdk}.
(** The key typed at the prompt, and the answers to the two confirmations when
    they are asked *)
Context (prompt : outcome bytes) (confirm : option (bool * bool)).

Definition address_from_bytes (bs : bytes) : outcome AccountAddress := context_opt "InvalidLength" (array_try_from 32 bs).

Definition rotate_key (sender_address : AccountAddress) (current_private_key auth_key : bytes) (sequence_number : Z)
    (new_private_key : bytes) : outcome TransactionPayload :=
  current_auth_key ← address_from_bytes auth_key;
  let rotation_proof := mk_proof CORE_CODE_ADDRESS "account" "RotationProofChallenge" sequence_number sender_address
                          current_auth_key (ed25519_public new_private_key) in
  let rotation_msg := to_bytes (proof_value rotation_proof) in
  let by_current := sign_arbitrary_message current_private_key rotation_msg in
  let by_new := sign_arbitrary_message new_private_key rotation_msg in
  Ok (account_rotate_authentication_key 0 (ed25519_public current_private_key) 0 (ed25519_public new_private_key)
        by_current by_new).

Definition rotate_key_delegated (sequence_number : Z) (target_account_address : AccountAddress) (target_auth_key : bytes)
    (new_private_key : bytes) : outcome TransactionPayload :=
  let new_public_key := ed25519_public new_private_key in
  current_auth_key ← address_from_bytes target_auth_key;
  let rotation_proof := mk_proof CORE_CODE_ADDRESS "account" "RotationProofChallenge" sequence_number
                          target_account_address current_auth_key new_public_key in
  let rotation_msg := to_bytes (proof_value rotation_proof) in
  Ok (account_rotate_authentication_key_with_rotation_capability target_account_address 0 new_public_key
        (sign_arbitrary_message new_private_key rotation_msg)).

Definition offer_rotation_capability_v2 (offerer_account : LocalAccount) (delegate_account : AccountAddress)
    (chain_id sequence_number : Z) : outcome TransactionPayload :=
  let proof := mk_offer_proof CORE_CODE_ADDRESS "account" "RotationCapabilityOfferProofChallengeV2" chain_id
                 sequence_number (la_address offerer_account) delegate_account in
  let signed := sign_arbitrary_message (la_private_key offerer_account) (to_bytes (offer_value proof)) in
  Ok (account_offer_rotation_capability signed 0 (ed25519_public (la_private_key offerer_account)) delegate_account).
Definition revoke_rotation_capability (delegate_account : AccountAddress) : outcome TransactionPayload :=
  Ok (account_revoke_rotation_capability delegate_account).

(** [RotateKeyTx::run] *)
Definition rotate_run (new_private_key : option string) (claim_address : option AccountAddress) : st session unit :=
  s ← st_get;
  let me := local_account (fst s) in
  let sender_account := la_address me in
  _ ← st_lift (ensure (default true (fst <$> confirm)) "better safe than sorry, exiting.");
  new_key ← st_lift match new_private_key with
                    | Some pk => private_key_from_encoded_string pk
                    | None => prompt
                    end;
  seq ← on_snd (get_sequence_number sender_account);
  payload ← match claim_address with
            | Some target =>
                target_auth_key ← on_snd (ask (GetAccount target) ans_account);
                st_lift (rotate_key_delegated seq target target_auth_key new_key)
            | None => st_lift (rotate_key sender_account (la_private_key me) (auth_key_of (la_private_key me)) seq new_key)
            end;
  _ ← st_lift (ensure (default true (snd <$> confirm)) "better safe than sorry, exiting.");
  _ ← sign_submit_wait payload;
  mret tt.

(** [RotationCapabilityTx::run] *)
Definition capability_run (revoke : bool) (delegate_address : AccountAddress) : st session unit :=
  s ← st_get;
  let me := local_account (fst s) in
  chain_id ← on_snd (ask GetIndex ans_index);
  seq ← on_snd (get_sequence_number (la_address me));
  payload ← st_lift (if revoke then revoke_rotation_capability delegate_address
                     else offer_rotation_capability_v2 me delegate_address chain_id seq);
  _ ← sign_submit_wait payload;
  mret tt.
End client.

(** ** Lemmas *)
Section facts.
Context `{RotationCrypto}.

Lemma proof_message seq originator current new_pk :
  to_bytes (proof_value (mk_proof CORE_CODE_ADDRESS "account" "RotationProofChallenge" seq originator current new_pk)) =
  to_bytes (rotation_challenge seq originator current new_pk).
Proof.
  unfold proof_value, rotation_challenge, signed_message. cbn [rp_account_address rp_module_name rp_struct_name
    rp_sequence_number rp_originator rp_current_auth_key rp_new_public_key].
  rewrite !to_bytes_struct. cbn [fmap list_fmap]. rewrite !to_bytes_struct. cbn [fmap list_fmap].
  rewrite !to_bytes_string. cbn [mjoin list_join]. rewrite !app_nil_r, <- !app_assoc. done.
Qed.

Lemma offer_message chain seq source recipient :
  to_bytes (offer_value (mk_offer_proof CORE_CODE_ADDRESS "account" "RotationCapabilityOfferProofChallengeV2"
                           chain seq source recipient)) =
  to_bytes (offer_challenge chain seq source recipient).
Proof.
  unfold offer_value, offer_challenge, signed_message. cbn [of_account_address of_module_name of_struct_name of_chain_id
    of_sequence_number of_source_address of_recipient_address].
  rewrite !to_bytes_struct. cbn [fmap list_fmap]. rewrite !to_bytes_struct. cbn [fmap list_fmap].
  rewrite !to_bytes_string. cbn [mjoin list_join]. rewrite !app_nil_r, <- !app_assoc. done.
Qed.

Lemma auth_key_length sk : length (auth_key_of sk) = 32%nat.
Proof. unfold auth_key_of. apply auth_key_law. Qed.
Lemma to_address_key sk : to_address (auth_key_of sk) = Ok (auth_key_of sk).
Proof. unfold to_address. by rewrite auth_key_length. Qed.
Lemma from_bytes_key sk : address_from_bytes (auth_key_of sk) = Ok (auth_key_of sk).
Proof.
  unfold address_from_bytes. rewrite (proj2 (array_try_from_ok 32 (auth_key_of sk) (auth_key_of sk))); [done|].
  split; [done|apply auth_key_length].
Qed.

(** What the payloads run *)
Lemma execute_at sender m f args c :
  execute sender (entry m f args) c = execute_entry sender (mk_entry (CORE_CODE_ADDRESS, m) f [] args) c.
Proof. unfold execute, entry. by rewrite decide_True. Qed.
Lemma execute_rotate sender fs fpk ts tpk cap cap' c :
  execute sender (account_rotate_authentication_key fs fpk ts tpk cap cap') c =
  rotate_authentication_key sender fs fpk ts tpk cap cap' c.
Proof. apply execute_at. Qed.
Lemma execute_claim sender offerer k pk cap c :
  execute sender (account_rotate_authentication_key_with_rotation_capability offerer k pk cap) c =
  rotate_authentication_key_with_rotation_capability sender offerer k pk cap c.
Proof. apply execute_at. Qed.
Lemma execute_offer sender sig k pk recipient c :
  execute sender (account_offer_rotation_capability sig k pk recipient) c =
  offer_rotation_capability sender sig k pk recipient c.
Proof. apply execute_at. Qed.
Lemma execute_revoke sender r c :
  execute sender (account_revoke_rotation_capability r) c = move_revoke_rotation_capability sender r c.
Proof. apply execute_at. Qed.

(** A key proves itself: the scheme's checks of what the client signs *)
Lemma own_auth_key sk : length sk = 32%nat → auth_key_of_scheme 0 (ed25519_public sk) = Ok (auth_key_of sk).
Proof.
  intros Hl. unfold auth_key_of_scheme, new_unvalidated_public_key_from_bytes. cbn [Z.eqb ED25519_SCHEME].
  rewrite public_key_law by done. cbn. unfold public_key_bytes_to_authentication_key, auth_key_of. by rewrite auth_key_hash.
Qed.
Lemma own_proof sk challenge :
  length sk = 32%nat →
  assert_valid_rotation_proof_signature_and_get_auth_key 0 (ed25519_public sk)
    (sign_arbitrary_message sk (to_bytes challenge)) challenge = Ok (auth_key_of sk).
Proof.
  intros Hl. unfold assert_valid_rotation_proof_signature_and_get_auth_key, new_unvalidated_public_key_from_bytes,
    new_signature_from_bytes. cbn [Z.eqb ED25519_SCHEME].
  rewrite public_key_law, signature_law by done. cbn [Nat.eqb ensure mbind outcome_bind]. rewrite verify_law by done.
  cbn. unfold public_key_bytes_to_authentication_key, auth_key_of. by rewrite auth_key_hash.
Qed.

(** An account that can move from one key to another: the table knows the old
    key for this account or not at all, and the new key for nobody. *)
Definition can_move (c : Chain) (addr : AccountAddress) (old new : bytes) : Prop :=
  (∀ a, address_map c !! old = Some a → a = addr) ∧ (new = old ∨ address_map c !! new = None).
Definition moved (c : Chain) (addr : AccountAddress) (x : Account) (old new : bytes) : Chain :=
  mk_chain (<[addr := mk_account new (sequence_number x) (rotation_capability_offer x)]> (accounts c))
    (<[new := addr]> (delete old (address_map c))) (chain_chain_id c).

Lemma update_ok c addr x old new :
  authentication_key x = auth_key_of old → can_move c addr (auth_key_of old) (auth_key_of new) →
  update_auth_key_and_originating_address_table addr x (auth_key_of new) c =
    Ok (moved c addr x (auth_key_of old) (auth_key_of new)).
Proof.
  intros Hx [Hold Hnew]. unfold update_auth_key_and_originating_address_table, moved.
  rewrite Hx, !to_address_key. cbn [mbind outcome_bind].
  assert (Hm : match address_map c !! auth_key_of old with
               | Some a => ensure (bool_decide (addr = a)) "EINVALID_ORIGINATING_ADDRESS";;
                           Ok (delete (auth_key_of old) (address_map c))
               | None => Ok (address_map c)
               end = Ok (delete (auth_key_of old) (address_map c))).
  { destruct (address_map c !! auth_key_of old) as [a|] eqn:E.
    - by rewrite (Hold a eq_refl), bool_decide_true.
    - by rewrite delete_id. }
  rewrite Hm. cbn [mbind outcome_bind]. rewrite bool_decide_true; [done|].
  destruct (decide (auth_key_of new = auth_key_of old)) as [->|Hne].
  - rewrite lookup_delete, decide_True by done. done.
  - rewrite lookup_delete_ne by done. by destruct Hnew.
Qed.

(** Who a key then leads to *)
Lemma moved_lookup c addr x old new :
  (∀ y, accounts c !! new = Some y → new = addr ∨ authentication_key y ≠ new) →
  get_originating_address new (moved c addr x old new) = Ok addr.
Proof.
  intros Hy. unfold get_originating_address, moved. cbn [accounts address_map].
  rewrite (lookup_insert (delete old (address_map c)) new new), decide_True by done. cbn [context_opt].
  destruct (decide (new = addr)) as [->|Hne].
  - rewrite lookup_insert, decide_True by done. by destruct (decide _).
  - rewrite lookup_insert_ne by done. destruct (accounts c !! new) as [y|] eqn:E; [|done].
    destruct (Hy y eq_refl) as [|Hk]; [done|]. by rewrite decide_False.
Qed.
End facts.

(** ** Properties *)

(** C4: rotating a key.  The payload the client makes for an account, with the
    keys of the account and its sequence number, is accepted on chain: the
    challenge signed by the client is the one the chain verifies.  The account
    then has the new authentication key and is otherwise as before, no other
    account changes, and the new key leads to the account unless another
    account still lives unrotated at that very key. *)
Theorem rotate_key_accepted `{RotationCrypto} c addr x sk new_sk :
  accounts c !! addr = Some x → authentication_key x = auth_key_of sk →
  length sk = 32%nat → length new_sk = 32%nat →
  can_move c addr (auth_key_of sk) (auth_key_of new_sk) →
  ∃ p c', rotate_key addr sk (auth_key_of sk) (sequence_number x) new_sk = Ok p ∧ execute addr p c = Ok c' ∧
    accounts c' !! addr =
      Some (mk_account (auth_key_of new_sk) (sequence_number x) (rotation_capability_offer x)) ∧
    (∀ a, a ≠ addr → accounts c' !! a = accounts c !! a) ∧
    ((∀ y, accounts c !! auth_key_of new_sk = Some y →
        auth_key_of new_sk = addr ∨ authentication_key y ≠ auth_key_of new_sk) →
     get_originating_address (auth_key_of new_sk) c' = Ok addr).
Proof.
  intros Hx Hk Hl Hl' Hm. unfold rotate_key. rewrite from_bytes_key. cbn [mbind outcome_bind].
  rewrite proof_message. eexists _, (moved c addr x (auth_key_of sk) (auth_key_of new_sk)). split; [done|]. split.
  - rewrite execute_rotate. unfold rotate_authentication_key, account_at. rewrite Hx. cbn [context_opt mbind outcome_bind].
    rewrite own_auth_key by done. cbn [mbind outcome_bind]. rewrite Hk, bool_decide_true by done.
    cbn [ensure mbind outcome_bind]. rewrite to_address_key. cbn [mbind outcome_bind]. rewrite !own_proof by done.
    cbn [mbind outcome_bind]. by apply update_ok.
  - split; [unfold moved; cbn; by rewrite lookup_insert, decide_True|]. split; [|by apply moved_lookup].
    intros a Ha. unfold moved. cbn. by rewrite lookup_insert_ne.
Qed.

(** C5: delegating a rotation.  The offer a client makes to a delegate is
    accepted, and lets the delegate give the account a new key; the offer then
    still stands.  Without an offer to the delegate, or once it is revoked, the
    chain refuses every such rotation and so changes nothing. *)
Theorem delegated_rotation `{RotationCrypto} c owner delegate x y sk new_sk :
  accounts c !! owner = Some x → accounts c !! delegate = Some y → owner ≠ delegate →
  authentication_key x = auth_key_of sk → length sk = 32%nat → length new_sk = 32%nat →
  can_move c owner (auth_key_of sk) (auth_key_of new_sk) →
  let me := mk_local owner sk (sequence_number x) in
  (∃ p1 p2 c1 c2,
    offer_rotation_capability_v2 me delegate (chain_chain_id c) (sequence_number x) = Ok p1 ∧ execute owner p1 c = Ok c1 ∧
    rotate_key_delegated (sequence_number y) owner (authentication_key x) new_sk = Ok p2 ∧ execute delegate p2 c1 = Ok c2 ∧
    accounts c2 !! owner = Some (mk_account (auth_key_of new_sk) (sequence_number x) (Some delegate)) ∧
    ∀ a, a ≠ owner → accounts c2 !! a = accounts c !! a) ∧
  (∀ k pk cap, rotation_capability_offer x ≠ Some delegate →
     is_err (execute delegate (account_rotate_authentication_key_with_rotation_capability owner k pk cap) c) = true) ∧
  (∀ k pk cap c', execute owner (account_revoke_rotation_capability delegate) c = Ok c' →
     is_err (execute delegate (account_rotate_authentication_key_with_rotation_capability owner k pk cap) c') = true).
Proof.
  intros Hx Hy Hne Hk Hl Hl' Hm me. split; [|split].
  - unfold offer_rotation_capability_v2, rotate_key_delegated. rewrite Hk, from_bytes_key. cbn [mbind outcome_bind].
    rewrite offer_message, proof_message. set (x1 := with_offer (Some delegate) x).
    eexists _, _, (with_account owner x1 c), (moved (with_account owner x1 c) owner x1 (auth_key_of sk) (auth_key_of new_sk)).
    split; [done|]. split; [|split; [done|split]].
    + rewrite execute_offer. unfold offer_rotation_capability, account_at. rewrite Hx, Hy.
      cbn [context_opt mbind outcome_bind me la_private_key]. rewrite own_auth_key by done. cbn [mbind outcome_bind].
      rewrite Hk, bool_decide_true by done. cbn [ensure mbind outcome_bind la_address]. by rewrite own_proof by done.
    + assert (Ho : accounts (with_account owner x1 c) !! owner = Some x1)
        by (cbn; by rewrite lookup_insert, decide_True).
      assert (Hd : accounts (with_account owner x1 c) !! delegate = Some y) by (cbn; by rewrite lookup_insert_ne).
      rewrite execute_claim. unfold rotate_authentication_key_with_rotation_capability, account_at.
      rewrite Ho, Hd. cbn [context_opt mbind outcome_bind].
      rewrite bool_decide_true by done. cbn [ensure mbind outcome_bind x1 with_offer authentication_key].
      rewrite Hk, to_address_key. cbn [mbind outcome_bind]. rewrite own_proof by done. cbn [mbind outcome_bind].
      by apply update_ok.
    + cbn. rewrite lookup_insert, decide_True by done. split; [done|]. intros a Ha. by rewrite !lookup_insert_ne.
  - intros k pk cap Ho. rewrite execute_claim. unfold rotate_authentication_key_with_rotation_capability, account_at.
    rewrite Hx. cbn [context_opt mbind outcome_bind]. by rewrite bool_decide_false.
  - intros k pk cap c' Hr. rewrite execute_revoke in Hr. unfold move_revoke_rotation_capability, account_at in Hr.
    rewrite Hx, Hy in Hr. cbn [context_opt mbind outcome_bind] in Hr. destruct (bool_decide _); [|done].
    apply Ok_inj in Hr as <-. rewrite execute_claim. unfold rotate_authentication_key_with_rotation_capability, account_at.
    assert (Ho : accounts (with_account owner (with_offer None x) c) !! owner = Some (with_offer None x))
      by (cbn; by rewrite lookup_insert, decide_True).
    rewrite Ho. cbn [context_opt mbind outcome_bind with_offer rotation_capability_offer]. by rewrite bool_decide_false.
Qed.

(** ** Witnesses: a toy hash and toy signatures *)
#[export] Instance sample_sha3 : Sha3.
Proof. refine {| sha3_256 bs := fit32 (clip (removelast bs)) |}. intros bs. apply fit32_wf, clip_wf. Defined.

Fixpoint sample_to_bytes (v : bcs_value) : bytes :=
  match v with
  | VU8 n => [n]
  | VU64 n => le_bytes 8 n
  | VAddress a => a
  | VString s => Z.of_nat (length (str_bytes s)) :: str_bytes s
  | VBytes bs => Z.of_nat (length bs) :: bs
  | VStruct l => (fix go l := match l with [] => [] | x :: l' => sample_to_bytes x ++ go l' end) l
  end.

Lemma fit32_length bs : length (fit32 bs) = 32%nat.
Proof. unfold fit32. rewrite length_take, length_app, repeat_length. lia. Qed.

#[export] Instance sample_rotation_crypto : RotationCrypto.
Proof.
  refine {|
    to_bytes := sample_to_bytes;
    sign_arbitrary_message sk m := fit32 sk ++ fit32 m;
    signature_verify_strict_internal sig pk m := bool_decide (sig = fit32 pk ++ fit32 m);
    multi_ed25519_auth_key _ := Err "none"%string;
    multi_ed25519_verify _ _ _ := Err "none"%string
  |}.
  - intros l. cbn. induction l as [|x l IH]; [done|]. cbn. by rewrite IH.
  - done.
  - done.
  - intros sk m _. by rewrite length_app, !fit32_length.
  - intros sk m _. by apply bool_decide_true.
  - intros pk. cbn. by rewrite removelast_app, app_nil_r by done.
Defined.

Definition alice : AccountAddress := repeat 1 32.
Definition bob : AccountAddress := repeat 2 32.
Definition sample_chain : Chain := mk_chain
  {[ alice := mk_account (auth_key_of alice) 4 None; bob := mk_account (auth_key_of bob) 9 None ]} ∅ 1.
Definition fresh_key : bytes := repeat 3 32.

Lemma sample_can_move : can_move sample_chain alice (auth_key_of alice) (auth_key_of fresh_key).
Proof. split; [by intros a|by right]. Qed.

Lemma rotate_key_accepted_witness :
  ∃ p c', rotate_key alice alice (auth_key_of alice) 4 fresh_key = Ok p ∧ execute alice p sample_chain = Ok c' ∧
    accounts c' !! alice = Some (mk_account (auth_key_of fresh_key) 4 None) ∧
    (∀ a, a ≠ alice → accounts c' !! a = accounts sample_chain !! a) ∧
    ((∀ y, accounts sample_chain !! auth_key_of fresh_key = Some y →
        auth_key_of fresh_key = alice ∨ authentication_key y ≠ auth_key_of fresh_key) →
     get_originating_address (auth_key_of fresh_key) c' = Ok alice).
Proof.
  apply (rotate_key_accepted sample_chain alice (mk_account (auth_key_of alice) 4 None) alice fresh_key);
    [done..|apply sample_can_move].
Defined.

Lemma delegated_rotation_witness :
  let me := mk_local alice alice 4 in
  (∃ p1 p2 c1 c2,
    offer_rotation_capability_v2 me bob 1 4 = Ok p1 ∧ execute alice p1 sample_chain = Ok c1 ∧
    rotate_key_delegated 9 alice (auth_key_of alice) fresh_key = Ok p2 ∧ execute bob p2 c1 = Ok c2 ∧
    accounts c2 !! alice = Some (mk_account (auth_key_of fresh_key) 4 (Some bob)) ∧
    ∀ a, a ≠ alice → accounts c2 !! a = accounts sample_chain !! a) ∧
  (∀ k pk cap, None ≠ Some bob →
     is_err (execute bob (account_rotate_authentication_key_with_rotation_capability alice k pk cap) sample_chain) = true) ∧
  (∀ k pk cap c', execute alice (account_revoke_rotation_capability bob) sample_chain = Ok c' →
     is_err (execute bob (account_rotate_authentication_key_with_rotation_capability alice k pk cap) c') = true).
Proof.
  apply (delegated_rotation sample_chain alice bob (mk_account (auth_key_of alice) 4 None)
           (mk_account (auth_key_of bob) 9 None) alice fresh_key); [done..|apply sample_can_move].
Defined.

(** Rotating to the key of an account that was never rotated: the key keeps
    leading to that account, and the rotated one is no longer found by it. *)
Example rotated_to_a_used_key :
  match rotate_key alice alice (auth_key_of alice) 4 bob with
  | Ok p => c' ← execute alice p sample_chain; get_originating_address (auth_key_of bob) c'
  | _ => Err "no payload"
  end = Ok bob.
Proof. vm_compute. reflexivity. Qed.
