(* ===== verification/TxsCommands.v ===== *)
(** * tools/txs: the validator, governance and user commands

    txs_cli_vals.rs with config/src/validator_registration.rs,
    txs_cli_governance.rs and the rest of txs_cli_user.rs: what each command
    reads from files and asks the node, and the payload it sends. *)
From Stdlib Require Import ZArith Lia Ascii.
From stdpp Require Import base option list strings gmap.
From S2P Require Import Prelude RustStr Json Effects Bytes FileSystem MoveTypes Mnemonic Wallet.
From S2P Require Import HashValue F64 ValidatorKeys AppCfg Node EntryCalls Payloads TxSender TxsCommunity KeyRotation.

Open Scope list_scope.
Open Scope Z_scope.

(** ** Validators *)
Inductive ValidatorTxs :=
| Pof (bid_pct : option f64) (epoch_expiry : Z) (retract : bool) (net_reward : option Z)
| Jail (unjail_acct : AccountAddress)
| Register (operator_file : option path)
| Update (operator_file : option path).

Record ValCredentials := mk_credentials {
  vc_account : AccountAddress;
  consensus_pubkey : bytes;
  proof_of_possession : bytes;
  network_addresses : bytes;
  fullnode_addresses : bytes
}.

(** serde_yaml at the operator's configuration, network addresses of diem, and
    the BCS of a vector of one *)
Class OperatorCrates := {
  operator_config_from_yaml : string → outcome OperatorConfiguration;
  as_network_address : HostAndPort → bytes → outcome bytes;
  bcs_one_address : bytes → outcome bytes
}.

Section validators.
Context `{AppCfgEnv, OperatorCrates}.

Definition operator_path (operator_file : option path) : path :=
  default (path_join global_config_dir OPERATOR_FILE) operator_file.
Definition read_operator_yaml (operator_file : option path) : io OperatorConfiguration :=
  yaml_str ← io_read (read_to_string (operator_path operator_file));
  io_lift (operator_config_from_yaml yaml_str).

Definition registration_from_operator_yaml (operator_keyfile : option path) : io ValCredentials :=
  oc ← read_operator_yaml operator_keyfile;
  io_lift (
    val_net_protocol ← as_network_address (op_validator_host oc) (op_validator_network_public_key oc);
    fullnode_host ← context_opt "cannot find fullnode host in operator config file" (op_full_node_host oc);
    fullnode_key ← context_opt "cannot find fullnode network public key in operator config file"
                     (op_full_node_network_public_key oc);
    vfn_fullnode_protocol ← as_network_address fullnode_host fullnode_key;
    network_addresses ← bcs_one_address val_net_protocol;
    fullnode_addresses ← bcs_one_address vfn_fullnode_protocol;
    Ok (mk_credentials (op_operator_account_address oc) (op_consensus_public_key oc) (op_consensus_proof_of_possession oc)
          network_addresses fullnode_addresses)).

Definition update_from_operator_yaml (operator_file : option path) : io EntryFunctionCall :=
  oc ← read_operator_yaml operator_file;
  io_lift (
    val_net_protocol ← as_network_address (op_validator_host oc) (op_validator_network_public_key oc);
    fullnode_host ← context_opt "cannot find fullnode host in operator config file" (op_full_node_host oc);
    fullnode_key ← context_opt "cannot find fullnode network public key operator config file"
                     (op_full_node_network_public_key oc);
    vfn_fullnode_protocol ← as_network_address fullnode_host fullnode_key;
    new_network_addresses ← bcs_one_address val_net_protocol;
    new_fullnode_addresses ← bcs_one_address vfn_fullnode_protocol;
    Ok (StakeUpdateNetworkAndFullnodeAddresses (op_operator_account_address oc) new_network_addresses
          new_fullnode_addresses)).

Definition scaled_bid (b : f64) : Z := f64_to_u64 (f64_round (f64_mul b (f64_of_int 1000))).
Definition make_payload (tx : ValidatorTxs) : io EntryFunctionCall :=
  match tx with
  | Pof bid_pct epoch_expiry retract net_reward =>
      if retract then mret ProofOfFeePofRetractBid else
      match bid_pct, net_reward with
      | Some b, _ =>
          let scaled := scaled_bid b in
          if 1100 <? scaled then
            io_lift (Err "a bid amount at 110.0% or above the epoch's reward, will be rejected")
          else mret (ProofOfFeePofUpdateBid scaled epoch_expiry)
      | None, Some n => mret (ProofOfFeePofUpdateBidNetReward n epoch_expiry)
      | None, None => io_lift (Err "either bid_pct or net_reward must be provided")
      end
  | Jail unjail_acct => mret (JailUnjailByVoucher unjail_acct)
  | Register operator_file =>
      reg ← registration_from_operator_yaml operator_file;
      mret (ValidatorUniverseRegisterValidator (consensus_pubkey reg) (proof_of_possession reg) (network_addresses reg)
              (fullnode_addresses reg))
  | Update operator_file => update_from_operator_yaml operator_file
  end.

Context `{RestNode, TxSdk}.
Definition validator_run (tx : ValidatorTxs) : st session unit :=
  payload ← on_files (make_payload tx);
  _ ← sign_submit_wait (encode payload);
  mret tt.
End validators.

(** ** Governance *)
Inductive GovernanceTxs :=
| GovPropose (proposal_script_dir : path) (metadata_url : string)
| GovVote (proposal_id : Z) (should_fail : bool)
| GovResolve (proposal_id : Z) (proposal_script_dir : path)
| GovEpochBoundary.

Section governance.
Context `{RestNode, TxSdk, HexCrate}.

(** The payload, or why there is none *)
Definition governance_payload (tx : GovernanceTxs) : st session TransactionPayload :=
  match tx with
  | GovPropose dir url =>
      let hash_path := path_join dir "script_sha3" in
      _ ← on_files (io_read (fun fs => ensure (exists_ dir fs && exists_ hash_path fs) "cannot find upgrade script package"));
      hash ← on_files (io_read (read_to_string hash_path));
      _num ← on_snd get_next_governance_proposal_id;
      h ← st_lift (context_opt "invalid hex" (hex_decode hash));
      mret (diem_governance_ol_create_proposal_v2 h (str_bytes url) (str_bytes "metadata struct") true)
  | GovVote id should_fail => mret (diem_governance_ol_vote id (negb should_fail))
  | GovResolve id dir =>
      resolved ← st_result (context_res "cannot get status of proposal") (on_snd (is_gov_proposal_resolved id));
      _ ← st_lift (ensure (negb resolved) "proposal has already been resolved");
      _ ← on_files (io_read (fun fs => rust_assert (exists_ dir fs) "proposal script cannot be found"));
      code ← on_files (io_unwrap (io_read (read_to_string (path_join dir "script.mv"))));
      mret (PayloadScript (mk_script (str_bytes code) [] [ArgU64 id]))
  | GovEpochBoundary => mret diem_governance_trigger_epoch
  end.
Definition governance_run (tx : GovernanceTxs) : st session unit :=
  payload ← governance_payload tx;
  _ ← sign_submit_wait payload;
  mret tt.
End governance.

(** ** Users *)
Inductive UserTxs :=
| SetSlow
| RotationCapability (revoke : bool) (delegate_address : AccountAddress)
| RotateKey (new_private_key : option string) (claim_address : option AccountAddress)
| ReJoin
| Vouch (vouch_for : AccountAddress) (revoke : bool).

Section users.
Context `{RotationCrypto, RestNode, TxSdk, DiemAddress}.
Context (prompt : outcome bytes) (confirm : option (bool * bool)).

(** The reports are printed; their errors too. *)
Definition show_reports (sender_address target : AccountAddress) : st session unit :=
  _ ← attempt (on_snd (account_vouch_report sender_address));
  _ ← attempt (on_snd (account_vouch_report target));
  mret tt.
Definition vouch_run (vouch_for : AccountAddress) (revoke : bool) : st session unit :=
  self ← get_sender;
  let me := la_address (local_account self) in
  _ ← show_reports me vouch_for;
  _ ← sign_submit_wait (if revoke then vouch_txs_revoke vouch_for else vouch_txs_vouch_for vouch_for);
  show_reports me vouch_for.

(** Three of the commands print their error and succeed. *)
Definition user_run (tx : UserTxs) : st session unit :=
  match tx with
  | RotateKey k a => st_result swallow (rotate_run prompt confirm k a)
  | SetSlow => st_result swallow (_ ← sign_submit_wait slow_wallet_user_set_slow; mret tt)
  | RotationCapability revoke delegate => st_result swallow (capability_run revoke delegate)
  | ReJoin => _ ← sign_submit_wait filo_migration_maybe_migrate; mret tt
  | Vouch a revoke => vouch_run a revoke
  end.
End users.

(** ** Lemmas *)

(** A percentage with three decimals, as it is parsed: the nearest float *)
Definition thousandths (k : Z) : f64 := f64_div (f64_of_int k) (f64_of_int 1000).

Lemma scaled_bid_exact k : 0 ≤ k < 5001 → scaled_bid (thousandths k) = k.
Proof.
  intros Hk. apply Z.eqb_eq.
  apply (forall_below (fun k => scaled_bid (thousandths k) =? k) 5001); [vm_compute; reflexivity|done].
Qed.

Lemma scaled_bid_range b : 0 ≤ scaled_bid b.
Proof.
  unfold scaled_bid, f64_to_u64. destruct (f64_round _) as [s|s| |s m e]; try done; destruct s; try done.
  apply Z.min_glb; [done|]. by apply Z.shiftl_nonneg.
Qed.

(** The configuration file read by both commands gives the same addresses. *)
Lemma register_and_update_agree `{AppCfgEnv, OperatorCrates} f fs fs' reg :
  registration_from_operator_yaml f fs = (fs', Ok reg) →
  update_from_operator_yaml f fs =
    (fs', Ok (StakeUpdateNetworkAndFullnodeAddresses (vc_account reg) (network_addresses reg) (fullnode_addresses reg))).
Proof.
  intros Hr. unfold registration_from_operator_yaml in Hr. apply io_bind_ok in Hr as (f1 & oc & Hoc & Hr).
  apply io_lift_ok in Hr as [-> Hr]. unfold update_from_operator_yaml, mbind, io_bind. rewrite Hoc. unfold io_lift. f_equal.
  inv_ok. repeat (match goal with E : ?a = _ |- context [?a] => rewrite E end; cbn [mbind outcome_bind context_opt]).
  done.
Qed.

Section governance_facts.
Context `{RestNode, TxSdk, HexCrate, Sha3}.

(** A compiled proposal: the script and its hash in text *)
Definition package (dir : path) (code : string) (fs : file_system) : Prop :=
  is_Some (fs !! dir) ∧ fs !! path_join dir "script.mv" = Some (File code) ∧
  fs !! path_join dir "script_sha3" = Some (File (hex_encode (sha3_256 (str_bytes code)))).

Lemma propose_result dir code url self w :
  package dir code (w_files w) →
  snd (governance_payload (GovPropose dir url) (self, w)) =
    (fun _ => diem_governance_ol_create_proposal_v2 (sha3_256 (str_bytes code)) (str_bytes url)
                (str_bytes "metadata struct") true) <$> snd (get_next_governance_proposal_id w).
Proof.
  intros (Hd & _ & Hh). destruct w as [h fs]. cbn [w_files] in *. unfold governance_payload.
  unfold mbind, st_bind, on_files, on_snd, io_read. cbn [w_files w_history].
  unfold exists_. rewrite Hh. rewrite !bool_decide_true by (done || by eexists). cbn [ensure andb].
  unfold read_to_string. rewrite Hh. destruct (get_next_governance_proposal_id _) as [w' [n|e|p]]; [|done..].
  pose proof (sha3_256_law (str_bytes code)) as [_ Hb]. rewrite hex_encode_law by done.
  rewrite (proj2 (hex_decode_law _ (sha3_256 (str_bytes code)))); [done|]. split; [done|by apply str_lower_fmt_02x].
Qed.

Lemma quiet_resolved id : steps quiet (is_gov_proposal_resolved id).
Proof. unfold is_gov_proposal_resolved. st_steps. Qed.

Lemma resolve_result dir code id self w :
  package dir code (w_files w) →
  snd (governance_payload (GovResolve id dir) (self, w)) =
    match snd (is_gov_proposal_resolved id w) with
    | Ok false => Ok (PayloadScript (mk_script (str_bytes code) [] [ArgU64 id]))
    | Ok true => Err "proposal has already been resolved"
    | Err _ => Err "cannot get status of proposal"
    | Panic p => Panic p
    end.
Proof.
  intros (Hd & Hc & _). unfold governance_payload.
  unfold mbind, st_bind, st_result, on_snd. pose proof (quiet_resolved id w) as [Hf _].
  destruct (is_gov_proposal_resolved id w) as [w' [b|e|p]]; cbn [fst snd] in *; [|done..]. cbn [context_res].
  destruct b; [done|]. cbn. unfold on_files, on_snd, io_read. rewrite Hf. unfold exists_. rewrite bool_decide_true by done.
  cbn [rust_assert]. unfold io_unwrap, io_result. cbn [w_files]. unfold read_to_string. by rewrite ?Hf, Hc.
Qed.
End governance_facts.

(** ** Properties *)

(** C28: a bid of a percentage with three decimals up to 110.0% is submitted as
    exactly its thousandths, and one from 110.1% up to 500.0% is refused; no
    other number makes a bid above 110.0%.  Retracting takes precedence, and a
    command without a bid or a reward is an error. *)
Theorem bids_spec `{AppCfgEnv, OperatorCrates} epoch_expiry net_reward fs :
  (∀ k, 0 ≤ k ≤ 1100 →
     make_payload (Pof (Some (thousandths k)) epoch_expiry false net_reward) fs =
       (fs, Ok (ProofOfFeePofUpdateBid k epoch_expiry))) ∧
  (∀ k, 1100 < k ≤ 5000 →
     is_err (snd (make_payload (Pof (Some (thousandths k)) epoch_expiry false net_reward) fs)) = true) ∧
  (∀ b bid e, snd (make_payload (Pof b epoch_expiry false net_reward) fs) = Ok (ProofOfFeePofUpdateBid bid e) →
     0 ≤ bid ≤ 1100 ∧ e = epoch_expiry) ∧
  (∀ b, make_payload (Pof b epoch_expiry true net_reward) fs = (fs, Ok ProofOfFeePofRetractBid)) ∧
  is_err (snd (make_payload (Pof None epoch_expiry false None) fs)) = true.
Proof.
  split_and!; try done.
  - intros k Hk. cbn [make_payload]. rewrite scaled_bid_exact by lia. by destruct (Z.ltb_spec 1100 k); [lia|].
  - intros k Hk. cbn [make_payload]. rewrite scaled_bid_exact by lia. by destruct (Z.ltb_spec 1100 k); [|lia].
  - intros b bid e. cbn [make_payload]. destruct b as [b|]; [|by destruct net_reward].
    destruct (Z.ltb_spec 1100 (scaled_bid b)); [done|]. cbn. intros [= <- <-].
    pose proof (scaled_bid_range b). split; [lia|done].
Qed.

(** a proposal and its resolution fit together.  From the directory of a
    compiled script, the hash proposed is that of the script the resolution
    submits; what decides whether there is a payload is only the node, which
    is asked before anything is sent, and a resolved proposal is not resolved
    again.  A vote is for the proposal unless it is to fail. *)
Theorem proposal_and_resolution `{RestNode, TxSdk, HexCrate, Sha3} dir code url id self w :
  package dir code (w_files w) →
  snd (governance_payload (GovPropose dir url) (self, w)) =
    (fun _ => diem_governance_ol_create_proposal_v2 (sha3_256 (str_bytes code)) (str_bytes url)
                (str_bytes "metadata struct") true) <$> snd (get_next_governance_proposal_id w) ∧
  snd (governance_payload (GovResolve id dir) (self, w)) =
    match snd (is_gov_proposal_resolved id w) with
    | Ok false => Ok (PayloadScript (mk_script (str_bytes code) [] [ArgU64 id]))
    | Ok true => Err "proposal has already been resolved"
    | Err _ => Err "cannot get status of proposal"
    | Panic p => Panic p
    end ∧
  ∀ fail, governance_payload (GovVote id fail) (self, w) = ((self, w), Ok (diem_governance_ol_vote id (negb fail))).
Proof. intros Hp. split; [by apply propose_result|]. split; [by apply resolve_result|done]. Qed.

(** ** Witnesses *)
#[export] Instance sample_operator_crates : OperatorCrates := {|
  operator_config_from_yaml _ := Err "not a configuration"%string;
  as_network_address h k := Ok k;
  bcs_one_address a := Ok (1 :: a)
|}.

Lemma bids_spec_witness :
  (∀ k, 0 ≤ k ≤ 1100 →
     make_payload (Pof (Some (thousandths k)) 9 false None) ∅ = (∅, Ok (ProofOfFeePofUpdateBid k 9))) ∧
  (∀ k, 1100 < k ≤ 5000 → is_err (snd (make_payload (Pof (Some (thousandths k)) 9 false None) ∅)) = true) ∧
  (∀ b bid e, snd (make_payload (Pof b 9 false None) ∅) = Ok (ProofOfFeePofUpdateBid bid e) → 0 ≤ bid ≤ 1100 ∧ e = 9) ∧
  (∀ b, make_payload (Pof b 9 true None) ∅ = (∅, Ok ProofOfFeePofRetractBid)) ∧
  is_err (snd (make_payload (Pof None 9 false None) ∅)) = true.
Proof. apply (bids_spec 9 None ∅). Defined.

(** A negative percentage is not refused: it becomes a bid of zero. *)
Example negative_bid : scaled_bid (f64_of_int (-3)) = 0.
Proof. vm_compute. reflexivity. Qed.

Definition proposal_world : world :=
  mk_world [] {[ ["d"%string] := Dir; ["d"; "script.mv"]%string := File "code";
                 ["d"; "script_sha3"]%string := File (hex_encode (sha3_256 (str_bytes "code"))) ]}.
Definition proposal_node : RestNode := sample_node (fun _ => inl [JBool false]) (fun _ => inl None).

Lemma proposal_and_resolution_witness :
  let dir := ["d"%string] in
  package dir "code" (w_files proposal_world) ∧
  snd (@governance_payload quiet_node _ (GovPropose dir "url") (sample_sender, proposal_world)) =
    (fun _ => diem_governance_ol_create_proposal_v2 (sha3_256 (str_bytes "code")) (str_bytes "url")
                (str_bytes "metadata struct") true) <$> snd (@get_next_governance_proposal_id quiet_node proposal_world) ∧
  snd (@governance_payload proposal_node _ (GovResolve 7 dir) (sample_sender, proposal_world)) =
    match snd (@is_gov_proposal_resolved proposal_node 7 proposal_world) with
    | Ok false => Ok (PayloadScript (mk_script (str_bytes "code") [] [ArgU64 7]))
    | Ok true => Err "proposal has already been resolved"
    | Err _ => Err "cannot get status of proposal"
    | Panic p => Panic p
    end.
Proof.
  intros dir. assert (Hp : package dir "code" (w_files proposal_world)) by (split_and!; [by eexists|done..]).
  split; [done|]. split.
  - by apply (@proposal_and_resolution quiet_node _ _ _ dir "code" "url" 7 sample_sender proposal_world).
  - by apply (@proposal_and_resolution proposal_node _ _ _ dir "code" "url" 7 sample_sender proposal_world).
Defined.

Example resolution_is_sent :
  let r := @governance_run proposal_node _ _ (GovResolve 7 ["d"%string]) (sample_sender, proposal_world) in
  (tx_key <$> submissions (w_history (snd (fst r)))) =
    [(addr_ONE, 5, PayloadScript (mk_script (str_bytes "code") [] [ArgU64 7]))].
Proof. vm_compute. reflexivity. Qed.
