(* ===== verification/UpgradeProposal.v ===== *)
(** * framework/src/builder: the scripts of a framework upgrade

    framework_generate_upgrade_proposal.rs and framework_release_bundle.rs: each
    core module is compiled into a governance script that publishes it and
    names the hash of the next script; so the scripts are made from the last to
    the first.  The Move compiler is an interface; a CodeWriter's calls are
    listed, and rendering them is the crate's. *)
From Stdlib Require Import ZArith Lia Ascii.
From stdpp Require Import base option list strings gmap.
From S2P Require Import Prelude RustStr Json Effects Bytes FileSystem MoveTypes HashValue GenesisRegistration Restore.
From S2P Require Import Node EntryCalls Payloads TxSender TxsCommunity KeyRotation TxsCommands.

Open Scope list_scope.
Open Scope Z_scope.

Record ReleasePackage := mk_release {
  rp_name : string;
  rp_source_digest : string;
  rp_policy : Z;
  rp_code : list bytes
}.
(** What is written with a [CodeWriter] *)
Inductive emission := Emit (s : string) | EmitLn (s : string) | Indent | Unindent.

(** The diem crates and git: the build of a package from its directory, the code
    of its scripts, an empty package; a build writes nothing but its own build
    directory, which nothing here reads. *)
Class UpgradeCrates := {
  git_head : path → option (outcome string);
  build_info_git_hash : string;
  build_release : path → file_system → outcome ReleasePackage;
  build_scripts : path → file_system → outcome (list bytes);
  bcs_metadata : ReleasePackage → outcome bytes;
  init_move_dir_generic : path → string → string → path → file_system → outcome file_system;
  render : list emission → string;
  build_scripts_law d fs codes : build_scripts d fs = Ok codes → Forall is_bytes codes;
  init_law d name framework p fs fs' :
    init_move_dir_generic d name framework p fs = Ok fs' →
    is_Some (fs' !! d) ∧ ∀ q, ¬ d `prefix_of` q → fs' !! q = fs !! q
}.

Definition nl : string := String "010" EmptyString.
Definition quote : string := String "034" EmptyString.
Definition show_nat (n : nat) : string := show_uint (Z.of_nat n).

(** ** framework_release_bundle.rs *)

(** A line break before every twentieth byte *)
Fixpoint blob_bytes (i : nat) (data : bytes) : list emission :=
  match data with
  | [] => []
  | b :: data' =>
      (if ((i + 1) mod 20 =? 0)%nat then [EmitLn ""] else []) ++ Emit (show_uint b +:+ "u8,") :: blob_bytes (S i) data'
  end.
Definition generate_blob (data : bytes) : list emission :=
  [EmitLn "vector["; Indent] ++ blob_bytes 0 data ++ [EmitLn ""; Unindent; Emit "]"].

Definition chunk_size : nat := Z.to_nat (65535 / 2).
(** The drain of the metadata: chunks 1 to [n], the last one what is left *)
Fixpoint drain_chunks (n : nat) (metadata : bytes) : list bytes :=
  match n with
  | O => []
  | S O => [metadata]
  | S n' => take chunk_size metadata :: drain_chunks n' (drop chunk_size metadata)
  end.
Definition metadata_chunks (metadata : bytes) : list bytes :=
  drain_chunks (length metadata / chunk_size + 1) metadata.

Section script.
Context `{UpgradeCrates, DiemAddress, HexCrate}.

Definition generate_next_execution_hash_blob (for_address : AccountAddress) (next_execution_hash : bytes) : list emission :=
  if bool_decide (next_execution_hash = str_bytes "vector::empty<u8>()") then
    [EmitLn ("let framework_signer = diem_governance::resolve_multi_step_proposal(proposal_id, @" +:+
             addr_to_string for_address +:+ ", vector::empty<u8>());" +:+ nl)]
  else
    [EmitLn "let framework_signer = diem_governance::resolve_multi_step_proposal("; Indent; EmitLn "proposal_id,";
     EmitLn ("@" +:+ addr_to_string for_address +:+ ","); Emit "vector["] ++
    ((fun b => Emit (show_uint b +:+ "u8,")) <$> next_execution_hash) ++
    [EmitLn "],"; Unindent; EmitLn ");"].

Definition code_chunk (i : nat) (code : bytes) : list emission :=
  [EmitLn ("let code_chunk" +:+ show_nat i +:+ " = ")] ++ generate_blob code ++
  [EmitLn ";"; EmitLn ("vector::push_back(&mut code, code_chunk" +:+ show_nat i +:+ ");")].
Definition metadata_chunk (i : nat) (chunk : bytes) : list emission :=
  [Emit ("let metadata_chunk" +:+ show_nat (i + 1) +:+ " = ")] ++ generate_blob chunk ++ [EmitLn ";"].
Definition append_chunk (i : nat) : emission :=
  EmitLn ("vector::append(&mut metadata_chunk1, metadata_chunk" +:+ show_nat i +:+ ");").

Definition author_script (release : ReleasePackage) (for_address : AccountAddress) (next_execution_hash : bytes)
    (framework_git_hash : string) : outcome (list emission) :=
  metadata ← bcs_metadata release;
  let chunks := metadata_chunks metadata in
  Ok ([EmitLn ("// Upgrade proposal for package `" +:+ rp_name release +:+ "`" +:+ nl);
       EmitLn ("// Framework commit hash: " +:+ framework_git_hash +:+ nl +:+ "// Builder commit hash: " +:+
               build_info_git_hash +:+ nl);
       EmitLn ("// Next step script hash: " +:+ hex_encode next_execution_hash +:+ nl);
       EmitLn ("// source digest: " +:+ rp_source_digest release); EmitLn "script {"; Indent; EmitLn "use std::vector;";
       EmitLn "use diem_framework::diem_governance;"; EmitLn ("use diem_framework::code;" +:+ nl);
       EmitLn ("use diem_framework::version;" +:+ nl); EmitLn "fun main(proposal_id: u64){"; Indent] ++
      generate_next_execution_hash_blob for_address next_execution_hash ++
      [EmitLn "let code = vector::empty();"] ++
      mjoin (imap code_chunk (rp_code release)) ++
      mjoin (imap metadata_chunk chunks) ++
      (append_chunk <$> seq 2 (length chunks - 1)) ++
      [EmitLn "code::publish_package_txn(&framework_signer, metadata_chunk1, code);";
       EmitLn ("version::upgrade_set_git(&framework_signer, x" +:+ quote +:+ framework_git_hash +:+ quote +:+ ")"); Unindent; EmitLn "}";
       Unindent; EmitLn "}"]).
Definition libra_author_script_file (release : ReleasePackage) (for_address : AccountAddress) (out : path)
    (next_execution_hash : bytes) (framework_git_hash : string) : io unit :=
  text ← io_lift (author_script release for_address next_execution_hash framework_git_hash);
  io_write out (render text).
End script.

(** ** framework_generate_upgrade_proposal.rs *)
Definition CORE_MODULE_ADDRESS : string := "0x1".
Definition default_core_modules : list string := ["move-stdlib"; "vendor-stdlib"; "libra-framework"]%string.

(** [PathBuf::set_extension] on a last component *)
Definition set_extension (c ext : string) : string := file_stem c +:+ "." +:+ ext.
Definition ordered_display_name (deploy_order : nat) (core_module_name : string) : string :=
  show_nat deploy_order +:+ "-" +:+ core_module_name.
Definition gov_module_dir (proposal_dir : path) (deploy_order : nat) (core_module_name : string) : path :=
  path_join proposal_dir (ordered_display_name deploy_order core_module_name).
Definition gov_script_path (proposal_dir : path) (deploy_order : nat) (core_module_name : string) : path :=
  path_join (path_join (gov_module_dir proposal_dir deploy_order core_module_name) "sources")
    (set_extension (ordered_display_name deploy_order core_module_name) "move").

Section upgrade.
Context `{UpgradeCrates, DiemAddress, HexCrate, Sha3}.

(** [HashValue::to_hex] and [to_hex_literal] of diem_crypto *)
Definition hash_to_hex (hash : bytes) : string := fmt_02x hash.
Definition hash_to_hex_literal (hash : bytes) : string := "0x" +:+ fmt_02x hash.

Definition save_build (script_package_dir : path) (code hash : bytes) : io unit :=
  _ ← io_write (path_join script_package_dir "script.mv") (bytes_str code);
  io_write (path_join script_package_dir "script_sha3") (hash_to_hex hash).

(** [code.pop()]: the last script of the package *)
Definition libra_compile_script (script_package_dir : path) : io (bytes * bytes) :=
  codes ← io_read (build_scripts script_package_dir);
  code ← io_lift (context_opt "could not find any code in BuiltPackage" (last codes));
  let hash := sha3_256 code in
  _ ← save_build script_package_dir code hash;
  mret (code, hash).

Definition init_move_dir_wrapper (package_dir : path) (script_name : string) (framework_local_dir : path) : io unit :=
  framework ← io_read (canonicalize framework_local_dir);
  io_update (init_move_dir_generic package_dir script_name "LibraFramework" framework).

Definition get_framework_git_head (p : path) : outcome string :=
  match git_head p with
  | Some r => r
  | None => Panic "called `Result::unwrap()` on an `Err` value"
  end.

Definition with_policy (force : bool) (r : ReleasePackage) : ReleasePackage :=
  if force then mk_release (rp_name r) (rp_source_digest r) 0 (rp_code r) else r.

Section modules.
Context (proposal_dir framework_local_dir : path) (force : bool) (git_hash : string) (deploy_to : AccountAddress).

(** One round of the loop: the hash of the script made, and its source *)
Definition upgrade_one (deploy_order : nat) (core_module_name : string) (next_execution_hash : bytes)
    : io (bytes * string) :=
  dir ← io_read (canonicalize framework_local_dir);
  let core_module_dir := path_join dir core_module_name in
  _ ← io_read (fun fs => ensure (exists_ core_module_dir fs) "package path does not exist");
  release ← io_read (build_release core_module_dir);
  let release := with_policy force release in
  _ ← init_move_dir_wrapper (gov_module_dir proposal_dir deploy_order core_module_name) "upgrade_scripts"
        (path_join framework_local_dir "libra-framework");
  _ ← libra_author_script_file release deploy_to (gov_script_path proposal_dir deploy_order core_module_name)
        next_execution_hash git_hash;
  '(_, hash) ← libra_compile_script (gov_module_dir proposal_dir deploy_order core_module_name);
  text ← io_read (read_to_string (gov_script_path proposal_dir deploy_order core_module_name));
  mret (hash, "// This script source hash (used for tx authorization): " +:+ hash_to_hex_literal hash +:+ nl +:+ text).

(** The modules in reverse, the [idx]-th of [len] next *)
Fixpoint upgrade_loop (len idx : nat) (core_modules : list string) (next_execution_hash : bytes)
    : io (list (string * string)) :=
  match core_modules with
  | [] => mret []
  | core_module_name :: core_modules' =>
      '(hash, script) ← upgrade_one (len - idx) core_module_name next_execution_hash;
      formatted_scripts ← upgrade_loop len (S idx) core_modules' hash;
      mret ((core_module_name, script) :: formatted_scripts)
  end.
End modules.

Definition make_framework_upgrade_artifacts (proposal_move_package_dir framework_local_dir : path)
    (core_modules : option (list string)) (force_incompatible_upgrade : bool) : io (list (string * string)) :=
  git_hash ← io_lift match get_framework_git_head framework_local_dir with Err _ => Ok "none"%string | r => r end;
  deploy_to ← io_lift (context_opt "hex literal" (addr_from_hex_literal CORE_MODULE_ADDRESS));
  let core_modules := reverse (default default_core_modules core_modules) in
  upgrade_loop proposal_move_package_dir framework_local_dir force_incompatible_upgrade git_hash deploy_to
    (length core_modules) 0 core_modules [].

(** The scripts in the order they come, numbered from zero *)
Fixpoint write_from (idx : nat) (result : list (string * string)) (proposal_dir : path) : io unit :=
  match result with
  | [] => mret tt
  | (script_name, script) :: result' =>
      _ ← io_write (path_join proposal_dir (set_extension (ordered_display_name idx script_name) "move")) script;
      write_from (S idx) result' proposal_dir
  end.
Definition write_to_file (result : list (string * string)) (proposal_dir : path) : io unit := write_from 0 result proposal_dir.

(** ** framework_cli.rs: [FrameworkUpgrade::execute] *)
Definition upgrade_execute (output_dir framework_local_dir : path) (core_modules : option (list string))
    (danger_force_upgrade : bool) : io unit :=
  fs ← io_read (fun fs => Ok fs);
  _ ← (if exists_ output_dir fs then mret tt else io_update (create_dir_all output_dir));
  _ ← make_framework_upgrade_artifacts output_dir framework_local_dir core_modules danger_force_upgrade;
  mret tt.
End upgrade.

(** ** Lemmas: names and chunks *)
Lemma no_char_join a b x y (c : ascii) :
  no_char (Ascii.eqb c) a = true → no_char (Ascii.eqb c) b = true →
  a +:+ String c x = b +:+ String c y → a = b.
Proof.
  revert b. induction a as [|d a IH]; intros [|e b] Ha Hb E; try done; cbn in Ha, Hb, E.
  - injection E as -> _. by rewrite Ascii.eqb_refl in Hb.
  - injection E as -> _. by rewrite Ascii.eqb_refl in Ha.
  - injection E as -> E. apply andb_true_iff in Ha as [_ Ha], Hb as [_ Hb]. f_equal. by apply IH.
Qed.

Lemma ordered_display_name_order j k m m' :
  is_u64 (Z.of_nat j) → is_u64 (Z.of_nat k) → ordered_display_name j m = ordered_display_name k m' → j = k.
Proof.
  intros Hj Hk E. unfold ordered_display_name, show_nat in E.
  assert (Hd : ∀ n, is_u64 (Z.of_nat n) → no_char (Ascii.eqb "-") (show_uint (Z.of_nat n)) = true).
  { intros n Hn. apply show_uint_no_char; [apply Hn|]. intros c Hc.
    destruct (Ascii.eqb "-" c) eqn:Ec; [|done]. apply Ascii.eqb_eq in Ec as <-. by vm_compute in Hc. }
  apply no_char_join in E; [|by apply Hd..].
  apply (f_equal parse_u64) in E. rewrite !parse_u64_show in E by done. apply Ok_inj in E. lia.
Qed.

Lemma gov_dirs_apart out j k m m' q :
  is_u64 (Z.of_nat j) → is_u64 (Z.of_nat k) → j ≠ k →
  gov_module_dir out j m `prefix_of` q → ¬ gov_module_dir out k m' `prefix_of` q.
Proof.
  intros Hj Hk Hne [x ->] [y E]. unfold gov_module_dir, path_join in E. rewrite <- !app_assoc in E.
  apply app_inv_head in E. cbn in E. injection E as E _. by apply (ordered_display_name_order _ _ _ _ Hj Hk) in E.
Qed.

Lemma chunk_size_pos : chunk_size ≠ O.
Proof. unfold chunk_size. change (65535 / 2) with 32767. lia. Qed.
#[local] Opaque chunk_size.

Lemma drain_chunks_spec n metadata :
  (n * chunk_size ≤ length metadata)%nat → (length metadata < (n + 1) * chunk_size)%nat →
  mjoin (drain_chunks (n + 1) metadata) = metadata ∧ length (drain_chunks (n + 1) metadata) = (n + 1)%nat ∧
  Forall (fun c => length c ≤ chunk_size)%nat (drain_chunks (n + 1) metadata).
Proof.
  revert metadata. induction n as [|n IH]; intros bs Hl Hu.
  - cbn [drain_chunks Nat.add]. split; [apply app_nil_r|]. split; [done|]. apply Forall_singleton. lia.
  - destruct (IH (drop chunk_size bs)) as (Hj & Hn & Hc); [rewrite length_drop; lia..|].
    assert (E : drain_chunks (S n + 1) bs = take chunk_size bs :: drain_chunks (n + 1) (drop chunk_size bs)).
    { cbn [Nat.add]. destruct (n + 1)%nat eqn:E; [lia|done]. }
    rewrite E. split; [|split].
    + change (take chunk_size bs ++ mjoin (drain_chunks (n + 1) (drop chunk_size bs)) = bs). by rewrite Hj, take_drop.
    + cbn [length]. lia.
    + constructor; [rewrite length_take; lia|done].
Qed.

(** The chunks together are the metadata, and each fits a Move constant. *)
Lemma metadata_chunks_spec metadata :
  mjoin (metadata_chunks metadata) = metadata ∧
  Forall (fun c => length c ≤ chunk_size)%nat (metadata_chunks metadata) ∧ metadata_chunks metadata ≠ [].
Proof.
  unfold metadata_chunks. pose proof (Nat.div_mod_eq (length metadata) chunk_size) as Hd.
  pose proof (Nat.mod_upper_bound (length metadata) chunk_size) as Hm.
  specialize (Hm chunk_size_pos).
  destruct (drain_chunks_spec (length metadata / chunk_size) metadata) as (Hj & Hn & Hf); [lia..|].
  split; [done|]. split; [done|]. intros E. rewrite E in Hn. cbn in Hn. lia.
Qed.

(** ** Lemmas: what a step leaves alone *)
Definition outside (d : path) (fs fs' : file_system) : Prop := ∀ q, ¬ d `prefix_of` q → fs' !! q = fs !! q.
#[export] Instance outside_preorder d : PreOrder (outside d).
Proof. split; [by intros fs q|]. intros f1 f2 f3 H1 H2 q Hq. by rewrite H2, H1. Qed.

Lemma outside_dir_write d p s : d `prefix_of` p → leaves (outside d) (io_write p s).
Proof.
  intros Hp. apply leaves_update; [apply _|]. intros fs fs' Hc q Hq.
  apply bind_ok in Hc as (f & [-> _]%file_create_ok & <-%Ok_inj). assert (p ≠ q) by by intros ->.
  unfold write_all. by rewrite !lookup_insert_ne.
Qed.
Lemma io_write_grows p s q fs fs' r : io_write p s fs = (fs', r) → is_Some (fs !! q) → is_Some (fs' !! q).
Proof. intros E Hq. pose proof (grows_write p s fs q Hq) as Hg. by rewrite E in Hg. Qed.

Section steps.
Context `{UpgradeCrates, DiemAddress, HexCrate, Sha3}.

Lemma outside_init d name p : leaves (outside d) (init_move_dir_wrapper d name p).
Proof.
  unfold init_move_dir_wrapper. apply leaves_bind; [apply _|apply leaves_read; apply _|intros fw].
  apply leaves_update; [apply _|]. intros fs fs' Hi q Hq. apply init_law in Hi as [_ Hi]. by apply Hi.
Qed.
Lemma outside_compile d : leaves (outside d) (libra_compile_script d).
Proof.
  unfold libra_compile_script, save_build, path_join. io_leaves; apply outside_dir_write; by apply prefix_app_r.
Qed.

Context (out framework_local_dir : path) (force : bool) (git_hash : string) (deploy_to : AccountAddress).
Notation one := (upgrade_one out framework_local_dir force git_hash deploy_to).
Notation loop := (upgrade_loop out framework_local_dir force git_hash deploy_to).

Lemma gov_script_prefix k m : gov_module_dir out k m `prefix_of` gov_script_path out k m.
Proof. unfold gov_script_path, path_join. rewrite <- app_assoc. by apply prefix_app_r. Qed.

Lemma outside_one k m next : leaves (outside (gov_module_dir out k m)) (one k m next).
Proof.
  unfold upgrade_one, libra_author_script_file. do 3 (apply leaves_bind; [apply _|apply leaves_read; apply _|intros ?]).
  apply leaves_bind; [apply _|apply outside_init|intros _]. apply leaves_bind; [apply _| |intros _].
  - apply leaves_bind; [apply _|apply leaves_lift; apply _|intros ?]. apply outside_dir_write, gov_script_prefix.
  - apply leaves_bind; [apply _|apply outside_compile|intros [? ?]]. io_leaves.
Qed.

(** The steps of other orders leave a directory alone. *)
Lemma loop_apart len idx ms next k m fs q :
  (∀ j, idx ≤ j < idx + length ms → k ≠ len - j)%nat → is_u64 (Z.of_nat len) → is_u64 (Z.of_nat k) →
  gov_module_dir out k m `prefix_of` q → fst (loop len idx ms next fs) !! q = fs !! q.
Proof.
  revert idx next fs. induction ms as [|x ms IH]; intros idx next fs Hk Hlen Hku Hq; cbn [upgrade_loop]; [done|].
  unfold mbind at 1, io_bind at 1. pose proof (outside_one (len - idx) x next fs) as Ho.
  assert (Hx : fst (one (len - idx) x next fs) !! q = fs !! q).
  { apply Ho. apply (gov_dirs_apart out k (len - idx) m x q); try done.
    - unfold is_u64 in *. lia.
    - apply Hk. cbn [length]. lia. }
  destruct (one _ _ _ fs) as [f1 [[hash script]|e|p]]; cbn [fst] in *; [|done..].
  unfold mbind at 1, io_bind at 1. specialize (IH (S idx) hash f1).
  destruct (loop len (S idx) ms hash f1) as [f2 [l|e|p]]; cbn [fst] in *;
    (etrans; [|exact Hx]; apply IH; [intros j Hj; apply Hk; cbn [length]; lia|done..]).
Qed.

(** A module's script is made: its directory is a package to propose, and its
    source is the script of the module's release and of the next hash. *)
Definition made (k : nat) (m : string) (next : bytes) (code : string) (fs' : file_system) : Prop :=
  package (gov_module_dir out k m) code fs' ∧
  ∃ fs0 release cmds, build_release (path_join framework_local_dir m) fs0 = Ok release ∧
    author_script (with_policy force release) deploy_to next git_hash = Ok cmds ∧
    fs' !! gov_script_path out k m = Some (File (render cmds)).

(** Only what is in the directory matters to it. *)
Lemma made_same k m next code fs fs' :
  (∀ q, gov_module_dir out k m `prefix_of` q → fs' !! q = fs !! q) → made k m next code fs → made k m next code fs'.
Proof.
  intros Hq ((Hd & Hc & Hh) & fs0 & rel & cmds & Hb & Ha & Ht). split.
  - split_and!; [by rewrite Hq|rewrite Hq; [done|by apply prefix_app_r]..].
  - exists fs0, rel, cmds. split; [done|]. split; [done|]. rewrite Hq; [done|apply gov_script_prefix].
Qed.

Lemma save_build_ok d code hash fs fs' :
  save_build d code hash fs = (fs', Ok tt) →
  fs' !! path_join d "script.mv" = Some (File (bytes_str code)) ∧
  fs' !! path_join d "script_sha3" = Some (File (fmt_02x hash)) ∧
  ∀ q, q ≠ path_join d "script.mv" → q ≠ path_join d "script_sha3" → fs' !! q = fs !! q.
Proof.
  intros Hs. apply io_bind_ok in Hs as (f1 & [] & Hw1 & Hw2).
  apply io_write_ok in Hw1 as [E1 K1]. apply io_write_ok in Hw2 as [E2 K2].
  split; [|split; [done|]].
  - rewrite K2; [done|]. intros E. by apply app_inv_head in E.
  - intros q Hq1 Hq2. by rewrite K2, K1.
Qed.


Lemma one_ok k m next fs fs' hash text :
  one k m next fs = (fs', Ok (hash, text)) →
  ∃ code, hash = sha3_256 (str_bytes code) ∧ made k m next code fs'.
Proof.
  unfold upgrade_one. intros Ho.
  apply io_bind_ok in Ho as (f1 & dir & Hd & Ho). apply io_read_ok in Hd as [-> Hd].
  unfold canonicalize in Hd. destruct (exists_ framework_local_dir fs); [|done]. apply Ok_inj in Hd as <-.
  apply io_bind_ok in Ho as (f2 & u & He & Ho). apply io_read_ok in He as [-> _].
  apply io_bind_ok in Ho as (f3 & rel & Hb & Ho). apply io_read_ok in Hb as [-> Hb].
  apply io_bind_ok in Ho as (f4 & [] & Hi & Ho).
  apply io_bind_ok in Hi as (f4' & fw & Hf & Hi). apply io_read_ok in Hf as [-> _].
  unfold io_update in Hi. destruct (init_move_dir_generic _ _ _ _ _) as [f4''|e|e] eqn:Ei; [|done..].
  injection Hi as ->. apply init_law in Ei as [Hdir _].
  apply io_bind_ok in Ho as (f5 & [] & Ha & Ho).
  apply io_bind_ok in Ha as (f5' & cmds & Hc & Ha). apply io_lift_ok in Hc as [-> Hc].
  apply io_write_ok in Ha as [Ht Hk].
  apply io_bind_ok in Ho as (f6 & [c h] & Hs & Ho).
  apply io_bind_ok in Hs as (f6' & codes & Hcs & Hs). apply io_read_ok in Hcs as [-> Hcs].
  apply io_bind_ok in Hs as (f6' & code & Hl & Hs). apply io_lift_ok in Hl as [-> Hl].
  apply io_bind_ok in Hs as (f7 & [] & Hs & Hr). injection Hr as <- <- <-.
  apply io_bind_ok in Ho as (f8 & txt & Htxt & Ho). apply io_read_ok in Htxt as [-> _]. injection Ho as -> <- _.
  apply save_build_ok in Hs as (Hmv & Hsha & Hother).
  assert (Hcode : is_bytes code).
  { apply build_scripts_law in Hcs. destruct (last codes) as [x|] eqn:El; [|done]. apply Ok_inj in Hl as ->.
    rewrite Forall_forall in Hcs. apply Hcs. by apply last_Some_elem_of. }
  pose proof (str_bytes_bytes_str code Hcode) as Hbs.
  assert (Hlen : ∀ x, gov_script_path out k m ≠ path_join (gov_module_dir out k m) x).
  { intros x E. unfold gov_script_path, path_join in E. apply (f_equal length) in E. rewrite !length_app in E. cbn in E. lia. }
  exists (bytes_str code). rewrite Hbs. split; [done|]. split.
  - split_and!.
    + rewrite Hother; [|intros E; apply (f_equal length) in E; unfold path_join in E; rewrite length_app in E; cbn in E; lia..].
      rewrite Hk; [done|]. intros E. apply (f_equal length) in E. unfold gov_script_path, path_join in E.
      rewrite !length_app in E. cbn in E. lia.
    + done.
    + rewrite Hsha, Hbs. f_equal. f_equal. symmetry. apply hex_encode_law. apply sha3_256_law.
  - exists fs, rel, cmds. split; [done|]. split; [done|]. rewrite Hother by apply Hlen. done.
Qed.

(** The hash a script has to name: of the script that comes after it, or of the
    one after all of them *)
Definition hash_at (codes : list string) (i : nat) (next : bytes) : bytes :=
  match codes !! i with Some code => sha3_256 (str_bytes code) | None => next end.

(** Every module of [ms], in the order of deployment, is made. *)
Definition chained (ms codes : list string) (next : bytes) (fs' : file_system) : Prop :=
  length codes = length ms ∧
  ∀ i m code, ms !! i = Some m → codes !! i = Some code → made (S i) m (hash_at codes (S i) next) code fs'.

Lemma chained_snoc ms codes m code next fs' :
  chained ms codes (sha3_256 (str_bytes code)) fs' → made (S (length ms)) m next code fs' →
  chained (ms ++ [m]) (codes ++ [code]) next fs'.
Proof.
  intros [Hl Hc] Hm. split; [rewrite !length_app; cbn; lia|]. intros i x c Hx Hcx.
  assert (Hh : ∀ j, hash_at codes j (sha3_256 (str_bytes code)) = hash_at (codes ++ [code]) j next ∨ (length codes < j)%nat).
  { intros j. unfold hash_at. destruct (decide (j < length codes)%nat) as [Hj|Hj].
    - left. destruct (lookup_lt_is_Some_2 codes j Hj) as [co Eco]. by rewrite lookup_app_l, Eco.
    - rewrite lookup_app_r by lia. rewrite (lookup_ge_None_2 codes j) by lia.
      destruct (decide (j = length codes)) as [->|]; [|right; lia]. left. by rewrite Nat.sub_diag. }
  apply lookup_snoc_Some in Hx as [[Hi Hx]|[-> <-]].
  - rewrite lookup_app_l in Hcx by lia. destruct (Hh (S i)) as [<-|?]; [|lia]. by apply Hc.
  - rewrite lookup_app_r, Hl, Nat.sub_diag in Hcx by lia. injection Hcx as <-. unfold hash_at.
    rewrite lookup_ge_None_2 by (rewrite length_app; cbn; lia). done.
Qed.

Lemma loop_ok len idx ms next fs fs' result :
  is_u64 (Z.of_nat len) → len = (idx + length ms)%nat → loop len idx ms next fs = (fs', Ok result) →
  fst <$> result = ms ∧ ∃ codes, chained (reverse ms) codes next fs'.
Proof.
  intros Hlen. revert idx next fs fs' result. induction ms as [|x ms IH]; intros idx next fs fs' result El Hr; cbn [upgrade_loop] in Hr.
  - injection Hr as <- <-. split; [done|]. exists []. by split.
  - apply io_bind_ok in Hr as (f1 & [hash text] & Ho & Hr). apply io_bind_ok in Hr as (f2 & rest & Hl & Hr).
    injection Hr as <- <-. apply one_ok in Ho as (code & -> & Hm). cbn [length] in El.
    destruct (IH (S idx) _ _ _ _ ltac:(lia) Hl) as (Hf & codes & Hch). split; [cbn; by rewrite Hf|].
    exists (codes ++ [code]). rewrite reverse_cons. apply chained_snoc; [done|]. rewrite length_reverse.
    replace (len - idx)%nat with (S (length ms)) in Hm by lia.
    apply (made_same _ _ _ _ f1); [|done]. intros q Hq.
    pose proof (loop_apart len (S idx) ms (sha3_256 (str_bytes code)) (S (length ms)) x f1 q) as Ha.
    rewrite Hl in Ha. apply Ha; try done; unfold is_u64 in *; lia.
Qed.

Lemma outside_loop len idx ms next : leaves (outside out) (loop len idx ms next).
Proof.
  assert (Ho : ∀ k m n, leaves (outside out) (one k m n)).
  { intros k m n fs q Hq. apply outside_one. intros Hp. apply Hq. etrans; [|done].
    unfold gov_module_dir, path_join. by apply prefix_app_r. }
  revert idx next. induction ms as [|x ms IH]; intros idx next; cbn [upgrade_loop]; [by intros fs|].
  apply leaves_bind; [apply _|apply Ho|intros [hash script]].
  apply leaves_bind; [apply _|apply IH|by intros ? fs].
Qed.
End steps.


(** ** Witness: a toy compiler, whose code is the text *)
Definition sample_render (l : list emission) : string :=
  foldr (fun e s => match e with Emit t => t +:+ s | EmitLn t => t +:+ nl +:+ s | _ => s end) ""%string l.
Definition sample_sources (d : path) (fs : file_system) : list bytes :=
  omap (fun '(p, n) => match n with
                       | File s => if bool_decide (parent p = Some (path_join d "sources")) then Some (str_bytes s) else None
                       | Dir => None
                       end) (map_to_list fs).
#[export] Instance sample_upgrade : UpgradeCrates.
Proof.
  refine {| git_head p := Some (Err "not a git repository"%string); build_info_git_hash := "0ab1";
    build_release d fs := Ok (mk_release (default EmptyString (last d)) "digest" 1 [[161; 28]; [235]]);
    build_scripts d fs := Ok (sample_sources d fs); bcs_metadata r := Ok (str_bytes (rp_name r));
    init_move_dir_generic d _ _ _ fs := Ok (<[path_join d "sources" := Dir]> (<[d := Dir]> fs));
    render := sample_render |}.
  - intros d fs codes [= <-]. apply Forall_forall. intros bs Hb. unfold sample_sources in Hb.
    apply list_elem_of_omap in Hb as ([p [s|]] & _ & Hs); [|done]. case_bool_decide; [|done].
    injection Hs as <-. apply str_bytes_wf.
  - intros d _ _ _ fs fs' [= <-]. split.
    + rewrite lookup_insert_ne; [by rewrite lookup_insert, decide_True|]. intros E. apply (f_equal length) in E.
      unfold path_join in E. rewrite length_app in E. cbn in E. lia.
    + intros q Hq. assert (d ≠ q) by by intros ->.
      rewrite !lookup_insert_ne; [done|done|]. intros <-. apply Hq. by apply prefix_app_r.
Defined.

Definition framework_files : file_system :=
  {[ ["fw"%string] := Dir; ["fw"; "move-stdlib"]%string := Dir; ["fw"; "libra-framework"]%string := Dir; ["out"%string] := Dir ]}.
Definition sample_upgrade_run : file_system * outcome (list (string * string)) :=
  make_framework_upgrade_artifacts ["out"%string] ["fw"%string] (Some ["move-stdlib"; "libra-framework"]%string) false framework_files.
Definition sample_scripts : list (string * string) := match snd sample_upgrade_run with Ok l => l | _ => [] end.

(** The scripts come out in the reverse order, their directories numbered in the
    order of the modules. *)
Example sample_numbering :
  fst <$> sample_scripts = ["libra-framework"; "move-stdlib"]%string ∧
  is_file ["out"; "1-move-stdlib"; "script.mv"]%string (fst sample_upgrade_run) = true ∧
  is_file ["out"; "2-libra-framework"; "sources"; "2-libra-framework.move"]%string (fst sample_upgrade_run) = true.
Proof. vm_compute. done. Qed.

(** A hash has 32 bytes, the text it is compared with 21: the branch for the
    empty vector is never taken. *)
Lemma next_hash_branch `{UpgradeCrates, DiemAddress, Sha3} a bs :
  str_bytes "vector::empty<u8>()" ≠ sha3_256 bs ∧ str_bytes "vector::empty<u8>()" ≠ [] ∧
  hd_error (generate_next_execution_hash_blob a []) =
    Some (EmitLn "let framework_signer = diem_governance::resolve_multi_step_proposal(").
Proof.
  split; [|by split]. intros E. pose proof (sha3_256_law bs) as [Hl _]. rewrite <- E in Hl. by vm_compute in Hl.
Qed.

(** Without a commit the script holds the literal [x"none"]. *)
Definition mentions (t : string) (cmds : outcome (list emission)) : bool :=
  match cmds with
  | Ok l => existsb (fun e => match e with EmitLn s => String.eqb s t | _ => false end) l
  | _ => false
  end.
Example no_commit_literal :
  mentions ("version::upgrade_set_git(&framework_signer, x" +:+ quote +:+ "none" +:+ quote +:+ ")")
    (author_script (mk_release "m" "digest" 1 []) addr_ONE [] "none") = true.
Proof. vm_compute. reflexivity. Qed.

