(* ===== verification/RescueSession.v ===== *)
(** * tools/rescue/src/session_tools.rs: a session of the VM on a database

    A rescue runs Move functions on the latest state of a database at rest and
    keeps what they changed as a change set.  The VM answers each request by the
    requests before it, so nothing is assumed of the framework that is
    installed there. *)
From Stdlib Require Import ZArith Lia.
From stdpp Require Import base option list strings gmap.
From S2P Require Import Prelude RustStr Json Effects Bytes FileSystem MoveTypes GenesisFunctions HashValue.
From S2P Require Import F64 ValidatorKeys AppCfg Node EntryCalls Payloads TxSender TxsCommunity KeyRotation TxsCommands.

Open Scope list_scope.
Open Scope Z_scope.

Inductive vm_request :=
| VmCall (function_str : string) (args : list MoveValue)
| VmPublish (modules : list bytes) (sender : AccountAddress).
Notation session := (list vm_request).

(** The answer to the last of the requests, the values a call returns (one that
    does not deserialize is [None]); the change set of a session; the release
    bundle in a file. *)
Class RescueVm (View ChangeSet : Type) := {
  vm_answer : View → session → reply (list (option MoveValue));
  session_finish : View → session → outcome ChangeSet;
  load_bundle_from_file : path → file_system → outcome (list bytes)
}.

Definition framework_sig : MoveValue := MvSigner addr_ONE.
Definition vm_signer : MoveValue := MvSigner addr_ZERO.

Section session.
Context {View ChangeSet : Type} `{RescueVm View ChangeSet} (view : View) (fs : file_system).

Definition request_vm (r : vm_request) : st session (list (option MoveValue)) := fun h =>
  (h ++ [r], of_reply (vm_answer view (h ++ [r]))).
(** The names are constants that parse. *)
Definition libra_execute_session_function (function_str : string) (args : list MoveValue) : st session (list (option MoveValue)) :=
  request_vm (VmCall function_str args).

(** The largest number among the values returned *)
Fixpoint last_timestamp (last : Z) (values : list (option MoveValue)) : outcome Z :=
  match values with
  | [] => Ok last
  | None :: _ => Panic "to parse timestamp::now_microseconds"
  | Some (MvU64 s) :: values' => last_timestamp (if last <? s then s else last) values'
  | Some _ :: values' => last_timestamp last values'
  end.
Definition voodoo_time_travel : st session unit :=
  res ← libra_execute_session_function "0x1::timestamp::now_microseconds" [];
  last_timestamp_in_db_ms ← st_lift (last_timestamp 0 res);
  let new_timestamp := MvU64 (u64_add last_timestamp_in_db_ms 7) in
  _ ← libra_execute_session_function "0x1::timestamp::update_global_time" [vm_signer; MvAddress addr_ONE; new_timestamp];
  mret tt.

Definition writeset_voodoo_events : st session unit :=
  _ ← libra_execute_session_function "0x1::stake::on_new_epoch" [];
  _ ← libra_execute_session_function "0x1::block::emit_writeset_block_event" [vm_signer; MvAddress CORE_CODE_ADDRESS];
  _ ← libra_execute_session_function "0x1::reconfiguration::reconfigure" [];
  mret tt.

Definition upgrade_framework_from_mrb_file (upgrade_mrb : path) : st session unit :=
  new_modules ← st_lift (load_bundle_from_file upgrade_mrb fs);
  _ ← request_vm (VmPublish new_modules CORE_CODE_ADDRESS);
  mret tt.

Definition initial_amount : Z := u64_mul 1000 1000000.
Definition register_args (cred : ValCredentials) : list MoveValue :=
  [MvSigner (vc_account cred); vector_u8 (consensus_pubkey cred); vector_u8 (proof_of_possession cred);
   vector_u8 (network_addresses cred); vector_u8 (fullnode_addresses cred)].
(** Whatever error the creation gives is taken for an account that exists. *)
Definition register_one (cred : ValCredentials) : st session unit :=
  let signer := MvSigner (vc_account cred) in
  _ ← libra_execute_session_function "0x1::stake::configure_allowed_validators" [framework_sig; vector_address [vc_account cred]];
  created ← attempt (libra_execute_session_function "0x1::ol_account::create_impl" [framework_sig; signer]);
  match created with
  | Ok _ =>
      _ ← libra_execute_session_function "0x1::libra_coin::mint_to_impl" [framework_sig; signer; MvU64 initial_amount];
      _ ← libra_execute_session_function "0x1::validator_universe::register_validator" (register_args cred);
      mret tt
  | _ => mret tt
  end.
Definition session_register_validators (creds : list ValCredentials) : st session unit :=
  _ ← libra_execute_session_function "0x1::stake::bulk_set_next_validators" [framework_sig; vector_address []];
  _ ← st_iter register_one creds;
  _ ← libra_execute_session_function "0x1::diem_governance::set_validators" [framework_sig; vector_address (vc_account <$> creds)];
  mret tt.

Definition change_chain_id (chain_id : Z) : st session unit :=
  _ ← libra_execute_session_function "0x1::chain_id::set_impl" [framework_sig; MvU8 chain_id];
  _ ← libra_execute_session_function "0x1::block::update_epoch_interval_microsecs" [framework_sig; MvU64 (5 * 60 * 1000000)];
  mret tt.
Definition remove_gov_mode_flag : st session unit :=
  _ ← libra_execute_session_function "0x1::features::change_feature_flags" [framework_sig; MvVector []; MvVector [MvU64 25]];
  mret tt.

(** [.expect(..)] *)
Definition st_expect {A : Type} (msg : string) (m : st session A) : st session A := st_result (expect_res msg) m.

Definition session_body (f : st session unit) (debug_vals : option (list AccountAddress))
    (debug_epoch_interval_microsecs : option Z) : st session unit :=
  _ ← voodoo_time_travel;
  _ ← st_result (context_res "Unexpected VM Error Running Rescue VM Session") f;
  _ ← match debug_vals with
      | Some vals => _ ← libra_execute_session_function "0x1::diem_governance::set_validators" [framework_sig; vector_address vals]; mret tt
      | None => mret tt
      end;
  match debug_epoch_interval_microsecs with
  | Some ms =>
      _ ← st_expect "set epoch interval seconds"
            (libra_execute_session_function "0x1::block::update_epoch_interval_microsecs" [framework_sig; MvU64 ms]);
      _ ← libra_execute_session_function "0x1::reconfiguration::reconfigure" [];
      mret tt
  | None => mret tt
  end.
Definition libra_run_session (f : st session unit) (debug_vals : option (list AccountAddress))
    (debug_epoch_interval_microsecs : option Z) : outcome ChangeSet :=
  let '(h, r) := session_body f debug_vals debug_epoch_interval_microsecs [] in
  _ ← r; session_finish view h.

Definition upgrade_framework_changeset (debug_vals : option (list AccountAddress)) (upgrade_mrb : path) : outcome ChangeSet :=
  libra_run_session (
    _ ← st_expect "should publish framework" (upgrade_framework_from_mrb_file upgrade_mrb);
    st_expect "should voodoo, who do?" writeset_voodoo_events) debug_vals None.

Definition replacement (replacement_vals : list ValCredentials) (upgrade_mrb : option path) (chain_id : option Z) : st session unit :=
  _ ← match upgrade_mrb with
      | Some p => st_expect "could not upgrade framework" (upgrade_framework_from_mrb_file p)
      | None => mret tt
      end;
  _ ← st_expect "could not register validators" (session_register_validators replacement_vals);
  _ ← st_expect "could not change chain id" (change_chain_id (default 2 chain_id));
  _ ← st_expect "could not remove governance mode" remove_gov_mode_flag;
  st_expect "should voodoo, who do?" writeset_voodoo_events.
Definition register_and_replace_validators_changeset (replacement_vals : list ValCredentials) (upgrade_mrb : option path)
    (chain_id : option Z) : outcome ChangeSet :=
  libra_run_session (replacement replacement_vals upgrade_mrb chain_id) None None.
End session.

(** ** Specification: the requests of a session that ends *)
Section requests.
Context {View ChangeSet : Type} `{RescueVm View ChangeSet} (view : View) (fs : file_system).

Definition answered (h : session) : bool := match vm_answer view h with inl _ => true | inr _ => false end.
Definition is_creation (r : vm_request) : bool :=
  match r with VmCall f _ => String.eqb f "0x1::ol_account::create_impl" | VmPublish _ _ => false end.
(** Every request but the creation of an account was carried out. *)
Fixpoint accepted (h l : session) : Prop :=
  match l with
  | [] => True
  | r :: l' => (is_creation r = false → answered (h ++ [r]) = true) ∧ accepted (h ++ [r]) l'
  end.

(** The time the chain is set to: seven microseconds after its own *)
Definition new_time (h : session) : Z :=
  match vm_answer view h with
  | inl vs => match last_timestamp 0 vs with Ok t => u64_add t 7 | _ => 0 end
  | inr _ => 0
  end.
Definition now_request : vm_request := VmCall "0x1::timestamp::now_microseconds" [].
Definition time_requests (h : session) : session :=
  [now_request; VmCall "0x1::timestamp::update_global_time" [vm_signer; MvAddress addr_ONE; MvU64 (new_time (h ++ [now_request]))]].
Definition publish_requests (mrb : path) : session :=
  match load_bundle_from_file mrb fs with Ok ms => [VmPublish ms CORE_CODE_ADDRESS] | _ => [] end.
Definition allowed_requests (cred : ValCredentials) : session :=
  [VmCall "0x1::stake::configure_allowed_validators" [framework_sig; vector_address [vc_account cred]];
   VmCall "0x1::ol_account::create_impl" [framework_sig; MvSigner (vc_account cred)]].
Definition register_requests (cred : ValCredentials) : session :=
  [VmCall "0x1::libra_coin::mint_to_impl" [framework_sig; MvSigner (vc_account cred); MvU64 1000000000];
   VmCall "0x1::validator_universe::register_validator" (register_args cred)].
(** Only a validator whose account was created is registered. *)
Definition one_requests (h : session) (cred : ValCredentials) : session :=
  allowed_requests cred ++ if answered (h ++ allowed_requests cred) then register_requests cred else [].
Fixpoint creds_requests (h : session) (creds : list ValCredentials) : session :=
  match creds with
  | [] => []
  | cred :: creds' => one_requests h cred ++ creds_requests (h ++ one_requests h cred) creds'
  end.
Definition set_requests (vals : list AccountAddress) : session :=
  [VmCall "0x1::diem_governance::set_validators" [framework_sig; vector_address vals]].
Definition reset_request : vm_request := VmCall "0x1::stake::bulk_set_next_validators" [framework_sig; vector_address []].
Definition validators_requests (creds : list ValCredentials) (h : session) : session :=
  [reset_request] ++ creds_requests (h ++ [reset_request]) creds ++ set_requests (vc_account <$> creds).
Definition chain_requests (chain_id : Z) : session :=
  [VmCall "0x1::chain_id::set_impl" [framework_sig; MvU8 chain_id];
   VmCall "0x1::block::update_epoch_interval_microsecs" [framework_sig; MvU64 300000000];
   VmCall "0x1::features::change_feature_flags" [framework_sig; MvVector []; MvVector [MvU64 25]]].
Definition epoch_requests : session :=
  [VmCall "0x1::stake::on_new_epoch" [];
   VmCall "0x1::block::emit_writeset_block_event" [vm_signer; MvAddress CORE_CODE_ADDRESS];
   VmCall "0x1::reconfiguration::reconfigure" []].

(** A computation that ends has made these requests. *)
Definition makes {A : Type} (m : st session A) (reqs : session → session) : Prop :=
  ∀ h h' a, m h = (h', Ok a) → h' = h ++ reqs h ∧ accepted h (reqs h).

Lemma accepted_app h l1 l2 : accepted h (l1 ++ l2) ↔ accepted h l1 ∧ accepted (h ++ l1) l2.
Proof.
  revert h. induction l1 as [|r l1 IH]; intros h; cbn [accepted app].
  - rewrite app_nil_r. tauto.
  - rewrite IH, <- app_assoc. cbn. tauto.
Qed.
Lemma makes_bind {A B : Type} (m : st session A) (g : A → st session B) f k :
  makes m f → (∀ a, makes (g a) k) → makes (m ≫= g) (fun h => f h ++ k (h ++ f h)).
Proof.
  intros Hm Hg h h' b Hb. apply st_bind_ok in Hb as (h1 & a & Ha & Hb).
  apply Hm in Ha as [-> Ha]. apply Hg in Hb as [-> Hb]. rewrite accepted_app, <- app_assoc. done.
Qed.
Lemma makes_ret {A : Type} (a : A) : makes (mret a) (fun _ => []).
Proof. intros h h' b [= <- _]. by rewrite app_nil_r. Qed.
Lemma makes_lift {A : Type} (r : outcome A) : makes (st_lift r) (fun _ => []).
Proof. intros h h' b [= <- _]. by rewrite app_nil_r. Qed.
Lemma makes_request r : makes (request_vm view r) (fun _ => [r]).
Proof.
  intros h h' a. unfold request_vm. intros [= <- Ha]. split; [done|]. cbn. split; [|done]. intros _. unfold answered.
  by destruct (vm_answer view (h ++ [r])).
Qed.
Lemma makes_result {A : Type} (f : outcome A → outcome A) (m : st session A) reqs :
  (∀ r a, f r = Ok a → ∃ b, r = Ok b) → makes m reqs → makes (st_result f m) reqs.
Proof.
  intros Hf Hm h h' a. unfold st_result. destruct (m h) as [h1 r] eqn:E. intros [= <- Hr].
  apply Hf in Hr as [b ->]. by apply Hm in E.
Qed.
Lemma makes_expect {A : Type} msg (m : st session A) reqs : makes m reqs → makes (st_expect msg m) reqs.
Proof. apply makes_result. intros [x|e|p] a; [by eexists|done..]. Qed.
Lemma makes_context {A : Type} msg (m : st session A) reqs : makes m reqs → makes (st_result (context_res msg) m) reqs.
Proof. apply makes_result. intros [x|e|p] a; [by eexists|done..]. Qed.
(** The requests, put another way *)
Lemma makes_ext {A : Type} (m : st session A) f k : (∀ h, f h = k h) → makes m f → makes m k.
Proof. intros E Hm h h' a Ha. rewrite <- E. by apply Hm in Ha. Qed.
(** A call, then the rest *)
Lemma makes_call {B : Type} f args (g : list (option MoveValue) → st session B) k :
  (∀ a, makes (g a) k) →
  makes (libra_execute_session_function view f args ≫= g) (fun h => VmCall f args :: k (h ++ [VmCall f args])).
Proof. intros Hg. apply (makes_bind _ _ (fun _ => [VmCall f args])); [apply makes_request|done]. Qed.
(** A call, then constant requests *)
Lemma makes_calls {B : Type} f args (g : list (option MoveValue) → st session B) l :
  (∀ a, makes (g a) (fun _ => l)) →
  makes (libra_execute_session_function view f args ≫= g) (fun _ => VmCall f args :: l).
Proof. apply (makes_call f args g (fun _ => l)). Qed.
End requests.

Section sessions.
Context {View ChangeSet : Type} `{RescueVm View ChangeSet} (view : View) (fs : file_system).
Notation makes := (makes view).

Lemma makes_time : makes (voodoo_time_travel view) (time_requests view).
Proof.
  intros h h' a Ha. unfold voodoo_time_travel in Ha. apply st_bind_ok in Ha as (h1 & vs & Hr & Ha).
  pose proof (makes_request view now_request h h1 vs Hr) as [-> Hacc].
  injection Hr as Hv. apply st_bind_ok in Ha as (h2 & t & [= <- Ht] & Ha).
  apply st_bind_ok in Ha as (h3 & us & Hu & [= <- _]). apply makes_request in Hu as [-> Hu].
  assert (Hn : new_time view (h ++ [now_request]) = u64_add t 7).
  { unfold new_time. destruct (vm_answer view _) as [ws|]; [|done]. apply Ok_inj in Hv as ->. by rewrite Ht. }
  unfold time_requests. rewrite Hn, <- app_assoc. split; [done|]. cbn in *. tauto.
Qed.

Lemma makes_epoch : makes (writeset_voodoo_events view) (fun _ => epoch_requests).
Proof. by repeat (apply makes_calls; intros _); apply makes_ret. Qed.

Lemma makes_publish p : makes (upgrade_framework_from_mrb_file view fs p) (fun _ => publish_requests fs p).
Proof.
  intros h h' a Ha. apply st_bind_ok in Ha as (h1 & ms & [= <- Hm] & Ha). apply st_bind_ok in Ha as (h2 & vs & Hv & [= <- _]).
  unfold publish_requests. rewrite Hm. by apply makes_request in Hv.
Qed.

(** A request whose error is looked at *)
Lemma attempt_request r h h' (res : outcome (list (option MoveValue))) :
  attempt (request_vm view r) h = (h', Ok res) →
  h' = h ++ [r] ∧ match res with Ok _ => answered view h' = true | _ => answered view h' = false end.
Proof.
  unfold attempt, request_vm, answered. destruct (vm_answer view (h ++ [r])) as [us|e] eqn:E; cbn;
    intros [= <- <-]; by rewrite E.
Qed.
Lemma makes_register cred : makes (register_one view cred) (fun h => one_requests view h cred).
Proof.
  intros h h' a Ha. unfold register_one in Ha. apply st_bind_ok in Ha as (h1 & vs & Hc & Ha).
  apply makes_request in Hc as [-> Hc]. apply st_bind_ok in Ha as (h2 & created & Hcr & Ha).
  apply attempt_request in Hcr as [-> Hans]. rewrite <- app_assoc in *.
  change ([VmCall _ _] ++ [VmCall _ _]) with (allowed_requests cred) in *.
  assert (Hacc : accepted view h (allowed_requests cred)).
  { unfold allowed_requests. cbn [accepted] in *. destruct Hc as [Hc _]. split; [exact Hc|]. by split. }
  unfold one_requests.
  destruct created as [x|e|p]; rewrite Hans.
  - apply st_bind_ok in Ha as (h3 & us & Hm & Ha). apply makes_request in Hm as [-> Hm].
    apply st_bind_ok in Ha as (h4 & ws & Hr & [= <- _]). apply makes_request in Hr as [-> Hr].
    rewrite accepted_app, <- !app_assoc. cbn [app] in *. split; [done|]. split; [done|].
    unfold register_requests. cbn [accepted] in *. rewrite <- !app_assoc in *. tauto.
  - injection Ha as <- _. rewrite app_nil_r. done.
  - injection Ha as <- _. rewrite app_nil_r. done.
Qed.

Lemma makes_iter creds : makes (st_iter (register_one view) creds) (fun h => creds_requests view h creds).
Proof.
  induction creds as [|cred creds IH]; cbn [st_iter creds_requests]; [apply makes_ret|].
  apply (makes_bind view _ _ (fun h => one_requests view h cred) (fun h => creds_requests view h creds)); [apply makes_register|].
  intros ?. exact IH.
Qed.

Lemma makes_validators creds : makes (session_register_validators view creds) (validators_requests view creds).
Proof.
  unfold session_register_validators, validators_requests.
  apply (makes_call view _ _ _ (fun h => creds_requests view h creds ++ set_requests (vc_account <$> creds))). intros ?.
  apply (makes_bind view _ _ _ (fun _ => set_requests (vc_account <$> creds)) (makes_iter creds)). intros ?.
  apply (makes_call view _ _ _ (fun _ => [])). intros ?. apply makes_ret.
Qed.

Definition replacement_requests (creds : list ValCredentials) (mrb : option path) (chain_id : option Z) (h : session) : session :=
  let publish := match mrb with Some p => publish_requests fs p | None => [] end in
  publish ++ validators_requests view creds (h ++ publish) ++ chain_requests (default 2 chain_id) ++ epoch_requests.
Lemma makes_replacement creds mrb chain_id :
  makes (replacement view fs creds mrb chain_id) (replacement_requests creds mrb chain_id).
Proof.
  unfold replacement, replacement_requests.
  apply (makes_bind view _ _ (fun _ => match mrb with Some p => publish_requests fs p | None => [] end)
    (fun h => validators_requests view creds h ++ chain_requests (default 2 chain_id) ++ epoch_requests)).
  { destruct mrb; [apply makes_expect, makes_publish|apply makes_ret]. }
  intros _. apply (makes_bind view _ _ _ (fun _ => chain_requests (default 2 chain_id) ++ epoch_requests));
    [apply makes_expect, makes_validators|intros _].
  apply (makes_ext view _ (fun _ => take 2 (chain_requests (default 2 chain_id)) ++ drop 2 (chain_requests (default 2 chain_id)) ++ epoch_requests));
    [done|].
  apply (makes_bind view _ _ (fun _ => take 2 (chain_requests (default 2 chain_id))) (fun _ => drop 2 (chain_requests (default 2 chain_id)) ++ epoch_requests)).
  { apply makes_expect. by repeat (apply makes_calls; intros _); apply makes_ret. }
  intros _. apply (makes_bind view _ _ (fun _ => drop 2 (chain_requests (default 2 chain_id))) (fun _ => epoch_requests)).
  { apply makes_expect. by repeat (apply makes_calls; intros _); apply makes_ret. }
  intros _. apply makes_expect, makes_epoch.
Qed.

Lemma run_session_ok f vals ms cs :
  libra_run_session view f vals ms = Ok cs → ∃ h, session_body view f vals ms [] = (h, Ok tt) ∧ session_finish view h = Ok cs.
Proof.
  unfold libra_run_session. destruct (session_body view f vals ms []) as [h r]. intros Hr.
  apply bind_ok in Hr as ([] & -> & Hr). by exists h.
Qed.
End sessions.

(** C20: The change set that replaces the validators is the one of exactly these
    requests: the time is moved on, the framework is published if there is one,
    the validator set is emptied, each credential is allowed and its account
    created, and, where that worked, given coins and registered; then all the
    accounts are made the validator set, in the order of the credentials,
    registered or not; then the chain's identifier, the length of an epoch, the
    features, and the events of an epoch.  Every request but the creations was
    carried out. *)
Theorem replacement_spec `{RescueVm View ChangeSet} view fs creds mrb chain_id cs :
  register_and_replace_validators_changeset view fs creds mrb chain_id = Ok cs →
  let publish := match mrb with Some p => publish_requests fs p | None => [] end in
  let h0 := time_requests view [] ++ publish ++ [reset_request] in
  let h := h0 ++ creds_requests view h0 creds ++ set_requests (vc_account <$> creds) ++
           chain_requests (default 2 chain_id) ++ epoch_requests in
  session_finish view h = Ok cs ∧ accepted view [] h ∧
  (∀ p, mrb = Some p → ∃ ms, load_bundle_from_file p fs = Ok ms ∧ publish = [VmPublish ms CORE_CODE_ADDRESS]).
Proof.
  intros Hr publish h0 h. apply run_session_ok in Hr as (h' & Hb & Hf).
  assert (Hh : h' = h ∧ accepted view [] h).
  { assert (Hm : makes view (session_body view (replacement view fs creds mrb chain_id) None None)
                   (fun h => time_requests view h ++ replacement_requests view fs creds mrb chain_id (h ++ time_requests view h) ++ [])).
    { apply (makes_bind view _ _ (time_requests view) (fun h => replacement_requests view fs creds mrb chain_id h ++ [])); [apply makes_time|intros _].
      apply (makes_bind view _ _ _ (fun _ => [])); [apply makes_context, makes_replacement|intros _].
      apply (makes_bind view _ _ (fun _ => []) (fun _ => [])); [apply makes_ret|intros _; apply makes_ret]. }
    apply Hm in Hb as [-> Hacc]. revert Hacc. rewrite app_nil_r, app_nil_l.
    unfold replacement_requests, validators_requests. fold publish.
    assert (E : time_requests view [] ++ publish ++ ([reset_request] ++ creds_requests view ((time_requests view [] ++ publish) ++ [reset_request]) creds ++
                set_requests (vc_account <$> creds)) ++ chain_requests (default 2 chain_id) ++ epoch_requests = h).
    { unfold h, h0. by rewrite <- !app_assoc. }
    rewrite E. done. }
  destruct Hh as [-> Hacc]. split; [done|]. split; [done|]. intros p ->.
  unfold publish, publish_requests. destruct (load_bundle_from_file p fs) as [ms|e|e] eqn:El; [by exists ms|..].
  all: exfalso; revert Hb; unfold session_body, replacement, upgrade_framework_from_mrb_file; rewrite El; intros Hb;
    apply st_bind_ok in Hb as (h1 & [] & _ & Hb); apply st_bind_ok in Hb as (h2 & [] & Hb & _); done.
Qed.

(** ** Witness: a VM that refuses to create one account *)
Definition taken_account : AccountAddress := repeat 9 32.
#[export] Instance sample_vm : RescueVm unit session := {|
  vm_answer _ h :=
    match last h with
    | Some (VmCall "0x1::timestamp::now_microseconds" _) => inl [Some (MvU64 1000)]
    | Some (VmCall "0x1::ol_account::create_impl" [_; MvSigner a]) =>
        if bool_decide (a = taken_account) then inr "exists"%string else inl []
    | _ => inl []
    end;
  session_finish _ h := Ok h;
  load_bundle_from_file p fs := (fun s => [str_bytes s]) <$> read_to_string p fs
|}.
Definition sample_creds : list ValCredentials :=
  [mk_credentials addr_ONE [1] [2] [3] [4]; mk_credentials taken_account [5] [6] [7] [8]].

Definition request_name (r : vm_request) : string := match r with VmCall f _ => f | VmPublish _ _ => "publish" end.
(** The second account is in the set though it was not registered. *)
Example taken_is_not_registered :
  let h := match register_and_replace_validators_changeset tt ∅ sample_creds None None with Ok h => h | _ => [] end in
  request_name <$> drop 2 (take 9 h) =
    ["0x1::stake::bulk_set_next_validators"; "0x1::stake::configure_allowed_validators"; "0x1::ol_account::create_impl";
     "0x1::libra_coin::mint_to_impl"; "0x1::validator_universe::register_validator";
     "0x1::stake::configure_allowed_validators"; "0x1::ol_account::create_impl"]%string ∧
  h !! 9%nat = Some (VmCall "0x1::diem_governance::set_validators" [framework_sig; vector_address [addr_ONE; taken_account]]) ∧
  h !! 1%nat = Some (VmCall "0x1::timestamp::update_global_time" [vm_signer; MvAddress addr_ONE; MvU64 1007]).
Proof. vm_compute. done. Qed.

Lemma replacement_spec_witness :
  let h0 := time_requests tt [] ++ [] ++ [reset_request] in
  let h := h0 ++ creds_requests tt h0 sample_creds ++ set_requests (vc_account <$> sample_creds) ++
           chain_requests 2 ++ epoch_requests in
  session_finish tt h = Ok h ∧ accepted tt [] h ∧
  (∀ p, None = Some p → ∃ ms, load_bundle_from_file p ∅ = Ok ms ∧ [] = [VmPublish ms CORE_CODE_ADDRESS]).
Proof.
  intros h0 h. apply (replacement_spec tt ∅ sample_creds None None). vm_compute. reflexivity.
Defined.
