(* ===== verification/Rescue.v ===== *)
(** * tools/rescue: rescue transactions for a database at rest

    transaction_factory.rs, cli_bootstrapper.rs, node_config.rs and cli_main.rs:
    a transaction is built from a session or a script, written to a file, and
    checked or committed against the database. *)
From Stdlib Require Import ZArith Lia.
From stdpp Require Import base option list strings gmap.
From S2P Require Import Prelude RustStr Json Effects Bytes FileSystem MoveTypes GenesisFunctions HashValue GenesisRegistration GenesisVm.
From S2P Require Import F64 ValidatorKeys AppCfg Node EntryCalls Payloads TxSender TxsCommunity KeyRotation TxsCommands.
From S2P Require Import UpgradeProposal RescueSession.

Open Scope list_scope.
Open Scope Z_scope.

Record Waypoint := mk_waypoint { wp_version : Z; wp_value : bytes }.
#[export] Instance waypoint_eq_dec : EqDecision Waypoint. Proof. solve_decision. Defined.

(** Of a [NodeConfig] what is read or set, and the rest *)
Inductive WaypointConfig := FromConfig (w : Waypoint) | OtherWaypoint (s : string).
Inductive SecureBackend := OnDiskStorage (data_dir : path) | OtherBackend (s : string).
Record InitialSafetyRulesConfig := mk_safety { is_identity_blob_path : path; is_waypoint : WaypointConfig }.
Record NodeConfig := mk_node_config {
  nc_waypoint : WaypointConfig;
  nc_data_dir : path;
  nc_backend : SecureBackend;
  nc_initial_safety_rules_config : option InitialSafetyRulesConfig;
  nc_genesis : option bytes;
  nc_genesis_file_location : path;
  nc_rest : string
}.

(** The database of diem and its executor; bcs at [Transaction]; the node's
    configuration as YAML. *)
Class RescueCrates (Db View ChangeSet : Type) := {
  latest_view : Db → outcome View;
  num_transactions : Db → outcome Z;
  calculate_genesis : Db → Transaction ChangeSet → outcome (Waypoint * outcome Db);
  tx_to_bytes : Transaction ChangeSet → outcome bytes;
  tx_from_bytes : bytes → outcome (Transaction ChangeSet);
  node_config_from_yaml : string → outcome NodeConfig;
  node_config_to_yaml : NodeConfig → outcome string;
  tx_bytes_law tx bs : tx_to_bytes tx = Ok bs → is_bytes bs ∧ tx_from_bytes bs = Ok tx;
  node_config_law c s : node_config_to_yaml c = Ok s → node_config_from_yaml s = Ok c
}.

Record rescue_world (Db : Type) := mk_rescue { rw_dbs : gmap path Db; rw_files : file_system }.
Arguments mk_rescue {Db} _ _.
Arguments rw_dbs {Db} _.
Arguments rw_files {Db} _.

Definition REPLACE_VALIDATORS_BLOB : string := "replace_validators_rescue.blob".
Definition UPGRADE_FRAMEWORK_BLOB : string := "upgrade_framework_rescue.blob".
Definition RUN_SCRIPT_BLOB : string := "run_script_rescue.blob".

Section rescue.
Context {Db View ChangeSet : Type} `{RescueCrates Db View ChangeSet, RescueVm View ChangeSet}.
Context `{AppCfgEnv, OperatorCrates, UpgradeCrates, Sha3, HexCrate}.
Notation world := (rescue_world Db).

Definition files {A : Type} (m : io A) : st world A := fun w =>
  let '(fs, r) := m (rw_files w) in (mk_rescue (rw_dbs w) fs, r).
Definition open_db (db_path : path) : st world Db := fun w => (w, context_opt "failed to open db" (rw_dbs w !! db_path)).

(** ** transaction_factory.rs *)
Definition save_rescue_blob (tx : Transaction ChangeSet) (out_file : path) : io path :=
  bs ← io_lift (tx_to_bytes tx);
  _ ← io_write out_file (bytes_str bs);
  mret out_file.
Definition run_script_tx (script_path : path) : st world (Transaction ChangeSet) :=
  '(code, _) ← files (libra_compile_script script_path);
  mret (GenesisTransaction (WsScript CORE_CODE_ADDRESS code)).

(** The database is opened, and the session runs on its latest version. *)
Definition on_latest (db_path : path) (f : View → file_system → outcome ChangeSet) : st world (Transaction ChangeSet) :=
  db ← open_db db_path;
  view ← st_lift (latest_view db);
  w ← st_get;
  cs ← st_lift (f view (rw_files w));
  mret (GenesisTransaction (WsDirect cs)).
Definition upgrade_tx (db_path upgrade_mrb : path) (validator_set : option (list AccountAddress)) : st world (Transaction ChangeSet) :=
  on_latest db_path (fun view fs => upgrade_framework_changeset view fs validator_set upgrade_mrb).
Fixpoint registrations (reg_files : list path) : io (list ValCredentials) :=
  match reg_files with
  | [] => mret []
  | el :: reg_files' =>
      reg ← io_result (expect_res "could parse operator.yaml") (registration_from_operator_yaml (Some el));
      regs ← registrations reg_files';
      mret (reg :: regs)
  end.
Definition register_vals (db_path : path) (reg_files : list path) (upgrade_mrb : option path) (chain_id : option Z)
    : st world (Transaction ChangeSet) :=
  regs ← files (registrations reg_files);
  on_latest db_path (fun view fs => register_and_replace_validators_changeset view fs regs upgrade_mrb chain_id).

(** ** node_config.rs *)
Definition make_initial_safety_rules (c : NodeConfig) (waypoint : Waypoint) (fs : file_system) : outcome NodeConfig :=
  let data_path := nc_data_dir c in
  let backend := match nc_backend c with OnDiskStorage _ => OnDiskStorage data_path | b => b end in
  let validator_identity_file := path_join data_path "validator-identity.yaml" in
  _ ← rust_assert (exists_ validator_identity_file fs) "validator-identity.yaml not found";
  Ok (mk_node_config (nc_waypoint c) data_path backend (Some (mk_safety validator_identity_file (FromConfig waypoint)))
        (nc_genesis c) (nc_genesis_file_location c) (nc_rest c)).
Definition set_waypoint (c : NodeConfig) (waypoint : Waypoint) : NodeConfig :=
  mk_node_config (FromConfig waypoint) (nc_data_dir c) (nc_backend c) (nc_initial_safety_rules_config c) (nc_genesis c)
    (nc_genesis_file_location c) (nc_rest c).
Definition set_genesis_file (c : NodeConfig) (restore_blob : path) : NodeConfig :=
  mk_node_config (nc_waypoint c) (nc_data_dir c) (nc_backend c) (nc_initial_safety_rules_config c) None restore_blob (nc_rest c).
Definition post_rescue_node_file_updates (config_path : path) (waypoint : Waypoint) (restore_blob : path) : io NodeConfig :=
  s ← io_read (read_to_string config_path);
  node_config ← io_lift (node_config_from_yaml s);
  node_config ← io_read (make_initial_safety_rules (set_waypoint node_config waypoint) waypoint);
  let node_config := set_genesis_file node_config restore_blob in
  out ← io_lift (node_config_to_yaml node_config);
  _ ← io_write config_path out;
  mret node_config.

(** ** cli_bootstrapper.rs *)
Record BootstrapOpts := mk_bootstrap {
  db_dir : path;
  genesis_txn_file : path;
  waypoint_to_verify : option Waypoint;
  commit : bool;
  update_node_config : option path;
  bo_info : bool
}.
Definition load_genesis_txn (p : path) (fs : file_system) : outcome (Transaction ChangeSet) :=
  s ← read_to_string p fs; tx_from_bytes (str_bytes s).
Definition is_genesis (tx : Transaction ChangeSet) : bool := match tx with GenesisTransaction _ => true | _ => false end.

(** A database that cannot be opened is a panic here. *)
Definition bootstrap_run (self : BootstrapOpts) : st world (option Waypoint) :=
  genesis_txn ← files (io_read (fun fs => context_res "Failed loading genesis txn." (load_genesis_txn (genesis_txn_file self) fs)));
  _ ← st_lift (rust_assert (is_genesis genesis_txn) "Not a GenesisTransaction");
  db ← st_result (expect_res "Failed to open DB.") (open_db (db_dir self));
  num ← st_lift (context_res "Failed to get latest tree state." (num_transactions db));
  if bo_info self then mret None else
  _ ← st_lift match waypoint_to_verify self with
              | Some waypoint => ensure (wp_version waypoint =? num) "Trying to generate waypoint at another version"
              | None => Ok tt
              end;
  '(output_waypoint, committed) ← st_lift (context_res "Failed to calculate genesis." (calculate_genesis db genesis_txn));
  _ ← st_lift match waypoint_to_verify self with
              | Some waypoint => ensure (bool_decide (waypoint = output_waypoint)) "Waypoint verification failed."
              | None => Ok tt
              end;
  _ ← (if commit self then
         db' ← st_lift (context_res "Committing genesis to DB." committed);
         _ ← (fun w => (mk_rescue (<[db_dir self := db']> (rw_dbs w)) (rw_files w), Ok tt) : world * outcome unit);
         match update_node_config self with
         | Some p => _ ← files (post_rescue_node_file_updates p output_waypoint (genesis_txn_file self)); mret tt
         | None => mret tt
         end
       else mret tt);
  mret (Some output_waypoint).

Definition check_rescue_bootstraps (db_path blob_path : path) : st world unit :=
  _ ← bootstrap_run (mk_bootstrap db_path blob_path None false None false);
  mret tt.
Definition one_step_apply_rescue_on_db (db_to_change_path rescue_blob : path) : st world Waypoint :=
  w ← bootstrap_run (mk_bootstrap db_to_change_path rescue_blob None false None false);
  waypoint_to_check ← st_lift (expect_opt "could not get waypoint" w);
  w ← bootstrap_run (mk_bootstrap db_to_change_path rescue_blob (Some waypoint_to_check) true None false);
  waypoint_post ← st_lift (expect_opt "could not get waypoint" w);
  _ ← st_lift (rust_assert (bool_decide (waypoint_to_check = waypoint_post)) "waypoints are not equal");
  mret waypoint_to_check.

(** ** cli_main.rs *)
Inductive Sub :=
| Bootstrap (bootstrap : BootstrapOpts)
| PatchSafetyRules (config_path blob_path : path) (waypoint : Waypoint)
| RegisterVals (operator_yaml : list path) (upgrade_mrb : option path) (chain_id : option Z)
| UpgradeFramework (upgrade_mrb : path) (set_validators : option (list AccountAddress))
| RunScript (script_path : option path).
Record RescueCli := mk_rescue_cli { db_path : path; blob_path : option path; rc_command : Sub }.

(** A transaction is saved under its name and checked against the database. *)
Definition save_and_check (self : RescueCli) (name : string) (tx : Transaction ChangeSet) : st world unit :=
  p ← files (save_rescue_blob tx (path_join (default (db_path self) (blob_path self)) name));
  check_rescue_bootstraps (db_path self) p.
Definition rescue_run (self : RescueCli) : st world unit :=
  match rc_command self with
  | Bootstrap bootstrap => _ ← bootstrap_run bootstrap; mret tt
  | RegisterVals operator_yaml upgrade_mrb chain_id =>
      tx ← register_vals (db_path self) operator_yaml upgrade_mrb chain_id;
      save_and_check self REPLACE_VALIDATORS_BLOB tx
  | UpgradeFramework upgrade_mrb set_validators =>
      tx ← upgrade_tx (db_path self) upgrade_mrb set_validators;
      save_and_check self UPGRADE_FRAMEWORK_BLOB tx
  | RunScript script_path =>
      p ← st_lift (expect_opt "called `Option::unwrap()` on a `None` value" script_path);
      tx ← run_script_tx p;
      save_and_check self RUN_SCRIPT_BLOB tx
  | PatchSafetyRules config_path blob_path waypoint =>
      _ ← files (post_rescue_node_file_updates config_path waypoint blob_path);
      mret tt
  end.
End rescue.

(** ** Specification *)
(** The name of the blob a command makes *)
Definition blob_name (c : Sub) : option string :=
  match c with
  | RegisterVals _ _ _ => Some REPLACE_VALIDATORS_BLOB
  | UpgradeFramework _ _ => Some UPGRADE_FRAMEWORK_BLOB
  | RunScript _ => Some RUN_SCRIPT_BLOB
  | _ => None
  end.
Definition commits (c : Sub) : bool := match c with Bootstrap b => commit b | _ => false end.
(** What a command writes besides the blob: the build of its script *)
Definition builds_at (c : Sub) (q : path) : Prop :=
  match c with
  | RunScript (Some p) => q = path_join p "script.mv" ∨ q = path_join p "script_sha3"
  | _ => False
  end.

Section spec.
Context {Db View ChangeSet : Type} `{RescueCrates Db View ChangeSet, RescueVm View ChangeSet}.
Context `{AppCfgEnv, OperatorCrates, UpgradeCrates, Sha3, HexCrate}.
Notation world := (rescue_world Db).

(** The transaction a command stands for *)
Definition builds (c : Sub) (fs : file_system) (db : Db) (tx : Transaction ChangeSet) : Prop :=
  match c with
  | RegisterVals operator_yaml mrb chain_id => ∃ regs view cs,
      registrations operator_yaml fs = (fs, Ok regs) ∧ latest_view db = Ok view ∧
      register_and_replace_validators_changeset view fs regs mrb chain_id = Ok cs ∧ tx = GenesisTransaction (WsDirect cs)
  | UpgradeFramework mrb vals => ∃ view cs,
      latest_view db = Ok view ∧ upgrade_framework_changeset view fs vals mrb = Ok cs ∧ tx = GenesisTransaction (WsDirect cs)
  | RunScript (Some p) => ∃ codes code,
      build_scripts p fs = Ok codes ∧ last codes = Some code ∧ tx = GenesisTransaction (WsScript CORE_CODE_ADDRESS code)
  | _ => False
  end.

(** ** Lemmas *)
Lemma files_ok {A : Type} (m : io A) (w w' : world) a :
  files m w = (w', Ok a) → ∃ fs', m (rw_files w) = (fs', Ok a) ∧ w' = mk_rescue (rw_dbs w) fs'.
Proof. unfold files. destruct (m (rw_files w)) as [fs' r]. intros [= <- ->]. by exists fs'. Qed.

Definition same_dbs (w w' : world) : Prop := rw_dbs w' = rw_dbs w.
#[export] Instance same_dbs_preorder : PreOrder same_dbs.
Proof. split; [by intros w|]. intros w1 w2 w3. unfold same_dbs. congruence. Qed.
Lemma same_files {A : Type} (m : io A) : steps same_dbs (files m).
Proof. intros w. unfold files. by destruct (m (rw_files w)). Qed.
Lemma same_open (p : path) : steps same_dbs (open_db p).
Proof. by intros w. Qed.
Hint Resolve same_files same_open same_dbs_preorder : effects.

Lemma same_on_latest (p : path) (f : View → file_system → outcome ChangeSet) : steps same_dbs (on_latest p f).
Proof.
  unfold on_latest. apply steps_bind; [apply _|auto with effects|intros db].
  apply steps_bind; [apply _|auto with effects|intros view]. apply steps_bind; [apply _|by intros w|intros w]. st_steps.
Qed.
Lemma same_bootstrap b : commit b = false → steps same_dbs (bootstrap_run b).
Proof.
  intros Hc. unfold bootstrap_run. rewrite Hc. st_steps. destruct (bo_info b); st_steps.
  match goal with |- steps _ (match ?x with _ => _ end) => destruct x end. st_steps.
Qed.
Hint Resolve same_on_latest same_bootstrap : effects.
Lemma same_save self name (tx : Transaction ChangeSet) : steps same_dbs (save_and_check self name tx).
Proof.
  unfold save_and_check, check_rescue_bootstraps. apply steps_bind; [apply _|apply same_files|intros p].
  apply steps_bind; [apply _|by apply same_bootstrap|intros ?]. auto with effects.
Qed.
Hint Resolve same_save : effects.

(** Only a bootstrap that commits changes a database, whatever else fails. *)
Lemma rescue_keeps_dbs self : commits (rc_command self) = false → steps same_dbs (rescue_run self).
Proof.
  intros Hc. unfold rescue_run. destruct (rc_command self).
  - apply steps_bind; [apply _|by apply same_bootstrap|auto with effects].
  - st_steps.
  - unfold register_vals. apply steps_bind; [apply _|apply steps_bind; auto with effects|auto with effects].
  - unfold upgrade_tx. apply steps_bind; auto with effects.
  - apply steps_bind; [apply _|auto with effects|intros p]. apply steps_bind; [apply _| |auto with effects].
    unfold run_script_tx. apply steps_bind; [apply _|apply same_files|intros []; auto with effects].
Qed.

Lemma open_ok (p : path) (w w' : world) db : open_db p w = (w', Ok db) → w' = w ∧ rw_dbs w !! p = Some db.
Proof. unfold open_db. intros [= <- Hd]. by apply context_opt_ok in Hd. Qed.

(** A run without a waypoint to verify and without a commit *)
Lemma bootstrap_dry (d p : path) (w w' : world) o :
  bootstrap_run (mk_bootstrap d p None false None false) w = (w', Ok o) →
  w' = w ∧ ∃ tx db n wp c, load_genesis_txn p (rw_files w) = Ok tx ∧ is_genesis tx = true ∧ rw_dbs w !! d = Some db ∧
    num_transactions db = Ok n ∧ calculate_genesis db tx = Ok (wp, c) ∧ o = Some wp.
Proof.
  unfold bootstrap_run. cbn [genesis_txn_file db_dir waypoint_to_verify commit bo_info]. intros Hb.
  apply st_bind_ok in Hb as (w1 & tx & Ht & Hb). apply files_ok in Ht as (fs' & Ht & ->).
  apply io_read_ok in Ht as [-> Ht]. apply st_bind_ok in Hb as (w2 & [] & [= <- Hg] & Hb).
  apply st_bind_ok in Hb as (w3 & db & Hd & Hb). unfold st_result, open_db in Hd. injection Hd as <- Hd.
  apply st_bind_ok in Hb as (w4 & n & [= <- Hn] & Hb). apply st_bind_ok in Hb as (w5 & [] & [= <-] & Hb).
  apply st_bind_ok in Hb as (w6 & [wp c] & [= <- Hw] & Hb). apply st_bind_ok in Hb as (w7 & [] & [= <-] & Hb).
  apply st_bind_ok in Hb as (w8 & [] & [= <-] & [= <- <-]). split; [by destruct w|]. exists tx, db, n, wp, c.
  cbn [rw_dbs rw_files] in *.
  split. { destruct (load_genesis_txn p (rw_files w)); [by apply Ok_inj in Ht as ->|done..]. }
  split. { by destruct (is_genesis tx). }
  split. { by destruct (rw_dbs w !! d); [apply Ok_inj in Hd as ->|]. }
  split. { destruct (num_transactions db); [by apply Ok_inj in Hn as ->|done..]. }
  split; [|done]. destruct (calculate_genesis db tx); [by apply Ok_inj in Hw as ->|done..].
Qed.

Section eval.
Context (d p : path) (w : world) (tx : Transaction ChangeSet) (db : Db) (n : Z) (wp : Waypoint) (c : outcome Db).
Context (Hl : load_genesis_txn p (rw_files w) = Ok tx) (Hg : is_genesis tx = true) (Hd : rw_dbs w !! d = Some db)
  (Hn : num_transactions db = Ok n) (Hc : calculate_genesis db tx = Ok (wp, c)).

Lemma bootstrap_dry_eval : bootstrap_run (mk_bootstrap d p None false None false) w = (w, Ok (Some wp)).
Proof.
  unfold bootstrap_run. cbn [genesis_txn_file db_dir waypoint_to_verify commit bo_info].
  unfold mbind, st_bind, files, io_read, st_lift, st_result, open_db. rewrite Hl. cbn. rewrite Hg. cbn. rewrite Hd. cbn.
  rewrite Hn. cbn. rewrite Hc. cbn. by destruct w.
Qed.
Lemma bootstrap_commit_eval :
  bootstrap_run (mk_bootstrap d p (Some wp) true None false) w =
    if wp_version wp =? n then
      match c with
      | Ok db' => (mk_rescue (<[d := db']> (rw_dbs w)) (rw_files w), Ok (Some wp))
      | Err _ => (w, Err "Committing genesis to DB."%string)
      | Panic s => (w, Panic s)
      end
    else (w, Err "Trying to generate waypoint at another version"%string).
Proof.
  unfold bootstrap_run. cbn [genesis_txn_file db_dir waypoint_to_verify commit bo_info update_node_config].
  unfold mbind, st_bind, files, io_read, st_lift, st_result, open_db. rewrite Hl. cbn. rewrite Hg. cbn. rewrite Hd. cbn.
  rewrite Hn. cbn. destruct (wp_version wp =? n); cbn; [|by destruct w]. rewrite Hc. cbn. rewrite bool_decide_true by done. cbn.
  destruct c; cbn; by destruct w.
Qed.
Lemma one_step_eval :
  one_step_apply_rescue_on_db d p w =
    if wp_version wp =? n then
      match c with
      | Ok db' => (mk_rescue (<[d := db']> (rw_dbs w)) (rw_files w), Ok wp)
      | Err _ => (w, Err "Committing genesis to DB."%string)
      | Panic s => (w, Panic s)
      end
    else (w, Err "Trying to generate waypoint at another version"%string).
Proof.
  unfold one_step_apply_rescue_on_db. rewrite (st_bind_run _ _ _ _ _ bootstrap_dry_eval).
  unfold expect_opt. rewrite st_lift_bind. unfold mbind at 1, st_bind at 1. rewrite bootstrap_commit_eval.
  destruct (wp_version wp =? n); [|done]. destruct c; [|done..]. cbn.
  rewrite st_lift_bind. by rewrite bool_decide_true.
Qed.
End eval.

Lemma save_ok self name tx (w w' : world) :
  save_and_check self name tx w = (w', Ok tt) →
  let blob := path_join (default (db_path self) (blob_path self)) name in
  ∃ bs db n wp c, tx_to_bytes tx = Ok bs ∧ rw_files w' !! blob = Some (File (bytes_str bs)) ∧
    (∀ q, q ≠ blob → rw_files w' !! q = rw_files w !! q) ∧ rw_dbs w' = rw_dbs w ∧
    load_genesis_txn blob (rw_files w') = Ok tx ∧ is_genesis tx = true ∧
    rw_dbs w !! db_path self = Some db ∧ num_transactions db = Ok n ∧ calculate_genesis db tx = Ok (wp, c).
Proof.
  intros Hs blob. apply st_bind_ok in Hs as (w1 & p & Hp & Hs). apply files_ok in Hp as (fs' & Hp & ->).
  apply io_bind_ok in Hp as (f1 & bs & Hbs & Hp). apply io_lift_ok in Hbs as [-> Hbs].
  apply io_bind_ok in Hp as (f2 & [] & Hw & [= <- <-]). apply io_write_ok in Hw as [Hb Hk].
  apply st_bind_ok in Hs as (w2 & o & Hd & [= <-]). apply bootstrap_dry in Hd as (-> & tx' & db & n & wp & c & Hl & Hg & Hdb & Hn & Hc & _).
  cbn [rw_files rw_dbs] in *. destruct (tx_bytes_law tx bs Hbs) as [Hbytes Hback].
  assert (tx' = tx) as ->.
  { unfold load_genesis_txn, read_to_string in Hl. rewrite Hb in Hl. cbn in Hl. rewrite str_bytes_bytes_str in Hl by done.
    rewrite Hback in Hl. by apply Ok_inj in Hl. }
  exists bs, db, n, wp, c. done.
Qed.

Lemma registrations_read l fs fs' regs : registrations l fs = (fs', Ok regs) → fs' = fs.
Proof.
  revert fs' regs. induction l as [|el l IH]; intros fs' regs Hr; cbn [registrations] in Hr; [by injection Hr as <-|].
  apply io_bind_ok in Hr as (f1 & reg & Hreg & Hr). unfold io_result in Hreg.
  destruct (registration_from_operator_yaml (Some el) fs) as [f2 r] eqn:E. injection Hreg as -> Hreg.
  assert (f1 = fs) as ->.
  { unfold registration_from_operator_yaml, read_operator_yaml, mbind, io_bind, io_read, io_lift in E.
    destruct (read_to_string _ fs) as [s|e|e]; [|by injection E as <-..].
    destruct (operator_config_from_yaml s); by injection E as <-. }
  apply io_bind_ok in Hr as (f3 & regs' & Hl & [= <- _]). by apply IH in Hl.
Qed.
Lemma on_latest_ok (p : path) f (w w' : world) tx :
  on_latest p f w = (w', Ok tx) →
  w' = w ∧ ∃ db view cs, rw_dbs w !! p = Some db ∧ latest_view db = Ok view ∧ f view (rw_files w) = Ok cs ∧
    tx = GenesisTransaction (WsDirect cs).
Proof.
  unfold on_latest. intros Ho. apply st_bind_ok in Ho as (w1 & db & Hd & Ho). apply open_ok in Hd as [-> Hd].
  apply st_bind_ok in Ho as (w2 & view & [= <- Hv] & Ho). apply st_bind_ok in Ho as (w3 & x & [= <- <-] & Ho).
  apply st_bind_ok in Ho as (w4 & cs & [= <- Hc] & [= <- <-]). split; [done|]. by exists db, view, cs.
Qed.

Lemma rescue_builds self name (w w' : world) :
  blob_name (rc_command self) = Some name → rescue_run self w = (w', Ok tt) →
  ∃ w1 tx, save_and_check self name tx w1 = (w', Ok tt) ∧ rw_dbs w1 = rw_dbs w ∧
    (∀ q, ¬ builds_at (rc_command self) q → rw_files w1 !! q = rw_files w !! q) ∧
    (∀ db, rw_dbs w !! db_path self = Some db → builds (rc_command self) (rw_files w) db tx).
Proof.
  unfold rescue_run. intros Hn Hr. destruct (rc_command self) as [| |yamls mrb chain|mrb vals|script]; try done;
    injection Hn as <-.
  - apply st_bind_ok in Hr as (w1 & tx & Ht & Hr). apply st_bind_ok in Ht as (w2 & regs & Hregs & Ht).
    apply files_ok in Hregs as (fs' & Hregs & ->). pose proof (registrations_read _ _ _ _ Hregs) as ->.
    apply on_latest_ok in Ht as (-> & db & view & cs & Hd & Hv & Hc & ->). cbn [rw_dbs rw_files] in *.
    eexists _, _. split; [exact Hr|]. split; [done|]. split; [done|]. intros db' Hd'.
    assert (db' = db) as -> by congruence. exists regs, view, cs. done.
  - apply st_bind_ok in Hr as (w1 & tx & Ht & Hr). apply on_latest_ok in Ht as (-> & db & view & cs & Hd & Hv & Hc & ->).
    eexists _, _. split; [exact Hr|]. split; [done|]. split; [done|]. intros db' Hd'.
    assert (db' = db) as -> by congruence. exists view, cs. done.
  - apply st_bind_ok in Hr as (w1 & p & [= <- Hp] & Hr). destruct script as [s|]; [|done]. apply Ok_inj in Hp as ->.
    apply st_bind_ok in Hr as (w2 & tx & Ht & Hr). apply st_bind_ok in Ht as (w3 & [code hash] & Hc & [= <- <-]).
    apply files_ok in Hc as (fs' & Hc & ->).
    apply io_bind_ok in Hc as (f1 & codes & Hcs & Hc). apply io_read_ok in Hcs as [-> Hcs].
    apply io_bind_ok in Hc as (f2 & code' & Hl & Hc). apply io_lift_ok in Hl as [-> Hl].
    apply io_bind_ok in Hc as (f3 & [] & Hs & [= <- <- _]). apply save_build_ok in Hs as (_ & _ & Hk).
    eexists _, _. split; [exact Hr|]. split; [done|]. split.
    + intros q Hq. cbn [rw_files]. apply Hk; intros ->; apply Hq; [by left|by right].
    + intros db _. exists codes, code'. split; [done|]. split; [by apply context_opt_ok in Hl|done].
Qed.
End spec.

(** C21: A rescue is built, checked and then applied as one transaction.  A
    command that builds one and succeeds leaves every database as it was, writes
    the transaction it stands for (the change set of its session on the latest
    version, or its script under the framework's account) to the blob and, but
    for the build of a script, nothing else; and the transaction has been checked
    against the database.  Applying the blob in one step then commits exactly the
    outcome calculated, at the version the database has reached; otherwise it
    changes nothing. *)
Theorem rescue_spec {Db View ChangeSet : Type} `{RescueCrates Db View ChangeSet, RescueVm View ChangeSet, AppCfgEnv, OperatorCrates, UpgradeCrates, Sha3, HexCrate}
    self name (w w' : rescue_world Db) :
  blob_name (rc_command self) = Some name → rescue_run self w = (w', Ok tt) →
  let blob := path_join (default (db_path self) (blob_path self)) name in
  ∃ tx bs db n wp committed, rw_dbs w !! db_path self = Some db ∧ builds (rc_command self) (rw_files w) db tx ∧
    tx_to_bytes tx = Ok bs ∧ rw_files w' !! blob = Some (File (bytes_str bs)) ∧
    rw_dbs w' = rw_dbs w ∧
    (∀ q, q ≠ blob → ¬ builds_at (rc_command self) q → rw_files w' !! q = rw_files w !! q) ∧
    num_transactions db = Ok n ∧ calculate_genesis db tx = Ok (wp, committed) ∧
    let '(w2, r) := one_step_apply_rescue_on_db (db_path self) blob w' in
    rw_files w2 = rw_files w' ∧
    match committed with
    | Ok db' => if wp_version wp =? n then rw_dbs w2 = <[db_path self := db']> (rw_dbs w) ∧ r = Ok wp
                else rw_dbs w2 = rw_dbs w ∧ is_err r = true
    | _ => rw_dbs w2 = rw_dbs w ∧ r ≠ Ok wp
    end.
Proof.
  intros Hn Hr blob. destruct (rescue_builds self name w w' Hn Hr) as (w1 & tx & Hs & Hd1 & Hf1 & Hb).
  apply save_ok in Hs as (bs & db & n & wp & c & Hbs & Hblob & Hk & Hdbs & Hl & Hg & Hdb & Hnum & Hc).
  rewrite Hd1 in Hdb, Hdbs. exists tx, bs, db, n, wp, c. split; [done|]. split; [by apply Hb|].
  split; [done|]. split; [done|]. split; [done|].
  split. { intros q Hq Hq'. rewrite Hk by done. by apply Hf1. }
  split; [done|]. split; [done|].
  rewrite (one_step_eval (db_path self) blob w' tx db n wp c); [|done|done|by rewrite Hdbs|done|done].
  destruct (wp_version wp =? n), c; cbn; rewrite ?Hdbs; done.
Qed.

(** ** Witness: a database that is the list of its transactions *)
#[export] Instance sample_rescue : RescueCrates (list (Transaction session)) unit session.
Proof.
  refine {|
    latest_view _ := Ok tt;
    num_transactions db := Ok (Z.of_nat (length db));
    calculate_genesis db tx := Ok (mk_waypoint (Z.of_nat (length db)) [7], Ok (tx :: db));
    tx_to_bytes tx := match tx with
                      | GenesisTransaction (WsScript a code) =>
                          if bool_decide (a = CORE_CODE_ADDRESS ∧ is_bytes code) then Ok code else Err "not supported"%string
                      | _ => Err "not supported"%string
                      end;
    tx_from_bytes bs := Ok (GenesisTransaction (WsScript CORE_CODE_ADDRESS bs));
    node_config_from_yaml s := Err "not a configuration"%string;
    node_config_to_yaml c := Err "not a configuration"%string |}; [|done].
  intros [[cs|a code]|other] bs Hb; try done. case_bool_decide as E; [|done]. destruct E as [-> E].
  by apply Ok_inj in Hb as ->.
Defined.
Definition script_files : file_system :=
  {[ ["db"%string] := Dir; ["pkg"%string] := Dir; ["pkg"; "sources"]%string := Dir;
     ["pkg"; "sources"; "a.move"]%string := File "script {}" ]}.
Definition rescue_world_0 : rescue_world (list (Transaction session)) := mk_rescue {[ ["db"%string] := [] ]} script_files.
Definition script_cli : RescueCli := mk_rescue_cli ["db"%string] None (RunScript (Some ["pkg"%string])).
Definition sample_rescue_run : rescue_world (list (Transaction session)) * outcome unit := rescue_run script_cli rescue_world_0.

Example script_is_rescued :
  is_file ["db"; RUN_SCRIPT_BLOB]%string (rw_files (fst sample_rescue_run)) = true ∧
  rw_dbs (fst (one_step_apply_rescue_on_db ["db"%string] ["db"; RUN_SCRIPT_BLOB]%string (fst sample_rescue_run))) =
    {[ ["db"%string] := [GenesisTransaction (WsScript CORE_CODE_ADDRESS (str_bytes "script {}"))] ]}.
Proof. vm_compute. done. Qed.

Lemma rescue_spec_witness :
  let w' := fst sample_rescue_run in
  let blob := ["db"; RUN_SCRIPT_BLOB]%string in
  blob_name (rc_command script_cli) = Some RUN_SCRIPT_BLOB ∧ snd sample_rescue_run = Ok tt ∧
  ∃ tx bs (db : list (Transaction session)) n wp committed, rw_dbs rescue_world_0 !! ["db"%string] = Some db ∧
    builds (rc_command script_cli) script_files db tx ∧
    tx_to_bytes tx = Ok bs ∧ rw_files w' !! blob = Some (File (bytes_str bs)) ∧ rw_dbs w' = rw_dbs rescue_world_0 ∧
    (∀ q, q ≠ blob → ¬ builds_at (rc_command script_cli) q → rw_files w' !! q = script_files !! q) ∧
    num_transactions db = Ok n ∧ calculate_genesis db tx = Ok (wp, committed) ∧
    let '(w2, r) := one_step_apply_rescue_on_db ["db"%string] blob w' in
    rw_files w2 = rw_files w' ∧
    match committed with
    | Ok db' => if wp_version wp =? n then rw_dbs w2 = <[["db"%string] := db']> (rw_dbs rescue_world_0) ∧ r = Ok wp
                else rw_dbs w2 = rw_dbs rescue_world_0 ∧ is_err r = true
    | _ => rw_dbs w2 = rw_dbs rescue_world_0 ∧ r ≠ Ok wp
    end.
Proof.
  intros w' blob. assert (Hr : snd sample_rescue_run = Ok tt) by (vm_compute; reflexivity).
  split; [reflexivity|]. split; [exact Hr|].
  apply (rescue_spec script_cli RUN_SCRIPT_BLOB rescue_world_0 w'); [reflexivity|].
  unfold w'. change (sample_rescue_run = (fst sample_rescue_run, Ok tt)). rewrite <- Hr. apply surjective_pairing.
Defined.
