(* ===== verification/TxsStream.v ===== *)
(** * tools/txs: streaming transactions

    txs_cli_stream.rs and stream/epoch_tickle_poll.rs: two threads and a
    channel.  The poller asks whether the epoch can be triggered and puts a
    payload on the channel; the listener, alone with the sender, takes payloads
    off and sends them until one fails.  The threads' atomic steps are a
    relation; every interleaving of their requests is a run of it. *)
From Stdlib Require Import ZArith Lia.
From stdpp Require Import base option list strings gmap relations.
From S2P Require Import Prelude RustStr Json Effects Bytes FileSystem MoveTypes AppCfg Node EntryCalls Payloads TxSender.

Open Scope list_scope.
Open Scope Z_scope.

(** The listener between two statements: in [recv], in [submit] after the node
    took the transaction, or gone, the receiver of the channel with it *)
Inductive listener := Listening | Waiting (pending : bytes) | Stopped.
Inductive poller := Polling | Panicked.
Record stream := mk_stream {
  queue : list TransactionPayload;
  the_listener : listener;
  the_poller : poller;
  the_session : session
}.

Inductive StreamTxs := EpochTickle (delay : option Z) | PofBid.
(** [start] ends in the two threads and the seconds between two polls, or in
    [exit]. *)
Inductive started := Running (x : stream) (delay_secs : Z) | Exited (code : Z).

Section stream.
Context `{RestNode, TxSdk}.

Definition stream_start (s : session) : stream := mk_stream [] Listening Polling s.
Definition start (self : StreamTxs) (s : session) : started :=
  match self with
  | EpochTickle delay => Running (stream_start s) (default 60 delay)
  | PofBid => Exited 1
  end.

(** One round of [epoch_tickle_poll]: [send(func).unwrap()] panics once the
    receiver is gone. *)
Definition poll (x : stream) : stream :=
  let '(s', r) := on_snd epoch_over_can_trigger (the_session x) in
  match r with
  | Ok true =>
      match the_listener x with
      | Stopped => mk_stream (queue x) Stopped Panicked s'
      | l => mk_stream (queue x ++ [diem_governance_trigger_epoch]) l (the_poller x) s'
      end
  | Panic _ => mk_stream (queue x) (the_listener x) Panicked s'
  | _ => mk_stream (queue x) (the_listener x) (the_poller x) s'
  end.

(** [listen]: a payload is received, signed and posted; *)
Definition post (p : TransactionPayload) : st session bytes :=
  signed ← sign_payload p;
  on_snd (ask (PostTransaction signed) ans_submit).
Definition receive (p : TransactionPayload) (q : list TransactionPayload) (x : stream) : stream :=
  let '(s', r) := post p (the_session x) in
  match r with
  | Ok pending => mk_stream q (Waiting pending) (the_poller x) s'
  | _ => mk_stream [] Stopped (the_poller x) s'
  end.
(** then the answer is waited for. *)
Definition await (pending : bytes) : st session unit :=
  r ← on_snd (ask (WaitTransaction pending) ans_wait);
  set_response r.
Definition finish (pending : bytes) (x : stream) : stream :=
  let '(s', r) := await pending (the_session x) in
  match r with
  | Ok _ => mk_stream (queue x) Listening (the_poller x) s'
  | _ => mk_stream [] Stopped (the_poller x) s'
  end.

Inductive stream_step (x : stream) : stream → Prop :=
| step_poll : the_poller x = Polling → stream_step x (poll x)
| step_receive p q : the_listener x = Listening → queue x = p :: q → stream_step x (receive p q x)
| step_finish pending : the_listener x = Waiting pending → stream_step x (finish pending x)
| step_hangup : the_listener x = Listening → queue x = [] → the_poller x = Panicked →
    stream_step x (mk_stream [] Stopped Panicked (the_session x)).

(** [epoch_over_can_trigger] is asked once a poll.  The panic of the poller ends
    the process; what the listener may still do until then is included. *)
Definition polls (h : list request) : nat :=
  length (List.filter (fun r => match r with GetView _ _ _ => true | _ => false end) h).

Arguments polls : simpl never.

(** ** Lemmas *)
Lemma polls_app h k : polls (h ++ k) = (polls h + polls k)%nat.
Proof. unfold polls. by rewrite List.filter_app, length_app. Qed.

Lemma polls_view h f ty args : polls (h ++ [GetView f ty args]) = S (polls h).
Proof. rewrite polls_app. unfold polls at 2. cbn. lia. Qed.
Lemma polls_other h r : (∀ f ty args, r ≠ GetView f ty args) → polls (h ++ [r]) = polls h.
Proof. intros Hr. rewrite polls_app. unfold polls at 2. destruct r; cbn; try lia. by destruct (Hr function_id ty_args args). Qed.

(** The two steps of the listener, one after the other, are
    [sign_submit_wait]. *)
Lemma listen_sends p s :
  sign_submit_wait p s =
    match post p s with
    | (s1, Ok pending) =>
        match await pending s1 with
        | (s2, Ok _) => (s2, snd (sign_submit_wait p s))
        | (s2, Err e) => (s2, Err e)
        | (s2, Panic m) => (s2, Panic m)
        end
    | (s1, Err e) => (s1, Err e)
    | (s1, Panic m) => (s1, Panic m)
    end.
Proof.
  destruct s as [self w]. destruct (sign_payload_run p self w) as (t & Hs & _).
  unfold sign_submit_wait, post. rewrite !(st_bind_run _ _ _ _ _ Hs).
  unfold submit, await, on_snd, mbind, st_bind, ask. cbn.
  destruct (ans_submit _) as [h|e]; cbn; [|done]. by destruct (ans_wait _).
Qed.

Lemma post_sends p s : sends [p] s (fst (post p s)) ∧ polls (w_history (snd (fst (post p s)))) = polls (w_history (snd s)).
Proof.
  destruct s as [self w]. destruct (sign_payload_run p self w) as (t & Hs & Hk & Ht & _).
  unfold post. rewrite (st_bind_run _ _ _ _ _ Hs). unfold on_snd, ask. cbn. split.
  - exists [t]. cbn. rewrite Hk. split_and!; try done.
    + unfold submissions. rewrite omap_app. done.
    + by apply Forall_singleton.
  - by rewrite polls_other.
Qed.

Lemma await_sends pending s :
  sends [] s (fst (await pending s)) ∧ polls (w_history (snd (fst (await pending s)))) = polls (w_history (snd s)).
Proof.
  destruct s as [self w]. unfold await, mbind, st_bind, on_snd, ask. cbn.
  destruct (ans_wait _) as [r|e]; cbn; (split; [|by rewrite polls_other]);
    exists []; cbn; unfold submissions; rewrite omap_app; cbn; by rewrite !app_nil_r.
Qed.

Lemma poll_asks s :
  let s' := fst (on_snd epoch_over_can_trigger s) in
  sends [] s s' ∧ (polls (w_history (snd s)) ≤ polls (w_history (snd s')))%nat ∧
  (snd (on_snd epoch_over_can_trigger s) = Ok true → polls (w_history (snd s')) = S (polls (w_history (snd s)))).
Proof.
  assert (Hq : steps quiet epoch_over_can_trigger) by (unfold epoch_over_can_trigger; st_steps).
  split; [by apply on_snd_sends|]. destruct s as [self w]. unfold on_snd.
  assert (Hw : polls (w_history (fst (epoch_over_can_trigger w))) = S (polls (w_history w)) ∨
               fst (epoch_over_can_trigger w) = w ∧ snd (epoch_over_can_trigger w) ≠ Ok true).
  { unfold epoch_over_can_trigger, get_view, view_ext, mbind, st_bind, st_lift, ask.
    destruct (entry_function_id_from_str _) as [f|e|p]; [left|by right..]. cbn [context_res].
    destruct (of_reply _) as [l|e|p]; [|by rewrite <- (polls_view _ f [] [])..]. cbn [mret st_ret].
    destruct (vec_from_value _ _) as [v|e|p]; by rewrite <- (polls_view _ f [] []). }
  destruct (epoch_over_can_trigger w) as [w' r]. cbn in *. destruct Hw as [->|[-> Hr]]; split; (lia || done).
Qed.

(** ** The invariant *)
Notation trigger := diem_governance_trigger_epoch.
(** So many payloads submitted, so many waiting, never more than were polled *)
Definition stream_inv (s0 : session) (x : stream) : Prop :=
  ∃ n m, sends (replicate n trigger) s0 (the_session x) ∧ queue x = replicate m trigger ∧
    (n + m + polls (w_history (snd s0)) ≤ polls (w_history (snd (the_session x))))%nat ∧
    (the_listener x = Stopped → m = O).

Lemma sends_more n k s0 s s' :
  sends (replicate n trigger) s0 s → sends (replicate k trigger) s s' → sends (replicate (n + k) trigger) s0 s'.
Proof. rewrite replicate_add. apply sends_trans. Qed.

Lemma inv_start s0 : stream_inv s0 (stream_start s0).
Proof. exists O, O. split; [apply sends_nil_refl|]. split; [done|]. split; [cbn; lia|done]. Qed.

Lemma inv_poll s0 x : stream_inv s0 x → stream_inv s0 (poll x).
Proof.
  intros (n & m & Hs & Hq & Hp & Hl). unfold poll. pose proof (poll_asks (the_session x)) as (Ha & Hle & Heq).
  destruct (on_snd _ (the_session x)) as [s' r]. cbn in Ha, Hle, Heq.
  pose proof (sends_more n 0 _ _ _ Hs Ha) as Hs'. rewrite Nat.add_0_r in Hs'.
  assert (Hsame : ∀ P, stream_inv s0 (mk_stream (queue x) (the_listener x) P s')).
  { intros P. exists n, m. split; [done|]. split; [done|]. split; [cbn; lia|done]. }
  destruct r as [[]|e|p]; try apply Hsame. specialize (Heq eq_refl).
  destruct (the_listener x) eqn:El; [| |by apply Hsame];
    exists n, (S m); (split; [done|]); (split; [cbn; rewrite Hq; by rewrite <- replicate_cons_app|]);
    (split; [cbn; lia|done]).
Qed.

Lemma inv_receive s0 x p q : stream_inv s0 x → queue x = p :: q → stream_inv s0 (receive p q x).
Proof.
  intros (n & m & Hs & Hq & Hp & Hl) Hpq. destruct m as [|m]; [by rewrite Hq in Hpq|].
  rewrite Hq in Hpq. injection Hpq as <- <-. unfold receive.
  pose proof (post_sends trigger (the_session x)) as [Ha Hpolls].
  destruct (post _ _) as [s' r]. cbn in Ha, Hpolls.
  pose proof (sends_more n 1 _ _ _ Hs Ha) as Hs'.
  destruct r as [pending|e|e]; [exists (n + 1)%nat, m|exists (n + 1)%nat, O..]; (split; [done|]); (split; [done|]);
    (split; [cbn; lia|done]).
Qed.

Lemma inv_finish s0 x pending : stream_inv s0 x → the_listener x = Waiting pending → stream_inv s0 (finish pending x).
Proof.
  intros (n & m & Hs & Hq & Hp & Hl) Hw. unfold finish. pose proof (await_sends pending (the_session x)) as [Ha Hpolls].
  destruct (await _ _) as [s' r]. cbn in Ha, Hpolls. pose proof (sends_more n 0 _ _ _ Hs Ha) as Hs'.
  rewrite Nat.add_0_r in Hs'. destruct r as [u|e|e]; [exists n, m|exists n, O..]; (split; [done|]); (split; [done|]);
    (split; [cbn; lia|done]).
Qed.

Lemma inv_step s0 x y : stream_inv s0 x → stream_step x y → stream_inv s0 y.
Proof.
  intros Hi []; [by apply inv_poll|by apply inv_receive|by apply inv_finish|].
  destruct Hi as (n & m & Hs & Hq & Hp & _). exists n, O. cbn. by split_and!; try lia.
Qed.
Lemma inv_reachable s0 x y : stream_inv s0 x → rtc stream_step x y → stream_inv s0 y.
Proof. intros Hi Hr. revert Hi. induction Hr as [x|x y z Hxy _ IH]; intros Hi; [done|]. apply IH. by eapply inv_step. Qed.

(** Nothing is sent after a failure. *)
Lemma stopped_step x y :
  the_listener x = Stopped → stream_step x y →
  the_listener y = Stopped ∧ sends [] (the_session x) (the_session y).
Proof.
  intros Hl []; [|congruence..]. unfold poll. pose proof (poll_asks (the_session x)) as (Ha & _).
  destruct (on_snd _ _) as [s' r]. cbn in Ha. rewrite Hl. by destruct r as [[]|e|p].
Qed.
Lemma stopped_stays x y :
  rtc stream_step x y → the_listener x = Stopped →
  the_listener y = Stopped ∧ sends [] (the_session x) (the_session y).
Proof.
  induction 1 as [x|x y z Hxy _ IH]; intros Hl; [split; [done|apply sends_nil_refl]|].
  destruct (stopped_step _ _ Hl Hxy) as [Hy Hs]. destruct (IH Hy) as [Hz Hs']. split; [done|].
  by apply (sends_trans [] [] _ _ _ Hs Hs').
Qed.

(** ** A node that takes every transaction *)
Definition accepting : Prop :=
  (∀ h, ∃ p, ans_submit h = inl p) ∧ (∀ h, ∃ r, ans_wait h = inl r).

Lemma accepting_post p s : accepting → ∃ pending, snd (post p s) = Ok pending.
Proof.
  intros [Hs _]. destruct s as [self w]. destruct (sign_payload_run p self w) as (t & Ht & _).
  unfold post. rewrite (st_bind_run _ _ _ _ _ Ht). unfold on_snd, ask. cbn.
  destruct (Hs (w_history w ++ [PostTransaction t])) as [h Hh]. rewrite Hh. by exists h.
Qed.
Lemma accepting_await pending s : accepting → snd (await pending s) = Ok tt.
Proof.
  intros [_ Hw]. destruct s as [self w]. unfold await, mbind, st_bind, on_snd, ask. cbn.
  destruct (Hw (w_history w ++ [WaitTransaction pending])) as [r Hr]. by rewrite Hr.
Qed.

Lemma accepting_step x y :
  accepting → (the_poller x = Polling → the_listener x ≠ Stopped) → stream_step x y →
  the_poller y = Polling → the_listener y ≠ Stopped.
Proof.
  intros Ha Hl [].
  - specialize (Hl H1). unfold poll. destruct (on_snd _ _) as [s' [[]|e|p]]; try done. by destruct (the_listener x).
  - unfold receive. destruct (accepting_post p (the_session x) Ha) as [h Hh].
    destruct (post p _) as [s' r]. cbn in Hh. by rewrite Hh.
  - unfold finish. pose proof (accepting_await pending (the_session x) Ha) as Hh.
    destruct (await pending _) as [s' r]. cbn in Hh. by rewrite Hh.
  - done.
Qed.
Lemma accepting_runs x y :
  accepting → rtc stream_step x y → (the_poller x = Polling → the_listener x ≠ Stopped) →
  the_poller y = Polling → the_listener y ≠ Stopped.
Proof. intros Ha. induction 1 as [|x y z Hxy _ IH]; intros Hl; [done|]. apply IH. by apply (accepting_step x). Qed.

Lemma drain_listening x :
  accepting → the_listener x = Listening →
  ∃ y, rtc stream_step x y ∧ queue y = [] ∧ the_listener y = Listening ∧ sends (queue x) (the_session x) (the_session y).
Proof.
  intros Ha. remember (queue x) as q eqn:Eq. revert x Eq.
  induction q as [|p q IH]; intros x Eq Hl.
  { exists x. split; [apply rtc_refl|]. split; [done|]. split; [done|]. apply sends_nil_refl. }
  destruct (accepting_post p (the_session x) Ha) as [h Hh]. pose proof (post_sends p (the_session x)) as [Hs1 _].
  assert (Hr : receive p q x = mk_stream q (Waiting h) (the_poller x) (fst (post p (the_session x)))).
  { unfold receive. destruct (post p (the_session x)) as [s' r]. cbn in Hh. by rewrite Hh. }
  set (s1 := fst (post p (the_session x))) in *. set (x1 := receive p q x) in *.
  pose proof (accepting_await h s1 Ha) as Hw. pose proof (await_sends h s1) as [Hs2 _].
  assert (Hf : finish h x1 = mk_stream q Listening (the_poller x) (fst (await h s1))).
  { unfold finish. rewrite Hr. cbn [the_session]. destruct (await h s1) as [s' r]. cbn in Hw. by rewrite Hw. }
  destruct (IH (finish h x1)) as (y & Hxy & Hqy & Hly & Hsy); [by rewrite Hf..|].
  exists y. split.
  - apply (rtc_l _ _ x1); [by apply step_receive|]. apply (rtc_l _ _ (finish h x1)); [|done].
    apply step_finish. by rewrite Hr.
  - split; [done|]. split; [done|]. rewrite Hf in Hsy. cbn [the_session] in Hsy.
    apply (sends_trans [p] q _ _ _ Hs1). by apply (sends_trans [] q _ _ _ Hs2).
Qed.

(** The listener ends what it is doing, then takes the rest. *)
Lemma drain x :
  accepting → the_listener x ≠ Stopped →
  ∃ y, rtc stream_step x y ∧ queue y = [] ∧ the_listener y = Listening ∧ sends (queue x) (the_session x) (the_session y).
Proof.
  intros Ha Hl. destruct (the_listener x) as [|h|] eqn:El; [by apply drain_listening| |done].
  pose proof (accepting_await h (the_session x) Ha) as Hw. pose proof (await_sends h (the_session x)) as [Hs _].
  assert (Hf : finish h x = mk_stream (queue x) Listening (the_poller x) (fst (await h (the_session x)))).
  { unfold finish. destruct (await h _) as [s' r]. cbn in Hw. by rewrite Hw. }
  destruct (drain_listening (finish h x) Ha) as (y & Hxy & Hq & Hly & Hsy); [by rewrite Hf|].
  exists y. split; [apply (rtc_l _ _ (finish h x)); [by apply step_finish|done]|]. split; [done|]. split; [done|].
  rewrite Hf in Hsy. by apply (sends_trans [] (queue x) _ _ _ Hs).
Qed.
End stream.

(** ** Properties *)
(** C6: however the polls and the listener's requests interleave, only the
    epoch trigger is ever submitted, numbered on from the sender's account;
    what was submitted and what still waits on the channel are together no
    more than the polls made; after a failure nothing more is submitted and
    the channel is empty. *)
Theorem stream_spec `{RestNode, TxSdk} s0 x y :
  rtc stream_step (stream_start s0) x → rtc stream_step x y →
  (∃ n m, sends (replicate n diem_governance_trigger_epoch) s0 (the_session x) ∧
     queue x = replicate m diem_governance_trigger_epoch ∧
     (n + m + polls (w_history (snd s0)) ≤ polls (w_history (snd (the_session x))))%nat) ∧
  (the_listener x = Stopped →
     queue x = [] ∧ the_listener y = Stopped ∧ sends [] (the_session x) (the_session y)).
Proof.
  intros Hx Hy. destruct (inv_reachable s0 _ _ (inv_start s0) Hx) as (n & m & Hs & Hq & Hp & Hl). split.
  - by exists n, m.
  - intros Hst. split; [by rewrite Hq, (Hl Hst)|]. by apply (stopped_stays x y).
Qed.


(** ** Witnesses: an epoch that is over, and a node that takes everything *)
Definition stream_node (submit : list request → reply bytes) : RestNode := {|
  now _ := 1700000000;
  ans_ledger_info _ := inl tt;
  ans_index _ := inl 1;
  ans_view _ := inl [JBool true];
  ans_resource _ := inl None;
  ans_account _ := inr "not found"%string;
  ans_submit := submit;
  ans_wait _ := inl (mk_on_chain [1] StatusSuccess);
  ans_simulate _ := inl [];
  entry_function_id_from_str s := Ok s;
  parse_type_tags s := Ok [s];
  account_sequence_number _ := Ok 5;
  address_from_value _ := Err "not an address"
|}.
Definition open_node : RestNode := stream_node (fun _ => inl [1]).
Definition closed_node : RestNode := stream_node (fun _ => inr "mempool is full"%string).

Definition sample_session : session := (sample_sender, empty_world).
Section refused.
#[local] Existing Instance closed_node.
(** Two polls find the epoch over, the listener's first transaction is refused,
    the next poll panics. *)
Definition refused : stream :=
  let x := poll (poll (stream_start sample_session)) in
  receive diem_governance_trigger_epoch [diem_governance_trigger_epoch] x.
Example refused_stops :
  the_listener refused = Stopped ∧ the_poller refused = Polling ∧ the_poller (poll refused) = Panicked ∧
  length (submissions (w_history (snd (the_session (poll refused))))) = 1%nat.
Proof. vm_compute. done. Qed.

Lemma stream_spec_witness :
  rtc stream_step (stream_start sample_session) refused ∧ rtc stream_step refused (poll refused) ∧
  (∃ n m, sends (replicate n diem_governance_trigger_epoch) sample_session (the_session refused) ∧
     queue refused = replicate m diem_governance_trigger_epoch ∧
     (n + m + polls [] ≤ polls (w_history (snd (the_session refused))))%nat) ∧
  (the_listener refused = Stopped →
     queue refused = [] ∧ the_listener (poll refused) = Stopped ∧
     sends [] (the_session refused) (the_session (poll refused))).
Proof.
  assert (Hx : rtc stream_step (stream_start sample_session) refused).
  { eapply rtc_l; [by apply step_poll|]. eapply rtc_l; [by apply step_poll|].
    apply rtc_once. by apply step_receive. }
  assert (Hy : rtc stream_step refused (poll refused)) by (apply rtc_once; by apply step_poll).
  split; [done|]. split; [done|]. by apply (stream_spec sample_session refused (poll refused)).
Defined.
End refused.

Section taken.
#[local] Existing Instance open_node.
(** The listener waits for its first transaction while a second trigger is on
    the channel and a third poll comes. *)
Definition busy : stream :=
  let x := receive diem_governance_trigger_epoch [] (poll (stream_start sample_session)) in poll x.
Example busy_waits : the_listener busy = Waiting [1] ∧ length (queue busy) = 1%nat.
Proof. vm_compute. done. Qed.
End taken.
