(* ===== verification/TxsCli.v ===== *)
(** * tools/txs/src/txs_cli.rs: the command line

    A run loads the configuration, finds the key, the chain, the upstream node
    and the costs, makes the sender, and hands it to the subcommand.  publish.rs
    is here too. *)
From Stdlib Require Import ZArith Lia.
From stdpp Require Import base option list strings gmap.
From S2P Require Import Prelude RustStr Json Effects Bytes FileSystem MoveTypes HashValue F64 Mnemonic Wallet.
From S2P Require Import NetworkPlaylist AppCfg GasCoin Node EntryCalls Payloads TxSender TxsCommunity KeyRotation TxsCommands TxsStream.

Open Scope list_scope.
Open Scope Z_scope.

(** The Move package builder: the metadata and the modules of a package; the
    size of a payload in BCS, and the limit diem sets *)
Class PublishCrates (MovePackageDir : Type) := {
  built_package : MovePackageDir → outcome (bytes * list bytes);
  bcs_serialized_size : TransactionPayload → outcome Z;
  MAX_PUBLISH_PACKAGE_SIZE : Z
}.

Section cli.
Context {MovePackageDir : Type} `{PublishCrates MovePackageDir}.

(** publish.rs *)
Definition encode_publish_payload (move_options : MovePackageDir) : outcome TransactionPayload :=
  '(metadata, compiled_units) ← built_package move_options;
  let payload := code_publish_package_txn metadata compiled_units in
  size ← bcs_serialized_size payload;
  _ ← ensure (negb (MAX_PUBLISH_PACKAGE_SIZE <? size)) "The package is larger than the limit";
  Ok payload.

Inductive TxsSub :=
| SubUser (tx : UserTxs)
| SubValidator (tx : ValidatorTxs)
| SubGovernance (tx : GovernanceTxs)
| SubCommunity (tx : CommunityTxs)
| SubTransfer (to_account : AccountAddress) (amount : f64)
| SubStream (tx : StreamTxs)
| SubPublish (move_opts : MovePackageDir)
| SubGenerate (function_id : string) (type_args args : option string).
Record TxsCli := mk_cli {
  subcommand : option TxsSub;
  config_path : option path;
  mnemonic : option string;
  test_private_key : option string;
  tx_profile : option TxType;
  tx_cost : option TxCost;
  chain_name : option NamedChain;
  url : option Url;
  estimate_only : bool;
  legacy_address : bool
}.
(** A run ends, or it is the stream's from then on. *)
Inductive cli_end := Done | Streams (s : started).

Context `{RotationCrypto, !Sha256, !DiemAddress, !AppCfgEnv, RestNode, TxSdk, CommunityCrates, OperatorCrates, HexCrate}.
Context (mode : NamedChain) (prompt : outcome bytes) (confirm : option (bool * bool)).

Definition cli_key (self : TxsCli) (profile : Profile) : outcome bytes :=
  match test_private_key self, mnemonic self with
  | Some pk, _ => private_key_from_encoded_string pk
  | None, Some m => kc ← get_keys_from_mnem m; Ok (pri_key (child_0_owner kc))
  | None, None => match borrow_private_key profile with Ok p => Ok p | _ => prompt end
  end.
(** With both [--tx-cost] and [--tx-profile] the message says that the run is
    exiting; it goes on with the costs. *)
Definition cli_cost (self : TxsCli) (app_cfg : AppCfg) : TxCost :=
  default (get_cost (tx_configs app_cfg) (tx_profile self)) (tx_cost self).
Definition cli_chain (self : TxsCli) (app_cfg : AppCfg) : NamedChain :=
  default (default_chain_id (workspace app_cfg)) (chain_name self).

Definition cli_sender (self : TxsCli) : st world Sender :=
  w ← st_get;
  app_cfg ← st_lift (load (config_path self) (w_files w));
  profile ← st_lift (get_profile mode None app_cfg);
  pri_key ← st_lift (cli_key self profile);
  let chain := cli_chain self app_cfg in
  _ ← st_lift match url self with Some u => Ok u | None => pick_url (Some chain) app_cfg end;
  send ← sender_new pri_key (named_chain_id chain) true (legacy_address self);
  mret (set_tx_cost send (cli_cost self app_cfg)).

Definition sub_run (self : TxsCli) : st session cli_end :=
  match subcommand self with
  | Some (SubTransfer to_account amount) => _ ← transfer to_account amount (estimate_only self); mret Done
  | Some (SubPublish move_opts) =>
      payload ← st_lift (encode_publish_payload move_opts);
      _ ← sign_submit_wait payload;
      mret Done
  | Some (SubGenerate function_id ty_args args) => _ ← generic function_id ty_args args; mret Done
  | Some (SubValidator tx) => _ ← validator_run tx; mret Done
  | Some (SubGovernance tx) => _ ← governance_run tx; mret Done
  | Some (SubUser tx) => _ ← user_run prompt confirm tx; mret Done
  | Some (SubCommunity tx) => _ ← community_run tx; mret Done
  | Some (SubStream tx) => fun s => (s, Ok (Streams (start tx s)))
  | None => mret Done
  end.

(** A computation of a session that starts from its sender *)
Definition run_as {A : Type} (send : Sender) (m : st session A) : st world A := fun w =>
  let '((_, w'), r) := m (send, w) in (w', r).
Definition cli_run (self : TxsCli) : st world cli_end :=
  send ← cli_sender self;
  run_as send (sub_run self).
End cli.

(** Goes through a computation and the matches in it. *)
Ltac st_cases :=
  repeat first
    [ solve [auto 3 with effects]
    | match goal with |- steps _ (match ?x with _ => _ end) => destruct x end
    | apply steps_lift; apply _
    | apply steps_ret; apply _
    | apply steps_bind; [apply _| |intros ?]
    | apply steps_result
    | apply steps_attempt ].

(** ** Specification: what a session signs *)

(** Everything submitted is signed by the account, numbered on from it, on the
    sender's chain and costs. *)
Definition signs (s s' : session) : Prop :=
  ∃ ps ts, submissions (w_history (snd s')) = submissions (w_history (snd s)) ++ ts ∧
    tx_key <$> ts = numbered (local_account (fst s)) ps ∧ Forall (on_terms (fst s)) ts ∧
    local_account (fst s') = Nat.iter (length ps) next_account (local_account (fst s)) ∧
    s_tx_cost (fst s') = s_tx_cost (fst s) ∧ chain_id (fst s') = chain_id (fst s).

#[export] Instance signs_preorder : PreOrder signs.
Proof.
  split.
  - intros s. exists [], []. by rewrite app_nil_r.
  - intros s1 s2 s3 (ps & ts & Hh & Hk & Ht & Ha & Hc & Hi) (qs & us & Hh' & Hk' & Ht' & Ha' & Hc' & Hi').
    exists (ps ++ qs), (ts ++ us). split; [by rewrite Hh', Hh, app_assoc|]. split.
    { by rewrite fmap_app, Hk, Hk', numbered_app, Ha. }
    split. { apply Forall_app. split; [done|]. eapply Forall_impl; [exact Ht'|]. unfold on_terms. by rewrite Hc, Hi. }
    split; [by rewrite Ha', Ha, length_app, <- Nat.iter_add, Nat.add_comm|]. split; congruence.
Qed.

Lemma sends_signs ps s s' : sends ps s s' → signs s s'.
Proof. intros (ts & Hh & Hk & Ht & Ha & Hc & Hi & _). by exists ps, ts. Qed.

(** Whatever leaves the submissions alone *)
Lemma silent_signs self w w' :
  submissions (w_history w') = submissions (w_history w) → signs (self, w) (self, w').
Proof. intros Hs. exists [], []. cbn. by rewrite app_nil_r. Qed.

Section signing.
Context `{RestNode, TxSdk}.

Lemma signs_submit p : steps signs (sign_submit_wait p).
Proof. intros s. by eapply sends_signs, sign_submit_wait_sends. Qed.
Lemma signs_query {A : Type} (m : st world A) : steps quiet m → steps signs (on_snd m).
Proof. intros Hm s. by eapply sends_signs, on_snd_sends. Qed.
Lemma signs_files {A : Type} (m : io A) : steps signs (on_files m).
Proof.
  intros [self w]. unfold on_files, on_snd. destruct (m (w_files w)) as [fs r]. by apply silent_signs.
Qed.
Lemma signs_get : steps signs (@st_get session).
Proof. by intros s. Qed.
Lemma signs_sender : steps signs get_sender.
Proof. by intros s. Qed.
Lemma quiet_ask_view {A : Type} f ty args (ans : list request → reply A) : steps quiet (ask (GetView f ty args) ans).
Proof. by apply quiet_ask. Qed.
Lemma quiet_ask_index {A : Type} (ans : list request → reply A) : steps quiet (ask GetIndex ans).
Proof. by apply quiet_ask. Qed.
Lemma quiet_ask_ledger {A : Type} (ans : list request → reply A) : steps quiet (ask GetLedgerInfo ans).
Proof. by apply quiet_ask. Qed.
Lemma quiet_ask_account {A : Type} a (ans : list request → reply A) : steps quiet (ask (GetAccount a) ans).
Proof. by apply quiet_ask. Qed.
End signing.
#[export] Hint Resolve signs_preorder signs_submit signs_query signs_files signs_get signs_sender : effects.
#[export] Hint Resolve quiet_ask_view quiet_ask_index quiet_ask_ledger quiet_ask_account : effects.

Section signing_commands.
Context `{RotationCrypto, RestNode, TxSdk, !DiemAddress, CommunityCrates, !AppCfgEnv, OperatorCrates, HexCrate}.

Lemma quiet_sequence_number a : steps quiet (get_sequence_number a).
Proof. unfold get_sequence_number. st_steps. Qed.
Lemma quiet_lookup k : steps quiet (lookup_originating_address k).
Proof. unfold lookup_originating_address. st_steps. Qed.
Lemma quiet_account_view m f a : steps quiet (account_view m f a).
Proof. unfold account_view. st_steps. Qed.
Hint Resolve quiet_sequence_number quiet_lookup quiet_account_view quiet_resolved : effects.
Lemma quiet_u64_view m f a : steps quiet (u64_view m f a).
Proof. unfold u64_view. st_steps. Qed.
Hint Resolve quiet_u64_view : effects.
Lemma quiet_page_rank a : steps quiet (page_rank_calculate_score a).
Proof. unfold page_rank_calculate_score. st_cases. Qed.
Lemma quiet_report a : steps quiet (account_vouch_report a).
Proof.
  unfold account_vouch_report, page_rank_get_cached_score, vouch_limits_calculate_score_limit, vouch_limits_get_vouch_limit.
  st_cases.
Qed.
Lemma quiet_ballots a : steps quiet (multi_auth_ballots a).
Proof. unfold multi_auth_ballots. st_steps. Qed.
Lemma quiet_proposal_id : steps quiet get_next_governance_proposal_id.
Proof. unfold get_next_governance_proposal_id. st_steps. Qed.
Hint Resolve quiet_report quiet_ballots quiet_proposal_id : effects.

Lemma signs_validator tx : steps signs (validator_run tx).
Proof. unfold validator_run. st_cases. Qed.
Lemma signs_governance tx : steps signs (governance_run tx).
Proof. unfold governance_run, governance_payload. st_cases. Qed.
Lemma signs_rotate prompt confirm k a : steps signs (rotate_run prompt confirm k a).
Proof. unfold rotate_run. st_cases. Qed.
Lemma signs_capability revoke a : steps signs (capability_run revoke a).
Proof. unfold capability_run. st_cases. Qed.
Hint Resolve signs_rotate signs_capability : effects.
Lemma signs_user prompt confirm tx : steps signs (user_run prompt confirm tx).
Proof. unfold user_run, vouch_run, show_reports. st_cases. Qed.
Lemma signs_process_one tx ballots i : steps signs (process_one tx ballots i).
Proof. unfold process_one, is_slow_wallet, propose_one_in_batch. st_cases. Qed.
Lemma signs_process_all tx ballots l : steps signs (process_all tx ballots l).
Proof. induction l as [|i l IH]; cbn [process_all]; [st_steps|]. st_steps; apply signs_process_one. Qed.
Hint Resolve signs_process_all : effects.
Lemma signs_community c : steps signs (community_run c).
Proof.
  unfold community_run, command_run, batch_run, reauth_run, fetch_pending_reauth_ballots.
  apply steps_result. st_cases.
Qed.
End signing_commands.

(** ** The run *)
Section run.
Context {MovePackageDir : Type} `{PublishCrates MovePackageDir}.
Context `{RotationCrypto, !Sha256, !DiemAddress, !AppCfgEnv, RestNode, TxSdk, CommunityCrates, OperatorCrates, HexCrate}.
Context (mode : NamedChain) (prompt : outcome bytes) (confirm : option (bool * bool)).

(** What is submitted between two states is the sender's. *)
Definition submits (send : Sender) (w w' : world) : Prop :=
  ∃ ps ts, submissions (w_history w') = submissions (w_history w) ++ ts ∧
    tx_key <$> ts = numbered (local_account send) ps ∧ Forall (on_terms send) ts.

(** The key is the one the arguments give, the mnemonic after the key itself;
    else the profile's, else the prompt's. *)
Definition key_chosen (self : @TxsCli MovePackageDir) (profile : Profile) (prompt : outcome bytes) (key : bytes) : Prop :=
  match test_private_key self, mnemonic self with
  | Some pk, _ => private_key_from_encoded_string pk = Ok key
  | None, Some m => ∃ kc, get_keys_from_mnem m = Ok kc ∧ key = pri_key (child_0_owner kc)
  | None, None =>
      borrow_private_key profile = Ok key ∨ (∀ k, borrow_private_key profile ≠ Ok k) ∧ prompt = Ok key
  end.
Lemma cli_key_chosen self profile key : cli_key prompt self profile = Ok key → key_chosen self profile prompt key.
Proof.
  unfold cli_key, key_chosen. destruct (test_private_key self), (mnemonic self) as [m|]; try done.
  - intros Hk. apply bind_ok in Hk as (kc & Hkc & Hk). exists kc. by apply Ok_inj in Hk as <-.
  - destruct (borrow_private_key profile) as [k|e|p]; [|by right..]. intros [= ->]. by left.
Qed.

Lemma signs_submits s s' : signs s s' → submits (fst s) (snd s) (snd s').
Proof. intros (ps & ts & Hh & Hk & Ht & _). by exists ps, ts. Qed.

Lemma steps_submits {A : Type} (m : st session A) s : steps signs m → submits (fst s) (snd s) (snd (fst (m s))).
Proof. intros Hm. by apply signs_submits, Hm. Qed.

Lemma estimate_silent p self w : submissions (w_history (snd (fst (estimate p (self, w))))) = submissions (w_history w).
Proof.
  unfold estimate. destruct (sign_payload_run p self w) as (t & Hs & _). rewrite (st_bind_run _ _ _ _ _ Hs).
  unfold on_snd, ask. cbn. unfold submissions. rewrite omap_app. cbn. by rewrite app_nil_r.
Qed.

Lemma transfer_submits to amount e s : submits (fst s) (snd s) (snd (fst (transfer to amount e s))).
Proof.
  destruct e; cbn [transfer].
  - exists [], []. rewrite app_nil_r. split; [|done]. destruct s as [self w]. cbn [fst snd].
    pose proof (estimate_silent (encode (OlAccountTransfer to (cast_decimal_to_coin amount))) self w) as He.
    unfold transfer, mbind at 1, st_bind at 1. revert He.
    destruct (estimate _ _) as [s1 [l|e|p]]; cbn; [|done..]. by destruct l.
  - apply steps_submits. unfold transfer. st_cases.
Qed.

Lemma sub_run_submits (self : @TxsCli MovePackageDir) s :
  (∀ tx, subcommand self ≠ Some (SubStream tx)) →
  submits (fst s) (snd s) (snd (fst (sub_run prompt confirm self s))).
Proof.
  intros Hs. unfold sub_run. destruct (subcommand self) as [[]|] eqn:E; try (by destruct (Hs tx));
    [apply steps_submits..| |apply steps_submits|apply steps_submits|apply steps_submits].
  1-4: apply steps_bind; [apply _| |intros ?; st_cases];
    auto using signs_user, signs_validator, signs_governance, signs_community.
  - pose proof (transfer_submits to_account amount (estimate_only self) s) as Ht.
    unfold mbind, st_bind. by destruct (transfer _ _ _ s) as [s1 []].
  - st_cases.
  - unfold generic. st_cases.
  - st_cases.
Qed.

Lemma sender_new_ok key chain given legacy w w1 send :
  sender_new key chain given legacy w = (w1, Ok send) →
  la_private_key (local_account send) = key ∧ chain_id send = chain.
Proof.
  unfold sender_new. intros Hs. apply st_bind_ok in Hs as (? & ? & _ & Hs).
  apply st_bind_ok in Hs as (? & ? & _ & Hs). apply st_bind_ok in Hs as (? & ? & _ & Hs).
  apply st_bind_ok in Hs as (? & ? & _ & Hs). apply st_bind_ok in Hs as (? & ? & _ & Hs). by injection Hs as _ <-.
Qed.

Lemma quiet_default : steps quiet client_default.
Proof.
  unfold client_default, from_libra_config. apply steps_bind; [apply _|by intros w|intros w]. st_cases.
Qed.
Hint Resolve quiet_default : effects.
Lemma quiet_sender (self : @TxsCli MovePackageDir) : steps quiet (cli_sender mode prompt self).
Proof.
  unfold cli_sender, sender_new. apply steps_bind; [apply _|by intros w|intros w].
  st_cases; unfold lookup_originating_address, get_sequence_number; st_cases.
Qed.

Lemma cli_sender_ok (self : @TxsCli MovePackageDir) w w1 send :
  cli_sender mode prompt self w = (w1, Ok send) →
  ∃ cfg profile, load (config_path self) (w_files w) = Ok cfg ∧ get_profile mode None cfg = Ok profile ∧
    key_chosen self profile prompt (la_private_key (local_account send)) ∧
    s_tx_cost send = cli_cost self cfg ∧ chain_id send = named_chain_id (cli_chain self cfg).
Proof.
  unfold cli_sender. intros Hs. apply st_bind_ok in Hs as (w2 & a & Hw & Hs). injection Hw as <- <-.
  apply st_bind_ok in Hs as (w2 & cfg & Hc & Hs). injection Hc as <- Hc.
  apply st_bind_ok in Hs as (w2 & profile & Hp & Hs). injection Hp as <- Hp.
  apply st_bind_ok in Hs as (w2 & key & Hk & Hs). injection Hk as <- Hk.
  apply st_bind_ok in Hs as (w2 & u & _ & Hs). apply st_bind_ok in Hs as (w3 & send' & Hn & Hs). injection Hs as <- <-.
  apply sender_new_ok in Hn as [<- Hn]. exists cfg, profile. split_and!; try done. by apply cli_key_chosen.
Qed.
End run.


(** ** Witnesses *)
#[export] Instance sample_publish : PublishCrates unit := {|
  built_package _ := Ok ([1], [[2]]);
  bcs_serialized_size _ := Ok 1000;
  MAX_PUBLISH_PACKAGE_SIZE := 60000
|}.
Definition sample_cli (sub : @TxsSub unit) : TxsCli :=
  mk_cli (Some sub) None None (Some "k"%string) (Some Miner) None (Some TESTNET) None false false.
Definition cli_world : world := mk_world [] {[ default_file_path := File (cfg_to_yaml sample_cfg) ]}.
(** A node that knows the account of the key *)
Definition cli_node : RestNode :=
  sample_node (fun _ => inl [JString (addr_to_string addr_b)]) (fun _ => inl (Some (JString ""))).
Section sample.
#[local] Existing Instances sample_sha cli_node.
Definition sample_run (sub : TxsSub) : world * outcome cli_end :=
  cli_run MAINNET (Err "no prompt"%string) None (sample_cli sub) cli_world.

(** The costs are those of the profile that the arguments name, the chain is
    the one they name. *)
Example cli_generates :
  let r := sample_run (SubGenerate "0x1::ol_account::create" None None) in
  snd r = Ok Done ∧
  (λ t, (raw_sender (raw_txn t), raw_sequence_number (raw_txn t), tb_chain_id (raw_body (raw_txn t)),
         tb_gas_unit_price (raw_body (raw_txn t)))) <$> submissions (w_history (fst r)) = [(addr_b, 5, 2, 300)].
Proof. vm_compute. done. Qed.

End sample.
