(* ===== verification/Dialog.v ===== *)
(** * Dialogs with the user and downloads

    What the interactive tools of src/tools/config and src/tools/genesis do
    besides reading and writing files: they ask the user, download from the web,
    and query a node.  A user's session is the list of the answers still to come;
    an answer that does not fit the prompt, or none, is an error of the terminal.
    The web, like the node, answers by what it was asked before. *)
From Stdlib Require Import ZArith Lia Ascii.
From stdpp Require Import base option list strings gmap.
From S2P Require Import Prelude RustStr Json Effects Bytes FileSystem MoveTypes HashValue Mnemonic Wallet NetworkPlaylist Pledge Compare Node.

Open Scope list_scope.
Open Scope Z_scope.

Inductive answer := Yes | No | Choice (n : nat) | Typed (s : string).
Inductive web_request := HttpGet (u : Url) | SyncNodes (us : list Url) | Connect (u : Url).

Record dialog := mk_dialog { d_answers : list answer; d_web : list web_request; d_world : world }.

(** reqwest, the url and serde crates; the version each node gives and the order
    in which the nodes answer; [NamedChain]'s [Debug] *)
Class Web := {
  ans_get : list web_request → reply string;
  ans_versions : list web_request → Url → option Z;
  arrival : list web_request → list HostProfile → list HostProfile;
  url_parse : string → option Url;
  playlist_from_json : string → outcome NetworkPlaylist;
  chain_debug : NamedChain → string;
  arrival_law h l : arrival h l ≡ₚ l
}.

Definition NOT_A_TERMINAL : string := "IO error: not a terminal".

(** ** dialoguer *)
Definition with_answers (l : list answer) (d : dialog) : dialog := mk_dialog l (d_web d) (d_world d).

Definition confirm (prompt : string) : st dialog bool := fun d =>
  match d_answers d with
  | Yes :: l => (with_answers l d, Ok true)
  | No :: l => (with_answers l d, Ok false)
  | _ => (d, Err NOT_A_TERMINAL)
  end.
(** [Select]: only an item of the menu can be chosen. *)
Definition select (prompt : string) (items : list string) : st dialog nat := fun d =>
  match d_answers d with
  | Choice n :: l => if (n <? length items)%nat then (with_answers l d, Ok n) else (d, Err NOT_A_TERMINAL)
  | _ => (d, Err NOT_A_TERMINAL)
  end.
(** [Input]: asked again until the text is not empty, unless that is allowed *)
Fixpoint next_text (allow_empty : bool) (l : list answer) : option (string * list answer) :=
  match l with
  | Typed s :: l' => if allow_empty || negb (String.eqb s EmptyString) then Some (s, l') else next_text allow_empty l'
  | _ => None
  end.
Definition input (prompt : string) (allow_empty : bool) : st dialog string := fun d =>
  match next_text allow_empty (d_answers d) with
  | Some (s, l) => (with_answers l d, Ok s)
  | None => (d, Err NOT_A_TERMINAL)
  end.

(** ** The web *)
Definition on_world {A : Type} (m : st world A) : st dialog A := fun d =>
  let '(w, r) := m (d_world d) in (mk_dialog (d_answers d) (d_web d) w, r).
Definition in_files {A : Type} (m : io A) : st dialog A := fun d =>
  let '(fs, r) := m (w_files (d_world d)) in
  (mk_dialog (d_answers d) (d_web d) (mk_world (w_history (d_world d)) fs), r).

Lemma in_files_run {A : Type} (m : io A) d d' r :
  in_files m d = (d', r) →
  m (w_files (d_world d)) = (w_files (d_world d'), r) ∧ d_answers d' = d_answers d ∧ d_web d' = d_web d ∧
  w_history (d_world d') = w_history (d_world d).
Proof. unfold in_files. destruct (m _) as [fs r0]. by intros [= <- <-]. Qed.

Section web.
Context `{RestNode, Web}.

Definition web {A : Type} (r : web_request) (ans : list web_request → reply A) : st dialog A := fun d =>
  let h := d_web d ++ [r] in (mk_dialog (d_answers d) h (d_world d), of_reply (ans h)).
(** [reqwest::get(u).await?.text().await?]: any status is a response. *)
Definition http_get (u : Url) : st dialog string := web (HttpGet u) ans_get.
(** [Client::new(u)]: the node asked from then on *)
Definition connect (u : Url) : st dialog unit := web (Connect u) (fun _ => inl tt).

(** ** network_playlist.rs, on the web *)
Definition download_playlist (playlist_url : Url) (chain_id : option NamedChain) : st dialog NetworkPlaylist :=
  out ← http_get playlist_url;
  st_lift (from_playlist_url (fun _ => playlist_from_json out) playlist_url chain_id).
Definition download_default (chain_id : option NamedChain) : st dialog NetworkPlaylist :=
  if decide (chain_id = Some TESTING) then mret (playlist_new None (Some TESTING))
  else download_playlist (find_default_playlist chain_id) chain_id.
Definition refresh (np : NetworkPlaylist) : st dialog NetworkPlaylist :=
  web (SyncNodes (url <$> nodes np))
    (fun h => inl (refresh_sync_status (arrival h (check_sync (ans_versions h) <$> nodes np)) np)).

(** ** load_keys.rs and account_keys.rs: the mnemonic typed at the prompt, or in
    the environment when testing; a failure ends the process. *)
Context `{WalletCrypto, Sha256, DiemAddress}.
Context (mode : NamedChain) (mnem_env : option string).

Definition EXIT : string := "exit(1)".
Definition or_exit {A : Type} (r : outcome A) : outcome A :=
  match r with Err _ => Panic EXIT | r => r end.

Definition read_password : st dialog string := fun d =>
  match d_answers d with
  | Typed s :: l => (with_answers l d, Ok s)
  | _ => (d, Err NOT_A_TERMINAL)
  end.
Definition mnem_from_prompt : st dialog string :=
  match bool_decide (mode = TESTING), mnem_env with
  | true, Some m => mret (trim m)
  | _, _ => read ← st_result or_exit read_password; mret (trim read)
  end.
Definition get_account_from_prompt : st dialog (bytes * AccountAddress * WalletLibrary) :=
  mnem ← mnem_from_prompt;
  st_lift (or_exit (get_account_from_mnem mnem)).
Definition get_keys_from_prompt : st dialog KeyChain :=
  '(_, _, wallet) ← get_account_from_prompt;
  st_lift (key_chain_new wallet).

(** ** interactive/account_selection.rs *)
Definition auth_key_zero : bytes := repeat 0 32.

Definition prompt_for_account : st dialog AccountKeys :=
  account_keys ← (kc ← get_keys_from_prompt; mret (child_0_owner kc));
  legacy ← confirm "Is this a legacy pre-v7 address (16 characters)?";
  match legacy with
  | true =>
      a ← st_lift (get_ol_legacy_address (account account_keys));
      mret (mk_account_keys a (auth_key account_keys) (pri_key account_keys))
  | false => mret account_keys
  end.

Definition interactive_account_selection : st dialog (bytes * AccountAddress) :=
  with_account ← confirm "Do you want to configure with an account address in this profile?";
  match with_account with
  | true =>
      use_existing ← confirm "Do you want to enter an address? If not, will derive from mnemonic.";
      match use_existing with
      | true =>
          address_input ← input "Enter your account address (hex format)" false;
          address ← st_lift (context_opt "Invalid account address format" (addr_from_hex_literal address_input));
          mret (auth_key_zero, address)
      | false =>
          account_keys ← prompt_for_account;
          mret (auth_key account_keys, account account_keys)
      end
  | false => mret (auth_key_zero, addr_ZERO)
  end.
End web.

(** ** What a computation guarantees

    From a state of the invariant [I], it stays in [I], moves as [R] allows, and
    a value it returns is of [P]. *)
Definition returns {A : Type} (P : A → Prop) (r : outcome A) : Prop := ∀ a, r = Ok a → P a.

Section runs.
Context {S : Type} (I : S → Prop) (R : relation S) `{!PreOrder R}.

Definition runs {A : Type} (P : A → Prop) (m : st S A) : Prop :=
  ∀ s, I s → I (fst (m s)) ∧ R s (fst (m s)) ∧ returns P (snd (m s)).

Lemma runs_lift {A : Type} (P : A → Prop) r : returns P r → runs P (st_lift r).
Proof. intros Hr s Hs. by cbn. Qed.
Lemma runs_ret {A : Type} (P : A → Prop) a : P a → runs P (mret a).
Proof. intros Ha. apply (runs_lift P (Ok a)). by intros b [= <-]. Qed.
Lemma runs_bind {A B : Type} (P : A → Prop) (Q : B → Prop) (m : st S A) (f : A → st S B) :
  runs P m → (∀ a, P a → runs Q (f a)) → runs Q (m ≫= f).
Proof.
  intros Hm Hf s Hs. specialize (Hm s Hs). revert Hm. unfold mbind, st_bind.
  destruct (m s) as [s1 [a|e|p]]; cbn; intros (Hi & Hr & Ha); [|done..].
  destruct (Hf a (Ha a eq_refl) s1 Hi) as (Hi' & Hr' & Hq). split; [done|]. split; [by etrans|done].
Qed.
Lemma runs_mono {A : Type} (P Q : A → Prop) (m : st S A) : runs P m → (∀ a, P a → Q a) → runs Q m.
Proof. intros Hm Hq s Hs. destruct (Hm s Hs) as (? & ? & Hp). repeat split; [done..|]. intros a Ha. by apply Hq, Hp. Qed.
Lemma runs_attempt {A : Type} (P : A → Prop) (m : st S A) : runs P m → runs (returns P) (attempt m).
Proof.
  intros Hm s Hs. specialize (Hm s Hs). revert Hm. unfold attempt.
  destruct (m s) as [s1 [a|e|p]]; cbn; intros (Hi & Hr & Ha); (split; [done|split; [done|]]); intros b [= <-]; done.
Qed.
Lemma runs_result {A B : Type} (P : A → Prop) (Q : B → Prop) (f : outcome A → outcome B) (m : st S A) :
  runs P m → (∀ r, returns P r → returns Q (f r)) → runs Q (st_result f m).
Proof.
  intros Hm Hf s Hs. specialize (Hm s Hs). revert Hm. unfold st_result.
  destruct (m s) as [s1 r]; cbn. intros (Hi & Hr & Ha). split; [done|]. split; [done|by apply Hf].
Qed.
End runs.

Lemma runs_weaken {S A : Type} (I : S → Prop) (R R' : relation S) (P : A → Prop) (m : st S A) :
  runs I R P m → (∀ s s', R s s' → R' s s') → runs I R' P m.
Proof. intros Hm HR s Hs. destruct (Hm s Hs) as (? & ? & ?). repeat split; [done| |done]. by apply HR. Qed.

(** A dialog that leaves the files alone *)
Definition same_files (d d' : dialog) : Prop := w_files (d_world d') = w_files (d_world d).
#[export] Instance same_files_preorder : PreOrder same_files.
Proof. split; unfold same_files; [done|]. intros d1 d2 d3 -> ->. done. Qed.
Notation asks P m := (runs (fun _ => True) same_files P m).

Lemma asks_confirm prompt : asks (fun _ => True) (confirm prompt).
Proof. intros d _. unfold confirm. by destruct (d_answers d) as [|[] l]. Qed.
Lemma asks_select prompt items : asks (fun n => (n < length items)%nat) (select prompt items).
Proof.
  intros d _. unfold select. destruct (d_answers d) as [|[] l]; try done.
  destruct (Nat.ltb_spec n (length items)) as [Hn|Hn]; cbn; [|done]. split; [done|]. split; [done|]. by intros a [= <-].
Qed.
Lemma asks_input prompt e : asks (fun _ => True) (input prompt e).
Proof. intros d _. unfold input. by destruct (next_text e (d_answers d)) as [[s l]|]. Qed.
Lemma asks_read_password : asks (fun _ => True) read_password.
Proof. intros d _. unfold read_password. by destruct (d_answers d) as [|[] l]. Qed.
Lemma asks_web `{RestNode, Web} {A : Type} r (ans : list web_request → reply A) : asks (fun _ => True) (web r ans).
Proof. intros d _. by unfold web. Qed.
Lemma asks_world {A : Type} (P : A → Prop) (m : st world A) :
  (∀ w, w_files (fst (m w)) = w_files w ∧ returns P (snd (m w))) → asks P (on_world m).
Proof.
  intros Hm d _. unfold on_world, same_files. destruct (Hm (d_world d)) as [Hf Hp].
  by destruct (m (d_world d)) as [w r].
Qed.

(** The next step of a dialog, what it returns being of [P] *)
Tactic Notation "run_bind" uconstr(P) := eapply (runs_bind _ _ P).
Ltac run_ret := apply (runs_ret _ _).
Ltac run_lift := apply (runs_lift _ _).

Section accounts.
Context `{RestNode, Web, WalletCrypto, Sha256, DiemAddress}.
Context (mode : NamedChain) (mnem_env : option string).

Lemma asks_mnem_from_prompt : asks (fun _ => True) (mnem_from_prompt mode mnem_env).
Proof.
  unfold mnem_from_prompt.
  assert (Hp : asks (fun _ => True) (read ← st_result or_exit read_password; mret (trim read))).
  { run_bind (fun _ => True); [|by intros s _; run_ret].
    by eapply (runs_result _ _ (fun _ => True)); [apply asks_read_password|]. }
  destruct (bool_decide (mode = TESTING)), mnem_env; [by run_ret|exact Hp..].
Qed.
Lemma asks_account_from_prompt : asks (fun _ => True) (get_account_from_prompt mode mnem_env).
Proof.
  unfold get_account_from_prompt. run_bind _; [apply asks_mnem_from_prompt|]. intros m _. by run_lift.
Qed.

Lemma nth_account_wf w n k : get_account_from_nth w n = Ok k → addr_wf (account k).
Proof.
  unfold get_account_from_nth. intros (s & _ & (key & _ & Hk)%bind_ok)%bind_ok.
  apply bind_ok in Hk as (a & Ha%context_opt_ok & (ak & _ & (sk & _ & Hk)%bind_ok)%bind_ok).
  apply Ok_inj in Hk as <-. apply (addr_parse_wf _ _ (or_introl Ha)).
Qed.
Lemma key_chain_wf w kc : key_chain_new w = Ok kc → addr_wf (account (child_0_owner kc)).
Proof.
  unfold key_chain_new. intros (c0 & Hc%nth_account_wf & Hk)%bind_ok.
  do 5 apply bind_ok in Hk as (? & _ & Hk). by apply Ok_inj in Hk as <-.
Qed.
Lemma legacy_address_wf a b : get_ol_legacy_address a = Ok b → addr_wf b.
Proof. intros ([] & _ & Hb%context_opt_ok)%bind_ok. apply (addr_parse_wf _ _ (or_introl Hb)). Qed.

Lemma asks_prompt_for_account : asks (fun k => addr_wf (account k)) (prompt_for_account mode mnem_env).
Proof.
  unfold prompt_for_account. run_bind (fun k => addr_wf (account k)).
  - run_bind (fun kc => addr_wf (account (child_0_owner kc))).
    + unfold get_keys_from_prompt. run_bind _; [apply asks_account_from_prompt|].
      intros [[? ?] w] _. run_lift. intros kc Hk. by eapply key_chain_wf.
    + intros kc Hkc. by run_ret.
  - intros k Hk. run_bind (fun _ : bool => True); [apply asks_confirm|]. intros [|] _; [|by run_ret].
    run_bind addr_wf; [|intros a Ha; by run_ret].
    run_lift. intros a Ha. by eapply legacy_address_wf.
Qed.

Lemma addr_zero_wf : addr_wf addr_ZERO.
Proof. by vm_compute; split; [|repeat constructor]. Qed.

Lemma asks_account_selection : asks (fun p => addr_wf (snd p)) (interactive_account_selection mode mnem_env).
Proof.
  unfold interactive_account_selection. run_bind (fun _ : bool => True); [apply asks_confirm|].
  intros [|] _; [|run_ret; apply addr_zero_wf].
  run_bind (fun _ : bool => True); [apply asks_confirm|]. intros [|] _.
  - run_bind (fun _ : string => True); [apply asks_input|]. intros s _.
    run_bind addr_wf; [|intros a Ha; by run_ret].
    run_lift. intros a Ha%context_opt_ok. apply (addr_parse_wf _ _ (or_introl Ha)).
  - run_bind _; [apply asks_prompt_for_account|]. intros k Hk. by run_ret.
Qed.
End accounts.
