(* ===== verification/FrameworkCli.v ===== *)
(** * framework/src: the command line of the framework

    release.rs: the release targets and their bundles; framework_cli.rs: the
    release, the upgrade and the governance script commands; upgrade_fixtures:
    the upgrades made for the tests.  The compiler of a release is an
    interface. *)
From Stdlib Require Import ZArith Lia Ascii.
From stdpp Require Import base option list strings gmap.
From S2P Require Import Prelude RustStr Json Effects Bytes FileSystem MoveTypes HashValue GenesisRegistration Restore.
From S2P Require Import Node EntryCalls Payloads TxSender TxsCommunity KeyRotation TxsCommands UpgradeProposal Dialog.

Open Scope list_scope.
Open Scope Z_scope.

(** ** release.rs *)
Inductive ReleaseTarget : Set := Head | Devnet | Testnet | Mainnet.
#[export] Instance release_target_eq_dec : EqDecision ReleaseTarget. Proof. solve_decision. Defined.

(** [Display] and [FromStr]; no letter outside ASCII has one of these names in
    lower case. *)
Definition target_name (t : ReleaseTarget) : string :=
  match t with Head => "head" | Devnet => "devnet" | Testnet => "testnet" | Mainnet => "mainnet" end.
Definition target_from_str (s : string) : outcome ReleaseTarget :=
  let l := str_lower s in
  if String.eqb l "head" then Ok Head
  else if String.eqb l "devnet" then Ok Devnet
  else if String.eqb l "testnet" then Ok Testnet
  else if String.eqb l "mainnet" then Ok Mainnet
  else Err "Invalid target. Valid values are: head, devnet, testnet, mainnet".

Definition packages (t : ReleaseTarget) : list (string * option string) :=
  [("move-stdlib", None); ("vendor-stdlib", None);
   ("libra-framework", Some "cached-packages/src/libra_framework_sdk_builder.rs")]%string.

Definition RELEASE_BUNDLE_EXTENSION : string := "mrb".
Definition file_name (t : ReleaseTarget) : string := target_name t +:+ "." +:+ RELEASE_BUNDLE_EXTENSION.

Definition BYTECODE_VERSION : Z := 6.

Record DocgenOptions := mk_docgen {
  include_impl : bool;
  include_specs : bool;
  specs_inlined : bool;
  include_dep_diagram : bool;
  collapsed_sections : bool;
  landing_page_template : option string;
  references_file : option string
}.
Record BuildOptions := mk_build_options {
  bo_dev : bool;
  with_srcs : bool;
  with_abis : bool;
  with_source_maps : bool;
  with_error_map : bool;
  with_docs : bool;
  docgen_options : option DocgenOptions;
  skip_fetch_latest_git_deps : bool;
  bytecode_version : option Z
}.
Record ReleaseOptions := mk_release_options {
  build_options : BuildOptions;
  ro_packages : list path;
  rust_bindings : list string;
  ro_output : path
}.

(** [Path::join] of a relative path with slashes; [Path::display] of an absolute
    one *)
Definition join_str (p : path) (s : string) : path := p ++ split_char "/" s.
Definition path_display (p : path) : string := "/" +:+ join "/" p.

(** diem_framework: a release's bundle is read from the one file; making it
    writes the bundle, the bindings and the packages' own directories. *)
Class ReleaseCrates := {
  ReleaseBundle : Type;
  bundle_read : path → file_system → outcome ReleaseBundle;
  release_create : ReleaseOptions → io unit;
  bundle_read_law p fs fs' : fs' !! p = fs !! p → bundle_read p fs' = bundle_read p fs;
  release_create_law o fs fs' : release_create o fs = (fs', Ok tt) → is_ok (bundle_read (ro_output o) fs') = true;
  release_outside_law o fs q :
    q ≠ ro_output o → path_display q ∉ rust_bindings o → Forall (λ p, ¬ p `prefix_of` q) (ro_packages o) →
    fst (release_create o fs) !! q = fs !! q
}.

Section release.
Context `{ReleaseCrates}.
(** The directory of the crate, at the compilation and in the environment, and
    the current one *)
Context (crate_dir : path) (manifest_dir : option path) (current_dir : outcome path).

Definition find_bundle_path (t : ReleaseTarget) : path := path_join (path_join crate_dir "releases") (file_name t).
Definition load_bundle_from_file (p : path) : file_system → outcome ReleaseBundle := bundle_read p.
Definition load_bundle (t : ReleaseTarget) : file_system → outcome ReleaseBundle := bundle_read (find_bundle_path t).

Definition source_path : outcome path :=
  match manifest_dir with
  | Some p => Ok p
  | None => expect_res "could not get local current_dir" current_dir
  end.

Definition create_release_options (t : ReleaseTarget) (dev_mode : bool) (out : option path) : outcome ReleaseOptions :=
  source_path ← source_path;
  let packages := (λ '(path, binding_path), (path_join source_path path, default EmptyString binding_path)) <$> packages t in
  Ok (mk_release_options
        (mk_build_options dev_mode dev_mode true dev_mode true true
           (Some (mk_docgen true true false false true (Some "doc_template/overview.md"%string) (Some "doc_template/references.md"%string)))
           true (Some BYTECODE_VERSION))
        (fst <$> packages)
        ((λ '(_, binding), if String.eqb binding EmptyString then binding else path_display (join_str source_path binding)) <$> packages)
        match out with
        | Some path => path
        | None => path_join (path_join source_path "releases") "head.mrb"
        end).
Definition create_release (t : ReleaseTarget) (dev_mode : bool) (out : option path) : io unit :=
  options ← io_lift (create_release_options t dev_mode out);
  release_create options.

(** framework_cli.rs: [GenesisRelease::execute] *)
Definition release_execute (target : ReleaseTarget) (production : bool) : io unit :=
  create_release target (negb production) None.

(** lib.rs *)
Definition testing_local_release_bundle (fs : file_system) : outcome ReleaseBundle :=
  expect_res "could not find release bundle, head.mrb in framework/releases/head.mrb" (load_bundle Head fs).
End release.

(** ** framework_cli.rs: governance scripts *)
Definition TEMPLATE : string := "
script {
  // THIS IS A TEMPLATE GOVERNANCE SCRIPT
  // you can generate this file with commandline tools: `libra-framework governance --output-dir --framework-local-dir`
  use diem_framework::diem_governance;
  use std::vector;

  fun main(proposal_id: u64){
      let next_hash = vector::empty();
      let _framework_signer = diem_governance::resolve_multi_step_proposal(proposal_id, @0000000000000000000000000000000000000000000000000000000000000001, next_hash);
  }
}
".

Section governance.
Context `{UpgradeCrates, Sha3}.

Definition template_path (package_dir : path) (script_name : string) : path :=
  path_join (path_join package_dir "sources") (script_name +:+ ".move").

(** The text of the context is not a format string. *)
Definition make_template_files (package_dir framework_local_dir : path) (script_name : string) (script_source : option string)
    : io unit :=
  _ ← io_result (context_res "could not create the output directory {new_path:?}") (io_update (create_dir_all package_dir));
  _ ← init_move_dir_wrapper package_dir script_name framework_local_dir;
  io_write (template_path package_dir script_name) (default TEMPLATE script_source).

Record GovernanceScript := mk_gov_script {
  script_dir : path;
  gs_framework_local_dir : path;
  only_make_template : bool
}.
Definition TEMPLATE_NAME : string := "governance_script_template".
Definition template_prompt (dir : path) : string := "create a script template at " +:+ path_display dir.

Definition governance_execute (g : GovernanceScript) : st dialog unit :=
  here ← in_files (io_read (λ fs, Ok (exists_ (script_dir g) fs)));
  if negb here || only_make_template g then
    yes ← confirm (template_prompt (script_dir g));
    match yes with
    | true =>
        let package_dir := path_join (script_dir g) TEMPLATE_NAME in
        in_files (make_template_files package_dir (gs_framework_local_dir g) TEMPLATE_NAME None)
    | false => mret tt
    end
  else
    in_files ('(bytes, hash) ← libra_compile_script (script_dir g); save_build (script_dir g) bytes hash).
End governance.

(** The command line *)
Record FrameworkUpgrade := mk_upgrade {
  output_dir : path;
  fu_framework_local_dir : path;
  core_modules : option (list string);
  danger_force_upgrade : bool
}.
Inductive FrameworkCli :=
| Release (target : ReleaseTarget) (production : bool)
| Governance (g : GovernanceScript)
| Upgrade (u : FrameworkUpgrade).

Section cli.
Context `{UpgradeCrates, DiemAddress, HexCrate, Sha3, ReleaseCrates}.
Definition framework_execute (manifest_dir : option path) (current_dir : outcome path) (c : FrameworkCli) : st dialog unit :=
  match c with
  | Release target production => in_files (release_execute manifest_dir current_dir target production)
  | Governance g => governance_execute g
  | Upgrade u => in_files (upgrade_execute (output_dir u) (fu_framework_local_dir u) (core_modules u) (danger_force_upgrade u))
  end.
End cli.

(** ** Lemmas: releases *)
Lemma target_parse t : target_from_str (target_name t) = Ok t.
Proof. by destruct t. Qed.

Lemma file_name_inj t u : file_name t = file_name u → t = u.
Proof. by destruct t, u. Qed.

Lemma join_common (src : path) : ∃ pre, ∀ x l, join "/" (src ++ x :: l) = pre +:+ join "/" (x :: l).
Proof.
  induction src as [|y src [pre IH]]; [by exists EmptyString|].
  exists (y +:+ "/" +:+ pre). intros x l. rewrite !str_app_assoc, <- IH. cbn [app]. by destruct src.
Qed.

(** A bundle is not the file of the bindings. *)
Lemma bundle_no_binding src t :
  path_display (find_bundle_path src t) ≠
  path_display (join_str src "cached-packages/src/libra_framework_sdk_builder.rs").
Proof.
  assert (Hs : split_char "/" "cached-packages/src/libra_framework_sdk_builder.rs" =
    ["cached-packages"; "src"; "libra_framework_sdk_builder.rs"]%string) by (vm_compute; reflexivity).
  destruct (join_common src) as [pre Hp]. unfold path_display, find_bundle_path, join_str, path_join.
  rewrite <- app_assoc, Hs. cbn [app]. intros E%str_app_inv_head. rewrite (Hp "releases"%string), (Hp "cached-packages"%string) in E.
  apply str_app_inv_head in E. by destruct t.
Qed.

Section release_lemmas.
Context `{ReleaseCrates}.

(** A release is always that of the head: the bundle of another target, where it
    is looked for, stays as it was. *)
Lemma release_is_head src target production t fs fs' :
  release_execute (Some src) (Ok src) target production fs = (fs', Ok tt) →
  is_ok (load_bundle src Head fs') = true ∧
  (t ≠ Head → load_bundle src t fs' = load_bundle src t fs).
Proof.
  intros E. unfold release_execute, create_release in E.
  apply io_bind_ok in E as (f1 & o & Ho & E). apply io_lift_ok in Ho as [-> Ho].
  unfold create_release_options, source_path in Ho. cbn [mbind outcome_bind] in Ho. apply Ok_inj in Ho.
  assert (Hout : ro_output o = path_join (path_join src "releases") "head.mrb") by by rewrite <- Ho.
  split.
  - unfold load_bundle, find_bundle_path. change (file_name Head) with "head.mrb"%string. rewrite <- Hout.
    by apply (release_create_law o fs).
  - intros Ht. apply bundle_read_law. pose proof (release_outside_law o fs (find_bundle_path src t)) as Hl.
    rewrite E in Hl. apply Hl.
    + rewrite Hout. unfold find_bundle_path, path_join. intros Eq. apply app_inj_tail in Eq as [_ Eq].
      change "head.mrb"%string with (file_name Head) in Eq. by apply file_name_inj in Eq.
    + rewrite <- Ho. pose proof (bundle_no_binding src t) as Hb. set (b := path_display (find_bundle_path src t)) in *.
      assert (Hne : b ≠ EmptyString) by (by intros Hb2; apply (f_equal String.length) in Hb2).
      cbn [rust_bindings fmap list_fmap packages default from_option snd fst String.eqb]. set_solver.
    + rewrite <- Ho. cbn [ro_packages fmap list_fmap packages fst]. unfold find_bundle_path, path_join.
      repeat constructor; intros [k Hk]; rewrite <- !app_assoc in Hk; apply app_inv_head in Hk; discriminate.
Qed.
End release_lemmas.

(** ** Lemmas: governance scripts *)

(** Under [p] anything may happen; elsewhere what there was stays, and no file
    is made. *)
Definition under (p : path) (fs fs' : file_system) : Prop :=
  ∀ q, ¬ p `prefix_of` q →
    (∀ x, fs !! q = Some x → fs' !! q = Some x) ∧ (∀ s, fs' !! q = Some (File s) → fs !! q = Some (File s)).
#[export] Instance under_preorder p : PreOrder (under p).
Proof.
  split; [by intros fs q|]. intros f1 f2 f3 HA HB q Hq. destruct (HA q Hq) as [A1 A2], (HB q Hq) as [B1 B2].
  split; [intros x Hx; by apply B1, A1|intros s Hs; by apply A2, B2].
Qed.
Lemma outside_under p fs fs' : outside p fs fs' → under p fs fs'.
Proof. intros Ho q Hq. by rewrite (Ho q Hq). Qed.

Section governance_lemmas.
Context `{UpgradeCrates, Sha3, HexCrate}.

Definition fill_template (package_dir framework : path) (script_name : string) (src : option string) : io unit :=
  _ ← init_move_dir_wrapper package_dir script_name framework;
  io_write (template_path package_dir script_name) (default TEMPLATE src).

Lemma under_fill package_dir framework script_name src :
  leaves (under package_dir) (fill_template package_dir framework script_name src).
Proof.
  unfold fill_template, template_path, path_join. apply leaves_bind; [apply _| |intros _].
  - intros fs. apply outside_under, outside_init.
  - intros fs. apply outside_under. apply outside_dir_write. rewrite <- app_assoc. by apply prefix_app_r.
Qed.
Lemma under_template package_dir framework script_name src :
  leaves (under package_dir) (make_template_files package_dir framework script_name src).
Proof.
  unfold make_template_files. apply leaves_bind; [apply _| |intros _; apply under_fill].
  apply leaves_result, leaves_update; [apply _|]. intros fs fs' Hc q _.
  split; [by intros x; apply create_dir_all_keeps with (1 := Hc)|by intros s; apply create_dir_all_dirs with (1 := Hc)].
Qed.

Lemma compile_ok d fs fs' code hash :
  libra_compile_script d fs = (fs', Ok (code, hash)) →
  is_bytes code ∧ hash = sha3_256 code ∧
  (∃ codes, build_scripts d fs = Ok codes ∧ last codes = Some code) ∧ save_build d code hash fs = (fs', Ok tt).
Proof.
  unfold libra_compile_script. intros Hs.
  apply io_bind_ok in Hs as (f1 & codes & Hc & Hs). apply io_read_ok in Hc as [-> Hc].
  apply io_bind_ok in Hs as (f2 & c & Hl & Hs). apply io_lift_ok in Hl as [-> Hl%context_opt_ok].
  apply io_bind_ok in Hs as (f3 & [] & Hs & Hr). injection Hr as <- <- <-.
  split_and!; [|done|by exists codes|done].
  pose proof (build_scripts_law _ _ _ Hc) as Hb. rewrite Forall_forall in Hb. by apply Hb, last_Some_elem_of.
Qed.

(** A script that is saved where there is a directory is a package to propose. *)
Lemma save_build_package d code fs fs' :
  is_bytes code → is_Some (fs !! d) → save_build d code (sha3_256 code) fs = (fs', Ok tt) →
  package d (bytes_str code) fs'.
Proof.
  intros Hb Hd Hs. apply save_build_ok in Hs as (Hmv & Hsha & Hother). unfold package.
  rewrite str_bytes_bytes_str by done. split_and!; [|done|].
  - rewrite Hother; [done|intros E; apply (f_equal length) in E; unfold path_join in E; rewrite length_app in E; cbn in E; lia..].
  - rewrite Hsha. do 2 f_equal. symmetry. apply hex_encode_law, sha3_256_law.
Qed.

Definition script_files (d : path) : list path := [path_join d "script.mv"; path_join d "script_sha3"].

Lemma save_build_outside d code hash : leaves (FileSystem.outside (script_files d)) (save_build d code hash).
Proof.
  unfold save_build. apply leaves_bind; [apply _|apply FileSystem.outside_write; set_solver|intros _].
  apply FileSystem.outside_write. set_solver.
Qed.

Definition compile_and_save (d : path) : io unit := '(bytes, hash) ← libra_compile_script d; save_build d bytes hash.

Lemma compile_outside d : leaves (FileSystem.outside (script_files d)) (compile_and_save d).
Proof.
  unfold compile_and_save, libra_compile_script. apply leaves_bind; [apply _| |intros [bs h]; apply save_build_outside].
  apply leaves_bind; [apply _|apply leaves_read; apply _|intros codes].
  apply leaves_bind; [apply _|apply leaves_lift; apply _|intros c].
  apply leaves_bind; [apply _|apply save_build_outside|intros _]. apply leaves_lift. apply _.
Qed.

Lemma save_build_keeps_dir d code hash fs fs' : save_build d code hash fs = (fs', Ok tt) → is_Some (fs !! d) → is_Some (fs' !! d).
Proof.
  intros Hs Hd. apply save_build_ok in Hs as (_ & _ & Hother). rewrite Hother; [done|..];
    intros E; apply (f_equal length) in E; unfold path_join in E; rewrite length_app in E; cbn in E; lia.
Qed.

Lemma compile_and_save_ok d fs fs' :
  is_Some (fs !! d) → compile_and_save d fs = (fs', Ok tt) →
  ∃ codes code, build_scripts d fs = Ok codes ∧ last codes = Some code ∧ package d (bytes_str code) fs'.
Proof.
  intros Hd Hc. apply io_bind_ok in Hc as (f1 & [code hash] & Hc & Hs).
  apply compile_ok in Hc as (Hb & -> & (codes & Hcodes & Hl) & Hs1). exists codes, code. split; [done|]. split; [done|].
  apply (save_build_package _ _ f1); [done| |done]. by apply (save_build_keeps_dir _ _ _ _ _ Hs1).
Qed.

Lemma template_ok package_dir framework script_name src fs fs' :
  make_template_files package_dir framework script_name src fs = (fs', Ok tt) →
  fs' !! template_path package_dir script_name = Some (File (default TEMPLATE src)).
Proof.
  unfold make_template_files. intros E. apply io_bind_ok in E as (f1 & [] & _ & E).
  apply io_bind_ok in E as (f2 & [] & _ & E). by apply io_write_ok in E as [-> _].
Qed.

(** A directory is built only as a package: it or a directory above has a
    manifest. *)
Definition needs_manifest : Prop := ∀ d fs codes,
  build_scripts d fs = Ok codes → ∃ p, p `prefix_of` d ∧ is_file (path_join p "Move.toml") fs = true.
Definition no_manifest (d : path) (fs : file_system) : Prop :=
  ∀ p, p `prefix_of` d → is_file (path_join p "Move.toml") fs = false.

Lemma no_manifest_under d name fs fs' :
  "Move.toml"%string ≠ name → under (path_join d name) fs fs' → no_manifest d fs → no_manifest d fs'.
Proof.
  intros Hne Hu Hn p Hp. specialize (Hn p Hp). unfold is_file in *.
  destruct (fs' !! path_join p "Move.toml") as [[s|]|] eqn:E; [|done..]. exfalso.
  assert (Hq : ¬ path_join d name `prefix_of` path_join p "Move.toml").
  { intros [k Hk]. destruct Hp as [j ->]. unfold path_join in Hk. rewrite <- !app_assoc in Hk. apply app_inv_head in Hk.
    destruct j as [|x j]; cbn in Hk; [by injection Hk|]. injection Hk as _ Hk. by destruct j. }
  destruct (Hu _ Hq) as [_ Hf]. by rewrite (Hf _ E) in Hn.
Qed.

Lemma compile_needs_manifest d fs : needs_manifest → no_manifest d fs → is_ok (snd (compile_and_save d fs)) = false.
Proof.
  intros Hm Hn. destruct (compile_and_save d fs) as [fs' [[]|e|p]] eqn:E; [|done..]. exfalso.
  apply io_bind_ok in E as (f1 & [code hash] & Hc & _). apply compile_ok in Hc as (_ & _ & (codes & Hb & _) & _).
  destruct (Hm _ _ _ Hb) as (p & Hp & Hf). by rewrite (Hn p Hp) in Hf.
Qed.
End governance_lemmas.

(** Directories made are there, from the root on. *)
Lemma foldl_make_dir_made ps fs fs' q :
  foldl make_dir (Ok fs) ps = Ok fs' → q ∈ ps → is_Some (fs' !! q).
Proof.
  revert fs. induction ps as [|d ps IH]; intros fs E Hq; [by apply elem_of_nil in Hq|]. cbn [foldl] in E.
  destruct (make_dir (Ok fs) d) as [fs1|e|m] eqn:Ed; [|by rewrite foldl_make_dir_fail in E..].
  apply elem_of_cons in Hq as [->|Hq]; [|by apply (IH fs1)].
  assert (Hd : fs1 !! d = Some Dir).
  { revert Ed. unfold make_dir. cbn [mbind outcome_bind]. destruct (fs !! d) as [[c|]|] eqn:Ef; [done|by intros <-%Ok_inj|].
    intros <-%Ok_inj. by rewrite lookup_insert, decide_True. }
  clear IH Ed. revert fs1 Hd E. induction ps as [|x ps IH]; intros fs1 Hd E; cbn [foldl] in E.
  { apply Ok_inj in E as <-. by rewrite Hd. }
  destruct (make_dir (Ok fs1) x) as [fs2|e|m] eqn:Ex; [|by rewrite foldl_make_dir_fail in E..].
  apply (IH fs2); [by eapply make_dir_keeps|done].
Qed.
Lemma create_dir_all_parent p name fs fs' : create_dir_all (path_join p name) fs = Ok fs' → is_Some (fs' !! p).
Proof.
  unfold create_dir_all, path_join. intros E. apply (foldl_make_dir_made _ _ _ p E), list_elem_of_fmap.
  exists (length p). split; [by rewrite take_app_length|]. apply elem_of_seq. rewrite length_app. cbn. lia.
Qed.

Section governance_spec.
Context `{UpgradeCrates, Sha3, HexCrate}.

Lemma template_leaves_dir dir name framework script_name src fs fs' :
  make_template_files (path_join dir name) framework script_name src fs = (fs', Ok tt) → is_Some (fs' !! dir).
Proof.
  intros E. unfold make_template_files in E. apply io_bind_ok in E as (f1 & [] & Hc & E).
  assert (Hdir : is_Some (f1 !! dir)).
  { unfold io_result, io_update in Hc. destruct (create_dir_all _ fs) as [f|e|p] eqn:Ec; [|done..]. injection Hc as <-.
    by apply create_dir_all_parent in Ec. }
  destruct Hdir as [x Hx]. pose proof (under_fill (path_join dir name) framework script_name src f1) as Hu.
  unfold fill_template in Hu. rewrite E in Hu. exists x. apply Hu; [|done].
  intros [k Hk]. apply (f_equal length) in Hk. unfold path_join in Hk. rewrite !length_app in Hk. cbn in Hk. lia.
Qed.

Lemma governance_compiles g d :
  exists_ (script_dir g) (w_files (d_world d)) && negb (only_make_template g) = true →
  governance_execute g d = in_files (compile_and_save (script_dir g)) d.
Proof.
  destruct d as [l w [h fs]]. cbn. intros [Hg Ho]%andb_true_iff. unfold governance_execute.
  unfold mbind at 1, st_bind at 1. cbn. rewrite Hg. by destruct (only_make_template g).
Qed.
Lemma governance_asks g d :
  exists_ (script_dir g) (w_files (d_world d)) && negb (only_make_template g) = false →
  governance_execute g d =
  match d_answers d with
  | Yes :: l => in_files (make_template_files (path_join (script_dir g) TEMPLATE_NAME) (gs_framework_local_dir g) TEMPLATE_NAME None)
                  (with_answers l d)
  | No :: l => (with_answers l d, Ok tt)
  | _ => (d, Err NOT_A_TERMINAL)
  end.
Proof.
  destruct d as [l w [h fs]]. cbn. intros Hg. unfold governance_execute. unfold mbind at 1, st_bind at 1. cbn.
  replace (negb (exists_ (script_dir g) fs) || only_make_template g) with true
    by (by destruct (exists_ (script_dir g) fs), (only_make_template g)).
  unfold mbind, st_bind, confirm. cbn. by destruct l as [|[] l].
Qed.

(** The template made is not compiled by the same command. *)
Lemma template_again g fs fs' d2 :
  needs_manifest → no_manifest (script_dir g) fs →
  make_template_files (path_join (script_dir g) TEMPLATE_NAME) (gs_framework_local_dir g) TEMPLATE_NAME None fs = (fs', Ok tt) →
  w_files (d_world d2) = fs' →
  is_ok (snd (governance_execute (mk_gov_script (script_dir g) (gs_framework_local_dir g) false) d2)) = false.
Proof.
  intros Hm Hn E Hd. pose proof (under_template (path_join (script_dir g) TEMPLATE_NAME) (gs_framework_local_dir g) TEMPLATE_NAME None fs) as Hu.
  rewrite E in Hu. cbn [fst] in Hu.
  assert (Hs : is_Some (fs' !! script_dir g)) by (by apply (template_leaves_dir _ _ _ _ _ _ _ E)).
  rewrite governance_compiles; cbn [script_dir only_make_template].
  2: { rewrite Hd. unfold exists_. by rewrite bool_decide_eq_true_2. }
  unfold in_files. rewrite Hd. pose proof (compile_needs_manifest (script_dir g) fs' Hm) as Hf.
  destruct (compile_and_save _ fs') as [f2 r2]. cbn. apply Hf. by apply (no_manifest_under _ TEMPLATE_NAME fs).
Qed.

End governance_spec.

(** ** upgrade_fixtures: the upgrades the tests run *)
Section fixtures.
Context `{UpgradeCrates, DiemAddress, HexCrate, Sha3, ReleaseCrates}.
(** The crate's directory, [framework] in the repository *)
Context (crate_dir : path).

Definition fixtures_path : path := crate_dir ++ ["src"; "upgrade_fixtures"; "fixtures"]%string.
Definition TEST_FILE : string := "all_your_base.move".

(** [fs::copy] *)
Definition copy_file (from to : path) : io unit :=
  text ← io_read (read_to_string from);
  io_write to text.

Definition module_sources (core_module_name : string) : outcome path :=
  up ← expect_opt "called `Option::unwrap()` on a `None` value" (parent crate_dir);
  Ok (up ++ ["framework"; core_module_name; "sources"]%string).
Definition insert_test_file (core_module_name : string) (remove : bool) : io unit :=
  core_module_sources ← io_lift (module_sources core_module_name);
  _ ← io_read (λ fs, rust_assert (exists_ core_module_sources fs) ("cannot find sources for: " +:+ core_module_name));
  let away_file_path := path_join core_module_sources TEST_FILE in
  if remove then remove_file away_file_path
  else copy_file (path_join fixtures_path TEST_FILE) away_file_path.

Definition generate_fixtures (output_path : path) (modules : list string) (force_incompatible_upgrade : bool) : io unit :=
  destination_module ← io_lift (expect_opt "called `Option::unwrap()` on a `None` value" (last modules));
  _ ← io_result (context_res "could not insert test file") (insert_test_file destination_module false);
  up ← io_lift (context_opt "no parent dir" (parent crate_dir));
  _ ← make_framework_upgrade_artifacts output_path (path_join up "framework") (Some modules) force_incompatible_upgrade;
  _ ← create_release (Some crate_dir) (Ok crate_dir) Head true (Some (path_join output_path "head_all_your_base.mrb"));
  insert_test_file destination_module true.

Definition fixture (name : string) (modules : list string) (force : bool) : io unit :=
  let p := path_join fixtures_path name in
  _ ← io_update (create_dir_all p);
  generate_fixtures p modules force.
Definition upgrade_fixtures : io unit :=
  _ ← fixture "upgrade-single-lib" ["move-stdlib"]%string false;
  _ ← fixture "upgrade-single-lib-force" ["libra-framework"]%string true;
  _ ← fixture "upgrade-multi-lib" ["move-stdlib"; "vendor-stdlib"; "libra-framework"]%string false;
  fixture "upgrade-multi-lib-force" ["move-stdlib"; "vendor-stdlib"; "libra-framework"]%string true.
Definition testsuite_maybe_warmup_fixtures : io unit :=
  made ← io_read (λ fs, Ok (exists_ (path_join fixtures_path "upgrade-single-lib") fs));
  if made : bool then mret tt else io_result (expect_res "could no warmup upgrade fixtures") upgrade_fixtures.

(** A run that succeeds has taken the test file out of the sources again. *)
Lemma generate_fixtures_cleans output_path modules force fs fs' up m :
  parent crate_dir = Some up → last modules = Some m →
  generate_fixtures output_path modules force fs = (fs', Ok tt) →
  fs' !! (up ++ ["framework"; m; "sources"; TEST_FILE]%string) = None.
Proof.
  intros Hp Hm E. unfold generate_fixtures in E. rewrite Hm in E.
  apply io_bind_ok in E as (f1 & x & Hx & E). apply io_lift_ok in Hx as [-> Hx]. cbn in Hx. apply Ok_inj in Hx as <-.
  apply io_bind_ok in E as (f2 & [] & _ & E). apply io_bind_ok in E as (f3 & u & _ & E).
  apply io_bind_ok in E as (f4 & l & _ & E). apply io_bind_ok in E as (f5 & [] & _ & E).
  unfold insert_test_file, module_sources in E. rewrite Hp in E.
  apply io_bind_ok in E as (f6 & d & Hd & E). apply io_lift_ok in Hd as [-> Hd]. cbn in Hd. apply Ok_inj in Hd as <-.
  apply io_bind_ok in E as (f7 & [] & Ha & E). apply io_read_ok in Ha as [-> _].
  unfold remove_file, io_update, path_join in E. rewrite <- app_assoc in E. cbn [app] in E.
  destruct (is_file _ f5); [|done]. injection E as <-. by rewrite lookup_delete, decide_True.
Qed.
End fixtures.

(** ** Witness: a compiler that wants a manifest *)
Definition has_manifest (d : path) (fs : file_system) : bool :=
  existsb (λ k, is_file (path_join (take k d) "Move.toml") fs) (seq 0 (S (length d))).
#[local] Instance manifest_upgrade : UpgradeCrates.
Proof.
  refine {| git_head p := Some (Err "not a git repository"%string); build_info_git_hash := "0ab1";
    build_release d fs := Ok (mk_release (default EmptyString (last d)) "digest" 1 [[161; 28]; [235]]);
    build_scripts d fs := if has_manifest d fs then Ok (sample_sources d fs) else Err "Unable to find package manifest";
    bcs_metadata r := Ok (str_bytes (rp_name r));
    init_move_dir_generic d _ _ _ fs := Ok (<[path_join d "Move.toml" := File "[package]"]> (<[path_join d "sources" := Dir]> (<[d := Dir]> fs)));
    render := sample_render |}.
  - intros d fs codes. destruct (has_manifest d fs); [|done]. intros [= <-]. apply Forall_forall. intros bs Hb. unfold sample_sources in Hb.
    apply list_elem_of_omap in Hb as ([p [s|]] & _ & Hs); [|done]. case_bool_decide; [|done].
    injection Hs as <-. apply str_bytes_wf.
  - intros d _ _ _ fs fs' [= <-].
    assert (Hne : ∀ x, path_join d x ≠ d).
    { intros x E. apply (f_equal length) in E. unfold path_join in E. rewrite length_app in E. cbn in E. lia. }
    split.
    + rewrite !lookup_insert_ne by done. by rewrite lookup_insert, decide_True.
    + intros q Hq. assert (d ≠ q) by by intros ->. assert (∀ x, path_join d x ≠ q).
      { intros x <-. apply Hq. by apply prefix_app_r. }
      by rewrite !lookup_insert_ne.
Defined.

Lemma manifest_needed : needs_manifest.
Proof.
  intros d fs codes. cbn [build_scripts manifest_upgrade]. destruct (has_manifest d fs) eqn:E; [|done]. intros _.
  apply existsb_exists in E as (k & _ & Hk). exists (take k d). split; [|done]. apply prefix_take.
Qed.

Definition empty_files : file_system := {[ ([] : path) := Dir; ["fw"%string] := Dir ]}.
Definition sample_gov : GovernanceScript := mk_gov_script ["gov"%string] ["fw"%string] false.
Definition gov_dialog : dialog := mk_dialog [Yes] [] (mk_world [] empty_files).
Definition gov_run : dialog * outcome unit := governance_execute sample_gov gov_dialog.

(** The template is made, and running the command again does not compile it;
    running it on the template does. *)
Example template_not_compiled :
  snd gov_run = Ok tt ∧
  snd (governance_execute sample_gov (fst gov_run)) = Err "Unable to find package manifest" ∧
  snd (governance_execute (mk_gov_script ["gov"; TEMPLATE_NAME]%string ["fw"%string] false) (fst gov_run)) = Ok tt.
Proof. vm_compute. done. Qed.


#[local] Instance file_release : ReleaseCrates.
Proof.
  refine {| ReleaseBundle := string; bundle_read := read_to_string; release_create o := io_write (ro_output o) "bundle" |}.
  - intros p fs fs' E. unfold read_to_string. by rewrite E.
  - intros o fs fs' E. apply io_write_ok in E as [E _]. unfold read_to_string. by rewrite E.
  - intros o fs q Hq _ _. unfold io_write, io_update. destruct (file_create _ fs) as [f|e|p] eqn:Ef; [|done..]. cbn.
    apply file_create_ok in Ef as [-> _]. unfold write_all. by rewrite !lookup_insert_ne.
Defined.

(** A release for devnet is the bundle of the head. *)
Example devnet_release :
  let fs := {[ ([] : path) := Dir; ["c"%string] := Dir; ["c"; "releases"]%string := Dir ]} in
  let '(fs', r) := release_execute (Some ["c"%string]) (Err "gone") Devnet true fs in
  r = Ok tt ∧ load_bundle ["c"%string] Head fs' = Ok "bundle"%string ∧
  load_bundle ["c"%string] Devnet fs' = Err "No such file or directory".
Proof. vm_compute. done. Qed.
