(* ===== verification/ConfigFix.v ===== *)
(** * tools/config/src/interactive: repairing the configuration

    The menus of the fix command: profiles, networks and defaults of the
    configuration, edited in memory and saved if something changed. *)
From Stdlib Require Import ZArith Lia Ascii.
From stdpp Require Import base option list strings gmap.
From S2P Require Import Prelude RustStr Json Effects Bytes FileSystem MoveTypes HashValue Mnemonic Wallet ValidatorKeys GenesisRegistration F64 NetworkPlaylist Pledge Compare Node AppCfg TxSender Dialog.

Open Scope list_scope.
Open Scope Z_scope.

(** ** options.rs *)
Record FixOptions := mk_fix_options {
  reset_address : bool;
  fo_remove_profile : option string;
  fullnode_url : option Url;
  config_path : option path;
  fo_chain_name : option NamedChain
}.

(** The configuration being edited, and the dialog *)
Notation editor := (AppCfg * dialog)%type.

Definition get_cfg : st editor AppCfg := fun s => (s, Ok (fst s)).
Definition modify (f : AppCfg → AppCfg) : st editor unit := fun s => ((f (fst s), snd s), Ok tt).
Definition try_modify (f : AppCfg → outcome AppCfg) : st editor unit := fun s =>
  match f (fst s) with
  | Ok c => ((c, snd s), Ok tt)
  | Err e => (s, Err e)
  | Panic p => (s, Panic p)
  end.
(** [&v[i]] *)
Definition index_of {A : Type} (l : list A) (i : nat) : outcome A := expect_opt "index out of bounds" (l !! i).

Definition set_default_profile (p : string) (cfg : AppCfg) : AppCfg :=
  mk_cfg (set_default p (workspace cfg)) (user_profiles cfg) (network_playlist cfg) (tx_configs cfg).
Definition clear_default_profile (cfg : AppCfg) : AppCfg :=
  mk_cfg (mk_workspace None (default_chain_id (workspace cfg)) (node_home (workspace cfg)))
    (user_profiles cfg) (network_playlist cfg) (tx_configs cfg).

(** [get_network_profile_mut] of app_cfg.rs, and what is done to its result *)
Definition update_network_profile (f : NetworkPlaylist → NetworkPlaylist) (chain_id : option NamedChain) (cfg : AppCfg)
    : outcome AppCfg :=
  let np := network_playlist cfg in
  let chain_id := default (default_chain_id (workspace cfg)) chain_id in
  ensure (match np with [] => false | _ => true end) "no network profiles found";;
  idx ← context_opt "cannot get network profile" (fst <$> list_find (fun each => chain_name each = chain_id) np);
  Ok (with_playlists (alter f idx np) cfg).

(** [to_lowercase], of ASCII *)
Definition char_lower (c : ascii) : ascii :=
  let n := nat_of_ascii c in
  if ((65 <=? n) && (n <=? 90))%nat then ascii_of_nat (n + 32) else c.
Fixpoint to_lowercase (s : string) : string :=
  match s with EmptyString => EmptyString | String c s' => String (char_lower c) (to_lowercase s') end.

(** ** utils.rs *)
Definition get_available_chains_not_configured (configured_chains : list NamedChain) : list NamedChain :=
  let all_chains := [MAINNET; TESTING] in
  filter (fun chain => chain ∉ configured_chains) all_chains.

Section fix_.
Context `{RestNode, Web, WalletCrypto, Sha256, DiemAddress, Sha3, AppCfgEnv}.
Context (mode : NamedChain) (mnem_env : option string).

(** The default profile as the menus mark it *)
Definition is_default_profile (cfg : AppCfg) (p : Profile) : bool :=
  match default_profile (workspace cfg) with
  | Some d => String.eqb d (addr_to_hex_literal (account p))
  | None => false
  end.
Definition profile_options (marker : string) (cfg : AppCfg) : list string :=
  (fun p => nickname p +:+ " (" +:+ addr_to_string (account p) +:+ ")"
            +:+ (if is_default_profile cfg p then marker else EmptyString)) <$> user_profiles cfg.

(** ** defaults.rs *)
Definition change_default_profile : st editor unit :=
  cfg ← get_cfg;
  _ ← st_lift (ensure (match user_profiles cfg with [] => false | _ => true end) "No profiles available");
  selection ← on_snd (select "Choose default profile" (profile_options " (current default)" cfg));
  selected_profile ← st_lift (index_of (user_profiles cfg) selection);
  modify (set_default_profile (addr_to_hex_literal (account selected_profile))).

Definition change_default_chain : st editor unit :=
  cfg ← get_cfg;
  _ ← st_lift (ensure (match network_playlist cfg with [] => false | _ => true end)
                 "No networks configured. Please configure a network first.");
  let configured_chains := chain_name <$> network_playlist cfg in
  selection ← on_snd (select "Choose default chain" (to_lowercase ∘ chain_debug <$> configured_chains));
  selected_chain ← st_lift (index_of configured_chains selection);
  modify (set_chain_id selected_chain).

Definition interactive_change_defaults : st editor bool :=
  selection ← on_snd (select "Choose an option" ["Change default profile"; "Change default chain"; "Cancel"]%string);
  match selection with
  | 0%nat =>
      cfg ← get_cfg;
      if (1 <? length (user_profiles cfg))%nat then _ ← change_default_profile; mret true else mret false
  | 1%nat => _ ← change_default_chain; mret true
  | 2%nat => mret false
  | _ => st_lift (Panic "entered unreachable code")
  end.

(** ** networks.rs *)
Definition force_url_overwrite (u : Url) (chain : option NamedChain) : AppCfg → outcome AppCfg :=
  update_network_profile (fun np => add_url u (mk_playlist (chain_name np) [])) chain.

Definition add_fullnode_url (chain : option NamedChain) : st editor unit :=
  url_input ← on_snd (input "Enter fullnode URL to add" false);
  u ← st_lift (context_opt "Invalid URL format" (url_parse url_input));
  try_modify (update_network_profile (add_url u) chain).

Definition remove_all_fullnodes (chain : option NamedChain) : st editor bool :=
  sure ← on_snd (confirm "Are you sure you want to remove all fullnode URLs?");
  match sure with
  | true => _ ← try_modify (update_network_profile (fun np => mk_playlist (chain_name np) []) chain); mret true
  | false => mret false
  end.

(** The offer that ends a refresh *)
Definition offer_playlist (prompt : string) (np : NetworkPlaylist) : st editor bool :=
  np ← on_snd (refresh np);
  replace ← on_snd (confirm prompt);
  match replace with
  | true => _ ← modify (maybe_add_custom_playlist np); mret true
  | false => mret false
  end.
Definition refresh_from_default_playlist (chain : option NamedChain) : st editor bool :=
  np ← on_snd (download_default chain);
  offer_playlist "Replace current URLs with default playlist URLs?" np.
Definition refresh_from_custom_playlist (chain : option NamedChain) : st editor bool :=
  playlist_url_input ← on_snd (input "Enter playlist URL" false);
  playlist_url ← st_lift (context_opt "Invalid playlist URL format" (url_parse playlist_url_input));
  np ← on_snd (download_playlist playlist_url chain);
  offer_playlist "Replace current URLs with playlist URLs?" np.

Definition interactive_update_url (chain : option NamedChain) : st editor bool :=
  selection ← on_snd (select "Choose an option"
    ["Add a fullnode URL"; "Remove all fullnodes"; "Refresh from default playlist";
     "Refresh from a playlist you specify"; "Cancel"]%string);
  match selection with
  | 0%nat => _ ← add_fullnode_url chain; mret true
  | 1%nat => remove_all_fullnodes chain
  | 2%nat => refresh_from_default_playlist chain
  | 3%nat => refresh_from_custom_playlist chain
  | 4%nat => mret false
  | _ => st_lift (Panic "entered unreachable code")
  end.

Definition network_options (cfg : AppCfg) : list string :=
  (fun np => chain_debug (chain_name np) +:+ " (" +:+ show_uint (Z.of_nat (length (nodes np))) +:+ " URLs)")
    <$> network_playlist cfg.
Definition select_and_edit_network : st editor bool :=
  cfg ← get_cfg;
  match network_playlist cfg with
  | [] => mret false
  | np =>
      selection ← on_snd (select "Which network would you like to edit?" (network_options cfg));
      selected ← st_lift (index_of np selection);
      interactive_update_url (Some (chain_name selected))
  end.

(** The loop of [add_new_network]; each round takes an answer. *)
Fixpoint add_urls (fuel : nat) (np : NetworkPlaylist) : st dialog NetworkPlaylist :=
  match fuel with
  | O => st_lift (Err "out of fuel")
  | S fuel =>
      url_input ← input "Enter fullnode URL (or press Enter to finish)" true;
      if String.eqb (trim url_input) EmptyString then mret np else
      match url_parse url_input with
      | Some u =>
          another ← confirm "Add another URL?";
          if (another : bool) then add_urls fuel (add_url u np) else mret (add_url u np)
      | None => add_urls fuel np
      end
  end.
Definition type_urls (np : NetworkPlaylist) : st dialog NetworkPlaylist :=
  d ← st_get;
  add_urls (S (length (d_answers d))) np.

Definition add_new_network : st editor bool :=
  cfg ← get_cfg;
  let configured_chains := chain_name <$> network_playlist cfg in
  match get_available_chains_not_configured configured_chains with
  | [] => mret false
  | available_chains =>
      selection ← on_snd (select "Which chain would you like to add?" (chain_debug <$> available_chains));
      selected_chain ← st_lift (index_of available_chains selection);
      config_selection ← on_snd (select "Choose configuration method"
        ["Use default playlist for this chain"; "Add custom fullnode URLs"; "Load from custom playlist URL"; "Cancel"]%string);
      match config_selection with
      | 0%nat =>
          np ← on_snd (download_default (Some selected_chain));
          np ← on_snd (refresh np);
          _ ← modify (maybe_add_custom_playlist np);
          mret true
      | 1%nat =>
          np ← on_snd (type_urls (playlist_new None (Some selected_chain)));
          match nodes np with
          | [] => mret false
          | _ => _ ← modify (maybe_add_custom_playlist np); mret true
          end
      | 2%nat =>
          playlist_url_input ← on_snd (input "Enter playlist URL" false);
          playlist_url ← st_lift (context_opt "Invalid playlist URL format" (url_parse playlist_url_input));
          np ← on_snd (download_playlist playlist_url (Some selected_chain));
          np ← on_snd (refresh np);
          _ ← modify (maybe_add_custom_playlist np);
          mret true
      | 3%nat => mret false
      | _ => st_lift (Panic "entered unreachable code")
      end
  end.

Definition ADD_NETWORK : string := "Add a new network (chain)".
Definition manage_options (cfg : AppCfg) : list string :=
  (match network_playlist cfg with [] => [] | _ => ["Edit fullnode URLs for a specific network"%string] end)
  ++ (match get_available_chains_not_configured (chain_name <$> network_playlist cfg) with
      | [] => [] | _ => [ADD_NETWORK] end)
  ++ ["Cancel"%string].
Definition interactive_manage_networks : st editor bool :=
  cfg ← get_cfg;
  let options := manage_options cfg in
  selection ← on_snd (select "Choose an option" options);
  match selection, network_playlist cfg with
  | O, _ :: _ => select_and_edit_network
  | i, _ =>
      option ← st_lift (index_of options i);
      if String.eqb option ADD_NETWORK then add_new_network else mret false
  end.

(** ** profiles.rs *)
(** [get_profile_mut] of app_cfg.rs: the place of the profile found, or the first *)
Definition get_profile_mut (n : option string) (cfg : AppCfg) : outcome Profile :=
  idx ← unwrap_or O (get_profile_idx n cfg);
  context_opt "no profile at index" (user_profiles cfg !! idx).

Definition lookup_or (authkey : bytes) (account_address : AccountAddress) : st editor AccountAddress :=
  found ← attempt (on_snd (on_world (lookup_originating_address (auth_key_to_string authkey))));
  mret match found with Ok a => a | _ => account_address end.

Definition reset_address_profile (chain : option NamedChain) : st editor Profile :=
  '(authkey, account_address) ← on_snd (interactive_account_selection mode mnem_env);
  cfg ← get_cfg;
  u ← st_lift (pick_url chain cfg);
  _ ← on_snd (connect u);
  index ← attempt (on_snd (on_world (ask GetIndex ans_index)));
  account_address ← (if is_ok index && negb (bool_decide (authkey = auth_key_zero))
                     then lookup_or authkey account_address else mret account_address);
  profile ← st_lift (profile_new authkey account_address);
  _ ← modify (maybe_add_profile profile);
  set_it ← on_snd (confirm "set as default profile?");
  _ ← (if (set_it : bool) then modify (set_default_profile (addr_to_hex_literal account_address)) else mret tt);
  cfg ← get_cfg;
  st_lift (get_profile_mut (Some (addr_to_hex_literal account_address)) cfg).

Definition identifies (profile_identifier : string) (p : Profile) : bool :=
  String.eqb (addr_to_hex_literal (account p)) profile_identifier
  || String.eqb (addr_to_string (account p)) profile_identifier
  || String.eqb (nickname p) profile_identifier.

Definition reset_default_profile_after_removal (cfg : AppCfg) : AppCfg :=
  match user_profiles cfg with
  | [] => clear_default_profile cfg
  | p :: _ => set_default_profile (addr_to_hex_literal (account p)) cfg
  end.

Definition remove_profile (profile_identifier : string) (cfg : AppCfg) : outcome AppCfg :=
  let profile_to_remove := List.find (identifies profile_identifier) (user_profiles cfg) in
  let was_default := match profile_to_remove with
                     | Some profile =>
                         match default_profile (workspace cfg) with
                         | Some d => String.eqb d (addr_to_hex_literal (account profile)) || String.eqb d (nickname profile)
                         | None => false
                         end
                     | None => false
                     end in
  let finish c := if was_default then reset_default_profile_after_removal c else c in
  match try_remove_profile profile_identifier cfg with
  | Ok cfg' => Ok (finish cfg')
  | Panic p => Panic p
  | Err _ =>
      match list_find (fun p => identifies profile_identifier p = true) (user_profiles cfg) with
      | Some (index, _) => Ok (finish (with_profiles (delete index (user_profiles cfg)) cfg))
      | None => Ok cfg
      end
  end.

Definition interactive_remove_profile : st editor unit :=
  cfg ← get_cfg;
  selection ← on_snd (select "Which profile would you like to remove?" (profile_options " (default)" cfg));
  profile_to_remove ← st_lift (index_of (user_profiles cfg) selection);
  let profile_id := addr_to_hex_literal (account profile_to_remove) in
  sure ← on_snd (confirm ("Are you sure you want to remove profile '" +:+ nickname profile_to_remove +:+ "' ("
                          +:+ addr_to_string (account profile_to_remove) +:+ ")?"));
  if (sure : bool) then try_modify (remove_profile profile_id) else mret tt.

Definition add_new_profile (chain : option NamedChain) : st editor unit :=
  _ ← reset_address_profile chain; mret tt.

Definition interactive_edit_single_profile (chain : option NamedChain) : st editor bool :=
  cfg ← get_cfg;
  _ ← st_lift (index_of (user_profiles cfg) 0);
  selection ← on_snd (select "Choose an option"
    ["Reset account address from mnemonic"; "Add a new profile"; "Exit without making changes"]%string);
  match selection with
  | 0%nat => _ ← reset_address_profile chain; mret true
  | 1%nat => _ ← add_new_profile chain; mret true
  | 2%nat => mret false
  | _ => st_lift (Panic "entered unreachable code")
  end.

Definition with_nickname (n : string) (p : Profile) : Profile :=
  mk_profile (account p) (auth_key p) (test_private_key p) n (on_chain p) (balance p) (locale p) (statement p) (pledges p).

Definition edit_profile (chain : option NamedChain) : st editor bool :=
  cfg ← get_cfg;
  match user_profiles cfg with
  | [] => mret false
  | ps =>
      selection ← on_snd (select "Which profile would you like to edit?" (profile_options " (default)" cfg));
      selected_profile ← st_lift (index_of ps selection);
      edit_selection ← on_snd (select "What would you like to edit?"
        ["Reset account address from mnemonic"; "Change nickname"; "Cancel"]%string);
      match edit_selection with
      | 0%nat =>
          _ ← try_modify (remove_profile (addr_to_hex_literal (account selected_profile)));
          _ ← reset_address_profile chain;
          mret true
      | 1%nat =>
          new_nickname ← on_snd (input "Enter new nickname" false);
          _ ← try_modify (fun c => match user_profiles c !! selection with
                                   | Some p => Ok (with_profiles (<[selection := with_nickname new_nickname p]> (user_profiles c)) c)
                                   | None => Err "Profile not found"
                                   end);
          mret true
      | 2%nat => mret false
      | _ => st_lift (Panic "entered unreachable code")
      end
  end.

Definition interactive_profile_management (chain : option NamedChain) : st editor bool :=
  selection ← on_snd (select "Choose an option"
    ["Add a new profile"; "Change default profile"; "Edit a profile"; "Remove a profile"; "Exit without making changes"]%string);
  match selection with
  | 0%nat => _ ← add_new_profile chain; mret true
  | 1%nat => _ ← change_default_profile; mret true
  | 2%nat => edit_profile chain
  | 3%nat => _ ← interactive_remove_profile; mret true
  | 4%nat => mret false
  | _ => st_lift (Panic "entered unreachable code")
  end.

Definition interactive_manage_profiles (chain : option NamedChain) : st editor bool :=
  cfg ← get_cfg;
  match user_profiles cfg with
  | [_] => interactive_edit_single_profile chain
  | _ :: _ :: _ => interactive_profile_management chain
  | [] =>
      selection ← on_snd (select "Choose an option" ["Add a new profile"; "Cancel"]%string);
      match selection with
      | 0%nat => _ ← add_new_profile chain; mret true
      | 1%nat => mret false
      | _ => st_lift (Panic "entered unreachable code")
      end
  end.

(** ** fix.rs *)
Definition interactive_fix_setup (chain : option NamedChain) : st editor bool :=
  selection ← on_snd (select "Choose an option"
    ["Manage Profiles"; "Manage Networks (edit fullnodes for each chain name)";
     "Change defaults (profile or network)"; "Exit without making changes"]%string);
  match selection with
  | 0%nat => interactive_manage_profiles chain
  | 1%nat => interactive_manage_networks
  | 2%nat => interactive_change_defaults
  | 3%nat => mret false
  | _ => st_lift (Panic "entered unreachable code")
  end.

(** ** options.rs *)
Definition given {A : Type} (o : option A) : bool := bool_decide (is_Some o).
Definition args_count (options : FixOptions) : nat :=
  length (List.filter (fun b : bool => b)
    [reset_address options; given (fo_remove_profile options); given (fullnode_url options)]).

(** What the command does to the configuration; whether something changed *)
Definition fix_changes (options : FixOptions) : st editor bool :=
  if (args_count options =? 0)%nat then interactive_fix_setup (fo_chain_name options)
  else if (1 <? args_count options)%nat then st_lift (Err "Only one argument can be provided to 'fix' command")
  else
    c0 ← (if reset_address options then _ ← reset_address_profile (fo_chain_name options); mret true else mret false);
    c1 ← match fo_remove_profile options with
         | Some profile_name => _ ← try_modify (remove_profile profile_name); mret true
         | None => mret c0
         end;
    match fullnode_url options with
    | Some u => _ ← try_modify (force_url_overwrite u (fo_chain_name options)); mret true
    | None => mret c1
    end.

(** An edition of a configuration that only the caller holds *)
Definition editing {A : Type} (cfg : AppCfg) (m : st editor A) : st dialog (AppCfg * A) := fun d =>
  match m (cfg, d) with
  | ((cfg', d'), Ok a) => (d', Ok (cfg', a))
  | ((_, d'), Err e) => (d', Err e)
  | ((_, d'), Panic p) => (d', Panic p)
  end.
Definition load_cfg (file : option path) : st dialog AppCfg := fun d =>
  (d, match load file (w_files (d_world d)) with
      | Ok c => Ok c
      | Err e => Err ("no config file found for libra tools, " +:+ e)
      | Panic p => Panic p
      end).
(** [cfg.save_file()?]; what it leaves behind when it fails is not modelled. *)
Definition save_cfg (cfg : AppCfg) : st dialog path := fun d =>
  let fs := w_files (d_world d) in
  match save_file cfg fs with
  | Ok (p, fs') => (mk_dialog (d_answers d) (d_web d) (mk_world (w_history (d_world d)) fs'), Ok p)
  | Err e => (d, Err e)
  | Panic p => (d, Panic p)
  end.

Definition fix_config (options : FixOptions) : st dialog unit :=
  cfg ← load_cfg (config_path options);
  '(cfg, changes_made) ← editing cfg (fix_changes options);
  if (changes_made : bool) then _ ← save_cfg cfg; mret tt else mret tt.
End fix_.

(** ** What an edition keeps *)

(** Distinct accounts, each 32 bytes, and one playlist for a chain *)
Definition cfg_wf (cfg : AppCfg) : Prop :=
  NoDup (account <$> user_profiles cfg) ∧
  Forall (fun p => addr_wf (account p)) (user_profiles cfg) ∧
  NoDup (chain_name <$> network_playlist cfg).
(** The costs, the directory and the files *)
Definition kept_parts (s s' : editor) : Prop :=
  tx_configs (fst s') = tx_configs (fst s) ∧
  node_home (workspace (fst s')) = node_home (workspace (fst s)) ∧
  w_files (d_world (snd s')) = w_files (d_world (snd s)).
#[export] Instance kept_parts_preorder : PreOrder kept_parts.
Proof. split; [by intros s|]. intros s1 s2 s3 (? & ? & ?) (? & ? & ?). split; [congruence|split; congruence]. Qed.
Notation edits P m := (runs (fun s : editor => cfg_wf (fst s)) kept_parts P m).

Section edits.
Context `{RestNode, Web, WalletCrypto, Sha256, DiemAddress, Sha3, AppCfgEnv}.
Context (mode : NamedChain) (mnem_env : option string).

Lemma edits_on_snd {A : Type} (P : A → Prop) (m : st dialog A) : asks P m → edits P (on_snd m).
Proof.
  intros Hm [c d] Hc. specialize (Hm d I). revert Hm. unfold on_snd, same_files.
  destruct (m d) as [d' r]. cbn. by intros (_ & Hf & Hp).
Qed.
Lemma edits_get_cfg : edits cfg_wf get_cfg.
Proof. intros s Hs. split; [done|]. split; [done|]. by intros c [= <-]. Qed.
(** A change of the profiles, playlists and defaults that keeps the invariant *)
Definition keeps_cfg (f : AppCfg → outcome AppCfg) : Prop :=
  ∀ c c', cfg_wf c → f c = Ok c' →
    cfg_wf c' ∧ tx_configs c' = tx_configs c ∧ node_home (workspace c') = node_home (workspace c).
Lemma edits_try_modify f : keeps_cfg f → edits (fun _ => True) (try_modify f).
Proof.
  intros Hf [c d] Hc. unfold try_modify. cbn in *. destruct (f c) as [c'|e|p] eqn:E; [|done..].
  destruct (Hf c c' Hc E) as (? & ? & ?). done.
Qed.
Lemma edits_modify f : keeps_cfg (fun c => Ok (f c)) → edits (fun _ => True) (modify f).
Proof. intros Hf [c d] Hc. destruct (Hf c (f c) Hc eq_refl) as (? & ? & ?). done. Qed.
Lemma edits_lift {A : Type} (r : outcome A) : edits (fun _ => True) (st_lift r).
Proof. by run_lift. Qed.

Lemma keeps_default n : keeps_cfg (fun c => Ok (set_default_profile n c)).
Proof. by intros c c' Hc [= <-]. Qed.
Lemma keeps_chain n : keeps_cfg (fun c => Ok (set_chain_id n c)).
Proof. by intros c c' Hc [= <-]. Qed.
Lemma keeps_network f chain : (∀ np, chain_name (f np) = chain_name np) → keeps_cfg (update_network_profile f chain).
Proof.
  intros Hf c c' (Ha & Hw & Hn) Hu. unfold update_network_profile in Hu.
  apply bind_ok in Hu as ([] & _ & Hu). apply bind_ok in Hu as (i & _ & Hu). apply Ok_inj in Hu as <-.
  split; [|done]. split; [done|]. split; [done|]. cbn.
  replace (chain_name <$> alter f i (network_playlist c)) with (chain_name <$> network_playlist c); [done|].
  apply list_eq. intros j. rewrite !list_lookup_fmap, list_lookup_alter.
  case_decide as Hij; [|done]. rewrite Hij. destruct (network_playlist c !! j) as [np|]; [|done]. cbn. by rewrite Hf.
Qed.
Lemma keeps_playlist np : keeps_cfg (fun c => Ok (maybe_add_custom_playlist np c)).
Proof.
  intros c c' (Ha & Hw & Hn) [= <-]. split; [|done]. split; [done|]. split; [done|]. cbn.
  destruct (same_chain_unique np _ Hn) as [Hn' Hin]. pose proof (existsb_chain np (network_playlist c)) as Hex.
  destruct (existsb _ _); [done|]. rewrite fmap_app. apply NoDup_app. split; [done|]. split; [|apply NoDup_singleton].
  intros x Hx%Hin ->%list_elem_of_singleton. by apply Hex in Hx.
Qed.
Lemma keeps_add_profile p : addr_wf (account p) → keeps_cfg (fun c => Ok (maybe_add_profile p c)).
Proof.
  intros Hp c c' (Ha & Hw & Hn) [= <-]. destruct (maybe_add_profile_elem p c Ha) as [Ha' Hq].
  assert (Hsame : network_playlist (maybe_add_profile p c) = network_playlist c ∧
    tx_configs (maybe_add_profile p c) = tx_configs c ∧ workspace (maybe_add_profile p c) = workspace c).
  { unfold maybe_add_profile. by destruct (user_profiles c). }
  destruct Hsame as (Hs1 & Hs2 & Hs3). unfold cfg_wf. rewrite Hs1, Hs2, Hs3. repeat split; [done| |done].
  apply Forall_forall. intros q [->|[Hin _]]%Hq; [done|]. by apply (proj1 (Forall_forall _ _) Hw).
Qed.

Lemma delete_wf i c : cfg_wf c → cfg_wf (with_profiles (delete i (user_profiles c)) c).
Proof.
  intros (Ha & Hw & Hn). split; [|split; [|done]]; cbn.
  - rewrite list_fmap_delete. by eapply sublist_NoDup, sublist_delete.
  - by apply Forall_delete.
Qed.
Lemma keeps_remove n : keeps_cfg (remove_profile n).
Proof.
  intros c c' Hc Hr. unfold remove_profile in Hr.
  assert (Hf : ∀ b (i : nat),
    let x := with_profiles (delete i (user_profiles c)) c in
    let y := if b : bool then reset_default_profile_after_removal x else x in
    cfg_wf y ∧ tx_configs y = tx_configs c ∧ node_home (workspace y) = node_home (workspace c)).
  { intros b i x y. assert (Hx : cfg_wf x) by by apply delete_wf.
    unfold y, reset_default_profile_after_removal. destruct b; [|done]. by destruct (user_profiles x). }
  unfold try_remove_profile in Hr. destruct (get_profile_idx (Some n) c) as [i|e|p]; cbn [mbind outcome_bind] in Hr; [| |done].
  - unfold rust_assert in Hr. destruct (i <? _)%nat; cbn [mbind outcome_bind] in Hr; [|done].
    apply Ok_inj in Hr as <-. apply Hf.
  - destruct (list_find _ _) as [[i x]|]; [|by apply Ok_inj in Hr as <-]. apply Ok_inj in Hr as <-. apply Hf.
Qed.

Lemma edits_select prompt items : edits (fun n => (n < length items)%nat) (on_snd (select prompt items)).
Proof. apply edits_on_snd, asks_select. Qed.
Lemma edits_confirm prompt : edits (fun _ => True) (on_snd (confirm prompt)).
Proof. apply edits_on_snd, asks_confirm. Qed.
Lemma edits_input prompt e : edits (fun _ => True) (on_snd (input prompt e)).
Proof. apply edits_on_snd, asks_input. Qed.
Lemma edits_ret {A : Type} (a : A) : edits (fun _ => True) (mret a).
Proof. by run_ret. Qed.
Lemma edits_bind {A B : Type} (P : A → Prop) (m : st editor A) (f : A → st editor B) :
  edits P m → (∀ a, P a → edits (fun _ => True) (f a)) → edits (fun _ => True) (m ≫= f).
Proof. apply (runs_bind _ _). Qed.
Lemma asks_download u chain : asks (fun _ => True) (download_playlist u chain).
Proof. unfold download_playlist. run_bind _; [apply asks_web|]. intros s _. by run_lift. Qed.
Lemma asks_download_default chain : asks (fun _ => True) (download_default chain).
Proof. unfold download_default. case_decide; [by run_ret|apply asks_download]. Qed.
Lemma asks_refresh np : asks (fun _ => True) (refresh np).
Proof. apply asks_web. Qed.
Lemma asks_connect u : asks (fun _ => True) (connect u).
Proof. apply asks_web. Qed.
Lemma asks_add_urls n np : asks (fun _ => True) (add_urls n np).
Proof.
  revert np. induction n as [|n IH]; intros np; cbn [add_urls]; [by run_lift|].
  run_bind _; [apply asks_input|]. intros s _. destruct (String.eqb _ _); [by run_ret|].
  destruct (url_parse s) as [u|]; [|apply IH]. run_bind _; [apply asks_confirm|].
  intros [|] _; [apply IH|by run_ret].
Qed.
Lemma asks_type_urls np : asks (fun _ => True) (type_urls np).
Proof. unfold type_urls. intros d _. apply asks_add_urls, I. Qed.

Hint Resolve edits_select edits_confirm edits_input edits_get_cfg edits_on_snd asks_refresh asks_connect asks_download asks_download_default
  asks_type_urls edits_try_modify edits_modify keeps_default keeps_chain keeps_playlist keeps_remove : edits.
(** Goes through an edition, down to the steps the database knows *)
Ltac edit_steps :=
  repeat first
    [ apply edits_lift
    | apply edits_ret
    | solve [eauto with edits]
    | eapply edits_bind; [solve [eauto with edits]|intros ? ?]
    | eapply edits_bind; [apply edits_lift|intros ? _] ].

Ltac edit_cases :=
  edit_steps;
  repeat (first
    [ match goal with |- runs _ _ _ (match ?b with _ => _ end) => destruct b end
    | eapply (edits_bind (fun _ => True)); [|intros ? _] ]; edit_steps).

Lemma edits_change_default_profile : edits (fun _ => True) change_default_profile.
Proof. unfold change_default_profile. edit_cases. Qed.
Lemma edits_change_default_chain : edits (fun _ => True) change_default_chain.
Proof. unfold change_default_chain. edit_cases. Qed.
Hint Resolve edits_change_default_profile edits_change_default_chain : edits.
Lemma edits_change_defaults : edits (fun _ => True) interactive_change_defaults.
Proof. unfold interactive_change_defaults. edit_cases. Qed.

Lemma keeps_add_url u chain : keeps_cfg (update_network_profile (add_url u) chain).
Proof. by apply keeps_network. Qed.
Lemma keeps_force_url u chain : keeps_cfg (force_url_overwrite u chain).
Proof. by apply keeps_network. Qed.
Lemma keeps_clear chain : keeps_cfg (update_network_profile (fun np => mk_playlist (chain_name np) []) chain).
Proof. by apply keeps_network. Qed.
Hint Resolve keeps_add_url keeps_force_url keeps_clear : edits.

Lemma edits_update_url chain : edits (fun _ => True) (interactive_update_url chain).
Proof.
  unfold interactive_update_url, add_fullnode_url, remove_all_fullnodes, refresh_from_default_playlist,
    refresh_from_custom_playlist, offer_playlist. edit_cases.
Qed.
Hint Resolve edits_update_url : edits.
Lemma edits_edit_network : edits (fun _ => True) select_and_edit_network.
Proof. unfold select_and_edit_network. edit_cases. Qed.
Lemma edits_add_network : edits (fun _ => True) add_new_network.
Proof. unfold add_new_network. edit_cases. Qed.
Hint Resolve edits_edit_network edits_add_network : edits.
Lemma edits_manage_networks : edits (fun _ => True) interactive_manage_networks.
Proof. unfold interactive_manage_networks. edit_cases. Qed.

(** The node gives an address of 32 bytes. *)
Context (address_law : ∀ v a, address_from_value v = Ok a → addr_wf a).

Lemma edits_world {A : Type} (P : A → Prop) (m : st world A) :
  steps asked m → (∀ w, returns P (snd (m w))) → edits P (on_snd (on_world m)).
Proof. intros Hm Hp. apply edits_on_snd, asks_world. intros w. split; [apply Hm|apply Hp]. Qed.
Lemma lookup_wf k w : returns addr_wf (snd (lookup_originating_address k w)).
Proof.
  intros a. destruct (lookup_originating_address k w) as [w' r] eqn:E. cbn. intros ->.
  unfold lookup_originating_address in E. apply st_bind_ok in E as (w1 & f & _ & E).
  apply st_bind_ok in E as (w2 & res & _ & E). apply st_bind_ok in E as (w3 & v & _ & E).
  injection E as _ Hv. by eapply address_law.
Qed.
Lemma edits_lookup_or k a : addr_wf a → edits addr_wf (lookup_or k a).
Proof.
  intros Ha. unfold lookup_or. eapply (runs_bind _ _ (returns addr_wf)).
  - apply runs_attempt, edits_world; [apply asked_lookup|apply lookup_wf].
  - intros r Hr. run_ret. destruct r as [b|e|p]; [by apply Hr|done..].
Qed.
Lemma edits_reset_address chain : edits (fun _ => True) (reset_address_profile mode mnem_env chain).
Proof.
  unfold reset_address_profile. eapply (runs_bind _ _ (fun p => addr_wf (snd p))).
  { apply edits_on_snd, asks_account_selection. }
  intros [authkey a] Ha. cbn in Ha. edit_steps.
  eapply (runs_bind _ _ (returns (fun _ => True))).
  { apply runs_attempt, edits_world; [apply asked_ask|done]. }
  intros index _. eapply (runs_bind _ _ addr_wf).
  { destruct (_ && _); [by apply edits_lookup_or|by run_ret]. }
  intros b Hb. eapply (runs_bind _ _ (fun p => account p = b)).
  { run_lift. intros p. rewrite profile_new_ok by done. by intros [= <-]. }
  intros p Hp. eapply edits_bind; [apply edits_modify, keeps_add_profile; by rewrite Hp|].
  intros _ _. edit_cases.
Qed.
Hint Resolve edits_reset_address : edits.

Lemma keeps_nickname i n : keeps_cfg (fun c => match user_profiles c !! i with
  | Some p => Ok (with_profiles (<[i := with_nickname n p]> (user_profiles c)) c)
  | None => Err "Profile not found"
  end).
Proof.
  intros c c' (Ha & Hw & Hn) Hc. destruct (user_profiles c !! i) as [p|] eqn:Hp; [|done]. apply Ok_inj in Hc as <-.
  split; [|done]. split; [|split; [|done]]; cbn.
  - rewrite list_fmap_insert. cbn. rewrite list_insert_id; [done|]. by rewrite list_lookup_fmap, Hp.
  - apply Forall_insert; [done|]. cbn. by apply (Forall_lookup_1 _ _ _ _ Hw Hp).
Qed.
Hint Resolve keeps_nickname : edits.
Lemma edits_fix_setup chain : edits (fun _ => True) (interactive_fix_setup mode mnem_env chain).
Proof.
  pose proof edits_manage_networks. pose proof edits_change_defaults.
  unfold interactive_fix_setup, interactive_manage_profiles, interactive_profile_management, interactive_edit_single_profile,
    edit_profile, interactive_remove_profile, add_new_profile. edit_cases.
Qed.
Lemma edits_fix_changes options : edits (fun _ => True) (fix_changes mode mnem_env options).
Proof. pose proof edits_fix_setup. unfold fix_changes. edit_cases. Qed.

(** ** Properties *)
Lemma editing_spec {A : Type} (P : A → Prop) cfg (m : st editor A) d :
  edits P m → cfg_wf cfg →
  let '(d', r) := editing cfg m d in
  w_files (d_world d') = w_files (d_world d) ∧
  ∀ cfg' a, r = Ok (cfg', a) → cfg_wf cfg' ∧ tx_configs cfg' = tx_configs cfg ∧
    node_home (workspace cfg') = node_home (workspace cfg).
Proof.
  intros Hm Hc. destruct (Hm (cfg, d) Hc) as (Hc' & (Ht & Hh & Hf) & _). unfold editing.
  destruct (m (cfg, d)) as [[cfg' d'] [a|e|p]]; cbn in *; (split; [done|]); [|done..].
  intros c b [= -> ->]. done.
Qed.


(** A literal is not part of a text without its prefix. *)
Lemma contains_app p q s : contains (p +:+ q) s = true → contains p s = true.
Proof.
  rewrite !contains_spec. intros (a & b & ->). exists a, (q +:+ b). by rewrite str_app_assoc.
Qed.
Lemma hex_no_prefix a : addr_wf a → contains "0x" (addr_to_string a) = false.
Proof.
  intros Ha. rewrite addr_to_string_law by done. apply not_true_iff_false. intros (u & v & Hs)%contains_spec.
  pose proof (fmt_02x_chars (fun c => negb (Ascii.eqb c "x")) a) as Hx. rewrite Hs in Hx.
  assert (Hd : ∀ n, 0 ≤ n < 16 → negb (Ascii.eqb (hex_digit 97 n) "x") = true).
  { intros n Hn. apply (forall_below (fun n => negb (Ascii.eqb (hex_digit 97 n) "x")) 16); [by vm_compute|lia]. }
  specialize (Hx Hd (proj2 Ha)). clear -Hx. induction u as [|c u IH]; cbn in Hx; [done|].
  apply andb_true_iff in Hx as [_ Hx]. by apply IH.
Qed.
Definition no_literal (p : Profile) : Prop := contains "0x" (nickname p) = false.
Lemma literal_matches_none a p :
  addr_wf a → addr_wf (account p) → no_literal p → profile_matches (addr_to_hex_literal a) p = false.
Proof.
  intros Ha Hp Hn. destruct (addr_to_hex_literal_law a Ha) as [ds ->]. unfold profile_matches, no_literal in *.
  apply orb_false_iff. split; apply not_true_iff_false; intros Hc%contains_app; [congruence|].
  by rewrite hex_no_prefix in Hc.
Qed.
Lemma literal_found_none a ps :
  addr_wf a → Forall (fun p => addr_wf (account p)) ps → Forall no_literal ps →
  list_find (fun e => profile_matches (addr_to_hex_literal a) e = true) ps = None.
Proof.
  intros Ha Hw Hn. apply list_find_None, Forall_forall. intros p Hp.
  rewrite literal_matches_none; [done|done|by apply (proj1 (Forall_forall _ _) Hw)|by apply (proj1 (Forall_forall _ _) Hn)].
Qed.
Lemma literal_inj a b : addr_wf a → addr_wf b → addr_to_hex_literal a = addr_to_hex_literal b → a = b.
Proof. intros Ha Hb Hab. apply addr_from_to_literal in Ha, Hb. rewrite Hab in Ha. congruence. Qed.

Lemma literal_idx a cfg :
  cfg_wf cfg → addr_wf a → Forall no_literal (user_profiles cfg) → (2 ≤ length (user_profiles cfg))%nat →
  get_profile_idx (Some (addr_to_hex_literal a)) cfg = Err "could not find a profile".
Proof.
  intros (_ & Hw & _) Ha Hn Hl. unfold get_profile_idx.
  destruct (user_profiles cfg) as [|p [|q ps]] eqn:E; [cbn in Hl; lia..|]. rewrite <- E in *.
  by rewrite literal_found_none.
Qed.

(** The default profile cannot be changed.  With several profiles, none with a
    literal for a nickname, choosing one as the default records the literal of
    its account; but profiles are looked up by the text of the address, which
    has no prefix, so that afterwards, as when no default is found, the tools
    use the first profile. *)
Theorem default_profile_unseen cfg d n l p0 p :
  cfg_wf cfg → Forall no_literal (user_profiles cfg) → (2 ≤ length (user_profiles cfg))%nat →
  head (user_profiles cfg) = Some p0 → user_profiles cfg !! n = Some p → d_answers d = Choice n :: l →
  ∃ cfg' d', change_default_profile (cfg, d) = ((cfg', d'), Ok tt) ∧
    default_profile (workspace cfg') = Some (addr_to_hex_literal (account p)) ∧
    user_profiles cfg' = user_profiles cfg ∧
    get_profile mode None cfg' = Ok p0.
Proof.
  intros Hc Hn Hl Hp0 Hp Hd. exists (set_default_profile (addr_to_hex_literal (account p)) cfg), (with_answers l d).
  assert (Hacc : addr_wf (account p)) by apply (Forall_lookup_1 _ _ _ _ (proj1 (proj2 Hc)) Hp).
  split.
  - unfold change_default_profile, get_cfg, on_snd, select, modify, st_lift, index_of, mbind, st_bind. cbn [fst snd].
    rewrite Hd. unfold profile_options. rewrite length_fmap.
    rewrite (proj2 (Nat.ltb_lt _ _)) by by apply lookup_lt_Some in Hp.
    destruct (user_profiles cfg) as [|q ps] eqn:E; [done|]. cbn [ensure]. by rewrite Hp.
  - split; [done|]. split; [done|]. rewrite get_profile_lookup.
    assert (Hi : get_profile_idx None (set_default_profile (addr_to_hex_literal (account p)) cfg)
                 = get_profile_idx (Some (addr_to_hex_literal (account p))) cfg).
    { unfold get_profile_idx. cbn. destruct (user_profiles cfg) as [|q [|q' ps]]; done. }
    rewrite Hi, literal_idx by done. cbn. destruct (user_profiles cfg); [done|]. by injection Hp0 as ->.
Qed.

Lemma contains_prefix p s : contains p (p +:+ s) = true.
Proof. apply contains_spec. by exists EmptyString, s. Qed.
Lemma identifies_literal a q :
  addr_wf a → addr_wf (account q) → no_literal q → identifies (addr_to_hex_literal a) q = bool_decide (account q = a).
Proof.
  intros Ha Hq Hn. destruct (addr_to_hex_literal_law a Ha) as [ds Hd]. unfold identifies, no_literal in *.
  destruct (String.eqb_spec (addr_to_string (account q)) (addr_to_hex_literal a)) as [E|_].
  { pose proof (hex_no_prefix _ Hq) as Hx. rewrite E, Hd, contains_prefix in Hx. done. }
  destruct (String.eqb_spec (nickname q) (addr_to_hex_literal a)) as [E|_].
  { rewrite E, Hd, contains_prefix in Hn. done. }
  rewrite !orb_false_r. case_bool_decide as Hab; [by rewrite Hab, String.eqb_refl|].
  apply String.eqb_neq. intros E. by apply literal_inj in E.
Qed.
Lemma filter_absent a (ps : list Profile) : a ∉ account <$> ps → filter (fun q => account q ≠ a) ps = ps.
Proof.
  induction ps as [|q ps IH]; [done|]. rewrite fmap_cons, not_elem_of_cons. intros [Hq Hps].
  rewrite filter_cons_True by done. f_equal. by apply IH.
Qed.
Lemma delete_account (ps : list Profile) i p :
  NoDup (account <$> ps) → ps !! i = Some p → delete i ps = filter (fun q => account q ≠ account p) ps.
Proof.
  revert i. induction ps as [|q ps IH]; intros i Hnd Hi; [done|].
  rewrite fmap_cons in Hnd. apply NoDup_cons in Hnd as [Hq Hnd]. destruct i as [|i].
  - injection Hi as ->. rewrite filter_cons_False by (intros Hx; by apply Hx). change (delete 0%nat (p :: ps)) with ps.
    symmetry. by apply filter_absent.
  - rewrite filter_cons_True; [change (delete (S i) (q :: ps)) with (q :: delete i ps); f_equal; by apply IH|].
    intros E. apply Hq. rewrite E. apply list_elem_of_fmap_2. by eapply (list_elem_of_lookup_2 ps i).
Qed.
Lemma find_account ps i p (f : Profile → bool) :
  NoDup (account <$> ps) → ps !! i = Some p → (∀ q, q ∈ ps → f q = bool_decide (account q = account p)) →
  List.find f ps = Some p ∧ list_find (fun q => f q = true) ps = Some (i, p).
Proof.
  intros Hnd Hi Hf. assert (Hl : list_find (fun q => f q = true) ps = Some (i, p)).
  { apply list_find_first; [done| |].
    - rewrite Hf by (by eapply list_elem_of_lookup_2). by apply bool_decide_eq_true.
    - intros j q Hj Hq. rewrite Hf in Hq by (by eapply list_elem_of_lookup_2). apply bool_decide_eq_true in Hq.
      apply (NoDup_lookup _ _ _ (account p) Hnd); rewrite list_lookup_fmap, ?Hi, ?Hj; cbn; congruence. }
  split; [|done]. clear Hi Hf Hnd. revert i Hl. induction ps as [|q ps IH]; intros i Hl; [done|]. cbn in *.
  destruct (f q); cbn in Hl; [by injection Hl as <- <-|].
  destruct (list_find _ ps) as [[j x]|] eqn:E; [|done]. cbn in Hl. injection Hl as <- <-. by eapply IH.
Qed.

(** Removing a profile by the literal of its account takes out that profile and
    no other when there are several, and makes the first that is left the
    default if it was the default.  With a single profile, anything given for a
    name removes it. *)
Theorem remove_profile_spec cfg p :
  cfg_wf cfg → p ∈ user_profiles cfg →
  ((2 ≤ length (user_profiles cfg))%nat → Forall no_literal (user_profiles cfg) →
     ∃ cfg', remove_profile (addr_to_hex_literal (account p)) cfg = Ok cfg' ∧
       user_profiles cfg' = filter (fun q => account q ≠ account p) (user_profiles cfg) ∧
       default_profile (workspace cfg') =
         (if bool_decide (default_profile (workspace cfg) = Some (addr_to_hex_literal (account p)) ∨
                          default_profile (workspace cfg) = Some (nickname p))
          then addr_to_hex_literal ∘ account <$> head (user_profiles cfg') else default_profile (workspace cfg))) ∧
  (user_profiles cfg = [p] → ∀ name, ∃ cfg', remove_profile name cfg = Ok cfg' ∧ user_profiles cfg' = []).
Proof.
  intros Hc Hp. split.
  - intros Hl Hn. pose proof Hc as (Hnd & Hw & _). rewrite Forall_forall in Hw. pose proof (Hw p Hp) as Ha.
    apply list_elem_of_lookup_1 in Hp as [i Hi].
    destruct (find_account _ i p (identifies (addr_to_hex_literal (account p))) Hnd Hi) as [Hf Hlf].
    { intros q Hq. rewrite Forall_forall in Hn. by apply identifies_literal; [|apply Hw|apply Hn]. }
    unfold remove_profile, try_remove_profile. rewrite literal_idx by done. cbn [mbind outcome_bind].
    rewrite Hf, Hlf, (delete_account _ i p Hnd Hi). eexists. split; [reflexivity|].
    set (ps' := filter _ _). destruct (default_profile (workspace cfg)) as [dp|] eqn:Ed.
    + rewrite (bool_decide_ext _ (dp = addr_to_hex_literal (account p) ∨ dp = nickname p)) by (split; intros [|]; [left|right|left|right]; congruence).
      assert (Hs : ∀ t, bool_decide (dp = t) = String.eqb dp t).
      { intros t. case_bool_decide as Ht; [by rewrite Ht, String.eqb_refl|]. symmetry. by apply String.eqb_neq. }
      rewrite bool_decide_or, !Hs. destruct (_ || _); [|done].
      unfold reset_default_profile_after_removal. cbn [with_profiles user_profiles]. by destruct ps'.
    + rewrite bool_decide_false by naive_solver. done.
  - intros Hs name. unfold remove_profile, try_remove_profile, get_profile_idx. rewrite Hs. cbn.
    eexists. split; [done|]. unfold reset_default_profile_after_removal. cbn. by destruct (_ : bool).
Qed.

(** ** Typing URLs *)
Lemma next_text_shorter e l s l' : next_text e l = Some (s, l') → (length l' < length l)%nat.
Proof.
  induction l as [|[] l IH]; cbn [next_text length]; try done. destruct (_ || _); [intros [= _ <-]; lia|].
  intros Hl%IH. lia.
Qed.
(** A round of the loop ends it or leaves fewer answers. *)
Lemma add_urls_round np d :
  (∃ d' r, (∀ k, add_urls (S k) np d = (d', r)) ∧ r ≠ Err "out of fuel" ∧
     ∀ np', r = Ok np' → ∃ us, nodes np' = nodes np ++ (host_new <$> us) ∧ chain_name np' = chain_name np) ∨
  (∃ d' np1, (length (d_answers d') < length (d_answers d))%nat ∧ (∀ k, add_urls (S k) np d = add_urls k np1 d') ∧
     ∃ us, nodes np1 = nodes np ++ (host_new <$> us) ∧ chain_name np1 = chain_name np).
Proof.
  cbn [add_urls]. unfold input, mbind, st_bind. destruct (next_text true (d_answers d)) as [[s l]|] eqn:En; cbn [fst snd].
  2: { left. exists d, (Err NOT_A_TERMINAL). split; [done|]. split; [by vm_compute|done]. }
  apply next_text_shorter in En. destruct (String.eqb (trim s) EmptyString).
  { left. exists (with_answers l d), (Ok np). split; [done|]. split; [done|]. intros np' [= <-].
    exists []. by rewrite app_nil_r. }
  destruct (url_parse s) as [u|].
  2: { right. exists (with_answers l d), np. split; [done|]. split; [done|]. exists []. by rewrite app_nil_r. }
  unfold confirm. cbn [with_answers d_answers d_web d_world].
  destruct l as [|[| | |] l]; try (left; eexists _, (Err NOT_A_TERMINAL); split; [done|]; split; [by vm_compute|done]).
  - right. eexists _, (add_url u np). split; [|split; [done|by exists [u]]]. cbn in *. lia.
  - left. eexists _, (Ok (add_url u np)). split; [done|]. split; [done|]. intros np' [= <-]. by exists [u].
Qed.
Lemma add_urls_enough n m np d :
  (length (d_answers d) < n)%nat → (length (d_answers d) < m)%nat →
  add_urls n np d = add_urls m np d ∧ snd (add_urls n np d) ≠ Err "out of fuel" ∧
  ∀ np', snd (add_urls n np d) = Ok np' → ∃ us, nodes np' = nodes np ++ (host_new <$> us) ∧ chain_name np' = chain_name np.
Proof.
  revert m np d. induction n as [|n IH]; intros m np d Hn Hm; [lia|]. destruct m as [|m]; [lia|].
  destruct (add_urls_round np d) as [(d' & r & Hr & Hne & Hp)|(d' & np1 & Hl & Hr & us & Hu & Hc)]; rewrite !Hr; [done|].
  destruct (IH m np1 d') as (He & Hf & Hp); [lia..|]. split; [done|]. split; [done|]. intros np' Hnp.
  destruct (Hp np' Hnp) as (us' & Hu' & Hc'). exists (us ++ us').
  by rewrite Hu', Hu, fmap_app, app_assoc, Hc'.
Qed.

(** C39: The loop that reads the URLs of a new network ends, however many the user
    types or mistypes: the fuel given is enough, and more changes nothing.  It
    adds the URLs after those of the playlist; as a new playlist starts with
    the node on this host, that one comes first and is the one picked, and the
    network is added even when no URL is typed. *)
Theorem type_urls_spec np d :
  let '(d', r) := type_urls np d in
  (∀ n, (length (d_answers d) < n)%nat → add_urls n np d = (d', r)) ∧
  r ≠ Err "out of fuel" ∧
  (∀ np', r = Ok np' →
     (∃ us, nodes np' = nodes np ++ (host_new <$> us)) ∧ chain_name np' = chain_name np ∧
     (∀ c, np = playlist_new None (Some c) →
        pick_one np' = Ok "http://localhost:8080"%string ∧ nodes np' ≠ [])).
Proof.
  destruct (type_urls np d) as [d' r] eqn:E. unfold type_urls in E. change (add_urls (S (length (d_answers d))) np d = (d', r)) in E.
  destruct (add_urls_enough (S (length (d_answers d))) (S (length (d_answers d))) np d) as (_ & Hf & Hp); [lia..|].
  rewrite E in Hf, Hp. cbn in Hf, Hp. split; [|split; [done|]].
  - intros n Hn. rewrite <- E. apply add_urls_enough; lia.
  - intros np' Hr. destruct (Hp np' Hr) as (us & Hu & Hc). split; [by exists us|]. split; [done|].
    intros c ->. split; [|by rewrite Hu]. unfold pick_one, the_best_one, the_good_ones, all_urls. rewrite Hu.
    assert (Hg : ∀ vs, omap (fun e => if is_sync e && is_api e then Some (url e) else None) (host_new <$> vs) = []).
    { induction vs as [|v vs IH]; [done|]. apply IH. }
    rewrite omap_app, Hg. done.
Qed.
End edits.

(** ** Witnesses *)
#[export] Program Instance sample_web : Web := {|
  ans_get h := if Nat.even (length h) then inr "no route to host"%string else inl "http://one.example"%string;
  ans_versions _ u := if String.eqb u "http://one.example" then Some 12 else None;
  arrival _ l := l;
  url_parse s := if starts_with "http" s then Some s else None;
  playlist_from_json s := Ok (mk_playlist MAINNET [host_new s]);
  chain_debug c := match c with MAINNET => "MAINNET" | TESTNET => "TESTNET" | TESTING => "TESTING" | OtherChain _ => "OTHER" end
|}.
Next Obligation. done. Qed.

#[local] Existing Instances Mnemonic.sample_sha AppCfg.sample_sha3.
Definition sample_home : path := ["home"%string].
Definition sample_file : path := path_join sample_home CONFIG_FILE_NAME.
Definition fix_options : FixOptions := mk_fix_options false None None (Some sample_file) None.
Definition fix_files : file_system := <[sample_file := File (cfg_to_yaml sample_cfg)]> {[sample_home := Dir]}.
(** "Change defaults", "Change default profile", the second *)
Definition fix_dialog : dialog := mk_dialog [Choice 2; Choice 0; Choice 1] [] (mk_world [] fix_files).

Lemma sample_address_law v a : address_from_value v = Ok a → addr_wf a.
Proof.
  cbn. destruct v; try done. intros Ha%context_opt_ok. apply (addr_parse_wf (DiemAddress := ref_diem_address) s). by right.
Qed.
Lemma sample_cfg_wf : cfg_wf sample_cfg.
Proof. split; [|split]; by apply (bool_decide_unpack _). Qed.


(** That run makes the second profile the default one. *)
Example fix_config_default :
  let '(d', r) := fix_config MAINNET None fix_options fix_dialog in
  r = Ok tt ∧ d_answers d' = [].
Proof. vm_compute. done. Qed.

Lemma default_profile_unseen_witness :
  cfg_wf sample_cfg ∧ Forall no_literal (user_profiles sample_cfg) ∧
  ∃ cfg' d', change_default_profile (sample_cfg, mk_dialog [Choice 1] [] empty_world) = ((cfg', d'), Ok tt) ∧
    default_profile (workspace cfg') = Some (addr_to_hex_literal addr_b) ∧
    user_profiles cfg' = user_profiles sample_cfg ∧
    get_profile MAINNET None cfg' = Ok (sample_profile addr_a "1111").
Proof.
  split; [apply sample_cfg_wf|]. split; [by apply (bool_decide_unpack _)|].
  apply (default_profile_unseen MAINNET sample_cfg _ 1%nat [] _ (sample_profile addr_b "0000"));
    [apply sample_cfg_wf|by apply (bool_decide_unpack _)|cbn; lia|reflexivity..].
Defined.

Lemma remove_profile_spec_witness :
  cfg_wf sample_cfg ∧
  ∃ cfg', remove_profile (addr_to_hex_literal addr_b) sample_cfg = Ok cfg' ∧
    user_profiles cfg' = [sample_profile addr_a "1111"] ∧
    default_profile (workspace cfg') = Some (addr_to_hex_literal addr_a).
Proof.
  split; [apply sample_cfg_wf|].
  destruct (proj1 (remove_profile_spec sample_cfg (sample_profile addr_b "0000") sample_cfg_wf
    ltac:(by apply (bool_decide_unpack _))) ltac:(cbn; lia) ltac:(by apply (bool_decide_unpack _))) as (cfg' & Hr & Hu & Hd).
  exists cfg'. split; [done|]. rewrite Hd, Hu. split; [reflexivity|]. by vm_compute.
Defined.

(** Two URLs and a mistyped one *)
Definition typing : dialog :=
  mk_dialog [Typed "http://a"; Yes; Typed "ftp:b"; Typed "http://c"; No] [] empty_world.
Lemma type_urls_spec_witness :
  ∃ np', snd (type_urls (playlist_new None (Some TESTING)) typing) = Ok np' ∧
    chain_name np' = TESTING ∧ pick_one np' = Ok "http://localhost:8080"%string ∧
    url <$> nodes np' = ["http://localhost:8080"; "http://a"; "http://c"]%string.
Proof.
  pose proof (type_urls_spec (playlist_new None (Some TESTING)) typing) as Hs.
  destruct (type_urls (playlist_new None (Some TESTING)) typing) as [d' r] eqn:E.
  destruct Hs as (_ & _ & Hs). vm_compute in E. injection E as _ <-. eexists. split; [reflexivity|].
  destruct (Hs _ eq_refl) as (_ & Hc & Hp). split; [exact Hc|]. split; [apply (Hp TESTING eq_refl)|reflexivity].
Defined.
