(* ===== verification/VendorConfig.v ===== *)
(** * The configuration of the diem command line

    types/src/type_extensions/cli_config_ext.rs and global_config_ext.rs: where
    the configuration of the vendor's tools is and how it is loaded and saved;
    make_profile.rs of src/tools/config makes a profile in it, and
    [Sender::from_vendor_profile] and [Client::from_vendor_config] read it. *)
From Stdlib Require Import ZArith Lia Ascii.
From stdpp Require Import base option list strings gmap.
From S2P Require Import Prelude RustStr Json Effects Bytes FileSystem MoveTypes HashValue Mnemonic Wallet F64 NetworkPlaylist Pledge AppCfg.
From S2P Require Import Compare Node EntryCalls Payloads TxSender TxsCommunity KeyRotation TxsCommands UpgradeProposal Dialog ConfigFix.

Open Scope list_scope.
Open Scope Z_scope.

(** ** Data of the diem crate *)
Inductive Network := NetMainnet | NetTestnet | NetDevnet | NetLocal | NetCustom.
Record ProfileConfig := mk_profile_config {
  pc_network : option Network;
  pc_private_key : option bytes;
  pc_public_key : option bytes;
  pc_account : option AccountAddress;
  pc_rest_url : option string;
  pc_faucet_url : option string
}.
Record CliConfig := mk_cli_config { profiles : option (gmap string ProfileConfig) }.
Inductive ConfigSearchMode := CurrentDir | CurrentDirAndParents.
Inductive ConfigType := Global | Workspace.

(** diem and its crates: YAML; the calls on files; the defaults and the removal
    of a profile; keys and networks in text; the address a node gives for a
    rotated key. *)
Class VendorCrates := {
  cli_config_to_yaml : CliConfig → outcome string;
  cli_config_from_yaml : string → outcome CliConfig;
  create_dir_if_not_exist : path → io unit;
  write_user_only : path → string → string → io unit;
  cli_config_default : CliConfig;
  remove_profile : string → CliConfig → option ProfileConfig;
  network_from_str : string → outcome Network;
  network_id : Network → Z;
  public_key_from_str : string → outcome bytes;
  address_of_public_key : bytes → AccountAddress;
  lookup_address : AccountAddress → st world AccountAddress;
  cli_config_law c s : cli_config_to_yaml c = Ok s → cli_config_from_yaml s = Ok c;
  remove_profile_law n c : remove_profile n c = (m ← profiles c; m !! n);
  default_law : default ∅ (profiles cli_config_default) = ∅;
  create_dir_law p fs fs' : create_dir_if_not_exist p fs = (fs', Ok tt) → ∀ q x, fs !! q = Some x → fs' !! q = Some x;
  write_user_only_law p n t fs fs' :
    write_user_only p n t fs = (fs', Ok tt) → fs' !! p = Some (File t) ∧ ∀ q, q ≠ p → fs' !! q = fs !! q;
  lookup_address_law a w : w_files (fst (lookup_address a w)) = w_files w
}.

Definition GLOBAL_CONFIG_DIRECTORY_0L : string := ".libra".
Definition CONFIG_FILE : string := "config.yaml".
Definition LEGACY_CONFIG_FILE : string := "config.yml".
Definition GLOBAL_CONFIG_FILE : string := "global_config.yaml".
Definition DEFAULT_PROFILE : string := "default".

(** ** The search for a configuration directory

    Up from the starting path; [pop] fails at the root.  One unit of fuel for
    each component and one for the root. *)
Fixpoint find_loop (fuel : nat) (starting_path current_path : path) (fs : file_system) : outcome path :=
  match fuel with
  | O => Err "out of fuel"
  | S fuel =>
      let candidate := path_join current_path GLOBAL_CONFIG_DIRECTORY_0L in
      if is_dir candidate fs then Ok candidate
      else match parent current_path with
           | Some up => find_loop fuel starting_path up fs
           | None => Ok (path_join starting_path GLOBAL_CONFIG_DIRECTORY_0L)
           end
  end.
Definition find_workspace_config (starting_path : path) (mode : ConfigSearchMode) (fs : file_system) : outcome path :=
  match mode with
  | CurrentDir => Ok (path_join starting_path GLOBAL_CONFIG_DIRECTORY_0L)
  | CurrentDirAndParents => find_loop (S (length starting_path)) starting_path starting_path fs
  end.

Section config.
Context `{AppCfgEnv, VendorCrates}.

Definition libra_folder (workspace : option path) (mode : ConfigSearchMode) (fs : file_system) : outcome path :=
  match workspace with
  | Some p => find_workspace_config p mode fs
  | None => Ok global_config_dir
  end.

Definition config_exists_ext (workspace : option path) (mode : ConfigSearchMode) (fs : file_system) : bool :=
  match libra_folder workspace mode fs with
  | Ok folder => exists_ (path_join folder CONFIG_FILE) fs
  | _ => false
  end.

(** [inr]: the error that there is no such file *)
Definition load_ext (workspace : option path) (mode : ConfigSearchMode) (fs : file_system) : outcome (CliConfig + path) :=
  folder ← libra_folder workspace mode fs;
  let config_file := path_join folder CONFIG_FILE in
  if exists_ config_file fs then
    text ← read_to_string config_file fs;
    inl <$> cli_config_from_yaml text
  else Ok (inr config_file).

Definition load_profile_ext (profile : option string) (workspace : option path) (mode : ConfigSearchMode) (fs : file_system)
    : outcome (option ProfileConfig) :=
  config ← load_ext workspace mode fs;
  match config with
  | inr _ => Err "Unable to find config, have you run `libra-config vendor-init`?"
  | inl config =>
      match profile with
      | Some profile =>
          match remove_profile profile config with
          | Some account_profile => Ok (Some account_profile)
          | None => Err ("Profile " +:+ profile +:+ " not found")
          end
      | None => Ok (remove_profile DEFAULT_PROFILE config)
      end
  end.

(** [let _ = remove_file(..)] *)
Definition discard_file (p : path) : io unit := io_update (λ fs, Ok (if is_file p fs then base.delete p fs else fs)).
Definition save_ext (self : CliConfig) (workspace : option path) : io path :=
  folder ← io_read (libra_folder workspace CurrentDir);
  _ ← create_dir_if_not_exist folder;
  let config_file := path_join folder CONFIG_FILE in
  config_bytes ← io_lift (context_res "Failed to serialize config" (cli_config_to_yaml self));
  _ ← write_user_only config_file CONFIG_FILE config_bytes;
  let legacy_config_file := path_join folder LEGACY_CONFIG_FILE in
  legacy ← io_read (λ fs, Ok (exists_ legacy_config_file fs));
  _ ← (if legacy : bool then discard_file legacy_config_file else mret tt);
  mret config_file.

(** ** global_config_ext.rs *)
Context {GlobalConfig : Type} (config_type : GlobalConfig → option ConfigType) (global_default : GlobalConfig)
  (global_from_yaml : string → outcome GlobalConfig) (home_dir : option path) (current_dir : outcome path).

Definition global_folder : outcome path :=
  match home_dir with
  | Some dir => Ok (path_join dir GLOBAL_CONFIG_DIRECTORY_0L)
  | None => Err "Unable to retrieve home directory"
  end.
Definition global_load_ext (fs : file_system) : outcome GlobalConfig :=
  folder ← global_folder;
  let p := path_join folder GLOBAL_CONFIG_FILE in
  if exists_ p fs then text ← read_to_string p fs; global_from_yaml text else Ok global_default.
Definition get_config_location_ext (self : GlobalConfig) (mode : ConfigSearchMode) (fs : file_system) : outcome path :=
  match default Global (config_type self) with
  | Global => global_folder
  | Workspace => here ← current_dir; find_workspace_config here mode fs
  end.
End config.

(** ** make_profile.rs and the readers of a profile *)
Section profile.
Context `{AppCfgEnv, VendorCrates, RestNode, Web}.

Definition with_url (p : ProfileConfig) (rest_url : string) : ProfileConfig :=
  mk_profile_config (pc_network p) (pc_private_key p) (pc_public_key p) (pc_account p) (Some rest_url) None.

(** A line of the terminal *)
Definition read_line : st dialog string := read_password.

Definition custom_network (p : ProfileConfig) : st dialog ProfileConfig :=
  input ← read_line;
  let input := trim input in
  rest_url ← st_lift (if String.eqb input EmptyString then
                        match pc_rest_url p with
                        | Some current => Ok current
                        | None => Err "Aborted command"
                        end
                      else context_opt "Unable to parse 'Rest Endpoint'" (url_parse input));
  mret (with_url p rest_url).

Definition check_network (cfg : ProfileConfig) : outcome Url :=
  base ← expect_opt "Must have rest client as created above" (pc_rest_url cfg);
  context_opt "Unable to parse 'rest_url'" (url_parse base).

Definition choose_network (input : string) : outcome Network :=
  if String.eqb input EmptyString then Ok NetLocal else network_from_str input.
Definition set_network (network : Network) (p : ProfileConfig) : st dialog ProfileConfig :=
  match network with
  | NetLocal => mret (with_url p "http://localhost:8080")
  | NetCustom => custom_network p
  | _ => st_lift (Err "0L only supports Local and Custom networks (for now)")
  end.

(** The address on chain, when the user says that the keys were rotated *)
Definition current_address (p : ProfileConfig) (address : AccountAddress) : st dialog AccountAddress :=
  input ← read_line;
  if contains "y" (trim input) then
    match check_network p with
    | Ok u =>
        _ ← connect u;
        r ← attempt (on_world (lookup_address address));
        mret match r with Ok a => a | _ => address end
    | Err _ => mret address
    | Panic m => st_lift (Panic m)
    end
  else mret address.

Definition set_account (p : ProfileConfig) (public_key : bytes) (address : AccountAddress) : ProfileConfig :=
  mk_profile_config (pc_network p) None (Some public_key) (Some address) (pc_rest_url p) (pc_faucet_url p).
Definition add_profile (config : CliConfig) (name : string) (p : ProfileConfig) : CliConfig :=
  mk_cli_config (Some (<[name := p]> (default ∅ (profiles config)))).

Definition profile_default : ProfileConfig := mk_profile_config None None None None None None.

Definition make_profile_run (current_dir : outcome path) (public_key : string) (profile : option string) (workspace : bool)
    : st dialog unit :=
  let config := cli_config_default in
  let profile_name := default DEFAULT_PROFILE profile in
  public_key ← st_lift (public_key_from_str public_key);
  profile_config ←
    match remove_profile profile_name config with
    | Some profile_config =>
        yes ← confirm "do you want to overwrite the existing config?";
        st_lift (if yes : bool then Ok profile_config else Err "Aborted command")
    | None => mret profile_default
    end;
  input ← read_line;
  network ← st_lift (choose_network (trim input));
  profile_config ← set_network network profile_config;
  address ← current_address profile_config (address_of_public_key public_key);
  let profile_config := set_account profile_config public_key address in
  let config := add_profile config profile_name profile_config in
  let config_location := if workspace then match current_dir with Ok d => Some d | _ => None end else None in
  _ ← in_files (save_ext config config_location);
  mret tt.

(** client_ext.rs *)
Definition from_vendor_config : st dialog unit :=
  workspace ← st_lift (expect_opt "called `Option::unwrap()` on a `None` value" (parent global_config_dir));
  profile ← in_files (io_read (load_profile_ext (Some DEFAULT_PROFILE) (Some workspace) CurrentDir));
  rest_url ← st_lift (context_opt "Rest url is not set" (pc_rest_url (default profile_default profile)));
  u ← st_lift (expect_opt "called `Result::unwrap()` on an `Err` value" (url_parse rest_url));
  connect u.

(** submit_transaction.rs *)
Context `{WalletCrypto, Sha256, DiemAddress} (mode : NamedChain) (mnem_env : option string).
Definition from_vendor_profile (profile_name : option string) (workspace : option path) (pri_key : option bytes)
    : st dialog Sender :=
  cfg ← in_files (io_read (load_profile_ext None None CurrentDir));
  match cfg with
  | Some c =>
      address ← st_lift (context_opt "no profile found" (pc_account c));
      key ← match pri_key with
            | Some p => mret p
            | None => leg_keys ← get_keys_from_prompt mode mnem_env; mret (Wallet.pri_key (child_0_owner leg_keys))
            end;
      url ← st_lift (s ← context_opt "could not find rest_url in profile" (pc_rest_url c); context_opt "invalid url" (url_parse s));
      _ ← connect url;
      _ ← st_result (context_res "cannot connect to client") (on_world (ask GetIndex ans_index));
      seq_num ← on_world (get_sequence_number address);
      net ← st_lift (context_opt "cannot get which network id to connect to" (pc_network c));
      mret (mk_sender (mk_local address key seq_num) default_baseline_cost (network_id net) None)
  | None => st_lift (Err "could not read profile")
  end.
End profile.

(** ** Lemmas *)

(** The search ends, at the nearest directory up that has a configuration
    directory, or at the starting path's own when there is none. *)
Lemma find_loop_spec starting n fs fuel :
  (n ≤ length starting)%nat → (n < fuel)%nat →
  (∃ k, (k ≤ n)%nat ∧ find_loop fuel starting (take n starting) fs = Ok (path_join (take k starting) GLOBAL_CONFIG_DIRECTORY_0L) ∧
     is_dir (path_join (take k starting) GLOBAL_CONFIG_DIRECTORY_0L) fs = true ∧
     ∀ j, (k < j ≤ n)%nat → is_dir (path_join (take j starting) GLOBAL_CONFIG_DIRECTORY_0L) fs = false) ∨
  find_loop fuel starting (take n starting) fs = Ok (path_join starting GLOBAL_CONFIG_DIRECTORY_0L) ∧
  ∀ j, (j ≤ n)%nat → is_dir (path_join (take j starting) GLOBAL_CONFIG_DIRECTORY_0L) fs = false.
Proof.
  revert n. induction fuel as [|fuel IH]; intros n Hn Hf; [lia|]. cbn [find_loop].
  destruct (is_dir _ fs) eqn:Ed; [left; exists n; split_and!; [lia|done|done|lia]|].
  destruct n as [|n].
  { cbn [take parent]. right. split; [done|]. intros j Hj. by replace j with O by lia. }
  assert (Hp : parent (take (S n) starting) = Some (take n starting)).
  { unfold parent. destruct starting as [|x l]; [cbn in Hn; lia|]. cbn [take]. rewrite length_cons, length_take.
    cbn in Hn. f_equal. change (x :: take n l) with (take (S n) (x :: l)). rewrite take_take. f_equal. lia. }
  rewrite Hp. destruct (IH n ltac:(lia) ltac:(lia)) as [(k & Hk & -> & Hd & Hj)|[-> Hj]].
  - left. exists k. split_and!; [lia|done|done|]. intros j Hj2. destruct (decide (j = S n)) as [->|]; [done|apply Hj; lia].
  - right. split; [done|]. intros j Hj2. destruct (decide (j = S n)) as [->|]; [done|apply Hj; lia].
Qed.

Section save.
Context `{AppCfgEnv, VendorCrates}.

Lemma config_names dir : path_join dir CONFIG_FILE ≠ path_join dir LEGACY_CONFIG_FILE.
Proof. intros E. by apply app_inj_tail in E as [_ E]. Qed.

(** What is saved is loaded, and other files stay. *)
Lemma save_ext_ok c fs fs' p :
  save_ext c None fs = (fs', Ok p) →
  load_ext None CurrentDir fs' = Ok (inl c) ∧
  ∀ q x, q ≠ path_join global_config_dir CONFIG_FILE → q ≠ path_join global_config_dir LEGACY_CONFIG_FILE →
    fs !! q = Some x → fs' !! q = Some x.
Proof.
  unfold save_ext. intros E. apply io_bind_ok in E as (f1 & folder & Hf & E). apply io_read_ok in Hf as [-> Hf].
  cbn in Hf. apply Ok_inj in Hf as <-. set (file := path_join global_config_dir CONFIG_FILE) in *.
  apply io_bind_ok in E as (f2 & [] & Hc & E). apply io_bind_ok in E as (f3 & text & Ht & E). apply io_lift_ok in Ht as [-> Ht%context_res_ok].
  apply io_bind_ok in E as (f4 & [] & Hw & E). apply write_user_only_law in Hw as [Hw Hk].
  apply io_bind_ok in E as (f5 & legacy & Hl & E). apply io_read_ok in Hl as [-> _].
  apply io_bind_ok in E as (f6 & [] & Hd & E). injection E as <- _.
  assert (Hsame : ∀ q, q ≠ path_join global_config_dir LEGACY_CONFIG_FILE → f6 !! q = f4 !! q).
  { intros q Hq. destruct legacy; [|by injection Hd as <-]. unfold discard_file, io_update in Hd. injection Hd as <-.
    destruct (is_file _ f4); [|done]. by rewrite lookup_delete_ne. }
  split.
  - unfold load_ext. cbn [libra_folder mbind outcome_bind]. fold file.
    assert (Hfile : f6 !! file = Some (File text)) by (rewrite Hsame; [done|apply config_names]).
    unfold exists_. rewrite bool_decide_eq_true_2 by (by rewrite Hfile). unfold read_to_string. rewrite Hfile.
    cbn [mbind outcome_bind]. by rewrite (cli_config_law c text Ht).
  - intros q x Hq1 Hq2 Hx. rewrite Hsame, Hk by done. by apply (create_dir_law _ _ _ Hc).
Qed.
End save.

Section vendor_spec.
Context `{AppCfgEnv, VendorCrates, RestNode, Web}.

Notation same d d' := (w_files (d_world d') = w_files (d_world d)).

Lemma read_line_same d : same d (fst (read_line d)).
Proof. unfold read_line, read_password. by destruct (d_answers d) as [|[] l]. Qed.

(** Setting a profile up writes no file, and no network is set. *)
Lemma set_network_ok network p d d' p' :
  set_network network p d = (d', Ok p') → same d d' ∧ pc_network p' = pc_network p.
Proof.
  destruct network; cbn [set_network]; try done; [by intros [= <- <-]|]. unfold custom_network. intros E.
  apply st_bind_ok in E as (d1 & line & Hl & E). pose proof (read_line_same d) as Hs. rewrite Hl in Hs. cbn in Hs.
  apply st_bind_ok in E as (d2 & u & Hu & E). injection Hu as <- _. injection E as <- <-. done.
Qed.
Lemma current_address_same p a d : same d (fst (current_address p a d)).
Proof.
  unfold current_address. pose proof (read_line_same d) as Hs. unfold mbind at 1, st_bind at 1.
  destruct (read_line d) as [d1 [line|e|m]]; cbn [fst] in *; [|done..]. destruct (contains _ _); [|done].
  destruct (check_network p); [|done..]. unfold mbind at 1, st_bind at 1, connect, web at 1. cbn [of_reply].
  unfold mbind, st_bind, attempt, on_world. cbn [d_world].
  pose proof (lookup_address_law a (d_world d1)) as Hw. destruct (lookup_address a _) as [w [x|e|m]]; cbn in *; by rewrite Hw.
Qed.

Lemma make_profile_ok current_dir pk profile workspace d d' :
  make_profile_run current_dir pk profile workspace d = (d', Ok tt) →
  ∃ d1 p file, same d d1 ∧ pc_network p = None ∧ pc_private_key p = None ∧ is_Some (pc_account p) ∧
    save_ext (add_profile cli_config_default (default DEFAULT_PROFILE profile) p)
      (if workspace then match current_dir with Ok d => Some d | _ => None end else None) (w_files (d_world d1)) =
      (w_files (d_world d'), Ok file).
Proof.
  unfold make_profile_run. intros E. apply st_bind_ok in E as (d1 & key & Hk & E). injection Hk as <- _.
  assert (Hnone : remove_profile (default DEFAULT_PROFILE profile) cli_config_default = None).
  { rewrite remove_profile_law. pose proof default_law as Hd. destruct (profiles cli_config_default) as [m|]; [|done].
    cbn in Hd. subst m. apply lookup_empty. }
  rewrite Hnone in E. apply st_bind_ok in E as (d2 & p0 & Hp0 & E). injection Hp0 as <- <-.
  apply st_bind_ok in E as (d3 & line & Hl & E). pose proof (read_line_same d) as Hs. rewrite Hl in Hs. cbn in Hs.
  apply st_bind_ok in E as (d4 & net & Hn & E). injection Hn as <- _.
  apply st_bind_ok in E as (d5 & p & Hp & E). apply set_network_ok in Hp as [Hs2 Hp].
  apply st_bind_ok in E as (d6 & a & Ha & E). pose proof (current_address_same p (address_of_public_key key) d5) as Hs3.
  rewrite Ha in Hs3. cbn in Hs3. apply st_bind_ok in E as (d7 & file & Hf & E). injection E as <-.
  apply in_files_run in Hf as (Hf & _). exists d6, (set_account p key a), file.
  split_and!; [congruence|done|done|by eexists|done].
Qed.

Context `{WalletCrypto, Sha256, DiemAddress} (mode : NamedChain) (mnem_env : option string).

(** A profile without a network makes no sender. *)
Lemma no_network_no_sender name ws key c d :
  load_ext None CurrentDir (w_files (d_world d)) = Ok (inl c) →
  (∀ p, remove_profile DEFAULT_PROFILE c = Some p → pc_network p = None) →
  is_ok (snd (from_vendor_profile mode mnem_env name ws key d)) = false.
Proof.
  intros Hl Hp. destruct (from_vendor_profile _ _ _ _ _ d) as [d' [self|e|m]] eqn:E; [|done..]. exfalso.
  unfold from_vendor_profile in E. apply st_bind_ok in E as (d1 & cfg & Hc & E). apply in_files_run in Hc as (Hc & _).
  apply io_read_ok in Hc as [_ Hc]. unfold load_profile_ext in Hc. rewrite Hl in Hc. cbn in Hc. apply Ok_inj in Hc as <-.
  destruct (remove_profile DEFAULT_PROFILE c) as [p|] eqn:Er; [|done]. specialize (Hp p eq_refl).
  do 6 (apply st_bind_ok in E as (? & ? & _ & E)). apply st_bind_ok in E as (d8 & net & Hn & _).
  rewrite Hp in Hn. by injection Hn.
Qed.

(** C40: a profile of the vendor's configuration.  A run that succeeds leaves a
    configuration with the new profile and no other, whatever configuration
    there was before; no other file is changed; the private key is not in it.
    Whatever profile is then asked for, and whatever the user and the node
    answer, no sender can be made from that configuration: only the default
    profile is looked at, and the one made names no network. *)
Theorem vendor_profile_spec current_dir pk profile d d' :
  make_profile_run current_dir pk profile false d = (d', Ok tt) →
  let fs' := w_files (d_world d') in
  (∃ p, load_ext None CurrentDir fs' = Ok (inl (mk_cli_config (Some {[ default DEFAULT_PROFILE profile := p ]}))) ∧
     pc_private_key p = None ∧ is_Some (pc_account p)) ∧
  (∀ q x, q ≠ path_join global_config_dir CONFIG_FILE → q ≠ path_join global_config_dir LEGACY_CONFIG_FILE →
     w_files (d_world d) !! q = Some x → fs' !! q = Some x) ∧
  (∀ name ws key d2, w_files (d_world d2) = fs' →
     is_ok (snd (from_vendor_profile mode mnem_env name ws key d2)) = false).
Proof.
  intros E fs'. apply make_profile_ok in E as (d1 & p & file & Hs & Hn & Hk & Ha & E).
  apply save_ext_ok in E as [Hl Hq]. fold fs' in Hl, Hq. unfold add_profile in Hl. rewrite default_law, insert_empty in Hl.
  split; [by exists p|]. split; [intros q x Hq1 Hq2 Hx; apply Hq; [done..|by rewrite Hs]|].
  intros name ws key d2 Hd. eapply no_network_no_sender; [by rewrite Hd|]. intros p2 Hr. rewrite remove_profile_law in Hr.
  cbn in Hr. by apply lookup_singleton_Some in Hr as [_ <-].
Qed.
End vendor_spec.

(** ** Witness *)
#[export] Instance network_eq_dec : EqDecision Network. Proof. solve_decision. Defined.
#[export] Instance profile_config_eq_dec : EqDecision ProfileConfig. Proof. solve_decision. Defined.
#[export] Instance cli_config_eq_dec : EqDecision CliConfig. Proof. solve_decision. Defined.

Definition vendor_profile : ProfileConfig :=
  mk_profile_config None None (Some [1]) (Some addr_ONE) (Some "http://localhost:8080"%string) None.
Definition vendor_config : CliConfig := mk_cli_config (Some {[ "default"%string := vendor_profile ]}).
#[local] Instance sample_vendor : VendorCrates.
Proof.
  refine {|
    cli_config_to_yaml c := if decide (c = vendor_config) then Ok "---"%string else Err "no text";
    cli_config_from_yaml s := if String.eqb s "---" then Ok vendor_config else Err "no configuration";
    create_dir_if_not_exist p := io_update (create_dir_all p); write_user_only p _ t := io_write p t;
    cli_config_default := mk_cli_config None; remove_profile n c := m ← profiles c; m !! n;
    network_from_str s := if String.eqb s "local" then Ok NetLocal else Ok NetCustom; network_id _ := 1;
    public_key_from_str _ := Ok [1]; address_of_public_key _ := addr_ONE; lookup_address a := mret a
  |}; try done.
  - intros c s. destruct (decide (c = vendor_config)) as [->|]; [|done]. by intros [= <-].
  - intros p fs fs' E q x Hq. unfold io_update in E. destruct (create_dir_all p fs) as [f|e|m] eqn:Ec; [|done..].
    injection E as <-. by apply (create_dir_all_keeps p fs).
  - intros p n t fs fs'. apply io_write_ok.
Defined.

Definition vendor_dialog : dialog :=
  mk_dialog [Typed ""; Typed "n"]%string [] (mk_world [] {[ ([] : path) := Dir; ["home"%string] := Dir; ["home"; ".libra"]%string := Dir;
    ["home"; ".libra"; "config.yaml"]%string := File "profiles of other accounts" ]}).
Definition vendor_node : RestNode := sample_node (fun _ => inl []) (fun _ => inl None).
#[local] Existing Instances vendor_node Mnemonic.sample_sha.
Definition vendor_run : dialog * outcome unit := make_profile_run (Err "gone") "0x01" None false vendor_dialog.

Lemma vendor_profile_spec_witness :
  snd vendor_run = Ok tt ∧
  w_files (d_world (fst vendor_run)) !! path_join global_config_dir CONFIG_FILE = Some (File "---") ∧
  (∀ name ws key d2, w_files (d_world d2) = w_files (d_world (fst vendor_run)) →
     is_ok (snd (from_vendor_profile MAINNET None name ws key d2)) = false).
Proof.
  assert (Hr : snd vendor_run = Ok tt) by (vm_compute; reflexivity).
  split; [exact Hr|]. split; [vm_compute; reflexivity|].
  pose proof (eq_trans (surjective_pairing vendor_run) (f_equal (pair _) Hr)) as Hp.
  exact (proj2 (proj2 (vendor_profile_spec MAINNET None (Err "gone") "0x01" None
    vendor_dialog (fst vendor_run) Hp))).
Defined.
