(* ===== verification/VdfProof.v ===== *)
(** * src/types/src/core_types/block.rs: the files of tower proofs

    A proof is a JSON file named by its height; the tools look for the proof of a
    height and for the highest one. *)
From Stdlib Require Import ZArith Lia Ascii.
From stdpp Require Import base countable option list strings gmap.
From S2P Require Import Prelude RustStr Json Bytes FileSystem MoveTypes HashValue NetworkPlaylist Restore AppCfg.

Open Scope list_scope.
Open Scope Z_scope.

Definition FILENAME : string := "proof".

Record VDFProof := mk_vdf {
  height : Z;
  elapsed_secs : Z;
  preimage : bytes;
  proof : bytes;
  difficulty : option Z;
  security : option Z
}.
#[export] Instance vdf_eq_dec : EqDecision VDFProof. Proof. solve_decision. Defined.

(** The parameters by chain *)
Definition GENESIS_VDF_SECURITY_PARAM (mode : NamedChain) : Z := 512.
Definition GENESIS_VDF_ITERATIONS (mode : NamedChain) : Z :=
  match mode with MAINNET => 120000000 | _ => 100 end.

(** ** serde

    serde_json between text and values; the struct as an object of its fields in
    order, with the two byte vectors in hexadecimal.  Reading takes the fields in
    any order, ignores others, and takes a missing option as none; an array has
    all six. *)
Class SerdeJson := {
  json_to_string : json → string;
  json_from_str : string → outcome json;
  json_law v : json_from_str (json_to_string v) = Ok v;
  json_no_panic s m : json_from_str s ≠ Panic m
}.

Section serde.
Context `{HexCrate}.
Definition json_opt (o : option Z) : json := match o with Some n => JNumber (show_uint n) | None => JNull end.
Definition vdf_to_json (b : VDFProof) : json := JObject [
  ("height", JNumber (show_uint (height b))); ("elapsed_secs", JNumber (show_uint (elapsed_secs b)));
  ("preimage", JString (hex_encode (preimage b))); ("proof", JString (hex_encode (proof b)));
  ("difficulty", json_opt (difficulty b)); ("security", json_opt (security b))]%string.

Definition u64_from_json (v : json) : outcome Z :=
  match v with JNumber n => context_res "invalid type: expected u64" (parse_u64 n) | _ => Err "invalid type: expected u64" end.
Definition hex_from_json (v : json) : outcome bytes :=
  match v with
  | JString s => context_opt "invalid hex string" (hex_decode s)
  | _ => Err "invalid type: expected a hex encoded string"
  end.
Definition opt_from_json (v : json) : outcome (option Z) :=
  match v with JNull => Ok None | _ => Some <$> u64_from_json v end.
Definition field {A : Type} (name : string) (f : json → outcome A) (l : list (string * json)) : outcome A :=
  v ← context_opt ("missing field `" +:+ name +:+ "`") (obj_get name l);
  f v.
Definition opt_field (name : string) (l : list (string * json)) : outcome (option Z) :=
  match obj_get name l with Some v => opt_from_json v | None => Ok None end.
Definition vdf_from_json (v : json) : outcome VDFProof :=
  match v with
  | JObject l =>
      height ← field "height" u64_from_json l;
      elapsed_secs ← field "elapsed_secs" u64_from_json l;
      preimage ← field "preimage" hex_from_json l;
      proof ← field "proof" hex_from_json l;
      difficulty ← opt_field "difficulty" l;
      security ← opt_field "security" l;
      Ok (mk_vdf height elapsed_secs preimage proof difficulty security)
  | JArray [v0; v1; v2; v3; v4; v5] =>
      height ← u64_from_json v0;
      elapsed_secs ← u64_from_json v1;
      preimage ← hex_from_json v2;
      proof ← hex_from_json v3;
      difficulty ← opt_from_json v4;
      security ← opt_from_json v5;
      Ok (mk_vdf height elapsed_secs preimage proof difficulty security)
  | _ => Err "invalid type: expected struct VDFProof"
  end.
End serde.

(** ** Files *)

(** The path a text names, and the alphabetical order of paths *)
Class ProofPaths := {
  path_of_text : string → path;
  alphabetical : list path → list path;
  alphabetical_law l : alphabetical l ≡ₚ l
}.

Definition proof_name (num : Z) : string := FILENAME +:+ "_" +:+ show_uint num +:+ ".json".
(** The pattern [proof_*.json] *)
Definition is_proof_name (name : string) : bool :=
  match strip_prefix (FILENAME +:+ "_") name with
  | Some rest => ends_with ".json" rest
  | None => false
  end.
Definition is_proof_path (blocks_dir p : path) : bool :=
  match last p with
  | Some name => is_proof_name name && bool_decide (parent p = Some blocks_dir)
  | None => false
  end.

Section proofs.
Context `{HexCrate, SerdeJson, ProofPaths}.

Definition block_from_str (s : string) : outcome VDFProof := v ← json_from_str s; vdf_from_json v.

Definition get_genesis_tx_data (p : path) (fs : file_system) : outcome (bytes * bytes) :=
  text ← read_to_string p fs;
  block ← expect_res "Genesis block should deserialize" (block_from_str text);
  Ok (preimage block, proof block).

Definition vdf_difficulty (b : VDFProof) : outcome Z :=
  expect_opt "called `Option::unwrap()` on a `None` value" (difficulty b).
Definition vdf_security (b : VDFProof) : outcome Z :=
  expect_opt "called `Option::unwrap()` on a `None` value" (security b).

Definition write_json (b : VDFProof) (blocks_dir : path) : io path :=
  here ← io_read (λ fs, Ok (exists_ blocks_dir fs));
  _ ← (if here : bool then mret tt else io_update (create_dir_all blocks_dir));
  let p := path_join blocks_dir (proof_name (height b)) in
  _ ← io_write p (json_to_string (vdf_to_json b));
  mret p.

Definition BAD_BLOCK : string := "Could not read latest block file in path".
(** What is removed is the file that the text of the file names. *)
Definition parse_block_file (p : path) (purge_if_bad : bool) : io VDFProof :=
  block_file ← io_read (read_to_string p);
  match block_from_str block_file with
  | Ok v => mret v
  | Err e =>
      _ ← (if purge_if_bad then remove_file (path_of_text block_file) else mret tt);
      io_lift (Err BAD_BLOCK)
  | Panic m => io_lift (Panic m)
  end.

Definition get_proof_number (num : Z) (blocks_dir : path) : io (VDFProof * path) :=
  let file := path_join blocks_dir (proof_name num) in
  p ← parse_block_file file false;
  if height p =? num then mret (p, file)
  else io_lift (Err ("does not contain proof height " +:+ show_uint num +:+ ", found " +:+ show_uint (height p) +:+ " instead")).

(** [glob] of the directory, its name being free of the characters of patterns *)
Definition proof_files (blocks_dir : path) (fs : file_system) : list path :=
  alphabetical (filter (λ p, is_proof_path blocks_dir p = true) (fst <$> map_to_list fs)).

Fixpoint highest (file_list : list path) (max_block : option (VDFProof * path)) (fs : file_system)
    : outcome (option (VDFProof * path)) :=
  match file_list with
  | [] => Ok max_block
  | entry :: file_list' =>
      match snd (parse_block_file entry false fs) with
      | Ok block =>
          highest file_list'
            match max_block with
            | Some (b, p) => if height b <? height block then Some (block, entry) else Some (b, p)
            | None => Some (block, entry)
            end fs
      | Err _ => highest file_list' max_block fs
      | Panic m => Panic m
      end
  end.
Definition NO_PROOF : string :=
  "cannot find a valid VDF proof in files to determine next proof's parameters. Exiting.".
Definition get_highest_block (blocks_dir : path) : io (VDFProof * path) :=
  io_read (λ fs, max_block ← highest (proof_files blocks_dir fs) None fs; context_opt NO_PROOF max_block).

Context `{DiemAddress, Sha3} (mode : NamedChain).
Definition get_latest_proof (config : AppCfg) (purge_if_bad : bool) : io VDFProof :=
  dir ← io_lift (get_block_dir mode None config);
  '(_, current_block_path) ← get_highest_block dir;
  parse_block_file current_block_path purge_if_bad.
End proofs.

(** ** Lemmas *)
Definition vdf_wf (b : VDFProof) : Prop :=
  is_u64 (height b) ∧ is_u64 (elapsed_secs b) ∧ is_bytes (preimage b) ∧ is_bytes (proof b) ∧
  from_option is_u64 True (difficulty b) ∧ from_option is_u64 True (security b).

Section lemmas.
Context `{HexCrate, SerdeJson, ProofPaths}.

Lemma u64_json n : is_u64 n → u64_from_json (JNumber (show_uint n)) = Ok n.
Proof. intros Hn. unfold u64_from_json. by rewrite parse_u64_show. Qed.
Lemma hex_json bs : is_bytes bs → hex_from_json (JString (hex_encode bs)) = Ok bs.
Proof.
  intros Hb. unfold hex_from_json. rewrite hex_encode_law by done.
  rewrite (proj2 (hex_decode_law (fmt_02x bs) bs)); [done|]. split; [done|]. by apply str_lower_fmt_02x.
Qed.
Lemma opt_json o : from_option is_u64 True o → opt_from_json (json_opt o) = Ok o.
Proof. destruct o as [n|]; [|done]. intros Hn. unfold opt_from_json, json_opt. by rewrite u64_json. Qed.

Lemma vdf_json b : vdf_wf b → block_from_str (json_to_string (vdf_to_json b)) = Ok b.
Proof.
  intros (Hh & He & Hp & Hq & Hd & Hs). unfold block_from_str. rewrite json_law. cbn [mbind outcome_bind].
  assert (Hget : ∀ l, vdf_to_json b = JObject l →
    obj_get "height" l = Some (JNumber (show_uint (height b))) ∧
    obj_get "elapsed_secs" l = Some (JNumber (show_uint (elapsed_secs b))) ∧
    obj_get "preimage" l = Some (JString (hex_encode (preimage b))) ∧
    obj_get "proof" l = Some (JString (hex_encode (proof b))) ∧
    obj_get "difficulty" l = Some (json_opt (difficulty b)) ∧ obj_get "security" l = Some (json_opt (security b))).
  { intros l [= <-]. split_and!; reflexivity. }
  destruct (vdf_to_json b) as [| | | | |l] eqn:El; try done. destruct (Hget l eq_refl) as (E1 & E2 & E3 & E4 & E5 & E6).
  cbn [vdf_from_json]. unfold field, opt_field. rewrite E1, E2, E3, E4, E5, E6. cbn [context_opt mbind outcome_bind].
  rewrite u64_json by done. cbn [mbind outcome_bind]. rewrite u64_json by done. cbn [mbind outcome_bind].
  rewrite hex_json by done. cbn [mbind outcome_bind]. rewrite hex_json by done. cbn [mbind outcome_bind].
  rewrite opt_json by done. cbn [mbind outcome_bind]. rewrite opt_json by done. by destruct b.
Qed.

(** The file can be read as a proof. *)
Definition reads (p : path) (b : VDFProof) (fs : file_system) : Prop :=
  ∃ text, fs !! p = Some (File text) ∧ block_from_str text = Ok b.

Lemma reads_fun p b c fs : reads p b fs → reads p c fs → b = c.
Proof. intros (t & E & Hb) (u & E2 & Hc). assert (t = u) as -> by congruence. congruence. Qed.

Definition safe {A : Type} (r : outcome A) : Prop := ∀ m, r ≠ Panic m.
Lemma safe_bind {A B : Type} (r : outcome A) (f : A → outcome B) : safe r → (∀ a, safe (f a)) → safe (r ≫= f).
Proof. intros Hr Hf. destruct r as [a|e|p]; cbn; [apply Hf|by intros ?|by destruct (Hr p)]. Qed.
Lemma safe_context {A : Type} msg (o : option A) : safe (context_opt msg o).
Proof. by destruct o. Qed.
Lemma safe_parse_digits max acc t : safe (parse_digits max acc t).
Proof.
  revert acc. induction t as [|c t IH]; intros acc; cbn; [done|]. destruct (digit_val c); [|done]. by destruct (_ <=? max).
Qed.
Lemma safe_parse_u64 t : safe (parse_u64 t).
Proof.
  unfold parse_u64, parse_uint. destruct t as [|c t]; [done|]. destruct (Ascii.eqb c _); [|apply safe_parse_digits].
  destruct t; [done|apply safe_parse_digits].
Qed.
Lemma safe_u64 v : safe (u64_from_json v).
Proof.
  destruct v as [| |n| | |]; try done. unfold u64_from_json. pose proof (safe_parse_u64 n) as Hn.
  destruct (parse_u64 n) as [x|e|p]; cbn; [done|done|by destruct (Hn p)].
Qed.
Lemma safe_hex v : safe (hex_from_json v).
Proof. destruct v; try done. apply safe_context. Qed.
Lemma safe_opt v : safe (opt_from_json v).
Proof.
  unfold opt_from_json. pose proof (safe_u64 v) as Hn. destruct v; try done.
  destruct (u64_from_json _) as [x|e|p]; cbn; [done|done|by destruct (Hn p)].
Qed.
Lemma safe_field {A : Type} name (f : json → outcome A) l : (∀ v, safe (f v)) → safe (field name f l).
Proof. intros Hf. apply safe_bind; [apply safe_context|done]. Qed.
Lemma safe_opt_field name l : safe (opt_field name l).
Proof. unfold opt_field. destruct (obj_get name l); [apply safe_opt|done]. Qed.
#[local] Hint Resolve safe_u64 safe_hex safe_opt safe_field safe_opt_field : core.

(** Reading a proof never panics. *)
Lemma block_safe t : safe (block_from_str t).
Proof.
  apply safe_bind; [intros m; apply json_no_panic|]. intros v. destruct v as [| | | |l|l]; try done; cbn [vdf_from_json].
  - do 7 (destruct l as [|? l]; try done). do 6 (apply safe_bind; [by auto|intros ?]). done.
  - do 6 (apply safe_bind; [by auto|intros ?]). done.
Qed.

Lemma parse_keeps p fs : fst (parse_block_file p false fs) = fs.
Proof.
  unfold parse_block_file, mbind, io_bind, io_read. destruct (read_to_string p fs) as [t|e|m]; [|done..].
  by destruct (block_from_str t).
Qed.
Lemma parse_reads p b purge fs : snd (parse_block_file p purge fs) = Ok b ↔ reads p b fs.
Proof.
  unfold parse_block_file, reads, mbind, io_bind, io_read, read_to_string.
  destruct (fs !! p) as [[t|]|]; cbn [snd]; [|split; [done|by intros (t & ? & _)]..].
  split.
  - intros E. exists t. split; [done|]. destruct (block_from_str t) as [v|e|m]; cbn in E; [by apply Ok_inj in E as ->| |done].
    exfalso. revert E. destruct purge; unfold remove_file, io_update, mret, io_ret, io_lift; cbn; [|done].
    by destruct (is_file _ fs).
  - intros (u & [= <-] & ->). done.
Qed.
Lemma parse_safe p fs : safe (snd (parse_block_file p false fs)).
Proof.
  unfold parse_block_file, mbind, io_bind, io_read, read_to_string. intros m.
  destruct (fs !! p) as [[t|]|]; [|done..]. pose proof (block_safe t) as Ht. destruct (block_from_str t) as [v|e|q]; [done..|].
  by destruct (Ht q).
Qed.

(** ** The highest proof *)
Lemma highest_spec l acc fs :
  ∃ m, highest l acc fs = Ok m ∧
  match m with
  | None => acc = None ∧ ∀ p b, p ∈ l → ¬ reads p b fs
  | Some (b, p) =>
      (acc = Some (b, p) ∨ p ∈ l ∧ reads p b fs) ∧ (∀ q c, q ∈ l → reads q c fs → height c ≤ height b) ∧
      from_option (λ x, height x.1 ≤ height b) True acc
  end.
Proof.
  revert acc. induction l as [|p l IH]; intros acc; cbn [highest].
  { exists acc. split; [done|]. destruct acc as [[b p]|]; cbn; [|split; [done|intros ? ? []%elem_of_nil]].
    split_and!; [by left|by intros q c ?%elem_of_nil|lia]. }
  destruct (snd (parse_block_file p false fs)) as [block|e|m] eqn:E.
  - apply parse_reads in E as Hr. set (acc' := match acc with Some _ => _ | None => _ end).
    destruct (IH acc') as (m & Hm & Hs). exists m. split; [done|]. destruct m as [[b q]|].
    + destruct Hs as (Hin & Hmax & Hacc). assert (Hp : height block ≤ height b ∧ from_option (λ x, height x.1 ≤ height b) True acc).
      { unfold acc' in Hacc. destruct acc as [[b0 p0]|]; cbn in *; [|by split].
        destruct (Z.ltb_spec (height b0) (height block)); cbn in Hacc; lia. }
      split_and!; [|intros x c [->|Hx]%elem_of_cons Hc; [rewrite (reads_fun _ _ _ _ Hc Hr); apply Hp|by eapply Hmax]|apply Hp].
      destruct Hin as [Hin|[Hin Hq]]; [|right; split; [by constructor|done]].
      assert (Ha : acc' = acc ∨ acc' = Some (block, p)) by (unfold acc'; destruct acc as [[b0 p0]|]; [destruct (_ <? _)|]; auto).
      destruct Ha as [Ha|Ha]; rewrite Ha in Hin; [by left|]. injection Hin as -> ->. right. split; [by constructor|done].
    + destruct Hs as [Hs _]. unfold acc' in Hs. destruct acc as [[b0 p0]|]; [by destruct (_ <? _)|done].
  - destruct (IH acc) as (m & Hm & Hs). exists m. split; [done|].
    assert (Hn : ∀ c, ¬ reads p c fs) by (intros c Hc; apply (parse_reads _ _ false) in Hc; congruence).
    destruct m as [[b q]|].
    + destruct Hs as (Hin & Hmax & Hacc). split_and!; [|intros x c [->|Hx]%elem_of_cons Hc; [by destruct (Hn c)|by eapply Hmax]|done].
      destruct Hin as [Hin|[Hin Hq]]; [by left|right; split; [by constructor|done]].
    + destruct Hs as [-> Hs]. split; [done|]. intros x c [->|Hx]%elem_of_cons Hc; [by destruct (Hn c)|by eapply Hs].
  - by destruct (parse_safe p fs m).
Qed.

Lemma proof_files_in dir p fs : p ∈ proof_files dir fs ↔ is_proof_path dir p = true ∧ is_Some (fs !! p).
Proof.
  unfold proof_files. rewrite alphabetical_law, list_elem_of_filter, list_elem_of_fmap.
  split; intros [Hp Hq]; (split; [done|]).
  - destruct Hq as ([q x] & -> & Hx%elem_of_map_to_list). by exists x.
  - destruct Hq as [x Hx]. exists (p, x). split; [done|]. by apply elem_of_map_to_list.
Qed.

(** A proof file of the directory that can be read *)
Definition proof_at (dir p : path) (b : VDFProof) (fs : file_system) : Prop := is_proof_path dir p = true ∧ reads p b fs.

Lemma highest_block_spec dir fs :
  fst (get_highest_block dir fs) = fs ∧
  match snd (get_highest_block dir fs) with
  | Ok (b, p) => proof_at dir p b fs ∧ ∀ q c, proof_at dir q c fs → height c ≤ height b
  | Err e => e = NO_PROOF ∧ ∀ q c, ¬ proof_at dir q c fs
  | Panic _ => False
  end.
Proof.
  unfold get_highest_block, io_read. cbn [fst snd]. split; [done|].
  destruct (highest_spec (proof_files dir fs) None fs) as (m & -> & Hm). cbn [mbind outcome_bind].
  assert (Hin : ∀ q c, proof_at dir q c fs → q ∈ proof_files dir fs).
  { intros q c [Hq (t & Ht & _)]. apply proof_files_in. by rewrite Ht. }
  destruct m as [[b p]|]; cbn [context_opt].
  - destruct Hm as ([|[Hp Hr]] & Hmax & _); [done|]. apply proof_files_in in Hp as [Hp _]. split; [by split|].
    intros q c Hq. apply (Hmax q); [by apply (Hin q c)|apply Hq].
  - destruct Hm as [_ Hm]. split; [done|]. intros q c Hq. apply (Hm q c); [by apply (Hin q c)|apply Hq].
Qed.

(** ** Writing a proof *)
Lemma proof_name_ok n : is_proof_name (proof_name n) = true.
Proof.
  unfold is_proof_name, proof_name. rewrite <- (str_app_assoc FILENAME "_"), strip_prefix_app.
  unfold ends_with. by rewrite strip_suffix_app.
Qed.
Lemma proof_name_inj n m : is_u64 n → is_u64 m → proof_name n = proof_name m → n = m.
Proof.
  intros Hn Hm E. unfold proof_name in E. do 2 apply str_app_inv_head in E.
  apply (f_equal (strip_suffix ".json")) in E. rewrite !strip_suffix_app in E. injection E as E.
  apply (f_equal parse_u64) in E. rewrite !parse_u64_show in E by done. by apply Ok_inj in E.
Qed.
Lemma parent_snoc (p : path) x : parent (p ++ [x]) = Some p.
Proof.
  unfold parent. destruct (p ++ [x]) as [|y l] eqn:E; [by destruct p|]. rewrite <- E, length_app. cbn [length].
  rewrite Nat.add_sub. by rewrite take_app_length.
Qed.
Lemma proof_path_ok dir n : is_proof_path dir (path_join dir (proof_name n)) = true.
Proof.
  unfold is_proof_path, path_join. rewrite last_snoc, proof_name_ok. cbn [andb]. apply bool_decide_eq_true.
  apply parent_snoc.
Qed.

Lemma create_dir_all_apart d fs fs' q : create_dir_all d fs = Ok fs' → ¬ q `prefix_of` d → fs' !! q = fs !! q.
Proof.
  unfold create_dir_all. intros E Hq.
  assert (Hps : Forall (λ x, x `prefix_of` d) ((λ k, take k d) <$> seq 0 (S (length d)))).
  { apply Forall_fmap, Forall_forall. intros k _. apply prefix_take. }
  revert E Hps. generalize ((λ k, take k d) <$> seq 0 (S (length d))) as ps. intros ps. revert fs.
  induction ps as [|x ps IH]; intros fs E Hps; cbn [foldl] in E; [by apply Ok_inj in E as <-|].
  apply Forall_cons in Hps as [Hx Hps].
  destruct (make_dir (Ok fs) x) as [fs1|e|m] eqn:Ex; [|by rewrite foldl_make_dir_fail in E..].
  rewrite (IH fs1 E Hps). revert Ex. unfold make_dir. cbn [mbind outcome_bind].
  destruct (fs !! x) as [[c|]|]; [done|by intros <-%Ok_inj|]. intros <-%Ok_inj. by rewrite lookup_insert_ne by (by intros ->).
Qed.

Lemma write_json_ok b dir fs fs' p :
  write_json b dir fs = (fs', Ok p) →
  p = path_join dir (proof_name (height b)) ∧ fs' !! p = Some (File (json_to_string (vdf_to_json b))) ∧
  ∀ q, q ≠ p → ¬ q `prefix_of` dir → fs' !! q = fs !! q.
Proof.
  unfold write_json. intros E. apply io_bind_ok in E as (f1 & here & Hh & E). apply io_read_ok in Hh as [-> _].
  apply io_bind_ok in E as (f2 & [] & Hc & E). apply io_bind_ok in E as (f3 & [] & Hw & E). injection E as <- <-.
  apply io_write_ok in Hw as [Hw Hk]. split; [done|]. split; [done|]. intros q Hq Hd. rewrite Hk by done.
  destruct here; [by injection Hc as <-|]. unfold io_update in Hc. destruct (create_dir_all dir fs) as [f|e|m] eqn:Ec; [|done..].
  injection Hc as <-. by apply (create_dir_all_apart dir).
Qed.

Lemma longer_not_prefix (dir : path) x : ¬ path_join dir x `prefix_of` dir.
Proof. intros Hp%prefix_length. unfold path_join in Hp. rewrite length_app in Hp. cbn in Hp. lia. Qed.

Lemma proof_path_longer dir q : is_proof_path dir q = true → ¬ q `prefix_of` dir.
Proof.
  unfold is_proof_path. destruct (last q) as [name|] eqn:E; [|done]. intros [_ Hp%bool_decide_eq_true]%andb_true_iff Hq.
  apply last_Some in E as [l ->]. rewrite parent_snoc in Hp. injection Hp as ->.
  apply prefix_length in Hq. rewrite length_app in Hq. cbn in Hq. lia.
Qed.

(** C31: the files of proofs.  A proof that is written is found again by its
    height, with the same content, and reading any other height gives what it
    gave before; when it is higher than every proof of the directory that could
    be read, it is the highest.  The highest is chosen by the heights in the
    files, whatever their names.  A file that does not parse, when it is to be
    purged, stays: what is removed is the file that its text names, if any. *)
Theorem proof_files_spec b dir fs fs' p :
  vdf_wf b → write_json b dir fs = (fs', Ok p) →
  p = path_join dir (proof_name (height b)) ∧
  get_proof_number (height b) dir fs' = (fs', Ok (b, p)) ∧
  (∀ n, is_u64 n → n ≠ height b → snd (get_proof_number n dir fs') = snd (get_proof_number n dir fs)) ∧
  ((∀ q c, proof_at dir q c fs → height c < height b) → get_highest_block dir fs' = (fs', Ok (b, p))) ∧
  (∀ q text e, fs' !! q = Some (File text) → block_from_str text = Err e →
     parse_block_file q true fs' =
     if is_file (path_of_text text) fs' then (delete (path_of_text text) fs', Err BAD_BLOCK)
     else (fs', Err "No such file or directory")).
Proof.
  intros Hb E. apply write_json_ok in E as (Ep & Hf & Hk). split; [done|].
  assert (Hr : reads p b fs') by (eexists; split; [exact Hf|by apply vdf_json]).
  assert (Hat : proof_at dir p b fs') by (split; [rewrite Ep; apply proof_path_ok|done]).
  split_and!.
  - unfold get_proof_number. rewrite <- Ep. pose proof (proj2 (parse_reads p b false fs') Hr) as Hs.
    pose proof (parse_keeps p fs') as Hp. unfold mbind, io_bind. destruct (parse_block_file p false fs') as [f r].
    cbn in Hs, Hp. subst f r. by rewrite Z.eqb_refl.
  - intros n Hn Hne. unfold get_proof_number. set (q := path_join dir (proof_name n)).
    assert (Hq : fs' !! q = fs !! q).
    { apply Hk; [|apply longer_not_prefix]. rewrite Ep. unfold q, path_join. intros Eq. apply app_inj_tail in Eq as [_ Eq].
      apply Hne. by apply proof_name_inj in Eq; [|done|apply Hb]. }
    unfold parse_block_file, mbind, io_bind, io_read, read_to_string. rewrite Hq.
    destruct (fs !! q) as [[t|]|]; [|done..]. destruct (block_from_str t) as [v|e|m]; [|done..]. cbn. destruct (_ =? _); reflexivity.
  - intros Hlow. destruct (highest_block_spec dir fs') as [Hsame Hres]. destruct (get_highest_block dir fs') as [f [[c q]|e|m]]; cbn in *; [| |done].
    + subst f. destruct Hres as [Hc Hmax]. specialize (Hmax p b Hat). do 2 f_equal.
      destruct (decide (q = p)) as [->|Hne].
      * f_equal. apply (reads_fun p _ _ fs'); [apply Hc|done].
      * exfalso. assert (Hold : proof_at dir q c fs).
        { destruct Hc as [Hq (t & Ht & Hc)]. split; [done|]. exists t. split; [|done]. rewrite <- Ht. symmetry.
          apply Hk; [done|by apply proof_path_longer]. }
        specialize (Hlow q c Hold). lia.
    + destruct Hres as [_ Hres]. by destruct (Hres p b).
  - intros q text e Hq He. unfold parse_block_file, mbind, io_bind, io_read, read_to_string. rewrite Hq, He.
    unfold remove_file, io_update. by destruct (is_file _ fs').
Qed.
End lemmas.

(** ** Witness *)
Definition sample_proof : VDFProof := mk_vdf 12 1800 [1; 2] [171; 205] (Some 120000000) None.
(** Values as numbers in binary *)
Fixpoint json_tree (v : json) : gen_tree (bool + string) :=
  match v with
  | JNull => GenNode 0 []
  | JBool b => GenLeaf (inl b)
  | JNumber n => GenNode 1 [GenLeaf (inr n)]
  | JString s => GenLeaf (inr s)
  | JArray l => GenNode 2 (json_tree <$> l)
  | JObject l => GenNode 3 ((λ kv, GenNode 4 [GenLeaf (inr kv.1); json_tree kv.2]) <$> l)
  end.
Fixpoint tree_json (t : gen_tree (bool + string)) : json :=
  match t with
  | GenLeaf (inl b) => JBool b
  | GenLeaf (inr s) => JString s
  | GenNode 1 [GenLeaf (inr n)] => JNumber n
  | GenNode 2 l => JArray (tree_json <$> l)
  | GenNode 3 l => JObject ((λ t, match t with
                                  | GenNode 4 [GenLeaf (inr k); v] => (k, tree_json v)
                                  | _ => (EmptyString, JNull)
                                  end) <$> l)
  | _ => JNull
  end.
Lemma tree_json_tree v : tree_json (json_tree v) = v.
Proof.
  revert v. fix IH 1. intros [|b|n|s|l|l]; cbn [json_tree tree_json]; try done.
  - f_equal. induction l as [|v l IHl]; [done|]. cbn [fmap list_fmap]. by rewrite IH, IHl.
  - f_equal. induction l as [|[k v] l IHl]; [done|]. cbn [fmap list_fmap fst snd]. by rewrite IH, IHl.
Qed.
Fixpoint pos_text (p : positive) : string :=
  match p with xI p => String "1" (pos_text p) | xO p => String "0" (pos_text p) | xH => EmptyString end.
Fixpoint text_pos (s : string) : positive :=
  match s with EmptyString => xH | String c s => if Ascii.eqb c "1" then xI (text_pos s) else xO (text_pos s) end.
Lemma text_pos_text p : text_pos (pos_text p) = p.
Proof. induction p as [p IH|p IH|]; cbn; by rewrite ?IH. Qed.

#[local] Instance sample_serde : SerdeJson.
Proof.
  refine {| json_to_string v := pos_text (encode (json_tree v));
            json_from_str s := match decode (text_pos s) with Some t => Ok (tree_json t) | None => Err "expected value" end |}.
  - intros v. by rewrite text_pos_text, decode_encode, tree_json_tree.
  - intros s m. by destruct (decode _).
Defined.
#[local] Instance sample_proof_paths : ProofPaths := {| path_of_text s := [s]; alphabetical l := l; alphabetical_law _ := reflexivity _ |}.

Definition proof_dir : path := ["vdf_proofs"%string].
(** A directory with a lower proof and a file that does not parse *)
Definition proof_world : file_system :=
  {[ ([] : path) := Dir; proof_dir := Dir; path_join proof_dir "proof_zz.json" := File "0101";
     path_join proof_dir "proof_99.json" := File (json_to_string (vdf_to_json (mk_vdf 7 1 [] [] None None))) ]}.
Definition proof_written : file_system * outcome path := write_json sample_proof proof_dir proof_world.

(** The name of the lower proof has a higher number. *)
Example proof_found :
  snd (get_highest_block proof_dir proof_world) = Ok (mk_vdf 7 1 [] [] None None, path_join proof_dir "proof_99.json") ∧
  snd (get_highest_block proof_dir (fst proof_written)) = Ok (sample_proof, path_join proof_dir "proof_12.json") ∧
  snd (get_proof_number 99 proof_dir (fst proof_written)) = Err "does not contain proof height 99, found 7 instead" ∧
  snd (parse_block_file (path_join proof_dir "proof_zz.json") true proof_world) = Err "No such file or directory".
Proof. split_and!; vm_compute; reflexivity. Qed.

Lemma proof_files_spec_witness :
  vdf_wf sample_proof ∧ snd proof_written = Ok (path_join proof_dir "proof_12.json") ∧
  get_proof_number 12 proof_dir (fst proof_written) = (fst proof_written, Ok (sample_proof, path_join proof_dir "proof_12.json")).
Proof.
  assert (Hw : vdf_wf sample_proof) by (vm_compute; repeat split; (done || by repeat constructor)).
  assert (Hr : snd proof_written = Ok (path_join proof_dir "proof_12.json")) by (vm_compute; reflexivity).
  split; [exact Hw|]. split; [exact Hr|]. pose proof (eq_trans (surjective_pairing proof_written) (f_equal (pair _) Hr)) as Hp.
  exact (proj1 (proj2 (proof_files_spec sample_proof proof_dir proof_world _ _ Hw Hp))).
Defined.
