(* ===== verification/NodeFiles.v ===== *)
(** * tools/config/src: genesis files and node configurations

    get_genesis_artifacts.rs downloads the genesis of the latest release;
    make_yaml_public_fullnode.rs and make_yaml_validator.rs write the
    configuration files of nodes from templates and add the seed peers. *)
From Stdlib Require Import ZArith Lia Ascii.
From stdpp Require Import base option list strings gmap.
From S2P Require Import Prelude RustStr Json Effects Bytes FileSystem MoveTypes NetworkPlaylist Pledge Compare AppCfg RestoreBundle Node Rescue TxSender Dialog.

Open Scope list_scope.
Open Scope Z_scope.

(** ** get_genesis_artifacts.rs *)
Definition GENESIS_FILES_VERSION : string := "7.0.0".
Record GithubContent := mk_content { gc_name : string; gc_path : string; gc_type : string; gc_download_url : option string }.

(** Of a [NodeConfig] the public and private networks with their seed peers, and
    the rest; serde_yaml and serde_json, which read back what they write; the
    text of a waypoint *)
Notation Seeds := (gmap bytes (list string)).
Record NetworkConfig := mk_network_config { nw_public : bool; seed_addrs : Seeds; nw_rest : string }.
Record NodeNetworks := mk_node_networks { full_node_networks : list NetworkConfig; nn_rest : string }.
Class NodeYaml := {
  contents_from_json : string → outcome (list GithubContent);
  seeds_from_yaml : string → outcome Seeds;
  networks_from_yaml : string → outcome NodeNetworks;
  networks_to_yaml : NodeNetworks → outcome string;
  waypoint_from_str : string → outcome Waypoint;
  waypoint_to_string : Waypoint → string;
  networks_yaml_law c s : networks_to_yaml c = Ok s → networks_from_yaml s = Ok c
}.

Section files.
Context `{RestNode, Web, NodeYaml, AppCfgEnv}.

Definition UPGRADES_API : Url := "https://api.github.com/repos/0LNetworkCommunity/epoch-archive-mainnet/contents/upgrades".
Definition UPGRADES_RAW : string := "https://raw.githubusercontent.com/0LNetworkCommunity/epoch-archive-mainnet/main/upgrades".

(** [split('v').nth(1)] *)
Definition version_of (entry : GithubContent) : option string := split_char "v" (gc_name entry) !! 1%nat.
(** [max_by]: of equal elements the last *)
Definition later (a b : string) : string := match String.compare a b with Gt => a | _ => b end.
Definition max_version (l : list string) : option string :=
  match l with [] => None | x :: l' => Some (foldl later x l') end.
Definition latest_version (resp : list GithubContent) : option string := max_version (omap version_of resp).
Definition latest_path (file : string) (resp : list GithubContent) : Url :=
  UPGRADES_RAW +:+ "/v" +:+ default GENESIS_FILES_VERSION (latest_version resp) +:+ "/" +:+ file.

Definition list_upgrades : st dialog (list GithubContent) :=
  body ← http_get UPGRADES_API;
  st_lift (contents_from_json body).
Definition genesis_dir (home_dir : option path) : path := path_join (default global_config_dir home_dir) "genesis".

Definition download_genesis (home_dir : option path) : st dialog path :=
  resp ← list_upgrades;
  blob_bytes ← http_get (latest_path "genesis.blob" resp);
  _ ← in_files (io_update (create_dir_all (genesis_dir home_dir)));
  let p := path_join (genesis_dir home_dir) "genesis.blob" in
  _ ← in_files (io_write p blob_bytes);
  mret p.
Definition get_genesis_waypoint (home_dir : option path) : st dialog Waypoint :=
  resp ← list_upgrades;
  wp_string ← http_get (latest_path "waypoint.txt" resp);
  let p := path_join (genesis_dir home_dir) "waypoint.txt" in
  _ ← in_files (io_write p wp_string);
  st_lift (waypoint_from_str (trim wp_string)).

(** ** make_yaml_public_fullnode.rs *)
Definition FN_FILENAME : string := "fullnode.yaml".
Definition VFN_FILENAME : string := "vfn.yaml".
Definition SEED_PEERS : Url := "https://raw.githubusercontent.com/0LNetworkCommunity/seed-peers/main/seed_peers.yaml".

Definition set_seeds (peers : Seeds) (e : NetworkConfig) : NetworkConfig :=
  if nw_public e then mk_network_config (nw_public e) peers (nw_rest e) else e.
Definition add_peers_to_yaml (p : path) (peers : Seeds) : io unit :=
  s ← io_read (read_to_string p);
  parsed ← io_lift (networks_from_yaml s);
  let parsed := mk_node_networks (set_seeds peers <$> full_node_networks parsed) (nn_rest parsed) in
  ser ← io_lift (networks_to_yaml parsed);
  io_write p ser.
Definition fetch_seed_addresses (u : option Url) : st dialog Seeds :=
  out ← http_get (default SEED_PEERS u);
  st_lift (seeds_from_yaml out).

Definition make_fullnode_fast_sync_yaml (home_dir : option path) (wp : Waypoint) : string :=
  let path := display (default global_config_dir home_dir) in
  let waypoint := waypoint_to_string wp in
  "
base:
  role: 'full_node'
  data_dir: '" +:+
  path +:+
  "/data'
  waypoint:
    from_config: '" +:+
  waypoint +:+
  "'

execution:
  genesis_file_location: '" +:+
  path +:+
  "/genesis/genesis.blob'

state_sync:
     state_sync_driver:
        bootstrapping_mode: DownloadLatestStates
        continuous_syncing_mode: ApplyTransactionOutputs

full_node_networks:
- network_id: 'public'
  listen_address: '/ip4/0.0.0.0/tcp/6182'
  max_outbound_connections: 10


api:
  enabled: true
  address: '0.0.0.0:8080'
".

Definition make_fullnode_archive_yaml (home_dir : option path) (wp : Waypoint) : string :=
  let path := display (default global_config_dir home_dir) in
  let waypoint := waypoint_to_string wp in
  "
base:
  role: 'full_node'
  data_dir: '" +:+
  path +:+
  "/data'
  waypoint:
    from_config: '" +:+
  waypoint +:+
  "'

execution:
  genesis_file_location: '" +:+
  path +:+
  "/genesis/genesis.blob'

state_sync:
     state_sync_driver:
        bootstrapping_mode: ExecuteOrApplyFromGenesis
        continuous_syncing_mode: ApplyTransactionOutputs
storage:
  storage_pruner_config:
    ledger_pruner_config:
      enable: false
    state_merkle_pruner_config:
      enable: false
    epoch_snapshot_pruner_config:
      enable: false

full_node_networks:
- network_id: 'public'
  listen_address: '/ip4/0.0.0.0/tcp/6182'
  max_outbound_connections: 10

api:
  enabled: true
  address: '0.0.0.0:8080'
".

Definition init_fullnode_yaml (home_dir : option path) (overwrite_peers archive_mode : bool) : st dialog path :=
  waypoint ← get_genesis_waypoint home_dir;
  let yaml := if archive_mode then make_fullnode_archive_yaml home_dir waypoint
              else make_fullnode_fast_sync_yaml home_dir waypoint in
  let p := path_join (default global_config_dir home_dir) FN_FILENAME in
  _ ← in_files (io_write p yaml);
  _ ← (if overwrite_peers then peers ← fetch_seed_addresses None; in_files (add_peers_to_yaml p peers) else mret tt);
  mret p.

Definition vfn_yaml (home_dir : path) (val_net_pubkey val_host_addr : string) : string :=
  let path := display home_dir in
  "
base:
  role: 'full_node'
  data_dir: '" +:+
  path +:+
  "/data'
  waypoint:
    from_file: '" +:+
  path +:+
  "/genesis/waypoint.txt'

execution:
  genesis_file_location: '" +:+
  path +:+
  "/genesis/genesis.blob'

state_sync:
     state_sync_driver:
        bootstrapping_mode: ApplyTransactionOutputsFromGenesis
        continuous_syncing_mode: ApplyTransactionOutputs

storage:
  storage_pruner_config:
    ledger_pruner_config:
      enable: false
    state_merkle_pruner_config:
      enable: false
    epoch_snapshot_pruner_config:
      enable: false

full_node_networks:
- network_id: 'public'
  listen_address: '/ip4/0.0.0.0/tcp/6182'
  max_outbound_connections: 10
  identity:
    type: 'from_file'
    path: " +:+
  path +:+
  "/validator-full-node-identity.yaml

- network_id:
    private: 'vfn'
  listen_address: '/ip4/0.0.0.0/tcp/6181'
  identity:
    type: 'from_file'
    path: " +:+
  path +:+
  "/validator-full-node-identity.yaml
  seeds:
    " +:+
  val_net_pubkey +:+
  ":
      addresses:
      - '/ip4/" +:+
  val_host_addr +:+
  "/tcp/6181/noise-ik/0x" +:+
  val_net_pubkey +:+
  "/handshake/0'
      role: 'Validator'

api:
  enabled: true
  address: '0.0.0.0:8080'

mempool:
  default_failovers: 3
".
Definition make_private_vfn_yaml (home_dir : path) (val_net_pubkey val_host_addr : string) : io string :=
  let template := vfn_yaml home_dir val_net_pubkey val_host_addr in
  _ ← io_write (path_join home_dir VFN_FILENAME) template;
  mret template.

(** ** make_yaml_validator.rs *)
Definition NODE_YAML_FILE : string := "validator.yaml".
Definition validator_yaml (home_dir : path) : string :=
  let path := display home_dir in
  "
base:
  role: 'validator'
  data_dir: '" +:+
  path +:+
  "/data'
  waypoint:
    from_file: '" +:+
  path +:+
  "/genesis/waypoint.txt'

consensus:
  safety_rules:
    service:
      type: 'local'
    backend:
      type: 'on_disk_storage'
      path: secure-data.json
      namespace: ~
    initial_safety_rules_config:
      from_file:
        waypoint:
          from_file: " +:+
  path +:+
  "/genesis/waypoint.txt
        identity_blob_path: " +:+
  path +:+
  "/validator-identity.yaml

execution:
  genesis_file_location: '" +:+
  path +:+
  "/genesis/genesis.blob'

validator_network:
  discovery_method: 'onchain'
  mutual_authentication: true
  identity:
    type: 'from_file'
    path: " +:+
  path +:+
  "/validator-identity.yaml

state_sync:
  state_sync_driver:
    bootstrapping_mode: ExecuteOrApplyFromGenesis
    continuous_syncing_mode: ApplyTransactionOutputs

storage:
  storage_pruner_config:
    ledger_pruner_config:
      enable: false
    state_merkle_pruner_config:
      enable: false
    epoch_snapshot_pruner_config:
      enable: false

full_node_networks:
- network_id:
    private: 'vfn'
  #mutual_authentication: true
  listen_address: '/ip4/0.0.0.0/tcp/6181'
  identity:
    type: 'from_file'
    path: " +:+
  path +:+
  "/validator-identity.yaml
- network_id: 'public'
  listen_address: '/ip4/0.0.0.0/tcp/6182'

api:
  enabled: true
  address: '127.0.0.1:8080'
".
Definition save_validator_yaml (home_dir : option path) : st dialog path :=
  let home_dir := default global_config_dir home_dir in
  let output_file := path_join home_dir NODE_YAML_FILE in
  _ ← in_files (io_result (context_res "cannot write file: validator.yaml") (io_write output_file (validator_yaml home_dir)));
  peers ← fetch_seed_addresses None;
  _ ← in_files (add_peers_to_yaml output_file peers);
  mret output_file.
End files.

(** ** The version chosen *)
Lemma ascii_compare_N c d : Ascii.compare c d = N.compare (N_of_ascii c) (N_of_ascii d).
Proof. reflexivity. Qed.
Definition str_le (a b : string) : Prop := String.compare a b ≠ Gt.
Lemma str_le_refl a : str_le a a.
Proof.
  unfold str_le. induction a as [|c a IH]; [done|]. cbn. by rewrite ascii_compare_N, N.compare_refl.
Qed.
Lemma str_le_trans a b c : str_le a b → str_le b c → str_le a c.
Proof.
  unfold str_le. revert b c. induction a as [|x a IH]; intros [|y b] [|z c]; try done.
  cbn. rewrite !ascii_compare_N.
  destruct (N.compare_spec (N_of_ascii x) (N_of_ascii y)), (N.compare_spec (N_of_ascii y) (N_of_ascii z)),
    (N.compare_spec (N_of_ascii x) (N_of_ascii z)); try done; try lia. apply IH.
Qed.
Lemma str_le_total a b : str_le a b ∨ str_le b a.
Proof. unfold str_le. rewrite (String.compare_antisym b a). destruct (String.compare a b); cbn; naive_solver. Qed.
Lemma later_spec a b : later a b ∈ [a; b] ∧ str_le a (later a b) ∧ str_le b (later a b).
Proof.
  unfold later. destruct (String.compare a b) eqn:E.
  - split; [by right; left|]. split; [unfold str_le; by rewrite E|apply str_le_refl].
  - split; [by right; left|]. split; [unfold str_le; by rewrite E|apply str_le_refl].
  - split; [by left|]. split; [apply str_le_refl|]. destruct (str_le_total a b) as [Hab|]; [|done].
    unfold str_le in Hab. by rewrite E in Hab.
Qed.
Lemma max_version_spec l :
  match max_version l with
  | Some v => v ∈ l ∧ ∀ u, u ∈ l → str_le u v
  | None => l = []
  end.
Proof.
  destruct l as [|x l]; [done|]. cbn [max_version].
  revert x. induction l as [|y l IH]; intros x; cbn [foldl].
  - split; [by left|]. intros u ->%list_elem_of_singleton. apply str_le_refl.
  - destruct (IH (later x y)) as [Hin Hle]. destruct (later_spec x y) as (Hl & Hx & Hy). split.
    + apply elem_of_cons in Hin as [Hin|Hin]; [|by do 2 right]. rewrite Hin.
      rewrite elem_of_cons, list_elem_of_singleton in Hl. destruct Hl as [->| ->]; [by left|by right; left].
    + intros u Hu. assert (Hlv : str_le (later x y) (foldl later (later x y) l)) by (apply Hle; by left).
      rewrite !elem_of_cons in Hu. destruct Hu as [->|[->|Hu]].
      * by eapply str_le_trans.
      * by eapply str_le_trans.
      * apply Hle. by right.
Qed.

(** The release whose genesis is downloaded is, of the names listed that have a
    "v", the one whose text after it is greatest in the order of bytes; without
    any it is 7.0.0.  That is not the order of versions: once a release has a
    number of two digits, an older one is still taken for the latest. *)
Theorem latest_version_spec resp :
  match latest_version resp with
  | Some v => (∃ e, e ∈ resp ∧ version_of e = Some v) ∧ ∀ e u, e ∈ resp → version_of e = Some u → str_le u v
  | None => ∀ e, e ∈ resp → version_of e = None
  end ∧
  (latest_version resp = None → latest_path "genesis.blob" resp = UPGRADES_RAW +:+ "/v7.0.0/genesis.blob") ∧
  latest_version ((fun n => mk_content n n "dir" None) <$> ["v7.0.0"; "v9.1.0"; "v10.0.0"]%string) = Some "9.1.0"%string.
Proof.
  split; [|split; [|reflexivity]].
  - unfold latest_version. pose proof (max_version_spec (omap version_of resp)) as Hm.
    destruct (max_version _) as [v|].
    + destruct Hm as [Hv Hle]. apply list_elem_of_omap in Hv as (e & He & Hev). split; [by exists e|].
      intros e' u He' Hu. apply Hle, list_elem_of_omap. by exists e'.
    + intros e He. destruct (version_of e) as [u|] eqn:E; [|done].
      assert (Hu : u ∈ omap version_of resp) by (apply list_elem_of_omap; by exists e). rewrite Hm in Hu. by apply not_elem_of_nil in Hu.
  - intros Hn. unfold latest_path. by rewrite Hn.
Qed.

(** ** What the files hold *)
Lemma io_write_frame p s fs q : q ≠ p → fst (io_write p s fs) !! q = fs !! q.
Proof.
  intros Hq. unfold io_write, io_update. destruct (file_create p fs) as [f|e|m] eqn:E; cbn; [|done..].
  apply file_create_ok in E as [-> _]. unfold write_all. by rewrite !lookup_insert_ne.
Qed.
(** Only the files at some paths change. *)
Definition only (ps : list path) (fs fs' : file_system) : Prop := ∀ q, q ∉ ps → fs' !! q = fs !! q.
#[export] Instance only_preorder ps : PreOrder (only ps).
Proof. split; [by intros fs q|]. intros f1 f2 f3 H1 H2 q Hq. by rewrite H2, H1. Qed.
Definition only_files (ps : list path) (d d' : dialog) : Prop := only ps (w_files (d_world d)) (w_files (d_world d')).
#[export] Instance only_files_preorder ps : PreOrder (only_files ps).
Proof.
  split; [intros d; unfold only_files; done|]. intros d1 d2 d3 H1 H2. unfold only_files in *. by etrans.
Qed.
Notation touches ps P m := (runs (fun _ => True) (only_files ps) P m).
Lemma touches_asks ps {A : Type} (P : A → Prop) (m : st dialog A) : asks P m → touches ps P m.
Proof. intros Hm d _. destruct (Hm d I) as (_ & Hf & Hp). split; [done|]. split; [|done]. intros q _. by rewrite Hf. Qed.
Lemma touches_files ps {A : Type} (m : io A) : leaves (only ps) m → touches ps (fun _ => True) (in_files m).
Proof. intros Hm d _. unfold in_files, only_files. specialize (Hm (w_files (d_world d))). by destruct (m _). Qed.
Lemma leaves_write_only ps p s : p ∈ ps → leaves (only ps) (io_write p s).
Proof. intros Hp fs q Hq. apply io_write_frame. by intros ->. Qed.

Lemma in_files_ok {A : Type} (m : io A) d d' a :
  in_files m d = (d', Ok a) → m (w_files (d_world d)) = (w_files (d_world d'), Ok a).
Proof. unfold in_files. destruct (m _) as [fs r]. by intros [= <- ->]. Qed.

Section node_files.
Context `{RestNode, Web, NodeYaml, AppCfgEnv}.

Lemma leaves_add_peers ps p peers : p ∈ ps → leaves (only ps) (add_peers_to_yaml p peers).
Proof.
  intros Hp. unfold add_peers_to_yaml. apply leaves_bind; [apply _|apply leaves_read; apply _|]. intros s.
  apply leaves_bind; [apply _|apply leaves_lift; apply _|]. intros c.
  apply leaves_bind; [apply _|apply leaves_lift; apply _|]. intros ser. by apply leaves_write_only.
Qed.
Lemma add_peers_ok p peers text fs fs' :
  fs !! p = Some (File text) → add_peers_to_yaml p peers fs = (fs', Ok tt) →
  ∃ base ser, networks_from_yaml text = Ok base ∧ fs' !! p = Some (File ser) ∧
    networks_from_yaml ser = Ok (mk_node_networks (set_seeds peers <$> full_node_networks base) (nn_rest base)).
Proof.
  intros Hp Ha. unfold add_peers_to_yaml in Ha. apply io_bind_ok in Ha as (f1 & s & Hs & Ha).
  apply io_read_ok in Hs as [-> Hs]. unfold read_to_string in Hs. rewrite Hp in Hs. apply Ok_inj in Hs as <-.
  apply io_bind_ok in Ha as (f2 & base & Hb & Ha). apply io_lift_ok in Hb as [-> Hb].
  apply io_bind_ok in Ha as (f3 & ser & Hs & Ha). apply io_lift_ok in Hs as [-> Hs].
  apply io_write_ok in Ha as [Hw _]. exists base, ser. by apply networks_yaml_law in Hs.
Qed.
Lemma touches_waypoint ps home : path_join (genesis_dir home) "waypoint.txt" ∈ ps → touches ps (fun _ => True) (get_genesis_waypoint home).
Proof.
  intros Hp. unfold get_genesis_waypoint, list_upgrades.
  run_bind (fun _ => True).
  { apply touches_asks. run_bind _; [apply asks_web|]. intros b _. by run_lift. }
  intros resp _. run_bind _; [apply touches_asks, asks_web|]. intros s _.
  run_bind _; [by apply touches_files, leaves_write_only|]. intros [] _. by run_lift.
Qed.
Lemma touches_fetch ps u : touches ps (fun _ => True) (fetch_seed_addresses u).
Proof. apply touches_asks. unfold fetch_seed_addresses. run_bind _; [apply asks_web|]. intros s _. by run_lift. Qed.
Lemma waypoint_ok home d d' w :
  get_genesis_waypoint home d = (d', Ok w) →
  ∃ text, w_files (d_world d') !! path_join (genesis_dir home) "waypoint.txt" = Some (File text) ∧
    waypoint_from_str (trim text) = Ok w.
Proof.
  unfold get_genesis_waypoint. intros Hg. apply st_bind_ok in Hg as (d1 & resp & _ & Hg).
  apply st_bind_ok in Hg as (d2 & text & _ & Hg). apply st_bind_ok in Hg as (d3 & [] & Hw & Hg).
  injection Hg as <- Hw'. apply in_files_ok, io_write_ok in Hw as [Hw _]. by exists text.
Qed.

(** The files of a full node, and the template it starts from *)
Definition fullnode_template (archive_mode : bool) (home : option path) (w : Waypoint) : string :=
  if archive_mode then make_fullnode_archive_yaml home w else make_fullnode_fast_sync_yaml home w.

(** What becomes of a network: seed peers for the public ones *)
Definition seeded (peers : Seeds) (e e' : NetworkConfig) : Prop :=
  nw_public e' = nw_public e ∧ nw_rest e' = nw_rest e ∧ seed_addrs e' = (if nw_public e then peers else seed_addrs e).
Lemma set_seeds_spec peers l : Forall2 (seeded peers) l (set_seeds peers <$> l).
Proof.
  induction l as [|e l IH]; constructor; [|exact IH]. unfold set_seeds, seeded. by destruct (nw_public e) eqn:E; rewrite ?E.
Qed.

(** Initialising a full node changes no file but waypoint.txt of the genesis
    directory and fullnode.yaml, however far it gets.  When it succeeds, the
    first holds a waypoint as it was downloaded, and the second reads back as
    the template for that waypoint with the seed peers downloaded in every
    public network, and in no other. *)
Theorem init_fullnode_yaml_spec home archive d :
  let '(d', r) := init_fullnode_yaml home true archive d in
  let fs' := w_files (d_world d') in
  let wp := path_join (genesis_dir home) "waypoint.txt" in
  let fn := path_join (default global_config_dir home) FN_FILENAME in
  (∀ q, q ≠ wp → q ≠ fn → fs' !! q = w_files (d_world d) !! q) ∧
  (∀ p, r = Ok p → p = fn ∧ ∃ text w base peers ser nets,
     fs' !! wp = Some (File text) ∧ waypoint_from_str (trim text) = Ok w ∧
     networks_from_yaml (fullnode_template archive home w) = Ok base ∧
     fs' !! fn = Some (File ser) ∧
     networks_from_yaml ser = Ok nets ∧ nn_rest nets = nn_rest base ∧
     Forall2 (seeded peers) (full_node_networks base) (full_node_networks nets)).
Proof.
  destruct (init_fullnode_yaml home true archive d) as [d' r] eqn:E. intros fs' wp fn.
  assert (Hne : fn ≠ wp).
  { unfold fn, wp, path_join, genesis_dir, path_join. intros Hx. apply (f_equal length) in Hx.
    rewrite !length_app in Hx. cbn in Hx. lia. }
  split.
  - intros q Hw Hf. assert (Ht : touches [wp; fn] (fun _ => True) (init_fullnode_yaml home true archive)).
    { unfold init_fullnode_yaml. run_bind _; [apply touches_waypoint; by left|]. intros w _.
      run_bind _; [apply touches_files, leaves_write_only; right; by left|]. intros [] _.
      run_bind (fun _ => True); [|intros [] _; by run_ret]. run_bind _; [apply touches_fetch|]. intros peers _.
      apply touches_files, leaves_add_peers. right. by left. }
    destruct (Ht d I) as (_ & Ho & _). rewrite E in Ho. apply Ho. rewrite !not_elem_of_cons. split; [done|]. split; [done|].
    apply not_elem_of_nil.
  - intros p ->. unfold init_fullnode_yaml in E. apply st_bind_ok in E as (d1 & w & Hw & E).
    apply waypoint_ok in Hw as (text & Ht & Hw). fold wp in Ht.
    apply st_bind_ok in E as (d2 & [] & Hy & E). apply in_files_ok, io_write_ok in Hy as [Hy Hq].
    fold fn in Hy, Hq. change (if archive then _ else _) with (fullnode_template archive home w) in Hy.
    apply st_bind_ok in E as (d3 & [] & Hp & E). injection E as -> <-. split; [done|].
    apply st_bind_ok in Hp as (d4 & peers & Hs & Hp).
    destruct (touches_fetch [] None d2 I) as (_ & Ho & _). rewrite Hs in Ho. cbn in Ho.
    apply in_files_ok in Hp. fold fn in Hp.
    assert (Hf4 : w_files (d_world d4) !! fn = Some (File (fullnode_template archive home w))).
    { rewrite (Ho fn); [done|apply not_elem_of_nil]. }
    destruct (add_peers_ok _ _ _ _ _ Hf4 Hp) as (base & ser & Hb & Hf & Hr).
    eexists text, w, base, peers, ser, _.
    split; [|split; [done|split; [done|split; [done|split; [exact Hr|split; [done|apply set_seeds_spec]]]]]].
    pose proof (leaves_add_peers [fn] fn peers ltac:(by left) (w_files (d_world d4)) wp) as Hk. rewrite Hp in Hk. cbn in Hk.
    fold fs' in Hk. rewrite Hk by (by apply not_elem_of_cons; split; [|apply not_elem_of_nil]).
    rewrite (Ho wp) by apply not_elem_of_nil. by rewrite Hq.
Qed.
End node_files.

(** ** Witnesses: a web that always answers *)
#[export] Instance networks_eq_dec : EqDecision NodeNetworks.
Proof. assert (EqDecision NetworkConfig) by solve_decision. solve_decision. Defined.
Definition sample_seeds : Seeds := {[ repeat 1 16 := ["/dns/seed.example/tcp/6182"%string] ]}.
Definition sample_networks (peers : Seeds) : NodeNetworks :=
  mk_node_networks [mk_network_config true peers "public"; mk_network_config false ∅ "vfn"] "base".
#[export] Program Instance sample_node_yaml : NodeYaml := {|
  contents_from_json s := Ok [mk_content "v8.0.0" "upgrades/v8.0.0" "dir" None];
  seeds_from_yaml s := Ok sample_seeds;
  networks_from_yaml s := Ok (sample_networks (if String.eqb s "seeded" then sample_seeds else ∅));
  networks_to_yaml c := if bool_decide (c = sample_networks sample_seeds) then Ok "seeded"%string else Err "not the sample";
  waypoint_from_str s := Ok (mk_waypoint 0 (str_bytes s));
  waypoint_to_string w := show_uint (wp_version w)
|}.
Next Obligation. intros c s. cbn. case_bool_decide as Hc; [|done]. rewrite Hc. by intros <-%Ok_inj. Qed.
Definition answering_web : Web := {|
  ans_get _ := inl "0:aa"%string;
  ans_versions _ _ := Some 12;
  arrival _ l := l;
  url_parse s := Some s;
  playlist_from_json s := Ok (mk_playlist MAINNET [host_new s]);
  chain_debug _ := "MAINNET"%string;
  arrival_law _ _ := reflexivity _
|}.
Definition node_dialog : dialog := mk_dialog [] [] (mk_world [] {[ ["srv"%string] := Dir; ["srv"; "genesis"]%string := Dir ]}).
#[local] Existing Instance answering_web.

Lemma init_fullnode_yaml_spec_witness :
  let fs' := w_files (d_world (fst (init_fullnode_yaml (Some ["srv"%string]) true true node_dialog))) in
  snd (init_fullnode_yaml (Some ["srv"%string]) true true node_dialog) = Ok ["srv"; "fullnode.yaml"]%string ∧
  ∃ text w base peers ser nets,
     fs' !! ["srv"; "genesis"; "waypoint.txt"]%string = Some (File text) ∧ waypoint_from_str (trim text) = Ok w ∧
     networks_from_yaml (fullnode_template true (Some ["srv"%string]) w) = Ok base ∧
     fs' !! ["srv"; "fullnode.yaml"]%string = Some (File ser) ∧
     networks_from_yaml ser = Ok nets ∧ nn_rest nets = nn_rest base ∧
     Forall2 (seeded peers) (full_node_networks base) (full_node_networks nets).
Proof.
  intros fs'. pose proof (init_fullnode_yaml_spec (Some ["srv"%string]) true node_dialog) as Hs.
  assert (Hr : snd (init_fullnode_yaml (Some ["srv"%string]) true true node_dialog) = Ok ["srv"; "fullnode.yaml"]%string)
    by (vm_compute; reflexivity).
  split; [done|]. subst fs'. destruct (init_fullnode_yaml (Some ["srv"%string]) true true node_dialog) as [d' r].
  cbn [fst snd] in *. exact (proj2 (proj2 Hs _ Hr)).
Defined.
