(* ===== verification/ConfigCli.v ===== *)
(** * tools/config/src: the config command

    config_wizard.rs makes the configuration of a user, validator_config.rs the
    files of a validator and of its full node, and config_cli.rs runs them with
    ConfigFix and NodeFiles. *)
From Stdlib Require Import ZArith Lia Ascii.
From stdpp Require Import base option list strings gmap.
From S2P Require Import Prelude RustStr Json Effects Bytes FileSystem MoveTypes HashValue Mnemonic Wallet ValidatorKeys GenesisRegistration F64 NetworkPlaylist RestoreBundle Pledge Compare AppCfg Node Rescue TxSender Dialog ConfigFix NodeFiles.

Open Scope list_scope.
Open Scope Z_scope.

(** A machine: the key files of each directory, kept as what was serialized, and
    the dialog with its other files *)
Notation machine := (gmap path directory * dialog)%type.

(** [HostAndPort] and [DnsName]: parsing, and the network address of a host *)
Class Hosts := {
  host_from_str : string → outcome HostAndPort;
  as_network_address : HostAndPort → bytes → outcome string
}.

Inductive ConfigSub :=
| SubInit (force_address : option AccountAddress) (force_authkey : option bytes) (private_key : option string)
          (fullnode : option Url) (playlist_url : option Url)
| SubFix (reset_address : bool) (to_remove : option string) (fullnode : option Url)
| SubView
| SubValidatorInit (vfn : bool)
| SubFullnodeInit (home_path : option path) (archive_mode : option bool).
Record ConfigCli := mk_config_cli {
  cc_subcommand : option ConfigSub;
  cc_path : option path;
  cc_chain_name : option NamedChain;
  cc_profile : option string
}.
(** What is printed of the configuration: the operator, its address and that of
    its full node *)
Record ConfigView := mk_view { v_operator : OperatorConfiguration; v_validator : string; v_vfn : option string }.

Section config.
Context `{RestNode, Web, NodeYaml, Hosts, WalletCrypto, Sha256, DiemAddress, ValidatorCrypto, Sha3, AppCfgEnv, TxSdk}.
Context (mode : NamedChain) (mnem_env : option string).
(** The answer to "already exists, overwrite?" of a key file, and whether the
    system lets it be written *)
Context (overwrite writable : string → bool).

(** ** Pledges, asked at the prompt on mainnet *)
Definition offer_pledge (pledge_id : Z) (new : Pledge) (p : Profile) : st dialog Profile :=
  has ← st_lift (check_has_pledge mode pledge_id p);
  if negb has && bool_decide (mode = MAINNET) then
    b ← st_result (expect_res "called `Result::unwrap()` on an `Err` value") (confirm (question new));
    st_lift (maybe_offer mode (fun _ => b) pledge_id new p)
  else st_lift (maybe_offer mode (fun _ => false) pledge_id new p).
(** [cfg.get_profile_mut(None)?] and the changes made to it *)
Definition update_profile (f : Profile → st dialog Profile) (cfg : AppCfg) : st dialog AppCfg :=
  idx ← st_lift (unwrap_or O (get_profile_idx None cfg));
  profile ← st_lift (context_opt "no profile at index" (user_profiles cfg !! idx));
  profile ← f profile;
  mret (with_profiles (<[idx := profile]> (user_profiles cfg)) cfg).

Definition init_cfg (authkey : bytes) (address : AccountAddress) (config_dir : option path) (chain : option NamedChain)
    (np : NetworkPlaylist) : st dialog AppCfg := fun d =>
  match init_app_configs authkey address config_dir chain (Some np) (w_files (d_world d)) with
  | Ok (cfg, fs') => (mk_dialog (d_answers d) (d_web d) (mk_world (w_history (d_world d)) fs'), Ok cfg)
  | Err e => (d, Err e)
  | Panic p => (d, Panic p)
  end.

(** ** config_wizard.rs *)
Definition wizard_account (force_authkey : option bytes) (force_address : option AccountAddress)
    (test_private_key : option string) : st dialog (bytes * AccountAddress) :=
  match force_authkey, force_address, test_private_key with
  | Some k, Some a, _ => mret (k, a)
  | _, _, Some pk_string =>
      pk ← st_lift (private_key_from_encoded_string pk_string);
      let account_keys := get_account_from_private pk in
      mret (Wallet.auth_key account_keys, Wallet.account account_keys)
  | _, _, None => interactive_account_selection mode mnem_env
  end.
Definition wizard_playlist (chain : option NamedChain) (playlist_url : option Url) (playlist : option NetworkPlaylist)
    : st dialog NetworkPlaylist :=
  match playlist, playlist_url with
  | Some a, _ => mret a
  | None, Some u => download_playlist u chain
  | None, None => download_default chain
  end.
(** [client.get_index().await.is_ok()], and the address the chain has for the key *)
Definition originating (authkey : bytes) (address : AccountAddress) : st dialog AccountAddress :=
  index ← attempt (on_world (ask GetIndex ans_index));
  if is_ok index then
    found ← attempt (on_world (lookup_originating_address (auth_key_to_string authkey)));
    mret match found with Ok a => a | _ => address end
  else mret address.

Definition wizard (force_authkey : option bytes) (force_address : option AccountAddress) (config_dir : option path)
    (chain : option NamedChain) (test_private_key : option string) (playlist_url : option Url)
    (playlist : option NetworkPlaylist) : st dialog AppCfg :=
  '(authkey, address) ← wizard_account force_authkey force_address test_private_key;
  np ← wizard_playlist chain playlist_url playlist;
  np ← refresh np;
  u ← st_lift (pick_one np);
  _ ← connect u;
  address ← originating authkey address;
  cfg ← init_cfg authkey address config_dir chain np;
  cfg ← update_profile (offer_pledge 0 pledge_protect_the_game) cfg;
  _ ← st_result (context_res "could not initialize configs") (save_cfg cfg);
  mret cfg.

(** ** validator_config.rs *)
Definition get_ip : st dialog HostAndPort :=
  ip_str ← http_get "https://ipinfo.io/ip";
  st_lift (host_from_str (ip_str +:+ ":6180")).
Definition what_host : st dialog HostAndPort :=
  known ← attempt get_ip;
  use ← match known with
        | Ok h =>
            b ← st_result (expect_res "called `Result::unwrap()` on an `Err` value")
                  (confirm ("Will you use this host, and this IP address " +:+ host h +:+ ", for your node?"));
            mret (if b : bool then Some h else None)
        | _ => mret None
        end;
  match use with
  | Some h => mret h
  | None =>
      text ← st_result (expect_res "called `Result::unwrap()` on an `Err` value")
               (input "Enter the DNS or IP address, with port. Use validator: 6180, VFN: 6181, fullnode: 6182" false);
      st_lift (expect_res "Could not parse IP or DNS address" (host_from_str text))
  end.

(** The key files of a directory *)
Definition on_keys {A : Type} (home : path) (f : directory → directory * outcome A) : st machine A := fun m =>
  let '(dir, r) := f (default ∅ (fst m !! home)) in ((<[home := dir]> (fst m), snd m), r).
Definition read_keys {A : Type} (home : path) (f : directory → outcome A) : st machine A := fun m =>
  (m, f (default ∅ (fst m !! home))).

(** utils.rs and keys.rs: the key files are written to a directory that is made. *)
Definition create_dir_if_not_exist (dir : path) : io unit :=
  here ← io_read (fun fs => Ok (is_dir dir fs));
  if (here : bool) then io_lift (Ok tt) else io_update (create_dir_all dir).
Definition save_in (output_dir : path) (vb fb : IdentityBlob) (pr : PrivateIdentity) (pu : PublicIdentity)
    : st machine (IdentityBlob * IdentityBlob * PrivateIdentity) :=
  _ ← on_snd (in_files (create_dir_if_not_exist output_dir));
  on_keys output_dir (fun dir => save_val_files overwrite writable dir vb fb pr pu).
Definition refresh_in (output_dir : path) (mnem : string) (keep_legacy_addr : bool)
    : st machine (AccountAddress * bytes * PublicIdentity) :=
  '(vb, fb, pr, pu, legacy_keys) ← st_lift (make_validator_keys mnem keep_legacy_addr);
  _ ← save_in output_dir vb fb pr pu;
  mret (pu_account_address pu, Wallet.auth_key (child_0_owner legacy_keys), pu).

(** The mnemonic given, or typed at the prompt and valid *)
Definition validator_mnem (mnem : option string) : st dialog string :=
  match mnem with
  | Some m => mret m
  | None =>
      m ← mnem_from_prompt mode mnem_env;
      _ ← st_lift (or_exit (get_account_from_mnem m));
      mret m
  end.

Definition initialize_validator_files (home_path : option path) (validator_host : HostAndPort) (mnem : option string)
    (keep_legacy_address : bool) (chain : option NamedChain) : st machine (PublicIdentity * AppCfg) :=
  let home := default global_config_dir home_path in
  mnem ← on_snd (validator_mnem mnem);
  '(acc, authkey, pub_id) ← refresh_in home mnem keep_legacy_address;
  _ ← on_keys home (fun dir => set_config_files writable dir validator_host None);
  _ ← on_snd (save_validator_yaml home_path);
  cfg ← on_snd (init_cfg authkey acc home_path chain (localhost chain));
  cfg ← on_snd (update_profile (fun p =>
                  p ← offer_pledge 0 pledge_protect_the_game p; offer_pledge 1 pledge_validator p) cfg);
  _ ← on_snd (st_result (context_res "could not initialize configs") (save_cfg cfg));
  mret (pub_id, cfg).

Definition get_local_vfn_id (home : path) : st machine bytes :=
  read_keys home (fun dir =>
    pub_id ← read_public_identity_file dir "public-keys.yaml";
    context_opt "no validator public key found in public-keys.yaml" (pu_validator_network_public_key pub_id)).
Definition vfn_key_err (r : outcome bytes) : outcome bytes :=
  match r with
  | Err e => Err ("ERROR: cannot make vfn.yaml, make sure you have the public-keys.yaml on this host before starting, message: " +:+ e)
  | r => r
  end.
Definition vfn_dialogue (home : path) (dns : option string) (net_pubkey : option bytes) : st machine unit :=
  dns ← match dns with
        | Some d => mret d
        | None => h ← on_snd what_host; mret (host h)
        end;
  pk ← match net_pubkey with
       | Some r => mret r
       | None => st_result vfn_key_err (get_local_vfn_id home)
       end;
  _ ← on_snd (in_files (make_private_vfn_yaml home (x25519_public_to_string pk) dns));
  mret tt.

Definition validator_dialogue (data_path : path) (chain : option NamedChain) : st machine unit :=
  to_init ← on_snd (confirm ("Want to freshen configs at " +:+ display data_path +:+ " now?"));
  if (to_init : bool) then
    h ← on_snd what_host;
    keep_legacy_address ← on_snd (confirm "Will you use a legacy V5 address in registration (32 characters or less)?");
    '(pub_id, _) ← initialize_validator_files (Some data_path) h None keep_legacy_address chain;
    vfn_dialogue data_path (Some (host h)) (pu_validator_network_public_key pub_id)
  else mret tt.

(** ** config_cli.rs *)
Definition read_operator_file (home : path) : st machine OperatorConfiguration :=
  read_keys home (fun dir => match dir !! OPERATOR_FILE with
                             | Some (DocOperator c) => Ok c
                             | Some _ => Err "not an operator configuration"
                             | None => Err "No such file or directory"
                             end).
Definition config_view (home : path) : st machine ConfigView :=
  public_identity ← read_operator_file home;
  net_addr ← st_lift (as_network_address (op_validator_host public_identity) (op_validator_network_public_key public_identity));
  match op_full_node_host public_identity with
  | Some fn_host =>
      k ← st_lift (context_opt "expected a full_node_network_public_key in operator.yaml"
                     (op_full_node_network_public_key public_identity));
      net_addr_fn ← st_lift (as_network_address fn_host k);
      mret (mk_view public_identity net_addr (Some net_addr_fn))
  | None => mret (mk_view public_identity net_addr None)
  end.

Definition init_playlist (self : ConfigCli) (fullnode playlist_url : option Url) : outcome (option NetworkPlaylist) :=
  match fullnode with
  | None => Ok None
  | Some _ =>
      ensure (negb (given playlist_url)) "cannot use both --force-url and --playlist-url";;
      ensure (given (cc_chain_name self)) "--force-url requires --chain-name";;
      Ok (Some (playlist_new fullnode (cc_chain_name self)))
  end.

Definition config_run (self : ConfigCli) : st machine (option ConfigView) :=
  match cc_subcommand self with
  | Some (SubFix reset remove fullnode) =>
      _ ← on_snd (fix_config mode mnem_env (mk_fix_options reset remove fullnode (cc_path self) (cc_chain_name self)));
      mret None
  | Some (SubInit force_address force_authkey private_key fullnode playlist_url) =>
      playlist ← st_lift (init_playlist self fullnode playlist_url);
      _ ← on_snd (wizard force_authkey force_address (cc_path self) (cc_chain_name self) private_key playlist_url playlist);
      mret None
  | Some (SubValidatorInit vfn) =>
      let home_dir := default global_config_dir (cc_path self) in
      if vfn then _ ← vfn_dialogue home_dir None None; mret None else
      let data_path := global_config_dir in
      m ← st_get;
      _ ← (if exists_ data_path (w_files (d_world (snd m))) then mret tt
           else on_snd (in_files (io_update (create_dir_all data_path))));
      _ ← on_snd (download_genesis (Some data_path));
      _ ← on_snd (get_genesis_waypoint (Some data_path));
      _ ← validator_dialogue data_path (cc_chain_name self);
      mret None
  | Some SubView =>
      v ← config_view (default global_config_dir (cc_path self));
      mret (Some v)
  | Some (SubFullnodeInit home_path archive_mode) =>
      archive ← match archive_mode with
                | Some b => mret b
                | None =>
                    selection ← on_snd (st_result (expect_res "user did not select sync mode")
                      (select "choose fullnode sync mode" ["Fast Sync (default)"; "Archive (full history)"]%string));
                    mret (negb (selection =? 0)%nat)
                end;
      _ ← on_snd (download_genesis home_path);
      _ ← on_snd (init_fullnode_yaml home_path true archive);
      mret None
  | None => mret None
  end.
End config.

(** ** Lemmas *)
Section facts.
Context `{RestNode, Web, NodeYaml, Hosts, WalletCrypto, Sha256, DiemAddress, ValidatorCrypto, Sha3, AppCfgEnv, TxSdk}.
Context (mode : NamedChain) (mnem_env : option string).
Context (overwrite writable : string → bool).

(** A profile that differs in the pledges only *)
Definition same_but_pledges (p q : Profile) : Prop := ∃ l, q = with_pledges l p.
Lemma same_but_pledges_refl p : same_but_pledges p p.
Proof. exists (pledges p). by destruct p. Qed.
Lemma same_but_pledges_trans p q r : same_but_pledges p q → same_but_pledges q r → same_but_pledges p r.
Proof. intros [l ->] [l' ->]. by exists l'. Qed.
Lemma maybe_offer_same answer i new p q : maybe_offer mode answer i new p = Ok q → same_but_pledges p q.
Proof.
  unfold maybe_offer. intros (has & _ & Hq)%bind_ok. apply Ok_inj in Hq as <-.
  destruct (_ && _); [|apply same_but_pledges_refl]. unfold push_pledge.
  destruct (pledges p); [|by eexists]. destruct (existsb _ _); [apply same_but_pledges_refl|by eexists].
Qed.
Lemma asks_offer_pledge i new p : asks (same_but_pledges p) (offer_pledge mode i new p).
Proof.
  unfold offer_pledge. run_bind (fun _ => True); [by run_lift|]. intros has _.
  destruct (_ && _); [|run_lift; by intros q Hq%maybe_offer_same].
  run_bind (fun _ => True); [by eapply (runs_result _ _ (fun _ => True)); [apply asks_confirm|]|].
  intros b _. run_lift. by intros q Hq%maybe_offer_same.
Qed.
Lemma asks_update_profile f p cfg :
  user_profiles cfg = [p] → asks (same_but_pledges p) (f p) →
  asks (fun cfg' => ∃ q, same_but_pledges p q ∧ cfg' = with_profiles [q] cfg) (update_profile f cfg).
Proof.
  intros Hp Hf. unfold update_profile, get_profile_idx. rewrite Hp.
  run_bind (fun i => i = O); [run_lift; by intros i [= <-]|]. intros i ->.
  run_bind (fun q => q = p); [run_lift; by intros q [= <-]|]. intros q ->.
  run_bind _; [exact Hf|]. intros q Hq. run_ret. by exists q.
Qed.

Lemma asks_wizard_account k a pk : asks (fun _ => True) (wizard_account mode mnem_env k a pk).
Proof.
  unfold wizard_account.
  assert (Hi : asks (fun _ => True) (interactive_account_selection mode mnem_env)).
  { eapply (runs_mono _ _); [apply asks_account_selection|done]. }
  assert (Hk : ∀ s, asks (fun _ => True) (pk ← st_lift (private_key_from_encoded_string s);
    let account_keys := get_account_from_private pk in
    mret (Wallet.auth_key account_keys, Wallet.account account_keys))).
  { intros s. run_bind (fun _ => True); [by run_lift|]. intros sk _. by run_ret. }
  destruct k, a, pk; try apply Hk; try apply Hi; by run_ret.
Qed.
Lemma asks_wizard_playlist chain u np : asks (fun _ => True) (wizard_playlist chain u np).
Proof. unfold wizard_playlist. destruct np, u; [by run_ret..|apply asks_download|apply asks_download_default]. Qed.
Lemma asks_originating k a :
  asks (fun b => b = a ∨ ∃ w w', lookup_originating_address (auth_key_to_string k) w = (w', Ok b)) (originating k a).
Proof.
  unfold originating. run_bind (fun _ => True).
  { eapply (runs_mono _ _); [apply runs_attempt, asks_world|done]. intros w. split; [apply asked_ask|].
    instantiate (1 := fun _ => True). done. }
  intros index _. destruct (is_ok index); [|run_ret; by left].
  set (P := fun b => ∃ w w', lookup_originating_address (auth_key_to_string k) w = (w', Ok b)).
  run_bind (returns P).
  { apply runs_attempt, asks_world. intros w. split; [apply asked_lookup|]. intros b Hb. exists w.
    destruct (lookup_originating_address _ w) as [w' r]. cbn in Hb. subst r. by exists w'. }
  intros r Hr. run_ret. destruct r as [b|e|p]; [right; by apply Hr|by left..].
Qed.

(** The files of the wizard: those there were stay and no other is made, but for
    the configuration's *)
Definition d_outside (ps : list path) (d d' : dialog) : Prop := outside ps (w_files (d_world d)) (w_files (d_world d')).
#[export] Instance d_outside_preorder ps : PreOrder (d_outside ps).
Proof. split; [intros d; unfold d_outside; done|]. intros d1 d2 d3 H12 H23. unfold d_outside in *. by etrans. Qed.
Notation keeps_but p := (d_outside [p]).
Notation saves p P m := (runs (fun _ => True) (keeps_but p) P m).
Lemma saves_asks p {A : Type} (P : A → Prop) (m : st dialog A) : asks P m → saves p P m.
Proof. intros Hm d _. destruct (Hm d I) as (_ & Hf & Hp). split; [done|]. split; [|done]. unfold d_outside. by rewrite Hf. Qed.
Lemma save_cfg_ok cfg d d' p :
  save_cfg cfg d = (d', Ok p) → p = path_join (node_home (workspace cfg)) CONFIG_FILE_NAME ∧
  load (Some p) (w_files (d_world d')) = Ok cfg ∧ keeps_but p d d'.
Proof.
  unfold save_cfg. destruct (save_file cfg _) as [[q fs]|e|m] eqn:E; [|done..]. intros [= <- <-].
  destruct (save_file_ok _ _ _ _ E) as (Hp & Hl & _). split; [done|]. split; [by apply load_saved|].
  by apply (save_file_outside cfg).
Qed.
Lemma saves_save cfg p :
  p = path_join (node_home (workspace cfg)) CONFIG_FILE_NAME →
  saves p (fun _ => True) (st_result (context_res "could not initialize configs") (save_cfg cfg)).
Proof.
  intros Hp. apply (runs_result _ _ (fun _ => True)); [|done]. intros d _. split; [done|]. split; [|done].
  destruct (save_cfg cfg d) as [d' [q|e|m]] eqn:E.
  - apply save_cfg_ok in E as (-> & _ & Hk). by rewrite <- Hp in Hk.
  - unfold save_cfg in E. destruct (save_file cfg _) as [[]| |]; by injection E as <-.
  - unfold save_cfg in E. destruct (save_file cfg _) as [[]| |]; by injection E as <-.
Qed.

(** What the wizard makes of a key, an address and a playlist *)
Definition made (authkey : bytes) (address : AccountAddress) (config_dir : option path) (np : NetworkPlaylist)
    (cfg : AppCfg) : Prop :=
  workspace cfg = mk_workspace (default_profile (workspace cfg)) (chain_name np) (default global_config_dir config_dir) ∧
  network_playlist cfg = [np] ∧ tx_configs cfg = tx_configs_default ∧
  ∃ p, user_profiles cfg = [p] ∧ account p = address ∧ auth_key p = authkey ∧ test_private_key p = None.
Lemma init_app_configs_ok authkey address dir chain np fs cfg fs' :
  init_app_configs authkey address dir chain (Some np) fs = Ok (cfg, fs') →
  made authkey address dir np cfg ∧ ∃ p, save_file cfg fs = Ok (p, fs').
Proof.
  unfold init_app_configs. intros Hi. apply bind_ok in Hi as (p & Hp & Hi). apply bind_ok in Hi as ([q fs1] & Hs & Hi).
  apply Ok_inj in Hi. injection Hi as <- <-. unfold profile_new in Hp. apply bind_ok in Hp as (n & _ & Hp).
  apply Ok_inj in Hp as <-. split; [|by exists q]. split; [done|]. split; [done|]. split; [done|]. by eexists.
Qed.
Lemma saves_init authkey address dir chain np :
  saves (path_join (default global_config_dir dir) CONFIG_FILE_NAME) (made authkey address dir np)
    (init_cfg authkey address dir chain np).
Proof.
  intros d _. split; [done|]. unfold init_cfg.
  destruct (init_app_configs _ _ _ _ _ _) as [[cfg fs']|e|m] eqn:E; cbn; [|done..].
  apply init_app_configs_ok in E as (Hm & p & Hs). split; [|by intros c [= <-]].
  destruct (save_file_ok _ _ _ _ Hs) as (-> & _). destruct Hm as [Hw _]. apply save_file_outside in Hs. by rewrite Hw in Hs.
Qed.
Lemma saves_update dir authkey address np f cfg p :
  made authkey address dir np cfg → (∀ q, asks (same_but_pledges q) (f q)) →
  saves p (made authkey address dir np) (update_profile f cfg).
Proof.
  intros (Hw & Hn & Ht & q & Hq & Ha & Hk & Hs) Hf.
  apply saves_asks. eapply (runs_mono _ _); [by apply asks_update_profile|].
  intros c (q' & [l ->] & ->). split; [done|]. split; [done|]. split; [done|]. eexists. split; [done|]. by cbn.
Qed.

Lemma saves_wizard k a dir chain pk u np :
  saves (path_join (default global_config_dir dir) CONFIG_FILE_NAME) (fun _ => True)
    (wizard mode mnem_env k a dir chain pk u np).
Proof.
  unfold wizard. run_bind _; [apply saves_asks, asks_wizard_account|]. intros [authkey address] _.
  run_bind _; [apply saves_asks, asks_wizard_playlist|]. intros np0 _.
  run_bind _; [apply saves_asks, asks_web|]. intros np1 _.
  run_bind (fun _ => True); [by run_lift|]. intros url _.
  run_bind _; [apply saves_asks, asks_web|]. intros [] _.
  run_bind _; [apply saves_asks, asks_originating|]. intros b _.
  run_bind _; [apply saves_init|]. intros cfg Hm.
  run_bind _; [eapply saves_update; [exact Hm|intros q; apply asks_offer_pledge]|]. intros cfg' [Hw _].
  run_bind _; [apply saves_save; by rewrite Hw|]. intros q _. by run_ret.
Qed.


(** ** The key files *)

(** Every key file of every directory is an old one or holds no account key. *)
Definition key_safe (m m' : machine) : Prop :=
  ∀ home name d, default ∅ (fst m' !! home) !! name = Some d →
    default ∅ (fst m !! home) !! name = Some d ∨ key_free d.
#[export] Instance key_safe_preorder : PreOrder key_safe.
Proof.
  split; [by left|]. intros m1 m2 m3 H12 H23 home name d Hd.
  destruct (H23 home name d Hd) as [Hd'|]; [by apply H12|by right].
Qed.
Definition same_keys (m m' : machine) : Prop := fst m' = fst m.
#[export] Instance same_keys_preorder : PreOrder same_keys.
Proof. split; [done|]. intros m1 m2 m3 H12 H23. unfold same_keys in *. congruence. Qed.
Lemma same_keys_safe m m' : same_keys m m' → key_safe m m'.
Proof. intros Hm home name d. rewrite Hm. by left. Qed.

Lemma dialog_same {A : Type} (m : st dialog A) : steps same_keys (on_snd m).
Proof. intros [dirs d]. unfold on_snd, same_keys. by destruct (m d). Qed.
Lemma dialog_safe {A : Type} (m : st dialog A) : steps key_safe (on_snd m).
Proof. intros s. apply same_keys_safe, dialog_same. Qed.
Lemma read_same {A : Type} home (f : directory → outcome A) : steps same_keys (read_keys home f).
Proof. by intros s. Qed.
Lemma read_safe {A : Type} home (f : directory → outcome A) : steps key_safe (read_keys home f).
Proof. by intros s. Qed.
Lemma on_keys_safe {A : Type} home (f : directory → directory * outcome A) :
  (∀ dir name d, fst (f dir) !! name = Some d → dir !! name = Some d ∨ key_free d) → steps key_safe (on_keys home f).
Proof.
  intros Hf [dirs x] home' name d. unfold on_keys. cbn. specialize (Hf (default ∅ (dirs !! home)) name d).
  destruct (f _) as [dir r]. cbn in *. destruct (decide (home = home')) as [<-|Hne].
  - rewrite lookup_insert, decide_True by done. cbn. exact Hf.
  - rewrite lookup_insert_ne by done. by left.
Qed.
Lemma save_safe home vb fb pr pu : steps key_safe (on_keys home (fun dir => save_val_files overwrite writable dir vb fb pr pu)).
Proof.
  apply on_keys_safe. intros dir name d. destruct (save_val_files _ _ dir vb fb pr pu) as [dir' r] eqn:Es.
  apply (save_val_files_ok _ _ _ _ _ _ _ _ _ Es).
Qed.
Lemma write_free dir file doc name d :
  key_free doc → fst (write_to_user_only_file writable dir file doc) !! name = Some d → dir !! name = Some d ∨ key_free d.
Proof.
  intros Hf. unfold write_to_user_only_file. destruct (writable file); cbn; [|by left].
  destruct (decide (file = name)) as [->|Hne].
  - rewrite lookup_insert, decide_True by done. intros [= <-]. by right.
  - rewrite lookup_insert_ne by done. by left.
Qed.
Lemma set_config_safe home h fn : steps key_safe (on_keys home (fun dir => set_config_files writable dir h fn)).
Proof.
  apply on_keys_safe. intros dir name d. unfold set_config_files.
  match goal with |- context [match ?r with Ok _ => _ | Err _ => _ | Panic _ => _ end] => destruct r as [[op ow]|e|p] end;
    [|by left..].
  pose proof (write_free dir OPERATOR_FILE (DocOperator op)) as H1'.
  destruct (write_to_user_only_file writable dir OPERATOR_FILE _) as [dir1 [[]|e|p]]; cbn in *; intros Hd; [|by apply H1'..].
  pose proof (write_free dir1 OWNER_FILE (DocOwner ow) name d I) as H2'.
  destruct (write_to_user_only_file writable dir1 OWNER_FILE _) as [dir2 r]. cbn in *.
  destruct (H2' Hd) as [Hd1|]; [by apply H1'|by right].
Qed.
Hint Resolve dialog_same read_same dialog_safe read_safe save_safe set_config_safe : effects.
Lemma save_in_safe home vb fb pr pu : steps key_safe (save_in overwrite writable home vb fb pr pu).
Proof. unfold save_in. st_all. Qed.
Hint Resolve save_in_safe : effects.
Lemma refresh_safe home mnem keep : steps key_safe (refresh_in overwrite writable home mnem keep).
Proof. unfold refresh_in. st_all. Qed.
Hint Resolve refresh_safe : effects.

Lemma initialize_safe home h mnem keep chain :
  steps key_safe (initialize_validator_files mode mnem_env overwrite writable home h mnem keep chain).
Proof. unfold initialize_validator_files. st_all. Qed.
Lemma local_id_safe home : steps key_safe (get_local_vfn_id home).
Proof. apply read_safe. Qed.
Hint Resolve local_id_safe : effects.
Lemma vfn_safe home dns pk : steps key_safe (vfn_dialogue home dns pk).
Proof. unfold vfn_dialogue, get_local_vfn_id. st_all. Qed.
Hint Resolve initialize_safe vfn_safe : effects.
Lemma validator_dialogue_safe p chain : steps key_safe (validator_dialogue mode mnem_env overwrite writable p chain).
Proof. unfold validator_dialogue. st_all. Qed.
Hint Resolve validator_dialogue_safe : effects.

(** C11: A run of the config command, whatever the subcommand, the user, the web and
    the node.  No account key reaches a key file of any directory, however far
    the run gets: each is as it was or without one.  Only the initialisation of
    a validator touches the key files at all; and viewing changes nothing.
    That initialisation works in the default directory, whatever path is given
    to the command. *)
Theorem config_run_safe self m :
  let m' := fst (config_run mode mnem_env overwrite writable self m) in
  key_safe m m' ∧
  ((∀ vfn, cc_subcommand self ≠ Some (SubValidatorInit vfn)) → same_keys m m') ∧
  (cc_subcommand self = Some SubView → m' = m) ∧
  (∀ q, cc_subcommand self = Some (SubValidatorInit false) →
     config_run mode mnem_env overwrite writable (mk_config_cli (cc_subcommand self) q (cc_chain_name self) (cc_profile self)) m
     = config_run mode mnem_env overwrite writable self m).
Proof.
  intros m'. split; [|split; [|split]].
  - assert (Hs : steps key_safe (config_run mode mnem_env overwrite writable self)); [|apply Hs].
    unfold config_run, config_view, read_operator_file. destruct (cc_subcommand self) as [[]|]; st_all. by intros s.
  - intros Hv. assert (Hs : steps same_keys (config_run mode mnem_env overwrite writable self)); [|apply Hs].
    unfold config_run, config_view, read_operator_file.
    destruct (cc_subcommand self) as [[| | |vfn|]|]; try by destruct (Hv vfn). all: st_all.
  - intros Hs. assert (Hv : steps eq (config_view (default global_config_dir (cc_path self)))).
    { unfold config_view, read_operator_file. assert (Hr : ∀ A home (f : directory → outcome A), steps eq (read_keys home f)) by done.
      st_all; apply Hr. }
    unfold m', config_run. rewrite Hs. unfold mbind, st_bind. specialize (Hv m). destruct (config_view _ m) as [m1 []]; done.
  - intros q Hq. unfold config_run. cbn. by rewrite Hq.
Qed.

(** ** A validator's files *)
Lemma set_config_ok dir h dir' op ow :
  set_config_files writable dir h None = (dir', Ok (op, ow)) →
  ∃ pub, dir !! PUBLIC_KEYS_FILE = Some (DocPublic pub) ∧ dir' !! PUBLIC_KEYS_FILE = Some (DocPublic pub) ∧
    dir' !! OPERATOR_FILE = Some (DocOperator op) ∧ op_operator_account_address op = pu_account_address pub ∧
    op_validator_host op = h ∧ op_full_node_host op = Some (mk_host (host h) 6182).
Proof.
  unfold set_config_files, ValidatorKeys.read_public_identity_file. intros Hs.
  destruct (dir !! PUBLIC_KEYS_FILE) as [[]|] eqn:Ep; cbn [mbind outcome_bind] in Hs; try done.
  exists p. split; [done|].
  destruct (pu_consensus_public_key p) as [ck|]; cbn [context_opt mbind outcome_bind] in Hs; [|done].
  destruct (pu_validator_network_public_key p) as [vk|]; cbn [context_opt mbind outcome_bind] in Hs; [|done].
  destruct (pu_consensus_proof_of_possession p) as [pop|]; cbn [context_opt mbind outcome_bind] in Hs; [|done].
  unfold write_to_user_only_file in Hs. destruct (writable OPERATOR_FILE); [|done].
  destruct (writable OWNER_FILE); cbn [mbind outcome_bind] in Hs; [|done]. injection Hs as <- <- _.
  rewrite !lookup_insert_ne by done. rewrite lookup_insert, decide_True by done. done.
Qed.
Lemma on_keys_ok {A : Type} home (f : directory → directory * outcome A) m m' a :
  on_keys home f m = (m', Ok a) → f (default ∅ (fst m !! home)) = (default ∅ (fst m' !! home), Ok a).
Proof.
  unfold on_keys. destruct (f _) as [dir r]. intros [= <- ->]. cbn. by rewrite lookup_insert, decide_True.
Qed.
Lemma on_snd_ok {R S A : Type} (m : st S A) (s s' : R * S) a :
  on_snd m s = (s', Ok a) → fst s' = fst s ∧ m (snd s) = (snd s', Ok a).
Proof. destruct s as [x y]. cbn. destruct (m y) as [y' r]. by intros [= <- ->]. Qed.

(** What is in the directory afterwards is as ValidatorKeys has it. *)
Lemma refresh_in_ok home mnem keep m m' r :
  refresh_in overwrite writable home mnem keep m = (m', Ok r) →
  refresh_validator_files overwrite writable (default ∅ (fst m !! home)) mnem keep = (default ∅ (fst m' !! home), Ok r).
Proof.
  unfold refresh_in, save_in. intros (m1 & [[[[vb fb] pr] pu] lk] & Hk & E)%st_bind_ok. injection Hk as <- Hk.
  apply st_bind_ok in E as (m2 & x & (m3 & [] & [Hf _]%on_snd_ok & Hs%on_keys_ok)%st_bind_ok & E). injection E as <- <-.
  unfold refresh_validator_files. rewrite Hk. rewrite <- Hf, Hs. done.
Qed.

Lemma asks_two_pledges p :
  asks (same_but_pledges p) (p ← offer_pledge mode 0 pledge_protect_the_game p; offer_pledge mode 1 pledge_validator p).
Proof.
  run_bind _; [apply asks_offer_pledge|]. intros p1 Hp1.
  eapply (runs_mono _ _); [apply asks_offer_pledge|]. intros p2 Hp'. by eapply same_but_pledges_trans.
Qed.
(** Every file a machine makes or changes is the configuration or validator.yaml,
    whatever the result. *)
Definition m_outside (ps : list path) (m m' : machine) : Prop := d_outside ps (snd m) (snd m').
#[export] Instance m_outside_preorder ps : PreOrder (m_outside ps).
Proof. split; [intros m; unfold m_outside; done|]. intros m1 m2 m3 H12 H23. unfold m_outside in *. by etrans. Qed.
Notation confined ps P m := (runs (fun _ => True) (m_outside ps) P m).
Lemma confined_snd {A : Type} ps (P : A → Prop) (m : st dialog A) :
  runs (fun _ => True) (d_outside ps) P m → confined ps P (on_snd m).
Proof. intros Hm [dirs d] _. specialize (Hm d I). unfold on_snd, m_outside. by destruct (m d). Qed.
Lemma confined_keys {A : Type} ps home (f : directory → directory * outcome A) : confined ps (fun _ => True) (on_keys home f).
Proof. intros [dirs d] _. unfold on_keys, m_outside. cbn. by destruct (f _). Qed.
Lemma confined_saves {A : Type} ps p (P : A → Prop) (m : st dialog A) : p ∈ ps → saves p P m → confined ps P (on_snd m).
Proof.
  intros Hp Hm. apply confined_snd. eapply runs_weaken; [exact Hm|]. intros d d'. apply outside_mono. set_solver.
Qed.
Lemma confined_asks {A : Type} ps (P : A → Prop) (m : st dialog A) : asks P m → confined ps P (on_snd m).
Proof.
  intros Hm. apply confined_snd. eapply runs_weaken; [exact Hm|]. intros d d'. unfold same_files, d_outside. by intros ->.
Qed.
Lemma confined_files {A : Type} ps (m : io A) : leaves (outside ps) m → confined ps (fun _ => True) (on_snd (in_files m)).
Proof.
  intros Hm. apply confined_snd. intros d _. unfold in_files, d_outside. specialize (Hm (w_files (d_world d))).
  by destruct (m _).
Qed.
Lemma confined_yaml ps dir : path_join (default global_config_dir dir) NODE_YAML_FILE ∈ ps →
  confined ps (fun _ => True) (on_snd (save_validator_yaml dir)).
Proof.
  intros Hp. apply confined_snd. unfold save_validator_yaml.
  assert (Hf : ∀ A (m : io A), leaves (outside ps) m → runs (fun _ => True) (d_outside ps) (fun _ => True) (in_files m)).
  { intros A m Hm d _. unfold in_files, d_outside. specialize (Hm (w_files (d_world d))). by destruct (m _). }
  run_bind _; [apply Hf; io_leaves|]. intros [] _.
  run_bind (fun _ => True).
  { apply (runs_weaken _ same_files); [unfold fetch_seed_addresses; run_bind _; [apply asks_web|intros x _; by run_lift]|].
    intros d d'. unfold same_files, d_outside. by intros ->. }
  intros peers _. run_bind _; [apply Hf; unfold add_peers_to_yaml; io_leaves|]. intros [] _. by run_ret.
Qed.
Lemma confined_refresh ps home mnem keep : confined ps (fun _ => True) (refresh_in overwrite writable home mnem keep).
Proof.
  unfold refresh_in, save_in. run_bind (fun _ => True); [by run_lift|]. intros [[[[vb fb] pr] pu] lk] _.
  run_bind (fun _ => True); [run_bind _; [apply confined_files|intros [] _; apply confined_keys]|].
  { unfold create_dir_if_not_exist. io_leaves. case_match; io_leaves. }
  intros r _. by run_ret.
Qed.
Lemma init_confined home_path h mnem keep chain :
  let home := default global_config_dir home_path in
  confined [path_join home CONFIG_FILE_NAME; path_join home NODE_YAML_FILE] (fun _ => True)
    (initialize_validator_files mode mnem_env overwrite writable home_path h mnem keep chain).
Proof.
  intros home. unfold initialize_validator_files. fold home.
  run_bind (fun _ => True).
  { apply confined_asks. unfold validator_mnem. destruct mnem; [by run_ret|].
    run_bind _; [apply asks_mnem_from_prompt|]. intros mn _. run_bind (fun _ => True); [by run_lift|]. intros r _. by run_ret. }
  intros mn _. run_bind _; [apply confined_refresh|]. intros [[acc ak] pub] _.
  run_bind _; [apply confined_keys|]. intros x _. run_bind _; [apply confined_yaml; set_solver|]. intros y _.
  run_bind _; [eapply confined_saves, saves_init; set_solver|]. intros cfg Hm.
  run_bind _.
  { eapply (confined_saves _ (path_join home CONFIG_FILE_NAME)); [set_solver|]. eapply saves_update; [exact Hm|].
    intros q. apply asks_two_pledges. }
  intros cfg' [Hw _]. run_bind _; [eapply confined_saves, saves_save; [|by rewrite Hw]; set_solver|].
  intros p _. by run_ret.
Qed.

Lemma init_files_ok home_path h mnem keep chain m m' pub cfg :
  initialize_validator_files mode mnem_env overwrite writable home_path h mnem keep chain m = (m', Ok (pub, cfg)) →
  let home := default global_config_dir home_path in
  let dir := default ∅ (fst m' !! home) in
  dir !! PUBLIC_KEYS_FILE = Some (DocPublic pub) ∧
  (∃ op, dir !! OPERATOR_FILE = Some (DocOperator op) ∧ op_operator_account_address op = pu_account_address pub ∧
     op_validator_host op = h ∧ op_full_node_host op = Some (mk_host (host h) 6182)) ∧
  load (Some (path_join home CONFIG_FILE_NAME)) (w_files (d_world (snd m'))) = Ok cfg ∧
  (∃ p, user_profiles cfg = [p] ∧ account p = pu_account_address pub ∧ test_private_key p = None) ∧
  network_playlist cfg = [localhost chain] ∧ pick_url None cfg = Ok "http://localhost:8080"%string ∧
  node_home (workspace cfg) = home ∧
  ∀ mn kc, mnem = Some mn → get_keys_from_mnem mn = Ok kc → pu_account_address pub = owner_address kc keep.
Proof.
  intros E home dir. unfold initialize_validator_files in E. fold home in E.
  apply st_bind_ok in E as (m1 & mn & Hmn & E). apply st_bind_ok in E as (m2 & [[acc ak] pub'] & Hr & E).
  apply st_bind_ok in E as (m3 & [op ow] & Hs & E). apply st_bind_ok in E as (m4 & vy & Hv & E).
  apply st_bind_ok in E as (m5 & cfg0 & Hi & E). apply st_bind_ok in E as (m6 & cfg1 & Hu & E).
  apply st_bind_ok in E as (m7 & q & Hsv & E). injection E as -> -> ->.
  apply refresh_in_ok in Hr. apply on_keys_ok in Hs. apply on_snd_ok in Hv as [Hf4 _], Hi as [Hf5 Hi], Hu as [Hf6 Hu], Hsv as [Hf7 Hsv].
  assert (Hdir : dir = default ∅ (fst m3 !! home)) by (unfold dir; congruence).
  assert (Hacc : default ∅ (fst m2 !! home) !! PUBLIC_KEYS_FILE = Some (DocPublic pub) ∧ acc = pu_account_address pub ∧
    ∀ kc, get_keys_from_mnem mn = Ok kc → acc = owner_address kc keep).
  { destruct (get_keys_from_mnem mn) as [kc|e|x] eqn:Hk.
    - destruct (refresh_ok _ _ _ _ _ _ _ _ Hk Hr) as (_ & _ & Hok).
      destruct (Hok _ _ _ eq_refl) as (Hac & _ & Ha & Hp & _). rewrite Ha. split_and!; [done..|].
      by intros kc' [= <-].
    - unfold refresh_validator_files, make_validator_keys in Hr. by rewrite Hk in Hr.
    - unfold refresh_validator_files, make_validator_keys in Hr. by rewrite Hk in Hr. }
  destruct Hacc as (Hpub & -> & Hown). apply set_config_ok in Hs as (pub2 & Hp2 & Hp3 & Hop & Ha & Hh & Hfn).
  rewrite Hpub in Hp2. injection Hp2 as <-. rewrite Hdir. split; [done|]. split; [by exists op|].
  destruct (saves_init ak (pu_account_address pub) home_path chain (localhost chain) (snd m4) I) as (_ & _ & Hm).
  rewrite Hi in Hm. specialize (Hm cfg0 eq_refl).
  set (f := fun p => p ← offer_pledge mode 0 pledge_protect_the_game p; offer_pledge mode 1 pledge_validator p) in Hu.
  destruct (saves_update home_path ak _ _ f cfg0 [] Hm asks_two_pledges (snd m5) I) as (_ & _ & Hc).
  rewrite Hu in Hc. destruct (Hc cfg eq_refl) as (Hw & Hnp & _ & p & Hp & Hpa & _ & Htk).
  assert (Hs' : save_cfg cfg (snd m6) = (snd m', Ok q)).
  { unfold st_result in Hsv. destruct (save_cfg cfg (snd m6)) as [x [y|e|z]]; cbn in Hsv; injection Hsv as -> Hsv; try done. by rewrite Hsv. }
  apply save_cfg_ok in Hs' as (-> & Hl & _). rewrite Hw in Hl. split; [exact Hl|].
  split; [by exists p|]. split; [done|].
  split; [unfold pick_url, get_network_profile; rewrite Hnp, Hw; cbn; by rewrite decide_True|].
  split; [by rewrite Hw|]. intros mn' kc -> Hk. apply Hown. apply on_snd_ok in Hmn as [_ Hmn]. by injection Hmn as _ <-.
Qed.

(** When the files of a validator are initialised, its registration and the
    configuration of its owner agree: the public identity returned is the one
    saved, the operator's configuration names its account and the host given,
    with the full node on port 6182 of that host, and the configuration saved
    loads back with that account as its only profile and the node of this
    machine as its only playlist. *)
Theorem initialize_validator_files_spec home_path h mnem keep chain m m' pub cfg :
  initialize_validator_files mode mnem_env overwrite writable home_path h mnem keep chain m = (m', Ok (pub, cfg)) →
  let home := default global_config_dir home_path in
  let dir := default ∅ (fst m' !! home) in
  dir !! PUBLIC_KEYS_FILE = Some (DocPublic pub) ∧
  (∃ op, dir !! OPERATOR_FILE = Some (DocOperator op) ∧ op_operator_account_address op = pu_account_address pub ∧
     op_validator_host op = h ∧ op_full_node_host op = Some (mk_host (host h) 6182)) ∧
  load (Some (path_join home CONFIG_FILE_NAME)) (w_files (d_world (snd m'))) = Ok cfg ∧
  (∃ p, user_profiles cfg = [p] ∧ account p = pu_account_address pub ∧ test_private_key p = None) ∧
  network_playlist cfg = [localhost chain] ∧ pick_url None cfg = Ok "http://localhost:8080"%string.
Proof.
  intros E home dir. destruct (init_files_ok _ _ _ _ _ _ _ _ _ E) as (? & ? & ? & ? & ? & ? & _). done.
Qed.
End facts.

(** ** Witnesses *)
#[export] Instance sample_hosts : Hosts := {|
  host_from_str s := Ok (mk_host s 6180);
  as_network_address h k := Ok ("/dns/" +:+ host h +:+ "/tcp/" +:+ show_uint (port h))
|}.
#[local] Existing Instances Mnemonic.sample_sha AppCfg.sample_sha3 answering_web.
Definition config_node : RestNode := sample_node (fun _ => inr "not found"%string) (fun _ => inl None).
#[local] Existing Instance config_node.
Definition config_home : path := ["srv"%string].
Definition config_machine (l : list answer) : machine :=
  (∅, mk_dialog l [] (mk_world [] {[ config_home := Dir; ["srv"; "genesis"]%string := Dir ]})).

(** A key given, a default playlist; the node knows no other address *)
Definition sample_wizard :=
  wizard TESTING None None None (Some config_home) (Some TESTING) (Some "7777"%string) None None (snd (config_machine [])).

Lemma config_run_safe_witness :
  let self := mk_config_cli (Some (SubFullnodeInit (Some config_home) None)) None None None in
  let m := config_machine [Choice 1] in
  let m' := fst (config_run TESTING None (fun _ => true) (fun _ => true) self m) in
  snd (config_run TESTING None (fun _ => true) (fun _ => true) self m) = Ok None ∧
  key_safe m m' ∧ same_keys m m'.
Proof.
  intros self m m'. split; [vm_compute; reflexivity|].
  destruct (config_run_safe TESTING None (fun _ => true) (fun _ => true) self m) as (Hk & Hs & _).
  split; [exact Hk|]. apply Hs. by intros vfn.
Defined.

Definition sample_init :=
  initialize_validator_files TESTING None (fun _ => true) (fun _ => true) (Some config_home) (mk_host "val" 6180)
    (Some sample_mnem) false None (config_machine []).
Lemma initialize_validator_files_spec_witness :
  match sample_init with
  | (m', Ok (pub, cfg)) =>
      default ∅ (fst m' !! config_home) !! PUBLIC_KEYS_FILE = Some (DocPublic pub) ∧
      load (Some (path_join config_home CONFIG_FILE_NAME)) (w_files (d_world (snd m'))) = Ok cfg ∧
      pick_url None cfg = Ok "http://localhost:8080"%string
  | _ => False
  end.
Proof.
  assert (Hok : is_ok (snd sample_init) = true) by (vm_compute; reflexivity).
  destruct sample_init as [m' [[pub cfg]|e|p]] eqn:E; cbn [snd is_ok] in Hok; [|discriminate Hok..].
  destruct (initialize_validator_files_spec TESTING None (fun _ => true) (fun _ => true) (Some config_home)
              (mk_host "val" 6180) (Some sample_mnem) false None (config_machine []) m' pub cfg E) as (Hp & _ & Hl & _ & _ & Hu).
  split; [exact Hp|]. split; [exact Hl|exact Hu].
Defined.
