(* ===== verification/GenesisWizard.v ===== *)
(** * tools/genesis/src/wizard.rs: the genesis wizard

    One dialog that takes a validator from a token of the git host to the genesis
    files: the token and its user, the files of the validator (ConfigCli), the
    fork, the registration (GenesisRegistration), the pull request, and the
    build (GenesisBuilder). *)
From Stdlib Require Import ZArith Lia Ascii.
From stdpp Require Import base option list strings gmap.
From S2P Require Import Prelude RustStr Json Effects Bytes FileSystem MoveTypes Recovery HashValue Mnemonic Wallet ValidatorKeys GenesisRegistration GenesisFunctions GenesisVm GenesisBuilder F64 NetworkPlaylist RestoreBundle Pledge Compare AppCfg Node Rescue TxSender Dialog ConfigFix NodeFiles ConfigCli.

Open Scope list_scope.
Open Scope Z_scope.

Definition GITHUB_TOKEN_FILENAME : string := "github_token.txt".

Record GenesisWizard := mk_wizard_state {
  validator_address : string;
  genesis_repo_org : string;
  repo_name : string;
  github_username : string;
  github_token : string;
  data_path : path;
  gw_epoch : option Z;
  gw_chain : NamedChain
}.

(** ** github_extensions.rs *)
Inductive api_method := GET | POST.
Record api_request := mk_api { api_verb : api_method; api_path : string; api_json : option json }.
Record api_response := mk_response { status : Z; response_text : string }.

(** What is asked of the git host; the branches and the files of one are the
    diem client's, [G] is those files. *)
Inductive hub_request (G : Type) :=
| Api (token : string) (r : api_request)
| Branches (owner repo token : string)
| Push (owner repo : string) (files : G).
Arguments Api {G} token r.
Arguments Branches {G} owner repo token.
Arguments Push {G} owner repo files.

(** The git host answers by what it was asked before; the text of the client's
    error and the [login] of a user *)
Class GitHub (G : Type) := {
  ans_api : list (hub_request G) → api_response;
  ans_branches : list (hub_request G) → reply unit;
  repo_at : list (hub_request G) → string → string → G;
  error_text : api_response → string;
  login_from_json : string → outcome string
}.

Definition repo_api (owner repo what : string) : string :=
  "https://api.github.com/repos/" +:+ owner +:+ "/" +:+ repo +:+ "/" +:+ what.
Definition pull_request (genesis_repo_owner genesis_repo_name pull_username : string) (branch : option string) : api_request :=
  let branch := default "main"%string branch in
  let head := pull_username +:+ ":" +:+ branch in
  mk_api POST (repo_api genesis_repo_owner genesis_repo_name "pulls")
    (Some (JObject [("head", JString head); ("base", JString branch); ("title", JString pull_username)]%string)).
Definition fork_request (genesis_repo_owner genesis_repo_name : string) : api_request :=
  mk_api POST (repo_api genesis_repo_owner genesis_repo_name "forks") (Some (JObject [])).
Definition user_request : api_request := mk_api GET "https://api.github.com/user" None.
Definition AuthUser {G : Type} (token : string) : hub_request G := Api token user_request.
Definition Fork {G : Type} (owner repo token : string) : hub_request G := Api token (fork_request owner repo).
Definition PullRequest {G : Type} (owner repo user token : string) : hub_request G := Api token (pull_request owner repo user None).

(** ** cli.rs *)
Record GithubArgs := mk_github_args {
  token_github_file : option path;
  org_github : string;
  name_github : string;
  local_framework : option path;
  json_legacy : option path
}.
Inductive GenesisSub := GenesisBuild (github : GithubArgs) (drop_list : option path) | GenesisRegister (github : GithubArgs).
Record GenesisCli := mk_genesis_cli {
  gc_command : option GenesisSub;
  gc_chain : option NamedChain;
  gc_home_dir : option path
}.

Record gw (G : Type) := mk_gw { gw_self : GenesisWizard; gw_hub : list (hub_request G); gw_machine : machine }.
Arguments mk_gw {G} _ _ _.
Arguments gw_self {G} _.
Arguments gw_hub {G} _.
Arguments gw_machine {G} _.

Section wizard.
Context {St Fw Va Ke Wr Ev Inf G : Type} `{OnChainDefaults, !GenesisVm St Fw Va Ke Wr Ev, VmSession St}.
Context `{!GenesisTools Fw Va Inf (Transaction (ChangeSet Ke Wr Ev)), !GenesisDbTools (Transaction (ChangeSet Ke Wr Ev))}.
Context `{GithubClient G, RegistrationCodec, GitHub G}.
Context `{RestNode, Web, NodeYaml, Hosts, WalletCrypto, Sha256, DiemAddress, ValidatorCrypto, Sha3, AppCfgEnv, TxSdk}.
Context (mode : NamedChain) (mnem_env : option string) (overwrite writable : string → bool).
(** The answer to the overwrite prompts of the build, the working directory, and
    serde_json on a recovery file *)
Context (confirm_path : path → bool) (current_dir : outcome path) (recovery_from_json : string → option (list LegacyRecoveryV6))
  (recovery_to_json : list LegacyRecoveryV6 → option string) (drops_from_json : string → option (list AccountAddress)).

Definition wizard_new (org repo : string) (data_path : option path) (chain : NamedChain) : GenesisWizard :=
  mk_wizard_state "tbd" org repo "" "" (default global_config_dir data_path) None chain.

Definition self_ : st (gw G) GenesisWizard := fun s => (s, Ok (gw_self s)).
Definition set_self (f : GenesisWizard → GenesisWizard) : st (gw G) unit := fun s =>
  (mk_gw (f (gw_self s)) (gw_hub s) (gw_machine s), Ok tt).
Definition with_token (t : string) (w : GenesisWizard) : GenesisWizard :=
  mk_wizard_state (validator_address w) (genesis_repo_org w) (repo_name w) (github_username w) t (data_path w) (gw_epoch w) (gw_chain w).
Definition with_username (u : string) (w : GenesisWizard) : GenesisWizard :=
  mk_wizard_state (validator_address w) (genesis_repo_org w) (repo_name w) u (github_token w) (data_path w) (gw_epoch w) (gw_chain w).
Definition with_address (a : string) (w : GenesisWizard) : GenesisWizard :=
  mk_wizard_state a (genesis_repo_org w) (repo_name w) (github_username w) (github_token w) (data_path w) (gw_epoch w) (gw_chain w).

Definition on_machine {A : Type} (m : st machine A) : st (gw G) A := fun s =>
  let '(m', r) := m (gw_machine s) in (mk_gw (gw_self s) (gw_hub s) m', r).
Definition on_dialog {A : Type} (m : st dialog A) : st (gw G) A := on_machine (on_snd m).
Definition hub {A : Type} (r : hub_request G) (ans : list (hub_request G) → outcome A) : st (gw G) A := fun s =>
  let h := gw_hub s ++ [r] in (mk_gw (gw_self s) h (gw_machine s), ans h).
Definition by_status {A : Type} (statuses : list Z) (value : string → outcome A) (resp : api_response) : outcome A :=
  if bool_decide (status resp ∈ statuses) then value (response_text resp) else Err (error_text resp).
Definition make_genesis_pull_request (owner repo username token : string) : st (gw G) unit :=
  hub (PullRequest owner repo username token) (fun h => by_status [200; 201] (fun _ => Ok tt) (ans_api h)).
Definition fork_genesis_repo (owner repo token : string) : st (gw G) unit :=
  hub (Fork owner repo token) (fun h => by_status [200; 201; 202] (fun _ => Ok tt) (ans_api h)).
Definition ans_user (h : list (hub_request G)) : outcome string :=
  by_status [200] (fun text => expect_res "called `Result::unwrap()` on an `Err` value" (login_from_json text)) (ans_api h).
Definition get_authenticated_user (token : string) : st (gw G) string := hub (AuthUser token) ans_user.
Definition get_branches (owner repo token : string) : st (gw G) unit :=
  hub (Branches owner repo token) (fun h => of_reply (ans_branches h)).
Definition file_exists (p : path) : st (gw G) bool := fun s =>
  (s, Ok (exists_ p (w_files (d_world (snd (gw_machine s)))))).
Definition create_missing (p : path) : st (gw G) unit :=
  here ← file_exists p;
  if (here : bool) then mret tt else on_dialog (in_files (io_update (create_dir_all p))).

Definition find_github_token (git_token_path_opt : option path) : st (gw G) path :=
  self ← self_;
  let p := default (path_join (data_path self) GITHUB_TOKEN_FILENAME) git_token_path_opt in
  here ← file_exists p;
  p ← (if here : bool then mret p else cwd ← st_lift current_dir; mret (path_join cwd GITHUB_TOKEN_FILENAME));
  here ← file_exists p;
  if (here : bool) then mret p
  else st_lift (Err "ERROR: could not find any github token at --data-path --token-github-file, or in this working dir, exiting.").

Definition git_token_check (git_token_path_opt : option path) : st (gw G) unit :=
  token_path ← attempt (find_github_token git_token_path_opt);
  token ← match token_path with
          | Ok p => s ← on_dialog (in_files (io_read (read_to_string p))); mret (trim s)
          | _ => on_dialog (input "No github token found, enter one now" false)
          end;
  _ ← set_self (with_token token);
  self ← self_;
  _ ← create_missing (data_path self);
  _ ← on_dialog (in_files (io_result (context_res "could not write token file")
        (io_write (path_join (data_path self) GITHUB_TOKEN_FILENAME) token)));
  user ← st_result (context_res "could not get authenticated user on github api") (get_authenticated_user token);
  _ ← set_self (with_username user);
  _ ← on_dialog (confirm ("Is this your github user? " +:+ user +:+ " "));
  mret tt.

Definition git_setup : st (gw G) unit :=
  self ← self_;
  found ← attempt (get_branches (github_username self) (repo_name self) (github_token self));
  if is_ok found then mret tt else
  answer ← attempt (on_dialog (confirm ("Fork the genesis repo to your account? " +:+ github_username self +:+ " ")));
  match answer with
  | Ok true =>
      forked ← attempt (fork_genesis_repo (genesis_repo_org self) (repo_name self) (github_token self));
      match forked with
      | Ok _ => mret tt
      | Err e => st_lift (Err ("Failed to fork repo. We need to fork the genesis repo. Are you sure it's not already forked. " +:+ e))
      | Panic p => st_lift (Panic p)
      end
  | _ => st_lift (Err "no forked repo on your account, we need it to continue")
  end.

(** [register] on the fork, which is as the git host left it *)
Definition push_registration (self : GenesisWizard) : st (gw G) unit := fun s =>
  let client := repo_at (gw_hub s) (github_username self) (repo_name self) in
  match register client (validator_address self) (default ∅ (fst (gw_machine s) !! data_path self)) with
  | Ok client' => (mk_gw (gw_self s) (gw_hub s ++ [Push (github_username self) (repo_name self) client']) (gw_machine s), Ok tt)
  | Err e => (s, Err e)
  | Panic p => (s, Panic p)
  end.
Definition genesis_registration_github : st (gw G) unit :=
  self ← self_;
  push_registration self.

Definition make_pull_request : st (gw G) unit :=
  self ← self_;
  api_token ← on_dialog (in_files (io_read (read_to_string (path_join (data_path self) GITHUB_TOKEN_FILENAME))));
  answer ← attempt (make_genesis_pull_request (genesis_repo_org self) (repo_name self) (github_username self) api_token);
  match answer with
  | Err e =>
      if contains "A pull request already exists" e then mret tt
      else if contains "No commits between main and main" e then mret tt
      else st_lift (Err ("failed to create pull, message: " +:+ e))
  | _ => mret tt
  end.

(** [IdentityBlob::from_file], and the address it must have *)
Definition validator_identity (home : path) : st machine AccountAddress :=
  read_keys home (fun dir =>
    id ← match dir !! VALIDATOR_FILE with
         | Some (DocBlob b) => Ok b
         | Some _ => Err "not an identity blob"
         | None => Err "No such file or directory"
         end;
    context_opt "cannot find an account address in validator-identity.yaml" (ib_account_address id)).

Definition register_validator : st (gw G) unit :=
  self ← self_;
  a ← on_machine (validator_identity (data_path self));
  _ ← set_self (with_address (addr_to_hex_literal a));
  _ ← git_setup;
  _ ← genesis_registration_github;
  make_pull_request.

Definition file_text (s : gw G) (p : path) : option string :=
  match read_to_string p (w_files (d_world (snd (gw_machine s)))) with Ok text => Some text | _ => None end.
Definition read_legacy (legacy_recovery_path : option path) : st (gw G) (list LegacyRecoveryV6) :=
  s ← st_get;
  st_lift match legacy_recovery_path with
          | Some p => recovery_file_parse (file_text s) recovery_from_json p
          | None => Ok []
          end.
Definition run_build (framework_mrb_path legacy_recovery_path : option path) : st (gw G) unit :=
  self ← self_;
  legacy_recovery ← read_legacy legacy_recovery_path;
  s ← st_get;
  let client := repo_at (gw_hub s) (genesis_repo_org self) (repo_name self) in
  _ ← on_dialog (in_files (build confirm_path client (data_path self) framework_mrb_path legacy_recovery (gw_chain self) None));
  mret tt.

(** [Confirm::interact().unwrap()] *)
Definition must_confirm (prompt : string) : st (gw G) bool :=
  st_result (expect_res "called `Result::unwrap()` on an `Err` value") (on_dialog (confirm prompt)).

Definition start_wizard (framework_mrb_path legacy_recovery_path github_token_path_opt : option path) (do_genesis : bool)
    : st (gw G) unit :=
  self ← self_;
  _ ← create_missing (data_path self);
  _ ← git_token_check github_token_path_opt;
  self ← self_;
  _ ← attempt (on_machine (validator_dialogue mode mnem_env overwrite writable (data_path self) (Some (gw_chain self))));
  to_register ← must_confirm "Do you need to register for genesis?";
  _ ← (if to_register : bool then register_validator else mret tt);
  ready ← (if do_genesis then must_confirm "NOW WAIT for everyone to do genesis. Is everyone ready?" else mret false);
  if (ready : bool) then run_build framework_mrb_path legacy_recovery_path else mret tt.

(** ** cli.rs *)
Definition drop_list_accounts (recovery : list LegacyRecoveryV6) (drop_list : option path) : st (gw G) (list LegacyRecoveryV6) :=
  match drop_list with
  | None => mret recovery
  | Some dp =>
      s ← st_get;
      '(recovery, (p, json)) ← st_lift (drop_accounts (file_text s) drops_from_json recovery_to_json recovery dp);
      _ ← on_dialog (in_files (io_write p json));
      mret recovery
  end.
Definition genesis_run (self : GenesisCli) : st (gw G) unit :=
  let data_path := default global_config_dir (gc_home_dir self) in
  let chain_name := default TESTNET (gc_chain self) in
  match gc_command self with
  | Some (GenesisBuild github drop_list) =>
      recovery ← read_legacy (json_legacy github);
      recovery ← drop_list_accounts recovery drop_list;
      _ ← on_dialog (in_files (io_read (read_to_string (path_join data_path GITHUB_TOKEN_FILENAME))));
      s ← st_get;
      let client := repo_at (gw_hub s) (org_github github) (name_github github) in
      _ ← on_dialog (in_files (build confirm_path client data_path (local_framework github) recovery chain_name None));
      mret tt
  | Some (GenesisRegister github) =>
      _ ← set_self (fun _ => wizard_new (org_github github) (name_github github) (Some data_path) chain_name);
      start_wizard (local_framework github) (json_legacy github) (token_github_file github) false
  | None => mret tt
  end.

(** ** What is asked of the git host *)
Definition setup_log (self : GenesisWizard) (forked : bool) : list (hub_request G) :=
  Branches (github_username self) (repo_name self) (github_token self)
  :: (if forked then [Fork (genesis_repo_org self) (repo_name self) (github_token self)] else []).
Definition registration_log (self : GenesisWizard) (forked : bool) (files : G) (api_token : string) : list (hub_request G) :=
  setup_log self forked
  ++ [Push (github_username self) (repo_name self) files;
      PullRequest (genesis_repo_org self) (repo_name self) (github_username self) api_token].

Lemma on_machine_log {A : Type} (m : st machine A) s :
  gw_hub (fst (on_machine m s)) = gw_hub s ∧ gw_self (fst (on_machine m s)) = gw_self s.
Proof. unfold on_machine. by destruct (m _). Qed.

(** Whatever a computation asks is the start of [l], all of [l] if it succeeds. *)
Definition asked_of (l : list (hub_request G)) {A : Type} (s : gw G) (run : gw G * outcome A) : Prop :=
  ∃ k, gw_hub (fst run) = gw_hub s ++ k ∧ k `prefix_of` l ∧ (is_ok (snd run) = true → k = l).

Lemma asked_none {A : Type} s (run : gw G * outcome A) : gw_hub (fst run) = gw_hub s → asked_of [] s run.
Proof. intros Hh. exists []. by rewrite app_nil_r. Qed.
Lemma asked_stop {A : Type} s (run : gw G * outcome A) l : gw_hub (fst run) = gw_hub s → is_ok (snd run) = false → asked_of l s run.
Proof. intros Hh Hr. exists []. rewrite app_nil_r, Hr. split; [done|]. split; [apply prefix_nil|done]. Qed.
Lemma asked_bind {A B : Type} (m : st (gw G) A) (f : A → st (gw G) B) s l1 l2 :
  asked_of l1 s (m s) →
  (∀ s1 a, m s = (s1, Ok a) → asked_of l2 s1 (f a s1)) →
  asked_of (l1 ++ l2) s ((m ≫= f) s).
Proof.
  intros (k & Hk & Hp & Ho) Hf. unfold mbind, st_bind. destruct (m s) as [s1 [a|e|p]]; cbn in *.
  - rewrite (Ho eq_refl) in Hk. destruct (Hf s1 a eq_refl) as (k2 & Hk2 & Hp2 & Ho2).
    exists (l1 ++ k2). rewrite Hk2, Hk, app_assoc. split; [done|]. split; [by apply prefix_app|].
    intros Hr. by rewrite (Ho2 Hr).
  - exists k. split; [done|]. split; [by apply prefix_app_r|done].
  - exists k. split; [done|]. split; [by apply prefix_app_r|done].
Qed.
Lemma asked_hub {A : Type} r (ans : list (hub_request G) → outcome A) s : asked_of [r] s (hub r ans s).
Proof. by exists [r]. Qed.

(** What asks the git host nothing and leaves the choices alone *)
Definition gw_quiet (s s' : gw G) : Prop := gw_hub s' = gw_hub s ∧ gw_self s' = gw_self s.
#[local] Instance gw_quiet_preorder : PreOrder gw_quiet.
Proof. split; [done|]. intros s1 s2 s3 [Ha Hb] [Hc Hd]. split; congruence. Qed.
Notation quiet := (steps gw_quiet).
Lemma quiet_machine {A : Type} (m : st machine A) : quiet (on_machine m).
Proof. intros s. apply on_machine_log. Qed.
Lemma quiet_dialog {A : Type} (m : st dialog A) : quiet (on_dialog m).
Proof. apply quiet_machine. Qed.
Lemma quiet_self : quiet self_.
Proof. by intros s. Qed.
Lemma quiet_get : quiet (st_get : st (gw G) (gw G)).
Proof. by intros s. Qed.
Lemma quiet_exists p : quiet (file_exists p).
Proof. by intros s. Qed.
Hint Resolve quiet_machine quiet_dialog quiet_self quiet_get quiet_exists : effects.
Lemma quiet_confirm prompt : quiet (must_confirm prompt).
Proof. unfold must_confirm. st_all. Qed.
Lemma quiet_create p : quiet (create_missing p).
Proof. unfold create_missing. st_all. Qed.
Lemma quiet_find o : quiet (find_github_token o).
Proof. unfold find_github_token. st_all. Qed.
Lemma quiet_legacy o : quiet (read_legacy o).
Proof. unfold read_legacy. st_all. Qed.
Hint Resolve quiet_legacy : effects.
Lemma quiet_build fmw leg : quiet (run_build fmw leg).
Proof. unfold run_build. st_all. Qed.
Hint Resolve quiet_confirm quiet_create quiet_find quiet_build : effects.
(** A run that starts with one of these: it fails there, or the rest is run. *)
Lemma quiet_case {A B : Type} (P : gw G * outcome B → Prop) (m : st (gw G) A) (f : A → st (gw G) B) s :
  quiet m →
  (∀ s1 r, gw_hub s1 = gw_hub s → gw_self s1 = gw_self s → is_ok r = false → P (s1, r)) →
  (∀ s1 a, m s = (s1, Ok a) → gw_hub s1 = gw_hub s → gw_self s1 = gw_self s → P (f a s1)) →
  P ((m ≫= f) s).
Proof.
  intros Hm Hfail Hf. unfold mbind, st_bind. destruct (Hm s) as [Hh Hs].
  destruct (m s) as [s1 [a|e|p]]; cbn in *; [by apply Hf|by apply Hfail..].
Qed.
Lemma asked_quiet {A B : Type} (m : st (gw G) A) (f : A → st (gw G) B) s l :
  quiet m → (∀ s1 a, m s = (s1, Ok a) → gw_hub s1 = gw_hub s → gw_self s1 = gw_self s → asked_of l s1 (f a s1)) →
  asked_of l s ((m ≫= f) s).
Proof.
  intros Hm Hf. apply (asked_bind m f s [] l); [apply asked_none, Hm|]. intros s1 a Ha.
  destruct (Hm s) as [Hh Hs]. rewrite Ha in Hh, Hs. by apply Hf.
Qed.

Definition fork_prompt (self : GenesisWizard) : string :=
  "Fork the genesis repo to your account? " +:+ github_username self +:+ " ".
Lemma git_setup_asked s : ∃ forked, asked_of (setup_log (gw_self s) forked) s (git_setup s) ∧ gw_self (fst (git_setup s)) = gw_self s.
Proof.
  unfold git_setup, self_, setup_log, attempt, get_branches, hub, asked_of, mbind, st_bind. cbn. fold (fork_prompt (gw_self s)).
  destruct (ans_branches _) as [[]|e]; cbn; [exists false; split; [by eexists|done]|]. exists true.
  set (s0 := mk_gw (gw_self s) _ (gw_machine s)).
  destruct (on_machine_log (on_snd (confirm (fork_prompt (gw_self s)))) s0) as [Hh Hs]. unfold on_dialog.
  destruct (on_machine _ s0) as [s1 [[|]|e1|p]]; cbn in Hh, Hs; cbn.
  2-4: split; [|done]; eexists; rewrite Hh; split; [reflexivity|]; split; [by apply prefix_cons, prefix_nil|done].
  unfold fork_genesis_repo, hub. rewrite Hh, Hs.
  destruct (by_status _ _ _) as [[]|e2|p]; cbn; (split; [|done]); eexists; rewrite <- app_assoc; (split; [reflexivity|]); by split.
Qed.

Lemma make_pull_request_asked s : ∃ api, asked_of
  [PullRequest (genesis_repo_org (gw_self s)) (repo_name (gw_self s)) (github_username (gw_self s)) api] s (make_pull_request s).
Proof.
  set (m := on_dialog (in_files (io_read (read_to_string (path_join (data_path (gw_self s)) GITHUB_TOKEN_FILENAME))))).
  destruct (m s) as [s1 r] eqn:E. exists (match r with Ok api => api | _ => EmptyString end).
  unfold make_pull_request. apply asked_quiet; [apply quiet_self|]. intros s0 self [= <- <-] _ _.
  apply asked_quiet; [apply quiet_machine|]. intros s2 api Ha Hh Hs. fold m in Ha. rewrite E in Ha. injection Ha as -> ->.
  unfold attempt, make_genesis_pull_request, hub, mbind, st_bind. cbn. destruct (by_status _ _ _) as [[]|e|p]; cbn; [by eexists| |].
  - destruct (contains _ e); [by eexists|]. destruct (contains _ e); [by eexists|]. eexists. split; [reflexivity|]. by split.
  - eexists. split; [reflexivity|]. by split.
Qed.

(** The registration pushed is that of the account of the validator's identity,
    onto the fork as it was. *)
Definition pushed (self : GenesisWizard) (dirs : gmap path directory) (files : G) : Prop :=
  ∃ h a blob, let dir := default ∅ (dirs !! data_path self) in
    dir !! VALIDATOR_FILE = Some (DocBlob blob) ∧ ib_account_address blob = Some a ∧
    register (repo_at h (github_username self) (repo_name self)) (addr_to_hex_literal a) dir = Ok files.

Lemma asked_fail {A : Type} s (run : gw G * outcome A) l l' :
  asked_of l s run → is_ok (snd run) = false → asked_of (l ++ l') s run.
Proof. intros (k & Hk & Hp & _) Hr. exists k. split; [done|]. split; [by apply prefix_app_r|by rewrite Hr]. Qed.
Lemma asked_whole {A : Type} s (run : gw G * outcome A) l : gw_hub (fst run) = gw_hub s ++ l → asked_of l s run.
Proof. by exists l. Qed.
Lemma asked_from {A : Type} s s' (run : gw G * outcome A) l : gw_hub s = gw_hub s' → asked_of l s run → asked_of l s' run.
Proof. unfold asked_of. by intros ->. Qed.
Lemma asked_error {A B : Type} (m : st (gw G) A) (f : A → st (gw G) B) s l :
  is_ok (snd (m s)) = false → asked_of l s (m s) → asked_of l s ((m ≫= f) s) ∧ is_ok (snd ((m ≫= f) s)) = false.
Proof. unfold mbind, st_bind, asked_of. destruct (m s) as [s1 [a|e|p]]; [done|by split..]. Qed.
Lemma git_setup_keys s : fst (gw_machine (fst (git_setup s))) = fst (gw_machine s).
Proof.
  unfold git_setup, self_, attempt, get_branches, fork_genesis_repo, hub, mbind, st_bind. cbn. destruct (ans_branches _) as [[]|e]; cbn; [done|].
  unfold on_dialog, on_machine. cbn. destruct (gw_machine s) as [dirs d]. cbn.
  destruct (confirm _ d) as [d' [[|]|e1|p]]; cbn; [|done..]. by destruct (by_status _ _ _) as [[]|?|?].
Qed.
Lemma identity_ok home m m' a :
  validator_identity home m = (m', Ok a) →
  m' = m ∧ ∃ blob, default ∅ (fst m !! home) !! VALIDATOR_FILE = Some (DocBlob blob) ∧ ib_account_address blob = Some a.
Proof.
  unfold validator_identity, read_keys. intros [= <- Ha]. split; [done|].
  destruct (default ∅ (fst m !! home) !! VALIDATOR_FILE) as [[]|]; cbn in Ha; try done.
  exists b. split; [done|]. by apply context_opt_ok in Ha.
Qed.

Lemma register_asked s : ∃ forked files api,
  asked_of (registration_log (gw_self s) forked files api) s (register_validator s) ∧
  (pushed (gw_self s) (fst (gw_machine s)) files ∨
   is_ok (snd (register_validator s)) = false ∧ asked_of (setup_log (gw_self s) forked) s (register_validator s)).
Proof.
  set (f0 := repo_at [] EmptyString EmptyString). unfold register_validator.
  rewrite (st_bind_run _ _ s s (gw_self s)) by done.
  destruct (on_machine_log (validator_identity (data_path (gw_self s))) s) as [Hh1 Hs1].
  destruct (on_machine (validator_identity (data_path (gw_self s))) s) as [s1 r1] eqn:E1. cbn in Hh1, Hs1.
  destruct r1 as [a|e|p].
  2-3: exists false, f0, EmptyString; unfold mbind, st_bind; rewrite E1; cbn; split; [|right; split; [done|]]; by apply asked_stop.
  assert (Hid : gw_machine s1 = gw_machine s ∧ ∃ blob, default ∅ (fst (gw_machine s) !! data_path (gw_self s)) !! VALIDATOR_FILE = Some (DocBlob blob) ∧ ib_account_address blob = Some a).
  { unfold on_machine in E1. destruct (validator_identity _ (gw_machine s)) as [m' r'] eqn:Ei. injection E1 as <- ->.
    by apply identity_ok in Ei. }
  destruct Hid as (Hm1 & blob & Hb & Ha). rewrite (st_bind_run _ _ _ _ _ E1).
  set (s2 := mk_gw (with_address (addr_to_hex_literal a) (gw_self s1)) (gw_hub s1) (gw_machine s1)).
  rewrite (st_bind_run _ _ s1 s2 tt) by done.
  destruct (git_setup_asked s2) as (forked & Hset & Hself). pose proof (git_setup_keys s2) as Hkeys.
  assert (Hlog : setup_log (gw_self s2) forked = setup_log (gw_self s) forked) by (cbn; by rewrite Hs1).
  assert (Hh2 : gw_hub s2 = gw_hub s) by (cbn; by rewrite Hh1). rewrite Hlog in Hset.
  destruct (git_setup s2) as [s3 r3] eqn:E3. cbn in Hself, Hkeys.
  rewrite <- E3 in Hset. destruct r3 as [[]|e|p].
  2-3: exists forked, f0, EmptyString; destruct (asked_error git_setup (λ _, _ ← genesis_registration_github; make_pull_request) s2 (setup_log (gw_self s) forked)) as [Hl Hr];
    [by rewrite E3|exact Hset|]; apply (asked_from _ s) in Hl; [|done]; split; [by apply asked_fail|by right].
  rewrite (st_bind_run _ _ _ _ _ E3). rewrite E3 in Hset. destruct Hset as (k & Hk & _ & Ho). rewrite (Ho eq_refl) in Hk. cbn in Hk. rewrite Hh1 in Hk.
  assert (Hpush := eq_refl (genesis_registration_github s3)). unfold genesis_registration_github at 2, push_registration, self_, mbind, st_bind in Hpush.
  rewrite Hself, Hkeys in Hpush. cbn in Hpush. rewrite Hm1, Hs1 in Hpush.
  destruct (register _ (addr_to_hex_literal a) _) as [client'|e|p] eqn:Er.
  2-3: exists forked, f0, EmptyString; destruct (asked_error genesis_registration_github (λ _, make_pull_request) s3 []) as [Hl Hr];
    [by rewrite Hpush|rewrite Hpush; by apply asked_none|]; destruct Hl as (k0 & Hk0 & Hp0 & _); apply prefix_nil_inv in Hp0 as ->;
    rewrite app_nil_r, Hk in Hk0; apply asked_whole in Hk0; split; [by apply asked_fail|by right].
  rewrite (st_bind_run _ _ _ _ _ Hpush).
  set (s4 := mk_gw (with_address (addr_to_hex_literal a) (gw_self s)) (gw_hub s3 ++ [Push (github_username (gw_self s)) (repo_name (gw_self s)) client']) (gw_machine s3)).
  destruct (make_pull_request_asked s4) as (api & k4 & Hk4 & Hp4 & Ho4).
  exists forked, client', api. split; [|left; by exists (gw_hub s3), a, blob].
  exists (setup_log (gw_self s) forked ++ [Push (github_username (gw_self s)) (repo_name (gw_self s)) client'] ++ k4).
  split; [|split].
  - rewrite Hk4. cbn [s4 gw_hub]. by rewrite Hk, <- !app_assoc.
  - by apply prefix_app, prefix_cons.
  - intros Hr. by rewrite (Ho4 Hr).
Qed.

(** ** A run of the wizard *)

(** What a registration of [w] asked, when the key files are [dirs]: the start of
    its requests, which stop before the push unless it is that of the identity;
    all of them, or none if there is no registration, when the run succeeds. *)
Definition registered (w : GenesisWizard) (dirs : gmap path directory) (k : list (hub_request G)) (ok : bool) : Prop :=
  ∃ forked files api, k `prefix_of` registration_log w forked files api ∧
    (pushed w dirs files ∨ k `prefix_of` setup_log w forked) ∧
    (ok = true → k = [] ∨ k = registration_log w forked files api).
Lemma registered_none w dirs ok : registered w dirs [] ok.
Proof.
  exists false, (repo_at [] EmptyString EmptyString), EmptyString. split; [apply prefix_nil|].
  split; [right; apply prefix_nil|by left].
Qed.
Lemma registered_later w dirs k ok ok' : (ok' = true → ok = true) → registered w dirs k ok → registered w dirs k ok'.
Proof. intros Hok (forked & files & api & Hp & Hf & Hk). exists forked, files, api. split; [done|]. split; [done|]. intros Ho. by apply Hk, Hok. Qed.
Lemma register_registered s : ∃ k, gw_hub (fst (register_validator s)) = gw_hub s ++ k ∧
  registered (gw_self s) (fst (gw_machine s)) k (is_ok (snd (register_validator s))).
Proof.
  destruct (register_asked s) as (forked & files & api & (k & Hk & Hp & Ho) & Hc). exists k. split; [done|].
  exists forked, files, api. split; [done|]. split.
  - destruct Hc as [Hc|[_ (k' & Hk' & Hp' & _)]]; [by left|right]. rewrite Hk in Hk'. by apply app_inv_head in Hk' as <-.
  - intros Hr. right. by apply Ho.
Qed.

(** What is done to the machine never brings an account key to a key file. *)
Definition gw_safe (s s' : gw G) : Prop := key_safe (gw_machine s) (gw_machine s').
#[local] Instance gw_safe_preorder : PreOrder gw_safe.
Proof. split; [intros s; apply key_safe_preorder|intros s1 s2 s3; apply key_safe_preorder]. Qed.
Definition gw_same (s s' : gw G) : Prop := same_keys (gw_machine s) (gw_machine s').
#[local] Instance gw_same_preorder : PreOrder gw_same.
Proof. split; [intros s; apply same_keys_preorder|intros s1 s2 s3; apply same_keys_preorder]. Qed.
Lemma on_machine_steps {A : Type} (R : relation machine) (m : st machine A) :
  steps R m → steps (λ s s', R (gw_machine s) (gw_machine s')) (on_machine m).
Proof. intros Hm s. unfold on_machine. specialize (Hm (gw_machine s)). by destruct (m _). Qed.
Lemma on_machine_safe {A : Type} (m : st machine A) : steps key_safe m → steps gw_safe (on_machine m).
Proof. apply on_machine_steps. Qed.
Lemma same_safe {A : Type} (m : st (gw G) A) : steps gw_same m → steps gw_safe m.
Proof. intros Hm s. apply same_keys_safe, Hm. Qed.
Lemma on_dialog_same {A : Type} (m : st dialog A) : steps gw_same (on_dialog m).
Proof. apply on_machine_steps, dialog_same. Qed.
Lemma hub_same {A : Type} r (ans : list (hub_request G) → outcome A) : steps gw_same (hub r ans).
Proof. by intros s. Qed.
Lemma set_self_same f : steps gw_same (set_self f).
Proof. by intros s. Qed.
Lemma self_same : steps gw_same self_.
Proof. by intros s. Qed.
Lemma get_same : steps gw_same (st_get : st (gw G) (gw G)).
Proof. by intros s. Qed.
Lemma exists_same p : steps gw_same (file_exists p).
Proof. by intros s. Qed.
Lemma identity_same home : steps gw_same (on_machine (validator_identity home)).
Proof. apply on_machine_steps, read_same. Qed.
Hint Resolve on_machine_safe on_dialog_same hub_same set_self_same self_same get_same exists_same identity_same validator_dialogue_safe : effects.
Lemma create_missing_same p : steps gw_same (create_missing p).
Proof. unfold create_missing. st_all. Qed.
Hint Resolve create_missing_same : effects.
Lemma find_token_same o : steps gw_same (find_github_token o).
Proof. unfold find_github_token. st_all. Qed.
Hint Resolve find_token_same : effects.
Lemma token_check_same o : steps gw_same (git_token_check o).
Proof. unfold git_token_check. st_all. Qed.
Lemma push_same w : steps gw_same (push_registration w).
Proof. intros s. unfold push_registration. by destruct (register _ _ _). Qed.
Lemma git_setup_same : steps gw_same git_setup.
Proof. unfold git_setup. st_all. Qed.
Lemma pull_same : steps gw_same make_pull_request.
Proof. unfold make_pull_request. st_all. Qed.
Lemma confirm_same prompt : steps gw_same (must_confirm prompt).
Proof. unfold must_confirm. st_all. Qed.
Hint Resolve token_check_same push_same git_setup_same pull_same confirm_same : effects.
Lemma register_same : steps gw_same register_validator.
Proof. unfold register_validator. st_all. Qed.
Lemma legacy_same o : steps gw_same (read_legacy o).
Proof. unfold read_legacy. st_all. Qed.
Hint Resolve legacy_same : effects.
Lemma run_build_same fmw leg : steps gw_same (run_build fmw leg).
Proof. unfold run_build. st_all. Qed.
Hint Resolve register_same run_build_same same_safe : effects.

(** The token: what it asks, and whose it is *)
Definition token_checked (s : gw G) (run : gw G * outcome unit) : Prop :=
  (gw_hub (fst run) = gw_hub s ∧ is_ok (snd run) = false) ∨
  ∃ token, gw_hub (fst run) = gw_hub s ++ [AuthUser token] ∧
    match ans_user (gw_hub s ++ [AuthUser token]) with
    | Ok user => gw_self (fst run) = with_username user (with_token token (gw_self s))
    | _ => is_ok (snd run) = false
    end.
Lemma token_check_asked o s : token_checked s (git_token_check o s).
Proof.
  unfold git_token_check. apply quiet_case; [st_all|by left|]. intros s1 tp _ Hh1 Hs1.
  apply quiet_case; [destruct tp; st_all|intros ? ? ? ? ?; left; split; cbn; congruence|]. intros s2 token _ Hh2 Hs2.
  rewrite (st_bind_run (set_self (with_token token)) _ s2 (mk_gw (with_token token (gw_self s2)) (gw_hub s2) (gw_machine s2)) tt) by done.
  rewrite Hs2, Hs1. set (w := with_token token (gw_self s)). set (s3 := mk_gw w _ _).
  rewrite (st_bind_run self_ _ s3 s3 w) by done.
  assert (Hh3 : gw_hub s3 = gw_hub s) by (cbn; congruence). assert (Hs3 : gw_self s3 = w) by done. clearbody s3.
  apply quiet_case; [st_all|intros ? ? ? ? ?; left; split; cbn; congruence|]. intros s4 [] _ Hh4 Hs4.
  apply quiet_case; [st_all|intros ? ? ? ? ?; left; split; cbn; congruence|]. intros s5 [] _ Hh5 Hs5.
  assert (Hh : gw_hub s5 = gw_hub s) by congruence. assert (Hs : gw_self s5 = w) by congruence.
  right. exists token. destruct (ans_user (gw_hub s ++ [AuthUser token])) as [user|e|p] eqn:Eu.
  2-3: unfold mbind, st_bind, st_result, get_authenticated_user, hub; rewrite Hh; by rewrite Eu.
  rewrite (st_bind_run (st_result _ _) _ s5 (mk_gw w (gw_hub s ++ [AuthUser token]) (gw_machine s5)) user)
    by (unfold st_result, get_authenticated_user, hub; rewrite Hh, Eu, Hs; done).
  rewrite (st_bind_run (set_self (with_username user)) _ _ (mk_gw (with_username user w) (gw_hub s ++ [AuthUser token]) (gw_machine s5)) tt) by done.
  set (s6 := mk_gw (with_username user w) _ _).
  apply (quiet_case (λ run, gw_hub (fst run) = gw_hub s ++ [AuthUser token] ∧ gw_self (fst run) = with_username user w)).
  - st_all.
  - intros s7 r Hh7 Hs7 _. cbn. by rewrite Hh7, Hs7.
  - intros s7 _ _ Hh7 Hs7. cbn. by rewrite Hh7, Hs7.
Qed.

(** The rest of a run, after the token *)
Definition wizard_rest (fmw leg : option path) (do_genesis : bool) : st (gw G) unit :=
  self ← self_;
  _ ← attempt (on_machine (validator_dialogue mode mnem_env overwrite writable (data_path self) (Some (gw_chain self))));
  to_register ← must_confirm "Do you need to register for genesis?";
  _ ← (if to_register : bool then register_validator else mret tt);
  ready ← (if do_genesis then must_confirm "NOW WAIT for everyone to do genesis. Is everyone ready?" else mret false);
  if (ready : bool) then run_build fmw leg else mret tt.
Definition rest_registered (s : gw G) (run : gw G * outcome unit) : Prop :=
  ∃ k, gw_hub (fst run) = gw_hub s ++ k ∧ registered (gw_self s) (fst (gw_machine (fst run))) k (is_ok (snd run)).
Lemma rest_nothing s run : gw_hub (fst run) = gw_hub s → rest_registered s run.
Proof. intros Hh. exists []. rewrite app_nil_r. split; [done|]. apply registered_none. Qed.
Lemma wizard_rest_registered fmw leg g s : rest_registered s (wizard_rest fmw leg g s).
Proof.
  set (tail := ready ← (if g then must_confirm "NOW WAIT for everyone to do genesis. Is everyone ready?" else mret false);
               if (ready : bool) then run_build fmw leg else mret tt).
  assert (Htail : quiet tail) by (unfold tail; st_steps; [destruct g; st_steps|destruct a; st_steps]).
  assert (Hsame : steps gw_same tail) by (unfold tail; st_steps; [destruct g; st_steps|destruct a; st_steps]).
  unfold wizard_rest. fold tail. apply quiet_case; [st_all|intros; by apply rest_nothing|]. intros s1 w _ Hh1 Hs1.
  apply quiet_case; [st_all|intros ? ? Hh ? ?; apply rest_nothing; by rewrite <- Hh1|]. intros s2 _ _ Hh2 Hs2.
  apply quiet_case; [st_all|intros ? ? Hh ? ?; apply rest_nothing; cbn; congruence|]. intros s3 to_register _ Hh3 Hs3.
  assert (Hh : gw_hub s3 = gw_hub s) by congruence. assert (Hs : gw_self s3 = gw_self s) by congruence.
  destruct to_register.
  - destruct (register_registered s3) as (k & Hk & Hreg). rewrite Hh, Hs in *.
    pose proof (register_same s3) as Hd. unfold gw_same, same_keys in Hd.
    unfold rest_registered, mbind, st_bind. exists k. destruct (register_validator s3) as [s4 [[]|e|p]]; cbn in *.
    + destruct (Htail s4) as [Ht _]. specialize (Hsame s4). unfold gw_same, same_keys in Hsame.
      split; [congruence|]. rewrite Hsame, Hd. by eapply registered_later.
    + split; [done|]. by rewrite Hd.
    + split; [done|]. by rewrite Hd.
  - apply rest_nothing. rewrite (st_bind_run _ _ s3 s3 tt) by done. destruct (Htail s3) as [Ht _]. congruence.
Qed.

Lemma start_wizard_safe fmw leg tok g : steps gw_safe (start_wizard fmw leg tok g).
Proof. unfold start_wizard. st_all. Qed.
Hint Resolve start_wizard_safe : effects.


(** The build command pushes nothing, and neither command brings an account key
    to a key file. *)
Lemma drop_list_quiet l o : quiet (drop_list_accounts l o).
Proof. unfold drop_list_accounts. st_all. Qed.
Lemma drop_list_same l o : steps gw_same (drop_list_accounts l o).
Proof. unfold drop_list_accounts. st_all. Qed.
Hint Resolve drop_list_quiet drop_list_same : effects.
Lemma genesis_run_safe self s :
  gw_safe s (fst (genesis_run self s)) ∧
  (∀ github dl, gc_command self = Some (GenesisBuild github dl) → gw_quiet s (fst (genesis_run self s))).
Proof.
  unfold genesis_run. split.
  - assert (Hs : steps gw_safe (genesis_run self)); [|apply Hs]. unfold genesis_run. st_all.
  - intros github dl ->. match goal with |- gw_quiet s (fst (?m s)) => assert (Hs : quiet m); [st_all|apply Hs] end.
Qed.
End wizard.

(** ** Witness: a validator without a fork, whose pull request exists already *)
#[local] Existing Instances Mnemonic.sample_sha AppCfg.sample_sha3 answering_web config_node.
#[export] Instance sample_hub : GitHub (list (string * string)) := {|
  ans_api h := match h with
               | [_] => mk_response 200 "alice"
               | [_; _; _] => mk_response 202 "fork in progress"
               | _ => mk_response 422 "A pull request already exists for alice:main."
               end;
  ans_branches _ := inr "Not Found"%string;
  repo_at _ _ _ := [];
  error_text r := response_text r;
  login_from_json text := Ok text
|}.
Definition wizard_blob : IdentityBlob := mk_blob (Some (repeat 7 32)) None None (repeat 1 32).
Definition wizard_start : gw (list (string * string)) :=
  mk_gw (wizard_new "0LNetworkCommunity" "genesis" (Some config_home) TESTING) []
    ({[ config_home := <[VALIDATOR_FILE := DocBlob wizard_blob]> (GenesisRegistration.sample_home 7) ]},
     mk_dialog [Yes; No; Yes; Yes] []
       (mk_world [] {[ config_home := Dir; path_join config_home GITHUB_TOKEN_FILENAME := File "token" ]})).
Definition sample_start :=
  start_wizard (St := trace) (Inf := Z * list bytes * option sample_tx)
    TESTING None (fun _ => true) (fun _ => true) (fun _ => true) (Ok []) (fun _ => None) None None None false wizard_start.
