(* ===== verification/StorageCli.v ===== *)
(** * tools/storage/src: the storage command

    download_bundle.rs downloads the folders that restore an epoch from the git
    host, bootstrap.rs adds the genesis to a database at rest, and
    storage_cli.rs is the command that runs these and the restoration. *)
From Stdlib Require Import ZArith Lia Ascii.
From stdpp Require Import base option list strings gmap.
From S2P Require Import Prelude RustStr Json Effects Bytes FileSystem MoveTypes Recovery FolderNames NetworkPlaylist Compare AppCfg RestoreBundle Restore ReadSnapshot Node Rescue TxSender Dialog NodeFiles.

Open Scope list_scope.
Open Scope Z_scope.

(** A path in the text of another program; [Path::join] of it: an absolute path
    replaces the one it is joined to. *)
Definition components (s : string) : path := filter (fun c => c ≠ EmptyString ∧ c ≠ "."%string) (split_char "/" s).
Definition path_join_str (base : path) (s : string) : path :=
  if starts_with "/" s then components s else base ++ components s.

(** serde_json on a tree of the git host: its entries, and whether some are
    missing; a database of diem that is opened, and its bootstrap by a genesis
    transaction, which tells whether there was one; bcs. *)
Record TreeResponse := mk_tree { tree : list TreeItem; truncated : bool }.
Class StorageCrates (Tx : Type) := {
  tree_from_json : string → outcome TreeResponse;
  genesis_tx_from_bytes : bytes → outcome Tx;
  open_database : path → io unit;
  maybe_bootstrap : path → Tx → Waypoint → io bool
}.

(** ** storage_cli.rs: [Db] is the command of the diem crate. *)
Inductive StorageSub (DbTool : Type) :=
| Db (tool : DbTool)
| EpochRestore (bundle_path destination_db : path) (prevent_bootstrap : bool)
| DownloadRestoreBundle (owner repo branch : string) (epoch : Z) (destination : path)
| ExportSnapshot (manifest_path : path) (out_path : option path)
| BootstrapDb (db_path : path) (home_path genesis_path : option path) (waypoint : option string).
Arguments Db {DbTool} tool.
Arguments EpochRestore {DbTool} bundle_path destination_db prevent_bootstrap.
Arguments DownloadRestoreBundle {DbTool} owner repo branch epoch destination.
Arguments ExportSnapshot {DbTool} manifest_path out_path.
Arguments BootstrapDb {DbTool} db_path home_path genesis_path waypoint.

Section storage.
Context {Tx : Type} `{RestNode, Web, StorageCrates Tx, NodeYaml, AppCfgEnv}.
Context `{BundleCrates, RestoreControllers, SnapshotCrates, HashOrder, DiemAddress}.

(** ** download_bundle.rs *)
Definition snapshots_url (owner repo branch : string) : Url :=
  "https://api.github.com/repos/" +:+ owner +:+ "/" +:+ repo +:+ "/git/trees/" +:+ branch +:+ ":snapshots".
Definition tree_url (owner repo branch path : string) : Url :=
  "https://api.github.com/repos/" +:+ owner +:+ "/" +:+ repo +:+ "/git/trees/" +:+ branch +:+ ":" +:+ path +:+ "?recursive=1".
Definition content_url (owner repo branch path relative_path : string) : Url :=
  "https://raw.githubusercontent.com/" +:+ owner +:+ "/" +:+ repo +:+ "/" +:+ branch +:+ "/" +:+ path +:+ "/" +:+ relative_path.

Definition download_tree (send parse : string) (u : Url) : st dialog (list TreeItem) :=
  text ← st_result (context_res send) (http_get u);
  response ← st_lift (context_res parse (tree_from_json text));
  mret (tree response).
Definition find_epoch_folder (owner repo branch : string) (target_epoch : Z) : st dialog EpochFolders :=
  items ← download_tree "Failed to list snapshots directory" "Failed to parse snapshots directory contents"
            (snapshots_url owner repo branch);
  st_lift (find_closest_epoch_folder items target_epoch).

Definition create_dirs (p : path) : st dialog unit := in_files (io_update (create_dir_all p)).
Definition download_item (owner repo path branch : string) (base_dir : list string) (item : TreeItem) : st dialog unit :=
  if negb (String.eqb (item_type item) "blob") then mret tt else
  let output_path := path_join_str base_dir (item_path item) in
  _ ← match parent output_path with Some p => create_dirs p | None => mret tt end;
  content ← st_result (context_res ("Failed to download file: " +:+ item_path item))
              (http_get (content_url owner repo branch path (item_path item)));
  in_files (io_result (context_res ("Failed to write file: " +:+ item_path item)) (io_write output_path content)).
Definition download_github_folder (owner repo path branch : string) (output_dir : list string) : st dialog unit :=
  _ ← create_dirs output_dir;
  items ← download_tree "Failed to send tree request" "Failed to parse JSON tree response" (tree_url owner repo branch path);
  let base_dir := path_join_str output_dir (default EmptyString (file_name path)) in
  _ ← create_dirs base_dir;
  st_iter (download_item owner repo path branch base_dir) items.

Definition bundle_dir_of (destination : path) (epoch_num : Z) : path :=
  path_join destination ("epoch_" +:+ show_uint epoch_num +:+ "_restore_bundle").
Definition snapshot_path (folder : string) : string := "snapshots/" +:+ folder.
Definition dir_exists (p : path) : st dialog bool := in_files (io_read (fun fs => Ok (exists_ p fs))).
Definition download_restore_bundle (owner repo branch : string) (epoch_num : Z) (destination : path) : st dialog path :=
  let bundle_dir := bundle_dir_of destination epoch_num in
  here ← dir_exists bundle_dir;
  _ ← (if (here : bool) then mret tt else create_dirs bundle_dir);
  folders ← find_epoch_folder owner repo branch epoch_num;
  _ ← st_iter (fun folder => download_github_folder owner repo (snapshot_path folder) branch bundle_dir)
        [epoch_ending folders; state_epoch folders; transaction folders];
  mret bundle_dir.

(** ** bootstrap.rs *)
Definition bootstrap_db (db_path : path) (home_path genesis_path : option path) (waypoint : option string) : st dialog unit :=
  here ← dir_exists db_path;
  _ ← st_lift (ensure here ("DB path does not exist: " +:+ display db_path));
  let data_path := default global_config_dir home_path in
  here ← dir_exists data_path;
  _ ← st_lift (rust_assert here ("home path provided does not exist: " +:+ display data_path));
  genesis_blob ← match genesis_path with
                 | Some p => in_files (io_read (fun fs => context_res ("Failed to read genesis from " +:+ display p) (read_to_string p fs)))
                 | None =>
                     p ← download_genesis (Some data_path);
                     in_files (io_read (fun fs => context_res "Failed to read downloaded genesis blob" (read_to_string p fs)))
                 end;
  wp ← match waypoint with
       | Some wp_str => st_lift (context_res "Failed to parse waypoint" (waypoint_from_str wp_str))
       | None => get_genesis_waypoint (Some data_path)
       end;
  genesis_txn ← st_lift (context_res "Failed to deserialize genesis transaction" (genesis_tx_from_bytes (str_bytes genesis_blob)));
  _ ← in_files (io_result (context_res "Failed to open database") (open_database db_path));
  _ ← in_files (io_result (context_res "Failed to bootstrap database") (maybe_bootstrap db_path genesis_txn wp));
  mret tt.

Definition storage_run {DbTool : Type} (tool_run : DbTool → io unit) (command : option (StorageSub DbTool)) : st dialog unit :=
  match command with
  | Some (Db tool) => in_files (tool_run tool)
  | Some (ExportSnapshot manifest_path out_path) => in_files (manifest_to_json manifest_path out_path)
  | Some (EpochRestore bundle_path destination_db prevent_bootstrap) =>
      _ ← in_files (epoch_restore bundle_path destination_db);
      if prevent_bootstrap then mret tt else bootstrap_db destination_db None None None
  | Some (DownloadRestoreBundle owner repo branch epoch destination) =>
      _ ← download_restore_bundle owner repo branch epoch destination; mret tt
  | Some (BootstrapDb db_path home_path genesis_path waypoint) => bootstrap_db db_path home_path genesis_path waypoint
  | None => mret tt
  end.
End storage.

(** ** Lemmas *)
Lemma components_app base s : starts_with "/" s = false → path_join_str base s = base ++ components s.
Proof. unfold path_join_str. by intros ->. Qed.
Lemma file_name_plain p n : file_name p = Some n →
  n ≠ EmptyString ∧ n ≠ "."%string ∧ n ≠ ".."%string ∧ no_char (Ascii.eqb "/") n = true.
Proof.
  unfold file_name. destruct (last _) as [c|] eqn:E; [|done].
  apply last_Some in E as [l El]. assert (Hc : c ∈ l ++ [c]) by (apply elem_of_app; right; by left).
  rewrite <- El in Hc. apply list_elem_of_filter in Hc as [[H1 H2] Hc]. apply split_char_no_char in Hc.
  destruct (String.eqb_spec c "..") as [|Hne]; [done|]. by intros [= <-].
Qed.
Lemma split_char_sep c s1 s2 : split_char c (s1 +:+ String c s2) = split_char c s1 ++ split_char c s2.
Proof.
  unfold split_char. induction s1 as [|a s1 IH]; cbn [String.append split_pred]; [by rewrite Ascii.eqb_refl|].
  destruct (Ascii.eqb c a); [by rewrite IH|]. rewrite IH.
  pose proof (split_pred_not_nil (Ascii.eqb c) s1). by destruct (split_pred (Ascii.eqb c) s1).
Qed.
Lemma file_name_under dir p n : file_name p = Some n → file_name (dir +:+ String "/" n) = Some n.
Proof.
  intros (Hn & Hd & Hdd & Hs)%file_name_plain. unfold file_name.
  rewrite split_char_sep. unfold split_char at 2. rewrite (split_pred_no_char _ n) by done. rewrite filter_app, filter_cons_True by done. cbn [filter list_filter].
  rewrite last_snoc. destruct (String.eqb_spec n ".."); done.
Qed.

(** The folders chosen are different folders of the listing. *)
Lemma folder_names items n F :
  find_closest_epoch_folder items n = Ok F →
  let l := [epoch_ending F; state_epoch F; transaction F] in
  NoDup l ∧ Forall (λ folder, ∃ item, item ∈ items ∧ file_name (item_path item) = Some folder) l.
Proof.
  unfold find_closest_epoch_folder. intros ([] & _ & (a & Ha & (b & Hb & (v & _ & (c & Hc & <-%Ok_inj)%bind_ok)%bind_ok)%bind_ok)%bind_ok)%bind_ok.
  apply context_res_ok in Ha, Hb, Hc. cbn [epoch_ending state_epoch transaction].
  set (s := foldl sort_item _ items) in *. assert (Hl := sorted_listed items). cbn zeta in Hl. fold s in Hl.
  pose proof (find_closest_ending_spec (endings s) n) as H1. rewrite Ha in H1. destruct H1 as (k1 & (i1 & Hi1 & _ & Hn1 & Hp1)%Hl & _).
  pose proof (find_matching_state_spec (states s) n) as H2. rewrite Hb in H2. destruct H2 as (k2 & (i2 & Hi2 & _ & Hn2 & Hp2)%Hl & _).
  pose proof (find_closest_transaction_spec (transactions s) v) as H3. rewrite Hc in H3. destruct H3 as (k3 & (i3 & Hi3 & _ & Hn3 & Hp3)%Hl & _).
  cbn [fst snd] in *. unfold state_epoch_of in Hp2.
  assert (Hab : a ≠ b). { intros <-. rewrite (proj1 (prefixes_exclusive a)) in Hp2; [done|by eexists]. }
  assert (Hac : a ≠ c). { intros <-. rewrite (proj1 (proj2 (prefixes_exclusive a))) in Hp3; [done|by eexists]. }
  assert (Hbc : b ≠ c).
  { intros <-. rewrite (proj2 (proj2 (prefixes_exclusive b))) in Hp3; [done|]. destruct (parse_state_epoch_info b); [by eexists|done]. }
  split.
  - constructor; [set_solver|]. constructor; [set_solver|]. constructor; [set_solver|constructor].
  - constructor; [by exists i1|]. constructor; [by exists i2|]. constructor; [by exists i3|constructor].
Qed.

(** ** What a download leaves *)
Section downloads.
Context {Tx : Type} `{RestNode, Web, StorageCrates Tx}.

(** The git host gives paths as git has them: relative, without a way up. *)
Definition git_path (s : string) : Prop := starts_with "/" s = false ∧ ".."%string ∉ components s.
Definition git_trees : Prop := ∀ h text r,
  ans_get h = inl text → tree_from_json text = Ok r → Forall (λ i, git_path (item_path i)) (tree r).
Context (Hgit : git_trees).

Notation files d := (w_files (d_world d)).
Definition out_of (dir : path) (q : path) : Prop := ¬ dir `prefix_of` q.
(** The requests go on, and no file outside [dir] is lost or changed. *)
Definition within (dir : path) (d d' : dialog) : Prop :=
  d_web d `prefix_of` d_web d' ∧ kept (out_of dir) (files d) (files d').
#[local] Instance within_preorder dir : PreOrder (within dir).
Proof. split; [by intros d; split|]. intros d1 d2 d3 [Ha Hb] [Hc Hd]. split; by etrans. Qed.
Notation stays dir P m := (runs (fun _ => True) (within dir) P m).

Lemma stays_get dir u : stays dir (fun s => ∃ h, ans_get h = inl s) (http_get u).
Proof.
  intros d _. unfold http_get, web. cbn. split; [done|]. split; [split; [by eexists|done]|].
  intros s. destruct (ans_get _) eqn:E; [|done]. intros [= <-]. by eexists.
Qed.
Lemma stays_files dir {A : Type} (P : A → Prop) (m : io A) :
  keeps (out_of dir) m → (∀ fs, returns P (snd (m fs))) → stays dir P (in_files m).
Proof.
  intros Hm Hp d _. unfold in_files, within. specialize (Hm (files d)). specialize (Hp (files d)). by destruct (m _).
Qed.
Lemma stays_dirs dir p : stays dir (fun _ => True) (create_dirs p).
Proof. apply stays_files; [apply keeps_create_dir_all|done]. Qed.
Lemma stays_iter dir {A : Type} (f : A → st dialog unit) l :
  Forall (λ x, stays dir (fun _ => True) (f x)) l → stays dir (fun _ => True) (st_iter f l).
Proof.
  induction 1 as [|x l Hx _ IH]; cbn [st_iter]; [by apply (runs_ret _ _)|]. by run_bind (fun _ => True).
Qed.
Lemma stays_tree dir s1 s2 u : stays dir (Forall (λ i, git_path (item_path i))) (download_tree s1 s2 u).
Proof.
  unfold download_tree. run_bind (fun s => ∃ h, ans_get h = inl s).
  { eapply (runs_result _ _ _); [apply stays_get|]. intros r Hr a Ha%context_res_ok. by apply Hr. }
  intros text [h Hh]. run_bind (fun r => Forall (λ i, git_path (item_path i)) (tree r)).
  { run_lift. intros r Hr%context_res_ok. by eapply Hgit. }
  intros r Hr. by run_ret.
Qed.
Lemma stays_item dir owner repo p branch base item :
  dir `prefix_of` base → git_path (item_path item) → stays dir (fun _ => True) (download_item owner repo p branch base item).
Proof.
  intros Hd [Hi _]. unfold download_item. destruct (negb _); [by run_ret|].
  run_bind (fun _ => True); [destruct (parent _); [apply stays_dirs|by run_ret]|]. intros _ _.
  run_bind (fun _ => True); [apply (runs_result _ _ (λ s, ∃ h, ans_get h = inl s)); [apply stays_get|done]|]. intros content _.
  apply stays_files; [|done]. apply leaves_result, keeps_write. unfold out_of.
  rewrite components_app by done. intros Hn. apply Hn. by apply prefix_app_r.
Qed.
Lemma stays_folder dir owner repo p branch output_dir :
  dir `prefix_of` path_join_str output_dir (default EmptyString (file_name p)) →
  stays dir (fun _ => True) (download_github_folder owner repo p branch output_dir).
Proof.
  intros Hd. unfold download_github_folder. run_bind (fun _ => True); [apply stays_dirs|]. intros _ _.
  run_bind _; [apply stays_tree|]. intros items Hitems. run_bind (fun _ => True); [apply stays_dirs|]. intros _ _.
  apply stays_iter. eapply Forall_impl; [exact Hitems|]. intros i Hi. by apply stays_item.
Qed.
(** The place of a folder *)
Lemma folder_base dir out p n : file_name p = Some n →
  path_join_str out (default EmptyString (file_name (dir +:+ String "/" n))) = path_join out n.
Proof.
  intros Hn. rewrite (file_name_under dir p n Hn). cbn. apply file_name_plain in Hn as (H1' & H2' & H3' & H4').
  rewrite components_app.
  - unfold components, split_char. rewrite split_pred_no_char by done. by rewrite filter_cons_True by done.
  - destruct n as [|a n]; [done|]. cbn [no_char] in H4'. apply andb_true_iff in H4' as [Ha%negb_true_iff _].
    unfold starts_with. cbn [strip_prefix]. by rewrite Ha.
Qed.

(** What the web answered to a request made on the way *)
Definition fetched (d d' : dialog) (u : Url) (text : string) : Prop :=
  ∃ h, d_web d `prefix_of` h ∧ h ++ [HttpGet u] `prefix_of` d_web d' ∧ ans_get (h ++ [HttpGet u]) = inl text.
Lemma fetched_mono d0 d d' d1 u text :
  d_web d0 `prefix_of` d_web d → d_web d' `prefix_of` d_web d1 → fetched d d' u text → fetched d0 d1 u text.
Proof. intros Ha Hb (h & H1' & H2' & H3'). exists h. split; [by etrans|]. split; [by etrans|done]. Qed.
Lemma get_ok u d d' text : http_get u d = (d', Ok text) → fetched d d' u text ∧ files d' = files d.
Proof.
  unfold http_get, web. destruct (ans_get _) eqn:E; [|done]. intros [= <- ->]. split; [|done]. by exists (d_web d).
Qed.
Lemma web_files_ok {A : Type} (m : io A) d d' a : in_files m d = (d', Ok a) → d_web d' = d_web d ∧ m (files d) = (files d', Ok a).
Proof. unfold in_files. destruct (m _) as [fs r]. by intros [= <- ->]. Qed.
Lemma dirs_ok p d d' : create_dirs p d = (d', Ok tt) → d_web d' = d_web d ∧ kept (fun _ => True) (files d) (files d').
Proof.
  intros [Hw Hc]%web_files_ok. split; [done|]. intros q x _ Hq. pose proof (keeps_create_dir_all (fun _ => True) p (files d) q x I Hq) as Hk.
  by rewrite Hc in Hk.
Qed.
Lemma tree_ok s1 s2 u d d' items : download_tree s1 s2 u d = (d', Ok items) →
  ∃ text r, fetched d d' u text ∧ tree_from_json text = Ok r ∧ tree r = items ∧ files d' = files d.
Proof.
  unfold download_tree. intros (d1 & text & Ht & (d2 & r & Hr & Hi)%st_bind_ok)%st_bind_ok.
  injection Hi as <- <-. injection Hr as <- Hr%context_res_ok.
  unfold st_result in Ht. destruct (http_get u d) as [d1' r1] eqn:E. injection Ht as <- Ht%context_res_ok. subst r1.
  apply get_ok in E as [Hf Hw]. by exists text, r.
Qed.

(** An entry that is a file: its content is downloaded to its place, and nothing
    else changes. *)
Lemma item_ok owner repo p branch base item d d' :
  download_item owner repo p branch base item d = (d', Ok tt) → item_type item = "blob"%string →
  ∃ content, fetched d d' (content_url owner repo branch p (item_path item)) content ∧
    files d' !! path_join_str base (item_path item) = Some (File content) ∧
    kept (λ q, q ≠ path_join_str base (item_path item)) (files d) (files d').
Proof.
  unfold download_item. intros Hd Hb. rewrite Hb in Hd. cbn [negb] in Hd. rewrite String.eqb_refl in Hd. cbn [negb] in Hd.
  apply st_bind_ok in Hd as (d1 & [] & Hdir & (d2 & content & Hc & Hw)%st_bind_ok).
  assert (H1' : d_web d1 = d_web d ∧ kept (fun _ => True) (files d) (files d1)).
  { destruct (parent _); [by eapply dirs_ok|]. by injection Hdir as <-. }
  unfold st_result in Hc. destruct (http_get _ d1) as [d2' r] eqn:E. injection Hc as <- Hc%context_res_ok. subst r.
  apply get_ok in E as [Hf Hfs]. apply web_files_ok in Hw as [Hw2 Hw].
  unfold io_result in Hw. destruct (io_write _ _ _) as [fs r] eqn:Ew. injection Hw as -> Hr%context_res_ok. subst r.
  apply io_write_ok in Ew as [Hp Hq]. exists content. destruct H1' as [Hw1 Hk]. split; [|split; [done|]].
  - apply (fetched_mono _ d1 d2' _); [by rewrite Hw1|by rewrite Hw2|exact Hf].
  - intros q x Hne Hx. rewrite Hq by done. rewrite Hfs. by apply Hk.
Qed.
Lemma item_skip owner repo p branch base item d d' :
  download_item owner repo p branch base item d = (d', Ok tt) → item_type item ≠ "blob"%string → d' = d.
Proof. unfold download_item. intros Hd Hb. destruct (String.eqb_spec (item_type item) "blob"); [done|]. by injection Hd as <-. Qed.

(** Where the files of a tree are put, and that they are there, the content of an
    entry being the last with its path *)
Definition outputs (base : path) (items : list TreeItem) : list path :=
  omap (fun i => if String.eqb (item_type i) "blob" then Some (path_join_str base (item_path i)) else None) items.
Definition downloaded_items (owner repo branch p : string) (base : path) (items : list TreeItem) (d d' : dialog) : Prop :=
  ∀ q, q ∈ outputs base items → ∃ item content, item ∈ items ∧ item_type item = "blob"%string ∧
    q = path_join_str base (item_path item) ∧ fetched d d' (content_url owner repo branch p (item_path item)) content ∧
    files d' !! q = Some (File content).
Lemma items_ok owner repo p branch base items d d' :
  st_iter (download_item owner repo p branch base) items d = (d', Ok tt) →
  d_web d `prefix_of` d_web d' ∧ kept (λ q, q ∉ outputs base items) (files d) (files d') ∧
  downloaded_items owner repo branch p base items d d'.
Proof.
  revert d. induction items as [|i items IH]; intros d Hd; cbn [st_iter] in Hd.
  { injection Hd as <-. split; [done|]. split; [done|]. by intros q Hq%not_elem_of_nil. }
  apply st_bind_ok in Hd as (d1 & [] & Hi & Hd). apply IH in Hd as (Hw & Hk & Hall). clear IH.
  assert (Hmore : ∀ q item content, item ∈ items → item_type item = "blob"%string → q = path_join_str base (item_path item) →
    d_web d `prefix_of` d_web d1 → fetched d1 d' (content_url owner repo branch p (item_path item)) content →
    files d' !! q = Some (File content) → ∃ item content, item ∈ i :: items ∧ item_type item = "blob"%string ∧
    q = path_join_str base (item_path item) ∧ fetched d d' (content_url owner repo branch p (item_path item)) content ∧
    files d' !! q = Some (File content)).
  { intros q item content Hin Hb Hq H1' Hf Hfs. exists item, content. split; [by right|]. split; [done|]. split; [done|].
    split; [|done]. by apply (fetched_mono _ d1 d' _). }
  unfold downloaded_items, outputs. cbn [omap list_omap].
  destruct (String.eqb_spec (item_type i) "blob") as [Hb|Hb].
  - destruct (item_ok _ _ _ _ _ _ _ _ Hi Hb) as (content & Hf & Hq & Hki).
    assert (H1' : d_web d `prefix_of` d_web d1) by (destruct Hf as (h & Ha & Hc & _); etrans; [exact Ha|]; etrans; [|exact Hc]; by eexists).
    split; [by etrans|]. split.
    + intros q x [Hne Hn]%not_elem_of_cons Hx. apply Hk; [exact Hn|]. by apply Hki.
    + intros q [->|Hin]%elem_of_cons.
      * destruct (decide (path_join_str base (item_path i) ∈ outputs base items)) as [Hin|Hn].
        -- destruct (Hall _ Hin) as (item & c & ? & ? & ? & ? & ?). by eapply Hmore.
        -- exists i, content. split; [by left|]. split; [done|]. split; [done|]. split; [by apply (fetched_mono _ d d1 _)|]. by apply Hk.
      * destruct (Hall _ Hin) as (item & c & ? & ? & ? & ? & ?). by eapply Hmore.
  - apply item_skip in Hi as ->; [|done]. split; [done|]. split; [done|].
    intros q Hin. destruct (Hall _ Hin) as (item & c & ? & ? & ? & ? & ?). by eapply Hmore.
Qed.

(** A folder that was downloaded *)
Definition downloaded (owner repo branch p : string) (base : path) (d d' : dialog) : Prop :=
  ∃ text r, fetched d d' (tree_url owner repo branch p) text ∧ tree_from_json text = Ok r ∧
    downloaded_items owner repo branch p base (tree r) d d'.
Lemma outputs_under base items q :
  Forall (λ i, git_path (item_path i)) items → q ∈ outputs base items → base `prefix_of` q.
Proof.
  intros Hg (i & Hi & Hq)%list_elem_of_omap. rewrite Forall_forall in Hg. destruct (Hg i Hi) as [Hs _].
  destruct (String.eqb _ _); [|done]. injection Hq as <-. rewrite components_app by done. by eexists.
Qed.
Lemma downloaded_mono owner repo branch p base d0 d d' d1 :
  d_web d0 `prefix_of` d_web d → d_web d' `prefix_of` d_web d1 → kept (λ q, base `prefix_of` q) (files d') (files d1) →
  downloaded owner repo branch p base d d' → downloaded owner repo branch p base d0 d1.
Proof.
  intros Ha Hb Hk (text & r & Hf & Hr & Hall). exists text, r. split; [by apply (fetched_mono _ d d' _)|]. split; [done|].
  assert (Hg : Forall (λ i, git_path (item_path i)) (tree r)) by (destruct Hf as (h & _ & _ & Hh); by eapply Hgit).
  intros q Hq. pose proof (outputs_under _ _ _ Hg Hq) as Hu. destruct (Hall q Hq) as (i & c & Hi & Hb' & He & Hf' & Hc).
  exists i, c. split; [done|]. split; [done|]. split; [done|]. split; [by apply (fetched_mono _ d d' _)|by apply Hk].
Qed.
Lemma folder_ok owner repo p branch out d d' :
  download_github_folder owner repo p branch out d = (d', Ok tt) →
  downloaded owner repo branch p (path_join_str out (default EmptyString (file_name p))) d d'.
Proof.
  unfold download_github_folder. intros (d1 & [] & [Hw1 _]%dirs_ok & (d2 & items & Ht & Hd)%st_bind_ok)%st_bind_ok.
  apply st_bind_ok in Hd as (d3 & [] & [Hw3 _]%dirs_ok & (Hw & _ & Hall)%items_ok).
  apply tree_ok in Ht as (text & r & Hf & Hr & Hi & _). subst items.
  assert (Hw2 : d_web d1 `prefix_of` d_web d2) by (destruct Hf as (h & Ha & Hc & _); etrans; [exact Ha|]; etrans; [|exact Hc]; by eexists).
  rewrite Hw1 in Hw2. rewrite Hw3 in Hw.
  exists text, r. split; [apply (fetched_mono _ d1 d2 _); [by rewrite Hw1|done|done]|]. split; [done|].
  intros q Hq. destruct (Hall q Hq) as (i & c & Hi & Hb & He & Hf' & Hc). exists i, c. split; [done|]. split; [done|].
  split; [done|]. split; [|done]. apply (fetched_mono _ d3 d' _); [by rewrite Hw3|done|done].
Qed.
(** Folders of different names *)
Lemma path_join_apart (dir : path) n m q : n ≠ m → path_join dir n `prefix_of` q → out_of (path_join dir m) q.
Proof.
  intros Hne [k ->] [k' Hk]. unfold path_join in Hk. rewrite <- !app_assoc in Hk. apply app_inv_head in Hk. by injection Hk.
Qed.

Definition is_name (n : string) : Prop := ∃ p, file_name p = Some n.
Lemma snapshot_base dir n : is_name n → path_join_str dir (default EmptyString (file_name (snapshot_path n))) = path_join dir n.
Proof. intros [p Hp]. change (snapshot_path n) with ("snapshots" +:+ String "/" n). by eapply folder_base. Qed.
Lemma folders_ok owner repo branch dir l d d' :
  NoDup l → Forall is_name l →
  st_iter (fun folder => download_github_folder owner repo (snapshot_path folder) branch dir) l d = (d', Ok tt) →
  d_web d `prefix_of` d_web d' ∧ kept (λ q, Forall (λ n, out_of (path_join dir n) q) l) (files d) (files d') ∧
  Forall (λ n, downloaded owner repo branch (snapshot_path n) (path_join dir n) d d') l.
Proof.
  intros Hnd Hn. revert d. induction Hnd as [|n l Hnl Hnd IH]; intros d Hd; cbn [st_iter] in Hd.
  { by injection Hd as <-. }
  apply Forall_cons in Hn as [Hn Hl]. apply st_bind_ok in Hd as (d1 & [] & Hf & Hd).
  specialize (IH Hl d1 Hd) as (Hw & Hk & Hall).
  assert (Hs : within (path_join dir n) d d1).
  { assert (Hr : stays (path_join dir n) (fun _ => True) (download_github_folder owner repo (snapshot_path n) branch dir)).
    { apply stays_folder. by rewrite snapshot_base. }
    destruct (Hr d I) as (_ & Hr' & _). by rewrite Hf in Hr'. }
  destruct Hs as [Hw1 Hk1]. split; [by etrans|]. split.
  - intros q x [Ha Hb]%Forall_cons Hx. apply Hk; [done|]. by apply Hk1.
  - constructor.
    + apply folder_ok in Hf. rewrite snapshot_base in Hf by done. apply (downloaded_mono _ _ _ _ _ d d d1 d'); try done.
      intros q x Hq Hx. apply Hk; [|done]. apply Forall_forall. intros m Hm. eapply path_join_apart; [|done]. by intros ->.
    + eapply Forall_impl; [exact Hall|]. intros m Hm. by apply (downloaded_mono _ _ _ _ _ d d1 d' d').
Qed.

(** A git host whose trees have the paths of git.  However far the download
    of a restore bundle gets, no file outside the bundle's directory is lost or
    changed.  If it succeeds, the bundle has three folders of the listing the
    git host gave: the latest epoch ending and the latest snapshot not after the
    epoch, and the latest transactions not after the version of that snapshot;
    and of each folder every file of the tree the git host gave for it is there,
    with what the git host gave for its content. *)
Theorem download_restore_bundle_spec owner repo branch n destination d :
  let dir := bundle_dir_of destination n in
  let d' := fst (download_restore_bundle owner repo branch n destination d) in
  kept (out_of dir) (files d) (files d') ∧
  ∀ p, snd (download_restore_bundle owner repo branch n destination d) = Ok p →
    p = dir ∧ ∃ text listing F,
      fetched d d' (snapshots_url owner repo branch) text ∧ tree_from_json text = Ok listing ∧
      latest (listed parse_epoch_ending_number (tree listing)) n (epoch_ending F) ∧
      latest (listed state_epoch_of (tree listing)) n (state_epoch F) ∧
      (∃ e v, parse_state_epoch_info (state_epoch F) = Some (e, v) ∧
              latest (listed parse_transaction_number (tree listing)) v (transaction F)) ∧
      Forall (λ folder, downloaded owner repo branch (snapshot_path folder) (path_join dir folder) d d')
        [epoch_ending F; state_epoch F; transaction F].
Proof.
  intros dir d'. split.
  - assert (Hr : stays dir (fun _ => True) (download_restore_bundle owner repo branch n destination)).
    { unfold download_restore_bundle. fold dir. run_bind (fun _ => True); [by apply stays_files; [apply leaves_read; apply _|]|].
      intros here _. run_bind (fun _ => True); [destruct here; [by run_ret|apply stays_dirs]|]. intros _ _.
      run_bind (λ F, Forall is_name [epoch_ending F; state_epoch F; transaction F]).
      { unfold find_epoch_folder. run_bind _; [apply stays_tree|]. intros items _. run_lift. intros F HF.
        apply folder_names in HF as [_ HF]. eapply Forall_impl; [exact HF|]. intros x (i & _ & Hi). by eexists. }
      intros F HF. run_bind (fun _ => True); [|intros _ _; by run_ret]. apply stays_iter. eapply Forall_impl; [exact HF|].
      intros folder Hn. apply stays_folder. rewrite snapshot_base by done. by eexists. }
    apply (Hr d I).
  - intros p Hp. assert (Hd : download_restore_bundle owner repo branch n destination d = (d', Ok p)) by (rewrite <- Hp; apply surjective_pairing).
    revert Hd. unfold download_restore_bundle. fold dir. clearbody d'. clear Hp.
    intros (d1 & here & [Hw1 _]%web_files_ok & Hd)%st_bind_ok. apply st_bind_ok in Hd as (d2 & [] & Hc & Hd).
    assert (Hw2 : d_web d2 = d_web d1) by (destruct here; [by injection Hc as <-|by apply dirs_ok in Hc as [? _]]).
    apply st_bind_ok in Hd as (d3 & F & Hlist & (d4 & [] & Hall & Hp)%st_bind_ok). injection Hp as -> <-.
    unfold find_epoch_folder in Hlist. apply st_bind_ok in Hlist as (d5 & items & Ht & HF). injection HF as -> HF.
    apply tree_ok in Ht as (text & r & Hf & Hr & Hi & _). subst items.
    assert (Hw3 : d_web d2 `prefix_of` d_web d3) by (destruct Hf as (h & Ha & Hc' & _); etrans; [exact Ha|]; etrans; [|exact Hc']; by eexists).
    destruct (folder_names _ _ _ HF) as [Hnd Hnames].
    apply folders_ok in Hall as (Hw & _ & Hall); [|done|eapply Forall_impl; [exact Hnames|]; intros x (i & _ & Hi); by eexists].
    pose proof (find_closest_epoch_folder_spec (tree r) n) as Hlatest. rewrite HF in Hlatest. destruct Hlatest as (Hl1 & Hl2 & Hl3).
    split; [done|]. exists text, r, F. split; [|do 4 (split; [done|])].
    + apply (fetched_mono _ d2 d3 _); [by rewrite Hw2, Hw1|done|done].
    + eapply Forall_impl; [exact Hall|]. intros m Hm. apply (downloaded_mono _ _ _ _ _ d d3 d' d'); [|done|done|done].
      etrans; [|exact Hw3]. by rewrite Hw2, Hw1.
Qed.
End downloads.

(** ** The bootstrap of a database *)
Section bootstrap.
Context {Tx : Type} `{RestNode, Web, StorageCrates Tx, NodeYaml, AppCfgEnv}.
Notation files d := (w_files (d_world d)).

(** Without a database nothing is done.  When it succeeds with the genesis and the
    waypoint given, nothing is asked of the web, and the database was opened and
    given that genesis; whether it took it does not matter. *)
Lemma bootstrap_db_spec db home genesis wp d :
  let '(d', r) := bootstrap_db db home genesis wp d in
  (files d !! db = None → d' = d ∧ is_ok r = false) ∧
  (∀ p text, r = Ok tt → genesis = Some p → wp = Some text → d_web d' = d_web d ∧
     ∃ blob tx w fs1 b, files d !! p = Some (File blob) ∧ genesis_tx_from_bytes (str_bytes blob) = Ok tx ∧
       waypoint_from_str text = Ok w ∧ open_database db (files d) = (fs1, Ok tt) ∧
       maybe_bootstrap db tx w fs1 = (files d', Ok b)).
Proof.
  destruct (bootstrap_db db home genesis wp d) as [d' r] eqn:E. split.
  - intros Hn. unfold bootstrap_db in E. rewrite (st_bind_run (dir_exists db) _ d d false) in E.
    + by injection E as <- <-.
    + unfold dir_exists, in_files, io_read, exists_. rewrite Hn. by destruct d as [? ? []].
  - intros p text -> -> ->. unfold bootstrap_db in E.
    apply st_bind_ok in E as (d1 & b1 & [Hw1 H1']%web_files_ok & (d2 & [] & Hd2 & E)%st_bind_ok). injection Hd2 as <- _.
    apply io_read_ok in H1' as [Hf1 _].
    apply st_bind_ok in E as (d3 & b3 & [Hw3 H3']%web_files_ok & (d4 & [] & Hd4 & E)%st_bind_ok). injection Hd4 as <- _.
    apply io_read_ok in H3' as [Hf3 _].
    apply st_bind_ok in E as (d5 & blob & [Hw5 H5']%web_files_ok & E). apply io_read_ok in H5' as [Hf5 Hblob%context_res_ok].
    apply st_bind_ok in E as (d6 & w & Hd6 & E). injection Hd6 as <- Hwp%context_res_ok.
    apply st_bind_ok in E as (d7 & tx & Hd7 & E). injection Hd7 as <- Htx%context_res_ok.
    apply st_bind_ok in E as (d8 & [] & [Hw8 H8']%web_files_ok & E). apply st_bind_ok in E as (d9 & b & [Hw9 H9']%web_files_ok & E).
    injection E as <-. unfold io_result in H8', H9'.
    destruct (open_database db (files d5)) as [fs8 r8] eqn:E8. injection H8' as -> ->%context_res_ok.
    destruct (maybe_bootstrap db tx w (files d8)) as [fs9 r9] eqn:E9. injection H9' as -> ->%context_res_ok.
    split; [congruence|]. rewrite Hf3, Hf1 in *. unfold read_to_string in Hblob.
    destruct (files d !! p) as [[c|]|] eqn:Ep; [|done..]. apply Ok_inj in Hblob as ->.
    exists blob, tx, w, (files d8), b. split; [done|]. split; [done|]. split; [done|]. split; congruence.
Qed.
End bootstrap.

(** A restored database is bootstrapped unless that is prevented, with the genesis
    and the waypoint of the web. *)
Lemma storage_restore {Tx DbTool : Type} `{RestNode, Web, StorageCrates Tx, NodeYaml, AppCfgEnv}
    `{BundleCrates, RestoreControllers, SnapshotCrates, HashOrder, DiemAddress}
    (tool_run : DbTool → io unit) bundle_path destination prevent d d' :
  storage_run tool_run (Some (EpochRestore bundle_path destination prevent)) d = (d', Ok tt) →
  ∃ d1 p, in_files (epoch_restore bundle_path destination) d = (d1, Ok p) ∧
    if prevent then d' = d1 else bootstrap_db destination None None None d1 = (d', Ok tt).
Proof. intros (d1 & p & Hr & Hb)%st_bind_ok. exists d1, p. split; [done|]. destruct prevent; [by injection Hb|done]. Qed.

(** ** Witnesses: a git host that echoes what it is asked for *)
Definition echo_web : Web := {|
  ans_get h := match last h with Some (HttpGet u) => inl u | _ => inr "not a request"%string end;
  ans_versions _ _ := None;
  arrival _ l := l;
  url_parse s := Some s;
  playlist_from_json s := Err "not a playlist";
  chain_debug _ := "MAINNET"%string;
  arrival_law _ _ := reflexivity _
|}.
#[local] Existing Instance echo_web.
Definition sample_listing : list TreeItem :=
  [mk_item "epoch_ending_12-.ab" "tree"; mk_item "state_epoch_12_ver_90.cd" "tree"; mk_item "README.md" "blob";
   mk_item "transaction_1-.ef" "tree"; mk_item "transaction_91-.ef" "tree"]%string.
Definition sample_folder : list TreeItem := [mk_item "chunks" "tree"; mk_item "chunks/0.chunk.gz" "blob"; mk_item "manifest" "blob"]%string.
#[export] Instance sample_storage : StorageCrates unit := {|
  tree_from_json u := Ok (mk_tree (if ends_with ":snapshots" u then sample_listing else sample_folder) false);
  genesis_tx_from_bytes bs := Ok tt;
  open_database db := io_lift (Ok tt);
  maybe_bootstrap db tx wp := io_lift (Ok false)
|}.
Lemma sample_git : git_trees (Tx := unit).
Proof.
  intros h text r _ <-%Ok_inj. cbn [tree]. destruct (ends_with _ _).
  all: repeat constructor; vm_compute; set_solver.
Qed.
Definition download_dialog : dialog := mk_dialog [] [] (mk_world [] {[ ([] : path) := Dir; ["keep"%string] := File "this" ]}).
Definition sample_download := download_restore_bundle (Tx := unit) "0L" "archive" "main" 13 ["srv"%string] download_dialog.
Lemma download_restore_bundle_spec_witness :
  let dir := ["srv"; "epoch_13_restore_bundle"]%string in
  snd sample_download = Ok dir ∧
  kept (out_of dir) (w_files (d_world download_dialog)) (w_files (d_world (fst sample_download))) ∧
  ∃ F, latest (listed parse_epoch_ending_number sample_listing) 13 (epoch_ending F) ∧
    Forall (λ folder, downloaded (Tx := unit) "0L" "archive" "main" (snapshot_path folder) (path_join dir folder)
                        download_dialog (fst sample_download))
      [epoch_ending F; state_epoch F; transaction F].
Proof.
  intros dir.
  destruct (download_restore_bundle_spec (Tx := unit) sample_git "0L" "archive" "main" 13 ["srv"%string] download_dialog) as [Hk Ho].
  fold sample_download in Hk, Ho.
  assert (Hok : snd sample_download = Ok dir) by (vm_compute; reflexivity).
  split; [exact Hok|]. split; [exact Hk|].
  destruct (Ho dir Hok) as (_ & text & r & F & Hf & Hr & Hl & _ & _ & Hall).
  assert (Ht : text = snapshots_url "0L" "archive" "main").
  { destruct Hf as (h & _ & _ & Ha). cbn in Ha. rewrite last_snoc in Ha. by injection Ha as <-. }
  subst text. apply Ok_inj in Hr as <-. exists F. by split.
Defined.
