(* ===== verification/WalletCli.v ===== *)
(** * tools/wallet/src: the wallet command

    key_gen.rs, whoami.rs, the generation of keys in account_keys.rs and keys.rs,
    and wallet_cli.rs.  What is printed is kept, for a new mnemonic is shown only
    there; the randomness of the system is a stream. *)
From Stdlib Require Import ZArith Lia Ascii.
From stdpp Require Import base option list strings gmap.
From S2P Require Import Prelude RustStr Json Effects Bytes FileSystem MoveTypes WordList Mnemonic NetworkPlaylist AppCfg Node Dialog ConfigCli Wallet ValidatorKeys.

Open Scope list_scope.
Open Scope Z_scope.

Definition USER_FILE : string := "danger-user-private-keys.yaml".
Definition NEWLINE : string := String (ascii_of_nat 10) EmptyString.

Record WhoamiOpts := mk_whoami { show_validator : bool; legacy_address : bool; wo_mnemonic : option string }.
Inductive WalletSub :=
| Keygen (mnemonic : option string) (output_dir : option path)
| Legacy
| Whoami (args : WhoamiOpts).

(** The machine, how many keys were drawn, and what was printed *)
Record wallet_world := mk_ww { ww_machine : machine; ww_drawn : nat; ww_out : list string }.

(** [Display] of keys, and serde on what is shown or saved *)
Class KeyText := {
  public_key_to_string : bytes → string;
  public_identity_json : PublicIdentity → string;
  key_chain_json : KeyChain → outcome string;
  key_chain_yaml : KeyChain → bytes
}.

Section wallet_cli.
Context `{RestNode, Web, WalletCrypto, Sha256, DiemAddress, ValidatorCrypto, HexCrate, KeyText}.
Context (mode : NamedChain) (mnem_env : option string) (overwrite writable : string → bool).
Context (os_rng : nat → bytes) (current_dir : outcome path).

Definition on_machine {A : Type} (m : st machine A) : st wallet_world A := fun w =>
  let '(m', r) := m (ww_machine w) in (mk_ww m' (ww_drawn w) (ww_out w), r).
Definition println (lines : list string) : st wallet_world unit := fun w =>
  (mk_ww (ww_machine w) (ww_drawn w) (ww_out w ++ lines), Ok tt).
Definition draw : st wallet_world bytes := fun w =>
  (mk_ww (ww_machine w) (S (ww_drawn w)) (ww_out w), Ok (os_rng (ww_drawn w))).

(** ** wallet_library.rs and key_gen.rs *)
Definition wallet_library_new (data : bytes) : outcome WalletLibrary :=
  m ← expect_res "called `Result::unwrap()` on an `Err` value" (Mnemonic.new data);
  new_from_mnemonic m.
Definition keygen_of (data : bytes) : outcome (bytes * AccountAddress * WalletLibrary * string) :=
  w ← wallet_library_new data;
  let mnemonic_string := to_string (mnemonic w) in
  let '(w', r) := new_address w in
  '(auth_key, _) ← expect_res "Could not generate address" r;
  let account := derived_address auth_key in
  Ok (auth_key, account, w', mnemonic_string).
Definition keygen : st wallet_world (bytes * AccountAddress * WalletLibrary * string) :=
  data ← draw;
  st_lift (keygen_of data).

(** ** account_keys.rs *)
Definition DOTS : string := "...........................".
Definition keygen_lines (auth_key : bytes) (account : AccountAddress) (mnem : string) : list string :=
  ["0L Account Address:" +:+ NEWLINE +:+ DOTS +:+ NEWLINE +:+ addr_to_string account +:+ NEWLINE;
   "Authentication Key (for key rotation):" +:+ NEWLINE +:+ DOTS +:+ NEWLINE +:+ auth_key_to_string auth_key +:+ NEWLINE;
   "0L mnemonic:" +:+ NEWLINE +:+ DOTS;
   mnem;
   "WRITE THIS DOWN NOW. This is the last time you will see this mnemonic. It is not saved anywhere. Nobody can help you if you lose it."]%string.
Definition legacy_keygen (danger_print : bool) : st wallet_world KeyChain :=
  '(auth_key, account, wallet, mnem) ← keygen;
  _ ← (if danger_print then println (keygen_lines auth_key account mnem) else mret tt);
  st_lift (key_chain_new wallet).
Definition save_keys (self : KeyChain) (dir : path) : io unit :=
  json ← io_lift (key_chain_json self);
  io_write (path_join dir "legacy_keys.json") json.

(** ** utils.rs and keys.rs *)
Definition dir_default_to_current (maybe_dir : option path) : outcome path :=
  match maybe_dir with Some dir => Ok dir | None => current_dir end.
Definition prompt_yes (prompt : string) : st wallet_world bool :=
  st_result (expect_res "called `Result::unwrap()` on an `Err` value")
    (on_machine (on_snd (confirm (prompt +:+ " [yes/no] >")))).
Definition save_files (output_opt : option path) (vb fb : IdentityBlob) (pr : PrivateIdentity) (pu : PublicIdentity)
    : st wallet_world (IdentityBlob * IdentityBlob * PrivateIdentity) :=
  output_dir ← st_lift (dir_default_to_current output_opt);
  on_machine (save_in overwrite writable output_dir vb fb pr pu).
Definition user_keygen (output_opt : option path) : st wallet_world unit :=
  user_keys ← legacy_keygen true;
  match output_opt with
  | Some dir =>
      yes ← prompt_yes "Saving keys locally is VERY DANGEROUS, do you know what you are doing?";
      if (yes : bool) then
        on_machine (on_keys dir (fun d => write_key_file overwrite writable d USER_FILE (DocOther (key_chain_yaml user_keys))))
      else mret tt
  | None => mret tt
  end.
Definition validator_keygen (output_opt : option path)
    : st wallet_world (IdentityBlob * IdentityBlob * PrivateIdentity * PublicIdentity) :=
  legacy_keys ← legacy_keygen true;
  '(vb, fb, pr, pu) ← st_lift (generate_key_objects_from_legacy legacy_keys);
  '(vb, fb, pr) ← save_files output_opt vb fb pr pu;
  mret (vb, fb, pr, pu).
Definition refresh_to (mnem : string) (output_opt : option path) (keep_legacy_addr : bool)
    : st wallet_world (AccountAddress * bytes * PublicIdentity) :=
  '(vb, fb, pr, pu, legacy_keys) ← st_lift (make_validator_keys mnem keep_legacy_addr);
  _ ← save_files output_opt vb fb pr pu;
  mret (pu_account_address pu, auth_key (child_0_owner legacy_keys), pu).

(** ** key_gen.rs: [run], and the report it makes of a private key *)
Definition report (private_key : bytes) : string :=
  let k := get_account_from_private private_key in
  "====================================" +:+ NEWLINE +:+
  "Private key: " +:+ hex_encode private_key +:+ NEWLINE +:+
  "Public key: " +:+ public_key_to_string (ed25519_public private_key) +:+ NEWLINE +:+
  "Authentication key: " +:+ auth_key_to_string (auth_key k) +:+ NEWLINE +:+
  "Account address: " +:+ addr_to_hex_literal (account k) +:+ NEWLINE.
Definition key_gen_run (mnemonic : option string) (output_dir : option path) : st wallet_world string :=
  private_key ← match mnemonic with
                | Some mnemonic =>
                    '(_, account_address, wallet_lib) ← st_lift (get_account_from_mnem mnemonic);
                    _ ← refresh_to mnemonic output_dir false;
                    st_lift (sk ← get_private_key wallet_lib account_address; ed25519_try_from sk)
                | None =>
                    '(_, _, private_identity, _) ← validator_keygen output_dir;
                    mret (pr_account_private_key private_identity)
                end;
  mret (report private_key).

(** ** whoami.rs *)
Definition who_am_i (legacy_address_opt : bool) (mnem : option string) (show : bool) : st wallet_world unit :=
  keep_legacy_address ← (if legacy_address_opt then mret true
                         else on_machine (on_snd (confirm "Is this a legacy (v5 or prior) address?")));
  m ← on_machine (on_snd (validator_mnem mode mnem_env mnem));
  '(_, _, _, public_identity, _) ← st_lift (make_validator_keys m keep_legacy_address);
  println (if show then ["validator public credentials:"; public_identity_json public_identity]
           else ["owner address: " +:+ addr_to_string (pu_account_address public_identity);
                 "owner authentication key: " +:+ public_key_to_string (pu_account_public_key public_identity)])%string.

(** ** wallet_cli.rs *)
Definition wallet_run (command : WalletSub) : st wallet_world unit :=
  match command with
  | Whoami args => who_am_i (legacy_address args) (wo_mnemonic args) (show_validator args)
  | Legacy =>
      _ ← println ["this command will generate legacy keys and addresses from v5 addresses. You should only be using this for testing or debugging purposes"%string];
      _ ← legacy_keygen true;
      mret tt
  | Keygen mnemonic output_dir =>
      text ← key_gen_run mnemonic output_dir;
      println [text]
  end.
End wallet_cli.

(** ** Lemmas *)

(** A mnemonic has no blank around it. *)
Definition word_trimmed (x : string) : bool :=
  match x with String a _ => negb (is_ws a) && String.eqb (trim_end x) x | EmptyString => false end.
Lemma WORDS_trimmed : forallb word_trimmed WORDS = true.
Proof. vm_compute. reflexivity. Qed.
Lemma trim_end_app s t : trim_end t = t → t ≠ EmptyString → trim_end (s +:+ t) = s +:+ t.
Proof.
  intros Ht Hn. induction s as [|a s IH]; [done|]. cbn [String.append trim_end]. rewrite IH.
  destruct s; [by destruct t|done].
Qed.
Lemma trim_join m : m ≠ [] → Forall (λ x, word_trimmed x = true) m → trim (join " " m) = join " " m.
Proof.
  intros Hn Hm.
  assert (Hend : trim_end (join " " m) = join " " m ∧ ∃ a s, join " " m = String a s ∧ is_ws a = false).
  { induction Hm as [|x m Hx Hm IH]; [done|]. clear Hn. destruct x as [|a x]; [done|]. cbn in Hx.
    apply andb_true_iff in Hx as [Ha%negb_true_iff Ht%String.eqb_eq].
    destruct m as [|y m]; [split; [exact Ht|by exists a, x]|]. destruct IH as (IH & b & s & Hs & _); [done|].
    change (join " " (String a x :: y :: m)) with (String a x +:+ " " +:+ join " " (y :: m)).
    split; [|by eexists _, _]. rewrite <- str_app_assoc. apply trim_end_app; [done|]. by rewrite Hs. }
  unfold trim. destruct Hend as (He & a & s & Hs & Ha). rewrite Hs in *. cbn [trim_start]. by rewrite Ha.
Qed.

Section facts.
Context `{RestNode, Web, WalletCrypto, Sha256, DiemAddress, ValidatorCrypto, HexCrate, KeyText}.
Context (mode : NamedChain) (mnem_env : option string) (overwrite writable : string → bool).
Context (os_rng : nat → bytes) (current_dir : outcome path) (Hrng : ∀ n, is_array 32 (os_rng n)).

Lemma encoded_words m bits : encodes m bits → Forall (λ x, word_trimmed x = true) m.
Proof.
  intros (idxs & HF & _). pose proof WORDS_trimmed as Hn. rewrite forallb_forall in Hn.
  induction HF as [|x i m idxs Hx HF IH]; constructor; [|done].
  apply Hn, list_elem_of_In. by eapply list_elem_of_lookup_2.
Qed.
(** Randomness makes a mnemonic, whose text is read back. *)
Lemma drawn_mnemonic n : ∃ m, Mnemonic.new (os_rng n) = Ok m ∧ from (trim (to_string m)) = Ok m.
Proof.
  destruct (Hrng n) as [Hl Hb]. assert (Hv : valid_entropy_len (length (os_rng n)) = true) by by rewrite Hl.
  destruct (new_ok _ Hb Hv) as (m & Hm & He). exists m. split; [done|].
  unfold to_string. rewrite trim_join; [by apply (from_complete m (os_rng n))| |by eapply encoded_words].
  intros ->. apply encodes_length in He. rewrite (bip39_bits_length _ 8) in He by (done || lia). done.
Qed.
Lemma keygen_account n m ak acc lib :
  Mnemonic.new (os_rng n) = Ok m → from (trim (to_string m)) = Ok m →
  get_account_from_mnem (to_string m) = Ok (ak, acc, lib) →
  keygen_of (os_rng n) = Ok (ak, acc, lib, to_string m).
Proof.
  intros Hm Hf Ha. unfold get_account_from_mnem in Ha. rewrite Hf in Ha. cbn [mbind outcome_bind] in Ha.
  unfold keygen_of, wallet_library_new. rewrite Hm. cbn [expect_res mbind outcome_bind].
  destruct (new_from_mnemonic_ok m) as (w0 & Hw & _ & Hwm & _). rewrite Hw in *. cbn [mbind outcome_bind] in *.
  destruct (new_address w0) as [w' r]. rewrite Hwm. destruct r as [[ak' c]|e|p]; cbn in *; [|done..]. by injection Ha as <- <- <-.
Qed.
Lemma legacy_keygen_ok w :
  ∃ m ak acc lib kc, Mnemonic.new (os_rng (ww_drawn w)) = Ok m ∧ get_keys_from_mnem (to_string m) = Ok kc ∧
    get_account_from_mnem (to_string m) = Ok (ak, acc, lib) ∧ get_private_key lib acc = Ok (pri_key (child_0_owner kc)) ∧
    child_0_owner kc = mk_account_keys acc ak (pri_key (child_0_owner kc)) ∧
    legacy_keygen os_rng true w =
      (mk_ww (ww_machine w) (S (ww_drawn w)) (ww_out w ++ keygen_lines ak acc (to_string m)), Ok kc).
Proof.
  destruct (drawn_mnemonic (ww_drawn w)) as (m & Hm & Hf).
  destruct (account_from_mnem_spec _ _ Hf) as (ak & acc & lib & kc & Ha & _ & _ & _ & Hk & Ho & Hp & _).
  exists m, ak, acc, lib, kc. split; [done|]. split; [done|]. split; [done|]. split; [done|]. split; [done|].
  unfold legacy_keygen, keygen, draw, println, mbind, st_bind. cbn. rewrite (keygen_account _ _ _ _ _ Hm Hf Ha).
  unfold get_keys_from_mnem in Hk. rewrite Ha in Hk. cbn in Hk. by rewrite Hk.
Qed.

(** What is saved: the decoy instead of the account's key *)
Lemma save_files_ok out vb fb pr pu w w' vb' fb' pr' :
  save_files overwrite writable current_dir out vb fb pr pu w = (w', Ok (vb', fb', pr')) →
  ww_out w' = ww_out w ∧ pr_account_private_key pr' = repeat 0 32 ∧
  ∃ dir, dir_default_to_current current_dir out = Ok dir ∧
    default ∅ (fst (ww_machine w') !! dir) !! PUBLIC_KEYS_FILE = Some (DocPublic pu).
Proof.
  unfold save_files. intros (w1 & dir & Hd & Hs)%st_bind_ok. injection Hd as <- Hd.
  unfold on_machine in Hs. destruct (save_in _ _ _ _ _ _ _ _) as [m' r] eqn:E. injection Hs as <- ->. split; [done|].
  unfold save_in in E. apply st_bind_ok in E as (m1 & [] & _ & E%on_keys_ok).
  split.
  - unfold save_val_files in E. rewrite non_signing_key in E. destruct (write_key_files _ _ _ _) as [d [[]|e|p]]; cbn in E; try done.
    by injection E as _ _ _ <-.
  - exists dir. split; [done|]. apply save_val_files_ok in E as (_ & _ & Hok). by apply Hok.
Qed.
Lemma key_objects_account kc vb fb pr pu :
  generate_key_objects_from_legacy kc = Ok (vb, fb, pr, pu) → pu_account_address pu = account (child_0_owner kc).
Proof.
  unfold generate_key_objects_from_legacy. intros (ck & _ & (vnk & _ & (fnk & _ & (va & _ & Hg%Ok_inj)%bind_ok)%bind_ok)%bind_ok)%bind_ok.
  by injection Hg as <- <- <- <-.
Qed.

End facts.

(** ** Witness: a drawn account, whose key is not the one reported *)
#[local] Existing Instances Mnemonic.sample_sha ConfigFix.sample_web TxSender.quiet_node.
#[export] Instance sample_key_text : KeyText := {|
  public_key_to_string := fmt_02x;
  public_identity_json p := fmt_02x (pu_account_address p);
  key_chain_json kc := Ok (kc_mnemonic kc);
  key_chain_yaml kc := kc_seed kc
|}.
Definition sample_rng (n : nat) : bytes := repeat 5 32.
Lemma sample_rng_ok n : is_array 32 (sample_rng n).
Proof. split; [done|]. by apply Forall_repeat. Qed.
Definition wallet_start : wallet_world := mk_ww (∅, mk_dialog [] [] (mk_world [] {[ ["srv"%string] := Dir ]})) 0 [].
Definition sample_keygen :=
  key_gen_run (fun _ => true) (fun _ => true) sample_rng (Ok ["srv"%string]) None None wallet_start.
