(* ===== verification/Testnet.v ===== *)
(** * tools/testnet and core_types/fixtures.rs: a local testnet

    The personas that stand for the validators, and config_virgin.rs: key files,
    configuration and genesis of a testnet made in one directory, without the
    repository the ceremony uses. *)
From Stdlib Require Import ZArith Lia Ascii.
From stdpp Require Import base option list strings gmap.
From S2P Require Import Prelude RustStr Json Effects Bytes FileSystem MoveTypes Recovery HashValue Mnemonic Wallet.
From S2P Require Import ValidatorKeys GenesisRegistration GenesisFunctions GenesisVm GenesisBuilder F64 NetworkPlaylist.
From S2P Require Import RestoreBundle Pledge Compare AppCfg Node Rescue TxSender Dialog ConfigFix NodeFiles ConfigCli.

Open Scope list_scope.
Open Scope Z_scope.

(** ** fixtures.rs *)
Inductive TestPersona := Alice | Bob | Carol | Dave.
#[export] Instance persona_eq_dec : EqDecision TestPersona. Proof. solve_decision. Defined.

Definition persona_from_str (s : string) : outcome TestPersona :=
  let s := str_lower s in
  if String.eqb s "alice" then Ok Alice else if String.eqb s "bob" then Ok Bob
  else if String.eqb s "carol" then Ok Carol else if String.eqb s "dave" then Ok Dave else Err "not found".
Definition persona_text (p : TestPersona) : string :=
  match p with Alice => "alice" | Bob => "bob" | Carol => "carol" | Dave => "dave" end.
Definition persona_from (idx : nat) : outcome TestPersona :=
  match idx with
  | 0 => Ok Alice | 1 => Ok Bob | 2 => Ok Carol | 3 => Ok Dave
  | _ => Err "no default persona at this index"
  end%nat.
Definition persona_idx (p : TestPersona) : nat := match p with Alice => 0 | Bob => 1 | Carol => 2 | Dave => 3 end.
Definition get_persona_mnem (p : TestPersona) : string :=
  match p with
  | Alice => "talent sunset lizard pill fame nuclear spy noodle basket okay critic grow sleep legend hurry pitch blanket clerk impose rough degree sock insane purse"
  | Bob => "ring pumpkin cake build jungle cloth bronze aerobic mechanic baby love melt below sight cotton trophy inquiry sugar exhibit sure first match ten clarify"
  | Carol => "giraffe tower toward rapid flower obey piano circle better announce castle when enlist inquiry arrive segment leave develop confirm avoid meat loud fit parent"
  | Dave => "recall october regret kite undo choice outside season business wall quit arrest vacant arrow giggle vote ghost winter hawk soft cheap decide exhaust spare"
  end.

(** ** cli_output.rs *)
Record TestInfo := mk_test_info {
  ti_validator_address : AccountAddress;
  ti_val_set_index : nat;
  ti_data_dir : path;
  ti_api_endpoint : HostAndPort;
  ti_app_cfg_path : path
}.

(** ** config_virgin.rs *)
Definition operator_files (data_dir : path) : path := path_join data_dir "operator_files".
Definition persona_home (data_dir : path) (p : TestPersona) : path := path_join (operator_files data_dir) (persona_text p).

(** [Profile::set_private_key], on the profile [get_profile_mut(None)] finds *)
Definition set_private_key (key : bytes) (p : Profile) : Profile :=
  mk_profile (account p) (auth_key p) (Some key) (nickname p) (on_chain p) (balance p) (locale p) (statement p) (pledges p).
Definition set_profile_key (key : bytes) (cfg : AppCfg) : outcome AppCfg :=
  idx ← unwrap_or O (get_profile_idx None cfg);
  profile ← context_opt "no profile at index" (user_profiles cfg !! idx);
  Ok (with_profiles (<[idx := set_private_key key profile]> (user_profiles cfg)) cfg).

Definition coins (n : Z) : Z := u64_mul n (u64_wrap (10 ^ 6)).
Definition generate_testnet_state_for_val `{WalletCrypto} (v : ValidatorConfiguration) : LegacyRecoveryV6 :=
  mk_recovery (Some (vc_owner_account_address v)) (Some (auth_key_ed25519 (vc_owner_account_public_key v))) role_default
    (Some (Res.mk_balance (coins 10000000))) None None None None None None None None None None None None None None
    None (Some (Res.mk_pledges [Res.mk_pledge addr_ONE (coins 100000000) (coins 100000000) 0 (coins 100000000) 0]))
    None None None None None None.
Definition generate_testnet_state_for_vals `{WalletCrypto} (vals : list ValidatorConfiguration) : list LegacyRecoveryV6 :=
  generate_testnet_state_for_val <$> vals.

Section testnet.
Context {St Fw Va Ke Wr Ev Inf G : Type} `{OnChainDefaults, !GenesisVm St Fw Va Ke Wr Ev, VmSession St}.
Context `{!GenesisTools Fw Va Inf (Transaction (ChangeSet Ke Wr Ev)), !GenesisDbTools (Transaction (ChangeSet Ke Wr Ev))}.
Context `{GithubClient G, RegistrationCodec}.
Context `{RestNode, Web, NodeYaml, Hosts, WalletCrypto, Sha256, DiemAddress, ValidatorCrypto, Sha3, AppCfgEnv, TxSdk}.
Context (mode : NamedChain) (mnem_env : option string) (overwrite writable : string → bool).
(** The overwrite prompts of the build, the repository named "none", and
    serde_json on a recovery file *)
Context (confirm_path : path → bool) (no_client : G) (recovery_from_json : string → option (list LegacyRecoveryV6)).

Definition m_files (m : machine) : file_system := w_files (d_world (snd m)).

(** One host: the key files and configuration of its persona, and its
    registration.  The configuration with the key stays in memory. *)
Definition setup_one (data_dir : path) (chain : NamedChain) (idx : nat) (h : HostAndPort)
    : st machine (ValidatorConfiguration * TestInfo) :=
  p ← st_lift (persona_from idx);
  let mnem := get_persona_mnem p in
  let home := persona_home data_dir p in
  '(_, app_cfg) ← initialize_validator_files mode mnem_env overwrite writable (Some home) h (Some mnem) false (Some chain);
  w ← st_lift (get_keys_from_mnem mnem);
  app_cfg ← st_lift (expect_res "called `Result::unwrap()` on an `Err` value"
              (set_profile_key (pri_key (child_0_owner w)) app_cfg));
  v_reg ← st_lift (generate_validator_registration_config mnem h);
  profile ← st_lift (expect_res "called `Result::unwrap()` on an `Err` value" (get_profile mode None app_cfg));
  mret (v_reg, mk_test_info (account profile) idx home h (path_join (node_home (workspace app_cfg)) CONFIG_FILE_NAME)).
Fixpoint setup_loop (data_dir : path) (chain : NamedChain) (idx : nat) (host_list : list HostAndPort)
    : st machine (list (ValidatorConfiguration * TestInfo)) :=
  match host_list with
  | [] => mret []
  | h :: hs => x ← setup_one data_dir chain idx h; xs ← setup_loop data_dir chain (S idx) hs; mret (x :: xs)
  end.
Definition setup_recovery (legacy_data_path : option path) (val_cfg : list ValidatorConfiguration)
    : st machine (list LegacyRecoveryV6) :=
  m ← st_get;
  st_lift match legacy_data_path with
          | Some p => recovery_file_parse (file_in (m_files m)) recovery_from_json p
          | None => Ok (generate_testnet_state_for_vals val_cfg)
          end.
Definition setup (host_list : list HostAndPort) (chain : NamedChain) (data_dir : path) (legacy_data_path framework_mrb_path : option path)
    : st machine (list TestInfo) :=
  _ ← st_lift (ensure (3 <=? length host_list)%nat "cannot start a testnet with less than 3 nodes");
  _ ← st_lift (ensure (length host_list <=? 4)%nat "too many hosts provided");
  _ ← on_snd (in_files (io_update (create_dir_all (operator_files data_dir))));
  vals ← setup_loop data_dir chain 0 host_list;
  recovery ← setup_recovery legacy_data_path (fst <$> vals);
  _ ← on_snd (in_files (build confirm_path no_client data_dir framework_mrb_path recovery chain (Some (fst <$> vals))));
  mret (snd <$> vals).

(** ** What a testnet is *)
Definition config_of (data_dir : path) (p : TestPersona) : path := path_join (persona_home data_dir p) CONFIG_FILE_NAME.
Definition yaml_of (data_dir : path) (p : TestPersona) : path := path_join (persona_home data_dir p) NODE_YAML_FILE.
(** The files written for the personas from [idx] on, and those of the genesis *)
Definition val_files (data_dir : path) (idx : nat) : list path :=
  filter (fun p => idx ≤ persona_idx p)%nat [Alice; Bob; Carol; Dave] ≫= fun p => [config_of data_dir p; yaml_of data_dir p].
Definition genesis_files (data_dir : path) : list path :=
  path_join (GenesisBuilder.genesis_dir data_dir) <$> [GENESIS_FILE; WAYPOINT_FILE; BALANCES_FILE].

(** The validator of a host: its address is that of the persona's mnemonic, in
    the registration and in the configuration on disk, where no key is. *)
Definition validator_of (data_dir : path) (chain : NamedChain) (fs : file_system) (idx : nat) (h : HostAndPort)
    (v : ValidatorConfiguration) (i : TestInfo) : Prop :=
  ∃ p kc cfg prof, persona_from idx = Ok p ∧ get_keys_from_mnem (get_persona_mnem p) = Ok kc ∧
    i = mk_test_info (Wallet.account (child_0_owner kc)) idx (persona_home data_dir p) h (config_of data_dir p) ∧
    vc_owner_account_address v = ti_validator_address i ∧ vc_validator_host v = Some h ∧
    load (Some (ti_app_cfg_path i)) fs = Ok cfg ∧ network_playlist cfg = [localhost (Some chain)] ∧
    user_profiles cfg = [prof] ∧ AppCfg.account prof = ti_validator_address i ∧ test_private_key prof = None.

(** ** Lemmas *)
Lemma load_outside ps p cfg fs fs' : load (Some p) fs = Ok cfg → p ∉ ps → outside ps fs fs' → load (Some p) fs' = Ok cfg.
Proof.
  unfold load, exists_, read_to_string. cbn [default from_option]. unfold Datatypes.id. intros Hl Hp Ho.
  destruct (Ho p Hp) as [Hk _]. destruct (fs !! p) as [x|] eqn:Ex.
  - by rewrite (Hk x eq_refl).
  - rewrite bool_decide_false in Hl by by intros [? ?]. discriminate Hl.
Qed.
Lemma validator_outside data_dir chain ps fs fs' idx h v i :
  validator_of data_dir chain fs idx h v i → (∀ p, persona_from idx = Ok p → config_of data_dir p ∉ ps) → outside ps fs fs' →
  validator_of data_dir chain fs' idx h v i.
Proof.
  intros (p & kc & cfg & prof & Hp & Hk & Hi & Ho & Hh & Hl & Hrest) Hps Hout. exists p, kc, cfg, prof.
  do 5 (split; [done|]). split; [|exact Hrest]. eapply load_outside; [exact Hl| |exact Hout]. rewrite Hi. by apply Hps.
Qed.

Notation confined ps P m := (runs (fun _ => True) (m_outside ps) P m).
Lemma confined_get (ps : list path) : confined ps (fun _ => True) st_get.
Proof. intros m _. by cbn. Qed.
Lemma confined_mono {A : Type} (ps qs : list path) (P : A → Prop) (m : st machine A) : ps ⊆ qs → confined ps P m → confined qs P m.
Proof. intros Hs Hm. eapply runs_weaken; [exact Hm|]. intros m1 m2. by apply outside_mono. Qed.
Lemma val_files_in data_dir idx p : (idx ≤ persona_idx p)%nat → [config_of data_dir p; yaml_of data_dir p] ⊆ val_files data_dir idx.
Proof.
  intros Hi q Hq. unfold val_files. apply list_elem_of_bind. exists p. split; [done|].
  apply list_elem_of_filter. split; [done|]. destruct p; set_solver.
Qed.
Lemma persona_idx_from idx p : persona_from idx = Ok p → persona_idx p = idx.
Proof. by destruct idx as [|[|[|[|n]]]]; cbn; intros Hp; try done; apply Ok_inj in Hp as <-. Qed.
Lemma val_files_mono data_dir i j : (i ≤ j)%nat → val_files data_dir j ⊆ val_files data_dir i.
Proof.
  intros Hij q. unfold val_files. rewrite !list_elem_of_bind. intros (p & Hq & Hp). exists p. split; [done|].
  apply list_elem_of_filter in Hp as [Hp Hin]. apply list_elem_of_filter. split; [lia|done].
Qed.


Lemma setup_one_confined data_dir chain idx h : confined (val_files data_dir idx) (fun _ => True) (setup_one data_dir chain idx h).
Proof.
  unfold setup_one. run_bind (fun p => persona_from idx = Ok p); [run_lift; by intros p|]. intros p Hp.
  run_bind _.
  { eapply confined_mono; [|apply (init_confined mode mnem_env overwrite writable (Some (persona_home data_dir p)))].
    apply val_files_in. by rewrite (persona_idx_from _ _ Hp). }
  intros [pub cfg] _. run_bind (fun _ => True); [by run_lift|]. intros w _.
  run_bind (fun _ => True); [by run_lift|]. intros cfg' _. run_bind (fun _ => True); [by run_lift|]. intros v _.
  run_bind (fun _ => True); [by run_lift|]. intros prof _. by run_ret.
Qed.
Lemma setup_loop_confined data_dir chain hs idx : confined (val_files data_dir idx) (fun _ => True) (setup_loop data_dir chain idx hs).
Proof.
  revert idx. induction hs as [|h hs IH]; intros idx; cbn [setup_loop]; [by run_ret|].
  run_bind _; [apply setup_one_confined|]. intros x _.
  run_bind _; [eapply confined_mono; [|apply IH]; apply val_files_mono; lia|]. intros xs _. by run_ret.
Qed.

Lemma generate_reg_ok mnem h v kc : get_keys_from_mnem mnem = Ok kc → generate_validator_registration_config mnem h = Ok v →
  vc_owner_account_address v = Wallet.account (child_0_owner kc) ∧ vc_validator_host v = Some h.
Proof.
  intros Hk Hv. unfold generate_validator_registration_config in Hv. rewrite Hk in Hv. cbn [mbind outcome_bind] in Hv.
  apply bind_ok in Hv as ([[[vb fb] pr] pu] & Hg & Hv). apply Ok_inj in Hv as <-. split; [|done]. cbn.
  unfold generate_key_objects_from_legacy in Hg. apply bind_ok in Hg as (ck & _ & Hg). apply bind_ok in Hg as (vnk & _ & Hg).
  apply bind_ok in Hg as (fnk & _ & Hg). apply bind_ok in Hg as (va & _ & Hg). apply Ok_inj in Hg. by injection Hg as _ _ _ <-.
Qed.

(** The key set in the profile is nowhere but in memory. *)
Lemma set_profile_key_ok key cfg cfg' prof :
  user_profiles cfg = [prof] → set_profile_key key cfg = Ok cfg' →
  user_profiles cfg' = [set_private_key key prof] ∧ workspace cfg' = workspace cfg.
Proof.
  intros Hp Hs. unfold set_profile_key, get_profile_idx in Hs. rewrite Hp in Hs. cbn in Hs. apply Ok_inj in Hs as <-. done.
Qed.

Lemma setup_one_ok data_dir chain idx h m m' v i :
  setup_one data_dir chain idx h m = (m', Ok (v, i)) → validator_of data_dir chain (m_files m') idx h v i.
Proof.
  intros Hs. unfold setup_one in Hs. apply st_bind_ok in Hs as (m1 & p & [= <- Hp] & Hs).
  apply st_bind_ok in Hs as (m2 & [pub cfg] & Hi & Hs). apply st_bind_ok in Hs as (m3 & kc & [= <- Hk] & Hs).
  apply st_bind_ok in Hs as (m4 & cfg' & [= <- Hc] & Hs). apply st_bind_ok in Hs as (m5 & v' & [= <- Hv] & Hs).
  apply st_bind_ok in Hs as (m6 & prof' & [= <- Hg] & [= <- <- <-]).
  apply init_files_ok in Hi as (_ & _ & Hl & (prof & Hps & Ha & Htk) & Hn & _ & Hh & Hown). cbn [default from_option] in *.
  specialize (Hown _ kc eq_refl Hk). cbn [owner_address] in Hown. unfold owner_address in Hown.
  apply expect_res_ok in Hc. destruct (set_profile_key_ok _ _ _ _ Hps Hc) as [Hps' Hw'].
  apply expect_res_ok in Hg. destruct (generate_reg_ok _ _ _ _ Hk Hv) as [Hvo Hvh].
  assert (Hacc : AppCfg.account prof' = Wallet.account (child_0_owner kc)).
  { rewrite get_profile_lookup in Hg. unfold get_profile_idx in Hg. rewrite Hps' in Hg. cbn in Hg.
    apply Ok_inj in Hg as <-. cbn. congruence. }
  exists p, kc, cfg, prof. split; [done|]. split; [done|]. rewrite Hw', Hh, Hacc. split; [done|]. cbn [ti_validator_address ti_app_cfg_path].
  split; [done|]. split; [done|]. split; [exact Hl|]. split; [done|]. split; [done|]. split; [congruence|done].
Qed.

Lemma persona_home_inj data_dir p q a b : path_join (persona_home data_dir p) a = path_join (persona_home data_dir q) b → p = q ∧ a = b.
Proof.
  unfold path_join, persona_home, path_join. intros [Hh Hab]%app_inj_2; [|done]. apply app_inj_2 in Hh as [_ Hpq]; [|done].
  injection Hab as ->. split; [|done]. by destruct p, q.
Qed.
Lemma config_not_later data_dir p idx : persona_from idx = Ok p → config_of data_dir p ∉ val_files data_dir (S idx).
Proof.
  intros Hp Hin. unfold val_files in Hin. apply list_elem_of_bind in Hin as (q & Hq & Hin).
  apply list_elem_of_filter in Hin as [Hlt _]. apply persona_idx_from in Hp.
  assert (p = q) as ->; [|lia]. unfold config_of, yaml_of in Hq.
  apply elem_of_cons in Hq as [Hq|Hq]; [by apply persona_home_inj in Hq as [-> _]|].
  apply list_elem_of_singleton in Hq. by apply persona_home_inj in Hq as [-> _].
Qed.
Lemma config_not_genesis data_dir p : config_of data_dir p ∉ genesis_files data_dir.
Proof.
  unfold genesis_files, config_of, persona_home, operator_files, GenesisBuilder.genesis_dir, path_join. intros Hin.
  apply list_elem_of_fmap in Hin as (f & Hf & _). apply (f_equal length) in Hf. rewrite !length_app in Hf. cbn in Hf. lia.
Qed.

Lemma setup_loop_ok data_dir chain hs idx m m' vs :
  setup_loop data_dir chain idx hs m = (m', Ok vs) → length vs = length hs ∧
  ∀ k h, hs !! k = Some h → ∃ v i, vs !! k = Some (v, i) ∧ validator_of data_dir chain (m_files m') (idx + k) h v i.
Proof.
  revert idx m vs. induction hs as [|h hs IH]; intros idx m vs Hs; cbn [setup_loop] in Hs.
  - injection Hs as _ <-. split; [done|]. by intros k h.
  - apply st_bind_ok in Hs as (m1 & [v i] & H1' & Hs). apply st_bind_ok in Hs as (m2 & xs & H2' & [= <- <-]).
    destruct (IH _ _ _ H2') as [Hlen Hall]. split; [cbn; lia|]. intros [|k] h'; cbn.
    + intros [= <-]. exists v, i. split; [done|]. rewrite Nat.add_0_r.
      apply setup_one_ok in H1'. destruct (setup_loop_confined data_dir chain hs (S idx) m1 I) as (_ & Ho & _).
      rewrite H2' in Ho. eapply validator_outside; [exact H1'| |exact Ho]. intros p. apply config_not_later.
    + intros Hh. destruct (Hall k h' Hh) as (v' & i' & Hv & Hval). exists v', i'. split; [done|].
      by rewrite Nat.add_succ_r.
Qed.

Lemma confined_build data_dir mrb recovery chain vals :
  confined (genesis_files data_dir) (fun _ => True)
    (on_snd (in_files (build confirm_path no_client data_dir mrb recovery chain vals))).
Proof. apply confined_files, outside_build; unfold genesis_files; set_solver. Qed.

Lemma setup_confined hosts chain data_dir legacy mrb :
  confined (val_files data_dir 0 ++ genesis_files data_dir) (fun _ => True) (setup hosts chain data_dir legacy mrb).
Proof.
  unfold setup. run_bind (fun _ => True); [by run_lift|]. intros [] _. run_bind (fun _ => True); [by run_lift|]. intros [] _.
  run_bind _; [apply confined_files, outside_dirs|]. intros [] _.
  run_bind _; [eapply confined_mono; [|apply setup_loop_confined]; set_solver|]. intros vs _.
  run_bind (fun _ => True).
  { unfold setup_recovery. run_bind _; [apply confined_get|]. intros m _. by run_lift. }
  intros rec _. run_bind _; [eapply confined_mono; [|apply confined_build]; set_solver|]. intros fs _. by run_ret.
Qed.

Lemma setup_one_safe data_dir chain idx h : steps key_safe (setup_one data_dir chain idx h).
Proof.
  unfold setup_one. apply steps_bind; [apply _|apply steps_lift; apply _|]. intros p.
  apply steps_bind; [apply _|apply initialize_safe|]. intros [pub cfg]. st_all.
Qed.
Lemma setup_loop_safe data_dir chain hs idx : steps key_safe (setup_loop data_dir chain idx hs).
Proof.
  revert idx. induction hs as [|h hs IH]; intros idx; cbn [setup_loop]; [apply steps_ret; apply _|].
  apply steps_bind; [apply _|apply setup_one_safe|]. intros x. apply steps_bind; [apply _|apply IH|]. intros xs.
  apply steps_ret. apply _.
Qed.
Lemma setup_safe hosts chain data_dir legacy mrb : steps key_safe (setup hosts chain data_dir legacy mrb).
Proof.
  unfold setup. do 2 (apply steps_bind; [apply _|apply steps_lift; apply _|intros []]).
  apply steps_bind; [apply _|apply dialog_safe|]. intros [].
  apply steps_bind; [apply _|apply setup_loop_safe|]. intros vs.
  apply steps_bind; [apply _|unfold setup_recovery; apply steps_bind; [apply _|by intros s|]; intros m; apply steps_lift; apply _|].
  intros rec. apply steps_bind; [apply _|apply dialog_safe|]. intros fs. apply steps_ret. apply _.
Qed.

Lemma setup_ok hosts chain data_dir legacy mrb m m' infos :
  setup hosts chain data_dir legacy mrb m = (m', Ok infos) →
  (3 ≤ length hosts ≤ 4)%nat ∧
  ∃ vals recovery files, length vals = length hosts ∧ length infos = length hosts ∧
    (∀ k h, hosts !! k = Some h → ∃ v i, vals !! k = Some v ∧ infos !! k = Some i ∧
       validator_of data_dir chain (m_files m') k h v i) ∧
    (legacy = None → recovery = generate_testnet_state_for_vals vals) ∧
    built no_client data_dir mrb recovery chain (Some vals) (m_files m') files.
Proof.
  intros Hs. unfold setup in Hs. apply st_bind_ok in Hs as (m1 & [] & [= <- Hlo%ensure_ok] & Hs).
  apply st_bind_ok in Hs as (m2 & [] & [= <- Hhi%ensure_ok] & Hs).
  apply st_bind_ok in Hs as (m3 & [] & _ & Hs). apply st_bind_ok in Hs as (m4 & vs & Hl & Hs).
  apply st_bind_ok in Hs as (m5 & rec & Hr & Hs). apply st_bind_ok in Hs as (m6 & files & Hb & [= <- <-]).
  split; [split; apply Nat.leb_le; [exact Hlo|exact Hhi]|].
  assert (m5 = m4) as -> by by (unfold setup_recovery in Hr; injection Hr as <- _).
  pose proof (confined_build data_dir mrb rec chain (Some (fst <$> vs)) m4 I) as (_ & Ho & _). rewrite Hb in Ho. cbn [fst] in Ho.
  apply on_snd_ok in Hb as [_ Hb]. apply in_files_ok in Hb. apply build_ok in Hb.
  destruct (setup_loop_ok _ _ _ _ _ _ _ Hl) as [Hlen Hall].
  exists (fst <$> vs), rec, files. rewrite !length_fmap. split; [done|]. split; [done|]. split; [|split; [|exact Hb]].
  - intros k h Hk. destruct (Hall k h Hk) as (v & i & Hv & Hval). exists v, i. rewrite !list_lookup_fmap, Hv.
    split; [done|]. split; [done|]. eapply validator_outside; [exact Hval|intros p _; apply config_not_genesis|exact Ho].
  - intros ->. unfold setup_recovery in Hr. by injection Hr as <-.
Qed.

(** ** Properties *)

End testnet.

(** ** Witness: three hosts, with a digest that starts as the personas' checksums do *)
Definition persona_sha : Sha256.
Proof.
  refine {| sha256 bs := repeat (match head bs with Some 221 => 116 | Some 186 => 79 | Some 98 => 1 | _ => 131 end) 32 |}.
  intros bs. destruct (head bs) as [z|]; [|by apply (bool_decide_unpack _)].
  repeat case_match; by apply (bool_decide_unpack _).
Defined.
#[local] Existing Instances persona_sha AppCfg.sample_sha3 answering_web config_node.

Definition testnet_dir : path := ["net"%string].
Definition testnet_machine : machine := (∅, mk_dialog [] [] (mk_world [] {[ ([] : path) := Dir ]})).
Definition testnet_hosts : list HostAndPort := [mk_host "a" 6180; mk_host "b" 6180; mk_host "c" 6180].
Definition sample_setup : machine * outcome (list TestInfo) :=
  setup (St := trace) (Inf := Z * list bytes * option sample_tx) TESTING None (fun _ => true) (fun _ => true)
    (fun _ => false) ([] : list (string * string)) (fun _ => None) testnet_hosts TESTNET testnet_dir None (Some ["head.mrb"%string])
    testnet_machine.

