(* ===== verification/TwinNet.v ===== *)
(** * tools/testnet/src: a testnet that is the twin of another chain

    find_operators.rs, replace_validators_file.rs, config_twin.rs,
    restore_helper.rs and the configure command (cli_config.rs): after the setup
    of Testnet, a rescue on a reference database replaces the validators of the
    chain by those of the testnet. *)
From Stdlib Require Import ZArith Lia Ascii.
From stdpp Require Import base option list strings gmap.
From S2P Require Import Prelude RustStr Json Effects Bytes FileSystem MoveTypes Recovery FolderNames HashValue Mnemonic Wallet.
From S2P Require Import ValidatorKeys GenesisRegistration GenesisFunctions GenesisVm GenesisBuilder F64 NetworkPlaylist.
From S2P Require Import RestoreBundle Restore ReadSnapshot Pledge Compare AppCfg Node EntryCalls Payloads TxSender TxsCommunity KeyRotation TxsCommands.
From S2P Require Import UpgradeProposal RescueSession Rescue Dialog ConfigFix NodeFiles ConfigCli StorageCli Testnet.

Open Scope list_scope.
Open Scope Z_scope.

(** The text of a key file; [glob] of "start/**/operator*.yaml"; [fs_extra] copies
    what a directory holds over what is there, a database over a database. *)
Class TwinCrates (Db : Type) := {
  doc_text : document → string;
  glob_operators : path → file_system → list (outcome path);
  copy_content : path → path → io unit;
  overlay_db : Db → option Db → Db;
  copy_content_law src dst fs q : ¬ dst `prefix_of` q → fst (copy_content src dst fs) !! q = fs !! q
}.

(** ** restore_helper.rs *)
Definition one_step_restore_db {Tx : Type} `{RestNode, Web, StorageCrates Tx, NodeYaml, AppCfgEnv}
    `{BundleCrates, RestoreControllers, SnapshotCrates, HashOrder, DiemAddress}
    (data_path : path) (epoch : Z) (owner repo branch : option string) : st dialog path :=
  let owner_str := default "0LNetworkCommunity"%string owner in
  let repo_str := default "epoch-archive-mainnet"%string repo in
  let branch_str := default "v7.0.0"%string branch in
  backup_files_dir ← download_restore_bundle owner_str repo_str branch_str epoch data_path;
  let destination_db := path_join data_path ("db_" +:+ show_uint epoch) in
  _ ← in_files (epoch_restore backup_files_dir destination_db);
  mret destination_db.

Section twin.
Context {Db View CS : Type} `{RescueCrates Db View CS, RescueVm View CS, !TwinCrates Db}.
Context `{AppCfgEnv, OperatorCrates, UpgradeCrates, Sha3, HexCrate}.
Notation world := (rescue_world Db).

(** ** find_operators.rs *)
Fixpoint parse_operators (operator_files : list path) : io (list ValCredentials) :=
  match operator_files with
  | [] => mret []
  | p :: ps =>
      fun fs => match registration_from_operator_yaml (Some p) fs with
                | (fs', Ok cred) => (creds ← parse_operators ps; mret (cred :: creds)) fs'
                | (fs', Err _) => parse_operators ps fs'
                | (fs', Panic m) => (fs', Panic m)
                end
  end.
Definition found (entry : outcome path) : option path := match entry with Ok p => Some p | _ => None end.
Definition find_operator_configs (start_path : path) : io (list ValCredentials) :=
  _ ← io_read (fun fs => rust_assert (exists_ start_path fs) "start_path dir should exist");
  operator_files ← io_read (fun fs => Ok (omap found (glob_operators start_path fs)));
  val_credentials ← parse_operators operator_files;
  match val_credentials with
  | [] => io_lift (Err "No valid credentials could be parsed from operator files")
  | _ => io_lift (Ok val_credentials)
  end.

(** ** replace_validators_file.rs *)
Definition replace_validators_blob (db_path : path) (creds : list ValCredentials) (output_dir : path) (upgrade_mrb_path : option path)
    : st world path :=
  gen_tx ← on_latest db_path (fun view fs => register_and_replace_validators_changeset view fs creds upgrade_mrb_path None);
  files (save_rescue_blob gen_tx (path_join output_dir REPLACE_VALIDATORS_BLOB)).

(** ** config_twin.rs *)
Definition overlay (src dst : path) : st world unit := fun w =>
  (mk_rescue match rw_dbs w !! src with
             | Some db => <[dst := overlay_db db (rw_dbs w !! dst)]> (rw_dbs w)
             | None => rw_dbs w
             end (rw_files w), Ok tt).
Definition copy_db (src dst : path) : st world unit :=
  _ ← files (io_read (fun fs => ensure (exists_ src fs) "Path does not exist or you don't have access"));
  _ ← files (copy_content src dst);
  overlay src dst.
Definition twin_db (home_path : path) : path := path_join (path_join home_path "data") "db".
Definition configure_twin (home_path reference_db : path) (upgrade_mrb_path : option path) : st world unit :=
  _ ← files (io_read (fun fs => rust_assert (exists_ home_path fs) "home data path should exist"));
  let destination_db := twin_db home_path in
  _ ← files (io_update (create_dir_all destination_db));
  _ ← copy_db reference_db destination_db;
  _ ← files (io_read (fun fs => rust_assert (exists_ destination_db fs) "destination db should exist"));
  val_credentials ← files (find_operator_configs home_path);
  rescue_blob_path ← replace_validators_blob reference_db val_credentials home_path upgrade_mrb_path;
  wp ← one_step_apply_rescue_on_db reference_db rescue_blob_path;
  let config_path := path_join home_path NODE_YAML_FILE in
  _ ← files (post_rescue_node_file_updates config_path wp rescue_blob_path);
  mret tt.

(** ** Lemmas *)
Lemma registration_same p fs : fst (registration_from_operator_yaml p fs) = fs.
Proof.
  unfold registration_from_operator_yaml, read_operator_yaml, mbind, io_bind, io_read, io_lift.
  destruct (read_to_string _ fs) as [s|e|m]; [|done..]. by destruct (operator_config_from_yaml s).
Qed.
Lemma parse_operators_same l fs : fst (parse_operators l fs) = fs.
Proof.
  revert fs. induction l as [|p l IH]; intros fs; cbn [parse_operators]; [done|].
  pose proof (registration_same (Some p) fs) as Hr. destruct (registration_from_operator_yaml (Some p) fs) as [fs' [c|e|m]];
    cbn [fst] in Hr; subst fs'; [|apply IH|done].
  specialize (IH fs). unfold mbind, io_bind. by destruct (parse_operators l fs) as [fs' [cs|e|m]].
Qed.
Lemma find_operators_ok p fs fs' creds : find_operator_configs p fs = (fs', Ok creds) → fs' = fs ∧ creds ≠ [].
Proof.
  intros Hf. unfold find_operator_configs in Hf. apply io_bind_ok in Hf as (f1 & [] & [-> _]%io_read_ok & Hf).
  apply io_bind_ok in Hf as (f2 & l & [-> _]%io_read_ok & Hf). apply io_bind_ok in Hf as (f3 & cs & Hc & Hf).
  pose proof (parse_operators_same l fs) as Hs. rewrite Hc in Hs. cbn in Hs. subst f3.
  destruct cs as [|c cs]; apply io_lift_ok in Hf as [-> Hf]; [done|]. by apply Ok_inj in Hf as <-.
Qed.

Lemma replace_blob_ok d creds out mrb (w w' : world) blob :
  replace_validators_blob d creds out mrb w = (w', Ok blob) →
  blob = path_join out REPLACE_VALIDATORS_BLOB ∧ rw_dbs w' = rw_dbs w ∧ (∀ q, q ≠ blob → rw_files w' !! q = rw_files w !! q) ∧
  ∃ db view cs, rw_dbs w !! d = Some db ∧ latest_view db = Ok view ∧
    register_and_replace_validators_changeset view (rw_files w) creds mrb None = Ok cs ∧
    load_genesis_txn blob (rw_files w') = Ok (GenesisTransaction (WsDirect cs)).
Proof.
  intros Hr. apply st_bind_ok in Hr as (w1 & tx & Ht & Hr). apply on_latest_ok in Ht as (-> & db & view & cs & Hd & Hv & Hc & ->).
  apply Rescue.files_ok in Hr as (fs' & Hs & ->). apply io_bind_ok in Hs as (f1 & bs & Hbs & Hs). apply io_lift_ok in Hbs as [-> Hbs].
  apply io_bind_ok in Hs as (f2 & [] & Hw & [= <- <-]). apply io_write_ok in Hw as [Hb Hk].
  destruct (tx_bytes_law _ bs Hbs) as [Hbytes Hback]. cbn [rw_dbs rw_files].
  split; [done|]. split; [done|]. split; [done|]. exists db, view, cs. split; [done|]. split; [done|]. split; [done|].
  unfold load_genesis_txn, read_to_string. rewrite Hb. cbn. by rewrite str_bytes_bytes_str.
Qed.

Lemma one_step_ok d p (w w' : world) wp :
  one_step_apply_rescue_on_db d p w = (w', Ok wp) →
  ∃ tx db db', load_genesis_txn p (rw_files w) = Ok tx ∧ rw_dbs w !! d = Some db ∧ calculate_genesis db tx = Ok (wp, Ok db') ∧
    w' = mk_rescue (<[d := db']> (rw_dbs w)) (rw_files w).
Proof.
  intros Ho. pose proof Ho as Ho2. unfold one_step_apply_rescue_on_db in Ho2.
  apply st_bind_ok in Ho2 as (w1 & o & Hd & _). apply bootstrap_dry in Hd as (-> & tx & db & n & wp' & c & Hl & Hg & Hdb & Hn & Hc & _).
  rewrite (one_step_eval d p w tx db n wp' c) in Ho by done. destruct (wp_version wp' =? n); [|done].
  destruct c as [db'|e|m]; [|done..]. injection Ho as <- <-. by exists tx, db, db'.
Qed.

Lemma post_rescue_ok c wp blob fs fs' node :
  post_rescue_node_file_updates c wp blob fs = (fs', Ok node) →
  ∃ s out, fs !! c = Some (File s) ∧ fs' !! c = Some (File out) ∧ node_config_from_yaml out = Ok node ∧
    nc_waypoint node = FromConfig wp ∧ nc_genesis node = None ∧ nc_genesis_file_location node = blob.
Proof.
  intros Hp. apply io_bind_ok in Hp as (f1 & s & Hs & Hp). apply io_read_ok in Hs as [-> Hs].
  apply io_bind_ok in Hp as (f2 & nc & Hn & Hp). apply io_lift_ok in Hn as [-> Hn].
  apply io_bind_ok in Hp as (f3 & nc' & Hm & Hp). apply io_read_ok in Hm as [-> Hm].
  unfold make_initial_safety_rules in Hm. apply bind_ok in Hm as (u & _ & <-%Ok_inj).
  apply io_bind_ok in Hp as (f4 & out & Ho & Hp). apply io_lift_ok in Ho as [-> Ho]. apply node_config_law in Ho.
  apply io_bind_ok in Hp as (f5 & [] & Hw & [= <- <-]). apply io_write_ok in Hw as [Hw _].
  exists s, out. split; [|done]. unfold read_to_string in Hs. destruct (fs !! c) as [[x|]|]; [|done..]. by apply Ok_inj in Hs as <-.
Qed.

(** ** What becomes of the two databases *)
Definition twin_yaml (home : path) : path := path_join home NODE_YAML_FILE.
Definition twin_blob (home : path) : path := path_join home REPLACE_VALIDATORS_BLOB.

(** The files of the home directory itself are those there were while the
    database is copied. *)
Lemma home_not_in_db home name : ¬ twin_db home `prefix_of` path_join home name.
Proof. intros Hp%prefix_length. unfold twin_db, path_join in Hp. rewrite !length_app in Hp. cbn in Hp. lia. Qed.
Lemma copied_files home ref (w1 w2 : world) name s :
  (files (io_update (create_dir_all (twin_db home))) ≫= fun _ => copy_db ref (twin_db home)) w1 = (w2, Ok tt) →
  rw_files w2 !! path_join home name = Some (File s) → rw_files w1 !! path_join home name = Some (File s).
Proof.
  intros Hc Hs. apply st_bind_ok in Hc as (w3 & [] & Hd & Hc). apply Rescue.files_ok in Hd as (f1 & Hd & ->).
  apply st_bind_ok in Hc as (w4 & [] & He & Hc). apply Rescue.files_ok in He as (f2 & He & ->). apply io_read_ok in He as [-> _].
  apply st_bind_ok in Hc as (w5 & [] & Hf & Hc). apply Rescue.files_ok in Hf as (f3 & Hf & ->).
  unfold overlay in Hc. injection Hc as <-. cbn [rw_files] in *.
  pose proof (copy_content_law ref (twin_db home) f1 _ (home_not_in_db home name)) as Hl. rewrite Hf in Hl. cbn [fst] in Hl.
  rewrite Hl in Hs. unfold io_update in Hd. destruct (create_dir_all _ _) as [f|e|m] eqn:Ec; [|done..]. injection Hd as ->.
  by apply create_dir_all_dirs with (1 := Ec).
Qed.
Lemma copied_dbs home ref (w1 w2 : world) :
  (files (io_update (create_dir_all (twin_db home))) ≫= fun _ => copy_db ref (twin_db home)) w1 = (w2, Ok tt) →
  rw_dbs w2 = match rw_dbs w1 !! ref with
              | Some db => <[twin_db home := overlay_db db (rw_dbs w1 !! twin_db home)]> (rw_dbs w1)
              | None => rw_dbs w1
              end.
Proof.
  intros Hc. apply st_bind_ok in Hc as (w3 & [] & Hd & Hc). apply Rescue.files_ok in Hd as (f1 & Hd & ->).
  apply st_bind_ok in Hc as (w4 & [] & He & Hc). apply Rescue.files_ok in He as (f2 & He & ->).
  apply st_bind_ok in Hc as (w5 & [] & Hf & Hc). apply Rescue.files_ok in Hf as (f3 & Hf & ->).
  unfold overlay in Hc. by injection Hc as <-.
Qed.

Definition twinned (home ref : path) (mrb : option path) (w w' : world) : Prop :=
  ∃ db0 db' creds view fs1 cs wp out node,
    rw_dbs w !! ref = Some db0 ∧ creds ≠ [] ∧ latest_view db0 = Ok view ∧
    register_and_replace_validators_changeset view fs1 creds mrb None = Ok cs ∧
    calculate_genesis db0 (GenesisTransaction (WsDirect cs)) = Ok (wp, Ok db') ∧
    rw_dbs w' = <[ref := db']> (<[twin_db home := overlay_db db0 (rw_dbs w !! twin_db home)]> (rw_dbs w)) ∧
    rw_files w' !! twin_yaml home = Some (File out) ∧ node_config_from_yaml out = Ok node ∧
    nc_waypoint node = FromConfig wp ∧ nc_genesis_file_location node = twin_blob home.

Lemma configure_twin_ok home ref mrb (w w' : world) :
  configure_twin home ref mrb w = (w', Ok tt) →
  (∃ s, rw_files w !! twin_yaml home = Some (File s)) ∧ (ref ≠ twin_db home → twinned home ref mrb w w').
Proof.
  intros Hc. unfold configure_twin in Hc. apply st_bind_ok in Hc as (w1 & [] & He & Hc).
  apply Rescue.files_ok in He as (f1 & He & ->). apply io_read_ok in He as [-> _].
  assert (Hc' : (((files (io_update (create_dir_all (twin_db home))) ≫= fun _ => copy_db ref (twin_db home)) ≫= fun _ =>
    _ ← files (io_read (fun fs => rust_assert (exists_ (twin_db home) fs) "destination db should exist"));
    val_credentials ← files (find_operator_configs home);
    rescue_blob_path ← replace_validators_blob ref val_credentials home mrb;
    wp ← one_step_apply_rescue_on_db ref rescue_blob_path;
    _ ← files (post_rescue_node_file_updates (twin_yaml home) wp rescue_blob_path); mret tt)
      (mk_rescue (rw_dbs w) (rw_files w)) = (w', Ok tt))).
  { rewrite <- Hc. unfold mbind, st_bind. destruct (files _ _) as [x [[]|e|m]]; [|done..]. reflexivity. }
  clear Hc. apply st_bind_ok in Hc' as (w2 & [] & Hcopy & Hc). pose proof (copied_dbs _ _ _ _ Hcopy) as Hdbs. cbn [rw_dbs] in Hdbs.
  pose proof (fun name s => copied_files _ _ _ _ name s Hcopy) as Hfiles. cbn [rw_files] in Hfiles. clear Hcopy.
  apply st_bind_ok in Hc as (w3 & [] & Ha & Hc). apply Rescue.files_ok in Ha as (f3 & Ha & ->). apply io_read_ok in Ha as [-> _].
  apply st_bind_ok in Hc as (w4 & creds & Hcr & Hc). apply Rescue.files_ok in Hcr as (f4 & Hcr & ->).
  apply find_operators_ok in Hcr as [-> Hne']. cbn [rw_dbs rw_files] in *.
  apply st_bind_ok in Hc as (w5 & blob & Hb & Hc). apply replace_blob_ok in Hb as (-> & Hd5 & Hk & db & view & cs & Hd & Hv & Hcs & Hl).
  apply st_bind_ok in Hc as (w6 & wp & Ho & Hc). apply one_step_ok in Ho as (tx & db1 & db' & Hl' & Hd1 & Hcg & ->).
  rewrite Hl in Hl'. apply Ok_inj in Hl' as <-. cbn [rw_dbs rw_files] in *.
  apply st_bind_ok in Hc as (w7 & node & Hp & [= <-]). apply Rescue.files_ok in Hp as (f7 & Hp & ->).
  apply post_rescue_ok in Hp as (s & out & Hs & Hout & Hnode & Hwp & _ & Hgl). cbn [rw_dbs rw_files] in *.
  rewrite Hk in Hs by by intros [_ Hx]%app_inj_2. split; [exists s; by apply Hfiles|]. intros Hne.
  rewrite Hd5, Hd in Hd1. injection Hd1 as <-. destruct (rw_dbs w !! ref) as [db0|] eqn:Hdb0.
  - rewrite Hdbs, lookup_insert_ne in Hd by done. rewrite Hdb0 in Hd. injection Hd as <-.
    exists db0, db', creds, view, (rw_files w2), cs, wp, out, node. rewrite Hd5, Hdbs. done.
  - rewrite Hdbs, Hdb0 in Hd. done.
Qed.
End twin.

(** ** cli_config.rs *)
Record TestnetConfigOpts := mk_testnet_opts {
  to_host : list HostAndPort;
  to_test_dir : option path;
  to_chain_name : option NamedChain;
  to_migrate_legacy : option path
}.
(** A machine and the databases on it *)
Notation testnet_world Db := (machine * gmap path Db)%type.

Section configure.
Context {Db View CS : Type} `{RescueCrates Db View CS, RescueVm View CS, !TwinCrates Db}.
Context {St Fw Va Ke Wr Ev Inf G : Type} `{OnChainDefaults, !GenesisVm St Fw Va Ke Wr Ev, VmSession St}.
Context `{!GenesisTools Fw Va Inf (GenesisVm.Transaction (ChangeSet Ke Wr Ev)), !GenesisDbTools (GenesisVm.Transaction (ChangeSet Ke Wr Ev))}.
Context `{GithubClient G, RegistrationCodec, OperatorCrates, UpgradeCrates, HexCrate}.
Context `{RestNode, Web, NodeYaml, Hosts, WalletCrypto, Sha256, DiemAddress, ValidatorCrypto, Sha3, AppCfgEnv, TxSdk}.
Context (mode : NamedChain) (mnem_env : option string) (overwrite writable : string → bool).
Context (confirm_path : path → bool) (no_client : G) (recovery_from_json : string → option (list LegacyRecoveryV6)).

(** The key files as texts, and all files of the machine *)
Definition key_files (keys : gmap path directory) : file_system :=
  list_to_map (map_to_list keys ≫= fun '(home, dir) =>
    (fun '(name, d) => (path_join home name, File (doc_text d))) <$> map_to_list dir).
Definition disk (m : machine) : file_system := key_files (fst m) ∪ m_files m.
Definition with_files (m : machine) (fs : file_system) : machine :=
  (fst m, mk_dialog (d_answers (snd m)) (d_web (snd m)) (mk_world (w_history (d_world (snd m))) fs)).
(** A rescue reads the key files and leaves them. *)
Definition on_disk {A : Type} (f : st (rescue_world Db) A) : st (testnet_world Db) A := fun '(m, dbs) =>
  let '(w, r) := f (mk_rescue dbs (disk m)) in
  ((with_files m (filter (fun '(p, _) => key_files (fst m) !! p = None) (rw_files w)), rw_dbs w), r).
Definition on_setup {A : Type} (f : st machine A) : st (testnet_world Db) A := fun '(m, dbs) =>
  let '(m', r) := f m in ((m', dbs), r).

Definition testnet_run (self : TestnetConfigOpts) (framework_mrb_path twin_db : option path)
    : st (testnet_world Db) (list TestInfo) :=
  let chain_name := default TESTNET (to_chain_name self) in
  let data_path := default global_config_dir (to_test_dir self) in
  cli_out ← on_setup (setup mode mnem_env overwrite writable confirm_path no_client recovery_from_json
              (to_host self) chain_name data_path (to_migrate_legacy self) framework_mrb_path);
  _ ← match twin_db with
      | Some p => on_disk (configure_twin data_path p framework_mrb_path)
      | None => mret tt
      end;
  mret cli_out.

(** ** Lemmas: the files of the machine *)
Lemma key_files_elim keys q x : key_files keys !! q = Some x →
  ∃ home dir name d, keys !! home = Some dir ∧ dir !! name = Some d ∧ q = path_join home name ∧ x = File (doc_text d).
Proof.
  intros Hx%elem_of_list_to_map_2. apply list_elem_of_bind in Hx as ([home dir] & Hx & Hk%elem_of_map_to_list).
  apply list_elem_of_fmap in Hx as ([name d] & [= -> ->] & Hd%elem_of_map_to_list). by exists home, dir, name, d.
Qed.
Lemma key_files_intro keys home dir name d : keys !! home = Some dir → dir !! name = Some d →
  ∃ s, key_files keys !! path_join home name = Some (File s).
Proof.
  intros Hk Hd. destruct (key_files keys !! path_join home name) as [x|] eqn:Ex.
  - apply key_files_elim in Ex as (? & ? & ? & e & _ & _ & _ & ->). by exists (doc_text e).
  - exfalso. revert Ex. unfold key_files. intros Hn%not_elem_of_list_to_map. apply Hn. apply list_elem_of_fmap.
    exists (path_join home name, File (doc_text d)). split; [done|]. apply list_elem_of_bind. exists (home, dir).
    split; [|by apply elem_of_map_to_list]. apply list_elem_of_fmap. exists (name, d).
    split; [done|by apply elem_of_map_to_list].
Qed.

(** The key files of one directory are left alone. *)
Definition same_home (p : path) (m m' : machine) : Prop := fst m' !! p = fst m !! p.
#[export] Instance same_home_preorder p : PreOrder (same_home p).
Proof. split; [by intros m|]. intros m1 m2 m3. unfold same_home. congruence. Qed.
Lemma same_home_snd p {A : Type} (f : st dialog A) : steps (same_home p) (on_snd f).
Proof. intros s. unfold same_home. by rewrite (dialog_same f s). Qed.
Lemma same_home_keys p home {A : Type} (f : directory → directory * outcome A) : home ≠ p → steps (same_home p) (on_keys home f).
Proof.
  intros Hp [dirs d]. unfold on_keys, same_home. cbn. destruct (f _) as [dir r]. cbn. by rewrite lookup_insert_ne.
Qed.
Hint Resolve same_home_snd : effects.
Lemma same_home_init p home h mnem keep chain : default global_config_dir home ≠ p →
  steps (same_home p) (initialize_validator_files mode mnem_env overwrite writable home h mnem keep chain).
Proof.
  intros Hp. unfold initialize_validator_files, refresh_in, save_in.
  apply steps_bind; [apply _|auto with effects|intros mn]. apply steps_bind; [apply _| |intros [[acc ak] pub]].
  { apply steps_bind; [apply _|apply steps_lift; apply _|intros [[[[vb fb] pr] pu] lk]].
    apply steps_bind; [apply _| |intros x; apply steps_ret; apply _].
    apply steps_bind; [apply _|auto with effects|intros []; by apply same_home_keys]. }
  apply steps_bind; [apply _|by apply same_home_keys|intros x]. do 4 (apply steps_bind; [apply _|auto with effects|intros ?]).
  apply steps_ret. apply _.
Qed.
Lemma same_home_loop data_dir chain hs idx :
  steps (same_home data_dir) (setup_loop mode mnem_env overwrite writable data_dir chain idx hs).
Proof.
  revert idx. induction hs as [|h hs IH]; intros idx; cbn [setup_loop]; [apply steps_ret; apply _|].
  apply steps_bind; [apply _| |intros x; apply steps_bind; [apply _|apply IH|intros xs; apply steps_ret; apply _]].
  unfold setup_one. apply steps_bind; [apply _|apply steps_lift; apply _|intros p].
  apply steps_bind; [apply _|apply same_home_init|intros [pub cfg]; st_all].
  cbn. unfold Datatypes.id, persona_home, operator_files, path_join. intros Hx%(f_equal length). rewrite !length_app in Hx. cbn in Hx. lia.
Qed.
Lemma same_home_setup hosts chain data_dir legacy mrb :
  steps (same_home data_dir)
    (setup mode mnem_env overwrite writable confirm_path no_client recovery_from_json hosts chain data_dir legacy mrb).
Proof.
  unfold setup. do 2 (apply steps_bind; [apply _|apply steps_lift; apply _|intros []]).
  apply steps_bind; [apply _|auto with effects|intros []]. apply steps_bind; [apply _|apply same_home_loop|intros vs].
  apply steps_bind; [apply _|unfold setup_recovery; apply steps_bind; [apply _|by intros s|]; intros m; apply steps_lift; apply _|].
  intros rec. apply steps_bind; [apply _|auto with effects|intros fs]. apply steps_ret. apply _.
Qed.

Lemma disk_file m q s : disk m !! q = Some (File s) →
  (∃ home dir name d, fst m !! home = Some dir ∧ dir !! name = Some d ∧ q = path_join home name) ∨ m_files m !! q = Some (File s).
Proof.
  unfold disk. intros [Hk|[_ Hf]]%lookup_union_Some_raw; [left|by right].
  apply key_files_elim in Hk as (home & dir & name & d & ? & ? & ? & _). by exists home, dir, name, d.
Qed.
Lemma disk_key m home dir name d : fst m !! home = Some dir → dir !! name = Some d → ∃ s, disk m !! path_join home name = Some (File s).
Proof.
  intros Hd Hn. destruct (key_files_intro _ _ _ _ _ Hd Hn) as [s Hs]. exists s. unfold disk. by rewrite (lookup_union_Some_l _ _ _ _ Hs).
Qed.
Lemma disk_plain m q s : m_files m !! q = Some (File s) → ∃ s', disk m !! q = Some (File s').
Proof.
  intros Hf. unfold disk. destruct (key_files (fst m) !! q) as [x|] eqn:Ek.
  - pose proof Ek as (? & ? & ? & e & _ & _ & _ & ->)%key_files_elim. exists (doc_text e). by rewrite (lookup_union_Some_l _ _ _ _ Ek).
  - exists s. by rewrite lookup_union_r.
Qed.

(** The setup makes no validator.yaml in the directory of the testnet itself. *)
Lemma setup_yaml hosts chain data_dir legacy mrb m m' r s :
  setup mode mnem_env overwrite writable confirm_path no_client recovery_from_json hosts chain data_dir legacy mrb m = (m', r) →
  disk m' !! twin_yaml data_dir = Some (File s) → ∃ s', disk m !! twin_yaml data_dir = Some (File s').
Proof.
  intros Hs [(home & dir & name & d & Hd & Hn & Hq)|Hf]%disk_file.
  - unfold twin_yaml, path_join in Hq. apply app_inj_2 in Hq as [<- Hq]; [|done]. injection Hq as <-.
    pose proof (same_home_setup hosts chain data_dir legacy mrb m) as Hk. rewrite Hs in Hk. unfold same_home in Hk. cbn in Hk.
    rewrite Hk in Hd. by apply (disk_key m data_dir dir NODE_YAML_FILE d).
  - pose proof (setup_confined mode mnem_env overwrite writable confirm_path no_client recovery_from_json
                  hosts chain data_dir legacy mrb m I) as (_ & Ho & _).
    rewrite Hs in Ho. apply (disk_plain m _ s). apply (Ho (twin_yaml data_dir)); [|exact Hf].
    unfold twin_yaml, path_join. intros [Hin|Hin]%elem_of_app.
    + apply list_elem_of_bind in Hin as (p & Hp & _). unfold config_of, yaml_of, persona_home, operator_files, path_join in Hp.
      apply elem_of_cons in Hp as [Hp|Hp%list_elem_of_singleton]; apply (f_equal length) in Hp;
        rewrite !length_app in Hp; cbn in Hp; lia.
    + apply list_elem_of_fmap in Hin as (f & Hp & _). unfold GenesisBuilder.genesis_dir, path_join in Hp.
      apply (f_equal length) in Hp. rewrite !length_app in Hp. cbn in Hp. lia.
Qed.

(** ** Properties *)

End configure.

(** ** Witness: a twin of a database that is the list of its transactions *)
#[local] Existing Instances Testnet.persona_sha AppCfg.sample_sha3 answering_web config_node.
Notation twin_log := (list (GenesisVm.Transaction Z)).
#[export] Instance twin_vm : RescueVm unit Z := {|
  vm_answer _ h := match last h with
                   | Some (VmCall "0x1::timestamp::now_microseconds" _) => inl [Some (MvU64 1000)]
                   | _ => inl []
                   end;
  RescueSession.session_finish _ h := Ok (Z.of_nat (length h));
  RescueSession.load_bundle_from_file p fs := (fun s => [str_bytes s]) <$> read_to_string p fs
|}.
(** A node whose data is in the directory of alice, before and after the rescue *)
Definition alice_home : path := persona_home testnet_dir Alice.
Definition base_node : NodeConfig := mk_node_config (OtherWaypoint "0:0") alice_home (OtherBackend "vault") None None [] "".
Definition twin_waypoint : Waypoint := mk_waypoint 1 [7].
Definition patched_node (blob : path) : NodeConfig :=
  mk_node_config (FromConfig twin_waypoint) alice_home (OtherBackend "vault")
    (Some (mk_safety (path_join alice_home "validator-identity.yaml") (FromConfig twin_waypoint))) None blob "".
#[export] Instance node_config_dec : EqDecision NodeConfig.
Proof.
  assert (EqDecision WaypointConfig) by solve_decision. assert (EqDecision SecureBackend) by solve_decision.
  assert (EqDecision InitialSafetyRulesConfig) by solve_decision. solve_decision.
Defined.
Definition log_rescue (blob : path) : RescueCrates twin_log unit Z.
Proof.
  refine {|
    latest_view _ := Ok tt;
    num_transactions db := Ok (Z.of_nat (length db));
    calculate_genesis db tx := Ok (mk_waypoint (Z.of_nat (length db)) [7], Ok (tx :: db));
    Rescue.tx_to_bytes tx := match tx with
                             | GenesisTransaction (WsDirect n) => if decide (is_u8 n) then Ok [n] else Err "too long"%string
                             | _ => Err "not supported"%string
                             end;
    Rescue.tx_from_bytes bs := match bs with [n] => Ok (GenesisTransaction (WsDirect n)) | _ => Err "not supported"%string end;
    node_config_from_yaml s := if String.eqb s "base" then Ok base_node
                               else if String.eqb s "patched" then Ok (patched_node blob) else Err "not a configuration"%string;
    node_config_to_yaml c := if decide (c = patched_node blob) then Ok "patched"%string else Err "not supported"%string |}.
  - intros [[n|a code]|other] bs; [|done..]. destruct (decide (is_u8 n)) as [Hn|]; [|done]. intros <-%Ok_inj.
    split; [by constructor|done].
  - intros c s. destruct (decide (c = patched_node blob)) as [->|]; [|done]. by intros <-%Ok_inj.
Defined.
#[export] Instance twin_rescue : RescueCrates twin_log unit Z := log_rescue (twin_blob testnet_dir).
Definition is_operator_file (p : path) : bool :=
  match last p with Some n => starts_with "operator" n && ends_with ".yaml" n | None => false end.
#[export] Instance twin_crates : TwinCrates twin_log.
Proof.
  refine {|
    doc_text d := match d with DocOperator _ => "operator"%string | _ => "key file"%string end;
    glob_operators start fs := Ok <$> filter (fun p => start `prefix_of` p ∧ is_operator_file p = true) (fst <$> map_to_list fs);
    copy_content src dst fs := (fs, Ok tt);
    overlay_db db _ := db |}.
  done.
Defined.
#[export] Instance twin_operators : OperatorCrates := {|
  operator_config_from_yaml s :=
    if String.eqb s "operator"
    then Ok (mk_operator addr_ONE [1] [2] [3] [4] (mk_host "val" 6180) (Some [5]) (Some (mk_host "val" 6182)))
    else Err "not a configuration"%string;
  TxsCommands.as_network_address h k := Ok k;
  bcs_one_address a := Ok (1 :: a)
|}.

Definition ref_db : path := ["ref"%string].
Definition twin_opts : TestnetConfigOpts := mk_testnet_opts testnet_hosts (Some testnet_dir) None None.
Definition old_log : twin_log := [OtherTransaction [1]].
Definition twin_machine (node_yaml : list (path * node)) : machine :=
  (∅, mk_dialog [] [] (mk_world [] (list_to_map (([] : path, Dir) :: (testnet_dir, Dir) :: (ref_db, Dir)
        :: (["head.mrb"%string], File "framework") :: node_yaml)))).
Definition sample_twin (node_yaml : list (path * node)) : testnet_world twin_log * outcome (list TestInfo) :=
  testnet_run (St := trace) (Inf := Z * list bytes * option sample_tx) TESTING None (fun _ => true) (fun _ => true)
    (fun _ => false) ([] : list (string * string)) (fun _ => None) twin_opts (Some ["head.mrb"%string]) (Some ref_db)
    (twin_machine node_yaml, {[ ref_db := old_log ]}).

(** On a fresh directory the command fails, and has changed the reference. *)
Example fresh_twin_fails :
  let run := sample_twin [] in
  snd run = Err "No such file or directory"%string ∧
  snd (fst run) !! ref_db = Some (GenesisTransaction (WsDirect 23) :: old_log) ∧
  snd (fst run) !! twin_db testnet_dir = Some old_log.
Proof. vm_compute. done. Qed.

Definition twin_node_yaml : list (path * node) := [(twin_yaml testnet_dir, File "base")].
Definition twin_run : testnet_world twin_log * outcome (list TestInfo) := sample_twin twin_node_yaml.
