(* ===== verification/SwarmNet.v ===== *)
(** * tools/testnet/src/twin_swarm.rs: a running swarm that becomes a twin

    The validators of a swarm of local processes are stopped, given a database
    that a rescue has made theirs, and started again.  With it are
    [extract_swarm_node_credentials] of the smoke tests, [set_chain_id_in_app_cfg]
    of replace_validators_file.rs and [TestInfo::from_smoke] of cli_output.rs. *)
From Stdlib Require Import ZArith Lia.
From stdpp Require Import base option list strings gmap.
From S2P Require Import Prelude RustStr Json Effects Bytes FileSystem MoveTypes GenesisFunctions HashValue.
From S2P Require Import ValidatorKeys GenesisRegistration GenesisVm F64 NetworkPlaylist Compare AppCfg Node EntryCalls Payloads TxSender.
From S2P Require Import TxsCommunity KeyRotation TxsCommands UpgradeProposal RescueSession Rescue ConfigFix Testnet TwinNet.

Open Scope list_scope.
Open Scope Z_scope.

(** A local node: what the harness knows of it *)
Record SwarmNode := mk_swarm_node {
  sn_peer_id : AccountAddress;
  sn_config_peer : option AccountAddress;
  sn_config_path : path;
  sn_storage_dir : path;
  sn_endpoint : Url
}.

(** What happens to the processes and to the databases, in order *)
Inductive swarm_event :=
| Stopped (config_path : path)
| Started (config_path : path)
| Accessed (db_path : path).
Record swarm_world (Db : Type) := mk_swarm { sw_rescue : rescue_world Db; sw_events : list swarm_event }.
Arguments mk_swarm {Db} _ _.
Arguments sw_rescue {Db} _.
Arguments sw_events {Db} _.

(** The harness: the client of a node; the identity file; the version of the
    node that is ahead; the removal of a node's storage; starting a process and
    waiting for all of them; the parts of a URL, and a host from text. *)
Class SwarmCrates (Db : Type) := {
  node_client : SwarmNode → RestNode;
  public_identity_from_yaml : string → outcome (option bytes * option string);
  newest_ledger_version : list SwarmNode → outcome Z;
  clear_node_files : SwarmNode → io unit;
  start_process : SwarmNode → rescue_world Db → outcome unit;
  wait_for_version : list SwarmNode → rescue_world Db → Z → outcome unit;
  url_host : Url → option string;
  url_port : Url → option Z;
  host_and_port_from_str : string → outcome HostAndPort;
  clear_law n fs q : ¬ sn_storage_dir n `prefix_of` q → fst (clear_node_files n fs) !! q = fs !! q
}.

(** [unwrap] *)
Definition unwrap_opt {A : Type} (o : option A) : outcome A := expect_opt "called `Option::unwrap()` on a `None` value" o.
Definition unwrap_res {A : Type} (r : outcome A) : outcome A := expect_res "called `Result::unwrap()` on an `Err` value" r.
Definition data_dir (n : SwarmNode) : outcome path := unwrap_opt (parent (sn_config_path n)).
(** [v[i]] of a JSON value *)
Definition value_at (v : json) (i : nat) : json := match v with JArray l => default JNull (l !! i) | _ => JNull end.

Section swarm.
Context {Db View CS : Type} `{RescueCrates Db View CS, RescueVm View CS, !TwinCrates Db, !SwarmCrates Db}.
Context `{AppCfgEnv, OperatorCrates, UpgradeCrates, Sha3, HexCrate}.
Notation world := (swarm_world Db).

(** ** extract_credentials.rs *)
Definition hex_at (query_res : json) (i : nat) : outcome string :=
  s ← unwrap_opt (as_str (value_at query_res i));
  unwrap_opt (strip_prefix "0x" s).
Definition hex_bytes (s : string) : outcome bytes := expect_opt "called `Result::unwrap()` on an `Err` value" (hex_decode s).
Definition extract_swarm_node_credentials (marlon_node : SwarmNode) (fs : file_system) : outcome ValCredentials :=
  account ← unwrap_opt (sn_config_peer marlon_node);
  dir ← data_dir marlon_node;
  text ← read_to_string (path_join dir "public-identity.yaml") fs;
  '(pop, consensus_key) ← public_identity_from_yaml text;
  proof_of_possession ← unwrap_opt pop;
  consensus_public_key_file ← unwrap_opt consensus_key;
  query_res ← unwrap_res (snd (@get_view (node_client marlon_node) "0x1::stake::get_validator_config" None
                                 (Some (addr_to_string account)) (mk_world [] fs)));
  network_addresses ← hex_at query_res 1;
  fullnode_addresses ← hex_at query_res 2;
  consensus_public_key_chain ← hex_at query_res 0;
  consensus_public_key_chain ← hex_bytes consensus_public_key_chain;
  consensus_pubkey ← hex_bytes consensus_public_key_file;
  network_addresses ← hex_bytes network_addresses;
  fullnode_addresses ← hex_bytes fullnode_addresses;
  _ ← rust_assert (bool_decide (consensus_public_key_chain = consensus_pubkey)) "assertion `left == right` failed";
  Ok (mk_credentials account consensus_pubkey proof_of_possession network_addresses fullnode_addresses).

(** ** twin_swarm.rs *)
Fixpoint collect_validator_credentials (swarm : list SwarmNode) (fs : file_system) : outcome (list ValCredentials) :=
  match swarm with
  | [] => Ok []
  | n :: swarm' =>
      cred ← extract_swarm_node_credentials n fs;
      creds ← collect_validator_credentials swarm' fs;
      Ok (cred :: creds)
  end.

Definition emit (e : swarm_event) : st world unit := fun w => (mk_swarm (sw_rescue w) (sw_events w ++ [e]), Ok tt).
Definition on_rescue {A : Type} (m : st (rescue_world Db) A) : st world A := fun w =>
  let '(r, a) := m (sw_rescue w) in (mk_swarm r (sw_events w), a).
Definition on_files {A : Type} (m : io A) : st world A := on_rescue (files m).

Definition stop (n : SwarmNode) : st world unit := emit (Stopped (sn_config_path n)).
Definition start (n : SwarmNode) : st world unit :=
  w ← st_get;
  _ ← st_lift (start_process n (sw_rescue w));
  emit (Started (sn_config_path n)).

(** [dir::copy] of what a directory holds, databases included *)
Definition dir_copy (src dst : path) : st world unit :=
  _ ← emit (Accessed src);
  _ ← emit (Accessed dst);
  _ ← on_files (io_result (context_res "cannot copy to new db dir") (copy_content src dst));
  on_rescue (overlay src dst).
Definition forget_db (p : path) : st (rescue_world Db) unit := fun w => (mk_rescue (base.delete p (rw_dbs w)) (rw_files w), Ok tt).
Definition clear_storage (n : SwarmNode) : st world unit :=
  _ ← emit (Accessed (sn_storage_dir n));
  _ ← on_rescue (forget_db (sn_storage_dir n));
  on_files (clear_node_files n).

Definition replace_db (patched_db : path) (v : SwarmNode) : st world unit :=
  _ ← stop v;
  _ ← clear_storage v;
  dir_copy patched_db (sn_storage_dir v).
Definition replace_db_all (swarm : list SwarmNode) (patched_db : path) : st world unit := st_iter (replace_db patched_db) swarm.

Definition update_node_file (wp : Waypoint) (rescue_blob : path) (n : SwarmNode) : st world unit :=
  _ ← on_files (post_rescue_node_file_updates (sn_config_path n) wp rescue_blob);
  mret tt.
Definition update_node_files (swarm : list SwarmNode) (wp : Waypoint) (rescue_blob : path) : st world unit :=
  st_iter (update_node_file wp rescue_blob) swarm.

(** The configuration of the tools beside a node's, put on a chain.  What a
    failing [save_file] leaves behind is not modelled. *)
Definition io_save (cfg : AppCfg) : io unit := fun fs =>
  match save_file cfg fs with
  | Ok (_, fs') => (fs', Ok tt)
  | Err e => (fs, Err e)
  | Panic p => (fs, Panic p)
  end.
Definition put_on_chain (chain : NamedChain) (n : SwarmNode) : io unit :=
  data_path ← io_lift (data_dir n);
  app_cfg ← io_read (load (Some (path_join data_path CONFIG_FILE_NAME)));
  app_cfg ← io_lift (update_network_profile (fun np => mk_playlist chain (nodes np)) None app_cfg);
  io_save (set_chain_id chain app_cfg).
Definition update_app_cfg (swarm : list SwarmNode) : st world unit := st_iter (fun n => on_files (put_on_chain TESTNET n)) swarm.

Definition restart_and_verify (swarm : list SwarmNode) (start_version : Z) : st world unit :=
  _ ← st_iter start swarm;
  w ← st_get;
  st_lift (wait_for_version swarm (sw_rescue w) (u64_add start_version 10)).

(** ** cli_output.rs *)
Definition url_to_host_and_port (url : Url) : outcome HostAndPort :=
  host ← expect_opt "invalid host" (url_host url);
  port ← expect_opt "invalid port" (url_port url);
  host_and_port_from_str (host +:+ ":" +:+ show_uint port).
Fixpoint infos_from (index : nat) (swarm : list SwarmNode) : outcome (list TestInfo) :=
  match swarm with
  | [] => Ok []
  | n :: swarm' =>
      dir ← data_dir n;
      api_endpoint ← url_to_host_and_port (sn_endpoint n);
      infos ← infos_from (S index) swarm';
      Ok (mk_test_info (sn_peer_id n) index dir api_endpoint (path_join dir CONFIG_FILE_NAME) :: infos)
  end.
Definition from_smoke : list SwarmNode → outcome (list TestInfo) := infos_from 0.

(** [TempPath]: the directory is removed when the function returns. *)
Definition below (p q : path) : bool := bool_decide (p `prefix_of` q).
Definition drop_temp (temp : path) (w : world) : world :=
  mk_swarm (mk_rescue (filter (fun x => below temp (fst x) = false) (rw_dbs (sw_rescue w)))
              (filter (fun x => below temp (fst x) = false) (rw_files (sw_rescue w)))) (sw_events w).
Definition with_temp {A : Type} (temp : path) (body : st world A) : st world A := fun w =>
  let '(w', r) := (_ ← on_files (io_update (create_dir_all temp)); body) w in (drop_temp temp w', r).

(** The rescue of the copy in the temporary directory *)
Definition rescue_copy (temp : path) (creds : list ValCredentials) (framework_mrb_path : option path) : st world (Waypoint * path) :=
  _ ← emit (Accessed temp);
  rescue_blob_path ← on_rescue (replace_validators_blob temp creds temp framework_mrb_path);
  wp ← on_rescue (one_step_apply_rescue_on_db temp rescue_blob_path);
  mret (wp, rescue_blob_path).
Definition make_twin (swarm : list SwarmNode) (temp : path) (creds : list ValCredentials) (reference_db framework_mrb_path : option path)
    : st world unit :=
  reference_db ← st_lift match reference_db with
                         | Some p => Ok p
                         | None => n ← unwrap_opt (head swarm); Ok (sn_storage_dir n)
                         end;
  _ ← dir_copy reference_db temp;
  '(wp, rescue_blob_path) ← rescue_copy temp creds framework_mrb_path;
  _ ← replace_db_all swarm temp;
  _ ← update_node_files swarm wp rescue_blob_path;
  update_app_cfg swarm.
Definition awake_frankenswarm (swarm : list SwarmNode) (temp : path) (reference_db framework_mrb_path : option path)
    : st world (list TestInfo) :=
  creds ← on_files (io_read (collect_validator_credentials swarm));
  start_version ← st_lift (expect_res "could not get node status" (newest_ledger_version swarm));
  _ ← st_iter stop swarm;
  with_temp temp (
    _ ← make_twin swarm temp creds reference_db framework_mrb_path;
    _ ← restart_and_verify swarm start_version;
    st_lift (from_smoke swarm)).

(** ** replace_validators_file.rs: the chain that a node of the swarm is on *)
Definition set_chain_id_in_app_cfg (ledger_chain_id : reply Z) (chain_from_id : Z → outcome NamedChain) (swarm : list SwarmNode)
    : st world unit :=
  chain_id ← st_lift (of_reply ledger_chain_id);
  chain_name ← st_lift (chain_from_id chain_id);
  st_iter (fun n => on_files (put_on_chain chain_name n)) swarm.
End swarm.

(** ** Specification *)

(** No database is touched while a process runs: [awake] are the processes that
    run before the events. *)
Fixpoint exclusive (awake : list path) (events : list swarm_event) : Prop :=
  match events with
  | [] => True
  | Stopped p :: events' => exclusive (filter (fun q => q ≠ p) awake) events'
  | Started p :: events' => exclusive (p :: awake) events'
  | Accessed _ :: events' => awake = [] ∧ exclusive awake events'
  end.
Fixpoint awake_after (awake : list path) (events : list swarm_event) : list path :=
  match events with
  | [] => awake
  | Stopped p :: events' => awake_after (filter (fun q => q ≠ p) awake) events'
  | Started p :: events' => awake_after (p :: awake) events'
  | Accessed _ :: events' => awake_after awake events'
  end.

Definition calm (e : swarm_event) : Prop := match e with Started _ => False | _ => True end.
Definition waking (e : swarm_event) : Prop := match e with Started _ => True | _ => False end.

Lemma stops_silence (ps awake : list path) events :
  (∀ p, p ∈ awake → p ∈ ps) →
  (exclusive [] events → exclusive awake ((Stopped <$> ps) ++ events)) ∧
  awake_after awake ((Stopped <$> ps) ++ events) = awake_after [] events.
Proof.
  revert awake. induction ps as [|p ps IH]; intros awake Hin.
  - assert (awake = []) as ->; [|by split]. destruct awake as [|q l]; [done|]. specialize (Hin q). set_solver.
  - cbn [fmap list_fmap app exclusive awake_after]. apply IH. intros q Hq. apply list_elem_of_filter in Hq as [Hn Hq].
    specialize (Hin q Hq). set_solver.
Qed.
Lemma waking_exclusive awake l : Forall waking l → exclusive awake l.
Proof. intros Hl. revert awake. induction Hl as [|[p|p|p] l Hp Hl IH]; intros awake; cbn; try done. Qed.
Lemma calm_exclusive l l2 : Forall calm l → Forall waking l2 → exclusive [] (l ++ l2).
Proof. intros Hl Hw. induction Hl as [|[p|p|p] l Hp Hl IH]; cbn; try done. by apply waking_exclusive. Qed.
Lemma calm_awake l l2 : Forall calm l → awake_after [] (l ++ l2) = awake_after [] l2.
Proof. intros Hl. induction Hl as [|[p|p|p] l Hp Hl IH]; cbn; try done. Qed.
Lemma started_awake awake ps p : p ∈ ps ∨ p ∈ awake → p ∈ awake_after awake (Started <$> ps).
Proof. revert awake. induction ps as [|q ps IH]; intros awake Hp; cbn; [set_solver|]. apply IH. set_solver. Qed.

Section lemmas.
Context {Db View CS : Type} `{RescueCrates Db View CS, RescueVm View CS, !TwinCrates Db, !SwarmCrates Db}.
Context `{AppCfgEnv, OperatorCrates, UpgradeCrates, Sha3, HexCrate}.
Notation world := (swarm_world Db).
Notation dbs w := (rw_dbs (sw_rescue w)).
Notation fls w := (rw_files (sw_rescue w)).

(** ** The events of a run *)
Definition adds (K : swarm_event → Prop) (w w' : world) : Prop := ∃ l, sw_events w' = sw_events w ++ l ∧ Forall K l.
#[export] Instance adds_preorder K : PreOrder (adds K).
Proof.
  split; [intros w; exists []; by rewrite app_nil_r|]. intros w1 w2 w3 (l1 & E1 & H1') (l2 & E2 & H2').
  exists (l1 ++ l2). split; [by rewrite E2, E1, app_assoc|by apply Forall_app].
Qed.
Lemma adds_rescue K {A : Type} (m : st (rescue_world Db) A) : steps (adds K) (on_rescue m).
Proof. intros w. exists []. unfold on_rescue. destruct (m (sw_rescue w)) as [x r]. cbn. by rewrite app_nil_r. Qed.
Lemma adds_emit (K : swarm_event → Prop) e : K e → steps (adds K) (emit e).
Proof. intros He w. exists [e]. split; [done|by constructor]. Qed.
Lemma adds_get K : steps (adds K) st_get.
Proof. intros w. reflexivity. Qed.
#[local] Hint Resolve adds_rescue adds_get : effects.
#[local] Hint Extern 1 (steps (adds _) (emit _)) => apply adds_emit; exact I : effects.
#[local] Hint Extern 1 (steps (adds _) (on_files _)) => apply adds_rescue : effects.

Lemma calm_copy src dst : steps (adds calm) (dir_copy src dst).
Proof. unfold dir_copy. st_steps. Qed.
#[local] Hint Resolve calm_copy : effects.
Lemma calm_replace swarm patched : steps (adds calm) (replace_db_all swarm patched).
Proof. apply steps_iter; [apply _|]. intros n. unfold replace_db, stop, clear_storage. st_steps. Qed.
Lemma calm_node_files swarm wp blob : steps (adds calm) (update_node_files swarm wp blob).
Proof. apply steps_iter; [apply _|]. intros n. unfold update_node_file. st_steps. Qed.
Lemma calm_cfg swarm : steps (adds calm) (update_app_cfg swarm).
Proof. apply steps_iter; [apply _|]. intros n. st_steps. Qed.
Lemma calm_rescue temp creds mrb : steps (adds calm) (rescue_copy temp creds mrb).
Proof. unfold rescue_copy. st_steps. Qed.
Lemma waking_restart swarm v : steps (adds waking) (restart_and_verify swarm v).
Proof. unfold restart_and_verify. st_steps. apply steps_iter; [apply _|]. intros n. unfold start. st_steps. Qed.

Lemma stop_all_run swarm (w : world) :
  st_iter stop swarm w = (mk_swarm (sw_rescue w) (sw_events w ++ (Stopped <$> (sn_config_path <$> swarm))), Ok tt).
Proof.
  revert w. induction swarm as [|n swarm IH]; intros [rw ev]; cbn [st_iter]; [by rewrite app_nil_r|].
  unfold mbind, st_bind, stop, emit. cbn [sw_rescue sw_events]. rewrite IH. cbn. by rewrite <- app_assoc.
Qed.
Lemma start_all_ok swarm (w w' : world) : st_iter start swarm w = (w', Ok tt) →
  sw_rescue w' = sw_rescue w ∧ sw_events w' = sw_events w ++ (Started <$> (sn_config_path <$> swarm)).
Proof.
  revert w. induction swarm as [|n swarm IH]; intros w; cbn [st_iter]; [intros [= <-]; by rewrite app_nil_r|].
  intros E. apply st_bind_ok in E as (w1 & [] & Hs & E). apply st_bind_ok in Hs as (w2 & x & [= <- <-] & Hs).
  apply st_bind_ok in Hs as (w3 & [] & Hp & Hs). injection Hp as <- _. injection Hs as <-.
  apply IH in E as [-> E]. split; [done|]. rewrite E. cbn. by rewrite <- app_assoc.
Qed.

(** ** The reference database *)
Definition same_db (ref : path) (w w' : world) : Prop := dbs w' !! ref = dbs w !! ref.
#[export] Instance same_db_preorder ref : PreOrder (same_db ref).
Proof. split; [by intros w|]. intros w1 w2 w3. unfold same_db. congruence. Qed.
Lemma same_emit ref e : steps (same_db ref) (emit e).
Proof. by intros w. Qed.
Lemma same_get ref : steps (same_db ref) st_get.
Proof. by intros w. Qed.
Lemma same_on_files ref {A : Type} (m : io A) : steps (same_db ref) (on_files m).
Proof. intros w. unfold on_files, on_rescue, files, same_db. destruct (m (rw_files (sw_rescue w))) as [fs r]. done. Qed.
Lemma same_rescue ref {A : Type} (m : st (rescue_world Db) A) :
  steps (fun x y => rw_dbs y !! ref = rw_dbs x !! ref) m → steps (same_db ref) (on_rescue m).
Proof. intros Hm w. specialize (Hm (sw_rescue w)). unfold on_rescue, same_db. by destruct (m (sw_rescue w)). Qed.
#[local] Hint Resolve same_emit same_get same_on_files : effects.

Lemma same_dir_copy ref src dst : dst ≠ ref → steps (same_db ref) (dir_copy src dst).
Proof.
  intros Hd. unfold dir_copy. st_steps. apply same_rescue. intros x. unfold overlay. cbn.
  destruct (rw_dbs x !! src); [by rewrite lookup_insert_ne|done].
Qed.
Lemma same_replace_db ref swarm patched : ref ∉ sn_storage_dir <$> swarm → steps (same_db ref) (replace_db_all swarm patched).
Proof.
  unfold replace_db_all. induction swarm as [|n swarm IH]; intros Hr; cbn [st_iter]; [apply steps_ret; apply _|].
  apply not_elem_of_cons in Hr as [Hn Hr]. apply steps_bind; [apply _| |intros []; by apply IH].
  unfold replace_db, stop, clear_storage. apply steps_bind; [apply _|apply same_emit|intros []].
  apply steps_bind; [apply _| |intros []; by apply same_dir_copy]. st_steps. apply same_rescue. intros x. cbn.
  by rewrite lookup_delete_ne.
Qed.
Lemma same_restart ref swarm v : steps (same_db ref) (restart_and_verify swarm v).
Proof. unfold restart_and_verify. st_steps. apply steps_iter; [apply _|]. intros n. unfold start. st_steps. Qed.

Definition same_at (ref : path) (x y : rescue_world Db) : Prop := rw_dbs y !! ref = rw_dbs x !! ref.
#[export] Instance same_at_preorder ref : PreOrder (same_at ref).
Proof. split; [by intros w|]. intros w1 w2 w3. unfold same_at. congruence. Qed.
#[local] Hint Resolve same_at_preorder same_db_preorder : effects.
Lemma same_at_all ref {A : Type} (m : st (rescue_world Db) A) : steps same_dbs m → steps (same_at ref) m.
Proof. intros Hm x. specialize (Hm x). unfold same_dbs in Hm. unfold same_at. by rewrite Hm. Qed.
Lemma bootstrap_others ref b : db_dir b ≠ ref → steps (same_at ref) (bootstrap_run b).
Proof.
  intros Hd. unfold bootstrap_run. apply steps_bind; [apply _|apply same_at_all, same_files|intros tx].
  apply steps_bind; [apply _|auto with effects|intros []].
  apply steps_bind; [apply _|apply steps_result, same_at_all, same_open|intros db].
  apply steps_bind; [apply _|auto with effects|intros num]. destruct (bo_info b); [auto with effects|].
  apply steps_bind; [apply _|auto with effects|intros []]. apply steps_bind; [apply _|auto with effects|intros [wp c]].
  apply steps_bind; [apply _|auto with effects|intros []]. apply steps_bind; [apply _| |intros []; auto with effects].
  destruct (commit b); [|auto with effects]. apply steps_bind; [apply _|auto with effects|intros db'].
  apply steps_bind; [apply _|intros x; unfold same_at; cbn; by rewrite lookup_insert_ne|intros []].
  destruct (update_node_config b); [|auto with effects].
  apply steps_bind; [apply _|apply same_at_all, same_files|intros node; auto with effects].
Qed.
Lemma same_rescue_copy ref temp creds mrb : temp ≠ ref → steps (same_db ref) (rescue_copy temp creds mrb).
Proof.
  intros Ht. unfold rescue_copy. apply steps_bind; [apply _|apply same_emit|intros []].
  apply steps_bind; [apply _|apply same_rescue, (same_at_all ref)|intros blob].
  - unfold replace_validators_blob. apply steps_bind; [apply _|apply same_on_latest|intros tx; apply same_files].
  - apply steps_bind; [apply _|apply same_rescue|intros wp; auto with effects].
    unfold one_step_apply_rescue_on_db. apply (steps_bind (same_at ref)); [by apply bootstrap_others|intros o].
    apply (steps_bind (same_at ref)); [auto with effects|intros wp]. apply (steps_bind (same_at ref)); [by apply bootstrap_others|intros o2].
    do 2 (apply (steps_bind (same_at ref)); [auto with effects|intros ?]). auto with effects.
Qed.

(** ** A run that succeeds *)
Lemma on_files_ok {A : Type} (m : io A) (w w' : world) a : on_files m w = (w', Ok a) →
  m (fls w) = (fls w', Ok a) ∧ dbs w' = dbs w.
Proof.
  unfold on_files, on_rescue, files. destruct (m (rw_files (sw_rescue w))) as [fs r]. by intros [= <- ->].
Qed.
Lemma on_rescue_ok {A : Type} (m : st (rescue_world Db) A) (w w' : world) a : on_rescue m w = (w', Ok a) →
  m (sw_rescue w) = (sw_rescue w', Ok a).
Proof. unfold on_rescue. destruct (m (sw_rescue w)) as [x r]. by intros [= <- ->]. Qed.
Lemma emit_ok e (w w' : world) : emit e w = (w', Ok tt) → sw_rescue w' = sw_rescue w.
Proof. by intros [= <-]. Qed.

Lemma dir_copy_ok src dst db (w w' : world) :
  dir_copy src dst w = (w', Ok tt) → dbs w !! src = Some db → dbs w' = <[dst := overlay_db db (dbs w !! dst)]> (dbs w).
Proof.
  intros E Hd. unfold dir_copy in E. apply st_bind_ok in E as (w1 & [] & H1'%emit_ok & E).
  apply st_bind_ok in E as (w2 & [] & H2'%emit_ok & E). apply st_bind_ok in E as (w3 & [] & [_ H3']%on_files_ok & E).
  apply on_rescue_ok in E. unfold overlay in E. injection E as E. rewrite <- E. cbn [rw_dbs].
  rewrite H2', H1' in H3'. by rewrite H3', Hd.
Qed.
Lemma dir_copy_src src dst (w w' : world) : dir_copy src dst w = (w', Ok tt) → dbs w !! src = None → dbs w' = dbs w.
Proof.
  intros E Hd. unfold dir_copy in E. apply st_bind_ok in E as (w1 & [] & H1'%emit_ok & E).
  apply st_bind_ok in E as (w2 & [] & H2'%emit_ok & E). apply st_bind_ok in E as (w3 & [] & [_ H3']%on_files_ok & E).
  apply on_rescue_ok in E. unfold overlay in E. injection E as E. rewrite <- E. cbn [rw_dbs].
  rewrite H2', H1' in H3'. by rewrite H3', Hd.
Qed.

Lemma rescue_copy_ok temp creds mrb (w w' : world) wp blob :
  rescue_copy temp creds mrb w = (w', Ok (wp, blob)) →
  blob = path_join temp REPLACE_VALIDATORS_BLOB ∧ ∃ db view cs db',
    dbs w !! temp = Some db ∧ latest_view db = Ok view ∧
    register_and_replace_validators_changeset view (fls w) creds mrb None = Ok cs ∧
    calculate_genesis db (GenesisTransaction (WsDirect cs)) = Ok (wp, Ok db') ∧ dbs w' = <[temp := db']> (dbs w).
Proof.
  intros E. unfold rescue_copy in E. apply st_bind_ok in E as (w1 & [] & H1'%emit_ok & E).
  apply st_bind_ok in E as (w2 & b & Hb%on_rescue_ok & E). apply st_bind_ok in E as (w3 & wp' & Ho%on_rescue_ok & E).
  injection E as <- -> ->. apply replace_blob_ok in Hb as (-> & Hd & _ & db & view & cs & Hdb & Hv & Hcs & Hl).
  apply one_step_ok in Ho as (tx & db1 & db' & Hl' & Hd1 & Hcg & ->). rewrite Hl in Hl'. apply Ok_inj in Hl' as <-.
  rewrite Hd, Hdb in Hd1. injection Hd1 as <-. rewrite H1' in *. split; [done|]. exists db, view, cs, db'. cbn [rw_dbs].
  by rewrite Hd.
Qed.

Lemma replace_db_ok temp n db (w w' : world) :
  replace_db temp n w = (w', Ok tt) → temp ≠ sn_storage_dir n → dbs w !! temp = Some db →
  dbs w' = <[sn_storage_dir n := overlay_db db None]> (dbs w).
Proof.
  intros E Hn Hd. unfold replace_db in E. apply st_bind_ok in E as (w1 & [] & H1'%emit_ok & E).
  apply st_bind_ok in E as (w2 & [] & Hc & E). unfold clear_storage in Hc.
  apply st_bind_ok in Hc as (w3 & [] & H3'%emit_ok & Hc). apply st_bind_ok in Hc as (w4 & [] & Hf%on_rescue_ok & Hc).
  apply on_files_ok in Hc as [_ Hc]. injection Hf as Hf.
  assert (Hw2 : dbs w2 = base.delete (sn_storage_dir n) (dbs w)) by (by rewrite Hc, <- Hf, H3', H1').
  apply (dir_copy_ok _ _ db) in E; [|by rewrite Hw2, lookup_delete_ne].
  rewrite E, Hw2, lookup_delete. destruct (decide _); [|done]. by rewrite insert_delete_eq.
Qed.
Lemma replace_all_ok temp db swarm (w w' : world) :
  replace_db_all swarm temp w = (w', Ok tt) → temp ∉ sn_storage_dir <$> swarm → NoDup (sn_storage_dir <$> swarm) →
  dbs w !! temp = Some db →
  (∀ n, n ∈ swarm → dbs w' !! sn_storage_dir n = Some (overlay_db db None)) ∧
  ∀ q, q ∉ sn_storage_dir <$> swarm → dbs w' !! q = dbs w !! q.
Proof.
  unfold replace_db_all. revert w. induction swarm as [|n swarm IH]; intros w; cbn [st_iter].
  { intros [= <-] _ _ _. split; [|done]. by intros n ?%elem_of_nil. }
  intros E [Ht1 Ht2]%not_elem_of_cons [Hn Hnd]%NoDup_cons Hd. apply st_bind_ok in E as (w1 & [] & Hr & E).
  apply (replace_db_ok _ _ db) in Hr; [|done..]. apply IH in E as [Hall Hq]; [|done..|by rewrite Hr, lookup_insert_ne].
  split.
  - intros m [->|Hm]%elem_of_cons; [|by apply Hall]. rewrite Hq, Hr by done. by rewrite lookup_insert, decide_True.
  - intros q [Hq1 Hq2]%not_elem_of_cons. by rewrite Hq, Hr, lookup_insert_ne.
Qed.

(** The file of a node names the waypoint and the blob. *)
Definition patched (wp : Waypoint) (blob : path) (fs : file_system) (n : SwarmNode) : Prop :=
  ∃ out node, fs !! sn_config_path n = Some (File out) ∧ node_config_from_yaml out = Ok node ∧
    nc_waypoint node = FromConfig wp ∧ nc_genesis_file_location node = blob.
Lemma post_rescue_frame c wp blob fs fs' node :
  post_rescue_node_file_updates c wp blob fs = (fs', Ok node) → ∀ q, q ≠ c → fs' !! q = fs !! q.
Proof.
  intros Hp. apply io_bind_ok in Hp as (f1 & s & [-> _]%io_read_ok & Hp). apply io_bind_ok in Hp as (f2 & nc & [-> _]%io_lift_ok & Hp).
  apply io_bind_ok in Hp as (f3 & nc' & [-> _]%io_read_ok & Hp). apply io_bind_ok in Hp as (f4 & out & [-> _]%io_lift_ok & Hp).
  apply io_bind_ok in Hp as (f5 & [] & Hw & [= <- _]). by apply io_write_ok in Hw as [_ Hw].
Qed.
Lemma node_files_ok swarm wp blob (w w' : world) :
  update_node_files swarm wp blob w = (w', Ok tt) → NoDup (sn_config_path <$> swarm) →
  Forall (patched wp blob (fls w')) swarm ∧ dbs w' = dbs w ∧ ∀ q, q ∉ sn_config_path <$> swarm → fls w' !! q = fls w !! q.
Proof.
  unfold update_node_files. revert w. induction swarm as [|n swarm IH]; intros w; cbn [st_iter]; [by intros [= <-]|].
  intros E [Hn Hnd]%NoDup_cons. apply st_bind_ok in E as (w1 & [] & Hu & E). unfold update_node_file in Hu.
  apply st_bind_ok in Hu as (w2 & node & Hu & Hx). injection Hx as ->. apply on_files_ok in Hu as [Hu Hd].
  apply IH in E as (Hall & Hd' & Hq); [|done]. split_and!; [constructor; [|done]|congruence|].
  - pose proof Hu as (s & out & _ & Ho & Hy & Hw & _ & Hb)%post_rescue_ok. exists out, node. by rewrite Hq.
  - intros q [Hq1 Hq2]%not_elem_of_cons. rewrite Hq by done. by apply (post_rescue_frame _ _ _ _ _ _ Hu).
Qed.

Lemma put_on_chain_keeps chain n fs fs' q s :
  put_on_chain chain n fs = (fs', Ok tt) → last q ≠ Some CONFIG_FILE_NAME → fs !! q = Some (File s) → fs' !! q = Some (File s).
Proof.
  intros E Hl Hq. unfold put_on_chain in E. apply io_bind_ok in E as (f1 & d & [-> _]%io_lift_ok & E).
  apply io_bind_ok in E as (f2 & cfg & [-> _]%io_read_ok & E). apply io_bind_ok in E as (f3 & cfg' & [-> _]%io_lift_ok & E).
  unfold io_save in E. destruct (save_file _ fs) as [[p f]|e|m] eqn:Es; [|done..]. injection E as <-.
  apply save_file_ok in Es as (-> & _ & Hk). apply Hk; [|done]. intros ->. apply Hl. unfold path_join. by rewrite last_snoc.
Qed.
Lemma app_cfg_ok swarm (w w' : world) :
  update_app_cfg swarm w = (w', Ok tt) →
  dbs w' = dbs w ∧ ∀ q s, last q ≠ Some CONFIG_FILE_NAME → fls w !! q = Some (File s) → fls w' !! q = Some (File s).
Proof.
  unfold update_app_cfg. revert w. induction swarm as [|n swarm IH]; intros w; cbn [st_iter]; [by intros [= <-]|].
  intros E. apply st_bind_ok in E as (w1 & [] & Hu & E). apply on_files_ok in Hu as [Hu Hd].
  apply IH in E as [Hd' Hk]. split; [congruence|]. intros q s Hl Hq. apply Hk; [done|]. by apply (put_on_chain_keeps _ _ _ _ _ _ Hu).
Qed.
Lemma restart_ok swarm v (w w' : world) : restart_and_verify swarm v w = (w', Ok tt) →
  sw_rescue w' = sw_rescue w ∧ sw_events w' = sw_events w ++ (Started <$> (sn_config_path <$> swarm)).
Proof.
  intros E. unfold restart_and_verify in E. apply st_bind_ok in E as (w1 & [] & Hs & E).
  apply st_bind_ok in E as (w2 & x & [= <- <-] & E). injection E as <- _. by apply start_all_ok.
Qed.

(** The tools beside a node then work on the chain it is put on. *)
Lemma put_on_chain_ok chain n dir cfg fs fs' :
  data_dir n = Ok dir → load (Some (path_join dir CONFIG_FILE_NAME)) fs = Ok cfg → node_home (workspace cfg) = dir →
  put_on_chain chain n fs = (fs', Ok tt) →
  ∃ cfg' np, load (Some (path_join dir CONFIG_FILE_NAME)) fs' = Ok cfg' ∧ default_chain_id (workspace cfg') = chain ∧
    get_network_profile None cfg' = Ok np ∧ chain_name np = chain.
Proof.
  intros Hd Hl Hh E. unfold put_on_chain in E. rewrite Hd in E. apply io_bind_ok in E as (f1 & d & Hx & E).
  apply io_lift_ok in Hx as [-> <-%Ok_inj]. apply io_bind_ok in E as (f2 & c & Hx & E). apply io_read_ok in Hx as [-> Hx].
  rewrite Hl in Hx. apply Ok_inj in Hx as <-. apply io_bind_ok in E as (f3 & cfg1 & Hx & E). apply io_lift_ok in Hx as [-> Hu].
  unfold io_save in E. destruct (save_file _ fs) as [[p f]|e|m] eqn:Es; [|done..]. injection E as <-.
  unfold update_network_profile in Hu. apply bind_ok in Hu as ([] & _ & Hu). apply bind_ok in Hu as (idx & Hi%context_opt_ok & Hu).
  apply Ok_inj in Hu as <-. apply fmap_Some in Hi as ([i np] & Hf & ->). apply list_find_Some in Hf as (Hi & _ & _).
  apply save_file_ok in Es as (-> & Hload & _). cbn [set_chain_id with_playlists workspace node_home] in *. rewrite Hh in Hload.
  set (cfg' := set_chain_id chain _) in *. exists cfg'.
  assert (Hin : ∃ x, x ∈ network_playlist cfg' ∧ chain_name x = chain).
  { exists (mk_playlist chain (nodes np)). split; [|done]. cbn. apply list_elem_of_lookup. exists i. cbn.
    by rewrite list_lookup_alter, decide_True, Hi. }
  destruct Hin as (x & Hx & Hc). destruct (list_find_elem_of (fun each => chain_name each = chain) (network_playlist cfg') x Hx Hc)
    as [[j y] Hj]. exists y. split; [by apply load_saved|]. split; [done|].
  pose proof Hj as (_ & Hy & _)%list_find_Some. split; [|done]. unfold get_network_profile. cbn [workspace default_chain_id cfg' set_chain_id].
  cbn [default from_option]. unfold Datatypes.id.
  destruct (network_playlist cfg') as [|z l] eqn:El; [by apply elem_of_nil in Hx|]. cbn [ensure]. rewrite <- El in *. by rewrite Hj.
Qed.

(** ** The twin *)
(** The databases and the files of the nodes are their own, not below the
    temporary directory, which is new; nor is the reference. *)
Record apart (swarm : list SwarmNode) (temp ref : path) (w : world) : Prop := {
  ref_temp : ¬ temp `prefix_of` ref;
  ref_nodes : ref ∉ sn_storage_dir <$> swarm;
  temp_new : dbs w !! temp = None;
  storages_apart : NoDup (sn_storage_dir <$> swarm);
  storages_temp n : n ∈ swarm → ¬ temp `prefix_of` sn_storage_dir n;
  configs_apart : NoDup (sn_config_path <$> swarm);
  configs_temp n : n ∈ swarm → ¬ temp `prefix_of` sn_config_path n;
  configs_named n : n ∈ swarm → last (sn_config_path n) ≠ Some CONFIG_FILE_NAME
}.

Lemma dropped_db temp (w : world) q : ¬ temp `prefix_of` q → dbs (drop_temp temp w) !! q = dbs w !! q.
Proof.
  intros Hq. cbn. rewrite map_lookup_filter. destruct (dbs w !! q) as [x|]; [|done]. cbn.
  rewrite option_guard_True; [done|]. unfold below. by apply bool_decide_eq_false.
Qed.
Lemma dropped_file temp (w : world) q : ¬ temp `prefix_of` q → fls (drop_temp temp w) !! q = fls w !! q.
Proof.
  intros Hq. cbn. rewrite map_lookup_filter. destruct (fls w !! q) as [x|]; [|done]. cbn.
  rewrite option_guard_True; [done|]. unfold below. by apply bool_decide_eq_false.
Qed.
Lemma dropped_below temp (w : world) q : temp `prefix_of` q → fls (drop_temp temp w) !! q = None.
Proof.
  intros Hq. cbn. rewrite map_lookup_filter. destruct (fls w !! q) as [x|]; [|done]. cbn.
  rewrite option_guard_False; [done|]. unfold below. by rewrite bool_decide_eq_true_2.
Qed.

Lemma make_twin_steps swarm temp creds ref mrb :
  steps (adds calm) (make_twin swarm temp creds (Some ref) mrb) ∧
  (temp ≠ ref → ref ∉ sn_storage_dir <$> swarm → steps (same_db ref) (make_twin swarm temp creds (Some ref) mrb)).
Proof.
  unfold make_twin. split.
  - apply steps_bind; [apply _|apply steps_lift; apply _|intros d]. apply steps_bind; [apply _|apply calm_copy|intros []].
    apply steps_bind; [apply _|apply calm_rescue|intros [wp blob]]. apply steps_bind; [apply _|apply calm_replace|intros []].
    apply steps_bind; [apply _|apply calm_node_files|intros []]. apply calm_cfg.
  - intros Ht Hr. apply steps_bind; [apply _|apply steps_lift; apply _|intros d].
    apply steps_bind; [apply _|by apply same_dir_copy|intros []].
    apply steps_bind; [apply _|by apply same_rescue_copy|intros [wp blob]].
    apply steps_bind; [apply _|by apply same_replace_db|intros []].
    apply steps_bind; [apply _| |intros []]; (apply steps_iter; [apply _|]; intros n); [unfold update_node_file; st_steps|].
    apply same_on_files.
Qed.

(** What a made twin is, its files before the temporary directory goes *)
Definition twin_made (swarm : list SwarmNode) (temp ref : path) (mrb : option path) (creds : list ValCredentials) (w w' : world) : Prop :=
  ∃ db0 view fs cs wp db', dbs w !! ref = Some db0 ∧
    latest_view (overlay_db db0 None) = Ok view ∧
    register_and_replace_validators_changeset view fs creds mrb None = Ok cs ∧
    calculate_genesis (overlay_db db0 None) (GenesisTransaction (WsDirect cs)) = Ok (wp, Ok db') ∧
    ∀ n, n ∈ swarm → dbs w' !! sn_storage_dir n = Some (overlay_db db' None) ∧
      patched wp (path_join temp REPLACE_VALIDATORS_BLOB) (fls w') n.
Lemma make_twin_ok swarm temp creds ref mrb (w w' : world) :
  apart swarm temp ref w → make_twin swarm temp creds (Some ref) mrb w = (w', Ok tt) → twin_made swarm temp ref mrb creds w w'.
Proof.
  intros Ha E. unfold make_twin in E. apply st_bind_ok in E as (w1 & d & Hd & E). injection Hd as <- <-.
  apply st_bind_ok in E as (w2 & [] & Hc & E). apply st_bind_ok in E as (w3 & [wp blob] & Hr & E).
  apply rescue_copy_ok in Hr as (-> & db & view & cs & db' & Hdb & Hv & Hcs & Hcg & Hw3).
  destruct (dbs w !! ref) as [db0|] eqn:Hdb0.
  2:{ rewrite (dir_copy_src _ _ _ _ Hc Hdb0), (temp_new _ _ _ _ Ha) in Hdb. done. }
  rewrite (dir_copy_ok _ _ _ _ _ Hc Hdb0), lookup_insert, decide_True, (temp_new _ _ _ _ Ha) in Hdb by done.
  injection Hdb as <-. apply st_bind_ok in E as (w4 & [] & Hall & E). apply st_bind_ok in E as (w5 & [] & Hn & E).
  assert (Ht : temp ∉ sn_storage_dir <$> swarm).
  { intros (n & -> & Hn')%list_elem_of_fmap. by apply (storages_temp _ _ _ _ Ha n Hn'). }
  apply (replace_all_ok _ db') in Hall as [Hall _]; [|done|apply Ha|by rewrite Hw3, lookup_insert, decide_True].
  apply node_files_ok in Hn as (Hp & Hw5 & _); [|apply Ha]. apply app_cfg_ok in E as [Hw' Hk].
  exists db0, view, (fls w2), cs, wp, db'. split_and!; try done. intros n Hin. rewrite Hw', Hw5. split; [by apply Hall|].
  rewrite Forall_forall in Hp. destruct (Hp n Hin) as (out & node & Ho & Hrest). exists out, node.
  split; [|done]. by apply Hk; [apply (configs_named _ _ _ _ Ha)|].
Qed.

(** Calm events and then awakenings *)
Definition phases (w w' : world) : Prop := ∃ l1 l2, sw_events w' = sw_events w ++ l1 ++ l2 ∧ Forall calm l1 ∧ Forall waking l2.
Lemma phases_bind {A B : Type} (m : st world A) (f : A → st world B) :
  steps (adds calm) m → (∀ a, steps phases (f a)) → steps phases (m ≫= f).
Proof.
  intros Hm Hf w. specialize (Hm w). unfold mbind, st_bind. destruct (m w) as [w1 [a|e|p]]; cbn [fst] in *;
    [|destruct Hm as (l & E & Hl); exists l, []; by rewrite app_nil_r..].
  destruct Hm as (l & E & Hl). destruct (Hf a w1) as (l1 & l2 & E2 & H1' & H2'). exists (l ++ l1), l2.
  split_and!; [by rewrite E2, E, !app_assoc|by apply Forall_app|done].
Qed.
Lemma phases_waking {A : Type} (m : st world A) : steps (adds waking) m → steps phases m.
Proof. intros Hm w. destruct (Hm w) as (l & E & Hl). by exists [], l. Qed.

(** What is left of a call: nothing has happened, or the processes are stopped
    and the rest has run. *)
Definition twin_rest (swarm : list SwarmNode) (temp ref : path) (mrb : option path) (creds : list ValCredentials) (v : Z)
    : st world (list TestInfo) :=
  _ ← on_files (io_update (create_dir_all temp));
  _ ← make_twin swarm temp creds (Some ref) mrb;
  _ ← restart_and_verify swarm v;
  st_lift (from_smoke swarm).
Definition all_stopped (swarm : list SwarmNode) (w : world) : world :=
  mk_swarm (sw_rescue w) (sw_events w ++ (Stopped <$> (sn_config_path <$> swarm))).
Lemma awake_run swarm temp ref mrb (w w' : world) r :
  awake_frankenswarm swarm temp (Some ref) mrb w = (w', r) →
  w' = w ∧ is_ok r = false ∨
  ∃ creds v wt, collect_validator_credentials swarm (fls w) = Ok creds ∧
    twin_rest swarm temp ref mrb creds v (all_stopped swarm w) = (wt, r) ∧ w' = drop_temp temp wt.
Proof.
  intros E. unfold awake_frankenswarm in E. unfold mbind at 1, st_bind at 1 in E.
  unfold on_files at 1, on_rescue at 1, files at 1, io_read at 1 in E.
  destruct (collect_validator_credentials _ _) as [creds|e|m]; [|injection E as <- <-; left; by destruct w as [[] ]..].
  unfold mbind at 1, st_bind at 1, st_lift at 1 in E.
  destruct (expect_res _ _) as [v|e|m]; [|injection E as <- <-; left; by destruct w as [[] ]..].
  unfold mbind at 1, st_bind at 1 in E. rewrite stop_all_run in E. unfold with_temp in E. right. exists creds, v.
  fold (twin_rest swarm temp ref mrb creds v) in E.
  replace (mk_swarm (sw_rescue _) _) with (all_stopped swarm w) in E by by destruct w as [[]].
  destruct (twin_rest _ _ _ _ _ _ _) as [wt rt]. injection E as <- <-. by exists wt.
Qed.
Lemma rest_phases swarm temp ref mrb creds v : steps phases (twin_rest swarm temp ref mrb creds v).
Proof.
  unfold twin_rest. apply phases_bind; [apply adds_rescue|intros []]. apply phases_bind; [apply make_twin_steps|intros []].
  apply phases_waking. apply steps_bind; [apply _|apply waking_restart|intros []]. apply steps_lift. apply _.
Qed.
Lemma rest_reference swarm temp ref mrb creds v :
  temp ≠ ref → ref ∉ sn_storage_dir <$> swarm → steps (same_db ref) (twin_rest swarm temp ref mrb creds v).
Proof.
  intros Ht Hr. unfold twin_rest. apply steps_bind; [apply _|apply same_on_files|intros []].
  apply steps_bind; [apply _|by apply make_twin_steps|intros []]. apply steps_bind; [apply _|apply same_restart|intros []].
  apply steps_lift. apply _.
Qed.
Lemma rest_ok swarm temp ref mrb creds v (w wt : world) infos :
  apart swarm temp ref w → twin_rest swarm temp ref mrb creds v (all_stopped swarm w) = (wt, Ok infos) →
  from_smoke swarm = Ok infos ∧ twin_made swarm temp ref mrb creds w (drop_temp temp wt) ∧
  ∃ l, sw_events wt = sw_events (all_stopped swarm w) ++ l ++ (Started <$> (sn_config_path <$> swarm)) ∧ Forall calm l.
Proof.
  intros Ha E. unfold twin_rest in E. apply st_bind_ok in E as (w1 & [] & Hc & E).
  pose proof (adds_rescue calm (files (io_update (create_dir_all temp))) (all_stopped swarm w)) as (l1 & E1 & Hl1).
  unfold on_files in Hc. rewrite Hc in E1. fold (on_files (Db := Db) (io_update (create_dir_all temp))) in Hc. apply on_files_ok in Hc as [_ Hc].
  apply st_bind_ok in E as (w2 & [] & Hm & E). pose proof (proj1 (make_twin_steps swarm temp creds ref mrb) w1) as (l2 & E2 & Hl2).
  rewrite Hm in E2. assert (Ha1 : apart swarm temp ref w1) by (destruct Ha; split; [done..| |done|done|done|done|done]; by rewrite Hc).
  apply make_twin_ok in Hm; [|done]. apply st_bind_ok in E as (w3 & [] & Hr & E). injection E as -> E. apply restart_ok in Hr as [Hr He].
  split; [done|]. split; [|exists (l1 ++ l2); cbn [fst] in *; by rewrite He, E2, E1, !app_assoc, Forall_app].
  destruct Hm as (db0 & view & fs & cs & wp & db' & Hdb & Hv & Hcs & Hcg & Hall). exists db0, view, fs, cs, wp, db'.
  rewrite Hc in Hdb. split_and!; try done. intros n Hn. destruct (Hall n Hn) as [Hd (out & node & Ho & Hnode)]. split.
  - rewrite dropped_db by by apply (storages_temp _ _ _ _ Ha). by rewrite Hr.
  - exists out, node. rewrite dropped_file by by apply (configs_temp _ _ _ _ Ha). by rewrite Hr.
Qed.

End lemmas.

(** ** Witness: two nodes *)
Definition swarm_dir (i : string) : path := ["swarm"; i]%string.
Definition swarm_node (i : string) (a : AccountAddress) : SwarmNode :=
  mk_swarm_node a (Some a) (swarm_dir i ++ ["node.yaml"%string]) (swarm_dir i ++ ["db"%string]) ("http://" +:+ i)%string.
Definition two_nodes : list SwarmNode := [swarm_node "0" addr_ONE; swarm_node "1" addr_ZERO].
Definition temp_dir : path := ["tmp"; "x"]%string.
#[local] Instance swarm_rescue : RescueCrates twin_log unit Z := log_rescue (path_join temp_dir REPLACE_VALIDATORS_BLOB).
#[local] Instance swarm_harness : SwarmCrates twin_log.
Proof.
  refine {|
    node_client _ := sample_node (fun _ => inl [JString "0x01"; JString "0x02"; JString "0x03"]%string) (fun _ => inl None);
    public_identity_from_yaml s := if String.eqb s "identity" then Ok (Some [9], Some "01"%string) else Err "bad"%string;
    newest_ledger_version _ := Ok 40;
    clear_node_files _ := mret tt;
    start_process n w := if rw_dbs w !! sn_storage_dir n then Ok tt else Err "no database"%string;
    wait_for_version _ _ v := ensure (v =? 50) "timeout";
    url_host u := strip_prefix "http://" u;
    url_port _ := Some 8080;
    host_and_port_from_str s := Ok (mk_host s 8080)
  |}.
  done.
Defined.
Definition node_cfg (dir : path) : AppCfg := mk_cfg (mk_workspace None TESTING dir) [] [mk_playlist TESTING []] tx_configs_default.
Definition node_files (i : string) : list (path * node) :=
  [(swarm_dir i, Dir); (swarm_dir i ++ ["node.yaml"%string], File "base"); (swarm_dir i ++ ["public-identity.yaml"%string], File "identity");
   (path_join (swarm_dir i) CONFIG_FILE_NAME, File (cfg_to_yaml (node_cfg (swarm_dir i))))].
Definition swarm_start : swarm_world twin_log :=
  mk_swarm (mk_rescue {[ ref_db := old_log; swarm_dir "0" ++ ["db"%string] := []; swarm_dir "1" ++ ["db"%string] := [] ]}
    (list_to_map ((path_join alice_home "validator-identity.yaml", File "id") :: (["head.mrb"%string], File "framework")
       :: node_files "0" ++ node_files "1"))) [].
Definition swarm_run : swarm_world twin_log * outcome (list TestInfo) :=
  awake_frankenswarm two_nodes temp_dir (Some ref_db) (Some ["head.mrb"%string]) swarm_start.

Lemma two_apart : apart two_nodes temp_dir ref_db swarm_start.
Proof.
  assert (Hn : ∀ n, n ∈ two_nodes → n = swarm_node "0" addr_ONE ∨ n = swarm_node "1" addr_ZERO).
  { intros n [->|[->|[]%elem_of_nil]%elem_of_cons]%elem_of_cons; auto. }
  split.
  - by intros [k Hk].
  - by intros [|[|[]%elem_of_nil]%elem_of_cons]%elem_of_cons.
  - vm_compute. reflexivity.
  - apply (bool_decide_unpack _). vm_compute. done.
  - by intros n [->| ->]%Hn [k Hk].
  - apply (bool_decide_unpack _). vm_compute. done.
  - by intros n [->| ->]%Hn [k Hk].
  - by intros n [->| ->]%Hn.
Qed.
