(* ===== verification/MainCli.v ===== *)
(** * tools/cli/src: the `libra` command

    main.rs, node_cli.rs, ops_cli.rs and move_cli.rs: which tool runs, what is
    printed of its error and the status the process ends with.  Here a tool is
    its [run] on a state that all tools share; the runs themselves are the
    subject of the files of the tools. *)
From Stdlib Require Import ZArith Lia.
From stdpp Require Import base option list strings gmap.
From S2P Require Import Prelude RustStr Effects FileSystem MoveTypes Recovery Wallet NetworkPlaylist AppCfg.

Open Scope list_scope.
Open Scope Z_scope.

(** A call that returns, or [process::exit] *)
Inductive ended := Returned | Exited (code : Z).

(** The process: the state of the tools, what is printed on the two streams, and
    the variable RUST_LOG *)
Record process (St : Type) := mk_process {
  pr_tools : St;
  pr_out : list string;
  pr_err : list string;
  pr_rust_log : option string
}.
Arguments mk_process {St} _ _ _ _.
Arguments pr_tools {St} _.
Arguments pr_out {St} _.
Arguments pr_err {St} _.
Arguments pr_rust_log {St} _.

Definition no_config : string := "ERROR: you have no node *.yaml configured in the default directory $HOME/.libra/".
Definition using_profile (kind : string) (p : path) : string :=
  "Using " +:+ kind +:+ " profile at /" +:+ join "/" p +:+
  ". If this is not what you expected explicitly set it with --config-path <path>".
Definition failed (tool e : string) : string := "Failed to execute " +:+ tool +:+ " tool, message: " +:+ e.

(** ** The commands *)
Record NodeCli := mk_node_cli { config_path : option path }.
Inductive OpsTool (Genesis Storage Rescue Testnet : Type) :=
| OpsGenesis (genesis_cli : Genesis)
| OpsStorage (storage_cli : Storage)
| OpsRescue (rescue_cli : Rescue)
| OpsTestnet (testnet_cli : Testnet).
Arguments OpsGenesis {_ _ _ _} _.
Arguments OpsStorage {_ _ _ _} _.
Arguments OpsRescue {_ _ _ _} _.
Arguments OpsTestnet {_ _ _ _} _.
(** [MoveVendor]: the four commands of the vendor's Move tool *)
Inductive MoveTool (Framework Vendor : Type) :=
| MoveFramework (tool : Framework)
| MoveVendor (tool : Vendor).
Arguments MoveFramework {_ _} _.
Arguments MoveVendor {_ _} _.

(** What a tool is to the dispatch: its [run] *)
Class Tool (St T : Type) := run : T → st St unit.

Section main.
Context {St NodeFile Config Query Txs Wallet_ Genesis Storage Rescue Testnet Framework Vendor : Type}.
Context `{!Tool St Config, !Tool St Query, !Tool St Txs, !Tool St Wallet_, !Tool St Genesis, !Tool St Storage, !Tool St Rescue}.
Context `{!Tool St Testnet, !Tool St Framework, !Tool St Vendor, AppCfgEnv}.
(** The files; the configuration of a node from its file, and the node, which
    does not return while it runs; the lines of the version *)
Context (files_of : St → file_system) (load_from_path : path → file_system → outcome NodeFile).
Context (node_start : NodeFile → st St unit) (version_lines : list string).

Inductive Sub :=
| SubConfig (config_cli : Config)
| SubMove (move_tool : MoveTool Framework Vendor)
| SubNode (n : NodeCli)
| SubQuery (query_cli : Query)
| SubTxs (txs_cli : Txs)
| SubWallet (wallet_cli : Wallet_)
| SubOps (tool : OpsTool Genesis Storage Rescue Testnet)
| SubVersion.
Record LibraCli := mk_libra { command : option Sub; swarm_config : option path }.

Notation proc := (process St).

Definition on_tools {A : Type} (m : st St A) : st proc A := fun w =>
  let '(s, r) := m (pr_tools w) in (mk_process s (pr_out w) (pr_err w) (pr_rust_log w), r).
Definition println (line : string) : st proc unit := fun w =>
  (mk_process (pr_tools w) (pr_out w ++ [line]) (pr_err w) (pr_rust_log w), Ok tt).
Definition eprintln (line : string) : st proc unit := fun w =>
  (mk_process (pr_tools w) (pr_out w) (pr_err w ++ [line]) (pr_rust_log w), Ok tt).

(** ** node_cli.rs *)
Definition find_a_config : st proc path :=
  w ← st_get;
  let fs := files_of (pr_tools w) in
  let val_file := path_join global_config_dir "validator.yaml" in
  let fn_file := path_join global_config_dir "fullnode.yaml" in
  if exists_ val_file fs then _ ← println (using_profile "validator" val_file); mret val_file
  else if exists_ fn_file fs then _ ← println (using_profile "fullnode" fn_file); mret fn_file
  else st_lift (Err no_config).
Definition default_rust_log : st proc unit := fun w =>
  (mk_process (pr_tools w) (pr_out w) (pr_err w) (Some (default "warn"%string (pr_rust_log w))), Ok tt).
Definition node_run (self : NodeCli) : st proc unit :=
  _ ← default_rust_log;
  p ← match config_path self with
      | Some p => mret p
      | None => st_result (expect_res "no config") find_a_config
      end;
  w ← st_get;
  config ← st_lift (context_res "Failed to load the node config file!" (load_from_path p (files_of (pr_tools w))));
  st_result (expect_res "Node should start correctly") (on_tools (node_start config)).

(** [if let Err(e) = tool.run() { eprintln!(..) }] *)
Definition reported {T : Type} `{Tool St T} (name : string) (tool : T) : st proc ended :=
  r ← attempt (on_tools (run tool));
  match r with
  | Err e => _ ← eprintln (failed name e); mret Returned
  | _ => mret Returned
  end.

(** ** ops_cli.rs *)
Definition ops_run (self : OpsTool Genesis Storage Rescue Testnet) : st proc ended :=
  match self with
  | OpsGenesis genesis_cli => reported "genesis" genesis_cli
  | OpsStorage storage_cli => reported "genesis" storage_cli
  | OpsRescue rescue_cli => reported "genesis" rescue_cli
  | OpsTestnet testnet_cli => reported "testnet" testnet_cli
  end.

(** ** move_cli.rs *)
Definition move_execute (self : MoveTool Framework Vendor) : st proc ended :=
  match self with
  | MoveFramework tool => _ ← on_tools (run tool); mret Returned
  | MoveVendor tool =>
      r ← attempt (on_tools (run tool));
      mret (if is_ok r then Returned else Exited 1)
  end.

(** ** main.rs *)
Definition main (cli : LibraCli) : st proc ended :=
  match swarm_config cli with
  | Some p => _ ← node_run (mk_node_cli (Some p)); mret (Exited 0)
  | None =>
      match command cli with
      | Some (SubNode n) => _ ← node_run n; mret Returned
      | Some (SubConfig config_cli) => reported "config" config_cli
      | Some (SubMove move_tool) =>
          r ← attempt (move_execute move_tool);
          match r with
          | Ok e => mret e
          | Err e => _ ← eprintln (failed "move" (failed "move" e)); mret Returned
          | Panic m => st_lift (Panic m)
          end
      | Some (SubQuery query_cli) => reported "query" query_cli
      | Some (SubTxs txs_cli) => reported "txs" txs_cli
      | Some (SubWallet wallet_cli) => reported "wallet" wallet_cli
      | Some (SubOps tool) => ops_run tool
      | Some SubVersion => _ ← st_iter println version_lines; mret Returned
      | None => _ ← println "living is easy with eyes closed"; mret Returned
      end
  end.

(** The status of the process *)
Definition exit_status (r : outcome ended) : Z :=
  match r with
  | Ok Returned => 0
  | Ok (Exited code) => code
  | Err _ => 1
  | Panic _ => 101
  end.

(** ** Lemmas *)

(** The state that a tool leaves is what the process leaves; an error of the
    tool is a line printed, and the status is that of success. *)
Lemma tool_reported {T : Type} `{Tool St T} (name : string) (tool : T) (w : proc) :
  let '(s, r) := run tool (pr_tools w) in
  let '(w', r') := reported name tool w in
  pr_tools w' = s ∧ pr_out w' = pr_out w ∧
  match r with
  | Ok _ => r' = Ok Returned ∧ pr_err w' = pr_err w
  | Err e => r' = Ok Returned ∧ pr_err w' = pr_err w ++ [failed name e]
  | Panic m => r' = Panic m ∧ pr_err w' = pr_err w
  end.
Proof.
  unfold reported, mbind, st_bind, attempt, on_tools. by destruct (run tool (pr_tools w)) as [s [[]|e|m]].
Qed.
Lemma reported_status {T : Type} `{Tool St T} (name : string) (tool : T) (w : proc) :
  exit_status (snd (reported name tool w)) = match snd (run tool (pr_tools w)) with Panic _ => 101 | _ => 0 end.
Proof.
  pose proof (tool_reported name tool w) as Hr. destruct (run tool (pr_tools w)) as [s r]. destruct (reported name tool w) as [w' r'].
  cbn [snd]. destruct Hr as (_ & _ & Hr). destruct r as [u|e|m]; by destruct Hr as [-> _].
Qed.

Lemma println_all lines (w : proc) :
  st_iter println lines w = (mk_process (pr_tools w) (pr_out w ++ lines) (pr_err w) (pr_rust_log w), Ok tt).
Proof.
  revert w. induction lines as [|x l IH]; intros [s o e v]; cbn [st_iter]; [by rewrite app_nil_r|].
  unfold mbind, st_bind, println at 1. cbn [pr_tools pr_out pr_err pr_rust_log]. rewrite IH. cbn. by rewrite <- app_assoc.
Qed.

(** The command of a node and the vendor's Move tool apart, the process ends with
    the status of success unless it panics, whatever error its tool gives. *)
Lemma main_succeeds cli (w : proc) :
  swarm_config cli = None → (∀ n, command cli ≠ Some (SubNode n)) → (∀ t, command cli ≠ Some (SubMove (MoveVendor t))) →
  exit_status (snd (main cli w)) = 0 ∨ ∃ m, snd (main cli w) = Panic m.
Proof.
  intros Hs Hn Hm. unfold main. rewrite Hs.
  assert (Hrep : ∀ T (I : Tool St T) name (t : T),
    exit_status (snd (reported name t w)) = 0 ∨ ∃ m, snd (reported name t w) = Panic m).
  { intros T I name t. pose proof (tool_reported name t w) as Hr.
    destruct (run t (pr_tools w)) as [s r]. destruct (reported name t w) as [w' r']. cbn [snd] in *.
    destruct r as [u|e|m]; destruct Hr as (_ & _ & -> & _); [by left|by left|right; by exists m]. }
  destruct (command cli) as [[c|[f|v]|n|q|t|wl|o|]|]; [by apply Hrep| | | |by apply Hrep|by apply Hrep|by apply Hrep| | |by left].
  - unfold mbind, st_bind, attempt, move_execute, on_tools. unfold mbind, st_bind.
    destruct (run f (pr_tools w)) as [s [u|e|m]]; [by left|by left|right; by exists m].
  - by destruct (Hm v).
  - by destruct (Hn n).
  - destruct o; apply Hrep.
  - left. unfold mbind, st_bind. by rewrite println_all.
Qed.

(** The configuration of a validator comes before that of a full node. *)
Lemma find_a_config_spec (w w' : proc) p : find_a_config w = (w', Ok p) →
  p = path_join global_config_dir "validator.yaml" ∨
  p = path_join global_config_dir "fullnode.yaml" ∧
  exists_ (path_join global_config_dir "validator.yaml") (files_of (pr_tools w)) = false.
Proof.
  intros E. unfold find_a_config in E. apply st_bind_ok in E as (w1 & x & [= <- <-] & E).
  destruct (exists_ (path_join global_config_dir "validator.yaml") _) eqn:Ev.
  - apply st_bind_ok in E as (w2 & [] & _ & E). injection E as _ <-. by left.
  - destruct (exists_ (path_join global_config_dir "fullnode.yaml") _); [|done]. apply st_bind_ok in E as (w2 & [] & _ & E). injection E as _ <-. by right.
Qed.
End main.
